(* ===== verification/_CoqProject ===== *)
-Q . S2P
Prelude.v
Il.v
Interp.v
Expr.v
Compiler.v
Evaluator.v
BuilderFacts.v
CompilerSpec.v
MachineFacts.v
InstrFacts.v
InterpFacts.v
GenFacts.v
CodeFacts.v
CompilerCorrect.v
IlProps.v
CompilerProps.v
ExprFacts.v
ExprProps.v
Findings.v
MemQuota.v
MemQuotaFacts.v
MemQuotaProps.v
VizData.v
VizRuntime.v
VizFacts.v
VizFile.v
VizFS.v
VizFSFacts.v
VizFSInv.v
VizFSPaths.v
VizStream.v
VizStreamFacts.v
VizTtyFacts.v
VizSysFacts.v
VizTransfer.v
VizFSProps.v
VizMemory.v
VizPng.v
VizEnv.v
VizCcall.v
VizCcallFacts.v
VizColors.v
VizEntities.v
VizInt64.v
VizInt64Facts.v
VizDivision.v
VizLibc.v
VizLibcFacts.v
VizLookup.v
VizLookupFacts.v
VizJump.v
VizJumpProps.v
VizShellProps.v
VizText.v
VizTextFacts.v
VizLife.v
VizLifeFacts.v
VizObjProps.v
VizLoop.v
VizLoopFacts.v
VizLoopProps.v
VizConf.v
VizAlloc.v
VizSetjmp.v
VizBuf.v
VizBufFacts.v
VizBufProps.v
VizQueue.v
VizUnion.v
VizNodes.v
VizStat.v
VizStatFacts.v
VizNodefs.v
VizNodefsFacts.v
VizImage.v
VizPreload.v
VizProps.v
