(* ===== verification/Prelude.v ===== *)
(** * A verification of the Istio Mixer core and of its service graph viewer

    Mixer evaluates expressions over the attributes of a request, compiled to
    an intermediate language, and hands the results to adapters, among them the
    in-memory quota adapter.  Its service graph example draws the mesh in a
    browser with [viz-lite.js], a JavaScript runtime around Graphviz.  This
    library models these parts from the sources and proves what makes them
    correct.

    ** The parts and their files

    Shared: [Prelude] (fixed-width integers with their wrap-around, the outcome
    type [go] of a call that returns, returns an error or panics, slices
    indexed by [Z], the hint databases [mixer] and [zlist] and the tactics
    [width] and [msimpl]).

    The expression path, [src/pkg/expr] and [src/pkg/il]:
    - [Il]: opcodes, types, encodings, string table, function table, program
      and builder ([opcode.go], [types.go], [convert.go], [strings.go],
      [function.go], [program.go], [builder.go]);
    - [Interp]: the stack machine, one definition per case of [run]
      ([interpreterRun.go], [stackFrame.go], [result.go], [extern.go]);
    - [Expr]: the expression tree, its construction, the type checker, the
      tree-walking evaluator and the extraction of equality matches
      ([expr.go], [func.go]);
    - [Compiler]: the code generator ([compiler.go]);
    - [Evaluator]: the externs, the binding of a compiled expression and its
      evaluation ([evaluator.go]).
    They interact as in the code: the evaluator compiles, the compiler drives
    the builder, the interpreter runs the linked words with the externs.

    The quota adapter, [src/adapter/memquota]: [MemQuota] (rolling windows,
    cells, keys, deduplication, the handler and its builder).

    The viewer, [src/example/servicegraph/js/viz/viz-lite.js]:
    - [VizRuntime]: UTF-8 conversion, path functions, the name hash, integer
      helpers, stack allocation, memory sizing, the entry points [Viz] and
      [render] on strings;
    - [VizCcall]: strings in memory, [ccall] and [render] on the memory;
    - [VizPng]: images from SVG, with callbacks and events;
    - [VizEnv]: environment variables and their layout in memory;
    - [VizData], [VizMemory]: the sixteen static segments, byte by byte, and
      the calls that load them; [VizColors] and [VizEntities] read the tables
      the object code searches there;
    - [VizFile]: the contents of in-memory files (the object [K] and its [n]);
    - [VizFS]: nodes, the hash table of names, path resolution, links, mounting
      (with [/proc/self/fd], whose lookup gives the open descriptors),
      creation, removal, descriptors, opening, and the start-up;
    - [VizStream]: terminals and the system calls;
    - [VizLife]: the queues of callbacks, start, run, exit and abort ([Qa],
      [qd], [pd], [v]); [VizLoop]: the main loop ([Hc], [Ac], [Oc], pausing and
      resuming); [VizConf]: error numbers, their texts and [_sysconf];
    - [VizInt64], [VizLibc], [VizLookup], [VizJump], [VizText]: functions of the
      object code: 64-bit integers on pairs of words ([vB] to [MB]), memory and
      string functions and binary search ([AB] to [Zz]), the lookup of colours
      and character entities in the static tables ([Ov], [Dt]), non-local jumps
      ([xB], [zB], [pc] and the wrappers [invoke_...]) and the conversion of
      label text to UTF-8 ([ft], [gt]);
    - [VizAlloc], [VizBuf], [VizQueue], [VizUnion], [VizNodes], [VizImage]: data
      structures of the object code: what its clients rely on of [malloc],
      [realloc] and [free] (the class [Allocator], with an instance) and the
      wrappers of [utilities] ([$p], [aq], [bq], [cq]); growing byte buffers ([gj]
      to [lj]); ring queues ([Cs] to [Fs]); union-find of the ranking phase ([Bh],
      [Rh], [Qh]); linked lists of nodes and arrays of edges ([ig], [jg], [kg],
      [cg]); the sizes of image files ([Bn], [Cn] and cases of [zn], over the class
      [ByteStream] for [getc], [feof] and [fseek]);
    - [VizPreload]: which files the preload plugins take ([Tc]), their types ([Yc])
      and the base64 text of sounds;
    - [VizStat]: [stat] and [fstat] ([hc]), with the nodes their errors carry;
      [VizNodefs]: the file system of Node.js (the object [M]), over the functions
      of its module [fs].
    Minified names are kept, so that a definition and its function can be read
    side by side.

    ** What is proved

    - The compiled path ([BuilderFacts], [CompilerSpec], [MachineFacts],
      [InstrFacts], [GenFacts], [CodeFacts], [CompilerCorrect]; theorems in
      [CompilerProps] and [IlProps]): the builder refines symbolic assembly;
      compiling, linking and running an expression gives exactly the outcome
      of a reference semantics, errors included; results have the checked
      type; the compiler accepts what it should; linking relocates exactly the
      addresses and refuses truncated bodies; strings keep the ids they were
      given, and scalars round-trip.
    - The machine ([InterpFacts], [IlProps]): any run, of any words, keeps
      every pointer in its array; integers wrap at 64 bits; fuel only bounds
      the observation of a run.
    - The tree-walking evaluator ([ExprFacts], [ExprProps]): type soundness,
      agreement with the compiled evaluator, soundness of extracted matches,
      ranges of constants.
    - The quota adapter ([MemQuotaFacts], [MemQuotaProps]): a rolling window
      refines a log of consumption per tick and, through any allocations and
      releases, never has more than its limit out in any window; cells conserve;
      deduplication repeats answers, whatever comes between, until the second
      reap; the handler always finds its limits.
    - The viewer ([VizFacts], [VizProps]): UTF-8 round trip; normal forms of
      paths; integer helpers equal their mathematical functions; alignment
      and memory sizing; the static tables are where and what the object code
      expects (sorted, terminated names).
    - The object code ([VizInt64Facts], [VizDivision], [VizLibcFacts],
      [VizLookupFacts], [VizTextFacts]; theorems in [VizObjProps]): arithmetic
      modulo 2^64 and both divisions; copies of overlapping blocks; string
      lengths and comparisons; the searches find exactly the names of the
      static tables; the scan of an entity in memory refines one on text, and
      what bytes labels become, which are UTF-8 but for the values named there;
      [longjmp] returns to [setjmp] ([VizJumpProps], [VizSetjmp]), over any
      allocator of the class.
    - Its data structures, for any allocator of the class ([VizBufFacts],
      [VizBufProps], [VizQueue], [VizUnion], [VizNodes]): a buffer is the list of
      the bytes put into it, however often it moves, and so the labels above are
      built in memory; a queue is first in, first out; union-find keeps the sets,
      and ends; the lists stay doubly linked; all leave the memory others hold
      alone and give their blocks back.  Image sizes are those of the headers
      ([VizImage]).  The base64 text of a sound decodes to its bytes, and files that
      are taken have a type ([VizPreload]).
    - The runtime's life ([VizLifeFacts], [VizObjProps]): every queued callback
      is called, also when callbacks queue more; initialisation happens at most
      once whatever callbacks do, running the program themselves included (they
      are code over the runtime's functions there, [VizLifeFacts.code]).  Its main
      loop ([VizLoopFacts], [VizLoopProps]): one loop at a time, and a call at
      every due frame.
    - The calls of the object code ([VizCcallFacts], [VizShellProps]): strings
      fit where they are put and are read back; [ccall] hands them over and
      restores the stack, so [render] on memory refines [render] on strings for
      any object code that keeps the interface [VizCcallFacts.Graphviz] in the
      memory of a fresh module, where it may also throw; every
      image event is reported once; the environment is laid out as C expects it
      and read back.
    - Its file system ([VizFSFacts], [VizFSInv], [VizFSPaths], [VizStreamFacts],
      [VizTtyFacts], [VizSysFacts], [VizTransfer]; theorems in [VizFSProps]): an
      invariant of every state any sequence of system calls reaches; the hash
      buckets implement a map and directories agree with it; files implement
      sequences of bytes; created entries are found, removed ones are gone and
      nothing else changes; descriptors are the smallest free ones; a file
      written under a path is read back under it; text is printed by lines; no
      engine exception escapes a call on a descriptor but for seeks past 32 bits,
      which abort; [stat] fills its record or
      leaves memory alone ([VizStatFacts]).  On Node.js a node stands for the file
      at the names that lead to it ([VizNodefsFacts]).
    - [Findings] and the ends of [MemQuotaProps], [VizFSProps], [VizShellProps],
      [VizLoopProps], [VizObjProps], [VizNodefsFacts], [VizImage] and [VizPreload]
      run the model where the code does not do what it says; so do [pop_returns_next_byte], [zmalloc_exhausted]
      and [Es_full].

    ** Bounds and fuel

    - The interpreter takes fuel; theorems about results are of the form
      "some bound is enough, and any larger fuel gives the same".
    - The reference semantics is compared for expressions that need at most 64
      stack words and 63 heap cells, the sizes of the machine.
    - Loops along a hash bucket and along parents are bounded by the number of
      node ids: ids decrease along both, which the invariant proves, so the
      bound is never met.
    - [VizFS.Q] takes the number of nested calls the engine's stack allows;
      theorems hold for every such number, and running out of it is the
      engine's own exception.  The start-up needs 3.
    - Loops of the object code that end at a zero byte take fuel; more than the
      length of the string is enough.  Loops over a count run on it.
    - [VizUnion.Bh] takes fuel for its recursion; the number of nodes is enough.
      [VizNodes.kg] takes the length of the list.
    - Buffers and queues are given the room they may take in the allocator, as a
      bound on what is left ([ops_room] for a sequence of operations).
    - [VizLife.Qa] takes fuel for the callbacks it runs; the weight of what is
      queued is enough when callbacks queue less than their own weight.
      [VizLifeFacts.nested] takes the depth to which callbacks run the program.
    - A table of jumps doubles when it is full: two rounds of [VizJump.xB] are
      enough.
    - Two static tables and the start-up of the file system are evaluated in
      the kernel.

    ** Outside the model

    - Third-party and generated code: [go/parser], [strconv], [time], [net]
      (operations of the class [Expr.GoLib]), the rest of the
      Graphviz object code ([asm.js]), the functions behind user devices: parameters,
      with what is relied on as hypotheses and concrete instances in the
      witnesses.
    - Locks and goroutines: a locked call is one transformation of state.
    - The evaluator's LRU cache: each evaluation is modelled on a cache miss.
    - Time stamps of nodes (a parameter of [stat]), [mmap], the engine's limits on
      the size of arrays; [malloc], [realloc] and [free] themselves, the iteration over
      the nodes of a graph and the standard input and output of the object code,
      which are parameters with laws.
    - Browser calls: canvas, full screen, images and sounds; calls Fabric
      makes after it has returned.  In [VizText] the text and the growing buffer
      are lists of bytes, and warnings are left out.
    - Attribute bags beyond their lookup function, the IL text form, the
      dispatcher and configuration, the other adapters, and the servers, which
      are plumbing around services. *)

From Stdlib Require Import ZArith Lia SpecFloat.
From stdpp Require Import base list gmap strings pretty numbers.

Open Scope Z_scope.

(** ** Fixed-width integers

    Go's [uint32], [int32] and [int64] are integers of [Z] that every
    arithmetic operation brings back into range. *)

Definition u32 (z : Z) : Z := z mod 2 ^ 32.
Definition u64 (z : Z) : Z := z mod 2 ^ 64.
Definition i64 (z : Z) : Z := (z + 2 ^ 63) mod 2 ^ 64 - 2 ^ 63.
Definition i32 (z : Z) : Z := (z + 2 ^ 31) mod 2 ^ 32 - 2 ^ 31.

Definition is_u32 (z : Z) : Prop := 0 <= z < 2 ^ 32.
Definition is_u64 (z : Z) : Prop := 0 <= z < 2 ^ 64.
Definition is_i64 (z : Z) : Prop := - 2 ^ 63 <= z < 2 ^ 63.
Definition is_i32 (z : Z) : Prop := - 2 ^ 31 <= z < 2 ^ 31.

(** The numerals [2 ^ k] are left folded by [lia]; [width] turns them into
    literals and calls it. *)
Ltac width :=
  unfold is_u32, is_u64, is_i64, is_i32, u32, u64, i64, i32 in *;
  change (2 ^ 31) with 2147483648 in *;
  change (2 ^ 32) with 4294967296 in *;
  change (2 ^ 63) with 9223372036854775808 in *;
  change (2 ^ 64) with 18446744073709551616 in *;
  try lia.

(** ** Go's outcomes

    A Go call returns normally, returns a non-nil [error], or panics.
    Errors keep the format string of the [fmt.Errorf] or [errors.New] call
    and its arguments, unrendered. *)

Inductive panic : Type :=
| PIndex            (** index out of range *)
| PNil              (** nil pointer dereference *)
| PType             (** failed type assertion *)
| PMsg (s : string) (** an explicit [panic] *).

Inductive go (E A : Type) : Type :=
| GoRet (a : A)
| GoErr (e : E)
| GoPanic (p : panic).
Arguments GoRet {E A} a.
Arguments GoErr {E A} e.
Arguments GoPanic {E A} p.

Definition go_bind {E A B} (m : go E A) (f : A → go E B) : go E B :=
  match m with
  | GoRet a => f a
  | GoErr e => GoErr e
  | GoPanic p => GoPanic p
  end.

Declare Scope go_scope.
Delimit Scope go_scope with go.
Notation "'let!' x := m 'in' k" := (go_bind m (fun x => k))
  (at level 10, x pattern, k at level 200) : go_scope.
Open Scope go_scope.

(** ** Byte-addressed containers

    Indexing of Go slices: an index out of range panics. *)

Definition zlookup {A} (l : list A) (i : Z) : option A :=
  if 0 <=? i then l !! Z.to_nat i else None.

Definition zinsert {A} (l : list A) (i : Z) (x : A) : option (list A) :=
  if (0 <=? i) && (i <? Z.of_nat (length l)) then Some (<[Z.to_nat i := x]> l) else None.

Definition zlength {A} (l : list A) : Z := Z.of_nat (length l).

Section ZList.
Context {A : Type}.
Implicit Types (l : list A) (i j : Z) (x : A).

Lemma zlookup_Some_lt l i x : zlookup l i = Some x → 0 <= i < zlength l.
Proof.
  unfold zlookup, zlength. destruct (Z.leb_spec 0 i); [|done].
  intros ?%lookup_lt_Some. lia.
Qed.

Lemma zlookup_is_Some l i : 0 <= i < zlength l → ∃ x, zlookup l i = Some x.
Proof.
  unfold zlookup, zlength. intros. destruct (Z.leb_spec 0 i); [|lia].
  apply lookup_lt_is_Some. lia.
Qed.

Lemma zlookup_app_l l l' i : i < zlength l → zlookup (l ++ l') i = zlookup l i.
Proof.
  unfold zlookup, zlength. intros. destruct (Z.leb_spec 0 i); [|done].
  apply lookup_app_l. lia.
Qed.

Lemma zlookup_app_r l l' i :
  zlength l <= i → zlookup (l ++ l') i = zlookup l' (i - zlength l).
Proof.
  unfold zlookup, zlength. intros. destruct (Z.leb_spec 0 i); [|lia].
  destruct (Z.leb_spec 0 (i - Z.of_nat (length l))); [|lia].
  rewrite lookup_app_r by lia. f_equal. lia.
Qed.

Lemma zlength_app l l' : zlength (l ++ l') = zlength l + zlength l'.
Proof. unfold zlength. rewrite length_app. lia. Qed.

Lemma zlength_cons x l : zlength (x :: l) = 1 + zlength l.
Proof. unfold zlength. simpl. lia. Qed.

Lemma zlength_nil : zlength (@nil A) = 0.
Proof. done. Qed.

Lemma zlength_nonneg l : 0 <= zlength l.
Proof. unfold zlength. lia. Qed.

Lemma zinsert_Some l i x :
  0 <= i < zlength l → zinsert l i x = Some (<[Z.to_nat i := x]> l).
Proof.
  unfold zinsert, zlength. intros.
  destruct (Z.leb_spec 0 i), (Z.ltb_spec i (Z.of_nat (length l))); (done || lia).
Qed.

Lemma zinsert_inv l l' i x :
  zinsert l i x = Some l' → 0 <= i < zlength l ∧ l' = <[Z.to_nat i := x]> l.
Proof.
  unfold zinsert, zlength.
  destruct (Z.leb_spec 0 i), (Z.ltb_spec i (Z.of_nat (length l)));
    simpl; intros; simplify_eq; split; (done || lia).
Qed.
End ZList.

(** A slice access that panics when the index is out of range. *)
Definition go_get {E A} (l : list A) (i : Z) : go E A :=
  match zlookup l i with Some x => GoRet x | None => GoPanic PIndex end.

Definition go_set {E A} (l : list A) (i : Z) (x : A) : go E (list A) :=
  match zinsert l i x with Some l' => GoRet l' | None => GoPanic PIndex end.

(** ** Splitting a 64-bit word into two 32-bit words *)

Lemma split_u64 z : is_u64 z → z = Z.land z 4294967295 + Z.shiftl (Z.shiftr z 32) 32.
Proof.
  intros H. change 4294967295 with (Z.ones 32).
  rewrite Z.land_ones, Z.shiftr_div_pow2, Z.shiftl_mul_pow2 by lia.
  pose proof (Z.div_mod z (2 ^ 32)). width.
Qed.

Lemma low32_range z : is_u32 (Z.land z 4294967295).
Proof.
  change 4294967295 with (Z.ones 32). rewrite Z.land_ones by lia.
  apply Z.mod_pos_bound. lia.
Qed.

Lemma low32_mod z : Z.land z 4294967295 = z mod 2 ^ 32.
Proof. change 4294967295 with (Z.ones 32). by rewrite Z.land_ones by lia. Qed.

Lemma i64_id z : is_i64 z → i64 z = z.
Proof. intros. unfold i64. rewrite Z.mod_small; width. Qed.

Lemma i64_range z : is_i64 (i64 z).
Proof. unfold i64. pose proof (Z.mod_pos_bound (z + 2 ^ 63) (2 ^ 64)). width. Qed.

Lemma u32_id z : is_u32 z → u32 z = z.
Proof. intros. unfold u32. by apply Z.mod_small. Qed.

Lemma u32_range z : is_u32 (u32 z).
Proof. apply Z.mod_pos_bound. lia. Qed.

Lemma i64_congr a b : a mod 2 ^ 64 = b mod 2 ^ 64 → i64 a = i64 b.
Proof.
  intros H. unfold i64. f_equal.
  rewrite (Z.add_mod a), (Z.add_mod b) by lia. by rewrite H.
Qed.

Lemma i64_split z : i64 (z mod 2 ^ 32 + Z.shiftl (Z.shiftr z 32) 32) = i64 z.
Proof.
  f_equal. rewrite Z.shiftr_div_pow2, Z.shiftl_mul_pow2 by lia.
  pose proof (Z.div_mod z (2 ^ 32)). width.
Qed.

(** ** Doubles

    A [float64] is its 64-bit pattern ([math.Float64bits]); arithmetic goes
    through the IEEE 754 specification floats of the Standard Library.  The
    payload of a NaN result is Go's canonical quiet NaN. *)

Definition float64 : Type := Z.
Definition nan64 : float64 := 9221120237041090561.

Definition f64_decode (u : float64) : spec_float :=
  let s := Z.testbit u 63 in
  let e := Z.land (Z.shiftr u 52) 2047 in
  let m := Z.land u (2 ^ 52 - 1) in
  if e =? 2047 then
    (if m =? 0 then S754_infinity s else S754_nan)
  else if e =? 0 then
    match m with Zpos p => S754_finite s p (-1074) | _ => S754_zero s end
  else
    match m + 2 ^ 52 with Zpos p => S754_finite s p (e - 1075) | _ => S754_nan end.

Definition f64_sign (s : bool) : Z := if s then 2 ^ 63 else 0.

Definition f64_encode (f : spec_float) : float64 :=
  match f with
  | S754_zero s => f64_sign s
  | S754_infinity s => f64_sign s + Z.shiftl 2047 52
  | S754_nan => nan64
  | S754_finite s m e =>
      if Zpos m <? 2 ^ 52
      then f64_sign s + Zpos m
      else f64_sign s + Z.shiftl (e + 1075) 52 + (Zpos m - 2 ^ 52)
  end.

Definition f64_add (u v : float64) : float64 :=
  f64_encode (SFadd 53 1024 (f64_decode u) (f64_decode v)).
Definition f64_mul (u v : float64) : float64 :=
  f64_encode (SFmul 53 1024 (f64_decode u) (f64_decode v)).
Definition f64_eqb (u v : float64) : bool := SFeqb (f64_decode u) (f64_decode v).

Definition f64_minus_one : float64 := f64_sign true + Z.shiftl 1023 52.

Example f64_add_half : f64_add 4607182418800017408 4602678819172646912 = 4609434218613702656.
Proof. vm_compute. reflexivity. Qed.

(** ** Dynamic values

    The Go values an attribute can hold, that is the dynamic types
    [interface{}] ranges over in the attribute bags and the expression
    language.  A [[]byte] is its byte string; a [time.Time] is its instant
    in nanoseconds and its location. *)

Record gotime : Type := mkTime { t_nano : Z; t_loc : string }.

Inductive value : Type :=
| VStr (s : string)
| VInt (z : Z)
| VDouble (f : float64)
| VBool (b : bool)
| VTime (t : gotime)
| VDur (z : Z)
| VBytes (bs : string)
| VMap (m : gmap string string).

#[export] Instance gotime_eq_dec : EqDecision gotime.
Proof. solve_decision. Defined.
#[export] Instance value_eq_dec : EqDecision value.
Proof. solve_decision. Defined.

(** [interface{}] itself: [nil] or a dynamic value. *)
Definition iface : Type := option value.

(** Integers in range, doubles as bit patterns: what a Go program can build. *)
Definition value_ok (v : value) : Prop :=
  match v with
  | VInt z | VDur z => is_i64 z
  | VDouble f => is_u64 f
  | _ => True
  end.

(** ** Errors *)

Inductive arg : Type :=
| AStr (s : string)
| AVal (v : iface)
| AInt (z : Z)
| AErr (e : gerr)
with gerr : Type :=
| Errorf (fmt : string) (args : list arg).

Definition errors_New (s : string) : gerr := Errorf s [].

(** ** Automation

    [msimpl] unfolds the slice accessors and the error monad; the hint
    database [mixer] carries the range lemmas. *)

Create HintDb mixer discriminated.
#[export] Hint Resolve u32_range i64_range low32_range zlength_nonneg : mixer.

Create Rewrite HintDb zlist.
#[export] Hint Rewrite @zlength_app @zlength_cons @zlength_nil : zlist.

Ltac msimpl := cbn [go_bind fst snd] in *.

(** Case analysis on the scrutinee of an innermost [match] of the goal. *)
Ltac case_inner :=
  match goal with
  | |- context [match ?x with _ => _ end] =>
      lazymatch x with context [match _ with _ => _ end] => fail | _ => destruct x eqn:? end
  end.

(** ** Strings *)

Fixpoint str_prefix (p s : string) : bool :=
  match p, s with
  | EmptyString, _ => true
  | String a p', String b s' => if decide (a = b) then str_prefix p' s' else false
  | String _ _, EmptyString => false
  end.

Fixpoint str_drop (n : nat) (s : string) : string :=
  match n, s with
  | O, _ => s
  | S n', String _ s' => str_drop n' s'
  | S _, EmptyString => EmptyString
  end.

Fixpoint str_take (n : nat) (s : string) : string :=
  match n, s with
  | O, _ => EmptyString
  | S n', String a s' => String a (str_take n' s')
  | S _, EmptyString => EmptyString
  end.

(** [strings.HasPrefix] and [strings.HasSuffix]. *)
Definition HasPrefix (s p : string) : bool := str_prefix p s.
Definition HasSuffix (s p : string) : bool :=
  (String.length p <=? String.length s)%nat
  && bool_decide (str_drop (String.length s - String.length p) s = p).
