(* ===== verification/Il.v ===== *)
(** * The intermediate language: package [il]

    [src/pkg/il]: opcodes and their metadata ([opcode.go]), the types
    ([types.go]), the encoding of scalars as 32-bit words ([convert.go]), the
    string table ([strings.go]), the function table ([function.go]) and the
    program ([program.go]).  A word of byte code is an integer of [Z] in the
    [uint32] range. *)

From Stdlib Require Import ZArith Lia.
From stdpp Require Import base list gmap strings pretty.
From S2P Require Import Prelude.

Open Scope Z_scope.

(** ** Opcodes *)

Module Op.

Inductive Opcode : Type :=
  | Halt | Nop | Err | Errz | Errnz | PopS | PopB | PopI | PopD | DupS | DupB | DupI
  | DupD | RLoadS | RLoadB | RLoadI | RLoadD | ALoadS | ALoadB | ALoadI | ALoadD
  | APushS | APushB | APushI | APushD | RPushS | RPushB | RPushI | RPushD | EqS | EqB
  | EqI | EqD | AEqS | AEqB | AEqI | AEqD | Xor | And | Or | AXor | AAnd | AOr | Not
  | ResolveS | ResolveB | ResolveI | ResolveD | ResolveF | TResolveS | TResolveB
  | TResolveI | TResolveD | TResolveF | AddI | AddD | SubI | SubD | AAddI | AAddD
  | ASubI | ASubD | Jmp | Jz | Jnz | Call | Ret | Lookup | TLookup | ALookup | NLookup
  | ANLookup.

End Op.
Abbreviation Opcode := Op.Opcode.

(** The numeric value of each opcode constant. *)
Definition op_code (o : Opcode) : Z :=
  match o with
  | Op.Halt => 0
  | Op.Nop => 1
  | Op.Err => 2
  | Op.Errz => 3
  | Op.Errnz => 4
  | Op.PopS => 10
  | Op.PopB => 11
  | Op.PopI => 12
  | Op.PopD => 13
  | Op.DupS => 14
  | Op.DupB => 15
  | Op.DupI => 16
  | Op.DupD => 17
  | Op.RLoadS => 20
  | Op.RLoadB => 21
  | Op.RLoadI => 22
  | Op.RLoadD => 23
  | Op.ALoadS => 30
  | Op.ALoadB => 31
  | Op.ALoadI => 32
  | Op.ALoadD => 33
  | Op.APushS => 40
  | Op.APushB => 41
  | Op.APushI => 42
  | Op.APushD => 43
  | Op.RPushS => 50
  | Op.RPushB => 51
  | Op.RPushI => 52
  | Op.RPushD => 53
  | Op.EqS => 60
  | Op.EqB => 61
  | Op.EqI => 62
  | Op.EqD => 63
  | Op.AEqS => 70
  | Op.AEqB => 71
  | Op.AEqI => 72
  | Op.AEqD => 73
  | Op.Xor => 80
  | Op.And => 81
  | Op.Or => 82
  | Op.AXor => 83
  | Op.AAnd => 84
  | Op.AOr => 85
  | Op.Not => 86
  | Op.ResolveS => 90
  | Op.ResolveB => 91
  | Op.ResolveI => 92
  | Op.ResolveD => 93
  | Op.ResolveF => 94
  | Op.TResolveS => 100
  | Op.TResolveB => 101
  | Op.TResolveI => 102
  | Op.TResolveD => 103
  | Op.TResolveF => 104
  | Op.AddI => 110
  | Op.AddD => 111
  | Op.SubI => 112
  | Op.SubD => 113
  | Op.AAddI => 114
  | Op.AAddD => 115
  | Op.ASubI => 116
  | Op.ASubD => 117
  | Op.Jmp => 200
  | Op.Jz => 201
  | Op.Jnz => 202
  | Op.Call => 203
  | Op.Ret => 204
  | Op.Lookup => 210
  | Op.TLookup => 211
  | Op.ALookup => 212
  | Op.NLookup => 213
  | Op.ANLookup => 214
  end.

Definition all_opcodes : list Opcode :=
  [Op.Halt; Op.Nop; Op.Err; Op.Errz; Op.Errnz; Op.PopS; Op.PopB; Op.PopI; Op.PopD;
  Op.DupS; Op.DupB; Op.DupI; Op.DupD; Op.RLoadS; Op.RLoadB; Op.RLoadI; Op.RLoadD;
  Op.ALoadS; Op.ALoadB; Op.ALoadI; Op.ALoadD; Op.APushS; Op.APushB; Op.APushI;
  Op.APushD; Op.RPushS; Op.RPushB; Op.RPushI; Op.RPushD; Op.EqS; Op.EqB; Op.EqI;
  Op.EqD; Op.AEqS; Op.AEqB; Op.AEqI; Op.AEqD; Op.Xor; Op.And; Op.Or; Op.AXor; Op.AAnd;
  Op.AOr; Op.Not; Op.ResolveS; Op.ResolveB; Op.ResolveI; Op.ResolveD; Op.ResolveF;
  Op.TResolveS; Op.TResolveB; Op.TResolveI; Op.TResolveD; Op.TResolveF; Op.AddI;
  Op.AddD; Op.SubI; Op.SubD; Op.AAddI; Op.AAddD; Op.ASubI; Op.ASubD; Op.Jmp; Op.Jz;
  Op.Jnz; Op.Call; Op.Ret; Op.Lookup; Op.TLookup; Op.ALookup; Op.NLookup; Op.ANLookup].

Definition opcode_of (c : Z) : option Opcode :=
  List.find (fun o => op_code o =? c) all_opcodes.

Inductive OpcodeArg : Type :=
| OpcodeArgRegister | OpcodeArgString | OpcodeArgInt | OpcodeArgDouble
| OpcodeArgBool | OpcodeArgFunction | OpcodeArgAddress.

(** [argSizes]: the number of words an argument occupies. *)
Definition argSize (a : OpcodeArg) : Z :=
  match a with
  | OpcodeArgRegister | OpcodeArgString | OpcodeArgBool
  | OpcodeArgFunction | OpcodeArgAddress => 1
  | OpcodeArgDouble | OpcodeArgInt => 2
  end.

Record opcodeInfo : Type := mkInfo { oi_name : string; oi_keyword : string; oi_args : list OpcodeArg }.

Definition infos_control : list (Opcode * opcodeInfo) :=
  [(Op.Halt, mkInfo "Halt" "halt" []);
   (Op.Nop, mkInfo "Nop" "nop" []);
   (Op.Err, mkInfo "Err" "err" [OpcodeArgString]);
   (Op.Errz, mkInfo "Errz" "errz" [OpcodeArgString]);
   (Op.Errnz, mkInfo "Errnz" "errnz" [OpcodeArgString])].

Definition infos_stack : list (Opcode * opcodeInfo) :=
  [(Op.PopS, mkInfo "PopS" "pop_s" []);
   (Op.PopB, mkInfo "PopB" "pop_b" []);
   (Op.PopI, mkInfo "PopI" "pop_i" []);
   (Op.PopD, mkInfo "PopD" "pop_d" []);
   (Op.DupS, mkInfo "DupS" "dup_s" []);
   (Op.DupB, mkInfo "DupB" "dup_b" []);
   (Op.DupI, mkInfo "DupI" "dup_i" []);
   (Op.DupD, mkInfo "DupD" "dup_d" [])].

Definition infos_registers : list (Opcode * opcodeInfo) :=
  [(Op.RLoadS, mkInfo "RLoadS" "rload_s" [OpcodeArgRegister]);
   (Op.RLoadB, mkInfo "RLoadB" "rload_b" [OpcodeArgRegister]);
   (Op.RLoadI, mkInfo "RLoadI" "rload_i" [OpcodeArgRegister]);
   (Op.RLoadD, mkInfo "RLoadD" "rload_d" [OpcodeArgRegister]);
   (Op.ALoadS, mkInfo "ALoadS" "aload_s" [OpcodeArgRegister; OpcodeArgString]);
   (Op.ALoadB, mkInfo "ALoadB" "aload_b" [OpcodeArgRegister; OpcodeArgBool]);
   (Op.ALoadI, mkInfo "ALoadI" "aload_i" [OpcodeArgRegister; OpcodeArgInt]);
   (Op.ALoadD, mkInfo "ALoadD" "aload_d" [OpcodeArgRegister; OpcodeArgDouble])].

Definition infos_push : list (Opcode * opcodeInfo) :=
  [(Op.APushS, mkInfo "APushS" "apush_s" [OpcodeArgString]);
   (Op.APushB, mkInfo "APushB" "apush_b" [OpcodeArgBool]);
   (Op.APushI, mkInfo "APushI" "apush_i" [OpcodeArgInt]);
   (Op.APushD, mkInfo "APushD" "apush_d" [OpcodeArgDouble]);
   (Op.RPushS, mkInfo "RPushS" "rpush_s" [OpcodeArgRegister]);
   (Op.RPushB, mkInfo "RPushB" "rpush_b" [OpcodeArgRegister]);
   (Op.RPushI, mkInfo "RPushI" "rpush_i" [OpcodeArgRegister]);
   (Op.RPushD, mkInfo "RPushD" "rpush_d" [OpcodeArgRegister])].

Definition infos_eq : list (Opcode * opcodeInfo) :=
  [(Op.EqS, mkInfo "EqS" "eq_s" []);
   (Op.EqB, mkInfo "EqB" "eq_b" []);
   (Op.EqI, mkInfo "EqI" "eq_i" []);
   (Op.EqD, mkInfo "EqD" "eq_d" []);
   (Op.AEqS, mkInfo "AEqS" "aeq_s" [OpcodeArgString]);
   (Op.AEqB, mkInfo "AEqB" "aeq_b" [OpcodeArgBool]);
   (Op.AEqI, mkInfo "AEqI" "aeq_i" [OpcodeArgInt]);
   (Op.AEqD, mkInfo "AEqD" "aeq_d" [OpcodeArgDouble])].

Definition infos_logic : list (Opcode * opcodeInfo) :=
  [(Op.Xor, mkInfo "Xor" "xor" []);
   (Op.And, mkInfo "And" "and" []);
   (Op.Or, mkInfo "Or" "or" []);
   (Op.AXor, mkInfo "AXor" "axor" [OpcodeArgBool]);
   (Op.AAnd, mkInfo "AAnd" "aand" [OpcodeArgBool]);
   (Op.AOr, mkInfo "AOr" "aor" [OpcodeArgBool]);
   (Op.Not, mkInfo "Not" "not" [])].

Definition infos_resolve : list (Opcode * opcodeInfo) :=
  [(Op.ResolveS, mkInfo "ResolveS" "resolve_s" [OpcodeArgString]);
   (Op.ResolveB, mkInfo "ResolveB" "resolve_b" [OpcodeArgString]);
   (Op.ResolveI, mkInfo "ResolveI" "resolve_i" [OpcodeArgString]);
   (Op.ResolveD, mkInfo "ResolveD" "resolve_d" [OpcodeArgString]);
   (Op.ResolveF, mkInfo "ResolveF" "resolve_f" [OpcodeArgString]);
   (Op.TResolveS, mkInfo "TResolveS" "tresolve_s" [OpcodeArgString]);
   (Op.TResolveB, mkInfo "TResolveB" "tresolve_b" [OpcodeArgString]);
   (Op.TResolveI, mkInfo "TResolveI" "tresolve_i" [OpcodeArgString]);
   (Op.TResolveD, mkInfo "TResolveD" "tresolve_d" [OpcodeArgString]);
   (Op.TResolveF, mkInfo "TResolveF" "tresolve_f" [OpcodeArgString])].

Definition infos_arith : list (Opcode * opcodeInfo) :=
  [(Op.AddI, mkInfo "AddI" "add_i" []);
   (Op.AddD, mkInfo "AddD" "add_d" []);
   (Op.SubI, mkInfo "SubI" "sub_i" []);
   (Op.SubD, mkInfo "SubD" "sub_d" []);
   (Op.AAddI, mkInfo "AAddI" "aadd_i" [OpcodeArgInt]);
   (Op.AAddD, mkInfo "AAddD" "aadd_d" [OpcodeArgDouble]);
   (Op.ASubI, mkInfo "ASubI" "asub_i" [OpcodeArgInt]);
   (Op.ASubD, mkInfo "ASubD" "asub_d" [OpcodeArgDouble])].

Definition infos_jump : list (Opcode * opcodeInfo) :=
  [(Op.Jmp, mkInfo "Jmp" "jmp" [OpcodeArgAddress]);
   (Op.Jz, mkInfo "Jz" "jz" [OpcodeArgAddress]);
   (Op.Jnz, mkInfo "Jnz" "jnz" [OpcodeArgAddress]);
   (Op.Call, mkInfo "Call" "call" [OpcodeArgFunction]);
   (Op.Ret, mkInfo "Ret" "ret" [])].

Definition infos_lookup : list (Opcode * opcodeInfo) :=
  [(Op.Lookup, mkInfo "Lookup" "lookup" []);
   (Op.NLookup, mkInfo "NLookup" "nlookup" []);
   (Op.TLookup, mkInfo "TLookup" "tlookup" []);
   (Op.ALookup, mkInfo "ALookup" "alookup" [OpcodeArgString]);
   (Op.ANLookup, mkInfo "ANLookup" "anlookup" [OpcodeArgString])].

Definition opCodeInfos : list (Opcode * opcodeInfo) :=
  infos_control ++ infos_stack ++ infos_registers ++ infos_push ++ infos_eq ++ infos_logic ++ infos_resolve ++ infos_arith ++ infos_jump ++ infos_lookup.

(** [opCodeInfos[o]] for a word: the zero [opcodeInfo] when the word is not an
    opcode, as a Go map lookup gives. *)
Definition info_of (c : Z) : opcodeInfo :=
  match List.find (fun p => op_code p.1 =? c) opCodeInfos with
  | Some (_, i) => i
  | None => mkInfo "" "" []
  end.

Definition Args (c : Z) : list OpcodeArg := oi_args (info_of c).
Definition Keyword (c : Z) : string := oi_keyword (info_of c).
Definition opcode_String (c : Z) : string := oi_name (info_of c).

(** [Opcode.Size]: the instruction word and its arguments. *)
Definition Size (c : Z) : Z :=
  foldl (fun s a => u32 (s + argSize a)) 1 (Args c).

(** [GetOpcode]: the opcode with the given keyword. *)
Definition GetOpcode (text : string) : option Opcode :=
  fst <$> List.find (fun p => bool_decide (oi_keyword p.2 = text)) opCodeInfos.

(** Every opcode has one numeric value and one keyword, and both identify it. *)
Lemma opcode_of_code o : opcode_of (op_code o) = Some o.
Proof. by destruct o. Qed.

Lemma op_code_u32 o : is_u32 (op_code o).
Proof. destruct o; vm_compute; split; done. Qed.

(** The keyword of an opcode finds it again, so the text reader can recover
    what the text writer printed. *)
Lemma GetOpcode_Keyword o : GetOpcode (Keyword (op_code o)) = Some o.
Proof. destruct o; vm_compute; reflexivity. Qed.

Lemma Size_op o : Size (op_code o) = 1 + foldr (fun a s => argSize a + s) 0 (Args (op_code o)).
Proof. by destruct o. Qed.

(** ** Types *)

Module Ty.

Inductive Type_ : Type :=
| Unknown | Void | String | Integer | Double | Bool | Duration | Interface.

End Ty.
Abbreviation ilType := Ty.Type_.

#[export] Instance ilType_eq_dec : EqDecision ilType.
Proof. solve_decision. Defined.

Definition typeNames (t : ilType) : string :=
  match t with
  | Ty.Unknown => "unknown" | Ty.Void => "void" | Ty.String => "string"
  | Ty.Integer => "integer" | Ty.Double => "double" | Ty.Bool => "bool"
  | Ty.Duration => "duration" | Ty.Interface => "interface"
  end.

(** [typesByName] has no entry for ["unknown"]. *)
Definition typesByName : list (string * ilType) :=
  [("void", Ty.Void); ("string", Ty.String); ("integer", Ty.Integer);
   ("double", Ty.Double); ("bool", Ty.Bool); ("duration", Ty.Duration);
   ("interface", Ty.Interface)].

Definition GetType (name : string) : option ilType :=
  snd <$> List.find (fun p => bool_decide (p.1 = name)) typesByName.

Lemma GetType_String t : t ≠ Ty.Unknown → GetType (typeNames t) = Some t.
Proof. by destruct t. Qed.

(** ** Scalars as words ([convert.go]) *)

Definition IntegerToByteCode (i : Z) : Z * Z :=
  (u32 (Z.land i 4294967295), u32 (Z.shiftr i 32)).
Definition ByteCodeToInteger (o1 o2 : Z) : Z := i64 (o1 + i64 (Z.shiftl o2 32)).
Definition DoubleToByteCode (d : float64) : Z * Z :=
  (u32 (Z.land d 4294967295), u32 (Z.shiftr d 32)).
Definition ByteCodeToDouble (o1 o2 : Z) : float64 := u64 (o1 + u64 (Z.shiftl o2 32)).
Definition BoolToByteCode (b : bool) : Z := if b then 1 else 0.
Definition ByteCodeToBool (o : Z) : bool := negb (o =? 0).

Lemma i64_i64_add a b : i64 (a + i64 b) = i64 (a + b).
Proof.
  apply i64_congr. unfold i64.
  replace (a + ((b + 2 ^ 63) mod 2 ^ 64 - 2 ^ 63)) with ((a - 2 ^ 63) + (b + 2 ^ 63) mod 2 ^ 64) by lia.
  rewrite Zplus_mod_idemp_r. f_equal. lia.
Qed.

Lemma i64_mod32_shift o : i64 (Z.shiftl (o mod 2 ^ 32) 32) = i64 (Z.shiftl o 32).
Proof.
  apply i64_congr. rewrite !Z.shiftl_mul_pow2 by lia.
  rewrite (Z.div_mod o (2 ^ 32)) at 2 by lia.
  replace ((2 ^ 32 * (o / 2 ^ 32) + o mod 2 ^ 32) * 2 ^ 32)
    with (o mod 2 ^ 32 * 2 ^ 32 + o / 2 ^ 32 * 2 ^ 64) by lia.
  by rewrite Z_mod_plus_full.
Qed.

Lemma ByteCodeToInteger_IntegerToByteCode i :
  is_i64 i → ByteCodeToInteger (IntegerToByteCode i).1 (IntegerToByteCode i).2 = i.
Proof.
  intros Hi. unfold ByteCodeToInteger, IntegerToByteCode. simpl.
  rewrite (u32_id (Z.land _ _)) by apply low32_range.
  unfold u32 at 1. rewrite i64_mod32_shift, low32_mod, i64_i64_add, i64_split.
  by apply i64_id.
Qed.

Lemma ByteCodeToDouble_DoubleToByteCode d :
  is_u64 d → ByteCodeToDouble (DoubleToByteCode d).1 (DoubleToByteCode d).2 = d.
Proof.
  intros Hd. unfold ByteCodeToDouble, DoubleToByteCode. simpl.
  rewrite (u32_id (Z.land _ _)) by apply low32_range.
  assert (is_u32 (Z.shiftr d 32)) as Hs.
  { rewrite Z.shiftr_div_pow2 by lia. split; [apply Z.div_pos|apply Z.div_lt_upper_bound]; width. }
  rewrite (u32_id _ Hs).
  assert (is_u64 (Z.shiftl (Z.shiftr d 32) 32)) as Hu.
  { rewrite Z.shiftl_mul_pow2 by lia. width. }
  unfold u64 at 2. rewrite (Z.mod_small _ _ Hu), <- split_u64 by done.
  by apply Z.mod_small.
Qed.

(** The encodings identify the scalar: equality of words is equality of
    integers, and of bit patterns for doubles. *)
Lemma IntegerToByteCode_inj i j :
  is_i64 i → is_i64 j → IntegerToByteCode i = IntegerToByteCode j → i = j.
Proof.
  intros Hi Hj E.
  by rewrite <- (ByteCodeToInteger_IntegerToByteCode i Hi), E,
    (ByteCodeToInteger_IntegerToByteCode j Hj).
Qed.

Lemma DoubleToByteCode_inj i j :
  is_u64 i → is_u64 j → DoubleToByteCode i = DoubleToByteCode j → i = j.
Proof.
  intros Hi Hj E.
  by rewrite <- (ByteCodeToDouble_DoubleToByteCode i Hi), E,
    (ByteCodeToDouble_DoubleToByteCode j Hj).
Qed.

(** ** The string table ([strings.go])

    The read-write lock serialises the accesses; a call of [GetID] is one
    atomic step. *)

Definition allocSize : nat := 512.
Definition nullString : string := "<<DEADBEEF>>".

(** [make([]string, allocSize)]. *)
Definition blank_slots : list string := replicate allocSize "".
Arguments blank_slots : simpl never.

Record StringTable : Type := mkStrings {
  stringToID : gmap string Z;
  idToString : list string;
  nextID : Z
}.

Definition GetID (s : string) (t : StringTable) : Z * StringTable :=
  match stringToID t !! s with
  | Some id => (id, t)
  | None =>
      let id := nextID t in
      let tbl :=
        if zlength (idToString t) <=? id
        then idToString t ++ blank_slots
        else idToString t in
      (id, mkStrings (<[s := id]> (stringToID t)) (<[Z.to_nat id := s]> tbl) (u32 (id + 1)))
  end.

Definition TryGetID (s : string) (t : StringTable) : Z :=
  match stringToID t !! s with Some id => id | None => 0 end.

Definition GetString (id : Z) (t : StringTable) : option string := zlookup (idToString t) id.

Definition StringTable_Size (t : StringTable) : Z := nextID t.

Definition newStringTable : StringTable :=
  (GetID nullString (mkStrings ∅ blank_slots 0)).2.

(** The table is well formed: the two maps are inverse to each other, ids are
    dense below [nextID], and id 0 is the null string. *)
Record st_wf (t : StringTable) : Prop := {
  st_next : 0 < nextID t < 2 ^ 32;
  st_cap : nextID t <= zlength (idToString t);
  st_to : ∀ s id, stringToID t !! s = Some id →
    0 <= id < nextID t ∧ zlookup (idToString t) id = Some s;
  st_from : ∀ id s, 0 <= id < nextID t → zlookup (idToString t) id = Some s →
    stringToID t !! s = Some id;
  st_null : stringToID t !! nullString = Some 0
}.

(** The ids already handed out keep their meaning. *)
Definition st_le (t t' : StringTable) : Prop :=
  stringToID t ⊆ stringToID t' ∧ nextID t <= nextID t'.

#[export] Instance st_le_preorder : PreOrder st_le.
Proof.
  split.
  - intros t. split; [done|lia].
  - intros t1 t2 t3 [H1 H2] [H3 H4]. split; [by etrans|lia].
Qed.

Lemma newStringTable_wf : st_wf newStringTable.
Proof.
  unfold newStringTable, GetID.
  change (stringToID (mkStrings ∅ blank_slots 0)) with (∅ : gmap string Z).
  rewrite lookup_empty. split; simpl.
  - done.
  - vm_compute. discriminate.
  - intros s id. rewrite lookup_insert. case_decide; [|by rewrite lookup_empty].
    intros ?; simplify_eq. split; [vm_compute; split; done|done].
  - intros id s Hid. change (u32 (0 + 1)) with 1 in Hid.
    replace id with 0 by lia. intros [= <-].
    by rewrite lookup_insert_eq.
  - by rewrite lookup_insert_eq.
Qed.

Section GetID.
Context (s : string) (t : StringTable) (Hwf : st_wf t).

(** Interning a string: the id is the string's, the table stays well
    formed, and no id changes.  One more id must be available. *)
Lemma GetID_spec :
  nextID t + 1 < 2 ^ 32 →
  let r := GetID s t in
  st_wf r.2 ∧ st_le t r.2 ∧ nextID r.2 <= nextID t + 1 ∧
  stringToID r.2 !! s = Some r.1 ∧ is_u32 r.1.
Proof using Hwf.
  intros Hroom. pose proof (st_next t Hwf) as Hn. unfold GetID.
  destruct (stringToID t !! s) as [id|] eqn:Hs; simpl.
  { destruct (st_to t Hwf _ _ Hs). split_and!; [done|reflexivity|lia|done|width]. }
  set (tbl := if _ <=? _ then _ else _).
  pose proof (st_cap t Hwf) as Hcap.
  assert (nextID t < zlength tbl) as Hlen.
  { unfold tbl. destruct (Z.leb_spec (zlength (idToString t)) (nextID t)); [|lia].
    rewrite zlength_app. change (zlength blank_slots) with 512. lia. }
  assert (∀ i, 0 <= i < nextID t → zlookup tbl i = zlookup (idToString t) i) as Hold.
  { intros i Hi. unfold tbl. destruct (_ <=? _); [|done]. by apply zlookup_app_l; lia. }
  assert (∀ i, 0 <= i → zlookup (<[Z.to_nat (nextID t):=s]> tbl) i =
           if decide (i = nextID t) then Some s else zlookup tbl i) as Hins.
  { intros i Hi. unfold zlookup. destruct (Z.leb_spec 0 i); [|lia].
    case_decide as E.
    - subst i. apply list_lookup_insert_eq. unfold zlength in Hlen. lia.
    - apply list_lookup_insert_ne. lia. }
  rewrite (u32_id (nextID t + 1)) by width.
  split_and!.
  - split; simpl.
    + lia.
    + unfold zlength in *. rewrite length_insert. lia.
    + intros s' id. rewrite lookup_insert. case_decide as E.
      * intros ?; simplify_eq. rewrite Hins by lia. rewrite decide_True by done. split; [lia|done].
      * intros H. destruct (st_to t Hwf _ _ H). rewrite Hins by lia.
        rewrite decide_False by lia. rewrite Hold by lia. split; [lia|done].
    + intros id s' Hid. rewrite Hins by lia. case_decide.
      * intros ?; simplify_eq. by rewrite lookup_insert_eq.
      * rewrite Hold by lia. intros H'. apply (st_from t Hwf) in H'; [|lia].
        rewrite lookup_insert_ne; [done|congruence].
    + rewrite lookup_insert_ne; [apply (st_null t Hwf)|].
      intros ->. by rewrite (st_null t Hwf) in Hs.
  - split; simpl; [by apply insert_subseteq|lia].
  - lia.
  - apply lookup_insert_eq.
  - width.
Qed.
End GetID.

Lemma GetString_id t s id : st_wf t → stringToID t !! s = Some id → GetString id t = Some s.
Proof. intros Hwf H. by destruct (st_to t Hwf _ _ H). Qed.

Lemma st_id_inj t s s' id :
  st_wf t → stringToID t !! s = Some id → stringToID t !! s' = Some id → s = s'.
Proof.
  intros Hwf H H'. destruct (st_to t Hwf _ _ H), (st_to t Hwf _ _ H'). congruence.
Qed.

Lemma st_le_lookup t t' s id :
  st_le t t' → stringToID t !! s = Some id → stringToID t' !! s = Some id.
Proof. intros [H _] ?. by eapply lookup_weaken. Qed.

(** Interning again returns the same id and changes nothing. *)
Lemma GetID_idem t s id : stringToID t !! s = Some id → GetID s t = (id, t).
Proof. intros H. unfold GetID. by rewrite H. Qed.

#[export] Hint Resolve newStringTable_wf GetString_id st_le_lookup : mixer.

(** ** Functions and programs ([function.go], [program.go]) *)

Record Function : Type := mkFunction {
  Parameters : list ilType;
  ReturnType : ilType;
  fn_ID : Z;
  Address : Z;
  Length : Z
}.

(** [FunctionTable.functions]; the string table it also points to is the
    program's, see [Program]. *)
Definition FunctionTable : Type := gmap Z Function.

Definition FunctionTable_add (f : Function) (t : gmap Z Function) : gmap Z Function :=
  <[fn_ID f := f]> t.

Definition GetByID (id : Z) (t : gmap Z Function) : option Function := t !! id.

Record Program : Type := mkProgram {
  p_strings : StringTable;
  p_functions : gmap Z Function;
  p_code : list Z
}.

Definition NewProgram : Program := mkProgram newStringTable ∅ [op_code Op.Halt].

(** [FunctionTable.Get], through the program's string table. *)
Definition FunctionTable_Get (name : string) (p : Program) : option Function :=
  let id := TryGetID name (p_strings p) in
  if id =? 0 then None else p_functions p !! id.

Definition IDOf (name : string) (p : Program) : Z := TryGetID name (p_strings p).

Definition AddExternDef (name : string) (parameters : list ilType) (returnType : ilType)
    (p : Program) : Program :=
  let '(id, t) := GetID name (p_strings p) in
  mkProgram t (FunctionTable_add (mkFunction parameters returnType id 0 0) (p_functions p)) (p_code p).

(** The two inner loops of [AddFunction]: copy the words of one argument; an
    address is made global by adding the start of the function. *)
Fixpoint copy_words (n : nat) (isaddr : bool) (start : Z) (body code : list Z) : list Z * list Z :=
  match n, body with
  | S n', w :: body' =>
      copy_words n' isaddr start body' (code ++ [if isaddr then u32 (w + start) else w])
  | _, _ => (body, code)
  end.

Definition is_address (a : OpcodeArg) : bool :=
  match a with OpcodeArgAddress => true | _ => false end.

Fixpoint copy_args (args : list OpcodeArg) (start : Z) (body code : list Z) : list Z * list Z :=
  match args with
  | [] => (body, code)
  | a :: args' =>
      let '(body', code') := copy_words (Z.to_nat (argSize a)) (is_address a) start body code in
      copy_args args' start body' code'
  end.

(** The outer loop of [AddFunction]: [body] is what is left from index [i] of
    the function body, [l] words long. *)
Fixpoint transcribe (fuel : nat) (start l i : Z) (body code : list Z) : list Z * option gerr :=
  match fuel, body with
  | S fuel', op :: body' =>
      if i + Size op >? l
      then (code, Some (Errorf "opcode requires more arguments than are present in the body: op: %v, loc: %d"
                          [AStr (opcode_String op); AInt i]))
      else
        let '(body'', code') := copy_args (Args op) start body' (code ++ [op]) in
        transcribe fuel' start l (i + Size op) body'' code'
  | _, _ => (code, None)
  end.

Definition AddFunction (name : string) (parameters : list ilType) (returnType : ilType)
    (body : list Z) (p : Program) : Program * option gerr :=
  let code := p_code p ++ [op_code Op.Halt] in
  let start := u32 (zlength code) in
  let l := u32 (zlength body) in
  match transcribe (length body) start l 0 body code with
  | (code', Some e) => (mkProgram (p_strings p) (p_functions p) code', Some e)
  | (code', None) =>
      let '(id, t) := GetID name (p_strings p) in
      (mkProgram t (FunctionTable_add (mkFunction parameters returnType id start l) (p_functions p)) code', None)
  end.

Definition ByteCode (p : Program) : list Z := p_code p.

(** ** The builder ([builder.go])

    [labels] holds the address of every label already placed, [fixups] the
    words to patch once a label is placed.  The string table is the one of the
    program being compiled. *)

Record Builder : Type := mkBuilder {
  b_strings : StringTable;
  b_body : list Z;
  b_labels : gmap string Z;
  b_fixups : gmap string (list Z)
}.

Definition NewBuilder (s : StringTable) : Builder := mkBuilder s [] ∅ ∅.

Definition Build (f : Builder) : list Z := b_body f.

Definition append_words (ws : list Z) (f : Builder) : Builder :=
  mkBuilder (b_strings f) (b_body f ++ ws) (b_labels f) (b_fixups f).

Definition op0 (op : Opcode) (f : Builder) : Builder := append_words [op_code op] f.
Definition op1 (op : Opcode) (p1 : Z) (f : Builder) : Builder := append_words [op_code op; p1] f.
Definition op2 (op : Opcode) (p1 p2 : Z) (f : Builder) : Builder :=
  append_words [op_code op; p1; p2] f.

Definition b_id (s : string) (f : Builder) : Z * Builder :=
  let '(id, t) := GetID s (b_strings f) in
  (id, mkBuilder t (b_body f) (b_labels f) (b_fixups f)).

(** [f.op1(op, f.id(s))]: interning, then appending. *)
Definition op_str (op : Opcode) (s : string) (f : Builder) : Builder :=
  let '(id, f') := b_id s f in op1 op id f'.

Definition op_int (op : Opcode) (i : Z) (f : Builder) : Builder :=
  let '(a1, a2) := IntegerToByteCode i in op2 op a1 a2 f.

Definition op_double (op : Opcode) (d : float64) (f : Builder) : Builder :=
  let '(a1, a2) := DoubleToByteCode d in op2 op a1 a2 f.

Definition op_bool (op : Opcode) (b : bool) (f : Builder) : Builder := op1 op (BoolToByteCode b) f.

Module B.
Definition Nop := op0 Op.Nop.
Definition Ret := op0 Op.Ret.
Definition Call := op_str Op.Call.
Definition ResolveInt := op_str Op.ResolveI.
Definition TResolveInt := op_str Op.TResolveI.
Definition ResolveString := op_str Op.ResolveS.
Definition TResolveString := op_str Op.TResolveS.
Definition ResolveBool := op_str Op.ResolveB.
Definition TResolveBool := op_str Op.TResolveB.
Definition ResolveDouble := op_str Op.ResolveD.
Definition TResolveDouble := op_str Op.TResolveD.
Definition ResolveInterface := op_str Op.ResolveF.
Definition TResolveInterface := op_str Op.TResolveF.
Definition APushBool := op_bool Op.APushB.
Definition APushStr := op_str Op.APushS.
Definition APushInt := op_int Op.APushI.
Definition APushDouble := op_double Op.APushD.
Definition Xor := op0 Op.Xor.
Definition EQString := op0 Op.EqS.
Definition AEQString := op_str Op.AEqS.
Definition EQBool := op0 Op.EqB.
Definition AEQBool := op_bool Op.AEqB.
Definition EQInteger := op0 Op.EqI.
Definition AEQInteger := op_int Op.AEqI.
Definition EQDouble := op0 Op.EqD.
Definition AEQDouble := op_double Op.AEqD.
Definition Not := op0 Op.Not.
Definition Or := op0 Op.Or.
Definition And := op0 Op.And.
Definition Lookup := op0 Op.Lookup.
Definition NLookup := op0 Op.NLookup.
Definition TLookup := op0 Op.TLookup.
Definition ALookup := op_str Op.ALookup.
Definition ANLookup := op_str Op.ANLookup.
End B.

Definition label_name (n : nat) : string := "L" +:+ pretty n.

Definition AllocateLabel (f : Builder) : string * Builder :=
  let l := label_name (size (b_labels f) + size (b_fixups f)) in
  (l, mkBuilder (b_strings f) (b_body f) (b_labels f) (<[l := []]> (b_fixups f))).

(** [f.body[fixup] = adr] for every fixup; a fixup out of range panics. *)
Definition patch (adr : Z) (fixups : list Z) (body : list Z) : go gerr (list Z) :=
  foldl (fun r i => let! body := r in go_set body i adr) (GoRet body) fixups.

Definition SetLabelPos (label : string) (f : Builder) : go gerr Builder :=
  match b_labels f !! label with
  | Some _ => GoPanic (PMsg "il.Builder: setting the label position twice.")
  | None =>
      let adr := u32 (zlength (b_body f)) in
      let labels := <[label := adr]> (b_labels f) in
      match b_fixups f !! label with
      | Some fixups =>
          let! body := patch adr fixups (b_body f) in
          GoRet (mkBuilder (b_strings f) body labels (delete label (b_fixups f)))
      | None => GoRet (mkBuilder (b_strings f) (b_body f) labels (b_fixups f))
      end
  end.

Definition b_jump (op : Opcode) (label : string) (f : Builder) : Builder :=
  let adr := default 0 (b_labels f !! label) in
  let f' := op1 op adr f in
  if adr =? 0 then
    let fixup := u32 (zlength (b_body f') - 1) in
    mkBuilder (b_strings f') (b_body f') (b_labels f')
      (<[label := default [] (b_fixups f' !! label) ++ [fixup]]> (b_fixups f'))
  else f'.

Definition b_Jz := b_jump Op.Jz.
Definition b_Jnz := b_jump Op.Jnz.
Definition b_Jmp := b_jump Op.Jmp.
