(* ===== verification/Interp.v ===== *)
(** * The interpreter: package [il/interpreter]

    [src/pkg/il/interpreter]: the stack machine of [interpreterRun.go], one
    definition per [case] of its [switch], the call frames ([stackFrame.go]),
    the results ([result.go]) and the extern functions ([extern.go]).  A Go
    run-time panic (index out of range, failed type assertion, nil
    dereference) is the [GoPanic] outcome of a step, an [error] its [GoErr]
    outcome. *)

From Stdlib Require Import ZArith Lia.
From stdpp Require Import base list gmap strings relations.
From S2P Require Import Prelude Il.

Open Scope Z_scope.

(** ** Sizes *)

Definition callStackSize : Z := 64.
Definition opStackSize : Z := 64.
Definition registerCount : Z := 4.
Definition heapSize : Z := 64.

Definition typeStackAllocSize (t : ilType) : Z :=
  match t with
  | Ty.Unknown | Ty.Void => 0
  | Ty.String | Ty.Bool | Ty.Interface => 1
  | Ty.Integer | Ty.Duration | Ty.Double => 2
  end.

Definition typesStackAllocSize (ts : list ilType) : Z :=
  foldl (fun result t => u32 (result + typeStackAllocSize t)) 0 ts.

(** ** State *)

Record stackFrame : Type := mkFrame {
  sf_registers : list Z;
  sf_sp : Z;
  sf_ip : Z;
  sf_fn : option Function
}.

(** The locals of [run] that live across instructions.  [m_fn] is the
    variable [fn]; [m_strings] is the string table of the program, which the
    resolve and lookup instructions extend. *)
Record machine : Type := mkMachine {
  registers : list Z;
  sp : Z;
  ip : Z;
  fp : Z;
  opstack : list Z;
  frames : list stackFrame;
  heap : list iface;
  hp : Z;
  m_fn : option Function;
  m_strings : StringTable
}.

Definition set_registers r m := mkMachine r (sp m) (ip m) (fp m) (opstack m) (frames m) (heap m) (hp m) (m_fn m) (m_strings m).
Definition set_sp x m := mkMachine (registers m) x (ip m) (fp m) (opstack m) (frames m) (heap m) (hp m) (m_fn m) (m_strings m).
Definition set_ip x m := mkMachine (registers m) (sp m) x (fp m) (opstack m) (frames m) (heap m) (hp m) (m_fn m) (m_strings m).
Definition set_fp x m := mkMachine (registers m) (sp m) (ip m) x (opstack m) (frames m) (heap m) (hp m) (m_fn m) (m_strings m).
Definition set_opstack x m := mkMachine (registers m) (sp m) (ip m) (fp m) x (frames m) (heap m) (hp m) (m_fn m) (m_strings m).
Definition set_frames x m := mkMachine (registers m) (sp m) (ip m) (fp m) (opstack m) x (heap m) (hp m) (m_fn m) (m_strings m).
Definition set_heap x h m := mkMachine (registers m) (sp m) (ip m) (fp m) (opstack m) (frames m) x h (m_fn m) (m_strings m).
Definition set_fn x m := mkMachine (registers m) (sp m) (ip m) (fp m) (opstack m) (frames m) (heap m) (hp m) x (m_strings m).
Definition set_strings x m := mkMachine (registers m) (sp m) (ip m) (fp m) (opstack m) (frames m) (heap m) (hp m) (m_fn m) x.

(** [stackFrame.save] and [stackFrame.restore].  Go's [copy(dst, src)] has the
    destination first, so [save] overwrites the live registers with those of
    the frame and [restore] overwrites those of the frame. *)
Definition save (s : stackFrame) (regs : list Z) (sp ip : Z) (fn : option Function)
    : list Z * stackFrame :=
  (sf_registers s, mkFrame (sf_registers s) sp ip fn).

Definition restore (s : stackFrame) (regs : list Z) : stackFrame :=
  mkFrame regs (sf_sp s) (sf_ip s) (sf_fn s).

(** ** Results ([result.go]) *)

Record Result : Type := mkResult {
  r_vs : string;
  r_vi : iface;
  r_t : ilType;
  r_v1 : Z;
  r_v2 : Z
}.

Definition AsBool (r : Result) : go gerr bool :=
  if decide (r_t r = Ty.Bool) then GoRet (negb (r_v1 r =? 0))
  else GoPanic (PMsg "interpreter.Result: result is not bool").

Definition AsInteger (r : Result) : go gerr Z :=
  if decide (r_t r = Ty.Integer) then GoRet (ByteCodeToInteger (r_v1 r) (r_v2 r))
  else GoPanic (PMsg "interpreter.Result: result is not integer").

Definition AsDouble (r : Result) : go gerr float64 :=
  if decide (r_t r = Ty.Double) then GoRet (ByteCodeToDouble (r_v1 r) (r_v2 r))
  else GoPanic (PMsg "interpreter.Result: result is not double").

Definition AsDuration (r : Result) : go gerr Z :=
  if decide (r_t r = Ty.Duration) then GoRet (ByteCodeToInteger (r_v1 r) (r_v2 r))
  else GoPanic (PMsg "interpreter.Result: result is not Duration").

(** [Result.AsInterface]; an empty string becomes [nil]. *)
Definition AsInterface (r : Result) : go gerr iface :=
  match r_t r with
  | Ty.Bool => let! b := AsBool r in GoRet (Some (VBool b))
  | Ty.String => GoRet (if decide (r_vs r = "") then None else Some (VStr (r_vs r)))
  | Ty.Integer => let! z := AsInteger r in GoRet (Some (VInt z))
  | Ty.Double => let! z := AsDouble r in GoRet (Some (VDouble z))
  | Ty.Duration => let! z := AsDuration r in GoRet (Some (VDur z))
  | Ty.Void => GoRet None
  | Ty.Interface => GoRet (r_vi r)
  | Ty.Unknown => GoRet None
  end.

(** ** Externs ([extern.go])

    What [reflect] tells of the type of a Go function. *)

Inductive gotype : Type :=
| GString | GBool | GInt64 | GDuration | GFloat64
| GMap (key elem : gotype) | GSlice (elem : gotype) | GStruct (name : string)
| GUint8 | GError | GOther.

Definition is_string_kind (t : gotype) : bool := match t with GString => true | _ => false end.
Definition is_uint8_kind (t : gotype) : bool := match t with GUint8 => true | _ => false end.
Definition implements_error (t : gotype) : bool := match t with GError => true | _ => false end.

Definition extern_ilType (t : gotype) : ilType :=
  match t with
  | GString => Ty.String
  | GBool => Ty.Bool
  | GDuration => Ty.Duration
  | GInt64 => Ty.Integer
  | GFloat64 => Ty.Double
  | GMap k e => if is_string_kind k || is_string_kind e then Ty.Interface else Ty.Unknown
  | GSlice e => if is_uint8_kind e then Ty.Interface else Ty.Unknown
  | GStruct n => if bool_decide (n = "Time") then Ty.Interface else Ty.Unknown
  | _ => Ty.Unknown
  end.

(** The Go values a call returns: none, one value, one error, or a value and
    an error. *)
Inductive outs : Type :=
| Out0
| Out1 (v : iface)
| OutErr (e : option gerr)
| Out2 (v : iface) (e : option gerr).

Record Extern : Type := mkExtern {
  ext_name : string;
  paramTypes : list ilType;
  returnType : ilType;
  ext_call : list iface → go gerr outs
}.

(** The extern a missing key of the map denotes: calling the zero
    [reflect.Value] panics. *)
Definition zeroExtern : Extern := mkExtern "" [] Ty.Unknown (fun _ => GoPanic PNil).

Definition extern_params (ins : list gotype) : go gerr (list ilType) :=
  foldr (fun t r =>
           if decide (extern_ilType t = Ty.Unknown)
           then GoPanic (PMsg "interpreter.ExternFromFn: incompatible parameter type")
           else let! ts := r in GoRet (extern_ilType t :: ts)) (GoRet []) ins.

Definition extern_ret (os : list gotype) : go gerr ilType :=
  match os with
  | [] => GoRet Ty.Void
  | [t] => GoRet (if implements_error t then Ty.Void else extern_ilType t)
  | [t; e] =>
      if implements_error e then GoRet (extern_ilType t)
      else GoPanic (PMsg "interpreter.ExternFromFn: the second return value is not an error")
  | _ => GoPanic (PMsg "interpreter.ExternFromFn: more than two return values are not allowed")
  end.

Definition ExternFromFn (name : string) (ins os : list gotype) (f : list iface → go gerr outs)
    : go gerr Extern :=
  let! rt := extern_ret os in
  if decide (rt = Ty.Unknown)
  then GoPanic (PMsg "interpreter.ExternFromFn: incompatible return type")
  else
    let! ps := extern_params ins in
    GoRet (mkExtern name ps rt f).

(** One parameter of [invoke], read from the stack at [ap]. *)
Definition invoke_param (t : ilType) (m : machine) (ap : Z) : go gerr iface :=
  match t with
  | Ty.String =>
      let! id := go_get (opstack m) ap in
      match GetString id (m_strings m) with
      | Some s => GoRet (Some (VStr s)) | None => GoPanic PIndex
      end
  | Ty.Bool =>
      let! w := go_get (opstack m) ap in GoRet (Some (VBool (negb (w =? 0))))
  | Ty.Integer =>
      let! w1 := go_get (opstack m) (u32 (ap + 1)) in
      let! w0 := go_get (opstack m) ap in
      GoRet (Some (VInt (ByteCodeToInteger w1 w0)))
  | Ty.Duration =>
      let! w1 := go_get (opstack m) (u32 (ap + 1)) in
      let! w0 := go_get (opstack m) ap in
      GoRet (Some (VDur (ByteCodeToInteger w1 w0)))
  | Ty.Double =>
      let! w1 := go_get (opstack m) (u32 (ap + 1)) in
      let! w0 := go_get (opstack m) ap in
      GoRet (Some (VDouble (ByteCodeToDouble w1 w0)))
  | Ty.Interface =>
      let! w := go_get (opstack m) ap in
      go_get (heap m) w
  | _ => GoPanic (PMsg "interpreter.Extern.invoke: unrecognized parameter type")
  end.

Fixpoint invoke_params (ts : list ilType) (m : machine) (ap : Z) : go gerr (list iface) :=
  match ts with
  | [] => GoRet []
  | t :: ts' =>
      let! v := invoke_param t m ap in
      let! vs := invoke_params ts' m (u32 (ap + typeStackAllocSize t)) in
      GoRet (v :: vs)
  end.

(** The value the call returned, or the error it reported. *)
Definition invoke_outs (rt : ilType) (o : outs) : go gerr iface :=
  match o with
  | Out0 => GoRet None
  | Out1 v => GoRet v
  | OutErr (Some e) => GoErr e
  | OutErr None => GoRet None
  | Out2 _ (Some e) => GoErr e
  | Out2 v None => GoRet v
  end.

(** The result as two words; an interface value goes to the heap, without a
    check of the heap bound. *)
Definition invoke_result (rt : ilType) (rv : iface) (m : machine) : go gerr (Z * Z * machine) :=
  match rt, rv with
  | Ty.String, Some (VStr s) =>
      let '(id, t) := GetID s (m_strings m) in GoRet (id, 0, set_strings t m)
  | Ty.Bool, Some (VBool b) => GoRet (BoolToByteCode b, 0, m)
  | Ty.Integer, Some (VInt i) | Ty.Duration, Some (VDur i) =>
      let '(o1, o2) := IntegerToByteCode i in GoRet (o2, o1, m)
  | Ty.Double, Some (VDouble d) =>
      let '(o1, o2) := DoubleToByteCode d in GoRet (o2, o1, m)
  | Ty.Interface, r =>
      let! h := go_set (heap m) (hp m) r in
      GoRet (hp m, 0, set_heap h (u32 (hp m + 1)) m)
  | Ty.Void, _ => GoRet (0, 0, m)
  | Ty.Unknown, _ => GoPanic (PMsg "interpreter.Extern.invoke: unrecognized return type")
  | _, _ => GoPanic PType
  end.

Definition invoke (e : Extern) (m : machine) : go gerr (Z * Z * machine) :=
  let! ins := invoke_params (paramTypes e) m (u32 (sp m - typesStackAllocSize (paramTypes e))) in
  let! o := ext_call e ins in
  let! rv := invoke_outs (returnType e) o in
  invoke_result (returnType e) rv m.

(** ** The interpreter *)

Record Interpreter : Type := mkInterpreter {
  program : Program;
  code : list Z;
  externs : gmap string Extern
}.

(** [newIntr]: the byte code is copied before the externs are declared.  The
    iteration order over the extern map only decides the ids of names that are
    not interned yet. *)
Definition newIntr (p : Program) (es : gmap string Extern) : Interpreter :=
  mkInterpreter
    (foldl (fun p e => AddExternDef (ext_name e) (paramTypes e) (returnType e) p) p
       ((map_to_list es).*2))
    (ByteCode p) es.

(** [bag.Get]. *)
Definition bag : Type := string → option iface.

(** ** Guards and operand access: the macros of [interpreterRun.got] *)

Definition OVERFLOW_GUARD (i : Z) (m : machine) : go gerr unit :=
  if sp m >? u32 (opStackSize - i) then GoErr (errors_New "stack overflow") else GoRet ().
Definition UNDERFLOW_GUARD (i : Z) (m : machine) : go gerr unit :=
  if sp m <? i then GoErr (errors_New "stack underflow") else GoRet ().

Definition PUSH (v : Z) (m : machine) : go gerr machine :=
  let! s := go_set (opstack m) (sp m) v in
  GoRet (set_sp (u32 (sp m + 1)) (set_opstack s m)).

Definition PUSH2 (t1 t2 : Z) (m : machine) : go gerr machine :=
  let! s := go_set (opstack m) (sp m) t1 in
  let! s := go_set s (u32 (sp m + 1)) t2 in
  GoRet (set_sp (u32 (sp m + 2)) (set_opstack s m)).

(** [opstack[sp-k]]. *)
Definition PEEK (k : Z) (m : machine) : go gerr Z := go_get (opstack m) (u32 (sp m - k)).

Definition DROP (k : Z) (m : machine) : machine := set_sp (u32 (sp m - k)) m.

(** The two words of a 64-bit value, high word below low word. *)
Definition PUSH64 (z : Z) (m : machine) : go gerr machine :=
  PUSH2 (u32 (Z.shiftr z 32)) (u32 (Z.land z 4294967295)) m.

Section Run.
Context (i : Interpreter) (get : bag).

Definition LOAD (m : machine) : go gerr (Z * machine) :=
  let! t := go_get (code i) (ip m) in
  GoRet (t, set_ip (u32 (ip m + 1)) m).

Definition LOAD2 (m : machine) : go gerr (Z * Z * machine) :=
  let! t1 := go_get (code i) (ip m) in
  let! t2 := go_get (code i) (u32 (ip m + 1)) in
  GoRet (t1, t2, set_ip (u32 (ip m + 2)) m).

Definition STR (id : Z) (m : machine) : go gerr string :=
  match GetString id (m_strings m) with Some s => GoRet s | None => GoPanic PIndex end.

Definition INTERN (s : string) (m : machine) : Z * machine :=
  let '(id, t) := GetID s (m_strings m) in (id, set_strings t m).

(** [Err], [Errz], [Errnz]. *)
Definition op_Err (m : machine) : go gerr machine :=
  let! (t1, m) := LOAD m in
  let! s := STR t1 m in
  GoErr (errors_New s).

Definition op_Errz (nz : bool) (m : machine) : go gerr machine :=
  let! _ := UNDERFLOW_GUARD 1 m in
  let! (t1, m) := LOAD m in
  let m := DROP 1 m in
  let! t2 := go_get (opstack m) (sp m) in
  if Bool.eqb (t2 =? 0) (negb nz) then
    let! s := STR t1 m in GoErr (errors_New s)
  else GoRet m.

(** [PopS]/[PopB] and [PopI]/[PopD]. *)
Definition op_Pop (n : Z) (m : machine) : go gerr machine :=
  let! _ := UNDERFLOW_GUARD n m in GoRet (DROP n m).

Definition op_Dup1 (m : machine) : go gerr machine :=
  let! _ := UNDERFLOW_GUARD 1 m in
  let! _ := OVERFLOW_GUARD 1 m in
  let! v := PEEK 1 m in PUSH v m.

Definition op_Dup2 (m : machine) : go gerr machine :=
  let! _ := UNDERFLOW_GUARD 2 m in
  let! _ := OVERFLOW_GUARD 2 m in
  let! v := PEEK 2 m in
  let! s := go_set (opstack m) (sp m) v in
  let! v := go_get s (u32 (sp m - 1)) in
  let! s := go_set s (u32 (sp m + 1)) v in
  GoRet (set_sp (u32 (sp m + 2)) (set_opstack s m)).

(** [RLoad*], [ALoad*], [RPush*]. *)
Definition op_RLoad1 (m : machine) : go gerr machine :=
  let! _ := UNDERFLOW_GUARD 1 m in
  let! (t1, m) := LOAD m in
  let m := DROP 1 m in
  let! v := go_get (opstack m) (sp m) in
  let! r := go_set (registers m) t1 v in
  GoRet (set_registers r m).

Definition op_RLoad2 (m : machine) : go gerr machine :=
  let! _ := UNDERFLOW_GUARD 2 m in
  let! (t1, m) := LOAD m in
  let! v := PEEK 1 m in
  let! r := go_set (registers m) t1 v in
  let! v := PEEK 2 m in
  let! r := go_set r (u32 (t1 + 1)) v in
  GoRet (DROP 2 (set_registers r m)).

Definition op_ALoad1 (m : machine) : go gerr machine :=
  let! (t1, m) := LOAD m in
  let! (v, m) := LOAD m in
  let! r := go_set (registers m) t1 v in
  GoRet (set_registers r m).

Definition op_ALoad2 (m : machine) : go gerr machine :=
  let! (t1, m) := LOAD m in
  let! (v1, v2, m) := LOAD2 m in
  let! r := go_set (registers m) t1 v1 in
  let! r := go_set r (u32 (t1 + 1)) v2 in
  GoRet (set_registers r m).

Definition op_RPush1 (m : machine) : go gerr machine :=
  let! (t1, m) := LOAD m in
  let! _ := OVERFLOW_GUARD 1 m in
  let! v := go_get (registers m) t1 in
  PUSH v m.

Definition op_RPush2 (m : machine) : go gerr machine :=
  let! (t1, m) := LOAD m in
  let! _ := OVERFLOW_GUARD 1 m in
  let! v := go_get (registers m) (u32 (t1 + 1)) in
  let! s := go_set (opstack m) (sp m) v in
  let! v := go_get (registers m) t1 in
  let! s := go_set s (u32 (sp m + 1)) v in
  GoRet (set_sp (u32 (sp m + 2)) (set_opstack s m)).

Definition op_APush1 (m : machine) : go gerr machine :=
  let! (t1, m) := LOAD m in
  let! _ := OVERFLOW_GUARD 1 m in
  PUSH t1 m.

Definition op_APush2 (m : machine) : go gerr machine :=
  let! (t1, t2, m) := LOAD2 m in
  let! _ := OVERFLOW_GUARD 2 m in
  PUSH2 t2 t1 m.

(** Equality: words for strings and booleans, both words for 64-bit values. *)
Definition op_Eq1 (m : machine) : go gerr machine :=
  let! _ := UNDERFLOW_GUARD 2 m in
  let! t1 := PEEK 1 m in
  let! t2 := PEEK 2 m in
  PUSH (if t1 =? t2 then 1 else 0) (DROP 2 m).

Definition op_Eq2 (m : machine) : go gerr machine :=
  let! _ := UNDERFLOW_GUARD 4 m in
  let! a := PEEK 1 m in
  let! b := PEEK 3 m in
  let! c := PEEK 2 m in
  let! d := PEEK 4 m in
  PUSH (if (a =? b) && (c =? d) then 1 else 0) (DROP 4 m).

Definition op_AEq1 (m : machine) : go gerr machine :=
  let! (t1, m) := LOAD m in
  let! _ := UNDERFLOW_GUARD 1 m in
  let m := DROP 1 m in
  let! t2 := go_get (opstack m) (sp m) in
  PUSH (if t1 =? t2 then 1 else 0) m.

Definition op_AEq2 (m : machine) : go gerr machine :=
  let! (t1, t2, m) := LOAD2 m in
  let! _ := UNDERFLOW_GUARD 2 m in
  let! a := PEEK 1 m in
  let! b := PEEK 2 m in
  PUSH (if (a =? t1) && (b =? t2) then 1 else 0) (DROP 2 m).

(** Boolean operators on words. *)
Definition w_xor (t1 t2 : Z) : Z :=
  if ((t1 =? 0) && (t2 =? 0)) || (negb (t1 =? 0) && negb (t2 =? 0)) then 0 else 1.
Definition w_and (t1 t2 : Z) : Z := if negb (t1 =? 0) && negb (t2 =? 0) then 1 else 0.
Definition w_or (t1 t2 : Z) : Z := if (t1 =? 0) && (t2 =? 0) then 0 else 1.

Definition op_Logic (f : Z → Z → Z) (m : machine) : go gerr machine :=
  let! _ := UNDERFLOW_GUARD 2 m in
  let! t1 := PEEK 1 m in
  let! t2 := PEEK 2 m in
  PUSH (f t1 t2) (DROP 2 m).

Definition op_ALogic (f : Z → Z → Z) (m : machine) : go gerr machine :=
  let! (t1, m) := LOAD m in
  let! _ := UNDERFLOW_GUARD 1 m in
  let m := DROP 1 m in
  let! t2 := go_get (opstack m) (sp m) in
  PUSH (f t1 t2) m.

Definition op_Not (m : machine) : go gerr machine :=
  let! _ := UNDERFLOW_GUARD 1 m in
  let! t := PEEK 1 m in
  let! s := go_set (opstack m) (u32 (sp m - 1)) (if t =? 0 then 1 else 0) in
  GoRet (set_opstack s m).

(** Attribute resolution. *)
Definition err_lookup (s : string) : gerr := Errorf "lookup failed: '%v'" [AStr s].
Definition err_convert (ty : string) (v : iface) : gerr :=
  Errorf ("error converting value to " +:+ ty +:+ ": '%v'") [AVal v].

Definition as_string (v : iface) : option string :=
  match v with Some (VStr s) => Some s | _ => None end.
Definition as_bool (v : iface) : option bool :=
  match v with Some (VBool b) => Some b | _ => None end.
Definition as_int (v : iface) : option Z :=
  match v with Some (VInt z) | Some (VDur z) => Some z | _ => None end.
Definition as_double (v : iface) : option float64 :=
  match v with Some (VDouble d) => Some d | _ => None end.
Definition as_map (v : iface) : go gerr (gmap string string) :=
  match v with Some (VMap m) => GoRet m | _ => GoPanic PType end.

Definition push_string (v : iface) (m : machine) : go gerr machine :=
  match as_string v with
  | None => GoErr (err_convert "string" v)
  | Some s => let '(id, m) := INTERN s m in PUSH id m
  end.

Definition push_bool (v : iface) (m : machine) : go gerr machine :=
  match as_bool v with
  | None => GoErr (err_convert "bool" v)
  | Some b => PUSH (BoolToByteCode b) m
  end.

Definition push_int (v : iface) (m : machine) : go gerr machine :=
  match as_int v with
  | None => GoErr (err_convert "integer or duration" v)
  | Some z => PUSH64 z m
  end.

Definition push_double (v : iface) (m : machine) : go gerr machine :=
  match as_double v with
  | None => GoErr (err_convert "double" v)
  | Some d => PUSH64 d m
  end.

Definition push_iface (v : iface) (m : machine) : go gerr machine :=
  if hp m =? heapSize - 1 then GoErr (errors_New "heap overflow")
  else
    let! h := go_set (heap m) (hp m) v in
    let t2 := hp m in
    PUSH t2 (set_heap h (u32 (hp m + 1)) m).

(** [Resolve*]: [room] words must be free; [push] converts and pushes. *)
Definition op_Resolve (room : Z) (push : iface → machine → go gerr machine) (m : machine)
    : go gerr machine :=
  let! _ := OVERFLOW_GUARD room m in
  let! (t1, m) := LOAD m in
  let! s := STR t1 m in
  match get s with
  | None => GoErr (err_lookup s)
  | Some v => push v m
  end.

(** [TResolve*]: 0 when the attribute is missing, its value and 1 otherwise. *)
Definition op_TResolve (room : Z) (push : iface → machine → go gerr machine) (m : machine)
    : go gerr machine :=
  let! _ := OVERFLOW_GUARD room m in
  let! (t1, m) := LOAD m in
  let! s := STR t1 m in
  match get s with
  | None => PUSH 0 m
  | Some v => let! m := push v m in PUSH 1 m
  end.

(** Arithmetic. *)
Definition word64 (t1 t2 : Z) : Z := i64 (t1 + i64 (Z.shiftl t2 32)).

Definition op_AddSubI (neg : bool) (m : machine) : go gerr machine :=
  let! _ := UNDERFLOW_GUARD 4 m in
  let! t1 := PEEK 1 m in
  let! t2 := PEEK 2 m in
  let m := DROP 2 m in
  let ti64 := if neg then i64 (word64 t1 t2 * -1) else word64 t1 t2 in
  let! t1 := PEEK 1 m in
  let! t2 := PEEK 2 m in
  let m := DROP 2 m in
  PUSH64 (i64 (ti64 + word64 t1 t2)) m.

Definition op_AAddSubI (neg : bool) (m : machine) : go gerr machine :=
  let! _ := UNDERFLOW_GUARD 2 m in
  let! (t1, t2, m) := LOAD2 m in
  let ti64 := if neg then i64 (word64 t1 t2 * -1) else word64 t1 t2 in
  let! t1 := PEEK 1 m in
  let! t2 := PEEK 2 m in
  let m := DROP 2 m in
  PUSH64 (i64 (ti64 + word64 t1 t2)) m.

Definition op_AddSubD (neg : bool) (m : machine) : go gerr machine :=
  let! _ := UNDERFLOW_GUARD 4 m in
  let! t1 := PEEK 1 m in
  let! t2 := PEEK 2 m in
  let m := DROP 2 m in
  let tf64 := ByteCodeToDouble t1 t2 in
  let tf64 := if neg then f64_mul tf64 f64_minus_one else tf64 in
  let! t1 := PEEK 1 m in
  let! t2 := PEEK 2 m in
  let m := DROP 2 m in
  PUSH64 (f64_add tf64 (ByteCodeToDouble t1 t2)) m.

Definition op_AAddSubD (neg : bool) (m : machine) : go gerr machine :=
  let! _ := UNDERFLOW_GUARD 2 m in
  let! (t1, t2, m) := LOAD2 m in
  let tf64 := ByteCodeToDouble t1 t2 in
  let tf64 := if neg then f64_mul tf64 f64_minus_one else tf64 in
  let! t1 := PEEK 1 m in
  let! t2 := PEEK 2 m in
  let m := DROP 2 m in
  PUSH64 (f64_add tf64 (ByteCodeToDouble t1 t2)) m.

(** Jumps. *)
Definition op_Jmp (m : machine) : go gerr machine :=
  let! (t1, m) := LOAD m in GoRet (set_ip t1 m).

Definition op_Jcond (nz : bool) (m : machine) : go gerr machine :=
  let! _ := UNDERFLOW_GUARD 1 m in
  let! (t1, m) := LOAD m in
  let m := DROP 1 m in
  let! t2 := go_get (opstack m) (sp m) in
  GoRet (if Bool.eqb (t2 =? 0) (negb nz) then set_ip t1 m else m).

(** [Call].  The callee is bound by [fn := ...], a new variable: the
    function the machine runs stays [m_fn]. *)
Definition op_Call (m : machine) : go gerr machine :=
  let! (t1, m) := LOAD m in
  let! fr := go_get (frames m) (fp m) in
  match m_fn m with
  | None => GoPanic PNil
  | Some fn =>
      let '(regs, fr) := save fr (registers m)
        (u32 (sp m - typesStackAllocSize (Parameters fn))) (ip m) (m_fn m) in
      let! frs := go_set (frames m) (fp m) fr in
      let m := set_fp (u32 (fp m + 1)) (set_frames frs (set_registers regs m)) in
      match GetByID t1 (p_functions (program i)) with
      | None =>
          let! s := STR t1 m in GoErr (Errorf "function not found: '%s'" [AStr s])
      | Some fn =>
          if Address fn =? 0 then
            let m := set_fp (u32 (fp m - 1)) m in
            let! name := STR t1 m in
            let ext := default zeroExtern (externs i !! name) in
            let t2 := typesStackAllocSize (Parameters fn) in
            let! _ := UNDERFLOW_GUARD t2 m in
            let! (t1, t3, m) := invoke ext m in
            let! s := go_set (opstack m) (u32 (sp m - t2)) t1 in
            let! s := go_set s (u32 (sp m - t2 + 1)) t3 in
            GoRet (set_sp (u32 (sp m - u32 (t2 - typeStackAllocSize (ReturnType fn)))) (set_opstack s m))
          else GoRet (set_ip (Address fn) m)
      end
  end.

(** [Ret] from the outermost function: the result. *)
Definition ret_result (fn : Function) (m : machine) : go gerr Result :=
  let t := ReturnType fn in
  match t with
  | Ty.Void => GoRet (mkResult "" None t 0 0)
  | Ty.Bool =>
      let! _ := UNDERFLOW_GUARD 1 m in
      let! v1 := PEEK 1 m in
      GoRet (mkResult "" None t v1 0)
  | Ty.Integer | Ty.Double | Ty.Duration =>
      let! _ := UNDERFLOW_GUARD 2 m in
      let! v1 := PEEK 1 m in
      let! v2 := PEEK 2 m in
      GoRet (mkResult "" None t v1 v2)
  | Ty.String =>
      let! _ := UNDERFLOW_GUARD 1 m in
      let! v1 := PEEK 1 m in
      let! s := STR v1 m in
      GoRet (mkResult s None t v1 0)
  | Ty.Interface =>
      let! _ := UNDERFLOW_GUARD 1 m in
      let! v1 := PEEK 1 m in
      let! v := go_get (heap m) v1 in
      GoRet (mkResult "" v t v1 0)
  | Ty.Unknown => GoPanic (PMsg "interpreter.run: unhandled return type")
  end.

(** The loop that moves the returned words down the stack. *)
Fixpoint move_words (n : nat) (k dst src : Z) (s : list Z) : go gerr (list Z) :=
  match n with
  | O => GoRet s
  | S n' =>
      let! w := go_get s (u32 (src + k)) in
      let! s := go_set s (u32 (dst + k)) w in
      move_words n' (k + 1) dst src s
  end.

(** [Ret] from a nested call.  The size of the result is that of [m_fn]. *)
Definition op_RetInner (fn : Function) (m : machine) : go gerr machine :=
  let t1 := typeStackAllocSize (ReturnType fn) in
  let t2 := sp m in
  let fp' := u32 (fp m - 1) in
  let! fr := go_get (frames m) fp' in
  let! frs := go_set (frames m) fp' (restore fr (registers m)) in
  let m := set_fn (sf_fn fr) (set_ip (sf_ip fr) (set_sp (sf_sp fr) (set_frames frs (set_fp fp' m)))) in
  let! s := move_words (Z.to_nat t1) 0 (sp m) (u32 (t2 - t1)) (opstack m) in
  GoRet (set_sp (u32 (sp m + t1)) (set_opstack s m)).

(** String map lookups: [TLookup], [Lookup], [NLookup] take the key from the
    stack, [ALookup] and [ANLookup] from the code. *)
Definition heap_map (t2 : Z) (m : machine) : go gerr (gmap string string) :=
  if t2 >=? hp m then GoErr (errors_New "invalid heap access")
  else let! v := go_get (heap m) t2 in as_map v.

Definition err_member (s : string) : gerr := Errorf "member lookup failed: '%v'" [AStr s].

Definition push_id (s : string) (m : machine) : go gerr machine :=
  let '(id, m) := INTERN s m in PUSH id m.

Definition op_TLookup (m : machine) : go gerr machine :=
  let! _ := UNDERFLOW_GUARD 2 m in
  let! t1 := PEEK 1 m in
  let! t2 := PEEK 2 m in
  let m := DROP 2 m in
  let! k := STR t1 m in
  let! mp := heap_map t2 m in
  match mp !! k with
  | Some s => let '(t3, m) := INTERN s m in PUSH2 t3 1 m
  | None => PUSH 0 m
  end.

Definition op_Lookup (missing : string → go gerr string) (m : machine) : go gerr machine :=
  let! _ := UNDERFLOW_GUARD 2 m in
  let! t1 := PEEK 1 m in
  let! t2 := PEEK 2 m in
  let m := DROP 2 m in
  let! k := STR t1 m in
  let! mp := heap_map t2 m in
  let! s := match mp !! k with Some s => GoRet s | None => missing k end in
  push_id s m.

Definition op_ALookup (missing : string → go gerr string) (m : machine) : go gerr machine :=
  let! _ := UNDERFLOW_GUARD 1 m in
  let! (t1, m) := LOAD m in
  let! k := STR t1 m in
  let m := DROP 1 m in
  let! t2 := go_get (opstack m) (sp m) in
  let! mp := heap_map t2 m in
  let! s := match mp !! k with Some s => GoRet s | None => missing k end in
  push_id s m.

Definition missing_err (k : string) : go gerr string := GoErr (err_member k).
Definition missing_empty (k : string) : go gerr string := GoRet "".

(** The [switch]; [Ret] is in [step]. *)
Definition exec (o : Opcode) (m : machine) : go gerr machine :=
  match o with
  | Op.Halt => GoErr (errors_New "catching fire as instructed")
  | Op.Nop => GoRet m
  | Op.Err => op_Err m
  | Op.Errz => op_Errz false m
  | Op.Errnz => op_Errz true m
  | Op.PopS | Op.PopB => op_Pop 1 m
  | Op.PopI | Op.PopD => op_Pop 2 m
  | Op.DupS | Op.DupB => op_Dup1 m
  | Op.DupI | Op.DupD => op_Dup2 m
  | Op.RLoadS | Op.RLoadB => op_RLoad1 m
  | Op.RLoadI | Op.RLoadD => op_RLoad2 m
  | Op.ALoadS | Op.ALoadB => op_ALoad1 m
  | Op.ALoadI | Op.ALoadD => op_ALoad2 m
  | Op.RPushS | Op.RPushB => op_RPush1 m
  | Op.RPushI | Op.RPushD => op_RPush2 m
  | Op.APushS | Op.APushB => op_APush1 m
  | Op.APushI | Op.APushD => op_APush2 m
  | Op.EqS | Op.EqB => op_Eq1 m
  | Op.EqI | Op.EqD => op_Eq2 m
  | Op.AEqS | Op.AEqB => op_AEq1 m
  | Op.AEqI | Op.AEqD => op_AEq2 m
  | Op.Xor => op_Logic w_xor m
  | Op.And => op_Logic w_and m
  | Op.Or => op_Logic w_or m
  | Op.AXor => op_ALogic w_xor m
  | Op.AAnd => op_ALogic w_and m
  | Op.AOr => op_ALogic w_or m
  | Op.Not => op_Not m
  | Op.ResolveS => op_Resolve 1 push_string m
  | Op.ResolveB => op_Resolve 1 push_bool m
  | Op.ResolveI => op_Resolve 2 push_int m
  | Op.ResolveD => op_Resolve 2 push_double m
  | Op.ResolveF => op_Resolve 2 push_iface m
  | Op.TResolveS => op_TResolve 2 push_string m
  | Op.TResolveB => op_TResolve 2 push_bool m
  | Op.TResolveI => op_TResolve 3 push_int m
  | Op.TResolveD => op_TResolve 3 push_double m
  | Op.TResolveF => op_TResolve 2 push_iface m
  | Op.AddI => op_AddSubI false m
  | Op.SubI => op_AddSubI true m
  | Op.AAddI => op_AAddSubI false m
  | Op.ASubI => op_AAddSubI true m
  | Op.AddD => op_AddSubD false m
  | Op.SubD => op_AddSubD true m
  | Op.AAddD => op_AAddSubD false m
  | Op.ASubD => op_AAddSubD true m
  | Op.Jmp => op_Jmp m
  | Op.Jz => op_Jcond false m
  | Op.Jnz => op_Jcond true m
  | Op.Call => op_Call m
  | Op.TLookup => op_TLookup m
  | Op.Lookup => op_Lookup missing_err m
  | Op.NLookup => op_Lookup missing_empty m
  | Op.ALookup => op_ALookup missing_err m
  | Op.ANLookup => op_ALookup missing_empty m
  | Op.Ret => GoRet m
  end.

(** One iteration of the loop of [run]: the next state, or the result. *)
Definition step (m : machine) : go gerr (machine + Result) :=
  let! c := go_get (code i) (ip m) in
  let m := set_ip (u32 (ip m + 1)) m in
  match opcode_of c with
  | None => GoErr (Errorf "invalid opcode: '%v'" [AStr (opcode_String c)])
  | Some Op.Ret =>
      match m_fn m with
      | None => GoPanic PNil
      | Some fn =>
          if fp m =? 0
          then let! r := ret_result fn m in GoRet (inr r)
          else let! m := op_RetInner fn m in GoRet (inl m)
      end
  | Some o => let! m := exec o m in GoRet (inl m)
  end.

(** The loop.  [None] when the fuel is used up; the string table survives
    an error, since it belongs to the program. *)
Fixpoint loop (fuel : nat) (m : machine) : option (go gerr Result * StringTable) :=
  match fuel with
  | O => None
  | S fuel' =>
      match step m with
      | GoRet (inl m') => loop fuel' m'
      | GoRet (inr r) => Some (GoRet r, m_strings m)
      | GoErr e => Some (GoErr e, m_strings m)
      | GoPanic p => Some (GoPanic p, m_strings m)
      end
  end.

Definition zeroFrame : stackFrame := mkFrame (replicate 4 0) 0 0 None.

Definition initial (fn : Function) (t : StringTable) : machine :=
  mkMachine (replicate (Z.to_nat registerCount) 0) 0 (Address fn) 0
    (replicate (Z.to_nat opStackSize) 0) (replicate (Z.to_nat callStackSize) zeroFrame)
    (replicate (Z.to_nat heapSize) None) 0 (Some fn) t.

Definition run (fuel : nat) (fn : Function) : option (go gerr Result * StringTable) :=
  let t := p_strings (program i) in
  match Parameters fn with
  | [] => loop fuel (initial fn t)
  | _ => Some (GoErr (errors_New "init function must have 0 args"), t)
  end.

(** [Interpreter.Eval]. *)
Definition Eval (fuel : nat) (fnName : string) : option (go gerr Result * StringTable) :=
  match FunctionTable_Get fnName (program i) with
  | None => Some (GoErr (Errorf "function not found: '%s'" [AStr fnName]), p_strings (program i))
  | Some fn => run fuel fn
  end.

(** [Interpreter.EvalFnID]: a missing id is a nil function, dereferenced. *)
Definition EvalFnID (fuel : nat) (id : Z) : option (go gerr Result * StringTable) :=
  match GetByID id (p_functions (program i)) with
  | None => Some (GoPanic PNil, p_strings (program i))
  | Some fn => run fuel fn
  end.
End Run.
