(* ===== verification/Expr.v ===== *)
(** * The expression language: package [expr]

    [src/pkg/expr]: the expression AST and its construction from Go's syntax
    trees ([expr.go]: [process], [newConstant]), the type checker
    ([EvalType]), the tree-walking evaluator with its built-in functions
    ([func.go]) and the extraction of equality matches ([ExtractEQMatches]).

    The parts of Go's library that turn text into values ([strconv],
    [time], [net]) are the operations of the class [GoLib]. *)

From Stdlib Require Import ZArith Lia Ascii.
From stdpp Require Import base list gmap strings.
From S2P Require Import Prelude.

Open Scope Z_scope.

(** ** Value types ([dpb.ValueType]) *)

Inductive ValueType : Type :=
| VALUE_TYPE_UNSPECIFIED | STRING | INT64 | DOUBLE | BOOL | TIMESTAMP | IP_ADDRESS
| EMAIL_ADDRESS | URI | DNS_NAME | DURATION | STRING_MAP.

#[export] Instance ValueType_eq_dec : EqDecision ValueType.
Proof. solve_decision. Defined.

(** ** Tokens *)

Module Tok.

Inductive token : Type :=
| ILLEGAL | EOF | COMMENT | IDENT | INT | FLOAT | IMAG | CHAR | STRING
| ADD | SUB | MUL | QUO | REM | AND | OR | XOR | LAND | LOR
| EQL | LSS | GTR | NOT | NEQ | LEQ | GEQ | LBRACK
| OTHER (n : Z).

End Tok.

Definition tMap (t : Tok.token) : string :=
  match t with
  | Tok.ILLEGAL => "ILLEGAL" | Tok.EOF => "EOF" | Tok.COMMENT => "COMMENT"
  | Tok.IDENT => "IDENT" | Tok.INT => "INT" | Tok.FLOAT => "FLOAT" | Tok.IMAG => "IMAG"
  | Tok.CHAR => "CHAR" | Tok.STRING => "STRING"
  | Tok.ADD => "ADD" | Tok.SUB => "SUB" | Tok.MUL => "MUL" | Tok.QUO => "QUO" | Tok.REM => "REM"
  | Tok.AND => "AND" | Tok.OR => "OR" | Tok.XOR => "XOR" | Tok.LAND => "LAND" | Tok.LOR => "LOR"
  | Tok.EQL => "EQ" | Tok.LSS => "LT" | Tok.GTR => "GT" | Tok.NOT => "NOT"
  | Tok.NEQ => "NEQ" | Tok.LEQ => "LEQ" | Tok.GEQ => "GEQ"
  | Tok.LBRACK => "INDEX"
  | Tok.OTHER _ => ""
  end.

Definition typeMap (t : Tok.token) : ValueType :=
  match t with
  | Tok.INT => INT64
  | Tok.FLOAT => DOUBLE
  | Tok.CHAR | Tok.STRING => STRING
  | _ => VALUE_TYPE_UNSPECIFIED
  end.

(** ** The expression AST *)

Record Constant : Type := mkConst { StrValue : string; c_Value : iface; c_Type : ValueType }.

(** One of [Const], [Var] and [Fn]; [ENone] is the zero [Expression]. *)
#[warnings="-register-all"]
Inductive Expression : Type :=
| EConst (c : Constant)
| EVar (name : string)
| EFn (name : string) (args : list Expression)
| ENone.

Section ExprInd.
Context (P : Expression → Prop).
Hypothesis HC : ∀ c, P (EConst c).
Hypothesis HV : ∀ n, P (EVar n).
Hypothesis HF : ∀ n args, Forall P args → P (EFn n args).
Hypothesis HN : P ENone.
Fixpoint Expression_nested (e : Expression) : P e :=
  match e with
  | EConst c => HC c
  | EVar n => HV n
  | EFn n args =>
      HF n args ((fix go l : Forall P l :=
                    match l with
                    | [] => Forall_nil_2 _
                    | x :: l' => Forall_cons_2 _ _ _ (Expression_nested x) (go l')
                    end) args)
  | ENone => HN
  end.
End ExprInd.

Definition join_args (l : list string) : string :=
  match l with
  | [] => ""
  | s :: l' => foldl (fun acc a => acc +:+ ", " +:+ a) s l'
  end.

(** [Expression.String]. *)
Fixpoint expr_String (e : Expression) : string :=
  match e with
  | EConst c => StrValue c
  | EVar n => "$" +:+ n
  | EFn n args => n +:+ "(" +:+ join_args (map expr_String args) +:+ ")"
  | ENone => "<nil>"
  end.

(** ** The parts of Go's library the package calls *)

Class GoLib : Type := {
  ParseFloat : string → go gerr float64;
  Unquote : string → go gerr string;
  ParseDuration : string → option Z;
  ParseIP : string → option string;
  ParseRFC3339 : string → option gotime
}.

(** [strconv.ParseInt(v, 10, 64)]. *)
Definition digit_of (c : Ascii.ascii) : option Z :=
  let n := Z.of_nat (Ascii.nat_of_ascii c) in
  if (48 <=? n) && (n <=? 57) then Some (n - 48) else None.

Fixpoint digits (s : string) (acc : Z) : option Z :=
  match s with
  | EmptyString => Some acc
  | String c s' => d ← digit_of c; digits s' (acc * 10 + d)
  end.

Definition digits1 (s : string) : option Z :=
  match s with EmptyString => None | _ => digits s 0 end.

Definition err_syntax (v : string) : gerr :=
  Errorf "strconv.ParseInt: parsing %q: invalid syntax" [AStr v].
Definition err_range (v : string) : gerr :=
  Errorf "strconv.ParseInt: parsing %q: value out of range" [AStr v].

Definition ParseInt (v : string) : go gerr Z :=
  let '(neg, body) :=
    match v with
    | String "-"%char s => (true, s)
    | String "+"%char s => (false, s)
    | s => (false, s)
    end in
  match digits1 body with
  | None => GoErr (err_syntax v)
  | Some n =>
      let z := if neg : bool then - n else n in
      if (- 2 ^ 63 <=? z) && (z <? 2 ^ 63) then GoRet z else GoErr (err_range v)
  end.

Section Parse.
Context `{GoLib}.

Definition newConstant (v : string) (vType : ValueType) : go gerr Constant :=
  match vType with
  | INT64 => let! z := ParseInt v in GoRet (mkConst v (Some (VInt z)) vType)
  | DOUBLE => let! d := ParseFloat v in GoRet (mkConst v (Some (VDouble d)) vType)
  | _ =>
      let! unquoted := Unquote v in
      match ParseDuration unquoted with
      | Some d => GoRet (mkConst v (Some (VDur d)) DURATION)
      | None => GoRet (mkConst v (Some (VStr unquoted)) vType)
      end
  end.

(** The nodes of [go/ast] that [process] distinguishes. *)
#[warnings="-register-all"]
Inductive ast_Expr : Type :=
| UnaryExpr (op : Tok.token) (x : ast_Expr)
| BinaryExpr (op : Tok.token) (x y : ast_Expr)
| CallExpr (f : ast_Expr) (args : list ast_Expr)
| ParenExpr (x : ast_Expr)
| BasicLit (kind : Tok.token) (value : string)
| Ident (name : string)
| SelectorExpr (x : ast_Expr) (sel : string)
| IndexExpr (x index : ast_Expr)
| OtherExpr.

Definition lower (c : Ascii.ascii) : Ascii.ascii :=
  let n := Ascii.nat_of_ascii c in
  if (65 <=? n)%nat && (n <=? 90)%nat then Ascii.ascii_of_nat (n + 32) else c.
Fixpoint ToLower (s : string) : string :=
  match s with EmptyString => EmptyString | String c s' => String (lower c) (ToLower s') end.

Definition err_unexpected : gerr := Errorf "unexpected expression: %#v" [].

(** [processSelectorExpr]: the selected names, innermost last. *)
Fixpoint processSelectorExpr (x : ast_Expr) (sel : string) : go gerr (list string) :=
  match x with
  | SelectorExpr x' sel' => let! w := processSelectorExpr x' sel' in GoRet (sel :: w)
  | Ident name => GoRet [sel; name]
  | _ => GoErr err_unexpected
  end.

(** The words in reverse order, separated by dots. *)
Definition dotted (w : list string) : string :=
  match rev w with
  | [] => ""
  | a :: l => foldl (fun acc s => acc +:+ "." +:+ s) a l
  end.

Definition processFunc (process : ast_Expr → go gerr Expression) (args : list ast_Expr)
    : go gerr (list Expression) :=
  foldr (fun a r => let! e := process a in let! es := r in GoRet (e :: es)) (GoRet []) args.

Fixpoint process (ex : ast_Expr) : go gerr Expression :=
  match ex with
  | UnaryExpr op x =>
      let! args := processFunc process [x] in GoRet (EFn (tMap op) args)
  | BinaryExpr op x y =>
      let! args := processFunc process [x; y] in GoRet (EFn (tMap op) args)
  | CallExpr (Ident name) args =>
      let! args := processFunc process args in GoRet (EFn name args)
  | CallExpr _ _ => GoErr err_unexpected
  | ParenExpr x => process x
  | BasicLit kind v =>
      let! c := newConstant v (typeMap kind) in GoRet (EConst c)
  | Ident name =>
      let lv := ToLower name in
      if decide (lv = "true" ∨ lv = "false")
      then GoRet (EConst (mkConst lv (Some (VBool (bool_decide (lv = "true")))) BOOL))
      else GoRet (EVar name)
  | SelectorExpr x sel =>
      let! w := processSelectorExpr x sel in GoRet (EVar (dotted w))
  | IndexExpr x index =>
      let! args := processFunc process [x; index] in GoRet (EFn (tMap Tok.LBRACK) args)
  | OtherExpr => GoErr err_unexpected
  end.

(** [Parse], given Go's expression parser. *)
Definition Parse (ParseExpr : string → go gerr ast_Expr) (src : string) : go gerr Expression :=
  match ParseExpr src with
  | GoErr e => GoErr (Errorf "unable to parse expression '%s': %v" [AStr src; AErr e])
  | GoPanic p => GoPanic p
  | GoRet a => process a
  end.
End Parse.

(** ** Functions ([func.go]) *)

Inductive funcKind : Type :=
| eqFunc (invert : bool) | lAndFunc | lOrFunc | orFunc | indexFunc | ipFunc | matchFunc
| timestampFunc.

Record FuncBase : Type := mkFunc {
  f_name : string;
  f_retType : ValueType;
  f_argTypes : list ValueType;
  f_kind : funcKind
}.

Definition newEQ : FuncBase :=
  mkFunc "EQ" BOOL [VALUE_TYPE_UNSPECIFIED; VALUE_TYPE_UNSPECIFIED] (eqFunc false).
Definition newNEQ : FuncBase :=
  mkFunc "NEQ" BOOL [VALUE_TYPE_UNSPECIFIED; VALUE_TYPE_UNSPECIFIED] (eqFunc true).
Definition newLAND : FuncBase := mkFunc "LAND" BOOL [BOOL; BOOL] lAndFunc.
Definition newLOR : FuncBase := mkFunc "LOR" BOOL [BOOL; BOOL] lOrFunc.
Definition newOR : FuncBase :=
  mkFunc "OR" VALUE_TYPE_UNSPECIFIED [VALUE_TYPE_UNSPECIFIED; VALUE_TYPE_UNSPECIFIED] orFunc.
Definition newIndex : FuncBase := mkFunc "INDEX" STRING [STRING_MAP; STRING] indexFunc.
Definition newIP : FuncBase := mkFunc "ip" IP_ADDRESS [STRING] ipFunc.
Definition newMatch : FuncBase := mkFunc "match" BOOL [STRING; STRING] matchFunc.
Definition newTIMESTAMP : FuncBase := mkFunc "timestamp" TIMESTAMP [STRING] timestampFunc.

Definition inventory : list FuncBase :=
  [newEQ; newNEQ; newOR; newLOR; newLAND; newIndex; newIP; newTIMESTAMP; newMatch].

Definition FuncMap : gmap string FuncBase :=
  foldl (fun m fn => <[f_name fn := fn]> m) ∅ inventory.

(** [matchWithWildcards]. *)
Definition matchWithWildcards (s0 s1 : string) : bool :=
  if HasSuffix s1 "*" then HasPrefix s0 (str_take (String.length s1 - 1) s1)
  else if HasPrefix s1 "*" then HasSuffix s0 (str_drop 1 s1)
  else bool_decide (s0 = s1).

(** [net.IP.Equal]: an IPv4 address equals its IPv6-mapped form. *)
Definition v4InV6Prefix : string :=
  String "000"%char (String "000"%char (String "000"%char (String "000"%char (String "000"%char
  (String "000"%char (String "000"%char (String "000"%char (String "000"%char (String "000"%char
  (String "255"%char (String "255"%char EmptyString))))))))))).

Definition ip_Equal (ip x : string) : bool :=
  if (String.length ip =? String.length x)%nat then bool_decide (ip = x)
  else if ((String.length ip =? 4)%nat && (String.length x =? 16)%nat)
       then bool_decide (str_take 12 x = v4InV6Prefix ∧ ip = str_drop 12 x)
  else if ((String.length ip =? 16)%nat && (String.length x =? 4)%nat)
       then bool_decide (str_take 12 ip = v4InV6Prefix ∧ str_drop 12 ip = x)
  else false.

(** [eqFunc.call]. *)
Definition eq_call (a0 a1 : iface) : go gerr bool :=
  match a0 with
  | Some (VBool _) | Some (VInt _) => GoRet (bool_decide (a0 = a1))
  | Some (VDouble d) =>
      GoRet match a1 with Some (VDouble d') => f64_eqb d d' | _ => false end
  | Some (VStr s0) =>
      GoRet match a1 with Some (VStr s1) => matchWithWildcards s0 s1 | _ => false end
  | Some (VBytes s0) =>
      match a1 with
      | Some (VBytes s1) =>
          GoRet (if (String.length s0 =? 4)%nat || (String.length s0 =? 16)%nat
                 then ip_Equal s0 s1 else bool_decide (s0 = s1))
      | _ => GoPanic PType
      end
  | _ => GoRet (bool_decide (a0 = a1))
  end.

(** [logicalAndOr], over the outcomes of the arguments in order. *)
Fixpoint logicalAndOr (exitVal : bool) (evs : list (go gerr iface)) : go gerr iface :=
  match evs with
  | [] => GoRet (Some (VBool (negb exitVal)))
  | r :: evs' =>
      let! ret := r in
      if decide (ret = Some (VBool exitVal)) then GoRet (Some (VBool exitVal))
      else logicalAndOr exitVal evs'
  end.

(** The loop of [orFunc.Call]; [me] accumulates the errors. *)
Fixpoint or_call (me : list gerr) (evs : list (go gerr iface)) : go gerr iface :=
  match evs with
  | [] => GoRet None
  | r :: evs' =>
      match r with
      | GoPanic p => GoPanic p
      | GoErr e =>
          match evs' with
          | [] => GoErr (Errorf "error(s) evaluating OR: %v" (AErr <$> (me ++ [e])))
          | _ => or_call (me ++ [e]) evs'
          end
      | GoRet ret =>
          if decide (ret ≠ None ∧ ret ≠ Some (VStr "")) then GoRet ret else or_call me evs'
      end
  end.

(** The outcome of [args[n].Eval]; a missing argument panics. *)
Definition nth_ev (n : nat) (evs : list (go gerr iface)) : go gerr iface :=
  match evs !! n with Some r => r | None => GoPanic PIndex end.

Section Eval.
Context `{GoLib} (get : string → option iface).

(** [Variable.Eval]. *)
Definition var_Eval (name : string) : go gerr iface :=
  match get name with
  | Some v => GoRet v
  | None => GoErr (Errorf "unresolved attribute %s" [AStr name])
  end.

Definition index_call (args : list Expression) (evs : list (go gerr iface)) : go gerr iface :=
  match args with
  | [] => GoPanic PIndex
  | EVar n :: _ =>
      let! mp := var_Eval n in
      let! key := nth_ev 1 evs in
      match mp, key with
      | Some (VMap m), Some (VStr k) => GoRet (Some (VStr (default "" (m !! k))))
      | _, _ => GoPanic PType
      end
  | _ => GoPanic PNil
  end.

Definition ip_call (evs : list (go gerr iface)) : go gerr iface :=
  let! val := nth_ev 0 evs in
  match val with
  | Some (VStr rawIP) =>
      match ParseIP rawIP with
      | Some ip => GoRet (Some (VBytes ip))
      | None => GoErr (Errorf "could not convert '%s' to IP_ADDRESS" [AStr rawIP])
      end
  | _ => GoErr (errors_New "input to 'ip' func was not a string")
  end.

Definition match_call (evs : list (go gerr iface)) : go gerr iface :=
  let! rawStr := nth_ev 0 evs in
  let! rawPattern := nth_ev 1 evs in
  match rawStr with
  | Some (VStr str) =>
      match rawPattern with
      | Some (VStr pattern) => GoRet (Some (VBool (matchWithWildcards str pattern)))
      | _ => GoErr (errors_New "input 'pattern' to 'match' func was not a string")
      end
  | _ => GoErr (errors_New "input 'str' to 'match' func was not a string")
  end.

Definition timestamp_call (evs : list (go gerr iface)) : go gerr iface :=
  let! val := nth_ev 0 evs in
  match val with
  | Some (VStr rawTime) =>
      match ParseRFC3339 rawTime with
      | Some t => GoRet (Some (VTime t))
      | None => GoErr (Errorf "could not convert '%s' to TIMESTAMP. expected format: '%s'"
                         [AStr rawTime; AStr "2006-01-02T15:04:05Z07:00"])
      end
  | _ => GoErr (errors_New "input to 'timestamp' func was not a string")
  end.

Definition eq_Call (invert : bool) (evs : list (go gerr iface)) : go gerr iface :=
  let! arg0 := nth_ev 0 evs in
  let! arg1 := nth_ev 1 evs in
  let! res := eq_call arg0 arg1 in
  GoRet (Some (VBool (if invert then negb res else res))).

(** [Func.Call]. *)
Definition Call (k : funcKind) (args : list Expression) (evs : list (go gerr iface))
    : go gerr iface :=
  match k with
  | eqFunc invert => eq_Call invert evs
  | lAndFunc => logicalAndOr false evs
  | lOrFunc => logicalAndOr true evs
  | orFunc => or_call [] evs
  | indexFunc => index_call args evs
  | ipFunc => ip_call evs
  | matchFunc => match_call evs
  | timestampFunc => timestamp_call evs
  end.

(** [Expression.Eval]. *)
Fixpoint expr_Eval (fMap : gmap string FuncBase) (e : Expression) : go gerr iface :=
  match e with
  | EConst c => GoRet (c_Value c)
  | EVar n => var_Eval n
  | EFn name args =>
      match fMap !! name with
      | None => GoErr (Errorf "unknown function: %s" [AStr name])
      | Some fn => Call (f_kind fn) args (map (expr_Eval fMap) args)
      end
  | ENone => GoPanic PNil
  end.
End Eval.

(** ** Type checking *)

(** [AttributeDescriptorFinder.GetAttribute]: the type of a known attribute. *)
Definition finder : Type := string → option ValueType.

Section EvalType.
Context (attrs : finder) (fMap : gmap string FuncBase).

(** The loop over arguments and declared types; [tmpl] is the type the
    first argument of unspecified type fixes. *)
Fixpoint check_args (f : Expression) (idx : Z) (tmpl : ValueType)
    (tys : list (Expression * go gerr ValueType)) (expected : list ValueType) : go gerr ValueType :=
  match tys, expected with
  | (a, r) :: tys', ex :: expected' =>
      let! argType := r in
      if decide (ex = VALUE_TYPE_UNSPECIFIED ∧ tmpl = VALUE_TYPE_UNSPECIFIED)
      then check_args f (idx + 1) argType tys' expected'
      else
        let want := if decide (ex = VALUE_TYPE_UNSPECIFIED) then tmpl else ex in
        if decide (argType = want) then check_args f (idx + 1) tmpl tys' expected'
        else GoErr (Errorf "%s arg %d (%s) typeError got %s, expected %s"
                      [AStr (expr_String f); AInt (idx + 1); AStr (expr_String a)])
  | _, _ => GoRet tmpl
  end.

(** [Function.EvalType]. *)
Definition fn_EvalType (name : string) (args : list Expression)
    (tys : list (Expression * go gerr ValueType)) : go gerr ValueType :=
  match fMap !! name with
  | None => GoErr (Errorf "unknown function: %s" [AStr name])
  | Some fn =>
      if (length args <? length (f_argTypes fn))%nat
      then GoErr (Errorf "%s arity mismatch. Got %d arg(s), expected %d arg(s)"
                    [AStr (expr_String (EFn name args)); AInt (zlength args);
                     AInt (zlength (f_argTypes fn))])
      else
        let! tmpl := check_args (EFn name args) 0 VALUE_TYPE_UNSPECIFIED tys (f_argTypes fn) in
        GoRet (if decide (f_retType fn = VALUE_TYPE_UNSPECIFIED) then tmpl else f_retType fn)
  end.

(** [Expression.EvalType]. *)
Fixpoint EvalType (e : Expression) : go gerr ValueType :=
  match e with
  | EConst c => GoRet (c_Type c)
  | EVar n =>
      match attrs n with
      | Some t => GoRet t
      | None => GoErr (Errorf "unknown attribute %s" [AStr n])
      end
  | EFn name args => fn_EvalType name args (map (fun a => (a, EvalType a)) args)
  | ENone => GoPanic PNil
  end.
End EvalType.

(** ** Equality matches *)

(** [recordIfEQ]. *)
Definition recordIfEQ (name : string) (args : list Expression) (eqMap : gmap string iface)
    : go gerr (gmap string iface) :=
  if decide (name = "EQ") then
    match args with
    | [] => GoPanic PIndex
    | EVar x :: rest =>
        match rest with
        | [] => GoPanic PIndex
        | EConst c :: _ => GoRet (<[x := c_Value c]> eqMap)
        | _ => GoRet eqMap
        end
    | EConst c :: rest =>
        match rest with
        | [] => GoPanic PIndex
        | EVar x :: _ => GoRet (<[x := c_Value c]> eqMap)
        | _ => GoRet eqMap
        end
    | _ => GoRet eqMap
    end
  else GoRet eqMap.

(** [extractEQMatches]: down the [LAND]s. *)
Fixpoint extractEQMatches (ex : Expression) (eqMap : gmap string iface)
    : go gerr (gmap string iface) :=
  match ex with
  | EFn name args =>
      let! eqMap := recordIfEQ name args eqMap in
      if decide (name = "LAND") then
        (fix go_args (l : list Expression) (m : gmap string iface) :=
           match l with
           | [] => GoRet m
           | a :: l' => let! m := extractEQMatches a m in go_args l' m
           end) args eqMap
      else GoRet eqMap
  | _ => GoRet eqMap
  end.
