(* ===== verification/Compiler.v ===== *)
(** * The compiler: package [il/compiler]

    [src/pkg/il/compiler/compiler.go]: from the expression AST to byte code,
    through the builder of [il].  Every [generate*] method of the Go generator
    is a definition over the generator state; the recursion through
    [generate] is a parameter of the methods it calls. *)

From Stdlib Require Import ZArith Lia.
From stdpp Require Import base list gmap strings.
From S2P Require Import Prelude Il Expr.

Open Scope Z_scope.

(** The generator: the builder and the first internal error; the finder is a
    parameter of the section. *)
Record generator : Type := mkGen { g_builder : Builder; g_err : option gerr }.

Inductive nilMode : Type := nmNone | nmJmpOnValue.

(** A generator action: it may panic (a failed type assertion, a label placed
    twice); it never returns an error, which goes to [g_err]. *)
Definition gen : Type := generator → go gerr generator.

Definition emit (f : Builder → Builder) (g : generator) : generator :=
  mkGen (f (g_builder g)) (g_err g).

Definition internalError (format : string) (args : list arg) (g : generator) : generator :=
  mkGen (g_builder g)
    match g_err g with
    | Some e => Some e
    | None => Some (Errorf ("internal compiler error -- " +:+ format) args)
    end.

Definition genAllocateLabel (g : generator) : string * generator :=
  let '(l, b) := AllocateLabel (g_builder g) in (l, mkGen b (g_err g)).

Definition genSetLabelPos (l : string) (g : generator) : go gerr generator :=
  let! b := SetLabelPos l (g_builder g) in GoRet (mkGen b (g_err g)).

Definition toIlType (t : ValueType) (g : generator) : ilType * generator :=
  match t with
  | STRING => (Ty.String, g)
  | BOOL => (Ty.Bool, g)
  | INT64 => (Ty.Integer, g)
  | DURATION => (Ty.Duration, g)
  | DOUBLE => (Ty.Double, g)
  | STRING_MAP | IP_ADDRESS | TIMESTAMP => (Ty.Interface, g)
  | _ => (Ty.Unknown, internalError "unhandled expression type: '%v'" [] g)
  end.

(** Type assertions on a constant. *)
Definition assert_bool (v : iface) : go gerr bool :=
  match v with Some (VBool b) => GoRet b | _ => GoPanic PType end.
Definition assert_string (v : iface) : go gerr string :=
  match v with Some (VStr s) => GoRet s | _ => GoPanic PType end.
Definition assert_int (v : iface) : go gerr Z :=
  match v with Some (VInt z) => GoRet z | _ => GoPanic PType end.
Definition assert_double (v : iface) : go gerr float64 :=
  match v with Some (VDouble d) => GoRet d | _ => GoPanic PType end.
Definition assert_duration (v : iface) : go gerr Z :=
  match v with Some (VDur z) => GoRet z | _ => GoPanic PType end.

Section Generate.
Context (fd : finder).

(** The type of an expression; a type error leaves the zero value. *)
Definition value_type (e : Expression) : go gerr ValueType :=
  match EvalType fd FuncMap e with
  | GoRet t => GoRet t
  | GoErr _ => GoRet VALUE_TYPE_UNSPECIFIED
  | GoPanic p => GoPanic p
  end.

Definition evalType (e : Expression) (g : generator) : go gerr (ilType * generator) :=
  let! dvt := value_type e in GoRet (toIlType dvt g).

(** Resolve a variable, or try to and jump when it has a value. *)
Definition resolve_mode (mode : nilMode) (lbl : string)
    (resolve tresolve : Builder → Builder) (g : generator) : generator :=
  match mode with
  | nmNone => emit resolve g
  | nmJmpOnValue => emit (b_Jnz lbl) (emit tresolve g)
  end.

Definition generateVariable (name : string) (mode : nilMode) (lbl : string) (g : generator)
    : go gerr generator :=
  match fd name with
  | None => GoPanic PNil
  | Some vt =>
      let '(t, g) := toIlType vt g in
      GoRet
        match t with
        | Ty.Integer | Ty.Duration =>
            resolve_mode mode lbl (B.ResolveInt name) (B.TResolveInt name) g
        | Ty.String => resolve_mode mode lbl (B.ResolveString name) (B.TResolveString name) g
        | Ty.Bool => resolve_mode mode lbl (B.ResolveBool name) (B.TResolveBool name) g
        | Ty.Double => resolve_mode mode lbl (B.ResolveDouble name) (B.TResolveDouble name) g
        | Ty.Interface =>
            resolve_mode mode lbl (B.ResolveInterface name) (B.TResolveInterface name) g
        | _ => internalError "unrecognized variable type: '%v'" [] g
        end
  end.

Definition generateConstant (c : Constant) (g : generator) : go gerr generator :=
  match c_Type c with
  | STRING => let! s := assert_string (c_Value c) in GoRet (emit (B.APushStr s) g)
  | BOOL => let! b := assert_bool (c_Value c) in GoRet (emit (B.APushBool b) g)
  | INT64 => let! z := assert_int (c_Value c) in GoRet (emit (B.APushInt z) g)
  | DOUBLE => let! d := assert_double (c_Value c) in GoRet (emit (B.APushDouble d) g)
  | DURATION => let! z := assert_duration (c_Value c) in GoRet (emit (B.APushInt z) g)
  | _ => GoRet (internalError "unhandled constant type: %v" [] g)
  end.

Section Methods.
(** [generate], with its depth, nil mode and jump label. *)
Context (generate : Expression → Z → nilMode → string → gen).

(** The comparison instruction, against a constant or the stack. *)
Definition eq_instr (a0 : Expression) (t : ilType) (constArg1 : iface) (g : generator)
    : go gerr generator :=
  let unsupported := internalError "equality for type not yet implemented: %v" [] in
  match t with
  | Ty.Bool =>
      match constArg1 with
      | None => GoRet (emit B.EQBool g)
      | v => let! b := assert_bool v in GoRet (emit (B.AEQBool b) g)
      end
  | Ty.String =>
      match constArg1 with
      | None => GoRet (emit B.EQString g)
      | v => let! s := assert_string v in GoRet (emit (B.AEQString s) g)
      end
  | Ty.Integer =>
      match constArg1 with
      | None => GoRet (emit B.EQInteger g)
      | v => let! z := assert_int v in GoRet (emit (B.AEQInteger z) g)
      end
  | Ty.Double =>
      match constArg1 with
      | None => GoRet (emit B.EQDouble g)
      | v => let! d := assert_double v in GoRet (emit (B.AEQDouble d) g)
      end
  | Ty.Interface =>
      let! dvt := value_type a0 in
      GoRet
        match dvt with
        | IP_ADDRESS => emit (B.Call "ip_equal") g
        | TIMESTAMP => emit (B.Call "timestamp_equal") g
        | _ => unsupported g
        end
  | _ => GoRet (unsupported g)
  end.

Definition generateEq (args : list Expression) (depth : Z) (g : generator) : go gerr generator :=
  match args with
  | [] => GoPanic PIndex
  | a0 :: rest =>
      let! (t, g) := evalType a0 g in
      let! g := generate a0 (depth + 1) nmNone "" g in
      match rest with
      | [] => GoPanic PIndex
      | EConst c :: _ => eq_instr a0 t (c_Value c) g
      | a1 :: _ =>
          let! g := generate a1 (depth + 1) nmNone "" g in
          eq_instr a0 t None g
      end
  end.

Definition generateNeq (args : list Expression) (depth : Z) (g : generator) : go gerr generator :=
  let! g := generateEq args (depth + 1) g in GoRet (emit B.Not g).

Definition generateLor (args : list Expression) (depth : Z) (g : generator) : go gerr generator :=
  match args with
  | [] => GoPanic PIndex
  | a0 :: rest =>
      let! g := generate a0 (depth + 1) nmNone "" g in
      let '(lr, g) := genAllocateLabel g in
      let '(le, g) := genAllocateLabel g in
      let g := emit (B.APushBool true) (emit (b_Jz lr) g) in
      let g := if depth =? 0 then emit B.Ret g else emit (b_Jmp le) g in
      let! g := genSetLabelPos lr g in
      match rest with
      | [] => GoPanic PIndex
      | a1 :: _ =>
          let! g := generate a1 (depth + 1) nmNone "" g in
          if depth =? 0 then GoRet g else genSetLabelPos le g
      end
  end.

Fixpoint generateAll (args : list Expression) (depth : Z) (g : generator) : go gerr generator :=
  match args with
  | [] => GoRet g
  | a :: args' => let! g := generate a depth nmNone "" g in generateAll args' depth g
  end.

Definition generateLand (args : list Expression) (depth : Z) (g : generator) : go gerr generator :=
  let! g := generateAll args (depth + 1) g in GoRet (emit B.And g).

Definition generateIndexNone (args : list Expression) (depth : Z) (g : generator)
    : go gerr generator :=
  match args with
  | [] => GoPanic PIndex
  | a0 :: rest =>
      let! g := generate a0 (depth + 1) nmNone "" g in
      match rest with
      | [] => GoPanic PIndex
      | EConst c :: _ =>
          let! s := assert_string (c_Value c) in GoRet (emit (B.ANLookup s) g)
      | a1 :: _ =>
          let! g := generate a1 (depth + 1) nmNone "" g in
          GoRet (emit B.NLookup g)
      end
  end.

(** The key of a map access that falls through when it is nil. *)
Definition generateIndexKey (a1 : Expression) (depth : Z) (lEnd : string) (g : generator)
    : go gerr generator :=
  match a1 with
  | EConst c => let! s := assert_string (c_Value c) in GoRet (emit (B.APushStr s) g)
  | _ =>
      let '(lArgumentResolved, g) := genAllocateLabel g in
      let! g := generate a1 (depth + 1) nmJmpOnValue lArgumentResolved g in
      let g := emit (b_Jmp lEnd) g in
      genSetLabelPos lArgumentResolved g
  end.

Definition generateIndexJmp (args : list Expression) (depth : Z) (lbl : string) (g : generator)
    : go gerr generator :=
  let '(lEnd, g) := genAllocateLabel g in
  let '(lTargetResolved, g) := genAllocateLabel g in
  match args with
  | [] => GoPanic PIndex
  | a0 :: rest =>
      let! g := generate a0 (depth + 1) nmJmpOnValue lTargetResolved g in
      let g := emit (b_Jmp lEnd) g in
      let! g := genSetLabelPos lTargetResolved g in
      match rest with
      | [] => GoPanic PIndex
      | a1 :: _ =>
          let! g := generateIndexKey a1 depth lEnd g in
          let g := emit (b_Jnz lbl) (emit B.TLookup g) in
          genSetLabelPos lEnd g
      end
  end.

Definition generateIndex (args : list Expression) (depth : Z) (mode : nilMode) (lbl : string)
    (g : generator) : go gerr generator :=
  match mode with
  | nmNone => generateIndexNone args depth g
  | nmJmpOnValue => generateIndexJmp args depth lbl g
  end.

Definition is_or (e : Expression) : bool :=
  match e with EFn name _ => bool_decide (name = "OR") | _ => false end.

Definition generateOr (args : list Expression) (depth : Z) (mode : nilMode) (lbl : string)
    (g : generator) : go gerr generator :=
  match mode with
  | nmNone =>
      let '(lEnd, g) := genAllocateLabel g in
      match args with
      | [] => GoPanic PIndex
      | a0 :: rest =>
          let! g := generate a0 (depth + 1) nmJmpOnValue lEnd g in
          match rest with
          | [] => GoPanic PIndex
          | a1 :: _ =>
              let! g :=
                if is_or a1 then generate a1 (depth + 1) nmJmpOnValue lEnd g
                else generate a1 (depth + 1) nmNone "" g in
              genSetLabelPos lEnd g
          end
      end
  | nmJmpOnValue =>
      match args with
      | [] => GoPanic PIndex
      | a0 :: rest =>
          let! g := generate a0 (depth + 1) nmJmpOnValue lbl g in
          match rest with
          | [] => GoPanic PIndex
          | a1 :: _ => generate a1 (depth + 1) nmJmpOnValue lbl g
          end
      end
  end.

(** The calls of one- and two-argument externs. *)
Definition generateCall1 (name : string) (args : list Expression) (depth : Z) (g : generator)
    : go gerr generator :=
  match args with
  | [] => GoPanic PIndex
  | a0 :: _ =>
      let! g := generate a0 (depth + 1) nmNone "" g in GoRet (emit (B.Call name) g)
  end.

Definition generateCall2 (name : string) (args : list Expression) (depth : Z) (g : generator)
    : go gerr generator :=
  match args with
  | [] => GoPanic PIndex
  | a0 :: rest =>
      let! g := generate a0 (depth + 1) nmNone "" g in
      match rest with
      | [] => GoPanic PIndex
      | a1 :: _ =>
          let! g := generate a1 (depth + 1) nmNone "" g in GoRet (emit (B.Call name) g)
      end
  end.

Definition generateFunction (name : string) (args : list Expression) (depth : Z)
    (mode : nilMode) (lbl : string) (g : generator) : go gerr generator :=
  if decide (name = "EQ") then generateEq args depth g
  else if decide (name = "NEQ") then generateNeq args depth g
  else if decide (name = "LOR") then generateLor args depth g
  else if decide (name = "LAND") then generateLand args depth g
  else if decide (name = "INDEX") then generateIndex args depth mode lbl g
  else if decide (name = "OR") then generateOr args depth mode lbl g
  else if decide (name = "ip") then generateCall1 "ip" args depth g
  else if decide (name = "timestamp") then generateCall1 "timestamp" args depth g
  else if decide (name = "match") then generateCall2 "match" args depth g
  else GoRet (internalError "function not yet implemented: %s" [AStr name] g).
End Methods.

Fixpoint generate (e : Expression) (depth : Z) (mode : nilMode) (lbl : string) (g : generator)
    {struct e} : go gerr generator :=
  match e with
  | EConst c => generateConstant c g
  | EVar n => generateVariable n mode lbl g
  | EFn name args => generateFunction generate name args depth mode lbl g
  | ENone => GoRet (internalError "unexpected expression type encountered." [] g)
  end.

(** [Compile], from the parsed expression. *)
Definition Compile (expression : Expression) : go gerr (Program * Expression) :=
  let p := NewProgram in
  let! exprType := EvalType fd FuncMap expression in
  let g := mkGen (NewBuilder (p_strings p)) None in
  let '(returnType, g) := toIlType exprType g in
  let! g := generate expression 0 nmNone "" g in
  match g_err g with
  | Some e => GoErr e
  | None =>
      let g := emit B.Ret g in
      let p := mkProgram (b_strings (g_builder g)) (p_functions p) (p_code p) in
      match AddFunction "eval" [] returnType (Build (g_builder g)) p with
      | (_, Some e) => GoErr e
      | (p, None) => GoRet (p, expression)
      end
  end.
End Generate.
