(* ===== verification/Evaluator.v ===== *)
(** * The IL evaluator: package [il/evaluator]

    [src/pkg/il/evaluator/evaluator.go]: the extern functions the compiled
    expressions call, and the evaluation of an expression on a cache miss:
    compile, bind to the externs, run and convert the result. *)

From Stdlib Require Import ZArith Lia.
From stdpp Require Import base list gmap strings.
From S2P Require Import Prelude Il Interp Expr Compiler.

Open Scope Z_scope.

(** ** Extern functions *)

Definition the_extern (r : go gerr Extern) : Extern :=
  match r with GoRet e => e | _ => zeroExtern end.

Definition GBytes : gotype := GSlice GUint8.

Section Externs.
Context `{GoLib}.

Definition ip_fn (s : string) : go gerr iface :=
  match ParseIP s with
  | Some ip => GoRet (Some (VBytes ip))
  | None => GoErr (Errorf "could not convert %s to IP_ADDRESS" [AStr s])
  end.

Definition ip_equal_fn (a b : iface) : go gerr bool :=
  match a, b with
  | Some (VBytes ip1), Some (VBytes ip2) => GoRet (ip_Equal ip1 ip2)
  | _, _ => GoPanic PType
  end.

Definition timestamp_fn (s : string) : go gerr iface :=
  match ParseRFC3339 s with
  | Some t => GoRet (Some (VTime t))
  | None => GoErr (Errorf "could not convert '%s' to TIMESTAMP. expected format: '%s'"
                     [AStr s; AStr "2006-01-02T15:04:05Z07:00"])
  end.

(** [time.Time.Equal] compares instants. *)
Definition timestamp_equal_fn (a b : iface) : go gerr bool :=
  match a, b with
  | Some (VTime t1), Some (VTime t2) => GoRet (t_nano t1 =? t_nano t2)
  | _, _ => GoPanic PType
  end.

Definition match_fn (str pattern : string) : bool :=
  if HasSuffix pattern "*" then HasPrefix str (str_take (String.length pattern - 1) pattern)
  else if HasPrefix pattern "*" then HasSuffix str (str_drop 1 pattern)
  else bool_decide (str = pattern).

(** A Go function of one string that returns a value and an error. *)
Definition call_str (f : string → go gerr iface) (ins : list iface) : go gerr outs :=
  match ins with
  | [Some (VStr s)] =>
      match f s with
      | GoRet v => GoRet (Out2 v None)
      | GoErr e => GoRet (Out2 None (Some e))
      | GoPanic p => GoPanic p
      end
  | _ => GoPanic PType
  end.

(** A Go predicate on two values. *)
Definition call_eq (f : iface → iface → go gerr bool) (ins : list iface) : go gerr outs :=
  match ins with
  | [a; b] => let! r := f a b in GoRet (Out1 (Some (VBool r)))
  | _ => GoPanic PType
  end.

Definition match_go (a b : iface) : go gerr bool :=
  match a, b with
  | Some (VStr s), Some (VStr p) => GoRet (match_fn s p)
  | _, _ => GoPanic PType
  end.

Definition ipExternFn : Extern :=
  the_extern (ExternFromFn "ip" [GString] [GBytes; GError] (call_str ip_fn)).
Definition ipEqualExternFn : Extern :=
  the_extern (ExternFromFn "ip_equal" [GBytes; GBytes] [GBool] (call_eq ip_equal_fn)).
Definition timestampExternFn : Extern :=
  the_extern (ExternFromFn "timestamp" [GString] [GStruct "Time"; GError] (call_str timestamp_fn)).
Definition timestampEqualExternFn : Extern :=
  the_extern (ExternFromFn "timestamp_equal" [GStruct "Time"; GStruct "Time"] [GBool]
                (call_eq timestamp_equal_fn)).
Definition matchExternFn : Extern :=
  the_extern (ExternFromFn "match" [GString; GString] [GBool] (call_eq match_go)).

Definition externMap : gmap string Extern :=
  list_to_map
    [("ip", ipExternFn); ("ip_equal", ipEqualExternFn); ("timestamp", timestampExternFn);
     ("timestamp_equal", timestampEqualExternFn); ("match", matchExternFn)].

(** The five externs are accepted, with the IL types of their Go functions. *)
Lemma externs_accepted :
  ipExternFn = mkExtern "ip" [Ty.String] Ty.Interface (call_str ip_fn) ∧
  ipEqualExternFn = mkExtern "ip_equal" [Ty.Interface; Ty.Interface] Ty.Bool (call_eq ip_equal_fn) ∧
  timestampExternFn = mkExtern "timestamp" [Ty.String] Ty.Interface (call_str timestamp_fn) ∧
  timestampEqualExternFn =
    mkExtern "timestamp_equal" [Ty.Interface; Ty.Interface] Ty.Bool (call_eq timestamp_equal_fn) ∧
  matchExternFn = mkExtern "match" [Ty.String; Ty.String] Ty.Bool (call_eq match_go).
Proof. done. Qed.

(** ** Evaluation *)

(** What [getOrCreateCacheEntry] builds on a miss: the expression is compiled
    and bound to the externs. *)
Definition prepare (fd : finder) (e : Expression) : go gerr Interpreter :=
  let! (p, _) := Compile fd e in GoRet (newIntr p externMap).

(** One evaluation of an expression against a bag: compile, bind, run
    ["eval"], convert the result.  [None] when [fuel] is used up. *)
Definition eval_expression (fuel : nat) (fd : finder) (e : Expression) (get : bag)
    : option (go gerr iface) :=
  match prepare fd e with
  | GoErr err => Some (GoErr err)
  | GoPanic p => Some (GoPanic p)
  | GoRet i =>
      match Eval i get fuel "eval" with
      | None => None
      | Some (r, _) => Some (let! r := r in AsInterface r)
      end
  end.
End Externs.
