(* ===== verification/BuilderFacts.v ===== *)
(** * The builder refines symbolic assembly

    The builder of [il] writes jumps to labels that are not placed yet as 0 and
    patches them when the label is placed.  Its abstract state is a list of
    instructions whose operands are words or labels: the invariant [binv] ties
    the two, every builder operation preserves it, and the patched body is the
    symbolic code with every placed label resolved.  [AddFunction] relocates
    such a body. *)

From Stdlib Require Import ZArith Lia.
From stdpp Require Import base list gmap strings pretty.
From S2P Require Import Prelude Il.

Open Scope Z_scope.

(** ** Symbolic code *)

Inductive item : Type :=
| W (z : Z)
| L (l : string).

(** The word an item stands for, given the label addresses; [start] relocates. *)
Definition resolve (start : Z) (labels : gmap string Z) (x : item) : Z :=
  match x with
  | W z => z
  | L l => u32 (default 0 (labels !! l) + start)
  end.

(** The operand shape an argument list calls for. *)
Fixpoint operands (args : list OpcodeArg) (xs : list item) : Prop :=
  match args with
  | [] => xs = []
  | OpcodeArgAddress :: args' => ∃ l xs', xs = L l :: xs' ∧ operands args' xs'
  | (OpcodeArgInt | OpcodeArgDouble) :: args' =>
      ∃ z1 z2 xs', xs = W z1 :: W z2 :: xs' ∧ operands args' xs'
  | _ :: args' => ∃ z xs', xs = W z :: xs' ∧ operands args' xs'
  end.

(** One well-formed instruction. *)
Definition instr (xs : list item) : Prop :=
  ∃ o ys, xs = W (op_code o) :: ys ∧ operands (Args (op_code o)) ys.

(** ** The invariant *)

Record binv (b : Builder) (its : list (list item)) : Prop := {
  bi_len : zlength (b_body b) = zlength (concat its);
  bi_instr : Forall instr its;
  bi_disj : ∀ l, l ∈ dom (b_labels b) → l ∈ dom (b_fixups b) → False;
  bi_names : ∀ l, l ∈ dom (b_labels b) ∪ dom (b_fixups b) →
    ∃ k, (k < size (b_labels b) + size (b_fixups b))%nat ∧ l = label_name k;
  bi_word : ∀ p z, zlookup (concat its) p = Some (W z) → zlookup (b_body b) p = Some z;
  bi_label : ∀ p l, zlookup (concat its) p = Some (L l) →
    match b_labels b !! l with
    | Some a => zlookup (b_body b) p = Some a
    | None => ∃ ps, b_fixups b !! l = Some ps ∧ p ∈ ps
    end;
  bi_fix : ∀ l ps p, b_fixups b !! l = Some ps → p ∈ ps → zlookup (concat its) p = Some (L l);
  bi_addr : ∀ l a, b_labels b !! l = Some a → 0 < a <= zlength (b_body b)
}.

Lemma label_name_inj j k : label_name j = label_name k → j = k.
Proof. unfold label_name. intros H. by simplify_eq. Qed.

Lemma NewBuilder_binv t : binv (NewBuilder t) [].
Proof.
  split; simpl; try done; try set_solver.
  - intros p z. unfold zlookup. by destruct (_ <=? _).
  - intros p l. unfold zlookup. by destruct (_ <=? _).
Qed.

Section Facts.
Context (b : Builder) (its : list (list item)) (Hb : binv b its).

Lemma fresh_label :
  let l := label_name (size (b_labels b) + size (b_fixups b)) in
  b_labels b !! l = None ∧ b_fixups b !! l = None.
Proof using Hb.
  intros l. split; apply not_elem_of_dom; intros Hl;
    destruct (bi_names _ _ Hb l ltac:(set_solver)) as (k & Hk & E%label_name_inj); lia.
Qed.

Lemma concat_snoc {A} (l : list (list A)) (x : list A) : concat (l ++ [x]) = concat l ++ x.
Proof. rewrite concat_app. simpl. by rewrite app_nil_r. Qed.

(** Appending an instruction without labels. *)
Lemma append_binv ws :
  instr (W <$> ws) →
  binv (append_words ws b) (its ++ [W <$> ws]).
Proof using Hb.
  intros Hi. pose proof (bi_len _ _ Hb) as Hlen.
  assert (∀ p x, zlookup (concat its) p = Some x → p < zlength (b_body b)) as Hlt.
  { intros p x ?%zlookup_Some_lt. lia. }
  assert (∀ p, zlength (b_body b) <= p →
           zlookup (W <$> ws) (p - zlength (concat its)) = W <$> zlookup ws (p - zlength (b_body b))) as Hmap.
  { intros p Hp. unfold zlookup. rewrite Hlen. destruct (_ <=? _); [|done]. apply list_lookup_fmap. }
  split; simpl; try apply Hb.
  - rewrite concat_snoc, !zlength_app. unfold zlength at 4. rewrite length_fmap. unfold zlength in *. lia.
  - apply Forall_app. split; [apply Hb|]. by constructor.
  - intros p z. rewrite concat_snoc. destruct (Z.lt_ge_cases p (zlength (b_body b))) as [Hp|Hp].
    + rewrite !zlookup_app_l by lia. apply Hb.
    + rewrite !zlookup_app_r, Hmap by lia. destruct (zlookup ws _); naive_solver.
  - intros p l. rewrite concat_snoc. destruct (Z.lt_ge_cases p (zlength (b_body b))) as [Hp|Hp].
    + rewrite !zlookup_app_l by lia. apply Hb.
    + rewrite !zlookup_app_r, Hmap by lia. destruct (zlookup ws _); naive_solver.
  - intros l ps p H1 H2. rewrite concat_snoc.
    pose proof (bi_fix _ _ Hb _ _ _ H1 H2) as H3. pose proof (Hlt _ _ H3).
    rewrite zlookup_app_l by lia. done.
  - intros l a Ha. rewrite zlength_app. pose proof (bi_addr _ _ Hb _ _ Ha).
    pose proof (zlength_nonneg ws). lia.
Qed.

(** Changing the string table. *)
Lemma strings_binv t : binv (mkBuilder t (b_body b) (b_labels b) (b_fixups b)) its.
Proof using Hb. split; apply Hb. Qed.

Lemma alloc_binv :
  binv (AllocateLabel b).2 its ∧
  b_labels (AllocateLabel b).2 = b_labels b ∧
  b_labels b !! (AllocateLabel b).1 = None ∧
  b_fixups b !! (AllocateLabel b).1 = None ∧
  b_fixups (AllocateLabel b).2 = <[(AllocateLabel b).1 := []]> (b_fixups b) ∧
  b_strings (AllocateLabel b).2 = b_strings b.
Proof using Hb.
  unfold AllocateLabel. cbn. destruct fresh_label as [Hl Hf].
  set (l := label_name _) in *.
  split; [|done]. split; simpl; try apply Hb.
  - intros l'. rewrite dom_insert_L, elem_of_union, elem_of_singleton. intros H1 [->|H2].
    + apply elem_of_dom in H1. destruct H1. congruence.
    + eapply bi_disj; eauto.
  - intros l'. rewrite dom_insert_L, map_size_insert_None by done. intros H.
    destruct (decide (l' = l)) as [->|Hne].
    + eexists. split; [|done]. lia.
    + destruct (bi_names _ _ Hb l') as (k & Hk & Ek); [set_solver|]. exists k. split; [lia|done].
  - intros p l' H. pose proof (bi_label _ _ Hb _ _ H) as H'.
    destruct (b_labels b !! l') eqn:E; [done|]. destruct H' as (ps & H1 & H2).
    exists ps. split; [|done]. rewrite lookup_insert_ne; [done|congruence].
  - intros l' ps p. rewrite lookup_insert. case_decide.
    + intros [= <-] Hp. by apply not_elem_of_nil in Hp.
    + intros Hps Hp. by apply (bi_fix _ _ Hb l' ps).
Qed.

(** A jump to an allocated, unplaced label. *)
Lemma jump_binv o l ps :
  Args (op_code o) = [OpcodeArgAddress] →
  b_labels b !! l = None → b_fixups b !! l = Some ps →
  zlength (b_body b) + 2 < 2 ^ 32 →
  let b' := b_jump o l b in
  binv b' (its ++ [[W (op_code o); L l]]) ∧
  b_labels b' = b_labels b ∧ dom (b_fixups b') = dom (b_fixups b) ∧ b_strings b' = b_strings b.
Proof using Hb.
  intros Ho Hl Hf Hroom. unfold b_jump. rewrite Hl. simpl. rewrite Hf. simpl.
  pose proof (bi_len _ _ Hb) as Hlen. pose proof (zlength_nonneg (b_body b)).
  set (q := u32 _).
  assert (q = zlength (b_body b) + 1) as Hq.
  { unfold q. rewrite zlength_app, !zlength_cons, zlength_nil. rewrite u32_id; width. }
  clearbody q. subst q.
  split; [|split; [done|split; [|done]]].
  2: { rewrite dom_insert_L. assert (l ∈ dom (b_fixups b)) by (by apply elem_of_dom). set_solver. }
  split; simpl.
  - rewrite concat_snoc, !zlength_app. autorewrite with zlist. lia.
  - apply Forall_app. split; [apply Hb|]. constructor; [|done].
    exists o, [L l]. split; [done|]. rewrite Ho. simpl. eauto.
  - intros l'. rewrite dom_insert_L, elem_of_union, elem_of_singleton. intros H1 [->|H2].
    + apply elem_of_dom in H1. destruct H1. congruence.
    + eapply bi_disj; eauto.
  - intros l'. rewrite map_size_insert, Hf, dom_insert_L.
    intros H'. apply (bi_names _ _ Hb).
    assert (l ∈ dom (b_fixups b)) by (by apply elem_of_dom). set_solver.
  - intros p z. rewrite concat_snoc. destruct (Z.lt_ge_cases p (zlength (b_body b))) as [Hp|Hp].
    + rewrite !zlookup_app_l by lia. apply Hb.
    + rewrite !zlookup_app_r, Hlen by lia. intros H'.
      assert (p - zlength (concat its) = 0 ∨ p - zlength (concat its) = 1) as [E|E].
      { apply zlookup_Some_lt in H'. autorewrite with zlist in H'. lia. }
      all: rewrite E in *; unfold zlookup in *; simpl in *; by simplify_eq.
  - intros p l'. rewrite concat_snoc. destruct (Z.lt_ge_cases p (zlength (b_body b))) as [Hp|Hp].
    + rewrite !zlookup_app_l by lia. intros H'.
      pose proof (bi_label _ _ Hb _ _ H') as H''. destruct (b_labels b !! l') eqn:E; [done|].
      destruct H'' as (ps' & H1 & H2). destruct (decide (l' = l)) as [->|Hne].
      * simplify_eq. rewrite lookup_insert_eq. eexists. split; [done|]. set_solver.
      * rewrite lookup_insert_ne by done. eauto.
    + rewrite !zlookup_app_r by lia. intros H'.
      assert (p - zlength (concat its) = 0 ∨ p - zlength (concat its) = 1) as [E|E].
      { apply zlookup_Some_lt in H'. autorewrite with zlist in H'. lia. }
      all: rewrite E in *; unfold zlookup in H'; simpl in H'; simplify_eq. rewrite Hl, lookup_insert_eq.
      eexists. split; [done|]. apply elem_of_app. right. apply list_elem_of_singleton. lia.
  - intros l' ps' p. rewrite lookup_insert. case_decide.
    + intros [= <-]. subst l'. rewrite elem_of_app. intros [H'|H'].
      * pose proof (bi_fix _ _ Hb _ _ _ Hf H') as H3. rewrite concat_snoc, zlookup_app_l; [done|].
        apply zlookup_Some_lt in H3; lia.
      * apply list_elem_of_singleton in H'. subst p. rewrite concat_snoc, zlookup_app_r by lia.
        rewrite Hlen. replace (_ - _) with 1 by lia. done.
    + intros H1 H2. pose proof (bi_fix _ _ Hb _ _ _ H1 H2) as H3.
      rewrite concat_snoc, zlookup_app_l; [done|]. apply zlookup_Some_lt in H3; lia.
  - intros l' a Ha. pose proof (bi_addr _ _ Hb _ _ Ha). rewrite zlength_app.
    autorewrite with zlist. lia.
Qed.
End Facts.

(** ** Placing a label *)

Lemma patch_spec adr fixups body :
  Forall (fun p => 0 <= p < zlength body) fixups →
  ∃ body', patch adr fixups body = GoRet body' ∧ zlength body' = zlength body ∧
    ∀ p, zlookup body' p = if decide (p ∈ fixups) then Some adr else zlookup body p.
Proof.
  intros H. unfold patch. induction fixups as [|f fixups IH] using rev_ind.
  { exists body. split_and!; [done..|]. intros. by rewrite decide_False by set_solver. }
  apply Forall_app in H as [H1 H2]. inversion_clear H2 as [|?? Hf _].
  destruct (IH H1) as (body' & E & Hlen & Hl).
  rewrite foldl_app, E. simpl. unfold go_set. rewrite zinsert_Some by lia.
  eexists. split; [done|]. split; [unfold zlength in *; by rewrite length_insert|].
  intros p. rewrite <- (Hl p) || idtac. unfold zlookup in *.
  destruct (Z.leb_spec 0 p) as [Hp|Hp].
  - destruct (decide (p = f)) as [->|Hne].
    + rewrite list_lookup_insert_eq by (unfold zlength in *; lia).
      by rewrite decide_True by set_solver.
    + rewrite list_lookup_insert_ne by lia. specialize (Hl p).
      destruct (Z.leb_spec 0 p); [|lia]. rewrite Hl.
      destruct (decide (p ∈ fixups)), (decide (p ∈ fixups ++ [f])); set_solver.
  - rewrite decide_False; [done|]. intros [Hin|Hin]%elem_of_app.
    + rewrite Forall_forall in H1. apply H1 in Hin. lia.
    + apply list_elem_of_singleton in Hin. lia.
Qed.

Lemma set_binv b its l ps :
  binv b its → b_fixups b !! l = Some ps → 0 < zlength (b_body b) < 2 ^ 32 →
  ∃ b', SetLabelPos l b = GoRet b' ∧ binv b' its ∧
    b_labels b' = <[l := zlength (concat its)]> (b_labels b) ∧
    b_fixups b' = delete l (b_fixups b) ∧ b_strings b' = b_strings b.
Proof.
  intros Hb Hf Hlt. pose proof (bi_len _ _ Hb) as Hlen.
  assert (b_labels b !! l = None) as Hl.
  { apply not_elem_of_dom. intros Hd. eapply bi_disj; [done..|]. by apply elem_of_dom. }
  unfold SetLabelPos. rewrite Hl, Hf. rewrite (u32_id (zlength _)) by width.
  destruct (patch_spec (zlength (b_body b)) ps (b_body b)) as (body & -> & Hlb & Hlook).
  { apply Forall_forall. intros p Hp. pose proof (bi_fix _ _ Hb _ _ _ Hf Hp) as H.
    apply zlookup_Some_lt in H. lia. }
  simpl. eexists. split; [done|]. split; [|by rewrite <- Hlen].
  split; simpl.
  - lia.
  - apply Hb.
  - intros l'. rewrite dom_insert_L, dom_delete_L. intros H1 H2.
    apply (bi_disj _ _ Hb l'); set_solver.
  - intros l'. rewrite dom_insert_L, dom_delete_L, map_size_insert_None by done.
    rewrite map_size_delete, Hf. intros H'.
    destruct (bi_names _ _ Hb l') as (k & Hk & ->).
    { destruct (decide (l' = l)) as [->|]; [|set_solver].
      apply elem_of_union. right. by apply elem_of_dom. }
    exists k. split; [|done]. assert (size (b_fixups b) ≠ 0%nat); [|lia].
    intros Hz%map_size_empty_iff. by rewrite Hz in Hf.
  - intros p z H. rewrite Hlook, decide_False; [by apply Hb|].
    intros Hp. pose proof (bi_fix _ _ Hb _ _ _ Hf Hp). congruence.
  - intros p l' H. rewrite Hlook. destruct (decide (p ∈ ps)) as [Hp|Hp].
    + pose proof (bi_fix _ _ Hb _ _ _ Hf Hp). simplify_eq. by rewrite lookup_insert_eq.
    + pose proof (bi_label _ _ Hb _ _ H) as H'. destruct (decide (l' = l)) as [->|Hne].
      { rewrite Hl in H'. destruct H' as (? & ? & ?). by simplify_eq. }
      rewrite lookup_insert_ne, lookup_delete_ne by done. done.
  - intros l' ps' p. rewrite lookup_delete. case_decide; [done|]. apply Hb.
  - intros l' a. rewrite lookup_insert. case_decide; [intros; simplify_eq; lia|].
    intros Ha. pose proof (bi_addr _ _ Hb _ _ Ha). lia.
Qed.

(** ** The finished body and its relocation *)

(** Every label the code mentions is placed. *)
Definition placed (labels : gmap string Z) (its : list (list item)) : Prop :=
  ∀ l, L l ∈ concat its → is_Some (labels !! l).

Lemma body_resolved b its :
  binv b its → placed (b_labels b) its → zlength (b_body b) < 2 ^ 32 →
  b_body b = resolve 0 (b_labels b) <$> concat its.
Proof.
  intros Hb Hp Hlt. pose proof (bi_len _ _ Hb) as Hlen.
  apply list_eq. intros p. rewrite list_lookup_fmap.
  destruct (concat its !! p) as [x|] eqn:E.
  - assert (zlookup (concat its) (Z.of_nat p) = Some x) as E'.
    { unfold zlookup. rewrite Nat2Z.id. by destruct (Z.leb_spec 0 (Z.of_nat p)); [|lia]. }
    assert (zlookup (b_body b) (Z.of_nat p) = b_body b !! p) as E2.
    { unfold zlookup. rewrite Nat2Z.id. by destruct (Z.leb_spec 0 (Z.of_nat p)); [|lia]. }
    rewrite <- E2. destruct x as [z|l]; simpl.
    + by apply Hb.
    + destruct (Hp l) as [a Ha]; [by eapply list_elem_of_lookup_2|].
      pose proof (bi_label _ _ Hb _ _ E') as H'. rewrite Ha in *. simpl.
      pose proof (bi_addr _ _ Hb _ _ Ha). rewrite H', u32_id; [f_equal; lia|width].
  - simpl. apply lookup_ge_None in E. apply lookup_ge_None. unfold zlength in Hlen. lia.
Qed.

Lemma u32_reloc a start : u32 (u32 (a + 0) + start) = u32 (a + start).
Proof. unfold u32. rewrite Zplus_mod_idemp_l. f_equal. lia. Qed.

Lemma operands_length args xs :
  operands args xs → zlength xs = foldr (fun a s => argSize a + s) 0 args.
Proof.
  revert xs. induction args as [|a args IH]; simpl; [by intros xs ->|].
  intros xs H. destruct a; destruct_and?; repeat destruct H as [? H]; subst;
    autorewrite with zlist; rewrite IH by done; simpl; lia.
Qed.

Lemma copy_args_spec labels start args xs rest code :
  operands args xs →
  copy_args args start ((resolve 0 labels <$> xs) ++ rest) code =
    (rest, code ++ (resolve start labels <$> xs)).
Proof.
  revert xs code. induction args as [|a args IH]; simpl; intros xs code H.
  { subst. by rewrite app_nil_r. }
  destruct a; repeat destruct H as [? H]; subst; simpl;
    rewrite IH by done; rewrite <- ?app_assoc; simpl; rewrite ?u32_reloc; done.
Qed.

(** Well-formed instructions are transcribed one by one. *)
Lemma transcribe_app labels start l its rest code i fuel :
  Forall instr its → i + zlength (concat its) <= l → 0 <= i →
  (length (concat its) + length rest <= fuel)%nat →
  ∃ fuel', (length rest <= fuel')%nat ∧
    transcribe fuel start l i ((resolve 0 labels <$> concat its) ++ rest) code =
    transcribe fuel' start l (i + zlength (concat its)) rest (code ++ (resolve start labels <$> concat its)).
Proof.
  intros H. revert code i fuel. induction H as [|x its (o & ys & -> & Hys) _ IH];
    intros code i fuel Hl Hi Hf; simpl.
  { exists fuel. rewrite app_nil_r. simpl in *. split; [lia|]. f_equal. change (zlength []) with 0. lia. }
  simpl in *. destruct fuel as [|fuel]; [simpl in Hf; lia|]. simpl.
  pose proof (operands_length _ _ Hys) as Hlen.
  pose proof (Size_op o) as Hsz. rewrite <- Hlen in Hsz.
  autorewrite with zlist in Hl.
  assert (zlength (ys ++ concat its) = zlength ys + zlength (concat its)) by apply zlength_app.
  pose proof (zlength_nonneg (concat its)). pose proof (zlength_nonneg ys).
  destruct (Z.gtb_spec (i + Size (op_code o)) l); [lia|].
  rewrite fmap_app, <- app_assoc, copy_args_spec by done.
  destruct (IH ((code ++ [op_code o]) ++ (resolve start labels <$> ys)) (i + Size (op_code o)) fuel) as (f' & Hf' & ->);
    [lia|lia|rewrite length_app in Hf; lia|].
  exists f'. split; [done|]. rewrite zlength_cons. f_equal; [lia|].
  by rewrite <- !app_assoc, fmap_app.
Qed.

Lemma transcribe_spec labels start l its code i fuel :
  Forall instr its → i + zlength (concat its) = l → 0 <= i →
  (length (concat its) <= fuel)%nat →
  transcribe fuel start l i (resolve 0 labels <$> concat its) code =
    (code ++ (resolve start labels <$> concat its), None).
Proof.
  intros H Hl Hi Hf. destruct (transcribe_app labels start l its [] code i fuel H) as (f' & _ & E);
    [lia|done|simpl; lia|]. rewrite app_nil_r in E. rewrite E. by destruct f'.
Qed.

(** ** Bodies of plain words *)

(** The words of one whole instruction, whatever its operands. *)
Definition whole (ws : list Z) : Prop := ∃ op args, ws = op :: args ∧ Size op = 1 + zlength args.

Lemma Size_word c : Size c = 1 + foldr (fun a s => argSize a + s) 0 (Args c).
Proof.
  unfold Size, Args, info_of. destruct (List.find _ opCodeInfos) as [[o i]|] eqn:E; [|done].
  apply List.find_some in E as [Hin _].
  assert (forallb (fun p : Opcode * opcodeInfo => foldl (fun s a => u32 (s + argSize a)) 1 (oi_args p.2) =?
    1 + foldr (fun a s => argSize a + s) 0 (oi_args p.2)) opCodeInfos = true) as H by (vm_compute; reflexivity).
  rewrite List.forallb_forall in H. apply Z.eqb_eq. exact (H _ Hin).
Qed.

Lemma copy_words_any n isaddr start xs rest code : length xs = n →
  ∃ ys, copy_words n isaddr start (xs ++ rest) code = (rest, code ++ ys).
Proof.
  revert xs code. induction n as [|n IH]; intros [|x xs] code Hl; try done; cbn [copy_words app].
  { exists []. by rewrite app_nil_r. }
  injection Hl as Hl. destruct (IH xs (code ++ [if isaddr then u32 (x + start) else x]) Hl) as [ys E].
  eexists. etrans; [exact E|]. by rewrite <- app_assoc.
Qed.

Lemma copy_args_any args start xs rest code : zlength xs = foldr (fun a s => argSize a + s) 0 args →
  ∃ ys, copy_args args start (xs ++ rest) code = (rest, code ++ ys).
Proof.
  revert xs code. induction args as [|a args IH]; cbn [foldr copy_args]; intros xs code Hl.
  { assert (xs = []) as -> by (destruct xs; [done|rewrite zlength_cons in Hl; pose proof (zlength_nonneg xs); lia]).
    exists []. by rewrite app_nil_r. }
  assert (0 <= argSize a) as Ha by (by destruct a).
  assert (0 <= foldr (fun a s => argSize a + s) 0 args) as Hf.
  { clear. induction args as [|b args IH]; cbn [foldr]; [lia|]. destruct b; simpl; lia. }
  set (n := Z.to_nat (argSize a)). rewrite <- (take_drop n xs), <- app_assoc. unfold zlength in Hl.
  destruct (copy_words_any n (is_address a) start (take n xs) (drop n xs ++ rest) code) as [ys ->]; [rewrite length_take; lia|].
  destruct (IH (drop n xs) (code ++ ys)) as [zs ->]; [unfold zlength; rewrite length_drop; lia|].
  exists (ys ++ zs). by rewrite app_assoc.
Qed.

Lemma transcribe_whole start l its rest code i fuel :
  Forall whole its → i + zlength (concat its) <= l → (length (concat its) + length rest <= fuel)%nat →
  ∃ fuel' code', (length rest <= fuel')%nat ∧
    transcribe fuel start l i (concat its ++ rest) code = transcribe fuel' start l (i + zlength (concat its)) rest code'.
Proof.
  intros H. revert code i fuel. induction H as [|x its (op & args & -> & Hsz) _ IH]; intros code i fuel Hl Hf.
  { exists fuel, code. simpl in *. split; [lia|]. f_equal. change (zlength []) with 0. lia. }
  cbn [concat app] in *. rewrite length_cons, length_app in Hf. rewrite <- app_assoc. destruct fuel as [|fuel]; [lia|]. cbn [transcribe].
  rewrite zlength_cons, zlength_app in Hl. pose proof (zlength_nonneg (concat its)).
  destruct (Z.gtb_spec (i + Size op) l); [lia|].
  destruct (copy_args_any (Args op) start args (concat its ++ rest) (code ++ [op])) as [ys ->].
  { rewrite Size_word in Hsz. lia. }
  destruct (IH ((code ++ [op]) ++ ys) (i + Size op) fuel) as (f' & c' & Hf' & ->); [lia|lia|].
  exists f', c'. split; [done|]. f_equal. rewrite zlength_cons, zlength_app. lia.
Qed.

(** An instruction cut short at the end of the body. *)
Lemma transcribe_short start l its op short code fuel :
  Forall whole its → l = zlength (concat its) + 1 + zlength short → zlength short + 1 < Size op →
  (length (concat its) + S (length short) <= fuel)%nat →
  (transcribe fuel start l 0 (concat its ++ op :: short) code).2 =
    Some (Errorf "opcode requires more arguments than are present in the body: op: %v, loc: %d"
            [AStr (opcode_String op); AInt (zlength (concat its))]).
Proof.
  intros H -> Hs Hf. pose proof (zlength_nonneg short).
  destruct (transcribe_whole start (zlength (concat its) + 1 + zlength short) its (op :: short) code 0 fuel H)
    as (f' & c' & Hf' & ->); [lia|simpl; lia|]. simpl in Hf'. destruct f' as [|f']; [lia|].
  rewrite Z.add_0_l. cbn [transcribe].
  destruct (Z.gtb_spec (zlength (concat its) + Size op) (zlength (concat its) + 1 + zlength short)); [done|lia].
Qed.

(** The code of a function added to a program: the symbolic code, relocated. *)
Lemma AddFunction_spec b its name ps rt p :
  binv b its → placed (b_labels b) its →
  zlength (p_code p) + 1 + zlength (b_body b) < 2 ^ 32 →
  let start := zlength (p_code p) + 1 in
  let '(id, t) := GetID name (p_strings p) in
  AddFunction name ps rt (Build b) p =
    (mkProgram t
       (<[id := mkFunction ps rt id start (zlength (b_body b))]> (p_functions p))
       (p_code p ++ [op_code Op.Halt] ++ (resolve start (b_labels b) <$> concat its)), None).
Proof.
  intros Hb Hp Hlt start. unfold AddFunction, Build.
  pose proof (zlength_nonneg (p_code p)). pose proof (zlength_nonneg (b_body b)).
  pose proof (bi_len _ _ Hb) as Hlen.
  rewrite zlength_app, !(zlength_cons _ []), zlength_nil.
  rewrite (u32_id (zlength (p_code p) + _)), (u32_id (zlength (b_body b))) by width.
  replace (zlength (p_code p) + (1 + 0)) with start by lia.
  assert (transcribe (length (b_body b)) start (zlength (b_body b)) 0 (b_body b)
            (p_code p ++ [op_code Op.Halt]) =
          ((p_code p ++ [op_code Op.Halt]) ++ (resolve start (b_labels b) <$> concat its), None)) as ->.
  { pose proof (transcribe_spec (b_labels b) start (zlength (b_body b)) its
      (p_code p ++ [op_code Op.Halt]) 0 (length (b_body b)) (bi_instr _ _ Hb)) as Ht.
    rewrite <- (body_resolved b its) in Ht by (done || width).
    apply Ht; unfold zlength in *; lia. }
  destruct (GetID name (p_strings p)) as [id t]. by rewrite <- app_assoc.
Qed.
