(* ===== verification/CompilerSpec.v ===== *)
(** * What compiled expressions compute

    The reference semantics of the expression language as the IL defines it:
    [den] gives, by recursion on the expression alone, the value, the error or
    the panic of evaluating it against a bag, without code, labels or a stack.
    [supported] is the class of expressions the code generator handles: known
    attribute types, equality on the types it implements, and alternatives
    (the [|] operator) whose left operands can be absent, map accesses among
    them having a constant key. *)

From Stdlib Require Import ZArith Lia.
From stdpp Require Import base list gmap strings.
From S2P Require Import Prelude Il Interp Expr Compiler Evaluator.

Open Scope Z_scope.

(** ** Values on the operand stack *)

Inductive sval : Type :=
| SStr (s : string)
| SBool (b : bool)
| SInt (z : Z)
| SDbl (d : float64)
| SIface (v : iface).

(** The IL type of a value type, [Ty.Unknown] when there is none. *)
Definition il_type (vt : ValueType) : ilType :=
  match vt with
  | STRING => Ty.String
  | BOOL => Ty.Bool
  | INT64 => Ty.Integer
  | DURATION => Ty.Duration
  | DOUBLE => Ty.Double
  | STRING_MAP | IP_ADDRESS | TIMESTAMP => Ty.Interface
  | _ => Ty.Unknown
  end.

Definition known (vt : ValueType) : bool :=
  match il_type vt with Ty.Unknown => false | _ => true end.

(** A value has the shape of a type; integers and doubles are in range. *)
Definition has_type (t : ilType) (v : sval) : Prop :=
  match t, v with
  | Ty.String, SStr _ => True
  | Ty.Bool, SBool _ => True
  | (Ty.Integer | Ty.Duration), SInt z => is_i64 z
  | Ty.Double, SDbl d => is_u64 d
  | Ty.Interface, SIface _ => True
  | _, _ => False
  end.

(** What the evaluator returns for a value of a type. *)
Definition iface_of (vt : ValueType) (v : sval) : iface :=
  match v with
  | SStr s => if decide (s = "") then None else Some (VStr s)
  | SBool b => Some (VBool b)
  | SInt z => Some (if decide (vt = DURATION) then VDur z else VInt z)
  | SDbl d => Some (VDouble d)
  | SIface v => v
  end.

(** ** Constants and attributes *)

Definition in_i64 (z : Z) : bool := (- 2 ^ 63 <=? z) && (z <? 2 ^ 63).
Definition in_u64 (z : Z) : bool := (0 <=? z) && (z <? 2 ^ 64).

Definition const_ok (c : Constant) : bool :=
  match c_Type c, c_Value c with
  | STRING, Some (VStr _) => true
  | BOOL, Some (VBool _) => true
  | INT64, Some (VInt z) => in_i64 z
  | DURATION, Some (VDur z) => in_i64 z
  | DOUBLE, Some (VDouble d) => in_u64 d
  | _, _ => false
  end.

Definition const_sval (c : Constant) : sval :=
  match c_Value c with
  | Some (VStr s) => SStr s
  | Some (VBool b) => SBool b
  | Some (VInt z) | Some (VDur z) => SInt z
  | Some (VDouble d) => SDbl d
  | v => SIface v
  end.

(** The attribute value as the instruction for its declared type reads it. *)
Definition convert (t : ilType) (v : iface) : go gerr sval :=
  match t with
  | Ty.String =>
      match as_string v with Some s => GoRet (SStr s) | None => GoErr (err_convert "string" v) end
  | Ty.Bool =>
      match as_bool v with Some b => GoRet (SBool b) | None => GoErr (err_convert "bool" v) end
  | Ty.Integer | Ty.Duration =>
      match as_int v with
      | Some z => GoRet (SInt z) | None => GoErr (err_convert "integer or duration" v)
      end
  | Ty.Double =>
      match as_double v with Some d => GoRet (SDbl d) | None => GoErr (err_convert "double" v) end
  | Ty.Interface => GoRet (SIface v)
  | _ => GoPanic PNil
  end.

Definition force (r : option sval) : go gerr sval :=
  match r with Some v => GoRet v | None => GoPanic PNil end.

Definition as_sstr (v : sval) : go gerr string :=
  match v with SStr s => GoRet s | _ => GoPanic PType end.
Definition as_sbool (v : sval) : go gerr bool :=
  match v with SBool b => GoRet b | _ => GoPanic PType end.
Definition as_smap (v : sval) : go gerr (gmap string string) :=
  match v with SIface v => as_map v | _ => GoPanic PType end.

Section Sem.
Context `{GoLib} (fd : finder) (get : bag).

Definition type_of (e : Expression) : go gerr ValueType := EvalType fd FuncMap e.

(** Equality as the instruction selected by the type of the left operand
    computes it: strings without wildcards, doubles by bit pattern. *)
Definition den_eq (a : Expression) (x y : sval) : go gerr bool :=
  match x, y with
  | SStr s, SStr s' => GoRet (bool_decide (s = s'))
  | SBool b, SBool b' => GoRet (Bool.eqb b b')
  | SInt z, SInt z' => GoRet (z =? z')
  | SDbl d, SDbl d' => GoRet (d =? d')
  | SIface v, SIface v' =>
      match type_of a with
      | GoRet IP_ADDRESS => ip_equal_fn v v'
      | _ => timestamp_equal_fn v v'
      end
  | _, _ => GoPanic PType
  end.

(** An attribute: when it is missing, an error or the nil value, by mode. *)
Definition den_var (mode : nilMode) (n : string) : go gerr (option sval) :=
  match fd n with
  | None => GoPanic PNil
  | Some vt =>
      match get n with
      | None => match mode with nmNone => GoErr (err_lookup n) | nmJmpOnValue => GoRet None end
      | Some v => let! s := convert (il_type vt) v in GoRet (Some s)
      end
  end.

Section Functions.
Context (den : nilMode → Expression → go gerr (option sval)).

Definition den0 (e : Expression) : go gerr sval := let! r := den nmNone e in force r.

Definition den_Eq (a b : Expression) : go gerr bool :=
  let! x := den0 a in let! y := den0 b in den_eq a x y.

(** Both operands are evaluated: [LAND] does not short-circuit. *)
Definition den_Land (a b : Expression) : go gerr bool :=
  let! x := den0 a in let! y := den0 b in
  let! p := as_sbool x in let! q := as_sbool y in GoRet (p && q).

Definition den_Lor (a b : Expression) : go gerr bool :=
  let! x := den0 a in let! p := as_sbool x in
  if p then GoRet true else let! y := den0 b in as_sbool y.

(** Map access: a missing key is the empty string, or nil when an alternative
    follows. *)
Definition den_Index (mode : nilMode) (a b : Expression) : go gerr (option sval) :=
  match mode with
  | nmNone =>
      let! x := den0 a in let! y := den0 b in
      let! k := as_sstr y in let! m := as_smap x in
      GoRet (Some (SStr (default "" (m !! k))))
  | nmJmpOnValue =>
      let! x := den nmJmpOnValue a in
      match x with
      | None => GoRet None
      | Some x =>
          let! y := match b with EConst c => GoRet (Some (const_sval c)) | _ => den nmJmpOnValue b end in
          match y with
          | None => GoRet None
          | Some y =>
              let! k := as_sstr y in let! m := as_smap x in
              GoRet (SStr <$> m !! k)
          end
      end
  end.

(** Alternatives: the first operand that has a value. *)
Definition den_Or (mode : nilMode) (a b : Expression) : go gerr (option sval) :=
  let! x := den nmJmpOnValue a in
  match x with
  | Some v => GoRet (Some v)
  | None => den mode b
  end.

Definition ret_bool (r : go gerr bool) : go gerr (option sval) :=
  let! b := r in GoRet (Some (SBool b)).

Definition den_fn1 (name : string) (a : Expression) : go gerr (option sval) :=
  let! x := den0 a in let! s := as_sstr x in
  let! v := (if decide (name = "ip") then ip_fn s else timestamp_fn s) in
  GoRet (Some (SIface v)).

Definition den_match (a b : Expression) : go gerr bool :=
  let! x := den0 a in let! y := den0 b in
  let! s := as_sstr x in let! p := as_sstr y in GoRet (match_fn s p).

Definition den_fn2 (mode : nilMode) (name : string) (a b : Expression) : go gerr (option sval) :=
  if decide (name = "EQ") then ret_bool (den_Eq a b)
  else if decide (name = "NEQ") then ret_bool (let! r := den_Eq a b in GoRet (negb r))
  else if decide (name = "LOR") then ret_bool (den_Lor a b)
  else if decide (name = "LAND") then ret_bool (den_Land a b)
  else if decide (name = "INDEX") then den_Index mode a b
  else if decide (name = "OR") then den_Or mode a b
  else if decide (name = "match") then ret_bool (den_match a b)
  else GoPanic PNil.
End Functions.

(** The semantics: [None] is the nil value, which only [nmJmpOnValue] yields. *)
Fixpoint den (mode : nilMode) (e : Expression) : go gerr (option sval) :=
  match e with
  | EConst c => GoRet (Some (const_sval c))
  | EVar n => den_var mode n
  | EFn name [a] => den_fn1 den name a
  | EFn name [a; b] => den_fn2 den mode name a b
  | _ => GoPanic PNil
  end.

(** ** The supported class *)

(** How a sub-expression is used: for its value, as an alternative that may be
    nil, or as the last alternative of a chain. *)
Inductive use : Type := UValue | UAlt | ULast.

Definition eq_supported (a : Expression) : bool :=
  match type_of a with
  | GoRet (BOOL | STRING | INT64 | DOUBLE | IP_ADDRESS | TIMESTAMP) => true
  | _ => false
  end.

Definition not_alt (u : use) : bool := match u with UAlt => false | _ => true end.

Fixpoint supported (u : use) (e : Expression) : bool :=
  match e with
  | EConst c => not_alt u && const_ok c
  | EVar n =>
      match u with
      | ULast => false
      | _ => match fd n with Some vt => known vt | None => false end
      end
  | EFn name [a] =>
      bool_decide (name = "ip" ∨ name = "timestamp") && not_alt u && supported UValue a
  | EFn name [a; b] =>
      if decide (name = "EQ" ∨ name = "NEQ")
      then not_alt u && eq_supported a && supported UValue a && supported UValue b
      else if decide (name = "LOR" ∨ name = "LAND" ∨ name = "match")
      then not_alt u && supported UValue a && supported UValue b
      else if decide (name = "INDEX")
      then
        match u with
        | UValue => supported UValue a && supported UValue b
        | UAlt =>
            supported UAlt a && match b with EConst c => const_ok c | _ => false end
        | ULast => false
        end
      else if decide (name = "OR")
      then
        supported UAlt a &&
        match u with
        | UValue => if is_or b then supported ULast b else supported UValue b
        | UAlt => supported UAlt b
        | ULast => supported ULast b
        end
      else false
  | _ => false
  end.

(** ** Resources: words of stack, heap cells and interned strings, at most *)

Fixpoint stack_need (e : Expression) : Z :=
  match e with
  | EFn _ args => foldr (fun a n => Z.max (stack_need a) (2 + n)) 3 args
  | _ => 3
  end.

Fixpoint heap_need (e : Expression) : Z :=
  match e with
  | EConst _ | ENone => 0
  | EVar n =>
      match fd n with
      | Some vt => if decide (il_type vt = Ty.Interface) then 1 else 0
      | None => 0
      end
  | EFn name args =>
      foldr (fun a n => heap_need a + n)
        (if decide (name = "ip" ∨ name = "timestamp") then 1 else 0) args
  end.

(** The number of nodes, which bounds what compiling and running interns. *)
Fixpoint nodes (e : Expression) : Z :=
  match e with
  | EFn _ args => foldr (fun a n => nodes a + n) 1 args
  | _ => 1
  end.
End Sem.
