(* ===== verification/MachineFacts.v ===== *)
(** * Reasoning about the interpreter

    An abstract view of the machine ([st]): the words on the operand stack, the
    values on the heap and the string table, with the array slack hidden; one
    lemma per primitive; and an error-monad style judgement [exec_spec] for
    runs of the machine, whose sequencing rule follows [go_bind]. *)

From Stdlib Require Import ZArith Lia.
From stdpp Require Import base list gmap strings relations.
From S2P Require Import Prelude Il Interp.

Open Scope Z_scope.

Section Get.
Context {A : Type}.
Implicit Types (l : list A) (x : A).

Lemma zlookup_mid l x l' : zlookup (l ++ x :: l') (zlength l) = Some x.
Proof. rewrite zlookup_app_r by lia. by rewrite Z.sub_diag. Qed.

Lemma zinsert_mid l x y l' : zinsert (l ++ x :: l') (zlength l) y = Some (l ++ y :: l').
Proof.
  rewrite zinsert_Some by (autorewrite with zlist; pose proof (zlength_nonneg l);
                           pose proof (zlength_nonneg l'); lia).
  f_equal. unfold zlength. rewrite Nat2Z.id, insert_app_r_alt by lia.
  by rewrite Nat.sub_diag.
Qed.

Lemma slack_cons (n : Z) l : zlength l = n → 0 < n → ∃ x l', l = x :: l' ∧ zlength l' = n - 1.
Proof.
  destruct l as [|x l]; autorewrite with zlist; [lia|]. intros. exists x, l. split; [done|lia].
Qed.
End Get.

Section Machine.
Context (i : Interpreter) (get : bag) (fn : Function).

(** ** The abstract state *)

Record st (m : machine) (pc : Z) (ws : list Z) (hs : list iface) (t : StringTable) : Prop := {
  st_ip : ip m = pc;
  st_sp : sp m = zlength ws;
  st_stack : ∃ rest, opstack m = ws ++ rest ∧ zlength ws + zlength rest = opStackSize;
  st_hp : hp m = zlength hs;
  st_heap : ∃ rest, heap m = hs ++ rest ∧ zlength hs + zlength rest = heapSize;
  st_fp : fp m = 0;
  st_frames : zlength (frames m) = callStackSize;
  st_fn : m_fn m = Some fn;
  st_str : m_strings m = t
}.

Section Prim.
Context (m : machine) (pc : Z) (ws : list Z) (hs : list iface) (t : StringTable).
Context (H : st m pc ws hs t).

Lemma st_ws_len : 0 <= zlength ws <= 64.
Proof using H.
  destruct (st_stack _ _ _ _ _ H) as (r & _ & E). unfold opStackSize in E.
  pose proof (zlength_nonneg ws). pose proof (zlength_nonneg r). lia.
Qed.

Lemma st_hs_len : 0 <= zlength hs <= 64.
Proof using H.
  destruct (st_heap _ _ _ _ _ H) as (r & _ & E). unfold heapSize in E.
  pose proof (zlength_nonneg hs). pose proof (zlength_nonneg r). lia.
Qed.

Lemma set_ip_st pc' : st (set_ip pc' m) pc' ws hs t.
Proof using H. by destruct H; split. Qed.

Lemma set_strings_st t' : st (set_strings t' m) pc ws hs t'.
Proof using H. by destruct H; split. Qed.

Lemma OVERFLOW_st k : 0 <= k → zlength ws + k <= 64 → OVERFLOW_GUARD k m = GoRet ().
Proof using H.
  intros. unfold OVERFLOW_GUARD. rewrite (st_sp _ _ _ _ _ H).
  pose proof (zlength_nonneg ws). unfold opStackSize. rewrite u32_id by width.
  destruct (Z.gtb_spec (zlength ws) (64 - k)); [lia|done].
Qed.

Lemma UNDERFLOW_st k : k <= zlength ws → UNDERFLOW_GUARD k m = GoRet ().
Proof using H.
  intros. unfold UNDERFLOW_GUARD. rewrite (st_sp _ _ _ _ _ H).
  destruct (Z.ltb_spec (zlength ws) k); [lia|done].
Qed.

Lemma PUSH_st v : zlength ws < 64 → ∃ m', PUSH v m = GoRet m' ∧ st m' pc (ws ++ [v]) hs t.
Proof using H.
  intros Hlt. pose proof st_ws_len as Hl. destruct H as [? Hsp (r & Hs & Hr) ??????].
  unfold opStackSize in *. destruct (slack_cons _ r eq_refl) as (x & r' & -> & Hr'); [lia|].
  unfold PUSH, go_set. rewrite Hsp, Hs, zinsert_mid. simpl.
  eexists. split; [done|]. split; simpl; try done.
  - rewrite u32_id by width. by autorewrite with zlist.
  - exists r'. rewrite <- app_assoc. split; [done|]. autorewrite with zlist in *.
    unfold opStackSize. lia.
Qed.

Lemma PUSH2_st v w : zlength ws < 63 → ∃ m', PUSH2 v w m = GoRet m' ∧ st m' pc (ws ++ [v; w]) hs t.
Proof using H.
  intros Hlt. pose proof st_ws_len as Hl. destruct H as [? Hsp (r & Hs & Hr) ??????].
  unfold opStackSize in *. destruct (slack_cons _ r eq_refl) as (x & r' & -> & Hr'); [lia|].
  autorewrite with zlist in Hr.
  destruct (slack_cons _ r' eq_refl) as (y & r2 & -> & Hr2); [lia|].
  unfold PUSH2, go_set. rewrite Hsp, Hs, zinsert_mid. simpl.
  rewrite u32_id by width.
  replace (ws ++ v :: y :: r2) with ((ws ++ [v]) ++ y :: r2) by (by rewrite <- app_assoc).
  replace (zlength ws + 1) with (zlength (ws ++ [v])) by (by autorewrite with zlist).
  rewrite zinsert_mid. simpl.
  eexists. split; [done|]. split; simpl; try done.
  - rewrite u32_id by width. autorewrite with zlist. lia.
  - exists r2. rewrite <- !app_assoc. split; [done|]. autorewrite with zlist in *.
    unfold opStackSize. lia.
Qed.

Lemma PUSH64_st z : zlength ws < 63 →
  ∃ m', PUSH64 z m = GoRet m' ∧
    st m' pc (ws ++ [u32 (Z.shiftr z 32); u32 (Z.land z 4294967295)]) hs t.
Proof using H. intros. by apply PUSH2_st. Qed.

Lemma STR_st s id : st_wf t → stringToID t !! s = Some id → STR id m = GoRet s.
Proof using H.
  intros Hwf Hs. unfold STR. rewrite (st_str _ _ _ _ _ H).
  by rewrite (GetString_id _ _ _ Hwf Hs).
Qed.

Lemma LOAD_st w :
  zlookup (code i) pc = Some w → 0 <= pc → pc + 1 < 2 ^ 32 →
  ∃ m', LOAD i m = GoRet (w, m') ∧ st m' (pc + 1) ws hs t.
Proof using H.
  intros Hw ??. unfold LOAD, go_get. rewrite (st_ip _ _ _ _ _ H), Hw. simpl.
  eexists. split; [done|]. rewrite u32_id by width. apply set_ip_st.
Qed.

Lemma LOAD2_st w1 w2 :
  zlookup (code i) pc = Some w1 → zlookup (code i) (pc + 1) = Some w2 →
  0 <= pc → pc + 2 < 2 ^ 32 →
  ∃ m', LOAD2 i m = GoRet (w1, w2, m') ∧ st m' (pc + 2) ws hs t.
Proof using H.
  intros Hw Hw' ??. unfold LOAD2, go_get. rewrite (st_ip _ _ _ _ _ H), Hw. simpl.
  rewrite (u32_id (pc + 1)), Hw' by width. simpl. eexists. split; [done|].
  rewrite u32_id by width. apply set_ip_st.
Qed.

(** Interning a string during a run. *)
Lemma INTERN_st s :
  st_wf t → nextID t + 1 < 2 ^ 32 →
  ∃ id t' m', INTERN s m = (id, m') ∧ st m' pc ws hs t' ∧ st_wf t' ∧ st_le t t' ∧
    nextID t' <= nextID t + 1 ∧ stringToID t' !! s = Some id.
Proof using H.
  intros Hwf Hroom. unfold INTERN. rewrite (st_str _ _ _ _ _ H).
  pose proof (GetID_spec s t Hwf Hroom) as Hg. destruct (GetID s t) as [id t'] eqn:E.
  simpl in Hg. destruct Hg as (Hwf' & Hle & Hn & Hid & _).
  exists id, t', (set_strings t' m). split_and!; try done. apply set_strings_st.
Qed.

(** A new heap cell. *)
Lemma push_iface_st v :
  zlength hs < 63 → zlength ws < 64 →
  ∃ m', push_iface v m = GoRet m' ∧ st m' pc (ws ++ [zlength hs]) (hs ++ [v]) t.
Proof using H.
  intros Hh Hlt. unfold push_iface, heapSize. rewrite (st_hp _ _ _ _ _ H).
  destruct (Z.eqb_spec (zlength hs) (64 - 1)); [lia|].
  pose proof st_ws_len as Hl. destruct H as [? Hsp (r & Hs & Hr) Hhp (q & Hq & Hqr) ????].
  unfold heapSize, opStackSize in *.
  destruct (slack_cons _ q eq_refl) as (y & q' & -> & Hq'); [lia|].
  unfold go_set. rewrite Hq, zinsert_mid. simpl.
  destruct (slack_cons _ r eq_refl) as (x & r' & -> & Hr'); [lia|].
  pose proof (zlength_nonneg hs).
  unfold PUSH, go_set. simpl. rewrite Hsp, Hs, zinsert_mid. simpl.
  eexists. split; [done|]. split; simpl; try done.
  - rewrite u32_id by width. by autorewrite with zlist.
  - exists r'. rewrite <- app_assoc. split; [done|]. autorewrite with zlist in *.
    unfold opStackSize. lia.
  - rewrite u32_id by width. by autorewrite with zlist.
  - exists q'. rewrite <- app_assoc. split; [done|]. autorewrite with zlist in *.
    unfold heapSize. lia.
Qed.

Lemma heap_get h v : zlookup hs h = Some v → go_get (E := gerr) (heap m) h = GoRet v.
Proof using H.
  intros Hh. destruct (st_heap _ _ _ _ _ H) as (r & -> & _). unfold go_get.
  rewrite zlookup_app_l; [by rewrite Hh|]. apply zlookup_Some_lt in Hh. lia.
Qed.

Lemma heap_map_st h v : zlookup hs h = Some v → heap_map h m = as_map v.
Proof using H.
  intros Hh. pose proof (zlookup_Some_lt _ _ _ Hh). unfold heap_map.
  rewrite (st_hp _ _ _ _ _ H). destruct (Z.geb_spec h (zlength hs)); [lia|].
  by rewrite (heap_get _ _ Hh).
Qed.
End Prim.

(** Reading and dropping the top of the stack. *)
Section Top.
Context (m : machine) (pc : Z) (ws xs : list Z) (hs : list iface) (t : StringTable).
Context (H : st m pc (ws ++ xs) hs t).

Lemma DROP_st k : k = zlength xs → st (DROP k m) pc ws hs t.
Proof using H.
  intros ->. pose proof (st_ws_len _ _ _ _ _ H) as Hl.
  pose proof (zlength_nonneg ws). autorewrite with zlist in Hl.
  destruct H as [? Hsp (r & Hs & Hr) ??????]. split; simpl; try done.
  - rewrite Hsp. autorewrite with zlist. pose proof (zlength_nonneg xs). rewrite u32_id; width.
  - exists (xs ++ r). rewrite app_assoc. split; [done|]. autorewrite with zlist in *. lia.
Qed.

Lemma PEEK_st k x :
  zlookup xs (zlength xs - k) = Some x → 0 < k → PEEK k m = GoRet x.
Proof using H.
  intros Hx Hk. pose proof (zlookup_Some_lt _ _ _ Hx) as Hlt.
  pose proof (st_ws_len _ _ _ _ _ H) as Hl. autorewrite with zlist in Hl.
  pose proof (zlength_nonneg ws).
  destruct H as [? Hsp (r & Hs & Hr) ??????]. unfold PEEK, go_get.
  rewrite Hsp, Hs. autorewrite with zlist. rewrite u32_id by width.
  rewrite <- app_assoc, zlookup_app_r by lia. rewrite zlookup_app_l by lia.
  replace (zlength ws + zlength xs - k - zlength ws) with (zlength xs - k) by lia.
  by rewrite Hx.
Qed.

(** [opstack[sp]] just below the dropped words. *)
Lemma DROP_get k x :
  k = zlength xs → head xs = Some x → go_get (E := gerr) (opstack (DROP k m)) (sp (DROP k m)) = GoRet x.
Proof using H.
  intros Hk Hx. pose proof (DROP_st k Hk) as Hd. destruct xs as [|y ys]; [done|]. injection Hx as ->.
  rewrite (st_sp _ _ _ _ _ Hd). destruct H as [? Hsp (r & Hs & Hr) ??????].
  unfold go_get. simpl. rewrite Hs, <- app_assoc. simpl. by rewrite zlookup_mid.
Qed.
End Top.

(** ** Runs *)

Definition steps : machine → machine → Prop := rtc (fun m m' => step i get m = GoRet (inl m')).

(** From [m] the machine reaches the outcome [r]: a state satisfying [Q], or a
    step that returns the error or panics. *)
Definition exec_spec {A} (m : machine) (r : go gerr A) (Q : A → machine → Prop) : Prop :=
  match r with
  | GoRet a => ∃ m', steps m m' ∧ Q a m'
  | GoErr e => ∃ m', steps m m' ∧ step i get m' = GoErr e
  | GoPanic p => ∃ m', steps m m' ∧ step i get m' = GoPanic p
  end.

Lemma exec_ret {A} m (a : A) (Q : A → machine → Prop) : Q a m → exec_spec m (GoRet a) Q.
Proof. intros. exists m. split; [apply rtc_refl|done]. Qed.

Lemma exec_steps {A} m m' (r : go gerr A) Q : steps m m' → exec_spec m' r Q → exec_spec m r Q.
Proof.
  intros Hs. destruct r; intros (m2 & Hs2 & HQ); exists m2; (split; [by etrans|done]).
Qed.

Lemma exec_one {A} m m' (r : go gerr A) Q :
  step i get m = GoRet (inl m') → exec_spec m' r Q → exec_spec m r Q.
Proof. intros. eapply exec_steps; [by apply rtc_once|done]. Qed.

Lemma exec_bind {A B} m (r : go gerr A) (f : A → go gerr B) Q R :
  exec_spec m r Q → (∀ a m', Q a m' → exec_spec m' (f a) R) → exec_spec m (go_bind r f) R.
Proof.
  destruct r; simpl; [|done..]. intros (m' & Hs & HQ) Hf. eapply exec_steps; eauto.
Qed.

Lemma exec_conseq {A} m (r : go gerr A) (Q R : A → machine → Prop) :
  exec_spec m r Q → (∀ a m', Q a m' → R a m') → exec_spec m r R.
Proof. destruct r; simpl; naive_solver. Qed.

(** A pure outcome that the machine signals in its next step. *)
Lemma exec_fail_step {A} m (r : go gerr machine) (q : go gerr A) (f : A → machine → Prop) :
  step i get m = (let! m := r in GoRet (inl m)) →
  match q with
  | GoRet a => ∃ m', r = GoRet m' ∧ f a m'
  | GoErr e => r = GoErr e
  | GoPanic p => r = GoPanic p
  end →
  exec_spec m q f.
Proof.
  intros Hs. destruct q; simpl.
  - intros (m' & -> & Hf). exists m'. split; [by apply rtc_once|done].
  - intros ->. exists m. split; [apply rtc_refl|done].
  - intros ->. exists m. split; [apply rtc_refl|done].
Qed.

(** The step of an instruction other than [Ret]. *)
Lemma step_exec m pc ws hs t o :
  st m pc ws hs t → zlookup (code i) pc = Some (op_code o) → o ≠ Op.Ret →
  0 <= pc → pc + 1 < 2 ^ 32 →
  ∃ m', st m' (pc + 1) ws hs t ∧
    step i get m = (let! m := exec i get o m' in GoRet (inl m)).
Proof.
  intros H Hc Ho ??. exists (set_ip (pc + 1) m). split; [by eapply set_ip_st|].
  unfold step, go_get. rewrite (st_ip _ _ _ _ _ H), Hc. cbn [go_bind].
  rewrite opcode_of_code, u32_id by width. by destruct o.
Qed.
End Machine.

#[global] Arguments exec_spec : simpl never.
