(* ===== verification/InstrFacts.v ===== *)
(** * The instructions the compiler emits

    What each instruction of compiled code does to the abstract machine state,
    in terms of the values of the expression language ([CompilerSpec.sval])
    rather than of words. *)

From Stdlib Require Import ZArith Lia.
From stdpp Require Import base list gmap strings relations.
From S2P Require Import Prelude Il Interp Expr Compiler Evaluator CompilerSpec BuilderFacts MachineFacts.

Open Scope Z_scope.

(** ** Values as words *)

Definition words64 (z : Z) : list Z := [u32 (Z.shiftr z 32); u32 (Z.land z 4294967295)].

(** [repr t hs v w]: the words [w] stand for the value [v], strings through
    the table [t], interface values through the heap [hs]. *)
Definition repr (t : StringTable) (hs : list iface) (v : sval) (w : list Z) : Prop :=
  match v with
  | SStr s => ∃ id, w = [id] ∧ stringToID t !! s = Some id
  | SBool b => w = [BoolToByteCode b]
  | SInt z => w = words64 z
  | SDbl d => w = words64 d
  | SIface v => ∃ h, w = [h] ∧ zlookup hs h = Some v
  end.

Lemma zlookup_prefix {A} (l l' : list A) p x :
  l `prefix_of` l' → zlookup l p = Some x → zlookup l' p = Some x.
Proof.
  intros [k ->] H. rewrite zlookup_app_l; [done|]. apply zlookup_Some_lt in H. lia.
Qed.

Lemma repr_mono t t' hs hs' v w :
  st_le t t' → hs `prefix_of` hs' → repr t hs v w → repr t' hs' v w.
Proof.
  intros Ht Hh. destruct v; simpl; try done.
  - intros (id & -> & ?). eauto using st_le_lookup.
  - intros (h & -> & ?). eauto using zlookup_prefix.
Qed.

Lemma repr_len t hs v w : repr t hs v w → 1 <= zlength w <= 2.
Proof. destruct v; simpl; [intros (?&->&?)|intros ->..|intros (?&->&?)]; done. Qed.

Lemma words64_inj_i z z' : is_i64 z → is_i64 z' → words64 z = words64 z' → z = z'.
Proof.
  intros Hz Hz' [= E1 E2]. apply IntegerToByteCode_inj; [done..|].
  unfold IntegerToByteCode. by rewrite E1, E2.
Qed.

Lemma words64_inj_d z z' : is_u64 z → is_u64 z' → words64 z = words64 z' → z = z'.
Proof.
  intros Hz Hz' [= E1 E2]. apply DoubleToByteCode_inj; [done..|].
  unfold DoubleToByteCode. by rewrite E1, E2.
Qed.

(** Two words are equal exactly when the 64-bit values are. *)
Lemma words64_eqb (P : Z → Prop) z z' :
  (words64 z = words64 z' → z = z') →
  (u32 (Z.land z' 4294967295) =? u32 (Z.land z 4294967295)) &&
  (u32 (Z.shiftr z' 32) =? u32 (Z.shiftr z 32)) = (z =? z').
Proof.
  intros Hinj. destruct (Z.eqb_spec z z') as [->|Hne]; [by rewrite !Z.eqb_refl|].
  apply andb_false_iff.
  destruct (Z.eqb_spec (u32 (Z.land z' 4294967295)) (u32 (Z.land z 4294967295))) as [E1|]; [|by left].
  destruct (Z.eqb_spec (u32 (Z.shiftr z' 32)) (u32 (Z.shiftr z 32))) as [E2|]; [|by right].
  destruct Hne. apply Hinj. unfold words64. congruence.
Qed.

(** The bag holds values a Go program can build. *)
Definition bag_ok (get : bag) : Prop := ∀ n v, get n = Some (Some v) → value_ok v.

Section Instr.
Context (i : Interpreter) (get : bag) (fn : Function).
Context (start : Z) (labels : gmap string Z).

(** The symbolic instruction [xs] is in the code at [pc]. *)
Definition at_ (pc : Z) (xs : list item) : Prop :=
  ∀ k x, zlookup xs k = Some x → zlookup (code i) (pc + k) = Some (resolve start labels x).

Lemma at_0 pc x xs : at_ pc (x :: xs) → zlookup (code i) pc = Some (resolve start labels x).
Proof. intros H. specialize (H 0 x eq_refl). by rewrite Z.add_0_r in H. Qed.

Lemma at_1 pc x y xs : at_ pc (x :: y :: xs) → zlookup (code i) (pc + 1) = Some (resolve start labels y).
Proof. intros H. exact (H 1 y eq_refl). Qed.

Lemma at_2 pc x y z xs :
  at_ pc (x :: y :: z :: xs) → zlookup (code i) (pc + 2) = Some (resolve start labels z).
Proof. intros H. exact (H 2 z eq_refl). Qed.

Lemma at_app pc xs ys : at_ pc (xs ++ ys) ↔ at_ pc xs ∧ at_ (pc + zlength xs) ys.
Proof.
  split.
  - intros H. split; intros k x Hk; pose proof (zlookup_Some_lt _ _ _ Hk).
    + apply H. rewrite zlookup_app_l; [done|lia].
    + replace (pc + zlength xs + k) with (pc + (zlength xs + k)) by lia. apply H.
      pose proof (zlength_nonneg xs). rewrite zlookup_app_r by lia.
      by replace (zlength xs + k - zlength xs) with k by lia.
  - intros [H1 H2] k x Hk. destruct (Z.lt_ge_cases k (zlength xs)).
    + apply H1. by rewrite zlookup_app_l in Hk.
    + rewrite zlookup_app_r in Hk by done.
      replace (pc + k) with (pc + zlength xs + (k - zlength xs)) by lia. by apply H2.
Qed.

Abbreviation st := (st fn).
Abbreviation exec_spec := (exec_spec i get).

(** ** Post-conditions *)

(** At most [h] new heap cells and [n] new strings. *)
Definition kpost (pc : Z) (ws : list Z) (hs : list iface) (t : StringTable) (h n : Z)
    (m : machine) : Prop :=
  ∃ hs' t', st m pc ws hs' t' ∧ hs `prefix_of` hs' ∧ zlength hs' <= zlength hs + h ∧
    st_wf t' ∧ st_le t t' ∧ nextID t' <= nextID t + n.

(** The value [v] has been pushed. *)
Definition vpost (pc : Z) (ws : list Z) (hs : list iface) (t : StringTable) (T : ilType) (h n : Z)
    (v : sval) (m : machine) : Prop :=
  ∃ w hs' t', st m pc (ws ++ w) hs' t' ∧ hs `prefix_of` hs' ∧ zlength hs' <= zlength hs + h ∧
    st_wf t' ∧ st_le t t' ∧ nextID t' <= nextID t + n ∧ repr t' hs' v w ∧ has_type T v.

Lemma vpost_simple m pc ws hs t T v w h n :
  st m pc (ws ++ w) hs t → st_wf t → repr t hs v w → has_type T v → 0 <= h → 0 <= n →
  vpost pc ws hs t T h n v m.
Proof. intros. exists w, hs, t. split_and!; try done; lia. Qed.

Lemma vpost_weaken m pc ws hs t T h n h' n' v :
  vpost pc ws hs t T h n v m → h <= h' → n <= n' → vpost pc ws hs t T h' n' v m.
Proof. intros (w & hs' & t' & ?) ??. exists w, hs', t'. destruct_and!. split_and!; try done; lia. Qed.

Lemma kpost_weaken m pc ws hs t h n h' n' :
  kpost pc ws hs t h n m → h <= h' → n <= n' → kpost pc ws hs t h' n' m.
Proof. intros (hs' & t' & ?) ??. exists hs', t'. destruct_and!. split_and!; try done; lia. Qed.

(** ** Pushing an attribute *)

Definition push_of (T : ilType) : iface → machine → go gerr machine :=
  match T with
  | Ty.String => push_string
  | Ty.Bool => push_bool
  | Ty.Integer | Ty.Duration => push_int
  | Ty.Double => push_double
  | _ => push_iface
  end.

Definition resolve_op (T : ilType) : Opcode :=
  match T with
  | Ty.String => Op.ResolveS | Ty.Bool => Op.ResolveB
  | Ty.Integer | Ty.Duration => Op.ResolveI | Ty.Double => Op.ResolveD | _ => Op.ResolveF
  end.

Definition tresolve_op (T : ilType) : Opcode :=
  match T with
  | Ty.String => Op.TResolveS | Ty.Bool => Op.TResolveB
  | Ty.Integer | Ty.Duration => Op.TResolveI | Ty.Double => Op.TResolveD | _ => Op.TResolveF
  end.

Definition heap_of (T : ilType) : Z := match T with Ty.Interface => 1 | _ => 0 end.

Lemma push_of_st m pc ws hs t T v :
  T ≠ Ty.Unknown → T ≠ Ty.Void →
  st m pc ws hs t → st_wf t → zlength ws + 2 <= 64 → zlength hs + heap_of T <= 63 →
  nextID t + 1 < 2 ^ 32 → (∀ x, v = Some x → value_ok x) →
  match convert T v with
  | GoRet s => ∃ m', push_of T v m = GoRet m' ∧ vpost pc ws hs t T (heap_of T) 1 s m'
  | GoErr e => push_of T v m = GoErr e
  | GoPanic p => False
  end.
Proof.
  intros HT1 HT2 Hst Hwf Hw Hh Hn Hv. destruct T; simpl in *; try done.
  - unfold push_string. destruct (as_string v) as [s|]; [|done].
    destruct (INTERN_st _ _ _ _ _ _ Hst s Hwf Hn) as (id & t' & m' & -> & Hst' & Hwf' & Hle & Hn' & Hid).
    destruct (PUSH_st _ _ _ _ _ _ Hst' id) as (m2 & -> & Hst2); [lia|].
    eexists. split; [done|]. exists [id], hs, t'. split_and!; try done; [lia|]. exists id. done.
  - unfold push_int. destruct (as_int v) as [z|] eqn:E; [|done].
    destruct (PUSH64_st _ _ _ _ _ _ Hst z) as (m2 & -> & Hst2); [lia|].
    eexists. split; [done|]. eapply vpost_simple; [done|done|done| |lia|lia].
    destruct v as [[]|]; simplify_eq/=; by apply (Hv _ eq_refl).
  - unfold push_double. destruct (as_double v) as [z|] eqn:E; [|done].
    destruct (PUSH64_st _ _ _ _ _ _ Hst z) as (m2 & -> & Hst2); [lia|].
    eexists. split; [done|]. eapply vpost_simple; [done|done|done| |lia|lia].
    destruct v as [[]|]; simplify_eq/=; by apply (Hv _ eq_refl).
  - unfold push_bool. destruct (as_bool v) as [b|] eqn:E; [|done].
    destruct (PUSH_st _ _ _ _ _ _ Hst (BoolToByteCode b)) as (m2 & -> & Hst2); [lia|].
    eexists. split; [done|]. by eapply vpost_simple.
  - unfold push_int. destruct (as_int v) as [z|] eqn:E; [|done].
    destruct (PUSH64_st _ _ _ _ _ _ Hst z) as (m2 & -> & Hst2); [lia|].
    eexists. split; [done|]. eapply vpost_simple; [done|done|done| |lia|lia].
    destruct v as [[]|]; simplify_eq/=; by apply (Hv _ eq_refl).
  - destruct (push_iface_st _ _ _ _ _ _ Hst v) as (m2 & -> & Hst2); [lia..|].
    eexists. split; [done|]. exists [zlength hs], (hs ++ [v]), t.
    split_and!; try done; [by apply prefix_app_r|autorewrite with zlist; lia|lia|].
    exists (zlength hs). split; [done|]. apply zlookup_mid.
Qed.

(** ** Single instructions *)

Definition rroom (T : ilType) : Z := match T with Ty.String | Ty.Bool => 1 | _ => 2 end.
Definition troom (T : ilType) : Z :=
  match T with Ty.Integer | Ty.Duration | Ty.Double => 3 | _ => 2 end.

Lemma exec_resolve T m :
  exec i get (resolve_op T) m = op_Resolve i get (rroom T) (push_of T) m.
Proof. by destruct T. Qed.

Lemma exec_tresolve T m :
  exec i get (tresolve_op T) m = op_TResolve i get (troom T) (push_of T) m.
Proof. by destruct T. Qed.

Section State.
Context (m : machine) (pc : Z) (hs : list iface) (t : StringTable).
Context (Hpc : 0 <= pc) (Hpc4 : pc + 4 < 2 ^ 32).

(** The state after the opcode word has been fetched. *)
Lemma fetch ws o :
  st m pc ws hs t → zlookup (code i) pc = Some (op_code o) → o ≠ Op.Ret →
  ∃ m', st m' (pc + 1) ws hs t ∧ step i get m = (let! m := exec i get o m' in GoRet (inl m)).
Proof using Hpc Hpc4. intros. eapply step_exec; eauto. lia. Qed.

Lemma i_resolve ws T n id :
  T ≠ Ty.Unknown → T ≠ Ty.Void → at_ pc [W (op_code (resolve_op T)); W id] →
  st m pc ws hs t → st_wf t → stringToID t !! n = Some id →
  zlength ws + 3 <= 64 → zlength hs + heap_of T <= 63 → nextID t + 1 < 2 ^ 32 → bag_ok get →
  exec_spec m (match get n with None => GoErr (err_lookup n) | Some v => convert T v end)
    (vpost (pc + 2) ws hs t T (heap_of T) 1).
Proof using Hpc Hpc4.
  intros HT1 HT2 Hat Hst Hwf Hid Hw Hh Hn Hbag.
  destruct (fetch ws (resolve_op T) Hst) as (m1 & Hst1 & Hstep).
  { exact (at_0 _ _ _ Hat). } { by destruct T. }
  eapply exec_fail_step; [exact Hstep|]. rewrite exec_resolve. unfold op_Resolve.
  rewrite (OVERFLOW_st _ _ _ _ _ _ Hst1) by (destruct T; simpl; lia). simpl.
  destruct (LOAD_st i _ _ _ _ _ _ Hst1 id) as (m2 & -> & Hst2);
    [exact (at_1 _ _ _ _ Hat)|lia..|]. simpl.
  rewrite (STR_st _ _ _ _ _ _ Hst2 n) by done. simpl.
  replace (pc + 1 + 1) with (pc + 2) in Hst2 by lia.
  destruct (get n) as [v|] eqn:Hg; [|done].
  pose proof (push_of_st m2 _ _ _ _ T v HT1 HT2 Hst2 Hwf ltac:(lia) Hh Hn
                ltac:(intros x ->; by eapply Hbag)) as Hp.
  by destruct (convert T v).
Qed.

Lemma i_jcond ws w (nz : bool) l a :
  at_ pc [W (op_code (if nz then Op.Jnz else Op.Jz)); L l] → labels !! l = Some a →
  is_u32 (a + start) → st m pc (ws ++ [w]) hs t →
  ∃ m', step i get m = GoRet (inl m') ∧
    st m' (if Bool.eqb (w =? 0) (negb nz) then a + start else pc + 2) ws hs t.
Proof using Hpc Hpc4.
  intros Hat Hl Ha Hst.
  destruct (fetch (ws ++ [w]) (if nz then Op.Jnz else Op.Jz) Hst) as (m1 & Hst1 & Hstep).
  { pose proof (at_0 _ _ _ Hat) as H0. by destruct nz. } { by destruct nz. }
  pose proof (st_ws_len _ _ _ _ _ _ Hst) as Hlen. autorewrite with zlist in Hlen.
  pose proof (zlength_nonneg ws).
  assert (exec i get (if nz then Op.Jnz else Op.Jz) m1 = op_Jcond i nz m1) as E by (by destruct nz).
  rewrite E in Hstep. unfold op_Jcond in Hstep.
  rewrite (UNDERFLOW_st _ _ _ _ _ _ Hst1) in Hstep by (autorewrite with zlist; lia). simpl in Hstep.
  destruct (LOAD_st i _ _ _ _ _ _ Hst1 (a + start)) as (m2 & Hload & Hst2); [|lia..|].
  { rewrite (at_1 _ _ _ _ Hat). simpl. rewrite Hl. simpl. by rewrite u32_id. }
  rewrite Hload in Hstep. simpl in Hstep.
  change (opstack m2) with (opstack (DROP 1 m2)) in Hstep.
  change (u32 (sp m2 - 1)) with (sp (DROP 1 m2)) in Hstep.
  rewrite (DROP_get _ _ _ _ _ _ _ Hst2 1 w) in Hstep by done. simpl in Hstep.
  pose proof (DROP_st _ _ _ _ _ _ _ Hst2 1 eq_refl) as Hst3.
  replace (pc + 1 + 1) with (pc + 2) in Hst3 by lia.
  eexists. split; [exact Hstep|].
  destruct (Bool.eqb _ _); [|exact Hst3]. by eapply set_ip_st.
Qed.

Lemma i_jmp ws l a :
  at_ pc [W (op_code Op.Jmp); L l] → labels !! l = Some a → is_u32 (a + start) →
  st m pc ws hs t → ∃ m', step i get m = GoRet (inl m') ∧ st m' (a + start) ws hs t.
Proof using Hpc Hpc4.
  intros Hat Hl Ha Hst. destruct (fetch ws Op.Jmp Hst (at_0 _ _ _ Hat)) as (m1 & Hst1 & Hstep); [done|].
  simpl in Hstep. unfold op_Jmp in Hstep.
  destruct (LOAD_st i _ _ _ _ _ _ Hst1 (a + start)) as (m2 & Hload & Hst2); [|lia..|].
  { rewrite (at_1 _ _ _ _ Hat). simpl. rewrite Hl. simpl. by rewrite u32_id. }
  rewrite Hload in Hstep. simpl in Hstep. eexists. split; [exact Hstep|]. by eapply set_ip_st.
Qed.

Lemma i_push1 ws o w :
  o = Op.APushS ∨ o = Op.APushB → at_ pc [W (op_code o); W w] →
  st m pc ws hs t → zlength ws < 64 →
  ∃ m', step i get m = GoRet (inl m') ∧ st m' (pc + 2) (ws ++ [w]) hs t.
Proof using Hpc Hpc4.
  intros Ho Hat Hst Hw. destruct (fetch ws o Hst (at_0 _ _ _ Hat)) as (m1 & Hst1 & Hstep).
  { by destruct Ho as [->| ->]. }
  assert (exec i get o m1 = op_APush1 i m1) as E by (by destruct Ho as [->| ->]).
  rewrite E in Hstep. unfold op_APush1 in Hstep.
  destruct (LOAD_st i _ _ _ _ _ _ Hst1 w) as (m2 & Hload & Hst2); [exact (at_1 _ _ _ _ Hat)|lia..|].
  rewrite Hload in Hstep. simpl in Hstep.
  rewrite (OVERFLOW_st _ _ _ _ _ _ Hst2) in Hstep by lia. simpl in Hstep.
  destruct (PUSH_st _ _ _ _ _ _ Hst2 w Hw) as (m3 & Hp & Hst3). rewrite Hp in Hstep.
  exists m3. split; [done|]. by replace (pc + 2) with (pc + 1 + 1) by lia.
Qed.

Lemma i_push2 ws o lo hi :
  o = Op.APushI ∨ o = Op.APushD → at_ pc [W (op_code o); W lo; W hi] →
  st m pc ws hs t → zlength ws < 63 →
  ∃ m', step i get m = GoRet (inl m') ∧ st m' (pc + 3) (ws ++ [hi; lo]) hs t.
Proof using Hpc Hpc4.
  intros Ho Hat Hst Hw. destruct (fetch ws o Hst (at_0 _ _ _ Hat)) as (m1 & Hst1 & Hstep).
  { by destruct Ho as [->| ->]. }
  assert (exec i get o m1 = op_APush2 i m1) as E by (by destruct Ho as [->| ->]).
  rewrite E in Hstep. unfold op_APush2 in Hstep.
  destruct (LOAD2_st i _ _ _ _ _ _ Hst1 lo hi) as (m2 & Hload & Hst2);
    [exact (at_1 _ _ _ _ Hat)| |lia..|].
  { replace (pc + 1 + 1) with (pc + 2) by lia. exact (at_2 _ _ _ _ _ Hat). }
  rewrite Hload in Hstep. simpl in Hstep.
  rewrite (OVERFLOW_st _ _ _ _ _ _ Hst2) in Hstep by lia. simpl in Hstep.
  destruct (PUSH2_st _ _ _ _ _ _ Hst2 hi lo Hw) as (m3 & Hp & Hst3). rewrite Hp in Hstep.
  exists m3. split; [done|]. by replace (pc + 3) with (pc + 1 + 2) by lia.
Qed.

(** Comparisons and boolean operators push one word. *)
Lemma i_eq1 ws a b o :
  o = Op.EqS ∨ o = Op.EqB → at_ pc [W (op_code o)] → st m pc ((ws ++ [a]) ++ [b]) hs t →
  ∃ m', step i get m = GoRet (inl m') ∧ st m' (pc + 1) (ws ++ [BoolToByteCode (b =? a)]) hs t.
Proof using Hpc Hpc4.
  intros Ho Hat Hst. destruct (fetch _ o Hst (at_0 _ _ _ Hat)) as (m1 & Hst1 & Hstep).
  { by destruct Ho as [->| ->]. }
  assert (exec i get o m1 = op_Eq1 m1) as E by (by destruct Ho as [->| ->]).
  rewrite E in Hstep. unfold op_Eq1 in Hstep. rewrite <- app_assoc in Hst1. simpl in Hst1.
  pose proof (st_ws_len _ _ _ _ _ _ Hst1) as Hlen. autorewrite with zlist in Hlen.
  pose proof (zlength_nonneg ws).
  rewrite (UNDERFLOW_st _ _ _ _ _ _ Hst1) in Hstep by (autorewrite with zlist; lia).
  rewrite (PEEK_st _ _ _ _ _ _ _ Hst1 1 b), (PEEK_st _ _ _ _ _ _ _ Hst1 2 a) in Hstep by done.
  simpl in Hstep. pose proof (DROP_st _ _ _ _ _ _ _ Hst1 2 eq_refl) as Hst2.
  destruct (PUSH_st _ _ _ _ _ _ Hst2 (BoolToByteCode (b =? a))) as (m3 & Hp & Hst3); [lia|].
  unfold BoolToByteCode in *. rewrite Hp in Hstep. by exists m3.
Qed.

Lemma i_aeq1 ws a w o :
  o = Op.AEqS ∨ o = Op.AEqB → at_ pc [W (op_code o); W w] → st m pc (ws ++ [a]) hs t →
  ∃ m', step i get m = GoRet (inl m') ∧ st m' (pc + 2) (ws ++ [BoolToByteCode (w =? a)]) hs t.
Proof using Hpc Hpc4.
  intros Ho Hat Hst. destruct (fetch _ o Hst (at_0 _ _ _ Hat)) as (m1 & Hst1 & Hstep).
  { by destruct Ho as [->| ->]. }
  assert (exec i get o m1 = op_AEq1 i m1) as E by (by destruct Ho as [->| ->]).
  rewrite E in Hstep. unfold op_AEq1 in Hstep.
  pose proof (st_ws_len _ _ _ _ _ _ Hst1) as Hlen. autorewrite with zlist in Hlen.
  pose proof (zlength_nonneg ws).
  destruct (LOAD_st i _ _ _ _ _ _ Hst1 w) as (m2 & Hload & Hst2); [exact (at_1 _ _ _ _ Hat)|lia..|].
  rewrite Hload in Hstep. simpl in Hstep.
  rewrite (UNDERFLOW_st _ _ _ _ _ _ Hst2) in Hstep by (autorewrite with zlist; lia). simpl in Hstep.
  change (opstack m2) with (opstack (DROP 1 m2)) in Hstep.
  change (u32 (sp m2 - 1)) with (sp (DROP 1 m2)) in Hstep.
  rewrite (DROP_get _ _ _ _ _ _ _ Hst2 1 a) in Hstep by done. simpl in Hstep.
  pose proof (DROP_st _ _ _ _ _ _ _ Hst2 1 eq_refl) as Hst3.
  destruct (PUSH_st _ _ _ _ _ _ Hst3 (BoolToByteCode (w =? a))) as (m3 & Hp & Hst4); [lia|].
  unfold BoolToByteCode in *. rewrite Hp in Hstep. exists m3. split; [done|].
  by replace (pc + 2) with (pc + 1 + 1) by lia.
Qed.

Lemma i_eq2 ws a1 a2 b1 b2 o :
  o = Op.EqI ∨ o = Op.EqD → at_ pc [W (op_code o)] →
  st m pc ((ws ++ [a1; a2]) ++ [b1; b2]) hs t →
  ∃ m', step i get m = GoRet (inl m') ∧
    st m' (pc + 1) (ws ++ [BoolToByteCode ((b2 =? a2) && (b1 =? a1))]) hs t.
Proof using Hpc Hpc4.
  intros Ho Hat Hst. destruct (fetch _ o Hst (at_0 _ _ _ Hat)) as (m1 & Hst1 & Hstep).
  { by destruct Ho as [->| ->]. }
  assert (exec i get o m1 = op_Eq2 m1) as E by (by destruct Ho as [->| ->]).
  rewrite E in Hstep. unfold op_Eq2 in Hstep. rewrite <- app_assoc in Hst1. simpl in Hst1.
  pose proof (st_ws_len _ _ _ _ _ _ Hst1) as Hlen. autorewrite with zlist in Hlen.
  pose proof (zlength_nonneg ws).
  rewrite (UNDERFLOW_st _ _ _ _ _ _ Hst1) in Hstep by (autorewrite with zlist; lia).
  rewrite (PEEK_st _ _ _ _ _ _ _ Hst1 1 b2), (PEEK_st _ _ _ _ _ _ _ Hst1 2 b1),
    (PEEK_st _ _ _ _ _ _ _ Hst1 3 a2), (PEEK_st _ _ _ _ _ _ _ Hst1 4 a1) in Hstep by done.
  simpl in Hstep. pose proof (DROP_st _ _ _ _ _ _ _ Hst1 4 eq_refl) as Hst2.
  destruct (PUSH_st _ _ _ _ _ _ Hst2 (BoolToByteCode ((b2 =? a2) && (b1 =? a1)))) as (m3 & Hp & Hst3); [lia|].
  unfold BoolToByteCode in *. rewrite Hp in Hstep. by exists m3.
Qed.

Lemma i_aeq2 ws a1 a2 lo hi o :
  o = Op.AEqI ∨ o = Op.AEqD → at_ pc [W (op_code o); W lo; W hi] →
  st m pc (ws ++ [a1; a2]) hs t →
  ∃ m', step i get m = GoRet (inl m') ∧
    st m' (pc + 3) (ws ++ [BoolToByteCode ((a2 =? lo) && (a1 =? hi))]) hs t.
Proof using Hpc Hpc4.
  intros Ho Hat Hst. destruct (fetch _ o Hst (at_0 _ _ _ Hat)) as (m1 & Hst1 & Hstep).
  { by destruct Ho as [->| ->]. }
  assert (exec i get o m1 = op_AEq2 i m1) as E by (by destruct Ho as [->| ->]).
  rewrite E in Hstep. unfold op_AEq2 in Hstep.
  pose proof (st_ws_len _ _ _ _ _ _ Hst1) as Hlen. autorewrite with zlist in Hlen.
  pose proof (zlength_nonneg ws).
  destruct (LOAD2_st i _ _ _ _ _ _ Hst1 lo hi) as (m2 & Hload & Hst2);
    [exact (at_1 _ _ _ _ Hat)| |lia..|].
  { replace (pc + 1 + 1) with (pc + 2) by lia. exact (at_2 _ _ _ _ _ Hat). }
  rewrite Hload in Hstep. simpl in Hstep.
  rewrite (UNDERFLOW_st _ _ _ _ _ _ Hst2) in Hstep by (autorewrite with zlist; lia).
  rewrite (PEEK_st _ _ _ _ _ _ _ Hst2 1 a2), (PEEK_st _ _ _ _ _ _ _ Hst2 2 a1) in Hstep by done.
  simpl in Hstep. pose proof (DROP_st _ _ _ _ _ _ _ Hst2 2 eq_refl) as Hst3.
  destruct (PUSH_st _ _ _ _ _ _ Hst3 (BoolToByteCode ((a2 =? lo) && (a1 =? hi)))) as (m3 & Hp & Hst4); [lia|].
  unfold BoolToByteCode in *. rewrite Hp in Hstep. exists m3. split; [done|].
  by replace (pc + 3) with (pc + 1 + 2) by lia.
Qed.

Lemma i_and ws p q :
  at_ pc [W (op_code Op.And)] →
  st m pc ((ws ++ [BoolToByteCode p]) ++ [BoolToByteCode q]) hs t →
  ∃ m', step i get m = GoRet (inl m') ∧ st m' (pc + 1) (ws ++ [BoolToByteCode (p && q)]) hs t.
Proof using Hpc Hpc4.
  intros Hat Hst. destruct (fetch _ Op.And Hst (at_0 _ _ _ Hat)) as (m1 & Hst1 & Hstep); [done|].
  simpl in Hstep. unfold op_Logic in Hstep. rewrite <- app_assoc in Hst1. simpl in Hst1.
  pose proof (st_ws_len _ _ _ _ _ _ Hst1) as Hlen. autorewrite with zlist in Hlen.
  pose proof (zlength_nonneg ws).
  rewrite (UNDERFLOW_st _ _ _ _ _ _ Hst1) in Hstep by (autorewrite with zlist; lia).
  rewrite (PEEK_st _ _ _ _ _ _ _ Hst1 1 (BoolToByteCode q)),
    (PEEK_st _ _ _ _ _ _ _ Hst1 2 (BoolToByteCode p)) in Hstep by done.
  simpl in Hstep. pose proof (DROP_st _ _ _ _ _ _ _ Hst1 2 eq_refl) as Hst2.
  destruct (PUSH_st _ _ _ _ _ _ Hst2 (BoolToByteCode (p && q))) as (m3 & Hp & Hst3); [lia|].
  replace (w_and (BoolToByteCode q) (BoolToByteCode p)) with (BoolToByteCode (p && q)) in Hstep
    by (by destruct p, q).
  rewrite Hp in Hstep. by exists m3.
Qed.

Lemma i_not ws p :
  at_ pc [W (op_code Op.Not)] → st m pc (ws ++ [BoolToByteCode p]) hs t →
  ∃ m', step i get m = GoRet (inl m') ∧ st m' (pc + 1) (ws ++ [BoolToByteCode (negb p)]) hs t.
Proof using Hpc Hpc4.
  intros Hat Hst. destruct (fetch _ Op.Not Hst (at_0 _ _ _ Hat)) as (m1 & Hst1 & Hstep); [done|].
  simpl in Hstep. unfold op_Not in Hstep.
  pose proof (st_ws_len _ _ _ _ _ _ Hst1) as Hlen. autorewrite with zlist in Hlen.
  pose proof (zlength_nonneg ws).
  rewrite (UNDERFLOW_st _ _ _ _ _ _ Hst1) in Hstep by (autorewrite with zlist; lia).
  rewrite (PEEK_st _ _ _ _ _ _ _ Hst1 1 (BoolToByteCode p)) in Hstep by done.
  simpl in Hstep. destruct Hst1 as [? Hsp (r & Hs & Hr) ??????].
  rewrite Hsp, Hs in Hstep. autorewrite with zlist in Hstep, Hr.
  replace (zlength ws + (1 + 0) - 1) with (zlength ws) in Hstep by lia.
  rewrite u32_id in Hstep by width. unfold go_set in Hstep.
  rewrite <- app_assoc in Hstep. simpl in Hstep. rewrite zinsert_mid in Hstep. simpl in Hstep.
  eexists. split; [exact Hstep|]. split; simpl; try done.
  - rewrite Hsp. by autorewrite with zlist.
  - exists r. rewrite <- app_assoc. split; [by destruct p|]. by autorewrite with zlist.
Qed.
End State.

(** ** Instruction pairs *)

Section Pairs.
Context (m : machine) (pc : Z) (hs : list iface) (t : StringTable).
Context (Hpc : 0 <= pc) (Hpc8 : pc + 8 < 2 ^ 32).

(** Outcome of code that jumps with a value and falls through with nil. *)
Definition apost (pcJ pcN : Z) (ws : list Z) (T : ilType) (h n : Z)
    (r : option sval) (m : machine) : Prop :=
  match r with
  | Some v => vpost pcJ ws hs t T h n v m
  | None => kpost pcN ws hs t h n m
  end.

Lemma i_tresolve ws T n id l a :
  T ≠ Ty.Unknown → T ≠ Ty.Void →
  at_ pc [W (op_code (tresolve_op T)); W id; W (op_code Op.Jnz); L l] →
  labels !! l = Some a → is_u32 (a + start) →
  st m pc ws hs t → st_wf t → stringToID t !! n = Some id →
  zlength ws + 3 <= 64 → zlength hs + heap_of T <= 63 → nextID t + 1 < 2 ^ 32 → bag_ok get →
  exec_spec m (match get n with
               | None => GoRet None
               | Some v => let! s := convert T v in GoRet (Some s)
               end)
    (apost (a + start) (pc + 4) ws T (heap_of T) 1).
Proof using Hpc Hpc8.
  intros HT1 HT2 Hat Hl Ha Hst Hwf Hid Hw Hh Hn Hbag.
  destruct (fetch m pc hs t Hpc ltac:(lia) ws (tresolve_op T) Hst) as (m1 & Hst1 & Hstep).
  { exact (at_0 _ _ _ Hat). } { by destruct T. }
  rewrite exec_tresolve in Hstep. unfold op_TResolve in Hstep.
  rewrite (OVERFLOW_st _ _ _ _ _ _ Hst1) in Hstep by (destruct T; simpl; lia). simpl in Hstep.
  destruct (LOAD_st i _ _ _ _ _ _ Hst1 id) as (m2 & Hload & Hst2);
    [exact (at_1 _ _ _ _ Hat)|lia..|]. rewrite Hload in Hstep. simpl in Hstep.
  rewrite (STR_st _ _ _ _ _ _ Hst2 n) in Hstep by done. simpl in Hstep.
  replace (pc + 1 + 1) with (pc + 2) in Hst2 by lia.
  assert (at_ (pc + 2) [W (op_code Op.Jnz); L l]) as Hat2.
  { apply (at_app pc [_; _] [_; _]) in Hat. apply Hat. }
  destruct (get n) as [v|] eqn:Hg.
  - pose proof (push_of_st m2 _ _ _ _ T v HT1 HT2 Hst2 Hwf ltac:(lia) Hh Hn
                  ltac:(intros x ->; by eapply Hbag)) as Hp.
    destruct (convert T v) as [sv|e|p]; simpl.
    + destruct Hp as (m3 & Hp & w & hs' & t' & Hst3 & Hhs & Hhl & Hwf' & Hle & Hn' & Hr & HT).
      pose proof (repr_len _ _ _ _ Hr) as Hwl. rewrite Hp in Hstep. simpl in Hstep.
      destruct (PUSH_st _ _ _ _ _ _ Hst3 1) as (m4 & Hp4 & Hst4); [autorewrite with zlist; lia|].
      rewrite Hp4 in Hstep. simpl in Hstep.
      destruct (i_jcond m4 (pc + 2) hs' t' ltac:(lia) ltac:(lia) _ _ true _ _ Hat2 Hl Ha Hst4)
        as (m5 & Hstep5 & Hst5).
      eapply exec_one; [done|]. eapply exec_one; [done|]. apply exec_ret.
      exists w, hs', t'. split_and!; done.
    + rewrite Hp in Hstep. exists m. split; [apply rtc_refl|done].
    + done.
  - destruct (PUSH_st _ _ _ _ _ _ Hst2 0) as (m3 & Hp3 & Hst3); [lia|].
    rewrite Hp3 in Hstep. simpl in Hstep.
    destruct (i_jcond m3 (pc + 2) hs t ltac:(lia) ltac:(lia) _ _ true _ _ Hat2 Hl Ha Hst3)
      as (m5 & Hstep5 & Hst5).
    eapply exec_one; [done|]. eapply exec_one; [done|]. apply exec_ret.
    exists hs, t. simpl in Hst5. replace (pc + 4) with (pc + 2 + 2) by lia.
    assert (0 <= heap_of T) by (by destruct T). split_and!; try done; lia.
Qed.

(** Map lookups. *)
Lemma i_tlookup ws h v k key l a :
  at_ pc [W (op_code Op.TLookup); W (op_code Op.Jnz); L l] →
  labels !! l = Some a → is_u32 (a + start) →
  st m pc ((ws ++ [h]) ++ [k]) hs t → st_wf t → zlookup hs h = Some v →
  stringToID t !! key = Some k → nextID t + 1 < 2 ^ 32 →
  exec_spec m (let! mp := as_map v in GoRet (SStr <$> mp !! key))
    (apost (a + start) (pc + 3) ws Ty.String 0 1).
Proof using Hpc Hpc8.
  intros Hat Hl Ha Hst Hwf Hh Hk Hn.
  destruct (fetch m pc hs t Hpc ltac:(lia) _ Op.TLookup Hst (at_0 _ _ _ Hat)) as (m1 & Hst1 & Hstep); [done|].
  cbn [exec] in Hstep. unfold op_TLookup in Hstep. rewrite <- app_assoc in Hst1. simpl in Hst1.
  pose proof (st_ws_len _ _ _ _ _ _ Hst1) as Hlen. autorewrite with zlist in Hlen.
  pose proof (zlength_nonneg ws).
  rewrite (UNDERFLOW_st _ _ _ _ _ _ Hst1) in Hstep by (autorewrite with zlist; lia).
  rewrite (PEEK_st _ _ _ _ _ _ _ Hst1 1 k), (PEEK_st _ _ _ _ _ _ _ Hst1 2 h) in Hstep by done.
  cbn [go_bind] in Hstep. pose proof (DROP_st _ _ _ _ _ _ _ Hst1 2 eq_refl) as Hst2.
  set (m2 := DROP 2 m1) in *. clearbody m2.
  rewrite (STR_st _ _ _ _ _ _ Hst2 key) in Hstep by done. cbn [go_bind] in Hstep.
  rewrite (heap_map_st _ _ _ _ _ _ Hst2 h v) in Hstep by done.
  assert (at_ (pc + 1) [W (op_code Op.Jnz); L l]) as Hat2.
  { apply (at_app pc [_] [_; _]) in Hat. apply Hat. }
  destruct (as_map v) as [mp|e|p]; simpl in Hstep |- *;
    [|exists m; split; [apply rtc_refl|done]..].
  destruct (mp !! key) as [s|] eqn:Hs; simpl in Hstep |- *.
  - destruct (INTERN_st _ _ _ _ _ _ Hst2 s Hwf Hn) as (id & t' & m3 & E & Hst3 & Hwf' & Hle & Hn' & Hid).
    rewrite E in Hstep.
    destruct (PUSH2_st _ _ _ _ _ _ Hst3 id 1) as (m4 & Hp4 & Hst4); [lia|].
    rewrite Hp4 in Hstep. simpl in Hstep.
    replace (ws ++ [id; 1]) with ((ws ++ [id]) ++ [1]) in Hst4 by (by rewrite <- app_assoc).
    destruct (i_jcond m4 (pc + 1) hs t' ltac:(lia) ltac:(lia) _ _ true _ _ Hat2 Hl Ha Hst4)
      as (m5 & Hstep5 & Hst5).
    eapply exec_one; [done|]. eapply exec_one; [done|]. apply exec_ret.
    exists [id], hs, t'. split_and!; try done; [lia|]. exists id. done.
  - destruct (PUSH_st _ _ _ _ _ _ Hst2 0) as (m4 & Hp4 & Hst4); [lia|].
    rewrite Hp4 in Hstep. simpl in Hstep.
    destruct (i_jcond m4 (pc + 1) hs t ltac:(lia) ltac:(lia) _ _ true _ _ Hat2 Hl Ha Hst4)
      as (m5 & Hstep5 & Hst5).
    eapply exec_one; [done|]. eapply exec_one; [done|]. apply exec_ret.
    simpl in Hst5. exists hs, t. replace (pc + 3) with (pc + 1 + 2) by lia. split_and!; try done; lia.
Qed.

(** Interning and pushing the found string, common to the lookups. *)
Lemma push_id_st m1 pc1 ws s :
  st m1 pc1 ws hs t → st_wf t → zlength ws < 64 → nextID t + 1 < 2 ^ 32 →
  ∃ m', push_id s m1 = GoRet m' ∧ vpost pc1 ws hs t Ty.String 0 1 (SStr s) m'.
Proof.
  intros Hst Hwf Hw Hn. unfold push_id.
  destruct (INTERN_st _ _ _ _ _ _ Hst s Hwf Hn) as (id & t' & m3 & -> & Hst3 & Hwf' & Hle & Hn' & Hid).
  destruct (PUSH_st _ _ _ _ _ _ Hst3 id Hw) as (m4 & -> & Hst4).
  eexists. split; [done|]. exists [id], hs, t'. split_and!; try done; [lia|]. exists id. done.
Qed.

Lemma i_nlookup ws h v k key :
  at_ pc [W (op_code Op.NLookup)] →
  st m pc ((ws ++ [h]) ++ [k]) hs t → st_wf t → zlookup hs h = Some v →
  stringToID t !! key = Some k → nextID t + 1 < 2 ^ 32 →
  exec_spec m (let! mp := as_map v in GoRet (SStr (default "" (mp !! key))))
    (vpost (pc + 1) ws hs t Ty.String 0 1).
Proof using Hpc Hpc8.
  intros Hat Hst Hwf Hh Hk Hn.
  destruct (fetch m pc hs t Hpc ltac:(lia) _ Op.NLookup Hst (at_0 _ _ _ Hat)) as (m1 & Hst1 & Hstep); [done|].
  cbn [exec] in Hstep. unfold op_Lookup in Hstep. rewrite <- app_assoc in Hst1. simpl in Hst1.
  pose proof (st_ws_len _ _ _ _ _ _ Hst1) as Hlen. autorewrite with zlist in Hlen.
  pose proof (zlength_nonneg ws).
  rewrite (UNDERFLOW_st _ _ _ _ _ _ Hst1) in Hstep by (autorewrite with zlist; lia).
  rewrite (PEEK_st _ _ _ _ _ _ _ Hst1 1 k), (PEEK_st _ _ _ _ _ _ _ Hst1 2 h) in Hstep by done.
  cbn [go_bind] in Hstep. pose proof (DROP_st _ _ _ _ _ _ _ Hst1 2 eq_refl) as Hst2.
  set (m2 := DROP 2 m1) in *. clearbody m2.
  rewrite (STR_st _ _ _ _ _ _ Hst2 key) in Hstep by done. cbn [go_bind] in Hstep.
  rewrite (heap_map_st _ _ _ _ _ _ Hst2 h v) in Hstep by done.
  destruct (as_map v) as [mp|e|p]; simpl in Hstep |- *;
    [|exists m; split; [apply rtc_refl|done]..].
  destruct (push_id_st m2 (pc + 1) ws (default "" (mp !! key)) Hst2 Hwf) as (m4 & Hp4 & Hv); [lia..|].
  eapply exec_one; [|by apply exec_ret]. rewrite Hstep.
  destruct (mp !! key); simpl in Hp4 |- *; by rewrite Hp4.
Qed.

Lemma i_anlookup ws h v k key :
  at_ pc [W (op_code Op.ANLookup); W k] →
  st m pc (ws ++ [h]) hs t → st_wf t → zlookup hs h = Some v →
  stringToID t !! key = Some k → nextID t + 1 < 2 ^ 32 →
  exec_spec m (let! mp := as_map v in GoRet (SStr (default "" (mp !! key))))
    (vpost (pc + 2) ws hs t Ty.String 0 1).
Proof using Hpc Hpc8.
  intros Hat Hst Hwf Hh Hk Hn.
  destruct (fetch m pc hs t Hpc ltac:(lia) _ Op.ANLookup Hst (at_0 _ _ _ Hat)) as (m1 & Hst1 & Hstep); [done|].
  cbn [exec] in Hstep. unfold op_ALookup in Hstep.
  pose proof (st_ws_len _ _ _ _ _ _ Hst1) as Hlen. autorewrite with zlist in Hlen.
  pose proof (zlength_nonneg ws).
  rewrite (UNDERFLOW_st _ _ _ _ _ _ Hst1) in Hstep by (autorewrite with zlist; lia).
  cbn [go_bind] in Hstep.
  destruct (LOAD_st i _ _ _ _ _ _ Hst1 k) as (m2 & Hload & Hst2);
    [exact (at_1 _ _ _ _ Hat)|lia..|]. rewrite Hload in Hstep. cbn [go_bind] in Hstep.
  rewrite (STR_st _ _ _ _ _ _ Hst2 key) in Hstep by done. cbn [go_bind] in Hstep.
  rewrite (DROP_get _ _ _ _ _ _ _ Hst2 1 h) in Hstep by done. cbn [go_bind] in Hstep.
  pose proof (DROP_st _ _ _ _ _ _ _ Hst2 1 eq_refl) as Hst3.
  set (m3 := DROP 1 m2) in *. clearbody m3.
  rewrite (heap_map_st _ _ _ _ _ _ Hst3 h v) in Hstep by done.
  destruct (as_map v) as [mp|e|p]; simpl in Hstep |- *;
    [|exists m; split; [apply rtc_refl|done]..].
  replace (pc + 1 + 1) with (pc + 2) in Hst3 by lia.
  destruct (push_id_st m3 (pc + 2) ws (default "" (mp !! key)) Hst3 Hwf) as (m4 & Hp4 & Hv); [lia..|].
  eapply exec_one; [|by apply exec_ret]. rewrite Hstep.
  destruct (mp !! key); simpl in Hp4 |- *; by rewrite Hp4.
Qed.
End Pairs.

(** ** Calls of externs *)

(** The words [op_Call] writes back after [invoke]. *)
Definition call_finish (t2 : Z) (rt : ilType) (r : Z * Z * machine) : go gerr machine :=
  let '(t1, t3, m) := r in
  let! s := go_set (opstack m) (u32 (sp m - t2)) t1 in
  let! s := go_set s (u32 (sp m - t2 + 1)) t3 in
  GoRet (set_sp (u32 (sp m - u32 (t2 - typeStackAllocSize rt))) (set_opstack s m)).

Lemma call_finish_st m pc ws xs hs t rt t1 t3 :
  st m pc (ws ++ xs) hs t → zlength ws + 2 <= 64 → 1 <= zlength xs →
  typeStackAllocSize rt = 1 →
  ∃ m', call_finish (zlength xs) rt (t1, t3, m) = GoRet m' ∧ st m' pc (ws ++ [t1]) hs t.
Proof.
  intros Hst Hw Hx Hrt. pose proof (st_ws_len _ _ _ _ _ _ Hst) as Hlen.
  autorewrite with zlist in Hlen. pose proof (zlength_nonneg ws).
  destruct Hst as [? Hsp (r & Hs & Hr) ??????]. unfold opStackSize in Hr.
  autorewrite with zlist in Hr. rewrite <- app_assoc in Hs.
  destruct (slack_cons (64 - zlength ws) (xs ++ r)) as (x & q & Eq & Hq);
    [autorewrite with zlist; lia|lia|].
  destruct (slack_cons _ q Hq) as (y & q' & -> & Hq'); [lia|]. rewrite Eq in Hs.
  unfold call_finish. rewrite Hsp, Hrt. autorewrite with zlist.
  replace (zlength ws + zlength xs - zlength xs) with (zlength ws) by lia.
  rewrite (u32_id (zlength ws)), (u32_id (zlength ws + 1)), (u32_id (zlength xs - 1)) by width.
  unfold go_set. rewrite Hs, zinsert_mid. simpl.
  replace (ws ++ t1 :: y :: q') with ((ws ++ [t1]) ++ y :: q') by (by rewrite <- app_assoc).
  replace (zlength ws + 1) with (zlength (ws ++ [t1])) by (by autorewrite with zlist).
  rewrite zinsert_mid. simpl. eexists. split; [done|]. split; simpl; try done.
  - rewrite u32_id by width. autorewrite with zlist. lia.
  - exists (t3 :: q'). split; [done|]. autorewrite with zlist. unfold opStackSize. lia.
Qed.

(** The extern [ext] is declared under [name] and bound. *)
Record bound (name : string) (ext : Extern) : Prop := {
  bd_name : ext_name ext = name;
  bd_fun : ∀ id, stringToID (p_strings (program i)) !! name = Some id →
    p_functions (program i) !! id = Some (mkFunction (paramTypes ext) (returnType ext) id 0 0);
  bd_ext : externs i !! name = Some ext
}.

Section Call.
Context (m : machine) (pc : Z) (ws : list Z) (hs : list iface) (t : StringTable).
Context (Hpc : 0 <= pc) (Hpc4 : pc + 4 < 2 ^ 32).
Context (name : string) (ext : Extern) (id : Z) (Hbound : bound name ext).
Context (Hparams : Parameters fn = []).
Context (Hwf : st_wf t) (Hid0 : stringToID (p_strings (program i)) !! name = Some id)
  (Hid : stringToID t !! name = Some id).

Lemma call_frame xs :
  at_ pc [W (op_code Op.Call); W id] → st m pc (ws ++ xs) hs t →
  typesStackAllocSize (paramTypes ext) = zlength xs →
  ∃ m1, st m1 (pc + 2) (ws ++ xs) hs t ∧
    step i get m =
      (let! r := (let! r := invoke ext m1 in call_finish (zlength xs) (returnType ext) r) in
       GoRet (inl r)).
Proof using Hpc Hpc4 Hbound Hparams Hwf Hid0 Hid.
  intros Hat Hst Hsz.
  destruct (fetch m pc hs t Hpc Hpc4 _ Op.Call Hst (at_0 _ _ _ Hat)) as (m1 & Hst1 & Hstep); [done|].
  cbn [exec] in Hstep. unfold op_Call in Hstep.
  destruct (LOAD_st i _ _ _ _ _ _ Hst1 id) as (m2 & Hload & Hst2);
    [exact (at_1 _ _ _ _ Hat)|lia..|]. rewrite Hload in Hstep. cbn [go_bind] in Hstep.
  pose proof (st_frames _ _ _ _ _ _ Hst2) as Hfr. unfold callStackSize in Hfr.
  rewrite (st_fp _ _ _ _ _ _ Hst2), (st_fn _ _ _ _ _ _ Hst2) in Hstep.
  destruct (zlookup_is_Some (frames m2) 0) as [fr Hfr0]; [lia|].
  unfold go_get in Hstep at 1. rewrite Hfr0 in Hstep. cbn [go_bind] in Hstep.
  unfold save in Hstep. unfold go_set in Hstep at 1. rewrite zinsert_Some in Hstep by lia.
  cbn [go_bind] in Hstep. unfold GetByID in Hstep.
  rewrite (bd_fun _ _ Hbound id Hid0) in Hstep. cbn [Address Parameters ReturnType] in Hstep.
  rewrite Z.eqb_refl in Hstep.
  match type of Hstep with context [STR id ?x] => set (m3 := x) in * end.
  assert (st m3 (pc + 2) (ws ++ xs) hs t) as Hst3.
  { unfold m3. replace (pc + 1 + 1) with (pc + 2) in Hst2 by lia. destruct Hst2. split; simpl; try done.
    unfold zlength in *. by rewrite length_insert. }
  clearbody m3. rewrite (STR_st _ _ _ _ _ _ Hst3 name) in Hstep by done. cbn [go_bind] in Hstep.
  rewrite (bd_ext _ _ Hbound) in Hstep. cbn [default option_map] in Hstep. rewrite Hsz in Hstep.
  pose proof (zlength_nonneg ws).
  rewrite (UNDERFLOW_st _ _ _ _ _ _ Hst3) in Hstep by (autorewrite with zlist; lia).
  exists m3. split; [done|]. rewrite Hstep. simpl. by destruct (invoke ext m3) as [[[? ?] ?]| |].
Qed.

(** A parameter read back from the stack. *)
Definition arg_of (v : sval) : iface :=
  match v with SStr s => Some (VStr s) | SIface v => v | _ => None end.

Definition word_type (T : ilType) : Prop := T = Ty.String ∨ T = Ty.Interface.

Lemma param_st m1 pc1 us v w zs T :
  st m1 pc1 (us ++ w ++ zs) hs t → word_type T → has_type T v → repr t hs v w →
  invoke_param T m1 (zlength us) = GoRet (arg_of v).
Proof using Hwf.
  intros Hst HT Hv Hr. destruct (st_stack _ _ _ _ _ _ Hst) as (r & Hs & _).
  destruct HT as [->| ->]; destruct v as [s| | | |v]; try done; destruct Hr as (x & -> & Hx); simpl;
    unfold go_get at 1; rewrite Hs, <- !app_assoc; simpl; rewrite zlookup_mid; simpl.
  - rewrite (st_str _ _ _ _ _ _ Hst). by rewrite (GetString_id _ _ _ Hwf Hx).
  - by apply (heap_get _ _ _ _ _ _ Hst).
Qed.

Lemma i_call_str f s w :
  ext = mkExtern name [Ty.String] Ty.Interface (call_str f) →
  at_ pc [W (op_code Op.Call); W id] → st m pc (ws ++ w) hs t → repr t hs (SStr s) w →
  zlength ws + 2 <= 64 → zlength hs < 63 →
  exec_spec m (let! v := f s in GoRet (SIface v)) (vpost (pc + 2) ws hs t Ty.Interface 1 0).
Proof using Hpc Hpc4 Hbound Hparams Hwf Hid0 Hid.
  intros He Hat Hst Hr Hw Hh. assert (zlength w = 1) as Hlw by (by destruct Hr as (? & -> & _)).
  destruct (call_frame w Hat Hst) as (m1 & Hst1 & Hstep); [by rewrite He, Hlw|].
  eapply exec_fail_step; [exact Hstep|]. subst ext. unfold invoke. cbn [paramTypes returnType ext_call].
  pose proof (zlength_nonneg ws).
  assert (u32 (sp m1 - typesStackAllocSize [Ty.String]) = zlength ws) as ->.
  { rewrite (st_sp _ _ _ _ _ _ Hst1). autorewrite with zlist. rewrite Hlw.
    change (typesStackAllocSize [Ty.String]) with 1. rewrite u32_id; width. }
  cbn [invoke_params].
  rewrite (param_st m1 (pc + 2) ws (SStr s) w [] Ty.String); [|by rewrite app_nil_r|by left|done|done].
  cbn [go_bind arg_of call_str]. destruct (f s) as [v|e|p]; [|done..]. cbn [go_bind invoke_outs].
  unfold invoke_result.
  destruct Hst1 as [? Hsp Hstk Hhp (q & Hq & Hqr) ????]. unfold heapSize in Hqr.
  destruct (slack_cons _ q eq_refl) as (y & q' & -> & Hq'); [lia|].
  unfold go_set at 1. rewrite Hhp, Hq, zinsert_mid. cbn [go_bind].
  assert (st (set_heap (hs ++ v :: q') (u32 (zlength hs + 1)) m1) (pc + 2) (ws ++ w) (hs ++ [v]) t) as Hst2.
  { pose proof (zlength_nonneg hs). split; simpl; try done.
    - rewrite u32_id by width. by autorewrite with zlist.
    - exists q'. rewrite <- app_assoc. split; [done|]. autorewrite with zlist in *. unfold heapSize. lia. }
  destruct (call_finish_st _ _ _ _ _ _ Ty.Interface (zlength hs) 0 Hst2 Hw) as (m3 & -> & Hst3); [lia|done|].
  eexists. split; [done|]. exists [zlength hs], (hs ++ [v]), t.
  split_and!; try done; [by apply prefix_app_r|autorewrite with zlist; lia|lia|].
  exists (zlength hs). split; [done|]. apply zlookup_mid.
Qed.

Lemma i_call_eq f T x y wx wy :
  ext = mkExtern name [T; T] Ty.Bool (call_eq f) → word_type T →
  at_ pc [W (op_code Op.Call); W id] → st m pc ((ws ++ wx) ++ wy) hs t →
  has_type T x → has_type T y → repr t hs x wx → repr t hs y wy → zlength ws + 2 <= 64 →
  exec_spec m (let! b := f (arg_of x) (arg_of y) in GoRet (SBool b))
    (vpost (pc + 2) ws hs t Ty.Bool 0 0).
Proof using Hpc Hpc4 Hbound Hparams Hwf Hid0 Hid.
  intros He HT Hat Hst Hx Hy Hrx Hry Hw. rewrite <- app_assoc in Hst.
  assert (∀ v w, has_type T v → repr t hs v w → zlength w = 1) as Hone.
  { intros v w Hv Hr. destruct HT as [->| ->]; destruct v; try done; by destruct Hr as (? & -> & _). }
  pose proof (Hone _ _ Hx Hrx) as Hlx. pose proof (Hone _ _ Hy Hry) as Hly.
  assert (typesStackAllocSize [T; T] = 2) as Hsz by (by destruct HT as [->| ->]).
  destruct (call_frame (wx ++ wy) Hat Hst) as (m1 & Hst1 & Hstep).
  { rewrite He. cbn [paramTypes]. rewrite Hsz. autorewrite with zlist. lia. }
  eapply exec_fail_step; [exact Hstep|]. subst ext. unfold invoke. cbn [paramTypes returnType ext_call].
  pose proof (zlength_nonneg ws). pose proof (st_ws_len _ _ _ _ _ _ Hst1) as Hlen.
  autorewrite with zlist in Hlen.
  assert (u32 (sp m1 - typesStackAllocSize [T; T]) = zlength ws) as ->.
  { rewrite (st_sp _ _ _ _ _ _ Hst1), Hsz. autorewrite with zlist. rewrite u32_id; width. }
  cbn [invoke_params]. rewrite (param_st m1 (pc + 2) ws x wx wy T) by done. cbn [go_bind].
  assert (typeStackAllocSize T = 1) as -> by (by destruct HT as [->| ->]).
  rewrite (u32_id (zlength ws + 1)) by width.
  replace (zlength ws + 1) with (zlength (ws ++ wx)) by (autorewrite with zlist; lia).
  rewrite (param_st m1 (pc + 2) (ws ++ wx) y wy [] T);
    [|by rewrite app_nil_r, <- app_assoc|done..].
  cbn [go_bind call_eq]. destruct (f (arg_of x) (arg_of y)) as [b|e|p]; [|done..].
  cbn [go_bind invoke_outs invoke_result].
  destruct (call_finish_st _ _ _ _ _ _ Ty.Bool (BoolToByteCode b) 0 Hst1 Hw) as (m3 & -> & Hst3);
    [autorewrite with zlist; lia|done|].
  eexists. split; [done|]. by eapply vpost_simple.
Qed.
End Call.
End Instr.
