(* ===== verification/InterpFacts.v ===== *)
(** * The machine invariant

    Whatever the program, the byte code and the externs, a run keeps the stack
    pointer, the heap pointer and the frame pointer within their arrays: an
    instruction that would leave them returns an error or panics.  The
    invariant [minv] holds initially and every step preserves it.  Also here:
    the effect of the integer arithmetic instructions, and that fuel only
    bounds how long a run is observed. *)

From Stdlib Require Import ZArith Lia.
From stdpp Require Import base list gmap strings relations.
From S2P Require Import Prelude Il Interp Expr Compiler Evaluator CompilerSpec BuilderFacts MachineFacts InstrFacts.

Open Scope Z_scope.

#[export] Instance Opcode_eq_dec : EqDecision Opcode.
Proof. solve_decision. Defined.

(** A saved frame of the function [fn]. *)
Definition frame_ok (fn : Function) (f : stackFrame) : Prop :=
  0 <= sf_sp f <= 64 ∧ sf_fn f = Some fn.

Record minv (fn : Function) (m : machine) : Prop := {
  mi_stack : zlength (opstack m) = 64;
  mi_sp : 0 <= sp m <= 64;
  mi_heap : zlength (heap m) = 64;
  mi_hp : 0 <= hp m <= 64;
  mi_regs : zlength (registers m) = 4;
  mi_frames : zlength (frames m) = 64;
  mi_fregs : Forall (fun f => zlength (sf_registers f) = 4) (frames m);
  mi_fp : 0 <= fp m <= 64;
  mi_saved : ∀ k f, zlookup (frames m) k = Some f → k < fp m → frame_ok fn f;
  mi_fn : m_fn m = Some fn
}.

Lemma go_set_inv {A} (l l' : list A) k x :
  go_set (E := gerr) l k x = GoRet l' → 0 <= k < zlength l ∧ l' = <[Z.to_nat k := x]> l.
Proof.
  unfold go_set. destruct (zinsert l k x) eqn:E; [|done]. intros [= <-]. by apply zinsert_inv.
Qed.

Lemma zlength_insert {A} (l : list A) k x : zlength (<[k := x]> l) = zlength l.
Proof. unfold zlength. by rewrite length_insert. Qed.

Lemma go_get_inv {A} (l : list A) k x : go_get (E := gerr) l k = GoRet x → zlookup l k = Some x.
Proof. unfold go_get. by destruct (zlookup l k); [intros [= ->]|]. Qed.

(** Split the binds of a successful computation. *)
Ltac binds H :=
  repeat match type of H with
  | go_bind ?r _ = GoRet _ =>
      let E := fresh "E" in destruct r eqn:E; cbn [go_bind] in H; [|discriminate H..]
  | (let '(_, _) := ?x in _) = GoRet _ => destruct x
  end.

Section Inv.
Context (fn : Function).
Abbreviation minv := (minv fn).

Lemma minv_set_ip x m : minv m → minv (set_ip x m).
Proof. by intros []; split. Qed.

Lemma minv_set_strings t m : minv m → minv (set_strings t m).
Proof. by intros []; split. Qed.

Lemma minv_set_registers r m : zlength r = 4 → minv m → minv (set_registers r m).
Proof. by intros ? []; split. Qed.

Lemma minv_set_opstack s m : zlength s = 64 → minv m → minv (set_opstack s m).
Proof. by intros ? []; split. Qed.

Lemma minv_set_sp x m : 0 <= x <= 64 → minv m → minv (set_sp x m).
Proof. by intros ? []; split. Qed.

Lemma minv_set_heap l h m : zlength l = 64 → 0 <= h <= 64 → minv m → minv (set_heap l h m).
Proof. by intros ?? []; split. Qed.

Lemma UNDERFLOW_inv k m u : UNDERFLOW_GUARD k m = GoRet u → k <= sp m.
Proof. unfold UNDERFLOW_GUARD. destruct (Z.ltb_spec (sp m) k); [done|lia]. Qed.

Lemma DROP_minv k m : 0 <= k <= sp m → minv m → minv (DROP k m).
Proof.
  intros Hk Hm. unfold DROP. pose proof (mi_sp _ _ Hm). rewrite u32_id by width.
  apply minv_set_sp; [lia|done].
Qed.

Lemma PUSH_minv v m m' : PUSH v m = GoRet m' → minv m → minv m'.
Proof.
  unfold PUSH. intros H Hm. binds H. injection H as <-. apply go_set_inv in E as [Hk ->].
  rewrite (mi_stack _ _ Hm) in Hk. apply minv_set_sp; [rewrite u32_id; width|].
  apply minv_set_opstack; [|done]. rewrite zlength_insert. apply Hm.
Qed.

Lemma PUSH2_minv v w m m' : PUSH2 v w m = GoRet m' → minv m → minv m'.
Proof.
  unfold PUSH2. intros H Hm. binds H. injection H as <-. pose proof (mi_sp _ _ Hm) as Hsp.
  apply go_set_inv in E as [Hk ->]. apply go_set_inv in E0 as [Hk2 ->]. rewrite zlength_insert in Hk2.
  rewrite (mi_stack _ _ Hm) in Hk, Hk2. rewrite u32_id in Hk2 by width.
  apply minv_set_sp; [rewrite u32_id; width|].
  apply minv_set_opstack; [|done]. rewrite !zlength_insert. apply Hm.
Qed.

Lemma PUSH64_minv z m m' : PUSH64 z m = GoRet m' → minv m → minv m'.
Proof. apply PUSH2_minv. Qed.

Lemma INTERN_minv s m id m' : INTERN s m = (id, m') → minv m → minv m'.
Proof. unfold INTERN. destruct (GetID s (m_strings m)). intros [= _ <-]. apply minv_set_strings. Qed.

Lemma push_id_minv s m m' : push_id s m = GoRet m' → minv m → minv m'.
Proof.
  unfold push_id. destruct (INTERN s m) eqn:E. intros H Hm. eapply PUSH_minv; [done|]. by eapply INTERN_minv.
Qed.

Lemma heap_alloc_minv v l m :
  go_set (E := gerr) (heap m) (hp m) v = GoRet l → minv m → minv (set_heap l (u32 (hp m + 1)) m).
Proof.
  intros [Hk ->]%go_set_inv Hm. rewrite (mi_heap _ _ Hm) in Hk.
  apply minv_set_heap; [rewrite zlength_insert; apply Hm|rewrite u32_id; width|done].
Qed.

Lemma push_value_minv v m m' :
  push_string v m = GoRet m' ∨ push_bool v m = GoRet m' ∨ push_int v m = GoRet m' ∨
  push_double v m = GoRet m' ∨ push_iface v m = GoRet m' →
  minv m → minv m'.
Proof.
  intros Hp Hm. destruct Hp as [H|[H|[H|[H|H]]]].
  - unfold push_string in H. destruct (as_string v); [|done]. by eapply push_id_minv.
  - unfold push_bool in H. destruct (as_bool v); [|done]. by eapply PUSH_minv.
  - unfold push_int in H. destruct (as_int v); [|done]. by eapply PUSH64_minv.
  - unfold push_double in H. destruct (as_double v); [|done]. by eapply PUSH64_minv.
  - unfold push_iface in H. destruct (_ =? _); [done|]. binds H. eapply PUSH_minv; [done|].
    by eapply heap_alloc_minv.
Qed.

Section Ops.
Context (i : Interpreter) (get : bag).

Lemma LOAD_inv m t m' : LOAD i m = GoRet (t, m') → m' = set_ip (u32 (ip m + 1)) m.
Proof. unfold LOAD. intros H. binds H. by injection H. Qed.

Lemma LOAD2_inv m t t' m' : LOAD2 i m = GoRet (t, t', m') → m' = set_ip (u32 (ip m + 2)) m.
Proof. unfold LOAD2. intros H. binds H. by injection H. Qed.

Lemma PEEK_inv k m x : minv m → 0 <= k < 2 ^ 31 → PEEK k m = GoRet x → k <= sp m.
Proof.
  intros Hm Hk [_ H]%go_get_inv%zlookup_Some_lt. rewrite (mi_stack _ _ Hm) in H.
  pose proof (mi_sp _ _ Hm). unfold u32 in H. destruct (Z.le_gt_cases k (sp m)); [done|].
  rewrite <- (Z.mod_add (sp m - k) 1 (2 ^ 32)), Z.mod_small in H; width.
Qed.

End Ops.
End Inv.

Create HintDb minv discriminated.
#[export] Hint Resolve minv_set_ip minv_set_strings DROP_minv : minv.
#[export] Hint Extern 1 (_ <= _) => cbn [sp set_ip] in *; lia : minv.
#[export] Hint Extern 1 (_ <= _ <= _) => cbn [sp set_ip] in *; lia : minv.

(** Undo the binds of one instruction; name what its loads and guards give. *)
Ltac unbind H :=
  binds H;
  repeat match goal with
  | u : unit |- _ => destruct u
  | p : (_ * _)%type |- _ => destruct p
  end;
  repeat match goal with
  | E : LOAD _ _ = GoRet _ |- _ => apply LOAD_inv in E; subst
  | E : LOAD2 _ _ = GoRet _ |- _ => apply LOAD2_inv in E; subst
  | E : UNDERFLOW_GUARD _ _ = GoRet _ |- _ => apply UNDERFLOW_inv in E
  end.

Section Preserve.
Context (i : Interpreter) (get : bag) (fn : Function).
Abbreviation minv := (minv fn).

Definition preserves (f : machine → go gerr machine) : Prop :=
  ∀ m m', f m = GoRet m' → minv m → minv m'.

Ltac start f := intros m m' H Hm; unfold f in H; pose proof (mi_sp _ _ Hm); unbind H.

Lemma op_Err_minv : preserves (op_Err i).
Proof. start op_Err. done. Qed.

Lemma op_Errz_minv nz : preserves (op_Errz i nz).
Proof. start op_Errz. destruct (Bool.eqb _ _); unbind H; [done|]. injection H as <-. auto with minv. Qed.

Lemma op_Pop_minv n : 0 <= n → preserves (op_Pop n).
Proof. intros Hn. start op_Pop. injection H as <-. auto with minv. Qed.

Lemma op_Dup1_minv : preserves op_Dup1.
Proof. start op_Dup1. by eapply PUSH_minv. Qed.

Lemma op_Dup2_minv : preserves op_Dup2.
Proof.
  start op_Dup2. injection H as <-. apply go_set_inv in E2 as [_ ->]. apply go_set_inv in E4 as [Hk ->].
  rewrite zlength_insert, (mi_stack _ _ Hm), u32_id in Hk by width.
  apply minv_set_sp; [rewrite u32_id; width|]. apply minv_set_opstack; [|done].
  rewrite !zlength_insert. apply Hm.
Qed.

Lemma op_RLoad1_minv : preserves (op_RLoad1 i).
Proof.
  start op_RLoad1. injection H as <-. apply go_set_inv in E2 as [_ ->].
  apply minv_set_registers; [rewrite zlength_insert; apply Hm|auto with minv].
Qed.

Lemma op_RLoad2_minv : preserves (op_RLoad2 i).
Proof.
  start op_RLoad2. injection H as <-. apply go_set_inv in E2 as [_ ->]. apply go_set_inv in E4 as [_ ->].
  apply DROP_minv; [simpl; lia|].
  apply minv_set_registers; [rewrite !zlength_insert; apply Hm|auto with minv].
Qed.

Lemma op_ALoad1_minv : preserves (op_ALoad1 i).
Proof.
  start op_ALoad1. injection H as <-. apply go_set_inv in E1 as [_ ->].
  apply minv_set_registers; [rewrite !zlength_insert; apply Hm|auto with minv].
Qed.

Lemma op_ALoad2_minv : preserves (op_ALoad2 i).
Proof.
  start op_ALoad2. injection H as <-. apply go_set_inv in E1 as [_ ->]. apply go_set_inv in E2 as [_ ->].
  apply minv_set_registers; [rewrite !zlength_insert; apply Hm|auto with minv].
Qed.

Lemma op_RPush1_minv : preserves (op_RPush1 i).
Proof. start op_RPush1. eapply PUSH_minv; [done|auto with minv]. Qed.

Lemma op_RPush2_minv : preserves (op_RPush2 i).
Proof.
  start op_RPush2. injection H as <-. apply go_set_inv in E2 as [_ ->]. apply go_set_inv in E4 as [Hk ->].
  rewrite zlength_insert in Hk. cbn [sp set_ip opstack] in Hk. rewrite (mi_stack _ _ Hm), u32_id in Hk by width.
  apply minv_set_sp; [simpl; rewrite u32_id; width|]. apply minv_set_opstack; [|auto with minv].
  rewrite !zlength_insert. apply Hm.
Qed.

Lemma op_APush_minv : preserves (op_APush1 i) ∧ preserves (op_APush2 i).
Proof.
  split; [start op_APush1; eapply PUSH_minv|start op_APush2; eapply PUSH2_minv]; eauto with minv.
Qed.

Lemma op_Eq_minv : preserves op_Eq1 ∧ preserves op_Eq2 ∧ preserves (op_AEq1 i) ∧ preserves (op_AEq2 i).
Proof.
  split_and!; [start op_Eq1|start op_Eq2|start op_AEq1|start op_AEq2]; (eapply PUSH_minv; [exact H|]); auto with minv.
Qed.

Lemma op_Logic_minv f : preserves (op_Logic f) ∧ preserves (op_ALogic i f).
Proof. split; [start op_Logic|start op_ALogic]; (eapply PUSH_minv; [exact H|]); auto with minv. Qed.

Lemma op_Not_minv : preserves op_Not.
Proof.
  start op_Not. injection H as <-. apply go_set_inv in E1 as [_ ->]. apply minv_set_opstack; [|done].
  rewrite zlength_insert. apply Hm.
Qed.

Lemma op_AddSub_minv neg :
  preserves (op_AddSubI neg) ∧ preserves (op_AAddSubI i neg) ∧ preserves (op_AddSubD neg) ∧ preserves (op_AAddSubD i neg).
Proof.
  assert (∀ m, 4 <= sp m <= 64 → minv m → minv (DROP 2 (DROP 2 m))) as H2.
  { intros m Hs Hm. apply DROP_minv; [|auto with minv]. simpl. rewrite u32_id; width. }
  split_and!; [start op_AddSubI|start op_AAddSubI|start op_AddSubD|start op_AAddSubD];
    (eapply PUSH64_minv; [exact H|]); auto with minv.
Qed.

Lemma op_Jmp_minv : preserves (op_Jmp i).
Proof. start op_Jmp. injection H as <-. auto with minv. Qed.

Lemma op_Jcond_minv nz : preserves (op_Jcond i nz).
Proof. start op_Jcond. injection H as <-. destruct (Bool.eqb _ _); auto with minv. Qed.

(** Conversions that push. *)
Definition pusher (push : iface → machine → go gerr machine) : Prop :=
  ∀ v, preserves (push v).

Lemma pushers : pusher push_string ∧ pusher push_bool ∧ pusher push_int ∧ pusher push_double ∧ pusher push_iface.
Proof. split_and!; intros v m m' H; apply (push_value_minv fn v m m'); tauto. Qed.

Lemma op_Resolve_minv room push : pusher push → preserves (op_Resolve i get room push).
Proof.
  intros Hp. start op_Resolve. destruct (get _); [|done]. eapply Hp; [exact H|]. auto with minv.
Qed.

Lemma op_TResolve_minv room push : pusher push → preserves (op_TResolve i get room push).
Proof.
  intros Hp. start op_TResolve. destruct (get _); [|eapply PUSH_minv; [exact H|auto with minv]].
  unbind H. eapply PUSH_minv; [exact H|]. eapply Hp; [done|]. auto with minv.
Qed.

Lemma op_Lookup_minv missing :
  preserves op_TLookup ∧ preserves (op_Lookup missing) ∧ preserves (op_ALookup i missing).
Proof.
  split_and!; [start op_TLookup|start op_Lookup|start op_ALookup].
  - destruct (_ !! _) as [s|]; [|eapply PUSH_minv; [exact H|auto with minv]].
    destruct (INTERN s _) eqn:EI. eapply PUSH2_minv; [exact H|]. eapply INTERN_minv; [exact EI|]. auto with minv.
  - eapply push_id_minv; [exact H|]. auto with minv.
  - eapply push_id_minv; [exact H|]. auto with minv.
Qed.

(** ** Calls *)

Lemma alloc_size_range t : 0 <= typeStackAllocSize t <= 2.
Proof. by destruct t. Qed.

Lemma alloc_sizes_range ts : 0 <= typesStackAllocSize ts.
Proof.
  unfold typesStackAllocSize. assert (∀ a, 0 <= a → 0 <= foldl (fun r t => u32 (r + typeStackAllocSize t)) a ts) as H; [|by apply H].
  induction ts as [|t ts IH]; simpl; [done|]. intros a _. apply IH. apply u32_range.
Qed.

(** An extern changes the heap and the string table only. *)
Lemma invoke_minv e m w1 w2 m' :
  invoke e m = GoRet (w1, w2, m') → minv m → minv m' ∧ sp m' = sp m ∧ opstack m' = opstack m.
Proof.
  unfold invoke. intros H Hm. binds H. unfold invoke_result in H.
  destruct (returnType e); try done.
  - by injection H as <- <- <-.
  - destruct a1 as [[]|]; try done. destruct (GetID s (m_strings m)). injection H as <- <- <-. auto using minv_set_strings.
  - destruct a1 as [[]|]; try done. destruct (IntegerToByteCode z). by injection H as <- <- <-.
  - destruct a1 as [[]|]; try done. destruct (DoubleToByteCode f). by injection H as <- <- <-.
  - destruct a1 as [[]|]; try done. by injection H as <- <- <-.
  - destruct a1 as [[]|]; try done. destruct (IntegerToByteCode z). by injection H as <- <- <-.
  - binds H. injection H as <- <- <-. split; [|done]. by eapply heap_alloc_minv.
Qed.

(** The state a call saves: [fn] has no parameters, so the saved stack pointer
    is the current one. *)
Definition saved (fr : stackFrame) (frs : list stackFrame) (m : machine) : machine :=
  set_fp (u32 (fp m + 1)) (set_frames frs (set_registers (sf_registers fr) m)).

Lemma saved_minv fr frs m :
  minv m → zlookup (frames m) (fp m) = Some fr →
  go_set (E := gerr) (frames m) (fp m) (mkFrame (sf_registers fr) (u32 (sp m - 0)) (ip m) (m_fn m)) = GoRet frs →
  minv (saved fr frs m) ∧ minv (set_fp (u32 (fp (saved fr frs m) - 1)) (saved fr frs m)).
Proof.
  intros Hm Hfr [Hk ->]%go_set_inv. pose proof (mi_frames _ _ Hm) as Hl. pose proof (mi_fp _ _ Hm) as Hfp.
  pose proof (mi_sp _ _ Hm) as Hsp. rewrite Hl in Hk. unfold saved.
  assert (zlength (sf_registers fr) = 4) as Hr.
  { pose proof (mi_fregs _ _ Hm) as HF. rewrite Forall_forall in HF. apply HF. unfold zlookup in Hfr.
    destruct (0 <=? fp m); [|done]. by eapply list_elem_of_lookup_2. }
  set (nf := mkFrame _ _ _ _).
  assert (Forall (fun f => zlength (sf_registers f) = 4) (<[Z.to_nat (fp m) := nf]> (frames m))) as HF.
  { apply Forall_insert; [apply Hm|done]. }
  assert (∀ k f, zlookup (<[Z.to_nat (fp m) := nf]> (frames m)) k = Some f → k < fp m + 1 → frame_ok fn f) as Hs.
  { intros k f Hf Hlt. pose proof (zlookup_Some_lt _ _ _ Hf). unfold zlookup in Hf. destruct (Z.leb_spec 0 k); [|lia].
    destruct (decide (k = fp m)) as [->|Hne].
    - rewrite list_lookup_insert_eq in Hf by (unfold zlength in *; lia). injection Hf as <-. split; simpl.
      + rewrite Z.sub_0_r, u32_id; width.
      + apply Hm.
    - rewrite list_lookup_insert_ne in Hf by lia. apply (mi_saved _ _ Hm k); [|lia]. unfold zlookup.
      by destruct (Z.leb_spec 0 k); [|lia]. }
  assert (u32 (fp m + 1) = fp m + 1) as Eu by (rewrite u32_id; width).
  split.
  - split; cbn; rewrite ?Eu; try apply Hm; try done; [by rewrite zlength_insert|lia].
  - split; cbn; rewrite ?Eu, ?u32_id by width; try apply Hm; try done; [by rewrite zlength_insert|lia|].
    intros k f Hf Hlt. apply (Hs k); [done|lia].
Qed.

Lemma ret_words_sp s t2 rt :
  0 <= s <= 64 → 0 <= t2 <= s → 0 <= rt <= 2 → s - t2 + 1 <= 63 → 0 <= u32 (s - u32 (t2 - rt)) <= 64.
Proof.
  intros Hs Ht Hr Hb. assert (u32 (s - u32 (t2 - rt)) = s - t2 + rt) as ->; [|lia]. unfold u32.
  rewrite Zminus_mod_idemp_r, Z.mod_small; width.
Qed.

Lemma op_Call_minv : Parameters fn = [] → preserves (op_Call i).
Proof.
  intros Hpar m m' H Hm. unfold op_Call in H. binds H. rename z into t1, m0 into m1, a into fr. apply LOAD_inv in E.
  pose proof (minv_set_ip fn (u32 (ip m + 1)) m Hm) as Hm1. rewrite <- E in Hm1. clear E Hm m.
  rewrite (mi_fn _ _ Hm1) in H. rewrite Hpar in H. change (typesStackAllocSize []) with 0 in H.
  unfold save in H. cbv beta iota in H. rewrite <- (mi_fn _ _ Hm1) in H. binds H. rename a into frs.
  apply go_get_inv in E0. destruct (saved_minv _ _ _ Hm1 E0 E) as [Hsv Hback].
  fold (saved fr frs m1) in H. set (m2 := saved fr frs m1) in *. clearbody m2. clear E0 E.
  destruct (GetByID t1 (p_functions (program i))) as [callee|]; [|binds H; done].
  destruct (Address callee =? 0); [|injection H as <-; auto with minv]. clear Hsv.
  set (m3 := set_fp _ m2) in *. clearbody m3.
  destruct (STR t1 m3) as [name| |]; cbn [go_bind] in H; [|done..].
  set (t2 := typesStackAllocSize (Parameters callee)) in *.
  destruct (UNDERFLOW_GUARD t2 m3) as [[]| |] eqn:Eg; cbn [go_bind] in H; [|done..]. apply UNDERFLOW_inv in Eg.
  destruct (invoke _ m3) as [[[w1 w2] m4]| |] eqn:Ei; cbn [go_bind] in H; [|done..].
  destruct (invoke_minv _ _ _ _ _ Ei Hback) as (Hm4 & Hsp4 & Ho4). binds H. injection H as <-.
  pose proof (alloc_sizes_range (Parameters callee)) as Ht2. fold t2 in Ht2.
  pose proof (mi_sp _ _ Hm4) as Hsp. rewrite <- Hsp4 in Eg.
  apply go_set_inv in E as [_ ->]. apply go_set_inv in E0 as [Hk ->].
  rewrite zlength_insert, (mi_stack _ _ Hm4), u32_id in Hk by width.
  apply minv_set_sp.
  - apply ret_words_sp; [done|lia|apply alloc_size_range|lia].
  - apply minv_set_opstack; [|done]. rewrite !zlength_insert. apply Hm4.
Qed.

Lemma move_words_len n k dst src s s' :
  move_words n k dst src s = GoRet s' → zlength s' = zlength s ∧
    ((0 < n)%nat → 0 <= dst → dst + k + Z.of_nat n < 2 ^ 32 → 0 <= k → dst + k + Z.of_nat n <= zlength s).
Proof.
  revert k s. induction n as [|n IH]; intros k s H; simpl in H; [injection H as <-; split; [done|lia]|].
  binds H. apply go_set_inv in E0 as [Hk ->]. apply IH in H as [Hl Hn]. rewrite zlength_insert in *.
  split; [done|]. intros _ Hd Hb Hk0. destruct n as [|n].
  - rewrite u32_id in Hk by width. lia.
  - assert (dst + (k + 1) + Z.of_nat (S n) <= zlength s); [apply Hn; lia|lia].
Qed.

Lemma op_RetInner_minv f m m' :
  op_RetInner f m = GoRet m' → fp m ≠ 0 → minv m → minv m'.
Proof.
  unfold op_RetInner. intros H Hfp Hm. binds H. injection H as <-.
  pose proof (mi_fp _ _ Hm) as Hf. assert (u32 (fp m - 1) = fp m - 1) as Eu by (rewrite u32_id; width).
  rewrite Eu in *. apply go_get_inv in E. apply go_set_inv in E0 as [Hk ->].
  destruct (mi_saved _ _ Hm _ _ E ltac:(lia)) as [Hsp Hfn].
  set (nf := restore a (registers m)) in *.
  set (m1 := set_fn (sf_fn a) _) in *.
  assert (minv m1) as Hm1.
  { unfold m1. split; simpl; try apply Hm; try done.
    - rewrite zlength_insert. apply Hm.
    - apply Forall_insert; [apply Hm|]. simpl. apply Hm.
    - lia.
    - intros k f' Hf' Hlt. pose proof (zlookup_Some_lt _ _ _ Hf'). apply (mi_saved _ _ Hm k); [|lia].
      unfold zlookup in *. destruct (Z.leb_spec 0 k); [|lia]. by rewrite list_lookup_insert_ne in Hf' by lia. }
  change (sp m1) with (sf_sp a) in *. change (opstack m1) with (opstack m) in *.
  apply move_words_len in E1 as [Hlen Hb]. pose proof (alloc_size_range (ReturnType f)) as Hr.
  rewrite (mi_stack _ _ Hm) in Hlen, Hb.
  apply minv_set_sp; [|by apply minv_set_opstack].
  rewrite u32_id by width. destruct (Z.to_nat (typeStackAllocSize (ReturnType f))) as [|n] eqn:En; [lia|].
  assert (sf_sp a + 0 + Z.of_nat (S n) <= 64); [apply Hb; width|lia].
Qed.

(** ** The invariant of a run *)

Lemma exec_minv o : Parameters fn = [] → preserves (exec i get o).
Proof.
  intros Hpar. destruct pushers as (P1 & P2 & P3 & P4 & P5).
  destruct op_APush_minv as [A1 A2]. destruct op_Eq_minv as (Q1 & Q2 & Q3 & Q4).
  destruct (op_AddSub_minv false) as (S1 & S2 & S3 & S4). destruct (op_AddSub_minv true) as (T1 & T2 & T3 & T4).
  destruct (op_Lookup_minv missing_err) as (L1 & L2 & L3). destruct (op_Lookup_minv missing_empty) as (_ & L4 & L5).
  destruct o; unfold exec;
    first
      [ assumption | by intros m m' [= <-] | by intros m m'
      | apply op_Err_minv | apply op_Errz_minv | by apply op_Pop_minv | apply op_Dup1_minv | apply op_Dup2_minv
      | apply op_RLoad1_minv | apply op_RLoad2_minv | apply op_ALoad1_minv | apply op_ALoad2_minv
      | apply op_RPush1_minv | apply op_RPush2_minv | apply op_Logic_minv | apply op_Not_minv
      | by apply op_Resolve_minv | by apply op_TResolve_minv | apply op_Jmp_minv | apply op_Jcond_minv
      | by apply op_Call_minv ].
Qed.

Lemma step_minv m m' : Parameters fn = [] → step i get m = GoRet (inl m') → minv m → minv m'.
Proof.
  intros Hpar H Hm. unfold step in H. binds H.
  pose proof (minv_set_ip fn (u32 (ip m + 1)) m Hm) as Hm1. set (m1 := set_ip _ m) in *. clearbody m1.
  destruct (opcode_of a) as [o|]; [|done].
  destruct (decide (o = Op.Ret)) as [->|Ho].
  - rewrite (mi_fn _ _ Hm1) in H. destruct (Z.eqb_spec (fp m1) 0); binds H; [done|].
    injection H as <-. by eapply op_RetInner_minv.
  - assert ((let! m := exec i get o m1 in GoRet (inl m)) = GoRet (inl (B := Result) m')) as H' by by destruct o.
    clear H. binds H'. injection H' as <-. by eapply exec_minv.
Qed.

Lemma initial_minv t : minv (initial fn t).
Proof.
  split; simpl; try done.
  - by repeat constructor.
  - intros k f H Hlt. apply zlookup_Some_lt in H. lia.
Qed.

Lemma steps_minv m m' : Parameters fn = [] → steps i get m m' → minv m → minv m'.
Proof. intros Hpar. induction 1 as [|m m1 m' H _ IH]; [done|]. intros Hm. apply IH. by eapply step_minv. Qed.

(** More fuel does not change a result. *)
Lemma loop_more n k m r : loop i get n m = Some r → loop i get (n + k) m = Some r.
Proof.
  revert m. induction n as [|n IH]; intros m; [done|]. simpl.
  destruct (step i get m) as [[m'|]| |]; auto.
Qed.
End Preserve.

(** ** Integer arithmetic *)

Lemma word64_words z : is_i64 z → word64 (u32 (Z.land z 4294967295)) (u32 (Z.shiftr z 32)) = z.
Proof. intros Hz. exact (ByteCodeToInteger_IntegerToByteCode z Hz). Qed.

(** [AddI] and [SubI] on two integers: the operand on top is added to, or
    subtracted from, the one below it, modulo 2^64. *)
Lemma op_AddSubI_spec fn m pc ws hs t (neg : bool) a b :
  st fn m pc (ws ++ words64 a ++ words64 b) hs t → is_i64 a → is_i64 b →
  ∃ m', op_AddSubI neg m = GoRet m' ∧ st fn m' pc (ws ++ words64 (i64 (if neg then a - b else a + b))) hs t.
Proof.
  intros Hst Ha Hb. pose proof Hst as Hst0. rewrite app_assoc in Hst0.
  pose proof (st_ws_len _ _ _ _ _ _ Hst) as Hlen. autorewrite with zlist in Hlen.
  change (zlength (words64 a)) with 2 in Hlen. change (zlength (words64 b)) with 2 in Hlen.
  unfold op_AddSubI.
  rewrite (UNDERFLOW_st _ _ _ _ _ _ Hst) by (autorewrite with zlist;
    change (zlength (words64 a)) with 2; change (zlength (words64 b)) with 2; pose proof (zlength_nonneg ws); lia).
  cbn [go_bind]. rewrite (PEEK_st _ _ _ _ _ _ _ Hst0 1 (u32 (Z.land b 4294967295))) by done. cbn [go_bind].
  rewrite (PEEK_st _ _ _ _ _ _ _ Hst0 2 (u32 (Z.shiftr b 32))) by done. cbn [go_bind].
  rewrite (word64_words b Hb).
  pose proof (DROP_st _ _ _ _ _ _ _ Hst0 2 eq_refl) as Hst1.
  rewrite (PEEK_st _ _ _ _ _ _ _ Hst1 1 (u32 (Z.land a 4294967295))) by done. cbn [go_bind].
  rewrite (PEEK_st _ _ _ _ _ _ _ Hst1 2 (u32 (Z.shiftr a 32))) by done. cbn [go_bind].
  rewrite (word64_words a Ha).
  pose proof (DROP_st _ _ _ _ _ _ _ Hst1 2 eq_refl) as Hst2.
  match goal with |- context [PUSH64 ?z _] => assert (z = i64 (if neg then a - b else a + b)) as -> end.
  { destruct neg; [|f_equal; lia]. rewrite Z.add_comm, i64_i64_add. f_equal. lia. }
  apply (PUSH64_st _ _ _ _ _ _ Hst2). lia.
Qed.
