(* ===== verification/GenFacts.v ===== *)
(** * The code generator builds symbolic code

    What one generator action adds to the builder: [gext] relates the
    generator before and after, with the symbolic code emitted in between, the
    labels still to be placed, and bounds on the words and strings added. *)

From Stdlib Require Import ZArith Lia.
From stdpp Require Import base list gmap strings.
From S2P Require Import Prelude Il Expr Compiler BuilderFacts.

Open Scope Z_scope.

Abbreviation g_strings g := (b_strings (g_builder g)).
Abbreviation g_labels g := (b_labels (g_builder g)).
Abbreviation g_fixups g := (b_fixups (g_builder g)).

Record ginv (g : generator) (its : list (list item)) : Prop := {
  gi_binv : binv (g_builder g) its;
  gi_err : g_err g = None;
  gi_str : st_wf (g_strings g)
}.

(** From [g], whose code is [its], to [g'], which has [frag] appended: at most
    [k] words and [n] strings are new, nothing is forgotten, and the labels of
    [frag] are placed or satisfy [X]. *)
Record gext (k n : Z) (X : string → Prop) (g : generator) (its : list (list item))
    (g' : generator) (frag : list (list item)) : Prop := {
  ge_inv : ginv g' (its ++ frag);
  ge_str : st_le (g_strings g) (g_strings g');
  ge_next : nextID (g_strings g') <= nextID (g_strings g) + n;
  ge_len : zlength (concat frag) <= k;
  ge_labels : g_labels g ⊆ g_labels g';
  ge_fixups : dom (g_fixups g) ⊆ dom (g_fixups g');
  ge_placed : ∀ l, L l ∈ concat frag → is_Some (g_labels g' !! l) ∨ X l
}.

Lemma concat_nil_len {A} : zlength (concat (@nil (list A))) = 0.
Proof. done. Qed.

Lemma zlength_concat_app {A} (l l' : list (list A)) :
  zlength (concat (l ++ l')) = zlength (concat l) + zlength (concat l').
Proof. rewrite concat_app. apply zlength_app. Qed.

Lemma gext_refl X g its : ginv g its → gext 0 0 X g its g [].
Proof.
  intros H. split; try done; try lia.
  - by rewrite app_nil_r.
  - simpl. intros l Hl. by apply not_elem_of_nil in Hl.
Qed.

Lemma gext_seq k1 n1 k2 n2 X g its g1 f1 g2 f2 :
  gext k1 n1 X g its g1 f1 → gext k2 n2 X g1 (its ++ f1) g2 f2 →
  gext (k1 + k2) (n1 + n2) X g its g2 (f1 ++ f2).
Proof.
  intros [] []. split.
  - by rewrite app_assoc.
  - by etrans.
  - lia.
  - rewrite zlength_concat_app. lia.
  - by etrans.
  - by etrans.
  - intros l. rewrite concat_app, elem_of_app. intros [Hl|Hl]; [|eauto].
    destruct (ge_placed0 _ Hl) as [[a Ha]|]; [|by right]. left. exists a. by eapply lookup_weaken.
Qed.

Lemma gext_weaken k n k' n' (X X' : string → Prop) g its g' frag :
  gext k n X g its g' frag → k <= k' → n <= n' → (∀ l, X l → X' l) →
  gext k' n' X' g its g' frag.
Proof.
  intros [] ???. split; try done; [lia..|].
  intros l Hl. destruct (ge_placed0 _ Hl); auto.
Qed.

(** Enough room for [k] more words (and the instruction that follows) and [n]
    more strings, in code loaded at [start]. *)
Definition room (start k n : Z) (g : generator) (its : list (list item)) : Prop :=
  start + zlength (concat its) + k + 16 < 2 ^ 32 ∧ nextID (g_strings g) + n + 1 < 2 ^ 32.

Section Room.
Context (start : Z) (Hstart : 0 <= start).

Lemma room_seq k n k' n' X g its g' frag :
  gext k n X g its g' frag → room start (k + k') (n + n') g its → room start k' n' g' (its ++ frag).
Proof using.
  intros [] [H1 H2]. split; [rewrite zlength_concat_app|]; lia.
Qed.

Lemma room_weaken k n k' n' g its :
  room start k n g its → k' <= k → n' <= n → room start k' n' g its.
Proof using. intros [] ??. split; lia. Qed.
End Room.

(** ** Emitting one instruction *)

Section Emit.
Context (X : string → Prop) (g : generator) (its : list (list item)) (Hg : ginv g its).

Lemma no_labels (ws : list Z) : ∀ l, L l ∈ concat [W <$> ws] → False.
Proof using.
  intros l. simpl. rewrite app_nil_r, list_elem_of_fmap. by intros (? & ? & _).
Qed.

Lemma emit_words ws k :
  instr (W <$> ws) → zlength ws = k →
  gext k 0 X g its (emit (append_words ws) g) [W <$> ws].
Proof using Hg.
  intros Hi <-. destruct Hg as [Hb He Hs]. split; simpl; try done.
  - split; simpl; [by apply append_binv|done|done].
  - lia.
  - rewrite app_nil_r. unfold zlength. rewrite length_fmap. lia.
  - intros l Hl. by destruct (no_labels ws l).
Qed.

Lemma emit_op0 o :
  Args (op_code o) = [] → gext 1 0 X g its (emit (op0 o) g) [[W (op_code o)]].
Proof using Hg.
  intros Ho. apply (emit_words [op_code o]); [|done].
  exists o, []. split; [done|]. by rewrite Ho.
Qed.

Lemma emit_bool o b :
  Args (op_code o) = [OpcodeArgBool] →
  gext 2 0 X g its (emit (op_bool o b) g) [[W (op_code o); W (BoolToByteCode b)]].
Proof using Hg.
  intros Ho. apply (emit_words [op_code o; BoolToByteCode b]); [|done].
  exists o, [W (BoolToByteCode b)]. split; [done|]. rewrite Ho. simpl. eauto.
Qed.

Lemma emit_64 o z (int : bool) :
  Args (op_code o) = [if int then OpcodeArgInt else OpcodeArgDouble] →
  gext 3 0 X g its
    (emit ((if int then op_int else op_double) o z) g)
    [[W (op_code o); W (u32 (Z.land z 4294967295)); W (u32 (Z.shiftr z 32))]].
Proof using Hg.
  intros Ho.
  assert (instr (W <$> [op_code o; u32 (Z.land z 4294967295); u32 (Z.shiftr z 32)])) as Hi.
  { eexists o, _. split; [done|]. rewrite Ho. destruct int; simpl; eauto 10. }
  destruct int; by apply (emit_words _ 3) in Hi.
Qed.

Lemma emit_str o s :
  Args (op_code o) = [OpcodeArgString] ∨ Args (op_code o) = [OpcodeArgFunction] →
  nextID (g_strings g) + 1 < 2 ^ 32 →
  ∃ id, gext 2 1 X g its (emit (op_str o s) g) [[W (op_code o); W id]] ∧
    stringToID (g_strings (emit (op_str o s) g)) !! s = Some id.
Proof using Hg.
  intros Ho Hn. destruct Hg as [Hb He Hs].
  pose proof (GetID_spec s (g_strings g) Hs Hn) as Hid.
  unfold emit, op_str, b_id. simpl. destruct (GetID s _) as [id t] eqn:E. simpl in Hid.
  destruct Hid as (Hwf & Hle & Hnx & Hid & _). exists id. split; [|done].
  assert (instr (W <$> [op_code o; id])) as Hi.
  { eexists o, _. split; [done|]. destruct Ho as [-> | ->]; simpl; eauto. }
  split; simpl; try done.
  - split; simpl; [|done|done].
    apply (append_binv (mkBuilder t (b_body (g_builder g)) (g_labels g) (g_fixups g)) its);
      [by apply strings_binv|done].
  - intros l Hl. by destruct (no_labels [op_code o; id] l).
Qed.

Lemma emit_jump o l :
  Args (op_code o) = [OpcodeArgAddress] → l ∈ dom (g_fixups g) → X l →
  zlength (concat its) + 2 < 2 ^ 32 →
  gext 2 0 X g its (emit (b_jump o l) g) [[W (op_code o); L l]].
Proof using Hg.
  intros Ho Hl HX Hroom. destruct Hg as [Hb He Hs].
  assert (g_labels g !! l = None) as Hnl.
  { apply not_elem_of_dom. intros Hd. by eapply bi_disj. }
  apply elem_of_dom in Hl as [ps Hps].
  destruct (jump_binv _ _ Hb o l ps Ho Hnl Hps) as (Hb' & Hlab & Hfix & Hstr).
  { by rewrite (bi_len _ _ Hb). }
  split; simpl.
  - split; simpl; [done|done|by rewrite Hstr].
  - by rewrite Hstr.
  - rewrite Hstr. lia.
  - done.
  - by rewrite Hlab.
  - by rewrite Hfix.
  - intros l'. rewrite elem_of_cons, list_elem_of_singleton. intros [?|?]; [done|].
    simplify_eq. by right.
Qed.
End Emit.

(** ** Labels *)

(** A fresh label, and placing it: the code in between is seen from the state
    before the allocation. *)
Lemma gext_alloc k n X g its g1 frag :
  gext k n X g its g1 frag →
  ∃ l g2, genAllocateLabel g1 = (l, g2) ∧ gext k n X g its g2 frag ∧
    l ∈ dom (g_fixups g2) ∧ dom (g_fixups g1) ⊆ dom (g_fixups g2) ∧
    l ∉ dom (g_fixups g1) ∪ dom (g_labels g1) ∧ g_strings g2 = g_strings g1 ∧
    g_labels g2 = g_labels g1.
Proof.
  intros [[Hb He Hs] ????? Hp]. unfold genAllocateLabel.
  destruct (alloc_binv _ _ Hb) as (Hb' & Hlab & Hl1 & Hl2 & Hfix & Hstr).
  destruct (AllocateLabel (g_builder g1)) as [l b] eqn:E. simpl in *.
  exists l, (mkGen b (g_err g1)). split; [done|]. simpl. rewrite Hlab, Hfix, Hstr, dom_insert_L.
  split_and!; try done; [|set_solver|set_solver|].
  - split; simpl; rewrite ?Hlab, ?Hstr, ?Hfix, ?dom_insert_L; try done; [|set_solver].
    split; simpl; by rewrite ?Hstr.
  - apply not_elem_of_union. by rewrite !not_elem_of_dom.
Qed.

Lemma gext_fresh k n X g its g1 frag l :
  gext k n X g its g1 frag → l ∉ dom (g_fixups g1) ∪ dom (g_labels g1) →
  l ∉ dom (g_fixups g) ∪ dom (g_labels g).
Proof.
  intros [] Hl. apply subseteq_dom in ge_labels0. set_solver.
Qed.

Lemma gext_set k n (X : string → Prop) g its g1 frag l :
  gext k n (fun x => x = l ∨ X x) g its g1 frag →
  l ∉ dom (g_fixups g) ∪ dom (g_labels g) → l ∈ dom (g_fixups g1) →
  0 < zlength (concat (its ++ frag)) < 2 ^ 32 →
  ∃ g2, genSetLabelPos l g1 = GoRet g2 ∧ gext k n X g its g2 frag ∧
    g_labels g1 ⊆ g_labels g2 ∧
    g_labels g2 !! l = Some (zlength (concat (its ++ frag))) ∧
    dom (g_fixups g1) ⊆ {[l]} ∪ dom (g_fixups g2) ∧ g_strings g2 = g_strings g1.
Proof.
  intros [[Hb He Hs] ????? Hp] Hfresh Hl Hlen.
  pose proof (bi_len _ _ Hb) as Hbl.
  assert (g_labels g1 !! l = None) as Hnl.
  { apply not_elem_of_dom. intros Hd. by eapply bi_disj. }
  pose proof Hl as Hl'. apply elem_of_dom in Hl' as [ps Hps].
  destruct (set_binv _ _ l ps Hb Hps) as (b & E & Hb' & Hlab & Hfix & Hstr); [lia|].
  unfold genSetLabelPos. rewrite E. simpl. eexists. split; [done|]. simpl.
  assert (g_labels g1 ⊆ b_labels b) as Hsub.
  { rewrite Hlab. by apply insert_subseteq. }
  rewrite Hfix, dom_delete_L.
  split_and!; try done.
  - split; simpl; rewrite ?Hstr; try done.
    + split; simpl; by rewrite ?Hstr.
    + by etrans.
    + rewrite Hfix, dom_delete_L. set_solver.
    + intros l' Hl'. destruct (Hp l' Hl') as [[a Ha]|[->|]]; [left|left|by right].
      * exists a. by eapply lookup_weaken.
      * rewrite Hlab, lookup_insert_eq. eauto.
  - rewrite Hlab. apply lookup_insert_eq.
  - intros x Hx. destruct (decide (x = l)); set_solver.
Qed.
