(* ===== verification/CodeFacts.v ===== *)
(** * Running compiled code, one construct at a time

    For every construct of the expression language: the generator succeeds,
    the code it emits is described by [GenFacts.gext], and running that code
    computes the meaning [CompilerSpec.den] of the construct, provided the
    code of its operands does. *)

From Stdlib Require Import ZArith Lia.
From stdpp Require Import base list gmap strings relations.
From S2P Require Import Prelude Il Interp Expr Compiler Evaluator CompilerSpec BuilderFacts MachineFacts InstrFacts GenFacts.

Open Scope Z_scope.

(** ** Types of constants and supported expressions *)

Lemma const_ok_typed c :
  const_ok c = true → has_type (il_type (c_Type c)) (const_sval c) ∧ known (c_Type c) = true.
Proof.
  unfold const_ok, const_sval. destruct c as [? v ct]. simpl.
  destruct ct, v as [[]|]; try done; simpl; intros Hr; split; try done;
    apply andb_true_iff in Hr as [?%Z.leb_le ?%Z.ltb_lt]; done.
Qed.

Lemma known_il vt : known vt = true → il_type vt ≠ Ty.Unknown ∧ il_type vt ≠ Ty.Void.
Proof. by destruct vt. Qed.

Section Types.
Context (fd : finder).
Abbreviation type_of := (type_of fd).

(** The argument types of a well-typed call of a two-argument function. *)
Lemma type_call2 name fn t1 t2 a b vt :
  FuncMap !! name = Some fn → f_argTypes fn = [t1; t2] →
  type_of (EFn name [a; b]) = GoRet vt →
  ∃ ta tb, type_of a = GoRet ta ∧ type_of b = GoRet tb ∧
    (t1 ≠ VALUE_TYPE_UNSPECIFIED → t2 ≠ VALUE_TYPE_UNSPECIFIED →
     ta = t1 ∧ tb = t2 ∧ (f_retType fn ≠ VALUE_TYPE_UNSPECIFIED → vt = f_retType fn)) ∧
    (t1 = VALUE_TYPE_UNSPECIFIED → t2 = VALUE_TYPE_UNSPECIFIED → ta ≠ VALUE_TYPE_UNSPECIFIED →
     ta = tb ∧ vt = if decide (f_retType fn = VALUE_TYPE_UNSPECIFIED) then ta else f_retType fn).
Proof.
  intros Hf Ht. unfold type_of, CompilerSpec.type_of. cbn [EvalType]. unfold fn_EvalType.
  rewrite Hf, Ht. cbn [length map Nat.ltb Nat.leb check_args].
  destruct (EvalType fd FuncMap a) as [ta| |]; cbn [go_bind]; [|done..].
  destruct (EvalType fd FuncMap b) as [tb| |]; cbn [go_bind]; [|repeat case_decide; naive_solver..].
  intros H. exists ta, tb. split_and!; [done..| |].
  - intros H1 H2. repeat case_decide; naive_solver.
  - intros -> -> H1. repeat case_decide; naive_solver.
Qed.

Lemma type_call1 name fn a vt :
  FuncMap !! name = Some fn → f_argTypes fn = [STRING] → f_retType fn ≠ VALUE_TYPE_UNSPECIFIED →
  type_of (EFn name [a]) = GoRet vt → type_of a = GoRet STRING ∧ vt = f_retType fn.
Proof.
  intros Hf Ht Hr. unfold type_of, CompilerSpec.type_of. cbn [EvalType]. unfold fn_EvalType.
  rewrite Hf, Ht. cbn [length map Nat.ltb Nat.leb check_args].
  destruct (EvalType fd FuncMap a) as [ta| |]; cbn [go_bind]; [|done..].
  intros H. repeat case_decide; naive_solver.
Qed.

Lemma type_EQ a b vt :
  type_of (EFn "EQ" [a; b]) = GoRet vt → eq_supported fd a = true →
  vt = BOOL ∧ ∃ ta, type_of a = GoRet ta ∧ type_of b = GoRet ta.
Proof.
  intros H Hs.
  destruct (type_call2 "EQ" newEQ _ _ _ _ _ eq_refl eq_refl H) as (ta & tb & Ha & Hb & _ & Hu).
  unfold eq_supported in Hs. rewrite Ha in Hs. destruct Hu as [-> ->]; try done; [by destruct ta|]. eauto.
Qed.

Lemma type_NEQ a b vt :
  type_of (EFn "NEQ" [a; b]) = GoRet vt → eq_supported fd a = true →
  vt = BOOL ∧ ∃ ta, type_of a = GoRet ta ∧ type_of b = GoRet ta.
Proof.
  intros H Hs.
  destruct (type_call2 "NEQ" newNEQ _ _ _ _ _ eq_refl eq_refl H) as (ta & tb & Ha & Hb & _ & Hu).
  unfold eq_supported in Hs. rewrite Ha in Hs. destruct Hu as [-> ->]; try done; [by destruct ta|]. eauto.
Qed.

Lemma type_LAND a b vt :
  type_of (EFn "LAND" [a; b]) = GoRet vt → vt = BOOL ∧ type_of a = GoRet BOOL ∧ type_of b = GoRet BOOL.
Proof.
  intros H. destruct (type_call2 "LAND" newLAND _ _ _ _ _ eq_refl eq_refl H) as (ta & tb & Ha & Hb & Hu & _).
  destruct Hu as (-> & -> & Hr); try done. rewrite Hr by done. done.
Qed.

Lemma type_LOR a b vt :
  type_of (EFn "LOR" [a; b]) = GoRet vt → vt = BOOL ∧ type_of a = GoRet BOOL ∧ type_of b = GoRet BOOL.
Proof.
  intros H. destruct (type_call2 "LOR" newLOR _ _ _ _ _ eq_refl eq_refl H) as (ta & tb & Ha & Hb & Hu & _).
  destruct Hu as (-> & -> & Hr); try done. rewrite Hr by done. done.
Qed.

Lemma type_match a b vt :
  type_of (EFn "match" [a; b]) = GoRet vt →
  vt = BOOL ∧ type_of a = GoRet STRING ∧ type_of b = GoRet STRING.
Proof.
  intros H. destruct (type_call2 "match" newMatch _ _ _ _ _ eq_refl eq_refl H) as (ta & tb & Ha & Hb & Hu & _).
  destruct Hu as (-> & -> & Hr); try done. rewrite Hr by done. done.
Qed.

Lemma type_INDEX a b vt :
  type_of (EFn "INDEX" [a; b]) = GoRet vt →
  vt = STRING ∧ type_of a = GoRet STRING_MAP ∧ type_of b = GoRet STRING.
Proof.
  intros H. destruct (type_call2 "INDEX" newIndex _ _ _ _ _ eq_refl eq_refl H) as (ta & tb & Ha & Hb & Hu & _).
  destruct Hu as (-> & -> & Hr); try done. rewrite Hr by done. done.
Qed.

Lemma type_OR a b vt :
  type_of (EFn "OR" [a; b]) = GoRet vt → type_of a ≠ GoRet VALUE_TYPE_UNSPECIFIED →
  type_of a = GoRet vt ∧ type_of b = GoRet vt.
Proof.
  intros H Hn. destruct (type_call2 "OR" newOR _ _ _ _ _ eq_refl eq_refl H) as (ta & tb & Ha & Hb & _ & Hu).
  destruct Hu as [-> ->]; try done. by intros ->.
Qed.

(** ** The supported class, by rules *)

Inductive sup : use → Expression → Prop :=
| sup_const u c : not_alt u = true → const_ok c = true → sup u (EConst c)
| sup_var u n vt : u ≠ ULast → fd n = Some vt → known vt = true → sup u (EVar n)
| sup_fn1 u name a :
    name = "ip" ∨ name = "timestamp" → not_alt u = true → sup UValue a → sup u (EFn name [a])
| sup_eq u name a b :
    name = "EQ" ∨ name = "NEQ" → not_alt u = true → eq_supported fd a = true →
    sup UValue a → sup UValue b → sup u (EFn name [a; b])
| sup_fn2 u name a b :
    name = "LOR" ∨ name = "LAND" ∨ name = "match" → not_alt u = true →
    sup UValue a → sup UValue b → sup u (EFn name [a; b])
| sup_index a b : sup UValue a → sup UValue b → sup UValue (EFn "INDEX" [a; b])
| sup_index_const a c : sup UAlt a → const_ok c = true → sup UAlt (EFn "INDEX" [a; EConst c])
| sup_or a b : sup UAlt a → is_or b = false → sup UValue b → sup UValue (EFn "OR" [a; b])
| sup_or_chain a b : sup UAlt a → is_or b = true → sup ULast b → sup UValue (EFn "OR" [a; b])
| sup_or_alt a b : sup UAlt a → sup UAlt b → sup UAlt (EFn "OR" [a; b])
| sup_or_last a b : sup UAlt a → sup ULast b → sup ULast (EFn "OR" [a; b]).

Lemma supported_sup e : ∀ u, supported fd u e = true → sup u e.
Proof.
  induction e as [c|n|name args IH|] using Expression_nested; intros u Hs; simpl in Hs; [| | |done].
  - apply andb_true_iff in Hs as [Hu Hs]. by constructor.
  - destruct u, (fd n) eqn:E; try done; by econstructor.
  - destruct args as [|a [|b [|? ?]]]; try done.
    + inversion_clear IH as [|?? IHa _]. rewrite !andb_true_iff in Hs. destruct Hs as [[Hn Hu] Ha].
      apply bool_decide_eq_true in Hn. constructor; auto.
    + inversion_clear IH as [|?? IHa IH']. inversion_clear IH' as [|?? IHb _].
      case_decide as H1; [|case_decide as H2; [|case_decide as H3; [|case_decide as H4; [|done]]]];
        rewrite ?andb_true_iff in Hs.
      * destruct Hs as [[[] ] ]. apply sup_eq; auto.
      * destruct Hs as [[] ]. apply sup_fn2; auto.
      * subst name. destruct u; [| |done]; rewrite andb_true_iff in Hs; destruct Hs as [Ha Hb].
        { apply sup_index; auto. }
        destruct b; try done. apply sup_index_const; auto.
      * subst name. destruct Hs as [Ha Hb]. destruct u.
        { destruct (is_or b) eqn:E; [apply sup_or_chain|apply sup_or]; auto. }
        { apply sup_or_alt; auto. }
        { apply sup_or_last; auto. }
Qed.

(** Supported expressions have a type the IL knows. *)
Lemma sup_known u e : sup u e → ∀ vt, type_of e = GoRet vt → known vt = true.
Proof.
  unfold type_of, CompilerSpec.type_of.
  induction 1 as [u c Hu Hc|u n vt Hu Hf Hk|u name a Hn Hu Ha IHa|u name a b Hn Hu He Ha IHa Hb IHb
    |u name a b Hn Hu Ha IHa Hb IHb|a b Ha IHa Hb IHb|a c Ha IHa Hc
    |a b Ha IHa Ho Hb IHb|a b Ha IHa Ho Hb IHb|a b Ha IHa Hb IHb|a b Ha IHa Hb IHb]; intros ty Ht.
  - destruct (const_ok_typed c Hc). by injection Ht as <-.
  - simpl in Ht. rewrite Hf in Ht. by injection Ht as <-.
  - destruct Hn as [-> | ->].
    + by destruct (type_call1 "ip" newIP a ty eq_refl eq_refl) as [_ ->].
    + by destruct (type_call1 "timestamp" newTIMESTAMP a ty eq_refl eq_refl) as [_ ->].
  - destruct Hn as [-> | ->]; [apply type_EQ in Ht as [-> _]|apply type_NEQ in Ht as [-> _]]; done.
  - destruct Hn as [->|[->| ->]];
      [apply type_LOR in Ht as [-> _]|apply type_LAND in Ht as [-> _]|apply type_match in Ht as [-> _]]; done.
  - by apply type_INDEX in Ht as [-> _].
  - by apply type_INDEX in Ht as [-> _].
  - apply type_OR in Ht as [H1 H2]; [by apply IHa|]. intros H. by apply IHa in H.
  - apply type_OR in Ht as [H1 H2]; [by apply IHa|]. intros H. by apply IHa in H.
  - apply type_OR in Ht as [H1 H2]; [by apply IHa|]. intros H. by apply IHa in H.
  - apply type_OR in Ht as [H1 H2]; [by apply IHa|]. intros H. by apply IHa in H.
Qed.

Lemma type_OR_sup a b vt :
  sup UAlt a → type_of (EFn "OR" [a; b]) = GoRet vt → type_of a = GoRet vt ∧ type_of b = GoRet vt.
Proof.
  intros Ha Ht. eapply type_OR; [done|]. intros H. by apply (sup_known _ _ Ha) in H.
Qed.
End Types.

(** ** The generation contract *)

Definition mode_of (u : use) : nilMode := match u with UValue => nmNone | _ => nmJmpOnValue end.

Definition is_lor (e : Expression) : bool :=
  match e with EFn name _ => bool_decide (name = "LOR") | _ => false end.

Section Code.
Context `{GoLib} (fd : finder) (i : Interpreter) (get : bag) (fn : Function) (start : Z).
Context (Hbag : bag_ok get) (Hstart : 0 <= start) (Hparams : Parameters fn = []).
Context (Hext : ∀ name ext, externMap !! name = Some ext → bound i name ext).

Abbreviation den := (den fd get).
Abbreviation den0 := (den0 den).
Abbreviation exec_spec := (exec_spec i get).
Abbreviation vpost := (vpost fn).
Abbreviation type_of := (type_of fd).

Definition pos (its : list (list item)) : Z := start + zlength (concat its).

Lemma pos_app its f : pos (its ++ f) = pos its + zlength (concat f).
Proof using. unfold pos. rewrite zlength_concat_app. lia. Qed.

Lemma pos_ge its : 0 <= pos its.
Proof using Hstart. unfold pos. pose proof (zlength_nonneg (concat its)). lia. Qed.

(** The code [frag] is loaded after [its], with the labels and strings of [g]. *)
Definition loaded (g : generator) (its frag : list (list item)) (Λ : gmap string Z) : Prop :=
  g_labels g ⊆ Λ ∧ st_le (g_strings g) (p_strings (program i)) ∧
  at_ i start Λ (pos its) (concat frag).

Lemma loaded_l k n X g1 its f1 g2 f2 Λ :
  gext k n X g1 (its ++ f1) g2 f2 → loaded g2 its (f1 ++ f2) Λ →
  loaded g1 its f1 Λ ∧ loaded g2 (its ++ f1) f2 Λ.
Proof using.
  intros [] (H1 & H2 & H3). rewrite concat_app, at_app in H3. destruct H3.
  split; (split; [|split]); try done; try by etrans. by rewrite pos_app.
Qed.

(** A running machine with room for [k] words, [h] heap cells, [n] strings. *)
Record ready (m : machine) (pc : Z) (ws : list Z) (hs : list iface) (t : StringTable)
    (k h n : Z) : Prop := {
  rd_st : st fn m pc ws hs t;
  rd_wf : st_wf t;
  rd_le : st_le (p_strings (program i)) t;
  rd_stack : zlength ws + k <= 64;
  rd_heap : zlength hs + h <= 63;
  rd_next : nextID t + n + 1 < 2 ^ 32
}.

(** What running the code of [e] amounts to, by use. *)
Definition exec_ok (u : use) (e : Expression) (T : ilType) (lbl : string) (g' : generator)
    (its frag : list (list item)) : Prop :=
  ∀ Λ m ws hs t,
    loaded g' its frag Λ →
    ready m (pos its) ws hs t (stack_need e) (heap_need fd e) (nodes e) →
    match u with
    | UValue =>
        exec_spec m (den0 e) (vpost (pos (its ++ frag)) ws hs t T (heap_need fd e) (nodes e))
    | UAlt => ∀ a, Λ !! lbl = Some a → is_u32 (a + start) →
        exec_spec m (den nmJmpOnValue e)
          (apost fn hs t (a + start) (pos (its ++ frag)) ws T (heap_need fd e) (nodes e))
    | ULast => Λ !! lbl = Some (zlength (concat (its ++ frag))) →
        exec_spec m (den0 e) (vpost (pos (its ++ frag)) ws hs t T (heap_need fd e) (nodes e))
    end.

(** The contract of [generate]. *)
Definition gen_ok (u : use) (e : Expression) : Prop :=
  ∀ vt depth lbl g its,
    type_of e = GoRet vt → 0 <= depth → 0 < depth ∨ is_lor e = false →
    ginv g its → room start (8 * nodes e) (nodes e) g its →
    (u ≠ UValue → lbl ∈ dom (g_fixups g)) →
    ∃ g' frag,
      generate fd e depth (mode_of u) lbl g = GoRet g' ∧
      gext (8 * nodes e) (nodes e) (fun l => u ≠ UValue ∧ l = lbl) g its g' frag ∧
      0 < zlength (concat frag) ∧
      exec_ok u e (il_type vt) lbl g' its frag.

Lemma foldr_nodes args : 1 <= foldr (fun a n => nodes a + n) 1 args.
Proof using.
  induction args as [|a args IH]; simpl; [lia|]. enough (0 <= nodes a) by lia.
  clear. induction a as [| |name args IH|] using Expression_nested; simpl; try lia.
  induction IH as [|x l Hx _ IHl]; simpl; lia.
Qed.

Lemma nodes_pos e : 1 <= nodes e.
Proof using. destruct e; simpl; try lia. apply foldr_nodes. Qed.

Lemma heap_need_nonneg e : 0 <= heap_need fd e.
Proof using.
  induction e as [|name|name args IH|] using Expression_nested; simpl; try lia.
  - destruct (fd name); [case_decide; lia|lia].
  - induction IH as [|x l Hx _ IHl]; simpl; [case_decide; lia|lia].
Qed.

Lemma stack_need_ge e : 3 <= stack_need e.
Proof using.
  destruct e as [| |name args|]; simpl; try lia.
  destruct args as [|a args]; simpl; [lia|]. induction args; simpl in *; lia.
Qed.

(** A value-producing fragment serves both for its value and as a last
    alternative. *)
Lemma exec_ok_value u e T lbl g' its frag :
  not_alt u = true → exec_ok UValue e T lbl g' its frag → exec_ok u e T lbl g' its frag.
Proof using. intros Hu He Λ m ws hs t Hl Hr. specialize (He Λ m ws hs t Hl Hr). by destruct u. Qed.

Lemma room_words k n g its :
  room start k n g its → 0 <= k → pos its + 16 < 2 ^ 32 ∧ zlength (concat its) + 2 < 2 ^ 32.
Proof using Hstart. intros [] ?. unfold pos. lia. Qed.

Lemma room_str k n g its : room start k n g its → 1 <= n → nextID (g_strings g) + 1 < 2 ^ 32.
Proof using. intros [] ?. lia. Qed.

(** A push of a 64-bit constant. *)
Lemma push64_ok (int : bool) o T z g its :
  Args (op_code o) = [if int then OpcodeArgInt else OpcodeArgDouble] →
  o = Op.APushI ∨ o = Op.APushD →
  ginv g its → room start 8 1 g its →
  let g' := emit ((if int then op_int else op_double) o z) g in
  let frag := [[W (op_code o); W (u32 (Z.land z 4294967295)); W (u32 (Z.shiftr z 32))]] in
  ∀ (Λ : gmap string Z) m ws hs t v, loaded g' its frag Λ → ready m (pos its) ws hs t 3 0 1 →
    repr t hs v (words64 z) → has_type T v →
    exec_spec m (GoRet v) (vpost (pos (its ++ frag)) ws hs t T 0 1).
Proof using Hstart.
  intros Ho Ho' Hg Hroom g' frag Λ m ws hs t v (_ & _ & Hat) [Hst Hwf _ Hw _ _] Hr Hv.
  apply room_words in Hroom as [Hp _]; [|lia]. pose proof (pos_ge its).
  destruct (i_push2 i get fn start Λ m (pos its) hs t ltac:(lia) ltac:(lia) ws o _ _ Ho' Hat Hst)
    as (m' & Hstep & Hst'); [lia|].
  eapply exec_one; [done|]. apply exec_ret. rewrite pos_app.
  eapply vpost_simple; [exact Hst'|done..].
Qed.

(** A push of a one-word constant. *)
Lemma push1_ok o T w g' its (k n : Z) g :
  o = Op.APushS ∨ o = Op.APushB → room start 8 1 g its →
  let frag := [[W (op_code o); W w]] in
  ∀ (Λ : gmap string Z) m ws hs t v, loaded g' its frag Λ → ready m (pos its) ws hs t 3 0 1 →
    repr t hs v [w] → has_type T v →
    exec_spec m (GoRet v) (vpost (pos (its ++ frag)) ws hs t T 0 1).
Proof using Hstart.
  intros Ho Hroom frag Λ m ws hs t v (_ & _ & Hat) [Hst Hwf _ Hw _ _] Hr Hv.
  apply room_words in Hroom as [Hp _]; [|lia]. pose proof (pos_ge its).
  destruct (i_push1 i get fn start Λ m (pos its) hs t ltac:(lia) ltac:(lia) ws o _ Ho Hat Hst)
    as (m' & Hstep & Hst'); [lia|].
  eapply exec_one; [done|]. apply exec_ret. rewrite pos_app.
  eapply vpost_simple; [exact Hst'|done..].
Qed.

(** An interned string of the code is found under its id at run time. *)
Lemma loaded_id g its frag Λ t s id :
  loaded g its frag Λ → st_le (p_strings (program i)) t → stringToID (g_strings g) !! s = Some id →
  stringToID t !! s = Some id.
Proof using. intros (_ & H1 & _) H2 Hs. eauto using st_le_lookup. Qed.

(** A value generated by the emission [He]. *)
Ltac emitted He :=
  eexists _, _; split; [reflexivity|];
  split; [eapply gext_weaken; [exact He|simpl; lia..|done]|];
  split; [done|]; apply exec_ok_value; [done|]; intros Λ m ws hs t Hl Hr.

Lemma gen_const u c : not_alt u = true → const_ok c = true → gen_ok u (EConst c).
Proof using Hstart.
  intros Hu Hc vt depth lbl g its Ht _ _ Hg Hroom _. injection Ht as <-.
  set (X := fun l => u ≠ UValue ∧ l = lbl).
  destruct (const_ok_typed c Hc) as [Hty _]. simpl in Hroom.
  unfold const_ok in Hc. destruct c as [sv v ct]. cbn [c_Type c_Value] in *.
  assert (generate fd (EConst (mkConst sv v ct)) depth (mode_of u) lbl g
          = generateConstant (mkConst sv v ct) g) as -> by done.
  unfold generateConstant. cbn [c_Type c_Value].
  destruct ct; try done; destruct v as [[]|]; try done; cbn [assert_string assert_bool assert_int assert_double assert_duration go_bind].
  - destruct (emit_str X g its Hg Op.APushS s) as (id & He & Hid); [by left|by eapply room_str|].
    emitted He.
    apply (push1_ok Op.APushS Ty.String id _ _ 0 0 _ ltac:(auto) Hroom Λ m ws hs t _ Hl Hr); [|done].
    exists id. split; [done|]. eapply loaded_id; [done| |done]. apply Hr.
  - emitted (emit_64 X g its Hg Op.APushI z true eq_refl).
    by apply (push64_ok true Op.APushI Ty.Integer z _ _ eq_refl ltac:(auto) Hg Hroom Λ m ws hs t _ Hl Hr).
  - emitted (emit_64 X g its Hg Op.APushD f false eq_refl).
    by apply (push64_ok false Op.APushD Ty.Double f _ _ eq_refl ltac:(auto) Hg Hroom Λ m ws hs t _ Hl Hr).
  - emitted (emit_bool X g its Hg Op.APushB b eq_refl).
    by apply (push1_ok Op.APushB Ty.Bool _ _ _ 0 0 _ ltac:(auto) Hroom Λ m ws hs t _ Hl Hr).
  - emitted (emit_64 X g its Hg Op.APushI z true eq_refl).
    by apply (push64_ok true Op.APushI Ty.Duration z _ _ eq_refl ltac:(auto) Hg Hroom Λ m ws hs t _ Hl Hr).
Qed.

Lemma generateVariable_eq n vt mode lbl g :
  fd n = Some vt → known vt = true →
  generateVariable fd n mode lbl g =
    GoRet (resolve_mode mode lbl (op_str (resolve_op (il_type vt)) n)
             (op_str (tresolve_op (il_type vt)) n) g).
Proof using. intros Hf Hk. unfold generateVariable. rewrite Hf. by destruct vt. Qed.

Lemma heap_need_var n vt : fd n = Some vt → heap_need fd (EVar n) = heap_of (il_type vt).
Proof using. intros Hf. simpl. rewrite Hf. by destruct vt. Qed.

Lemma gen_var u n vt : u ≠ ULast → fd n = Some vt → known vt = true → gen_ok u (EVar n).
Proof using Hstart Hbag.
  intros Hu Hf Hk ty depth lbl g its Ht _ _ Hg Hroom Hlbl.
  unfold type_of, CompilerSpec.type_of in Ht. simpl in Ht. rewrite Hf in Ht. injection Ht as <-.
  destruct (known_il vt Hk) as [HT1 HT2]. pose proof (room_words _ _ _ _ Hroom) as [Hp Hp2]; [done|].
  pose proof (pos_ge its). set (X := fun l => u ≠ UValue ∧ l = lbl).
  cbn [generate]. rewrite (generateVariable_eq n vt) by done.
  destruct u; [| |done]; cbn [mode_of resolve_mode].
  - destruct (emit_str X g its Hg (resolve_op (il_type vt)) n) as (id & He & Hid);
      [left; by destruct vt|by eapply room_str|].
    emitted He. destruct Hr as [Hst Hwf Hle Hw Hh Hn]. rewrite (heap_need_var n vt Hf) in *.
    pose proof (loaded_id _ _ _ _ _ _ _ Hl Hle Hid) as Hid'. destruct Hl as (_ & _ & Hat).
    pose proof (i_resolve i get fn start Λ m (pos its) hs t ltac:(lia) ltac:(lia) ws (il_type vt) n id
      HT1 HT2 Hat Hst Hwf Hid' Hw Hh ltac:(simpl in Hn; lia) Hbag) as Hx.
    rewrite pos_app. unfold CompilerSpec.den0. cbn [CompilerSpec.den]. unfold den_var. rewrite Hf.
    destruct (get n) as [v|]; [|exact Hx]. by destruct (convert (il_type vt) v).
  - destruct (emit_str X g its Hg (tresolve_op (il_type vt)) n) as (id & He & Hid);
      [left; by destruct vt|by eapply room_str|].
    set (g1 := emit _ g) in *. assert (lbl ∈ dom (g_fixups g1)) as Hl1.
    { apply (ge_fixups _ _ _ _ _ _ _ He). by apply Hlbl. }
    pose proof (emit_jump X g1 _ (ge_inv _ _ _ _ _ _ _ He) Op.Jnz lbl eq_refl Hl1 ltac:(done)) as Hj.
    specialize (Hj ltac:(rewrite zlength_concat_app; change (zlength (concat [[W (op_code (tresolve_op (il_type vt))); W id]])) with 2; unfold pos in Hp; lia)).
    eexists _, _. split; [reflexivity|]. split.
    { eapply gext_weaken; [exact (gext_seq _ _ _ _ _ _ _ _ _ _ _ He Hj)|simpl; lia..|done]. }
    split; [done|]. intros Λ m ws hs t Hl [Hst Hwf Hle Hw Hh Hn] a Ha Ha'.
    destruct (loaded_l _ _ _ _ _ _ _ _ _ Hj Hl) as [Hl2 _].
    rewrite (heap_need_var n vt Hf) in *.
    pose proof (loaded_id _ _ _ _ _ _ _ Hl2 Hle Hid) as Hid'. destruct Hl as (_ & _ & Hat).
    pose proof (i_tresolve i get fn start Λ m (pos its) hs t ltac:(lia) ltac:(lia) ws (il_type vt) n id
      lbl a HT1 HT2 Hat Ha Ha' Hst Hwf Hid' Hw Hh ltac:(simpl in Hn; lia) Hbag) as Hx.
    rewrite pos_app. cbn [CompilerSpec.den]. unfold den_var. rewrite Hf.
    destruct (get n) as [v|]; exact Hx.
Qed.

(** ** Equality *)

Lemma id_eqb t s s' x y :
  st_wf t → stringToID t !! s = Some x → stringToID t !! s' = Some y →
  (y =? x) = bool_decide (s = s').
Proof using.
  intros Hwf Hs Hs'. destruct (Z.eqb_spec y x) as [->|Hne].
  - rewrite bool_decide_true; [done|]. by eapply st_id_inj.
  - rewrite bool_decide_false; [done|]. intros ->. by simplify_eq.
Qed.

Lemma bool_eqb p q : (BoolToByteCode q =? BoolToByteCode p) = Bool.eqb p q.
Proof using. by destruct p, q. Qed.

(** The code [frag] computes [R] of the operands on top of the stack. *)
Definition binop_ok (Tx Ty U : ilType) (R : sval → sval → go gerr sval) (g' : generator)
    (its frag : list (list item)) : Prop :=
  ∀ Λ m ws hs t wx wy x y,
    loaded g' its frag Λ →
    st fn m (pos its) ((ws ++ wx) ++ wy) hs t → st_wf t → st_le (p_strings (program i)) t →
    zlength ws + 2 <= 64 → nextID t + 1 < 2 ^ 32 →
    repr t hs x wx → repr t hs y wy → has_type Tx x → has_type Ty y →
    exec_spec m (R x y) (vpost (pos (its ++ frag)) ws hs t U 0 1).

Definition unop_ok (T U : ilType) (R : sval → go gerr sval) (h : Z) (g' : generator)
    (its frag : list (list item)) : Prop :=
  ∀ Λ m ws hs t wx x,
    loaded g' its frag Λ →
    st fn m (pos its) (ws ++ wx) hs t → st_wf t → st_le (p_strings (program i)) t →
    zlength ws + 2 <= 64 → zlength hs + h <= 63 → nextID t + 1 < 2 ^ 32 →
    repr t hs x wx → has_type T x →
    exec_spec m (R x) (vpost (pos (its ++ frag)) ws hs t U h 1).

(** A step that pushes a boolean. *)
Lemma bool_step m m' pc ws hs t r :
  step i get m = GoRet (inl m') → st fn m' pc (ws ++ [BoolToByteCode r]) hs t → st_wf t →
  exec_spec m (let! b := GoRet r in GoRet (SBool b)) (vpost pc ws hs t Ty.Bool 0 1).
Proof using. intros Hs Hst Hwf. eapply exec_one; [done|]. apply exec_ret. by eapply vpost_simple. Qed.

(** The call of a two-argument extern on the two top operands. *)
Lemma call2_ok name T f g its X :
  externMap !! name = Some (mkExtern name [T; T] Ty.Bool (call_eq f)) → word_type T →
  ginv g its → room start 8 1 g its →
  ∃ id, let frag := [[W (op_code Op.Call); W id]] in
    gext 2 1 X g its (emit (B.Call name) g) frag ∧
    binop_ok T T Ty.Bool (fun x y => let! b := f (arg_of x) (arg_of y) in GoRet (SBool b))
      (emit (B.Call name) g) its frag.
Proof using Hstart Hparams Hext.
  intros Hx HT Hg Hroom. pose proof (room_words _ _ _ _ Hroom) as [Hp _]; [done|]. pose proof (pos_ge its).
  destruct (emit_str X g its Hg Op.Call name) as (id & He & Hid); [by right|by eapply room_str|].
  exists id. split; [exact He|]. intros Λ m ws hs t wx wy x y Hl Hst Hwf Hle Hw Hn Hrx Hry Htx Hty.
  pose proof (loaded_id _ _ _ _ _ _ _ Hl Hle Hid) as Hid'. pose proof Hl as (_ & Hs & Hat).
  rewrite pos_app. eapply exec_conseq.
  - eapply (i_call_eq i get fn start Λ m (pos its) ws hs t ltac:(lia) ltac:(lia) name _ id
      (Hext _ _ Hx) Hparams Hwf (st_le_lookup _ _ _ _ Hs Hid) Hid' f T x y wx wy eq_refl HT Hat Hst); done.
  - intros v m' Hv. eapply vpost_weaken; [exact Hv|lia..].
Qed.

(** The call of a one-argument extern. *)
Lemma call1_ok name f g its X :
  externMap !! name = Some (mkExtern name [Ty.String] Ty.Interface (call_str f)) →
  ginv g its → room start 8 1 g its →
  ∃ id, let frag := [[W (op_code Op.Call); W id]] in
    gext 2 1 X g its (emit (B.Call name) g) frag ∧
    unop_ok Ty.String Ty.Interface
      (fun x => let! s := as_sstr x in let! v := f s in GoRet (SIface v)) 1
      (emit (B.Call name) g) its frag.
Proof using Hstart Hparams Hext.
  intros Hx Hg Hroom. pose proof (room_words _ _ _ _ Hroom) as [Hp _]; [done|]. pose proof (pos_ge its).
  destruct (emit_str X g its Hg Op.Call name) as (id & He & Hid); [by right|by eapply room_str|].
  exists id. split; [exact He|]. intros Λ m ws hs t wx x Hl Hst Hwf Hle Hw Hh Hn Hrx Htx.
  pose proof (loaded_id _ _ _ _ _ _ _ Hl Hle Hid) as Hid'. pose proof Hl as (_ & Hs & Hat).
  destruct x as [s| | | |]; try done. rewrite pos_app. cbn [as_sstr go_bind]. eapply exec_conseq.
  - eapply (i_call_str i get fn start Λ m (pos its) ws hs t ltac:(lia) ltac:(lia) name _ id
      (Hext _ _ Hx) Hparams Hwf (st_le_lookup _ _ _ _ Hs Hid) Hid' f s wx eq_refl Hat Hst); try done; lia.
  - intros v m' Hv. eapply vpost_weaken; [exact Hv|lia..].
Qed.

(** A comparison of the two top operands. *)
Lemma eq_op_ok o T R g its X :
  Args (op_code o) = [] → ginv g its → room start 8 1 g its →
  (∀ Λ m ws hs t wx wy x y, at_ i start Λ (pos its) [W (op_code o)] →
     st fn m (pos its) ((ws ++ wx) ++ wy) hs t → st_wf t → repr t hs x wx → repr t hs y wy →
     has_type T x → has_type T y →
     ∃ r m', R x y = GoRet r ∧ step i get m = GoRet (inl m') ∧
       st fn m' (pos its + 1) (ws ++ [BoolToByteCode r]) hs t) →
  ∃ g' frag, GoRet (E := gerr) (emit (op0 o) g) = GoRet g' ∧ gext 2 1 X g its g' frag ∧
    binop_ok T T Ty.Bool (fun x y => let! b := R x y in GoRet (SBool b)) g' its frag.
Proof using.
  intros Ho Hg Hroom Hstep. eexists _, _. split; [reflexivity|].
  split; [eapply gext_weaken; [exact (emit_op0 X g its Hg o Ho)|lia..|done]|].
  intros Λ m ws hs t wx wy x y (_ & _ & Hat) Hst Hwf Hle Hw Hn Hx Hy Htx Hty.
  destruct (Hstep Λ m ws hs t wx wy x y Hat Hst Hwf Hx Hy Htx Hty) as (r & m' & -> & Hs' & Hst').
  rewrite pos_app. by eapply bool_step.
Qed.

Lemma eq_instr_stack a ta g its X :
  type_of a = GoRet ta → eq_supported fd a = true → ginv g its → room start 8 1 g its →
  ∃ g' frag, eq_instr fd a (il_type ta) None g = GoRet g' ∧ gext 2 1 X g its g' frag ∧
    binop_ok (il_type ta) (il_type ta) Ty.Bool
      (fun x y => let! b := den_eq fd a x y in GoRet (SBool b)) g' its frag.
Proof using Hstart Hparams Hext.
  intros Ht Hs Hg Hroom. pose proof (room_words _ _ _ _ Hroom) as [Hp _]; [done|]. pose proof (pos_ge its).
  unfold eq_supported in Hs. rewrite Ht in Hs.
  unfold eq_instr, value_type, den_eq. rewrite Ht. unfold CompilerSpec.type_of in Ht.
  destruct ta; try done; cbn [il_type go_bind].
  - apply eq_op_ok; [done..|]. intros Λ m ws hs t wx wy x y Hat Hst Hwf Hx Hy Htx Hty.
    destruct x as [s| | | |], y as [s'| | | |]; try done. destruct Hx as (p & -> & Hx), Hy as (q & -> & Hy).
    destruct (i_eq1 i get fn start Λ m (pos its) hs t ltac:(lia) ltac:(lia) ws p q Op.EqS ltac:(auto) Hat Hst)
      as (m' & Hs1 & Hs2). rewrite (id_eqb t s s' p q Hwf Hx Hy) in Hs2. eauto.
  - apply eq_op_ok; [done..|]. intros Λ m ws hs t wx wy x y Hat Hst Hwf Hx Hy Htx Hty.
    destruct x as [| |z| |], y as [| |z'| |]; try done. simpl in Hx, Hy. subst wx wy.
    destruct (i_eq2 i get fn start Λ m (pos its) hs t ltac:(lia) ltac:(lia) ws _ _ _ _ Op.EqI ltac:(auto) Hat Hst)
      as (m' & Hs1 & Hs2). rewrite (words64_eqb is_i64) in Hs2 by (by apply words64_inj_i). eauto.
  - apply eq_op_ok; [done..|]. intros Λ m ws hs t wx wy x y Hat Hst Hwf Hx Hy Htx Hty.
    destruct x as [| | |z|], y as [| | |z'|]; try done. simpl in Hx, Hy. subst wx wy.
    destruct (i_eq2 i get fn start Λ m (pos its) hs t ltac:(lia) ltac:(lia) ws _ _ _ _ Op.EqD ltac:(auto) Hat Hst)
      as (m' & Hs1 & Hs2). rewrite (words64_eqb is_u64) in Hs2 by (by apply words64_inj_d). eauto.
  - apply eq_op_ok; [done..|]. intros Λ m ws hs t wx wy x y Hat Hst Hwf Hx Hy Htx Hty.
    destruct x as [|p| | |], y as [|q| | |]; try done. simpl in Hx, Hy. subst wx wy.
    destruct (i_eq1 i get fn start Λ m (pos its) hs t ltac:(lia) ltac:(lia) ws _ _ Op.EqB ltac:(auto) Hat Hst)
      as (m' & Hs1 & Hs2). rewrite bool_eqb in Hs2. eauto.
  - rewrite Ht. destruct (call2_ok "timestamp_equal" Ty.Interface timestamp_equal_fn g its X) as (id & He & Hb);
      [done|by right|done..|].
    eexists _, _. split; [reflexivity|]. split; [exact He|].
    intros Λ m ws hs t wx wy x y Hl Hst Hwf Hle Hw Hn Hx Hy Htx Hty.
    destruct x as [| | | |v], y as [| | | |v']; try done.
    by apply (Hb Λ m ws hs t wx wy (SIface v) (SIface v')).
  - rewrite Ht. destruct (call2_ok "ip_equal" Ty.Interface ip_equal_fn g its X) as (id & He & Hb);
      [done|by right|done..|].
    eexists _, _. split; [reflexivity|]. split; [exact He|].
    intros Λ m ws hs t wx wy x y Hl Hst Hwf Hle Hw Hn Hx Hy Htx Hty.
    destruct x as [| | | |v], y as [| | | |v']; try done.
    by apply (Hb Λ m ws hs t wx wy (SIface v) (SIface v')).
Qed.

(** A comparison with a constant operand of the instruction. *)
Lemma eq_instr_const a ta c g its X :
  type_of a = GoRet ta → eq_supported fd a = true → const_ok c = true → c_Type c = ta →
  ginv g its → room start 8 1 g its →
  ∃ g' frag, eq_instr fd a (il_type ta) (c_Value c) g = GoRet g' ∧ gext 3 1 X g its g' frag ∧
    unop_ok (il_type ta) Ty.Bool
      (fun x => let! b := den_eq fd a x (const_sval c) in GoRet (SBool b)) 0 g' its frag.
Proof using Hstart.
  intros Ht Hs Hc Hct Hg Hroom. pose proof (room_words _ _ _ _ Hroom) as [Hp _]; [done|]. pose proof (pos_ge its).
  destruct (const_ok_typed c Hc) as [Hty _].
  unfold eq_supported in Hs. rewrite Ht in Hs. unfold const_ok in Hc. unfold const_sval in *.
  destruct c as [sv v ct]. cbn [c_Type c_Value] in *. subst ct. unfold eq_instr.
  destruct ta; try done; destruct v as [[]|]; try done;
    cbn [il_type assert_string assert_bool assert_int assert_double go_bind].
  - destruct (emit_str X g its Hg Op.AEqS s) as (id & He & Hid); [by left|by eapply room_str|].
    eexists _, _. split; [reflexivity|]. split; [eapply gext_weaken; [exact He|lia..|done]|].
    intros Λ m ws hs t wx x Hl Hst Hwf Hle _ _ _ Hx Htx.
    pose proof (loaded_id _ _ _ _ _ _ _ Hl Hle Hid) as Hid'. destruct Hl as (_ & _ & Hat).
    destruct x as [s'| | | |]; try done. destruct Hx as (p & -> & Hx).
    destruct (i_aeq1 i get fn start Λ m (pos its) hs t ltac:(lia) ltac:(lia) ws p id Op.AEqS ltac:(auto) Hat Hst)
      as (m' & Hs1 & Hs2). rewrite (id_eqb t s' s p id Hwf Hx Hid') in Hs2. rewrite pos_app. by eapply bool_step.
  - eexists _, _. split; [reflexivity|].
    split; [eapply gext_weaken; [exact (emit_64 X g its Hg Op.AEqI z true eq_refl)|lia..|done]|].
    intros Λ m ws hs t wx x (_ & _ & Hat) Hst Hwf Hle _ _ _ Hx Htx.
    destruct x as [| |z'| |]; try done. simpl in Hx. subst wx.
    destruct (i_aeq2 i get fn start Λ m (pos its) hs t ltac:(lia) ltac:(lia) ws _ _ _ _ Op.AEqI ltac:(auto) Hat Hst)
      as (m' & Hs1 & Hs2). rewrite (words64_eqb is_i64), Z.eqb_sym in Hs2 by (by apply words64_inj_i).
    rewrite pos_app. by eapply bool_step.
  - eexists _, _. split; [reflexivity|].
    split; [eapply gext_weaken; [exact (emit_64 X g its Hg Op.AEqD f false eq_refl)|lia..|done]|].
    intros Λ m ws hs t wx x (_ & _ & Hat) Hst Hwf Hle _ _ _ Hx Htx.
    destruct x as [| | |z'|]; try done. simpl in Hx. subst wx.
    destruct (i_aeq2 i get fn start Λ m (pos its) hs t ltac:(lia) ltac:(lia) ws _ _ _ _ Op.AEqD ltac:(auto) Hat Hst)
      as (m' & Hs1 & Hs2). rewrite (words64_eqb is_u64), Z.eqb_sym in Hs2 by (by apply words64_inj_d).
    rewrite pos_app. by eapply bool_step.
  - eexists _, _. split; [reflexivity|].
    split; [eapply gext_weaken; [exact (emit_bool X g its Hg Op.AEqB b eq_refl)|lia..|done]|].
    intros Λ m ws hs t wx x (_ & _ & Hat) Hst Hwf Hle _ _ _ Hx Htx.
    destruct x as [|p| | |]; try done. simpl in Hx. subst wx.
    destruct (i_aeq1 i get fn start Λ m (pos its) hs t ltac:(lia) ltac:(lia) ws _ _ Op.AEqB ltac:(auto) Hat Hst)
      as (m' & Hs1 & Hs2). rewrite bool_eqb in Hs2. rewrite pos_app. by eapply bool_step.
Qed.

(** ** Sequencing operands *)

Lemma vpost_trans pc ws hs t hs' t' T h n h' n' v m :
  hs `prefix_of` hs' → zlength hs' <= zlength hs + h → st_le t t' → nextID t' <= nextID t + n →
  vpost pc ws hs' t' T h' n' v m → vpost pc ws hs t T (h + h') (n + n') v m.
Proof using.
  intros ???? (w & hs2 & t2 & ?). destruct_and!. exists w, hs2, t2.
  split_and!; try done; try (by etrans); lia.
Qed.

(** One operand, then code that consumes it. *)
Lemma gen_then a ta depth g its X k1 (fin : gen) T U R h :
  gen_ok UValue a → type_of a = GoRet ta → 0 < depth → ginv g its → il_type ta = T →
  0 <= k1 <= 8 → 0 <= h →
  room start (8 * nodes a + 8) (nodes a + 1) g its →
  (∀ g1 its1, ginv g1 its1 → room start 8 1 g1 its1 →
     ∃ g' frag, fin g1 = GoRet g' ∧ gext k1 1 X g1 its1 g' frag ∧ unop_ok T U R h g' its1 frag) →
  ∃ g' frag,
    (let! g := generate fd a depth nmNone "" g in fin g) = GoRet g' ∧
    gext (8 * nodes a + k1) (nodes a + 1) X g its g' frag ∧ 0 < zlength (concat frag) ∧
    ∀ Λ m ws hs t, loaded g' its frag Λ →
      ready m (pos its) ws hs t (stack_need a) (heap_need fd a + h) (nodes a + 1) →
      exec_spec m (let! x := den0 a in R x)
        (vpost (pos (its ++ frag)) ws hs t U (heap_need fd a + h) (nodes a + 1)).
Proof using.
  intros Ha Hta Hd Hg HT Hk Hh Hroom Hfin. pose proof (nodes_pos a).
  destruct (Ha ta depth "" g its Hta ltac:(lia) ltac:(auto) Hg) as (g1 & f1 & E1 & He1 & Hl1 & Hx1);
    [eapply room_weaken; [done|lia..]|done|].
  assert (gext (8 * nodes a) (nodes a) X g its g1 f1) as He1'.
  { eapply gext_weaken; [exact He1|lia..|]. by intros l [? _]. }
  destruct (Hfin g1 (its ++ f1)) as (g2 & f2 & E2 & He2 & Hx2);
    [apply He1|by eapply room_seq|].
  cbn [mode_of] in E1. exists g2, (f1 ++ f2). rewrite E1. cbn [go_bind].
  split; [done|]. split; [by eapply gext_seq|].
  split. { rewrite zlength_concat_app. pose proof (zlength_nonneg (concat f2)). lia. }
  intros Λ m ws hs t Hl Hr. destruct (loaded_l _ _ _ _ _ _ _ _ _ He2 Hl) as [Hla Hlb].
  destruct Hr as [Hst Hwf Hle Hw Hhp Hn]. pose proof (stack_need_ge a).
  pose proof (heap_need_nonneg a).
  eapply exec_bind; [eapply (Hx1 Λ m ws hs t Hla); split; try done; lia|].
  intros x m1 (w & hs1 & t1 & Hst1 & Hp1 & Hh1 & Hwf1 & Hle1 & Hn1 & Hrx & Htx).
  rewrite HT in Htx. rewrite app_assoc.
  eapply exec_conseq; [eapply (Hx2 Λ m1 ws hs1 t1 w x Hlb Hst1 Hwf1); try done; try lia; by etrans|].
  intros v m2 Hv. by eapply vpost_trans.
Qed.

(** Two operands, then code that consumes them. *)
Lemma gen_pair a b ta tb depth g its X k1 (fin : gen) Tx Ty U R :
  gen_ok UValue a → gen_ok UValue b → type_of a = GoRet ta → type_of b = GoRet tb →
  0 < depth → ginv g its → il_type ta = Tx → il_type tb = Ty → 0 <= k1 <= 8 →
  room start (8 * nodes a + 8 * nodes b + 8) (nodes a + nodes b + 1) g its →
  (∀ g1 its1, ginv g1 its1 → room start 8 1 g1 its1 →
     ∃ g' frag, fin g1 = GoRet g' ∧ gext k1 1 X g1 its1 g' frag ∧ binop_ok Tx Ty U R g' its1 frag) →
  ∃ g' frag,
    (let! g := generate fd a depth nmNone "" g in
     let! g := generate fd b depth nmNone "" g in fin g) = GoRet g' ∧
    gext (8 * nodes a + 8 * nodes b + k1) (nodes a + nodes b + 1) X g its g' frag ∧
    0 < zlength (concat frag) ∧
    ∀ Λ m ws hs t, loaded g' its frag Λ →
      ready m (pos its) ws hs t (Z.max (stack_need a) (2 + stack_need b))
        (heap_need fd a + heap_need fd b) (nodes a + nodes b + 1) →
      exec_spec m (let! x := den0 a in let! y := den0 b in R x y)
        (vpost (pos (its ++ frag)) ws hs t U (heap_need fd a + heap_need fd b) (nodes a + nodes b + 1)).
Proof using.
  intros Ha Hb Hta Htb Hd Hg HTx HTy Hk Hroom Hfin. pose proof (nodes_pos a). pose proof (nodes_pos b).
  destruct (Ha ta depth "" g its Hta ltac:(lia) ltac:(auto) Hg) as (g1 & f1 & E1 & He1 & Hl1 & Hx1);
    [eapply room_weaken; [done|lia..]|done|].
  assert (gext (8 * nodes a) (nodes a) X g its g1 f1) as He1'.
  { eapply gext_weaken; [exact He1|lia..|]. by intros l [? _]. }
  assert (room start (8 * nodes b + 8) (nodes b + 1) g1 (its ++ f1)) as Hroom1.
  { eapply room_seq; [exact He1'|]. eapply room_weaken; [done|lia..]. }
  destruct (Hb tb depth "" g1 (its ++ f1) Htb ltac:(lia) ltac:(auto)) as (g2 & f2 & E2 & He2 & Hl2 & Hx2);
    [apply He1|eapply room_weaken; [done|lia..]|done|].
  assert (gext (8 * nodes b) (nodes b) X g1 (its ++ f1) g2 f2) as He2'.
  { eapply gext_weaken; [exact He2|lia..|]. by intros l [? _]. }
  pose proof (gext_seq _ _ _ _ _ _ _ _ _ _ _ He1' He2') as He12.
  destruct (Hfin g2 (its ++ (f1 ++ f2))) as (g3 & f3 & E3 & He3 & Hx3);
    [apply He12|eapply room_seq; [exact He12|]; eapply room_weaken; [done|lia..]|].
  cbn [mode_of] in E1, E2. exists g3, ((f1 ++ f2) ++ f3). rewrite E1. cbn [go_bind]. rewrite E2. cbn [go_bind].
  split; [done|]. split; [by eapply gext_seq|].
  split. { rewrite !zlength_concat_app. pose proof (zlength_nonneg (concat f3)). lia. }
  intros Λ m ws hs t Hl Hr. destruct (loaded_l _ _ _ _ _ _ _ _ _ He3 Hl) as [Hlab Hlc].
  destruct (loaded_l _ _ _ _ _ _ _ _ _ He2' Hlab) as [Hla Hlb].
  destruct Hr as [Hst Hwf Hle Hw Hhp Hn]. pose proof (stack_need_ge a). pose proof (stack_need_ge b).
  pose proof (heap_need_nonneg a). pose proof (heap_need_nonneg b).
  eapply exec_bind; [eapply (Hx1 Λ m ws hs t Hla); split; try done; lia|].
  intros x m1 (w & hs1 & t1 & Hst1 & Hp1 & Hh1 & Hwf1 & Hle1 & Hn1 & Hrx & Htx).
  pose proof (repr_len _ _ _ _ Hrx).
  eapply exec_bind.
  { eapply (Hx2 Λ m1 (ws ++ w) hs1 t1 Hlb). split; try done; [by etrans|autorewrite with zlist; lia|lia..]. }
  intros y m2 (w2 & hs2 & t2 & Hst2 & Hp2 & Hh2 & Hwf2 & Hle2 & Hn2 & Hry & Hty).
  rewrite HTx in Htx. rewrite HTy in Hty. rewrite <- app_assoc in Hst2. rewrite app_assoc.
  eapply exec_conseq.
  { eapply (Hx3 Λ m2 ws hs2 t2 w w2 x y Hlc Hst2 Hwf2); try done; try lia; [by do 2 etrans|].
    by eapply repr_mono. }
  intros v m3 Hv. replace (heap_need fd a + heap_need fd b) with (heap_need fd a + heap_need fd b + 0) by lia.
  eapply vpost_trans; [| | | |exact Hv]; [by etrans|lia|by etrans|lia].
Qed.

(** ** Equality and inequality *)

Definition is_const (e : Expression) : bool := match e with EConst _ => true | _ => false end.

Lemma evalType_eq a ta g : type_of a = GoRet ta → known ta = true → evalType fd a g = GoRet (il_type ta, g).
Proof using.
  intros Ht Hk. unfold evalType, value_type. unfold CompilerSpec.type_of in Ht. rewrite Ht. by destruct ta.
Qed.

Lemma generateEq_stack a b ta depth g :
  type_of a = GoRet ta → known ta = true → is_const b = false →
  generateEq fd (generate fd) [a; b] depth g =
    (let! g := generate fd a (depth + 1) nmNone "" g in
     let! g := generate fd b (depth + 1) nmNone "" g in eq_instr fd a (il_type ta) None g).
Proof using.
  intros Ht Hk Hb. unfold generateEq. rewrite (evalType_eq a ta) by done. cbn [go_bind].
  by destruct b.
Qed.

Lemma generateEq_const a c ta depth g :
  type_of a = GoRet ta → known ta = true →
  generateEq fd (generate fd) [a; EConst c] depth g =
    (let! g := generate fd a (depth + 1) nmNone "" g in eq_instr fd a (il_type ta) (c_Value c) g).
Proof using.
  intros Ht Hk. unfold generateEq. rewrite (evalType_eq a ta) by done. done.
Qed.

Lemma go_bind_assoc {A B C} (m : go gerr A) (f : A → go gerr B) (k : B → go gerr C) :
  go_bind (go_bind m f) k = go_bind m (fun x => go_bind (f x) k).
Proof using. by destruct m. Qed.

Lemma go_bind_ext {A B} (m : go gerr A) (f k : A → go gerr B) :
  (∀ x, f x = k x) → go_bind m f = go_bind m k.
Proof using. intros Hf. destruct m; simpl; auto. Qed.

Lemma den_Eq_seq a b :
  (let! r := den_Eq fd den a b in GoRet (SBool r)) =
  (let! x := den0 a in let! y := den0 b in let! r := den_eq fd a x y in GoRet (SBool r)).
Proof using.
  unfold den_Eq. rewrite go_bind_assoc. apply go_bind_ext. intros x. by rewrite go_bind_assoc.
Qed.

Lemma gen_eq_core a b ta depth g its X :
  gen_ok UValue a → gen_ok UValue b → sup fd UValue b → eq_supported fd a = true →
  type_of a = GoRet ta → type_of b = GoRet ta → known ta = true → 0 <= depth → ginv g its →
  room start (8 * nodes a + 8 * nodes b + 8) (nodes a + nodes b + 1) g its →
  ∃ g' frag,
    generateEq fd (generate fd) [a; b] depth g = GoRet g' ∧
    gext (8 * nodes a + 8 * nodes b + 3) (nodes a + nodes b + 1) X g its g' frag ∧
    0 < zlength (concat frag) ∧
    ∀ Λ m ws hs t, loaded g' its frag Λ →
      ready m (pos its) ws hs t (Z.max (stack_need a) (2 + stack_need b))
        (heap_need fd a + heap_need fd b) (nodes a + nodes b + 1) →
      exec_spec m (let! r := den_Eq fd den a b in GoRet (SBool r))
        (vpost (pos (its ++ frag)) ws hs t Ty.Bool (heap_need fd a + heap_need fd b) (nodes a + nodes b + 1)).
Proof using Hstart Hparams Hext.
  intros Ha Hb Hsb Hs Hta Htb Hk Hd Hg Hroom. pose proof (nodes_pos b).
  destruct (is_const b) eqn:Hc.
  - destruct b as [c| | |]; try done. inversion Hsb as [u c' _ Hcok| | | | | | | | | |]; subst u c'.
    rewrite (generateEq_const a c ta) by done. injection Htb as Hct. simpl nodes in Hroom.
    destruct (gen_then a ta (depth + 1) g its X 3 (eq_instr fd a (il_type ta) (c_Value c)) (il_type ta) Ty.Bool
      (fun x => let! r := den_eq fd a x (const_sval c) in GoRet (SBool r)) 0) as (g' & frag & E & He & Hl & Hx);
      try done; try lia.
    { eapply room_weaken; [done|lia..]. }
    { intros. by apply eq_instr_const. }
    exists g', frag. split; [done|]. split; [eapply gext_weaken; [exact He|simpl; lia..|done]|].
    split; [done|]. intros Λ m ws hs t Hlo [? ? ? ? ? ?]. simpl in *. rewrite den_Eq_seq.
    eapply exec_conseq; [apply (Hx Λ m ws hs t Hlo)|]; [split; try done; lia|].
    intros v m' Hv. eapply vpost_weaken; [exact Hv|lia..].
  - rewrite (generateEq_stack a b ta) by done.
    destruct (gen_pair a b ta ta (depth + 1) g its X 2 (eq_instr fd a (il_type ta) None) (il_type ta) (il_type ta)
      Ty.Bool (fun x y => let! r := den_eq fd a x y in GoRet (SBool r))) as (g' & frag & E & He & Hl & Hx);
      try done; try lia.
    { intros. by apply eq_instr_stack. }
    exists g', frag. split; [done|]. split; [eapply gext_weaken; [exact He|lia..|done]|].
    split; [done|]. intros Λ m ws hs t Hlo Hr. rewrite den_Eq_seq. by apply (Hx Λ).
Qed.

Lemma ready_fn2 name a b m pc ws hs t :
  ready m pc ws hs t (stack_need (EFn name [a; b])) (heap_need fd (EFn name [a; b])) (nodes (EFn name [a; b])) →
  ready m pc ws hs t (Z.max (stack_need a) (2 + stack_need b)) (heap_need fd a + heap_need fd b) (nodes a + nodes b + 1).
Proof using.
  intros [??????]. simpl in *. split; try done; try lia.
  destruct (decide (name = "ip" ∨ name = "timestamp")); lia.
Qed.

Lemma vpost_fn2 name a b pc ws hs t T v m :
  vpost pc ws hs t T (heap_need fd a + heap_need fd b) (nodes a + nodes b + 1) v m →
  vpost pc ws hs t T (heap_need fd (EFn name [a; b])) (nodes (EFn name [a; b])) v m.
Proof using.
  intros Hv. eapply vpost_weaken; [exact Hv| |simpl; lia]. simpl.
  destruct (decide (name = "ip" ∨ name = "timestamp")); lia.
Qed.

Lemma nodes_fn2 name a b : nodes (EFn name [a; b]) = nodes a + nodes b + 1.
Proof using. simpl. lia. Qed.

Lemma den0_ret e r : den nmNone e = ret_bool r → den0 e = (let! b := r in GoRet (SBool b)).
Proof using. intros E. unfold CompilerSpec.den0. rewrite E. by destruct r. Qed.

Lemma gen_eq u a b :
  not_alt u = true → eq_supported fd a = true → sup fd UValue a → sup fd UValue b →
  gen_ok UValue a → gen_ok UValue b → gen_ok u (EFn "EQ" [a; b]).
Proof using Hstart Hparams Hext.
  intros Hu Hs Hsa Hsb Ha Hb vt depth lbl g its Ht Hd _ Hg Hroom _.
  destruct (type_EQ fd a b vt Ht Hs) as (-> & ta & Hta & Htb). rewrite nodes_fn2 in Hroom.
  destruct (gen_eq_core a b ta depth g its (fun l => u ≠ UValue ∧ l = lbl)) as (g' & frag & E & He & Hl & Hx);
    try done; [by eapply sup_known|eapply room_weaken; [done|lia..]|].
  exists g', frag. split; [exact E|]. split; [eapply gext_weaken; [exact He|rewrite nodes_fn2; lia..|done]|].
  split; [done|]. apply exec_ok_value; [done|]. intros Λ m ws hs t Hlo Hr.
  rewrite (den0_ret _ (den_Eq fd den a b)) by done.
  eapply exec_conseq; [apply (Hx Λ m ws hs t Hlo); by eapply ready_fn2|]. intros. by apply vpost_fn2.
Qed.

(** Negation of a boolean on the stack. *)
Lemma not_ok g its X :
  ginv g its → room start 0 0 g its →
  let frag := [[W (op_code Op.Not)]] in
  gext 1 0 X g its (emit B.Not g) frag ∧
  ∀ Λ m ws hs t h n v, loaded (emit B.Not g) its frag Λ → vpost (pos its) ws hs t Ty.Bool h n v m →
    exec_spec m (let! b := as_sbool v in GoRet (SBool (negb b))) (vpost (pos (its ++ frag)) ws hs t Ty.Bool h n).
Proof using Hstart.
  intros Hg Hroom. pose proof (room_words _ _ _ _ Hroom) as [Hp _]; [done|]. pose proof (pos_ge its).
  split; [by apply emit_op0|].
  intros Λ m ws hs t h n v (_ & _ & Hat) (w & hs' & t' & Hst & ? & ? & ? & ? & ? & Hx & Htx).
  destruct v as [|p| | |]; try done. simpl in Hx. subst w.
  destruct (i_not i get fn start Λ m (pos its) hs' t' ltac:(lia) ltac:(lia) ws p Hat Hst) as (m' & Hs1 & Hs2).
  eapply exec_one; [done|]. apply exec_ret. rewrite pos_app. eexists _, hs', t'. by split_and!.
Qed.

Lemma gen_neq u a b :
  not_alt u = true → eq_supported fd a = true → sup fd UValue a → sup fd UValue b →
  gen_ok UValue a → gen_ok UValue b → gen_ok u (EFn "NEQ" [a; b]).
Proof using Hstart Hparams Hext.
  intros Hu Hs Hsa Hsb Ha Hb vt depth lbl g its Ht Hd _ Hg Hroom _.
  destruct (type_NEQ fd a b vt Ht Hs) as (-> & ta & Hta & Htb). rewrite nodes_fn2 in Hroom.
  set (X := fun l => u ≠ UValue ∧ l = lbl).
  destruct (gen_eq_core a b ta (depth + 1) g its X) as (g1 & f1 & E & He & Hl & Hx);
    try done; [by eapply sup_known|lia|eapply room_weaken; [done|lia..]|].
  destruct (not_ok g1 (its ++ f1) X) as [He2 Hx2];
    [apply He|eapply room_seq; [exact He|]; eapply room_weaken; [done|lia..]|].
  exists (emit B.Not g1), (f1 ++ [[W (op_code Op.Not)]]). split.
  { change (generate fd (EFn "NEQ" [a; b]) depth (mode_of u) lbl g)
      with (let! g := generateEq fd (generate fd) [a; b] (depth + 1) g in GoRet (emit B.Not g)).
    by rewrite E. }
  split. { eapply gext_weaken; [exact (gext_seq _ _ _ _ _ _ _ _ _ _ _ He He2)|rewrite nodes_fn2; lia..|done]. }
  split. { rewrite zlength_concat_app. change (zlength (concat [[W (op_code Op.Not)]])) with 1. lia. }
  apply exec_ok_value; [done|]. intros Λ m ws hs t Hlo Hr.
  destruct (loaded_l _ _ _ _ _ _ _ _ _ He2 Hlo) as [Hla Hlb].
  apply ready_fn2 in Hr. rewrite (den0_ret _ (let! r := den_Eq fd den a b in GoRet (negb r))) by done.
  assert ((let! r := (let! r := den_Eq fd den a b in GoRet (negb r)) in GoRet (SBool r)) =
          (let! v := (let! r := den_Eq fd den a b in GoRet (SBool r)) in
           let! b := as_sbool v in GoRet (SBool (negb b)))) as -> by (by destruct (den_Eq fd den a b)).
  eapply exec_bind; [apply (Hx Λ m ws hs t Hla Hr)|]. intros v m' Hv.
  rewrite app_assoc. eapply exec_conseq; [by eapply Hx2|]. intros. by apply vpost_fn2.
Qed.

(** ** The other strict operators *)

(** A binary operator that evaluates both operands and applies [fin]. *)
Lemma gen_strict2 u name a b ta tb k1 (fin : gen) Tx Ty vt R :
  not_alt u = true → gen_ok UValue a → gen_ok UValue b →
  (∀ ty, type_of (EFn name [a; b]) = GoRet ty → ty = vt ∧ type_of a = GoRet ta ∧ type_of b = GoRet tb) →
  il_type ta = Tx → il_type tb = Ty → 0 <= k1 <= 8 →
  (∀ depth lbl g, generate fd (EFn name [a; b]) depth (mode_of u) lbl g =
     (let! g := generate fd a (depth + 1) nmNone "" g in
      let! g := generate fd b (depth + 1) nmNone "" g in fin g)) →
  den0 (EFn name [a; b]) = (let! x := den0 a in let! y := den0 b in R x y) →
  (∀ X g its, ginv g its → room start 8 1 g its →
     ∃ g' frag, fin g = GoRet g' ∧ gext k1 1 X g its g' frag ∧ binop_ok Tx Ty (il_type vt) R g' its frag) →
  gen_ok u (EFn name [a; b]).
Proof using.
  intros Hu Ha Hb Hty HTx HTy Hk Hgen Hden Hfin ty depth lbl g its Ht Hd _ Hg Hroom _.
  destruct (Hty ty Ht) as (-> & Hta & Htb). rewrite nodes_fn2 in Hroom.
  destruct (gen_pair a b ta tb (depth + 1) g its (fun l => u ≠ UValue ∧ l = lbl) k1 fin Tx Ty (il_type vt) R)
    as (g' & frag & E & He & Hl & Hx); try done; [lia|eapply room_weaken; [done|lia..]|auto|].
  exists g', frag. rewrite Hgen. split; [done|].
  split; [eapply gext_weaken; [exact He|rewrite nodes_fn2; lia..|done]|].
  split; [done|]. apply exec_ok_value; [done|]. intros Λ m ws hs t Hlo Hr. rewrite Hden.
  eapply exec_conseq; [apply (Hx Λ m ws hs t Hlo); by eapply ready_fn2|]. intros. by apply vpost_fn2.
Qed.

Lemma gen_land u a b :
  not_alt u = true → gen_ok UValue a → gen_ok UValue b → gen_ok u (EFn "LAND" [a; b]).
Proof using Hstart.
  intros Hu Ha Hb.
  eapply (gen_strict2 u "LAND" a b BOOL BOOL 1 (fun g => GoRet (emit B.And g)) Ty.Bool Ty.Bool BOOL
    (fun x y => let! p := as_sbool x in let! q := as_sbool y in GoRet (SBool (p && q)))); try done.
  - intros ty Ht. by apply type_LAND in Ht as (-> & ? & ?).
  - intros. change (generate fd (EFn "LAND" [a; b]) depth (mode_of u) lbl g)
      with (let! g := generateAll (generate fd) [a; b] (depth + 1) g in GoRet (emit B.And g)).
    simpl. destruct (generate fd a _ _ _ _) as [g1| |]; simpl; [|done..].
    by destruct (generate fd b _ _ _ _).
  - rewrite (den0_ret _ (den_Land den a b)) by done. unfold den_Land.
    rewrite go_bind_assoc. apply go_bind_ext. intros x. rewrite go_bind_assoc. apply go_bind_ext. intros y.
    by destruct (as_sbool x), (as_sbool y).
  - intros X g its Hg Hroom. pose proof (room_words _ _ _ _ Hroom) as [Hp _]; [done|]. pose proof (pos_ge its).
    eexists _, _. split; [done|].
    split; [eapply gext_weaken; [exact (emit_op0 X g its Hg Op.And eq_refl)|lia..|done]|].
    intros Λ m ws hs t wx wy x y (_ & _ & Hat) Hst Hwf Hle _ _ Hx Hy Htx Hty.
    destruct x as [|p| | |], y as [|q| | |]; try done. simpl in Hx, Hy. subst wx wy.
    destruct (i_and i get fn start Λ m (pos its) hs t ltac:(lia) ltac:(lia) ws p q Hat Hst) as (m' & Hs1 & Hs2).
    rewrite pos_app. by eapply bool_step.
Qed.

Lemma gen_match u a b :
  not_alt u = true → gen_ok UValue a → gen_ok UValue b → gen_ok u (EFn "match" [a; b]).
Proof using Hstart Hparams Hext.
  intros Hu Ha Hb.
  eapply (gen_strict2 u "match" a b STRING STRING 2 (fun g => GoRet (emit (B.Call "match") g))
    Ty.String Ty.String BOOL
    (fun x y => let! s := as_sstr x in let! p := as_sstr y in GoRet (SBool (match_fn s p)))); try done.
  - intros ty Ht. by apply type_match in Ht as (-> & ? & ?).
  - rewrite (den0_ret _ (den_match den a b)) by done. unfold den_match.
    rewrite go_bind_assoc. apply go_bind_ext. intros x. rewrite go_bind_assoc. apply go_bind_ext. intros y.
    by destruct (as_sstr x), (as_sstr y).
  - intros X g its Hg Hroom.
    destruct (call2_ok "match" Ty.String match_go g its X) as (id & He & Hb'); [done|by left|done..|].
    eexists _, _. split; [done|]. split; [exact He|].
    intros Λ m ws hs t wx wy x y Hl Hst Hwf Hle Hw Hn Hx Hy Htx Hty.
    destruct x as [s| | | |], y as [s'| | | |]; try done.
    by apply (Hb' Λ m ws hs t wx wy (SStr s) (SStr s')).
Qed.

(** Map access with a computed key. *)
Lemma nlookup_ok X g its :
  ginv g its → room start 8 1 g its →
  ∃ g' frag, GoRet (E := gerr) (emit B.NLookup g) = GoRet g' ∧ gext 1 1 X g its g' frag ∧
    binop_ok Ty.Interface Ty.String Ty.String
      (fun x y => let! k := as_sstr y in let! m := as_smap x in GoRet (SStr (default "" (m !! k)))) g' its frag.
Proof using Hstart.
  intros Hg Hroom. pose proof (room_words _ _ _ _ Hroom) as [Hp _]; [done|]. pose proof (pos_ge its).
  eexists _, _. split; [done|].
  split; [eapply gext_weaken; [exact (emit_op0 X g its Hg Op.NLookup eq_refl)|lia..|done]|].
  intros Λ m ws hs t wx wy x y (_ & _ & Hat) Hst Hwf Hle _ Hn Hx Hy Htx Hty.
  destruct x as [| | | |v], y as [key| | | |]; try done.
  destruct Hx as (h & -> & Hx), Hy as (k & -> & Hy). rewrite pos_app.
  by apply (i_nlookup i get fn start Λ m (pos its) hs t ltac:(lia) ltac:(lia) ws h v k key Hat Hst).
Qed.

Lemma anlookup_ok X g its key :
  ginv g its → room start 8 1 g its →
  ∃ g' frag, GoRet (E := gerr) (emit (B.ANLookup key) g) = GoRet g' ∧ gext 2 1 X g its g' frag ∧
    unop_ok Ty.Interface Ty.String
      (fun x => let! m := as_smap x in GoRet (SStr (default "" (m !! key)))) 0 g' its frag.
Proof using Hstart.
  intros Hg Hroom. pose proof (room_words _ _ _ _ Hroom) as [Hp _]; [done|]. pose proof (pos_ge its).
  destruct (emit_str X g its Hg Op.ANLookup key) as (id & He & Hid); [by left|by eapply room_str|].
  eexists _, _. split; [done|]. split; [exact He|].
  intros Λ m ws hs t wx x Hl Hst Hwf Hle _ _ Hn Hx Htx.
  pose proof (loaded_id _ _ _ _ _ _ _ Hl Hle Hid) as Hid'. destruct Hl as (_ & _ & Hat).
  destruct x as [| | | |v]; try done. destruct Hx as (h & -> & Hx). rewrite pos_app.
  by apply (i_anlookup i get fn start Λ m (pos its) hs t ltac:(lia) ltac:(lia) ws h v id key Hat Hst).
Qed.

Lemma den0_index a b :
  den0 (EFn "INDEX" [a; b]) =
  (let! x := den0 a in let! y := den0 b in
   let! k := as_sstr y in let! m := as_smap x in GoRet (SStr (default "" (m !! k)))).
Proof using.
  change (den0 (EFn "INDEX" [a; b])) with (let! r := den_Index den nmNone a b in force r).
  unfold den_Index. rewrite go_bind_assoc. apply go_bind_ext. intros x.
  rewrite go_bind_assoc. apply go_bind_ext. intros y. by destruct (as_sstr y), (as_smap x).
Qed.

Lemma gen_index a b :
  sup fd UValue b → gen_ok UValue a → gen_ok UValue b → gen_ok UValue (EFn "INDEX" [a; b]).
Proof using Hstart.
  intros Hsb Ha Hb. destruct (is_const b) eqn:Hc.
  - destruct b as [c| | |]; try done. inversion Hsb as [u c' _ Hcok| | | | | | | | | |]; subst u c'.
    intros ty depth lbl g its Ht Hd _ Hg Hroom _. apply type_INDEX in Ht as (-> & Hta & Htb).
    injection Htb as Hct. destruct c as [sv v ct]. simpl in Hct. subst ct.
    destruct v as [[key| | | | | | |]|]; try done. rewrite nodes_fn2 in Hroom. simpl (nodes (EConst _)) in Hroom.
    destruct (gen_then a STRING_MAP (depth + 1) g its (fun l => UValue ≠ UValue ∧ l = lbl) 2
      (fun g => GoRet (emit (B.ANLookup key) g)) Ty.Interface Ty.String
      (fun x => let! m := as_smap x in GoRet (SStr (default "" (m !! key)))) 0)
      as (g' & frag & E & He & Hl & Hx); try done; try lia;
      [eapply room_weaken; [done|lia..]|intros; by apply anlookup_ok|].
    exists g', frag. split; [exact E|].
    split; [eapply gext_weaken; [exact He|simpl; lia..|done]|]. split; [done|].
    intros Λ m ws hs t Hlo [? ? ? ? ? ?]. simpl in *. rewrite den0_index.
    eapply exec_conseq; [apply (Hx Λ m ws hs t Hlo)|]; [split; try done; lia|].
    intros r m' Hv. eapply vpost_weaken; [exact Hv|lia..].
  - eapply (gen_strict2 UValue "INDEX" a b STRING_MAP STRING 1 (fun g => GoRet (emit B.NLookup g))
      Ty.Interface Ty.String STRING _); try done.
    + intros ty Ht. by apply type_INDEX in Ht as (-> & ? & ?).
    + intros. by destruct b.
    + apply den0_index.
    + intros. by apply nlookup_ok.
Qed.

(** The conversion functions [ip] and [timestamp]. *)
Lemma gen_fn1 u name f vt a :
  not_alt u = true → gen_ok UValue a →
  externMap !! name = Some (mkExtern name [Ty.String] Ty.Interface (call_str f)) →
  (∀ ty, type_of (EFn name [a]) = GoRet ty → type_of a = GoRet STRING ∧ ty = vt) →
  il_type vt = Ty.Interface → heap_need fd (EFn name [a]) = heap_need fd a + 1 →
  (∀ depth lbl g, generate fd (EFn name [a]) depth (mode_of u) lbl g =
     (let! g := generate fd a (depth + 1) nmNone "" g in GoRet (emit (B.Call name) g))) →
  den0 (EFn name [a]) =
    (let! x := den0 a in let! s := as_sstr x in let! v := f s in GoRet (SIface v)) →
  gen_ok u (EFn name [a]).
Proof using Hstart Hparams Hext.
  intros Hu Ha Hx Hty HT Hh Hgen Hden ty depth lbl g its Ht Hd _ Hg Hroom _.
  destruct (Hty ty Ht) as (Hta & ->). simpl in Hroom.
  destruct (gen_then a STRING (depth + 1) g its (fun l => u ≠ UValue ∧ l = lbl) 2
    (fun g => GoRet (emit (B.Call name) g)) Ty.String Ty.Interface
    (fun x => let! s := as_sstr x in let! v := f s in GoRet (SIface v)) 1)
    as (g' & frag & E & He & Hl & Hx'); try done; try lia; [eapply room_weaken; [done|lia..]| |].
  { intros g1 its1 Hg1 Hr1.
    destruct (call1_ok name f g1 its1 (fun l => u ≠ UValue ∧ l = lbl) Hx Hg1 Hr1) as (id & ? & ?). eauto. }
  exists g', frag. rewrite Hgen. split; [done|].
  split; [eapply gext_weaken; [exact He|simpl; lia..|done]|].
  split; [done|]. apply exec_ok_value; [done|]. intros Λ m ws hs t Hlo Hr. rewrite Hden, HT, Hh in *.
  destruct Hr as [? ? ? ? ? ?]. simpl (nodes _) in *. simpl (stack_need _) in *.
  eapply exec_conseq; [apply (Hx' Λ m ws hs t Hlo)|]; [split; try done; lia|].
  intros r m' Hv. eapply vpost_weaken; [exact Hv|lia..].
Qed.

Lemma gen_call1 u name a :
  name = "ip" ∨ name = "timestamp" → not_alt u = true → gen_ok UValue a → gen_ok u (EFn name [a]).
Proof using Hstart Hparams Hext.
  intros Hn Hu Ha.
  destruct Hn as [-> | ->].
  - eapply (gen_fn1 u "ip" ip_fn IP_ADDRESS a); try done.
    + intros ty Ht. by apply (type_call1 fd "ip" newIP).
    + unfold CompilerSpec.den0 at 1. cbn [CompilerSpec.den]. unfold den_fn1.
      rewrite go_bind_assoc. apply go_bind_ext. intros x. rewrite go_bind_assoc. apply go_bind_ext. intros s.
      rewrite decide_True by done. by destruct (ip_fn s).
  - eapply (gen_fn1 u "timestamp" timestamp_fn TIMESTAMP a); try done.
    + intros ty Ht. by apply (type_call1 fd "timestamp" newTIMESTAMP).
    + unfold CompilerSpec.den0 at 1. cbn [CompilerSpec.den]. unfold den_fn1.
      rewrite go_bind_assoc. apply go_bind_ext. intros x. rewrite go_bind_assoc. apply go_bind_ext. intros s.
      rewrite decide_False by done. by destruct (timestamp_fn s).
Qed.

(** ** Short-circuit disjunction *)

(** [Jz lr; APushB 1; Jmp le] *)
Definition lor_mid (lr le : string) : list (list item) :=
  [[W (op_code Op.Jz); L lr]; [W (op_code Op.APushB); W (BoolToByteCode true)]; [W (op_code Op.Jmp); L le]].

Lemma lor_mid_len lr le : zlength (concat (lor_mid lr le)) = 6.
Proof using. done. Qed.

Ltac clen :=
  rewrite ?zlength_concat_app, ?lor_mid_len; cbn [concat app]; autorewrite with zlist; lia.

Lemma loaded_mono g g' its frag Λ :
  g_labels g ⊆ g_labels g' → st_le (g_strings g) (g_strings g') →
  loaded g' its frag Λ → loaded g its frag Λ.
Proof using. intros ?? (?&?&?). split_and!; [by etrans|by etrans|done]. Qed.

Lemma loaded_app g its f1 f2 Λ :
  loaded g its (f1 ++ f2) Λ → loaded g its f1 Λ ∧ loaded g (its ++ f1) f2 Λ.
Proof using.
  intros (H1 & H2 & H3). rewrite concat_app, at_app in H3. destruct H3.
  split; (split; [|split]); try done. by rewrite pos_app.
Qed.

Lemma lor_mid_gen X g its lr le :
  ginv g its → lr ∈ dom (g_fixups g) → le ∈ dom (g_fixups g) → X lr → X le → room start 6 0 g its →
  gext 6 0 X g its (emit (b_Jmp le) (emit (B.APushBool true) (emit (b_Jz lr) g))) (lor_mid lr le).
Proof using Hstart.
  intros Hg Hr He HXr HXe [Hw _]. pose proof (zlength_nonneg (concat its)).
  pose proof (emit_jump X g its Hg Op.Jz lr eq_refl Hr HXr ltac:(lia)) as H1.
  set (g1 := emit (b_jump Op.Jz lr) g) in *.
  pose proof (emit_bool X g1 _ (ge_inv _ _ _ _ _ _ _ H1) Op.APushB true eq_refl) as H2.
  pose proof (gext_seq _ _ _ _ _ _ _ _ _ _ _ H1 H2) as H12.
  pose proof (emit_jump X _ _ (ge_inv _ _ _ _ _ _ _ H12) Op.Jmp le eq_refl) as H3.
  exact (gext_seq _ _ _ _ _ _ _ _ _ _ _ H12
    (H3 (ge_fixups _ _ _ _ _ _ _ H12 _ He) HXe ltac:(clen))).
Qed.

Lemma lor_mid_run Λ m its ws hs t h n lr le v ar ae :
  at_ i start Λ (pos its) (concat (lor_mid lr le)) → pos its + 16 < 2 ^ 32 → zlength ws + 3 <= 64 →
  Λ !! lr = Some ar → is_u32 (ar + start) → Λ !! le = Some ae → is_u32 (ae + start) →
  vpost (pos its) ws hs t Ty.Bool h n v m →
  ∃ p, v = SBool p ∧
  ∃ m', steps i get m m' ∧
    if p then vpost (ae + start) ws hs t Ty.Bool h n (SBool true) m'
    else kpost fn (ar + start) ws hs t h n m'.
Proof using Hstart.
  intros Hat Hp Hw Hr Hr' He He' (w & hs' & t' & Hst & Hh1 & Hh2 & Hwf & Hle & Hn & Hx & Htx).
  pose proof (pos_ge its). destruct v as [|p| | |]; try done. simpl in Hx. subst w. exists p. split; [done|].
  unfold lor_mid in Hat. cbn [concat app] in Hat.
  apply (at_app i start Λ (pos its) [_; _] [_; _; _; _]) in Hat as [Hat1 Hat].
  apply (at_app i start Λ _ [_; _] [_; _]) in Hat as [Hat2 Hat3].
  change (zlength [_; _]) with 2 in *.
  destruct (i_jcond i get fn start Λ m (pos its) hs' t' ltac:(lia) ltac:(lia) ws _ false lr ar Hat1 Hr Hr' Hst)
    as (m1 & Hs1 & Hst1).
  destruct p.
  - cbn in Hst1.
    destruct (i_push1 i get fn start Λ m1 (pos its + 2) hs' t' ltac:(lia) ltac:(lia) ws Op.APushB _
      ltac:(auto) Hat2 Hst1) as (m2 & Hs2 & Hst2); [lia|].
    destruct (i_jmp i get fn start Λ m2 (pos its + 2 + 2) hs' t' ltac:(lia) ltac:(lia) _ le ae Hat3 He He' Hst2)
      as (m3 & Hs3 & Hst3).
    exists m3. split; [|eexists _, hs', t'; by split_and!].
    eapply rtc_l; [exact Hs1|]. eapply rtc_l; [exact Hs2|]. by apply rtc_once.
  - cbn in Hst1. exists m1. split; [by apply rtc_once|]. exists hs', t'. by split_and!.
Qed.

(** The common part of both forms of [LOR]: the left operand and the test. *)
Lemma den0_lor a b :
  den0 (EFn "LOR" [a; b]) =
  (let! x := den0 a in let! p := as_sbool x in
   if p then GoRet (SBool true) else let! y := den0 b in let! q := as_sbool y in GoRet (SBool q)).
Proof using.
  rewrite (den0_ret _ (den_Lor den a b)) by done. unfold den_Lor.
  rewrite go_bind_assoc. apply go_bind_ext. intros x. rewrite go_bind_assoc. apply go_bind_ext. intros [].
  - done.
  - by rewrite go_bind_assoc.
Qed.

Lemma has_bool v : has_type Ty.Bool v → (let! q := as_sbool v in GoRet (SBool q)) = GoRet v.
Proof using. by destruct v. Qed.

Lemma exec_bool_tail m e pc ws hs t h n :
  exec_spec m (den0 e) (vpost pc ws hs t Ty.Bool h n) →
  exec_spec m (let! y := den0 e in let! q := as_sbool y in GoRet (SBool q)) (vpost pc ws hs t Ty.Bool h n).
Proof using.
  intros Hx. eapply exec_bind; [exact Hx|]. intros y m' Hy.
  assert (has_type Ty.Bool y) as Hty by (destruct Hy as (?&?&?&?); by destruct_and!).
  rewrite has_bool by done. by apply exec_ret.
Qed.

(** The generated code of a disjunction below the top level. *)
Lemma lor_gen a b depth g its Y :
  gen_ok UValue a → gen_ok UValue b → type_of a = GoRet BOOL → type_of b = GoRet BOOL →
  0 < depth → ginv g its → room start (8 * (nodes a + nodes b + 1)) (nodes a + nodes b + 1) g its →
  ∃ g1 g6 g7 f1 f2 lr le,
    generateLor (generate fd) [a; b] depth g = GoRet g7 ∧
    gext (8 * nodes a + 6 + 8 * nodes b) (nodes a + nodes b) Y g its g7 ((f1 ++ lor_mid lr le) ++ f2) ∧
    exec_ok UValue a Ty.Bool "" g1 its f1 ∧ exec_ok UValue b Ty.Bool "" g6 (its ++ f1 ++ lor_mid lr le) f2 ∧
    zlength (concat f1) <= 8 * nodes a ∧ zlength (concat f2) <= 8 * nodes b ∧ 0 < zlength (concat f1) ∧
    (g_labels g1 ⊆ g_labels g7 ∧ st_le (g_strings g1) (g_strings g7)) ∧
    (g_labels g6 ⊆ g_labels g7 ∧ st_le (g_strings g6) (g_strings g7)) ∧
    g_labels g7 !! lr = Some (zlength (concat (its ++ f1 ++ lor_mid lr le))) ∧
    g_labels g7 !! le = Some (zlength (concat (its ++ (f1 ++ lor_mid lr le) ++ f2))).
Proof using Hstart Hparams Hext Hbag.
  intros Ha Hb Hta Htb Hd Hg Hroom. pose proof (nodes_pos a). pose proof (nodes_pos b).
  pose proof (zlength_nonneg (concat its)). unfold generateLor.
  destruct (Z.eqb_spec depth 0) as [|_]; [lia|].
  destruct (Ha BOOL (depth + 1) "" g its Hta ltac:(lia) ltac:(lia) Hg) as (g1 & f1 & E1 & He1 & Hl1 & Hx1);
    [eapply room_weaken; [done|lia..]|done|].
  cbn [mode_of] in E1. rewrite E1. cbn [go_bind].
  destruct (gext_alloc _ _ _ _ _ _ _ He1) as (lr & g2 & -> & He2 & Hlr2 & Hf2 & Hfr2 & Hs2 & Hlab2).
  destruct (gext_alloc _ _ _ _ _ _ _ He2) as (le & g3 & -> & He3 & Hle3 & Hf3 & Hfr3 & Hs3 & Hlab3).
  assert (lr ≠ le) as Hne by set_solver.
  set (X := fun l => l = lr ∨ (l = le ∨ Y l)).
  assert (gext (8 * nodes a) (nodes a) X g its g3 f1) as He3'.
  { eapply gext_weaken; [exact He3|lia..|]. by intros l [? _]. }
  pose proof (ge_inv _ _ _ _ _ _ _ He3) as Hi3.
  assert (lr ∈ dom (g_fixups g3)) as Hlr3 by set_solver.
  pose proof (lor_mid_gen X g3 _ lr le Hi3 Hlr3 Hle3 ltac:(by left) ltac:(right; by left)
    ltac:(eapply room_seq; [exact He3'|]; eapply room_weaken; [done|lia..])) as He4.
  pose proof (gext_seq _ _ _ _ _ _ _ _ _ _ _ He3' He4) as He14.
  set (g4 := emit (b_Jmp le) _) in *.
  assert (zlength (concat (its ++ f1 ++ lor_mid lr le)) = zlength (concat its) + zlength (concat f1) + 6) as Hlen4
    by clen.
  destruct (gext_set _ _ (fun l => l = le ∨ Y l) _ _ _ _ lr He14)
    as (g5 & -> & He5 & Hlab5 & Hlr5 & Hf5 & Hs5).
  { eapply gext_fresh; [exact He1|]. done. }
  { by apply (ge_fixups _ _ _ _ _ _ _ He4). }
  { destruct Hroom, He1. lia. }
  cbn [go_bind].
  destruct (Hb BOOL (depth + 1) "" g5 (its ++ f1 ++ lor_mid lr le) Htb ltac:(lia) ltac:(lia) (ge_inv _ _ _ _ _ _ _ He5))
    as (g6 & f2 & E6 & He6 & Hl6 & Hx6).
  { eapply room_seq; [exact He5|]. eapply room_weaken; [done|lia..]. } { done. }
  cbn [mode_of] in E6. rewrite E6. cbn [go_bind].
  assert (gext (8 * nodes b) (nodes b) (fun l => l = le ∨ Y l) g5 (its ++ f1 ++ lor_mid lr le) g6 f2) as He6'.
  { eapply gext_weaken; [exact He6|lia..|]. by intros l [? _]. }
  pose proof (gext_seq _ _ _ _ _ _ _ _ _ _ _ He5 He6') as He16.
  assert (zlength (concat (its ++ (f1 ++ lor_mid lr le) ++ f2)) =
    zlength (concat its) + zlength (concat f1) + 6 + zlength (concat f2)) as Hlen6 by clen.
  destruct (gext_set _ _ Y _ _ _ _ le He16) as (g7 & -> & He7 & Hlab7 & Hle7 & _ & Hs7).
  { eapply gext_fresh; [exact He2|]. done. }
  { apply (ge_fixups _ _ _ _ _ _ _ He6'). assert (le ∈ dom (g_fixups g4)) by (by apply (ge_fixups _ _ _ _ _ _ _ He4)).
    set_solver. }
  { destruct Hroom, He1, He6'. lia. }
  assert (st_le (g_strings g3) (g_strings g7) ∧ g_labels g3 ⊆ g_labels g7) as [Hs37 Hl37].
  { rewrite Hs7. split; [|etrans; [apply He4|etrans; [exact Hlab5|etrans; [apply He6'|done]]]].
    etrans; [apply He4|]. rewrite <- Hs5. apply He6'. }
  exists g1, g6, g7, f1, f2, lr, le. destruct He1, He6'. split_and!; try done.
  - eapply gext_weaken; [exact He7|lia..|done].
  - by rewrite <- Hlab2, <- Hlab3.
  - by rewrite <- Hs2, <- Hs3.
  - by rewrite Hs7.
  - eapply lookup_weaken; [exact Hlr5|]. by etrans.
Qed.

Lemma lor_exec a b its f1 f2 lr le g1 g6 g7 Λ m ws hs t :
  exec_ok UValue a Ty.Bool "" g1 its f1 → exec_ok UValue b Ty.Bool "" g6 (its ++ f1 ++ lor_mid lr le) f2 →
  g_labels g1 ⊆ g_labels g7 → st_le (g_strings g1) (g_strings g7) →
  g_labels g6 ⊆ g_labels g7 → st_le (g_strings g6) (g_strings g7) →
  g_labels g7 !! lr = Some (zlength (concat (its ++ f1 ++ lor_mid lr le))) →
  g_labels g7 !! le = Some (zlength (concat (its ++ (f1 ++ lor_mid lr le) ++ f2))) →
  start + zlength (concat (its ++ (f1 ++ lor_mid lr le) ++ f2)) + 16 < 2 ^ 32 →
  loaded g7 its ((f1 ++ lor_mid lr le) ++ f2) Λ →
  ready m (pos its) ws hs t (Z.max (stack_need a) (2 + stack_need b)) (heap_need fd a + heap_need fd b)
    (nodes a + nodes b + 1) →
  exec_spec m (den0 (EFn "LOR" [a; b]))
    (vpost (pos (its ++ (f1 ++ lor_mid lr le) ++ f2)) ws hs t Ty.Bool (heap_need fd a + heap_need fd b)
       (nodes a + nodes b + 1)).
Proof using Hstart Hparams Hext Hbag.
  intros Hx1 Hx6 Hl17 Hs17 Hl67 Hs67 Hlr Hle Hlen Hlo [Hst Hwf HleS Hw Hh Hn].
  pose proof (stack_need_ge b). pose proof (heap_need_nonneg a). pose proof (heap_need_nonneg b).
  pose proof (nodes_pos b). pose proof (zlength_nonneg (concat f2)). pose proof (zlength_nonneg (concat f1)).
  pose proof (zlength_nonneg (concat its)).
  destruct (loaded_app _ _ _ _ _ Hlo) as [Hlo1 Hlo2]. destruct (loaded_app _ _ _ _ _ Hlo1) as [Hlo11 Hlo12].
  pose proof Hlo as (HΛ & _ & _). destruct Hlo12 as (_ & _ & Hat).
  pose proof (lookup_weaken _ _ _ _ Hlr HΛ) as Hlr'. pose proof (lookup_weaken _ _ _ _ Hle HΛ) as Hle'.
  rewrite den0_lor. eapply exec_bind.
  { eapply (Hx1 Λ m ws hs t); [by eapply loaded_mono|split; try done; lia]. }
  intros x m1 Hv1.
  rewrite !zlength_concat_app, !lor_mid_len in Hlr'. rewrite !zlength_concat_app, !lor_mid_len in Hle'.
  rewrite !zlength_concat_app, !lor_mid_len in Hlen.
  destruct (lor_mid_run Λ m1 (its ++ f1) ws hs t _ _ lr le x _ _ Hat ltac:(rewrite pos_app; unfold pos; lia)
    ltac:(lia) Hlr' ltac:(width) Hle' ltac:(width) Hv1) as (p & -> & m2 & Hsteps & Hm2).
  cbn [as_sbool go_bind]. eapply exec_steps; [exact Hsteps|]. destruct p.
  - apply exec_ret. eapply (vpost_weaken _ _ _ _ _ _ _ (heap_need fd a) (nodes a)); [|lia..].
    rewrite !pos_app, !zlength_concat_app, !lor_mid_len. unfold pos.
    eapply (eq_ind _ (fun pc => vpost pc _ _ _ _ _ _ _ _)); [exact Hm2|]. lia.
  - destruct Hm2 as (hs2 & t2 & Hst2 & Hp2 & Hh2 & Hwf2 & Hle2 & Hn2). apply exec_bool_tail.
    eapply exec_conseq.
    { eapply (Hx6 Λ m2 ws hs2 t2); [by eapply loaded_mono|].
      split; try done; [|by etrans|lia..]. rewrite !pos_app, !zlength_concat_app, !lor_mid_len. unfold pos.
      eapply (eq_ind _ (fun pc => st fn _ pc _ _ _)); [exact Hst2|]. lia. }
    intros v m3 Hv. rewrite <- (app_assoc its) in Hv.
    eapply vpost_weaken; [exact (vpost_trans _ _ _ _ _ _ _ _ _ _ _ _ _ Hp2 Hh2 Hle2 Hn2 Hv)|lia..].
Qed.

Lemma gen_lor u a b :
  not_alt u = true → gen_ok UValue a → gen_ok UValue b → gen_ok u (EFn "LOR" [a; b]).
Proof using Hstart Hparams Hext Hbag.
  intros Hu Ha Hb vt depth lbl g its Ht _ Hd Hg Hroom _.
  destruct Hd as [Hd|]; [|done]. apply type_LOR in Ht as (-> & Hta & Htb). rewrite nodes_fn2 in *.
  destruct (lor_gen a b depth g its (fun l => u ≠ UValue ∧ l = lbl) Ha Hb Hta Htb Hd Hg Hroom)
    as (g1 & g6 & g7 & f1 & f2 & lr & le & E & He & Hx1 & Hx6 & Hk1 & Hk2 & Hp1 & [] & [] & ? & ?).
  eexists g7, _. split; [exact E|]. split; [eapply gext_weaken; [exact He|lia..|done]|].
  pose proof (zlength_nonneg (concat f2)).
  split. { rewrite !zlength_concat_app, lor_mid_len. lia. }
  apply exec_ok_value; [done|]. intros Λ m ws hs t Hlo Hr. apply ready_fn2 in Hr.
  eapply exec_conseq; [eapply lor_exec; eauto|].
  - destruct Hroom. rewrite !zlength_concat_app, lor_mid_len. lia.
  - intros. by apply vpost_fn2.
Qed.

(** ** Alternatives *)

Lemma or_gen ub a b vt depth lbl lblb g its (Y : string → Prop) :
  gen_ok UAlt a → gen_ok ub b → type_of a = GoRet vt → type_of b = GoRet vt → 0 < depth →
  ginv g its → room start (8 * nodes a + 8 * nodes b) (nodes a + nodes b) g its →
  lbl ∈ dom (g_fixups g) → (ub ≠ UValue → lblb = lbl) → Y lbl →
  ∃ g1 f1 g2 f2,
    generate fd a depth nmJmpOnValue lbl g = GoRet g1 ∧
    generate fd b depth (mode_of ub) lblb g1 = GoRet g2 ∧
    gext (8 * nodes a + 8 * nodes b) (nodes a + nodes b) Y g its g2 (f1 ++ f2) ∧
    0 < zlength (concat f1) ∧ exec_ok UAlt a (il_type vt) lbl g1 its f1 ∧
    exec_ok ub b (il_type vt) lblb g2 (its ++ f1) f2 ∧
    gext (8 * nodes b) (nodes b) Y g1 (its ++ f1) g2 f2.
Proof using.
  intros Ha Hb Hta Htb Hd Hg Hroom Hlbl Hlb HY. pose proof (nodes_pos a). pose proof (nodes_pos b).
  destruct (Ha vt depth lbl g its Hta ltac:(lia) ltac:(auto) Hg) as (g1 & f1 & E1 & He1 & Hl1 & Hx1);
    [eapply room_weaken; [done|lia..]|done|].
  assert (gext (8 * nodes a) (nodes a) Y g its g1 f1) as He1'.
  { eapply gext_weaken; [exact He1|lia..|]. by intros l [_ ->]. }
  destruct (Hb vt depth lblb g1 (its ++ f1) Htb ltac:(lia) ltac:(auto) (ge_inv _ _ _ _ _ _ _ He1))
    as (g2 & f2 & E2 & He2 & Hl2 & Hx2); [by eapply room_seq| |].
  { intros Hu. rewrite Hlb by done. by apply (ge_fixups _ _ _ _ _ _ _ He1). }
  assert (gext (8 * nodes b) (nodes b) Y g1 (its ++ f1) g2 f2) as He2'.
  { eapply gext_weaken; [exact He2|lia..|]. intros l [Hu ->]. by rewrite Hlb. }
  exists g1, f1, g2, f2. split_and!; try done. by eapply gext_seq.
Qed.

Lemma den0_or a b :
  den0 (EFn "OR" [a; b]) =
  (let! x := den nmJmpOnValue a in match x with Some v => GoRet v | None => den0 b end).
Proof using.
  change (den0 (EFn "OR" [a; b])) with (let! r := den_Or den nmNone a b in force r).
  unfold den_Or. rewrite go_bind_assoc. apply go_bind_ext. by intros [].
Qed.

(** The first alternative jumps to the end or falls through to the second. *)
Lemma or_exec a b T lbl g1 g2 its f1 f2 Λ m ws hs t :
  exec_ok UAlt a T lbl g1 its f1 →
  g_labels g1 ⊆ g_labels g2 → st_le (g_strings g1) (g_strings g2) →
  (∀ m ws hs t, ready m (pos (its ++ f1)) ws hs t (stack_need b) (heap_need fd b) (nodes b) →
    exec_spec m (den0 b) (vpost (pos ((its ++ f1) ++ f2)) ws hs t T (heap_need fd b) (nodes b))) →
  loaded g2 its (f1 ++ f2) Λ → Λ !! lbl = Some (zlength (concat (its ++ f1 ++ f2))) →
  start + zlength (concat (its ++ f1 ++ f2)) < 2 ^ 32 →
  ready m (pos its) ws hs t (Z.max (stack_need a) (2 + stack_need b)) (heap_need fd a + heap_need fd b)
    (nodes a + nodes b + 1) →
  exec_spec m (den0 (EFn "OR" [a; b]))
    (vpost (pos (its ++ f1 ++ f2)) ws hs t T (heap_need fd a + heap_need fd b) (nodes a + nodes b + 1)).
Proof using Hstart.
  intros Hx1 Hl12 Hs12 Hx2 Hlo Hlbl Hlen [Hst Hwf Hle Hw Hh Hn].
  pose proof (nodes_pos b). pose proof (heap_need_nonneg b). pose proof (heap_need_nonneg a).
  destruct (loaded_app _ _ _ _ _ Hlo) as [Hlo1 _]. rewrite den0_or.
  assert (is_u32 (zlength (concat (its ++ f1 ++ f2)) + start)) as Hu32.
  { pose proof (zlength_nonneg (concat (its ++ f1 ++ f2))). width. }
  eapply exec_bind.
  { eapply (Hx1 Λ m ws hs t); [by eapply loaded_mono|split; try done; lia|exact Hlbl|done]. }
  intros [v|] m1 Hv; cbn [apost] in Hv.
  - apply exec_ret. eapply (vpost_weaken _ _ _ _ _ _ _ (heap_need fd a) (nodes a)); [|lia..].
    unfold pos. by rewrite Z.add_comm.
  - destruct Hv as (hs2 & t2 & Hst2 & Hp2 & Hh2 & Hwf2 & Hle2 & Hn2).
    eapply exec_conseq; [eapply (Hx2 m1 ws hs2 t2); split; try done; [by etrans|lia..]|].
    intros v m2 Hv. rewrite <- app_assoc in Hv.
    eapply vpost_weaken; [exact (vpost_trans _ _ _ _ _ _ _ _ _ _ _ _ _ Hp2 Hh2 Hle2 Hn2 Hv)|lia..].
Qed.

Lemma gen_or_last a b :
  sup fd UAlt a → gen_ok UAlt a → gen_ok ULast b → gen_ok ULast (EFn "OR" [a; b]).
Proof using Hstart.
  intros Hsa Ha Hb vt depth lbl g its Ht Hd _ Hg Hroom Hlbl.
  destruct (type_OR_sup fd a b vt Hsa Ht) as [Hta Htb]. rewrite nodes_fn2 in *.
  destruct (or_gen ULast a b vt (depth + 1) lbl lbl g its (fun l => ULast ≠ UValue ∧ l = lbl))
    as (g1 & f1 & g2 & f2 & E1 & E2 & He & Hl & Hx1 & Hx2 & He2); try done;
    [lia|eapply room_weaken; [done|lia..]|by apply Hlbl|].
  exists g2, (f1 ++ f2). split.
  { change (generate fd (EFn "OR" [a; b]) depth (mode_of ULast) lbl g) with
      (let! g := generate fd a (depth + 1) nmJmpOnValue lbl g in generate fd b (depth + 1) nmJmpOnValue lbl g).
    by rewrite E1. }
  pose proof (zlength_nonneg (concat f2)).
  split; [eapply gext_weaken; [exact He|lia..|done]|]. split; [rewrite zlength_concat_app; lia|].
  intros Λ m ws hs t Hlo Hr Hend. apply ready_fn2 in Hr.
  eapply exec_conseq; [eapply (or_exec a b _ lbl g1 g2 its f1 f2 Λ); try done; try apply He2|].
  - intros. destruct (loaded_app _ _ _ _ _ Hlo) as [_ Hlo2].
    eapply (Hx2 Λ); [done|done|]. by rewrite <- app_assoc.
  - destruct Hroom, He. rewrite zlength_concat_app. lia.
  - intros. by apply vpost_fn2.
Qed.

Lemma gen_or_alt a b :
  sup fd UAlt a → gen_ok UAlt a → gen_ok UAlt b → gen_ok UAlt (EFn "OR" [a; b]).
Proof using Hstart.
  intros Hsa Ha Hb vt depth lbl g its Ht Hd _ Hg Hroom Hlbl.
  destruct (type_OR_sup fd a b vt Hsa Ht) as [Hta Htb]. rewrite nodes_fn2 in *.
  destruct (or_gen UAlt a b vt (depth + 1) lbl lbl g its (fun l => UAlt ≠ UValue ∧ l = lbl))
    as (g1 & f1 & g2 & f2 & E1 & E2 & He & Hl & Hx1 & Hx2 & He2); try done;
    [lia|eapply room_weaken; [done|lia..]|by apply Hlbl|].
  exists g2, (f1 ++ f2). split.
  { change (generate fd (EFn "OR" [a; b]) depth (mode_of UAlt) lbl g) with
      (let! g := generate fd a (depth + 1) nmJmpOnValue lbl g in generate fd b (depth + 1) nmJmpOnValue lbl g).
    by rewrite E1. }
  pose proof (zlength_nonneg (concat f2)).
  split; [eapply gext_weaken; [exact He|lia..|done]|]. split; [rewrite zlength_concat_app; lia|].
  intros Λ m ws hs t Hlo Hr l Hl' Hu32. apply ready_fn2 in Hr. destruct Hr as [Hst Hwf Hle Hw Hh Hn].
  pose proof (nodes_pos b). pose proof (heap_need_nonneg b). pose proof (heap_need_nonneg a).
  destruct (loaded_l _ _ _ _ _ _ _ _ _ He2 Hlo) as [Hlo1 Hlo2].
  change (den nmJmpOnValue (EFn "OR" [a; b])) with (den_Or den nmJmpOnValue a b). unfold den_Or.
  eapply exec_bind; [eapply (Hx1 Λ m ws hs t); [done|split; try done; lia|done..]|].
  intros [v|] m1 Hv; cbn [apost] in Hv.
  - apply exec_ret. cbn [apost]. apply vpost_fn2. eapply vpost_weaken; [exact Hv|lia..].
  - destruct Hv as (hs2 & t2 & Hst2 & Hp2 & Hh2 & Hwf2 & Hle2 & Hn2).
    eapply exec_conseq; [eapply (Hx2 Λ m1 ws hs2 t2); [done|split; try done; [by etrans|lia..]|done..]|].
    intros [v|] m2 Hv; cbn [apost] in *.
    + apply vpost_fn2.
      eapply vpost_weaken; [exact (vpost_trans _ _ _ _ _ _ _ _ _ _ _ _ _ Hp2 Hh2 Hle2 Hn2 Hv)|lia..].
    + destruct Hv as (hs3 & t3 & ?). destruct_and!. exists hs3, t3.
      rewrite app_assoc. rewrite nodes_fn2. cbn [heap_need foldr].
      destruct (decide ("OR" = "ip" ∨ "OR" = "timestamp")) as [[?|?]|_]; try done.
      split_and!; try done; try (by etrans); lia.
Qed.

Lemma gen_or_value ub a b :
  ub = (if is_or b then ULast else UValue) →
  sup fd UAlt a → gen_ok UAlt a → gen_ok ub b → gen_ok UValue (EFn "OR" [a; b]).
Proof using Hstart.
  intros Hub Hsa Ha Hb vt depth lbl g its Ht Hd _ Hg Hroom _.
  destruct (type_OR_sup fd a b vt Hsa Ht) as [Hta Htb]. rewrite nodes_fn2 in *.
  set (Y := fun l => UValue ≠ UValue ∧ l = lbl).
  destruct (gext_alloc _ _ _ _ _ _ _ (gext_refl Y g its Hg)) as (lEnd & g0 & E0 & He0 & Hl0 & _ & Hf0 & Hs0 & Hlab0).
  pose proof (ge_inv _ _ _ _ _ _ _ He0) as Hi0. rewrite app_nil_r in Hi0.
  destruct (or_gen ub a b vt (depth + 1) lEnd (if is_or b then lEnd else "") g0 its (fun l => l = lEnd ∨ Y l))
    as (g1 & f1 & g2 & f2 & E1 & E2 & He & Hl & Hx1 & Hx2 & He2); try done;
    [lia| |by subst ub; destruct (is_or b)|by left|].
  { destruct Hroom. split; [lia|rewrite Hs0; lia]. }
  assert (gext (8 * nodes a + 8 * nodes b) (nodes a + nodes b) (fun l => l = lEnd ∨ Y l) g its g2 (f1 ++ f2)) as He'.
  { eapply (gext_seq 0 0 _ _ _ _ _ g0 [] g2 (f1 ++ f2)).
    - eapply gext_weaken; [exact He0|lia..|auto].
    - by rewrite app_nil_r. }
  pose proof (zlength_nonneg (concat f2)). pose proof (zlength_nonneg (concat its)).
  pose proof (ge_len _ _ _ _ _ _ _ He) as Hlen. rewrite zlength_concat_app in Hlen.
  destruct (gext_set _ _ Y _ _ _ _ lEnd He') as (g3 & E3 & He3 & Hlab3 & Hl3 & _ & Hs3).
  { done. } { by apply (ge_fixups _ _ _ _ _ _ _ He). }
  { destruct Hroom. rewrite !zlength_concat_app. lia. }
  exists g3, (f1 ++ f2). split.
  { change (generate fd (EFn "OR" [a; b]) depth (mode_of UValue) lbl g) with
      (let '(lEnd, g) := genAllocateLabel g in
       let! g := generate fd a (depth + 1) nmJmpOnValue lEnd g in
       let! g := (if is_or b then generate fd b (depth + 1) nmJmpOnValue lEnd g
                  else generate fd b (depth + 1) nmNone "" g) in
       genSetLabelPos lEnd g).
    rewrite E0, E1. cbn [go_bind]. subst ub. destruct (is_or b); cbn [mode_of] in E2; by rewrite E2. }
  split; [eapply gext_weaken; [exact He3|lia..|done]|]. split; [rewrite zlength_concat_app; lia|].
  intros Λ m ws hs t Hlo Hr. apply ready_fn2 in Hr. pose proof Hlo as (HΛ & _ & _).
  pose proof (lookup_weaken _ _ _ _ Hl3 HΛ) as Hend.
  eapply exec_conseq; [eapply (or_exec a b _ lEnd g1 g3 its f1 f2 Λ); try done|].
  - etrans; [apply He2|done].
  - rewrite Hs3. apply He2.
  - intros m' ws' hs' t' Hr'. destruct (loaded_app _ _ _ _ _ Hlo) as [_ Hlo2].
    assert (loaded g2 (its ++ f1) f2 Λ) as Hlo2' by (eapply loaded_mono; [exact Hlab3|by rewrite Hs3|exact Hlo2]).
    specialize (Hx2 Λ m' ws' hs' t' Hlo2' Hr'). subst ub. destruct (is_or b); [|done].
    apply Hx2. by rewrite <- app_assoc.
  - destruct Hroom. rewrite !zlength_concat_app. lia.
  - intros. by apply vpost_fn2.
Qed.

(** ** Map access as an alternative *)

(** The code after the map: [APushS key; TLookup; Jnz lbl]. *)
Definition index_tail (id : Z) (lbl : string) : list (list item) :=
  [[W (op_code Op.APushS); W id]; [W (op_code Op.TLookup)]; [W (op_code Op.Jnz); L lbl]].

Lemma index_tail_gen X g its key lbl :
  ginv g its → lbl ∈ dom (g_fixups g) → X lbl → room start 8 1 g its →
  let g' := emit (b_Jnz lbl) (emit B.TLookup (emit (B.APushStr key) g)) in
  ∃ id, gext 5 1 X g its g' (index_tail id lbl) ∧ stringToID (g_strings g') !! key = Some id.
Proof using Hstart.
  intros Hg Hl HX Hroom. pose proof (zlength_nonneg (concat its)).
  destruct (emit_str X g its Hg Op.APushS key) as (id & H1 & Hid); [by left|by eapply room_str|].
  pose proof (emit_op0 X _ _ (ge_inv _ _ _ _ _ _ _ H1) Op.TLookup eq_refl) as H2.
  pose proof (gext_seq _ _ _ _ _ _ _ _ _ _ _ H1 H2) as H12.
  pose proof (emit_jump X _ _ (ge_inv _ _ _ _ _ _ _ H12) Op.Jnz lbl eq_refl
    (ge_fixups _ _ _ _ _ _ _ H12 _ Hl) HX ltac:(destruct Hroom; clen)) as H3.
  exists id. split; [exact (gext_seq _ _ _ _ _ _ _ _ _ _ _ H12 H3)|].
  eapply st_le_lookup; [exact (ge_str _ _ _ _ _ _ _ H3)|]. eapply st_le_lookup; [exact (ge_str _ _ _ _ _ _ _ H2)|done].
Qed.

Lemma index_tail_run Λ m its id key lbl a ws hs t h n v :
  at_ i start Λ (pos its) (concat (index_tail id lbl)) → pos its + 16 < 2 ^ 32 → zlength ws + 3 <= 64 →
  Λ !! lbl = Some a → is_u32 (a + start) → stringToID t !! key = Some id → nextID t + n + 1 < 2 ^ 32 →
  vpost (pos its) ws hs t Ty.Interface h n v m →
  exec_spec m (let! mp := as_smap v in GoRet (SStr <$> mp !! key))
    (apost fn hs t (a + start) (pos its + 5) ws Ty.String h (n + 1)).
Proof using Hstart.
  intros Hat Hp Hw Ha Ha' Hid Hn (w & hs1 & t1 & Hst & Hh1 & Hh2 & Hwf & Hle & Hn1 & Hx & Htx).
  pose proof (pos_ge its). destruct v as [| | | |v]; try done. destruct Hx as (k & -> & Hk).
  unfold index_tail in Hat. cbn [concat app] in Hat.
  apply (at_app i start Λ (pos its) [_; _] [_; _; _]) in Hat as [Hat1 Hat2].
  change (zlength [_; _]) with 2 in *.
  destruct (i_push1 i get fn start Λ m (pos its) hs1 t1 ltac:(lia) ltac:(lia) (ws ++ [k]) Op.APushS id
    ltac:(auto) Hat1 Hst) as (m1 & Hs1 & Hst1); [autorewrite with zlist; lia|].
  eapply exec_one; [exact Hs1|]. eapply exec_conseq.
  - eapply (i_tlookup i get fn start Λ m1 (pos its + 2) hs1 t1 ltac:(lia) ltac:(lia) ws k v id key lbl a Hat2);
      try done; [|lia]. by eapply st_le_lookup.
  - intros [s|] m2; cbn [apost].
    + intros Hv. replace h with (h + 0) by lia. by eapply vpost_trans.
    + intros (hs2 & t2 & ?). destruct_and!. exists hs2, t2. replace (pos its + 5) with (pos its + 2 + 3) by lia.
      split_and!; try done; try (by etrans); lia.
Qed.

Definition jmp_to (l : string) : list (list item) := [[W (op_code Op.Jmp); L l]].

Lemma index_alt_gen a key sv depth lbl g its :
  gen_ok UAlt a → type_of a = GoRet STRING_MAP → 0 <= depth → ginv g its →
  room start (8 * nodes a + 16) (nodes a + 2) g its → lbl ∈ dom (g_fixups g) →
  ∃ g1 g2 f1 lT lEnd id,
    let frag := ((f1 ++ jmp_to lEnd) ++ index_tail id lbl) in
    generateIndexJmp (generate fd) [a; EConst (mkConst sv (Some (VStr key)) STRING)] depth lbl g = GoRet g2 ∧
    gext (8 * nodes a + 7) (nodes a + 1) (fun l => UAlt ≠ UValue ∧ l = lbl) g its g2 frag ∧
    exec_ok UAlt a Ty.Interface lT g1 its f1 ∧ 0 < zlength (concat f1) ∧
    g_labels g1 ⊆ g_labels g2 ∧ st_le (g_strings g1) (g_strings g2) ∧
    stringToID (g_strings g2) !! key = Some id ∧
    g_labels g2 !! lT = Some (zlength (concat (its ++ f1 ++ jmp_to lEnd))) ∧
    g_labels g2 !! lEnd = Some (zlength (concat (its ++ frag))).
Proof using Hstart Hparams Hext Hbag.
  intros Ha Hta Hd Hg Hroom Hlbl. pose proof (nodes_pos a). pose proof (zlength_nonneg (concat its)).
  set (Y := fun l => UAlt ≠ UValue ∧ l = lbl).
  destruct (gext_alloc _ _ _ _ _ _ _ (gext_refl Y g its Hg)) as (lEnd & ga & Ea & Hea & Hla & Hfa & Hna & Hsa & Hlaba).
  destruct (gext_alloc _ _ _ _ _ _ _ Hea) as (lT & gb & Eb & Heb & Hlb & Hfb & Hnb & Hsb & Hlabb).
  assert (lT ≠ lEnd) as Hne by set_solver.
  set (X := fun l => l = lT ∨ (l = lEnd ∨ Y l)).
  pose proof (ge_inv _ _ _ _ _ _ _ Heb) as Hib. rewrite app_nil_r in Hib.
  assert (room start (8 * nodes a + 16) (nodes a + 2) gb its) as Hroomb.
  { destruct Hroom. split; [done|]. by rewrite Hsb, Hsa. }
  destruct (Ha STRING_MAP (depth + 1) lT gb its Hta ltac:(lia) ltac:(lia) Hib)
    as (g1 & f1 & E1 & He1 & Hl1 & Hx1); [eapply room_weaken; [done|lia..]|done|].
  assert (gext (8 * nodes a) (nodes a) X g its g1 f1) as He01.
  { eapply (gext_seq 0 0 (8 * nodes a) (nodes a) _ _ _ gb [] g1 f1).
    - eapply gext_weaken; [exact Heb|lia..|]. by intros l; right; right.
    - rewrite app_nil_r. eapply gext_weaken; [exact He1|lia..|]. intros l [_ ->]. by left. }
  assert (lEnd ∈ dom (g_fixups g1)) as HlEnd1 by (apply (ge_fixups _ _ _ _ _ _ _ He1); set_solver).
  pose proof (emit_jump X g1 _ (ge_inv _ _ _ _ _ _ _ He1) Op.Jmp lEnd eq_refl HlEnd1 ltac:(right; by left)
    ltac:(destruct Hroom, He1; clen)) as He2.
  set (g2 := emit (b_jump Op.Jmp lEnd) g1) in *.
  pose proof (gext_seq _ _ _ _ _ _ _ _ _ _ _ He01 He2) as He02.
  assert (zlength (concat (its ++ f1 ++ [[W (op_code Op.Jmp); L lEnd]])) = zlength (concat its) + zlength (concat f1) + 2) as Hlen2 by clen.
  destruct (gext_set _ _ (fun l => l = lEnd ∨ Y l) _ _ _ _ lT He02)
    as (g3 & E3 & He3 & Hlab3 & Hl3 & Hf3 & Hs3).
  { eapply gext_fresh; [exact Hea|done]. }
  { apply (ge_fixups _ _ _ _ _ _ _ He2), (ge_fixups _ _ _ _ _ _ _ He1), Hlb. }
  { destruct Hroom, He1. lia. }
  assert (lbl ∈ dom (g_fixups g3)) as Hlbl3.
  { apply (ge_fixups _ _ _ _ _ _ _ He3), Hlbl. }
  destruct (index_tail_gen (fun l => l = lEnd ∨ Y l) g3 (its ++ f1 ++ jmp_to lEnd) key lbl)
    as (id & He4 & Hid); [apply He3|done|by right|eapply room_seq; [exact He3|]; eapply room_weaken; [done|lia..]|].
  set (g4 := emit (b_Jnz lbl) _) in *.
  pose proof (gext_seq _ _ _ _ _ _ _ _ _ _ _ He3 He4) as He04.
  destruct (gext_set _ _ Y _ _ _ _ lEnd He04) as (g5 & E5 & He5 & Hlab5 & Hl5 & _ & Hs5).
  { done. }
  { apply (ge_fixups _ _ _ _ _ _ _ He4). assert (lEnd ∈ dom (g_fixups g2)) by (by apply (ge_fixups _ _ _ _ _ _ _ He2)).
    set_solver. }
  { destruct Hroom, He1. unfold index_tail. clen. }
  exists g1, g5, f1, lT, lEnd, id. split_and!; try done.
  - unfold generateIndexJmp. rewrite Ea, Eb. cbn [mode_of] in E1. rewrite E1. cbn [go_bind].
    change (emit (b_Jmp lEnd) g1) with g2. rewrite E3. cbn [go_bind generateIndexKey assert_string c_Value].
    exact E5.
  - eapply gext_weaken; [exact He5|lia..|done].
  - etrans; [apply He2|etrans; [exact Hlab3|etrans; [apply He4|done]]].
  - rewrite Hs5. etrans; [apply He2|]. rewrite <- Hs3. apply He4.
  - by rewrite Hs5.
  - eapply lookup_weaken; [exact Hl3|]. etrans; [apply He4|done].
Qed.

Lemma gen_index_alt a c :
  const_ok c = true → gen_ok UAlt a → gen_ok UAlt (EFn "INDEX" [a; EConst c]).
Proof using Hstart Hparams Hext Hbag.
  intros Hc Ha vt depth lbl g its Ht Hd _ Hg Hroom Hlbl.
  apply type_INDEX in Ht as (-> & Hta & Htb). injection Htb as Hct.
  destruct c as [sv v ct]. simpl in Hct. subst ct. destruct v as [[key| | | | | | |]|]; try done.
  rewrite nodes_fn2 in *. simpl (nodes (EConst _)) in *. pose proof (nodes_pos a).
  destruct (index_alt_gen a key sv depth lbl g its Ha Hta Hd Hg)
    as (g1 & g2 & f1 & lT & lEnd & id & E & He & Hx1 & Hl1 & Hlab & Hstr & Hid & HlT & HlE);
    [eapply room_weaken; [done|lia..]|by apply Hlbl|].
  eexists g2, _. split; [exact E|]. split; [eapply gext_weaken; [exact He|lia..|done]|].
  assert (zlength (concat (jmp_to lEnd)) = 2) as Hj by done.
  assert (zlength (concat (index_tail id lbl)) = 5) as Hi5 by done.
  pose proof (ge_len _ _ _ _ _ _ _ He) as Hlen. rewrite !zlength_concat_app, Hj, Hi5 in Hlen.
  split. { rewrite !zlength_concat_app. lia. }
  intros Λ m ws hs t Hlo Hr l Hl Hu32. apply ready_fn2 in Hr. destruct Hr as [Hst Hwf Hle Hw Hh Hn].
  pose proof Hlo as (HΛ & HS & _). simpl (stack_need (EConst _)) in *. simpl (heap_need fd (EConst _)) in *.
  simpl (nodes (EConst _)) in *.
  destruct (loaded_app _ _ _ _ _ Hlo) as [Hlo1 (_ & _ & Hat2)].
  destruct (loaded_app _ _ _ _ _ Hlo1) as [Hlo11 (_ & _ & Hat1)].
  pose proof (lookup_weaken _ _ _ _ HlT HΛ) as HlT'. pose proof (lookup_weaken _ _ _ _ HlE HΛ) as HlE'.
  assert (stringToID t !! key = Some id) as Hid' by (eauto using st_le_lookup).
  pose proof (zlength_nonneg (concat its)). pose proof (zlength_nonneg (concat f1)).
  assert (∀ its', zlength (concat its') + start = pos its') as Hpos by (intros; unfold pos; lia).
  assert (pos (its ++ f1 ++ jmp_to lEnd) + 16 < 2 ^ 32) as Hp2.
  { destruct Hroom. unfold pos. rewrite !zlength_concat_app, Hj. lia. }
  assert (pos (its ++ f1) + 16 < 2 ^ 32) as Hp1.
  { destruct Hroom. unfold pos. rewrite !zlength_concat_app. lia. }
  change (den nmJmpOnValue (EFn "INDEX" [a; EConst (mkConst sv (Some (VStr key)) STRING)])) with
    (let! x := den nmJmpOnValue a in
     match x with
     | None => GoRet None
     | Some x => let! mp := as_smap x in GoRet (SStr <$> mp !! key)
     end).
  eapply exec_bind.
  { eapply (Hx1 Λ m ws hs t); [by eapply loaded_mono|split; try done; lia|exact HlT'|].
    rewrite Hpos. pose proof (pos_ge (its ++ f1 ++ jmp_to lEnd)). width. }
  intros [v|] m1 Hv; cbn [apost] in Hv.
  - rewrite Hpos in Hv. eapply exec_conseq.
    + eapply (index_tail_run Λ m1 (its ++ f1 ++ jmp_to lEnd) id key lbl l ws hs t (heap_need fd a) (nodes a) v Hat2); try done; lia.
    + intros r m2 Hr. rewrite (app_assoc its), pos_app, Hi5. cbn [heap_need foldr].
      destruct (decide ("INDEX" = "ip" ∨ "INDEX" = "timestamp")) as [[?|?]|_]; try done.
      destruct r; cbn [apost] in *; [eapply vpost_weaken; [exact Hr|cbn; lia..]|eapply kpost_weaken; [exact Hr|cbn; lia..]].
  - destruct Hv as (hs2 & t2 & Hst2 & Hp & Hh2 & Hwf2 & Hle2 & Hn2).
    destruct (i_jmp i get fn start Λ m1 (pos (its ++ f1)) hs2 t2 (pos_ge _)
      ltac:(lia) ws lEnd _ Hat1 HlE') as (m2 & Hs2 & Hst3); [|done|].
    { destruct Hroom. rewrite !zlength_concat_app, Hj, Hi5. width. }
    eapply exec_one; [exact Hs2|]. apply exec_ret. cbn [apost]. rewrite Hpos in Hst3.
    exists hs2, t2. cbn [heap_need foldr].
    destruct (decide ("INDEX" = "ip" ∨ "INDEX" = "timestamp")) as [[?|?]|_]; try done.
    split_and!; try done; cbn; lia.
Qed.

(** ** Every supported expression *)

Theorem gen_supported u e : sup fd u e → gen_ok u e.
Proof using Hstart Hparams Hext Hbag.
  induction 1 as [u c Hu Hc|u n vt Hu Hf Hk|u name a Hn Hu Ha IHa|u name a b Hn Hu He Ha IHa Hb IHb
    |u name a b Hn Hu Ha IHa Hb IHb|a b Ha IHa Hb IHb|a c Ha IHa Hc
    |a b Ha IHa Ho Hb IHb|a b Ha IHa Ho Hb IHb|a b Ha IHa Hb IHb|a b Ha IHa Hb IHb].
  - by apply gen_const.
  - by eapply gen_var.
  - by apply gen_call1.
  - destruct Hn as [-> | ->]; [by apply gen_eq|by apply gen_neq].
  - destruct Hn as [->|[-> | ->]]; [by apply gen_lor|by apply gen_land|by apply gen_match].
  - by apply gen_index.
  - by apply gen_index_alt.
  - apply (gen_or_value UValue); try done. by rewrite Ho.
  - apply (gen_or_value ULast); try done. by rewrite Ho.
  - by apply gen_or_alt.
  - by apply gen_or_last.
Qed.

(** ** The top level

    At depth 0 a disjunction returns from its left operand instead of jumping
    to a common end. *)

(** The machine is about to return the value [v]. *)
Definition at_ret (ws : list Z) (hs : list iface) (t : StringTable) (T : ilType) (h n : Z)
    (v : sval) (m : machine) : Prop :=
  ∃ pc, zlookup (code i) pc = Some (op_code Op.Ret) ∧ 0 <= pc ∧ pc + 1 < 2 ^ 32 ∧
    vpost pc ws hs t T h n v m.

Definition ret_item : list (list item) := [[W (op_code Op.Ret)]].

Definition top_ok (e : Expression) (vt : ValueType) : Prop :=
  ∀ g its,
    ginv g its → room start (8 * nodes e) (nodes e) g its →
    ∃ g' frag,
      generate fd e 0 nmNone "" g = GoRet g' ∧
      gext (8 * nodes e) (nodes e) (fun _ => False) g its g' frag ∧
      ∀ Λ m ws hs t,
        loaded g' its (frag ++ ret_item) Λ →
        ready m (pos its) ws hs t (stack_need e) (heap_need fd e) (nodes e) →
        exec_spec m (den0 e) (at_ret ws hs t (il_type vt) (heap_need fd e) (nodes e)).

Lemma ret_loaded g its frag Λ :
  loaded g its (frag ++ ret_item) Λ → zlookup (code i) (pos (its ++ frag)) = Some (op_code Op.Ret).
Proof using.
  intros (_ & _ & Hat). rewrite concat_app, at_app in Hat. destruct Hat as [_ Hat].
  apply at_0 in Hat. by rewrite pos_app.
Qed.

Lemma top_simple e vt :
  type_of e = GoRet vt → sup fd UValue e → is_lor e = false → top_ok e vt.
Proof using Hstart Hparams Hext Hbag.
  intros Ht Hs Hl g its Hg Hroom.
  destruct (gen_supported UValue e Hs vt 0 "" g its Ht ltac:(lia) ltac:(auto) Hg Hroom ltac:(done))
    as (g' & frag & E & He & _ & Hx).
  exists g', frag. split; [done|]. split; [eapply gext_weaken; [exact He|lia..|]; by intros l [? _]|].
  intros Λ m ws hs t Hlo Hr. destruct (loaded_app _ _ _ _ _ Hlo) as [Hlo1 _].
  eapply exec_conseq; [eapply (Hx Λ); done|]. intros v m' Hv. exists (pos (its ++ frag)).
  split_and!; [by eapply ret_loaded|apply pos_ge| |done].
  destruct Hroom, He. rewrite pos_app. unfold pos. lia.
Qed.

(** [Jz lr; APushB 1; Ret] *)
Definition lor_top_mid (lr : string) : list (list item) :=
  [[W (op_code Op.Jz); L lr]; [W (op_code Op.APushB); W (BoolToByteCode true)]; [W (op_code Op.Ret)]].

Lemma lor_top_mid_len lr : zlength (concat (lor_top_mid lr)) = 5.
Proof using. done. Qed.

Lemma lor_top_gen a b g its :
  gen_ok UValue a → gen_ok UValue b → type_of a = GoRet BOOL → type_of b = GoRet BOOL →
  ginv g its → room start (8 * (nodes a + nodes b + 1)) (nodes a + nodes b + 1) g its →
  ∃ g1 g6 f1 f2 lr,
    generateLor (generate fd) [a; b] 0 g = GoRet g6 ∧
    gext (8 * nodes a + 5 + 8 * nodes b) (nodes a + nodes b) (fun _ => False) g its g6
      ((f1 ++ lor_top_mid lr) ++ f2) ∧
    exec_ok UValue a Ty.Bool "" g1 its f1 ∧ exec_ok UValue b Ty.Bool "" g6 (its ++ f1 ++ lor_top_mid lr) f2 ∧
    g_labels g1 ⊆ g_labels g6 ∧ st_le (g_strings g1) (g_strings g6) ∧
    g_labels g6 !! lr = Some (zlength (concat (its ++ f1 ++ lor_top_mid lr))).
Proof using Hstart Hparams Hext Hbag.
  intros Ha Hb Hta Htb Hg Hroom. pose proof (nodes_pos a). pose proof (nodes_pos b).
  pose proof (zlength_nonneg (concat its)). unfold generateLor. cbn [Z.eqb].
  destruct (Ha BOOL (0 + 1) "" g its Hta ltac:(lia) ltac:(lia) Hg) as (g1 & f1 & E1 & He1 & Hl1 & Hx1);
    [eapply room_weaken; [done|lia..]|done|].
  cbn [mode_of] in E1. rewrite E1. cbn [go_bind].
  destruct (gext_alloc _ _ _ _ _ _ _ He1) as (lr & g2 & -> & He2 & Hlr2 & Hf2 & Hfr2 & Hs2 & Hlab2).
  destruct (gext_alloc _ _ _ _ _ _ _ He2) as (le & g3 & -> & He3 & Hle3 & Hf3 & Hfr3 & Hs3 & Hlab3).
  set (X := fun l => l = lr ∨ False).
  assert (gext (8 * nodes a) (nodes a) X g its g3 f1) as He3'.
  { eapply gext_weaken; [exact He3|lia..|]. by intros l [? _]. }
  pose proof (ge_inv _ _ _ _ _ _ _ He3) as Hi3.
  assert (lr ∈ dom (g_fixups g3)) as Hlr3 by set_solver.
  pose proof (emit_jump X g3 _ Hi3 Op.Jz lr eq_refl Hlr3 ltac:(by left)
    ltac:(destruct Hroom, He1; clen)) as H4.
  pose proof (emit_bool X _ _ (ge_inv _ _ _ _ _ _ _ H4) Op.APushB true eq_refl) as H5.
  pose proof (gext_seq _ _ _ _ _ _ _ _ _ _ _ H4 H5) as H45.
  pose proof (emit_op0 X _ _ (ge_inv _ _ _ _ _ _ _ H45) Op.Ret eq_refl) as H6.
  pose proof (gext_seq _ _ _ _ _ _ _ _ _ _ _ H45 H6) as He4. clear H4 H5 H45 H6.
  pose proof (gext_seq _ _ _ _ _ _ _ _ _ _ _ He3' He4) as He14.
  destruct (gext_set _ _ (fun _ => False) _ _ _ _ lr He14) as (g5 & E5 & He5 & Hlab5 & Hlr5 & _ & Hs5).
  { eapply gext_fresh; [exact He1|]. done. }
  { by apply (ge_fixups _ _ _ _ _ _ _ He4). }
  { destruct Hroom, He1. clen. }
  change (emit B.Ret (emit (B.APushBool true) (emit (b_Jz lr) g3))) with
    (emit (op0 Op.Ret) (emit (op_bool Op.APushB true) (emit (b_jump Op.Jz lr) g3))).
  rewrite E5. cbn [go_bind].
  destruct (Hb BOOL (0 + 1) "" g5 (its ++ f1 ++ lor_top_mid lr) Htb ltac:(lia) ltac:(lia) (ge_inv _ _ _ _ _ _ _ He5))
    as (g6 & f2 & E6 & He6 & Hl6 & Hx6).
  { eapply room_seq; [exact He5|]. eapply room_weaken; [done|lia..]. } { done. }
  cbn [mode_of] in E6. rewrite E6. cbn [go_bind].
  assert (gext (8 * nodes b) (nodes b) (fun _ => False) g5 (its ++ f1 ++ lor_top_mid lr) g6 f2) as He6'.
  { eapply gext_weaken; [exact He6|lia..|]. by intros l [? _]. }
  exists g1, g6, f1, f2, lr. split_and!; try done.
  - eapply gext_weaken; [exact (gext_seq _ _ _ _ _ _ _ _ _ _ _ He5 He6')|lia..|done].
  - rewrite <- Hlab2, <- Hlab3. etrans; [apply He4|etrans; [exact Hlab5|apply He6]].
  - rewrite <- Hs2, <- Hs3. etrans; [apply He4|]. rewrite <- Hs5. apply He6.
  - eapply lookup_weaken; [exact Hlr5|apply He6].
Qed.

Lemma lor_top_mid_run Λ m its ws hs t h n lr v ar :
  at_ i start Λ (pos its) (concat (lor_top_mid lr)) → pos its + 16 < 2 ^ 32 → zlength ws + 3 <= 64 →
  Λ !! lr = Some ar → is_u32 (ar + start) → vpost (pos its) ws hs t Ty.Bool h n v m →
  ∃ p, v = SBool p ∧
  ∃ m', steps i get m m' ∧
    if p then at_ret ws hs t Ty.Bool h n (SBool true) m' else kpost fn (ar + start) ws hs t h n m'.
Proof using Hstart.
  intros Hat Hp Hw Hr Hr' (w & hs' & t' & Hst & Hh1 & Hh2 & Hwf & Hle & Hn & Hx & Htx).
  pose proof (pos_ge its). destruct v as [|p| | |]; try done. simpl in Hx. subst w. exists p. split; [done|].
  unfold lor_top_mid in Hat. cbn [concat app] in Hat.
  apply (at_app i start Λ (pos its) [_; _] [_; _; _]) in Hat as [Hat1 Hat].
  apply (at_app i start Λ _ [_; _] [_]) in Hat as [Hat2 Hat3]. change (zlength [_; _]) with 2 in *.
  destruct (i_jcond i get fn start Λ m (pos its) hs' t' ltac:(lia) ltac:(lia) ws _ false lr ar Hat1 Hr Hr' Hst)
    as (m1 & Hs1 & Hst1).
  destruct p; cbn in Hst1.
  - destruct (i_push1 i get fn start Λ m1 (pos its + 2) hs' t' ltac:(lia) ltac:(lia) ws Op.APushB _
      ltac:(auto) Hat2 Hst1) as (m2 & Hs2 & Hst2); [lia|].
    exists m2. split; [eapply rtc_l; [exact Hs1|]; by apply rtc_once|]. exists (pos its + 2 + 2).
    split_and!; [exact (at_0 _ _ _ _ _ _ Hat3)|lia|lia|]. eexists _, hs', t'. by split_and!.
  - exists m1. split; [by apply rtc_once|]. exists hs', t'. by split_and!.
Qed.

Lemma at_ret_fn2 name a b ws hs t T h n v m :
  at_ret ws hs t T h n v m → h <= heap_need fd a + heap_need fd b → n <= nodes a + nodes b + 1 →
  at_ret ws hs t T (heap_need fd (EFn name [a; b])) (nodes (EFn name [a; b])) v m.
Proof using.
  intros (pc & ? & ? & ? & Hv) ??. exists pc. split_and!; try done. apply vpost_fn2.
  by eapply vpost_weaken.
Qed.

Lemma top_lor a b vt :
  type_of (EFn "LOR" [a; b]) = GoRet vt → sup fd UValue a → sup fd UValue b → top_ok (EFn "LOR" [a; b]) vt.
Proof using Hstart Hparams Hext Hbag.
  intros Ht Hsa Hsb g its Hg Hroom. apply type_LOR in Ht as (-> & Hta & Htb). rewrite nodes_fn2 in Hroom.
  destruct (lor_top_gen a b g its) as (g1 & g6 & f1 & f2 & lr & E & He & Hx1 & Hx6 & Hlab & Hstr & Hlr);
    try done; try (by apply gen_supported).
  eexists g6, _. split; [exact E|]. split; [eapply gext_weaken; [exact He|rewrite nodes_fn2; lia..|done]|].
  intros Λ m ws hs t Hlo Hr. apply ready_fn2 in Hr. destruct Hr as [Hst Hwf HleS Hw Hh Hn].
  pose proof (stack_need_ge b). pose proof (heap_need_nonneg a). pose proof (heap_need_nonneg b).
  pose proof (nodes_pos b). pose proof (ge_len _ _ _ _ _ _ _ He) as Hlen.
  rewrite !zlength_concat_app, lor_top_mid_len in Hlen. destruct Hroom as [Hrw _].
  pose proof (zlength_nonneg (concat its)). pose proof (zlength_nonneg (concat f1)). pose proof (zlength_nonneg (concat f2)).
  pose proof (ret_loaded _ _ _ _ Hlo) as Hret.
  destruct (loaded_app _ _ _ _ _ Hlo) as [Hlo' _]. destruct (loaded_app _ _ _ _ _ Hlo') as [Hlo1 Hlo2].
  destruct (loaded_app _ _ _ _ _ Hlo1) as [Hlo11 (HΛ & _ & Hat)].
  pose proof (lookup_weaken _ _ _ _ Hlr HΛ) as Hlr'.
  assert (zlength (concat (its ++ f1 ++ lor_top_mid lr)) + start = pos (its ++ f1 ++ lor_top_mid lr)) as Hpos
    by (unfold pos; lia).
  assert (is_u32 (zlength (concat (its ++ f1 ++ lor_top_mid lr)) + start)) as Hu
    by (rewrite !zlength_concat_app, lor_top_mid_len; width).
  assert (pos (its ++ f1) + 16 < 2 ^ 32) as Hp1 by (unfold pos; clen).
  rewrite den0_lor. eapply exec_bind.
  { eapply (Hx1 Λ m ws hs t); [by eapply loaded_mono|split; try done; lia]. }
  intros x m1 Hv1.
  destruct (lor_top_mid_run Λ m1 (its ++ f1) ws hs t _ _ lr x _ Hat Hp1 ltac:(lia) Hlr' Hu Hv1)
    as (p & -> & m2 & Hsteps & Hm2).
  cbn [as_sbool go_bind]. eapply exec_steps; [exact Hsteps|]. destruct p.
  - apply exec_ret. eapply at_ret_fn2; [exact Hm2|lia..].
  - rewrite Hpos in Hm2. destruct Hm2 as (hs1 & t1 & Hst1 & Hh1 & Hh2 & Hwf1 & Hle1 & Hn1).
    eapply exec_conseq; [apply exec_bool_tail; eapply (Hx6 Λ m2 ws hs1 t1 Hlo2); split; try done; [by etrans|lia..]|].
    intros v m3 Hv. rewrite <- (app_assoc its) in Hv.
    eapply at_ret_fn2; [eexists; split_and!; [exact Hret|apply pos_ge| |]|reflexivity|].
    + unfold pos. rewrite !zlength_concat_app, lor_top_mid_len. lia.
    + exact (vpost_trans _ _ _ _ _ _ _ _ _ _ _ _ _ Hh1 Hh2 Hle1 Hn1 Hv).
    + lia.
Qed.

Theorem top_supported e vt : type_of e = GoRet vt → sup fd UValue e → top_ok e vt.
Proof using Hstart Hparams Hext Hbag.
  intros Ht Hs. destruct (is_lor e) eqn:Hl; [|by apply top_simple].
  destruct e as [| |name args|]; try done. simpl in Hl. apply bool_decide_eq_true in Hl as ->.
  inversion Hs as [| |u n a Hn|u n a b Hn|u n a b Hn Hu Ha Hb| | | | | |]; subst; try (destruct_or!; done).
  by apply top_lor.
Qed.
End Code.
