(* ===== verification/CompilerCorrect.v ===== *)
(** * Compiled expressions compute their meaning

    The end-to-end theorem of the IL pipeline: for every supported, well-typed
    expression within the resource bounds of the machine, compiling it,
    linking the program with the externs and running it against any bag gives
    exactly the outcome of the reference semantics, errors included, within a
    bounded number of steps. *)

From Stdlib Require Import ZArith Lia.
From stdpp Require Import base list gmap strings relations.
From S2P Require Import Prelude Il Interp Expr Compiler Evaluator CompilerSpec BuilderFacts MachineFacts InstrFacts GenFacts CodeFacts.

Open Scope Z_scope.

(** ** Declaring the externs *)

Section Externs.

Definition declare (p : Program) (e : Extern) : Program :=
  AddExternDef (ext_name e) (paramTypes e) (returnType e) p.

(** The function the extern [e] is declared as. *)
Definition extern_fn (e : Extern) (id : Z) : Function := mkFunction (paramTypes e) (returnType e) id 0 0.

Lemma declare_spec e p :
  st_wf (p_strings p) → nextID (p_strings p) + 1 < 2 ^ 32 →
  let p' := declare p e in
  st_wf (p_strings p') ∧ st_le (p_strings p) (p_strings p') ∧
  nextID (p_strings p') <= nextID (p_strings p) + 1 ∧
  ∃ id, stringToID (p_strings p') !! ext_name e = Some id ∧
    p_functions p' = <[id := extern_fn e id]> (p_functions p).
Proof.
  intros Hwf Hn. unfold declare, AddExternDef.
  pose proof (GetID_spec (ext_name e) _ Hwf Hn) as Hg.
  destruct (GetID (ext_name e) (p_strings p)) as [id t]. simpl in *.
  destruct Hg as (? & ? & ? & ? & _). split_and!; try done. exists id. done.
Qed.

(** Declaring several externs with different names. *)
Lemma declare_all es p :
  NoDup (ext_name <$> es) → st_wf (p_strings p) → nextID (p_strings p) + zlength es + 1 < 2 ^ 32 →
  let p' := foldl declare p es in
  st_wf (p_strings p') ∧ st_le (p_strings p) (p_strings p') ∧
  nextID (p_strings p') <= nextID (p_strings p) + zlength es ∧
  (∀ e, e ∈ es → ∃ id, stringToID (p_strings p') !! ext_name e = Some id ∧
     p_functions p' !! id = Some (extern_fn e id)) ∧
  (∀ s id, s ∉ ext_name <$> es → stringToID (p_strings p) !! s = Some id →
     p_functions p' !! id = p_functions p !! id).
Proof.
  induction es as [|e es IH] using rev_ind.
  { intros _ Hwf _. simpl. autorewrite with zlist. split_and!; try done; [lia|].
    intros e He. by apply not_elem_of_nil in He. }
  rewrite fmap_app, NoDup_app. intros (Hnd & Hdis & _) Hwf Hn. autorewrite with zlist in Hn.
  rewrite foldl_app. destruct (IH Hnd Hwf ltac:(lia)) as (Hwf1 & Hle1 & Hn1 & Hin & Hout). clear IH.
  set (p1 := foldl declare p es) in *. simpl.
  destruct (declare_spec e p1 Hwf1 ltac:(lia)) as (Hwf2 & Hle2 & Hn2 & id & Hid & Hf).
  set (p2 := declare p1 e) in *.
  assert (∀ s j, s ≠ ext_name e → stringToID (p_strings p1) !! s = Some j → id ≠ j) as Hne.
  { intros s j Hs Hj ->. apply Hs. eapply (st_id_inj (p_strings p2)); [done| |done]. by eapply st_le_lookup. }
  split_and!; [done|by etrans|autorewrite with zlist; lia| |].
  - intros e' He'. rewrite Hf. apply elem_of_app in He' as [He'|He'%list_elem_of_singleton].
    + destruct (Hin e' He') as (j & Hj & Hfj). exists j. split; [by eapply st_le_lookup|].
      rewrite lookup_insert_ne; [done|]. eapply Hne; [|done]. intros E.
      apply (Hdis (ext_name e')); [by apply list_elem_of_fmap_2|]. rewrite E. by apply list_elem_of_singleton.
    + subst e'. exists id. split; [done|]. by rewrite lookup_insert_eq.
  - intros s j Hs Hj. rewrite Hf, lookup_insert_ne; [apply (Hout s); [|done]|].
    + intros E. apply Hs. apply elem_of_app. by left.
    + eapply (Hne s); [|by eapply st_le_lookup]. intros ->. apply Hs. apply elem_of_app. right.
      by apply list_elem_of_singleton.
Qed.

(** The extern map binds every extern under its own name. *)
Lemma externMap_names `{GoLib} : map_Forall (fun name e => ext_name e = name) externMap.
Proof.
  unfold externMap. cbn [list_to_map foldr]. unfold map_Forall. intros name e.
  rewrite !lookup_insert_Some, lookup_empty. naive_solver.
Qed.

Lemma extern_list_names (es : gmap string Extern) :
  map_Forall (fun name e => ext_name e = name) es →
  ext_name <$> (map_to_list es).*2 = (map_to_list es).*1.
Proof.
  intros Hn. rewrite <- list_fmap_compose. apply list_fmap_ext. intros k [name e] Hk. simpl.
  apply (Hn name). apply elem_of_map_to_list. by eapply list_elem_of_lookup_2.
Qed.

(** [newIntr] leaves the code and the other functions alone, and binds each
    extern. *)
Lemma newIntr_spec p (es : gmap string Extern) :
  map_Forall (fun name e => ext_name e = name) es →
  st_wf (p_strings p) → nextID (p_strings p) + Z.of_nat (size es) + 1 < 2 ^ 32 →
  let i := newIntr p es in
  st_wf (p_strings (program i)) ∧ st_le (p_strings p) (p_strings (program i)) ∧
  nextID (p_strings (program i)) <= nextID (p_strings p) + Z.of_nat (size es) ∧
  code i = p_code p ∧
  (∀ name e, es !! name = Some e → bound i name e) ∧
  (∀ s id, es !! s = None → stringToID (p_strings p) !! s = Some id →
     p_functions (program i) !! id = p_functions p !! id).
Proof.
  intros Hnames Hwf Hn i.
  assert (zlength (map_to_list es).*2 = Z.of_nat (size es)) as Hlen.
  { unfold zlength. rewrite length_fmap, length_map_to_list. done. }
  destruct (declare_all (map_to_list es).*2 p) as (Hwf' & Hle & Hnx & Hin & Hout);
    [rewrite extern_list_names by done; apply NoDup_fst_map_to_list|done|by rewrite Hlen|].
  rewrite Hlen in Hnx. split_and!; try done.
  - intros name e He. assert (e ∈ (map_to_list es).*2) as Hin'.
    { apply list_elem_of_fmap. exists (name, e). split; [done|]. by apply elem_of_map_to_list. }
    destruct (Hin e Hin') as (id & Hid & Hf). pose proof (Hnames _ _ He) as En. simpl in En.
    split; [done| |done]. intros j Hj. rewrite En in Hid. simpl in Hj. unfold declare in *. simplify_eq. exact Hf.
  - intros s id Hs Hid. apply (Hout s id); [|done]. rewrite extern_list_names by done.
    intros (q & -> & Hq)%list_elem_of_fmap. destruct q as [n e]. apply elem_of_map_to_list in Hq. simpl in Hs. congruence.
Qed.
End Externs.

(** ** Running to a result *)

Section Finish.
Context (i : Interpreter) (get : bag).

(** With enough fuel the run from [m] ends, and the evaluator returns [r]. *)
Definition finishes (m : machine) (r : go gerr iface) : Prop :=
  ∃ n, ∀ fuel, (n <= fuel)%nat →
    ∃ o t, loop i get fuel m = Some (o, t) ∧ (let! x := o in AsInterface x) = r.

Lemma finishes_steps m m' r : steps i get m m' → finishes m' r → finishes m r.
Proof.
  induction 1 as [|m m1 m' Hs _ IH]; [done|]. intros Hf. destruct (IH Hf) as (n & Hn).
  exists (S n). intros [|fuel] Hfuel; [lia|]. simpl. rewrite Hs. apply Hn. lia.
Qed.

(** A run of the machine followed by what finishes from its final states. *)
Lemma finishes_bind {A} m (r : go gerr A) Q (k : A → go gerr iface) :
  exec_spec i get m r Q → (∀ a m', Q a m' → finishes m' (k a)) → finishes m (go_bind r k).
Proof.
  destruct r as [a|e|p]; simpl.
  - intros (m' & Hs & HQ) Hk. eapply finishes_steps; eauto.
  - intros (m' & Hs & He) _. eapply finishes_steps; [exact Hs|].
    exists 1%nat. intros [|fuel] ?; [lia|]. simpl. rewrite He. eauto.
  - intros (m' & Hs & He) _. eapply finishes_steps; [exact Hs|].
    exists 1%nat. intros [|fuel] ?; [lia|]. simpl. rewrite He. eauto.
Qed.

(** The result of a function returning the value on top of the stack. *)
Lemma ret_value fn m pc ws hs t vt v w :
  ReturnType fn = il_type vt → st fn m pc (ws ++ w) hs t → st_wf t → repr t hs v w →
  has_type (il_type vt) v →
  ∃ r, ret_result fn m = GoRet r ∧ AsInterface r = GoRet (iface_of vt v).
Proof.
  intros Hrt Hst Hwf Hr Hv. unfold ret_result. rewrite Hrt. pose proof (zlength_nonneg ws).
  assert (∀ z, w = words64 z →
    UNDERFLOW_GUARD 2 m = GoRet () ∧ PEEK 1 m = GoRet (IntegerToByteCode z).1 ∧
    PEEK 2 m = GoRet (IntegerToByteCode z).2) as H64.
  { intros z ->. rewrite (UNDERFLOW_st _ _ _ _ _ _ Hst) by (unfold words64; autorewrite with zlist; lia).
    by rewrite (PEEK_st _ _ _ _ _ _ _ Hst 1 (IntegerToByteCode z).1),
      (PEEK_st _ _ _ _ _ _ _ Hst 2 (IntegerToByteCode z).2). }
  assert (∀ x, w = [x] → UNDERFLOW_GUARD 1 m = GoRet () ∧ PEEK 1 m = GoRet x) as H1.
  { intros x ->. rewrite (UNDERFLOW_st _ _ _ _ _ _ Hst) by (autorewrite with zlist; lia).
    by rewrite (PEEK_st _ _ _ _ _ _ _ Hst 1 x). }
  destruct vt; try done; simpl in Hv; destruct v as [s|b|z|d|x]; try done; cbn [il_type]; simpl in Hr.
  - destruct Hr as (y & -> & Hy). destruct (H1 y eq_refl) as [-> ->]. cbn [go_bind].
    rewrite (STR_st _ _ _ _ _ _ Hst s) by done. eexists. split; [done|]. done.
  - destruct (H64 z Hr) as (-> & -> & ->). eexists. split; [done|]. unfold AsInterface, AsInteger.
    cbn [r_t r_v1 r_v2]. rewrite decide_True by done. cbn [go_bind iface_of].
    by rewrite ByteCodeToInteger_IntegerToByteCode.
  - destruct (H64 d Hr) as (-> & -> & ->). eexists. split; [done|]. unfold AsInterface, AsDouble.
    cbn [r_t r_v1 r_v2]. rewrite decide_True by done. cbn [go_bind iface_of].
    do 3 f_equal. by apply ByteCodeToDouble_DoubleToByteCode.
  - destruct (H1 _ Hr) as [-> ->]. eexists. split; [done|]. by destruct b.
  - destruct Hr as (y & -> & Hy). destruct (H1 y eq_refl) as [-> ->]. cbn [go_bind].
    rewrite (heap_get _ _ _ _ _ _ Hst y x) by done. by eexists.
  - destruct Hr as (y & -> & Hy). destruct (H1 y eq_refl) as [-> ->]. cbn [go_bind].
    rewrite (heap_get _ _ _ _ _ _ Hst y x) by done. by eexists.
  - destruct (H64 z Hr) as (-> & -> & ->). eexists. split; [done|]. unfold AsInterface, AsDuration.
    cbn [r_t r_v1 r_v2]. rewrite decide_True by done. cbn [go_bind iface_of].
    by rewrite ByteCodeToInteger_IntegerToByteCode.
  - destruct Hr as (y & -> & Hy). destruct (H1 y eq_refl) as [-> ->]. cbn [go_bind].
    rewrite (heap_get _ _ _ _ _ _ Hst y x) by done. by eexists.
Qed.

(** [Ret] at the top level ends the run with the value on the stack. *)
Lemma finishes_ret fn m pc ws hs t vt h n v :
  ReturnType fn = il_type vt → zlookup (code i) pc = Some (op_code Op.Ret) → 0 <= pc → pc + 1 < 2 ^ 32 →
  vpost fn pc ws hs t (il_type vt) h n v m → finishes m (GoRet (iface_of vt v)).
Proof.
  intros Hrt Hc Hp0 Hp (w & hs' & t' & Hst & _ & _ & Hwf & _ & _ & Hr & Hv).
  pose proof (set_ip_st _ _ _ _ _ _ Hst (pc + 1)) as Hst1.
  destruct (ret_value fn _ _ _ _ _ vt v w Hrt Hst1 Hwf Hr Hv) as (r & Hret & Ha).
  exists 1%nat. intros [|fuel] ?; [lia|]. simpl. unfold step. unfold go_get at 1.
  rewrite (st_ip _ _ _ _ _ _ Hst), Hc. cbn [go_bind]. rewrite opcode_of_code, u32_id by width.
  rewrite (st_fn _ _ _ _ _ _ Hst1), (st_fp _ _ _ _ _ _ Hst1). cbn [Z.eqb]. rewrite Hret. eauto.
Qed.
End Finish.

Lemma initial_st fn t : Address fn = 2 → st fn (initial fn t) 2 [] [] t.
Proof.
  intros Ha. split; simpl; try done.
  - by exists (replicate 64 0).
  - by exists (replicate 64 None).
Qed.

(** ** Linking *)

Lemma externMap_size `{GoLib} : size externMap = 5%nat.
Proof. reflexivity. Qed.

(** A finished generator, its program and the interpreter built from it. *)
Section Link.
Context `{GoLib} (g : generator) (its : list (list item)) (rt : ilType).
Context (Hg : ginv g its) (Hplaced : placed (g_labels g) its).
Context (Hlen : zlength (concat its) + 20 < 2 ^ 32) (Hnext : nextID (g_strings g) + 8 < 2 ^ 32).

Definition linked_program : Program :=
  (AddFunction "eval" [] rt (Build (g_builder g)) (mkProgram (g_strings g) ∅ [op_code Op.Halt])).1.

Definition linked : Interpreter := newIntr linked_program externMap.

Lemma link_spec :
  AddFunction "eval" [] rt (Build (g_builder g)) (mkProgram (g_strings g) ∅ [op_code Op.Halt]) =
    (linked_program, None) ∧
  st_wf (p_strings (program linked)) ∧ st_le (g_strings g) (p_strings (program linked)) ∧
  nextID (p_strings (program linked)) <= nextID (g_strings g) + 6 ∧
  at_ linked 2 (g_labels g) 2 (concat its) ∧
  (∀ name e, externMap !! name = Some e → bound linked name e) ∧
  ∃ fn, FunctionTable_Get "eval" (program linked) = Some fn ∧ Parameters fn = [] ∧ ReturnType fn = rt ∧
    Address fn = 2.
Proof using Hg Hplaced Hlen Hnext.
  destruct Hg as [Hb _ Hwf].
  pose proof (AddFunction_spec (g_builder g) its "eval" [] rt
    (mkProgram (g_strings g) ∅ [op_code Op.Halt]) Hb Hplaced) as Hadd.
  cbn [p_code p_strings p_functions] in Hadd. rewrite (bi_len _ _ Hb) in Hadd. change (zlength [op_code Op.Halt]) with 1 in Hadd.
  specialize (Hadd ltac:(lia)). pose proof (GetID_spec "eval" (g_strings g) Hwf ltac:(lia)) as Hid.
  destruct (GetID "eval" (g_strings g)) as [id t] eqn:EG. simpl in Hid.
  destruct Hid as (Hwf' & Hle & Hn' & Hid & _). unfold linked, linked_program. rewrite Hadd. cbn [fst].
  change (1 + 1) with 2. split; [done|].
  match goal with |- context [newIntr ?q _] => set (p := q) end.
  destruct (newIntr_spec p externMap externMap_names) as (Hwf2 & Hle2 & Hn2 & Hcode & Hbd & Hfn);
    [done|rewrite externMap_size; simpl; lia|]. rewrite externMap_size in Hn2. simpl (p_strings p) in *.
  split_and!; [done|by etrans|lia| |done|].
  - intros k x Hk. rewrite Hcode. simpl.
    pose proof (zlookup_Some_lt _ _ _ Hk) as Hkl.
    change (?a :: ?b :: ?l) with ([a; b] ++ l). rewrite zlookup_app_r by (autorewrite with zlist; lia).
    autorewrite with zlist. replace (2 + k - (1 + (1 + 0))) with k by lia.
    unfold zlookup in *. destruct (0 <=? k); [|done]. by rewrite list_lookup_fmap, Hk.
  - assert (externMap !! "eval" = None) as Hev by reflexivity.
    pose proof (Hfn _ _ Hev Hid) as Hf. cbn [p p_functions] in Hf. rewrite lookup_insert_eq in Hf.
    exists (mkFunction [] rt id 2 (zlength (concat its))). split; [|split_and!; reflexivity].
    pose proof (st_le_lookup _ _ _ _ Hle2 Hid) as Hid2. unfold FunctionTable_Get, TryGetID. rewrite Hid2.
    destruct (Z.eqb_spec id 0) as [->|_]; [|exact Hf].
    pose proof (st_id_inj _ _ _ _ Hwf' Hid (st_null _ Hwf')). done.
Qed.
End Link.

(** ** The pipeline *)

Section Pipeline.
Context `{HG : GoLib} (fd : finder) (get : bag) (e : Expression) (vt : ValueType).
Context (Hbag : bag_ok get) (Htype : type_of fd e = GoRet vt) (Hsup : supported fd UValue e = true).
Context (Hstack : stack_need e <= 64) (Hheap : heap_need fd e <= 63) (Hsize : nodes e <= 2 ^ 27).

Definition g_init : generator := mkGen (NewBuilder newStringTable) None.

Lemma g_init_inv : ginv g_init [].
Proof using. split; [apply NewBuilder_binv|done|apply newStringTable_wf]. Qed.

Lemma g_init_room : room 2 (8 * nodes e) (nodes e) g_init [].
Proof using Hsize.
  change (2 ^ 27) with 134217728 in *. split; simpl; [autorewrite with zlist|change (nextID newStringTable) with 1]; width.
Qed.

(** Any interpreter the externs are bound in. *)
Definition some_interpreter : Interpreter := newIntr NewProgram externMap.

Lemma some_bound name ext : externMap !! name = Some ext → bound some_interpreter name ext.
Proof using.
  intros He. destruct (newIntr_spec NewProgram externMap externMap_names newStringTable_wf)
    as (_ & _ & _ & _ & Hb & _); [by vm_compute|]. by apply Hb.
Qed.

(** The generator state before the final [Ret], whatever runs the code. *)
Lemma generated :
  ∃ g, generate fd e 0 nmNone "" g_init = GoRet g ∧
    ∀ i fn, Parameters fn = [] → (∀ name ext, externMap !! name = Some ext → bound i name ext) →
    ∃ frag, gext (8 * nodes e) (nodes e) (fun _ => False) g_init [] g frag ∧
      ∀ Λ m ws hs t,
        loaded i 2 g [] (frag ++ ret_item) Λ →
        ready i fn m (pos 2 []) ws hs t (stack_need e) (heap_need fd e) (nodes e) →
        exec_spec i get m (den0 (den fd get) e) (at_ret i fn ws hs t (il_type vt) (heap_need fd e) (nodes e)).
Proof using HG Hbag Htype Hsup Hsize.
  assert (∀ i fn, Parameters fn = [] → (∀ name ext, externMap !! name = Some ext → bound i name ext) →
    top_ok fd i get fn 2 e vt) as Htop.
  { intros. apply top_supported; try done. by apply supported_sup. }
  destruct (Htop some_interpreter (mkFunction [] Ty.Void 0 0 0) eq_refl some_bound g_init [] g_init_inv g_init_room)
    as (g & _ & E & _).
  exists g. split; [done|]. intros i fn Hp Hb.
  destruct (Htop i fn Hp Hb g_init [] g_init_inv g_init_room) as (g' & frag & E' & He & Hx).
  rewrite E in E'. injection E' as <-. eauto.
Qed.

Lemma toIlType_known g : toIlType vt g = (il_type vt, g).
Proof using Htype Hsup.
  pose proof (sup_known fd UValue e (supported_sup _ _ _ Hsup) vt Htype). by destruct vt.
Qed.

(** After the final [Ret] everything is placed. *)
Lemma finished g frag :
  gext (8 * nodes e) (nodes e) (fun _ => False) g_init [] g frag →
  let gF := emit B.Ret g in
  ginv gF (frag ++ ret_item) ∧ placed (g_labels gF) (frag ++ ret_item) ∧
  zlength (concat (frag ++ ret_item)) + 20 < 2 ^ 32 ∧ nextID (g_strings gF) + 8 < 2 ^ 32 ∧
  nextID (g_strings gF) <= nodes e + 1.
Proof using Hsize.
  intros He gF. pose proof (emit_op0 (fun _ => False) g frag (ge_inv _ _ _ _ _ _ _ He) Op.Ret eq_refl) as Hr.
  assert (gext (8 * nodes e + 1) (nodes e + 0) (fun _ => False) g_init [] gF (frag ++ ret_item)) as HF.
  { eapply gext_seq; [exact He|exact Hr]. }
  change (2 ^ 27) with 134217728 in *. destruct HF as [Hi _ Hn Hl _ _ Hp].
  change (nextID (g_strings g_init)) with 1 in Hn.
  split_and!; [exact Hi| |width..]. intros l Hl'. destruct (Hp l Hl'); [done|done].
Qed.

(** The compiler accepts the expression; the program is the linked one. *)
Lemma Compile_linked g :
  generate fd e 0 nmNone "" g_init = GoRet g →
  Compile fd e = GoRet (linked_program (emit B.Ret g) (il_type vt), e).
Proof using HG Hbag Htype Hsup Hsize.
  intros E. destruct generated as (g' & E' & Hall). rewrite E in E'. injection E' as <-.
  destruct (Hall some_interpreter (mkFunction [] Ty.Void 0 0 0) eq_refl some_bound) as (frag & He & _).
  destruct (finished g frag He) as (Hi & Hp & Hl & Hn & _).
  destruct (link_spec (emit B.Ret g) _ (il_type vt) Hi Hp Hl Hn) as (Hadd & _).
  unfold Compile. unfold CompilerSpec.type_of in Htype. rewrite Htype. cbn [go_bind].
  change (mkGen (NewBuilder (p_strings NewProgram)) None) with g_init. rewrite toIlType_known, E. cbn [go_bind].
  pose proof (gi_err _ _ (ge_inv _ _ _ _ _ _ _ He)) as ->. cbn [NewProgram p_functions p_code].
  unfold NewProgram. cbn [p_functions p_code p_strings]. by rewrite Hadd.
Qed.

(** Evaluation agrees with the reference semantics. *)
Lemma eval_den :
  ∃ n, ∀ fuel, (n <= fuel)%nat →
    eval_expression fuel fd e get = Some (let! v := den0 (den fd get) e in GoRet (iface_of vt v)).
Proof using HG Hbag Htype Hsup Hsize Hstack Hheap.
  destruct generated as (g & E & Hall). pose proof (Compile_linked g E) as Hc.
  destruct (Hall some_interpreter (mkFunction [] Ty.Void 0 0 0) eq_refl some_bound) as (frag0 & He0 & _).
  destruct (finished g frag0 He0) as (Hi0 & Hp0 & Hl0 & Hn0 & Hn1).
  set (i := linked (emit B.Ret g) (il_type vt)).
  destruct (link_spec (emit B.Ret g) _ (il_type vt) Hi0 Hp0 Hl0 Hn0)
    as (_ & Hwf & Hle & Hnx & _ & Hb & fn & Hfn & Hpar & Hrt & Hadr).
  destruct (Hall i fn Hpar Hb) as (frag & He & Hx).
  destruct (finished g frag He) as (Hi & Hp & Hl & Hn & _).
  destruct (link_spec (emit B.Ret g) _ (il_type vt) Hi Hp Hl Hn) as (_ & _ & _ & _ & Hat & _).
  assert (finishes i get (initial fn (p_strings (program i)))
            (let! v := den0 (den fd get) e in GoRet (iface_of vt v))) as (n & Hfin).
  { eapply finishes_bind.
    - eapply (Hx (g_labels g) _ [] [] (p_strings (program i))).
      + split_and!; [done|done|exact Hat].
      + change (2 ^ 27) with 134217728 in *.
        split; [by apply initial_st|exact Hwf|reflexivity|autorewrite with zlist; lia..|].
        fold i in Hnx. width.
    - intros v m' (pc & Hret & Hpc0 & Hpc & Hv). by eapply finishes_ret. }
  exists n. intros fuel Hfuel. destruct (Hfin fuel Hfuel) as (o & t & Hloop & Ho).
  unfold eval_expression, prepare. rewrite Hc. cbn [go_bind]. fold (linked (emit B.Ret g) (il_type vt)). fold i.
  unfold Eval, run. fold i in Hfn. rewrite Hfn, Hpar, Hloop. by rewrite Ho.
Qed.
End Pipeline.

(** ** No panics on well-typed bags

    A bag that gives every attribute a value of its declared type: compiled
    expressions then never panic, and the only errors are missing attributes
    and the failed conversions of [ip] and [timestamp]. *)

Definition value_has (vt : ValueType) (v : iface) : bool :=
  match vt, v with
  | STRING, Some (VStr _) | BOOL, Some (VBool _) | INT64, Some (VInt _) | DURATION, Some (VDur _)
  | DOUBLE, Some (VDouble _) | TIMESTAMP, Some (VTime _) | IP_ADDRESS, Some (VBytes _)
  | STRING_MAP, Some (VMap _) => true
  | _, _ => false
  end.

Definition bag_typed (fd : finder) (get : bag) : Prop :=
  ∀ n vt v, fd n = Some vt → get n = Some v → value_has vt v = true.

(** The values of a type that have the dynamic type it stands for. *)
Definition sval_has (vt : ValueType) (v : sval) : Prop :=
  match vt, v with
  | STRING, SStr _ | BOOL, SBool _ | INT64, SInt _ | DURATION, SInt _ | DOUBLE, SDbl _ => True
  | (TIMESTAMP | IP_ADDRESS | STRING_MAP), SIface i => value_has vt i = true
  | _, _ => False
  end.

(** The errors evaluation may return. *)
Definition expected_error `{GoLib} (e : gerr) : Prop :=
  (∃ n, e = err_lookup n) ∨
  (∃ s, ParseIP s = None ∧ ip_fn s = GoErr e) ∨ (∃ s, ParseRFC3339 s = None ∧ timestamp_fn s = GoErr e).

Definition good {A} `{GoLib} (P : A → Prop) (r : go gerr A) : Prop :=
  match r with GoRet a => P a | GoErr e => expected_error e | GoPanic _ => False end.

Section Sound.
Context `{GoLib} (fd : finder) (get : bag) (Htyped : bag_typed fd get).
Abbreviation den := (den fd get).
Abbreviation den0 := (den0 den).

Lemma good_bind {A B} (P : A → Prop) (Q : B → Prop) (r : go gerr A) (f : A → go gerr B) :
  good P r → (∀ a, P a → good Q (f a)) → good Q (go_bind r f).
Proof using. destruct r; simpl; auto. Qed.

Lemma good_conseq {A} (P Q : A → Prop) (r : go gerr A) : good P r → (∀ a, P a → Q a) → good Q r.
Proof using. destruct r; simpl; auto. Qed.

Lemma convert_typed vt v :
  known vt = true → value_has vt v = true →
  ∃ s, convert (il_type vt) v = GoRet s ∧ sval_has vt s.
Proof using.
  intros Hk Hv. destruct vt; try done; destruct v as [[]|]; try done; simpl; eexists; (split; [done|]); done.
Qed.

(** Values of both modes: present values are well typed; only an alternative
    may be absent. *)
Definition opt_has (u : use) (vt : ValueType) (r : option sval) : Prop :=
  match r with Some v => sval_has vt v | None => u = UAlt end.

Lemma den0_good e vt : good (opt_has UValue vt) (den nmNone e) → good (sval_has vt) (den0 e).
Proof using.
  intros Hd. unfold CompilerSpec.den0. eapply good_bind; [exact Hd|]. by intros [v|].
Qed.

Lemma opt_some (u : use) vt (r : go gerr sval) :
  good (sval_has vt) r → good (opt_has u vt) (let! v := r in GoRet (Some v)).
Proof using. intros Hr. eapply good_bind; [exact Hr|]. done. Qed.

Lemma ret_bool_good u r : good (fun _ : bool => True) r → good (opt_has u BOOL) (ret_bool r).
Proof using. intros Hr. eapply good_bind; [exact Hr|]. done. Qed.

Lemma ip_fn_good s : good (fun v => value_has IP_ADDRESS v = true) (ip_fn s).
Proof using.
  unfold ip_fn. destruct (ParseIP s) eqn:E; [done|]. right. left. exists s. unfold ip_fn. by rewrite E.
Qed.

Lemma timestamp_fn_good s : good (fun v => value_has TIMESTAMP v = true) (timestamp_fn s).
Proof using.
  unfold timestamp_fn. destruct (ParseRFC3339 s) eqn:E; [done|]. right. right. exists s. unfold timestamp_fn. by rewrite E.
Qed.

Lemma den_eq_good a ta x y :
  type_of fd a = GoRet ta → eq_supported fd a = true → sval_has ta x → sval_has ta y →
  good (fun _ : bool => True) (den_eq fd a x y).
Proof using.
  intros Ht Hs Hx Hy. unfold eq_supported in Hs. rewrite Ht in Hs. unfold den_eq. rewrite Ht.
  destruct ta; try done; destruct x as [| | | |v], y as [| | | |v']; try done; simpl in Hx, Hy;
    destruct v as [[]|]; try done; destruct v' as [[]|]; done.
Qed.

Definition dmode (u : use) : nilMode := match u with UAlt => nmJmpOnValue | _ => nmNone end.

Lemma den_good u e :
  sup fd u e → ∀ vt, type_of fd e = GoRet vt → good (opt_has u vt) (den (dmode u) e).
Proof using Htyped.
  induction 1 as [u c Hu Hc|u n t Hu Hf Hk|u name a Hn Hu Ha IHa|u name a b Hn Hu He Ha IHa Hb IHb
    |u name a b Hn Hu Ha IHa Hb IHb|a b Ha IHa Hb IHb|a c Ha IHa Hc
    |a b Ha IHa Ho Hb IHb|a b Ha IHa Ho Hb IHb|a b Ha IHa Hb IHb|a b Ha IHa Hb IHb]; intros vt Ht.
  - injection Ht as <-. simpl. unfold const_ok in Hc. destruct c as [? v t]. simpl in *.
    destruct t, v as [[]|]; done.
  - unfold type_of in Ht. simpl in Ht. rewrite Hf in Ht. injection Ht as <-. simpl. unfold den_var. rewrite Hf.
    destruct (get n) as [v|] eqn:Hg.
    + destruct (convert_typed t v Hk (Htyped n t v Hf Hg)) as (s & -> & Hs). done.
    + destruct u; [left; by exists n|done|done].
  - assert (den (dmode u) (EFn name [a]) = den_fn1 den name a) as -> by done. unfold den_fn1.
    destruct Hn as [-> | ->].
    + destruct (type_call1 fd "ip" newIP a vt eq_refl eq_refl ltac:(done) Ht) as [Hta ->].
      eapply good_bind; [apply den0_good, (IHa STRING Hta)|]. intros x Hx. destruct x; try done. cbn [as_sstr go_bind].
      rewrite decide_True by done. eapply good_bind; [apply ip_fn_good|]. done.
    + destruct (type_call1 fd "timestamp" newTIMESTAMP a vt eq_refl eq_refl ltac:(done) Ht) as [Hta ->].
      eapply good_bind; [apply den0_good, (IHa STRING Hta)|]. intros x Hx. destruct x; try done. cbn [as_sstr go_bind].
      rewrite decide_False by done. eapply good_bind; [apply timestamp_fn_good|]. done.
  - assert (∀ ta, type_of fd a = GoRet ta → type_of fd b = GoRet ta → good (fun _ : bool => True) (den_Eq fd den a b)) as Heq.
    { intros ta Hta Htb. unfold den_Eq. eapply good_bind; [apply den0_good, (IHa ta Hta)|]. intros x Hx.
      eapply good_bind; [apply den0_good, (IHb ta Htb)|]. intros y Hy. by eapply den_eq_good. }
    destruct Hn as [-> | ->].
    + apply type_EQ in Ht as (-> & ta & Hta & Htb); [|done]. apply ret_bool_good. eauto.
    + apply type_NEQ in Ht as (-> & ta & Hta & Htb); [|done]. apply ret_bool_good.
      eapply good_bind; [eauto|]. done.
  - destruct Hn as [->|[-> | ->]].
    + apply type_LOR in Ht as (-> & Hta & Htb). apply ret_bool_good. unfold den_Lor.
      eapply good_bind; [apply den0_good, (IHa _ Hta)|]. intros [] Hx; try done. cbn [as_sbool go_bind].
      destruct b0; [done|]. eapply good_bind; [apply den0_good, (IHb _ Htb)|]. by intros [].
    + apply type_LAND in Ht as (-> & Hta & Htb). apply ret_bool_good. unfold den_Land.
      eapply good_bind; [apply den0_good, (IHa _ Hta)|]. intros x Hx.
      eapply good_bind; [apply den0_good, (IHb _ Htb)|]. intros y Hy. by destruct x, y.
    + apply type_match in Ht as (-> & Hta & Htb). apply ret_bool_good. unfold den_match.
      eapply good_bind; [apply den0_good, (IHa _ Hta)|]. intros x Hx.
      eapply good_bind; [apply den0_good, (IHb _ Htb)|]. intros y Hy. by destruct x, y.
  - apply type_INDEX in Ht as (-> & Hta & Htb).
    change (den (dmode UValue) (EFn "INDEX" [a; b])) with (den_Index den nmNone a b). unfold den_Index.
    eapply good_bind; [apply den0_good, (IHa _ Hta)|]. intros x Hx.
    eapply good_bind; [apply den0_good, (IHb _ Htb)|]. intros y Hy.
    destruct x as [| | | |v], y; try done. simpl in Hx. destruct v as [[]|]; done.
  - apply type_INDEX in Ht as (-> & Hta & Htb). injection Htb as Hct.
    change (den (dmode UAlt) (EFn "INDEX" [a; EConst c])) with (den_Index den nmJmpOnValue a (EConst c)). unfold den_Index.
    eapply good_bind; [apply (IHa _ Hta)|]. intros [x|] Hx; [|done]. cbn [go_bind].
    destruct c as [? cv ct]. simpl in Hct. subst ct. destruct cv as [[]|]; try done. cbn.
    destruct x as [| | | |v]; try done. simpl in Hx. destruct v as [[]|]; try done. simpl. by destruct (_ !! _).
  - apply type_OR_sup in Ht as [Hta Htb]; [|done].
    change (den (dmode UValue) (EFn "OR" [a; b])) with (den_Or den nmNone a b). unfold den_Or.
    eapply good_bind; [apply (IHa _ Hta)|]. intros [x|] Hx; [done|]. apply (IHb _ Htb).
  - apply type_OR_sup in Ht as [Hta Htb]; [|done].
    change (den (dmode UValue) (EFn "OR" [a; b])) with (den_Or den nmNone a b). unfold den_Or.
    eapply good_bind; [apply (IHa _ Hta)|]. intros [x|] Hx; [done|].
    eapply good_conseq; [apply (IHb _ Htb)|]. intros [|]; [done|]. done.
  - apply type_OR_sup in Ht as [Hta Htb]; [|done].
    change (den (dmode UAlt) (EFn "OR" [a; b])) with (den_Or den nmJmpOnValue a b). unfold den_Or.
    eapply good_bind; [apply (IHa _ Hta)|]. intros [x|] Hx; [done|]. apply (IHb _ Htb).
  - apply type_OR_sup in Ht as [Hta Htb]; [|done].
    change (den (dmode ULast) (EFn "OR" [a; b])) with (den_Or den nmNone a b). unfold den_Or.
    eapply good_bind; [apply (IHa _ Hta)|]. intros [x|] Hx; [done|]. apply (IHb _ Htb).
Qed.
End Sound.
