(* ===== verification/IlProps.v ===== *)
(** * Properties of the intermediate language and its interpreter *)

From Stdlib Require Import ZArith Lia.
From stdpp Require Import base list gmap strings relations.
From S2P Require Import Prelude Il Interp Expr Compiler Evaluator BuilderFacts CompilerSpec.
From S2P Require Import MachineFacts InstrFacts InterpFacts.

Open Scope Z_scope.

(** ** The string table *)

Definition intern_all (ss : list string) (t : StringTable) : StringTable :=
  foldl (fun t s => (GetID s t).2) t ss.

Lemma GetID_other s t s' : s' ≠ s → stringToID (GetID s t).2 !! s' = stringToID t !! s'.
Proof. intros Hne. unfold GetID. destruct (stringToID t !! s); [done|]. simpl. by rewrite lookup_insert_ne. Qed.

Lemma newStringTable_only s : s ≠ nullString → stringToID newStringTable !! s = None.
Proof. intros Hs. unfold newStringTable. by rewrite GetID_other. Qed.

Lemma intern_all_spec ss t :
  st_wf t → nextID t + zlength ss < 2 ^ 32 →
  st_wf (intern_all ss t) ∧ st_le t (intern_all ss t) ∧
  (∀ s, s ∈ ss → is_Some (stringToID (intern_all ss t) !! s)) ∧
  (∀ s, s ∉ ss → stringToID (intern_all ss t) !! s = stringToID t !! s) ∧
  nextID (intern_all ss t) <= nextID t + zlength ss.
Proof.
  revert t. induction ss as [|s ss IH]; intros t Hwf Hn; simpl.
  { split_and!; [done|reflexivity|set_solver|done|]. change (zlength []) with 0. lia. }
  autorewrite with zlist in Hn |- *. pose proof (zlength_nonneg ss).
  destruct (GetID_spec s t Hwf ltac:(lia)) as (Hwf' & Hle & Hn' & Hid & _).
  destruct (IH _ Hwf' ltac:(lia)) as (Hw & Hl & Hs & Hnone & Hnext). split_and!; [done|by etrans| | |lia].
  - intros s' [->|Hin]%elem_of_cons; [|auto]. eexists. eapply st_le_lookup; [exact Hl|exact Hid].
  - intros s' [Hne Hin]%not_elem_of_cons. by rewrite Hnone, GetID_other.
Qed.

(** C14: interning.  A string has one id, fixed when it is first interned: after
    any later interning (fewer than [2 ^ 32 - 1] strings in all) looking the id up
    gives the string back, asking for the string's id, with [GetID] or [TryGetID],
    gives the same id and changes nothing, and no other string has that id.  A
    string that was never interned is not found by [TryGetID]. *)
Theorem GetID_GetString (ss : list string) (s : string) :
  zlength ss + 1 < 2 ^ 32 → s ∈ ss →
  let t0 := intern_all ss newStringTable in
  ∃ id, ∀ later, zlength ss + zlength later + 1 < 2 ^ 32 →
    let t := intern_all later t0 in
    GetID s t = (id, t) ∧ TryGetID s t = id ∧ GetString id t = Some s ∧ 0 <= id < StringTable_Size t ∧
    (∀ s', GetID s' t = (id, t) → s' = s) ∧ (∀ s', s' ∉ nullString :: ss ++ later → TryGetID s' t = 0).
Proof.
  intros Hn Hin t0. destruct (intern_all_spec ss newStringTable newStringTable_wf) as (Hw & Hl & Hs & Hnone & Hnext).
  { change (nextID newStringTable) with 1. lia. }
  change (nextID newStringTable) with 1 in Hnext. destruct (Hs s Hin) as [id Hid]. exists id. intros later Hn2 t.
  destruct (intern_all_spec later t0 Hw) as (Hw2 & Hl2 & _ & Hnone2 & _); [fold t0 in Hnext; lia|].
  pose proof (st_le_lookup _ _ _ _ Hl2 Hid) as Hid2. destruct (st_to _ Hw2 _ _ Hid2) as [Hr Hg].
  split_and!; [by apply GetID_idem|unfold TryGetID, t; by rewrite Hid2|done|apply Hr|apply Hr| |].
  - intros s' Hs'. unfold GetID in Hs'. destruct (stringToID t !! s') as [id'|] eqn:E.
    + injection Hs' as ->. by eapply st_id_inj.
    + injection Hs' as Hid' Hc. unfold t in Hid'. lia.
  - intros s' [Hnull [Hss Hla]%not_elem_of_app]%not_elem_of_cons. unfold TryGetID, t. rewrite Hnone2 by done. unfold t0.
    rewrite Hnone by done. by rewrite newStringTable_only.
Qed.

Lemma GetID_GetString_witness :
  let t0 := intern_all ["a"; "b"; "a"] newStringTable in
  ∃ id, ∀ later, zlength ["a"; "b"; "a"] + zlength later + 1 < 2 ^ 32 →
    let t := intern_all later t0 in
    GetID "b" t = (id, t) ∧ TryGetID "b" t = id ∧ GetString id t = Some "b" ∧ 0 <= id < StringTable_Size t ∧
    (∀ s', GetID s' t = (id, t) → s' = "b") ∧ (∀ s', s' ∉ nullString :: ["a"; "b"; "a"] ++ later → TryGetID s' t = 0).
Proof.
  apply (GetID_GetString ["a"; "b"; "a"] "b"); [vm_compute; reflexivity|].
  apply elem_of_cons. right. apply elem_of_cons. left. reflexivity.
Defined.

(** ** Scalars and opcodes *)

(** Encoding a 64-bit integer or a double as two words and decoding it
    gives it back, and both words are in range. *)
Theorem bytecode_roundtrip (z : Z) (d : float64) :
  is_i64 z → is_u64 d →
  (let '(o1, o2) := IntegerToByteCode z in ByteCodeToInteger o1 o2 = z ∧ is_u32 o1 ∧ is_u32 o2) ∧
  (let '(o1, o2) := DoubleToByteCode d in ByteCodeToDouble o1 o2 = d ∧ is_u32 o1 ∧ is_u32 o2).
Proof.
  intros Hz Hd. split.
  - split; [by apply ByteCodeToInteger_IntegerToByteCode|]. split; apply u32_range.
  - split; [by apply ByteCodeToDouble_DoubleToByteCode|]. split; apply u32_range.
Qed.

Lemma bytecode_roundtrip_witness :
  IntegerToByteCode (-2) = (4294967294, 4294967295) ∧ ByteCodeToInteger 4294967294 4294967295 = -2.
Proof.
  split; [vm_compute; reflexivity|].
  apply (bytecode_roundtrip (-2) 0); split; vm_compute; first [reflexivity | discriminate].
Defined.

(** The opcode metadata is consistent: the number and the keyword of an
    opcode both identify it, so reading a printed instruction recovers it, and
    its size counts the instruction word and its arguments. *)
Theorem opcode_metadata (o : Opcode) :
  opcode_of (op_code o) = Some o ∧ GetOpcode (Keyword (op_code o)) = Some o ∧
  Size (op_code o) = 1 + foldr (fun a s => argSize a + s) 0 (Args (op_code o)) ∧
  is_u32 (op_code o).
Proof.
  split_and!; [apply opcode_of_code|apply GetOpcode_Keyword|apply Size_op|apply op_code_u32..].
Qed.

(** ** Linking *)

(** C12: linking.  When a builder's body holds the symbolic code [its] and every
    label the code mentions is placed, [AddFunction] appends a [Halt] and the
    code with each jump operand turned into the absolute address of its label,
    registers the function at that address, and reports no error. *)
Theorem AddFunction_links (b : Builder) (its : list (list item)) (name : string) (ps : list ilType)
    (rt : ilType) (p : Program) :
  binv b its → placed (b_labels b) its → zlength (p_code p) + 1 + zlength (b_body b) < 2 ^ 32 →
  let start := zlength (p_code p) + 1 in
  let '(id, t) := GetID name (p_strings p) in
  AddFunction name ps rt (Build b) p =
    (mkProgram t (<[id := mkFunction ps rt id start (zlength (b_body b))]> (p_functions p))
       (p_code p ++ [op_code Op.Halt] ++ (resolve start (b_labels b) <$> concat its)), None).
Proof. apply AddFunction_spec. Qed.

(** A forward jump over a [Nop]: [jmp L0; nop; L0: ret]. *)
Definition demo_builder : go gerr Builder :=
  let '(l, b) := AllocateLabel (NewBuilder newStringTable) in
  let! b := SetLabelPos l (B.Nop (b_Jmp l b)) in
  GoRet (B.Ret b).

Definition demo_items : list (list item) :=
  [[W (op_code Op.Jmp); L "L0"]; [W (op_code Op.Nop)]; [W (op_code Op.Ret)]].

Lemma demo_builder_ok : ∃ b, demo_builder = GoRet b ∧ binv b demo_items ∧ b_labels b = {[ "L0" := 3 ]}.
Proof.
  destruct (alloc_binv _ _ (NewBuilder_binv newStringTable)) as (H1 & Hl1 & _ & _ & Hf1 & _).
  set (b1 := (AllocateLabel (NewBuilder newStringTable)).2) in *.
  destruct (jump_binv b1 [] H1 Op.Jmp "L0" []) as (H2 & Hl2 & Hd2 & _); [done..|].
  assert (instr (W <$> [op_code Op.Nop])) as Hi by by exists Op.Nop, [].
  pose proof (append_binv _ _ H2 [op_code Op.Nop] Hi) as H3.
  destruct (set_binv _ _ "L0" [1] H3) as (b4 & E4 & H4 & Hl4 & _); [done..|].
  exists (B.Ret b4). split_and!.
  - transitivity (let! b := SetLabelPos "L0" (append_words [op_code Op.Nop] (b_jump Op.Jmp "L0" b1)) in
      GoRet (E := gerr) (B.Ret b)); [reflexivity|]. by rewrite E4.
  - apply (append_binv _ _ H4 [op_code Op.Ret]). by exists Op.Ret, [].
  - simpl. rewrite Hl4. reflexivity.
Qed.

Lemma AddFunction_links_witness :
  ∃ b, demo_builder = GoRet b ∧
    p_code (AddFunction "f" [] Ty.Void (Build b) NewProgram).1 =
      [op_code Op.Halt; op_code Op.Halt; op_code Op.Jmp; 5; op_code Op.Nop; op_code Op.Ret].
Proof.
  destruct demo_builder_ok as (b & E & Hb & Hl). exists b. split; [exact E|].
  pose proof (AddFunction_links b demo_items "f" [] Ty.Void NewProgram Hb) as H.
  rewrite Hl in H. rewrite H; [reflexivity| |].
  - intros l Hin. assert (l = "L0") as ->; [|by eexists].
    unfold demo_items in Hin. simpl in Hin. rewrite !elem_of_cons, elem_of_nil in Hin. naive_solver.
  - rewrite (bi_len _ _ Hb). vm_compute. reflexivity.
Defined.

(** C13: a body that ends in the middle of an instruction is refused: whatever the
    whole instructions before it and their operands are, the error names the
    opcode of the last one and its position, and the function and string tables of
    the program are unchanged.  A body of whole instructions gives no error. *)
Theorem AddFunction_truncated (its : list (list Z)) (op : Z) (short : list Z) (name : string)
    (ps : list ilType) (rt : ilType) (p : Program) :
  Forall whole its → zlength (concat its) + 1 + zlength short < 2 ^ 32 →
  (zlength short + 1 < Size op →
   let r := AddFunction name ps rt (concat its ++ op :: short) p in
   r.2 = Some (Errorf "opcode requires more arguments than are present in the body: op: %v, loc: %d"
                 [AStr (opcode_String op); AInt (zlength (concat its))]) ∧
   p_functions r.1 = p_functions p ∧ p_strings r.1 = p_strings p) ∧
  (AddFunction name ps rt (concat its) p).2 = None.
Proof.
  intros Hi Hl. pose proof (zlength_nonneg (concat its)). pose proof (zlength_nonneg short). split.
  - intros Hs. unfold AddFunction. set (body := _ ++ op :: short). set (start := u32 _). set (code := p_code p ++ _).
    assert (zlength body = zlength (concat its) + 1 + zlength short) as Hb.
    { unfold body. rewrite zlength_app, zlength_cons. lia. }
    rewrite Hb, u32_id by width. pose proof (transcribe_short start _ its op short code (length body) Hi eq_refl Hs) as Ht.
    fold body in Ht. destruct (transcribe _ _ _ _ _ _) as [c e]. simpl in Ht. rewrite Ht; [done|].
    unfold zlength in Hb. lia.
  - unfold AddFunction. rewrite (u32_id (zlength (concat its))) by width. set (start := u32 _). set (code := p_code p ++ _).
    destruct (transcribe_whole start (zlength (concat its)) its [] code 0 (length (concat its)) Hi) as (f' & c' & _ & E);
      [lia|simpl; lia|]. rewrite app_nil_r in E. rewrite E. replace (transcribe f' start _ _ [] c') with (c', @None gerr) by (by destruct f').
    by destruct (GetID name (p_strings p)).
Qed.

(** A jump to 17, then an instruction cut short. *)
Lemma AddFunction_truncated_witness :
  let r := AddFunction "f" [] Ty.Void (concat [[op_code Op.Jmp; 17]; [op_code Op.Nop]] ++ op_code Op.APushI :: [7]) NewProgram in
  r.2 = Some (Errorf "opcode requires more arguments than are present in the body: op: %v, loc: %d"
                [AStr "APushI"; AInt 3]) ∧
  p_functions r.1 = ∅ ∧ p_strings r.1 = newStringTable.
Proof.
  apply (AddFunction_truncated [[op_code Op.Jmp; 17]; [op_code Op.Nop]] (op_code Op.APushI) [7] "f" [] Ty.Void NewProgram).
  - constructor; [exists (op_code Op.Jmp), [17]; split; reflexivity|].
    constructor; [exists (op_code Op.Nop), []; split; reflexivity|constructor].
  - vm_compute. reflexivity.
  - vm_compute. reflexivity.
Defined.

(** ** The machine *)

(** C11: whatever the byte code, the function table and the externs, a run of a
    function without parameters keeps the machine within its arrays: in every
    state it reaches the stack pointer is between 0 and 64, the heap pointer
    between 0 and 64, the frame pointer between 0 and 64, and the arrays have
    their declared sizes. *)
Theorem run_within_bounds (i : Interpreter) (get : bag) (fn : Function) (m : machine) :
  Parameters fn = [] → steps i get (initial fn (p_strings (program i))) m →
  0 <= sp m <= opStackSize ∧ 0 <= hp m <= heapSize ∧ 0 <= fp m <= callStackSize ∧
  zlength (opstack m) = opStackSize ∧ zlength (heap m) = heapSize ∧
  zlength (frames m) = callStackSize ∧ zlength (registers m) = registerCount.
Proof.
  intros Hp Hs. destruct (steps_minv i get fn _ m Hp Hs (initial_minv fn _)). done.
Qed.

(** A program that calls itself. *)
Definition demo_loop : Program :=
  (AddFunction "f" [] Ty.Void [op_code Op.APushB; 1; op_code Op.Call; 1] NewProgram).1.

Definition demo_fn : Function := mkFunction [] Ty.Void 1 2 4.

Lemma run_within_bounds_witness :
  ∃ m, step (newIntr demo_loop ∅) (fun _ => None) (initial demo_fn (p_strings demo_loop)) = GoRet (inl m) ∧
    0 <= sp m <= opStackSize ∧ 0 <= hp m <= heapSize ∧ 0 <= fp m <= callStackSize ∧
    zlength (opstack m) = opStackSize ∧ zlength (heap m) = heapSize ∧
    zlength (frames m) = callStackSize ∧ zlength (registers m) = registerCount.
Proof.
  eexists. split; [vm_compute; reflexivity|].
  apply (run_within_bounds (newIntr demo_loop ∅) (fun _ => None) demo_fn); [reflexivity|].
  apply rtc_once. vm_compute. reflexivity.
Defined.

(** Integer addition and subtraction on the stack wrap around at 64 bits:
    [AddI] leaves the two words of [a + b] and [SubI] those of [a - b], reduced
    to the [int64] range, and nothing else changes. *)
Theorem AddI_SubI_wrap (fn : Function) (m : machine) (pc : Z) (ws : list Z) (hs : list iface)
    (t : StringTable) (neg : bool) (a b : Z) :
  st fn m pc (ws ++ words64 a ++ words64 b) hs t → is_i64 a → is_i64 b →
  ∃ m', op_AddSubI neg m = GoRet m' ∧
    st fn m' pc (ws ++ words64 (i64 (if neg then a - b else a + b))) hs t.
Proof. apply op_AddSubI_spec. Qed.

Definition demo_max : Z := 2 ^ 63 - 1.

Definition demo_machine : machine :=
  set_sp 4 (set_opstack (words64 demo_max ++ words64 1 ++ replicate 60 0) (initial demo_fn newStringTable)).

Lemma AddI_SubI_wrap_witness :
  ∃ m', op_AddSubI false demo_machine = GoRet m' ∧ st demo_fn m' 2 (words64 (- 2 ^ 63)) [] newStringTable.
Proof.
  apply (AddI_SubI_wrap demo_fn demo_machine 2 [] [] newStringTable false demo_max 1).
  - split; try reflexivity; [by exists (replicate 60 0)|by exists (replicate 64 None)].
  - vm_compute. split; [discriminate|reflexivity].
  - vm_compute. split; [discriminate|reflexivity].
Defined.

(** The fuel of the loop only bounds how long a run is observed: once the
    run has ended, with a result, an error or a panic, more fuel gives the same
    outcome. *)
Theorem Eval_fuel (i : Interpreter) (get : bag) (name : string) (n k : nat)
    (r : go gerr Result * StringTable) :
  Eval i get n name = Some r → Eval i get (n + k) name = Some r.
Proof.
  unfold Eval, run. destruct (FunctionTable_Get name (program i)) as [fn|]; [|done].
  destruct (Parameters fn); [|done]. apply loop_more.
Qed.

Lemma Eval_fuel_witness :
  (fst <$> Eval (newIntr demo_loop ∅) (fun _ => None) (200 + 300) "f") = Some (GoErr (errors_New "stack overflow")).
Proof.
  assert (∃ r, Eval (newIntr demo_loop ∅) (fun _ => None) 200 "f" = Some r ∧
    r.1 = GoErr (errors_New "stack overflow")) as ([r1 t] & Hr & He).
  { eexists. split; [vm_compute; reflexivity|reflexivity]. }
  simpl in He. subst r1. by rewrite (Eval_fuel _ _ _ 200 300 _ Hr).
Defined.
