(* ===== verification/CompilerProps.v ===== *)
(** * Properties of compiled expressions

    The theorems about the whole path of an expression: type checking,
    compilation, linking with the externs, execution, conversion of the
    result.  The reference semantics is [den] of [CompilerSpec].  The witnesses
    run the theorems on a small vocabulary, with a library of Go parsing
    functions that know one address and one timestamp. *)

From Stdlib Require Import ZArith Lia Ascii.
From stdpp Require Import base list gmap strings.
From S2P Require Import Prelude Il Interp Expr Compiler Evaluator BuilderFacts CompilerSpec.
From S2P Require Import MachineFacts InstrFacts GenFacts CodeFacts CompilerCorrect.

Open Scope Z_scope.

(** ** A concrete vocabulary *)

Module Demo.

Definition loopback : string :=
  String "127"%char (String "000"%char (String "000"%char (String "001"%char EmptyString))).

#[export] Instance lib : GoLib := {|
  ParseFloat v := if decide (v = "1.5") then GoRet 4609434218613702656 else GoErr (errors_New "invalid syntax");
  Unquote v := GoRet (str_take (String.length v - 2) (str_drop 1 v));
  ParseDuration v := if decide (v = "1s") then Some 1000000000 else None;
  ParseIP v := if decide (v = "127.0.0.1") then Some loopback else None;
  ParseRFC3339 v := if decide (v = "2017-01-01T00:00:00Z") then Some (mkTime 1483228800000000000 "UTC") else None
|}.

Definition fd : finder := fun n =>
  if decide (n = "source.name") then Some STRING
  else if decide (n = "request.size") then Some INT64
  else if decide (n = "request.headers") then Some STRING_MAP
  else if decide (n = "source.ip") then Some IP_ADDRESS
  else if decide (n = "response.duration") then Some DURATION
  else None.

Definition get : bag := fun n =>
  if decide (n = "source.name") then Some (Some (VStr "productpage"))
  else if decide (n = "request.headers") then Some (Some (VMap {[ "cookie" := "user=jason" ]}))
  else if decide (n = "source.ip") then Some (Some (VBytes loopback))
  else None.

Definition str (s : string) : Expression := EConst (mkConst s (Some (VStr s)) STRING).
Definition int (z : Z) : Expression := EConst (mkConst "" (Some (VInt z)) INT64).

(** [source.ip == ip("127.0.0.1") && (request.size | 7) == 7
      || request.headers["cookie"] == "x"]. *)
Definition cond : Expression :=
  EFn "LOR"
    [EFn "LAND" [EFn "EQ" [EVar "source.ip"; EFn "ip" [str "127.0.0.1"]];
                 EFn "EQ" [EFn "OR" [EVar "request.size"; int 7]; int 7]];
     EFn "EQ" [EFn "INDEX" [EVar "request.headers"; str "cookie"]; str "x"]].

Lemma get_ok : bag_ok get.
Proof. intros n v. unfold get. by repeat case_decide; intros [= <-]. Qed.

Lemma get_typed : bag_typed fd get.
Proof.
  intros n vt v. unfold fd, get.
  destruct (decide (n = "source.name")) as [->|_]; [by intros [= <-] [= <-]|].
  destruct (decide (n = "request.size")) as [->|_]; [by intros [= <-]|].
  destruct (decide (n = "request.headers")) as [->|_]; [by intros [= <-] [= <-]|].
  destruct (decide (n = "source.ip")) as [->|_]; [by intros [= <-] [= <-]|].
  by case_decide.
Qed.

End Demo.

#[local] Existing Instance Demo.lib.

(** ** Compiled evaluation *)

(** C1: compiling an expression of the supported class, linking it with the
    externs and running it ends, for every fuel from some bound on, with
    exactly the outcome of the reference semantics: the same value, the same
    error or the same panic. *)
Theorem eval_refines_den `{GoLib} (fd : finder) (get : bag) (e : Expression) (vt : ValueType) :
  bag_ok get → type_of fd e = GoRet vt → supported fd UValue e = true →
  stack_need e <= 64 → heap_need fd e <= 63 → nodes e <= 2 ^ 27 →
  ∃ n, ∀ fuel, (n <= fuel)%nat →
    eval_expression fuel fd e get = Some (let! v := den0 (den fd get) e in GoRet (iface_of vt v)).
Proof. intros. by apply eval_den. Qed.

Lemma eval_refines_den_witness :
  ∃ n, ∀ fuel, (n <= fuel)%nat →
    eval_expression fuel Demo.fd Demo.cond Demo.get = Some (GoRet (Some (VBool true))).
Proof.
  destruct (eval_refines_den Demo.fd Demo.get Demo.cond BOOL Demo.get_ok) as [n Hn];
    [vm_compute; first [reflexivity | discriminate]..|].
  exists n. intros fuel Hf. rewrite (Hn fuel Hf). vm_compute. reflexivity.
Defined.

(** C9: on a bag that gives every attribute a value of its declared type, the
    evaluation of a supported expression never panics: it ends with a value of
    the expression's type, or with the error of a missing attribute or of a
    failed [ip] or [timestamp] conversion. *)
Theorem eval_type_sound `{GoLib} (fd : finder) (get : bag) (e : Expression) (vt : ValueType) :
  bag_ok get → bag_typed fd get → type_of fd e = GoRet vt → supported fd UValue e = true →
  stack_need e <= 64 → heap_need fd e <= 63 → nodes e <= 2 ^ 27 →
  ∃ n r, (∀ fuel, (n <= fuel)%nat → eval_expression fuel fd e get = Some r) ∧
    match r with
    | GoRet v => value_has vt v = true ∨ (vt = STRING ∧ v = None)
    | GoErr err => expected_error err
    | GoPanic _ => False
    end.
Proof.
  intros Hb Ht Hty Hs H1 H2 H3. destruct (eval_den fd get e vt Hb Hty Hs H1 H2 H3) as [n Hn].
  exists n. eexists. split; [exact Hn|].
  pose proof (den_good fd get Ht UValue e (supported_sup _ _ _ Hs) vt Hty) as Hg.
  apply den0_good in Hg. destruct (den0 (den fd get) e) as [v| |]; [|done..].
  cbn [go_bind]. simpl in Hg. destruct vt; try done; destruct v; try done; simpl in *; auto.
  case_decide; auto.
Qed.

Lemma eval_type_sound_witness :
  bag_typed Demo.fd Demo.get ∧
  ∃ n r, (∀ fuel, (n <= fuel)%nat → eval_expression fuel Demo.fd Demo.cond Demo.get = Some r) ∧
    match r with
    | GoRet v => value_has BOOL v = true ∨ (BOOL = STRING ∧ v = None)
    | GoErr err => expected_error err
    | GoPanic _ => False
    end.
Proof.
  split; [apply Demo.get_typed|].
  apply (eval_type_sound Demo.fd Demo.get Demo.cond BOOL Demo.get_ok Demo.get_typed);
    vm_compute; first [reflexivity | discriminate].
Defined.

(** C10: the compiler accepts every supported well-typed expression of at most
    [2 ^ 27] nodes: no internal error, no panic.  The program holds a function
    ["eval"] without parameters whose return type is the IL type of the
    expression, and the byte code starts it after two [Halt] words. *)
Theorem Compile_accepts (fd : finder) (e : Expression) (vt : ValueType) :
  type_of fd e = GoRet vt → supported fd UValue e = true → nodes e <= 2 ^ 27 →
  ∃ p fn, Compile fd e = GoRet (p, e) ∧ FunctionTable_Get "eval" p = Some fn ∧
    Parameters fn = [] ∧ ReturnType fn = il_type vt ∧ Address fn = 2 ∧
    zlength (ByteCode p) = 2 + Length fn ∧ zlookup (ByteCode p) 1 = Some (op_code Op.Halt) ∧
    st_wf (p_strings p).
Proof.
  intros Hty Hs Hn. set (get0 := (fun _ => None) : bag).
  assert (bag_ok get0) as Hb by done. pose proof Demo.lib.
  destruct (generated fd get0 e vt Hb Hty Hs Hn) as (g & E & Hall).
  pose proof (Compile_linked fd get0 e vt Hb Hty Hs Hn g E) as Hc.
  destruct (Hall some_interpreter (mkFunction [] Ty.Void 0 0 0) eq_refl some_bound) as (frag & He & _).
  destruct (finished e Hn g frag He) as (Hi & Hp & Hl & Hx & _).
  destruct Hi as [Hbi _ Hwf]. unfold linked_program in Hc.
  pose proof (AddFunction_spec _ _ "eval" [] (il_type vt)
    (mkProgram (g_strings (emit B.Ret g)) ∅ [op_code Op.Halt]) Hbi Hp) as Hadd.
  cbn [p_code p_strings p_functions] in Hadd. rewrite (bi_len _ _ Hbi) in Hadd.
  change (zlength [op_code Op.Halt]) with 1 in Hadd. specialize (Hadd ltac:(lia)).
  pose proof (GetID_spec "eval" _ Hwf ltac:(lia)) as Hid.
  destruct (GetID "eval" (g_strings (emit B.Ret g))) as [id t] eqn:EG. simpl in Hid.
  destruct Hid as (Hwf' & _ & _ & Hid & _). rewrite Hadd in Hc. cbn [fst] in Hc.
  do 2 eexists. split; [exact Hc|]. unfold FunctionTable_Get, TryGetID. cbn [p_strings p_functions].
  rewrite Hid. destruct (Z.eqb_spec id 0) as [->|_].
  { pose proof (st_id_inj _ _ _ _ Hwf' Hid (st_null _ Hwf')). done. }
  rewrite lookup_insert_eq. split_and!; try done. simpl.
  unfold zlength. simpl. rewrite length_fmap. lia.
Qed.

Lemma Compile_accepts_witness :
  ∃ p fn, Compile Demo.fd Demo.cond = GoRet (p, Demo.cond) ∧ FunctionTable_Get "eval" p = Some fn ∧
    Parameters fn = [] ∧ ReturnType fn = Ty.Bool ∧ Address fn = 2 ∧
    zlength (ByteCode p) = 2 + Length fn ∧ zlookup (ByteCode p) 1 = Some (op_code Op.Halt) ∧
    st_wf (p_strings p).
Proof.
  apply (Compile_accepts Demo.fd Demo.cond BOOL); vm_compute; first [reflexivity | discriminate].
Defined.
