(* ===== verification/ExprFacts.v ===== *)
(** * Facts on the expression language

    The tree-walking evaluator against the type checker, against the matches
    extracted from an expression and against the compiled semantics. *)

From Stdlib Require Import ZArith Lia.
From stdpp Require Import base list gmap strings.
From S2P Require Import Prelude Il Interp Expr Compiler Evaluator CompilerSpec CodeFacts CompilerCorrect.

Open Scope Z_scope.

(** ** The function map *)

#[export] Instance funcKind_eq_dec : EqDecision funcKind.
Proof. solve_decision. Defined.
#[export] Instance FuncBase_eq_dec : EqDecision FuncBase.
Proof. solve_decision. Defined.

Lemma FuncMap_inv name fn : FuncMap !! name = Some fn → fn ∈ inventory ∧ f_name fn = name.
Proof.
  intros Hl. assert (map_Forall (fun n f => f ∈ inventory ∧ f_name f = n) FuncMap) as HF.
  { apply (bool_decide_unpack _). vm_compute. exact I. }
  by apply (HF name fn).
Qed.

(** Case analysis on the function a name denotes. *)
Ltac func_cases H :=
  let Hin := fresh "Hin" in
  destruct (FuncMap_inv _ _ H) as [Hin <-];
  unfold inventory in Hin; rewrite !elem_of_cons, elem_of_nil in Hin;
  destruct Hin as [->|[->|[->|[->|[->|[->|[->|[->|[->|[]]]]]]]]]].

(** ** Well-formed expressions: constants in range, calls of known functions
    with the declared number of arguments *)

Fixpoint wf_expr (e : Expression) : bool :=
  match e with
  | EConst c => const_ok c
  | EVar _ => true
  | EFn name args =>
      match FuncMap !! name with
      | Some fn => (length args =? length (f_argTypes fn))%nat && forallb wf_expr args
      | None => false
      end
  | ENone => false
  end.

Fixpoint has_index (e : Expression) : bool :=
  match e with
  | EFn name args => bool_decide (name = "INDEX") || existsb has_index args
  | _ => false
  end.

Section TreeTypes.
Context `{GoLib} (fd : finder) (get : bag) (Htyped : bag_typed fd get).
Abbreviation ev := (expr_Eval get FuncMap).
Abbreviation type_of := (type_of fd).

(** An outcome of a type: nil only at type string, a panic only when [p]. *)
Definition tree_typed (p : bool) (vt : ValueType) (r : go gerr iface) : Prop :=
  match r with
  | GoRet None => vt = STRING
  | GoRet v => value_has vt v = true
  | GoErr _ => True
  | GoPanic _ => p = true
  end.

Lemma tree_typed_bind p vt ta (r : go gerr iface) (f : iface → go gerr iface) :
  tree_typed p ta r → (∀ v, tree_typed p ta (GoRet v) → tree_typed p vt (f v)) →
  tree_typed p vt (go_bind r f).
Proof using. destruct r; simpl; auto. Qed.

Lemma tree_typed_mono (p p' : bool) vt r : (p = true → p' = true) → tree_typed p vt r → tree_typed p' vt r.
Proof using. destruct r as [[]| |]; simpl; auto. Qed.

Lemma eq_call_typed ta a0 a1 p :
  tree_typed p ta (GoRet a0) → tree_typed p ta (GoRet a1) → ∃ b, eq_call a0 a1 = GoRet b.
Proof using.
  destruct a0 as [[]|], a1 as [[]|]; simpl; eauto; destruct ta; try done; eauto.
Qed.

(** The types of the arguments of a call of a polymorphic function. *)
Lemma type_poly name fn a b vt :
  FuncMap !! name = Some fn → f_argTypes fn = [VALUE_TYPE_UNSPECIFIED; VALUE_TYPE_UNSPECIFIED] →
  type_of (EFn name [a; b]) = GoRet vt →
  ∃ ta tb, type_of a = GoRet ta ∧ type_of b = GoRet tb ∧ (ta ≠ VALUE_TYPE_UNSPECIFIED → ta = tb) ∧
    vt = if decide (f_retType fn = VALUE_TYPE_UNSPECIFIED) then tb else f_retType fn.
Proof using.
  intros Hf Ht. unfold CompilerSpec.type_of. cbn [EvalType]. unfold fn_EvalType.
  rewrite Hf, Ht. cbn [length map Nat.ltb Nat.leb check_args].
  destruct (EvalType fd FuncMap a) as [ta| |]; cbn [go_bind]; [|done..].
  rewrite decide_True by done. destruct (EvalType fd FuncMap b) as [tb| |]; cbn [go_bind]; [|done..].
  intros Hc. exists ta, tb. split_and!; [done..| |];
    repeat case_decide; naive_solver.
Qed.

Lemma tree_unspec p r : tree_typed p VALUE_TYPE_UNSPECIFIED r → ∀ v, r ≠ GoRet v.
Proof using. by destruct r as [[]| |]. Qed.

(** One lemma per built-in, over the outcomes of its arguments. *)
Lemma eq_Call_typed p ta tb inv ra rb :
  tree_typed p ta ra → tree_typed p tb rb → (ta ≠ VALUE_TYPE_UNSPECIFIED → ta = tb) →
  tree_typed p BOOL (eq_Call inv [ra; rb]).
Proof using.
  intros Ha Hb Hab. unfold eq_Call, nth_ev. simpl.
  destruct ra as [a0| |]; cbn [go_bind]; [|done..].
  assert (ta = tb) as <-.
  { apply Hab. intros ->. by apply (tree_unspec _ _ Ha a0). }
  destruct rb as [a1| |]; cbn [go_bind]; [|done..].
  destruct (eq_call_typed ta a0 a1 p Ha Hb) as [b ->]. done.
Qed.

Lemma logical_typed p x ra rb :
  tree_typed p BOOL ra → tree_typed p BOOL rb → tree_typed p BOOL (logicalAndOr x [ra; rb]).
Proof using.
  intros Ha Hb. simpl. destruct ra; cbn [go_bind]; [|done..]. case_decide; [done|].
  destruct rb; cbn [go_bind]; [|done..]. by case_decide.
Qed.

Lemma or_typed p ta tb ra rb :
  tree_typed p ta ra → tree_typed p tb rb → (ta ≠ VALUE_TYPE_UNSPECIFIED → ta = tb) →
  tree_typed p tb (or_call [] [ra; rb]).
Proof using.
  intros Ha Hb Hab. simpl. destruct ra as [a0|err|]; [| |done].
  - assert (ta = tb) as <-.
    { apply Hab. intros ->. by apply (tree_unspec _ _ Ha a0). }
    case_decide as Hn; [done|]. assert (ta = STRING) as ->.
    { destruct a0 as [v|]; [|done]. destruct (decide (Some v = Some (VStr ""))) as [Hv|Hv].
      - injection Hv as ->. by destruct ta.
      - destruct Hn. by split. }
    destruct rb as [a1| |]; [|done..]. by case_decide.
  - destruct rb as [a1|err'|]; [|done..]. case_decide as Hn; [done|]. simpl.
    destruct a1 as [v|]; [|done]. destruct (decide (Some v = Some (VStr ""))) as [Hv|Hv].
    + injection Hv as ->. by destruct tb.
    + destruct Hn. by split.
Qed.

Lemma ip_typed p r : tree_typed p STRING r → tree_typed p IP_ADDRESS (ip_call [r]).
Proof using.
  intros Hr. unfold ip_call, nth_ev. simpl. destruct r as [[[]|]| |]; cbn [go_bind]; try done.
  by destruct (ParseIP _).
Qed.

Lemma timestamp_typed p r : tree_typed p STRING r → tree_typed p TIMESTAMP (timestamp_call [r]).
Proof using.
  intros Hr. unfold timestamp_call, nth_ev. simpl. destruct r as [[[]|]| |]; cbn [go_bind]; try done.
  by destruct (ParseRFC3339 _).
Qed.

Lemma match_typed p ra rb :
  tree_typed p STRING ra → tree_typed p STRING rb → tree_typed p BOOL (match_call [ra; rb]).
Proof using.
  intros Ha Hb. unfold match_call, nth_ev. simpl. destruct ra as [v| |]; cbn [go_bind]; [|done..].
  destruct rb as [v'| |]; cbn [go_bind]; [|done..]. by destruct v as [[]|], v' as [[]|].
Qed.

Lemma index_typed args evs : tree_typed true STRING (index_call get args evs).
Proof using.
  unfold index_call. destruct args as [|[]]; try done. destruct (var_Eval get name) as [v| |]; cbn [go_bind]; [|done..].
  destruct (nth_ev 1 evs) as [k| |]; cbn [go_bind]; [|done..]. by destruct v as [[]|], k as [[]|].
Qed.

(** The type checker is sound for the tree-walking evaluator. *)
Lemma tree_sound e vt :
  wf_expr e = true → type_of e = GoRet vt → tree_typed (has_index e) vt (ev e).
Proof using Htyped.
  revert vt. induction e as [c|n|name args IH|] using Expression_nested; intros vt Hwf Ht; [| | |done].
  - injection Ht as <-. simpl in *. unfold const_ok in Hwf. destruct c as [? v t]. simpl in *.
    destruct t, v as [[]|]; done.
  - unfold CompilerSpec.type_of in Ht. simpl in *. destruct (fd n) eqn:Hf; [|done]. injection Ht as ->. unfold var_Eval.
    destruct (get n) as [v|] eqn:Hg; [|done]. pose proof (Htyped n vt v Hf Hg). simpl. destruct v; [done|]. by destruct vt.
  - simpl in Hwf. destruct (FuncMap !! name) as [fn|] eqn:Hfn; [|done].
    apply andb_true_iff in Hwf as [Hlen%Nat.eqb_eq Hargs].
    assert (∀ a ta, a ∈ args → type_of a = GoRet ta → tree_typed (has_index (EFn name args)) ta (ev a)) as IH'.
    { intros a ta Ha Hta. rewrite Forall_forall in IH. apply (tree_typed_mono (has_index a)).
      - intros Hi. simpl. apply orb_true_iff. right. apply existsb_exists. exists a. split; [|done].
        by apply list_elem_of_In.
      - apply IH; [done| |done]. rewrite forallb_forall in Hargs. apply Hargs. by apply list_elem_of_In. }
    simpl ev. rewrite Hfn. clear IH Hargs.
    func_cases Hfn; simpl in Hlen; destruct args as [|a [|b [|? ?]]]; try done; clear Hlen;
      cbn [f_kind newEQ newNEQ newLAND newLOR newOR newIndex newIP newMatch newTIMESTAMP Call map];
      set (p := has_index _) in *.
    + destruct (type_poly _ _ _ _ _ Hfn eq_refl Ht) as (ta & tb & Ha & Hb & Hab & ->).
      eapply eq_Call_typed; [eapply IH'; [|exact Ha]; set_solver|eapply IH'; [|exact Hb]; set_solver|done].
    + destruct (type_poly _ _ _ _ _ Hfn eq_refl Ht) as (ta & tb & Ha & Hb & Hab & ->).
      eapply eq_Call_typed; [eapply IH'; [|exact Ha]; set_solver|eapply IH'; [|exact Hb]; set_solver|done].
    + destruct (type_poly _ _ _ _ _ Hfn eq_refl Ht) as (ta & tb & Ha & Hb & Hab & ->).
      eapply or_typed; [eapply IH'; [|exact Ha]; set_solver|eapply IH'; [|exact Hb]; set_solver|done].
    + apply type_LOR in Ht as (-> & Ha & Hb). apply logical_typed; apply IH'; (set_solver || done).
    + apply type_LAND in Ht as (-> & Ha & Hb). apply logical_typed; apply IH'; (set_solver || done).
    + apply type_INDEX in Ht as (-> & _). apply index_typed.
    + destruct (type_call1 fd _ _ a vt Hfn eq_refl ltac:(done) Ht) as [Ha ->]. apply ip_typed, IH'; (set_solver || done).
    + destruct (type_call1 fd _ _ a vt Hfn eq_refl ltac:(done) Ht) as [Ha ->]. apply timestamp_typed, IH'; (set_solver || done).
    + apply type_match in Ht as (-> & Ha & Hb). apply match_typed; apply IH'; (set_solver || done).
Qed.
End TreeTypes.

(** ** Equality matches *)

Section Extract.
Context `{GoLib} (get : bag).
Abbreviation ev := (expr_Eval get FuncMap).

(** The attribute compares equal to the constant, on either side. *)
Definition eq_holds (x : string) (v : iface) : Prop :=
  ∃ gv, get x = Some gv ∧ (eq_call gv v = GoRet true ∨ eq_call v gv = GoRet true).

Definition all_hold (m : gmap string iface) : Prop := ∀ x v, m !! x = Some v → eq_holds x v.

Lemma all_hold_insert x v m : eq_holds x v → all_hold m → all_hold (<[x := v]> m).
Proof using.
  intros Hx Hm y w. rewrite lookup_insert. case_decide as E; [|apply Hm]. subst. by intros [= <-].
Qed.

(** A conjunction that is not false has no false conjunct. *)
Lemma logical_all evs r :
  logicalAndOr false evs = GoRet r → r ≠ Some (VBool false) →
  Forall (fun q => ∃ v, q = GoRet v ∧ v ≠ Some (VBool false)) evs.
Proof using.
  intros Hl Hr. induction evs as [|q evs IH]; [constructor|]. simpl in Hl.
  destruct q as [v| |]; cbn [go_bind] in Hl; [|done..]. case_decide; [congruence|].
  constructor; [by exists v|]. by apply IH.
Qed.

Lemma eq_ev args r :
  ev (EFn "EQ" args) = GoRet r → r ≠ Some (VBool false) →
  ∃ a b args' va vb, args = a :: b :: args' ∧ ev a = GoRet va ∧ ev b = GoRet vb ∧ eq_call va vb = GoRet true.
Proof using.
  intros Hev Hr. change (eq_Call false (map ev args) = GoRet r) in Hev. unfold eq_Call, nth_ev in Hev.
  destruct args as [|a args]; [done|]. simpl in Hev. destruct (ev a) as [va| |] eqn:Ea; cbn [go_bind] in Hev; [|done..].
  destruct args as [|b args]; [done|]. simpl in Hev. destruct (ev b) as [vb| |] eqn:Eb; cbn [go_bind] in Hev; [|done..].
  destruct (eq_call va vb) as [[]| |] eqn:Eq; cbn [go_bind] in Hev; [|congruence|done..].
  by exists a, b, args, va, vb.
Qed.

Lemma recordIfEQ_sound name args m m' r :
  recordIfEQ name args m = GoRet m' → ev (EFn name args) = GoRet r → r ≠ Some (VBool false) →
  all_hold m → all_hold m'.
Proof using.
  unfold recordIfEQ. case_decide as E; [subst name|by intros [= <-]]. intros Hrec Hev Hr Hm.
  destruct (eq_ev args r Hev Hr) as (a & b & args' & va & vb & -> & Ea & Eb & Eq).
  assert (∀ z w, var_Eval get z = GoRet w → get z = Some w) as Hvar.
  { intros z w. unfold var_Eval. destruct (get z); [by intros [= ->]|done]. }
  destruct a as [c|x| |], b as [c'|y| |]; simplify_eq/=; try done; apply all_hold_insert; try done.
  - exists vb. auto.
  - exists va. auto.
Qed.

Lemma extract_sound e : ∀ m m' r,
  extractEQMatches e m = GoRet m' → ev e = GoRet r → r ≠ Some (VBool false) → all_hold m → all_hold m'.
Proof using.
  induction e as [c|n|name args IH|] using Expression_nested; intros m m' r Hx Hev Hr Hm; try by injection Hx as <-.
  cbn [extractEQMatches] in Hx. destruct (recordIfEQ name args m) as [m1| |] eqn:Erec; cbn [go_bind] in Hx; [|done..].
  assert (all_hold m1) as Hm1 by by eapply recordIfEQ_sound.
  case_decide as E; [subst name|by injection Hx as <-]. clear Erec Hm.
  change (logicalAndOr false (map ev args) = GoRet r) in Hev. pose proof (logical_all _ _ Hev Hr) as Hall. clear Hev.
  revert m1 Hx Hm1. induction IH as [|a args Ha _ IHa]; intros m1 Hx Hm1; [by injection Hx as <-|].
  simpl in Hall. apply Forall_cons in Hall as [(v & Hv & Hn) Hall].
  destruct (extractEQMatches a m1) as [m2| |] eqn:Ea; cbn [go_bind] in Hx; [|done..].
  eapply (IHa Hall m2); [exact Hx|]. by eapply Ha.
Qed.
End Extract.

(** ** Constants built by the parser *)

(** What [strconv.ParseFloat] and [time.ParseDuration] document: a double is 64
    bits, a duration is an [int64] of nanoseconds. *)
Definition lib_ranges `{GoLib} : Prop :=
  (∀ s d, ParseFloat s = GoRet d → is_u64 d) ∧ (∀ s d, ParseDuration s = Some d → is_i64 d).

(** The literals of an expression are integers, floats, characters or strings. *)
Fixpoint literals_ok (a : ast_Expr) : bool :=
  match a with
  | UnaryExpr _ x | ParenExpr x | SelectorExpr x _ => literals_ok x
  | BinaryExpr _ x y | IndexExpr x y => literals_ok x && literals_ok y
  | CallExpr f args => forallb literals_ok args
  | BasicLit k _ => match k with Tok.INT | Tok.FLOAT | Tok.CHAR | Tok.STRING => true | _ => false end
  | _ => true
  end.

Fixpoint consts_ok (e : Expression) : bool :=
  match e with
  | EConst c => const_ok c
  | EFn _ args => forallb consts_ok args
  | _ => true
  end.

Section AstInd.
Context (P : ast_Expr → Prop).
Hypothesis HU : ∀ op x, P x → P (UnaryExpr op x).
Hypothesis HB : ∀ op x, P x → ∀ y, P y → P (BinaryExpr op x y).
Hypothesis HC : ∀ f args, Forall P args → P (CallExpr f args).
Hypothesis HP : ∀ x, P x → P (ParenExpr x).
Hypothesis HL : ∀ k v, P (BasicLit k v).
Hypothesis HI : ∀ n, P (Ident n).
Hypothesis HS : ∀ x sel, P x → P (SelectorExpr x sel).
Hypothesis HX : ∀ x, P x → ∀ y, P y → P (IndexExpr x y).
Hypothesis HO : P OtherExpr.
Fixpoint ast_nested (a : ast_Expr) : P a :=
  match a with
  | UnaryExpr op x => HU op x (ast_nested x)
  | BinaryExpr op x y => HB op x (ast_nested x) y (ast_nested y)
  | CallExpr f args =>
      HC f args ((fix go l : Forall P l :=
                    match l with
                    | [] => Forall_nil_2 _
                    | x :: l' => Forall_cons_2 _ _ _ (ast_nested x) (go l')
                    end) args)
  | ParenExpr x => HP x (ast_nested x)
  | BasicLit k v => HL k v
  | Ident n => HI n
  | SelectorExpr x sel => HS x sel (ast_nested x)
  | IndexExpr x y => HX x (ast_nested x) y (ast_nested y)
  | OtherExpr => HO
  end.
End AstInd.

Section Consts.
Context `{GoLib} (Hlib : lib_ranges).

Lemma in_i64_true z : is_i64 z → in_i64 z = true.
Proof using. unfold in_i64. intros. apply andb_true_iff. split; [apply Z.leb_le|apply Z.ltb_lt]; width. Qed.

Lemma newConstant_ok v k c :
  match k with Tok.INT | Tok.FLOAT | Tok.CHAR | Tok.STRING => true | _ => false end = true →
  newConstant v (typeMap k) = GoRet c → const_ok c = true.
Proof using Hlib.
  destruct Hlib as [Hf Hd]. destruct k; try done; simpl; intros _.
  - unfold ParseInt. destruct (match v with String _ _ => _ | _ => _ end) as [neg body].
    destruct (digits1 body); [|done]. destruct (_ && _) eqn:E; [|done]. cbn [go_bind]. by intros [= <-].
  - destruct (ParseFloat v) as [d| |] eqn:E; cbn [go_bind]; [|done..]. intros [= <-]. unfold const_ok. simpl.
    pose proof (Hf _ _ E). unfold in_u64. apply andb_true_iff. split; [apply Z.leb_le|apply Z.ltb_lt]; width.
  - destruct (Unquote v) as [s| |]; cbn [go_bind]; [|done..]. destruct (ParseDuration s) eqn:E; intros [= <-]; [|done].
    unfold const_ok. simpl. eapply in_i64_true, Hd, E.
  - destruct (Unquote v) as [s| |]; cbn [go_bind]; [|done..]. destruct (ParseDuration s) eqn:E; intros [= <-]; [|done].
    unfold const_ok. simpl. eapply in_i64_true, Hd, E.
Qed.

Lemma processFunc_ok args es :
  Forall (fun a => literals_ok a = true → ∀ e, process a = GoRet e → consts_ok e = true) args →
  forallb literals_ok args = true → processFunc process args = GoRet es → forallb consts_ok es = true.
Proof using.
  intros Hall. revert es. induction Hall as [|a args Ha _ IH]; intros es Hl Hp; [by injection Hp as <-|].
  apply andb_true_iff in Hl as [Hla Hl]. simpl in Hp.
  destruct (process a) as [e| |] eqn:Ea; cbn [go_bind] in Hp; [|done..].
  destruct (processFunc process args) as [es'| |] eqn:Es; unfold processFunc in Es; rewrite ?Es in Hp;
    cbn [go_bind] in Hp; [|done..].
  injection Hp as <-. simpl. by rewrite (Ha Hla e eq_refl), (IH es' Hl eq_refl).
Qed.

Lemma process_consts a : literals_ok a = true → ∀ e, process a = GoRet e → consts_ok e = true.
Proof using Hlib.
  assert (∀ l es name r, Forall (fun a => literals_ok a = true → ∀ e, process a = GoRet e → consts_ok e = true) l →
    forallb literals_ok l = true → processFunc process l = r →
    (let! es := r in GoRet (EFn name es)) = GoRet es → consts_ok es = true) as HF.
  { intros l es name r HF Hl Hr. destruct r as [es'| |]; cbn [go_bind]; [|done..].
    intros [= <-]. by eapply processFunc_ok. }
  induction a as [op x IHx|op x IHx y IHy|f args IH|x IHx|k v|n|x sel IHx|x IHx y IHy|] using ast_nested;
    intros Hl e Hp; simpl in Hl.
  - eapply (HF [x]); [by repeat constructor|by simpl; rewrite Hl|reflexivity|exact Hp].
  - eapply (HF [x; y]); [by repeat constructor|by simpl; rewrite andb_true_r|reflexivity|exact Hp].
  - destruct f; try done. eapply (HF args); [done|done|reflexivity|exact Hp].
  - by apply IHx.
  - simpl in Hp. destruct (newConstant v (typeMap k)) as [c| |] eqn:Ec; cbn [go_bind] in Hp; [|done..].
    injection Hp as <-. by eapply newConstant_ok.
  - simpl in Hp. case_decide; by injection Hp as <-.
  - simpl in Hp. destruct (processSelectorExpr x sel); cbn [go_bind] in Hp; [|done..]. by injection Hp as <-.
  - eapply (HF [x; y]); [by repeat constructor|by simpl; rewrite andb_true_r|reflexivity|exact Hp].
  - done.
Qed.
End Consts.

(** ** Tree-walking against compiled evaluation *)

(** A string the tree-walking equality does not read as a pattern. *)
Definition no_star (s : string) : bool := negb (HasSuffix s "*") && negb (HasPrefix s "*").

Section Agree.
Context `{GoLib} (fd : finder) (get : bag) (Htyped : bag_typed fd get).
Abbreviation ev := (expr_Eval get FuncMap).
Abbreviation type_of := (type_of fd).
Abbreviation den := (den fd get).
Abbreviation den0 := (den0 den).

(** The expressions on which both evaluators mean the same: equality on
    booleans, integers, addresses and on strings against a constant without
    wildcard; map access on a variable; alternatives that are not strings. *)
Definition eq_comparable (a b : Expression) : bool :=
  match type_of a, b with
  | GoRet (BOOL | INT64 | IP_ADDRESS), _ => true
  | GoRet STRING, EConst c => match c_Value c with Some (VStr s) => no_star s | _ => false end
  | _, _ => false
  end.

Fixpoint comparable (e : Expression) : bool :=
  match e with
  | EConst _ | EVar _ => true
  | EFn _ [a] => comparable a
  | EFn name [a; b] =>
      comparable a && comparable b &&
      (if decide (name = "EQ" ∨ name = "NEQ") then eq_comparable a b
       else if decide (name = "INDEX") then match a with EVar _ => true | _ => false end
       else if decide (name = "OR") then
         match type_of a with GoRet STRING => false | _ => true end
       else true)
  | _ => false
  end.

Fixpoint has_land (e : Expression) : bool :=
  match e with
  | EFn name args => bool_decide (name = "LAND") || existsb has_land args
  | _ => false
  end.

(** The dynamic value of a stack value. *)
Definition dyn (vt : ValueType) (v : sval) : iface :=
  match v with
  | SStr s => Some (VStr s)
  | SBool b => Some (VBool b)
  | SInt z => Some (if decide (vt = DURATION) then VDur z else VInt z)
  | SDbl d => Some (VDouble d)
  | SIface v => v
  end.

(** The tree-walking outcome [t] agrees with the compiled outcome [r]: values
    are equal; an absent alternative and an error are errors, the latter unless
    a conjunction, which only the tree-walking evaluator short-circuits, hides
    it. *)
Definition agrees (u : use) (lazy : bool) (vt : ValueType) (r : go gerr (option sval)) (t : go gerr iface) : Prop :=
  match r with
  | GoRet (Some v) => sval_has vt v ∧ t = GoRet (dyn vt v)
  | GoRet None => u = UAlt ∧ ∃ e, t = GoErr e
  | GoErr _ => u ≠ UAlt ∧ (lazy = true ∨ ∃ e, t = GoErr e)
  | GoPanic _ => False
  end.

Definition agrees0 (lazy : bool) (vt : ValueType) (r : go gerr sval) (t : go gerr iface) : Prop :=
  match r with
  | GoRet v => sval_has vt v ∧ t = GoRet (dyn vt v)
  | GoErr _ => lazy = true ∨ ∃ e, t = GoErr e
  | GoPanic _ => False
  end.

Lemma agrees_den0 l vt e : agrees UValue l vt (den nmNone e) (ev e) → agrees0 l vt (den0 e) (ev e).
Proof using.
  unfold CompilerSpec.den0. destruct (den nmNone e) as [[v|]| |]; simpl; [done| |by intros []|done].
  by intros [].
Qed.

Lemma agrees_bind u (l l' : bool) ta vt r t (f : sval → go gerr (option sval)) g :
  not_alt u = true → agrees0 l ta r t → (l = true → l' = true) →
  (∀ v, r = GoRet v → sval_has ta v → agrees u l' vt (f v) (g (dyn ta v))) →
  agrees u l' vt (go_bind r f) (go_bind t g).
Proof using.
  intros Hu Hr Hl Hf. destruct r as [v|err|]; simpl in *; [|split; [by destruct u|]|done].
  - destruct Hr as [Hv ->]. by apply Hf.
  - destruct Hr as [Hlz|[e ->]]; [left; auto|right; by exists e].
Qed.

Lemma agrees_ret_bool u l b : agrees u l BOOL (GoRet (Some (SBool b))) (GoRet (Some (VBool b))).
Proof using. done. Qed.

Lemma ret_bool_bind {A} (r : go gerr A) f : ret_bool (go_bind r f) = go_bind r (fun v => ret_bool (f v)).
Proof using. by destruct r. Qed.

Lemma convert_dyn vt v :
  known vt = true → value_has vt v = true →
  ∃ s, convert (il_type vt) v = GoRet s ∧ sval_has vt s ∧ dyn vt s = v.
Proof using.
  intros Hk Hv. destruct vt; try done; destruct v as [[]|]; try done; simpl; eexists; (split; [done|]); done.
Qed.

Lemma dyn_present vt v : sval_has vt v → vt ≠ STRING → dyn vt v ≠ None ∧ dyn vt v ≠ Some (VStr "").
Proof using. intros Hv Hs. destruct vt, v as [| | | |[[]|]]; done. Qed.

Lemma ip_Equal_other s0 s1 :
  (if (String.length s0 =? 4)%nat || (String.length s0 =? 16)%nat then ip_Equal s0 s1 else bool_decide (s0 = s1)) =
  ip_Equal s0 s1.
Proof using.
  destruct (_ || _) eqn:E; [done|]. apply orb_false_iff in E as [E4 E16]. unfold ip_Equal. rewrite E4, E16. simpl.
  destruct (String.length s0 =? String.length s1)%nat eqn:El; [done|].
  apply bool_decide_eq_false. intros ->. by rewrite Nat.eqb_refl in El.
Qed.

Lemma match_no_star s0 s1 : no_star s1 = true → matchWithWildcards s0 s1 = bool_decide (s0 = s1).
Proof using.
  unfold no_star, matchWithWildcards. rewrite andb_true_iff, !negb_true_iff. by intros [-> ->].
Qed.

Lemma eq_agrees a b ta x y :
  type_of a = GoRet ta → eq_comparable a b = true → sval_has ta x → sval_has ta y →
  (∀ c, b = EConst c → y = const_sval c) →
  ∃ r, den_eq fd a x y = GoRet r ∧ eq_call (dyn ta x) (dyn ta y) = GoRet r.
Proof using.
  intros Ht Hc Hx Hy Hb. unfold eq_comparable in Hc. rewrite Ht in Hc. unfold den_eq. rewrite Ht.
  destruct ta; try done; destruct x as [s|p|z|d|i], y as [s'|p'|z'|d'|i']; try done; simpl in Hx, Hy.
  - destruct b as [c| | |]; try done. rewrite <- (match_no_star s s'); [by eexists|].
    pose proof (Hb c eq_refl) as E. unfold const_sval in E. destruct (c_Value c) as [[]|]; try done. by injection E as ->.
  - eexists. split; [done|]. simpl. f_equal. destruct (Z.eqb_spec z z') as [->|Hn].
    + by apply bool_decide_eq_true.
    + apply bool_decide_eq_false. congruence.
  - eexists. split; [done|]. by destruct p, p'.
  - destruct i as [[]|]; try done. destruct i' as [[]|]; try done. eexists. split; [done|]. simpl.
    by rewrite ip_Equal_other.
Qed.

Section Binary.
Context (u : use) (Hu : not_alt u = true) (a b : Expression).
Abbreviation la := (has_land a).
Abbreviation lb := (has_land b).

Lemma land_l : la = true → la || lb = true.
Proof using. by intros ->. Qed.
Lemma land_r : lb = true → la || lb = true.
Proof using. intros ->. apply orb_true_r. Qed.

Lemma agree_eq ta (inv : bool) :
  type_of a = GoRet ta → eq_comparable a b = true →
  agrees0 la ta (den0 a) (ev a) → agrees0 lb ta (den0 b) (ev b) →
  agrees u (la || lb) BOOL (ret_bool (let! r := den_Eq fd den a b in GoRet (if inv then negb r else r)))
    (eq_Call inv [ev a; ev b]).
Proof using Hu.
  intros Ht Hc Ha Hb. unfold den_Eq. rewrite ret_bool_bind. unfold eq_Call, nth_ev. simpl.
  change (agrees u (la || lb) BOOL (let! r := (let! x := den0 a in let! y := den0 b in den_eq fd a x y) in
    ret_bool (GoRet (if inv then negb r else r))) (let! a0 := ev a in let! a1 := ev b in
    let! res := eq_call a0 a1 in GoRet (Some (VBool (if inv then negb res else res))))).
  assert (∀ A B C (m : go gerr A) (f : A → go gerr B) (g : B → go gerr C),
    go_bind (go_bind m f) g = go_bind m (fun x => go_bind (f x) g)) as assoc by by intros ? ? ? [].
  rewrite assoc. eapply agrees_bind; [done|exact Ha|apply land_l|]. intros x _ Hx.
  rewrite assoc. eapply agrees_bind; [done|exact Hb|apply land_r|]. intros y Hy0 Hy.
  destruct (eq_agrees a b ta x y Ht Hc Hx Hy) as (r & -> & ->).
  { intros c ->. unfold CompilerSpec.den0 in Hy0. simpl in Hy0. by injection Hy0 as <-. }
  done.
Qed.

Lemma agree_lor :
  agrees0 la BOOL (den0 a) (ev a) → agrees0 lb BOOL (den0 b) (ev b) →
  agrees u (la || lb) BOOL (ret_bool (den_Lor den a b)) (logicalAndOr true [ev a; ev b]).
Proof using Hu.
  intros Ha Hb. unfold den_Lor. rewrite ret_bool_bind. simpl.
  eapply agrees_bind; [done|exact Ha|apply land_l|]. intros x _ Hx. destruct x as [|p| | |]; try done. simpl.
  destruct p; [done|]. rewrite ret_bool_bind.
  eapply agrees_bind; [done|exact Hb|apply land_r|]. intros y _ Hy. by destruct y as [|[]| | |].
Qed.

Lemma agree_land :
  agrees0 la BOOL (den0 a) (ev a) → agrees0 lb BOOL (den0 b) (ev b) →
  agrees u true BOOL (ret_bool (den_Land den a b)) (logicalAndOr false [ev a; ev b]).
Proof using Hu.
  intros Ha Hb. unfold den_Land. destruct (den0 a) as [x|err|]; cbn [go_bind ret_bool]; [|split; [by destruct u|by left]|done].
  destruct Ha as [Hx ->]. destruct x as [|p| | |]; try done.
  destruct (den0 b) as [y|err|]; cbn [go_bind ret_bool]; [|split; [by destruct u|by left]|done].
  destruct Hb as [Hy ->]. destruct y as [|q| | |]; try done. by destruct p, q.
Qed.

Lemma agree_match :
  agrees0 la STRING (den0 a) (ev a) → agrees0 lb STRING (den0 b) (ev b) →
  agrees u (la || lb) BOOL (ret_bool (den_match den a b)) (match_call [ev a; ev b]).
Proof using Hu.
  intros Ha Hb. unfold den_match. rewrite ret_bool_bind. unfold match_call, nth_ev. simpl.
  eapply agrees_bind; [done|exact Ha|apply land_l|]. intros x _ Hx. rewrite ret_bool_bind.
  eapply agrees_bind; [done|exact Hb|apply land_r|]. intros y _ Hy. destruct x, y; done.
Qed.

Lemma agree_index n :
  a = EVar n → agrees0 la STRING_MAP (den0 a) (ev a) → agrees0 lb STRING (den0 b) (ev b) →
  agrees UValue (la || lb) STRING (den_Index den nmNone a b) (index_call get [a; b] [ev a; ev b]).
Proof using.
  intros -> Ha Hb. unfold den_Index, index_call, nth_ev. simpl ([_; _] !! _).
  eapply agrees_bind; [done|exact Ha|done|]. intros x _ Hx.
  eapply agrees_bind; [done|exact Hb|done|]. intros y _ Hy.
  destruct x as [| | | |[[]|]], y; done.
Qed.

(** Alternatives: [t] the type, [v] the use of the whole. *)
Lemma agree_or v t :
  t ≠ STRING → agrees UAlt la t (den nmJmpOnValue a) (ev a) → agrees v lb t (den (dmode v) b) (ev b) →
  agrees v (la || lb) t (den_Or den (dmode v) a b) (or_call [] [ev a; ev b]).
Proof using.
  intros Ht Ha Hb. unfold den_Or. destruct (den nmJmpOnValue a) as [[x|]|err|]; cbn [go_bind]; [| |by destruct Ha|done].
  - destruct Ha as [Hx ->]. split; [done|]. simpl. by rewrite decide_True by by apply dyn_present.
  - destruct Ha as [_ [err ->]]. simpl. destruct (den (dmode v) b) as [[y|]|err'|]; simpl in *; [| | |done].
    + destruct Hb as [Hy ->]. split; [done|]. by rewrite decide_True by by apply dyn_present.
    + destruct Hb as [-> [e' ->]]. split; [done|]. by eexists.
    + destruct Hb as [Hv Hb]. split; [done|]. destruct Hb as [Hl|[e' ->]]; [left; by apply land_r|right; by eexists].
Qed.
End Binary.

Lemma agree_fn1 u name (f : string → go gerr iface) (vt : ValueType) (call : list (go gerr iface) → go gerr iface) a :
  not_alt u = true →
  (∀ s, match f s, call [GoRet (Some (VStr s))] with
        | GoRet v, r => value_has vt v = true ∧ r = GoRet v
        | GoErr _, GoErr _ => True | _, _ => False end) →
  (∀ e, call [GoErr e] = GoErr e) →
  (∀ i, value_has vt i = true → sval_has vt (SIface i)) →
  (∀ s, (if decide (name = "ip") then ip_fn s else timestamp_fn s) = f s) →
  agrees0 (has_land a) STRING (den0 a) (ev a) →
  agrees u (has_land a) vt (den_fn1 den name a) (call [ev a]).
Proof using.
  intros Hu Hf Hc Hv Hn Ha. unfold den_fn1. destruct (den0 a) as [x|err|]; cbn [go_bind]; [| |done].
  - destruct Ha as [Hx ->]. destruct x as [s| | | |]; try done. cbn [as_sstr go_bind dyn]. rewrite Hn.
    specialize (Hf s). destruct (f s) as [v|err|]; cbn [go_bind]; [| |done].
    + destruct Hf as [Hv' Hf]. split; [auto|exact Hf].
    + destruct (call [GoRet (Some (VStr s))]) as [|e'|] eqn:Ec; [done| |done]. split; [by destruct u|]. right. by exists e'.
  - split; [by destruct u|]. destruct Ha as [Hl|[e ->]]; [by left|right; rewrite Hc; by eexists].
Qed.

Lemma agree_ip u a :
  not_alt u = true → agrees0 (has_land a) STRING (den0 a) (ev a) →
  agrees u (has_land a) IP_ADDRESS (den_fn1 den "ip" a) (ip_call [ev a]).
Proof using.
  intros Hu Ha. apply (agree_fn1 u "ip" ip_fn); try done.
  intros s. unfold ip_fn, ip_call, nth_ev. simpl. by destruct (ParseIP s).
Qed.

Lemma agree_timestamp u a :
  not_alt u = true → agrees0 (has_land a) STRING (den0 a) (ev a) →
  agrees u (has_land a) TIMESTAMP (den_fn1 den "timestamp" a) (timestamp_call [ev a]).
Proof using.
  intros Hu Ha. apply (agree_fn1 u "timestamp" timestamp_fn); try done.
  intros s. unfold timestamp_fn, timestamp_call, nth_ev. simpl. by destruct (ParseRFC3339 s).
Qed.

Lemma or_comparable a b vt :
  sup fd UAlt a → comparable (EFn "OR" [a; b]) = true → type_of (EFn "OR" [a; b]) = GoRet vt →
  type_of a = GoRet vt ∧ type_of b = GoRet vt ∧ vt ≠ STRING ∧ comparable a = true ∧ comparable b = true ∧
  has_land (EFn "OR" [a; b]) = has_land a || has_land b.
Proof using.
  intros Ha Hc Ht. destruct (type_OR_sup fd a b vt Ha Ht) as [Hta Htb]. simpl in Hc.
  rewrite !andb_true_iff in Hc. destruct Hc as [[Hca Hcb] Hs]. rewrite Hta in Hs.
  split_and!; try done; [by intros ->|]. simpl. by rewrite orb_false_r.
Qed.

Lemma agrees_last u u' l vt r t : u ≠ UAlt → u' ≠ UAlt → agrees u l vt r t → agrees u' l vt r t.
Proof using. intros Hu Hu'. destruct r as [[]| |]; simpl; [done|by intros []|by intros []|done]. Qed.

Lemma agree u e :
  sup fd u e → ∀ vt, comparable e = true → type_of e = GoRet vt → (u = UAlt → vt ≠ STRING) →
  agrees u (has_land e) vt (den (dmode u) e) (ev e).
Proof using Htyped.
  induction 1 as [u c Hu Hc|u n t Hu Hf Hk|u name a Hn Hu Ha IHa|u name a b Hn Hu He Ha IHa Hb IHb
    |u name a b Hn Hu Ha IHa Hb IHb|a b Ha IHa Hb IHb|a c Ha IHa Hc
    |a b Ha IHa Ho Hb IHb|a b Ha IHa Ho Hb IHb|a b Ha IHa Hb IHb|a b Ha IHa Hb IHb]; intros vt Hc0 Ht Hs.
  - injection Ht as <-. unfold const_ok in Hc. destruct c as [? v t]. simpl in *. destruct t, v as [[]|]; done.
  - unfold CompilerSpec.type_of in Ht. simpl in Ht. rewrite Hf in Ht. injection Ht as <-. simpl. unfold den_var, var_Eval. rewrite Hf.
    destruct (get n) as [v|] eqn:Hg.
    + destruct (convert_dyn t v Hk (Htyped n t v Hf Hg)) as (s & -> & Hv & <-). done.
    + destruct u; simpl; eauto.
  - assert (has_land (EFn name [a]) = has_land a) as -> by by destruct Hn as [-> | ->]; simpl; destruct (has_land a).
    destruct Hn as [-> | ->].
    + destruct (type_call1 fd "ip" newIP a vt eq_refl eq_refl ltac:(done) Ht) as [Hta ->].
      apply (agree_ip u a Hu), agrees_den0, IHa; done.
    + destruct (type_call1 fd "timestamp" newTIMESTAMP a vt eq_refl eq_refl ltac:(done) Ht) as [Hta ->].
      apply (agree_timestamp u a Hu), agrees_den0, IHa; done.
  - simpl in Hc0. rewrite decide_True in Hc0 by done. rewrite !andb_true_iff in Hc0. destruct Hc0 as [[Hca Hcb] Heq].
    assert (has_land (EFn name [a; b]) = has_land a || has_land b) as ->
      by by destruct Hn as [-> | ->]; simpl; rewrite orb_false_r.
    destruct Hn as [-> | ->].
    + apply type_EQ in Ht as (-> & ta & Hta & Htb); [|done].
      pose proof (agree_eq u Hu a b ta false Hta Heq) as Hag. cbn [negb] in Hag.
      assert ((let! r := den_Eq fd den a b in GoRet r) = den_Eq fd den a b) as Hid by by destruct (den_Eq fd den a b).
      rewrite Hid in Hag. apply Hag; apply agrees_den0; [apply IHa|apply IHb]; done.
    + apply type_NEQ in Ht as (-> & ta & Hta & Htb); [|done].
      apply (agree_eq u Hu a b ta true Hta Heq); apply agrees_den0; [apply IHa|apply IHb]; done.
  - assert (comparable a = true ∧ comparable b = true) as [Hca Hcb].
    { simpl in Hc0. rewrite !andb_true_iff in Hc0. tauto. }
    destruct Hn as [->|[-> | ->]].
    + apply type_LOR in Ht as (-> & Hta & Htb).
      assert (has_land (EFn "LOR" [a; b]) = has_land a || has_land b) as -> by by simpl; rewrite orb_false_r.
      apply (agree_lor u Hu a b); apply agrees_den0; [apply IHa|apply IHb]; done.
    + apply type_LAND in Ht as (-> & Hta & Htb).
      apply (agree_land u Hu a b); apply agrees_den0; [apply IHa|apply IHb]; done.
    + apply type_match in Ht as (-> & Hta & Htb).
      assert (has_land (EFn "match" [a; b]) = has_land a || has_land b) as -> by by simpl; rewrite orb_false_r.
      apply (agree_match u Hu a b); apply agrees_den0; [apply IHa|apply IHb]; done.
  - apply type_INDEX in Ht as (-> & Hta & Htb). simpl in Hc0. rewrite !andb_true_iff in Hc0. destruct Hc0 as [[Hca Hcb] Hv].
    assert (has_land (EFn "INDEX" [a; b]) = has_land a || has_land b) as -> by by simpl; rewrite orb_false_r.
    destruct a as [|n| |]; try done.
    apply (agree_index (EVar n) b n eq_refl); apply agrees_den0; [apply IHa|apply IHb]; done.
  - apply type_INDEX in Ht as (-> & _). by destruct Hs.
  - destruct (or_comparable a b vt Ha Hc0 Ht) as (Hta & Htb & Hvt & Hca & Hcb & ->).
    apply (agree_or a b UValue vt Hvt); [by apply IHa|by apply IHb].
  - destruct (or_comparable a b vt Ha Hc0 Ht) as (Hta & Htb & Hvt & Hca & Hcb & ->).
    apply (agree_or a b UValue vt Hvt); [by apply IHa|]. apply (agrees_last ULast); [done..|by apply IHb].
  - destruct (or_comparable a b vt Ha Hc0 Ht) as (Hta & Htb & Hvt & Hca & Hcb & ->).
    apply (agree_or a b UAlt vt Hvt); [by apply IHa|by apply IHb].
  - destruct (or_comparable a b vt Ha Hc0 Ht) as (Hta & Htb & Hvt & Hca & Hcb & ->).
    apply (agree_or a b ULast vt Hvt); [by apply IHa|by apply IHb].
Qed.
End Agree.
