(* ===== verification/ExprProps.v ===== *)
(** * Properties of the expression language

    The theorems about the type checker, the tree-walking evaluator, the parser
    of literals and the extraction of equality matches, and the agreement of
    the two evaluators. *)

From Stdlib Require Import ZArith Lia.
From stdpp Require Import base list gmap strings.
From S2P Require Import Prelude Il Interp Expr Compiler Evaluator CompilerSpec InstrFacts CodeFacts.
From S2P Require Import CompilerCorrect CompilerProps ExprFacts.

Open Scope Z_scope.

#[local] Existing Instance Demo.lib.

(** C2: the two evaluators of the program agree.  On a well-typed bag, for an
    expression in which both give the operators the same meaning, compiling and
    running it ends with the value the tree-walking evaluator returns (the
    empty string comes back as nil), or with an error where the tree-walking
    evaluator reports one too, unless a conjunction, which only the latter
    short-circuits, hides it. *)
Theorem evaluators_agree `{GoLib} (fd : finder) (get : bag) (e : Expression) (vt : ValueType) :
  bag_ok get → bag_typed fd get → type_of fd e = GoRet vt → supported fd UValue e = true →
  comparable fd e = true →
  stack_need e <= 64 → heap_need fd e <= 63 → nodes e <= 2 ^ 27 →
  ∃ n r, (∀ fuel, (n <= fuel)%nat → eval_expression fuel fd e get = Some r) ∧
    match r with
    | GoRet v =>
        expr_Eval get FuncMap e = GoRet v ∨ (v = None ∧ expr_Eval get FuncMap e = GoRet (Some (VStr "")))
    | GoErr _ => has_land e = true ∨ ∃ err, expr_Eval get FuncMap e = GoErr err
    | GoPanic _ => False
    end.
Proof.
  intros Hb Ht Hty Hs Hc H1 H2 H3. destruct (eval_den fd get e vt Hb Hty Hs H1 H2 H3) as [n Hn].
  exists n. eexists. split; [exact Hn|].
  pose proof (agree fd get Ht UValue e (supported_sup _ _ _ Hs) vt Hc Hty ltac:(done)) as Ha.
  apply agrees_den0 in Ha. destruct (den0 (den fd get) e) as [v|err|]; cbn [go_bind]; [|done..].
  destruct Ha as [_ ->]. destruct v; simpl; auto. case_decide; subst; auto.
Qed.

Lemma evaluators_agree_witness :
  expr_Eval Demo.get FuncMap Demo.cond = GoRet (Some (VBool true)) ∧
  ∃ n r, (∀ fuel, (n <= fuel)%nat → eval_expression fuel Demo.fd Demo.cond Demo.get = Some r) ∧
    match r with
    | GoRet v =>
        expr_Eval Demo.get FuncMap Demo.cond = GoRet v ∨
        (v = None ∧ expr_Eval Demo.get FuncMap Demo.cond = GoRet (Some (VStr "")))
    | GoErr _ => has_land Demo.cond = true ∨ ∃ err, expr_Eval Demo.get FuncMap Demo.cond = GoErr err
    | GoPanic _ => False
    end.
Proof.
  split; [vm_compute; reflexivity|].
  apply (evaluators_agree Demo.fd Demo.get Demo.cond BOOL Demo.get_ok Demo.get_typed);
    vm_compute; first [reflexivity | discriminate].
Defined.

(** C15: the type checker is sound for the tree-walking evaluator: on a
    well-typed bag a well-formed expression of type [vt] evaluates to a value of
    that type (or nil, at type string only) or returns an error; it can panic
    only when it contains a map access. *)
Theorem EvalType_sound `{GoLib} (fd : finder) (get : bag) (e : Expression) (vt : ValueType) :
  bag_typed fd get → wf_expr e = true → EvalType fd FuncMap e = GoRet vt →
  match expr_Eval get FuncMap e with
  | GoRet None => vt = STRING
  | GoRet v => value_has vt v = true
  | GoErr _ => True
  | GoPanic _ => has_index e = true
  end.
Proof. intros Hb Hw Ht. exact (tree_sound fd get Hb e vt Hw Ht). Qed.

Lemma EvalType_sound_witness :
  wf_expr Demo.cond = true ∧
  match expr_Eval Demo.get FuncMap Demo.cond with
  | GoRet None => BOOL = STRING
  | GoRet v => value_has BOOL v = true
  | GoErr _ => True
  | GoPanic _ => has_index Demo.cond = true
  end.
Proof.
  split; [vm_compute; reflexivity|].
  apply (EvalType_sound Demo.fd Demo.get Demo.cond BOOL Demo.get_typed); vm_compute; reflexivity.
Defined.

(** C16: the matches [ExtractEQMatches] collects are necessary conditions: when
    the expression evaluates to true, every attribute in the map is present and
    compares equal to the constant recorded for it. *)
Theorem extractEQMatches_sound `{GoLib} (get : bag) (e : Expression) (m : gmap string iface) :
  expr_Eval get FuncMap e = GoRet (Some (VBool true)) → extractEQMatches e ∅ = GoRet m →
  ∀ x v, m !! x = Some v →
    ∃ gv, get x = Some gv ∧ (eq_call gv v = GoRet true ∨ eq_call v gv = GoRet true).
Proof.
  intros Hev Hx. apply (extract_sound get e ∅ m (Some (VBool true)) Hx Hev ltac:(done)).
  intros x v. by rewrite lookup_empty.
Qed.

(** [source.name == "product*" && "user=jason" == request.headers["cookie"]]. *)
Definition demo_matches : Expression :=
  EFn "LAND" [EFn "EQ" [EVar "source.name"; Demo.str "product*"];
              EFn "EQ" [Demo.str "user=jason"; EFn "INDEX" [EVar "request.headers"; Demo.str "cookie"]]].

Lemma extractEQMatches_sound_witness :
  extractEQMatches demo_matches ∅ = GoRet {[ "source.name" := Some (VStr "product*") ]} ∧
  ∃ gv, Demo.get "source.name" = Some gv ∧
    (eq_call gv (Some (VStr "product*")) = GoRet true ∨ eq_call (Some (VStr "product*")) gv = GoRet true).
Proof.
  split; [vm_compute; reflexivity|].
  apply (extractEQMatches_sound Demo.get demo_matches {[ "source.name" := Some (VStr "product*") ]});
    vm_compute; reflexivity.
Defined.

(** Every constant the parser builds is well formed: its value has the
    dynamic type of its declared type, integers and durations fit 64 bits.  A
    string literal that reads as a duration becomes a duration.  The
    hypothesis on the library is that doubles are 64-bit patterns and durations
    are [int64]. *)
Theorem process_constants `{GoLib} (a : ast_Expr) (e : Expression) :
  lib_ranges → literals_ok a = true → process a = GoRet e → consts_ok e = true.
Proof. intros Hl Ha. by apply process_consts. Qed.

(** [a.b["1s"] == -7]: the sign is a unary operator. *)
Definition demo_ast : ast_Expr :=
  BinaryExpr Tok.EQL (IndexExpr (SelectorExpr (Ident "a") "b") (BasicLit Tok.STRING "'1s'"))
    (UnaryExpr Tok.SUB (BasicLit Tok.INT "7")).

Lemma process_constants_witness :
  lib_ranges ∧ ∃ e, process demo_ast = GoRet e ∧ consts_ok e = true.
Proof.
  assert (lib_ranges) as Hl.
  { split; intros s d; cbn [ParseFloat ParseDuration Demo.lib]; case_decide; intros [= <-]; width. }
  split; [exact Hl|]. eexists. split; [vm_compute; reflexivity|].
  apply (process_constants demo_ast); [exact Hl|vm_compute; reflexivity..].
Defined.
