(* ===== verification/Findings.v ===== *)
(** * Where the code does not do what it documents

    Each example runs the model of the code on a concrete input and exhibits a
    behaviour that contradicts a comment, the documentation of the expression
    language or the other evaluator. *)

From Stdlib Require Import ZArith Lia.
From stdpp Require Import base list gmap strings.
From S2P Require Import Prelude Il Interp Expr Compiler Evaluator CompilerSpec CompilerProps.

Open Scope Z_scope.

#[local] Existing Instance Demo.lib.

(** Compiled and tree-walking evaluation of an expression on the demo bag. *)
Definition compiled (e : Expression) : option (go gerr iface) := eval_expression 100 Demo.fd e Demo.get.
Definition walked (e : Expression) : go gerr iface := expr_Eval Demo.get FuncMap e.

(** ["y" | source.name]: the constant is pushed, no jump follows it, and the
    second operand wins. *)
Theorem constant_alternative_ignored :
  let e := EFn "OR" [Demo.str "y"; EVar "source.name"] in
  compiled e = Some (GoRet (Some (VStr "productpage"))) ∧ walked e = GoRet (Some (VStr "y")).
Proof. split; vm_compute; reflexivity. Qed.

(** [request.size | (request.size | request.size)] with the attribute missing:
    no operand reports the missing attribute, and the program runs into an empty
    stack. *)
Theorem nested_alternative_underflows :
  compiled (EFn "OR" [EVar "request.size"; EFn "OR" [EVar "request.size"; EVar "request.size"]]) =
    Some (GoErr (errors_New "stack underflow")).
Proof. vm_compute. reflexivity. Qed.

(** [source.name == (request.headers[absent.name] | "productpage")] with the
    map present and the key absent: the map is left on the stack and compared
    with the constant. *)
Theorem absent_key_leaves_map :
  let fd n := if decide (n = "absent.name") then Some STRING else Demo.fd n in
  let e := EFn "EQ" [EVar "source.name";
             EFn "OR" [EFn "INDEX" [EVar "request.headers"; EVar "absent.name"]; Demo.str "productpage"]] in
  eval_expression 100 fd e Demo.get = Some (GoRet (Some (VBool false))) ∧
  walked e = GoRet (Some (VBool true)).
Proof. split; vm_compute; reflexivity. Qed.

(** [source.name == "product*"]: a pattern for one evaluator, not the other. *)
Theorem wildcard_equality_differs :
  let e := EFn "EQ" [EVar "source.name"; Demo.str "product*"] in
  compiled e = Some (GoRet (Some (VBool false))) ∧ walked e = GoRet (Some (VBool true)).
Proof. split; vm_compute; reflexivity. Qed.

(** [source.name == "x" && request.size == 1] with the size missing: the
    compiled conjunction evaluates both sides. *)
Theorem land_not_short_circuit :
  let e := EFn "LAND" [EFn "EQ" [EVar "source.name"; Demo.str "x"]; EFn "EQ" [EVar "request.size"; Demo.int 1]] in
  compiled e = Some (GoErr (err_lookup "request.size")) ∧ walked e = GoRet (Some (VBool false)).
Proof. split; vm_compute; reflexivity. Qed.

(** [LAND(false, true, true)], which the type checker accepts: one [And] is
    emitted for three operands, and the first is ignored. *)
Theorem land_ignores_first_of_three :
  let f := EFn "EQ" [EVar "source.name"; Demo.str "x"] in
  let t := EFn "EQ" [EVar "source.name"; Demo.str "productpage"] in
  compiled (EFn "LAND" [f; t; t]) = Some (GoRet (Some (VBool true))) ∧
  walked (EFn "LAND" [f; t; t]) = GoRet (Some (VBool false)).
Proof. split; vm_compute; reflexivity. Qed.

(** [0.0 == -0.0]: compiled equality compares bit patterns. *)
Theorem double_equality_on_bits :
  let e := EFn "EQ" [EConst (mkConst "0.0" (Some (VDouble 0)) DOUBLE);
                     EConst (mkConst "-0.0" (Some (VDouble (2 ^ 63))) DOUBLE)] in
  compiled e = Some (GoRet (Some (VBool false))) ∧ walked e = GoRet (Some (VBool true)).
Proof. split; vm_compute; reflexivity. Qed.

(** Map access on anything but a variable panics in the tree-walking evaluator. *)
Theorem index_of_alternative_panics :
  let e := EFn "INDEX" [EFn "OR" [EVar "request.headers"; EVar "request.headers"]; Demo.str "cookie"] in
  type_of Demo.fd e = GoRet STRING ∧ walked e = GoPanic PNil ∧
  compiled e = Some (GoRet (Some (VStr "user=jason"))).
Proof. split_and!; vm_compute; reflexivity. Qed.

(** Well-typed equality on durations is refused by the compiler. *)
Theorem duration_equality_refused :
  let e := EFn "EQ" [EVar "response.duration"; EVar "response.duration"] in
  type_of Demo.fd e = GoRet BOOL ∧
  compiled e = Some (GoErr (Errorf "internal compiler error -- equality for type not yet implemented: %v" [])).
Proof. split; vm_compute; reflexivity. Qed.

(** ** Calls between IL functions *)

(** A program of two functions, the second calling the first by its id 1. *)
Definition two (t1 : ilType) (body1 : list Z) (t2 : ilType) (body2 : list Z) : Interpreter :=
  newIntr (AddFunction "f" [] t2 body2 (AddFunction "g" [] t1 body1 NewProgram).1).1 ∅.

Definition outcome (i : Interpreter) : option (go gerr iface) :=
  r ← Eval i (fun _ => None) 300 "f"; Some (let! r := r.1 in AsInterface r).

(** [save] copies the frame over the live registers: the caller's register is
    lost by a call, and [restore] does not bring it back. *)
Theorem call_clears_registers :
  outcome (two Ty.Bool [op_code Op.APushB; 1; op_code Op.Ret] Ty.Bool
             [op_code Op.ALoadB; 0; 1; op_code Op.Call; 1; op_code Op.PopB; op_code Op.RPushB; 0;
              op_code Op.Ret]) =
    Some (GoRet (Some (VBool false))).
Proof. vm_compute. reflexivity. Qed.

(** A callee that returns an integer to a function returning a boolean: the
    size of the result is taken from the caller. *)
Theorem callee_result_size_of_caller :
  outcome (two Ty.Integer [op_code Op.APushI; 7; 0; op_code Op.Ret] Ty.Bool
             [op_code Op.Call; 1; op_code Op.AEqI; 7; 0; op_code Op.Ret]) =
    Some (GoErr (errors_New "stack underflow")).
Proof. vm_compute. reflexivity. Qed.

(** [RPushI] with one free word: the guard asks for one word, two are written,
    and the write past the end panics. *)
Theorem rpush_overflow_panics :
  outcome (two Ty.Void [] Ty.Void
             (concat (replicate 63 [op_code Op.APushB; 1]) ++ [op_code Op.RPushI; 0; op_code Op.Ret])) =
    Some (GoPanic PIndex).
Proof. vm_compute. reflexivity. Qed.

(** A call of a one-word extern with a full stack writes a second result word
    past the end. *)
Theorem extern_call_full_stack_panics :
  let b := B.Call "ip" (Nat.iter 64 (B.APushStr "127.0.0.1") (NewBuilder newStringTable)) in
  let p := mkProgram (b_strings b) ∅ [op_code Op.Halt] in
  let i := newIntr (AddFunction "f" [] Ty.Interface (Build b) p).1 externMap in
  outcome i = Some (GoPanic PIndex).
Proof. vm_compute. reflexivity. Qed.
