(* ===== verification/MemQuota.v ===== *)
(** * The in-memory quota adapter: package [memquota]

    [src/adapter/memquota]: the rolling window ([rollingWindow.go]), the keys
    of quota cells ([keys.go]), deduplication ([dedup.go]) and the handler
    ([memquota.go]).  The handler's lock serialises its calls, so a call is one
    state transformation; the current time is an argument.  What the package
    takes from Go's library ([strconv.AppendFloat], the [String] methods of
    [fmt.Stringer]) are parameters. *)

From Stdlib Require Import ZArith Lia Ascii.
From stdpp Require Import base list gmap strings.
From S2P Require Import Prelude.

Open Scope Z_scope.

Definition PDivide : panic := PMsg "runtime error: integer divide by zero".
Definition PMake : panic := PMsg "runtime error: makeslice: len out of range".

(** ** The rolling window *)

Record rollingWindow : Type := mkWindow {
  slots : list Z;
  currentSlot : Z;
  currentSlotTick : Z;
  avail : Z
}.

Definition newRollingWindow (limit ticksInWindow : Z) : go gerr rollingWindow :=
  if ticksInWindow <? 0 then GoPanic PMake
  else GoRet (mkWindow (replicate (Z.to_nat ticksInWindow) 0) 0 0 limit).

(** The loop of [roll], [n] iterations from [i]. *)
Fixpoint roll_loop (n : nat) (i cur : Z) (s : list Z) (av : Z) : go gerr (list Z * Z) :=
  match n with
  | O => GoRet (s, av)
  | S n' =>
      let index := Z.rem (cur + 1 + i) (zlength s) in
      let! x := go_get s index in
      let! s' := go_set s index 0 in
      roll_loop n' (i + 1) cur s' (i64 (av + x))
  end.

(** Go's [%] truncates: a clock that goes back can leave a negative slot. *)
Definition roll (currentTick : Z) (w : rollingWindow) : go gerr rollingWindow :=
  let n := zlength (slots w) in
  let behind := i64 (currentTick - currentSlotTick w) in
  let behind := if behind >? n then n else behind in
  let! (s, av) := roll_loop (Z.to_nat behind) 0 (currentSlot w) (slots w) (avail w) in
  if n =? 0 then GoPanic PDivide
  else GoRet (mkWindow s (Z.rem (currentSlot w + behind) n) currentTick av).

Definition window_alloc (amount currentTick : Z) (w : rollingWindow) : go gerr (bool * rollingWindow) :=
  let! w := roll currentTick w in
  if amount >? avail w then GoRet (false, w)
  else
    let! x := go_get (slots w) (currentSlot w) in
    let! s := go_set (slots w) (currentSlot w) (i64 (x + amount)) in
    GoRet (true, mkWindow s (currentSlot w) (currentSlotTick w) (i64 (avail w - amount))).

(** The loop of [release]: [n] iterations, from slot [index] back in time. *)
Fixpoint release_loop (n : nat) (index amount total : Z) (s : list Z) : go gerr (Z * list Z) :=
  match n with
  | O => GoRet (total, s)
  | S n' =>
      let! x := go_get s index in
      if x >=? amount then
        let! s := go_set s index (i64 (x - amount)) in GoRet (i64 (total + amount), s)
      else
        let! s := go_set s index 0 in
        let index := index - 1 in
        let index := if index <? 0 then zlength s - 1 else index in
        release_loop n' index (i64 (amount - x)) (i64 (total + x)) s
  end.

Definition window_release (amount currentTick : Z) (w : rollingWindow) : go gerr (Z * rollingWindow) :=
  let! w := roll currentTick w in
  let! (total, s) := release_loop (length (slots w)) (currentSlot w) amount 0 (slots w) in
  GoRet (total, mkWindow s (currentSlot w) (currentSlotTick w) (i64 (avail w + total))).

Definition available (w : rollingWindow) : Z := avail w.

(** ** Keys *)

(** [sort.Strings]: by insertion, in byte order. *)
Fixpoint insert_sorted (x : string) (l : list string) : list string :=
  match l with
  | [] => [x]
  | y :: l' => if String.leb x y then x :: l else y :: insert_sorted x l'
  end.
Definition sort_strings (l : list string) : list string := foldr insert_sorted [] l.

(** [strconv.AppendInt(_, v, 16)]. *)
Definition hex_digit (d : Z) : ascii :=
  ascii_of_nat (Z.to_nat (if d <? 10 then 48 + d else 87 + d)).
Fixpoint hex (fuel : nat) (z : Z) (acc : string) : string :=
  match fuel with
  | O => acc
  | S fuel' =>
      let acc := String (hex_digit (z mod 16)) acc in
      if z <? 16 then acc else hex fuel' (z / 16) acc
  end.
Definition AppendInt16 (z : Z) : string :=
  if z <? 0 then "-" +:+ hex 16 (- z) "" else hex 16 z "".

(** [var bytes [32]byte; bytes[:]]: the number is appended to 32 zero bytes. *)
Definition zeros32 : string := Nat.iter 32 (String zero) EmptyString.

Section Memquota.
Context (AppendFloat : float64 → string) (Stringer : value → option string).

Definition label_bytes (v : iface) : go gerr string :=
  match v with
  | Some (VStr s) => GoRet s
  | Some (VInt z) => GoRet (zeros32 +:+ AppendInt16 z)
  | Some (VDouble d) => GoRet (zeros32 +:+ AppendFloat d)
  | Some (VBool b) => GoRet (zeros32 +:+ (if b then "true" else "false"))
  | Some (VBytes bs) => GoRet bs
  | Some (VMap m) =>
      GoRet (foldr (fun k2 acc => k2 +:+ default "" (m !! k2) +:+ acc) "" (sort_strings ((map_to_list m).*1)))
  | Some v => match Stringer v with Some s => GoRet s | None => GoPanic PType end
  | None => GoPanic PType
  end.

(** [makeKey]; the workspace of the pool only avoids allocation. *)
Definition makeKey (name : string) (labels : gmap string iface) : go gerr string :=
  foldl (fun r k =>
           let! acc := r in
           let! b := label_bytes (default None (labels !! k)) in
           GoRet (acc +:+ ";" +:+ k +:+ "=" +:+ b))
    (GoRet name) (sort_strings ((map_to_list labels).*1)).

(** ** Data of the handler *)

Record Limit : Type := mkLimit { MaxAmount : Z; ValidDuration : Z }.

Record Override : Type := mkOverride { o_Dimensions : gmap string string; o_limit : Limit }.

Record Params_Quota : Type := mkQuota { q_Name : string; q_limit : Limit; Overrides : list Override }.

Record Instance_ : Type := mkInstance { i_Name : string; Dimensions : gmap string iface }.

Record QuotaArgs : Type := mkArgs { DeduplicationID : string; QuotaAmount : Z; BestEffort : bool }.

Record QuotaResult : Type := mkResult { Amount : Z; r_ValidDuration : Z }.

(** Instants are nanoseconds since 1970; [time.Time{}] is year 1. *)
Definition zeroTime : Z := -62135596800 * 1000000000.

(** [time.Time.Sub] saturates. *)
Definition time_Sub (t u : Z) : Z := Z.max (- 2 ^ 63) (Z.min (2 ^ 63 - 1) (t - u)).

Record dedupState : Type := mkDedup { d_amount : Z; d_exp : Z }.

Record handler : Type := mkHandler {
  recentDedup : gmap string dedupState;
  oldDedup : gmap string dedupState;
  cells : gmap string Z;
  windows : gmap string rollingWindow;
  limits : gmap string Params_Quota
}.

Definition set_recent d h := mkHandler d (oldDedup h) (cells h) (windows h) (limits h).
Definition set_cells c h := mkHandler (recentDedup h) (oldDedup h) c (windows h) (limits h).
Definition set_windows w h := mkHandler (recentDedup h) (oldDedup h) (cells h) w (limits h).

(** ** Limits *)

Definition dimension_matches (val : string) (rval : iface) : bool :=
  bool_decide (rval = Some (VStr val)) ||
  match rval with Some v => bool_decide (Stringer v = Some val) | None => false end.

Definition matchDimensions (cfg : gmap string string) (inst : gmap string iface) : bool :=
  forallb (fun '(k, val) => dimension_matches val (default None (inst !! k))) (map_to_list cfg).

Fixpoint first_override (os : list Override) (inst : gmap string iface) : option Limit :=
  match os with
  | [] => None
  | o :: os' => if matchDimensions (o_Dimensions o) inst then Some (o_limit o) else first_override os' inst
  end.

Definition limit (cfg : Params_Quota) (instance : Instance_) : Limit :=
  default (q_limit cfg) (first_override (Overrides cfg) (Dimensions instance)).

(** ** Deduplication *)

Definition nanosPerTick : Z := 100000000.
Definition ticksPerSecond : Z := 10.

(** A quota function: the key, the time and the tick to the amount granted,
    its expiry and its validity, and the new state. *)
Definition quotaFunc : Type := string → Z → Z → handler → go gerr (Z * Z * Z * handler).

Definition handleDedup (now : Z) (instance : Instance_) (args : QuotaArgs) (qf : quotaFunc) (h : handler)
    : go gerr (Z * Z * handler) :=
  let! key := makeKey (i_Name instance) (Dimensions instance) in
  let currentTick := Z.quot now nanosPerTick in
  let id := DeduplicationID args in
  let found := match recentDedup h !! id with Some r => Some r | None => oldDedup h !! id end in
  match found with
  | Some result => GoRet (d_amount result, Z.max 0 (time_Sub (d_exp result) now), h)
  | None =>
      let! (amount, t, exp, h) := qf key now currentTick h in
      GoRet (amount, exp, set_recent (<[id := mkDedup amount t]> (recentDedup h)) h)
  end.

(** The maps swap, then the one that was old is emptied. *)
Definition reapDedup (h : handler) : handler :=
  mkHandler ∅ (recentDedup h) (cells h) (windows h) (limits h).

(** ** Allocation and release *)

Definition alloc_cell (args : QuotaArgs) (q : Limit) (key : string) (h : handler)
    : go gerr (Z * Z * Z * handler) :=
  let inUse := default 0 (cells h !! key) in
  let room := i64 (MaxAmount q - inUse) in
  if QuotaAmount args >? room then
    if BestEffort args then
      GoRet (room, zeroTime, 0, set_cells (<[key := i64 (inUse + room)]> (cells h)) h)
    else GoRet (0, zeroTime, 0, h)
  else
    GoRet (QuotaAmount args, zeroTime, 0,
           set_cells (<[key := i64 (inUse + QuotaAmount args)]> (cells h)) h).

(** The window of a key, made on first use: one slot per tick. *)
Definition get_window (q : Limit) (key : string) (h : handler) : go gerr rollingWindow :=
  match windows h !! key with
  | Some w => GoRet w
  | None =>
      let seconds := i32 (Z.quot (i64 (ValidDuration q + 1000000000 - 1)) 1000000000) in
      newRollingWindow (MaxAmount q) (i64 (seconds * ticksPerSecond))
  end.

Definition alloc_window (args : QuotaArgs) (q : Limit) (key : string) (now currentTick : Z) (h : handler)
    : go gerr (Z * Z * Z * handler) :=
  let! w := get_window q key h in
  let! (ok, w) := window_alloc (QuotaAmount args) currentTick w in
  if ok : bool then
    GoRet (QuotaAmount args, now + ValidDuration q, ValidDuration q, set_windows (<[key := w]> (windows h)) h)
  else if BestEffort args then
    let result := available w in
    let! (_, w) := window_alloc result currentTick w in
    GoRet (result, now + ValidDuration q, ValidDuration q, set_windows (<[key := w]> (windows h)) h)
  else GoRet (0, zeroTime, 0, set_windows (<[key := w]> (windows h)) h).

Definition alloc (now : Z) (instance : Instance_) (args : QuotaArgs) (q : Limit) (h : handler)
    : go gerr (QuotaResult * handler) :=
  let! (amount, exp, h) :=
    handleDedup now instance args
      (fun key now tick h =>
         if ValidDuration q =? 0 then alloc_cell args q key h else alloc_window args q key now tick h) h in
  GoRet (mkResult amount exp, h).

Definition free_cell (args : QuotaArgs) (key : string) (h : handler) : go gerr (Z * Z * Z * handler) :=
  let inUse := default 0 (cells h !! key) in
  if QuotaAmount args >=? inUse then GoRet (inUse, zeroTime, 0, set_cells (delete key (cells h)) h)
  else GoRet (QuotaAmount args, zeroTime, 0,
              set_cells (<[key := i64 (inUse - QuotaAmount args)]> (cells h)) h).

Definition free_window (args : QuotaArgs) (q : Limit) (key : string) (currentTick : Z) (h : handler)
    : go gerr (Z * Z * Z * handler) :=
  match windows h !! key with
  | None => GoRet (0, zeroTime, 0, h)
  | Some w =>
      let! (result, w) := window_release (QuotaAmount args) currentTick w in
      let ws := if available w =? MaxAmount q then delete key (windows h) else <[key := w]> (windows h) in
      GoRet (result, zeroTime, 0, set_windows ws h)
  end.

Definition free (now : Z) (instance : Instance_) (args : QuotaArgs) (q : Limit) (h : handler)
    : go gerr (QuotaResult * handler) :=
  let! (amount, _, h) :=
    handleDedup now instance args
      (fun key now tick h =>
         if ValidDuration q =? 0 then free_cell args key h else free_window args q key tick h) h in
  GoRet (mkResult amount 0, h).

(** A quota name without a limit is a nil pointer, dereferenced. *)
Definition HandleQuota (now : Z) (instance : Instance_) (args : QuotaArgs) (h : handler)
    : go gerr (QuotaResult * handler) :=
  match limits h !! i_Name instance with
  | None => GoPanic PNil
  | Some cfg =>
      let q := limit cfg instance in
      if QuotaAmount args >? 0 then alloc now instance args q h
      else if QuotaAmount args <? 0 then
        free now instance (mkArgs (DeduplicationID args) (i64 (- QuotaAmount args)) (BestEffort args)) q h
      else GoRet (mkResult 0 0, h)
  end.

(** ** Building the handler *)

(** [builder.Validate], for the one field it checks. *)
Definition Validate (minDeduplicationDuration : Z) : option gerr :=
  if minDeduplicationDuration <=? 0
  then Some (Errorf "deduplication window of %v is invalid, must be > 0" [AInt minDeduplicationDuration])
  else None.

Definition quota_limits (quotas : list Params_Quota) : gmap string Params_Quota :=
  foldl (fun m q => <[q_Name q := q]> m) ∅ quotas.

(** [buildWithDedup]: every declared quota type must have a limit. *)
Definition buildWithDedup (quotas : list Params_Quota) (quotaTypes : list string) : go gerr handler :=
  let ls := quota_limits quotas in
  match List.find (fun k => bool_decide (ls !! k = None)) quotaTypes with
  | Some k => GoErr (Errorf "did not find limit defined for quota %s" [AStr k])
  | None => GoRet (mkHandler ∅ ∅ ∅ ∅ ls)
  end.
End Memquota.
