(* ===== verification/MemQuotaFacts.v ===== *)
(** * The rolling window refines a log of consumption

    The abstract state of a window is the amount consumed at every tick; what
    is available at a tick is the limit less the consumption of the last [N]
    ticks.  [window_is] relates the ring of slots to it. *)

From Stdlib Require Import ZArith Lia.
From stdpp Require Import base list gmap strings.
From S2P Require Import Prelude MemQuota.

Open Scope Z_scope.

(** Consumption of the [n] ticks up to [T]. *)
Fixpoint used (u : Z → Z) (T : Z) (n : nat) : Z :=
  match n with O => 0 | S n' => used u T n' + u (T - Z.of_nat n') end.

Lemma used_shift u T n : used u (T + 1) (S n) = u (T + 1) + used u T n.
Proof.
  induction n as [|n IH]; [simpl; rewrite Z.sub_0_r; lia|].
  change (used u (T + 1) (S (S n))) with (used u (T + 1) (S n) + u (T + 1 - Z.of_nat (S n))).
  rewrite IH. simpl used. replace (T + 1 - Z.of_nat (S n)) with (T - Z.of_nat n) by lia. lia.
Qed.

Lemma used_ext u v T n : (∀ t, T - Z.of_nat n < t <= T → u t = v t) → used u T n = used v T n.
Proof.
  induction n as [|n IH]; [done|]. intros H. simpl. rewrite IH, H; [done|lia|]. intros t Ht. apply H. lia.
Qed.

Lemma used_nonneg u T n : (∀ t, 0 <= u t) → 0 <= used u T n.
Proof. intros H. induction n as [|n IH]; simpl; [lia|]. specialize (H (T - Z.of_nat n)). lia. Qed.

Lemma used_elem u T n t : (∀ t, 0 <= u t) → T - Z.of_nat n < t <= T → u t <= used u T n.
Proof.
  intros H. induction n as [|n IH]; intros Ht; [lia|]. simpl. pose proof (used_nonneg u T n H).
  destruct (decide (t = T - Z.of_nat n)) as [->|Hne]; [lia|].
  specialize (H (T - Z.of_nat n)). assert (u t <= used u T n) by (apply IH; lia). lia.
Qed.

Definition bump (u : Z → Z) (T a : Z) : Z → Z := fun t => if decide (t = T) then u t + a else u t.

Lemma used_bump u T a n t : T - Z.of_nat n < t <= T → used (bump u t a) T n = used u T n + a.
Proof.
  induction n as [|n IH]; intros Ht; [lia|]. simpl. unfold bump at 2. case_decide as E.
  - rewrite (used_ext (bump u t a) u); [lia|]. intros t' Ht'. unfold bump. by rewrite decide_False by lia.
  - rewrite IH by lia. lia.
Qed.

(** A window ending later than the last consumption holds no more than the one
    ending there. *)
Lemma used_after u c T n : (∀ t, 0 <= u t) → (∀ t, c < t → u t = 0) → c <= T → used u T n <= used u c n.
Proof.
  intros Hn Hz HT. induction n as [|n IH]; [done|]. simpl.
  destruct (decide (c = T)) as [->|Hne]; [lia|].
  enough (used u T (S n) <= used u c (S n)) by done. clear IH.
  assert (∀ k, used u (c + Z.of_nat k) (S n) <= used u c (S n)) as Hk.
  { induction k as [|k IHk]; [replace (c + Z.of_nat 0) with c by lia; lia|].
    replace (c + Z.of_nat (S k)) with (c + Z.of_nat k + 1) by lia. rewrite used_shift, Hz by lia.
    simpl in IHk. specialize (Hn (c + Z.of_nat k - Z.of_nat n)). simpl. lia. }
  specialize (Hk (Z.to_nat (T - c))). replace (c + Z.of_nat (Z.to_nat (T - c))) with T in Hk by lia. done.
Qed.

Lemma zlookup_insert {A} (l : list A) i j x :
  0 <= i < zlength l → 0 <= j → zlookup (<[Z.to_nat i := x]> l) j = if decide (j = i) then Some x else zlookup l j.
Proof.
  intros Hi Hj. unfold zlookup, zlength in *. destruct (Z.leb_spec 0 j); [|lia]. case_decide as E.
  - subst. apply list_lookup_insert_eq. lia.
  - apply list_lookup_insert_ne. lia.
Qed.

Lemma used_zero_eq u T T' n :
  (∀ t, T - Z.of_nat n < t → u t = 0) → (∀ t, T' - Z.of_nat n < t → u t = 0) → used u T n = used u T' n.
Proof.
  intros H H'. assert (∀ X k, (∀ t, X - Z.of_nat k < t → u t = 0) → used u X k = 0) as Hz.
  { intros X k HX. induction k as [|k IH]; [done|]. simpl. rewrite IH, HX; [done|lia|]. intros t Ht. apply HX. lia. }
  by rewrite !Hz.
Qed.

Lemma zlength_insert_q {A} (l : list A) k x : zlength (<[k := x]> l) = zlength l.
Proof. unfold zlength. by rewrite length_insert. Qed.

Lemma used_zero u T n : (∀ j, 0 <= j < Z.of_nat n → u (T - j) = 0) → used u T n = 0.
Proof. induction n as [|n IH]; [done|]. intros H. simpl. rewrite IH, H; [done|lia|]. intros j Hj. apply H. lia. Qed.

(** ** The relation *)

Section Window.
Context (N : nat) (limit : Z) (HN : (0 < N)%nat) (HN64 : Z.of_nat N < 2 ^ 62) (Hlim : 0 <= limit < 2 ^ 63).
Abbreviation ZN := (Z.of_nat N).

Record ring (s : list Z) (cur tick av : Z) (u : Z → Z) : Prop := {
  ri_len : length s = N;
  ri_cur : 0 <= cur < ZN;
  ri_slot : ∀ j, 0 <= j < ZN → zlookup s ((cur - j) mod ZN) = Some (u (tick - j));
  ri_avail : av = limit - used u tick N;
  ri_room : used u tick N <= limit;
  ri_nonneg : ∀ t, 0 <= u t;
  ri_future : ∀ t, tick < t → u t = 0
}.

Definition window_is (w : rollingWindow) (u : Z → Z) : Prop :=
  ring (slots w) (currentSlot w) (currentSlotTick w) (avail w) u ∧ 0 <= currentSlotTick w < 2 ^ 63.

Lemma mod_shift a : 0 <= a < ZN → (a + 1) mod ZN = Z.rem (a + 1) ZN.
Proof using HN. intros. by rewrite Z.rem_mod_nonneg by lia. Qed.

(** Distinct ticks of the window have distinct slots. *)
Lemma slot_inj cur j k : 0 <= cur < ZN → 0 <= j < ZN → 0 <= k < ZN → (cur - j) mod ZN = (cur - k) mod ZN → j = k.
Proof using HN.
  intros Hc Hj Hk E.
  assert (∀ i, 0 <= i < ZN → (cur - i) mod ZN = if decide (i <= cur) then cur - i else cur - i + ZN) as Hm.
  { intros i Hi. case_decide; [by apply Z.mod_small; lia|]. rewrite <- (Z.mod_add _ 1), Z.mod_small; lia. }
  rewrite !Hm in E by done. repeat case_decide; lia.
Qed.

(** One tick forward. *)
Lemma ring_step s cur tick av u :
  ring s cur tick av u →
  let idx := (cur + 1) mod ZN in
  ∃ x, zlookup s idx = Some x ∧ ring (<[Z.to_nat idx := 0]> s) idx (tick + 1) (i64 (av + x)) u.
Proof using HN HN64 Hlim.
  intros R idx. assert (0 <= idx < ZN) as Hidx by (apply Z.mod_pos_bound; lia).
  exists (u (tick - (ZN - 1))). assert (zlookup s idx = Some (u (tick - (ZN - 1)))) as Hx.
  { rewrite <- (ri_slot _ _ _ _ _ R) by lia. f_equal. unfold idx.
    replace (cur - (ZN - 1)) with (cur + 1 + (-1) * ZN) by lia. by rewrite Z.mod_add by lia. }
  split; [done|]. pose proof (ri_nonneg _ _ _ _ _ R) as Hn.
  assert (used u (tick + 1) N + u (tick - (ZN - 1)) = used u tick N) as Hu.
  { destruct N as [|n]; [lia|]. rewrite used_shift, (ri_future _ _ _ _ _ R) by lia. simpl used.
    replace (tick - (Z.of_nat (S n) - 1)) with (tick - Z.of_nat n) by lia. lia. }
  pose proof (used_nonneg u (tick + 1) N Hn). pose proof (ri_avail _ _ _ _ _ R) as Hav.
  pose proof (ri_room _ _ _ _ _ R) as Hroom. pose proof (Hn (tick - (ZN - 1))).
  split.
  - by rewrite length_insert, (ri_len _ _ _ _ _ R).
  - done.
  - intros j Hj. rewrite zlookup_insert; [|unfold zlength; rewrite (ri_len _ _ _ _ _ R); lia|apply Z.mod_pos_bound; lia].
    destruct (decide (j = 0)) as [->|Hj0].
    + rewrite Z.sub_0_r, Z.mod_small, decide_True by (done || lia).
      by rewrite Z.sub_0_r, (ri_future _ _ _ _ _ R) by lia.
    + rewrite decide_False.
      2: { intros E. assert ((idx - j) mod ZN = (idx - 0) mod ZN) as E' by (rewrite E, Z.sub_0_r, Z.mod_small; done).
           apply slot_inj in E'; lia. }
      replace (tick + 1 - j) with (tick - (j - 1)) by lia. rewrite <- (ri_slot _ _ _ _ _ R) by lia. f_equal.
      unfold idx. rewrite Zminus_mod_idemp_l. f_equal. lia.
  - rewrite i64_id by width. lia.
  - lia.
  - done.
  - intros t Ht. apply (ri_future _ _ _ _ _ R). lia.
Qed.

Lemma roll_loop_ring n : ∀ i s cur tick av u,
  ring s ((cur + i) mod ZN) tick av u → 0 <= cur < ZN → 0 <= i →
  ∃ s' av', roll_loop n i cur s av = GoRet (s', av') ∧
    ring s' ((cur + (i + Z.of_nat n)) mod ZN) (tick + Z.of_nat n) av' u.
Proof using HN HN64 Hlim.
  induction n as [|n IH]; intros i s cur tick av u R Hc Hi.
  { exists s, av. split; [done|]. by rewrite !Z.add_0_r. }
  simpl. assert (zlength s = ZN) as Hl by (unfold zlength; by rewrite (ri_len _ _ _ _ _ R)).
  destruct (ring_step _ _ _ _ _ R) as (x & Hx & R').
  assert (Z.rem (cur + 1 + i) (zlength s) = ((cur + i) mod ZN + 1) mod ZN) as ->.
  { rewrite Hl, Z.rem_mod_nonneg by lia. rewrite Zplus_mod_idemp_l. f_equal. lia. }
  unfold go_get. rewrite Hx. cbn [go_bind]. unfold go_set.
  rewrite zinsert_Some by (by eapply zlookup_Some_lt). cbn [go_bind].
  rewrite Zplus_mod_idemp_l, <- Z.add_assoc in R'.
  destruct (IH (i + 1) _ cur _ _ u R') as (s' & av' & E & R2); [done|lia|].
  exists s', av'. rewrite Zplus_mod_idemp_l, <- Z.add_assoc. split; [exact E|].
  replace (i + Z.of_nat (S n)) with (i + 1 + Z.of_nat n) by lia.
  by replace (tick + Z.of_nat (S n)) with (tick + 1 + Z.of_nat n) by lia.
Qed.

(** Rolling to a later tick does not change the log. *)
Lemma roll_is w u T :
  window_is w u → currentSlotTick w <= T < 2 ^ 63 →
  ∃ w', roll T w = GoRet w' ∧ window_is w' u ∧ currentSlotTick w' = T.
Proof using HN HN64 Hlim.
  intros [R Ht] HT. destruct w as [s cur tick av]. simpl in *. unfold roll. cbn [slots currentSlot currentSlotTick avail].
  assert (zlength s = ZN) as Hl by (unfold zlength; by rewrite (ri_len _ _ _ _ _ R)).
  pose proof (ri_cur _ _ _ _ _ R) as Hc. rewrite Hl, i64_id by width.
  set (b := if T - tick >? ZN then ZN else T - tick).
  assert (0 <= b <= ZN ∧ b <= T - tick ∧ (b < T - tick → b = ZN)) as (Hb & Hb2 & Hb3).
  { unfold b. destruct (Z.gtb_spec (T - tick) ZN); lia. }
  destruct (roll_loop_ring (Z.to_nat b) 0 s cur tick av u) as (s' & av' & E & R');
    [by rewrite Z.add_0_r, Z.mod_small|done|done|].
  rewrite E. cbn [go_bind]. destruct (Z.eqb_spec ZN 0); [lia|]. eexists. split; [done|]. split; [|done].
  rewrite Z2Nat.id, Z.add_0_l in R' by lia. rewrite Z.rem_mod_nonneg by lia. split; [|simpl; lia]. simpl.
  destruct (decide (b = T - tick)) as [Eb|Hne].
  { by replace T with (tick + b) by lia. }
  assert (b = ZN) as -> by lia. destruct R' as [L C Sl Av Ro Nn Fu]. split; try done.
  - intros j Hj. rewrite Sl by done. f_equal. rewrite !(ri_future _ _ _ _ _ R); [done|lia..].
  - rewrite Av. f_equal. apply used_zero_eq; intros t Ht'; apply (ri_future _ _ _ _ _ R); lia.
  - etrans; [|exact Ro]. apply Z.eq_le_incl. apply used_zero_eq; intros t Ht'; apply (ri_future _ _ _ _ _ R); lia.
  - intros t Ht'. apply (ri_future _ _ _ _ _ R). lia.
Qed.

(** Changing the consumption of one tick of the window. *)
Lemma ring_bump s cur T av u k d :
  ring s cur T av u → 0 <= k < ZN → 0 <= u (T - k) + d → used u T N + d <= limit →
  ring (<[Z.to_nat ((cur - k) mod ZN) := u (T - k) + d]> s) cur T (limit - used (bump u (T - k) d) T N) (bump u (T - k) d).
Proof using HN HN64 Hlim.
  intros R Hk Hd Hr. assert (zlength s = ZN) as Hl by (unfold zlength; by rewrite (ri_len _ _ _ _ _ R)).
  pose proof (ri_nonneg _ _ _ _ _ R) as Hn. pose proof (ri_cur _ _ _ _ _ R) as Hc.
  split; [|done| |done| | |].
  - by rewrite length_insert, (ri_len _ _ _ _ _ R).
  - intros j Hj. rewrite zlookup_insert; [|rewrite Hl; apply Z.mod_pos_bound; lia|apply Z.mod_pos_bound; lia]. unfold bump.
    destruct (decide (j = k)) as [->|Hne]; [by rewrite !decide_True by done|].
    rewrite !decide_False; [by apply R|lia|]. intros E. by apply slot_inj in E.
  - rewrite used_bump by lia. lia.
  - intros t. unfold bump. case_decide as E; [by subst t|]. apply Hn.
  - intros t Ht. unfold bump. rewrite decide_False by lia. by apply R.
Qed.

(** Allocation: granted exactly when the last [N] ticks leave room for it. *)
Lemma alloc_is w u T a :
  window_is w u → currentSlotTick w <= T < 2 ^ 63 → 0 <= a < 2 ^ 63 →
  ∃ w', window_alloc a T w = GoRet (a <=? limit - used u T N, w') ∧
    window_is w' (if a <=? limit - used u T N then bump u T a else u) ∧ currentSlotTick w' = T.
Proof using HN HN64 Hlim.
  intros Hw HT Ha. destruct (roll_is w u T Hw HT) as (w1 & E & [R Ht1] & ET). unfold window_alloc. rewrite E. cbn [go_bind].
  destruct w1 as [s cur tick av]. cbn [slots currentSlot currentSlotTick avail] in *. subst tick.
  rewrite (ri_avail _ _ _ _ _ R). destruct (Z.gtb_spec a (limit - used u T N)), (Z.leb_spec a (limit - used u T N)); try lia.
  { eexists. split; [done|]. split; [|done]. split; [|done]. simpl. by rewrite <- (ri_avail _ _ _ _ _ R). }
  pose proof (ri_cur _ _ _ _ _ R) as Hc. pose proof (ri_nonneg _ _ _ _ _ R) as Hn.
  pose proof (ri_slot _ _ _ _ _ R 0 ltac:(lia)) as Hs0. rewrite !Z.sub_0_r, Z.mod_small in Hs0 by lia.
  unfold go_get. rewrite Hs0. cbn [go_bind]. unfold go_set. rewrite zinsert_Some by (by eapply zlookup_Some_lt). cbn [go_bind].
  pose proof (used_nonneg u T N Hn). pose proof (used_elem u T N T Hn ltac:(lia)). pose proof (Hn T).
  rewrite !i64_id by width. eexists. split; [done|]. split; [|done]. split; [|done]. simpl.
  pose proof (ring_bump s cur T av u 0 a R ltac:(lia)) as Rb. rewrite !Z.sub_0_r, Z.mod_small in Rb by lia.
  replace (limit - used u T N - a) with (limit - used (bump u T a) T N) by (rewrite used_bump; lia). apply Rb; lia.
Qed.

(** ** Release *)

Lemma release_loop_is n : ∀ k s cur T av u amount total,
  k + Z.of_nat n = ZN → 0 <= k → ring s cur T av u → (∀ j, 0 <= j < k → u (T - j) = 0) →
  0 <= amount < 2 ^ 63 → 0 <= total → total + used u T N <= limit →
  ∃ s' u', release_loop n ((cur - k) mod ZN) amount total s = GoRet (total + Z.min amount (used u T N), s') ∧
    ring s' cur T (limit - used u' T N) u' ∧ used u' T N = used u T N - Z.min amount (used u T N) ∧
    ∀ t, 0 <= u' t <= u t.
Proof using HN HN64 Hlim.
  induction n as [|n IH]; intros k s cur T av u amount total Hk Hk0 R Hz Ha Ht Hr; simpl.
  { assert (used u T N = 0) as Hu0 by (apply used_zero; intros j Hj; apply Hz; lia).
    exists s, u. split_and!; [do 2 f_equal; lia| |lia|intros t; pose proof (ri_nonneg _ _ _ _ _ R t); lia].
    by rewrite <- (ri_avail _ _ _ _ _ R). }
  pose proof (ri_cur _ _ _ _ _ R) as Hc. pose proof (ri_nonneg _ _ _ _ _ R) as Hn.
  assert (zlength s = ZN) as Hl by (unfold zlength; by rewrite (ri_len _ _ _ _ _ R)).
  assert (0 <= (cur - k) mod ZN < ZN) as Hidx by (apply Z.mod_pos_bound; lia).
  unfold go_get at 1. rewrite (ri_slot _ _ _ _ _ R) by lia. cbn [go_bind].
  pose proof (used_elem u T N (T - k) Hn ltac:(lia)) as Hel. pose proof (Hn (T - k)) as Hx.
  destruct (Z.geb_spec (u (T - k)) amount) as [Hge|Hlt]; unfold go_set; rewrite zinsert_Some by lia; cbn [go_bind].
  - pose proof (ring_bump s cur T av u k (- amount) R ltac:(lia) ltac:(lia) ltac:(lia)) as Rb.
    rewrite !i64_id by width. rewrite Z.min_l by lia. eexists _, _. split; [done|]. split; [exact Rb|].
    rewrite used_bump by lia. split; [lia|]. intros t. unfold bump. specialize (Hn t). case_decide; [subst t; lia|lia].
  - pose proof (ring_bump s cur T av u k (- u (T - k)) R ltac:(lia) ltac:(lia) ltac:(lia)) as Rb.
    replace (u (T - k) + - u (T - k)) with 0 in Rb by lia. rewrite !i64_id by width. set (u1 := bump u (T - k) _) in *.
    assert (used u1 T N = used u T N - u (T - k)) as Hu1 by (unfold u1; rewrite used_bump; lia).
    assert (∀ t, u1 t = if decide (t = T - k) then 0 else u t) as Hu1t.
    { intros t. unfold u1, bump. case_decide; [subst t; lia|done]. }
    destruct (IH (k + 1) _ cur T _ u1 (amount - u (T - k)) (total + u (T - k)) ltac:(lia) ltac:(lia) Rb)
      as (s' & u' & E & R' & Hu' & Hle); [|width..|].
    { intros j Hj. rewrite Hu1t. case_decide; [done|]. apply Hz. lia. }
    exists s', u'. rewrite zlength_insert_q. rewrite Hl.
    assert ((if (cur - k) mod ZN - 1 <? 0 then ZN - 1 else (cur - k) mod ZN - 1) = (cur - (k + 1)) mod ZN) as ->.
    { replace (cur - (k + 1)) with (cur - k - 1) by lia. rewrite <- (Zminus_mod_idemp_l (cur - k)).
      destruct (Z.ltb_spec ((cur - k) mod ZN - 1) 0).
      - replace ((cur - k) mod ZN) with 0 by lia. rewrite <- (Z.mod_add _ 1), Z.mod_small; lia.
      - rewrite (Z.mod_small ((cur - k) mod ZN - 1)); lia. }
    rewrite E. split; [f_equal; f_equal; lia|]. split; [done|]. split; [lia|].
    intros t. specialize (Hle t). rewrite Hu1t in Hle. specialize (Hn t). case_decide; lia.
Qed.

(** Release: as much of the amount as the window holds comes back. *)
Lemma release_is w u T a :
  window_is w u → currentSlotTick w <= T < 2 ^ 63 → 0 <= a < 2 ^ 63 →
  ∃ w' u', window_release a T w = GoRet (Z.min a (used u T N), w') ∧ window_is w' u' ∧ currentSlotTick w' = T ∧
    used u' T N = used u T N - Z.min a (used u T N) ∧ ∀ t, 0 <= u' t <= u t.
Proof using HN HN64 Hlim.
  intros Hw HT Ha. destruct (roll_is w u T Hw HT) as (w1 & E & [R Ht1] & ET). unfold window_release. rewrite E. cbn [go_bind].
  destruct w1 as [s cur tick av]. cbn [slots currentSlot currentSlotTick avail] in *. subst tick.
  pose proof (ri_room _ _ _ _ _ R) as Hr. pose proof (ri_cur _ _ _ _ _ R) as Hc.
  pose proof (used_nonneg u T N (ri_nonneg _ _ _ _ _ R)) as Hu.
  destruct (release_loop_is N 0 s cur T av u a 0 ltac:(lia) ltac:(lia) R) as (s' & u' & El & R' & Hu' & Hle); [lia..|].
  rewrite Z.sub_0_r, Z.mod_small, Z.add_0_l in El by lia. rewrite (ri_len _ _ _ _ _ R), El. cbn [go_bind].
  eexists _, u'. split; [done|]. split; [|done]. split; [|done]. simpl. rewrite (ri_avail _ _ _ _ _ R), i64_id by width.
  by replace (limit - used u T N + Z.min a (used u T N)) with (limit - used u' T N) by lia.
Qed.

(** A fresh window. *)
Lemma new_is : window_is (mkWindow (replicate N 0) 0 0 limit) (fun _ => 0).
Proof using HN Hlim.
  assert (used (fun _ => 0) 0 N = 0) as H0 by (by apply used_zero).
  split; [|simpl; lia]. split; simpl; try done; try lia.
  - apply length_replicate.
  - intros j Hj. unfold zlookup. pose proof (Z.mod_pos_bound (0 - j) ZN ltac:(lia)).
    destruct (Z.leb_spec 0 ((0 - j) mod ZN)); [|lia]. apply lookup_replicate. split; [done|lia].
Qed.
End Window.
