(* ===== verification/MemQuotaProps.v ===== *)
(** * Properties of the in-memory quota adapter *)

From Stdlib Require Import ZArith Lia.
From stdpp Require Import base list gmap strings.
From S2P Require Import Prelude MemQuota MemQuotaFacts.

Open Scope Z_scope.

(** ** Rate limiting *)

(** A call of a window at a tick, and its answer. *)
Inductive request : Type := Alloc (a : Z) | Release (a : Z).
Inductive answer : Type := Granted (ok : bool) | Returned (r : Z).

Definition call_window (q : request) (t : Z) (w : rollingWindow) : go gerr (answer * rollingWindow) :=
  match q with
  | Alloc a => let! (ok, w) := window_alloc a t w in GoRet (Granted ok, w)
  | Release a => let! (r, w) := window_release a t w in GoRet (Returned r, w)
  end.

Fixpoint serve (rs : list (request * Z)) (w : rollingWindow) : go gerr (list answer * rollingWindow) :=
  match rs with
  | [] => GoRet ([], w)
  | (q, t) :: rs' =>
      let! (x, w) := call_window q t w in
      let! (xs, w) := serve rs' w in
      GoRet (x :: xs, w)
  end.

(** What a call adds to the amount a client holds: what was granted, less what
    was taken back. *)
Definition net (q : request) (x : answer) : Z :=
  match q, x with
  | Alloc a, Granted true => a
  | _, Returned r => - r
  | _, _ => 0
  end.

(** The sum over all calls, and over the calls at tick [t]. *)
Fixpoint net_total (rs : list (request * Z)) (xs : list answer) : Z :=
  match rs, xs with
  | (q, _) :: rs', x :: xs' => net q x + net_total rs' xs'
  | _, _ => 0
  end.
Fixpoint net_at (rs : list (request * Z)) (xs : list answer) (t : Z) : Z :=
  match rs, xs with
  | (q, t') :: rs', x :: xs' => (if decide (t' = t) then net q x else 0) + net_at rs' xs' t
  | _, _ => 0
  end.

(** A release gives back at most what it was asked to. *)
Definition answers (r : request * Z) (x : answer) : Prop :=
  match r.1, x with Alloc _, Granted _ => True | Release a, Returned r => 0 <= r <= a | _, _ => False end.

Definition asked (q : request) : Z := match q with Alloc a | Release a => a end.

(** Amounts are non-negative and the clock does not go back. *)
Fixpoint timely (now : Z) (rs : list (request * Z)) : Prop :=
  match rs with
  | [] => True
  | (q, t) :: rs' => 0 <= asked q < 2 ^ 63 ∧ now <= t < 2 ^ 63 ∧ timely t rs'
  end.

Section Serve.
Context (N : nat) (limit : Z) (HN : (0 < N)%nat) (HN64 : Z.of_nat N < 2 ^ 62) (Hlim : 0 <= limit < 2 ^ 63).

(** A ledger [g] of what clients hold, by tick, agrees with the log [u] of a
    window at tick [T]: it has nothing after [T], the last [k] ticks of it hold
    no more than those of the log, and all of it ([tot]) no less than the window. *)
Record ledger_ok (g u : Z → Z) (tot T : Z) : Prop := {
  lg_future : ∀ t, T < t → g t = 0;
  lg_last : ∀ k, (k <= N)%nat → used g T k <= used u T k;
  lg_bound : ∀ X, used g X N <= limit;
  lg_total : used u T N <= tot
}.

Lemma used_later g T d k : (∀ t, T < t → g t = 0) → used g (T + Z.of_nat d) (d + k) = used g T k.
Proof.
  intros Hg. induction d as [|d IH]; [simpl; by rewrite Z.add_0_r|].
  replace (T + Z.of_nat (S d)) with (T + Z.of_nat d + 1) by lia. simpl Nat.add. rewrite used_shift, IH, Hg; lia.
Qed.

Lemma used_later_small g T d k : (∀ t, T < t → g t = 0) → (k <= d)%nat → used g (T + Z.of_nat d) k = 0.
Proof. intros Hg Hk. apply used_zero. intros j Hj. apply Hg. lia. Qed.

(** Time passes. *)
Lemma ledger_roll g u tot T T' : ledger_ok g u tot T → T <= T' → (∀ t, 0 <= u t) → (∀ t, T < t → u t = 0) →
  ledger_ok g u tot T'.
Proof using HN.
  intros [H1 H2 H3 H4] HT Hu Hf. assert (∃ d, T' = T + Z.of_nat d) as [d ->] by (exists (Z.to_nat (T' - T)); lia). split.
  - intros t Ht. apply H1. lia.
  - intros k Hk. destruct (decide (k <= d)%nat); [by rewrite !used_later_small|].
    replace k with (d + (k - d))%nat by lia. rewrite !used_later by done. apply H2. lia.
  - done.
  - etrans; [|exact H4]. apply used_after; [done|done|lia].
Qed.

Lemma used_bump_now g T a k : (0 < k)%nat → used (bump g T a) T k = used g T k + a.
Proof. intros Hk. apply used_bump. lia. Qed.

(** A call at tick [T] changes ledger and log. *)
Lemma ledger_call g u u' tot T x :
  ledger_ok g u tot T → used u' T N <= limit → used u' T N <= used u T N + x →
  (∀ k, (0 < k <= N)%nat → used u T k + x <= used u' T k) →
  (∀ t, 0 <= u' t) → (∀ t, T < t → u' t = 0) → ledger_ok (bump g T x) u' (tot + x) T.
Proof using HN Hlim.
  intros [H1 H2 H3 H4] Hr Htot Hk Hn Hf.
  assert (∀ k, (k <= N)%nat → used (bump g T x) T k <= used u' T k) as Hlast.
  { intros [|k] Hkn; [done|]. rewrite used_bump_now by lia. specialize (H2 (S k) Hkn). specialize (Hk (S k) ltac:(lia)). lia. }
  assert (∀ t, T < t → bump g T x t = 0) as Hbf by (intros t Ht; unfold bump; rewrite decide_False by lia; by apply H1).
  split; [done|done| |lia]. intros X. destruct (Z.lt_ge_cases X T) as [Hlt|Hge].
  - rewrite (used_ext _ g); [apply H3|]. intros t Ht. unfold bump. by rewrite decide_False by lia.
  - assert (∃ d, X = T + Z.of_nat d) as [d ->] by (exists (Z.to_nat (X - T)); lia). destruct (decide (N <= d)%nat).
    { rewrite used_later_small by done. lia. }
    replace N with (d + (N - d))%nat by lia. rewrite used_later by done. etrans; [apply Hlast; lia|].
    etrans; [|exact Hr]. clear -Hn HN. induction d as [|d IH]; [by rewrite Nat.sub_0_r|]. etrans; [|exact IH].
    destruct (N - d)%nat eqn:E; [by replace (N - S d)%nat with O by lia|]. replace (N - S d)%nat with n by lia. simpl.
    specialize (Hn (T - Z.of_nat n)). lia.
Qed.

(** The ticks a release takes from: the last ones lose at most what is returned. *)
Lemma used_released u u' T r k : (∀ t, 0 <= u' t <= u t) → used u' T N = used u T N - r → (k <= N)%nat →
  used u T k - r <= used u' T k.
Proof.
  intros Hle Hr Hk. assert (∀ n, (k <= n)%nat → used u T k - used u' T k <= used u T n - used u' T n) as H.
  { intros n Hn. induction Hn as [|n Hn IH]; [lia|]. simpl. specialize (Hle (T - Z.of_nat n)). lia. }
  specialize (H N Hk). lia.
Qed.

(** One call keeps the agreement and answers. *)
Lemma call_ledger q T w u g tot : window_is N limit w u → currentSlotTick w <= T < 2 ^ 63 → 0 <= asked q < 2 ^ 63 →
  ledger_ok g u tot (currentSlotTick w) →
  ∃ x w' u', call_window q T w = GoRet (x, w') ∧ answers (q, T) x ∧ window_is N limit w' u' ∧ currentSlotTick w' = T ∧
    ledger_ok (bump g T (net q x)) u' (tot + net q x) T.
Proof using HN HN64 Hlim.
  intros Hw HT Ha Hg. pose proof Hw as [R _]. pose proof (ri_nonneg _ _ _ _ _ _ _ R) as Hn. pose proof (ri_future _ _ _ _ _ _ _ R) as Hf.
  pose proof (ledger_roll g u tot _ T Hg ltac:(lia) Hn Hf) as Hg'. destruct q as [a|a]; simpl in Ha; cbn [call_window].
  - destruct (alloc_is N limit HN HN64 Hlim w u T a Hw HT Ha) as (w' & -> & Hw' & ET). cbn [go_bind].
    eexists _, w', _. split; [done|]. split; [done|]. split; [exact Hw'|]. split; [done|]. pose proof Hw' as [R' _].
    rewrite ET in R'. pose proof (ri_room _ _ _ _ _ _ _ R') as Hr. pose proof (ri_nonneg _ _ _ _ _ _ _ R') as Hn'.
    destruct (Z.leb_spec a (limit - used u T N)); apply (ledger_call g u); try done; try (apply R'); cbn [net].
    + rewrite used_bump_now by done. lia.
    + intros k Hk. rewrite used_bump_now by lia. lia.
    + lia.
    + lia.
  - destruct (release_is N limit HN HN64 Hlim w u T a Hw HT Ha) as (w' & u' & -> & Hw' & ET & Hu & Hle). cbn [go_bind].
    pose proof (used_nonneg u T N Hn). eexists _, w', u'. split; [done|]. split; [unfold answers; cbn [fst]; lia|]. split; [exact Hw'|]. split; [done|].
    pose proof Hw' as [R' _]. rewrite ET in R'. apply (ledger_call g u); try done; try (apply R'); cbn [net]; try lia.
    intros k Hk. apply (used_released u u'); [done|done|lia].
Qed.

Lemma serve_ledger rs : ∀ w u g tot,
  window_is N limit w u → timely (currentSlotTick w) rs → ledger_ok g u tot (currentSlotTick w) →
  ∃ xs w', serve rs w = GoRet (xs, w') ∧ Forall2 answers rs xs ∧
    (∀ X, used (fun t => g t + net_at rs xs t) X N <= limit) ∧ 0 <= tot + net_total rs xs.
Proof using HN HN64 Hlim.
  induction rs as [|[q T] rs IH]; intros w u g tot Hw Ht Hg; simpl.
  { exists [], w. split; [done|]. split; [constructor|]. pose proof Hw as [R _]. split.
    - intros X. rewrite (used_ext _ g); [apply Hg|]. intros t _. simpl. lia.
    - pose proof (used_nonneg u (currentSlotTick w) N (ri_nonneg _ _ _ _ _ _ _ R)). pose proof (lg_total _ _ _ _ Hg). simpl. lia. }
  destruct Ht as (Ha & HT & Ht). destruct (call_ledger q T w u g tot Hw HT Ha Hg) as (x & w1 & u1 & -> & Hx & Hw1 & ET & Hg1).
  cbn [go_bind]. destruct (IH w1 u1 _ _ Hw1 ltac:(by rewrite ET) ltac:(rewrite ET; exact Hg1)) as (xs & w' & -> & Hxs & Hb & Htot). cbn [go_bind].
  exists (x :: xs), w'. split; [done|]. split; [by constructor|]. split; [|simpl; lia].
  intros X. etrans; [|apply (Hb X)]. apply Z.eq_le_incl, used_ext. intros t _. simpl. unfold bump.
  destruct (decide (t = T)) as [->|]; [by rewrite decide_True by done; lia|]. rewrite decide_False by done. lia.
Qed.

Lemma ledger_0 : ledger_ok (fun _ => 0) (fun _ => 0) 0 0.
Proof using HN Hlim. split; intros; rewrite ?used_zero by done; lia. Qed.
End Serve.

(** C3: the rate limit holds.  A new window of [N] ticks serves any sequence of
    allocations and releases whose clock does not go back, without panicking.
    However they are spread, what was granted in any [N] consecutive ticks, less
    what was taken back in those ticks, is at most the limit; a release gives back
    at most what it was asked to, and all releases together no more than was
    granted. *)
Theorem rate_limit_holds (N : nat) (limit : Z) (rs : list (request * Z)) :
  (0 < N)%nat → Z.of_nat N < 2 ^ 62 → 0 <= limit < 2 ^ 63 → timely 0 rs →
  ∃ w xs w', newRollingWindow limit (Z.of_nat N) = GoRet w ∧ serve rs w = GoRet (xs, w') ∧ Forall2 answers rs xs ∧
    (∀ T, used (net_at rs xs) T N <= limit) ∧ 0 <= net_total rs xs.
Proof.
  intros HN HN64 Hlim Ht.
  destruct (serve_ledger N limit HN HN64 Hlim rs _ _ _ 0 (new_is N limit HN Hlim) Ht (ledger_0 N limit HN Hlim)) as (xs & w' & E & Hx & Hb & Htot).
  eexists _, xs, w'. split_and!; [|exact E|exact Hx| |exact Htot].
  - unfold newRollingWindow. destruct (Z.ltb_spec (Z.of_nat N) 0); [lia|]. by rewrite Nat2Z.id.
  - intros T. etrans; [|apply (Hb T)]. apply Z.eq_le_incl, used_ext. intros t _. lia.
Qed.

Definition demo_requests : list (request * Z) :=
  [(Alloc 4, 1); (Alloc 2, 2); (Release 3, 2); (Alloc 4, 2); (Alloc 5, 4); (Release 9, 5); (Alloc 5, 5)].

Lemma rate_limit_holds_witness :
  ∃ w xs w', newRollingWindow 5 3 = GoRet w ∧ serve demo_requests w = GoRet (xs, w') ∧ Forall2 answers demo_requests xs ∧
    (∀ T, used (net_at demo_requests xs) T 3 <= 5) ∧ 0 <= net_total demo_requests xs.
Proof.
  apply (rate_limit_holds 3 5 demo_requests); simpl; lia.
Defined.

(** C17: the ring of slots refines a log of consumption.  On a window whose slots
    hold the log [u], a request is granted exactly when it fits in what the
    last [N] ticks leave of the limit; then the log grows by it at that tick,
    otherwise it is unchanged. *)
Theorem window_alloc_refines (N : nat) (limit : Z) (w : rollingWindow) (u : Z → Z) (T a : Z) :
  (0 < N)%nat → Z.of_nat N < 2 ^ 62 → 0 <= limit < 2 ^ 63 →
  window_is N limit w u → currentSlotTick w <= T < 2 ^ 63 → 0 <= a < 2 ^ 63 →
  ∃ w', window_alloc a T w = GoRet (a <=? limit - used u T N, w') ∧
    window_is N limit w' (if a <=? limit - used u T N then bump u T a else u) ∧ currentSlotTick w' = T.
Proof. intros HN HN64 Hlim. by apply alloc_is. Qed.

Lemma window_alloc_refines_witness :
  ∃ w', window_alloc 4 7 (mkWindow (replicate 3 0) 0 0 5) = GoRet (true, w') ∧
    window_is 3 5 w' (bump (fun _ => 0) 7 4) ∧ currentSlotTick w' = 7.
Proof.
  apply (window_alloc_refines 3 5 (mkWindow (replicate 3 0) 0 0 5) (fun _ => 0) 7 4); try (simpl; lia).
  apply (new_is 3 5); lia.
Defined.

(** C18: a release returns as much of the amount as the window still holds, and
    takes exactly that from the log, never adding to any tick. *)
Theorem window_release_refines (N : nat) (limit : Z) (w : rollingWindow) (u : Z → Z) (T a : Z) :
  (0 < N)%nat → Z.of_nat N < 2 ^ 62 → 0 <= limit < 2 ^ 63 →
  window_is N limit w u → currentSlotTick w <= T < 2 ^ 63 → 0 <= a < 2 ^ 63 →
  ∃ w' u', window_release a T w = GoRet (Z.min a (used u T N), w') ∧ window_is N limit w' u' ∧
    currentSlotTick w' = T ∧ used u' T N = used u T N - Z.min a (used u T N) ∧ ∀ t, 0 <= u' t <= u t.
Proof. intros HN HN64 Hlim. by apply release_is. Qed.

Lemma window_release_refines_witness :
  ∃ w' u', window_release 4 7 (mkWindow (replicate 3 0) 0 0 5) = GoRet (0, w') ∧ window_is 3 5 w' u' ∧
    currentSlotTick w' = 7 ∧ used u' 7 3 = 0 ∧ ∀ t, 0 <= u' t <= 0.
Proof.
  apply (window_release_refines 3 5 (mkWindow (replicate 3 0) 0 0 5) (fun _ => 0) 7 4); try (simpl; lia).
  apply (new_is 3 5); lia.
Defined.

(** ** Cells *)

Section Cells.
Context (key : string).

Definition in_use (h : handler) : Z := default 0 (cells h !! key).

Lemma in_use_set v h : in_use (set_cells (<[key := v]> (cells h)) h) = v.
Proof. unfold in_use. simpl. by rewrite lookup_insert_eq. Qed.

Lemma in_use_delete h : in_use (set_cells (delete key (cells h)) h) = 0.
Proof. unfold in_use. simpl. by rewrite lookup_delete_eq. Qed.

Lemma cells_other_set v h k : k ≠ key → cells (set_cells (<[key := v]> (cells h)) h) !! k = cells h !! k.
Proof. intros Hk. simpl. by rewrite lookup_insert_ne. Qed.
End Cells.

(** C19: non-expiring quotas.  Allocation never pushes a cell past the maximum
    and never grants more than asked; without best effort it grants all or
    nothing; what it grants is what the cell gains, and no other cell changes.
    Release gives back what it was asked, up to what is in use, and the cell
    loses exactly that. *)
Theorem cells_conserved (args : QuotaArgs) (q : Limit) (key : string) (h : handler) :
  0 < QuotaAmount args < 2 ^ 63 → 0 <= MaxAmount q < 2 ^ 63 → 0 <= in_use key h <= MaxAmount q →
  (∃ r t e h', alloc_cell args q key h = GoRet (r, t, e, h') ∧
     0 <= r <= QuotaAmount args ∧ in_use key h' = in_use key h + r ∧ in_use key h' <= MaxAmount q ∧
     (BestEffort args = false → r = 0 ∨ r = QuotaAmount args) ∧
     (∀ k, k ≠ key → cells h' !! k = cells h !! k)) ∧
  (∃ r t e h', free_cell args key h = GoRet (r, t, e, h') ∧
     r = Z.min (QuotaAmount args) (in_use key h) ∧ in_use key h' = in_use key h - r ∧
     (∀ k, k ≠ key → cells h' !! k = cells h !! k)).
Proof.
  intros Ha Hm Hu. unfold alloc_cell, free_cell. fold (in_use key h). split.
  - rewrite (i64_id (MaxAmount q - in_use key h)) by width.
    destruct (Z.gtb_spec (QuotaAmount args) (MaxAmount q - in_use key h)) as [Hgt|Hle].
    + destruct (BestEffort args); do 4 eexists; (split; [done|]).
      * rewrite i64_id by width. rewrite in_use_set. split_and!; try lia; try done. apply cells_other_set.
      * split_and!; try lia; intros; by try left.
    + do 4 eexists. split; [done|]. rewrite i64_id by width. rewrite in_use_set.
      split_and!; try lia; apply cells_other_set.
  - destruct (Z.geb_spec (QuotaAmount args) (in_use key h)) as [Hge|Hlt]; do 4 eexists; (split; [done|]).
    + rewrite in_use_delete. split_and!; try lia. intros k Hk. simpl. by rewrite lookup_delete_ne.
    + rewrite i64_id by width. rewrite in_use_set. split_and!; try lia. apply cells_other_set.
Qed.

Definition demo_handler : handler := mkHandler ∅ ∅ {[ "k" := 3 ]} ∅ ∅.

Lemma cells_conserved_witness :
  ∃ r t e h', alloc_cell (mkArgs "id" 4 true) (mkLimit 5 0) "k" demo_handler = GoRet (r, t, e, h') ∧
    0 <= r <= 4 ∧ in_use "k" h' = 3 + r.
Proof.
  destruct (cells_conserved (mkArgs "id" 4 true) (mkLimit 5 0) "k" demo_handler) as [H _];
    [simpl; lia..|vm_compute; split; discriminate|].
  destruct H as (r & t & e & h' & E & H1 & H2 & _). exists r, t, e, h'. split; [exact E|]. split; [exact H1|exact H2].
Defined.

(** ** Histories of calls *)

Section Calls.
Context (AppendFloat : float64 → string) (Stringer : value → option string).

(** Quota functions leave the limits and the remembered answers alone. *)
Definition same_memory (h h' : handler) : Prop :=
  limits h' = limits h ∧ recentDedup h' = recentDedup h ∧ oldDedup h' = oldDedup h.

(** What a call does to them: it may remember the answer to an id that was in neither map. *)
Definition remembers (h h' : handler) : Prop :=
  limits h' = limits h ∧ oldDedup h' = oldDedup h ∧
  (recentDedup h' = recentDedup h ∨
   ∃ id d, recentDedup h !! id = None ∧ oldDedup h !! id = None ∧ recentDedup h' = <[id := d]> (recentDedup h)).

Lemma handleDedup_remembers now i args qf h a e h' :
  (∀ k n t h a t' e h', qf k n t h = GoRet (a, t', e, h') → same_memory h h') →
  handleDedup AppendFloat Stringer now i args qf h = GoRet (a, e, h') → remembers h h'.
Proof.
  intros Hqf H. unfold handleDedup in H. destruct (makeKey _ _ _ _) as [key| |]; cbn [go_bind] in H; [|done..].
  destruct (recentDedup h !! DeduplicationID args) as [r|] eqn:Er.
  { injection H as <- <- <-. split; [done|]. split; [done|by left]. }
  destruct (oldDedup h !! DeduplicationID args) as [r|] eqn:Eo.
  { injection H as <- <- <-. split; [done|]. split; [done|by left]. }
  destruct (qf _ _ _ h) as [[[[a0 t0] e0] h0]| |] eqn:E; cbn [go_bind] in H; [|done..].
  destruct (Hqf _ _ _ _ _ _ _ _ E) as (H1 & H2 & H3). injection H as <- <- <-. split; [done|]. split; [done|].
  right. eexists _, _. split; [exact Er|]. split; [exact Eo|]. simpl. by rewrite H2.
Qed.

(** Open the binds of a successful quota function. *)
Ltac quota H :=
  repeat match type of H with
  | go_bind ?r _ = GoRet _ => destruct r; cbn [go_bind] in H; [|discriminate H..]
  | (let '(_, _) := ?x in _) = GoRet _ => destruct x
  | (if ?b then _ else _) = GoRet _ => destruct b
  | match ?o with Some _ => _ | None => _ end = GoRet _ => destruct o
  end; injection H as <- <- <- <-; done.

Lemma HandleQuota_remembers now i args h r h' :
  HandleQuota AppendFloat Stringer now i args h = GoRet (r, h') → remembers h h'.
Proof.
  intros H. unfold HandleQuota in H. destruct (limits h !! i_Name i) as [cfg|]; [|done].
  assert (∀ args q, ∀ k n t h a t' e h', (if ValidDuration q =? 0 then alloc_cell args q k h
    else alloc_window args q k n t h) = GoRet (a, t', e, h') → same_memory h h') as Ha.
  { intros args0 q k n t h0 a t' e h0' E. unfold alloc_cell, alloc_window in E. quota E. }
  assert (∀ args q, ∀ k (n : Z) t h a t' e h', (if ValidDuration q =? 0 then free_cell args k h
    else free_window args q k t h) = GoRet (a, t', e, h') → same_memory h h') as Hf.
  { intros args0 q k n t h0 a t' e h0' E. unfold free_cell, free_window in E. quota E. }
  destruct (_ >? 0); [|destruct (_ <? 0); [|injection H as <- <-; split; [done|]; split; [done|by left]]].
  - unfold alloc in H. destruct (handleDedup _ _ _ _ _ _ h) as [[[a e] h0]| |] eqn:E; cbn [go_bind] in H; [|done..].
    injection H as <- <-. eapply handleDedup_remembers, E. intros k n t h1 a0 t' e0 h1' E1. exact (Ha _ _ _ _ _ _ _ _ _ _ E1).
  - unfold free in H. destruct (handleDedup _ _ _ _ _ _ h) as [[[a e] h0]| |] eqn:E; cbn [go_bind] in H; [|done..].
    injection H as <- <-. eapply handleDedup_remembers, E. intros k n t h1 a0 t' e0 h1' E1. exact (Hf _ _ _ n _ _ _ _ _ _ E1).
Qed.

(** A history of calls with [n] reaps. *)
Inductive history (h : handler) : nat → handler → Prop :=
| hist_start : history h 0 h
| hist_call n now i args h1 r h2 : history h n h1 →
    HandleQuota AppendFloat Stringer now i args h1 = GoRet (r, h2) → history h n h2
| hist_reap n h1 : history h n h1 → history h (S n) (reapDedup h1).

Lemma history_limits h n h' : history h n h' → limits h' = limits h.
Proof. induction 1 as [|n now i args h1 r h2 _ IH H|n h1 _ IH]; [done| |done]. destruct (HandleQuota_remembers _ _ _ _ _ _ H) as [-> _]. done. Qed.

(** Where the answer to an id is after [n] reaps. *)
Definition remembered (id : string) (d : dedupState) (n : nat) (h : handler) : Prop :=
  match n with
  | O => recentDedup h !! id = Some d
  | 1%nat => recentDedup h !! id = None ∧ oldDedup h !! id = Some d
  | _ => True
  end.

Lemma history_remembered id d h n h' : recentDedup h !! id = Some d → history h n h' → remembered id d n h'.
Proof.
  intros H0 Hh. induction Hh as [|n now i args h1 r h2 _ IH H|n h1 _ IH]; [done| |destruct n as [|[|]]; [by split|done..]].
  destruct (HandleQuota_remembers _ _ _ _ _ _ H) as (_ & Ho & Hr). unfold remembered in *.
  destruct Hr as [Hr|(id' & d' & Hn1 & Hn2 & Hr)]; rewrite Ho, Hr; [done|].
  destruct (decide (id = id')) as [->|Hne]; [|by rewrite lookup_insert_ne by done].
  destruct n as [|[|]]; [congruence| |done]. destruct IH as [_ IH]. congruence.
Qed.
End Calls.

(** ** Deduplication *)

Section Dedup.
Context (AppendFloat : float64 → string) (Stringer : value → option string).

(** C20: deduplication.  A request with a new id runs the quota function once.
    Whatever calls of the handler follow, with at most one reap among them at any
    place, repeating the id, with any clock and whatever the request would do,
    returns the amount of the first answer and leaves the state alone; right after
    the second reap the id is forgotten. *)
Theorem dedup_repeats (now now' : Z) (i i' : Instance_) (args args' : QuotaArgs) (qf qf' : quotaFunc)
    (h h' : handler) (a e : Z) (k' : string) :
  recentDedup h !! DeduplicationID args = None → oldDedup h !! DeduplicationID args = None →
  handleDedup AppendFloat Stringer now i args qf h = GoRet (a, e, h') →
  DeduplicationID args' = DeduplicationID args →
  makeKey AppendFloat Stringer (i_Name i') (Dimensions i') = GoRet k' →
  (∀ n h1, (n <= 1)%nat → history AppendFloat Stringer h' n h1 →
     ∃ e1, handleDedup AppendFloat Stringer now' i' args' qf' h1 = GoRet (a, e1, h1) ∧ 0 <= e1) ∧
  (∀ h1, history AppendFloat Stringer h' 1 h1 →
     recentDedup (reapDedup h1) !! DeduplicationID args = None ∧ oldDedup (reapDedup h1) !! DeduplicationID args = None).
Proof.
  intros Hr Ho Hh Hid Hk. unfold handleDedup in Hh. rewrite Hr, Ho in Hh.
  destruct (makeKey _ _ (i_Name i) _) as [key| |]; cbn [go_bind] in Hh; [|done..].
  destruct (qf _ _ _ h) as [[[[a0 t0] e0] h0]| |]; cbn [go_bind] in Hh; [|done..]. injection Hh as -> -> <-.
  set (h' := set_recent _ h0). assert (recentDedup h' !! DeduplicationID args = Some (mkDedup a t0)) as Hd by apply lookup_insert_eq.
  split.
  - intros n h1 Hn Hh. pose proof (history_remembered _ _ _ _ h' n h1 Hd Hh) as H. unfold handleDedup. rewrite Hk, Hid. cbn [go_bind].
    destruct n as [|[|]]; [| |lia]; simpl in H; [rewrite H|destruct H as [-> ->]]; (eexists; split; [done|simpl; lia]).
  - intros h1 Hh. destruct (history_remembered _ _ _ _ h' 1 h1 Hd Hh) as [H1 H2]. done.
Qed.
End Dedup.

Definition demo_instance : Instance_ := mkInstance "requests" {[ "user" := Some (VStr "ann") ]}.
Definition demo_qf : quotaFunc := fun _ now _ h => GoRet (3, now + 5, 5, h).

Definition demo_limited : handler := mkHandler ∅ ∅ ∅ ∅ {[ "requests" := mkQuota "requests" (mkLimit 5 0) [] ]}.

(** The first answer, a call with another id, a reap, another call; then the id again. *)
Definition state_of {A} (h : handler) (r : go gerr (A * handler)) : handler := match r with GoRet (_, h') => h' | _ => h end.
Definition demo_quota (now : Z) (id : string) (n : Z) : handler → go gerr (QuotaResult * handler) :=
  HandleQuota (fun _ => "") (fun _ => None) now demo_instance (mkArgs id n true).
Definition demo_first : go gerr (Z * Z * handler) :=
  handleDedup (fun _ => "") (fun _ => None) 100 demo_instance (mkArgs "id" 3 false) demo_qf demo_limited.
Definition demo_h1 : handler := state_of demo_limited demo_first.
Definition demo_h2 : handler := state_of demo_h1 (demo_quota 101 "x" 2 demo_h1).
Definition demo_h3 : handler := state_of demo_h2 (demo_quota 102 "y" 2 (reapDedup demo_h2)).

Lemma dedup_repeats_witness :
  history (fun _ => "") (fun _ => None) demo_h1 1 demo_h3 ∧
  ∃ e1, handleDedup (fun _ => "") (fun _ => None) 103 demo_instance (mkArgs "id" 9 false) demo_qf demo_h3 =
    GoRet (3, e1, demo_h3) ∧ 0 <= e1.
Proof.
  assert (history (fun _ => "") (fun _ => None) demo_h1 1 demo_h3) as Hh.
  { apply (hist_call _ _ _ _ 102 demo_instance (mkArgs "y" 2 true) (reapDedup demo_h2) (mkResult 2 0)); [|vm_compute; reflexivity].
    apply hist_reap. apply (hist_call _ _ _ _ 101 demo_instance (mkArgs "x" 2 true) demo_h1 (mkResult 2 0)); [|vm_compute; reflexivity].
    apply hist_start. }
  split; [exact Hh|].
  refine (proj1 (dedup_repeats (fun _ => "") (fun _ => None) 100 103 demo_instance demo_instance
    (mkArgs "id" 3 false) (mkArgs "id" 9 false) demo_qf demo_qf demo_limited demo_h1 3 5 "requests;user=ann" _ _ _ _ _) 1%nat demo_h3 (le_n 1) Hh);
    vm_compute; reflexivity.
Defined.

(** ** Building *)

Section Built.
Context (AppendFloat : float64 → string) (Stringer : value → option string).

(** A handler that was built has a limit for every declared quota type, at
    any point of its life: the nil dereference of a missing limit cannot happen
    for a declared type.  Building fails exactly when a type has no limit. *)
Theorem built_handler_has_limits (quotas : list Params_Quota) (types : list string) :
  match buildWithDedup quotas types with
  | GoRet h => ∀ n h', history AppendFloat Stringer h n h' → ∀ name, name ∈ types → is_Some (limits h' !! name)
  | GoErr _ => ∃ name, name ∈ types ∧ quota_limits quotas !! name = None
  | GoPanic _ => False
  end.
Proof.
  unfold buildWithDedup. destruct (List.find _ types) as [k|] eqn:E.
  - apply List.find_some in E as [Hin Hn%bool_decide_eq_true]. exists k. split; [by apply list_elem_of_In|done].
  - intros n h' Hs name Hin. rewrite (history_limits _ _ _ _ _ Hs). simpl.
    pose proof (List.find_none _ _ E name) as Hf. specialize (Hf ltac:(by apply list_elem_of_In)).
    apply bool_decide_eq_false in Hf. by destruct (quota_limits quotas !! name).
Qed.
End Built.

(** ** Where the adapter misbehaves *)

(** A clock that steps back by one tick after the window was used makes the
    current slot negative, and the next allocation panics. *)
Theorem clock_back_panics :
  (let! (_, w) := window_alloc 1 50 (mkWindow (replicate 10 0) 0 0 5) in window_alloc 1 49 w) = GoPanic PIndex.
Proof. vm_compute. reflexivity. Qed.

(** Two different label sets share one key. *)
Theorem makeKey_collides :
  let mk := makeKey (fun _ => "") (fun _ => None) "quota" in
  mk {[ "a" := Some (VStr "x;b=y") ]} = mk (<[ "b" := Some (VStr "y") ]> {[ "a" := Some (VStr "x") ]}).
Proof. vm_compute. reflexivity. Qed.
