(* ===== verification/VizData.v ===== *)
(** * The static data of viz-lite.js

    The byte arrays the viewer writes into the memory of the Graphviz object
    code when it is loaded ([src/example/servicegraph/js/viz/viz-lite.js]), all
    sixteen of them.  Each definition is one call
    [B([...],"i8",4,n.q+offset)], number by number. *)

From Stdlib Require Import ZArith List.
Import ListNotations.
Open Scope Z_scope.

(** [n.q+0]: 1320 bytes. *)
Definition segment_0 : list Z :=
  [0;32;0;0;0;0;0;0;0;0;0;0;0;0;0;0;0;0;0;0;0;0;0;0;5;0;0;0;0;0;0;0;0;32;193;0;0;0;0;0;0;0;0;0;0;0;0;0;0;0;
   0;0;0;0;0;0;1;0;0;0;0;0;0;0;0;0;0;4;0;0;0;0;0;0;0;0;0;0;0;0;0;0;0;0;0;0;0;0;0;0;0;0;0;0;0;0;0;0;0;0;0;0;
   0;0;0;0;0;0;0;0;82;64;0;0;0;0;0;0;82;64;0;0;0;0;0;0;0;0;0;0;0;0;0;0;0;0;0;0;0;0;0;0;0;0;0;0;0;0;0;0;0;0;
   0;0;0;0;0;0;0;0;0;0;0;0;0;0;82;64;0;0;0;0;0;0;82;64;0;0;0;0;0;0;240;63;0;0;0;0;0;0;240;63;0;0;0;0;0;0;
   240;63;0;0;0;0;0;0;240;63;0;0;0;0;0;0;240;63;0;0;0;0;0;0;240;63;0;0;0;0;0;0;240;63;0;0;0;0;0;0;240;63;0;
   0;0;0;0;0;240;63;0;0;0;0;0;0;240;63;0;0;0;0;0;0;240;63;0;0;0;0;0;0;240;63;0;32;193;0;0;0;0;0;0;0;0;0;0;0;
   0;0;0;0;0;0;0;0;0;0;5;0;0;0;0;0;0;0;0;0;0;4;0;0;0;0;0;0;0;0;0;0;0;0;0;0;0;0;0;0;0;0;0;0;0;0;0;0;0;0;0;0;
   0;0;0;0;0;0;0;0;0;0;0;0;82;64;0;0;0;0;0;0;82;64;0;0;0;0;0;0;0;0;0;0;0;0;0;0;0;0;0;0;0;0;0;0;0;0;0;0;0;0;
   0;0;0;0;0;0;0;0;0;0;0;0;0;0;0;0;0;0;82;64;0;0;0;0;0;0;82;64;2;16;0;0;0;0;0;0;0;0;0;0;0;0;16;64;232;174;0;
   0;8;0;0;0;1;0;0;0;0;0;0;0;2;16;0;0;0;0;0;0;0;0;0;0;0;0;0;0;0;0;0;0;0;0;0;0;0;0;0;0;0;0;0;0;0;0;0;0;0;0;0;
   0;0;0;0;0;0;128;150;64;0;0;0;0;0;128;150;64;4;144;195;0;0;0;0;0;0;0;0;0;0;0;16;64;0;0;0;0;0;0;0;0;0;0;0;
   0;0;0;0;0;0;0;0;0;0;0;0;0;0;0;0;0;0;0;0;0;0;0;0;0;0;0;0;0;0;0;0;0;0;0;0;0;0;0;0;0;0;0;0;0;0;0;0;0;0;0;88;
   64;0;0;0;0;0;0;88;64;0;0;12;0;0;0;0;0;0;0;0;0;0;0;0;0;0;0;0;0;0;0;0;0;0;0;0;0;0;0;0;0;0;0;0;0;0;0;0;0;0;
   0;0;0;0;0;88;64;0;0;0;0;0;0;88;64;0;0;0;0;0;0;0;0;0;0;0;0;0;0;16;64;0;0;0;0;0;0;0;0;0;0;0;0;0;0;0;0;0;0;
   0;0;0;0;0;0;0;0;0;0;0;0;0;0;0;0;0;0;0;0;0;0;0;0;0;0;0;0;0;0;0;0;0;0;0;0;0;0;0;0;0;0;0;0;82;64;0;0;0;0;0;
   0;82;64;0;32;3;2;0;0;0;0;0;0;0;0;0;0;16;64;0;0;0;0;0;0;0;0;0;0;0;0;0;0;0;0;96;0;0;0;0;0;0;0;0;0;0;0;0;0;
   66;64;0;0;0;0;0;0;66;64;0;0;0;0;0;32;131;64;0;0;0;0;0;192;136;64;0;0;0;0;0;0;82;64;0;0;0;0;0;0;82;64;0;0;
   0;0;0;0;0;0;0;0;0;0;0;0;66;64;0;0;0;0;0;0;66;64;0;0;0;0;0;32;131;64;0;0;0;0;0;192;136;64;0;0;0;0;0;0;82;
   64;0;0;0;0;0;0;82;64;0;176;193;0;0;0;0;0;0;0;0;0;0;0;16;64;180;181;0;0;147;0;0;0;1;0;0;0;0;0;0;0;64;1;0;
   0;0;0;0;0;0;0;0;0;0;0;0;0;0;0;0;0;0;0;0;0;0;0;0;0;0;0;0;0;0;0;0;0;0;0;0;0;0;0;0;0;0;0;82;64;0;0;0;0;0;0;
   82;64;0;16;0;2;0;0;0;0;0;0;0;0;0;0;16;64;0;0;0;0;0;0;0;0;5;0;0;0;0;0;0;0;0;0;0;0;0;0;0;0;0;0;0;0;0;0;0;0;
   0;0;0;0;0;0;0;0;0;0;0;0;0;0;0;0;0;0;0;0;0;0;0;0;0;0;0;0;0;0;88;64;0;0;0;0;0;0;88;64;0;176;193;0;0;0;0;0;
   0;0;0;0;0;0;0;0;172;185;0;0;16;0;0;0;1;0;0;0;0;0;0;0;0;1;0;0;0;0;0;0;0;0;0;0;0;0;0;0;0;0;0;0;0;0;0;0;0;0;
   0;0;0;0;0;0;0;0;0;0;0;0;0;0;0;0;0;0;0;0;88;64;0;0;0;0;0;0;88;64;64;32;62;3;0;0;0;0;0;0;0;0;0;0;16;64;180;
   186;0;0;122;0;0;0;1;0;0;0;0;0;0;0;0;1;0;0;0;0;0;0;0;0;0;0;0;0;0;0;0;0;0;0;0;0;0;0;0;0;0;0;0;0;0;0;0;0;0;
   0;0;0;0;0;0;0;0;0;0;0;82;64;0;0;0;0;0;0;82;64;0;0;0;0;0;0;0;0;0;0;0;0;0;0;16;64;0;0;0;0;0;0;0;0;0;0;0;0;
   0;0;0;0;0;0;0;0;0;0;0;0;0;0;0;0;0;0;0;0;0;0;0;0;0;0;0;0;0;0;0;0;0;0;0;0;0;0;0;0;0;0;0;0;0;0;0;0;0;0;82;
   64;0;0;0;0;0;0;82;64].

(** [n.q+33336]: 10129 bytes. *)
Definition segment_33336 : list Z :=
  [1;0;0;0;0;0;0;0;0;0;0;0;0;0;0;0;0;0;0;0;0;0;0;0;0;0;0;0;0;0;0;0;0;0;0;0;0;0;0;0;0;0;0;0;0;0;0;0;0;0;0;0;
   0;0;0;0;0;0;0;0;0;0;0;0;0;0;0;0;0;0;0;0;0;0;0;0;0;0;0;0;0;0;0;0;0;0;0;0;1;0;0;0;0;0;0;0;0;0;0;0;0;0;240;
   63;1;0;0;0;0;0;0;0;2;0;0;0;0;0;0;0;0;0;0;0;0;0;240;63;2;0;0;0;0;0;0;0;3;0;0;0;0;0;0;0;0;0;0;0;0;0;224;63;
   3;0;0;0;0;0;0;0;4;0;0;0;0;0;0;0;0;0;0;0;0;0;240;63;4;0;0;0;0;0;0;0;5;0;0;0;0;0;0;0;51;51;51;51;51;51;243;
   63;5;0;0;0;0;0;0;0;6;0;0;0;0;0;0;0;154;153;153;153;153;153;233;63;6;0;0;0;0;0;0;0;7;0;0;0;0;0;0;0;0;0;0;
   0;0;0;240;63;7;0;0;0;0;0;0;0;8;0;0;0;0;0;0;0;0;0;0;0;0;0;224;63;8;0;0;0;0;0;0;0;0;0;0;0;0;0;0;0;0;0;0;0;
   0;0;0;0;0;0;0;0;0;0;0;0;0;0;0;0;0;0;0;0;0;0;0;0;0;0;0;0;0;0;0;0;0;0;0;0;0;0;0;0;0;0;0;0;0;0;0;0;0;0;0;0;
   0;0;0;0;0;0;0;0;0;0;0;0;0;0;0;0;0;0;0;0;0;0;0;0;0;0;0;0;0;0;0;0;0;0;0;0;0;0;0;0;0;0;0;0;0;0;0;0;0;0;0;0;
   0;0;0;0;0;0;0;0;0;0;0;0;0;0;0;0;1;0;0;0;4;0;0;0;0;0;0;0;0;0;0;0;0;0;0;0;0;0;0;0;0;0;0;0;0;0;0;0;0;0;0;0;
   0;0;0;0;0;0;0;0;0;0;0;0;1;0;0;0;0;0;0;0;0;0;0;0;0;0;0;0;0;0;0;0;0;0;0;0;0;0;0;0;0;0;0;0;0;0;0;0;0;0;0;0;
   0;0;0;0;0;0;0;0;1;0;0;0;1;0;0;0;0;0;0;0;0;0;0;0;0;0;0;0;0;0;0;0;0;0;0;0;0;0;0;0;0;0;0;0;0;0;0;0;0;0;0;0;
   1;0;0;0;1;0;0;0;1;0;0;0;0;0;0;0;0;0;0;0;0;0;0;0;0;0;0;0;0;0;0;0;0;0;0;0;0;0;0;0;0;0;0;0;0;0;0;0;0;0;0;0;
   1;0;0;0;1;0;0;0;0;0;0;0;0;0;0;0;0;0;0;0;51;51;51;51;51;51;211;191;0;0;0;0;0;0;0;0;0;0;0;0;0;0;0;0;0;0;0;
   0;1;0;0;0;3;0;0;0;0;0;0;0;0;0;0;0;0;0;0;0;0;0;0;0;0;0;0;0;0;0;0;0;0;0;0;0;0;0;0;0;0;0;0;0;0;0;0;0;0;0;0;
   0;4;0;0;0;0;0;0;0;0;0;0;0;0;0;0;0;0;0;0;0;0;0;0;0;0;0;0;0;0;0;0;0;0;0;0;0;0;0;0;0;0;0;0;0;0;0;0;0;4;0;0;
   0;0;0;0;0;0;0;0;0;0;0;0;0;0;0;0;0;0;0;0;0;0;0;0;0;0;0;0;0;0;0;0;0;0;0;0;0;0;0;0;0;1;0;0;0;4;0;0;0;0;0;0;
   0;0;0;0;0;0;128;70;64;0;0;0;0;0;0;0;0;0;0;0;0;0;0;0;0;0;0;0;0;0;0;0;0;0;0;0;0;1;0;0;0;4;0;0;0;0;0;0;0;0;
   0;0;0;0;0;0;0;154;153;153;153;153;153;217;191;0;0;0;0;0;0;0;0;0;0;0;0;0;0;0;0;0;0;0;0;1;0;0;0;4;0;0;0;0;
   0;0;0;0;0;0;0;0;0;0;0;0;0;0;0;0;0;0;0;51;51;51;51;51;51;227;63;0;0;0;0;0;0;0;0;0;0;0;0;1;0;0;0;5;0;0;0;0;
   0;0;0;0;0;0;0;0;0;0;0;123;20;174;71;225;122;228;191;0;0;0;0;0;0;0;0;0;0;0;0;0;0;0;0;0;0;0;0;1;0;0;0;5;0;
   0;0;0;0;0;0;0;0;0;0;0;0;0;0;0;0;0;0;0;0;0;0;0;0;0;0;0;0;0;0;0;0;0;0;0;0;0;0;0;0;0;0;1;0;0;0;6;0;0;0;0;0;
   0;0;0;0;0;0;0;0;0;0;0;0;0;0;0;0;0;0;0;0;0;0;0;0;0;0;0;0;0;0;0;0;0;0;0;0;0;0;1;0;0;0;7;0;0;0;0;0;0;0;0;0;
   0;0;0;0;0;0;0;0;0;0;0;0;0;0;0;0;0;0;0;0;0;0;0;0;0;0;0;0;0;0;0;0;0;0;1;0;0;0;8;0;0;0;0;0;0;0;0;0;0;0;0;0;
   0;0;0;0;0;0;0;0;0;0;0;0;0;0;0;0;0;0;0;0;0;0;0;0;0;0;0;0;0;0;1;0;0;0;4;0;0;0;0;0;0;0;0;0;0;0;0;0;0;0;0;0;
   0;0;0;0;0;0;0;0;0;0;0;0;0;0;0;0;0;1;0;0;0;0;0;0;0;0;1;0;0;0;4;0;0;0;0;0;0;0;0;0;0;0;0;0;0;0;0;0;0;0;0;0;
   0;0;0;0;0;0;0;0;0;0;0;0;0;2;0;0;0;0;0;0;0;0;1;0;0;0;4;0;0;0;0;0;0;0;0;0;0;0;0;0;0;0;0;0;0;0;0;0;0;0;0;0;
   0;0;0;0;0;0;0;0;0;3;0;0;0;0;0;0;0;0;1;0;0;0;4;0;0;0;0;0;0;0;0;0;0;0;0;0;0;0;0;0;0;0;0;0;0;0;0;0;0;0;0;0;
   0;0;0;0;0;4;0;0;0;0;0;0;0;0;1;0;0;0;4;0;0;0;0;0;0;0;0;0;0;0;0;0;0;0;0;0;0;0;0;0;0;0;0;0;0;0;0;0;0;0;0;0;
   0;5;0;0;0;0;0;0;0;0;1;0;0;0;19;0;0;0;0;0;0;0;0;0;0;0;0;0;0;0;0;0;0;0;0;0;0;0;0;0;0;0;0;0;0;0;0;0;0;26;
   176;216;0;0;1;0;0;0;1;0;0;0;4;0;0;0;0;0;0;0;0;0;0;0;0;0;0;0;0;0;0;0;0;0;0;0;0;0;0;0;0;0;0;0;0;0;0;0;0;0;
   0;0;1;0;0;0;2;0;0;0;1;0;0;0;0;0;0;0;0;0;0;0;0;0;0;0;0;0;0;0;0;0;0;0;0;0;0;0;0;0;0;0;0;0;0;0;0;0;0;0;0;0;
   0;0;2;0;0;0;8;0;0;0;0;0;0;0;0;0;0;0;0;0;0;0;0;0;0;0;0;0;0;0;0;0;0;0;0;0;0;0;0;0;0;0;0;0;0;0;0;0;0;0;3;0;
   0;0;8;0;0;0;0;0;0;0;0;0;0;0;0;0;0;0;0;0;0;0;0;0;0;0;0;0;0;0;0;0;0;0;0;0;0;0;0;0;0;0;0;0;0;0;1;0;0;0;3;0;
   0;0;0;0;0;0;0;0;0;0;0;128;102;64;0;0;0;0;0;0;0;0;0;0;0;0;0;0;0;0;0;0;0;0;0;0;0;0;0;0;0;0;1;0;0;0;4;0;0;0;
   0;0;0;0;0;0;0;0;0;128;102;64;154;153;153;153;153;153;217;191;0;0;0;0;0;0;0;0;0;0;0;0;0;0;0;0;0;0;0;0;1;0;
   0;0;5;0;0;0;0;0;0;0;0;0;0;0;0;128;102;64;123;20;174;71;225;122;228;191;0;0;0;0;0;0;0;0;0;0;0;0;0;0;0;0;0;
   0;0;0;1;0;0;0;4;0;0;0;0;0;0;0;0;0;0;0;0;0;0;0;0;0;0;0;0;0;0;0;0;0;0;0;0;0;0;0;0;4;0;0;0;0;0;0;0;0;0;0;1;
   0;0;0;4;0;0;0;0;0;0;0;0;0;0;0;0;128;70;64;0;0;0;0;0;0;0;0;0;0;0;0;0;0;0;0;24;0;0;0;0;0;0;0;1;0;0;0;1;0;0;
   0;4;0;0;0;0;0;0;0;0;0;0;0;0;0;0;0;0;0;0;0;0;0;0;0;0;0;0;0;0;0;0;0;8;0;0;0;0;0;0;0;1;0;0;0;1;0;0;0;1;0;0;
   0;0;0;0;0;0;0;0;0;0;0;0;0;0;0;0;0;0;0;0;0;0;0;0;0;0;0;0;0;24;0;0;0;0;0;0;0;0;0;0;0;1;0;0;0;4;0;0;0;0;0;0;
   0;0;0;0;0;0;0;0;0;0;0;0;0;0;0;0;0;0;0;0;0;0;0;0;0;0;0;0;6;0;0;0;0;0;0;0;0;1;0;0;0;4;0;0;0;0;0;0;0;0;0;0;
   0;0;0;0;0;0;0;0;0;0;0;0;0;0;0;0;0;0;0;0;0;0;0;0;7;0;0;0;0;0;0;0;0;1;0;0;0;4;0;0;0;0;0;0;0;0;0;0;0;0;0;0;
   0;0;0;0;0;0;0;0;0;0;0;0;0;0;0;0;0;0;0;0;8;0;0;0;0;0;0;0;0;1;0;0;0;4;0;0;0;0;0;0;0;0;0;0;0;0;0;0;0;0;0;0;
   0;0;0;0;0;0;0;0;0;0;0;0;0;0;0;0;9;0;0;0;0;0;0;0;0;1;0;0;0;4;0;0;0;0;0;0;0;0;0;0;0;0;0;0;0;0;0;0;0;0;0;0;
   0;0;0;0;0;0;0;0;0;0;0;0;17;0;0;0;0;0;0;0;0;1;0;0;0;4;0;0;0;0;0;0;0;0;0;0;0;0;0;0;0;0;0;0;0;0;0;0;0;0;0;0;
   0;0;0;0;0;0;0;0;18;0;0;0;0;0;0;0;0;1;0;0;0;4;0;0;0;0;0;0;0;0;0;0;0;0;0;0;0;0;0;0;0;0;0;0;0;0;0;0;0;0;0;0;
   0;0;0;0;19;0;0;0;0;0;0;0;0;1;0;0;0;4;0;0;0;0;0;0;0;0;0;0;0;0;0;0;0;0;0;0;0;0;0;0;0;0;0;0;0;0;0;0;0;0;0;0;
   20;0;0;0;0;0;0;0;0;1;0;0;0;4;0;0;0;0;0;0;0;0;0;0;0;0;0;0;0;0;0;0;0;0;0;0;0;0;0;0;0;0;0;0;0;0;0;0;21;0;0;
   0;0;0;0;0;0;1;0;0;0;4;0;0;0;0;0;0;0;0;0;0;0;0;0;0;0;0;0;0;0;0;0;0;0;0;0;0;0;0;0;0;0;0;0;0;10;0;0;0;0;0;0;
   0;0;1;0;0;0;4;0;0;0;0;0;0;0;0;0;0;0;0;0;0;0;0;0;0;0;0;0;0;0;0;0;0;0;0;0;0;0;0;0;0;11;0;0;0;0;0;0;0;0;1;0;
   0;0;4;0;0;0;0;0;0;0;0;0;0;0;0;0;0;0;0;0;0;0;0;0;0;0;0;0;0;0;0;0;0;0;0;0;0;12;0;0;0;0;0;0;0;0;1;0;0;0;4;0;
   0;0;0;0;0;0;0;0;0;0;0;0;0;0;0;0;0;0;0;0;0;0;0;0;0;0;0;0;0;0;0;0;0;13;0;0;0;0;0;0;0;0;1;0;0;0;4;0;0;0;0;0;
   0;0;0;0;0;0;0;0;0;0;0;0;0;0;0;0;0;0;0;0;0;0;0;0;0;0;0;0;0;14;0;0;0;0;0;0;0;0;1;0;0;0;4;0;0;0;0;0;0;0;0;0;
   0;0;0;0;0;0;0;0;0;0;0;0;0;0;0;0;0;0;0;0;0;0;0;0;0;15;0;0;0;0;0;0;0;0;1;0;0;0;4;0;0;0;0;0;0;0;0;0;0;0;0;0;
   0;0;0;0;0;0;0;0;0;0;0;0;0;0;0;0;0;0;0;0;0;16;0;0;0;0;0;0;0;0;1;0;0;0;4;0;0;0;0;0;0;0;0;0;0;0;0;0;0;0;0;0;
   0;0;0;0;0;0;0;0;0;0;0;0;0;0;0;0;0;22;0;0;0;0;0;0;0;0;1;0;0;0;4;0;0;0;0;0;0;0;0;0;0;0;0;0;0;0;0;0;0;0;0;0;
   0;0;0;0;0;0;0;0;0;0;0;0;0;24;0;0;0;0;0;0;0;0;1;0;0;0;4;0;0;0;0;0;0;0;0;0;0;0;0;0;0;0;0;0;0;0;0;0;0;0;0;0;
   0;0;0;0;0;0;0;0;0;23;0;0;0;0;0;0;0;0;1;0;0;0;4;0;0;0;0;0;0;0;0;0;0;0;0;0;0;0;0;0;0;0;0;0;0;0;0;0;0;0;0;0;
   0;0;0;0;0;25;0;0;0;0;0;0;0;0;1;0;0;0;10;0;0;0;0;0;0;0;0;0;0;0;0;0;0;0;0;0;0;0;0;0;0;0;0;0;0;0;0;0;0;0;0;
   0;0;0;144;216;0;0;0;0;0;0;0;0;0;0;0;0;0;0;0;0;0;0;0;0;0;0;0;0;0;0;0;0;0;0;0;0;0;0;0;0;0;0;0;0;240;191;0;
   0;0;0;0;0;1;0;0;0;0;0;0;0;0;0;0;0;0;0;0;0;0;0;0;0;0;0;0;0;0;0;0;0;0;0;0;0;0;0;0;0;0;0;0;0;0;0;0;0;0;0;0;
   0;0;0;0;0;0;0;0;0;0;0;0;0;0;0;0;0;0;0;0;0;0;0;0;0;0;0;0;0;0;0;0;0;0;0;0;0;0;0;0;0;208;63;0;0;0;0;0;0;208;
   63;0;0;0;0;0;0;208;63;0;0;0;0;0;0;208;63;0;0;0;0;0;0;208;63;0;0;0;0;0;0;208;63;0;0;0;0;0;0;208;63;0;0;0;
   0;0;0;208;63;0;0;0;0;0;0;208;63;0;0;0;0;0;0;208;63;0;0;0;0;0;0;208;63;0;0;0;0;0;0;208;63;0;0;0;0;0;0;208;
   63;0;0;0;0;0;0;208;63;0;0;0;0;0;0;208;63;0;0;0;0;0;0;208;63;0;0;0;0;0;0;208;63;0;0;0;0;0;0;208;63;0;0;0;
   0;0;0;208;63;0;0;0;0;0;0;208;63;0;0;0;0;0;0;208;63;0;0;0;0;0;0;208;63;0;0;0;0;0;0;208;63;0;0;0;0;0;0;208;
   63;0;0;0;0;0;0;208;63;0;0;0;0;0;0;208;63;0;0;0;0;0;0;208;63;0;0;0;0;0;0;208;63;0;0;0;0;0;0;208;63;0;0;0;
   0;0;0;208;63;0;0;0;0;0;0;208;63;0;0;0;0;0;0;208;63;0;0;0;0;0;0;208;63;88;168;53;205;59;78;213;63;37;117;
   2;154;8;27;218;63;0;0;0;0;0;0;224;63;0;0;0;0;0;0;224;63;44;212;154;230;29;167;234;63;106;222;113;138;142;
   228;232;63;88;168;53;205;59;78;213;63;88;168;53;205;59;78;213;63;88;168;53;205;59;78;213;63;0;0;0;0;0;0;
   224;63;93;220;70;3;120;11;226;63;0;0;0;0;0;0;208;63;88;168;53;205;59;78;213;63;0;0;0;0;0;0;208;63;211;
   188;227;20;29;201;209;63;0;0;0;0;0;0;224;63;0;0;0;0;0;0;224;63;0;0;0;0;0;0;224;63;0;0;0;0;0;0;224;63;0;0;
   0;0;0;0;224;63;0;0;0;0;0;0;224;63;0;0;0;0;0;0;224;63;0;0;0;0;0;0;224;63;0;0;0;0;0;0;224;63;0;0;0;0;0;0;
   224;63;211;188;227;20;29;201;209;63;211;188;227;20;29;201;209;63;93;220;70;3;120;11;226;63;93;220;70;3;
   120;11;226;63;93;220;70;3;120;11;226;63;13;113;172;139;219;104;220;63;100;93;220;70;3;120;237;63;210;111;
   95;7;206;25;231;63;16;122;54;171;62;87;229;63;16;122;54;171;62;87;229;63;210;111;95;7;206;25;231;63;120;
   11;36;40;126;140;227;63;181;21;251;203;238;201;225;63;210;111;95;7;206;25;231;63;210;111;95;7;206;25;231;
   63;88;168;53;205;59;78;213;63;136;133;90;211;188;227;216;63;210;111;95;7;206;25;231;63;120;11;36;40;126;
   140;227;63;196;66;173;105;222;113;236;63;210;111;95;7;206;25;231;63;210;111;95;7;206;25;231;63;181;21;
   251;203;238;201;225;63;210;111;95;7;206;25;231;63;16;122;54;171;62;87;229;63;181;21;251;203;238;201;225;
   63;120;11;36;40;126;140;227;63;210;111;95;7;206;25;231;63;210;111;95;7;206;25;231;63;134;56;214;197;109;
   52;238;63;210;111;95;7;206;25;231;63;210;111;95;7;206;25;231;63;120;11;36;40;126;140;227;63;88;168;53;
   205;59;78;213;63;211;188;227;20;29;201;209;63;88;168;53;205;59;78;213;63;166;10;70;37;117;2;222;63;0;0;0;
   0;0;0;224;63;88;168;53;205;59;78;213;63;13;113;172;139;219;104;220;63;0;0;0;0;0;0;224;63;13;113;172;139;
   219;104;220;63;0;0;0;0;0;0;224;63;13;113;172;139;219;104;220;63;88;168;53;205;59;78;213;63;0;0;0;0;0;0;
   224;63;0;0;0;0;0;0;224;63;211;188;227;20;29;201;209;63;211;188;227;20;29;201;209;63;0;0;0;0;0;0;224;63;
   211;188;227;20;29;201;209;63;106;222;113;138;142;228;232;63;0;0;0;0;0;0;224;63;0;0;0;0;0;0;224;63;0;0;0;
   0;0;0;224;63;0;0;0;0;0;0;224;63;88;168;53;205;59;78;213;63;136;133;90;211;188;227;216;63;211;188;227;20;
   29;201;209;63;0;0;0;0;0;0;224;63;0;0;0;0;0;0;224;63;210;111;95;7;206;25;231;63;0;0;0;0;0;0;224;63;0;0;0;
   0;0;0;224;63;13;113;172;139;219;104;220;63;244;108;86;125;174;182;222;63;17;54;60;189;82;150;201;63;244;
   108;86;125;174;182;222;63;59;1;77;132;13;79;225;63;0;0;0;0;0;0;208;63;0;0;0;0;0;0;208;63;0;0;0;0;0;0;208;
   63;0;0;0;0;0;0;208;63;0;0;0;0;0;0;208;63;0;0;0;0;0;0;208;63;0;0;0;0;0;0;208;63;0;0;0;0;0;0;208;63;0;0;0;
   0;0;0;208;63;0;0;0;0;0;0;208;63;0;0;0;0;0;0;208;63;0;0;0;0;0;0;208;63;0;0;0;0;0;0;208;63;0;0;0;0;0;0;208;
   63;0;0;0;0;0;0;208;63;0;0;0;0;0;0;208;63;0;0;0;0;0;0;208;63;0;0;0;0;0;0;208;63;0;0;0;0;0;0;208;63;0;0;0;
   0;0;0;208;63;0;0;0;0;0;0;208;63;0;0;0;0;0;0;208;63;0;0;0;0;0;0;208;63;0;0;0;0;0;0;208;63;0;0;0;0;0;0;208;
   63;0;0;0;0;0;0;208;63;0;0;0;0;0;0;208;63;0;0;0;0;0;0;208;63;0;0;0;0;0;0;208;63;0;0;0;0;0;0;208;63;0;0;0;
   0;0;0;208;63;0;0;0;0;0;0;208;63;0;0;0;0;0;0;208;63;0;0;0;0;0;0;208;63;88;168;53;205;59;78;213;63;0;0;0;0;
   0;0;224;63;0;0;0;0;0;0;224;63;62;232;217;172;250;92;197;63;0;0;0;0;0;0;224;63;0;0;0;0;0;0;224;63;0;0;0;0;
   0;0;224;63;0;0;0;0;0;0;224;63;130;115;70;148;246;6;199;63;13;113;172;139;219;104;220;63;0;0;0;0;0;0;224;
   63;88;168;53;205;59;78;213;63;88;168;53;205;59;78;213;63;181;21;251;203;238;201;225;63;181;21;251;203;
   238;201;225;63;0;0;0;0;0;0;208;63;0;0;0;0;0;0;224;63;0;0;0;0;0;0;224;63;0;0;0;0;0;0;224;63;0;0;0;0;0;0;
   208;63;0;0;0;0;0;0;208;63;7;240;22;72;80;252;220;63;162;180;55;248;194;100;214;63;88;168;53;205;59;78;
   213;63;13;113;172;139;219;104;220;63;13;113;172;139;219;104;220;63;0;0;0;0;0;0;224;63;0;0;0;0;0;0;240;63;
   0;0;0;0;0;0;240;63;0;0;0;0;0;0;208;63;13;113;172;139;219;104;220;63;0;0;0;0;0;0;208;63;88;168;53;205;59;
   78;213;63;88;168;53;205;59;78;213;63;88;168;53;205;59;78;213;63;88;168;53;205;59;78;213;63;88;168;53;205;
   59;78;213;63;88;168;53;205;59;78;213;63;88;168;53;205;59;78;213;63;88;168;53;205;59;78;213;63;0;0;0;0;0;
   0;208;63;88;168;53;205;59;78;213;63;88;168;53;205;59;78;213;63;0;0;0;0;0;0;208;63;88;168;53;205;59;78;
   213;63;88;168;53;205;59;78;213;63;88;168;53;205;59;78;213;63;0;0;0;0;0;0;240;63;0;0;0;0;0;0;208;63;0;0;0;
   0;0;0;208;63;0;0;0;0;0;0;208;63;0;0;0;0;0;0;208;63;0;0;0;0;0;0;208;63;0;0;0;0;0;0;208;63;0;0;0;0;0;0;208;
   63;0;0;0;0;0;0;208;63;0;0;0;0;0;0;208;63;0;0;0;0;0;0;208;63;0;0;0;0;0;0;208;63;0;0;0;0;0;0;208;63;0;0;0;
   0;0;0;208;63;0;0;0;0;0;0;208;63;0;0;0;0;0;0;208;63;0;0;0;0;0;0;208;63;196;66;173;105;222;113;236;63;0;0;
   0;0;0;0;208;63;127;217;61;121;88;168;209;63;0;0;0;0;0;0;208;63;0;0;0;0;0;0;208;63;0;0;0;0;0;0;208;63;0;0;
   0;0;0;0;208;63;120;11;36;40;126;140;227;63;210;111;95;7;206;25;231;63;196;66;173;105;222;113;236;63;19;
   242;65;207;102;213;211;63;0;0;0;0;0;0;208;63;0;0;0;0;0;0;208;63;0;0;0;0;0;0;208;63;0;0;0;0;0;0;208;63;0;
   0;0;0;0;0;208;63;16;122;54;171;62;87;229;63;0;0;0;0;0;0;208;63;0;0;0;0;0;0;208;63;0;0;0;0;0;0;208;63;211;
   188;227;20;29;201;209;63;0;0;0;0;0;0;208;63;0;0;0;0;0;0;208;63;211;188;227;20;29;201;209;63;0;0;0;0;0;0;
   224;63;210;111;95;7;206;25;231;63;0;0;0;0;0;0;224;63;0;0;0;0;0;0;208;63;0;0;0;0;0;0;208;63;0;0;0;0;0;0;
   208;63;0;0;0;0;0;0;208;63;81;218;27;124;97;50;227;63;81;218;27;124;97;50;227;63;81;218;27;124;97;50;227;
   63;81;218;27;124;97;50;227;63;81;218;27;124;97;50;227;63;81;218;27;124;97;50;227;63;81;218;27;124;97;50;
   227;63;81;218;27;124;97;50;227;63;81;218;27;124;97;50;227;63;81;218;27;124;97;50;227;63;81;218;27;124;97;
   50;227;63;81;218;27;124;97;50;227;63;81;218;27;124;97;50;227;63;81;218;27;124;97;50;227;63;81;218;27;124;
   97;50;227;63;81;218;27;124;97;50;227;63;81;218;27;124;97;50;227;63;81;218;27;124;97;50;227;63;81;218;27;
   124;97;50;227;63;81;218;27;124;97;50;227;63;81;218;27;124;97;50;227;63;81;218;27;124;97;50;227;63;81;218;
   27;124;97;50;227;63;81;218;27;124;97;50;227;63;81;218;27;124;97;50;227;63;81;218;27;124;97;50;227;63;81;
   218;27;124;97;50;227;63;81;218;27;124;97;50;227;63;81;218;27;124;97;50;227;63;81;218;27;124;97;50;227;63;
   81;218;27;124;97;50;227;63;81;218;27;124;97;50;227;63;81;218;27;124;97;50;227;63;81;218;27;124;97;50;227;
   63;81;218;27;124;97;50;227;63;81;218;27;124;97;50;227;63;81;218;27;124;97;50;227;63;81;218;27;124;97;50;
   227;63;81;218;27;124;97;50;227;63;81;218;27;124;97;50;227;63;81;218;27;124;97;50;227;63;81;218;27;124;97;
   50;227;63;81;218;27;124;97;50;227;63;81;218;27;124;97;50;227;63;81;218;27;124;97;50;227;63;81;218;27;124;
   97;50;227;63;81;218;27;124;97;50;227;63;81;218;27;124;97;50;227;63;81;218;27;124;97;50;227;63;81;218;27;
   124;97;50;227;63;81;218;27;124;97;50;227;63;81;218;27;124;97;50;227;63;81;218;27;124;97;50;227;63;81;218;
   27;124;97;50;227;63;81;218;27;124;97;50;227;63;81;218;27;124;97;50;227;63;81;218;27;124;97;50;227;63;81;
   218;27;124;97;50;227;63;81;218;27;124;97;50;227;63;81;218;27;124;97;50;227;63;81;218;27;124;97;50;227;63;
   81;218;27;124;97;50;227;63;81;218;27;124;97;50;227;63;81;218;27;124;97;50;227;63;81;218;27;124;97;50;227;
   63;81;218;27;124;97;50;227;63;81;218;27;124;97;50;227;63;81;218;27;124;97;50;227;63;81;218;27;124;97;50;
   227;63;81;218;27;124;97;50;227;63;81;218;27;124;97;50;227;63;81;218;27;124;97;50;227;63;81;218;27;124;97;
   50;227;63;81;218;27;124;97;50;227;63;81;218;27;124;97;50;227;63;81;218;27;124;97;50;227;63;81;218;27;124;
   97;50;227;63;81;218;27;124;97;50;227;63;81;218;27;124;97;50;227;63;81;218;27;124;97;50;227;63;81;218;27;
   124;97;50;227;63;81;218;27;124;97;50;227;63;81;218;27;124;97;50;227;63;81;218;27;124;97;50;227;63;81;218;
   27;124;97;50;227;63;81;218;27;124;97;50;227;63;81;218;27;124;97;50;227;63;81;218;27;124;97;50;227;63;81;
   218;27;124;97;50;227;63;81;218;27;124;97;50;227;63;81;218;27;124;97;50;227;63;81;218;27;124;97;50;227;63;
   81;218;27;124;97;50;227;63;81;218;27;124;97;50;227;63;81;218;27;124;97;50;227;63;81;218;27;124;97;50;227;
   63;81;218;27;124;97;50;227;63;81;218;27;124;97;50;227;63;81;218;27;124;97;50;227;63;81;218;27;124;97;50;
   227;63;81;218;27;124;97;50;227;63;81;218;27;124;97;50;227;63;81;218;27;124;97;50;227;63;81;218;27;124;97;
   50;227;63;81;218;27;124;97;50;227;63;81;218;27;124;97;50;227;63;81;218;27;124;97;50;227;63;81;218;27;124;
   97;50;227;63;81;218;27;124;97;50;227;63;81;218;27;124;97;50;227;63;81;218;27;124;97;50;227;63;81;218;27;
   124;97;50;227;63;81;218;27;124;97;50;227;63;81;218;27;124;97;50;227;63;81;218;27;124;97;50;227;63;81;218;
   27;124;97;50;227;63;81;218;27;124;97;50;227;63;81;218;27;124;97;50;227;63;81;218;27;124;97;50;227;63;81;
   218;27;124;97;50;227;63;81;218;27;124;97;50;227;63;81;218;27;124;97;50;227;63;81;218;27;124;97;50;227;63;
   81;218;27;124;97;50;227;63;81;218;27;124;97;50;227;63;81;218;27;124;97;50;227;63;81;218;27;124;97;50;227;
   63;81;218;27;124;97;50;227;63;81;218;27;124;97;50;227;63;81;218;27;124;97;50;227;63;81;218;27;124;97;50;
   227;63;81;218;27;124;97;50;227;63;81;218;27;124;97;50;227;63;81;218;27;124;97;50;227;63;81;218;27;124;97;
   50;227;63;81;218;27;124;97;50;227;63;81;218;27;124;97;50;227;63;81;218;27;124;97;50;227;63;81;218;27;124;
   97;50;227;63;81;218;27;124;97;50;227;63;81;218;27;124;97;50;227;63;81;218;27;124;97;50;227;63;81;218;27;
   124;97;50;227;63;81;218;27;124;97;50;227;63;81;218;27;124;97;50;227;63;81;218;27;124;97;50;227;63;81;218;
   27;124;97;50;227;63;81;218;27;124;97;50;227;63;81;218;27;124;97;50;227;63;81;218;27;124;97;50;227;63;81;
   218;27;124;97;50;227;63;81;218;27;124;97;50;227;63;81;218;27;124;97;50;227;63;81;218;27;124;97;50;227;63;
   81;218;27;124;97;50;227;63;81;218;27;124;97;50;227;63;81;218;27;124;97;50;227;63;81;218;27;124;97;50;227;
   63;81;218;27;124;97;50;227;63;81;218;27;124;97;50;227;63;81;218;27;124;97;50;227;63;81;218;27;124;97;50;
   227;63;81;218;27;124;97;50;227;63;81;218;27;124;97;50;227;63;81;218;27;124;97;50;227;63;81;218;27;124;97;
   50;227;63;81;218;27;124;97;50;227;63;81;218;27;124;97;50;227;63;81;218;27;124;97;50;227;63;81;218;27;124;
   97;50;227;63;81;218;27;124;97;50;227;63;81;218;27;124;97;50;227;63;81;218;27;124;97;50;227;63;81;218;27;
   124;97;50;227;63;81;218;27;124;97;50;227;63;81;218;27;124;97;50;227;63;81;218;27;124;97;50;227;63;81;218;
   27;124;97;50;227;63;81;218;27;124;97;50;227;63;81;218;27;124;97;50;227;63;81;218;27;124;97;50;227;63;81;
   218;27;124;97;50;227;63;81;218;27;124;97;50;227;63;81;218;27;124;97;50;227;63;81;218;27;124;97;50;227;63;
   81;218;27;124;97;50;227;63;81;218;27;124;97;50;227;63;81;218;27;124;97;50;227;63;81;218;27;124;97;50;227;
   63;81;218;27;124;97;50;227;63;81;218;27;124;97;50;227;63;81;218;27;124;97;50;227;63;81;218;27;124;97;50;
   227;63;81;218;27;124;97;50;227;63;81;218;27;124;97;50;227;63;81;218;27;124;97;50;227;63;81;218;27;124;97;
   50;227;63;81;218;27;124;97;50;227;63;81;218;27;124;97;50;227;63;81;218;27;124;97;50;227;63;81;218;27;124;
   97;50;227;63;81;218;27;124;97;50;227;63;81;218;27;124;97;50;227;63;81;218;27;124;97;50;227;63;81;218;27;
   124;97;50;227;63;81;218;27;124;97;50;227;63;81;218;27;124;97;50;227;63;81;218;27;124;97;50;227;63;81;218;
   27;124;97;50;227;63;81;218;27;124;97;50;227;63;81;218;27;124;97;50;227;63;81;218;27;124;97;50;227;63;81;
   218;27;124;97;50;227;63;81;218;27;124;97;50;227;63;81;218;27;124;97;50;227;63;81;218;27;124;97;50;227;63;
   81;218;27;124;97;50;227;63;81;218;27;124;97;50;227;63;81;218;27;124;97;50;227;63;81;218;27;124;97;50;227;
   63;81;218;27;124;97;50;227;63;81;218;27;124;97;50;227;63;81;218;27;124;97;50;227;63;81;218;27;124;97;50;
   227;63;81;218;27;124;97;50;227;63;81;218;27;124;97;50;227;63;81;218;27;124;97;50;227;63;81;218;27;124;97;
   50;227;63;81;218;27;124;97;50;227;63;81;218;27;124;97;50;227;63;81;218;27;124;97;50;227;63;81;218;27;124;
   97;50;227;63;81;218;27;124;97;50;227;63;81;218;27;124;97;50;227;63;81;218;27;124;97;50;227;63;81;218;27;
   124;97;50;227;63;81;218;27;124;97;50;227;63;81;218;27;124;97;50;227;63;81;218;27;124;97;50;227;63;81;218;
   27;124;97;50;227;63;81;218;27;124;97;50;227;63;81;218;27;124;97;50;227;63;81;218;27;124;97;50;227;63;81;
   218;27;124;97;50;227;63;81;218;27;124;97;50;227;63;81;218;27;124;97;50;227;63;81;218;27;124;97;50;227;63;
   81;218;27;124;97;50;227;63;81;218;27;124;97;50;227;63;81;218;27;124;97;50;227;63;81;218;27;124;97;50;227;
   63;81;218;27;124;97;50;227;63;81;218;27;124;97;50;227;63;81;218;27;124;97;50;227;63;81;218;27;124;97;50;
   227;63;81;218;27;124;97;50;227;63;211;188;227;20;29;201;209;63;211;188;227;20;29;201;209;63;211;188;227;
   20;29;201;209;63;211;188;227;20;29;201;209;63;211;188;227;20;29;201;209;63;211;188;227;20;29;201;209;63;
   211;188;227;20;29;201;209;63;211;188;227;20;29;201;209;63;211;188;227;20;29;201;209;63;211;188;227;20;29;
   201;209;63;211;188;227;20;29;201;209;63;211;188;227;20;29;201;209;63;211;188;227;20;29;201;209;63;211;
   188;227;20;29;201;209;63;211;188;227;20;29;201;209;63;211;188;227;20;29;201;209;63;211;188;227;20;29;201;
   209;63;211;188;227;20;29;201;209;63;211;188;227;20;29;201;209;63;211;188;227;20;29;201;209;63;211;188;
   227;20;29;201;209;63;211;188;227;20;29;201;209;63;211;188;227;20;29;201;209;63;211;188;227;20;29;201;209;
   63;211;188;227;20;29;201;209;63;211;188;227;20;29;201;209;63;211;188;227;20;29;201;209;63;211;188;227;20;
   29;201;209;63;211;188;227;20;29;201;209;63;211;188;227;20;29;201;209;63;211;188;227;20;29;201;209;63;211;
   188;227;20;29;201;209;63;211;188;227;20;29;201;209;63;211;188;227;20;29;201;209;63;244;108;86;125;174;
   182;214;63;181;21;251;203;238;201;225;63;181;21;251;203;238;201;225;63;196;66;173;105;222;113;236;63;16;
   122;54;171;62;87;229;63;245;219;215;129;115;70;204;63;88;168;53;205;59;78;213;63;88;168;53;205;59;78;213;
   63;136;133;90;211;188;227;216;63;1;77;132;13;79;175;226;63;211;188;227;20;29;201;209;63;88;168;53;205;59;
   78;213;63;211;188;227;20;29;201;209;63;211;188;227;20;29;201;209;63;181;21;251;203;238;201;225;63;181;21;
   251;203;238;201;225;63;181;21;251;203;238;201;225;63;181;21;251;203;238;201;225;63;181;21;251;203;238;
   201;225;63;181;21;251;203;238;201;225;63;181;21;251;203;238;201;225;63;181;21;251;203;238;201;225;63;181;
   21;251;203;238;201;225;63;181;21;251;203;238;201;225;63;211;188;227;20;29;201;209;63;211;188;227;20;29;
   201;209;63;1;77;132;13;79;175;226;63;1;77;132;13;79;175;226;63;1;77;132;13;79;175;226;63;181;21;251;203;
   238;201;225;63;204;93;75;200;7;61;240;63;16;122;54;171;62;87;229;63;16;122;54;171;62;87;229;63;210;111;
   95;7;206;25;231;63;210;111;95;7;206;25;231;63;16;122;54;171;62;87;229;63;120;11;36;40;126;140;227;63;106;
   222;113;138;142;228;232;63;210;111;95;7;206;25;231;63;211;188;227;20;29;201;209;63;0;0;0;0;0;0;224;63;16;
   122;54;171;62;87;229;63;181;21;251;203;238;201;225;63;44;212;154;230;29;167;234;63;210;111;95;7;206;25;
   231;63;106;222;113;138;142;228;232;63;16;122;54;171;62;87;229;63;106;222;113;138;142;228;232;63;210;111;
   95;7;206;25;231;63;16;122;54;171;62;87;229;63;120;11;36;40;126;140;227;63;210;111;95;7;206;25;231;63;16;
   122;54;171;62;87;229;63;134;56;214;197;109;52;238;63;16;122;54;171;62;87;229;63;16;122;54;171;62;87;229;
   63;120;11;36;40;126;140;227;63;211;188;227;20;29;201;209;63;211;188;227;20;29;201;209;63;211;188;227;20;
   29;201;209;63;166;10;70;37;117;2;222;63;181;21;251;203;238;201;225;63;72;191;125;29;56;103;204;63;181;21;
   251;203;238;201;225;63;181;21;251;203;238;201;225;63;0;0;0;0;0;0;224;63;181;21;251;203;238;201;225;63;
   181;21;251;203;238;201;225;63;211;188;227;20;29;201;209;63;181;21;251;203;238;201;225;63;181;21;251;203;
   238;201;225;63;72;191;125;29;56;103;204;63;72;191;125;29;56;103;204;63;0;0;0;0;0;0;224;63;72;191;125;29;
   56;103;204;63;44;212;154;230;29;167;234;63;181;21;251;203;238;201;225;63;181;21;251;203;238;201;225;63;
   181;21;251;203;238;201;225;63;181;21;251;203;238;201;225;63;88;168;53;205;59;78;213;63;0;0;0;0;0;0;224;
   63;211;188;227;20;29;201;209;63;181;21;251;203;238;201;225;63;0;0;0;0;0;0;224;63;210;111;95;7;206;25;231;
   63;0;0;0;0;0;0;224;63;0;0;0;0;0;0;224;63;0;0;0;0;0;0;224;63;2;154;8;27;158;94;213;63;224;190;14;156;51;
   162;208;63;2;154;8;27;158;94;213;63;1;77;132;13;79;175;226;63;211;188;227;20;29;201;209;63;211;188;227;
   20;29;201;209;63;211;188;227;20;29;201;209;63;211;188;227;20;29;201;209;63;211;188;227;20;29;201;209;63;
   211;188;227;20;29;201;209;63;211;188;227;20;29;201;209;63;211;188;227;20;29;201;209;63;211;188;227;20;29;
   201;209;63;211;188;227;20;29;201;209;63;211;188;227;20;29;201;209;63;211;188;227;20;29;201;209;63;211;
   188;227;20;29;201;209;63;211;188;227;20;29;201;209;63;211;188;227;20;29;201;209;63;211;188;227;20;29;201;
   209;63;211;188;227;20;29;201;209;63;211;188;227;20;29;201;209;63;211;188;227;20;29;201;209;63;211;188;
   227;20;29;201;209;63;211;188;227;20;29;201;209;63;211;188;227;20;29;201;209;63;211;188;227;20;29;201;209;
   63;211;188;227;20;29;201;209;63;211;188;227;20;29;201;209;63;211;188;227;20;29;201;209;63;211;188;227;20;
   29;201;209;63;211;188;227;20;29;201;209;63;211;188;227;20;29;201;209;63;211;188;227;20;29;201;209;63;211;
   188;227;20;29;201;209;63;211;188;227;20;29;201;209;63;211;188;227;20;29;201;209;63;211;188;227;20;29;201;
   209;63;88;168;53;205;59;78;213;63;181;21;251;203;238;201;225;63;181;21;251;203;238;201;225;63;62;232;217;
   172;250;92;197;63;181;21;251;203;238;201;225;63;181;21;251;203;238;201;225;63;181;21;251;203;238;201;225;
   63;181;21;251;203;238;201;225;63;29;56;103;68;105;111;200;63;88;168;53;205;59;78;213;63;181;21;251;203;
   238;201;225;63;88;168;53;205;59;78;213;63;88;168;53;205;59;78;213;63;0;0;0;0;0;0;224;63;0;0;0;0;0;0;224;
   63;211;188;227;20;29;201;209;63;181;21;251;203;238;201;225;63;181;21;251;203;238;201;225;63;181;21;251;
   203;238;201;225;63;211;188;227;20;29;201;209;63;211;188;227;20;29;201;209;63;231;29;167;232;72;46;225;63;
   162;180;55;248;194;100;214;63;72;191;125;29;56;103;204;63;88;168;53;205;59;78;213;63;88;168;53;205;59;78;
   213;63;181;21;251;203;238;201;225;63;0;0;0;0;0;0;240;63;0;0;0;0;0;0;240;63;211;188;227;20;29;201;209;63;
   120;11;36;40;126;140;227;63;211;188;227;20;29;201;209;63;88;168;53;205;59;78;213;63;88;168;53;205;59;78;
   213;63;88;168;53;205;59;78;213;63;88;168;53;205;59;78;213;63;88;168;53;205;59;78;213;63;88;168;53;205;59;
   78;213;63;88;168;53;205;59;78;213;63;88;168;53;205;59;78;213;63;211;188;227;20;29;201;209;63;88;168;53;
   205;59;78;213;63;88;168;53;205;59;78;213;63;211;188;227;20;29;201;209;63;88;168;53;205;59;78;213;63;88;
   168;53;205;59;78;213;63;88;168;53;205;59;78;213;63;0;0;0;0;0;0;240;63;211;188;227;20;29;201;209;63;211;
   188;227;20;29;201;209;63;211;188;227;20;29;201;209;63;211;188;227;20;29;201;209;63;211;188;227;20;29;201;
   209;63;211;188;227;20;29;201;209;63;211;188;227;20;29;201;209;63;211;188;227;20;29;201;209;63;211;188;
   227;20;29;201;209;63;211;188;227;20;29;201;209;63;211;188;227;20;29;201;209;63;211;188;227;20;29;201;209;
   63;211;188;227;20;29;201;209;63;211;188;227;20;29;201;209;63;211;188;227;20;29;201;209;63;211;188;227;20;
   29;201;209;63;0;0;0;0;0;0;240;63;211;188;227;20;29;201;209;63;234;149;178;12;113;172;215;63;211;188;227;
   20;29;201;209;63;211;188;227;20;29;201;209;63;211;188;227;20;29;201;209;63;211;188;227;20;29;201;209;63;
   181;21;251;203;238;201;225;63;106;222;113;138;142;228;232;63;0;0;0;0;0;0;240;63;152;221;147;135;133;90;
   215;63;211;188;227;20;29;201;209;63;211;188;227;20;29;201;209;63;211;188;227;20;29;201;209;63;211;188;
   227;20;29;201;209;63;211;188;227;20;29;201;209;63;196;66;173;105;222;113;236;63;211;188;227;20;29;201;
   209;63;211;188;227;20;29;201;209;63;211;188;227;20;29;201;209;63;211;188;227;20;29;201;209;63;211;188;
   227;20;29;201;209;63;211;188;227;20;29;201;209;63;72;191;125;29;56;103;204;63;120;11;36;40;126;140;227;
   63;134;56;214;197;109;52;238;63;120;11;36;40;126;140;227;63;211;188;227;20;29;201;209;63;211;188;227;20;
   29;201;209;63;211;188;227;20;29;201;209;63;211;188;227;20;29;201;209;63;81;160;79;228;73;210;14;64;180;
   200;118;190;159;58;53;192;58;34;223;165;212;37;213;191;243;130;62;71;154;46;138;63;159;229;121;112;119;
   214;249;191;126;253;16;27;44;156;230;63;150;236;216;8;196;235;204;63;205;206;162;119;42;224;208;63;176;
   227;191;64;16;32;237;191;173;161;212;94;68;219;216;63;59;161;124;230;81;150;118;63;211;110;112;249;122;
   132;123;63;129;204;206;162;119;42;228;191;209;173;215;244;160;160;200;63;106;223;55;25;176;63;132;63;190;
   202;144;25;94;255;132;63;28;150;6;126;84;195;196;191;165;73;41;232;246;226;35;64;169;217;3;173;192;144;
   193;63;8;196;144;65;147;105;137;63;250;68;158;36;93;51;208;191;1;240;153;54;45;194;94;63;13;156;125;47;
   207;148;151;63;137;181;248;20;0;227;137;63;229;169;88;70;52;203;177;191;143;0;201;207;161;103;166;191;92;
   181;198;251;204;180;136;63;77;164;143;84;58;179;144;63;230;199;4;161;97;214;160;191;199;105;103;28;19;
   247;130;191;42;127;107;229;45;112;92;191;228;87;98;84;8;154;117;63;209;241;135;85;114;4;183;63;149;212;9;
   104;34;60;51;192;100;35;16;175;235;119;16;192;167;33;170;240;103;120;199;63;218;255;0;107;213;174;193;63;
   78;40;68;192;33;84;247;191;170;72;133;177;133;32;245;63;157;104;87;33;229;39;246;63;77;46;198;192;58;142;
   205;63;89;107;40;181;23;209;220;191;3;63;170;97;191;39;204;63;166;71;83;61;153;127;218;63;182;129;59;80;
   167;60;174;63;81;76;222;0;51;223;185;191;245;118;149;255;218;11;166;63;212;165;53;188;15;246;148;63;31;
   173;32;188;44;220;144;63;40;44;241;128;178;201;35;64;35;90;225;76;2;138;183;63;72;163;101;81;150;41;127;
   63;187;180;134;247;193;158;147;63;23;168;123;83;71;125;160;191;33;43;174;224;109;148;139;63;51;115;220;
   132;214;30;181;191;160;120;132;137;245;252;143;63;105;53;36;238;177;244;145;191;184;205;51;122;94;191;
   106;63;146;62;173;162;63;52;205;191;126;176;231;198;79;62;152;191;7;35;155;80;45;199;164;63;62;24;194;
   123;88;185;145;191;45;124;125;173;75;141;198;63;0;0;0;0;0;0;0;0;0;0;0;0;0;0;0;0;0;0;0;0;0;0;0;0;0;0;0;0;
   0;0;0;0;0;0;0;0;0;0;0;0;0;0;0;0;0;0;0;0;0;0;0;0;0;0;0;0;0;0;0;0;0;0;0;0;0;0;0;64;251;33;249;63;0;0;0;0;
   45;68;116;62;0;0;0;128;152;70;248;60;0;0;0;96;81;204;120;59;0;0;0;128;131;27;240;57;0;0;0;64;32;37;122;
   56;0;0;0;128;34;130;227;54;0;0;0;0;29;243;105;53;0;0;0;0;176;126;1;0;4;169;0;0;3;0;0;0;240;170;0;0;3;0;0;
   0;192;174;0;0;3;0;0;0;64;175;0;0;3;0;0;0;236;176;0;0;3;0;0;0;112;177;0;0;3;0;0;0;140;181;0;0;3;0;0;0;124;
   173;0;0;3;0;0;0;168;184;0;0;3;0;0;0;116;185;0;0;3;0;0;0;68;189;0;0;3;0;0;0;140;186;0;0;0;0;0;0;180;170;0;
   0;0;0;0;0;152;174;0;0;0;0;0;0;24;175;0;0;0;0;0;0;196;176;0;0;0;0;0;0;72;177;0;0;0;0;0;0;100;181;0;0;0;0;
   0;0;24;173;0;0;0;0;0;0;128;184;0;0;0;0;0;0;76;185;0;0;0;0;0;0;28;189;0;0;0;0;0;0;100;186;0;0;4;0;0;0;144;
   190;0;0;0;0;0;0;0;0;0;0;0;0;0;0;0;0;0;0;1;0;0;0;2].

(** [n.q+43580]: 10235 bytes. *)
Definition segment_43580 : list Z :=
  [1;0;0;0;2;0;0;0;0;0;0;0;0;0;0;0;0;0;0;0;0;0;0;0;0;0;0;0;3;0;0;0;0;0;0;0;0;0;0;0;0;0;0;0;0;0;0;0;0;0;0;0;
   4;0;0;0;0;0;0;0;5;0;0;0;0;0;0;0;0;0;0;0;0;0;0;0;0;0;0;0;1;0;0;0;0;0;0;0;2;0;0;0;1;0;0;0;1;0;0;0;3;0;0;0;
   0;0;0;0;0;0;0;0;0;0;0;0;86;225;1;0;1;0;0;0;196;169;0;0;8;0;0;0;4;0;0;0;44;131;1;0;1;0;0;0;60;170;0;0;40;
   0;0;0;0;0;0;0;0;0;0;0;0;0;0;0;0;0;0;0;0;0;0;0;0;0;0;0;190;126;1;0;1;0;0;0;0;0;0;0;128;0;0;0;0;0;0;0;198;
   126;1;0;1;0;0;0;0;0;0;0;128;0;0;0;1;0;0;0;205;126;1;0;1;0;0;0;0;0;0;0;72;0;0;0;2;0;0;0;215;126;1;0;1;0;0;
   0;0;0;0;0;128;0;0;0;3;0;0;0;225;126;1;0;1;0;0;0;0;0;0;0;128;0;0;0;4;0;0;0;239;126;1;0;1;0;0;0;0;0;0;0;
   128;0;0;0;5;0;0;0;249;126;1;0;1;0;0;0;0;0;0;0;128;0;0;0;6;0;0;0;6;127;1;0;1;0;0;0;0;0;0;0;128;0;0;0;0;0;
   0;0;0;0;0;0;0;0;0;0;0;0;0;0;0;0;0;0;20;172;0;0;36;172;0;0;52;172;0;0;68;172;0;0;84;172;0;0;100;172;0;0;
   116;172;0;0;132;172;0;0;36;172;0;0;36;172;0;0;100;172;0;0;100;172;0;0;0;0;0;0;31;0;0;0;63;0;0;0;127;0;0;
   0;0;0;0;0;0;0;0;0;0;0;0;0;0;0;0;0;0;0;0;0;0;0;0;0;0;0;0;0;0;0;0;0;0;0;0;0;0;0;0;0;0;0;0;0;0;0;0;0;0;0;0;
   0;0;0;0;0;0;0;0;0;0;0;0;0;0;0;0;0;0;0;0;0;0;0;0;0;0;0;0;0;0;0;0;0;0;0;0;0;0;0;0;0;0;0;0;0;0;0;0;0;0;0;0;
   0;0;0;0;0;0;0;0;0;0;0;0;0;0;0;0;0;0;0;0;0;0;0;0;0;0;0;0;0;0;0;0;0;0;0;0;0;0;0;0;0;0;0;0;0;0;0;0;0;0;0;0;
   0;0;0;0;0;0;0;0;0;0;0;0;0;0;0;0;0;0;0;0;0;0;0;0;0;0;0;0;0;0;0;0;0;0;0;0;0;0;0;0;0;6;0;0;0;7;0;0;0;0;0;0;
   0;0;0;0;0;0;0;0;0;0;0;0;0;0;0;0;0;0;0;0;0;0;0;0;0;0;0;0;0;0;0;0;0;0;0;0;0;0;0;0;0;0;0;0;0;0;0;0;0;0;0;0;
   0;0;0;0;0;0;0;0;0;0;0;0;0;0;0;0;0;0;0;0;0;0;0;0;0;0;0;0;0;0;0;0;0;0;0;0;0;0;0;0;0;0;0;0;0;0;0;0;0;0;0;0;
   0;204;127;1;0;1;0;0;0;160;172;0;0;24;1;0;0;1;0;0;0;209;127;1;0;1;0;0;0;160;172;0;0;24;1;0;0;2;0;0;0;215;
   127;1;0;1;0;0;0;160;172;0;0;24;1;0;0;3;0;0;0;224;127;1;0;1;0;0;0;160;172;0;0;24;1;0;0;0;0;0;0;0;0;0;0;0;
   0;0;0;0;0;0;0;0;0;0;0;0;0;0;0;234;127;1;0;1;0;0;0;0;0;0;0;112;1;0;0;1;0;0;0;244;127;1;0;1;0;0;0;0;0;0;0;
   112;1;0;0;2;0;0;0;255;127;1;0;1;0;0;0;0;0;0;0;56;1;0;0;3;0;0;0;13;128;1;0;1;0;0;0;0;0;0;0;56;1;0;0;0;0;0;
   0;0;0;0;0;0;0;0;0;0;0;0;0;0;0;0;0;0;0;0;0;0;0;0;0;0;0;0;0;8;0;0;0;255;255;255;255;0;0;0;0;0;0;0;0;4;0;0;
   0;0;0;0;0;0;0;0;0;0;0;0;0;0;0;0;0;0;0;0;0;0;0;0;0;0;0;0;0;0;0;0;0;0;0;0;0;0;0;0;0;8;0;0;0;9;0;0;0;0;0;0;
   0;0;0;0;0;10;0;0;0;0;0;0;0;0;0;0;0;0;0;0;0;0;0;0;0;0;0;0;0;0;0;0;0;0;0;0;0;11;0;0;0;12;0;0;0;13;0;0;0;14;
   0;0;0;0;0;0;0;0;0;0;0;0;0;0;0;0;0;0;0;5;0;0;0;1;0;0;0;6;0;0;0;2;0;0;0;2;0;0;0;7;0;0;0;2;0;0;0;0;0;0;0;0;
   0;0;0;49;131;1;0;1;0;0;0;32;174;0;0;168;1;0;0;0;0;0;0;0;0;0;0;0;0;0;0;0;0;0;0;0;0;0;0;0;0;0;0;53;131;1;0;
   1;0;0;0;0;0;0;0;200;1;0;0;0;0;0;0;0;0;0;0;0;0;0;0;0;0;0;0;0;0;0;0;234;115;2;0;7;93;2;0;152;94;2;0;216;
   100;2;0;207;107;2;0;14;112;2;0;142;115;2;0;159;115;2;0;0;0;0;0;0;0;0;0;0;0;0;0;0;0;0;0;1;0;0;0;117;131;1;
   0;1;0;0;0;204;175;0;0;0;2;0;0;0;0;0;0;0;0;0;0;0;0;0;0;0;0;0;0;0;0;0;0;1;0;0;0;121;131;1;0;1;0;0;0;0;0;0;
   0;32;2;0;0;2;0;0;0;131;131;1;0;1;0;0;0;0;0;0;0;88;2;0;0;0;0;0;0;140;131;1;0;1;0;0;0;0;0;0;0;88;2;0;0;3;0;
   0;0;149;131;1;0;1;0;0;0;0;0;0;0;88;2;0;0;0;0;0;0;159;131;1;0;1;0;0;0;0;0;0;0;32;2;0;0;3;0;0;0;171;131;1;
   0;1;0;0;0;0;0;0;0;32;2;0;0;0;0;0;0;0;0;0;0;0;0;0;0;0;0;0;0;0;0;0;0;0;0;0;0;0;0;0;0;0;0;0;0;0;0;0;0;0;0;0;
   0;0;0;0;0;15;0;0;0;16;0;0;0;0;0;0;0;0;0;0;0;0;0;0;0;0;0;0;0;0;0;0;0;0;0;0;0;0;0;0;0;0;0;0;0;0;0;0;0;0;0;
   0;0;1;0;0;0;0;0;0;0;0;0;0;0;0;0;0;0;0;0;0;0;0;0;0;0;0;0;0;0;0;0;0;0;0;0;0;0;0;0;0;0;0;0;0;0;0;0;0;0;0;0;
   0;0;0;0;0;0;0;0;0;0;0;0;0;0;17;0;0;0;18;0;0;0;0;0;0;0;0;0;0;0;19;0;0;0;0;0;0;0;0;0;0;0;0;0;0;0;0;0;0;0;0;
   0;0;0;0;0;0;0;0;0;0;0;20;0;0;0;21;0;0;0;22;0;0;0;23;0;0;0;0;0;0;0;0;0;0;0;0;0;0;0;0;0;0;0;8;0;0;0;3;0;0;
   0;9;0;0;0;3;0;0;0;3;0;0;0;10;0;0;0;4;0;0;0;0;0;0;0;0;0;0;0;236;132;1;0;255;255;255;255;76;176;0;0;144;2;
   0;0;0;0;0;0;0;0;0;0;0;0;0;0;0;0;0;0;0;0;0;0;0;0;0;0;239;132;1;0;255;255;255;255;0;0;0;0;176;2;0;0;0;0;0;
   0;0;0;0;0;0;0;0;0;0;0;0;0;0;0;0;0;0;0;0;0;234;115;2;0;7;93;2;0;216;100;2;0;152;94;2;0;14;112;2;0;207;107;
   2;0;159;115;2;0;142;115;2;0;0;0;0;0;0;0;0;0;0;0;0;0;0;0;0;0;0;0;0;0;159;234;1;0;1;0;0;0;192;177;0;0;232;
   2;0;0;0;0;0;0;0;0;0;0;0;0;0;0;0;0;0;0;0;0;0;0;0;0;0;0;1;194;1;0;1;0;0;0;0;0;0;0;8;3;0;0;1;0;0;0;165;134;
   1;0;1;0;0;0;0;0;0;0;8;3;0;0;2;0;0;0;250;193;1;0;1;0;0;0;0;0;0;0;64;3;0;0;0;0;0;0;0;0;0;0;0;0;0;0;0;0;0;0;
   0;0;0;0;24;0;0;0;25;0;0;0;26;0;0;0;0;0;0;0;4;0;0;0;0;0;0;0;27;0;0;0;28;0;0;0;29;0;0;0;30;0;0;0;0;0;0;0;0;
   0;0;0;0;0;0;0;0;0;0;0;31;0;0;0;32;0;0;0;33;0;0;0;34;0;0;0;2;0;0;0;0;0;0;0;0;0;0;0;0;0;0;0;11;0;0;0;0;0;0;
   0;12;0;0;0;5;0;0;0;4;0;0;0;13;0;0;0;5;0;0;0;3;0;0;0;0;0;0;0;164;138;1;0;178;138;1;0;200;138;1;0;41;129;2;
   0;214;138;1;0;229;138;1;0;234;138;1;0;8;139;1;0;41;129;2;0;26;139;1;0;74;139;1;0;41;129;2;0;104;139;1;0;
   144;139;1;0;158;139;1;0;205;139;1;0;1;140;1;0;18;140;1;0;55;140;1;0;90;140;1;0;96;140;1;0;124;140;1;0;
   153;140;1;0;180;140;1;0;213;140;1;0;239;140;1;0;17;141;1;0;48;141;1;0;86;141;1;0;110;141;1;0;142;141;1;0;
   171;141;1;0;207;141;1;0;219;141;1;0;41;129;2;0;230;141;1;0;12;142;1;0;48;142;1;0;86;142;1;0;41;129;2;0;
   140;142;1;0;164;142;1;0;177;142;1;0;224;142;1;0;219;141;1;0;41;129;2;0;237;142;1;0;246;142;1;0;23;143;1;
   0;82;143;1;0;157;143;1;0;241;143;1;0;19;144;1;0;40;144;1;0;63;144;1;0;85;144;1;0;109;144;1;0;41;129;2;0;
   131;144;1;0;158;144;1;0;194;144;1;0;230;144;1;0;11;145;1;0;41;129;2;0;44;145;1;0;70;145;1;0;88;145;1;0;
   101;145;1;0;114;145;1;0;134;145;1;0;149;145;1;0;157;145;1;0;178;145;1;0;192;145;1;0;254;145;1;0;9;146;1;
   0;219;141;1;0;41;129;2;0;15;146;1;0;27;146;1;0;42;146;1;0;90;140;1;0;41;129;2;0;61;146;1;0;102;146;1;0;
   132;146;1;0;148;146;1;0;165;146;1;0;172;146;1;0;187;146;1;0;203;146;1;0;15;147;1;0;22;147;1;0;90;140;1;0;
   41;129;2;0;32;147;1;0;76;147;1;0;87;147;1;0;96;147;1;0;105;147;1;0;122;147;1;0;139;147;1;0;159;147;1;0;
   219;141;1;0;41;129;2;0;171;147;1;0;187;147;1;0;201;147;1;0;215;147;1;0;228;147;1;0;241;147;1;0;7;148;1;0;
   16;148;1;0;31;148;1;0;44;148;1;0;61;148;1;0;219;141;1;0;41;129;2;0;72;148;1;0;103;148;1;0;41;129;2;0;121;
   148;1;0;136;148;1;0;184;148;1;0;194;148;1;0;207;148;1;0;220;148;1;0;233;148;1;0;246;148;1;0;249;148;1;0;
   41;129;2;0;253;148;1;0;41;129;2;0;32;149;1;0;81;149;1;0;128;149;1;0;151;149;1;0;178;149;1;0;205;149;1;0;
   219;141;1;0;41;129;2;0;233;149;1;0;41;129;2;0;17;150;1;0;29;150;1;0;48;150;1;0;67;150;1;0;88;150;1;0;109;
   150;1;0;113;150;1;0;90;140;1;0;41;129;2;0;125;150;1;0;41;129;2;0;141;150;1;0;155;150;1;0;167;150;1;0;180;
   150;1;0;212;150;1;0;234;150;1;0;41;129;2;0;254;150;1;0;71;151;1;0;141;151;1;0;189;151;1;0;240;151;1;0;
   247;151;1;0;30;152;1;0;69;152;1;0;41;129;2;0;74;152;1;0;0;0;0;0;35;0;0;0;0;0;0;0;36;0;0;0;37;0;0;0;6;0;0;
   0;38;0;0;0;39;0;0;0;40;0;0;0;41;0;0;0;42;0;0;0;0;0;0;0;0;0;0;0;0;0;0;0;0;0;0;0;43;0;0;0;44;0;0;0;45;0;0;
   0;46;0;0;0;4;0;0;0;47;0;0;0;0;0;0;0;0;0;0;0;14;0;0;0;0;0;0;0;15;0;0;0;7;0;0;0;5;0;0;0;16;0;0;0;6;0;0;0;0;
   0;0;0;0;0;0;0;162;234;1;0;1;0;0;0;236;180;0;0;120;3;0;0;0;0;0;0;0;0;0;0;0;0;0;0;0;0;0;0;0;0;0;0;0;0;0;0;
   216;194;1;0;1;0;0;0;0;0;0;0;152;3;0;0;0;0;0;0;0;0;0;0;0;0;0;0;0;0;0;0;0;0;0;0;31;92;2;0;41;92;2;0;249;
   160;1;0;110;92;2;0;169;92;2;0;203;92;2;0;209;92;2;0;234;115;2;0;248;92;2;0;7;93;2;0;36;93;2;0;47;93;2;0;
   81;93;2;0;135;93;2;0;189;93;2;0;248;93;2;0;46;94;2;0;80;94;2;0;95;94;2;0;144;94;2;0;152;94;2;0;190;152;1;
   0;199;152;1;0;181;94;2;0;208;152;1;0;255;94;2;0;217;152;1;0;9;95;2;0;226;152;1;0;19;95;2;0;98;95;2;0;157;
   95;2;0;238;152;1;0;216;95;2;0;227;95;2;0;40;96;2;0;54;96;2;0;128;96;2;0;142;96;2;0;156;96;2;0;167;96;2;0;
   216;96;2;0;24;97;2;0;32;97;2;0;40;97;2;0;99;97;2;0;153;97;2;0;165;97;2;0;254;160;1;0;177;97;2;0;187;97;2;
   0;198;97;2;0;227;97;2;0;25;98;2;0;216;100;2;0;250;100;2;0;6;101;2;0;197;103;2;0;246;103;2;0;34;104;2;0;
   88;104;2;0;101;104;2;0;135;104;2;0;169;104;2;0;178;104;2;0;252;104;2;0;6;105;2;0;75;105;2;0;129;105;2;0;
   140;105;2;0;17;106;2;0;38;106;2;0;246;152;1;0;48;106;2;0;58;106;2;0;112;106;2;0;176;106;2;0;190;106;2;0;
   18;107;2;0;33;107;2;0;48;107;2;0;127;107;2;0;6;161;1;0;191;107;2;0;201;107;2;0;207;107;2;0;251;107;2;0;
   34;108;2;0;51;108;2;0;62;108;2;0;131;108;2;0;200;108;2;0;215;108;2;0;231;108;2;0;249;108;2;0;9;109;2;0;
   25;109;2;0;38;109;2;0;48;109;2;0;102;109;2;0;111;109;2;0;175;109;2;0;194;109;2;0;11;161;1;0;202;109;2;0;
   0;110;2;0;39;110;2;0;93;110;2;0;132;110;2;0;146;110;2;0;200;110;2;0;18;111;2;0;92;111;2;0;103;111;2;0;
   157;111;2;0;162;111;2;0;191;111;2;0;220;111;2;0;231;111;2;0;14;112;2;0;38;112;2;0;92;112;2;0;146;112;2;0;
   158;112;2;0;197;112;2;0;208;112;2;0;1;113;2;0;50;113;2;0;54;173;1;0;89;113;2;0;133;113;2;0;187;113;2;0;
   241;113;2;0;251;113;2;0;24;114;2;0;88;114;2;0;142;114;2;0;17;161;1;0;166;114;2;0;210;114;2;0;249;114;2;0;
   47;115;2;0;108;115;2;0;142;115;2;0;148;115;2;0;159;115;2;0;198;115;2;0;0;0;0;0;0;0;0;0;48;0;0;0;0;0;0;0;
   49;0;0;0;0;0;0;0;0;0;0;0;0;0;0;0;0;0;0;0;0;0;0;0;0;0;0;0;0;0;0;0;0;0;0;0;0;0;0;0;0;0;0;0;0;0;0;0;50;0;0;
   0;0;0;0;0;51;0;0;0;0;0;0;0;0;0;0;0;0;0;0;0;0;0;0;0;0;0;0;0;17;0;0;0;0;0;0;0;18;0;0;0;8;0;0;0;6;0;0;0;19;
   0;0;0;7;0;0;0;0;0;0;0;0;0;0;0;138;159;1;0;1;0;0;0;8;184;0;0;208;3;0;0;0;0;0;0;0;0;0;0;0;0;0;0;0;0;0;0;0;
   0;0;0;0;0;0;0;141;159;1;0;1;0;0;0;0;0;0;0;240;3;0;0;0;0;0;0;0;0;0;0;0;0;0;0;0;0;0;0;0;0;0;0;0;0;0;0;52;0;
   0;0;0;0;0;0;53;0;0;0;54;0;0;0;0;0;0;0;0;0;0;0;0;0;0;0;0;0;0;0;0;0;0;0;0;0;0;0;0;0;0;0;0;0;0;0;0;0;0;0;0;
   0;0;0;0;0;0;0;0;0;0;0;0;0;0;0;0;0;0;0;5;0;0;0;55;0;0;0;0;0;0;0;0;0;0;0;20;0;0;0;0;0;0;0;21;0;0;0;9;0;0;0;
   7;0;0;0;22;0;0;0;8;0;0;0;0;0;0;0;0;0;0;0;237;160;1;0;1;0;0;0;212;184;0;0;40;4;0;0;0;0;0;0;0;0;0;0;0;0;0;
   0;0;0;0;0;0;0;0;0;0;0;0;0;241;160;1;0;1;0;0;0;0;0;0;0;72;4;0;0;0;0;0;0;0;0;0;0;0;0;0;0;0;0;0;0;0;0;0;0;0;
   0;0;0;0;0;0;0;0;0;0;0;0;0;0;0;249;160;1;0;234;115;2;0;7;93;2;0;254;160;1;0;25;98;2;0;216;100;2;0;6;161;1;
   0;251;107;2;0;175;109;2;0;11;161;1;0;231;111;2;0;14;112;2;0;54;173;1;0;17;161;1;0;142;115;2;0;159;115;2;
   0;56;0;0;0;0;0;0;0;57;0;0;0;58;0;0;0;10;0;0;0;59;0;0;0;60;0;0;0;61;0;0;0;62;0;0;0;63;0;0;0;0;0;0;0;0;0;0;
   0;0;0;0;0;0;0;0;0;64;0;0;0;65;0;0;0;66;0;0;0;67;0;0;0;0;0;0;0;0;0;0;0;0;0;0;0;0;0;0;0;23;0;0;0;0;0;0;0;
   24;0;0;0;11;0;0;0;8;0;0;0;25;0;0;0;9;0;0;0;0;0;0;0;0;0;0;0;192;171;1;0;1;0;0;0;236;185;0;0;128;4;0;0;0;0;
   0;0;0;0;0;0;0;0;0;0;0;0;0;0;0;0;0;0;0;0;0;0;196;171;1;0;1;0;0;0;0;0;0;0;160;4;0;0;0;0;0;0;0;0;0;0;0;0;0;
   0;0;0;0;0;0;0;0;0;110;92;2;0;204;171;1;0;234;115;2;0;7;93;2;0;36;93;2;0;215;171;1;0;221;171;1;0;232;171;
   1;0;239;171;1;0;47;93;2;0;135;93;2;0;247;171;1;0;253;171;1;0;8;172;1;0;46;94;2;0;80;94;2;0;152;94;2;0;15;
   172;1;0;255;94;2;0;19;95;2;0;157;95;2;0;25;172;1;0;40;96;2;0;54;96;2;0;128;96;2;0;36;172;1;0;142;96;2;0;
   44;172;1;0;53;172;1;0;67;172;1;0;77;172;1;0;99;97;2;0;86;172;1;0;165;97;2;0;198;97;2;0;227;97;2;0;92;172;
   1;0;42;98;2;0;85;98;2;0;126;98;2;0;161;98;2;0;202;98;2;0;237;98;2;0;22;99;2;0;57;99;2;0;98;99;2;0;133;99;
   2;0;174;99;2;0;209;99;2;0;250;99;2;0;29;100;2;0;70;100;2;0;105;100;2;0;146;100;2;0;181;100;2;0;216;100;2;
   0;99;172;1;0;250;100;2;0;111;172;1;0;34;104;2;0;135;104;2;0;75;105;2;0;124;172;1;0;48;107;2;0;137;172;1;
   0;191;107;2;0;207;107;2;0;147;172;1;0;251;107;2;0;34;108;2;0;51;108;2;0;162;172;1;0;180;172;1;0;62;108;2;
   0;200;108;2;0;215;108;2;0;231;108;2;0;249;108;2;0;9;109;2;0;196;172;1;0;207;172;1;0;218;172;1;0;25;109;2;
   0;175;109;2;0;180;109;2;0;223;172;1;0;232;172;1;0;241;172;1;0;1;173;1;0;8;173;1;0;0;110;2;0;39;110;2;0;
   93;110;2;0;146;110;2;0;162;111;2;0;191;111;2;0;16;173;1;0;14;112;2;0;23;173;1;0;158;112;2;0;32;173;1;0;
   208;112;2;0;40;173;1;0;50;113;2;0;54;173;1;0;89;113;2;0;133;113;2;0;61;173;1;0;24;114;2;0;88;114;2;0;71;
   173;1;0;142;114;2;0;166;114;2;0;249;114;2;0;81;173;1;0;95;173;1;0;47;115;2;0;54;115;2;0;108;115;2;0;142;
   115;2;0;159;115;2;0;198;115;2;0;0;0;0;0;0;0;0;0;0;0;0;0;0;0;0;0;68;0;0;0;69;0;0;0;0;0;0;0;0;0;0;0;70;0;0;
   0;71;0;0;0;0;0;0;0;0;0;0;0;0;0;0;0;0;0;0;0;0;0;0;0;0;0;0;0;0;0;0;0;0;0;0;0;0;0;0;0;0;0;0;0;0;0;0;0;0;0;0;
   0;0;0;0;0;0;0;0;0;26;0;0;0;0;0;0;0;27;0;0;0;12;0;0;0;9;0;0;0;28;0;0;0;10;0;0;0;0;0;0;0;0;0;0;0;199;182;1;
   0;255;255;255;255;164;188;0;0;216;4;0;0;0;0;0;0;0;0;0;0;0;0;0;0;0;0;0;0;0;0;0;0;0;0;0;0;203;182;1;0;255;
   255;255;255;0;0;0;0;248;4;0;0;0;0;0;0;0;0;0;0;0;0;0;0;0;0;0;0;0;0;0;0;0;0;0;0;65;66;0;0;4;254;1;0;65;73;
   0;0;222;253;1;0;65;82;0;0;177;253;1;0;65;88;0;0;25;254;1;0;66;32;0;0;85;0;2;0;66;73;0;0;102;0;2;0;67;66;
   0;0;158;254;1;0;67;79;0;0;140;254;1;0;67;88;0;0;171;254;1;0;72;32;0;0;207;254;1;0;72;66;0;0;217;254;1;0;
   72;73;0;0;101;255;1;0;72;88;0;0;232;254;1;0;72;98;0;0;25;255;1;0;72;105;0;0;76;255;1;0;72;114;0;0;254;
   254;1;0;72;120;0;0;47;255;1;0;73;32;0;0;119;0;2;0;75;66;0;0;48;254;1;0;75;73;0;0;120;254;1;0;75;82;0;0;
   100;254;1;0;75;88;0;0;81;254;1;0;78;66;0;0;119;255;1;0;78;73;0;0;190;255;1;0;78;82;0;0;214;255;1;0;78;88;
   0;0;162;255;1;0;80;65;0;0;55;0;2;0;80;66;0;0;243;255;1;0;80;73;0;0;39;0;2;0;80;88;0;0;19;0;2;0;82;32;0;0;
   24;2;2;0;83;32;0;0;70;0;2;0;90;68;0;0;180;0;2;0;0;0;0;0;0;0;0;0;0;0;0;0;0;0;0;0;0;0;0;0;1;0;0;0;15;0;0;0;
   122;193;1;0;1;0;0;0;120;194;0;0;0;0;0;0;16;0;0;0;130;193;1;0;1;0;0;0;120;194;0;0;0;0;0;0;17;0;0;0;138;
   193;1;0;1;0;0;0;120;194;0;0;0;0;0;0;17;0;0;0;147;193;1;0;1;0;0;0;120;194;0;0;0;0;0;0;17;0;0;0;155;193;1;
   0;1;0;0;0;120;194;0;0;0;0;0;0;19;0;0;0;163;193;1;0;1;0;0;0;124;194;0;0;0;0;0;0;20;0;0;0;171;193;1;0;1;0;
   0;0;124;194;0;0;0;0;0;0;21;0;0;0;179;193;1;0;1;0;0;0;124;194;0;0;0;0;0;0;21;0;0;0;188;193;1;0;1;0;0;0;
   124;194;0;0;0;0;0;0;21;0;0;0;196;193;1;0;1;0;0;0;124;194;0;0;0;0;0;0;22;0;0;0;204;193;1;0;1;0;0;0;128;
   194;0;0;0;0;0;0;23;0;0;0;213;193;1;0;1;0;0;0;128;194;0;0;0;0;0;0;24;0;0;0;222;193;1;0;1;0;0;0;128;194;0;
   0;0;0;0;0;24;0;0;0;232;193;1;0;1;0;0;0;128;194;0;0;0;0;0;0;24;0;0;0;241;193;1;0;1;0;0;0;128;194;0;0;0;0;
   0;0;25;0;0;0;250;193;1;0;1;0;0;0;132;194;0;0;0;0;0;0;25;0;0;0;1;194;1;0;1;0;0;0;132;194;0;0;0;0;0;0;26;0;
   0;0;7;194;1;0;1;0;0;0;136;194;0;0;0;0;0;0;10;0;0;0;16;194;1;0;1;0;0;0;140;194;0;0;0;0;0;0;11;0;0;0;24;
   194;1;0;1;0;0;0;140;194;0;0;0;0;0;0;12;0;0;0;32;194;1;0;1;0;0;0;140;194;0;0;0;0;0;0;12;0;0;0;41;194;1;0;
   1;0;0;0;140;194;0;0;0;0;0;0;12;0;0;0;49;194;1;0;1;0;0;0;140;194;0;0;0;0;0;0;14;0;0;0;57;194;1;0;1;0;0;0;
   140;194;0;0;0;0;0;0;14;0;0;0;64;194;1;0;1;0;0;0;140;194;0;0;0;0;0;0;13;0;0;0;72;194;1;0;1;0;0;0;140;194;
   0;0;0;0;0;0;5;0;0;0;80;194;1;0;1;0;0;0;140;194;0;0;0;0;0;0;6;0;0;0;88;194;1;0;1;0;0;0;140;194;0;0;0;0;0;
   0;7;0;0;0;96;194;1;0;1;0;0;0;140;194;0;0;0;0;0;0;7;0;0;0;105;194;1;0;1;0;0;0;140;194;0;0;0;0;0;0;7;0;0;0;
   113;194;1;0;1;0;0;0;140;194;0;0;0;0;0;0;9;0;0;0;121;194;1;0;1;0;0;0;140;194;0;0;0;0;0;0;9;0;0;0;128;194;
   1;0;1;0;0;0;140;194;0;0;0;0;0;0;8;0;0;0;136;194;1;0;1;0;0;0;140;194;0;0;0;0;0;0;0;0;0;0;144;194;1;0;1;0;
   0;0;144;194;0;0;0;0;0;0;1;0;0;0;153;194;1;0;1;0;0;0;144;194;0;0;0;0;0;0;2;0;0;0;162;194;1;0;1;0;0;0;144;
   194;0;0;0;0;0;0;2;0;0;0;172;194;1;0;1;0;0;0;144;194;0;0;0;0;0;0;2;0;0;0;181;194;1;0;1;0;0;0;144;194;0;0;
   0;0;0;0;4;0;0;0;190;194;1;0;1;0;0;0;144;194;0;0;0;0;0;0;4;0;0;0;198;194;1;0;1;0;0;0;144;194;0;0;0;0;0;0;
   3;0;0;0;207;194;1;0;1;0;0;0;144;194;0;0;0;0;0;0;18;0;0;0;216;194;1;0;1;0;0;0;120;194;0;0;0;0;0;0;27;0;0;
   0;224;194;1;0;1;0;0;0;148;194;0;0;0;0;0;0;28;0;0;0;232;194;1;0;1;0;0;0;148;194;0;0;0;0;0;0;29;0;0;0;240;
   194;1;0;1;0;0;0;148;194;0;0;0;0;0;0;29;0;0;0;249;194;1;0;1;0;0;0;148;194;0;0;0;0;0;0;29;0;0;0;1;195;1;0;
   1;0;0;0;148;194;0;0;0;0;0;0;30;0;0;0;9;195;1;0;1;0;0;0;152;194;0;0;0;0;0;0;0;0;0;0;0;0;0;0;0;0;0;0;0;0;0;
   0;0;0;0;0;13;0;0;0;14;0;0;0;15;0;0;0;16;0;0;0;17;0;0;0;18;0;0;0;19;0;0;0;20;0;0;0;21;0;0;0;116;198;1;0;
   164;194;0;0;1;0;0;0;192;194;0;0;0;0;0;0;0;0;0;0;72;0;0;0;73;0;0;0;1;0;0;0;0;0;0;0;86;225;1;0;0;0;0;0;180;
   194;0;0;188;194;0;0;0;0;0;0;0;0;0;0;0;0;0;0;0;0;0;0;0;0;0;0;1;0;0;0;2;0;0;0;0;0;0;0;0;0;0;0;0;0;0;0;0;0;
   0;0;0;0;0;0;0;0;0;0;0;0;0;0;0;0;0;0;0;0;0;0;0;0;0;0;0;0;0;0;0;0;0;0;0;0;0;0;0;0;0;0;1;0;0;0;1;0;0;0;1;0;
   0;0;1;0;0;0;2;0;0;0;2;0;0;0;1;0;0;0;2;0;0;0;4;0;0;0;24;1;0;0;48;1;0;0;176;0;0;0;0;0;0;0;29;0;0;0;0;0;0;0;
   0;0;0;0;30;0;0;0;0;0;0;0;0;0;0;0;31;0;0;0;0;0;0;0;0;0;0;0;0;0;0;0;205;206;1;0;210;206;1;0;214;206;1;0;
   221;206;1;0;225;206;1;0;0;0;0;0;1;0;0;0;2;0;0;0;3;0;0;0;4;0;0;0;5;0;0;0;0;0;0;0;0;0;0;0;0;0;0;0;0;0;0;0;
   0;0;0;0;0;0;0;0;0;0;0;0;0;0;0;0;0;0;0;0;0;0;0;0;0;0;0;0;0;0;0;0;0;0;0;0;0;0;0;0;0;0;0;0;0;0;0;0;0;0;0;0;
   0;0;0;0;0;0;0;0;0;0;0;0;0;0;0;0;0;0;0;0;0;0;0;0;0;0;0;0;0;0;0;0;0;0;0;0;0;0;0;0;0;0;0;0;0;0;0;0;0;0;0;0;
   0;0;0;0;0;0;0;0;0;0;0;0;0;0;0;0;0;0;0;0;0;0;0;0;0;0;0;0;0;0;0;0;0;0;0;0;0;0;0;0;0;0;0;0;0;0;0;0;0;0;0;0;
   0;0;0;0;0;0;0;0;0;0;0;0;1;0;0;0;64;0;0;0;104;196;0;0;136;196;0;0;144;196;0;0;2;0;0;0;4;0;0;0;124;196;0;0;
   2;0;0;0;4;0;0;0;2;0;0;0;8;0;0;0;0;0;0;0;0;0;0;0;0;0;0;0;0;0;0;0;0;0;0;0;0;0;0;0;0;0;0;0;0;4;0;0;8;0;0;0;
   255;255;255;255;0;0;0;0;0;0;0;0;32;0;0;0;0;0;0;0;0;0;0;0;0;0;0;0;0;0;0;0;214;211;1;0;0;0;0;0;53;0;0;0;0;
   0;0;0;0;0;0;0;32;0;0;0;0;0;0;0;0;0;0;0;1;0;0;0;0;0;0;0;2;0;0;0;0;0;0;0;0;0;0;0;0;0;0;0;255;255;255;255;0;
   0;0;0;0;0;0;0;1;0;0;0;0;0;0;0;2;0;0;0;0;0;0;0;0;0;0;0;0;0;0;0;24;0;0;0;0;0;0;0;0;0;0;0;3;0;0;0;0;0;0;0;2;
   0;0;0;0;0;0;0;0;0;0;0;0;0;0;0;255;255;255;255;0;0;0;0;0;0;0;0;3;0;0;0;0;0;0;0;2;0;0;0;0;0;0;0;0;0;0;0;0;
   0;0;0;28;0;0;0;0;0;0;0;0;0;0;0;4;0;0;0;0;0;0;0;2;0;0;0;0;0;0;0;9;0;0;0;11;0;0;0;8;0;0;0;10;0;0;0;56;198;
   0;0;188;197;0;0;32;198;0;0;0;0;0;0;1;0;0;0;1;0;0;0;5;0;0;0;22;0;0;0;6;0;0;0;74;0;0;0;33;0;0;0;0;0;0;0;0;
   0;0;0;0;0;0;0;0;0;0;0;0;0;0;0;7;0;0;0;0;0;0;0;2;0;0;0;0;0;0;0;0;0;0;0;0;0;0;0;8;0;0;0;0;0;0;0;0;0;0;0;8;
   0;0;0;0;0;0;0;2;0;0;0;0;0;0;0;3;0;0;0;2;0;0;0;3;0;0;0;4;0;0;0;0;0;0;0;0;0;0;0;4;0;0;0;3;0;0;0;9;0;0;0;11;
   0;0;0;0;0;0;0;0;0;0;0;0;0;0;0;8;0;0;0;0;0;0;0;0;0;0;0;10;0;0;0;0;0;0;0;2;0;0;0;0;0;0;0;0;0;0;0;0;0;0;0;0;
   0;0;0;0;0;0;0;34;0;0;0;11;0;0;0;0;0;0;0;2;0;0;0;0;0;0;0;0;0;0;0;0;0;0;0;0;0;0;0;0;0;0;0;0;0;0;0;0;0;0;0;
   0;0;0;0;0;0;0;0;0;0;0;0;0;0;0;0;0;0;0;0;0;0;0;0;0;0;0;0;0;0;0;0;0;0;0;0;0;0;0;0;0;0;0;0;0;0;0;0;8;0;0;0;
   8;0;0;0;0;0;0;0;0;0;0;0;35;0;0;0;0;0;0;0;0;0;0;0;0;0;0;0;0;0;0;0;0;0;0;0;16;0;0;0;255;255;255;255;0;0;0;
   0;0;0;0;0;36;0;0;0;0;0;0;0;0;0;0;0;2;0;0;0;0;0;0;0;0;0;0;0;0;0;0;0;0;0;0;0;0;0;0;0;1;0;0;0;0;0;0;0;0;0;0;
   0;0;0;0;0;0;0;0;0;0;0;0;0;0;0;0;0;0;0;0;0;0;0;0;0;0;0;0;0;0;0;0;0;0;0;0;0;1;0;0;0;1;0;0;0;1;0;0;0;1;0;0;
   0;1;0;0;0;1;0;0;0;1;0;0;0;1;0;0;0;2;0;0;0;3;0;0;0;1;0;0;0;1;0;0;0;2;0;0;0;1;0;0;0;1;0;0;0;1;0;0;0;1;0;0;
   0;1;0;0;0;1;0;0;0;1;0;0;0;1;0;0;0;1;0;0;0;1;0;0;0;1;0;0;0;1;0;0;0;1;0;0;0;1;0;0;0;1;0;0;0;1;0;0;0;1;0;0;
   0;1;0;0;0;2;0;0;0;1;0;0;0;4;0;0;0;5;0;0;0;1;0;0;0;1;0;0;0;1;0;0;0;1;0;0;0;1;0;0;0;1;0;0;0;6;0;0;0;1;0;0;
   0;1;0;0;0;7;0;0;0;8;0;0;0;9;0;0;0;10;0;0;0;10;0;0;0;10;0;0;0;10;0;0;0;10;0;0;0;10;0;0;0;10;0;0;0;10;0;0;
   0;10;0;0;0;10;0;0;0;1;0;0;0;1;0;0;0;11;0;0;0;1;0;0;0;12;0;0;0;1;0;0;0;13;0;0;0;14;0;0;0;15;0;0;0;16;0;0;
   0;17;0;0;0;18;0;0;0;19;0;0;0;20;0;0;0;21;0;0;0;22;0;0;0;19;0;0;0;19;0;0;0;19;0;0;0;19;0;0;0;23;0;0;0;24;
   0;0;0;25;0;0;0;19;0;0;0;26;0;0;0;27;0;0;0;28;0;0;0;29;0;0;0;19;0;0;0;19;0;0;0;19;0;0;0;19;0;0;0;19;0;0;0;
   1;0;0;0;30;0;0;0;1;0;0;0;1;0;0;0;19;0;0;0;1;0;0;0;31;0;0;0;32;0;0;0;33;0;0;0;34;0;0;0;35;0;0;0;19;0;0;0;
   36;0;0;0;37;0;0;0;38;0;0;0;19;0;0;0;19;0;0;0;19;0;0;0;19;0;0;0;39;0;0;0;40;0;0;0;41;0;0;0;19;0;0;0;42;0;
   0;0;43;0;0;0;44;0;0;0;45;0;0;0;19;0;0;0;19;0;0;0;19;0;0;0;19;0;0;0;19;0;0;0;1;0;0;0;1;0;0;0;1;0;0;0;1;0;
   0;0;1;0;0;0;19;0;0;0;19;0;0;0;19;0;0;0;19;0;0;0;19;0;0;0;19;0;0;0;19;0;0;0;19;0;0;0;19;0;0;0;19;0;0;0;19;
   0;0;0;19;0;0;0;19;0;0;0;19;0;0;0;19;0;0;0;19;0;0;0;19;0;0;0;19;0;0;0;19;0;0;0;19;0;0;0;19;0;0;0;19;0;0;0;
   19;0;0;0;19;0;0;0;19;0;0;0;19;0;0;0;19;0;0;0;19;0;0;0;19;0;0;0;19;0;0;0;19;0;0;0;19;0;0;0;19;0;0;0;19;0;
   0;0;19;0;0;0;19;0;0;0;19;0;0;0;19;0;0;0;19;0;0;0;19;0;0;0;19;0;0;0;19;0;0;0;19;0;0;0;19;0;0;0;19;0;0;0;
   19;0;0;0;19;0;0;0;19;0;0;0;19;0;0;0;19;0;0;0;19;0;0;0;19;0;0;0;19;0;0;0;19;0;0;0;19;0;0;0;19;0;0;0;19;0;
   0;0;19;0;0;0;19;0;0;0;46;0;0;0;19;0;0;0;19;0;0;0;19;0;0;0;47;0;0;0;19;0;0;0;19;0;0;0;19;0;0;0;19;0;0;0;
   19;0;0;0;19;0;0;0;19;0;0;0;19;0;0;0;19;0;0;0;19;0;0;0;19;0;0;0;19;0;0;0;19;0;0;0;19;0;0;0;19;0;0;0;19;0;
   0;0;19;0;0;0;19;0;0;0;19;0;0;0;19;0;0;0;19;0;0;0;19;0;0;0;19;0;0;0;19;0;0;0;19;0;0;0;19;0;0;0;19;0;0;0;
   19;0;0;0;19;0;0;0;19;0;0;0;19;0;0;0;19;0;0;0;19;0;0;0;19;0;0;0;19;0;0;0;19;0;0;0;19;0;0;0;19;0;0;0;19;0;
   0;0;19;0;0;0;19;0;0;0;19;0;0;0;19;0;0;0;19;0;0;0;19;0;0;0;19;0;0;0;19;0;0;0;48;0;0;0;19;0;0;0;19;0;0;0;
   19;0;0;0;19;0;0;0;19;0;0;0;19;0;0;0;19;0;0;0;19;0;0;0;19;0;0;0;19;0;0;0;19;0;0;0;19;0;0;0;19;0;0;0;19;0;
   0;0;19;0;0;0;19;0;0;0;0;0;0;0;0;0;0;0;0;0;0;0;1;0;0;0;1;0;0;0;2;0;0;0;3;0;0;0;1;0;0;0;4;0;0;0;1;0;0;0;5;
   0;0;0;1;0;0;0;6;0;0;0;7;0;0;0;7;0;0;0;1;0;0;0;6;0;0;0;6;0;0;0;6;0;0;0;6;0;0;0;6;0;0;0;6;0;0;0;6;0;0;0;6;
   0;0;0;6;0;0;0;6;0;0;0;6;0;0;0;6;0;0;0;6;0;0;0;6;0;0;0;6;0;0;0;6;0;0;0;3;0;0;0;6;0;0;0;6;0;0;0;6;0;0;0;6;
   0;0;0;6;0;0;0;6;0;0;0;6;0;0;0;6;0;0;0;6;0;0;0;6;0;0;0;6;0;0;0;6;0;0;0;6;0;0;0;6;0;0;0;6;0;0;0;6;0;0;0;6;
   0;0;0;6;0;0;0;0;0;0;0;0;0;0;0;0;0;0;0;0;0;0;0;0;0;0;0;0;0;0;0;0;0;0;0;0;0;0;0;0;0;0;0;128;0;0;0;0;0;0;0;
   0;0;0;0;0;0;0;0;0;0;0;0;0;0;0;0;0;0;0;0;0;0;0;0;0;0;0;0;0;0;0;0;0;0;0;0;0;0;0;0;0;0;0;0;0;0;0;0;218;219;
   1;0;227;219;1;0;234;219;1;0;0;0;0;0;0;0;0;0;248;219;1;0;254;13;2;0;51;15;2;0;255;219;1;0;6;220;1;0;1;0;0;
   0;0;0;0;0;0;0;0;0;0;0;0;0;0;0;0;0;0;0;0;0;0;0;0;0;0;0;0;0;8;0;0;0;255;255;255;255;0;0;0;0;0;0;0;0;37;0;0;
   0;0;0;0;0;0;0;0;0;0;0;0;0;0;0;0;0;164;221;1;0;8;0;0;0;3;0;0;0;173;221;1;0;177;221;1;0;11;0;0;0;6;0;0;0;
   159;234;1;0;189;221;1;0;2;0;0;0;1;0;0;0;192;221;1;0;196;221;1;0;4;0;0;0;2;0;0;0;201;221;1;0;205;221;1;0;
   4;0;0;0;4;0;0;0;210;221;1;0;215;221;1;0;5;0;0;0;5;0;0;0;221;221;1;0;225;221;1;0;4;0;0;0;7;0;0;0;230;221;
   1;0;234;221;1;0;5;0;0;0;9;0;0;0;240;221;1;0;244;221;1;0;4;0;0;0;10;0;0;0;249;221;1;0;254;221;1;0;4;0;0;0;
   12;0;0;0;3;222;1;0;0;0;0;0;0;0;0;0;0;0;0;0;0;0;0;0;0;0;0;0;0;0;0;0;0;0;0;0;0;0;0;0;0;0;0;0;0;0;0;0;0;0;0;
   0;0;0;0;0;0;0;0;0;0;0;0;0;0;0;0;0;0;0;0;0;0;0;0;0;0;0;0;0;0;0;0;0;0;0;0;0;0;0;0;0;0;0;0;0;0;0;0;0;0;0;0;
   0;0;0;0;0;0;0;0;0;0;0;0;0;0;0;0;0;0;0;0;0;0;0;0;0;0;0;0;0;0;0;0;0;0;0;0;0;0;0;0;0;0;0;0;0;0;0;0;0;0;0;0;
   0;0;0;0;0;0;0;0;0;0;0;0;0;0;0;0;0;0;0;0;0;0;0;0;0;0;0;0;0;0;0;0;0;0;0;0;0;0;0;0;0;0;0;0;0;0;0;0;0;28;231;
   1;0;0;0;0;0;1;0;0;0;36;231;1;0;1;0;0;0;0;0;0;0;193;13;2;0;1;0;0;0;1;0;0;0;189;109;2;0;0;0;0;0;0;0;0;0;0;
   0;0;0;0;0;0;0;0;0;0;0;127;225;1;0;49;0;0;0;0;0;0;0;0;0;0;0;84;3;2;0;16;0;0;0;68;122;2;0;128;0;0;0;120;
   225;1;0;64;0;0;0;129;248;1;0;16;0;0;0;122;225;1;0;64;0;0;0;0;0;0;0;0;0;0;0;70;225;1;0;1;0;0;0;77;225;1;0;
   2;0;0;0;82;225;1;0;3;0;0;0;133;248;1;0;4;0;0;0;192;248;1;0;5;0;0;0;86;225;1;0;6;0;0;0;189;109;2;0;8;0;0;
   0;90;225;1;0;33;0;0;0;94;225;1;0;34;0;0;0;98;225;1;0;34;0;0;0;102;225;1;0;1;0;0;0;107;225;1;0;7;0;0;0;
   113;225;1;0;39;0;0;0;0;0;0;0;0;0;0;0;0;0;0;0;0;0;0;0;0;0;0;0;0;0;0;0;0;0;0;0;0;0;0;0;0;0;0;0;0;0;0;0;0;0;
   0;0;0;0;0;0;0;0;0;0;0;0;0;0;0;0;0;0;0;0;0;0;0;0;0;0;0;0;0;0;0;0;0;0;0;0;0;0;0;0;0;0;0;0;0;0;0;0;0;0;0;0;
   0;0;0;0;0;0;0;0;0;0;0;0;0;0;0;0;0;0;0;0;0;0;0;0;0;0;0;0;0;0;0;0;0;0;0;0;0;0;0;0;0;0;0;0;0;0;0;0;0;0;0;0;
   0;0;0;0;0;0;0;0;0;0;0;0;0;0;0;0;0;0;0;0;0;0;0;0;0;0;0;0;0;0;0;0;0;0;0;0;0;0;0;0;0;0;0;0;0;0;0;0;0;0;0;0;
   0;0;0;0;0;0;0;0;0;0;0;0;0;0;0;0;0;0;0;0;0;0;0;0;0;0;0;0;0;0;0;0;0;0;0;0;0;0;0;0;0;0;0;0;0;0;0;0;0;0;0;0;
   0;0;0;0;0;0;0;0;0;0;0;0;0;0;0;0;0;0;0;0;0;0;0;0;0;0;255;255;255;255;0;0;0;0;38;0;0;0;0;0;0;0;0;0;0;0;0;0;
   0;0;0;0;0;0;0;0;0;0;0;0;0;0;0;0;0;0;0;0;0;0;0;0;0;0;0;0;0;0;8;230;1;0;15;230;1;0;0;0;0;0;0;0;0;0;0;0;0;0;
   0;0;0;0;1;0;0;0;0;0;0;0;0;0;0;0;0;0;0;0;0;0;0;0;0;0;0;0;0;0;0;0;0;0;0;0;0;0;0;0;0;0;0;0;0;0;0;0;0;0;0;0;
   0;0;0;0;0;0;0;0;0;0;0;0;0;0;0;0;0;0;0;0;0;0;0;0;0;0;0;0;0;0;0;0;0;0;0;0;0;0;0;0;0;0;0;0;0;0;0;0;0;0;0;0;
   0;0;0;0;0;0;0;0;0;0;0;0;0;0;0;0;0;0;0;0;0;0;0;0;0;0;0;0;0;0;0;0;0;0;0;0;0;0;0;0;0;0;0;0;0;0;0;0;0;0;0;0;
   0;0;0;0;0;0;0;0;0;0;0;0;0;0;0;0;0;0;0;0;0;0;0;0;0;0;0;0;0;0;0;0;0;0;0;0;0;0;0;0;0;0;0;0;0;0;0;0;0;0;0;0;
   0;0;0;0;0;0;0;0;0;0;0;0;0;0;0;0;0;0;0;0;0;0;0;0;0;0;0;0;0;0;0;0;0;0;0;0;0;0;0;0;0;0;0;0;0;0;0;0;0;0;0;0;
   0;0;0;0;0;0;0;0;0;0;0;0;0;0;0;0;0;0;0;0;0;0;0;0;0;0;0;0;0;0;0;0;0;0;0;0;0;0;0;0;0;0;0;0;0;0;0;0;0;0;0;0;
   0;0;0;0;0;0;0;0;0;0;0;0;0;0;0;0;0;0;0;0;0;0;0;0;0;0;0;0;0;0;0;0;0;0;0;0;0;0;0;0;0;0;0;0;0;0;0;0;0;0;0;0;
   0;0;0;0;0;0;0;0;0;0;0;0;0;0;0;0;0;0;0;0;0;0;0;0;0;0;0;0;0;0;0;0;0;0;0;0;0;0;0;0;0;0;0;0;156;234;1;0;159;
   234;1;0;162;234;1].

(** [n.q+53824]: 10239 bytes. *)
Definition segment_53824 : list Z :=
  [1;0;0;0;2;0;0;0;255;255;255;255;127;234;1;0;133;234;1;0;189;109;2;0;0;0;0;0;100;0;0;0;101;0;0;0;102;0;0;
   0;100;0;0;0;0;0;0;0;0;0;0;0;0;0;0;0;0;0;0;0;0;0;0;0;0;0;0;0;0;0;0;0;0;0;0;0;0;0;0;0;0;0;0;0;0;0;0;0;0;0;
   0;0;0;0;0;0;0;0;0;0;0;0;0;0;0;0;0;0;0;0;0;0;0;0;0;0;0;0;0;0;0;0;0;0;0;0;0;0;0;0;0;0;0;0;0;0;0;0;0;0;0;0;
   0;0;0;0;0;0;0;0;0;0;0;0;0;0;0;0;0;0;0;0;0;0;0;0;0;0;0;0;0;0;0;0;0;0;0;0;0;0;0;0;0;0;0;0;0;0;0;0;0;0;0;0;
   0;0;0;0;0;0;0;0;0;0;0;0;0;0;0;0;0;0;0;0;0;0;0;0;0;0;0;0;0;0;0;0;0;0;0;0;0;0;0;0;0;0;0;0;0;0;0;0;0;0;0;0;
   0;0;0;0;0;0;0;0;0;0;0;0;0;0;0;0;0;0;0;0;0;0;0;0;0;0;0;0;0;0;0;0;0;0;8;0;0;0;8;0;0;0;0;0;0;0;0;0;0;0;39;0;
   0;0;12;0;0;0;0;0;0;0;0;0;0;0;0;0;0;0;0;0;0;0;0;0;0;0;8;0;0;0;255;255;255;255;0;0;0;0;0;0;0;0;40;0;0;0;0;
   0;0;0;0;0;0;0;0;0;0;0;0;0;0;0;0;0;0;0;0;0;0;0;0;0;0;0;0;0;0;0;0;0;0;0;0;0;0;0;0;0;0;0;0;0;0;0;0;0;0;0;0;
   0;0;0;0;0;0;0;0;0;0;0;0;0;0;0;0;0;0;0;0;0;0;0;0;0;0;0;0;0;0;0;133;248;1;0;0;216;0;0;216;131;0;0;0;0;0;0;
   137;248;1;0;0;216;0;0;8;132;0;0;0;0;0;0;16;2;2;0;0;216;0;0;56;132;0;0;0;0;0;0;145;248;1;0;0;216;0;0;56;
   132;0;0;0;0;0;0;150;248;1;0;0;216;0;0;104;132;0;0;0;0;0;0;157;248;1;0;24;216;0;0;104;132;0;0;0;0;0;0;163;
   248;1;0;0;216;0;0;152;132;0;0;0;0;0;0;167;248;1;0;0;216;0;0;200;132;0;0;0;0;0;0;189;109;2;0;0;216;0;0;
   248;132;0;0;0;0;0;0;176;248;1;0;0;216;0;0;248;132;0;0;0;0;0;0;186;248;1;0;0;216;0;0;40;133;0;0;0;0;0;0;
   192;248;1;0;0;216;0;0;88;133;0;0;0;0;0;0;200;248;1;0;0;216;0;0;136;133;0;0;0;0;0;0;210;248;1;0;0;216;0;0;
   184;133;0;0;0;0;0;0;224;248;1;0;0;216;0;0;232;133;0;0;0;0;0;0;230;248;1;0;0;216;0;0;24;134;0;0;0;0;0;0;
   239;248;1;0;0;216;0;0;72;134;0;0;0;0;0;0;247;248;1;0;0;216;0;0;120;134;0;0;0;0;0;0;0;249;1;0;0;216;0;0;
   168;134;0;0;0;0;0;0;8;249;1;0;0;216;0;0;216;134;0;0;0;0;0;0;13;249;1;0;0;216;0;0;8;135;0;0;0;0;0;0;17;
   249;1;0;0;216;0;0;56;135;0;0;0;0;0;0;24;249;1;0;0;216;0;0;104;135;0;0;0;0;0;0;30;249;1;0;0;216;0;0;152;
   135;0;0;0;0;0;0;40;249;1;0;48;216;0;0;200;135;0;0;0;0;0;0;49;249;1;0;0;216;0;0;216;131;0;0;0;0;0;0;54;
   249;1;0;0;216;0;0;216;131;0;0;0;0;0;0;64;249;1;0;0;216;0;0;248;135;0;0;0;0;0;0;71;249;1;0;0;216;0;0;40;
   136;0;0;0;0;0;0;84;249;1;0;0;216;0;0;88;136;0;0;0;0;0;0;98;249;1;0;0;216;0;0;136;136;0;0;0;0;0;0;112;249;
   1;0;0;216;0;0;184;136;0;0;0;0;0;0;124;249;1;0;0;216;0;0;232;136;0;0;0;0;0;0;137;249;1;0;0;216;0;0;24;137;
   0;0;0;0;0;0;146;249;1;0;0;216;0;0;72;137;0;0;0;0;0;0;156;249;1;0;0;216;0;0;120;137;0;0;0;0;0;0;165;249;1;
   0;0;216;0;0;168;137;0;0;0;0;0;0;173;249;1;0;0;216;0;0;216;137;0;0;0;0;0;0;181;249;1;0;0;216;0;0;8;138;0;
   0;0;0;0;0;190;249;1;0;0;216;0;0;56;138;0;0;0;0;0;0;194;249;1;0;0;216;0;0;104;138;0;0;0;0;0;0;205;249;1;0;
   0;216;0;0;152;138;0;0;0;0;0;0;209;249;1;0;0;216;0;0;200;138;0;0;0;0;0;0;219;249;1;0;0;216;0;0;248;138;0;
   0;0;0;0;0;228;249;1;0;0;216;0;0;40;139;0;0;0;0;0;0;236;249;1;0;0;216;0;0;88;139;0;0;0;0;0;0;249;249;1;0;
   0;216;0;0;136;139;0;0;0;0;0;0;5;250;1;0;0;216;0;0;184;139;0;0;0;0;0;0;16;250;1;0;0;216;0;0;232;139;0;0;0;
   0;0;0;32;250;1;0;0;216;0;0;24;140;0;0;0;0;0;0;46;250;1;0;0;216;0;0;72;140;0;0;0;0;0;0;61;250;1;0;0;216;0;
   0;120;140;0;0;0;0;0;0;71;250;1;0;0;216;0;0;168;140;0;0;0;0;0;0;80;250;1;0;0;216;0;0;216;140;0;0;0;0;0;0;
   90;250;1;0;0;216;0;0;8;141;0;0;0;0;0;0;100;250;1;0;0;216;0;0;56;141;0;0;0;0;0;0;107;250;1;0;0;216;0;0;
   104;141;0;0;0;0;0;0;114;250;1;0;0;216;0;0;152;141;0;0;0;0;0;0;124;250;1;0;72;216;0;0;0;0;0;0;0;0;0;0;131;
   250;1;0;72;216;0;0;0;0;0;0;0;0;0;0;84;248;1;0;96;216;0;0;0;0;0;0;0;0;0;0;139;250;1;0;120;216;0;0;200;141;
   0;0;0;0;0;0;0;0;0;0;0;0;0;0;0;0;0;0;0;0;0;0;127;248;1;0;129;248;1;0;126;122;2;0;131;248;1;0;0;0;0;0;0;0;
   0;0;0;0;0;0;75;0;0;0;76;0;0;0;23;0;0;0;4;0;0;0;2;0;0;0;12;0;0;0;77;0;0;0;76;0;0;0;23;0;0;0;5;0;0;0;0;0;0;
   0;13;0;0;0;75;0;0;0;76;0;0;0;23;0;0;0;4;0;0;0;2;0;0;0;12;0;0;0;78;0;0;0;79;0;0;0;24;0;0;0;6;0;0;0;3;0;0;
   0;14;0;0;0;80;0;0;0;81;0;0;0;23;0;0;0;7;0;0;0;0;0;0;0;15;0;0;0;75;0;0;0;76;0;0;0;23;0;0;0;8;0;0;0;2;0;0;
   0;12;0;0;0;16;0;0;0;17;0;0;0;0;0;0;0;0;0;0;0;0;0;0;0;0;0;0;0;0;0;0;0;0;0;0;0;18;0;0;0;19;0;0;0;0;0;0;0;0;
   0;0;0;0;0;0;0;0;0;0;0;0;0;0;0;0;0;0;0;0;0;0;0;141;251;1;0;148;251;1;0;0;0;0;0;0;0;0;0;11;0;0;0;12;0;0;0;
   13;0;0;0;14;0;0;0;15;0;0;0;16;0;0;0;17;0;0;0;18;0;0;0;21;0;0;0;22;0;0;0;23;0;0;0;24;0;0;0;25;0;0;0;26;0;
   0;0;27;0;0;0;28;0;0;0;31;0;0;0;32;0;0;0;33;0;0;0;34;0;0;0;35;0;0;0;36;0;0;0;37;0;0;0;38;0;0;0;41;0;0;0;
   42;0;0;0;43;0;0;0;44;0;0;0;45;0;0;0;46;0;0;0;47;0;0;0;48;0;0;0;51;0;0;0;52;0;0;0;53;0;0;0;54;0;0;0;55;0;
   0;0;56;0;0;0;57;0;0;0;58;0;0;0;61;0;0;0;62;0;0;0;63;0;0;0;64;0;0;0;65;0;0;0;66;0;0;0;67;0;0;0;68;0;0;0;
   71;0;0;0;72;0;0;0;73;0;0;0;74;0;0;0;75;0;0;0;76;0;0;0;77;0;0;0;78;0;0;0;81;0;0;0;82;0;0;0;83;0;0;0;84;0;
   0;0;85;0;0;0;86;0;0;0;87;0;0;0;88;0;0;0;0;0;0;0;0;0;0;0;0;0;0;0;0;0;0;0;0;0;0;0;0;0;0;0;0;0;0;0;0;0;0;0;
   0;0;0;0;0;0;0;0;177;253;1;0;193;253;1;0;206;253;1;0;0;0;0;0;0;0;0;0;4;0;0;0;211;253;1;0;0;0;0;0;0;0;0;0;
   222;253;1;0;193;253;1;0;206;253;1;0;0;0;0;0;245;253;1;0;5;0;0;0;211;253;1;0;0;0;0;0;253;253;1;0;4;254;1;
   0;193;253;1;0;20;254;1;0;0;0;0;0;0;0;0;0;6;0;0;0;211;253;1;0;42;13;2;0;0;0;0;0;25;254;1;0;193;253;1;0;20;
   254;1;0;0;0;0;0;245;253;1;0;7;0;0;0;211;253;1;0;42;13;2;0;253;253;1;0;48;254;1;0;61;254;1;0;20;254;1;0;0;
   0;0;0;0;0;0;0;10;0;0;0;75;254;1;0;42;13;2;0;0;0;0;0;81;254;1;0;61;254;1;0;20;254;1;0;0;0;0;0;253;253;1;0;
   11;0;0;0;75;254;1;0;42;13;2;0;253;253;1;0;100;254;1;0;61;254;1;0;114;254;1;0;0;0;0;0;0;0;0;0;8;0;0;0;75;
   254;1;0;0;0;0;0;0;0;0;0;120;254;1;0;61;254;1;0;114;254;1;0;0;0;0;0;253;253;1;0;9;0;0;0;75;254;1;0;0;0;0;
   0;253;253;1;0;140;254;1;0;140;254;1;0;0;0;0;0;0;0;0;0;0;0;0;0;12;0;0;0;148;254;1;0;0;0;0;0;0;0;0;0;158;
   254;1;0;140;254;1;0;42;13;2;0;0;0;0;0;0;0;0;0;14;0;0;0;148;254;1;0;42;13;2;0;0;0;0;0;171;254;1;0;140;254;
   1;0;42;13;2;0;0;0;0;0;245;253;1;0;15;0;0;0;148;254;1;0;42;13;2;0;253;253;1;0;191;254;1;0;140;254;1;0;0;0;
   0;0;0;0;0;0;245;253;1;0;13;0;0;0;148;254;1;0;0;0;0;0;253;253;1;0;207;254;1;0;207;254;1;0;0;0;0;0;0;0;0;0;
   0;0;0;0;16;0;0;0;211;253;1;0;0;0;0;0;0;0;0;0;217;254;1;0;207;254;1;0;42;13;2;0;0;0;0;0;0;0;0;0;18;0;0;0;
   211;253;1;0;42;13;2;0;0;0;0;0;232;254;1;0;207;254;1;0;42;13;2;0;0;0;0;0;245;253;1;0;19;0;0;0;211;253;1;0;
   42;13;2;0;253;253;1;0;254;254;1;0;207;254;1;0;0;0;0;0;15;255;1;0;0;0;0;0;20;0;0;0;211;253;1;0;0;0;0;0;0;
   0;0;0;25;255;1;0;207;254;1;0;42;13;2;0;15;255;1;0;0;0;0;0;22;0;0;0;211;253;1;0;42;13;2;0;0;0;0;0;47;255;
   1;0;207;254;1;0;42;13;2;0;15;255;1;0;245;253;1;0;23;0;0;0;211;253;1;0;42;13;2;0;253;253;1;0;76;255;1;0;
   207;254;1;0;0;0;0;0;15;255;1;0;245;253;1;0;21;0;0;0;211;253;1;0;0;0;0;0;253;253;1;0;101;255;1;0;207;254;
   1;0;0;0;0;0;0;0;0;0;245;253;1;0;17;0;0;0;211;253;1;0;0;0;0;0;253;253;1;0;119;255;1;0;141;255;1;0;42;13;2;
   0;0;0;0;0;0;0;0;0;26;0;0;0;75;254;1;0;42;13;2;0;0;0;0;0;162;255;1;0;141;255;1;0;42;13;2;0;0;0;0;0;253;
   253;1;0;27;0;0;0;75;254;1;0;42;13;2;0;253;253;1;0;190;255;1;0;141;255;1;0;0;0;0;0;0;0;0;0;253;253;1;0;25;
   0;0;0;75;254;1;0;0;0;0;0;253;253;1;0;214;255;1;0;141;255;1;0;237;255;1;0;0;0;0;0;0;0;0;0;24;0;0;0;75;254;
   1;0;0;0;0;0;0;0;0;0;243;255;1;0;1;0;2;0;42;13;2;0;0;0;0;0;0;0;0;0;30;0;0;0;75;254;1;0;42;13;2;0;0;0;0;0;
   19;0;2;0;1;0;2;0;42;13;2;0;0;0;0;0;253;253;1;0;31;0;0;0;75;254;1;0;42;13;2;0;253;253;1;0;39;0;2;0;1;0;2;
   0;0;0;0;0;0;0;0;0;253;253;1;0;29;0;0;0;75;254;1;0;0;0;0;0;253;253;1;0;55;0;2;0;1;0;2;0;237;255;1;0;0;0;0;
   0;0;0;0;0;28;0;0;0;75;254;1;0;0;0;0;0;0;0;0;0;70;0;2;0;70;0;2;0;0;0;0;0;0;0;0;0;0;0;0;0;32;0;0;0;77;0;2;
   0;0;0;0;0;0;0;0;0;85;0;2;0;96;0;2;0;42;13;2;0;0;0;0;0;0;0;0;0;2;0;0;0;75;254;1;0;42;13;2;0;0;0;0;0;102;0;
   2;0;96;0;2;0;42;13;2;0;0;0;0;0;253;253;1;0;3;0;0;0;75;254;1;0;42;13;2;0;253;253;1;0;119;0;2;0;96;0;2;0;0;
   0;0;0;0;0;0;0;253;253;1;0;1;0;0;0;75;254;1;0;0;0;0;0;253;253;1;0;24;2;2;0;96;0;2;0;0;0;0;0;0;0;0;0;0;0;0;
   0;0;0;0;0;75;254;1;0;0;0;0;0;0;0;0;0;132;0;2;0;158;0;2;0;173;0;2;0;0;0;0;0;253;253;1;0;33;0;0;0;75;254;1;
   0;0;0;0;0;253;253;1;0;180;0;2;0;193;0;2;0;0;0;0;0;0;0;0;0;0;0;0;0;34;0;0;0;77;0;2;0;0;0;0;0;0;0;0;0;0;0;
   0;0;0;0;0;0;0;0;0;0;0;0;0;0;0;0;0;0;0;0;0;0;0;0;0;0;0;0;0;0;0;0;0;0;8;0;0;0;255;255;255;255;0;0;0;0;0;0;
   0;0;41;0;0;0;0;0;0;0;0;0;0;0;0;0;0;0;0;0;0;0;161;3;2;0;198;0;0;0;167;3;2;0;193;0;0;0;174;3;2;0;194;0;0;0;
   180;3;2;0;192;0;0;0;187;3;2;0;145;3;0;0;193;3;2;0;197;0;0;0;199;3;2;0;195;0;0;0;206;3;2;0;196;0;0;0;211;
   3;2;0;146;3;0;0;216;3;2;0;199;0;0;0;223;3;2;0;167;3;0;0;227;3;2;0;33;32;0;0;234;3;2;0;148;3;0;0;240;3;2;
   0;208;0;0;0;244;3;2;0;201;0;0;0;251;3;2;0;202;0;0;0;1;4;2;0;200;0;0;0;8;4;2;0;149;3;0;0;16;4;2;0;151;3;0;
   0;20;4;2;0;203;0;0;0;25;4;2;0;147;3;0;0;31;4;2;0;205;0;0;0;38;4;2;0;206;0;0;0;44;4;2;0;204;0;0;0;51;4;2;
   0;153;3;0;0;56;4;2;0;207;0;0;0;61;4;2;0;154;3;0;0;67;4;2;0;155;3;0;0;74;4;2;0;156;3;0;0;77;4;2;0;209;0;0;
   0;84;4;2;0;157;3;0;0;87;4;2;0;82;1;0;0;93;4;2;0;211;0;0;0;100;4;2;0;212;0;0;0;106;4;2;0;210;0;0;0;113;4;
   2;0;169;3;0;0;119;4;2;0;159;3;0;0;127;4;2;0;216;0;0;0;134;4;2;0;213;0;0;0;141;4;2;0;214;0;0;0;146;4;2;0;
   166;3;0;0;150;4;2;0;160;3;0;0;153;4;2;0;51;32;0;0;159;4;2;0;168;3;0;0;163;4;2;0;161;3;0;0;167;4;2;0;96;1;
   0;0;174;4;2;0;163;3;0;0;180;4;2;0;222;0;0;0;186;4;2;0;164;3;0;0;190;4;2;0;152;3;0;0;196;4;2;0;218;0;0;0;
   203;4;2;0;219;0;0;0;209;4;2;0;217;0;0;0;216;4;2;0;165;3;0;0;224;4;2;0;220;0;0;0;229;4;2;0;158;3;0;0;232;
   4;2;0;221;0;0;0;239;4;2;0;120;1;0;0;244;4;2;0;150;3;0;0;249;4;2;0;225;0;0;0;0;5;2;0;226;0;0;0;6;5;2;0;
   180;0;0;0;12;5;2;0;230;0;0;0;18;5;2;0;224;0;0;0;25;5;2;0;53;33;0;0;33;5;2;0;177;3;0;0;39;5;2;0;38;0;0;0;
   43;5;2;0;39;34;0;0;47;5;2;0;32;34;0;0;51;5;2;0;229;0;0;0;57;5;2;0;72;34;0;0;63;5;2;0;227;0;0;0;70;5;2;0;
   228;0;0;0;75;5;2;0;30;32;0;0;81;5;2;0;178;3;0;0;86;5;2;0;166;0;0;0;93;5;2;0;34;32;0;0;98;5;2;0;41;34;0;0;
   102;5;2;0;231;0;0;0;109;5;2;0;184;0;0;0;115;5;2;0;162;0;0;0;120;5;2;0;199;3;0;0;124;5;2;0;198;2;0;0;129;
   5;2;0;99;38;0;0;135;5;2;0;69;34;0;0;140;5;2;0;169;0;0;0;145;5;2;0;181;33;0;0;151;5;2;0;42;34;0;0;155;5;2;
   0;164;0;0;0;162;5;2;0;211;33;0;0;167;5;2;0;32;32;0;0;174;5;2;0;147;33;0;0;179;5;2;0;176;0;0;0;183;5;2;0;
   180;3;0;0;189;5;2;0;102;38;0;0;195;5;2;0;247;0;0;0;202;5;2;0;233;0;0;0;209;5;2;0;234;0;0;0;215;5;2;0;232;
   0;0;0;222;5;2;0;5;34;0;0;228;5;2;0;3;32;0;0;233;5;2;0;2;32;0;0;238;5;2;0;181;3;0;0;246;5;2;0;97;34;0;0;
   252;5;2;0;183;3;0;0;0;6;2;0;240;0;0;0;4;6;2;0;235;0;0;0;9;6;2;0;172;32;0;0;14;6;2;0;3;34;0;0;20;6;2;0;
   146;1;0;0;25;6;2;0;0;34;0;0;32;6;2;0;189;0;0;0;39;6;2;0;188;0;0;0;46;6;2;0;190;0;0;0;53;6;2;0;68;32;0;0;
   59;6;2;0;179;3;0;0;65;6;2;0;101;34;0;0;68;6;2;0;62;0;0;0;71;6;2;0;212;33;0;0;76;6;2;0;148;33;0;0;81;6;2;
   0;101;38;0;0;88;6;2;0;38;32;0;0;95;6;2;0;237;0;0;0;102;6;2;0;238;0;0;0;108;6;2;0;161;0;0;0;114;6;2;0;236;
   0;0;0;121;6;2;0;17;33;0;0;127;6;2;0;30;34;0;0;133;6;2;0;43;34;0;0;137;6;2;0;185;3;0;0;142;6;2;0;191;0;0;
   0;149;6;2;0;8;34;0;0;154;6;2;0;239;0;0;0;159;6;2;0;186;3;0;0;165;6;2;0;208;33;0;0;170;6;2;0;187;3;0;0;
   177;6;2;0;41;35;0;0;182;6;2;0;171;0;0;0;188;6;2;0;144;33;0;0;193;6;2;0;8;35;0;0;199;6;2;0;28;32;0;0;205;
   6;2;0;100;34;0;0;208;6;2;0;10;35;0;0;215;6;2;0;23;34;0;0;222;6;2;0;202;37;0;0;226;6;2;0;14;32;0;0;230;6;
   2;0;57;32;0;0;237;6;2;0;24;32;0;0;243;6;2;0;60;0;0;0;246;6;2;0;175;0;0;0;251;6;2;0;20;32;0;0;1;7;2;0;181;
   0;0;0;7;7;2;0;183;0;0;0;202;14;2;0;18;34;0;0;14;7;2;0;188;3;0;0;17;7;2;0;7;34;0;0;23;7;2;0;160;0;0;0;28;
   7;2;0;19;32;0;0;34;7;2;0;96;34;0;0;37;7;2;0;11;34;0;0;40;7;2;0;172;0;0;0;44;7;2;0;9;34;0;0;50;7;2;0;132;
   34;0;0;55;7;2;0;241;0;0;0;62;7;2;0;189;3;0;0;65;7;2;0;243;0;0;0;72;7;2;0;244;0;0;0;78;7;2;0;83;1;0;0;84;
   7;2;0;242;0;0;0;91;7;2;0;62;32;0;0;97;7;2;0;201;3;0;0;103;7;2;0;191;3;0;0;111;7;2;0;149;34;0;0;117;7;2;0;
   40;34;0;0;120;7;2;0;170;0;0;0;125;7;2;0;186;0;0;0;130;7;2;0;248;0;0;0;137;7;2;0;245;0;0;0;144;7;2;0;151;
   34;0;0;151;7;2;0;246;0;0;0;156;7;2;0;182;0;0;0;161;7;2;0;2;34;0;0;166;7;2;0;48;32;0;0;173;7;2;0;165;34;0;
   0;178;7;2;0;198;3;0;0;182;7;2;0;192;3;0;0;185;7;2;0;214;3;0;0;189;7;2;0;177;0;0;0;196;7;2;0;163;0;0;0;
   202;7;2;0;50;32;0;0;208;7;2;0;15;34;0;0;213;7;2;0;29;34;0;0;218;7;2;0;200;3;0;0;222;7;2;0;34;0;0;0;227;7;
   2;0;210;33;0;0;232;7;2;0;26;34;0;0;238;7;2;0;42;35;0;0;243;7;2;0;187;0;0;0;249;7;2;0;146;33;0;0;254;7;2;
   0;9;35;0;0;4;8;2;0;29;32;0;0;10;8;2;0;28;33;0;0;15;8;2;0;174;0;0;0;19;8;2;0;11;35;0;0;26;8;2;0;193;3;0;0;
   30;8;2;0;15;32;0;0;34;8;2;0;58;32;0;0;41;8;2;0;25;32;0;0;47;8;2;0;26;32;0;0;53;8;2;0;97;1;0;0;60;8;2;0;
   197;34;0;0;65;8;2;0;167;0;0;0;70;8;2;0;173;0;0;0;74;8;2;0;195;3;0;0;80;8;2;0;194;3;0;0;87;8;2;0;60;34;0;
   0;91;8;2;0;96;38;0;0;98;8;2;0;130;34;0;0;102;8;2;0;134;34;0;0;107;8;2;0;17;34;0;0;111;8;2;0;131;34;0;0;
   115;8;2;0;185;0;0;0;120;8;2;0;178;0;0;0;125;8;2;0;179;0;0;0;130;8;2;0;135;34;0;0;135;8;2;0;223;0;0;0;141;
   8;2;0;196;3;0;0;145;8;2;0;52;34;0;0;152;8;2;0;184;3;0;0;158;8;2;0;209;3;0;0;167;8;2;0;9;32;0;0;174;8;2;0;
   254;0;0;0;180;8;2;0;220;2;0;0;186;8;2;0;215;0;0;0;192;8;2;0;34;33;0;0;198;8;2;0;209;33;0;0;203;8;2;0;250;
   0;0;0;210;8;2;0;145;33;0;0;215;8;2;0;251;0;0;0;221;8;2;0;249;0;0;0;228;8;2;0;168;0;0;0;232;8;2;0;210;3;0;
   0;238;8;2;0;197;3;0;0;246;8;2;0;252;0;0;0;251;8;2;0;24;33;0;0;2;9;2;0;190;3;0;0;5;9;2;0;253;0;0;0;12;9;2;
   0;165;0;0;0;16;9;2;0;255;0;0;0;21;9;2;0;182;3;0;0;26;9;2;0;13;32;0;0;30;9;2;0;12;32;0;0;0;0;0;0;0;0;0;0;
   0;0;0;0;8;0;0;0;8;0;0;0;0;0;0;0;0;0;0;0;42;0;0;0;13;0;0;0;0;0;0;0;0;0;0;0;0;0;0;0;0;0;0;0;0;0;0;0;0;0;0;
   0;0;0;0;0;0;0;0;0;0;0;0;0;0;0;0;0;0;0;0;0;0;0;0;0;0;0;0;0;0;0;0;0;0;0;0;0;0;0;0;0;0;0;0;0;0;0;0;0;0;0;0;
   0;0;0;0;0;0;0;0;0;0;0;0;0;0;0;0;0;0;0;0;0;0;0;0;0;0;0;0;0;0;0;0;0;0;0;0;0;0;0;0;0;0;0;0;0;0;0;0;0;0;0;0;
   0;0;0;0;0;0;0;0;0;0;0;0;0;0;0;0;0;0;0;0;0;0;0;0;0;0;0;0;0;0;0;0;0;0;0;0;0;0;0;0;0;5;0;0;0;6;0;0;0;1;1;0;
   0;8;0;0;0;16;0;0;0;0;0;0;0;0;0;0;0;43;0;0;0;14;0;0;0;0;0;0;0;0;0;0;0;0;0;0;0;0;0;0;0;0;0;0;0;138;14;2;0;
   7;0;0;0;140;14;2;0;8;0;0;0;145;14;2;0;8;0;0;0;153;14;2;0;9;0;0;0;159;14;2;0;9;0;0;0;168;14;2;0;10;0;0;0;
   171;14;2;0;10;0;0;0;177;14;2;0;11;0;0;0;182;14;2;0;11;0;0;0;190;14;2;0;12;0;0;0;195;14;2;0;12;0;0;0;202;
   14;2;0;13;0;0;0;208;14;2;0;13;0;0;0;220;14;2;0;14;0;0;0;14;0;0;0;82;0;0;0;44;0;0;0;45;0;0;0;20;0;0;0;46;
   0;0;0;83;0;0;0;47;0;0;0;21;0;0;0;48;0;0;0;8;0;0;0;4;0;0;0;255;255;255;255;0;0;0;0;0;0;0;0;15;0;0;0;0;0;0;
   0;0;0;0;0;0;0;0;0;0;0;0;0;0;0;0;0;0;0;0;0;0;0;0;0;0;0;0;0;0;0;0;0;67;16;2;0;85;93;201;127;201;127;255;0;
   78;16;2;0;187;45;212;190;174;212;255;0;89;16;2;0;20;119;253;253;192;134;255;0;100;16;2;0;85;93;201;127;
   201;127;255;0;111;16;2;0;187;45;212;190;174;212;255;0;122;16;2;0;20;119;253;253;192;134;255;0;133;16;2;0;
   42;102;255;255;255;153;255;0;144;16;2;0;85;93;201;127;201;127;255;0;155;16;2;0;187;45;212;190;174;212;
   255;0;166;16;2;0;20;119;253;253;192;134;255;0;177;16;2;0;42;102;255;255;255;153;255;0;188;16;2;0;151;173;
   176;56;108;176;255;0;199;16;2;0;85;93;201;127;201;127;255;0;210;16;2;0;187;45;212;190;174;212;255;0;221;
   16;2;0;20;119;253;253;192;134;255;0;232;16;2;0;42;102;255;255;255;153;255;0;243;16;2;0;151;173;176;56;
   108;176;255;0;254;16;2;0;232;252;240;240;2;127;255;0;9;17;2;0;85;93;201;127;201;127;255;0;20;17;2;0;187;
   45;212;190;174;212;255;0;31;17;2;0;20;119;253;253;192;134;255;0;42;17;2;0;42;102;255;255;255;153;255;0;
   53;17;2;0;151;173;176;56;108;176;255;0;64;17;2;0;232;252;240;240;2;127;255;0;75;17;2;0;17;224;191;191;91;
   23;255;0;86;17;2;0;85;93;201;127;201;127;255;0;97;17;2;0;187;45;212;190;174;212;255;0;108;17;2;0;20;119;
   253;253;192;134;255;0;119;17;2;0;42;102;255;255;255;153;255;0;130;17;2;0;151;173;176;56;108;176;255;0;
   141;17;2;0;232;252;240;240;2;127;255;0;152;17;2;0;17;224;191;191;91;23;255;0;163;17;2;0;0;0;102;102;102;
   102;255;0;174;17;2;0;147;25;247;222;235;247;255;0;184;17;2;0;142;75;225;158;202;225;255;0;194;17;2;0;145;
   188;189;49;130;189;255;0;204;17;2;0;159;16;255;239;243;255;255;0;214;17;2;0;143;46;231;189;215;231;255;0;
   224;17;2;0;143;127;214;107;174;214;255;0;234;17;2;0;147;208;181;33;113;181;255;0;244;17;2;0;159;16;255;
   239;243;255;255;0;254;17;2;0;143;46;231;189;215;231;255;0;8;18;2;0;143;127;214;107;174;214;255;0;18;18;2;
   0;145;188;189;49;130;189;255;0;28;18;2;0;149;241;156;8;81;156;255;0;38;18;2;0;159;16;255;239;243;255;255;
   0;48;18;2;0;148;43;239;198;219;239;255;0;58;18;2;0;142;75;225;158;202;225;255;0;68;18;2;0;143;127;214;
   107;174;214;255;0;78;18;2;0;145;188;189;49;130;189;255;0;88;18;2;0;149;241;156;8;81;156;255;0;98;18;2;0;
   159;16;255;239;243;255;255;0;108;18;2;0;148;43;239;198;219;239;255;0;118;18;2;0;142;75;225;158;202;225;
   255;0;128;18;2;0;143;127;214;107;174;214;255;0;138;18;2;0;144;169;198;66;146;198;255;0;148;18;2;0;147;
   208;181;33;113;181;255;0;158;18;2;0;151;241;148;8;69;148;255;0;168;18;2;0;148;8;255;247;251;255;255;0;
   178;18;2;0;147;25;247;222;235;247;255;0;188;18;2;0;148;43;239;198;219;239;255;0;198;18;2;0;142;75;225;
   158;202;225;255;0;208;18;2;0;143;127;214;107;174;214;255;0;218;18;2;0;144;169;198;66;146;198;255;0;228;
   18;2;0;147;208;181;33;113;181;255;0;238;18;2;0;151;241;148;8;69;148;255;0;248;18;2;0;148;8;255;247;251;
   255;255;0;2;19;2;0;147;25;247;222;235;247;255;0;12;19;2;0;148;43;239;198;219;239;255;0;22;19;2;0;142;75;
   225;158;202;225;255;0;32;19;2;0;143;127;214;107;174;214;255;0;42;19;2;0;144;169;198;66;146;198;255;0;52;
   19;2;0;147;208;181;33;113;181;255;0;62;19;2;0;149;241;156;8;81;156;255;0;72;19;2;0;152;235;107;8;48;107;
   255;0;82;19;2;0;23;239;84;84;48;5;255;0;92;19;2;0;119;255;60;0;60;48;255;0;103;19;2;0;23;236;140;140;81;
   10;255;0;113;19;2;0;24;194;191;191;129;45;255;0;123;19;2;0;29;112;223;223;194;125;255;0;133;19;2;0;30;52;
   246;246;232;195;255;0;143;19;2;0;121;38;234;199;234;229;255;0;153;19;2;0;120;95;205;128;205;193;255;0;
   163;19;2;0;124;165;151;53;151;143;255;0;173;19;2;0;124;252;102;1;102;94;255;0;183;19;2;0;23;239;84;84;48;
   5;255;0;193;19;2;0;124;252;102;1;102;94;255;0;204;19;2;0;119;255;60;0;60;48;255;0;215;19;2;0;23;236;140;
   140;81;10;255;0;225;19;2;0;24;194;191;191;129;45;255;0;235;19;2;0;29;112;223;223;194;125;255;0;245;19;2;
   0;30;52;246;246;232;195;255;0;255;19;2;0;0;0;245;245;245;245;255;0;9;20;2;0;121;38;234;199;234;229;255;0;
   19;20;2;0;120;95;205;128;205;193;255;0;29;20;2;0;124;165;151;53;151;143;255;0;39;20;2;0;28;135;216;216;
   179;101;255;0;48;20;2;0;0;0;245;245;245;245;255;0;57;20;2;0;123;127;180;90;180;172;255;0;66;20;2;0;21;
   215;166;166;97;26;255;0;75;20;2;0;29;112;223;223;194;125;255;0;84;20;2;0;120;95;205;128;205;193;255;0;93;
   20;2;0;121;253;133;1;133;113;255;0;102;20;2;0;21;215;166;166;97;26;255;0;111;20;2;0;29;112;223;223;194;
   125;255;0;120;20;2;0;0;0;245;245;245;245;255;0;129;20;2;0;120;95;205;128;205;193;255;0;138;20;2;0;121;
   253;133;1;133;113;255;0;147;20;2;0;23;236;140;140;81;10;255;0;156;20;2;0;28;135;216;216;179;101;255;0;
   165;20;2;0;30;52;246;246;232;195;255;0;174;20;2;0;121;38;234;199;234;229;255;0;183;20;2;0;123;127;180;90;
   180;172;255;0;192;20;2;0;124;252;102;1;102;94;255;0;201;20;2;0;23;236;140;140;81;10;255;0;210;20;2;0;28;
   135;216;216;179;101;255;0;219;20;2;0;30;52;246;246;232;195;255;0;228;20;2;0;0;0;245;245;245;245;255;0;
   237;20;2;0;121;38;234;199;234;229;255;0;246;20;2;0;123;127;180;90;180;172;255;0;255;20;2;0;124;252;102;1;
   102;94;255;0;8;21;2;0;23;236;140;140;81;10;255;0;17;21;2;0;24;194;191;191;129;45;255;0;26;21;2;0;29;112;
   223;223;194;125;255;0;35;21;2;0;30;52;246;246;232;195;255;0;44;21;2;0;121;38;234;199;234;229;255;0;53;21;
   2;0;120;95;205;128;205;193;255;0;62;21;2;0;124;165;151;53;151;143;255;0;71;21;2;0;124;252;102;1;102;94;
   255;0;80;21;2;0;23;236;140;140;81;10;255;0;89;21;2;0;24;194;191;191;129;45;255;0;98;21;2;0;29;112;223;
   223;194;125;255;0;107;21;2;0;30;52;246;246;232;195;255;0;116;21;2;0;0;0;245;245;245;245;255;0;125;21;2;0;
   121;38;234;199;234;229;255;0;134;21;2;0;120;95;205;128;205;193;255;0;143;21;2;0;124;165;151;53;151;143;
   255;0;152;21;2;0;124;252;102;1;102;94;255;0;161;21;2;0;135;20;249;229;245;249;255;0;170;21;2;0;117;74;
   216;153;216;201;255;0;179;21;2;0;103;185;162;44;162;95;255;0;188;21;2;0;136;14;251;237;248;251;255;0;197;
   21;2;0;127;54;226;178;226;226;255;0;206;21;2;0;113;120;194;102;194;164;255;0;215;21;2;0;98;190;139;35;
   139;69;255;0;224;21;2;0;136;14;251;237;248;251;255;0;233;21;2;0;127;54;226;178;226;226;255;0;242;21;2;0;
   113;120;194;102;194;164;255;0;251;21;2;0;103;185;162;44;162;95;255;0;4;22;2;0;102;255;109;0;109;44;255;0;
   13;22;2;0;136;14;251;237;248;251;255;0;22;22;2;0;119;34;236;204;236;230;255;0;31;22;2;0;117;74;216;153;
   216;201;255;0;40;22;2;0;113;120;194;102;194;164;255;0;49;22;2;0;103;185;162;44;162;95;255;0;58;22;2;0;
   102;255;109;0;109;44;255;0;67;22;2;0;136;14;251;237;248;251;255;0;76;22;2;0;119;34;236;204;236;230;255;0;
   85;22;2;0;117;74;216;153;216;201;255;0;94;22;2;0;113;120;194;102;194;164;255;0;103;22;2;0;105;159;174;65;
   174;118;255;0;112;22;2;0;98;190;139;35;139;69;255;0;121;22;2;0;102;255;88;0;88;36;255;0;130;22;2;0;134;6;
   253;247;252;253;255;0;139;22;2;0;135;20;249;229;245;249;255;0;148;22;2;0;119;34;236;204;236;230;255;0;
   157;22;2;0;117;74;216;153;216;201;255;0;166;22;2;0;113;120;194;102;194;164;255;0;175;22;2;0;105;159;174;
   65;174;118;255;0;184;22;2;0;98;190;139;35;139;69;255;0;193;22;2;0;102;255;88;0;88;36;255;0;202;22;2;0;
   134;6;253;247;252;253;255;0;211;22;2;0;135;20;249;229;245;249;255;0;220;22;2;0;119;34;236;204;236;230;
   255;0;229;22;2;0;117;74;216;153;216;201;255;0;238;22;2;0;113;120;194;102;194;164;255;0;247;22;2;0;105;
   159;174;65;174;118;255;0;0;23;2;0;98;190;139;35;139;69;255;0;9;23;2;0;102;255;109;0;109;44;255;0;18;23;2;
   0;101;255;68;0;68;27;255;0;27;23;2;0;144;20;244;224;236;244;255;0;36;23;2;0;148;70;218;158;188;218;255;0;
   45;23;2;0;196;123;167;136;86;167;255;0;54;23;2;0;136;14;251;237;248;251;255;0;63;23;2;0;146;53;227;179;
   205;227;255;0;72;23;2;0;162;74;198;140;150;198;255;0;81;23;2;0;202;149;157;136;65;157;255;0;90;23;2;0;
   136;14;251;237;248;251;255;0;99;23;2;0;146;53;227;179;205;227;255;0;108;23;2;0;162;74;198;140;150;198;
   255;0;117;23;2;0;196;123;167;136;86;167;255;0;126;23;2;0;214;225;129;129;15;124;255;0;135;23;2;0;136;14;
   251;237;248;251;255;0;144;23;2;0;148;43;230;191;211;230;255;0;153;23;2;0;148;70;218;158;188;218;255;0;
   162;23;2;0;162;74;198;140;150;198;255;0;171;23;2;0;196;123;167;136;86;167;255;0;180;23;2;0;214;225;129;
   129;15;124;255;0;189;23;2;0;136;14;251;237;248;251;255;0;198;23;2;0;148;43;230;191;211;230;255;0;207;23;
   2;0;148;70;218;158;188;218;255;0;216;23;2;0;162;74;198;140;150;198;255;0;225;23;2;0;190;100;177;140;107;
   177;255;0;234;23;2;0;202;149;157;136;65;157;255;0;243;23;2;0;213;252;110;110;1;107;255;0;252;23;2;0;134;
   6;253;247;252;253;255;0;5;24;2;0;144;20;244;224;236;244;255;0;14;24;2;0;148;43;230;191;211;230;255;0;23;
   24;2;0;148;70;218;158;188;218;255;0;32;24;2;0;162;74;198;140;150;198;255;0;41;24;2;0;190;100;177;140;107;
   177;255;0;50;24;2;0;202;149;157;136;65;157;255;0;59;24;2;0;213;252;110;110;1;107;255;0;68;24;2;0;134;6;
   253;247;252;253;255;0;77;24;2;0;144;20;244;224;236;244;255;0;86;24;2;0;148;43;230;191;211;230;255;0;95;
   24;2;0;148;70;218;158;188;218;255;0;104;24;2;0;162;74;198;140;150;198;255;0;113;24;2;0;190;100;177;140;
   107;177;255;0;122;24;2;0;202;149;157;136;65;157;255;0;131;24;2;0;214;225;129;129;15;124;255;0;140;24;2;0;
   213;255;77;77;0;75;255;0;149;24;2;0;114;211;158;27;158;119;255;0;159;24;2;0;18;252;217;217;95;2;255;0;
   169;24;2;0;173;95;179;117;112;179;255;0;179;24;2;0;114;211;158;27;158;119;255;0;189;24;2;0;18;252;217;
   217;95;2;255;0;199;24;2;0;173;95;179;117;112;179;255;0;209;24;2;0;233;209;231;231;41;138;255;0;219;24;2;
   0;114;211;158;27;158;119;255;0;229;24;2;0;18;252;217;217;95;2;255;0;239;24;2;0;173;95;179;117;112;179;
   255;0;249;24;2;0;233;209;231;231;41;138;255;0;3;25;2;0;62;208;166;102;166;30;255;0;13;25;2;0;114;211;158;
   27;158;119;255;0;23;25;2;0;18;252;217;217;95;2;255;0;33;25;2;0;173;95;179;117;112;179;255;0;43;25;2;0;
   233;209;231;231;41;138;255;0;53;25;2;0;62;208;166;102;166;30;255;0;63;25;2;0;31;252;230;230;171;2;255;0;
   73;25;2;0;114;211;158;27;158;119;255;0;83;25;2;0;18;252;217;217;95;2;255;0;93;25;2;0;173;95;179;117;112;
   179;255;0;103;25;2;0;233;209;231;231;41;138;255;0;113;25;2;0;62;208;166;102;166;30;255;0;123;25;2;0;31;
   252;230;230;171;2;255;0;133;25;2;0;27;210;166;166;118;29;255;0;143;25;2;0;114;211;158;27;158;119;255;0;
   153;25;2;0;18;252;217;217;95;2;255;0;163;25;2;0;173;95;179;117;112;179;255;0;173;25;2;0;233;209;231;231;
   41;138;255;0;183;25;2;0;62;208;166;102;166;30;255;0;193;25;2;0;31;252;230;230;171;2;255;0;203;25;2;0;27;
   210;166;166;118;29;255;0;213;25;2;0;0;0;102;102;102;102;255;0;223;25;2;0;76;25;243;224;243;219;255;0;232;
   25;2;0;95;61;221;168;221;181;255;0;241;25;2;0;140;170;202;67;162;202;255;0;250;25;2;0;65;17;249;240;249;
   232;255;0;3;26;2;0;87;46;228;186;228;188;255;0;12;26;2;0;123;101;204;123;204;196;255;0;21;26;2;0;141;197;
   190;43;140;190;255;0;30;26;2;0;65;17;249;240;249;232;255;0;39;26;2;0;87;46;228;186;228;188;255;0;48;26;2;
   0;123;101;204;123;204;196;255;0;57;26;2;0;140;170;202;67;162;202;255;0;66;26;2;0;145;243;172;8;104;172;
   255;0;75;26;2;0;65;17;249;240;249;232;255;0;84;26;2;0;77;41;235;204;235;197;255;0;93;26;2;0;95;61;221;
   168;221;181;255;0;102;26;2;0;123;101;204;123;204;196;255;0;111;26;2;0;140;170;202;67;162;202;255;0;120;
   26;2;0;145;243;172;8;104;172;255;0;129;26;2;0;65;17;249;240;249;232;255;0;138;26;2;0;77;41;235;204;235;
   197;255;0;147;26;2;0;95;61;221;168;221;181;255;0;156;26;2;0;123;101;204;123;204;196;255;0;165;26;2;0;137;
   160;211;78;179;211;255;0;174;26;2;0;141;197;190;43;140;190;255;0;183;26;2;0;147;242;158;8;88;158;255;0;
   192;26;2;0;60;12;252;247;252;240;255;0;201;26;2;0;76;25;243;224;243;219;255;0;210;26;2;0;77;41;235;204;
   235;197;255;0;219;26;2;0;95;61;221;168;221;181;255;0;228;26;2;0;123;101;204;123;204;196;255;0;237;26;2;0;
   137;160;211;78;179;211;255;0;246;26;2;0;141;197;190;43;140;190;255;0;255;26;2;0;147;242;158;8;88;158;255;
   0;8;27;2;0;60;12;252;247;252;240;255;0;17;27;2;0;76;25;243;224;243;219;255;0;26;27;2;0;77;41;235;204;235;
   197;255;0;35;27;2;0;95;61;221;168;221;181;255;0;44;27;2;0;123;101;204;123;204;196;255;0;53;27;2;0;137;
   160;211;78;179;211;255;0;62;27;2;0;141;197;190;43;140;190;255;0;71;27;2;0;145;243;172;8;104;172;255;0;80;
   27;2;0;150;239;129;8;64;129;255;0;89;27;2;0;74;21;245;229;245;224;255;0;100;27;2;0;80;72;217;161;217;155;
   255;0;111;27;2;0;98;178;163;49;163;84;255;0;122;27;2;0;73;15;248;237;248;233;255;0;133;27;2;0;78;54;228;
   186;228;179;255;0;144;27;2;0;86;104;196;116;196;118;255;0;155;27;2;0;98;190;139;35;139;69;255;0;166;27;2;
   0;73;15;248;237;248;233;255;0;177;27;2;0;78;54;228;186;228;179;255;0;188;27;2;0;86;104;196;116;196;118;
   255;0;199;27;2;0;98;178;163;49;163;84;255;0;210;27;2;0;102;255;109;0;109;44;255;0;221;27;2;0;73;15;248;
   237;248;233;255;0;232;27;2;0;77;44;233;199;233;192;255;0;243;27;2;0;80;72;217;161;217;155;255;0;254;27;2;
   0;86;104;196;116;196;118;255;0;9;28;2;0;98;178;163;49;163;84;255;0;20;28;2;0;102;255;109;0;109;44;255;0;
   31;28;2;0;73;15;248;237;248;233;255;0;42;28;2;0;77;44;233;199;233;192;255;0;53;28;2;0;80;72;217;161;217;
   155;255;0;64;28;2;0;86;104;196;116;196;118;255;0;75;28;2;0;96;158;171;65;171;93;255;0;86;28;2;0;98;190;
   139;35;139;69;255;0;97;28;2;0;108;255;90;0;90;50;255;0;108;28;2;0;72;7;252;247;252;245;255;0;119;28;2;0;
   74;21;245;229;245;224;255;0;130;28;2;0;77;44;233;199;233;192;255;0;141;28;2;0;80;72;217;161;217;155;255;
   0;152;28;2;0;86;104;196;116;196;118;255;0;163;28;2;0;96;158;171;65;171;93;255;0;174;28;2;0;98;190;139;35;
   139;69;255;0;185;28;2;0;108;255;90;0;90;50;255;0;196;28;2;0;72;7;252;247;252;245;255;0;207;28;2;0;74;21;
   245;229;245;224;255;0;218;28;2;0;77;44;233;199;233;192;255;0;229;28;2;0;80;72;217;161;217;155;255;0;240;
   28;2;0;86;104;196;116;196;118;255;0;251;28;2;0;96;158;171;65;171;93;255;0;6;29;2;0;98;190;139;35;139;69;
   255;0;17;29;2;0;102;255;109;0;109;44;255;0;28;29;2;0;101;255;68;0;68;27;255;0;39;29;2;0;0;0;240;240;240;
   240;255;0;49;29;2;0;0;0;189;189;189;189;255;0;59;29;2;0;0;0;99;99;99;99;255;0;69;29;2;0;0;0;247;247;247;
   247;255;0;79;29;2;0;0;0;204;204;204;204;255;0;89;29;2;0;0;0;150;150;150;150;255;0;99;29;2;0;0;0;82;82;82;
   82;255;0;109;29;2;0;0;0;247;247;247;247;255;0;119;29;2;0;0;0;204;204;204;204;255;0;129;29;2;0;0;0;150;
   150;150;150;255;0;139;29;2;0;0;0;99;99;99;99;255;0;149;29;2;0;0;0;37;37;37;37;255;0;159;29;2;0;0;0;247;
   247;247;247;255;0;169;29;2;0;0;0;217;217;217;217;255;0;179;29;2;0;0;0;189;189;189;189;255;0;189;29;2;0;0;
   0;150;150;150;150;255;0;199;29;2;0;0;0;99;99;99;99;255;0;209;29;2;0;0;0;37;37;37;37;255;0;219;29;2;0;0;0;
   247;247;247;247;255;0;229;29;2;0;0;0;217;217;217;217;255;0;239;29;2;0;0;0;189;189;189;189;255;0;249;29;2;
   0;0;0;150;150;150;150;255;0;3;30;2;0;0;0;115;115;115;115;255;0;13;30;2;0;0;0;82;82;82;82;255;0;23;30;2;0;
   0;0;37;37;37;37;255;0;33;30;2;0;0;0;255;255;255;255;255;0;43;30;2;0;0;0;240;240;240;240;255;0;53;30;2;0;
   0;0;217;217;217;217;255;0;63;30;2;0;0;0;189;189;189;189;255;0;73;30;2;0;0;0;150;150;150;150;255;0;83;30;
   2].

(** [n.q+64066]: 10240 bytes. *)
Definition segment_64066 : list Z :=
  [115;115;115;115;255;0;93;30;2;0;0;0;82;82;82;82;255;0;103;30;2;0;0;0;37;37;37;37;255;0;113;30;2;0;0;0;
   255;255;255;255;255;0;123;30;2;0;0;0;240;240;240;240;255;0;133;30;2;0;0;0;217;217;217;217;255;0;143;30;2;
   0;0;0;189;189;189;189;255;0;153;30;2;0;0;0;150;150;150;150;255;0;163;30;2;0;0;0;115;115;115;115;255;0;
   173;30;2;0;0;0;82;82;82;82;255;0;183;30;2;0;0;0;37;37;37;37;255;0;193;30;2;0;0;0;0;0;0;0;255;0;203;30;2;
   0;21;48;254;254;230;206;255;0;215;30;2;0;19;147;253;253;174;107;255;0;227;30;2;0;14;240;230;230;85;13;
   255;0;239;30;2;0;19;32;254;254;237;222;255;0;251;30;2;0;20;120;253;253;190;133;255;0;7;31;2;0;17;194;253;
   253;141;60;255;0;19;31;2;0;13;253;217;217;71;1;255;0;31;31;2;0;19;32;254;254;237;222;255;0;43;31;2;0;20;
   120;253;253;190;133;255;0;55;31;2;0;17;194;253;253;141;60;255;0;67;31;2;0;14;240;230;230;85;13;255;0;79;
   31;2;0;13;250;166;166;54;3;255;0;91;31;2;0;19;32;254;254;237;222;255;0;103;31;2;0;21;91;253;253;208;162;
   255;0;115;31;2;0;19;147;253;253;174;107;255;0;127;31;2;0;17;194;253;253;141;60;255;0;139;31;2;0;14;240;
   230;230;85;13;255;0;151;31;2;0;13;250;166;166;54;3;255;0;163;31;2;0;19;32;254;254;237;222;255;0;175;31;2;
   0;21;91;253;253;208;162;255;0;187;31;2;0;19;147;253;253;174;107;255;0;199;31;2;0;17;194;253;253;141;60;
   255;0;211;31;2;0;16;234;241;241;105;19;255;0;223;31;2;0;13;253;217;217;72;1;255;0;235;31;2;0;12;247;140;
   140;45;4;255;0;247;31;2;0;21;20;255;255;245;235;255;0;3;32;2;0;21;48;254;254;230;206;255;0;15;32;2;0;21;
   91;253;253;208;162;255;0;27;32;2;0;19;147;253;253;174;107;255;0;39;32;2;0;17;194;253;253;141;60;255;0;51;
   32;2;0;16;234;241;241;105;19;255;0;63;32;2;0;13;253;217;217;72;1;255;0;75;32;2;0;12;247;140;140;45;4;255;
   0;87;32;2;0;21;20;255;255;245;235;255;0;99;32;2;0;21;48;254;254;230;206;255;0;111;32;2;0;21;91;253;253;
   208;162;255;0;123;32;2;0;19;147;253;253;174;107;255;0;135;32;2;0;17;194;253;253;141;60;255;0;147;32;2;0;
   16;234;241;241;105;19;255;0;159;32;2;0;13;253;217;217;72;1;255;0;171;32;2;0;13;250;166;166;54;3;255;0;
   183;32;2;0;12;246;127;127;39;4;255;0;195;32;2;0;25;54;254;254;232;200;255;0;204;32;2;0;19;121;253;253;
   187;132;255;0;213;32;2;0;5;197;227;227;74;51;255;0;222;32;2;0;26;37;254;254;240;217;255;0;231;32;2;0;24;
   115;253;253;204;138;255;0;240;32;2;0;13;164;252;252;141;89;255;0;249;32;2;0;3;218;215;215;48;31;255;0;2;
   33;2;0;26;37;254;254;240;217;255;0;11;33;2;0;24;115;253;253;204;138;255;0;20;33;2;0;13;164;252;252;141;
   89;255;0;29;33;2;0;5;197;227;227;74;51;255;0;38;33;2;0;0;255;179;179;0;0;255;0;47;33;2;0;26;37;254;254;
   240;217;255;0;56;33;2;0;24;95;253;253;212;158;255;0;65;33;2;0;19;121;253;253;187;132;255;0;74;33;2;0;13;
   164;252;252;141;89;255;0;83;33;2;0;5;197;227;227;74;51;255;0;92;33;2;0;0;255;179;179;0;0;255;0;101;33;2;
   0;26;37;254;254;240;217;255;0;110;33;2;0;24;95;253;253;212;158;255;0;119;33;2;0;19;121;253;253;187;132;
   255;0;128;33;2;0;13;164;252;252;141;89;255;0;137;33;2;0;7;178;239;239;101;72;255;0;146;33;2;0;3;218;215;
   215;48;31;255;0;155;33;2;0;0;255;153;153;0;0;255;0;164;33;2;0;24;18;255;255;247;236;255;0;173;33;2;0;25;
   54;254;254;232;200;255;0;182;33;2;0;24;95;253;253;212;158;255;0;191;33;2;0;19;121;253;253;187;132;255;0;
   200;33;2;0;13;164;252;252;141;89;255;0;209;33;2;0;7;178;239;239;101;72;255;0;218;33;2;0;3;218;215;215;48;
   31;255;0;227;33;2;0;0;255;153;153;0;0;255;0;236;33;2;0;24;18;255;255;247;236;255;0;245;33;2;0;25;54;254;
   254;232;200;255;0;254;33;2;0;24;95;253;253;212;158;255;0;7;34;2;0;19;121;253;253;187;132;255;0;16;34;2;0;
   13;164;252;252;141;89;255;0;25;34;2;0;7;178;239;239;101;72;255;0;34;34;2;0;3;218;215;215;48;31;255;0;43;
   34;2;0;0;255;179;179;0;0;255;0;52;34;2;0;0;255;127;127;0;0;255;0;61;34;2;0;142;68;227;166;206;227;255;0;
   73;34;2;0;190;153;154;106;61;154;255;0;86;34;2;0;144;211;180;31;120;180;255;0;98;34;2;0;65;97;223;178;
   223;138;255;0;110;34;2;0;82;184;160;51;160;44;255;0;122;34;2;0;0;99;251;251;154;153;255;0;134;34;2;0;254;
   225;227;227;26;28;255;0;146;34;2;0;23;143;253;253;191;111;255;0;158;34;2;0;21;255;255;255;127;0;255;0;
   170;34;2;0;198;42;214;202;178;214;255;0;182;34;2;0;142;68;227;166;206;227;255;0;194;34;2;0;190;153;154;
   106;61;154;255;0;207;34;2;0;42;102;255;255;255;153;255;0;220;34;2;0;144;211;180;31;120;180;255;0;232;34;
   2;0;65;97;223;178;223;138;255;0;244;34;2;0;82;184;160;51;160;44;255;0;0;35;2;0;0;99;251;251;154;153;255;
   0;12;35;2;0;254;225;227;227;26;28;255;0;24;35;2;0;23;143;253;253;191;111;255;0;36;35;2;0;21;255;255;255;
   127;0;255;0;48;35;2;0;198;42;214;202;178;214;255;0;60;35;2;0;142;68;227;166;206;227;255;0;72;35;2;0;190;
   153;154;106;61;154;255;0;85;35;2;0;42;102;255;255;255;153;255;0;98;35;2;0;15;197;177;177;89;40;255;0;111;
   35;2;0;144;211;180;31;120;180;255;0;123;35;2;0;65;97;223;178;223;138;255;0;135;35;2;0;82;184;160;51;160;
   44;255;0;147;35;2;0;0;99;251;251;154;153;255;0;159;35;2;0;254;225;227;227;26;28;255;0;171;35;2;0;23;143;
   253;253;191;111;255;0;183;35;2;0;21;255;255;255;127;0;255;0;195;35;2;0;198;42;214;202;178;214;255;0;207;
   35;2;0;142;68;227;166;206;227;255;0;218;35;2;0;144;211;180;31;120;180;255;0;229;35;2;0;65;97;223;178;223;
   138;255;0;240;35;2;0;142;68;227;166;206;227;255;0;251;35;2;0;144;211;180;31;120;180;255;0;6;36;2;0;65;97;
   223;178;223;138;255;0;17;36;2;0;82;184;160;51;160;44;255;0;28;36;2;0;142;68;227;166;206;227;255;0;39;36;
   2;0;144;211;180;31;120;180;255;0;50;36;2;0;65;97;223;178;223;138;255;0;61;36;2;0;82;184;160;51;160;44;
   255;0;72;36;2;0;0;99;251;251;154;153;255;0;83;36;2;0;142;68;227;166;206;227;255;0;94;36;2;0;144;211;180;
   31;120;180;255;0;105;36;2;0;65;97;223;178;223;138;255;0;116;36;2;0;82;184;160;51;160;44;255;0;127;36;2;0;
   0;99;251;251;154;153;255;0;138;36;2;0;254;225;227;227;26;28;255;0;149;36;2;0;142;68;227;166;206;227;255;
   0;160;36;2;0;144;211;180;31;120;180;255;0;171;36;2;0;65;97;223;178;223;138;255;0;182;36;2;0;82;184;160;
   51;160;44;255;0;193;36;2;0;0;99;251;251;154;153;255;0;204;36;2;0;254;225;227;227;26;28;255;0;215;36;2;0;
   23;143;253;253;191;111;255;0;226;36;2;0;142;68;227;166;206;227;255;0;237;36;2;0;144;211;180;31;120;180;
   255;0;248;36;2;0;65;97;223;178;223;138;255;0;3;37;2;0;82;184;160;51;160;44;255;0;14;37;2;0;0;99;251;251;
   154;153;255;0;25;37;2;0;254;225;227;227;26;28;255;0;36;37;2;0;23;143;253;253;191;111;255;0;47;37;2;0;21;
   255;255;255;127;0;255;0;58;37;2;0;142;68;227;166;206;227;255;0;69;37;2;0;144;211;180;31;120;180;255;0;80;
   37;2;0;65;97;223;178;223;138;255;0;91;37;2;0;82;184;160;51;160;44;255;0;102;37;2;0;0;99;251;251;154;153;
   255;0;113;37;2;0;254;225;227;227;26;28;255;0;124;37;2;0;23;143;253;253;191;111;255;0;135;37;2;0;21;255;
   255;255;127;0;255;0;146;37;2;0;198;42;214;202;178;214;255;0;157;37;2;0;3;78;251;251;180;174;255;0;169;37;
   2;0;146;53;227;179;205;227;255;0;181;37;2;0;77;41;235;204;235;197;255;0;193;37;2;0;3;78;251;251;180;174;
   255;0;205;37;2;0;146;53;227;179;205;227;255;0;217;37;2;0;77;41;235;204;235;197;255;0;229;37;2;0;202;27;
   228;222;203;228;255;0;241;37;2;0;3;78;251;251;180;174;255;0;253;37;2;0;146;53;227;179;205;227;255;0;9;38;
   2;0;77;41;235;204;235;197;255;0;21;38;2;0;202;27;228;222;203;228;255;0;33;38;2;0;24;88;254;254;217;166;
   255;0;45;38;2;0;3;78;251;251;180;174;255;0;57;38;2;0;146;53;227;179;205;227;255;0;69;38;2;0;77;41;235;
   204;235;197;255;0;81;38;2;0;202;27;228;222;203;228;255;0;93;38;2;0;24;88;254;254;217;166;255;0;105;38;2;
   0;42;50;255;255;255;204;255;0;117;38;2;0;3;78;251;251;180;174;255;0;129;38;2;0;146;53;227;179;205;227;
   255;0;141;38;2;0;77;41;235;204;235;197;255;0;153;38;2;0;202;27;228;222;203;228;255;0;165;38;2;0;24;88;
   254;254;217;166;255;0;177;38;2;0;42;50;255;255;255;204;255;0;189;38;2;0;28;44;229;229;216;189;255;0;201;
   38;2;0;3;78;251;251;180;174;255;0;213;38;2;0;146;53;227;179;205;227;255;0;225;38;2;0;77;41;235;204;235;
   197;255;0;237;38;2;0;202;27;228;222;203;228;255;0;249;38;2;0;24;88;254;254;217;166;255;0;5;39;2;0;42;50;
   255;255;255;204;255;0;17;39;2;0;28;44;229;229;216;189;255;0;29;39;2;0;233;35;253;253;218;236;255;0;41;39;
   2;0;3;78;251;251;180;174;255;0;53;39;2;0;146;53;227;179;205;227;255;0;65;39;2;0;77;41;235;204;235;197;
   255;0;77;39;2;0;202;27;228;222;203;228;255;0;89;39;2;0;24;88;254;254;217;166;255;0;101;39;2;0;42;50;255;
   255;255;204;255;0;113;39;2;0;28;44;229;229;216;189;255;0;125;39;2;0;233;35;253;253;218;236;255;0;137;39;
   2;0;0;0;242;242;242;242;255;0;149;39;2;0;108;53;226;179;226;205;255;0;161;39;2;0;17;81;253;253;205;172;
   255;0;173;39;2;0;155;31;232;203;213;232;255;0;185;39;2;0;108;53;226;179;226;205;255;0;197;39;2;0;17;81;
   253;253;205;172;255;0;209;39;2;0;155;31;232;203;213;232;255;0;221;39;2;0;228;43;244;244;202;228;255;0;
   233;39;2;0;108;53;226;179;226;205;255;0;245;39;2;0;17;81;253;253;205;172;255;0;1;40;2;0;155;31;232;203;
   213;232;255;0;13;40;2;0;228;43;244;244;202;228;255;0;25;40;2;0;56;45;245;230;245;201;255;0;37;40;2;0;108;
   53;226;179;226;205;255;0;49;40;2;0;17;81;253;253;205;172;255;0;61;40;2;0;155;31;232;203;213;232;255;0;73;
   40;2;0;228;43;244;244;202;228;255;0;85;40;2;0;56;45;245;230;245;201;255;0;97;40;2;0;35;81;255;255;242;
   174;255;0;109;40;2;0;108;53;226;179;226;205;255;0;121;40;2;0;17;81;253;253;205;172;255;0;133;40;2;0;155;
   31;232;203;213;232;255;0;145;40;2;0;228;43;244;244;202;228;255;0;157;40;2;0;56;45;245;230;245;201;255;0;
   169;40;2;0;35;81;255;255;242;174;255;0;181;40;2;0;25;39;241;241;226;204;255;0;193;40;2;0;108;53;226;179;
   226;205;255;0;205;40;2;0;17;81;253;253;205;172;255;0;217;40;2;0;155;31;232;203;213;232;255;0;229;40;2;0;
   228;43;244;244;202;228;255;0;241;40;2;0;56;45;245;230;245;201;255;0;253;40;2;0;35;81;255;255;242;174;255;
   0;9;41;2;0;25;39;241;241;226;204;255;0;21;41;2;0;0;0;204;204;204;204;255;0;33;41;2;0;230;253;142;142;1;
   82;255;0;43;41;2;0;77;191;100;39;100;25;255;0;54;41;2;0;230;220;197;197;27;125;255;0;64;41;2;0;232;118;
   222;222;119;174;255;0;74;41;2;0;229;62;241;241;182;218;255;0;84;41;2;0;233;29;253;253;224;239;255;0;94;
   41;2;0;59;38;245;230;245;208;255;0;104;41;2;0;61;103;225;184;225;134;255;0;114;41;2;0;63;166;188;127;188;
   65;255;0;124;41;2;0;68;197;146;77;146;33;255;0;134;41;2;0;230;253;142;142;1;82;255;0;144;41;2;0;68;197;
   146;77;146;33;255;0;155;41;2;0;77;191;100;39;100;25;255;0;166;41;2;0;230;220;197;197;27;125;255;0;176;41;
   2;0;232;118;222;222;119;174;255;0;186;41;2;0;229;62;241;241;182;218;255;0;196;41;2;0;233;29;253;253;224;
   239;255;0;206;41;2;0;0;0;247;247;247;247;255;0;216;41;2;0;59;38;245;230;245;208;255;0;226;41;2;0;61;103;
   225;184;225;134;255;0;236;41;2;0;63;166;188;127;188;65;255;0;246;41;2;0;231;76;233;233;163;201;255;0;255;
   41;2;0;0;0;247;247;247;247;255;0;8;42;2;0;63;129;215;161;215;106;255;0;17;42;2;0;228;220;208;208;28;139;
   255;0;26;42;2;0;229;62;241;241;182;218;255;0;35;42;2;0;61;103;225;184;225;134;255;0;44;42;2;0;72;198;172;
   77;172;38;255;0;53;42;2;0;228;220;208;208;28;139;255;0;62;42;2;0;229;62;241;241;182;218;255;0;71;42;2;0;
   0;0;247;247;247;247;255;0;80;42;2;0;61;103;225;184;225;134;255;0;89;42;2;0;72;198;172;77;172;38;255;0;98;
   42;2;0;230;220;197;197;27;125;255;0;107;42;2;0;231;76;233;233;163;201;255;0;116;42;2;0;233;29;253;253;
   224;239;255;0;125;42;2;0;59;38;245;230;245;208;255;0;134;42;2;0;63;129;215;161;215;106;255;0;143;42;2;0;
   68;197;146;77;146;33;255;0;152;42;2;0;230;220;197;197;27;125;255;0;161;42;2;0;231;76;233;233;163;201;255;
   0;170;42;2;0;233;29;253;253;224;239;255;0;179;42;2;0;0;0;247;247;247;247;255;0;188;42;2;0;59;38;245;230;
   245;208;255;0;197;42;2;0;63;129;215;161;215;106;255;0;206;42;2;0;68;197;146;77;146;33;255;0;215;42;2;0;
   230;220;197;197;27;125;255;0;224;42;2;0;232;118;222;222;119;174;255;0;233;42;2;0;229;62;241;241;182;218;
   255;0;242;42;2;0;233;29;253;253;224;239;255;0;251;42;2;0;59;38;245;230;245;208;255;0;4;43;2;0;61;103;225;
   184;225;134;255;0;13;43;2;0;63;166;188;127;188;65;255;0;22;43;2;0;68;197;146;77;146;33;255;0;31;43;2;0;
   230;220;197;197;27;125;255;0;40;43;2;0;232;118;222;222;119;174;255;0;49;43;2;0;229;62;241;241;182;218;
   255;0;58;43;2;0;233;29;253;253;224;239;255;0;67;43;2;0;0;0;247;247;247;247;255;0;76;43;2;0;59;38;245;230;
   245;208;255;0;85;43;2;0;61;103;225;184;225;134;255;0;94;43;2;0;63;166;188;127;188;65;255;0;103;43;2;0;68;
   197;146;77;146;33;255;0;112;43;2;0;206;255;75;64;0;75;255;0;122;43;2;0;101;255;68;0;68;27;255;0;133;43;2;
   0;206;173;131;118;42;131;255;0;143;43;2;0;199;87;171;153;112;171;255;0;153;43;2;0;199;51;207;194;165;207;
   255;0;163;43;2;0;210;21;232;231;212;232;255;0;173;43;2;0;76;30;240;217;240;211;255;0;183;43;2;0;80;68;
   219;166;219;160;255;0;193;43;2;0;88;123;174;90;174;97;255;0;203;43;2;0;97;197;120;27;120;55;255;0;213;43;
   2;0;206;255;75;64;0;75;255;0;223;43;2;0;97;197;120;27;120;55;255;0;234;43;2;0;101;255;68;0;68;27;255;0;
   245;43;2;0;206;173;131;118;42;131;255;0;255;43;2;0;199;87;171;153;112;171;255;0;9;44;2;0;199;51;207;194;
   165;207;255;0;19;44;2;0;210;21;232;231;212;232;255;0;29;44;2;0;0;0;247;247;247;247;255;0;39;44;2;0;76;30;
   240;217;240;211;255;0;49;44;2;0;80;68;219;166;219;160;255;0;59;44;2;0;88;123;174;90;174;97;255;0;69;44;2;
   0;196;70;195;175;141;195;255;0;78;44;2;0;0;0;247;247;247;247;255;0;87;44;2;0;82;90;191;127;191;123;255;0;
   96;44;2;0;201;168;148;123;50;148;255;0;105;44;2;0;199;51;207;194;165;207;255;0;114;44;2;0;80;68;219;166;
   219;160;255;0;123;44;2;0;102;255;136;0;136;55;255;0;132;44;2;0;201;168;148;123;50;148;255;0;141;44;2;0;
   199;51;207;194;165;207;255;0;150;44;2;0;0;0;247;247;247;247;255;0;159;44;2;0;80;68;219;166;219;160;255;0;
   168;44;2;0;102;255;136;0;136;55;255;0;177;44;2;0;206;173;131;118;42;131;255;0;186;44;2;0;196;70;195;175;
   141;195;255;0;195;44;2;0;210;21;232;231;212;232;255;0;204;44;2;0;76;30;240;217;240;211;255;0;213;44;2;0;
   82;90;191;127;191;123;255;0;222;44;2;0;97;197;120;27;120;55;255;0;231;44;2;0;206;173;131;118;42;131;255;
   0;240;44;2;0;196;70;195;175;141;195;255;0;249;44;2;0;210;21;232;231;212;232;255;0;2;45;2;0;0;0;247;247;
   247;247;255;0;11;45;2;0;76;30;240;217;240;211;255;0;20;45;2;0;82;90;191;127;191;123;255;0;29;45;2;0;97;
   197;120;27;120;55;255;0;38;45;2;0;206;173;131;118;42;131;255;0;47;45;2;0;199;87;171;153;112;171;255;0;56;
   45;2;0;199;51;207;194;165;207;255;0;65;45;2;0;210;21;232;231;212;232;255;0;74;45;2;0;76;30;240;217;240;
   211;255;0;83;45;2;0;80;68;219;166;219;160;255;0;92;45;2;0;88;123;174;90;174;97;255;0;101;45;2;0;97;197;
   120;27;120;55;255;0;110;45;2;0;206;173;131;118;42;131;255;0;119;45;2;0;199;87;171;153;112;171;255;0;128;
   45;2;0;199;51;207;194;165;207;255;0;137;45;2;0;210;21;232;231;212;232;255;0;146;45;2;0;0;0;247;247;247;
   247;255;0;155;45;2;0;76;30;240;217;240;211;255;0;164;45;2;0;80;68;219;166;219;160;255;0;173;45;2;0;88;
   123;174;90;174;97;255;0;182;45;2;0;97;197;120;27;120;55;255;0;191;45;2;0;189;11;242;236;231;242;255;0;
   200;45;2;0;151;61;219;166;189;219;255;0;209;45;2;0;141;197;190;43;140;190;255;0;218;45;2;0;185;8;246;241;
   238;246;255;0;227;45;2;0;155;40;225;189;201;225;255;0;236;45;2;0;145;112;207;116;169;207;255;0;245;45;2;
   0;143;247;176;5;112;176;255;0;254;45;2;0;185;8;246;241;238;246;255;0;7;46;2;0;155;40;225;189;201;225;255;
   0;16;46;2;0;145;112;207;116;169;207;255;0;25;46;2;0;141;197;190;43;140;190;255;0;34;46;2;0;143;247;141;4;
   90;141;255;0;43;46;2;0;185;8;246;241;238;246;255;0;52;46;2;0;168;24;230;208;209;230;255;0;61;46;2;0;151;
   61;219;166;189;219;255;0;70;46;2;0;145;112;207;116;169;207;255;0;79;46;2;0;141;197;190;43;140;190;255;0;
   88;46;2;0;143;247;141;4;90;141;255;0;97;46;2;0;185;8;246;241;238;246;255;0;106;46;2;0;168;24;230;208;209;
   230;255;0;115;46;2;0;151;61;219;166;189;219;255;0;124;46;2;0;145;112;207;116;169;207;255;0;133;46;2;0;
   142;183;192;54;144;192;255;0;142;46;2;0;143;247;176;5;112;176;255;0;151;46;2;0;143;248;123;3;78;123;255;
   0;160;46;2;0;233;8;255;255;247;251;255;0;169;46;2;0;189;11;242;236;231;242;255;0;178;46;2;0;168;24;230;
   208;209;230;255;0;187;46;2;0;151;61;219;166;189;219;255;0;196;46;2;0;145;112;207;116;169;207;255;0;205;
   46;2;0;142;183;192;54;144;192;255;0;214;46;2;0;143;247;176;5;112;176;255;0;223;46;2;0;143;248;123;3;78;
   123;255;0;232;46;2;0;233;8;255;255;247;251;255;0;241;46;2;0;189;11;242;236;231;242;255;0;250;46;2;0;168;
   24;230;208;209;230;255;0;3;47;2;0;151;61;219;166;189;219;255;0;12;47;2;0;145;112;207;116;169;207;255;0;
   21;47;2;0;142;183;192;54;144;192;255;0;30;47;2;0;143;247;176;5;112;176;255;0;39;47;2;0;143;247;141;4;90;
   141;255;0;48;47;2;0;143;249;88;2;56;88;255;0;57;47;2;0;200;14;240;236;226;240;255;0;68;47;2;0;151;61;219;
   166;189;219;255;0;79;47;2;0;130;208;153;28;144;153;255;0;90;47;2;0;207;8;247;246;239;247;255;0;101;47;2;
   0;155;40;225;189;201;225;255;0;112;47;2;0;143;128;207;103;169;207;255;0;123;47;2;0;130;251;138;2;129;138;
   255;0;134;47;2;0;207;8;247;246;239;247;255;0;145;47;2;0;155;40;225;189;201;225;255;0;156;47;2;0;143;128;
   207;103;169;207;255;0;167;47;2;0;130;208;153;28;144;153;255;0;178;47;2;0;119;252;108;1;108;89;255;0;189;
   47;2;0;207;8;247;246;239;247;255;0;200;47;2;0;168;24;230;208;209;230;255;0;211;47;2;0;151;61;219;166;189;
   219;255;0;222;47;2;0;143;128;207;103;169;207;255;0;233;47;2;0;130;208;153;28;144;153;255;0;244;47;2;0;
   119;252;108;1;108;89;255;0;255;47;2;0;207;8;247;246;239;247;255;0;10;48;2;0;168;24;230;208;209;230;255;0;
   21;48;2;0;151;61;219;166;189;219;255;0;32;48;2;0;143;128;207;103;169;207;255;0;43;48;2;0;142;183;192;54;
   144;192;255;0;54;48;2;0;130;251;138;2;129;138;255;0;65;48;2;0;118;252;100;1;100;80;255;0;76;48;2;0;233;8;
   255;255;247;251;255;0;87;48;2;0;200;14;240;236;226;240;255;0;98;48;2;0;168;24;230;208;209;230;255;0;109;
   48;2;0;151;61;219;166;189;219;255;0;120;48;2;0;143;128;207;103;169;207;255;0;131;48;2;0;142;183;192;54;
   144;192;255;0;142;48;2;0;130;251;138;2;129;138;255;0;153;48;2;0;118;252;100;1;100;80;255;0;164;48;2;0;
   233;8;255;255;247;251;255;0;175;48;2;0;200;14;240;236;226;240;255;0;186;48;2;0;168;24;230;208;209;230;
   255;0;197;48;2;0;151;61;219;166;189;219;255;0;208;48;2;0;143;128;207;103;169;207;255;0;219;48;2;0;142;
   183;192;54;144;192;255;0;230;48;2;0;130;251;138;2;129;138;255;0;241;48;2;0;119;252;108;1;108;89;255;0;
   252;48;2;0;117;251;70;1;70;54;255;0;7;49;2;0;18;238;127;127;59;8;255;0;17;49;2;0;195;255;75;45;0;75;255;
   0;28;49;2;0;20;246;179;179;88;6;255;0;38;49;2;0;22;232;224;224;130;20;255;0;48;49;2;0;23;155;253;253;184;
   99;255;0;58;49;2;0;24;72;254;254;224;182;255;0;68;49;2;0;165;20;235;216;218;235;255;0;78;49;2;0;177;47;
   210;178;171;210;255;0;88;49;2;0;179;84;172;128;115;172;255;0;98;49;2;0;189;181;136;84;39;136;255;0;108;
   49;2;0;18;238;127;127;59;8;255;0;118;49;2;0;189;181;136;84;39;136;255;0;129;49;2;0;195;255;75;45;0;75;
   255;0;140;49;2;0;20;246;179;179;88;6;255;0;150;49;2;0;22;232;224;224;130;20;255;0;160;49;2;0;23;155;253;
   253;184;99;255;0;170;49;2;0;24;72;254;254;224;182;255;0;180;49;2;0;0;0;247;247;247;247;255;0;190;49;2;0;
   165;20;235;216;218;235;255;0;200;49;2;0;177;47;210;178;171;210;255;0;210;49;2;0;179;84;172;128;115;172;
   255;0;220;49;2;0;23;187;241;241;163;64;255;0;229;49;2;0;0;0;247;247;247;247;255;0;238;49;2;0;178;69;195;
   153;142;195;255;0;247;49;2;0;17;253;230;230;97;1;255;0;0;50;2;0;23;155;253;253;184;99;255;0;9;50;2;0;177;
   47;210;178;171;210;255;0;18;50;2;0;185;155;153;94;60;153;255;0;27;50;2;0;17;253;230;230;97;1;255;0;36;50;
   2;0;23;155;253;253;184;99;255;0;45;50;2;0;0;0;247;247;247;247;255;0;54;50;2;0;177;47;210;178;171;210;255;
   0;63;50;2;0;185;155;153;94;60;153;255;0;72;50;2;0;20;246;179;179;88;6;255;0;81;50;2;0;23;187;241;241;163;
   64;255;0;90;50;2;0;24;72;254;254;224;182;255;0;99;50;2;0;165;20;235;216;218;235;255;0;108;50;2;0;178;69;
   195;153;142;195;255;0;117;50;2;0;189;181;136;84;39;136;255;0;126;50;2;0;20;246;179;179;88;6;255;0;135;50;
   2;0;23;187;241;241;163;64;255;0;144;50;2;0;24;72;254;254;224;182;255;0;153;50;2;0;0;0;247;247;247;247;
   255;0;162;50;2;0;165;20;235;216;218;235;255;0;171;50;2;0;178;69;195;153;142;195;255;0;180;50;2;0;189;181;
   136;84;39;136;255;0;189;50;2;0;20;246;179;179;88;6;255;0;198;50;2;0;22;232;224;224;130;20;255;0;207;50;2;
   0;23;155;253;253;184;99;255;0;216;50;2;0;24;72;254;254;224;182;255;0;225;50;2;0;165;20;235;216;218;235;
   255;0;234;50;2;0;177;47;210;178;171;210;255;0;243;50;2;0;179;84;172;128;115;172;255;0;252;50;2;0;189;181;
   136;84;39;136;255;0;5;51;2;0;20;246;179;179;88;6;255;0;14;51;2;0;22;232;224;224;130;20;255;0;23;51;2;0;
   23;155;253;253;184;99;255;0;32;51;2;0;24;72;254;254;224;182;255;0;41;51;2;0;0;0;247;247;247;247;255;0;50;
   51;2;0;165;20;235;216;218;235;255;0;59;51;2;0;177;47;210;178;171;210;255;0;68;51;2;0;179;84;172;128;115;
   172;255;0;77;51;2;0;189;181;136;84;39;136;255;0;86;51;2;0;188;14;239;231;225;239;255;0;95;51;2;0;214;67;
   201;201;148;199;255;0;104;51;2;0;234;222;221;221;28;119;255;0;113;51;2;0;185;8;246;241;238;246;255;0;122;
   51;2;0;211;41;216;215;181;216;255;0;131;51;2;0;228;139;223;223;101;176;255;0;140;51;2;0;239;232;206;206;
   18;86;255;0;149;51;2;0;185;8;246;241;238;246;255;0;158;51;2;0;211;41;216;215;181;216;255;0;167;51;2;0;
   228;139;223;223;101;176;255;0;176;51;2;0;234;222;221;221;28;119;255;0;185;51;2;0;236;255;152;152;0;67;
   255;0;194;51;2;0;185;8;246;241;238;246;255;0;203;51;2;0;204;38;218;212;185;218;255;0;212;51;2;0;214;67;
   201;201;148;199;255;0;221;51;2;0;228;139;223;223;101;176;255;0;230;51;2;0;234;222;221;221;28;119;255;0;
   239;51;2;0;236;255;152;152;0;67;255;0;248;51;2;0;185;8;246;241;238;246;255;0;1;52;2;0;204;38;218;212;185;
   218;255;0;10;52;2;0;214;67;201;201;148;199;255;0;19;52;2;0;228;139;223;223;101;176;255;0;28;52;2;0;233;
   209;231;231;41;138;255;0;37;52;2;0;239;232;206;206;18;86;255;0;46;52;2;0;236;255;145;145;0;63;255;0;55;
   52;2;0;195;5;249;247;244;249;255;0;64;52;2;0;188;14;239;231;225;239;255;0;73;52;2;0;204;38;218;212;185;
   218;255;0;82;52;2;0;214;67;201;201;148;199;255;0;91;52;2;0;228;139;223;223;101;176;255;0;100;52;2;0;233;
   209;231;231;41;138;255;0;109;52;2;0;239;232;206;206;18;86;255;0;118;52;2;0;236;255;145;145;0;63;255;0;
   127;52;2;0;195;5;249;247;244;249;255;0;136;52;2;0;188;14;239;231;225;239;255;0;145;52;2;0;204;38;218;212;
   185;218;255;0;154;52;2;0;214;67;201;201;148;199;255;0;163;52;2;0;228;139;223;223;101;176;255;0;172;52;2;
   0;233;209;231;231;41;138;255;0;181;52;2;0;239;232;206;206;18;86;255;0;190;52;2;0;236;255;152;152;0;67;
   255;0;199;52;2;0;242;255;103;103;0;31;255;0;208;52;2;0;180;8;245;239;237;245;255;0;220;52;2;0;168;37;220;
   188;189;220;255;0;232;52;2;0;176;100;177;117;107;177;255;0;244;52;2;0;182;7;247;242;240;247;255;0;0;53;2;
   0;173;28;226;203;201;226;255;0;12;53;2;0;173;58;200;158;154;200;255;0;24;53;2;0;182;128;163;106;81;163;
   255;0;36;53;2;0;182;7;247;242;240;247;255;0;48;53;2;0;173;28;226;203;201;226;255;0;60;53;2;0;173;58;200;
   158;154;200;255;0;72;53;2;0;176;100;177;117;107;177;255;0;84;53;2;0;188;185;143;84;39;143;255;0;96;53;2;
   0;182;7;247;242;240;247;255;0;108;53;2;0;170;18;235;218;218;235;255;0;120;53;2;0;168;37;220;188;189;220;
   255;0;132;53;2;0;173;58;200;158;154;200;255;0;144;53;2;0;176;100;177;117;107;177;255;0;156;53;2;0;188;
   185;143;84;39;143;255;0;168;53;2;0;182;7;247;242;240;247;255;0;180;53;2;0;170;18;235;218;218;235;255;0;
   192;53;2;0;168;37;220;188;189;220;255;0;204;53;2;0;173;58;200;158;154;200;255;0;216;53;2;0;172;83;186;
   128;125;186;255;0;228;53;2;0;182;128;163;106;81;163;255;0;240;53;2;0;190;216;134;74;20;134;255;0;252;53;
   2;0;191;2;253;252;251;253;255;0;8;54;2;0;180;8;245;239;237;245;255;0;20;54;2;0;170;18;235;218;218;235;
   255;0;32;54;2;0;168;37;220;188;189;220;255;0;44;54;2;0;173;58;200;158;154;200;255;0;56;54;2;0;172;83;186;
   128;125;186;255;0;68;54;2;0;182;128;163;106;81;163;255;0;80;54;2;0;190;216;134;74;20;134;255;0;92;54;2;0;
   191;2;253;252;251;253;255;0;104;54;2;0;180;8;245;239;237;245;255;0;116;54;2;0;170;18;235;218;218;235;255;
   0;128;54;2;0;168;37;220;188;189;220;255;0;140;54;2;0;173;58;200;158;154;200;255;0;152;54;2;0;172;83;186;
   128;125;186;255;0;164;54;2;0;182;128;163;106;81;163;255;0;176;54;2;0;188;185;143;84;39;143;255;0;188;54;
   2;0;191;255;125;63;0;125;255;0;200;54;2;0;242;255;103;103;0;31;255;0;210;54;2;0;150;241;97;5;48;97;255;0;
   221;54;2;0;249;220;178;178;24;43;255;0;231;54;2;0;5;163;214;214;96;77;255;0;241;54;2;0;13;119;244;244;
   165;130;255;0;251;54;2;0;15;54;253;253;219;199;255;0;5;55;2;0;142;32;240;209;229;240;255;0;15;55;2;0;141;
   87;222;146;197;222;255;0;25;55;2;0;143;167;195;67;147;195;255;0;35;55;2;0;148;206;172;33;102;172;255;0;
   45;55;2;0;242;255;103;103;0;31;255;0;55;55;2;0;148;206;172;33;102;172;255;0;66;55;2;0;150;241;97;5;48;97;
   255;0;77;55;2;0;249;220;178;178;24;43;255;0;87;55;2;0;5;163;214;214;96;77;255;0;97;55;2;0;13;119;244;244;
   165;130;255;0;107;55;2;0;15;54;253;253;219;199;255;0;117;55;2;0;0;0;247;247;247;247;255;0;127;55;2;0;142;
   32;240;209;229;240;255;0;137;55;2;0;141;87;222;146;197;222;255;0;147;55;2;0;143;167;195;67;147;195;255;0;
   157;55;2;0;12;150;239;239;138;98;255;0;166;55;2;0;0;0;247;247;247;247;255;0;175;55;2;0;143;128;207;103;
   169;207;255;0;184;55;2;0;248;255;202;202;0;32;255;0;193;55;2;0;13;119;244;244;165;130;255;0;202;55;2;0;
   141;87;222;146;197;222;255;0;211;55;2;0;143;247;176;5;113;176;255;0;220;55;2;0;248;255;202;202;0;32;255;
   0;229;55;2;0;13;119;244;244;165;130;255;0;238;55;2;0;0;0;247;247;247;247;255;0;247;55;2;0;141;87;222;146;
   197;222;255;0;0;56;2;0;143;247;176;5;113;176;255;0;9;56;2;0;249;220;178;178;24;43;255;0;18;56;2;0;12;150;
   239;239;138;98;255;0;27;56;2;0;15;54;253;253;219;199;255;0;36;56;2;0;142;32;240;209;229;240;255;0;45;56;
   2;0;143;128;207;103;169;207;255;0;54;56;2;0;148;206;172;33;102;172;255;0;63;56;2;0;249;220;178;178;24;43;
   255;0;72;56;2;0;12;150;239;239;138;98;255;0;81;56;2;0;15;54;253;253;219;199;255;0;90;56;2;0;0;0;247;247;
   247;247;255;0;99;56;2;0;142;32;240;209;229;240;255;0;108;56;2;0;143;128;207;103;169;207;255;0;117;56;2;0;
   148;206;172;33;102;172;255;0;126;56;2;0;249;220;178;178;24;43;255;0;135;56;2;0;5;163;214;214;96;77;255;0;
   144;56;2;0;13;119;244;244;165;130;255;0;153;56;2;0;15;54;253;253;219;199;255;0;162;56;2;0;142;32;240;209;
   229;240;255;0;171;56;2;0;141;87;222;146;197;222;255;0;180;56;2;0;143;167;195;67;147;195;255;0;189;56;2;0;
   148;206;172;33;102;172;255;0;198;56;2;0;249;220;178;178;24;43;255;0;207;56;2;0;5;163;214;214;96;77;255;0;
   216;56;2;0;13;119;244;244;165;130;255;0;225;56;2;0;15;54;253;253;219;199;255;0;234;56;2;0;0;0;247;247;
   247;247;255;0;243;56;2;0;142;32;240;209;229;240;255;0;252;56;2;0;141;87;222;146;197;222;255;0;5;57;2;0;
   143;167;195;67;147;195;255;0;14;57;2;0;148;206;172;33;102;172;255;0;23;57;2;0;242;255;103;103;0;31;255;0;
   33;57;2;0;0;0;26;26;26;26;255;0;44;57;2;0;249;220;178;178;24;43;255;0;54;57;2;0;5;163;214;214;96;77;255;
   0;64;57;2;0;13;119;244;244;165;130;255;0;74;57;2;0;15;54;253;253;219;199;255;0;84;57;2;0;0;0;224;224;224;
   224;255;0;94;57;2;0;0;0;186;186;186;186;255;0;104;57;2;0;0;0;135;135;135;135;255;0;114;57;2;0;0;0;77;77;
   77;77;255;0;124;57;2;0;242;255;103;103;0;31;255;0;134;57;2;0;0;0;77;77;77;77;255;0;145;57;2;0;0;0;26;26;
   26;26;255;0;156;57;2;0;249;220;178;178;24;43;255;0;166;57;2;0;5;163;214;214;96;77;255;0;176;57;2;0;13;
   119;244;244;165;130;255;0;186;57;2;0;15;54;253;253;219;199;255;0;196;57;2;0;0;0;255;255;255;255;255;0;
   206;57;2;0;0;0;224;224;224;224;255;0;216;57;2;0;0;0;186;186;186;186;255;0;226;57;2;0;0;0;135;135;135;135;
   255;0;236;57;2;0;12;150;239;239;138;98;255;0;245;57;2;0;0;0;255;255;255;255;255;0;254;57;2;0;0;0;153;153;
   153;153;255;0;7;58;2;0;248;255;202;202;0;32;255;0;16;58;2;0;13;119;244;244;165;130;255;0;25;58;2;0;0;0;
   186;186;186;186;255;0;34;58;2;0;0;0;64;64;64;64;255;0;43;58;2;0;248;255;202;202;0;32;255;0;52;58;2;0;13;
   119;244;244;165;130;255;0;61;58;2;0;0;0;255;255;255;255;255;0;70;58;2;0;0;0;186;186;186;186;255;0;79;58;
   2;0;0;0;64;64;64;64;255;0;88;58;2;0;249;220;178;178;24;43;255;0;97;58;2;0;12;150;239;239;138;98;255;0;
   106;58;2;0;15;54;253;253;219;199;255;0;115;58;2;0;0;0;224;224;224;224;255;0;124;58;2;0;0;0;153;153;153;
   153;255;0;133;58;2;0;0;0;77;77;77;77;255;0;142;58;2;0;249;220;178;178;24;43;255;0;151;58;2;0;12;150;239;
   239;138;98;255;0;160;58;2;0;15;54;253;253;219;199;255;0;169;58;2;0;0;0;255;255;255;255;255;0;178;58;2;0;
   0;0;224;224;224;224;255;0;187;58;2;0;0;0;153;153;153;153;255;0;196;58;2;0;0;0;77;77;77;77;255;0;205;58;2;
   0;249;220;178;178;24;43;255;0;214;58;2;0;5;163;214;214;96;77;255;0;223;58;2;0;13;119;244;244;165;130;255;
   0;232;58;2;0;15;54;253;253;219;199;255;0;241;58;2;0;0;0;224;224;224;224;255;0;250;58;2;0;0;0;186;186;186;
   186;255;0;3;59;2;0;0;0;135;135;135;135;255;0;12;59;2;0;0;0;77;77;77;77;255;0;21;59;2;0;249;220;178;178;
   24;43;255;0;30;59;2;0;5;163;214;214;96;77;255;0;39;59;2;0;13;119;244;244;165;130;255;0;48;59;2;0;15;54;
   253;253;219;199;255;0;57;59;2;0;0;0;255;255;255;255;255;0;66;59;2;0;0;0;224;224;224;224;255;0;75;59;2;0;
   0;0;186;186;186;186;255;0;84;59;2;0;0;0;135;135;135;135;255;0;93;59;2;0;0;0;77;77;77;77;255;0;102;59;2;0;
   3;32;253;253;224;221;255;0;111;59;2;0;244;92;250;250;159;181;255;0;120;59;2;0;227;220;197;197;27;138;255;
   0;129;59;2;0;13;28;254;254;235;226;255;0;138;59;2;0;252;72;251;251;180;185;255;0;147;59;2;0;238;147;247;
   247;104;161;255;0;156;59;2;0;224;253;174;174;1;126;255;0;165;59;2;0;13;28;254;254;235;226;255;0;174;59;2;
   0;252;72;251;251;180;185;255;0;183;59;2;0;238;147;247;247;104;161;255;0;192;59;2;0;227;220;197;197;27;
   138;255;0;201;59;2;0;213;252;122;122;1;119;255;0;210;59;2;0;13;28;254;254;235;226;255;0;219;59;2;0;3;60;
   252;252;197;192;255;0;228;59;2;0;244;92;250;250;159;181;255;0;237;59;2;0;238;147;247;247;104;161;255;0;
   246;59;2;0;227;220;197;197;27;138;255;0;255;59;2;0;213;252;122;122;1;119;255;0;8;60;2;0;13;28;254;254;
   235;226;255;0;17;60;2;0;3;60;252;252;197;192;255;0;26;60;2;0;244;92;250;250;159;181;255;0;35;60;2;0;238;
   147;247;247;104;161;255;0;44;60;2;0;230;195;221;221;52;151;255;0;53;60;2;0;224;253;174;174;1;126;255;0;
   62;60;2;0;213;252;122;122;1;119;255;0;71;60;2;0;14;12;255;255;247;243;255;0;80;60;2;0;3;32;253;253;224;
   221;255;0;89;60;2;0;3;60;252;252;197;192;255;0;98;60;2;0;244;92;250;250;159;181;255;0;107;60;2;0;238;147;
   247;247;104;161;255;0;116;60;2;0;230;195;221;221;52;151;255;0;125;60;2;0;224;253;174;174;1;126;255;0;134;
   60;2;0;213;252;122;122;1;119;255;0;143;60;2;0;14;12;255;255;247;243;255;0;152;60;2;0;3;32;253;253;224;
   221;255;0;161;60;2;0;3;60;252;252;197;192;255;0;170;60;2;0;244;92;250;250;159;181;255;0;179;60;2;0;238;
   147;247;247;104;161;255;0;188;60;2;0;230;195;221;221;52;151;255;0;197;60;2;0;224;253;174;174;1;126;255;0;
   206;60;2;0;213;252;122;122;1;119;255;0;215;60;2;0;199;255;106;73;0;106;255;0;224;60;2;0;245;255;165;165;
   0;38;255;0;236;60;2;0;167;171;149;49;54;149;255;0;249;60;2;0;2;208;215;215;48;39;255;0;5;61;2;0;10;184;
   244;244;109;67;255;0;17;61;2;0;20;157;253;253;174;97;255;0;29;61;2;0;30;110;254;254;224;144;255;0;41;61;
   2;0;136;24;248;224;243;248;255;0;53;61;2;0;138;67;233;171;217;233;255;0;65;61;2;0;143;113;209;116;173;
   209;255;0;77;61;2;0;151;157;180;69;117;180;255;0;89;61;2;0;245;255;165;165;0;38;255;0;101;61;2;0;151;157;
   180;69;117;180;255;0;114;61;2;0;167;171;149;49;54;149;255;0;127;61;2;0;2;208;215;215;48;39;255;0;139;61;
   2;0;10;184;244;244;109;67;255;0;151;61;2;0;20;157;253;253;174;97;255;0;163;61;2;0;30;110;254;254;224;144;
   255;0;175;61;2;0;42;64;255;255;255;191;255;0;187;61;2;0;136;24;248;224;243;248;255;0;199;61;2;0;138;67;
   233;171;217;233;255;0;211;61;2;0;143;113;209;116;173;209;255;0;223;61;2;0;13;164;252;252;141;89;255;0;
   234;61;2;0;42;64;255;255;255;191;255;0;245;61;2;0;143;86;219;145;191;219;255;0;0;62;2;0;254;225;215;215;
   25;28;255;0;11;62;2;0;20;157;253;253;174;97;255;0;22;62;2;0;138;67;233;171;217;233;255;0;33;62;2;0;145;
   193;182;44;123;182;255;0;44;62;2;0;254;225;215;215;25;28;255;0;55;62;2;0;20;157;253;253;174;97;255;0;66;
   62;2;0;42;64;255;255;255;191;255;0;77;62;2;0;138;67;233;171;217;233;255;0;88;62;2;0;145;193;182;44;123;
   182;255;0;99;62;2;0;2;208;215;215;48;39;255;0;110;62;2;0;13;164;252;252;141;89;255;0;121;62;2;0;30;110;
   254;254;224;144;255;0;132;62;2;0;136;24;248;224;243;248;255;0;143;62;2;0;143;86;219;145;191;219;255;0;
   154;62;2;0;151;157;180;69;117;180;255;0;165;62;2;0;2;208;215;215;48;39;255;0;176;62;2;0;13;164;252;252;
   141;89;255;0;187;62;2;0;30;110;254;254;224;144;255;0;198;62;2;0;42;64;255;255;255;191;255;0;209;62;2;0;
   136;24;248;224;243;248;255;0;220;62;2;0;143;86;219;145;191;219;255;0;231;62;2;0;151;157;180;69;117;180;
   255;0;242;62;2;0;2;208;215;215;48;39;255;0;253;62;2;0;10;184;244;244;109;67;255;0;8;63;2;0;20;157;253;
   253;174;97;255;0;19;63;2;0;30;110;254;254;224;144;255;0;30;63;2;0;136;24;248;224;243;248;255;0;41;63;2;0;
   138;67;233;171;217;233;255;0;52;63;2;0;143;113;209;116;173;209;255;0;63;63;2;0;151;157;180;69;117;180;
   255;0;74;63;2;0;2;208;215;215;48;39;255;0;85;63;2;0;10;184;244;244;109;67;255;0;96;63;2;0;20;157;253;253;
   174;97;255;0;107;63;2;0;30;110;254;254;224;144;255;0;118;63;2;0;42;64;255;255;255;191;255;0;129;63;2;0;
   136;24;248;224;243;248;255;0;140;63;2;0;138;67;233;171;217;233;255;0;151;63;2;0;143;113;209;116;173;209;
   255;0;162;63;2;0;151;157;180;69;117;180;255;0;173;63;2;0;245;255;165;165;0;38;255;0;185;63;2;0;107;255;
   104;0;104;55;255;0;198;63;2;0;2;208;215;215;48;39;255;0;210;63;2;0;10;184;244;244;109;67;255;0;222;63;2;
   0;20;157;253;253;174;97;255;0;234;63;2;0;31;115;254;254;224;139;255;0;246;63;2;0;51;106;239;217;239;139;
   255;0;2;64;2;0;62;130;217;166;217;106;255;0;14;64;2;0;83;121;189;102;189;99;255;0;26;64;2;0;103;211;152;
   26;152;80;255;0;38;64;2;0;245;255;165;165;0;38;255;0;50;64;2;0;103;211;152;26;152;80;255;0;63;64;2;0;107;
   255;104;0;104;55;255;0;76;64;2;0;2;208;215;215;48;39;255;0;88;64;2;0;10;184;244;244;109;67;255;0;100;64;
   2;0;20;157;253;253;174;97;255;0;112;64;2;0;31;115;254;254;224;139;255;0;124;64;2;0;42;64;255;255;255;191;
   255;0;136;64;2;0;51;106;239;217;239;139;255;0;148;64;2;0;62;130;217;166;217;106].

(** [n.q+74306]: 10240 bytes. *)
Definition segment_74306 : list Z :=
  [255;0;160;64;2;0;83;121;189;102;189;99;255;0;172;64;2;0;13;164;252;252;141;89;255;0;183;64;2;0;42;64;255;
   255;255;191;255;0;194;64;2;0;66;136;207;145;207;96;255;0;205;64;2;0;254;225;215;215;25;28;255;0;216;64;2;
   0;20;157;253;253;174;97;255;0;227;64;2;0;62;130;217;166;217;106;255;0;238;64;2;0;98;210;150;26;150;65;
   255;0;249;64;2;0;254;225;215;215;25;28;255;0;4;65;2;0;20;157;253;253;174;97;255;0;15;65;2;0;42;64;255;
   255;255;191;255;0;26;65;2;0;62;130;217;166;217;106;255;0;37;65;2;0;98;210;150;26;150;65;255;0;48;65;2;0;
   2;208;215;215;48;39;255;0;59;65;2;0;13;164;252;252;141;89;255;0;70;65;2;0;31;115;254;254;224;139;255;0;
   81;65;2;0;51;106;239;217;239;139;255;0;92;65;2;0;66;136;207;145;207;96;255;0;103;65;2;0;103;211;152;26;
   152;80;255;0;114;65;2;0;2;208;215;215;48;39;255;0;125;65;2;0;13;164;252;252;141;89;255;0;136;65;2;0;31;
   115;254;254;224;139;255;0;147;65;2;0;42;64;255;255;255;191;255;0;158;65;2;0;51;106;239;217;239;139;255;0;
   169;65;2;0;66;136;207;145;207;96;255;0;180;65;2;0;103;211;152;26;152;80;255;0;191;65;2;0;2;208;215;215;
   48;39;255;0;202;65;2;0;10;184;244;244;109;67;255;0;213;65;2;0;20;157;253;253;174;97;255;0;224;65;2;0;31;
   115;254;254;224;139;255;0;235;65;2;0;51;106;239;217;239;139;255;0;246;65;2;0;62;130;217;166;217;106;255;
   0;1;66;2;0;83;121;189;102;189;99;255;0;12;66;2;0;103;211;152;26;152;80;255;0;23;66;2;0;2;208;215;215;48;
   39;255;0;34;66;2;0;10;184;244;244;109;67;255;0;45;66;2;0;20;157;253;253;174;97;255;0;56;66;2;0;31;115;
   254;254;224;139;255;0;67;66;2;0;42;64;255;255;255;191;255;0;78;66;2;0;51;106;239;217;239;139;255;0;89;66;
   2;0;62;130;217;166;217;106;255;0;100;66;2;0;83;121;189;102;189;99;255;0;111;66;2;0;103;211;152;26;152;80;
   255;0;122;66;2;0;13;44;254;254;224;210;255;0;131;66;2;0;9;139;252;252;146;114;255;0;140;66;2;0;1;211;222;
   222;45;38;255;0;149;66;2;0;13;37;254;254;229;217;255;0;158;66;2;0;11;108;252;252;174;145;255;0;167;66;2;
   0;7;179;251;251;106;74;255;0;176;66;2;0;253;224;203;203;24;29;255;0;185;66;2;0;13;37;254;254;229;217;255;
   0;194;66;2;0;11;108;252;252;174;145;255;0;203;66;2;0;7;179;251;251;106;74;255;0;212;66;2;0;1;211;222;222;
   45;38;255;0;221;66;2;0;253;231;165;165;15;21;255;0;230;66;2;0;13;37;254;254;229;217;255;0;239;66;2;0;12;
   92;252;252;187;161;255;0;248;66;2;0;9;139;252;252;146;114;255;0;1;67;2;0;7;179;251;251;106;74;255;0;10;
   67;2;0;1;211;222;222;45;38;255;0;19;67;2;0;253;231;165;165;15;21;255;0;28;67;2;0;13;37;254;254;229;217;
   255;0;37;67;2;0;12;92;252;252;187;161;255;0;46;67;2;0;9;139;252;252;146;114;255;0;55;67;2;0;7;179;251;
   251;106;74;255;0;64;67;2;0;3;208;239;239;59;44;255;0;73;67;2;0;253;224;203;203;24;29;255;0;82;67;2;0;251;
   255;153;153;0;13;255;0;91;67;2;0;14;15;255;255;245;240;255;0;100;67;2;0;13;44;254;254;224;210;255;0;109;
   67;2;0;12;92;252;252;187;161;255;0;118;67;2;0;9;139;252;252;146;114;255;0;127;67;2;0;7;179;251;251;106;
   74;255;0;136;67;2;0;3;208;239;239;59;44;255;0;145;67;2;0;253;224;203;203;24;29;255;0;154;67;2;0;251;255;
   153;153;0;13;255;0;163;67;2;0;14;15;255;255;245;240;255;0;172;67;2;0;13;44;254;254;224;210;255;0;181;67;
   2;0;12;92;252;252;187;161;255;0;190;67;2;0;9;139;252;252;146;114;255;0;199;67;2;0;7;179;251;251;106;74;
   255;0;208;67;2;0;3;208;239;239;59;44;255;0;217;67;2;0;253;224;203;203;24;29;255;0;226;67;2;0;253;231;165;
   165;15;21;255;0;235;67;2;0;249;255;103;103;0;13;255;0;244;67;2;0;254;225;228;228;26;28;255;0;253;67;2;0;
   146;178;184;55;126;184;255;0;6;68;2;0;83;147;175;77;175;74;255;0;15;68;2;0;254;225;228;228;26;28;255;0;
   24;68;2;0;146;178;184;55;126;184;255;0;33;68;2;0;83;147;175;77;175;74;255;0;42;68;2;0;207;132;163;152;78;
   163;255;0;51;68;2;0;254;225;228;228;26;28;255;0;60;68;2;0;146;178;184;55;126;184;255;0;69;68;2;0;83;147;
   175;77;175;74;255;0;78;68;2;0;207;132;163;152;78;163;255;0;87;68;2;0;21;255;255;255;127;0;255;0;96;68;2;
   0;254;225;228;228;26;28;255;0;105;68;2;0;146;178;184;55;126;184;255;0;114;68;2;0;83;147;175;77;175;74;
   255;0;123;68;2;0;207;132;163;152;78;163;255;0;132;68;2;0;21;255;255;255;127;0;255;0;141;68;2;0;42;204;
   255;255;255;51;255;0;150;68;2;0;254;225;228;228;26;28;255;0;159;68;2;0;146;178;184;55;126;184;255;0;168;
   68;2;0;83;147;175;77;175;74;255;0;177;68;2;0;207;132;163;152;78;163;255;0;186;68;2;0;21;255;255;255;127;
   0;255;0;195;68;2;0;42;204;255;255;255;51;255;0;204;68;2;0;15;193;166;166;86;40;255;0;213;68;2;0;254;225;
   228;228;26;28;255;0;222;68;2;0;146;178;184;55;126;184;255;0;231;68;2;0;83;147;175;77;175;74;255;0;240;68;
   2;0;207;132;163;152;78;163;255;0;249;68;2;0;21;255;255;255;127;0;255;0;2;69;2;0;42;204;255;255;255;51;
   255;0;11;69;2;0;15;193;166;166;86;40;255;0;20;69;2;0;232;121;247;247;129;191;255;0;29;69;2;0;254;225;228;
   228;26;28;255;0;38;69;2;0;146;178;184;55;126;184;255;0;47;69;2;0;83;147;175;77;175;74;255;0;56;69;2;0;
   207;132;163;152;78;163;255;0;65;69;2;0;21;255;255;255;127;0;255;0;74;69;2;0;42;204;255;255;255;51;255;0;
   83;69;2;0;15;193;166;166;86;40;255;0;92;69;2;0;232;121;247;247;129;191;255;0;101;69;2;0;0;0;153;153;153;
   153;255;0;110;69;2;0;114;120;194;102;194;165;255;0;119;69;2;0;11;155;252;252;141;98;255;0;128;69;2;0;156;
   77;203;141;160;203;255;0;137;69;2;0;114;120;194;102;194;165;255;0;146;69;2;0;11;155;252;252;141;98;255;0;
   155;69;2;0;156;77;203;141;160;203;255;0;164;69;2;0;228;102;231;231;138;195;255;0;173;69;2;0;114;120;194;
   102;194;165;255;0;182;69;2;0;11;155;252;252;141;98;255;0;191;69;2;0;156;77;203;141;160;203;255;0;200;69;
   2;0;228;102;231;231;138;195;255;0;209;69;2;0;58;155;216;166;216;84;255;0;218;69;2;0;114;120;194;102;194;
   165;255;0;227;69;2;0;11;155;252;252;141;98;255;0;236;69;2;0;156;77;203;141;160;203;255;0;245;69;2;0;228;
   102;231;231;138;195;255;0;254;69;2;0;58;155;216;166;216;84;255;0;7;70;2;0;34;208;255;255;217;47;255;0;16;
   70;2;0;114;120;194;102;194;165;255;0;25;70;2;0;11;155;252;252;141;98;255;0;34;70;2;0;156;77;203;141;160;
   203;255;0;43;70;2;0;228;102;231;231;138;195;255;0;52;70;2;0;58;155;216;166;216;84;255;0;61;70;2;0;34;208;
   255;255;217;47;255;0;70;70;2;0;25;90;229;229;196;148;255;0;79;70;2;0;114;120;194;102;194;165;255;0;88;70;
   2;0;11;155;252;252;141;98;255;0;97;70;2;0;156;77;203;141;160;203;255;0;106;70;2;0;228;102;231;231;138;
   195;255;0;115;70;2;0;58;155;216;166;216;84;255;0;124;70;2;0;34;208;255;255;217;47;255;0;133;70;2;0;25;90;
   229;229;196;148;255;0;142;70;2;0;0;0;179;179;179;179;255;0;151;70;2;0;120;84;211;141;211;199;255;0;161;
   70;2;0;211;82;189;188;128;189;255;0;172;70;2;0;42;76;255;255;255;179;255;0;182;70;2;0;175;37;218;190;186;
   218;255;0;192;70;2;0;4;139;251;251;128;114;255;0;202;70;2;0;144;100;211;128;177;211;255;0;212;70;2;0;22;
   156;253;253;180;98;255;0;222;70;2;0;58;134;222;179;222;105;255;0;232;70;2;0;233;47;252;252;205;229;255;0;
   242;70;2;0;0;0;217;217;217;217;255;0;252;70;2;0;120;84;211;141;211;199;255;0;6;71;2;0;211;82;189;188;128;
   189;255;0;17;71;2;0;77;41;235;204;235;197;255;0;28;71;2;0;42;76;255;255;255;179;255;0;38;71;2;0;175;37;
   218;190;186;218;255;0;48;71;2;0;4;139;251;251;128;114;255;0;58;71;2;0;144;100;211;128;177;211;255;0;68;
   71;2;0;22;156;253;253;180;98;255;0;78;71;2;0;58;134;222;179;222;105;255;0;88;71;2;0;233;47;252;252;205;
   229;255;0;98;71;2;0;0;0;217;217;217;217;255;0;108;71;2;0;120;84;211;141;211;199;255;0;118;71;2;0;211;82;
   189;188;128;189;255;0;129;71;2;0;77;41;235;204;235;197;255;0;140;71;2;0;37;144;255;255;237;111;255;0;151;
   71;2;0;42;76;255;255;255;179;255;0;161;71;2;0;175;37;218;190;186;218;255;0;171;71;2;0;4;139;251;251;128;
   114;255;0;181;71;2;0;144;100;211;128;177;211;255;0;191;71;2;0;22;156;253;253;180;98;255;0;201;71;2;0;58;
   134;222;179;222;105;255;0;211;71;2;0;233;47;252;252;205;229;255;0;221;71;2;0;0;0;217;217;217;217;255;0;
   231;71;2;0;120;84;211;141;211;199;255;0;240;71;2;0;42;76;255;255;255;179;255;0;249;71;2;0;175;37;218;190;
   186;218;255;0;2;72;2;0;120;84;211;141;211;199;255;0;11;72;2;0;42;76;255;255;255;179;255;0;20;72;2;0;175;
   37;218;190;186;218;255;0;29;72;2;0;4;139;251;251;128;114;255;0;38;72;2;0;120;84;211;141;211;199;255;0;47;
   72;2;0;42;76;255;255;255;179;255;0;56;72;2;0;175;37;218;190;186;218;255;0;65;72;2;0;4;139;251;251;128;
   114;255;0;74;72;2;0;144;100;211;128;177;211;255;0;83;72;2;0;120;84;211;141;211;199;255;0;92;72;2;0;42;76;
   255;255;255;179;255;0;101;72;2;0;175;37;218;190;186;218;255;0;110;72;2;0;4;139;251;251;128;114;255;0;119;
   72;2;0;144;100;211;128;177;211;255;0;128;72;2;0;22;156;253;253;180;98;255;0;137;72;2;0;120;84;211;141;
   211;199;255;0;146;72;2;0;42;76;255;255;255;179;255;0;155;72;2;0;175;37;218;190;186;218;255;0;164;72;2;0;
   4;139;251;251;128;114;255;0;173;72;2;0;144;100;211;128;177;211;255;0;182;72;2;0;22;156;253;253;180;98;
   255;0;191;72;2;0;58;134;222;179;222;105;255;0;200;72;2;0;120;84;211;141;211;199;255;0;209;72;2;0;42;76;
   255;255;255;179;255;0;218;72;2;0;175;37;218;190;186;218;255;0;227;72;2;0;4;139;251;251;128;114;255;0;236;
   72;2;0;144;100;211;128;177;211;255;0;245;72;2;0;22;156;253;253;180;98;255;0;254;72;2;0;58;134;222;179;
   222;105;255;0;7;73;2;0;233;47;252;252;205;229;255;0;16;73;2;0;120;84;211;141;211;199;255;0;25;73;2;0;42;
   76;255;255;255;179;255;0;34;73;2;0;175;37;218;190;186;218;255;0;43;73;2;0;4;139;251;251;128;114;255;0;52;
   73;2;0;144;100;211;128;177;211;255;0;61;73;2;0;22;156;253;253;180;98;255;0;70;73;2;0;58;134;222;179;222;
   105;255;0;79;73;2;0;233;47;252;252;205;229;255;0;88;73;2;0;0;0;217;217;217;217;255;0;97;73;2;0;237;253;
   158;158;1;66;255;0;111;73;2;0;177;130;162;94;79;162;255;0;126;73;2;0;250;180;213;213;62;79;255;0;140;73;
   2;0;10;184;244;244;109;67;255;0;154;73;2;0;20;157;253;253;174;97;255;0;168;73;2;0;31;115;254;254;224;139;
   255;0;182;73;2;0;49;96;245;230;245;152;255;0;196;73;2;0;79;65;221;171;221;164;255;0;210;73;2;0;114;120;
   194;102;194;165;255;0;224;73;2;0;143;187;189;50;136;189;255;0;238;73;2;0;237;253;158;158;1;66;255;0;252;
   73;2;0;143;187;189;50;136;189;255;0;11;74;2;0;177;130;162;94;79;162;255;0;26;74;2;0;250;180;213;213;62;
   79;255;0;40;74;2;0;10;184;244;244;109;67;255;0;54;74;2;0;20;157;253;253;174;97;255;0;68;74;2;0;31;115;
   254;254;224;139;255;0;82;74;2;0;42;64;255;255;255;191;255;0;96;74;2;0;49;96;245;230;245;152;255;0;110;74;
   2;0;79;65;221;171;221;164;255;0;124;74;2;0;114;120;194;102;194;165;255;0;138;74;2;0;13;164;252;252;141;
   89;255;0;151;74;2;0;42;64;255;255;255;191;255;0;164;74;2;0;81;77;213;153;213;148;255;0;177;74;2;0;254;
   225;215;215;25;28;255;0;190;74;2;0;20;157;253;253;174;97;255;0;203;74;2;0;79;65;221;171;221;164;255;0;
   216;74;2;0;143;196;186;43;131;186;255;0;229;74;2;0;254;225;215;215;25;28;255;0;242;74;2;0;20;157;253;253;
   174;97;255;0;255;74;2;0;42;64;255;255;255;191;255;0;12;75;2;0;79;65;221;171;221;164;255;0;25;75;2;0;143;
   196;186;43;131;186;255;0;38;75;2;0;250;180;213;213;62;79;255;0;51;75;2;0;13;164;252;252;141;89;255;0;64;
   75;2;0;31;115;254;254;224;139;255;0;77;75;2;0;49;96;245;230;245;152;255;0;90;75;2;0;81;77;213;153;213;
   148;255;0;103;75;2;0;143;187;189;50;136;189;255;0;116;75;2;0;250;180;213;213;62;79;255;0;129;75;2;0;13;
   164;252;252;141;89;255;0;142;75;2;0;31;115;254;254;224;139;255;0;155;75;2;0;42;64;255;255;255;191;255;0;
   168;75;2;0;49;96;245;230;245;152;255;0;181;75;2;0;81;77;213;153;213;148;255;0;194;75;2;0;143;187;189;50;
   136;189;255;0;207;75;2;0;250;180;213;213;62;79;255;0;220;75;2;0;10;184;244;244;109;67;255;0;233;75;2;0;
   20;157;253;253;174;97;255;0;246;75;2;0;31;115;254;254;224;139;255;0;3;76;2;0;49;96;245;230;245;152;255;0;
   16;76;2;0;79;65;221;171;221;164;255;0;29;76;2;0;114;120;194;102;194;165;255;0;42;76;2;0;143;187;189;50;
   136;189;255;0;55;76;2;0;250;180;213;213;62;79;255;0;68;76;2;0;10;184;244;244;109;67;255;0;81;76;2;0;20;
   157;253;253;174;97;255;0;94;76;2;0;31;115;254;254;224;139;255;0;107;76;2;0;42;64;255;255;255;191;255;0;
   120;76;2;0;49;96;245;230;245;152;255;0;133;76;2;0;79;65;221;171;221;164;255;0;146;76;2;0;114;120;194;102;
   194;165;255;0;159;76;2;0;143;187;189;50;136;189;255;0;172;76;2;0;147;15;255;240;248;255;255;0;187;76;2;0;
   24;35;250;250;235;215;255;0;205;76;2;0;127;255;255;0;255;255;255;0;215;76;2;0;113;128;255;127;255;212;
   255;0;231;76;2;0;127;15;255;240;255;255;255;0;242;76;2;0;42;26;245;245;245;220;255;0;253;76;2;0;23;58;
   255;255;228;196;255;0;9;77;2;0;0;0;0;0;0;0;255;0;20;77;2;0;25;49;255;255;235;205;255;0;40;77;2;0;170;255;
   255;0;0;255;255;0;50;77;2;0;192;206;226;138;43;226;255;0;66;77;2;0;0;190;165;165;42;42;255;0;77;77;2;0;
   23;99;222;222;184;135;255;0;92;77;2;0;128;103;160;95;158;160;255;0;107;77;2;0;63;255;255;127;255;0;255;0;
   123;77;2;0;17;218;210;210;105;30;255;0;138;77;2;0;11;175;255;255;127;80;255;0;149;77;2;0;154;147;237;100;
   149;237;255;0;169;77;2;0;33;34;255;255;248;220;255;0;183;77;2;0;246;231;220;220;20;60;255;0;196;77;2;0;
   127;255;255;0;255;255;255;0;206;77;2;0;170;255;139;0;0;139;255;0;220;77;2;0;127;255;139;0;139;139;255;0;
   234;77;2;0;30;239;184;184;134;11;255;0;253;77;2;0;0;0;169;169;169;169;255;0;11;78;2;0;85;255;100;0;100;0;
   255;0;26;78;2;0;0;0;169;169;169;169;255;0;40;78;2;0;39;110;189;189;183;107;255;0;55;78;2;0;212;255;139;
   139;0;139;255;0;72;78;2;0;58;142;107;85;107;47;255;0;92;78;2;0;23;255;255;255;140;0;255;0;108;78;2;0;198;
   192;204;153;50;204;255;0;124;78;2;0;0;255;139;139;0;0;255;0;137;78;2;0;10;121;233;233;150;122;255;0;153;
   78;2;0;85;61;188;143;188;143;255;0;171;78;2;0;175;143;139;72;61;139;255;0;190;78;2;0;127;103;79;47;79;79;
   255;0;209;78;2;0;127;103;79;47;79;79;255;0;228;78;2;0;128;255;209;0;206;209;255;0;247;78;2;0;199;255;211;
   148;0;211;255;0;7;79;2;0;232;235;255;255;20;147;255;0;21;79;2;0;138;255;255;0;191;255;255;0;38;79;2;0;0;
   0;105;105;105;105;255;0;51;79;2;0;0;0;105;105;105;105;255;0;64;79;2;0;148;225;255;30;144;255;255;0;80;79;
   2;0;0;206;178;178;34;34;255;0;95;79;2;0;28;15;255;255;250;240;255;0;112;79;2;0;85;192;139;34;139;34;255;
   0;129;79;2;0;212;255;255;255;0;255;255;0;142;79;2;0;0;0;220;220;220;220;255;0;157;79;2;0;170;7;255;248;
   248;255;255;0;173;79;2;0;35;255;255;255;215;0;255;0;183;79;2;0;30;217;218;218;165;32;255;0;198;79;2;0;0;
   0;128;128;128;128;255;0;208;79;2;0;85;255;128;0;128;0;255;0;219;79;2;0;59;208;255;173;255;47;255;0;236;
   79;2;0;0;0;128;128;128;128;255;0;246;79;2;0;85;15;255;240;255;240;255;0;4;80;2;0;233;150;255;255;105;180;
   255;0;17;80;2;0;0;140;205;205;92;92;255;0;32;80;2;0;194;255;130;75;0;130;255;0;44;80;2;0;42;15;255;255;
   255;240;255;0;55;80;2;0;38;106;240;240;230;140;255;0;66;80;2;0;170;20;250;230;230;250;255;0;80;80;2;0;
   240;15;255;255;240;245;255;0;99;80;2;0;64;255;252;124;252;0;255;0;114;80;2;0;38;49;255;255;250;205;255;0;
   132;80;2;0;137;63;230;173;216;230;255;0;147;80;2;0;0;119;240;240;128;128;255;0;163;80;2;0;127;31;255;224;
   255;255;255;0;178;80;2;0;42;40;250;250;250;210;255;0;204;80;2;0;0;0;211;211;211;211;255;0;219;80;2;0;85;
   100;238;144;238;144;255;0;235;80;2;0;0;0;211;211;211;211;255;0;250;80;2;0;248;73;255;255;182;193;255;0;9;
   81;2;0;12;132;255;255;160;122;255;0;26;81;2;0;125;209;178;32;178;170;255;0;45;81;2;0;143;117;250;135;206;
   250;255;0;63;81;2;0;148;56;153;119;136;153;255;0;83;81;2;0;148;56;153;119;136;153;255;0;103;81;2;0;151;
   52;222;176;196;222;255;0;123;81;2;0;42;31;255;255;255;224;255;0;140;81;2;0;85;255;255;0;255;0;255;0;150;
   81;2;0;85;192;205;50;205;50;255;0;165;81;2;0;21;20;250;250;240;230;255;0;176;81;2;0;212;255;255;255;0;
   255;255;0;189;81;2;0;0;255;128;128;0;0;255;0;201;81;2;0;113;128;205;102;205;170;255;0;223;81;2;0;170;255;
   205;0;0;205;255;0;239;81;2;0;204;152;211;186;85;211;255;0;1;82;2;0;183;124;219;147;112;219;255;0;19;82;2;
   0;103;169;179;60;179;113;255;0;39;82;2;0;176;143;238;123;104;238;255;0;60;82;2;0;111;255;250;0;250;154;
   255;0;83;82;2;0;125;167;209;72;209;204;255;0;104;82;2;0;228;228;199;199;21;133;255;0;125;82;2;0;170;198;
   112;25;25;112;255;0;143;82;2;0;106;9;255;245;255;250;255;0;158;82;2;0;4;30;255;255;228;225;255;0;173;82;
   2;0;26;73;255;255;228;181;255;0;187;82;2;0;25;81;255;255;222;173;255;0;204;82;2;0;170;255;128;0;0;128;
   255;0;214;82;2;0;27;23;253;253;245;230;255;0;227;82;2;0;42;255;128;128;128;0;255;0;238;82;2;0;56;192;142;
   107;142;35;255;0;253;82;2;0;27;255;255;255;165;0;255;0;9;83;2;0;11;255;255;255;69;0;255;0;24;83;2;0;214;
   123;218;218;112;214;255;0;36;83;2;0;38;72;238;238;232;170;255;0;55;83;2;0;85;100;251;152;251;152;255;0;
   70;83;2;0;127;67;238;175;238;238;255;0;89;83;2;0;241;124;219;219;112;147;255;0;108;83;2;0;26;41;255;255;
   239;213;255;0;124;83;2;0;20;70;255;255;218;185;255;0;139;83;2;0;20;176;205;205;133;63;255;0;149;83;2;0;
   247;63;255;255;192;203;255;0;159;83;2;0;212;70;221;221;160;221;255;0;169;83;2;0;132;59;230;176;224;230;
   255;0;185;83;2;0;212;255;128;128;0;128;255;0;197;83;2;0;0;255;255;255;0;0;255;0;206;83;2;0;0;61;188;188;
   143;143;255;0;221;83;2;0;159;181;225;65;105;225;255;0;236;83;2;0;17;220;139;139;69;19;255;0;253;83;2;0;4;
   138;250;250;128;114;255;0;9;84;2;0;19;154;244;244;164;96;255;0;25;84;2;0;103;170;139;46;139;87;255;0;39;
   84;2;0;17;16;255;255;245;238;255;0;53;84;2;0;13;183;160;160;82;45;255;0;65;84;2;0;0;0;192;192;192;192;
   255;0;77;84;2;0;139;108;235;135;206;235;255;0;90;84;2;0;175;143;205;106;90;205;255;0;105;84;2;0;148;56;
   144;112;128;144;255;0;120;84;2;0;148;56;144;112;128;144;255;0;135;84;2;0;0;5;255;255;250;250;255;0;145;
   84;2;0;106;255;255;0;255;127;255;0;162;84;2;0;146;155;180;70;130;180;255;0;177;84;2;0;24;84;210;210;180;
   140;255;0;186;84;2;0;127;255;128;0;128;128;255;0;196;84;2;0;212;29;216;216;191;216;255;0;209;84;2;0;6;
   184;255;255;99;71;255;0;221;84;2;0;123;182;224;64;224;208;255;0;236;84;2;0;212;115;238;238;130;238;255;0;
   248;84;2;0;27;68;245;245;222;179;255;0;3;85;2;0;0;0;255;255;255;255;255;0;14;85;2;0;0;0;245;245;245;245;
   255;0;30;85;2;0;42;255;255;255;255;0;255;0;42;85;2;0;56;192;205;154;205;50;255;0;59;85;2;0;45;67;252;247;
   252;185;255;0;68;85;2;0;68;91;221;173;221;142;255;0;77;85;2;0;98;178;163;49;163;84;255;0;86;85;2;0;42;50;
   255;255;255;204;255;0;95;85;2;0;62;85;230;194;230;153;255;0;104;85;2;0;85;100;198;120;198;121;255;0;113;
   85;2;0;99;187;132;35;132;67;255;0;122;85;2;0;42;50;255;255;255;204;255;0;131;85;2;0;62;85;230;194;230;
   153;255;0;140;85;2;0;85;100;198;120;198;121;255;0;149;85;2;0;98;178;163;49;163;84;255;0;158;85;2;0;107;
   255;104;0;104;55;255;0;167;85;2;0;42;50;255;255;255;204;255;0;176;85;2;0;55;81;240;217;240;163;255;0;185;
   85;2;0;68;91;221;173;221;142;255;0;194;85;2;0;85;100;198;120;198;121;255;0;203;85;2;0;98;178;163;49;163;
   84;255;0;212;85;2;0;107;255;104;0;104;55;255;0;221;85;2;0;42;50;255;255;255;204;255;0;230;85;2;0;55;81;
   240;217;240;163;255;0;239;85;2;0;68;91;221;173;221;142;255;0;248;85;2;0;85;100;198;120;198;121;255;0;1;
   86;2;0;96;158;171;65;171;93;255;0;10;86;2;0;99;187;132;35;132;67;255;0;19;86;2;0;108;255;90;0;90;50;255;
   0;28;86;2;0;42;25;255;255;255;229;255;0;37;86;2;0;45;67;252;247;252;185;255;0;46;86;2;0;55;81;240;217;
   240;163;255;0;55;86;2;0;68;91;221;173;221;142;255;0;64;86;2;0;85;100;198;120;198;121;255;0;73;86;2;0;96;
   158;171;65;171;93;255;0;82;86;2;0;99;187;132;35;132;67;255;0;91;86;2;0;108;255;90;0;90;50;255;0;100;86;2;
   0;42;25;255;255;255;229;255;0;109;86;2;0;45;67;252;247;252;185;255;0;118;86;2;0;55;81;240;217;240;163;
   255;0;127;86;2;0;68;91;221;173;221;142;255;0;136;86;2;0;85;100;198;120;198;121;255;0;145;86;2;0;96;158;
   171;65;171;93;255;0;154;86;2;0;99;187;132;35;132;67;255;0;163;86;2;0;107;255;104;0;104;55;255;0;172;86;2;
   0;110;255;69;0;69;41;255;0;181;86;2;0;49;73;248;237;248;177;255;0;192;86;2;0;117;97;205;127;205;187;255;
   0;203;86;2;0;144;194;184;44;127;184;255;0;214;86;2;0;42;50;255;255;255;204;255;0;225;86;2;0;99;66;218;
   161;218;180;255;0;236;86;2;0;132;170;196;65;182;196;255;0;247;86;2;0;150;203;168;34;94;168;255;0;2;87;2;
   0;42;50;255;255;255;204;255;0;13;87;2;0;99;66;218;161;218;180;255;0;24;87;2;0;132;170;196;65;182;196;255;
   0;35;87;2;0;144;194;184;44;127;184;255;0;46;87;2;0;164;191;148;37;52;148;255;0;57;87;2;0;42;50;255;255;
   255;204;255;0;68;87;2;0;69;58;233;199;233;180;255;0;79;87;2;0;117;97;205;127;205;187;255;0;90;87;2;0;132;
   170;196;65;182;196;255;0;101;87;2;0;144;194;184;44;127;184;255;0;112;87;2;0;164;191;148;37;52;148;255;0;
   123;87;2;0;42;50;255;255;255;204;255;0;134;87;2;0;69;58;233;199;233;180;255;0;145;87;2;0;117;97;205;127;
   205;187;255;0;156;87;2;0;132;170;196;65;182;196;255;0;167;87;2;0;139;216;192;29;145;192;255;0;178;87;2;0;
   150;203;168;34;94;168;255;0;189;87;2;0;158;231;132;12;44;132;255;0;200;87;2;0;42;38;255;255;255;217;255;
   0;211;87;2;0;49;73;248;237;248;177;255;0;222;87;2;0;69;58;233;199;233;180;255;0;233;87;2;0;117;97;205;
   127;205;187;255;0;244;87;2;0;132;170;196;65;182;196;255;0;255;87;2;0;139;216;192;29;145;192;255;0;10;88;
   2;0;150;203;168;34;94;168;255;0;21;88;2;0;158;231;132;12;44;132;255;0;32;88;2;0;42;38;255;255;255;217;
   255;0;43;88;2;0;49;73;248;237;248;177;255;0;54;88;2;0;69;58;233;199;233;180;255;0;65;88;2;0;117;97;205;
   127;205;187;255;0;76;88;2;0;132;170;196;65;182;196;255;0;87;88;2;0;139;216;192;29;145;192;255;0;98;88;2;
   0;150;203;168;34;94;168;255;0;109;88;2;0;164;191;148;37;52;148;255;0;120;88;2;0;158;231;88;8;29;88;255;0;
   131;88;2;0;37;66;255;255;247;188;255;0;142;88;2;0;28;175;254;254;196;79;255;0;153;88;2;0;16;238;217;217;
   95;14;255;0;164;88;2;0;42;42;255;255;255;212;255;0;175;88;2;0;28;112;254;254;217;142;255;0;186;88;2;0;22;
   213;254;254;153;41;255;0;197;88;2;0;15;252;204;204;76;2;255;0;208;88;2;0;42;42;255;255;255;212;255;0;219;
   88;2;0;28;112;254;254;217;142;255;0;230;88;2;0;22;213;254;254;153;41;255;0;241;88;2;0;16;238;217;217;95;
   14;255;0;252;88;2;0;13;248;153;153;52;4;255;0;7;89;2;0;42;42;255;255;255;212;255;0;18;89;2;0;31;109;254;
   254;227;145;255;0;29;89;2;0;28;175;254;254;196;79;255;0;40;89;2;0;22;213;254;254;153;41;255;0;51;89;2;0;
   16;238;217;217;95;14;255;0;62;89;2;0;13;248;153;153;52;4;255;0;73;89;2;0;42;42;255;255;255;212;255;0;84;
   89;2;0;31;109;254;254;227;145;255;0;95;89;2;0;28;175;254;254;196;79;255;0;106;89;2;0;22;213;254;254;153;
   41;255;0;117;89;2;0;18;233;236;236;112;20;255;0;128;89;2;0;15;252;204;204;76;2;255;0;139;89;2;0;12;247;
   140;140;45;4;255;0;150;89;2;0;42;25;255;255;255;229;255;0;161;89;2;0;37;66;255;255;247;188;255;0;172;89;
   2;0;31;109;254;254;227;145;255;0;183;89;2;0;28;175;254;254;196;79;255;0;194;89;2;0;22;213;254;254;153;41;
   255;0;205;89;2;0;18;233;236;236;112;20;255;0;216;89;2;0;15;252;204;204;76;2;255;0;227;89;2;0;12;247;140;
   140;45;4;255;0;238;89;2;0;42;25;255;255;255;229;255;0;249;89;2;0;37;66;255;255;247;188;255;0;4;90;2;0;31;
   109;254;254;227;145;255;0;15;90;2;0;28;175;254;254;196;79;255;0;26;90;2;0;22;213;254;254;153;41;255;0;37;
   90;2;0;18;233;236;236;112;20;255;0;48;90;2;0;15;252;204;204;76;2;255;0;59;90;2;0;13;248;153;153;52;4;255;
   0;70;90;2;0;13;240;102;102;37;6;255;0;81;90;2;0;34;95;255;255;237;160;255;0;92;90;2;0;24;178;254;254;178;
   76;255;0;103;90;2;0;5;221;240;240;59;32;255;0;114;90;2;0;42;77;255;255;255;178;255;0;125;90;2;0;29;162;
   254;254;204;92;255;0;136;90;2;0;17;194;253;253;141;60;255;0;147;90;2;0;254;225;227;227;26;28;255;0;158;
   90;2;0;42;77;255;255;255;178;255;0;169;90;2;0;29;162;254;254;204;92;255;0;180;90;2;0;17;194;253;253;141;
   60;255;0;191;90;2;0;5;221;240;240;59;32;255;0;202;90;2;0;246;255;189;189;0;38;255;0;213;90;2;0;42;77;255;
   255;255;178;255;0;224;90;2;0;30;136;254;254;217;118;255;0;235;90;2;0;24;178;254;254;178;76;255;0;246;90;
   2;0;17;194;253;253;141;60;255;0;1;91;2;0;5;221;240;240;59;32;255;0;12;91;2;0;246;255;189;189;0;38;255;0;
   23;91;2;0;42;77;255;255;255;178;255;0;34;91;2;0;30;136;254;254;217;118;255;0;45;91;2;0;24;178;254;254;
   178;76;255;0;56;91;2;0;17;194;253;253;141;60;255;0;67;91;2;0;7;212;252;252;78;42;255;0;78;91;2;0;254;225;
   227;227;26;28;255;0;89;91;2;0;245;255;177;177;0;38;255;0;100;91;2;0;42;50;255;255;255;204;255;0;111;91;2;
   0;34;95;255;255;237;160;255;0;122;91;2;0;30;136;254;254;217;118;255;0;133;91;2;0;24;178;254;254;178;76;
   255;0;144;91;2;0;17;194;253;253;141;60;255;0;155;91;2;0;7;212;252;252;78;42;255;0;166;91;2;0;254;225;227;
   227;26;28;255;0;177;91;2;0;245;255;177;177;0;38;255;0;188;91;2;0;42;50;255;255;255;204;255;0;199;91;2;0;
   34;95;255;255;237;160;255;0;210;91;2;0;30;136;254;254;217;118;255;0;221;91;2;0;24;178;254;254;178;76;255;
   0;232;91;2;0;17;194;253;253;141;60;255;0;243;91;2;0;7;212;252;252;78;42;255;0;254;91;2;0;254;225;227;227;
   26;28;255;0;9;92;2;0;246;255;189;189;0;38;255;0;20;92;2;0;242;255;128;128;0;38;255;0;31;92;2;0;147;15;
   255;240;248;255;255;0;41;92;2;0;24;35;250;250;235;215;255;0;54;92;2;0;23;36;255;255;239;219;255;0;68;92;
   2;0;23;36;238;238;223;204;255;0;82;92;2;0;23;36;205;205;192;176;255;0;96;92;2;0;24;34;139;139;131;120;
   255;0;110;92;2;0;113;128;255;127;255;212;255;0;121;92;2;0;113;128;255;127;255;212;255;0;133;92;2;0;113;
   128;238;118;238;198;255;0;145;92;2;0;113;128;205;102;205;170;255;0;157;92;2;0;113;128;139;69;139;116;255;
   0;169;92;2;0;127;15;255;240;255;255;255;0;175;92;2;0;127;15;255;240;255;255;255;0;182;92;2;0;127;15;238;
   224;238;238;255;0;189;92;2;0;127;14;205;193;205;205;255;0;196;92;2;0;127;14;139;131;139;139;255;0;203;92;
   2;0;42;26;245;245;245;220;255;0;209;92;2;0;23;58;255;255;228;196;255;0;216;92;2;0;23;58;255;255;228;196;
   255;0;224;92;2;0;23;58;238;238;213;183;255;0;232;92;2;0;22;58;205;205;183;158;255;0;240;92;2;0;23;58;139;
   139;125;107;255;0;234;115;2;0;0;0;0;0;0;0;255;0;248;92;2;0;25;49;255;255;235;205;255;0;7;93;2;0;170;255;
   255;0;0;255;255;0;12;93;2;0;170;255;255;0;0;255;255;0;18;93;2;0;170;255;238;0;0;238;255;0;24;93;2;0;170;
   255;205;0;0;205;255;0;30;93;2;0;170;255;139;0;0;139;255;0;36;93;2;0;192;206;226;138;43;226;255;0;47;93;2;
   0;0;190;165;165;42;42;255;0;53;93;2;0;0;191;255;255;64;64;255;0;60;93;2;0;0;191;238;238;59;59;255;0;67;
   93;2;0;0;191;205;205;51;51;255;0;74;93;2;0;0;190;139;139;35;35;255;0;81;93;2;0;23;99;222;222;184;135;255;
   0;91;93;2;0;23;100;255;255;211;155;255;0;102;93;2;0;23;99;238;238;197;145;255;0;113;93;2;0;23;99;205;205;
   170;125;255;0;124;93;2;0;23;99;139;139;115;85;255;0;135;93;2;0;128;103;160;95;158;160;255;0;145;93;2;0;
   131;103;255;152;245;255;255;0;156;93;2;0;131;102;238;142;229;238;255;0;167;93;2;0;131;103;205;122;197;
   205;255;0;178;93;2;0;131;102;139;83;134;139;255;0;189;93;2;0;63;255;255;127;255;0;255;0;200;93;2;0;63;
   255;255;127;255;0;255;0;212;93;2;0;63;255;238;118;238;0;255;0;224;93;2;0;63;255;205;102;205;0;255;0;236;
   93;2;0;63;255;139;69;139;0;255;0;248;93;2;0;17;218;210;210;105;30;255;0;2;94;2;0;17;219;255;255;127;36;
   255;0;13;94;2;0;17;219;238;238;118;33;255;0;24;94;2;0;17;218;205;205;102;29;255;0;35;94;2;0;17;220;139;
   139;69;19;255;0;46;94;2;0;11;175;255;255;127;80;255;0;52;94;2;0;7;169;255;255;114;86;255;0;59;94;2;0;6;
   169;238;238;106;80;255;0;66;94;2;0;6;169;205;205;91;69;255;0;73;94;2;0;6;168;139;139;62;47;255;0;80;94;2;
   0;154;147;237;100;149;237;255;0;95;94;2;0;33;34;255;255;248;220;255;0;104;94;2;0;33;34;255;255;248;220;
   255;0;114;94;2;0;34;35;238;238;232;205;255;0;124;94;2;0;34;34;205;205;200;177;255;0;134;94;2;0;35;34;139;
   139;136;120;255;0;144;94;2;0;246;231;220;220;20;60;255;0;152;94;2;0;127;255;255;0;255;255;255;0;157;94;2;
   0;127;255;255;0;255;255;255;0;163;94;2;0;127;255;238;0;238;238;255;0;169;94;2;0;127;255;205;0;205;205;
   255;0;175;94;2;0;127;255;139;0;139;139;255;0;181;94;2;0;30;239;184;184;134;11;255;0;195;94;2;0;30;240;
   255;255;185;15;255;0;210;94;2;0;30;240;238;238;173;14;255;0;225;94;2;0;30;240;205;205;149;12;255;0;240;
   94;2;0;30;240;139;139;101;8;255;0;255;94;2;0;85;255;100;0;100;0;255;0;9;95;2;0;39;110;189;189;183;107;
   255;0;19;95;2;0;58;142;107;85;107;47;255;0;34;95;2;0;58;143;255;202;255;112;255;0;50;95;2;0;58;143;238;
   188;238;104;255;0;66;95;2;0;58;143;205;162;205;90;255;0;82;95;2;0;58;143;139;110;139;61;255;0;98;95;2;0;
   23;255;255;255;140;0;255;0;109;95;2;0;21;255;255;255;127;0;255;0;121;95;2;0;21;255;238;238;118;0;255;0;
   133;95;2;0;21;255;205;205;102;0;255;0;145;95;2;0;21;255;139;139;69;0;255;0;157;95;2;0;198;192;204;153;50;
   204;255;0;168;95;2;0;198;193;255;191;62;255;255;0;180;95;2;0;198;192;238;178;58;238;255;0;192;95;2;0;198;
   192;205;154;50;205;255;0;204;95;2;0;198;192;139;104;34;139;255;0;216;95;2;0;10;121;233;233;150;122;255;0;
   227;95;2;0;85;61;188;143;188;143;255;0;240;95;2;0;85;62;255;193;255;193;255;0;254;95;2;0;85;62;238;180;
   238;180;255;0;12;96;2;0;85;62;205;155;205;155;255;0;26;96;2;0;85;62;139;105;139;105;255;0;40;96;2;0;175;
   143;139;72;61;139;255;0;54;96;2;0;127;103;79;47;79;79;255;0;68;96;2;0;127;104;255;151;255;255;255;0;83;
   96;2;0;127;103;238;141;238;238;255;0;98;96;2;0;127;104;205;121;205;205;255;0;113;96;2;0;127;104;139;82;
   139;139;255;0;128;96;2;0;127;103;79;47;79;79;255;0;142;96;2;0;128;255;209;0;206;209;255;0;156;96;2;0;199;
   255;211;148;0;211;255;0;167;96;2;0;232;235;255;255;20;147;255;0;176;96;2;0;232;235;255;255;20;147;255;0;
   186;96;2;0;232;235;238;238;18;137;255;0;196;96;2;0;232;235;205;205;16;118;255;0;206;96;2;0;231;236;139;
   139;10;80;255;0;216;96;2;0;138;255;255;0;191;255;255;0;228;96;2;0;138;255;255;0;191;255;255;0;241;96;2;0;
   138;255;238;0;178;238;255;0;254;96;2;0;138;255;205;0;154;205;255;0;11;97;2;0;138;255;139;0;104;139;255;0;
   24;97;2;0;0;0;105;105;105;105;255;0;32;97;2;0;0;0;105;105;105;105;255;0;40;97;2;0;148;225;255;30;144;255;
   255;0;51;97;2;0;148;225;255;30;144;255;255;0;63;97;2;0;148;225;238;28;134;238;255;0;75;97;2;0;148;225;
   205;24;116;205;255;0;87;97;2;0;148;225;139;16;78;139;255;0;99;97;2;0;0;206;178;178;34;34;255;0;109;97;2;
   0;0;207;255;255;48;48;255;0;120;97;2;0;0;207;238;238;44;44;255;0;131;97;2;0;0;207;205;205;38;38;255;0;
   142;97;2;0;0;207;139;139;26;26;255;0;153;97;2;0;28;15;255;255;250;240;255;0;165;97;2;0;85;192;139;34;139;
   34;255;0;177;97;2;0;0;0;220;220;220;220;255;0;187;97;2;0;170;7;255;248;248;255;255;0;198;97;2;0;35;255;
   255;255;215;0;255;0;203;97;2;0;35;255;255;255;215;0;255;0;209;97;2;0;35;255;238;238;201;0;255;0;215;97;2;
   0;35;255;205;205;173;0;255;0;221;97;2;0;35;255;139;139;117;0;255;0;227;97;2;0;30;217;218;218;165;32;255;
   0;237;97;2;0;30;218;255;255;193;37;255;0;248;97;2;0;30;218;238;238;180;34;255;0;3;98;2;0;30;218;205;205;
   155;29;255;0;14;98;2;0;30;218;139;139;105;20;255;0;25;98;2;0;0;0;192;192;192;192;255;0;30;98;2;0;0;0;0;0;
   0;0;255;0;36;98;2;0;0;0;3;3;3;3;255;0;42;98;2;0;0;0;26;26;26;26;255;0;49;98;2;0;0;0;255;255;255;255;255;
   0;57;98;2;0;0;0;28;28;28;28;255;0;64;98;2;0;0;0;31;31;31;31;255;0;71;98;2;0;0;0;33;33;33;33;255;0;78;98;
   2;0;0;0;36;36;36;36;255;0;85;98;2;0;0;0;38;38;38;38;255;0;92;98;2;0;0;0;41;41;41;41;255;0;99;98;2;0;0;0;
   43;43;43;43;255;0;106;98;2;0;0;0;46;46;46;46;255;0;113;98;2;0;0;0;48;48;48;48;255;0;120;98;2;0;0;0;5;5;5;
   5;255;0;126;98;2;0;0;0;51;51;51;51;255;0;133;98;2;0;0;0;54;54;54;54;255;0;140;98;2;0;0;0;56;56;56;56;255;
   0;147;98;2;0;0;0;59;59;59;59;255;0;154;98;2;0;0;0;61;61;61;61;255;0;161;98;2;0;0;0;64;64;64;64;255;0;168;
   98;2;0;0;0;66;66;66;66;255;0;175;98;2;0;0;0;69;69;69;69;255;0;182;98;2;0;0;0;71;71;71;71;255;0;189;98;2;
   0;0;0;74;74;74;74;255;0;196;98;2;0;0;0;8;8;8;8;255;0;202;98;2;0;0;0;77;77;77;77;255;0;209;98;2;0;0;0;79;
   79;79;79;255;0;216;98;2;0;0;0;82;82;82;82;255;0;223;98;2;0;0;0;84;84;84;84;255;0;230;98;2;0;0;0;87;87;87;
   87;255;0;237;98;2;0;0;0;89;89;89;89;255;0;244;98;2;0;0;0;92;92;92;92;255;0;251;98;2;0;0;0;94;94;94;94;
   255;0;2;99;2;0;0;0;97;97;97;97;255;0;9;99;2;0;0;0;99;99;99;99;255;0;16;99;2;0;0;0;10;10;10;10;255;0;22;
   99;2;0;0;0;102;102;102;102;255;0;29;99;2;0;0;0;105;105;105;105;255;0;36;99;2;0;0;0;107;107;107;107;255;0;
   43;99;2;0;0;0;110;110;110;110;255;0;50;99;2;0;0;0;112;112;112;112;255;0;57;99;2;0;0;0;115;115;115;115;
   255;0;64;99;2;0;0;0;117;117;117;117;255;0;71;99;2;0;0;0;120;120;120;120;255;0;78;99;2;0;0;0;122;122;122;
   122;255;0;85;99;2;0;0;0;125;125;125;125;255;0;92;99;2;0;0;0;13;13;13;13;255;0;98;99;2;0;0;0;127;127;127;
   127;255;0;105;99;2;0;0;0;130;130;130;130;255;0;112;99;2;0;0;0;133;133;133;133;255;0;119;99;2;0;0;0;135;
   135;135;135;255;0;126;99;2;0;0;0;138;138;138;138;255;0;133;99;2;0;0;0;140;140;140;140;255;0;140;99;2;0;0;
   0;143;143;143;143;255;0;147;99;2;0;0;0;145;145;145;145;255;0;154;99;2;0;0;0;148;148;148;148;255;0;161;99;
   2;0;0;0;150;150;150;150;255;0;168;99;2;0;0;0;15;15;15;15;255;0;174;99;2;0;0;0;153;153;153;153;255;0;181;
   99;2;0;0;0;156;156;156;156;255;0;188;99;2;0;0;0;158;158;158;158;255;0;195;99;2;0;0;0;161;161;161;161;255;
   0;202;99;2;0;0;0;163;163;163;163;255;0;209;99;2;0;0;0;166;166;166;166;255;0;216;99;2;0;0;0;168;168;168;
   168;255;0;223;99;2;0;0;0;171;171;171;171;255;0;230;99;2;0;0;0;173;173;173;173;255;0;237;99;2;0;0;0;176;
   176;176;176;255;0;244;99;2;0;0;0;18;18;18;18;255;0;250;99;2;0;0;0;179;179;179;179;255;0;1;100;2;0;0;0;
   181;181;181;181;255;0;8;100;2;0;0;0;184;184;184;184;255;0;15;100;2;0;0;0;186;186;186;186;255;0;22;100;2;
   0;0;0;189;189;189;189;255;0;29;100;2;0;0;0;191;191;191;191;255;0;36;100;2;0;0;0;194;194;194;194;255;0;43;
   100;2;0;0;0;196;196;196;196;255;0;50;100;2;0;0;0;199;199;199;199;255;0;57;100;2;0;0;0;201;201;201;201;
   255;0;64;100;2;0;0;0;20;20;20;20;255;0;70;100;2;0;0;0;204;204;204;204;255;0;77;100;2;0;0;0;207;207;207;
   207;255;0;84;100;2;0;0;0;209;209;209;209;255;0;91;100;2;0;0;0;212;212;212;212;255;0;98;100;2;0;0;0;214;
   214;214;214;255;0;105;100;2;0;0;0;217;217;217;217;255;0;112;100;2;0;0;0;219;219;219;219;255;0;119;100;2;
   0;0;0;222;222;222;222;255;0;126;100;2;0;0;0;224;224;224;224;255;0;133;100;2;0;0;0;227;227;227;227;255;0;
   140;100;2;0;0;0;23;23;23;23;255;0;146;100;2;0;0;0;229;229;229;229;255;0;153;100;2;0;0;0;232;232;232;232;
   255;0;160;100;2;0;0;0;235;235;235;235;255;0;167;100].

(** [n.q+84546]: 7089 bytes. *)
Definition segment_84546 : list Z :=
  [2;0;0;0;237;237;237;237;255;0;174;100;2;0;0;0;240;240;240;240;255;0;181;100;2;0;0;0;242;242;242;242;255;
   0;188;100;2;0;0;0;245;245;245;245;255;0;195;100;2;0;0;0;247;247;247;247;255;0;202;100;2;0;0;0;250;250;
   250;250;255;0;209;100;2;0;0;0;252;252;252;252;255;0;216;100;2;0;85;255;255;0;255;0;255;0;222;100;2;0;85;
   255;255;0;255;0;255;0;229;100;2;0;85;255;238;0;238;0;255;0;236;100;2;0;85;255;205;0;205;0;255;0;243;100;
   2;0;85;255;139;0;139;0;255;0;250;100;2;0;59;208;255;173;255;47;255;0;6;101;2;0;0;0;192;192;192;192;255;0;
   11;101;2;0;0;0;0;0;0;0;255;0;17;101;2;0;0;0;3;3;3;3;255;0;23;101;2;0;0;0;26;26;26;26;255;0;30;101;2;0;0;
   0;255;255;255;255;255;0;38;101;2;0;0;0;28;28;28;28;255;0;45;101;2;0;0;0;31;31;31;31;255;0;52;101;2;0;0;0;
   33;33;33;33;255;0;59;101;2;0;0;0;36;36;36;36;255;0;66;101;2;0;0;0;38;38;38;38;255;0;73;101;2;0;0;0;41;41;
   41;41;255;0;80;101;2;0;0;0;43;43;43;43;255;0;87;101;2;0;0;0;46;46;46;46;255;0;94;101;2;0;0;0;48;48;48;48;
   255;0;101;101;2;0;0;0;5;5;5;5;255;0;107;101;2;0;0;0;51;51;51;51;255;0;114;101;2;0;0;0;54;54;54;54;255;0;
   121;101;2;0;0;0;56;56;56;56;255;0;128;101;2;0;0;0;59;59;59;59;255;0;135;101;2;0;0;0;61;61;61;61;255;0;
   142;101;2;0;0;0;64;64;64;64;255;0;149;101;2;0;0;0;66;66;66;66;255;0;156;101;2;0;0;0;69;69;69;69;255;0;
   163;101;2;0;0;0;71;71;71;71;255;0;170;101;2;0;0;0;74;74;74;74;255;0;177;101;2;0;0;0;8;8;8;8;255;0;183;
   101;2;0;0;0;77;77;77;77;255;0;190;101;2;0;0;0;79;79;79;79;255;0;197;101;2;0;0;0;82;82;82;82;255;0;204;
   101;2;0;0;0;84;84;84;84;255;0;211;101;2;0;0;0;87;87;87;87;255;0;218;101;2;0;0;0;89;89;89;89;255;0;225;
   101;2;0;0;0;92;92;92;92;255;0;232;101;2;0;0;0;94;94;94;94;255;0;239;101;2;0;0;0;97;97;97;97;255;0;246;
   101;2;0;0;0;99;99;99;99;255;0;253;101;2;0;0;0;10;10;10;10;255;0;3;102;2;0;0;0;102;102;102;102;255;0;10;
   102;2;0;0;0;105;105;105;105;255;0;17;102;2;0;0;0;107;107;107;107;255;0;24;102;2;0;0;0;110;110;110;110;
   255;0;31;102;2;0;0;0;112;112;112;112;255;0;38;102;2;0;0;0;115;115;115;115;255;0;45;102;2;0;0;0;117;117;
   117;117;255;0;52;102;2;0;0;0;120;120;120;120;255;0;59;102;2;0;0;0;122;122;122;122;255;0;66;102;2;0;0;0;
   125;125;125;125;255;0;73;102;2;0;0;0;13;13;13;13;255;0;79;102;2;0;0;0;127;127;127;127;255;0;86;102;2;0;0;
   0;130;130;130;130;255;0;93;102;2;0;0;0;133;133;133;133;255;0;100;102;2;0;0;0;135;135;135;135;255;0;107;
   102;2;0;0;0;138;138;138;138;255;0;114;102;2;0;0;0;140;140;140;140;255;0;121;102;2;0;0;0;143;143;143;143;
   255;0;128;102;2;0;0;0;145;145;145;145;255;0;135;102;2;0;0;0;148;148;148;148;255;0;142;102;2;0;0;0;150;
   150;150;150;255;0;149;102;2;0;0;0;15;15;15;15;255;0;155;102;2;0;0;0;153;153;153;153;255;0;162;102;2;0;0;
   0;156;156;156;156;255;0;169;102;2;0;0;0;158;158;158;158;255;0;176;102;2;0;0;0;161;161;161;161;255;0;183;
   102;2;0;0;0;163;163;163;163;255;0;190;102;2;0;0;0;166;166;166;166;255;0;197;102;2;0;0;0;168;168;168;168;
   255;0;204;102;2;0;0;0;171;171;171;171;255;0;211;102;2;0;0;0;173;173;173;173;255;0;218;102;2;0;0;0;176;
   176;176;176;255;0;225;102;2;0;0;0;18;18;18;18;255;0;231;102;2;0;0;0;179;179;179;179;255;0;238;102;2;0;0;
   0;181;181;181;181;255;0;245;102;2;0;0;0;184;184;184;184;255;0;252;102;2;0;0;0;186;186;186;186;255;0;3;
   103;2;0;0;0;189;189;189;189;255;0;10;103;2;0;0;0;191;191;191;191;255;0;17;103;2;0;0;0;194;194;194;194;
   255;0;24;103;2;0;0;0;196;196;196;196;255;0;31;103;2;0;0;0;199;199;199;199;255;0;38;103;2;0;0;0;201;201;
   201;201;255;0;45;103;2;0;0;0;20;20;20;20;255;0;51;103;2;0;0;0;204;204;204;204;255;0;58;103;2;0;0;0;207;
   207;207;207;255;0;65;103;2;0;0;0;209;209;209;209;255;0;72;103;2;0;0;0;212;212;212;212;255;0;79;103;2;0;0;
   0;214;214;214;214;255;0;86;103;2;0;0;0;217;217;217;217;255;0;93;103;2;0;0;0;219;219;219;219;255;0;100;
   103;2;0;0;0;222;222;222;222;255;0;107;103;2;0;0;0;224;224;224;224;255;0;114;103;2;0;0;0;227;227;227;227;
   255;0;121;103;2;0;0;0;23;23;23;23;255;0;127;103;2;0;0;0;229;229;229;229;255;0;134;103;2;0;0;0;232;232;
   232;232;255;0;141;103;2;0;0;0;235;235;235;235;255;0;148;103;2;0;0;0;237;237;237;237;255;0;155;103;2;0;0;
   0;240;240;240;240;255;0;162;103;2;0;0;0;242;242;242;242;255;0;169;103;2;0;0;0;245;245;245;245;255;0;176;
   103;2;0;0;0;247;247;247;247;255;0;183;103;2;0;0;0;250;250;250;250;255;0;190;103;2;0;0;0;252;252;252;252;
   255;0;197;103;2;0;85;15;255;240;255;240;255;0;206;103;2;0;85;15;255;240;255;240;255;0;216;103;2;0;85;15;
   238;224;238;224;255;0;226;103;2;0;85;14;205;193;205;193;255;0;236;103;2;0;85;14;139;131;139;131;255;0;
   246;103;2;0;233;150;255;255;105;180;255;0;254;103;2;0;234;145;255;255;110;180;255;0;7;104;2;0;235;141;
   238;238;106;167;255;0;16;104;2;0;236;135;205;205;96;144;255;0;25;104;2;0;234;148;139;139;58;98;255;0;34;
   104;2;0;0;140;205;205;92;92;255;0;44;104;2;0;0;148;255;255;106;106;255;0;55;104;2;0;0;148;238;238;99;99;
   255;0;66;104;2;0;0;149;205;205;85;85;255;0;77;104;2;0;0;148;139;139;58;58;255;0;88;104;2;0;194;255;130;
   75;0;130;255;0;95;104;2;0;42;0;255;255;255;254;0;0;101;104;2;0;42;15;255;255;255;240;255;0;107;104;2;0;
   42;15;255;255;255;240;255;0;114;104;2;0;42;15;238;238;238;224;255;0;121;104;2;0;42;14;205;205;205;193;
   255;0;128;104;2;0;42;14;139;139;139;131;255;0;135;104;2;0;38;106;240;240;230;140;255;0;141;104;2;0;39;
   112;255;255;246;143;255;0;148;104;2;0;39;112;238;238;230;133;255;0;155;104;2;0;39;111;205;205;198;115;
   255;0;162;104;2;0;39;111;139;139;134;78;255;0;169;104;2;0;170;20;250;230;230;250;255;0;178;104;2;0;240;
   15;255;255;240;245;255;0;192;104;2;0;240;15;255;255;240;245;255;0;207;104;2;0;239;15;238;238;224;229;255;
   0;222;104;2;0;240;14;205;205;193;197;255;0;237;104;2;0;239;14;139;139;131;134;255;0;252;104;2;0;64;255;
   252;124;252;0;255;0;6;105;2;0;38;49;255;255;250;205;255;0;19;105;2;0;38;49;255;255;250;205;255;0;33;105;
   2;0;37;50;238;238;233;191;255;0;47;105;2;0;38;49;205;205;201;165;255;0;61;105;2;0;39;49;139;139;137;112;
   255;0;75;105;2;0;137;63;230;173;216;230;255;0;85;105;2;0;138;64;255;191;239;255;255;0;96;105;2;0;138;64;
   238;178;223;238;255;0;107;105;2;0;138;63;205;154;192;205;255;0;118;105;2;0;137;64;139;104;131;139;255;0;
   129;105;2;0;0;119;240;240;128;128;255;0;140;105;2;0;127;31;255;224;255;255;255;0;150;105;2;0;127;31;255;
   224;255;255;255;0;161;105;2;0;127;31;238;209;238;238;255;0;172;105;2;0;127;31;205;180;205;205;255;0;183;
   105;2;0;127;31;139;122;139;139;255;0;194;105;2;0;35;115;238;238;221;130;255;0;209;105;2;0;35;116;255;255;
   236;139;255;0;225;105;2;0;35;115;238;238;220;130;255;0;241;105;2;0;35;115;205;205;190;112;255;0;1;106;2;
   0;35;115;139;139;129;76;255;0;17;106;2;0;42;40;250;250;250;210;255;0;38;106;2;0;0;0;211;211;211;211;255;
   0;48;106;2;0;0;0;211;211;211;211;255;0;58;106;2;0;248;73;255;255;182;193;255;0;68;106;2;0;249;81;255;255;
   174;185;255;0;79;106;2;0;248;81;238;238;162;173;255;0;90;106;2;0;249;80;205;205;140;149;255;0;101;106;2;
   0;249;80;139;139;95;101;255;0;112;106;2;0;12;132;255;255;160;122;255;0;124;106;2;0;12;132;255;255;160;
   122;255;0;137;106;2;0;11;132;238;238;149;114;255;0;150;106;2;0;12;133;205;205;129;98;255;0;163;106;2;0;
   12;133;139;139;87;66;255;0;176;106;2;0;125;209;178;32;178;170;255;0;190;106;2;0;143;117;250;135;206;250;
   255;0;203;106;2;0;143;79;255;176;226;255;255;0;217;106;2;0;143;79;238;164;211;238;255;0;231;106;2;0;142;
   79;205;141;182;205;255;0;245;106;2;0;143;78;139;96;123;139;255;0;3;107;2;0;175;143;255;132;112;255;255;0;
   18;107;2;0;148;56;153;119;136;153;255;0;33;107;2;0;148;56;153;119;136;153;255;0;48;107;2;0;151;52;222;
   176;196;222;255;0;63;107;2;0;151;53;255;202;225;255;255;0;79;107;2;0;151;53;238;188;210;238;255;0;95;107;
   2;0;151;53;205;162;181;205;255;0;111;107;2;0;150;53;139;110;123;139;255;0;127;107;2;0;42;31;255;255;255;
   224;255;0;139;107;2;0;42;31;255;255;255;224;255;0;152;107;2;0;42;31;238;238;238;209;255;0;165;107;2;0;42;
   31;205;205;205;180;255;0;178;107;2;0;42;31;139;139;139;122;255;0;191;107;2;0;85;192;205;50;205;50;255;0;
   201;107;2;0;21;20;250;250;240;230;255;0;207;107;2;0;212;255;255;255;0;255;255;0;215;107;2;0;212;255;255;
   255;0;255;255;0;224;107;2;0;212;255;238;238;0;238;255;0;233;107;2;0;212;255;205;205;0;205;255;0;242;107;
   2;0;212;255;139;139;0;139;255;0;251;107;2;0;239;185;176;176;48;96;255;0;2;108;2;0;228;203;255;255;52;179;
   255;0;10;108;2;0;228;203;238;238;48;167;255;0;18;108;2;0;228;204;205;205;41;144;255;0;26;108;2;0;228;203;
   139;139;28;98;255;0;34;108;2;0;113;128;205;102;205;170;255;0;51;108;2;0;170;255;205;0;0;205;255;0;62;108;
   2;0;204;152;211;186;85;211;255;0;75;108;2;0;203;153;255;224;102;255;255;0;89;108;2;0;203;153;238;209;95;
   238;255;0;103;108;2;0;203;153;205;180;82;205;255;0;117;108;2;0;203;154;139;122;55;139;255;0;131;108;2;0;
   183;124;219;147;112;219;255;0;144;108;2;0;183;125;255;171;130;255;255;0;158;108;2;0;183;125;238;159;121;
   238;255;0;172;108;2;0;183;125;205;137;104;205;255;0;186;108;2;0;183;124;139;93;71;139;255;0;200;108;2;0;
   103;169;179;60;179;113;255;0;215;108;2;0;176;143;238;123;104;238;255;0;231;108;2;0;111;255;250;0;250;154;
   255;0;249;108;2;0;125;167;209;72;209;204;255;0;9;109;2;0;228;228;199;199;21;133;255;0;25;109;2;0;170;198;
   112;25;25;112;255;0;38;109;2;0;106;9;255;245;255;250;255;0;48;109;2;0;4;30;255;255;228;225;255;0;58;109;
   2;0;4;30;255;255;228;225;255;0;69;109;2;0;4;30;238;238;213;210;255;0;80;109;2;0;3;29;205;205;183;181;255;
   0;91;109;2;0;5;29;139;139;125;123;255;0;102;109;2;0;26;73;255;255;228;181;255;0;111;109;2;0;25;81;255;
   255;222;173;255;0;123;109;2;0;25;81;255;255;222;173;255;0;136;109;2;0;25;82;238;238;207;161;255;0;149;
   109;2;0;25;82;205;205;179;139;255;0;162;109;2;0;25;82;139;139;121;94;255;0;175;109;2;0;170;255;128;0;0;
   128;255;0;180;109;2;0;170;255;128;0;0;128;255;0;189;109;2;0;42;0;255;255;255;254;0;0;194;109;2;0;27;23;
   253;253;245;230;255;0;202;109;2;0;56;192;142;107;142;35;255;0;212;109;2;0;56;193;255;192;255;62;255;0;
   223;109;2;0;56;192;238;179;238;58;255;0;234;109;2;0;56;192;205;154;205;50;255;0;245;109;2;0;56;192;139;
   105;139;34;255;0;0;110;2;0;27;255;255;255;165;0;255;0;7;110;2;0;27;255;255;255;165;0;255;0;15;110;2;0;27;
   255;238;238;154;0;255;0;23;110;2;0;27;255;205;205;133;0;255;0;31;110;2;0;27;255;139;139;90;0;255;0;39;
   110;2;0;11;255;255;255;69;0;255;0;49;110;2;0;11;255;255;255;69;0;255;0;60;110;2;0;11;255;238;238;64;0;
   255;0;71;110;2;0;11;255;205;205;55;0;255;0;82;110;2;0;11;255;139;139;37;0;255;0;93;110;2;0;214;123;218;
   218;112;214;255;0;100;110;2;0;214;124;255;255;131;250;255;0;108;110;2;0;214;124;238;238;122;233;255;0;
   116;110;2;0;214;124;205;205;105;201;255;0;124;110;2;0;213;124;139;139;71;137;255;0;132;110;2;0;38;72;238;
   238;232;170;255;0;146;110;2;0;85;100;251;152;251;152;255;0;156;110;2;0;85;101;255;154;255;154;255;0;167;
   110;2;0;85;100;238;144;238;144;255;0;178;110;2;0;85;100;205;124;205;124;255;0;189;110;2;0;85;100;139;84;
   139;84;255;0;200;110;2;0;127;67;238;175;238;238;255;0;214;110;2;0;127;68;255;187;255;255;255;0;229;110;2;
   0;127;68;238;174;238;238;255;0;244;110;2;0;127;68;205;150;205;205;255;0;3;111;2;0;127;67;139;102;139;139;
   255;0;18;111;2;0;241;124;219;219;112;147;255;0;32;111;2;0;241;125;255;255;130;171;255;0;47;111;2;0;241;
   125;238;238;121;159;255;0;62;111;2;0;241;125;205;205;104;137;255;0;77;111;2;0;241;124;139;139;71;93;255;
   0;92;111;2;0;26;41;255;255;239;213;255;0;103;111;2;0;20;70;255;255;218;185;255;0;113;111;2;0;20;70;255;
   255;218;185;255;0;124;111;2;0;19;69;238;238;203;173;255;0;135;111;2;0;19;69;205;205;175;149;255;0;146;
   111;2;0;20;69;139;139;119;101;255;0;157;111;2;0;20;176;205;205;133;63;255;0;162;111;2;0;247;63;255;255;
   192;203;255;0;167;111;2;0;245;73;255;255;181;197;255;0;173;111;2;0;245;73;238;238;169;184;255;0;179;111;
   2;0;245;74;205;205;145;158;255;0;185;111;2;0;245;73;139;139;99;108;255;0;191;111;2;0;212;70;221;221;160;
   221;255;0;196;111;2;0;212;68;255;255;187;255;255;0;202;111;2;0;212;68;238;238;174;238;255;0;208;111;2;0;
   212;68;205;205;150;205;255;0;214;111;2;0;212;67;139;139;102;139;255;0;220;111;2;0;132;59;230;176;224;230;
   255;0;231;111;2;0;196;221;240;160;32;240;255;0;238;111;2;0;191;207;255;155;48;255;255;0;246;111;2;0;192;
   207;238;145;44;238;255;0;254;111;2;0;192;207;205;125;38;205;255;0;6;112;2;0;192;207;139;85;26;139;255;0;
   14;112;2;0;0;255;255;255;0;0;255;0;18;112;2;0;0;255;255;255;0;0;255;0;23;112;2;0;0;255;238;238;0;0;255;0;
   28;112;2;0;0;255;205;205;0;0;255;0;33;112;2;0;0;255;139;139;0;0;255;0;38;112;2;0;0;61;188;188;143;143;
   255;0;48;112;2;0;0;62;255;255;193;193;255;0;59;112;2;0;0;62;238;238;180;180;255;0;70;112;2;0;0;62;205;
   205;155;155;255;0;81;112;2;0;0;62;139;139;105;105;255;0;92;112;2;0;159;181;225;65;105;225;255;0;102;112;
   2;0;159;183;255;72;118;255;255;0;113;112;2;0;159;183;238;67;110;238;255;0;124;112;2;0;159;182;205;58;95;
   205;255;0;135;112;2;0;159;183;139;39;64;139;255;0;146;112;2;0;17;220;139;139;69;19;255;0;158;112;2;0;4;
   138;250;250;128;114;255;0;165;112;2;0;9;150;255;255;140;105;255;0;173;112;2;0;9;150;238;238;130;98;255;0;
   181;112;2;0;9;150;205;205;112;84;255;0;189;112;2;0;9;150;139;139;76;57;255;0;197;112;2;0;19;154;244;244;
   164;96;255;0;208;112;2;0;103;170;139;46;139;87;255;0;217;112;2;0;103;171;255;84;255;159;255;0;227;112;2;
   0;103;171;238;78;238;148;255;0;237;112;2;0;103;171;205;67;205;128;255;0;247;112;2;0;103;170;139;46;139;
   87;255;0;1;113;2;0;17;16;255;255;245;238;255;0;10;113;2;0;17;16;255;255;245;238;255;0;20;113;2;0;18;17;
   238;238;229;222;255;0;30;113;2;0;18;17;205;205;197;191;255;0;40;113;2;0;18;16;139;139;134;130;255;0;50;
   113;2;0;13;183;160;160;82;45;255;0;57;113;2;0;13;184;255;255;130;71;255;0;65;113;2;0;13;184;238;238;121;
   66;255;0;73;113;2;0;13;184;205;205;104;57;255;0;81;113;2;0;13;185;139;139;71;38;255;0;89;113;2;0;139;108;
   235;135;206;235;255;0;97;113;2;0;144;120;255;135;206;255;255;0;106;113;2;0;144;120;238;126;192;238;255;0;
   115;113;2;0;144;120;205;108;166;205;255;0;124;113;2;0;145;119;139;74;112;139;255;0;133;113;2;0;175;143;
   205;106;90;205;255;0;143;113;2;0;175;144;255;131;111;255;255;0;154;113;2;0;175;144;238;122;103;238;255;0;
   165;113;2;0;175;144;205;105;89;205;255;0;176;113;2;0;175;144;139;71;60;139;255;0;187;113;2;0;148;56;144;
   112;128;144;255;0;197;113;2;0;149;56;255;198;226;255;255;0;208;113;2;0;149;56;238;185;211;238;255;0;219;
   113;2;0;148;57;205;159;182;205;255;0;230;113;2;0;149;56;139;108;123;139;255;0;241;113;2;0;148;56;144;112;
   128;144;255;0;251;113;2;0;0;5;255;255;250;250;255;0;0;114;2;0;0;5;255;255;250;250;255;0;6;114;2;0;0;5;
   238;238;233;233;255;0;12;114;2;0;0;4;205;205;201;201;255;0;18;114;2;0;0;3;139;139;137;137;255;0;24;114;2;
   0;106;255;255;0;255;127;255;0;36;114;2;0;106;255;255;0;255;127;255;0;49;114;2;0;106;255;238;0;238;118;
   255;0;62;114;2;0;106;255;205;0;205;102;255;0;75;114;2;0;106;255;139;0;139;69;255;0;88;114;2;0;146;155;
   180;70;130;180;255;0;98;114;2;0;146;156;255;99;184;255;255;0;109;114;2;0;146;156;238;92;172;238;255;0;
   120;114;2;0;146;156;205;79;148;205;255;0;131;114;2;0;147;155;139;54;100;139;255;0;142;114;2;0;24;84;210;
   210;180;140;255;0;146;114;2;0;20;176;255;255;165;79;255;0;151;114;2;0;20;176;238;238;154;73;255;0;156;
   114;2;0;20;176;205;205;133;63;255;0;161;114;2;0;20;176;139;139;90;43;255;0;166;114;2;0;212;29;216;216;
   191;216;255;0;174;114;2;0;212;30;255;255;225;255;255;0;183;114;2;0;212;30;238;238;210;238;255;0;192;114;
   2;0;212;29;205;205;181;205;255;0;201;114;2;0;212;29;139;139;123;139;255;0;210;114;2;0;6;184;255;255;99;
   71;255;0;217;114;2;0;6;184;255;255;99;71;255;0;225;114;2;0;6;184;238;238;92;66;255;0;233;114;2;0;6;184;
   205;205;79;57;255;0;241;114;2;0;6;185;139;139;54;38;255;0;252;117;2;0;42;0;255;255;255;254;0;0;249;114;2;
   0;123;182;224;64;224;208;255;0;3;115;2;0;129;255;255;0;245;255;255;0;14;115;2;0;129;255;238;0;229;238;
   255;0;25;115;2;0;129;255;205;0;197;205;255;0;36;115;2;0;129;255;139;0;134;139;255;0;47;115;2;0;212;115;
   238;238;130;238;255;0;54;115;2;0;227;215;208;208;32;144;255;0;64;115;2;0;235;193;255;255;62;150;255;0;75;
   115;2;0;235;192;238;238;58;140;255;0;86;115;2;0;235;192;205;205;50;120;255;0;97;115;2;0;235;192;139;139;
   34;82;255;0;108;115;2;0;27;68;245;245;222;179;255;0;114;115;2;0;27;69;255;255;231;186;255;0;121;115;2;0;
   27;68;238;238;216;174;255;0;128;115;2;0;27;68;205;205;186;150;255;0;135;115;2;0;27;67;139;139;126;102;
   255;0;142;115;2;0;0;0;255;255;255;255;255;0;148;115;2;0;0;0;245;245;245;245;255;0;159;115;2;0;42;255;255;
   255;255;0;255;0;166;115;2;0;42;255;255;255;255;0;255;0;174;115;2;0;42;255;238;238;238;0;255;0;182;115;2;
   0;42;255;205;205;205;0;255;0;190;115;2;0;42;255;139;139;139;0;255;0;198;115;2;0;56;192;205;154;205;50;
   255;0;0;0;0;0;0;0;0;0;0;0;0;0;153;120;2;0;154;117;2;0;156;117;2;0;158;117;2;0;160;117;2;0;162;117;2;0;
   164;117;2;0;166;117;2;0;168;117;2;0;170;117;2;0;172;117;2;0;175;117;2;0;178;117;2;0;181;117;2;0;184;117;
   2;0;187;117;2;0;190;117;2;0;193;117;2;0;196;117;2;0;199;117;2;0;202;117;2;0;0;0;0;0;0;0;0;0;4;0;0;0;4;0;
   0;0;5;0;0;0;49;0;0;0;16;0;0;0;0;0;0;0;0;0;0;0;0;0;0;0;0;0;0;0;0;0;0;0;0;0;0;0;0;0;0;0;0;0;0;0;0;0;0;0;0;
   0;0;0;0;0;0;0;0;0;0;0;0;0;0;0;0;0;0;0;0;0;0;0;0;0;0;0;30;119;2;0;90;120;2;0;8;0;0;0;16;0;0;0;24;0;0;0;0;
   0;0;0;0;0;0;0;17;0;0;0;0;0;0;0;0;0;0;0;0;0;0;0;8;0;0;0;16;0;0;0;24;0;0;0;0;0;0;0;0;0;0;0;18;0;0;0;0;0;0;
   0;0;0;0;0;0;0;0;0;0;0;0;0;0;0;0;0;0;0;0;0;0;0;0;0;0;0;0;0;0;0;0;0;0;0;0;0;0;0;0;0;0;0;0;0;0;0;0;0;0;0;0;
   0;0;0;0;0;0;0;0;0;0;0;0;0;0;0;0;0;0;0;0;0;0;0;0;0;8;0;0;0;4;0;0;0;0;0;0;0;0;0;0;0;50;0;0;0;0;0;0;0;0;0;0;
   0;0;0;0;0;0;0;0;0;8;0;0;0;4;0;0;0;0;0;0;0;0;0;0;0;51;0;0;0;0;0;0;0;0;0;0;0;0;0;0;0;0;0;0;0;0;0;0;0;0;0;0;
   0;0;0;0;0;0;0;0;0;0;0;0;0;51;0;0;0;0;0;0;0;0;0;0;0;0;0;0;0;0;0;0;0;0;0;0;0;0;0;0;0;0;0;0;0;0;0;0;0;51;0;
   0;0;0;0;0;0;0;0;0;0;0;0;0;0;0;0;0;0;0;0;0;0;0;0;0;0;0;0;0;0;0;0;0;0;0;0;0;0;0;0;0;0;0;0;0;0;0;0;0;0;0;0;
   0;0;0;0;0;0;0;0;0;0;0;0;0;0;0;0;0;0;0;0;0;0;0;0;0;0;0;0;0;0;0;0;0;0;0;0;0;0;0;0;0;0;0;0;0;0;0;0;0;0;0;0;
   0;0;0;0;0;0;0;0;0;0;0;0;0;0;0;0;0;0;0;0;0;0;0;0;0;0;0;0;0;0;0;0;0;0;0;0;0;0;0;0;0;0;0;0;0;0;0;0;0;0;0;0;
   0;0;0;0;0;0;0;0;0;0;0;0;0;0;0;0;0;0;0;0;0;0;0;0;0;0;0;0;0;0;0;0;0;0;0;0;0;0;0;0;0;0;0;0;0;0;0;0;0;0;0;0;
   0;0;0;0;0;0;0;0;0;0;0;0;0;0;0;0;0;0;0;0;0;0;0;0;0;0;0;0;0;0;0;0;0;0;0;0;0;0;0;0;0;0;0;0;0;0;0;0;0;0;0;0;
   0;0;0;0;0;0;0;0;0;0;0;0;0;0;0;0;0;0;0;0;0;0;0;0;0;0;0;0;0;0;0;0;0;0;0;0;0;0;0;0;0;0;0;0;0;0;0;0;0;0;0;0;
   0;0;0;0;0;0;0;0;0;0;0;0;0;0;0;0;0;0;0;0;0;0;0;0;0;0;0;0;0;0;0;0;0;0;0;0;0;0;0;0;0;0;0;0;0;0;0;0;0;0;0;0;
   0;0;0;0;0;0;0;0;0;0;0;0;0;0;0;0;0;0;0;0;0;0;0;0;0;0;0;0;0;0;0;0;0;0;0;0;0;0;0;0;0;0;0;0;0;0;0;0;0;0;0;0;
   0;0;0;0;0;0;0;0;0;0;0;0;0;0;0;0;0;0;0;0;0;0;0;0;0;0;0;0;0;0;0;0;0;0;0;0;0;0;0;0;0;0;0;0;0;0;0;0;0;0;2;0;
   0;192;3;0;0;192;4;0;0;192;5;0;0;192;6;0;0;192;7;0;0;192;8;0;0;192;9;0;0;192;10;0;0;192;11;0;0;192;12;0;0;
   192;13;0;0;192;14;0;0;192;15;0;0;192;16;0;0;192;17;0;0;192;18;0;0;192;19;0;0;192;20;0;0;192;21;0;0;192;
   22;0;0;192;23;0;0;192;24;0;0;192;25;0;0;192;26;0;0;192;27;0;0;192;28;0;0;192;29;0;0;192;30;0;0;192;31;0;
   0;192;0;0;0;179;1;0;0;195;2;0;0;195;3;0;0;195;4;0;0;195;5;0;0;195;6;0;0;195;7;0;0;195;8;0;0;195;9;0;0;
   195;10;0;0;195;11;0;0;195;12;0;0;195;13;0;0;211;14;0;0;195;15;0;0;195;0;0;12;187;1;0;12;195;2;0;12;195;3;
   0;12;195;4;0;12;211;76;100;1;0;188;100;1;0;44;101;1;0;44;101;1;0;32;0;0;0;9;0;0;0;10;0;0;0;13;0;0;0;11;0;
   0;0;12;0;0;0;133;0;0;0;0;32;0;0;1;32;0;0;2;32;0;0;3;32;0;0;4;32;0;0;5;32;0;0;6;32;0;0;8;32;0;0;9;32;0;0;
   10;32;0;0;40;32;0;0;41;32;0;0;95;32;0;0;0;48;0;0;0;0;0;0;0;0;0;0;10;0;0;0;100;0;0;0;232;3;0;0;16;39;0;0;
   160;134;1;0;64;66;15;0;128;150;152;0;0;225;245;5;3;0;0;0;4;0;0;0;4;0;0;0;6;0;0;0;131;249;162;0;68;78;110;
   0;252;41;21;0;209;87;39;0;221;52;245;0;98;219;192;0;60;153;149;0;65;144;67;0;99;81;254;0;187;222;171;0;
   183;97;197;0;58;110;36;0;210;77;66;0;73;6;224;0;9;234;46;0;28;146;209;0;235;29;254;0;41;177;28;0;232;62;
   167;0;245;53;130;0;68;187;46;0;156;233;132;0;180;38;112;0;65;126;95;0;214;145;57;0;83;131;57;0;156;244;
   57;0;139;95;132;0;40;249;189;0;248;31;59;0;222;255;151;0;15;152;5;0;17;47;239;0;10;90;139;0;109;31;109;0;
   207;126;54;0;9;203;39;0;70;79;183;0;158;102;63;0;45;234;95;0;186;39;117;0;229;235;199;0;61;123;241;0;247;
   57;7;0;146;82;138;0;251;107;234;0;31;177;95;0;8;93;141;0;48;3;86;0;123;252;70;0;240;171;107;0;32;188;207;
   0;54;244;154;0;227;169;29;0;94;97;145;0;8;27;230;0;133;153;101;0;160;20;95;0;141;64;104;0;128;216;255;0;
   39;115;77;0;6;6;49;0;202;86;21;0;201;168;115;0;123;226;96;0;107;140;192;0;0;0;0;0;0;0;0;0;0;0;0;0;0;0;0;
   0;0;0;0;0;0;0;0;0;0;0;0;0;0;0;0;0;0;0;0;0;0;0;0;0;0;0;0;0;6;0;0;0;0;0;0;0;0;0;0;0;0;0;0;0;0;0;0;0;0;0;0;
   0;0;0;0;0;0;0;0;0;0;0;0;0;0;0;0;255;255;255;255;255;0;0;0;0;0;0;0;0;0;0;0;0;0;0;0;0;0;0;0;0;0;0;0;0;0;0;
   0;0;0;0;0;0;0;0;0;0;5;0;0;0;0;0;0;0;0;0;0;0;15;0;0;0;0;0;0;0;0;0;0;0;0;0;0;0;0;0;0;0;0;0;0;0;7;0;0;0;8;0;
   0;0;248;171;2;0;0;0;0;0;0;0;0;0;0;0;0;0;2;0;0;0;0;0;0;0;0;0;0;0;0;0;0;255;255;255;255;255;0;0;0;0;0;0;0;
   0;0;0;0;0;0;0;0;0;0;0;0;0;0;0;0;0;0;0;0;0;0;0;0;0;9;0;0;0;0;0;0;0;0;0;0;0;15;0;0;0;0;0;0;0;0;0;0;0;0;0;0;
   0;0;0;0;0;9;0;0;0;0;0;0;0;8;0;0;0;240;167;2;0;0;4;0;0;0;0;0;0;0;0;0;0;0;0;0;0;0;0;0;0;0;0;0;0;0;0;0;0;
   255;255;255;255;0;0;0;0;0;0;0;0;0;0;0;0;0;0;0;0;0;0;0;0;0;0;0;0;0;0;0;0;0;0;0;0;5;0;0;0;0;0;0;0;0;0;0;0;
   15;0;0;0;0;0;0;0;0;0;0;0;0;0;0;0;0;0;0;0;0;0;0;0;10;0;0;0;8;0;0;0;232;163;2;0;0;4;0;0;0;0;0;0;0;0;0;0;1;
   0;0;0;0;0;0;0;0;0;0;0;0;0;0;10;255;255;255;255;0;0;0;0;0;0;0;0;0;0;0;0;0;0;0;0;0;0;0;0;0;0;0;0;0;0;0;0;0;
   0;0;0;116;0;0;0;14;174;2;0;110;0;0;0;16;174;2;0;114;0;0;0;18;174;2;0;102;0;0;0;20;174;2;0;97;0;0;0;22;
   174;2;0;101;0;0;0;24;174;2;0;119;0;0;0;26;174;2;0;87;0;0;0;39;174;2;0;115;0;0;0;53;174;2;0;83;0;0;0;65;
   174;2;0;100;0;0;0;78;174;2;0;68;0;0;0;90;174;2].

(** [n.q+95218]: 10240 bytes. *)
Definition segment_95218 : list Z :=
  [4;0;4;0;27;0;27;0;32;0;32;0;35;0;33;0;10;0;2;0;22;0;9;0;33;0;33;0;33;0;21;0;28;0;1;0;20;0;20;0;20;0;20;0;
   20;0;20;0;20;0;8;0;4;0;5;0;27;0;2;0;23;0;27;0;32;0;31;0;30;0;29;0;9;0;19;0;0;0;21;0;18;0;21;0;3;0;7;0;21;
   0;21;0;20;0;20;0;20;0;20;0;20;0;20;0;20;0;20;0;8;0;4;0;5;0;5;0;6;0;27;0;26;0;24;0;25;0;32;0;7;0;21;0;20;
   0;20;0;20;0;20;0;20;0;20;0;11;0;20;0;13;0;20;0;12;0;20;0;20;0;20;0;14;0;20;0;20;0;20;0;16;0;20;0;15;0;20;
   0;17;0;0;0;0;0;0;0;174;0;46;0;47;0;51;0;53;0;48;0;55;0;170;0;219;0;219;0;219;0;219;0;0;0;61;0;135;0;55;0;
   55;0;219;0;219;0;0;0;40;0;53;0;46;0;50;0;47;0;98;0;0;0;0;0;71;0;0;0;0;0;219;0;81;0;0;0;219;0;219;0;219;0;
   0;0;219;0;132;0;85;0;219;0;130;0;219;0;0;0;129;0;219;0;0;0;62;0;66;0;65;0;72;0;68;0;82;0;91;0;0;0;0;0;94;
   0;95;0;219;0;0;0;219;0;219;0;219;0;0;0;0;0;123;0;73;0;87;0;82;0;90;0;90;0;93;0;0;0;95;0;0;0;95;0;0;0;101;
   0;93;0;95;0;0;0;93;0;110;0;106;0;0;0;105;0;0;0;110;0;0;0;219;0;147;0;154;0;161;0;168;0;171;0;112;0;177;0;
   184;0;191;0;198;0;205;0;211;0;0;0;1;0;1;0;1;0;1;0;1;0;1;0;1;0;1;0;1;0;1;0;1;0;1;0;1;0;1;0;1;0;1;0;1;0;1;
   0;1;0;1;0;1;0;1;0;1;0;1;0;1;0;1;0;1;0;1;0;1;0;1;0;1;0;1;0;1;0;1;0;1;0;1;0;1;0;1;0;1;0;1;0;1;0;1;0;1;0;1;
   0;1;0;1;0;1;0;1;0;3;0;4;0;7;0;3;0;4;0;5;0;5;0;6;0;6;0;8;0;7;0;7;0;17;0;22;0;18;0;17;0;18;0;8;0;8;0;15;0;
   15;0;23;0;15;0;24;0;15;0;25;0;26;0;26;0;30;0;22;0;52;0;30;0;5;0;50;0;6;0;34;0;34;0;51;0;23;0;24;0;53;0;
   25;0;26;0;26;0;42;0;54;0;42;0;52;0;55;0;50;0;69;0;59;0;60;0;51;0;59;0;60;0;70;0;53;0;71;0;72;0;76;0;54;0;
   34;0;73;0;74;0;55;0;69;0;78;0;80;0;98;0;81;0;82;0;84;0;70;0;71;0;85;0;72;0;76;0;86;0;73;0;74;0;88;0;90;0;
   78;0;68;0;80;0;81;0;82;0;84;0;56;0;47;0;44;0;85;0;41;0;86;0;27;0;16;0;88;0;90;0;93;0;93;0;93;0;93;0;93;0;
   93;0;93;0;94;0;94;0;94;0;94;0;94;0;94;0;94;0;95;0;95;0;95;0;95;0;95;0;95;0;95;0;96;0;9;0;96;0;96;0;96;0;
   96;0;96;0;97;0;97;0;99;0;2;0;99;0;99;0;99;0;99;0;99;0;100;0;0;0;100;0;0;0;100;0;100;0;100;0;101;0;0;0;
   101;0;101;0;101;0;101;0;101;0;102;0;102;0;0;0;102;0;102;0;102;0;102;0;103;0;0;0;103;0;103;0;103;0;103;0;
   104;0;0;0;104;0;104;0;104;0;104;0;104;0;92;0;92;0;92;0;92;0;92;0;92;0;92;0;92;0;92;0;92;0;92;0;92;0;92;0;
   92;0;92;0;92;0;92;0;92;0;92;0;92;0;92;0;92;0;92;0;92;0;92;0;92;0;92;0;92;0;92;0;92;0;92;0;92;0;92;0;92;0;
   92;0;92;0;92;0;92;0;92;0;92;0;92;0;92;0;92;0;92;0;92;0;92;0;92;0;92;0;92;0;0;0;92;0;1;0;93;0;93;0;94;0;
   94;0;95;0;95;0;92;0;92;0;92;0;92;0;92;0;96;0;92;0;92;0;92;0;97;0;92;0;92;0;98;0;98;0;98;0;98;0;98;0;98;0;
   98;0;99;0;100;0;101;0;102;0;102;0;92;0;92;0;103;0;92;0;92;0;92;0;96;0;92;0;92;0;97;0;92;0;97;0;92;0;104;
   0;97;0;92;0;98;0;98;0;98;0;98;0;98;0;98;0;98;0;98;0;99;0;100;0;101;0;101;0;92;0;102;0;92;0;92;0;92;0;103;
   0;104;0;97;0;98;0;98;0;98;0;98;0;98;0;98;0;98;0;98;0;98;0;98;0;98;0;98;0;98;0;98;0;98;0;98;0;98;0;98;0;
   98;0;98;0;98;0;98;0;98;0;0;0;92;0;92;0;92;0;92;0;92;0;92;0;92;0;92;0;92;0;92;0;92;0;92;0;0;0;10;0;11;0;
   12;0;13;0;14;0;10;0;15;0;16;0;17;0;18;0;19;0;10;0;20;0;21;0;21;0;21;0;22;0;23;0;21;0;24;0;21;0;21;0;25;0;
   21;0;21;0;21;0;26;0;21;0;21;0;10;0;21;0;21;0;21;0;22;0;23;0;24;0;21;0;21;0;25;0;21;0;21;0;21;0;26;0;21;0;
   21;0;21;0;21;0;27;0;12;0;12;0;36;0;30;0;30;0;32;0;33;0;32;0;33;0;36;0;37;0;38;0;45;0;50;0;47;0;46;0;42;0;
   37;0;38;0;40;0;41;0;51;0;42;0;52;0;43;0;53;0;54;0;55;0;60;0;50;0;71;0;61;0;34;0;69;0;34;0;63;0;64;0;70;0;
   51;0;52;0;72;0;53;0;54;0;55;0;47;0;73;0;42;0;71;0;74;0;69;0;76;0;92;0;60;0;70;0;92;0;61;0;77;0;72;0;78;0;
   79;0;82;0;73;0;65;0;80;0;81;0;74;0;76;0;83;0;84;0;49;0;85;0;86;0;87;0;77;0;78;0;88;0;79;0;82;0;89;0;80;0;
   81;0;90;0;91;0;83;0;68;0;84;0;85;0;86;0;87;0;75;0;68;0;44;0;88;0;44;0;89;0;56;0;44;0;90;0;91;0;29;0;29;0;
   29;0;29;0;29;0;29;0;29;0;31;0;31;0;31;0;31;0;31;0;31;0;31;0;35;0;35;0;35;0;35;0;35;0;35;0;35;0;39;0;92;0;
   39;0;39;0;39;0;39;0;39;0;48;0;48;0;57;0;28;0;57;0;57;0;57;0;57;0;57;0;58;0;92;0;58;0;92;0;58;0;58;0;58;0;
   59;0;92;0;59;0;59;0;59;0;59;0;59;0;62;0;62;0;92;0;62;0;62;0;62;0;62;0;66;0;92;0;66;0;66;0;66;0;66;0;67;0;
   92;0;67;0;67;0;67;0;67;0;67;0;9;0;92;0;92;0;92;0;92;0;92;0;92;0;92;0;92;0;92;0;92;0;92;0;92;0;92;0;92;0;
   92;0;92;0;92;0;92;0;92;0;92;0;92;0;92;0;92;0;92;0;92;0;92;0;92;0;92;0;92;0;92;0;92;0;92;0;92;0;92;0;92;0;
   92;0;92;0;92;0;92;0;92;0;92;0;92;0;92;0;92;0;92;0;92;0;92;0;92;0;8;0;174;255;209;0;10;0;174;255;174;255;
   11;0;174;255;174;255;174;255;174;255;174;255;174;255;174;255;174;255;5;0;209;0;174;255;209;0;209;0;209;0;
   209;0;209;0;209;0;209;0;209;0;174;255;251;255;174;255;14;0;236;255;174;255;174;255;174;255;174;255;209;0;
   209;0;209;0;209;0;209;0;13;0;37;0;12;0;66;0;16;0;80;0;19;0;109;0;123;0;20;0;152;0;15;0;166;0;195;0;174;
   255;174;255;174;255;174;255;174;255;174;255;174;255;174;255;174;255;174;255;174;255;174;255;174;255;174;
   255;174;255;174;255;174;255;174;255;174;255;174;255;174;255;174;255;174;255;174;255;23;0;174;255;119;0;
   174;255;7;0;46;0;174;255;38;0;174;255;23;0;17;0;35;0;174;255;13;0;174;255;174;255;174;255;174;255;58;0;
   174;255;174;255;53;0;174;255;174;255;174;255;40;0;174;255;7;0;174;255;59;0;69;0;174;255;72;0;174;255;174;
   255;174;255;174;255;174;255;174;255;174;255;252;255;232;0;246;255;255;255;26;0;0;0;39;0;1;0;50;0;174;255;
   174;255;2;0;36;0;3;0;47;0;174;255;174;255;174;255;174;255;174;255;254;255;148;0;174;255;9;0;27;0;174;255;
   188;255;174;255;174;255;175;255;174;255;174;255;174;255;174;255;174;255;174;255;174;255;0;0;0;0;0;0;109;
   230;236;222;5;0;11;0;0;0;0;0;0;0;73;0;49;1;83;0;127;1;48;1;105;0;120;1;255;0;129;1;83;2;130;1;131;1;132;
   1;133;1;134;1;84;2;135;1;136;1;137;1;86;2;138;1;87;2;139;1;140;1;142;1;221;1;143;1;89;2;144;1;91;2;145;1;
   146;1;147;1;96;2;148;1;99;2;150;1;105;2;151;1;104;2;152;1;153;1;156;1;111;2;157;1;114;2;159;1;117;2;166;
   1;128;2;167;1;168;1;169;1;131;2;172;1;173;1;174;1;136;2;175;1;176;1;177;1;138;2;178;1;139;2;183;1;146;2;
   184;1;185;1;188;1;189;1;196;1;198;1;196;1;197;1;197;1;198;1;199;1;201;1;199;1;200;1;200;1;201;1;202;1;
   204;1;202;1;203;1;203;1;204;1;241;1;243;1;241;1;242;1;242;1;243;1;244;1;245;1;246;1;149;1;247;1;191;1;32;
   2;158;1;134;3;172;3;136;3;173;3;137;3;174;3;138;3;175;3;140;3;204;3;142;3;205;3;143;3;206;3;153;3;69;3;
   153;3;190;31;163;3;194;3;247;3;248;3;250;3;251;3;96;30;155;30;223;0;223;0;158;30;223;0;89;31;81;31;91;31;
   83;31;93;31;85;31;95;31;87;31;188;31;179;31;204;31;195;31;236;31;229;31;252;31;243;31;58;2;101;44;59;2;
   60;2;61;2;154;1;62;2;102;44;65;2;66;2;67;2;128;1;68;2;137;2;69;2;140;2;244;3;184;3;249;3;242;3;253;3;123;
   3;254;3;124;3;255;3;125;3;192;4;207;4;38;33;201;3;42;33;107;0;43;33;229;0;50;33;78;33;131;33;132;33;96;
   44;97;44;98;44;107;2;99;44;125;29;100;44;125;2;109;44;81;2;110;44;113;2;111;44;80;2;112;44;82;2;114;44;
   115;44;117;44;118;44;126;44;63;2;127;44;64;2;242;44;243;44;125;167;121;29;139;167;140;167;141;167;101;2;
   170;167;102;2;199;16;39;45;205;16;45;45;118;3;119;3;156;3;181;0;146;3;208;3;152;3;209;3;166;3;213;3;160;
   3;214;3;154;3;240;3;161;3;241;3;149;3;245;3;207;3;215;3;0;0;0;0;65;0;32;26;192;0;32;31;0;1;1;47;50;1;1;5;
   57;1;1;15;74;1;1;45;121;1;1;5;112;3;1;3;145;3;32;17;163;3;32;9;0;4;80;16;16;4;32;32;96;4;1;33;138;4;1;53;
   193;4;1;13;208;4;1;63;20;5;1;19;49;5;48;38;160;1;1;5;179;1;1;3;205;1;1;15;222;1;1;17;248;1;1;39;34;2;1;
   17;216;3;1;23;0;30;1;149;160;30;1;95;8;31;248;8;24;31;248;6;40;31;248;8;56;31;248;8;72;31;248;6;104;31;
   248;8;136;31;248;8;152;31;248;8;168;31;248;8;184;31;248;2;186;31;182;2;200;31;170;4;216;31;248;2;218;31;
   156;2;232;31;248;2;234;31;144;2;248;31;128;2;250;31;130;2;70;2;1;9;16;5;1;3;96;33;16;16;0;44;48;47;103;
   44;1;5;128;44;1;99;235;44;1;3;64;166;1;45;128;166;1;23;34;167;1;13;50;167;1;61;121;167;1;3;126;167;1;9;
   144;167;1;3;160;167;1;9;33;255;32;26;0;0;0;0;99;111;114;101;0;73;32;0;37;46;48;50;102;0;100;111;116;58;
   100;111;116;0;103;118;58;100;111;116;0;99;97;110;111;110;58;100;111;116;0;112;108;97;105;110;58;100;111;
   116;0;112;108;97;105;110;45;101;120;116;58;100;111;116;0;120;100;111;116;58;120;100;111;116;0;120;100;
   111;116;49;46;50;58;120;100;111;116;0;120;100;111;116;49;46;52;58;120;100;111;116;0;0;0;0;0;0;0;0;0;0;0;
   32;37;100;32;0;35;37;48;50;120;37;48;50;120;37;48;50;120;37;48;50;120;0;115;101;116;108;105;110;101;119;
   105;100;116;104;40;0;37;46;51;102;0;83;32;0;67;32;0;50;32;0;37;46;48;51;102;0;69;32;0;101;32;0;70;32;0;
   116;32;37;117;32;0;84;32;0;120;100;111;116;118;101;114;115;105;111;110;0;49;46;52;0;49;46;50;0;49;46;55;
   0;95;108;100;114;97;119;95;0;95;104;100;114;97;119;95;0;95;116;100;114;97;119;95;0;95;104;108;100;114;97;
   119;95;0;95;116;108;100;114;97;119;95;0;120;100;111;116;32;118;101;114;115;105;111;110;32;34;37;115;34;
   32;116;111;111;32;108;111;110;103;0;37;115;37;100;32;45;0;106;115;111;110;0;106;115;111;110;48;0;100;111;
   116;95;106;115;111;110;0;120;100;111;116;95;106;115;111;110;0;106;115;111;110;58;106;115;111;110;0;106;
   115;111;110;48;58;106;115;111;110;0;100;111;116;95;106;115;111;110;58;106;115;111;110;0;120;100;111;116;
   95;106;115;111;110;58;106;115;111;110;0;32;32;0;34;110;97;109;101;34;58;32;34;37;115;34;0;34;100;105;114;
   101;99;116;101;100;34;58;32;37;115;44;10;0;34;115;116;114;105;99;116;34;58;32;37;115;0;34;95;115;117;98;
   103;114;97;112;104;95;99;110;116;34;58;32;37;100;0;34;95;103;118;105;100;34;58;32;37;100;0;34;111;98;106;
   101;99;116;115;34;58;32;91;10;0;34;115;117;98;103;114;97;112;104;115;34;58;32;91;10;0;34;110;111;100;101;
   115;34;58;32;91;10;0;34;95;103;118;105;100;34;58;32;37;100;44;10;0;34;101;100;103;101;115;34;58;32;91;10;
   0;34;116;97;105;108;34;58;32;37;100;44;10;0;34;104;101;97;100;34;58;32;37;100;0;34;37;115;34;58;32;0;100;
   114;97;119;95;0;108;100;114;97;119;95;0;104;100;114;97;119;95;0;116;100;114;97;119;95;0;104;108;100;114;
   97;119;95;0;116;108;100;114;97;119;95;0;67;111;117;108;100;32;110;111;116;32;112;97;114;115;101;32;120;
   100;111;116;32;34;37;115;34;10;0;91;10;0;34;111;112;34;58;32;34;37;99;34;44;10;0;34;114;101;99;116;34;58;
   32;91;37;46;48;51;102;44;37;46;48;51;102;44;37;46;48;51;102;44;37;46;48;51;102;93;10;0;34;111;112;34;58;
   32;34;76;34;44;10;0;34;111;112;34;58;32;34;84;34;44;10;0;34;112;116;34;58;32;91;37;46;48;51;102;44;37;46;
   48;51;102;93;44;10;0;34;97;108;105;103;110;34;58;32;34;37;99;34;44;10;0;34;119;105;100;116;104;34;58;32;
   37;46;48;51;102;44;10;0;34;116;101;120;116;34;58;32;34;37;115;34;10;0;34;103;114;97;100;34;58;32;34;110;
   111;110;101;34;44;10;0;34;99;111;108;111;114;34;58;32;34;37;115;34;10;0;34;103;114;97;100;34;58;32;34;
   108;105;110;101;97;114;34;44;10;0;34;112;48;34;58;32;91;37;46;48;51;102;44;37;46;48;51;102;93;44;10;0;34;
   112;49;34;58;32;91;37;46;48;51;102;44;37;46;48;51;102;93;44;10;0;34;103;114;97;100;34;58;32;34;114;97;
   100;105;97;108;34;44;10;0;34;112;48;34;58;32;91;37;46;48;51;102;44;37;46;48;51;102;44;37;46;48;51;102;93;
   44;10;0;34;112;49;34;58;32;91;37;46;48;51;102;44;37;46;48;51;102;44;37;46;48;51;102;93;44;10;0;34;111;
   112;34;58;32;34;70;34;44;10;0;34;115;105;122;101;34;58;32;37;46;48;51;102;44;10;0;34;102;97;99;101;34;58;
   32;34;37;115;34;10;0;34;111;112;34;58;32;34;83;34;44;10;0;34;115;116;121;108;101;34;58;32;34;37;115;34;
   10;0;34;111;112;34;58;32;34;116;34;44;10;0;34;102;111;110;116;99;104;97;114;34;58;32;37;100;10;0;34;37;
   115;34;0;34;115;116;111;112;115;34;58;32;91;0;123;34;102;114;97;99;34;58;32;37;46;48;51;102;44;32;34;99;
   111;108;111;114;34;58;32;34;37;115;34;125;0;93;10;0;34;112;111;105;110;116;115;34;58;32;91;0;91;37;46;48;
   51;102;44;37;46;48;51;102;93;0;92;34;0;92;47;0;92;98;0;92;102;0;92;110;0;92;114;0;92;116;0;68;117;112;
   108;105;99;97;116;101;32;99;108;117;115;116;101;114;32;110;97;109;101;32;34;37;115;34;10;0;120;100;111;
   116;0;102;105;103;0;102;105;103;58;102;105;103;0;110;32;62;61;32;52;0;103;118;114;101;110;100;101;114;95;
   99;111;114;101;95;102;105;103;46;99;0;102;105;103;95;98;101;122;105;101;114;0;102;105;103;95;114;101;115;
   111;108;118;101;95;99;111;108;111;114;0;109;97;112;0;105;115;109;97;112;58;109;97;112;0;99;109;97;112;58;
   109;97;112;0;105;109;97;112;58;109;97;112;0;99;109;97;112;120;58;109;97;112;0;105;109;97;112;95;110;112;
   58;109;97;112;0;99;109;97;112;120;95;110;112;58;109;97;112;0;114;101;99;116;32;37;115;32;37;100;44;37;
   100;32;37;100;44;37;100;10;0;99;105;114;99;108;101;32;37;115;32;37;100;44;37;100;44;37;100;10;0;112;111;
   108;121;32;37;115;0;32;37;100;44;37;100;0;103;118;114;101;110;100;101;114;95;99;111;114;101;95;109;97;
   112;46;99;0;109;97;112;95;111;117;116;112;117;116;95;115;104;97;112;101;0;114;101;99;116;97;110;103;108;
   101;32;40;37;100;44;37;100;41;32;40;37;100;44;37;100;41;32;37;115;32;37;115;10;0;60;97;114;101;97;32;115;
   104;97;112;101;61;34;99;105;114;99;108;101;34;0;60;97;114;101;97;32;115;104;97;112;101;61;34;114;101;99;
   116;34;0;60;97;114;101;97;32;115;104;97;112;101;61;34;112;111;108;121;34;0;32;104;114;101;102;61;34;0;32;
   116;105;116;108;101;61;34;0;32;97;108;116;61;34;34;0;32;99;111;111;114;100;115;61;34;0;37;100;44;37;100;
   44;37;100;0;37;100;44;37;100;44;37;100;44;37;100;0;37;100;44;37;100;0;44;37;100;44;37;100;0;34;62;10;0;
   60;47;109;97;112;62;10;0;98;97;115;101;32;114;101;102;101;114;101;114;10;0;100;101;102;97;117;108;116;32;
   0;60;109;97;112;32;105;100;61;34;0;34;32;110;97;109;101;61;34;0;109;112;0;109;112;58;109;112;0;35;32;37;
   115;10;0;37;100;32;37;100;32;37;100;32;37;100;32;37;100;32;37;100;32;37;100;32;37;100;32;37;100;32;37;46;
   49;102;32;37;100;32;37;100;32;37;100;32;37;100;32;37;100;32;37;100;10;0;37;100;32;37;100;32;37;100;32;37;
   100;32;37;100;32;37;100;32;37;100;32;37;100;32;37;100;32;37;46;49;102;32;37;100;32;37;100;32;37;100;32;
   37;100;10;0;37;100;32;37;100;32;37;100;32;37;100;32;37;100;32;37;100;32;37;100;32;37;100;32;37;100;32;37;
   46;51;102;32;37;100;32;37;46;52;102;32;37;100;32;37;100;32;37;100;32;37;100;32;37;100;32;37;100;32;37;
   100;32;37;100;10;0;37;100;32;37;100;32;35;37;48;50;120;37;48;50;120;37;48;50;120;10;0;103;118;114;101;
   110;100;101;114;95;99;111;114;101;95;109;112;46;99;0;109;112;95;114;101;115;111;108;118;101;95;99;111;
   108;111;114;0;37;100;32;37;100;32;37;100;32;37;100;32;37;100;32;37;100;32;37;46;49;102;32;37;46;52;102;
   32;37;100;32;37;46;49;102;32;37;46;49;102;32;37;100;32;37;100;32;37;115;92;48;48;49;10;0;35;32;101;110;
   100;32;111;102;32;70;73;71;32;102;105;108;101;10;0;35;70;73;71;32;51;46;50;10;0;35;32;71;101;110;101;114;
   97;116;101;100;32;98;121;32;37;115;32;118;101;114;115;105;111;110;32;37;115;32;40;37;115;41;10;0;35;32;
   84;105;116;108;101;58;32;37;115;10;0;35;32;80;97;103;101;115;58;32;37;100;10;0;80;111;114;116;114;97;105;
   116;10;0;67;101;110;116;101;114;10;0;73;110;99;104;101;115;10;0;76;101;116;116;101;114;10;0;49;48;48;46;
   48;48;10;0;83;105;110;103;108;101;10;0;45;50;10;0;49;50;48;48;0;32;50;10;0;112;115;50;58;112;115;0;32;93;
   32;32;37;100;32;116;114;117;101;32;37;115;10;0;32;93;32;32;37;100;32;102;97;108;115;101;32;37;115;10;0;
   32;115;101;116;108;105;110;101;119;105;100;116;104;10;0;37;115;32;0;115;101;116;104;115;98;0;37;46;53;
   103;32;37;46;53;103;32;37;46;53;103;32;37;115;99;111;108;111;114;10;0;37;32;0;110;101;119;112;97;116;104;
   32;0;32;109;111;118;101;116;111;10;0;32;108;105;110;101;116;111;10;0;115;116;114;111;107;101;10;0;32;99;
   117;114;118;101;116;111;10;0;99;108;111;115;101;112;97;116;104;32;102;105;108;108;10;0;99;108;111;115;
   101;112;97;116;104;32;115;116;114;111;107;101;10;0;32;101;108;108;105;112;115;101;95;112;97;116;104;32;
   102;105;108;108;10;0;32;101;108;108;105;112;115;101;95;112;97;116;104;32;115;116;114;111;107;101;10;0;32;
   47;37;115;32;115;101;116;95;102;111;110;116;10;0;32;109;111;118;101;116;111;32;0;32;37;115;32;97;108;105;
   103;110;101;100;116;101;120;116;10;0;91;32;47;82;101;99;116;32;91;32;0;32;93;10;0;32;32;47;66;111;114;
   100;101;114;32;91;32;48;32;48;32;48;32;93;10;32;32;47;65;99;116;105;111;110;32;60;60;32;47;83;117;98;116;
   121;112;101;32;47;85;82;73;32;47;85;82;73;32;37;115;32;62;62;10;32;32;47;83;117;98;116;121;112;101;32;47;
   76;105;110;107;10;47;65;78;78;32;112;100;102;109;97;114;107;10;0;103;115;97;118;101;10;0;37;37;32;37;115;
   10;0;48;32;48;32;48;32;101;100;103;101;99;111;108;111;114;10;0;101;110;100;112;97;103;101;10;115;104;111;
   119;112;97;103;101;10;103;114;101;115;116;111;114;101;10;0;37;37;80;97;103;101;84;114;97;105;108;101;114;
   10;0;37;37;37;37;69;110;100;80;97;103;101;58;32;37;100;10;0;37;37;37;37;80;97;103;101;58;32;37;100;32;37;
   100;10;0;37;37;37;37;80;97;103;101;66;111;117;110;100;105;110;103;66;111;120;58;32;37;100;32;37;100;32;
   37;100;32;37;100;10;0;76;97;110;100;115;99;97;112;101;0;80;111;114;116;114;97;105;116;0;37;37;37;37;80;
   97;103;101;79;114;105;101;110;116;97;116;105;111;110;58;32;37;115;10;0;60;60;32;47;80;97;103;101;83;105;
   122;101;32;91;37;100;32;37;100;93;32;62;62;32;115;101;116;112;97;103;101;100;101;118;105;99;101;10;0;37;
   100;32;37;100;32;37;100;32;98;101;103;105;110;112;97;103;101;10;0;103;115;97;118;101;10;37;100;32;37;100;
   32;37;100;32;37;100;32;98;111;120;112;114;105;109;32;99;108;105;112;32;110;101;119;112;97;116;104;10;0;
   37;103;32;37;103;32;115;101;116;95;115;99;97;108;101;32;37;100;32;114;111;116;97;116;101;32;37;103;32;37;
   103;32;116;114;97;110;115;108;97;116;101;10;0;99;97;110;118;97;115;32;115;105;122;101;32;40;37;100;44;37;
   100;41;32;101;120;99;101;101;100;115;32;80;68;70;32;108;105;109;105;116;32;40;37;100;41;10;9;40;115;117;
   103;103;101;115;116;32;115;101;116;116;105;110;103;32;97;32;98;111;117;110;100;105;110;103;32;98;111;120;
   32;115;105;122;101;44;32;115;101;101;32;100;111;116;40;49;41;41;10;0;91;32;47;67;114;111;112;66;111;120;
   32;91;37;100;32;37;100;32;37;100;32;37;100;93;32;47;80;65;71;69;83;32;112;100;102;109;97;114;107;10;0;37;
   100;32;37;100;32;115;101;116;108;97;121;101;114;10;0;0;37;37;37;37;84;105;116;108;101;58;32;37;115;10;0;
   37;37;80;97;103;101;115;58;32;40;97;116;101;110;100;41;10;0;37;37;80;97;103;101;115;58;32;49;10;0;37;37;
   66;111;117;110;100;105;110;103;66;111;120;58;32;40;97;116;101;110;100;41;10;0;37;37;37;37;66;111;117;110;
   100;105;110;103;66;111;120;58;32;37;100;32;37;100;32;37;100;32;37;100;10;0;37;37;69;110;100;67;111;109;
   109;101;110;116;115;10;115;97;118;101;10;0;115;101;116;117;112;76;97;116;105;110;49;10;0;91;32;123;67;97;
   116;97;108;111;103;125;32;60;60;32;47;85;82;73;32;60;60;32;47;66;97;115;101;32;37;115;32;62;62;32;62;62;
   10;47;80;85;84;32;112;100;102;109;97;114;107;10;0;37;37;66;101;103;105;110;80;114;111;108;111;103;0;47;
   68;111;116;68;105;99;116;32;50;48;48;32;100;105;99;116;32;100;101;102;0;68;111;116;68;105;99;116;32;98;
   101;103;105;110;0;47;115;101;116;117;112;76;97;116;105;110;49;32;123;0;109;97;114;107;0;47;69;110;99;111;
   100;105;110;103;86;101;99;116;111;114;32;50;53;54;32;97;114;114;97;121;32;100;101;102;0;32;69;110;99;111;
   100;105;110;103;86;101;99;116;111;114;32;48;0;73;83;79;76;97;116;105;110;49;69;110;99;111;100;105;110;
   103;32;48;32;50;53;53;32;103;101;116;105;110;116;101;114;118;97;108;32;112;117;116;105;110;116;101;114;
   118;97;108;0;69;110;99;111;100;105;110;103;86;101;99;116;111;114;32;52;53;32;47;104;121;112;104;101;110;
   32;112;117;116;0;37;32;83;101;116;32;117;112;32;73;83;79;32;76;97;116;105;110;32;49;32;99;104;97;114;97;
   99;116;101;114;32;101;110;99;111;100;105;110;103;0;47;115;116;97;114;110;101;116;73;83;79;32;123;0;32;32;
   32;32;32;32;32;32;100;117;112;32;100;117;112;32;102;105;110;100;102;111;110;116;32;100;117;112;32;108;
   101;110;103;116;104;32;100;105;99;116;32;98;101;103;105;110;0;32;32;32;32;32;32;32;32;123;32;49;32;105;
   110;100;101;120;32;47;70;73;68;32;110;101;32;123;32;100;101;102;32;125;123;32;112;111;112;32;112;111;112;
   32;125;32;105;102;101;108;115;101;0;32;32;32;32;32;32;32;32;125;32;102;111;114;97;108;108;0;32;32;32;32;
   32;32;32;32;47;69;110;99;111;100;105;110;103;32;69;110;99;111;100;105;110;103;86;101;99;116;111;114;32;
   100;101;102;0;32;32;32;32;32;32;32;32;99;117;114;114;101;110;116;100;105;99;116;32;101;110;100;32;100;
   101;102;105;110;101;102;111;110;116;0;125;32;100;101;102;0;47;84;105;109;101;115;45;82;111;109;97;110;32;
   115;116;97;114;110;101;116;73;83;79;32;100;101;102;0;47;84;105;109;101;115;45;73;116;97;108;105;99;32;
   115;116;97;114;110;101;116;73;83;79;32;100;101;102;0;47;84;105;109;101;115;45;66;111;108;100;32;115;116;
   97;114;110;101;116;73;83;79;32;100;101;102;0;47;84;105;109;101;115;45;66;111;108;100;73;116;97;108;105;
   99;32;115;116;97;114;110;101;116;73;83;79;32;100;101;102;0;47;72;101;108;118;101;116;105;99;97;32;115;
   116;97;114;110;101;116;73;83;79;32;100;101;102;0;47;72;101;108;118;101;116;105;99;97;45;79;98;108;105;
   113;117;101;32;115;116;97;114;110;101;116;73;83;79;32;100;101;102;0;47;72;101;108;118;101;116;105;99;97;
   45;66;111;108;100;32;115;116;97;114;110;101;116;73;83;79;32;100;101;102;0;47;72;101;108;118;101;116;105;
   99;97;45;66;111;108;100;79;98;108;105;113;117;101;32;115;116;97;114;110;101;116;73;83;79;32;100;101;102;
   0;47;67;111;117;114;105;101;114;32;115;116;97;114;110;101;116;73;83;79;32;100;101;102;0;47;67;111;117;
   114;105;101;114;45;79;98;108;105;113;117;101;32;115;116;97;114;110;101;116;73;83;79;32;100;101;102;0;47;
   67;111;117;114;105;101;114;45;66;111;108;100;32;115;116;97;114;110;101;116;73;83;79;32;100;101;102;0;47;
   67;111;117;114;105;101;114;45;66;111;108;100;79;98;108;105;113;117;101;32;115;116;97;114;110;101;116;73;
   83;79;32;100;101;102;0;99;108;101;97;114;116;111;109;97;114;107;0;125;32;98;105;110;100;32;100;101;102;0;
   37;37;66;101;103;105;110;82;101;115;111;117;114;99;101;58;32;112;114;111;99;115;101;116;32;103;114;97;
   112;104;118;105;122;32;48;32;48;0;47;99;111;111;114;100;45;102;111;110;116;45;102;97;109;105;108;121;32;
   47;84;105;109;101;115;45;82;111;109;97;110;32;100;101;102;0;47;100;101;102;97;117;108;116;45;102;111;110;
   116;45;102;97;109;105;108;121;32;47;84;105;109;101;115;45;82;111;109;97;110;32;100;101;102;0;47;99;111;
   111;114;100;102;111;110;116;32;99;111;111;114;100;45;102;111;110;116;45;102;97;109;105;108;121;32;102;
   105;110;100;102;111;110;116;32;56;32;115;99;97;108;101;102;111;110;116;32;100;101;102;0;47;73;110;118;83;
   99;97;108;101;70;97;99;116;111;114;32;49;46;48;32;100;101;102;0;47;115;101;116;95;115;99;97;108;101;32;
   123;0;32;32;32;32;32;32;32;100;117;112;32;49;32;101;120;99;104;32;100;105;118;32;47;73;110;118;83;99;97;
   108;101;70;97;99;116;111;114;32;101;120;99;104;32;100;101;102;0;32;32;32;32;32;32;32;115;99;97;108;101;0;
   37;32;115;116;121;108;101;115;0;47;115;111;108;105;100;32;123;32;91;93;32;48;32;115;101;116;100;97;115;
   104;32;125;32;98;105;110;100;32;100;101;102;0;47;100;97;115;104;101;100;32;123;32;91;57;32;73;110;118;83;
   99;97;108;101;70;97;99;116;111;114;32;109;117;108;32;100;117;112;32;93;32;48;32;115;101;116;100;97;115;
   104;32;125;32;98;105;110;100;32;100;101;102;0;47;100;111;116;116;101;100;32;123;32;91;49;32;73;110;118;
   83;99;97;108;101;70;97;99;116;111;114;32;109;117;108;32;54;32;73;110;118;83;99;97;108;101;70;97;99;116;
   111;114;32;109;117;108;93;32;48;32;115;101;116;100;97;115;104;32;125;32;98;105;110;100;32;100;101;102;0;
   47;105;110;118;105;115;32;123;47;102;105;108;108;32;123;110;101;119;112;97;116;104;125;32;100;101;102;32;
   47;115;116;114;111;107;101;32;123;110;101;119;112;97;116;104;125;32;100;101;102;32;47;115;104;111;119;32;
   123;112;111;112;32;110;101;119;112;97;116;104;125;32;100;101;102;125;32;98;105;110;100;32;100;101;102;0;
   47;98;111;108;100;32;123;32;50;32;115;101;116;108;105;110;101;119;105;100;116;104;32;125;32;98;105;110;
   100;32;100;101;102;0;47;102;105;108;108;101;100;32;123;32;125;32;98;105;110;100;32;100;101;102;0;47;117;
   110;102;105;108;108;101;100;32;123;32;125;32;98;105;110;100;32;100;101;102;0;47;114;111;117;110;100;101;
   100;32;123;32;125;32;98;105;110;100;32;100;101;102;0;47;100;105;97;103;111;110;97;108;115;32;123;32;125;
   32;98;105;110;100;32;100;101;102;0;47;116;97;112;101;114;101;100;32;123;32;125;32;98;105;110;100;32;100;
   101;102;0;37;32;104;111;111;107;115;32;102;111;114;32;115;101;116;116;105;110;103;32;99;111;108;111;114;
   32;0;47;110;111;100;101;99;111;108;111;114;32;123;32;115;101;116;104;115;98;99;111;108;111;114;32;125;32;
   98;105;110;100;32;100;101;102;0;47;101;100;103;101;99;111;108;111;114;32;123;32;115;101;116;104;115;98;
   99;111;108;111;114;32;125;32;98;105;110;100;32;100;101;102;0;47;103;114;97;112;104;99;111;108;111;114;32;
   123;32;115;101;116;104;115;98;99;111;108;111;114;32;125;32;98;105;110;100;32;100;101;102;0;47;110;111;
   112;99;111;108;111;114;32;123;112;111;112;32;112;111;112;32;112;111;112;125;32;98;105;110;100;32;100;101;
   102;0;47;98;101;103;105;110;112;97;103;101;32;123;9;37;32;105;32;106;32;110;112;97;103;101;115;0;9;47;
   110;112;97;103;101;115;32;101;120;99;104;32;100;101;102;0;9;47;106;32;101;120;99;104;32;100;101;102;0;9;
   47;105;32;101;120;99;104;32;100;101;102;0;9;47;115;116;114;32;49;48;32;115;116;114;105;110;103;32;100;
   101;102;0;9;110;112;97;103;101;115;32;49;32;103;116;32;123;0;9;9;103;115;97;118;101;0;9;9;9;99;111;111;
   114;100;102;111;110;116;32;115;101;116;102;111;110;116;0;9;9;9;48;32;48;32;109;111;118;101;116;111;0;9;9;
   9;40;92;40;41;32;115;104;111;119;32;105;32;115;116;114;32;99;118;115;32;115;104;111;119;32;40;44;41;32;
   115;104;111;119;32;106;32;115;116;114;32;99;118;115;32;115;104;111;119;32;40;92;41;41;32;115;104;111;119;
   0;9;9;103;114;101;115;116;111;114;101;0;9;125;32;105;102;0;47;115;101;116;95;102;111;110;116;32;123;0;9;
   102;105;110;100;102;111;110;116;32;101;120;99;104;0;9;115;99;97;108;101;102;111;110;116;32;115;101;116;
   102;111;110;116;0;37;32;100;114;97;119;32;116;101;120;116;32;102;105;116;116;101;100;32;116;111;32;105;
   116;115;32;101;120;112;101;99;116;101;100;32;119;105;100;116;104;0;47;97;108;105;103;110;101;100;116;101;
   120;116;32;123;9;9;9;37;32;119;105;100;116;104;32;116;101;120;116;0;9;47;116;101;120;116;32;101;120;99;
   104;32;100;101;102;0;9;47;119;105;100;116;104;32;101;120;99;104;32;100;101;102;0;9;103;115;97;118;101;0;
   9;9;119;105;100;116;104;32;48;32;103;116;32;123;0;9;9;9;91;93;32;48;32;115;101;116;100;97;115;104;0;9;9;
   9;116;101;120;116;32;115;116;114;105;110;103;119;105;100;116;104;32;112;111;112;32;119;105;100;116;104;
   32;101;120;99;104;32;115;117;98;32;116;101;120;116;32;108;101;110;103;116;104;32;100;105;118;32;48;32;
   116;101;120;116;32;97;115;104;111;119;0;9;9;125;32;105;102;0;9;103;114;101;115;116;111;114;101;0;47;98;
   111;120;112;114;105;109;32;123;9;9;9;9;37;32;120;99;111;114;110;101;114;32;121;99;111;114;110;101;114;32;
   120;115;105;122;101;32;121;115;105;122;101;0;9;9;52;32;50;32;114;111;108;108;0;9;9;109;111;118;101;116;
   111;0;9;9;50;32;99;111;112;121;0;9;9;101;120;99;104;32;48;32;114;108;105;110;101;116;111;0;9;9;48;32;101;
   120;99;104;32;114;108;105;110;101;116;111;0;9;9;112;111;112;32;110;101;103;32;48;32;114;108;105;110;101;
   116;111;0;9;9;99;108;111;115;101;112;97;116;104;0;47;101;108;108;105;112;115;101;95;112;97;116;104;32;
   123;0;9;47;114;121;32;101;120;99;104;32;100;101;102;0;9;47;114;120;32;101;120;99;104;32;100;101;102;0;9;
   47;121;32;101;120;99;104;32;100;101;102;0;9;47;120;32;101;120;99;104;32;100;101;102;0;9;109;97;116;114;
   105;120;32;99;117;114;114;101;110;116;109;97;116;114;105;120;0;9;110;101;119;112;97;116;104;0;9;120;32;
   121;32;116;114;97;110;115;108;97;116;101;0;9;114;120;32;114;121;32;115;99;97;108;101;0;9;48;32;48;32;49;
   32;48;32;51;54;48;32;97;114;99;0;9;115;101;116;109;97;116;114;105;120;0;47;101;110;100;112;97;103;101;32;
   123;32;115;104;111;119;112;97;103;101;32;125;32;98;105;110;100;32;100;101;102;0;47;115;104;111;119;112;
   97;103;101;32;123;32;125;32;100;101;102;0;47;108;97;121;101;114;99;111;108;111;114;115;101;113;0;9;91;9;
   37;32;108;97;121;101;114;32;99;111;108;111;114;32;115;101;113;117;101;110;99;101;32;45;32;100;97;114;107;
   101;115;116;32;116;111;32;108;105;103;104;116;101;115;116;0;9;9;91;48;32;48;32;48;93;0;9;9;91;46;50;32;
   46;56;32;46;56;93;0;9;9;91;46;52;32;46;56;32;46;56;93;0;9;9;91;46;54;32;46;56;32;46;56;93;0;9;9;91;46;56;
   32;46;56;32;46;56;93;0;9;93;0;100;101;102;0;47;108;97;121;101;114;108;101;110;32;108;97;121;101;114;99;
   111;108;111;114;115;101;113;32;108;101;110;103;116;104;32;100;101;102;0;47;115;101;116;108;97;121;101;
   114;32;123;47;109;97;120;108;97;121;101;114;32;101;120;99;104;32;100;101;102;32;47;99;117;114;108;97;121;
   101;114;32;101;120;99;104;32;100;101;102;0;9;108;97;121;101;114;99;111;108;111;114;115;101;113;32;99;117;
   114;108;97;121;101;114;32;49;32;115;117;98;32;108;97;121;101;114;108;101;110;32;109;111;100;32;103;101;
   116;0;9;97;108;111;97;100;32;112;111;112;32;115;101;116;104;115;98;99;111;108;111;114;0;9;47;110;111;100;
   101;99;111;108;111;114;32;123;110;111;112;99;111;108;111;114;125;32;100;101;102;0;9;47;101;100;103;101;
   99;111;108;111;114;32;123;110;111;112;99;111;108;111;114;125;32;100;101;102;0;9;47;103;114;97;112;104;99;
   111;108;111;114;32;123;110;111;112;99;111;108;111;114;125;32;100;101;102;0;47;111;110;108;97;121;101;114;
   32;123;32;99;117;114;108;97;121;101;114;32;110;101;32;123;105;110;118;105;115;125;32;105;102;32;125;32;
   100;101;102;0;47;111;110;108;97;121;101;114;115;32;123;0;9;47;109;121;117;112;112;101;114;32;101;120;99;
   104;32;100;101;102;0;9;47;109;121;108;111;119;101;114;32;101;120;99;104;32;100;101;102;0;9;99;117;114;
   108;97;121;101;114;32;109;121;108;111;119;101;114;32;108;116;0;9;99;117;114;108;97;121;101;114;32;109;
   121;117;112;112;101;114;32;103;116;0;9;111;114;0;9;123;105;110;118;105;115;125;32;105;102;0;47;99;117;
   114;108;97;121;101;114;32;48;32;100;101;102;0;37;37;69;110;100;82;101;115;111;117;114;99;101;0;37;37;69;
   110;100;80;114;111;108;111;103;0;37;37;66;101;103;105;110;83;101;116;117;112;0;49;52;32;100;101;102;97;
   117;108;116;45;102;111;110;116;45;102;97;109;105;108;121;32;115;101;116;95;102;111;110;116;0;37;32;47;97;
   114;114;111;119;108;101;110;103;116;104;32;49;48;32;100;101;102;0;37;32;47;97;114;114;111;119;119;105;
   100;116;104;32;53;32;100;101;102;0;37;32;109;97;107;101;32;115;117;114;101;32;112;100;102;109;97;114;107;
   32;105;115;32;104;97;114;109;108;101;115;115;32;102;111;114;32;80;83;45;105;110;116;101;114;112;114;101;
   116;101;114;115;32;111;116;104;101;114;32;116;104;97;110;32;68;105;115;116;105;108;108;101;114;0;47;112;
   100;102;109;97;114;107;32;119;104;101;114;101;32;123;112;111;112;125;32;123;117;115;101;114;100;105;99;
   116;32;47;112;100;102;109;97;114;107;32;47;99;108;101;97;114;116;111;109;97;114;107;32;108;111;97;100;32;
   112;117;116;125;32;105;102;101;108;115;101;0;37;32;109;97;107;101;32;39;60;60;39;32;97;110;100;32;39;62;
   62;39;32;115;97;102;101;32;111;110;32;80;83;32;76;101;118;101;108;32;49;32;100;101;118;105;99;101;115;0;
   47;108;97;110;103;117;97;103;101;108;101;118;101;108;32;119;104;101;114;101;32;123;112;111;112;32;108;97;
   110;103;117;97;103;101;108;101;118;101;108;125;123;49;125;32;105;102;101;108;115;101;0;50;32;108;116;32;
   123;0;32;32;32;32;117;115;101;114;100;105;99;116;32;40;60;60;41;32;99;118;110;32;40;91;41;32;99;118;110;
   32;108;111;97;100;32;112;117;116;0;32;32;32;32;117;115;101;114;100;105;99;116;32;40;62;62;41;32;99;118;
   110;32;40;91;41;32;99;118;110;32;108;111;97;100;32;112;117;116;0;125;32;105;102;0;37;37;69;110;100;83;
   101;116;117;112;0;37;37;84;114;97;105;108;101;114;10;0;37;37;37;37;80;97;103;101;115;58;32;37;100;10;0;
   101;110;100;10;114;101;115;116;111;114;101;10;0;37;37;69;79;70;10;0;37;33;80;83;45;65;100;111;98;101;45;
   51;46;48;0;32;69;80;83;70;45;51;46;48;10;0;37;37;37;37;67;114;101;97;116;111;114;58;32;37;115;32;118;101;
   114;115;105;111;110;32;37;115;32;40;37;115;41;10;0;100;97;114;107;98;108;117;101;0;100;97;114;107;99;121;
   97;110;0;100;97;114;107;103;114;97;121;0;100;97;114;107;103;114;101;121;0;100;97;114;107;109;97;103;101;
   110;116;97;0;100;97;114;107;114;101;100;0;108;105;103;104;116;103;114;101;101;110;0;60;33;45;45;32;0;60;
   112;111;108;121;108;105;110;101;0;32;112;111;105;110;116;115;61;34;0;34;47;62;10;0;32;102;105;108;108;61;
   34;0;117;114;108;40;35;108;95;37;100;41;0;117;114;108;40;35;114;95;37;100;41;0;34;32;102;105;108;108;45;
   111;112;97;99;105;116;121;61;34;37;102;0;34;32;115;116;114;111;107;101;61;34;0;34;32;115;116;114;111;107;
   101;45;119;105;100;116;104;61;34;0;34;32;115;116;114;111;107;101;45;100;97;115;104;97;114;114;97;121;61;
   34;37;115;0;53;44;50;0;49;44;53;0;34;32;115;116;114;111;107;101;45;111;112;97;99;105;116;121;61;34;37;
   102;0;103;118;114;101;110;100;101;114;95;99;111;114;101;95;115;118;103;46;99;0;115;118;103;95;112;114;
   105;110;116;95;99;111;108;111;114;0;60;112;97;116;104;0;32;105;100;61;34;0;95;112;34;32;0;32;100;61;34;0;
   37;99;0;60;100;101;102;115;62;10;60;114;97;100;105;97;108;71;114;97;100;105;101;110;116;32;105;100;61;34;
   114;95;37;100;34;32;99;120;61;34;53;48;37;37;34;32;99;121;61;34;53;48;37;37;34;32;114;61;34;55;53;37;37;
   34;32;102;120;61;34;37;100;37;37;34;32;102;121;61;34;37;100;37;37;34;62;10;0;60;115;116;111;112;32;111;
   102;102;115;101;116;61;34;48;34;32;115;116;121;108;101;61;34;115;116;111;112;45;99;111;108;111;114;58;0;
   59;115;116;111;112;45;111;112;97;99;105;116;121;58;0;49;46;0;59;34;47;62;10;0;60;115;116;111;112;32;111;
   102;102;115;101;116;61;34;49;34;32;115;116;121;108;101;61;34;115;116;111;112;45;99;111;108;111;114;58;0;
   59;34;47;62;10;60;47;114;97;100;105;97;108;71;114;97;100;105;101;110;116;62;10;60;47;100;101;102;115;62;
   10;0;60;100;101;102;115;62;10;60;108;105;110;101;97;114;71;114;97;100;105;101;110;116;32;105;100;61;34;
   108;95;37;100;34;32;103;114;97;100;105;101;110;116;85;110;105;116;115;61;34;117;115;101;114;83;112;97;99;
   101;79;110;85;115;101;34;32;0;120;49;61;34;0;34;32;121;49;61;34;0;34;32;120;50;61;34;0;34;32;121;50;61;
   34;0;34;32;62;10;0;60;115;116;111;112;32;111;102;102;115;101;116;61;34;37;46;48;51;102;34;32;115;116;121;
   108;101;61;34;115;116;111;112;45;99;111;108;111;114;58;0;59;34;47;62;10;60;47;108;105;110;101;97;114;71;
   114;97;100;105;101;110;116;62;10;60;47;100;101;102;115;62;10;0;60;112;111;108;121;103;111;110;0;60;101;
   108;108;105;112;115;101;0;32;99;120;61;34;0;34;32;99;121;61;34;0;34;32;114;120;61;34;0;34;32;114;121;61;
   34;0;60;116;101;120;116;0;32;116;101;120;116;45;97;110;99;104;111;114;61;34;115;116;97;114;116;34;0;32;
   116;101;120;116;45;97;110;99;104;111;114;61;34;101;110;100;34;0;32;116;101;120;116;45;97;110;99;104;111;
   114;61;34;109;105;100;100;108;101;34;0;32;120;61;34;0;34;32;121;61;34;0;32;102;111;110;116;45;102;97;109;
   105;108;121;61;34;37;115;0;44;37;115;0;32;102;111;110;116;45;119;101;105;103;104;116;61;34;37].

(** [n.q+105458]: 10239 bytes. *)
Definition segment_105458 : list Z :=
  [115;34;0;32;102;111;110;116;45;115;116;114;101;116;99;104;61;34;37;115;34;0;32;102;111;110;116;45;115;
   116;121;108;101;61;34;37;115;34;0;32;102;111;110;116;45;102;97;109;105;108;121;61;34;37;115;34;0;32;102;
   111;110;116;45;119;101;105;103;104;116;61;34;98;111;108;100;34;0;32;102;111;110;116;45;115;116;121;108;
   101;61;34;105;116;97;108;105;99;34;0;32;116;101;120;116;45;100;101;99;111;114;97;116;105;111;110;61;34;0;
   37;115;111;118;101;114;108;105;110;101;0;37;115;108;105;110;101;45;116;104;114;111;117;103;104;0;32;98;
   97;115;101;108;105;110;101;45;115;104;105;102;116;61;34;115;117;112;101;114;34;0;32;98;97;115;101;108;
   105;110;101;45;115;104;105;102;116;61;34;115;117;98;34;0;32;102;111;110;116;45;115;105;122;101;61;34;37;
   46;50;102;34;0;32;102;105;108;108;61;34;37;115;34;0;32;102;105;108;108;61;34;35;37;48;50;120;37;48;50;
   120;37;48;50;120;34;0;115;118;103;95;116;101;120;116;115;112;97;110;0;62;0;60;116;101;120;116;80;97;116;
   104;32;120;108;105;110;107;58;104;114;101;102;61;34;35;37;115;95;112;34;32;115;116;97;114;116;79;102;102;
   115;101;116;61;34;53;48;37;37;34;62;0;60;116;115;112;97;110;32;120;61;34;48;34;32;100;121;61;34;0;34;62;
   0;60;47;116;115;112;97;110;62;60;47;116;101;120;116;80;97;116;104;62;0;60;47;116;101;120;116;62;10;0;60;
   47;103;62;10;0;60;103;0;32;105;100;61;34;97;95;0;32;120;108;105;110;107;58;104;114;101;102;61;34;0;32;
   120;108;105;110;107;58;116;105;116;108;101;61;34;0;32;116;97;114;103;101;116;61;34;0;60;116;105;116;108;
   101;62;0;60;47;116;105;116;108;101;62;10;0;60;103;32;105;100;61;34;0;95;37;115;0;34;32;99;108;97;115;115;
   61;34;37;115;0;99;108;97;115;115;0;32;116;114;97;110;115;102;111;114;109;61;34;115;99;97;108;101;40;0;41;
   32;114;111;116;97;116;101;40;37;100;41;32;116;114;97;110;115;108;97;116;101;40;0;41;34;62;10;0;60;47;115;
   118;103;62;10;0;60;33;45;45;0;32;80;97;103;101;115;58;32;37;100;32;45;45;62;10;0;60;115;118;103;32;119;
   105;100;116;104;61;34;37;100;112;116;34;32;104;101;105;103;104;116;61;34;37;100;112;116;34;10;0;32;118;
   105;101;119;66;111;120;61;34;37;46;50;102;32;37;46;50;102;32;37;46;50;102;32;37;46;50;102;34;0;32;120;
   109;108;110;115;61;34;104;116;116;112;58;47;47;119;119;119;46;119;51;46;111;114;103;47;50;48;48;48;47;
   115;118;103;34;0;32;120;109;108;110;115;58;120;108;105;110;107;61;34;104;116;116;112;58;47;47;119;119;
   119;46;119;51;46;111;114;103;47;49;57;57;57;47;120;108;105;110;107;34;0;60;63;120;109;108;32;118;101;114;
   115;105;111;110;61;34;49;46;48;34;32;101;110;99;111;100;105;110;103;61;34;85;84;70;45;56;34;32;115;116;
   97;110;100;97;108;111;110;101;61;34;110;111;34;63;62;10;0;115;116;121;108;101;115;104;101;101;116;0;60;
   63;120;109;108;45;115;116;121;108;101;115;104;101;101;116;32;104;114;101;102;61;34;0;34;32;116;121;112;
   101;61;34;116;101;120;116;47;99;115;115;34;63;62;10;0;60;33;68;79;67;84;89;80;69;32;115;118;103;32;80;85;
   66;76;73;67;32;34;45;47;47;87;51;67;47;47;68;84;68;32;83;86;71;32;49;46;49;47;47;69;78;34;10;0;32;34;104;
   116;116;112;58;47;47;119;119;119;46;119;51;46;111;114;103;47;71;114;97;112;104;105;99;115;47;83;86;71;47;
   49;46;49;47;68;84;68;47;115;118;103;49;49;46;100;116;100;34;62;10;0;60;33;45;45;32;71;101;110;101;114;97;
   116;101;100;32;98;121;32;0;116;107;0;116;107;58;116;107;0;35;32;0;32;99;114;101;97;116;101;32;108;105;
   110;101;32;0;32;45;102;105;108;108;32;0;32;45;100;97;115;104;32;53;0;32;45;100;97;115;104;32;50;0;103;
   118;114;101;110;100;101;114;95;99;111;114;101;95;116;107;46;99;0;116;107;103;101;110;95;112;114;105;110;
   116;95;116;97;103;115;0;103;114;97;112;104;32;108;97;98;101;108;0;32;45;116;97;103;115;32;123;37;100;37;
   115;37;112;125;0;116;107;103;101;110;95;112;114;105;110;116;95;99;111;108;111;114;0;36;99;0;32;45;119;
   105;100;116;104;32;0;32;45;115;109;111;111;116;104;32;98;101;122;105;101;114;32;0;32;99;114;101;97;116;
   101;32;112;111;108;121;103;111;110;32;0;32;45;111;117;116;108;105;110;101;32;0;32;99;114;101;97;116;101;
   32;111;118;97;108;32;0;32;99;114;101;97;116;101;32;116;101;120;116;32;0;32;45;116;101;120;116;32;123;0;
   125;0;32;45;102;111;110;116;32;123;0;32;37;100;125;0;32;45;97;110;99;104;111;114;32;119;0;32;45;97;110;
   99;104;111;114;32;101;0;35;0;32;84;105;116;108;101;58;32;0;32;80;97;103;101;115;58;32;37;100;10;0;35;32;
   71;101;110;101;114;97;116;101;100;32;98;121;32;0;41;10;0;69;114;114;111;114;32;100;117;114;105;110;103;
   32;99;111;110;118;101;114;115;105;111;110;32;116;111;32;34;85;84;70;45;56;34;46;32;32;81;117;105;116;105;
   110;103;46;10;0;118;109;108;0;118;109;108;58;118;109;108;0;97;113;117;97;0;102;117;99;104;115;105;97;0;
   108;105;109;101;0;111;108;105;118;101;0;116;101;97;108;0;32;32;32;32;32;32;60;33;45;45;32;0;32;45;45;62;
   10;0;32;60;118;58;115;104;97;112;101;32;115;116;121;108;101;61;34;112;111;115;105;116;105;111;110;58;97;
   98;115;111;108;117;116;101;59;32;0;32;119;105;100;116;104;58;32;37;100;59;32;104;101;105;103;104;116;58;
   32;37;100;34;32;102;105;108;108;101;100;61;34;102;97;108;115;101;34;62;0;60;118;58;112;97;116;104;32;118;
   61;34;0;32;109;32;0;37;46;48;102;44;37;46;48;102;32;0;32;108;32;0;32;101;32;0;34;47;62;0;60;47;118;58;
   115;104;97;112;101;62;10;0;60;118;58;115;116;114;111;107;101;32;99;111;108;111;114;61;34;0;34;32;119;101;
   105;103;104;116;61;34;37;46;48;102;112;116;0;34;32;100;97;115;104;115;116;121;108;101;61;34;100;97;115;
   104;0;34;32;100;97;115;104;115;116;121;108;101;61;34;100;111;116;0;34;32;47;62;0;35;37;48;50;120;37;48;
   50;120;37;48;50;120;0;103;118;114;101;110;100;101;114;95;99;111;114;101;95;118;109;108;46;99;0;118;109;
   108;95;112;114;105;110;116;95;99;111;108;111;114;0;32;119;105;100;116;104;58;32;37;100;59;32;104;101;105;
   103;104;116;58;32;37;100;34;0;32;62;0;60;118;58;112;97;116;104;32;32;118;61;34;0;109;32;0;37;115;37;46;
   48;102;44;37;46;48;102;32;0;99;32;0;47;62;60;47;118;58;115;104;97;112;101;62;10;0;32;102;105;108;108;101;
   100;61;34;116;114;117;101;34;32;102;105;108;108;99;111;108;111;114;61;34;0;34;32;0;32;102;105;108;108;
   101;100;61;34;102;97;108;115;101;34;32;0;37;46;48;102;32;37;46;48;102;32;0;108;32;0;120;32;101;32;34;47;
   62;0;32;32;60;118;58;111;118;97;108;32;115;116;121;108;101;61;34;112;111;115;105;116;105;111;110;58;97;
   98;115;111;108;117;116;101;59;0;32;108;101;102;116;58;32;37;46;50;102;59;32;116;111;112;58;32;37;46;50;
   102;59;0;32;119;105;100;116;104;58;32;37;46;50;102;59;32;104;101;105;103;104;116;58;32;37;46;50;102;34;0;
   60;47;118;58;111;118;97;108;62;10;0;60;118;58;114;101;99;116;32;115;116;121;108;101;61;34;112;111;115;
   105;116;105;111;110;58;97;98;115;111;108;117;116;101;59;32;0;32;115;116;114;111;107;101;100;61;34;102;97;
   108;115;101;34;32;102;105;108;108;101;100;61;34;102;97;108;115;101;34;62;10;0;60;118;58;116;101;120;116;
   98;111;120;32;105;110;115;101;116;61;34;48;44;48;44;48;44;48;34;32;115;116;121;108;101;61;34;112;111;115;
   105;116;105;111;110;58;97;98;115;111;108;117;116;101;59;32;118;45;116;101;120;116;45;119;114;97;112;112;
   105;110;103;58;39;102;97;108;115;101;39;59;112;97;100;100;105;110;103;58;39;48;39;59;0;102;111;110;116;
   45;102;97;109;105;108;121;58;32;39;37;115;39;59;0;102;111;110;116;45;119;101;105;103;104;116;58;32;37;
   115;59;0;102;111;110;116;45;115;116;114;101;116;99;104;58;32;37;115;59;0;102;111;110;116;45;115;116;121;
   108;101;58;32;37;115;59;0;32;102;111;110;116;45;115;105;122;101;58;32;37;46;50;102;112;116;59;0;99;111;
   108;111;114;58;37;115;59;0;99;111;108;111;114;58;35;37;48;50;120;37;48;50;120;37;48;50;120;59;0;118;109;
   108;95;116;101;120;116;115;112;97;110;0;34;62;60;99;101;110;116;101;114;62;0;60;47;99;101;110;116;101;
   114;62;60;47;118;58;116;101;120;116;98;111;120;62;10;0;60;47;118;58;114;101;99;116;62;10;0;60;47;97;62;
   10;0;60;97;0;32;104;114;101;102;61;34;37;115;34;0;32;116;105;116;108;101;61;34;37;115;34;0;32;116;97;114;
   103;101;116;61;34;37;115;34;0;62;10;0;60;47;118;58;103;114;111;117;112;62;10;0;60;47;68;73;86;62;10;0;60;
   68;73;86;32;105;100;61;39;95;86;77;76;50;95;39;32;115;116;121;108;101;61;34;112;111;115;105;116;105;111;
   110;58;114;101;108;97;116;105;118;101;59;118;105;115;105;98;105;108;105;116;121;58;104;105;100;100;101;
   110;34;62;10;0;60;33;45;45;32;105;110;115;101;114;116;32;97;110;121;32;111;116;104;101;114;32;104;116;
   109;108;32;99;111;110;116;101;110;116;32;104;101;114;101;32;45;45;62;10;0;60;68;73;86;32;105;100;61;39;
   95;110;111;116;86;77;76;49;95;39;32;115;116;121;108;101;61;34;112;111;115;105;116;105;111;110;58;114;101;
   108;97;116;105;118;101;59;34;62;10;0;60;33;45;45;32;116;104;105;115;32;115;104;111;117;108;100;32;111;
   110;108;121;32;100;105;115;112;108;97;121;32;111;110;32;78;79;78;45;73;69;32;98;114;111;119;115;101;114;
   115;32;45;45;62;10;0;60;72;50;62;83;111;114;114;121;44;32;116;104;105;115;32;100;105;97;103;114;97;109;
   32;119;105;108;108;32;111;110;108;121;32;100;105;115;112;108;97;121;32;99;111;114;114;101;99;116;108;121;
   32;111;110;32;73;110;116;101;114;110;101;116;32;69;120;112;108;111;114;101;114;32;53;32;40;97;110;100;32;
   117;112;41;32;98;114;111;119;115;101;114;115;46;60;47;72;50;62;10;0;60;68;73;86;32;105;100;61;39;95;110;
   111;116;86;77;76;50;95;39;32;115;116;121;108;101;61;34;112;111;115;105;116;105;111;110;58;114;101;108;97;
   116;105;118;101;59;34;62;10;0;60;33;45;45;32;105;110;115;101;114;116;32;97;110;121;32;111;116;104;101;
   114;32;78;79;78;45;73;69;32;104;116;109;108;32;99;111;110;116;101;110;116;32;104;101;114;101;32;45;45;62;
   10;0;60;47;66;79;68;89;62;10;60;47;72;84;77;76;62;10;0;60;72;69;65;68;62;0;60;77;69;84;65;32;104;116;116;
   112;45;101;113;117;105;118;61;34;67;111;110;116;101;110;116;45;84;121;112;101;34;32;99;111;110;116;101;
   110;116;61;34;116;101;120;116;47;104;116;109;108;59;32;99;104;97;114;115;101;116;61;85;84;70;45;56;34;62;
   10;0;60;84;73;84;76;69;62;0;60;47;84;73;84;76;69;62;0;60;33;45;45;32;80;97;103;101;115;58;32;37;100;32;
   45;45;62;10;0;32;32;32;60;83;67;82;73;80;84;32;76;65;78;71;85;65;71;69;61;39;74;97;118;97;115;99;114;105;
   112;116;39;62;10;0;32;32;32;102;117;110;99;116;105;111;110;32;98;114;111;119;115;101;114;99;104;101;99;
   107;40;41;10;0;32;32;32;123;10;0;32;32;32;32;32;32;118;97;114;32;117;97;32;61;32;119;105;110;100;111;119;
   46;110;97;118;105;103;97;116;111;114;46;117;115;101;114;65;103;101;110;116;10;0;32;32;32;32;32;32;118;97;
   114;32;109;115;105;101;32;61;32;117;97;46;105;110;100;101;120;79;102;32;40;32;39;77;83;73;69;32;39;32;41;
   10;0;32;32;32;32;32;32;118;97;114;32;105;101;118;101;114;115;59;10;0;32;32;32;32;32;32;118;97;114;32;105;
   116;101;109;59;10;0;32;32;32;32;32;32;118;97;114;32;86;77;76;121;101;115;61;110;101;119;32;65;114;114;97;
   121;40;39;95;86;77;76;49;95;39;44;39;95;86;77;76;50;95;39;41;59;10;0;32;32;32;32;32;32;118;97;114;32;86;
   77;76;110;111;61;110;101;119;32;65;114;114;97;121;40;39;95;110;111;116;86;77;76;49;95;39;44;39;95;110;
   111;116;86;77;76;50;95;39;41;59;10;0;32;32;32;32;32;32;105;102;32;40;32;109;115;105;101;32;62;32;48;32;
   41;123;32;32;32;32;32;32;47;47;32;73;102;32;73;110;116;101;114;110;101;116;32;69;120;112;108;111;114;101;
   114;44;32;114;101;116;117;114;110;32;118;101;114;115;105;111;110;32;110;117;109;98;101;114;10;0;32;32;32;
   32;32;32;32;32;32;105;101;118;101;114;115;61;32;112;97;114;115;101;73;110;116;32;40;117;97;46;115;117;98;
   115;116;114;105;110;103;32;40;109;115;105;101;43;53;44;32;117;97;46;105;110;100;101;120;79;102;32;40;39;
   46;39;44;32;109;115;105;101;32;41;41;41;10;0;32;32;32;32;32;32;125;10;0;32;32;32;32;32;32;105;102;32;40;
   105;101;118;101;114;115;62;61;53;41;123;10;0;32;32;32;32;32;32;32;102;111;114;32;40;120;32;105;110;32;86;
   77;76;121;101;115;41;123;10;0;32;32;32;32;32;32;32;32;32;105;116;101;109;32;61;32;100;111;99;117;109;101;
   110;116;46;103;101;116;69;108;101;109;101;110;116;66;121;73;100;40;86;77;76;121;101;115;91;120;93;41;59;
   10;0;32;32;32;32;32;32;32;32;32;105;102;32;40;105;116;101;109;41;32;123;10;0;32;32;32;32;32;32;32;32;32;
   32;32;105;116;101;109;46;115;116;121;108;101;46;118;105;115;105;98;105;108;105;116;121;61;39;118;105;115;
   105;98;108;101;39;59;10;0;32;32;32;32;32;32;32;32;32;125;10;0;32;32;32;32;32;32;32;125;10;0;32;32;32;32;
   32;32;32;102;111;114;32;40;120;32;105;110;32;86;77;76;110;111;41;123;10;0;32;32;32;32;32;32;32;32;32;105;
   116;101;109;32;61;32;100;111;99;117;109;101;110;116;46;103;101;116;69;108;101;109;101;110;116;66;121;73;
   100;40;86;77;76;110;111;91;120;93;41;59;10;0;32;32;32;32;32;32;32;32;32;32;32;105;116;101;109;46;115;116;
   121;108;101;46;118;105;115;105;98;105;108;105;116;121;61;39;104;105;100;100;101;110;39;59;10;0;32;32;32;
   32;32;125;101;108;115;101;123;10;0;32;32;32;32;32;125;10;0;32;32;32;125;10;0;32;32;32;60;47;83;67;82;73;
   80;84;62;10;0;60;47;72;69;65;68;62;0;60;66;79;68;89;32;111;110;108;111;97;100;61;39;98;114;111;119;115;
   101;114;99;104;101;99;107;40;41;59;39;62;10;0;60;68;73;86;32;105;100;61;39;95;86;77;76;49;95;39;32;115;
   116;121;108;101;61;34;112;111;115;105;116;105;111;110;58;114;101;108;97;116;105;118;101;59;32;100;105;
   115;112;108;97;121;58;105;110;108;105;110;101;59;32;118;105;115;105;98;105;108;105;116;121;58;104;105;
   100;100;101;110;0;32;119;105;100;116;104;58;32;37;100;112;116;59;32;104;101;105;103;104;116;58;32;37;100;
   112;116;34;62;10;0;60;83;84;89;76;69;62;10;0;118;92;58;42;32;123;32;98;101;104;97;118;105;111;114;58;32;
   117;114;108;40;35;100;101;102;97;117;108;116;35;86;77;76;41;59;100;105;115;112;108;97;121;58;105;110;108;
   105;110;101;45;98;108;111;99;107;125;10;0;60;47;83;84;89;76;69;62;10;0;60;120;109;108;58;110;97;109;101;
   115;112;97;99;101;32;110;115;61;34;117;114;110;58;115;99;104;101;109;97;115;45;109;105;99;114;111;115;
   111;102;116;45;99;111;109;58;118;109;108;34;32;112;114;101;102;105;120;61;34;118;34;32;47;62;10;0;32;60;
   118;58;103;114;111;117;112;32;115;116;121;108;101;61;34;112;111;115;105;116;105;111;110;58;114;101;108;
   97;116;105;118;101;59;32;0;32;119;105;100;116;104;58;32;37;100;112;116;59;32;104;101;105;103;104;116;58;
   32;37;100;112;116;34;0;32;99;111;111;114;100;111;114;105;103;105;110;61;34;48;44;48;34;32;99;111;111;114;
   100;115;105;122;101;61;34;37;100;44;37;100;34;32;62;0;60;72;84;77;76;62;10;0;10;60;33;45;45;32;71;101;
   110;101;114;97;116;101;100;32;98;121;32;0;32;118;101;114;115;105;111;110;32;0;32;40;0;41;10;45;45;62;10;
   0;112;111;118;32;114;101;110;100;101;114;101;114;58;101;108;32;45;32;37;115;10;0;112;111;118;0;112;111;
   118;58;112;111;118;0;98;97;107;101;114;115;99;104;111;99;0;98;114;97;115;115;0;98;114;105;103;104;116;
   103;111;108;100;0;98;114;111;110;122;101;0;98;114;111;110;122;101;50;0;99;108;101;97;114;0;99;111;111;
   108;99;111;112;112;101;114;0;99;111;112;112;101;114;0;100;97;114;107;98;114;111;119;110;0;100;97;114;107;
   112;117;114;112;108;101;0;100;97;114;107;116;97;110;0;100;97;114;107;119;111;111;100;0;100;107;103;114;
   101;101;110;99;111;112;112;101;114;0;100;117;115;116;121;114;111;115;101;0;102;101;108;100;115;112;97;
   114;0;102;108;101;115;104;0;103;114;97;121;48;53;0;103;114;101;101;110;99;111;112;112;101;114;0;104;117;
   110;116;101;114;115;103;114;101;101;110;0;108;105;103;104;116;95;112;117;114;112;108;101;0;108;105;103;
   104;116;119;111;111;100;0;109;97;110;100;97;114;105;110;111;114;97;110;103;101;0;109;101;100;105;117;109;
   102;111;114;101;115;116;103;114;101;101;110;0;109;101;100;105;117;109;103;111;108;100;101;110;114;111;
   100;0;109;101;100;105;117;109;119;111;111;100;0;109;101;100;95;112;117;114;112;108;101;0;109;105;99;97;0;
   110;101;111;110;98;108;117;101;0;110;101;111;110;112;105;110;107;0;110;101;119;109;105;100;110;105;103;
   104;116;98;108;117;101;0;110;101;119;116;97;110;0;111;108;100;103;111;108;100;0;113;117;97;114;116;122;0;
   114;105;99;104;98;108;117;101;0;115;99;97;114;108;101;116;0;115;101;109;105;83;119;101;101;116;67;104;
   111;99;0;115;105;108;118;101;114;0;115;112;105;99;121;112;105;110;107;0;115;117;109;109;101;114;115;107;
   121;0;118;101;114;121;100;97;114;107;98;114;111;119;110;0;118;101;114;121;95;108;105;103;104;116;95;112;
   117;114;112;108;101;0;47;47;42;42;42;32;99;111;109;109;101;110;116;58;32;37;115;10;0;47;47;42;42;42;32;
   112;111;108;121;108;105;110;101;10;0;115;99;97;108;101;32;32;32;32;60;37;57;46;51;102;44;32;37;57;46;51;
   102;44;32;37;57;46;51;102;62;10;0;114;111;116;97;116;101;32;32;32;60;37;57;46;51;102;44;32;37;57;46;51;
   102;44;32;37;57;46;51;102;62;10;0;116;114;97;110;115;108;97;116;101;60;37;57;46;51;102;44;32;37;57;46;51;
   102;44;32;37;57;46;51;102;62;10;0;115;112;104;101;114;101;95;115;119;101;101;112;32;123;10;32;32;32;32;
   37;115;10;32;32;32;32;37;100;44;10;0;108;105;110;101;97;114;95;115;112;108;105;110;101;0;60;37;57;46;51;
   102;44;32;37;57;46;51;102;44;32;37;57;46;51;102;62;44;32;37;46;51;102;10;0;37;115;32;32;32;32;37;115;0;
   32;32;32;32;116;111;108;101;114;97;110;99;101;32;48;46;48;49;10;32;32;32;32;37;115;32;32;32;32;37;115;32;
   32;32;32;37;115;32;32;32;32;37;115;125;10;0;37;115;37;115;0;37;115;32;116;114;97;110;115;109;105;116;32;
   37;46;51;102;0;82;101;100;0;71;114;101;101;110;0;66;108;117;101;0;114;103;98;60;37;57;46;51;102;44;32;37;
   57;46;51;102;44;32;37;57;46;51;102;62;32;116;114;97;110;115;109;105;116;32;37;46;51;102;0;111;111;112;
   115;44;32;105;110;116;101;114;110;97;108;32;101;114;114;111;114;58;32;117;110;104;97;110;100;108;101;100;
   32;99;111;108;111;114;32;116;121;112;101;61;37;100;32;37;115;10;0;103;118;114;101;110;100;101;114;95;99;
   111;114;101;95;112;111;118;46;99;0;112;111;118;95;99;111;108;111;114;95;97;115;95;115;116;114;0;112;105;
   103;109;101;110;116;32;123;32;99;111;108;111;114;32;37;115;32;125;10;0;47;47;42;42;42;32;98;101;122;105;
   101;114;10;0;98;95;115;112;108;105;110;101;0;32;32;32;32;32;32;32;32;116;111;108;101;114;97;110;99;101;
   32;48;46;48;49;10;32;32;32;32;37;115;32;32;32;32;37;115;32;32;32;32;37;115;32;32;32;32;37;115;125;10;0;
   47;47;42;42;42;32;112;111;108;121;103;111;110;10;0;32;32;32;32;116;111;108;101;114;97;110;99;101;32;48;
   46;49;10;32;32;32;32;37;115;32;32;32;32;37;115;32;32;32;32;37;115;32;32;32;32;37;115;125;10;0;112;111;
   108;121;103;111;110;32;123;32;37;100;44;10;0;60;37;57;46;51;102;44;32;37;57;46;51;102;44;32;37;57;46;51;
   102;62;0;37;115;10;32;32;32;32;37;115;0;10;32;32;32;32;37;115;32;32;32;32;37;115;32;32;32;32;37;115;32;
   32;32;32;37;115;125;10;0;47;47;42;42;42;32;101;108;108;105;112;115;101;10;0;116;111;114;117;115;32;123;
   32;37;46;51;102;44;32;37;46;51;102;10;32;32;32;32;37;115;32;32;32;32;37;115;32;32;32;32;37;115;32;32;32;
   32;37;115;125;10;0;115;112;104;101;114;101;32;123;60;37;57;46;51;102;44;32;37;57;46;51;102;44;32;37;57;
   46;51;102;62;44;32;49;46;48;10;32;32;32;32;37;115;32;32;32;32;37;115;32;32;32;32;37;115;32;32;32;32;37;
   115;125;10;0;47;47;42;42;42;32;116;101;120;116;115;112;97;110;58;32;37;115;44;32;102;111;110;116;115;105;
   122;101;32;61;32;37;46;51;102;44;32;102;111;110;116;110;97;109;101;32;61;32;37;115;10;0;115;99;97;108;
   101;32;37;46;51;102;10;0;116;101;120;116;32;123;10;32;32;32;32;116;116;102;32;34;37;115;34;44;10;32;32;
   32;32;34;37;115;34;44;32;37;46;51;102;44;32;37;46;51;102;10;32;32;32;32;37;115;32;32;32;32;37;115;32;32;
   32;32;37;115;32;32;32;32;37;115;32;32;32;32;37;115;125;10;0;32;32;32;32;110;111;95;115;104;97;100;111;
   119;10;0;47;47;42;42;42;32;101;110;100;95;101;100;103;101;10;0;47;47;42;42;42;32;98;101;103;105;110;95;
   101;100;103;101;10;0;47;47;42;42;42;32;101;110;100;95;110;111;100;101;10;0;47;47;42;42;42;32;98;101;103;
   105;110;95;110;111;100;101;58;32;37;115;10;0;47;47;42;42;42;32;101;110;100;95;99;108;117;115;116;101;114;
   10;0;47;47;42;42;42;32;98;101;103;105;110;95;99;108;117;115;116;101;114;10;0;47;47;42;42;42;32;101;110;
   100;95;112;97;103;101;10;0;47;47;42;42;42;32;98;101;103;105;110;95;112;97;103;101;10;0;47;47;42;42;42;32;
   101;110;100;95;108;97;121;101;114;10;0;47;47;42;42;42;32;98;101;103;105;110;95;108;97;121;101;114;58;32;
   37;115;44;32;37;100;47;37;100;10;0;47;47;42;42;42;32;101;110;100;95;103;114;97;112;104;10;0;47;47;42;42;
   42;32;98;101;103;105;110;95;103;114;97;112;104;32;37;115;10;0;99;97;109;101;114;97;32;123;32;108;111;99;
   97;116;105;111;110;32;60;37;46;51;102;32;44;32;37;46;51;102;32;44;32;37;46;51;102;62;10;32;32;32;32;32;
   32;32;32;32;108;111;111;107;95;97;116;32;32;60;37;46;51;102;32;44;32;37;46;51;102;32;44;32;37;46;51;102;
   62;10;32;32;32;32;32;32;32;32;32;114;105;103;104;116;32;120;32;42;32;105;109;97;103;101;95;119;105;100;
   116;104;32;47;32;105;109;97;103;101;95;104;101;105;103;104;116;10;32;32;32;32;32;32;32;32;32;97;110;103;
   108;101;32;37;46;51;102;10;125;10;0;47;47;115;107;121;10;112;108;97;110;101;32;123;32;60;48;44;32;49;44;
   32;48;62;44;32;49;32;104;111;108;108;111;119;10;32;32;32;32;116;101;120;116;117;114;101;32;123;10;32;32;
   32;32;32;32;32;32;112;105;103;109;101;110;116;32;123;32;98;111;122;111;32;116;117;114;98;117;108;101;110;
   99;101;32;48;46;57;53;10;32;32;32;32;32;32;32;32;32;32;32;32;99;111;108;111;114;95;109;97;112;32;123;10;
   32;32;32;32;32;32;32;32;32;32;32;32;32;32;32;32;91;48;46;48;48;32;114;103;98;32;60;48;46;48;53;44;32;48;
   46;50;48;44;32;48;46;53;48;62;93;10;32;32;32;32;32;32;32;32;32;32;32;32;32;32;32;32;91;48;46;53;48;32;
   114;103;98;32;60;48;46;48;53;44;32;48;46;50;48;44;32;48;46;53;48;62;93;10;32;32;32;32;32;32;32;32;32;32;
   32;32;32;32;32;32;91;48;46;55;53;32;114;103;98;32;60;49;46;48;48;44;32;49;46;48;48;44;32;49;46;48;48;62;
   93;10;32;32;32;32;32;32;32;32;32;32;32;32;32;32;32;32;91;48;46;55;53;32;114;103;98;32;60;48;46;50;53;44;
   32;48;46;50;53;44;32;48;46;50;53;62;93;10;32;32;32;32;32;32;32;32;32;32;32;32;32;32;32;32;91;49;46;48;48;
   32;114;103;98;32;60;48;46;53;48;44;32;48;46;53;48;44;32;48;46;53;48;62;93;10;32;32;32;32;32;32;32;32;32;
   32;32;32;125;10;32;32;32;32;32;32;32;32;32;32;32;32;115;99;97;108;101;32;60;49;46;48;48;44;32;49;46;48;
   48;44;32;49;46;53;48;62;32;42;32;50;46;53;48;10;32;32;32;32;32;32;32;32;32;32;32;32;116;114;97;110;115;
   108;97;116;101;32;60;48;46;48;48;44;32;48;46;48;48;44;32;48;46;48;48;62;10;32;32;32;32;32;32;32;32;125;
   10;32;32;32;32;32;32;32;32;102;105;110;105;115;104;32;123;32;97;109;98;105;101;110;116;32;49;32;100;105;
   102;102;117;115;101;32;48;32;125;10;32;32;32;32;125;10;32;32;32;32;115;99;97;108;101;32;49;48;48;48;48;
   10;125;10;47;47;109;105;115;116;10;102;111;103;32;123;32;102;111;103;95;116;121;112;101;32;50;10;32;32;
   32;32;100;105;115;116;97;110;99;101;32;53;48;10;32;32;32;32;99;111;108;111;114;32;114;103;98;32;60;49;46;
   48;48;44;32;49;46;48;48;44;32;49;46;48;48;62;32;42;32;48;46;55;53;10;32;32;32;32;102;111;103;95;111;102;
   102;115;101;116;32;48;46;49;48;10;32;32;32;32;102;111;103;95;97;108;116;32;49;46;53;48;10;32;32;32;32;
   116;117;114;98;117;108;101;110;99;101;32;49;46;55;53;10;125;10;47;47;103;110;100;10;112;108;97;110;101;
   32;123;32;60;48;46;48;48;44;32;49;46;48;48;44;32;48;46;48;48;62;44;32;48;10;32;32;32;32;116;101;120;116;
   117;114;101;32;123;10;32;32;32;32;32;32;32;32;112;105;103;109;101;110;116;123;32;99;111;108;111;114;32;
   114;103;98;32;60;48;46;50;53;44;32;48;46;52;53;44;32;48;46;48;48;62;32;125;10;32;32;32;32;32;32;32;32;
   110;111;114;109;97;108;32;123;32;98;117;109;112;115;32;48;46;55;53;32;115;99;97;108;101;32;48;46;48;49;
   32;125;10;32;32;32;32;32;32;32;32;102;105;110;105;115;104;32;123;32;112;104;111;110;103;32;48;46;49;48;
   32;125;10;32;32;32;32;125;10;125;10;0;108;105;103;104;116;95;115;111;117;114;99;101;32;123;32;60;49;53;
   48;48;44;51;48;48;48;44;45;50;53;48;48;62;32;99;111;108;111;114;32;87;104;105;116;101;32;125;10;0;35;118;
   101;114;115;105;111;110;32;51;46;54;59;10;0;103;108;111;98;97;108;95;115;101;116;116;105;110;103;115;32;
   123;32;97;115;115;117;109;101;100;95;103;97;109;109;97;32;49;46;48;32;125;10;0;35;100;101;102;97;117;108;
   116;32;123;32;102;105;110;105;115;104;32;123;32;97;109;98;105;101;110;116;32;48;46;49;32;100;105;102;102;
   117;115;101;32;48;46;57;32;125;32;125;10;0;35;105;110;99;108;117;100;101;32;34;99;111;108;111;114;115;46;
   105;110;99;34;10;35;105;110;99;108;117;100;101;32;34;116;101;120;116;117;114;101;115;46;105;110;99;34;10;
   35;105;110;99;108;117;100;101;32;34;115;104;97;112;101;115;46;105;110;99;34;10;0;35;100;101;99;108;97;
   114;101;32;37;115;32;61;32;37;115;59;10;0;66;108;97;99;107;0;87;104;105;116;101;0;112;105;99;0;112;105;
   99;58;112;105;99;0;37;115;32;37;115;10;0;46;92;34;32;0;32;37;100;32;37;100;0;32;37;115;10;0;32;37;100;0;
   102;105;108;108;32;0;101;108;108;105;112;115;101;32;97;116;116;114;115;37;100;32;37;115;119;105;100;32;
   37;46;53;102;32;104;116;32;37;46;53;102;32;97;116;32;40;37;46;53;102;44;37;46;53;102;41;59;10;0;37;115;
   37;115;32;105;115;32;110;111;116;32;97;32;116;114;111;102;102;32;102;111;110;116;10;0;100;111;116;32;112;
   105;99;32;112;108;117;103;105;110;58;32;0;82;0;46;102;116;32;37;115;10;0;46;112;115;32;37;100;42;92;110;
   40;83;70;117;47;37;46;48;102;117;10;0;37;48;51;111;0;34;37;115;34;32;97;116;32;40;37;46;53;102;44;37;46;
   53;102;41;59;10;0;93;10;46;80;69;10;0;37;115;37;115;32;117;110;115;117;112;112;111;114;116;101;100;10;0;
   114;111;116;97;116;105;111;110;0;46;80;83;32;37;46;53;102;32;37;46;53;102;10;0;37;115;32;116;111;32;99;
   104;97;110;103;101;32;100;114;97;119;105;110;103;32;115;105;122;101;44;32;109;117;108;116;105;112;108;
   121;32;116;104;101;32;119;105;100;116;104;32;97;110;100;32;104;101;105;103;104;116;32;111;110;32;116;104;
   101;32;46;80;83;32;108;105;110;101;32;97;98;111;118;101;32;97;110;100;32;116;104;101;32;110;117;109;98;
   101;114;32;111;110;32;116;104;101;32;116;119;111;32;108;105;110;101;115;32;98;101;108;111;119;32;40;114;
   111;117;110;100;101;100;32;116;111;32;116;104;101;32;110;101;97;114;101;115;116;32;105;110;116;101;103;
   101;114;41;32;98;121;32;97;32;115;99;97;108;101;32;102;97;99;116;111;114;10;0;46;110;114;32;83;70;32;37;
   46;48;102;10;115;99;97;108;101;116;104;105;99;107;110;101;115;115;32;61;32;37;46;48;102;10;0;37;115;32;
   100;111;110;39;116;32;99;104;97;110;103;101;32;97;110;121;116;104;105;110;103;32;98;101;108;111;119;32;
   116;104;105;115;32;108;105;110;101;32;105;110;32;116;104;105;115;32;100;114;97;119;105;110;103;10;0;37;
   115;32;110;111;110;45;102;97;116;97;108;32;114;117;110;45;116;105;109;101;32;112;105;99;32;118;101;114;
   115;105;111;110;32;100;101;116;101;114;109;105;110;97;116;105;111;110;44;32;118;101;114;115;105;111;110;
   32;50;10;0;98;111;120;114;97;100;61;50;46;48;32;37;115;32;119;105;108;108;32;98;101;32;114;101;115;101;
   116;32;116;111;32;48;46;48;32;98;121;32;103;112;105;99;32;111;110;108;121;10;0;115;99;97;108;101;61;49;
   46;48;32;37;115;32;114;101;113;117;105;114;101;100;32;102;111;114;32;99;111;109;112;97;114;105;115;111;
   110;115;10;0;37;115;32;98;111;120;114;97;100;32;105;115;32;110;111;119;32;48;46;48;32;105;110;32;103;112;
   105;99;44;32;101;108;115;101;32;105;116;32;114;101;109;97;105;110;115;32;50;46;48;10;0;37;115;32;100;97;
   115;104;119;105;100;32;105;115;32;48;46;49;32;105;110;32;49;48;116;104;32;69;100;105;116;105;111;110;44;
   32;48;46;48;53;32;105;110;32;68;87;66;32;50;32;97;110;100;32;105;110;32;103;112;105;99;10;0;37;115;32;
   102;105;108;108;118;97;108;32;105;115;32;48;46;51;32;105;110;32;49;48;116;104;32;69;100;105;116;105;111;
   110;32;40;102;105;108;108;32;48;32;109;101;97;110;115;32;98;108;97;99;107;41;44;32;48;46;53;32;105;110;
   32;103;112;105;99;32;40;102;105;108;108;32;48;32;109;101;97;110;115;32;119;104;105;116;101;41;44;32;117;
   110;100;101;102;105;110;101;100;32;105;110;32;68;87;66;32;50;10;0;37;115;32;102;105;108;108;32;104;97;
   115;32;110;111;32;109;101;97;110;105;110;103;32;105;110;32;68;87;66;32;50;44;32;103;112;105;99;32;99;97;
   110;32;117;115;101;32;102;105;108;108;32;111;114;32;102;105;108;108;101;100;44;32;49;48;116;104;32;69;
   100;105;116;105;111;110;32;117;115;101;115;32;102;105;108;108;32;111;110;108;121;10;0;37;115;32;68;87;66;
   32;50;32;100;111;101;115;110;39;116;32;117;115;101;32;102;105;108;108;32;97;110;100;32;100;111;101;115;
   110;39;116;32;100;101;102;105;110;101;32;102;105;108;108;118;97;108;10;0;37;115;32;114;101;115;101;116;
   32;119;111;114;107;115;32;105;110;32;103;112;105;99;32;97;110;100;32;49;48;116;104;32;101;100;105;116;
   105;111;110;44;32;98;117;116;32;105;115;110;39;116;32;100;101;102;105;110;101;100;32;105;110;32;68;87;66;
   32;50;10;0;37;115;32;68;87;66;32;50;32;99;111;109;112;97;116;105;98;105;108;105;116;121;32;100;101;102;
   105;110;105;116;105;111;110;115;10;0;105;102;32;98;111;120;114;97;100;32;62;32;49;46;48;32;38;38;32;100;
   97;115;104;119;105;100;32;60;32;48;46;48;55;53;32;116;104;101;110;32;88;10;9;102;105;108;108;118;97;108;
   32;61;32;49;59;10;9;100;101;102;105;110;101;32;102;105;108;108;32;89;32;89;59;10;9;100;101;102;105;110;
   101;32;115;111;108;105;100;32;89;32;89;59;10;9;100;101;102;105;110;101;32;114;101;115;101;116;32;89;32;
   115;99;97;108;101;61;49;46;48;32;89;59;10;88;10;0;114;101;115;101;116;32;37;115;32;115;101;116;32;116;
   111;32;107;110;111;119;110;32;115;116;97;116;101;10;0;37;115;32;71;78;85;32;112;105;99;32;118;115;46;32;
   49;48;116;104;32;69;100;105;116;105;111;110;32;100;92;40;101;39;116;101;110;116;101;10;0;105;102;32;102;
   105;108;108;118;97;108;32;62;32;48;46;52;32;116;104;101;110;32;88;10;9;100;101;102;105;110;101;32;115;
   101;116;102;105;108;108;118;97;108;32;89;32;102;105;108;108;118;97;108;32;61;32;49;32;45;32;89;59;10;9;
   100;101;102;105;110;101;32;98;111;108;100;32;89;32;116;104;105;99;107;110;101;115;115;32;50;32;89;59;10;
   0;9;37;115;32;105;102;32;121;111;117;32;117;115;101;32;103;112;105;99;32;97;110;100;32;105;116;32;98;97;
   114;102;115;32;111;110;32;101;110;99;111;117;110;116;101;114;105;110;103;32;34;115;111;108;105;100;34;44;
   10;0;9;37;115;9;105;110;115;116;97;108;108;32;97;32;109;111;114;101;32;114;101;99;101;110;116;32;118;101;
   114;115;105;111;110;32;111;102;32;103;112;105;99;32;111;114;32;115;119;105;116;99;104;32;116;111;32;68;
   87;66;32;111;114;32;49;48;116;104;32;69;100;105;116;105;111;110;32;112;105;99;59;10;0;9;37;115;9;115;111;
   114;114;121;44;32;116;104;101;32;103;114;111;102;102;32;102;111;108;107;115;32;99;104;97;110;103;101;100;
   32;103;112;105;99;59;32;115;101;110;100;32;97;110;121;32;99;111;109;112;108;97;105;110;116;32;116;111;32;
   116;104;101;109;59;10;0;88;32;101;108;115;101;32;90;10;9;100;101;102;105;110;101;32;115;101;116;102;105;
   108;108;118;97;108;32;89;32;102;105;108;108;118;97;108;32;61;32;89;59;10;9;100;101;102;105;110;101;32;98;
   111;108;100;32;89;32;89;59;10;9;100;101;102;105;110;101;32;102;105;108;108;101;100;32;89;32;102;105;108;
   108;32;89;59;10;90;10;0;37;115;32;97;114;114;111;119;104;101;97;100;32;104;97;115;32;110;111;32;109;101;
   97;110;105;110;103;32;105;110;32;68;87;66;32;50;44;32;97;114;114;111;119;104;101;97;100;32;61;32;55;32;
   109;97;107;101;115;32;102;105;108;108;101;100;32;97;114;114;111;119;104;101;97;100;115;32;105;110;32;103;
   112;105;99;32;97;110;100;32;105;110;32;49;48;116;104;32;69;100;105;116;105;111;110;10;0;37;115;32;97;114;
   114;111;119;104;101;97;100;32;105;115;32;117;110;100;101;102;105;110;101;100;32;105;110;32;68;87;66;32;
   50;44;32;105;110;105;116;105;97;108;108;121;32;49;32;105;110;32;103;112;105;99;44;32;50;32;105;110;32;49;
   48;116;104;32;69;100;105;116;105;111;110;10;0;97;114;114;111;119;104;101;97;100;32;61;32;55;32;37;115;32;
   110;111;116;32;117;115;101;100;32;98;121;32;103;114;97;112;104;118;105;122;10;0;37;115;32;71;78;85;32;
   112;105;99;32;115;117;112;112;111;114;116;115;32;97;32;98;111;120;114;97;100;32;118;97;114;105;97;98;108;
   101;32;116;111;32;100;114;97;119;32;98;111;120;101;115;32;119;105;116;104;32;114;111;117;110;100;101;100;
   32;99;111;114;110;101;114;115;59;32;68;87;66;32;97;110;100;32;49;48;116;104;32;69;100;46;32;100;111;32;
   110;111;116;10;0;98;111;120;114;97;100;32;61;32;48;32;37;115;32;110;111;32;114;111;117;110;100;101;100;
   32;99;111;114;110;101;114;115;32;105;110;32;103;114;97;112;104;118;105;122;10;0;37;115;32;71;78;85;32;
   112;105;99;32;115;117;112;112;111;114;116;115;32;97;32;108;105;110;101;116;104;105;99;107;32;118;97;114;
   105;97;98;108;101;32;116;111;32;115;101;116;32;108;105;110;101;32;116;104;105;99;107;110;101;115;115;59;
   32;68;87;66;32;97;110;100;32;49;48;116;104;32;69;100;46;32;100;111;32;110;111;116;10;0;108;105;110;101;
   116;104;105;99;107;32;61;32;48;59;32;111;108;100;108;105;110;101;116;104;105;99;107;32;61;32;108;105;110;
   101;116;104;105;99;107;10;0;37;115;32;46;80;83;32;119;47;111;32;97;114;103;115;32;99;97;117;115;101;115;
   32;71;78;85;32;112;105;99;32;116;111;32;115;99;97;108;101;32;100;114;97;119;105;110;103;32;116;111;32;
   102;105;116;32;56;46;53;120;49;49;32;112;97;112;101;114;59;32;68;87;66;32;100;111;101;115;32;110;111;116;
   10;0;37;115;32;109;97;120;112;115;104;116;32;97;110;100;32;109;97;120;112;115;119;105;100;32;104;97;118;
   101;32;110;111;32;109;101;97;110;105;110;103;32;105;110;32;68;87;66;32;50;46;48;44;32;115;101;116;32;112;
   97;103;101;32;98;111;117;110;100;97;114;105;101;115;32;105;110;32;103;112;105;99;32;97;110;100;32;105;
   110;32;49;48;116;104;32;69;100;105;116;105;111;110;10;0;37;115;32;109;97;120;112;115;104;116;32;97;110;
   100;32;109;97;120;112;115;119;105;100;32;97;114;101;32;112;114;101;100;101;102;105;110;101;100;32;116;
   111;32;49;49;46;48;32;97;110;100;32;56;46;53;32;105;110;32;103;112;105;99;10;0;109;97;120;112;115;104;
   116;32;61;32;37;102;10;109;97;120;112;115;119;105;100;32;61;32;37;102;10;0;68;111;116;58;32;91;10;0;100;
   101;102;105;110;101;32;97;116;116;114;115;48;32;37;37;32;37;37;59;32;100;101;102;105;110;101;32;117;110;
   102;105;108;108;101;100;32;37;37;32;37;37;59;32;100;101;102;105;110;101;32;114;111;117;110;100;101;100;
   32;37;37;32;37;37;59;32;100;101;102;105;110;101;32;100;105;97;103;111;110;97;108;115;32;37;37;32;37;37;
   10;0;37;115;32;114;101;115;116;111;114;101;32;112;111;105;110;116;32;115;105;122;101;32;97;110;100;32;
   102;111;110;116;10;46;112;115;32;92;110;40;46;83;10;46;102;116;32;92;110;40;68;70;10;0;37;115;32;67;114;
   101;97;116;111;114;58;32;37;115;32;118;101;114;115;105;111;110;32;37;115;32;40;37;115;41;10;0;37;115;32;
   84;105;116;108;101;58;32;37;115;10;0;37;115;32;115;97;118;101;32;112;111;105;110;116;32;115;105;122;101;
   32;97;110;100;32;102;111;110;116;10;46;110;114;32;46;83;32;92;110;40;46;115;10;46;110;114;32;68;70;32;92;
   110;40;46;102;10;0;112;110;103;58;115;118;103;0;103;105;102;58;115;118;103;0;106;112;101;103;58;115;118;
   103;0;106;112;101;58;115;118;103;0;106;112;103;58;115;118;103;0;112;110;103;58;102;105;103;0;103;105;102;
   58;102;105;103;0;106;112;101;103;58;102;105;103;0;106;112;101;58;102;105;103;0;106;112;103;58;102;105;
   103;0;112;110;103;58;118;114;109;108;0;103;105;102;58;118;114;109;108;0;106;112;101;103;58;118;114;109;
   108;0;106;112;101;58;118;114;109;108;0;106;112;103;58;118;114;109;108;0;101;112;115;58;112;115;0;112;115;
   58;112;115;0;40;108;105;98;41;58;112;115;0;112;110;103;58;109;97;112;0;103;105;102;58;109;97;112;0;106;
   112;101;103;58;109;97;112;0;106;112;101;58;109;97;112;0;106;112;103;58;109;97;112;0;112;115;58;109;97;
   112;0;101;112;115;58;109;97;112;0;115;118;103;58;109;97;112;0;112;110;103;58;100;111;116;0;103;105;102;
   58;100;111;116;0;106;112;101;103;58;100;111;116;0;106;112;101;58;100;111;116;0;106;112;103;58;100;111;
   116;0;112;115;58;100;111;116;0;101;112;115;58;100;111;116;0;115;118;103;58;100;111;116;0;112;110;103;58;
   120;100;111;116;0;103;105;102;58;120;100;111;116;0;106;112;101;103;58;120;100;111;116;0;106;112;101;58;
   120;100;111;116;0;106;112;103;58;120;100;111;116;0;112;115;58;120;100;111;116;0;101;112;115;58;120;100;
   111;116;0;115;118;103;58;120;100;111;116;0;115;118;103;58;115;118;103;0;112;110;103;58;118;109;108;0;103;
   105;102;58;118;109;108;0;106;112;101;103;58;118;109;108;0;106;112;101;58;118;109;108;0;106;112;103;58;
   118;109;108;0;103;105;102;58;116;107;0;105;109;97;103;101;32;99;114;101;97;116;101;32;112;104;111;116;
   111;32;34;112;104;111;116;111;95;37;115;34;32;45;102;105;108;101;32;34;37;115;34;10;0;36;99;32;99;114;
   101;97;116;101;32;105;109;97;103;101;32;37;46;50;102;32;37;46;50;102;32;45;105;109;97;103;101;32;34;112;
   104;111;116;111;95;37;115;34;10;0;60;118;58;105;109;97;103;101;32;115;114;99;61;34;37;115;34;32;115;116;
   121;108;101;61;34;32;112;111;115;105;116;105;111;110;58;97;98;115;111;108;117;116;101;59;32;119;105;100;
   116;104;58;37;46;50;102;59;32;104;101;105;103;104;116;58;37;46;50;102;59;32;108;101;102;116;58;37;46;50;
   102;32;59;32;116;111;112;58;37;46;50;102;34;0;32;47;62;10;0;103;118;108;111;97;100;105;109;97;103;101;95;
   99;111;114;101;46;99;0;99;111;114;101;95;108;111;97;100;105;109;97;103;101;95;112;115;108;105;98;0;91;32;
   0;37;103;32;37;103;32].

(** [n.q+115698]: 10240 bytes. *)
Definition segment_115698 : list Z :=
  [93;32;32;37;100;32;116;114;117;101;32;37;115;10;0;93;32;32;37;100;32;102;97;108;115;101;32;37;115;10;0;
   99;111;114;101;95;108;111;97;100;105;109;97;103;101;95;112;115;0;103;115;97;118;101;32;37;103;32;37;103;
   32;116;114;97;110;115;108;97;116;101;32;110;101;119;112;97;116;104;10;0;117;115;101;114;95;115;104;97;
   112;101;95;37;100;10;0;103;114;101;115;116;111;114;101;10;0;99;111;114;101;95;108;111;97;100;105;109;97;
   103;101;95;118;114;109;108;0;83;104;97;112;101;32;123;10;0;32;32;97;112;112;101;97;114;97;110;99;101;32;
   65;112;112;101;97;114;97;110;99;101;32;123;10;0;32;32;32;32;109;97;116;101;114;105;97;108;32;77;97;116;
   101;114;105;97;108;32;123;10;0;32;32;32;32;32;32;97;109;98;105;101;110;116;73;110;116;101;110;115;105;
   116;121;32;48;46;51;51;10;0;32;32;32;32;32;32;32;32;100;105;102;102;117;115;101;67;111;108;111;114;32;49;
   32;49;32;49;10;0;32;32;32;32;125;10;0;32;32;32;32;116;101;120;116;117;114;101;32;73;109;97;103;101;84;
   101;120;116;117;114;101;32;123;32;117;114;108;32;34;37;115;34;32;125;10;0;32;32;125;10;0;99;111;114;101;
   95;108;111;97;100;105;109;97;103;101;95;102;105;103;0;37;100;32;37;100;32;37;100;32;37;100;32;37;100;32;
   37;100;32;37;100;32;37;100;32;37;100;32;37;46;49;102;32;37;100;32;37;100;32;37;100;32;37;100;32;37;100;
   32;37;100;10;32;37;100;32;37;115;10;0;32;37;100;32;37;100;32;37;100;32;37;100;32;37;100;32;37;100;32;37;
   100;32;37;100;32;37;100;32;37;100;10;0;99;111;114;101;95;108;111;97;100;105;109;97;103;101;95;115;118;
   103;0;60;105;109;97;103;101;32;120;108;105;110;107;58;104;114;101;102;61;34;0;34;32;119;105;100;116;104;
   61;34;37;103;112;120;34;32;104;101;105;103;104;116;61;34;37;103;112;120;34;32;112;114;101;115;101;114;
   118;101;65;115;112;101;99;116;82;97;116;105;111;61;34;120;77;105;100;89;77;105;100;32;109;101;101;116;34;
   32;120;61;34;37;103;34;32;121;61;34;37;103;34;0;32;116;114;97;110;115;102;111;114;109;61;34;114;111;116;
   97;116;101;40;37;100;32;37;103;32;37;103;41;34;0;34;32;119;105;100;116;104;61;34;37;103;112;120;34;32;
   104;101;105;103;104;116;61;34;37;103;112;120;34;32;112;114;101;115;101;114;118;101;65;115;112;101;99;116;
   82;97;116;105;111;61;34;120;77;105;110;89;77;105;110;32;109;101;101;116;34;32;120;61;34;37;103;34;32;121;
   61;34;37;103;34;0;47;62;10;0;100;111;116;95;108;97;121;111;117;116;0;112;104;97;115;101;0;100;111;116;32;
   100;111;101;115;32;110;111;116;32;115;117;112;112;111;114;116;32;116;104;101;32;97;115;112;101;99;116;32;
   97;116;116;114;105;98;117;116;101;32;102;111;114;32;100;105;115;99;111;110;110;101;99;116;101;100;32;103;
   114;97;112;104;115;32;111;114;32;103;114;97;112;104;115;32;119;105;116;104;32;99;108;117;115;116;101;114;
   115;10;0;118;32;61;61;32;110;0;100;111;116;105;110;105;116;46;99;0;114;101;109;111;118;101;95;102;114;
   111;109;95;114;97;110;107;0;99;111;109;112;111;117;110;100;0;111;114;100;101;114;0;101;100;103;101;32;
   108;97;98;101;108;115;32;119;105;116;104;32;115;112;108;105;110;101;115;61;99;117;114;118;101;100;32;110;
   111;116;32;115;117;112;112;111;114;116;101;100;32;105;110;32;100;111;116;32;45;32;117;115;101;32;120;108;
   97;98;101;108;115;10;0;40;108;32;61;32;69;68;95;108;97;98;101;108;40;102;101;41;41;0;100;111;116;115;112;
   108;105;110;101;115;46;99;0;115;101;116;69;100;103;101;76;97;98;101;108;80;111;115;0;69;68;95;108;97;98;
   101;108;40;102;101;41;0;95;100;111;116;95;115;112;108;105;110;101;115;0;102;108;97;116;32;101;100;103;
   101;32;98;101;116;119;101;101;110;32;97;100;106;97;99;101;110;116;32;110;111;100;101;115;32;111;110;101;
   32;111;102;32;119;104;105;99;104;32;104;97;115;32;97;32;114;101;99;111;114;100;32;115;104;97;112;101;32;
   45;32;114;101;112;108;97;99;101;32;114;101;99;111;114;100;115;32;119;105;116;104;32;72;84;77;76;45;108;
   105;107;101;32;108;97;98;101;108;115;10;0;32;32;69;100;103;101;32;37;115;32;37;115;32;37;115;10;0;97;117;
   120;103;0;108;97;98;101;108;95;102;108;111;97;116;0;102;105;120;101;100;0;120;120;120;0;49;48;48;48;48;0;
   123;37;115;125;0;101;32;33;61;32;78;85;76;76;0;102;97;115;116;103;114;46;99;0;100;101;108;101;116;101;95;
   102;97;115;116;95;101;100;103;101;0;110;32;33;61;32;78;68;95;110;101;120;116;40;110;41;0;102;97;115;116;
   95;110;111;100;101;0;117;32;33;61;32;118;0;102;97;115;116;95;110;111;100;101;97;112;112;0;78;68;95;110;
   101;120;116;40;118;41;32;61;61;32;78;85;76;76;0;102;105;110;100;95;102;97;115;116;95;110;111;100;101;40;
   103;44;32;110;41;0;100;101;108;101;116;101;95;102;97;115;116;95;110;111;100;101;0;100;101;108;101;116;
   101;95;102;108;97;116;95;101;100;103;101;0;109;101;114;103;101;95;111;110;101;119;97;121;32;103;108;105;
   116;99;104;10;0;109;101;114;103;101;95;111;110;101;119;97;121;0;108;103;0;105;110;102;111;0;99;111;109;
   112;0;99;110;116;32;61;61;32;115;122;0;109;105;110;99;114;111;115;115;46;99;0;102;105;120;76;97;98;101;
   108;79;114;100;101;114;0;0;109;99;108;105;109;105;116;0;109;101;114;103;101;50;58;32;103;114;97;112;104;
   32;37;115;44;32;114;97;110;107;32;37;100;32;104;97;115;32;111;110;108;121;32;37;100;32;60;32;37;100;32;
   110;111;100;101;115;10;0;114;101;109;105;110;99;114;111;115;115;0;109;105;110;99;114;111;115;115;32;37;
   115;58;32;37;100;32;99;114;111;115;115;105;110;103;115;44;32;37;46;50;102;32;115;101;99;115;46;10;0;105;
   110;115;116;97;108;108;95;105;110;95;114;97;110;107;44;32;108;105;110;101;32;37;100;58;32;37;115;32;37;
   115;32;114;97;110;107;32;37;100;32;105;32;61;32;37;100;32;97;110;32;61;32;48;10;0;71;68;95;114;97;110;
   107;40;103;41;91;114;93;46;110;32;60;61;32;71;68;95;114;97;110;107;40;103;41;91;114;93;46;97;110;0;105;
   110;115;116;97;108;108;95;105;110;95;114;97;110;107;0;105;110;115;116;97;108;108;95;105;110;95;114;97;
   110;107;44;32;108;105;110;101;32;37;100;58;32;78;68;95;111;114;100;101;114;40;37;115;41;32;91;37;100;93;
   32;62;32;71;68;95;114;97;110;107;40;82;111;111;116;41;91;37;100;93;46;97;110;32;91;37;100;93;10;0;105;
   110;115;116;97;108;108;95;105;110;95;114;97;110;107;44;32;108;105;110;101;32;37;100;58;32;114;97;110;107;
   32;37;100;32;110;111;116;32;105;110;32;114;97;110;107;32;114;97;110;103;101;32;91;37;100;44;37;100;93;10;
   0;105;110;115;116;97;108;108;95;105;110;95;114;97;110;107;44;32;108;105;110;101;32;37;100;58;32;71;68;95;
   114;97;110;107;40;103;41;91;37;100;93;46;118;32;43;32;78;68;95;111;114;100;101;114;40;37;115;41;32;91;37;
   100;93;32;62;32;71;68;95;114;97;110;107;40;103;41;91;37;100;93;46;97;118;32;43;32;71;68;95;114;97;110;
   107;40;82;111;111;116;41;91;37;100;93;46;97;110;32;91;37;100;93;10;0;115;117;114;112;114;105;115;101;10;
   0;78;68;95;111;114;100;101;114;40;118;41;32;60;32;78;68;95;111;114;100;101;114;40;119;41;0;116;114;97;
   110;115;112;111;115;101;95;115;116;101;112;0;118;0;110;101;105;103;104;98;111;114;0;40;114;118;32;61;61;
   32;48;41;32;124;124;32;40;78;68;95;111;114;100;101;114;40;114;118;41;45;78;68;95;111;114;100;101;114;40;
   118;41;41;42;100;105;114;32;62;32;48;0;99;111;110;115;116;114;97;105;110;105;110;103;95;102;108;97;116;
   95;101;100;103;101;40;103;44;118;44;101;41;32;61;61;32;70;65;76;83;69;0;102;108;97;116;95;114;101;111;
   114;100;101;114;0;78;68;95;114;97;110;107;40;118;41;32;61;61;32;114;0;112;111;115;116;111;114;100;101;
   114;0;102;108;97;116;105;110;100;101;120;40;97;103;104;101;97;100;40;101;41;41;32;60;32;77;45;62;110;114;
   111;119;115;0;102;108;97;116;95;115;101;97;114;99;104;0;102;108;97;116;105;110;100;101;120;40;97;103;116;
   97;105;108;40;101;41;41;32;60;32;77;45;62;110;99;111;108;115;0;109;105;110;99;114;111;115;115;58;32;112;
   97;115;115;32;37;100;32;105;116;101;114;32;37;100;32;116;114;121;105;110;103;32;37;100;32;99;117;114;95;
   99;114;111;115;115;32;37;100;32;98;101;115;116;95;99;114;111;115;115;32;37;100;10;0;98;97;108;97;110;99;
   101;0;111;117;116;0;111;114;100;101;114;105;110;103;32;39;37;115;39;32;110;111;116;32;114;101;99;111;103;
   110;105;122;101;100;46;10;0;111;114;100;101;114;105;110;103;32;39;37;115;39;32;110;111;116;32;114;101;99;
   111;103;110;105;122;101;100;32;102;111;114;32;110;111;100;101;32;39;37;115;39;46;10;0;95;110;101;119;95;
   114;97;110;107;0;69;100;103;101;32;108;101;110;103;116;104;32;37;102;32;108;97;114;103;101;114;32;116;
   104;97;110;32;109;97;120;105;109;117;109;32;37;117;32;97;108;108;111;119;101;100;46;10;67;104;101;99;107;
   32;102;111;114;32;111;118;101;114;119;105;100;101;32;110;111;100;101;40;115;41;46;10;0;104;112;0;112;111;
   115;105;116;105;111;110;46;99;0;99;111;110;110;101;99;116;71;114;97;112;104;0;114;97;110;107;40;103;44;
   32;50;44;32;110;115;105;116;101;114;50;40;103;41;41;32;61;61;32;48;0;100;111;116;95;112;111;115;105;116;
   105;111;110;0;65;82;61;37;48;46;52;108;102;9;32;65;114;101;97;61;32;37;48;46;52;108;102;9;0;68;117;109;
   109;121;61;37;100;10;0;71;111;105;110;103;32;116;111;32;97;112;112;108;121;32;97;110;111;116;104;101;114;
   32;101;120;112;97;110;115;105;111;110;46;10;0;110;101;120;116;35;105;116;101;114;61;37;100;10;0;110;115;
   108;105;109;105;116;0;99;111;110;116;97;105;110;95;110;111;100;101;115;32;99;108;117;115;116;32;37;115;
   32;114;97;110;107;32;37;100;32;109;105;115;115;105;110;103;32;110;111;100;101;10;0;110;115;108;105;109;
   105;116;49;0;110;101;119;114;97;110;107;0;108;101;118;101;108;32;97;115;115;105;103;110;109;101;110;116;
   32;99;111;110;115;116;114;97;105;110;116;115;0;108;101;118;101;108;32;103;114;97;112;104;32;114;101;99;0;
   99;111;109;112;97;99;116;0;95;119;101;97;107;95;37;100;0;127;114;111;111;116;0;77;97;120;114;97;110;107;
   32;61;32;37;100;44;32;109;105;110;114;97;110;107;32;61;32;37;100;10;0;108;101;97;100;101;114;32;33;61;32;
   78;85;76;76;0;114;97;110;107;46;99;0;99;108;117;115;116;101;114;95;108;101;97;100;101;114;0;40;78;68;95;
   85;70;95;115;105;122;101;40;110;41;32;60;61;32;49;41;32;124;124;32;40;110;32;61;61;32;108;101;97;100;101;
   114;41;0;97;103;104;101;97;100;40;101;41;32;61;61;32;85;70;95;102;105;110;100;40;97;103;104;101;97;100;
   40;101;41;41;0;109;105;110;109;97;120;95;101;100;103;101;115;0;97;103;116;97;105;108;40;101;41;32;61;61;
   32;85;70;95;102;105;110;100;40;97;103;116;97;105;108;40;101;41;41;0;114;97;110;107;0;115;97;109;101;0;
   109;105;110;0;115;111;117;114;99;101;0;109;97;120;0;115;105;110;107;0;127;116;111;112;0;127;98;111;116;0;
   114;97;110;107;105;110;103;58;32;102;97;105;108;117;114;101;32;116;111;32;99;114;101;97;116;101;32;115;
   116;114;111;110;103;32;99;111;110;115;116;114;97;105;110;116;32;101;100;103;101;32;98;101;116;119;101;
   101;110;32;110;111;100;101;115;32;37;115;32;97;110;100;32;37;115;10;0;108;101;118;101;108;32;101;100;103;
   101;32;114;101;99;0;108;101;118;101;108;32;110;111;100;101;32;114;101;99;0;115;97;109;101;104;101;97;100;
   0;115;97;109;101;116;97;105;108;0;116;111;111;32;109;97;110;121;32;40;62;32;37;100;41;32;115;97;109;101;
   123;104;101;97;100;44;116;97;105;108;125;32;103;114;111;117;112;115;32;102;111;114;32;110;111;100;101;32;
   37;115;10;0;99;111;109;98;105;65;82;32;61;32;37;108;102;10;0;37;108;102;44;37;100;0;116;104;101;32;97;
   115;112;101;99;116;32;97;116;116;114;105;98;117;116;101;32;104;97;115;32;98;101;101;110;32;100;105;115;
   97;98;108;101;100;32;100;117;101;32;116;111;32;105;109;112;108;101;109;101;110;116;97;116;105;111;110;32;
   102;108;97;119;115;32;45;32;97;116;116;114;105;98;117;116;101;32;105;103;110;111;114;101;100;46;10;0;69;
   68;95;116;111;95;118;105;114;116;40;101;41;32;61;61;32;78;85;76;76;0;99;108;97;115;115;50;46;99;0;109;
   101;114;103;101;95;99;104;97;105;110;0;69;68;95;116;111;95;118;105;114;116;40;111;114;105;103;41;32;61;
   61;32;78;85;76;76;0;109;97;107;101;95;99;104;97;105;110;0;69;68;95;116;111;95;118;105;114;116;40;111;114;
   105;103;41;32;33;61;32;78;85;76;76;0;37;115;32;119;97;115;32;97;108;114;101;97;100;121;32;105;110;32;97;
   32;114;97;110;107;115;101;116;44;32;100;101;108;101;116;101;100;32;102;114;111;109;32;99;108;117;115;116;
   101;114;32;37;115;10;0;78;68;95;114;97;110;107;40;102;114;111;109;41;32;60;32;78;68;95;114;97;110;107;40;
   116;111;41;0;99;108;117;115;116;101;114;46;99;0;109;97;112;95;112;97;116;104;0;108;104;101;97;100;0;108;
   116;97;105;108;0;37;115;32;45;62;32;37;115;58;32;115;112;108;105;110;101;32;115;105;122;101;32;62;32;49;
   32;110;111;116;32;115;117;112;112;111;114;116;101;100;10;0;37;115;32;45;62;32;37;115;58;32;104;101;97;
   100;32;110;111;116;32;105;110;115;105;100;101;32;104;101;97;100;32;99;108;117;115;116;101;114;32;37;115;
   10;0;37;115;32;45;62;32;37;115;58;32;116;97;105;108;32;105;115;32;105;110;115;105;100;101;32;104;101;97;
   100;32;99;108;117;115;116;101;114;32;37;115;10;0;98;101;122;45;62;115;102;108;97;103;0;99;111;109;112;
   111;117;110;100;46;99;0;109;97;107;101;67;111;109;112;111;117;110;100;69;100;103;101;0;98;101;122;45;62;
   101;102;108;97;103;0;37;115;32;45;62;32;37;115;58;32;116;97;105;108;32;110;111;116;32;105;110;115;105;
   100;101;32;116;97;105;108;32;99;108;117;115;116;101;114;32;37;115;10;0;37;115;32;45;62;32;37;115;58;32;
   104;101;97;100;32;105;115;32;105;110;115;105;100;101;32;116;97;105;108;32;99;108;117;115;116;101;114;32;
   37;115;10;0;40;37;46;53;103;44;37;46;53;103;41;0;115;101;103;109;101;110;116;32;91;37;115;44;37;115;93;
   32;100;111;101;115;32;110;111;116;32;105;110;116;101;114;115;101;99;116;32;98;111;120;32;108;108;61;37;
   115;44;117;114;61;37;115;10;0;98;111;120;73;110;116;101;114;115;101;99;116;102;0;99;108;117;115;116;101;
   114;32;110;97;109;101;100;32;37;115;32;110;111;116;32;102;111;117;110;100;10;0;99;111;110;99;101;110;116;
   114;97;116;101;61;116;114;117;101;32;109;97;121;32;110;111;116;32;119;111;114;107;32;99;111;114;114;101;
   99;116;108;121;46;10;0;114;101;98;117;105;108;116;100;95;118;108;105;115;116;115;58;32;114;97;110;107;32;
   108;101;97;100;32;37;115;32;110;111;116;32;105;110;32;111;114;100;101;114;32;37;100;32;111;102;32;114;97;
   110;107;32;37;100;10;0;100;101;103;101;110;101;114;97;116;101;32;99;111;110;99;101;110;116;114;97;116;
   101;100;32;114;97;110;107;32;37;115;44;37;100;10;0;78;68;95;105;110;40;114;105;103;104;116;41;46;115;105;
   122;101;32;43;32;78;68;95;111;117;116;40;114;105;103;104;116;41;46;115;105;122;101;32;61;61;32;48;0;99;
   111;110;99;46;99;0;109;101;114;103;101;118;105;114;116;117;97;108;0;0;100;111;116;58;32;79;117;116;32;
   111;102;32;109;101;109;111;114;121;10;0;71;68;95;109;105;110;114;97;110;107;40;103;41;32;61;61;32;48;0;
   102;108;97;116;46;99;0;97;98;111;109;105;110;97;116;105;111;110;0;78;68;95;111;117;116;40;118;41;46;115;
   105;122;101;32;61;61;32;50;0;115;101;116;98;111;117;110;100;115;0;117;115;101;114;111;117;116;58;32;99;
   111;117;108;100;32;110;111;116;32;97;108;108;111;99;97;116;101;32;109;101;109;111;114;121;10;0;69;114;
   114;111;114;0;87;97;114;110;105;110;103;0;37;115;58;32;0;95;65;71;95;100;97;116;97;100;105;99;116;0;97;
   103;100;105;99;116;111;102;58;32;117;110;107;110;111;119;110;32;107;105;110;100;32;37;100;10;0;95;65;71;
   95;115;116;114;100;97;116;97;0;0;0;0;0;0;0;0;0;0;0;0;0;0;0;0;0;0;0;0;0;0;0;0;0;0;0;0;0;0;0;0;0;37;99;37;
   108;100;0;109;101;109;111;114;121;32;97;108;108;111;99;97;116;105;111;110;32;102;97;105;108;117;114;101;
   0;97;103;100;101;108;101;116;101;32;111;110;32;119;114;111;110;103;32;103;114;97;112;104;0;97;103;100;
   101;108;101;116;101;32;111;110;32;98;97;100;32;111;98;106;101;99;116;0;97;103;114;97;112;104;111;102;32;
   97;32;98;97;100;32;111;98;106;101;99;116;0;97;103;114;111;111;116;32;111;102;32;97;32;98;97;100;32;111;
   98;106;101;99;116;0;95;65;71;95;112;101;110;100;105;110;103;0;97;103;114;101;99;111;114;100;95;99;97;108;
   108;98;97;99;107;32;111;102;32;97;32;98;97;100;32;111;98;106;101;99;116;0;112;101;110;100;32;100;105;99;
   116;111;102;32;97;32;98;97;100;32;111;98;106;101;99;116;0;109;111;118;101;32;116;111;32;102;114;111;110;
   116;32;108;111;99;107;32;105;110;99;111;110;115;105;115;116;101;110;99;121;0;0;108;105;110;101;0;37;100;
   32;37;49;91;34;93;37;110;0;105;110;112;117;116;0;115;121;110;116;97;120;32;97;109;98;105;103;117;105;116;
   121;32;45;32;98;97;100;108;121;32;100;101;108;105;109;105;116;101;100;32;110;117;109;98;101;114;32;39;0;
   39;32;105;110;32;108;105;110;101;32;37;100;32;111;102;32;0;32;115;112;108;105;116;115;32;105;110;116;111;
   32;116;119;111;32;116;111;107;101;110;115;10;0;37;115;0;92;92;0;102;97;116;97;108;32;102;108;101;120;32;
   115;99;97;110;110;101;114;32;105;110;116;101;114;110;97;108;32;101;114;114;111;114;45;45;101;110;100;32;
   111;102;32;98;117;102;102;101;114;32;109;105;115;115;101;100;0;102;97;116;97;108;32;101;114;114;111;114;
   32;45;32;115;99;97;110;110;101;114;32;105;110;112;117;116;32;98;117;102;102;101;114;32;111;118;101;114;
   102;108;111;119;0;111;117;116;32;111;102;32;100;121;110;97;109;105;99;32;109;101;109;111;114;121;32;105;
   110;32;97;97;103;95;103;101;116;95;110;101;120;116;95;98;117;102;102;101;114;40;41;0;102;97;116;97;108;
   32;102;108;101;120;32;115;99;97;110;110;101;114;32;105;110;116;101;114;110;97;108;32;101;114;114;111;114;
   45;45;110;111;32;97;99;116;105;111;110;32;102;111;117;110;100;0;111;117;116;32;111;102;32;100;121;110;97;
   109;105;99;32;109;101;109;111;114;121;32;105;110;32;97;97;103;95;99;114;101;97;116;101;95;98;117;102;102;
   101;114;40;41;0;58;32;0;32;105;110;32;108;105;110;101;32;37;100;0;32;110;101;97;114;32;39;0;32;115;99;97;
   110;110;105;110;103;32;97;32;113;117;111;116;101;100;32;115;116;114;105;110;103;32;40;109;105;115;115;
   105;110;103;32;101;110;100;113;117;111;116;101;63;32;108;111;110;103;101;114;32;116;104;97;110;32;37;100;
   63;41;0;10;83;116;114;105;110;103;32;115;116;97;114;116;105;110;103;58;34;0;32;115;99;97;110;110;105;110;
   103;32;97;32;72;84;77;76;32;115;116;114;105;110;103;32;40;109;105;115;115;105;110;103;32;39;62;39;63;32;
   98;97;100;32;110;101;115;116;105;110;103;63;32;108;111;110;103;101;114;32;116;104;97;110;32;37;100;63;41;
   0;10;83;116;114;105;110;103;32;115;116;97;114;116;105;110;103;58;60;0;32;115;99;97;110;110;105;110;103;
   32;97;32;47;42;46;46;46;42;47;32;99;111;109;109;101;110;116;32;40;109;105;115;115;105;110;103;32;39;42;
   47;63;32;108;111;110;103;101;114;32;116;104;97;110;32;37;100;63;41;0;102;108;101;120;32;115;99;97;110;
   110;101;114;32;112;117;115;104;45;98;97;99;107;32;111;118;101;114;102;108;111;119;0;37;115;10;0;111;117;
   116;32;111;102;32;100;121;110;97;109;105;99;32;109;101;109;111;114;121;32;105;110;32;97;97;103;101;110;
   115;117;114;101;95;98;117;102;102;101;114;95;115;116;97;99;107;40;41;0;108;105;110;101;108;101;110;103;
   116;104;0;59;10;0;32;91;107;101;121;61;0;93;0;32;91;0;44;10;0;61;0;95;37;108;100;95;83;85;83;80;69;67;84;
   0;100;105;0;115;116;114;105;99;116;32;0;123;10;0;93;59;10;0;34;34;0;115;116;114;105;99;116;0;97;103;97;
   112;112;108;121;58;32;117;110;107;110;111;119;110;32;111;98;106;101;99;116;32;116;121;112;101;32;37;100;
   10;0;18;238;238;20;9;3;238;254;238;238;238;1;238;238;238;1;238;238;10;254;238;19;25;21;238;19;1;238;238;
   238;238;11;17;238;238;238;238;238;238;238;238;238;1;238;238;22;9;1;1;29;15;23;238;238;26;23;27;238;238;
   28;238;238;238;238;1;25;251;238;238;238;1;238;16;238;238;30;238;238;238;238;0;2;2;2;2;2;2;2;2;2;2;2;2;2;
   2;2;2;2;2;2;2;2;2;2;2;2;2;2;2;2;2;2;2;2;2;2;2;2;2;2;2;2;2;23;17;2;2;2;2;2;2;2;2;2;2;2;2;2;18;16;2;19;2;2;
   22;2;2;2;2;2;2;2;2;2;2;2;2;2;2;2;2;2;2;2;2;2;2;2;2;2;2;20;2;21;2;2;2;2;2;2;2;2;2;2;2;2;2;2;2;2;2;2;2;2;2;
   2;2;2;2;2;2;2;2;14;2;15;2;2;2;2;2;2;2;2;2;2;2;2;2;2;2;2;2;2;2;2;2;2;2;2;2;2;2;2;2;2;2;2;2;2;2;2;2;2;2;2;
   2;2;2;2;2;2;2;2;2;2;2;2;2;2;2;2;2;2;2;2;2;2;2;2;2;2;2;2;2;2;2;2;2;2;2;2;2;2;2;2;2;2;2;2;2;2;2;2;2;2;2;2;
   2;2;2;2;2;2;2;2;2;2;2;2;2;2;2;2;2;2;2;2;2;2;2;2;2;2;2;2;2;2;2;2;2;2;2;2;2;2;1;2;3;4;5;6;7;8;9;10;11;12;
   13;11;3;4;5;15;7;3;12;13;6;12;13;14;12;13;26;21;22;0;1;0;3;7;14;6;15;8;12;13;18;19;42;16;17;9;16;47;48;
   17;50;23;19;13;20;18;46;18;20;65;19;50;19;44;64;42;66;25;44;66;70;34;12;13;14;35;15;9;16;17;10;16;17;201;
   16;17;45;69;70;252;1;6;246;15;7;246;36;2;16;17;47;48;54;77;78;40;38;59;60;42;54;49;57;61;63;47;58;64;216;
   68;48;62;37;55;67;53;75;43;56;73;76;0;3;9;0;0;0;1;14;2;11;12;8;35;36;37;54;59;61;0;13;16;18;27;22;28;18;
   39;50;34;23;51;30;60;6;7;53;5;15;17;20;24;41;0;19;41;0;0;0;0;0;55;21;40;29;30;0;33;38;52;31;48;62;25;44;
   0;27;0;32;26;42;0;43;58;46;47;0;49;56;57;45;0;2;2;1;0;3;3;1;0;1;0;1;1;1;0;2;1;1;0;2;2;3;1;1;0;0;5;0;1;3;
   1;3;5;3;1;1;1;1;2;0;1;0;4;2;0;2;1;1;3;2;1;0;3;2;1;0;1;1;0;1;1;1;3;107;101;121;0;0;24;25;25;25;26;27;28;
   28;29;29;30;30;31;31;32;32;33;33;34;34;35;36;36;38;39;37;37;40;40;41;41;41;42;42;43;43;43;44;44;45;45;46;
   47;47;48;49;49;50;51;52;54;53;55;55;55;56;56;56;57;57;58;58;238;238;255;238;238;238;238;238;238;31;32;
   238;0;239;238;238;238;12;238;238;238;8;13;238;238;238;248;238;238;238;238;238;238;245;238;255;3;8;4;33;5;
   11;18;19;39;20;21;22;41;50;65;23;24;25;26;44;51;52;66;71;72;27;74;28;29;46;30;79;31;32;97;116;116;114;
   105;98;117;116;101;32;109;97;99;114;111;115;32;110;111;116;32;105;109;112;108;101;109;101;110;116;101;
   100;0;37;115;58;37;115;0;46;37;100;0;110;111;110;97;109;101;46;103;118;0;67;111;117;108;100;32;110;111;
   116;32;111;112;101;110;32;34;37;115;34;32;102;111;114;32;119;114;105;116;105;110;103;32;58;32;37;115;10;
   0;78;111;32;108;105;98;122;32;115;117;112;112;111;114;116;46;10;0;109;101;109;111;114;121;32;97;108;108;
   111;99;97;116;105;111;110;32;102;97;105;108;117;114;101;10;0;103;118;119;114;105;116;101;95;110;111;95;
   122;32;112;114;111;98;108;101;109;32;37;100;10;0;78;111;32;108;105;98;122;32;115;117;112;112;111;114;116;
   10;0;103;118;112;114;105;110;116;102;58;32;37;115;10;0;0;0;0;0;0;0;0;0;0;0;0;0;0;0;0;0;0;0;0;0;45;57;57;
   57;57;57;57;57;57;57;57;57;57;57;57;57;46;57;57;0;103;114;97;112;104;118;105;122;0;50;46;52;48;46;49;0;
   50;48;49;54;49;50;50;53;46;48;51;48;52;0;114;101;110;100;101;114;0;100;101;118;105;99;101;0;108;111;97;
   100;105;109;97;103;101;0;100;121;110;97;109;105;99;32;108;111;97;100;105;110;103;32;110;111;116;32;97;
   118;97;105;108;97;98;108;101;10;0;85;115;105;110;103;32;37;115;58;32;37;115;58;37;115;10;0;103;118;117;
   115;101;114;115;104;97;112;101;46;99;0;103;118;117;115;101;114;115;104;97;112;101;95;102;105;110;100;0;
   103;118;117;115;101;114;115;104;97;112;101;95;102;105;108;101;95;97;99;99;101;115;115;0;70;105;108;101;
   110;97;109;101;32;34;37;115;34;32;105;115;32;117;110;115;97;102;101;10;0;37;115;32;119;104;105;108;101;
   32;111;112;101;110;105;110;103;32;37;115;10;0;117;115;45;62;102;0;103;118;117;115;101;114;115;104;97;112;
   101;95;111;112;101;110;0;60;115;118;103;0;87;69;66;80;0;119;101;98;112;0;40;108;105;98;41;0;34;37;115;34;
   32;119;97;115;32;110;111;116;32;102;111;117;110;100;32;97;115;32;97;32;102;105;108;101;32;111;114;32;97;
   115;32;97;32;115;104;97;112;101;32;108;105;98;114;97;114;121;32;109;101;109;98;101;114;10;0;1;208;209;
   210;211;212;213;214;215;216;217;0;37;37;66;111;117;110;100;105;110;103;66;111;120;58;0;40;91;97;45;122;
   93;91;97;45;122;65;45;90;93;42;41;61;34;40;91;94;34;93;42;41;34;0;99;97;110;110;111;116;32;99;111;109;
   112;105;108;101;32;114;101;103;117;108;97;114;32;101;120;112;114;101;115;115;105;111;110;32;37;115;0;37;
   108;102;37;50;115;0;112;116;0;118;105;101;119;66;111;120;0;37;108;102;32;37;108;102;32;37;108;102;32;37;
   108;102;0;47;77;101;100;105;97;66;111;120;0;105;110;0;112;120;0;112;99;0;34;0;99;109;0;109;109;0;137;80;
   78;71;13;10;26;10;0;112;110;103;0;37;33;80;83;45;65;100;111;98;101;45;0;66;77;0;98;109;112;0;71;73;70;56;
   0;103;105;102;0;255;216;255;224;0;106;112;101;103;0;37;80;68;70;45;0;112;100;102;0;197;208;211;198;0;101;
   112;115;0;60;63;120;109;108;0;120;109;108;0;82;73;70;70;0;114;105;102;102;0;0;0;1;0;0;105;99;111;0;37;
   100;32;37;100;32;37;100;32;37;100;0;76;97;121;111;117;116;32;119;97;115;32;110;111;116;32;100;111;110;
   101;10;0;102;97;105;108;117;114;101;32;109;97;108;108;111;99;39;105;110;103;32;102;111;114;32;114;101;
   115;117;108;116;32;115;116;114;105;110;103;0;111;114;105;103;0;111;112;0;99;99;111;109;112;115;46;99;0;
   109;97;112;67;108;117;115;116;0;99;99;103;114;97;112;104;105;110;102;111;0;99;99;103;110;111;100;101;105;
   110;102;111;0;100;103;0;40;37;52;108;100;41;32;37;55;108;100;32;110;111;100;101;115;32;37;55;108;100;32;
   101;100;103;101;115;10;0;32;32;32;32;32;32;32;37;55;100;32;110;111;100;101;115;32;37;55;100;32;101;100;
   103;101;115;32;37;55;108;100;32;99;111;109;112;111;110;101;110;116;115;32;37;115;10;0;69;114;114;111;114;
   58;32;110;111;100;101;32;34;37;115;34;32;98;101;108;111;110;103;115;32;116;111;32;116;119;111;32;110;111;
   110;45;110;101;115;116;101;100;32;99;108;117;115;116;101;114;115;32;34;37;115;34;32;97;110;100;32;34;37;
   115;34;10;0;103;99;58;32;79;117;116;32;111;102;32;109;101;109;111;114;121;10;0;95;99;99;95;0;98;98;91;37;
   115;93;32;37;46;53;103;32;37;46;53;103;32;37;46;53;103;32;37;46;53;103;10;0;115;116;101;112;32;115;105;
   122;101;32;61;32;37;100;10;0;37;115;32;110;111;46;32;99;101;108;108;115;32;37;100;32;87;32;37;100;32;72;
   32;37;100;10;0;32;32;37;100;32;37;100;32;99;101;108;108;10;0;99;99;32;40;37;100;32;99;101;108;108;115;41;
   32;97;116;32;40;37;100;44;37;100;41;10;0;112;111;115;91;37;100;93;32;37;100;32;37;100;10;0;115;111;114;
   116;118;0;112;105;110;102;111;0;112;97;99;107;46;99;0;103;101;116;80;97;99;107;73;110;102;111;0;32;32;
   109;97;114;103;105;110;32;37;100;10;0;112;97;99;107;109;111;100;101;0;112;97;114;115;101;80;97;99;107;77;
   111;100;101;73;110;102;111;0;97;114;114;97;121;0;97;115;112;101;99;116;0;37;102;0;112;97;99;107;32;105;
   110;102;111;58;10;0;117;110;100;101;102;105;110;101;100;0;32;32;109;111;100;101;32;32;32;37;115;10;0;32;
   32;97;115;112;101;99;116;32;37;102;10;0;32;32;115;105;122;101;32;32;32;37;100;10;0;32;32;102;108;97;103;
   115;32;32;37;100;10;0;112;97;99;107;0;114;111;119;32;109;97;106;111;114;0;99;111;108;117;109;110;32;109;
   97;106;111;114;0;97;114;114;97;121;32;112;97;99;107;105;110;103;58;32;37;115;32;37;100;32;114;111;119;
   115;32;37;100;32;99;111;108;117;109;110;115;10;0;99;99;32;40;37;100;32;99;101;108;108;115;41;32;97;116;
   32;40;37;100;44;37;100;41;32;40;37;100;44;37;100;41;10;0;108;105;98;112;97;99;107;58;32;100;105;115;99;
   32;61;32;37;102;32;40;32;60;32;48;41;10;0;80;97;99;107;105;110;103;58;32;99;111;109;112;117;116;101;32;
   103;114;105;100;32;115;105;122;101;10;0;97;32;37;102;32;98;32;37;102;32;99;32;37;102;32;100;32;37;102;32;
   114;32;37;102;10;0;114;111;111;116;32;37;100;32;40;37;102;41;32;37;100;32;40;37;102;41;10;0;32;114;49;32;
   37;102;32;114;50;32;37;102;10;0;65;114;114;111;119;32;116;121;112;101;32;34;37;115;34;32;117;110;107;110;
   111;119;110;32;45;32;105;103;110;111;114;105;110;103;10;0;110;111;114;109;97;108;0;99;114;111;119;0;116;
   101;101;0;100;111;116;0;105;110;118;0;118;101;101;0;112;101;110;0;109;112;116;121;0;99;117;114;118;101;0;
   105;99;117;114;118;101;0;108;0;104;97;108;102;0;105;110;118;101;109;112;116;121;0;95;98;97;99;107;103;
   114;111;117;110;100;0;95;100;114;97;119;95;0;67;111;117;108;100;32;110;111;116;32;112;97;114;115;101;32;
   34;95;98;97;99;107;103;114;111;117;110;100;34;32;97;116;116;114;105;98;117;116;101;32;105;110;32;103;114;
   97;112;104;32;37;115;10;0;32;32;34;37;115;34;10;0;110;111;32;109;101;109;111;114;121;32;102;114;111;109;
   32;122;109;97;108;108;111;99;40;41;10;0;111;98;106;0;101;109;105;116;46;99;0;112;111;112;95;111;98;106;
   95;115;116;97;116;101;0;99;108;117;115;116;0;37;108;100;0;98;103;99;111;108;111;114;0;108;97;121;101;114;
   115;32;110;111;116;32;115;117;112;112;111;114;116;101;100;32;105;110;32;37;115;32;111;117;116;112;117;
   116;10;0;99;111;108;111;114;115;99;104;101;109;101;0;103;114;97;100;105;101;110;116;32;112;101;110;32;99;
   111;108;111;114;115;32;110;111;116;32;121;101;116;32;115;117;112;112;111;114;116;101;100;46;10;0;73;109;
   97;103;101;115;32;117;110;115;117;112;112;111;114;116;101;100;32;105;110;32;34;98;97;99;107;103;114;111;
   117;110;100;34;32;97;116;116;114;105;98;117;116;101;10;0;105;110;32;99;108;117;115;116;101;114;32;37;115;
   10;0;77;111;114;101;32;116;104;97;110;32;50;32;99;111;108;111;114;115;32;115;112;101;99;105;102;105;101;
   100;32;102;111;114;32;97;32;103;114;97;100;105;101;110;116;32;45;32;105;103;110;111;114;105;110;103;32;
   114;101;109;97;105;110;105;110;103;10;0;1;0;0;0;0;0;0;0;0;0;0;0;0;0;0;0;0;0;0;0;0;0;0;0;0;0;0;0;0;0;0;0;
   0;0;0;0;0;0;0;0;0;0;0;0;0;0;0;0;0;0;0;0;0;0;0;0;0;0;0;0;0;0;0;0;0;0;0;0;0;0;0;0;0;0;0;0;0;0;0;0;0;0;0;0;
   0;0;0;0;0;0;0;0;0;0;0;0;0;0;0;0;0;0;0;0;0;0;0;0;0;0;0;0;0;0;0;0;0;0;0;0;0;0;0;0;0;0;0;0;0;110;101;115;
   116;105;110;103;32;110;111;116;32;97;108;108;111;119;101;100;32;105;110;32;115;116;121;108;101;58;32;37;
   115;10;0;117;110;109;97;116;99;104;101;100;32;39;41;39;32;105;110;32;115;116;121;108;101;58;32;37;115;10;
   0;116;114;117;110;99;97;116;105;110;103;32;115;116;121;108;101;32;39;37;115;39;10;0;117;110;109;97;116;
   99;104;101;100;32;39;40;39;32;105;110;32;115;116;121;108;101;58;32;37;115;10;0;67;0;76;97;121;111;117;
   116;32;119;97;115;32;110;111;116;32;100;111;110;101;46;32;32;77;105;115;115;105;110;103;32;108;97;121;
   111;117;116;32;112;108;117;103;105;110;115;63;32;10;0;103;118;82;101;110;100;101;114;74;111;98;115;32;37;
   115;58;32;37;46;50;102;32;115;101;99;115;46;10;0;115;112;108;45;62;115;105;122;101;32;62;32;48;0;105;110;
   105;116;95;115;112;108;105;110;101;115;95;98;98;0;112;97;100;0;66;76;0;112;97;103;101;100;105;114;0;108;
   97;121;101;114;115;0;108;97;121;101;114;115;101;112;0;58;9;32;0;108;97;121;101;114;108;105;115;116;115;
   101;112;0;44;0;84;104;101;32;99;104;97;114;97;99;116;101;114;32;39;37;99;39;32;97;112;112;101;97;114;115;
   32;105;110;32;98;111;116;104;32;116;104;101;32;108;97;121;101;114;115;101;112;32;97;110;100;32;108;97;
   121;101;114;108;105;115;116;115;101;112;32;97;116;116;114;105;98;117;116;101;115;32;45;32;108;97;121;101;
   114;108;105;115;116;115;101;112;32;105;103;110;111;114;101;100;46;10;0;108;97;121;101;114;115;101;108;
   101;99;116;0;84;104;101;32;108;97;121;101;114;115;101;108;101;99;116;32;97;116;116;114;105;98;117;116;
   101;32;34;37;115;34;32;100;111;101;115;32;110;111;116;32;109;97;116;99;104;32;97;110;121;32;108;97;121;
   101;114;32;115;112;101;99;105;102;101;100;32;98;121;32;116;104;101;32;108;97;121;101;114;115;32;97;116;
   116;114;105;98;117;116;101;32;45;32;105;103;110;111;114;101;100;46;10;0;108;97;121;111;117;116;32;119;97;
   115;32;110;111;116;32;100;111;110;101;10;0;114;101;110;100;101;114;101;114;32;102;111;114;32;37;115;32;
   105;115;32;117;110;97;118;97;105;108;97;98;108;101;10;0;111;117;116;112;117;116;111;114;100;101;114;0;
   111;100;101;115;102;105;114;115;116;0;100;103;101;115;102;105;114;115;116;0;118;105;101;119;112;111;114;
   116;0;37;108;102;44;37;108;102;44;37;108;102;44;39;37;91;94;39;93;39;0;37;108;102;44;37;108;102;44;37;
   108;102;44;37;91;94;44;93;37;115;0;37;108;102;44;37;108;102;44;37;108;102;44;37;108;102;44;37;108;102;0;
   112;97;103;101;100;105;114;61;37;115;32;105;103;110;111;114;101;100;10;0;115;111;108;105;100;0;0;115;101;
   116;108;105;110;101;119;105;100;116;104;0;49;0;0;98;122;46;115;105;122;101;32;62;32;48;0;98;101;122;105;
   101;114;95;98;98;0;98;122;46;115;105;122;101;32;37;32;51;32;61;61;32;49;0;97;108;108;0;108;97;98;101;108;
   97;108;105;103;110;101;100;0;101;100;103;101;104;114;101;102;0;101;100;103;101;85;82;76;0;108;97;98;101;
   108;104;114;101;102;0;108;97;98;101;108;85;82;76;0;116;97;105;108;104;114;101;102;0;116;97;105;108;85;82;
   76;0;104;101;97;100;104;114;101;102;0;104;101;97;100;85;82;76;0;116;97;114;103;101;116;0;101;100;103;101;
   116;97;114;103;101;116;0;108;97;98;101;108;116;97;114;103;101;116;0;116;97;105;108;116;97;114;103;101;
   116;0;104;101;97;100;116;97;114;103;101;116;0;101;100;103;101;116;111;111;108;116;105;112;0;108;97;98;
   101;108;116;111;111;108;116;105;112;0;116;97;105;108;116;111;111;108;116;105;112;0;104;101;97;100;116;
   111;111;108;116;105;112;0;32;45;62;32;0;32;45;45;32;0;105;110;32;101;100;103;101;32;37;115;37;115;37;115;
   10;0;102;111;114;119;97;114;100;0;98;97;99;107;0;101;109;105;116;95;101;100;103;101;95;108;97;98;101;108;
   0;37;115;45;37;115;0;84;111;116;97;108;32;115;105;122;101;32;62;32;49;32;105;110;32;34;37;115;34;32;99;
   111;108;111;114;32;115;112;101;99;32;0;73;108;108;101;103;97;108;32;108;101;110;103;116;104;32;118;97;
   108;117;101;32;105;110;32;34;37;115;34;32;99;111;108;111;114;32;97;116;116;114;105;98;117;116;101;32;0;
   112;97;103;101;37;100;44;37;100;95;0;0;0;108;97;98;101;108;0;37;108;102;0;102;111;110;116;112;97;116;104;
   0;68;79;84;70;79;78;84;80;65;84;72;0;71;68;70;79;78;84;80;65;84;72;0;99;104;97;114;115;101;116;0;117;116;
   102;45;56;0;108;97;116;105;110;45;49;0;108;97;116;105;110;49;0;108;49;0;73;83;79;45;56;56;53;57;45;49;0;
   73;83;79;95;56;56;53;57;45;49;0;73;83;79;56;56;53;57;45;49;0;73;83;79;45;73;82;45;49;48;48;0;98;105;103;
   45;53;0;98;105;103;53;0;117;116;102;56;0;85;110;115;117;112;112;111;114;116;101;100;32;99;104;97;114;115;
   101;116;32;34;37;115;34;32;45;32;97;115;115;117;109;105;110;103;32;117;116;102;45;56;10;0;105;109;97;103;
   101;112;97;116;104;0;113;117;97;110;116;117;109;0;114;97;110;107;100;105;114;0;76;82;0;66;84;0;82;76;0;
   110;111;100;101;115;101;112;0;114;97;110;107;115;101;112;0;101;113;117;97;108;108;121;0;115;104;111;119;
   98;111;120;101;115;0;102;111;110;116;110;97;109;101;115;0;114;97;116;105;111;0;97;117;116;111;0;99;111;
   109;112;114;101;115;115;0;101;120;112;97;110;100;0;102;105;108;108;0;115;105;122;101;0;112;97;103;101;0;
   99;101;110;116;101;114;0;114;111;116;97;116;101;0;111;114;105;101;110;116;97;116;105;111;110;0;108;97;
   110;100;115;99;97;112;101;0;99;108;117;115;116;101;114;114;97;110;107;0;99;111;110;99;101;110;116;114;97;
   116;101;0;100;112;105;0;114;101;115;111;108;117;116;105;111;110;0;111;114;100;101;114;105;110;103;0;103;
   114;97;100;105;101;110;116;97;110;103;108;101;0;102;105;108;108;99;111;108;111;114;0;115;116;121;108;101;
   0;102;111;110;116;115;105;122;101;0;102;111;110;116;110;97;109;101;0;102;111;110;116;99;111;108;111;114;
   0;120;108;97;98;101;108;0;112;101;110;119;105;100;116;104;0;115;105;100;101;115;0;112;101;114;105;112;
   104;101;114;105;101;115;0;115;107;101;119;0;100;105;115;116;111;114;116;105;111;110;0;102;105;120;101;
   100;115;105;122;101;0;110;111;106;117;115;116;105;102;121;0;108;97;121;101;114;0;103;114;111;117;112;0;
   99;111;109;109;101;110;116;0;118;101;114;116;105;99;101;115;0;122;0;119;101;105;103;104;116;0;108;97;98;
   101;108;102;108;111;97;116;0;100;105;114;0;97;114;114;111;119;104;101;97;100;0;97;114;114;111;119;116;97;
   105;108;0;104;101;97;100;108;97;98;101;108;0;116;97;105;108;108;97;98;101;108;0;108;97;98;101;108;102;
   111;110;116;115;105;122;101;0;108;97;98;101;108;102;111;110;116;110;97;109;101;0;108;97;98;101;108;102;
   111;110;116;99;111;108;111;114;0;108;97;98;101;108;100;105;115;116;97;110;99;101;0;108;97;98;101;108;97;
   110;103;108;101;0;109;105;110;108;101;110;0;100;101;99;111;114;97;116;101;0;97;114;114;111;119;115;105;
   122;101;0;99;111;110;115;116;114;97;105;110;116;0;116;97;105;108;99;108;105;112;0;104;101;97;100;99;108;
   105;112;0;105;100;0;108;97;98;101;108;106;117;115;116;0;108;111;99;97;108;0;103;108;111;98;97;108;0;37;
   108;102;44;37;108;102;37;99;0;37;108;102;37;99;0;103;100;0;112;115;0;115;118;103;0;105;110;32;108;97;98;
   101;108;32;111;102;32;103;114;97;112;104;32;37;115;10;0;105;110;32;108;97;98;101;108;32;111;102;32;110;
   111;100;101;32;37;115;10;0;105;110;32;108;97;98;101;108;32;111;102;32;101;100;103;101;32;37;115;32;37;
   115;32;37;115;10;0;107;105;110;100;32;61;61;32;76;84;95;78;79;78;69;0;108;97;98;101;108;115;46;99;0;109;
   97;107;101;95;108;97;98;101;108;0;38;35;49;51;59;0;38;35;49;48;59;0;38;113;117;111;116;59;0;38;35;49;54;
   48;59;0;38;97;109;112;59;0;38;35;51;57;59;0;38;35;52;53;59;0;38;103;116;59;0;38;108;116;59;0;92;76;0;92;
   71;0;92;69;0;92;72;0;92;84;0;37;115;32;37;100;32;110;111;100;101;115;32;37;100;32;101;100;103;101;115;32;
   109;97;120;105;116;101;114;61;37;100;32;98;97;108;97;110;99;101;61;37;100;10;0;110;101;116;119;111;114;
   107;32;115;105;109;112;108;101;120;58;32;0;116;114;111;117;98;108;101;32;105;110;32;105;110;105;116;95;
   114;97;110;107;10;0;9;37;115;32;37;100;10;0;33;84;82;69;69;95;69;68;71;69;40;101;41;0;110;115;46;99;0;
   109;101;114;103;101;95;116;114;101;101;115;0;40;114;48;45;62;104;101;97;112;95;105;110;100;101;120;32;62;
   32;45;49;41;32;124;124;32;40;114;49;45;62;104;101;97;112;95;105;110;100;101;120;32;62].

(** [n.q+125938]: 10240 bytes. *)
Definition segment_125938 : list Z :=
  [32;45;49;41;0;83;84;115;101;116;85;110;105;111;110;0;114;45;62;104;101;97;112;95;105;110;100;101;120;32;
   62;61;32;48;0;84;114;101;101;95;101;100;103;101;46;115;105;122;101;32;61;61;32;78;95;110;111;100;101;115;
   32;45;32;49;0;102;101;97;115;105;98;108;101;95;116;114;101;101;0;117;112;100;97;116;101;58;32;109;105;
   115;109;97;116;99;104;101;100;32;108;99;97;32;105;110;32;116;114;101;101;117;112;100;97;116;101;115;10;0;
   37;100;32;0;37;115;37;100;32;110;111;100;101;115;32;37;100;32;101;100;103;101;115;32;37;100;32;105;116;
   101;114;32;37;46;50;102;32;115;101;99;10;0;115;101;97;114;99;104;115;105;122;101;0;97;100;100;95;116;114;
   101;101;95;101;100;103;101;58;32;109;105;115;115;105;110;103;32;116;114;101;101;32;101;100;103;101;10;0;
   97;100;100;95;116;114;101;101;95;101;100;103;101;58;32;101;109;112;116;121;32;111;117;116;101;100;103;
   101;32;108;105;115;116;10;0;97;100;100;95;116;114;101;101;95;101;100;103;101;58;32;101;109;112;116;121;
   32;105;110;101;100;103;101;32;108;105;115;116;10;0;103;114;97;112;104;32;0;37;46;53;103;0;32;0;0;0;110;
   111;100;101;32;0;115;116;111;112;10;0;112;111;115;0;114;101;99;116;115;0;120;108;112;0;108;112;0;104;101;
   97;100;95;108;112;0;116;97;105;108;95;108;112;0;108;119;105;100;116;104;0;108;104;101;105;103;104;116;0;
   98;98;0;37;46;53;103;44;37;46;53;103;44;37;46;53;103;0;44;37;46;53;103;0;37;46;53;103;44;37;46;53;103;0;
   115;97;109;112;108;101;112;111;105;110;116;115;0;37;46;53;103;32;37;46;53;103;0;115;44;37;46;53;103;44;
   37;46;53;103;32;0;101;44;37;46;53;103;44;37;46;53;103;32;0;37;46;53;103;44;37;46;53;103;44;37;46;53;103;
   44;37;46;53;103;0;37;46;50;102;0;37;46;53;103;44;37;46;53;103;44;37;46;53;103;44;37;46;53;103;32;0;0;110;
   111;32;112;111;115;105;116;105;111;110;32;102;111;114;32;101;100;103;101;32;119;105;116;104;32;108;97;98;
   101;108;32;37;115;0;110;111;32;112;111;115;105;116;105;111;110;32;102;111;114;32;101;100;103;101;32;119;
   105;116;104;32;116;97;105;108;32;108;97;98;101;108;32;37;115;0;110;111;32;112;111;115;105;116;105;111;
   110;32;102;111;114;32;101;100;103;101;32;119;105;116;104;32;104;101;97;100;32;108;97;98;101;108;32;37;
   115;0;110;111;32;112;111;115;105;116;105;111;110;32;102;111;114;32;101;100;103;101;32;119;105;116;104;32;
   120;108;97;98;101;108;32;37;115;0;102;111;114;99;101;108;97;98;101;108;115;0;37;100;32;111;98;106;115;32;
   37;100;32;120;108;97;98;101;108;115;32;102;111;114;99;101;61;37;100;32;98;98;61;40;37;46;48;50;102;44;37;
   46;48;50;102;41;32;40;37;46;48;50;102;44;37;46;48;50;102;41;10;0;111;98;106;101;99;116;115;10;0;32;91;37;
   100;93;32;40;37;46;48;50;102;44;37;46;48;50;102;41;32;40;37;46;48;50;102;44;37;46;48;50;102;41;32;37;112;
   32;34;37;115;34;10;0;120;108;97;98;101;108;115;10;0;32;91;37;100;93;32;37;112;32;115;101;116;32;37;100;
   32;40;37;46;48;50;102;44;37;46;48;50;102;41;32;40;37;46;48;50;102;44;37;46;48;50;102;41;32;37;115;10;0;
   37;100;32;111;117;116;32;111;102;32;37;100;32;108;97;98;101;108;115;32;112;111;115;105;116;105;111;110;
   101;100;46;10;0;37;100;32;111;117;116;32;111;102;32;37;100;32;101;120;116;101;114;105;111;114;32;108;97;
   98;101;108;115;32;112;111;115;105;116;105;111;110;101;100;46;10;0;108;111;115;116;32;37;115;32;37;115;32;
   101;100;103;101;10;0;47;112;97;116;104;98;111;120;32;123;10;32;32;32;32;47;88;32;101;120;99;104;32;110;
   101;103;32;37;46;53;103;32;115;117;98;32;100;101;102;10;32;32;32;32;47;89;32;101;120;99;104;32;37;46;53;
   103;32;115;117;98;32;100;101;102;10;32;32;32;32;47;120;32;101;120;99;104;32;110;101;103;32;37;46;53;103;
   32;115;117;98;32;100;101;102;10;32;32;32;32;47;121;32;101;120;99;104;32;37;46;53;103;32;115;117;98;32;
   100;101;102;10;32;32;32;32;110;101;119;112;97;116;104;32;120;32;121;32;109;111;118;101;116;111;10;32;32;
   32;32;88;32;121;32;108;105;110;101;116;111;10;32;32;32;32;88;32;89;32;108;105;110;101;116;111;10;32;32;
   32;32;120;32;89;32;108;105;110;101;116;111;10;32;32;32;32;99;108;111;115;101;112;97;116;104;32;115;116;
   114;111;107;101;10;125;32;100;101;102;10;0;47;112;97;116;104;98;111;120;32;123;10;32;32;32;32;47;89;32;
   101;120;99;104;32;37;46;53;103;32;115;117;98;32;100;101;102;10;32;32;32;32;47;88;32;101;120;99;104;32;37;
   46;53;103;32;115;117;98;32;100;101;102;10;32;32;32;32;47;121;32;101;120;99;104;32;37;46;53;103;32;115;
   117;98;32;100;101;102;10;32;32;32;32;47;120;32;101;120;99;104;32;37;46;53;103;32;115;117;98;32;100;101;
   102;10;32;32;32;32;110;101;119;112;97;116;104;32;120;32;121;32;109;111;118;101;116;111;10;32;32;32;32;88;
   32;121;32;108;105;110;101;116;111;10;32;32;32;32;88;32;89;32;108;105;110;101;116;111;10;32;32;32;32;120;
   32;89;32;108;105;110;101;116;111;10;32;32;32;32;99;108;111;115;101;112;97;116;104;32;115;116;114;111;107;
   101;10;32;125;32;100;101;102;10;47;100;98;103;115;116;97;114;116;32;123;32;103;115;97;118;101;32;37;46;
   53;103;32;37;46;53;103;32;116;114;97;110;115;108;97;116;101;32;125;32;100;101;102;10;47;97;114;114;111;
   119;108;101;110;103;116;104;32;49;48;32;100;101;102;10;47;97;114;114;111;119;119;105;100;116;104;32;97;
   114;114;111;119;108;101;110;103;116;104;32;50;32;100;105;118;32;100;101;102;10;47;97;114;114;111;119;104;
   101;97;100;32;123;10;32;32;32;32;103;115;97;118;101;10;32;32;32;32;114;111;116;97;116;101;10;32;32;32;32;
   99;117;114;114;101;110;116;112;111;105;110;116;10;32;32;32;32;110;101;119;112;97;116;104;10;32;32;32;32;
   109;111;118;101;116;111;10;32;32;32;32;97;114;114;111;119;108;101;110;103;116;104;32;97;114;114;111;119;
   119;105;100;116;104;32;50;32;100;105;118;32;114;108;105;110;101;116;111;10;32;32;32;32;48;32;97;114;114;
   111;119;119;105;100;116;104;32;110;101;103;32;114;108;105;110;101;116;111;10;32;32;32;32;99;108;111;115;
   101;112;97;116;104;32;102;105;108;108;10;32;32;32;32;103;114;101;115;116;111;114;101;10;125;32;98;105;
   110;100;32;100;101;102;10;47;109;97;107;101;97;114;114;111;119;32;123;10;32;32;32;32;99;117;114;114;101;
   110;116;112;111;105;110;116;32;101;120;99;104;32;112;111;112;32;115;117;98;32;101;120;99;104;32;99;117;
   114;114;101;110;116;112;111;105;110;116;32;112;111;112;32;115;117;98;32;97;116;97;110;10;32;32;32;32;97;
   114;114;111;119;104;101;97;100;10;125;32;98;105;110;100;32;100;101;102;10;47;112;111;105;110;116;32;123;
   32;32;32;32;110;101;119;112;97;116;104;32;32;32;32;50;32;48;32;51;54;48;32;97;114;99;32;102;105;108;108;
   125;32;100;101;102;47;109;97;107;101;118;101;99;32;123;10;32;32;32;32;47;89;32;101;120;99;104;32;100;101;
   102;10;32;32;32;32;47;88;32;101;120;99;104;32;100;101;102;10;32;32;32;32;47;121;32;101;120;99;104;32;100;
   101;102;10;32;32;32;32;47;120;32;101;120;99;104;32;100;101;102;10;32;32;32;32;110;101;119;112;97;116;104;
   32;120;32;121;32;109;111;118;101;116;111;10;32;32;32;32;88;32;89;32;108;105;110;101;116;111;32;115;116;
   114;111;107;101;10;32;32;32;32;88;32;89;32;109;111;118;101;116;111;10;32;32;32;32;120;32;121;32;109;97;
   107;101;97;114;114;111;119;10;125;32;100;101;102;10;0;99;111;117;108;100;110;39;116;32;111;112;101;110;
   32;101;112;115;102;32;102;105;108;101;32;37;115;10;0;37;37;37;37;66;111;117;110;100;105;110;103;66;111;
   120;58;32;37;100;32;37;100;32;37;100;32;37;100;0;114;101;97;100;0;66;111;117;110;100;105;110;103;66;111;
   120;32;110;111;116;32;102;111;117;110;100;32;105;110;32;101;112;115;102;32;102;105;108;101;32;37;115;10;
   0;115;104;97;112;101;102;105;108;101;32;110;111;116;32;115;101;116;32;111;114;32;110;111;116;32;102;111;
   117;110;100;32;102;111;114;32;101;112;115;102;32;110;111;100;101;32;37;115;10;0;99;97;110;39;116;32;102;
   105;110;100;32;108;105;98;114;97;114;121;32;102;105;108;101;32;37;115;10;0;99;97;110;39;116;32;111;112;
   101;110;32;108;105;98;114;97;114;121;32;102;105;108;101;32;37;115;10;0;69;79;70;0;66;69;71;73;78;0;69;78;
   68;0;84;82;65;73;76;69;82;0;47;117;115;101;114;95;115;104;97;112;101;95;37;100;32;123;10;0;37;37;66;101;
   103;105;110;68;111;99;117;109;101;110;116;58;10;0;37;37;69;110;100;68;111;99;117;109;101;110;116;10;0;
   125;32;98;105;110;100;32;100;101;102;10;0;85;84;70;45;56;32;105;110;112;117;116;32;117;115;101;115;32;
   110;111;110;45;76;97;116;105;110;49;32;99;104;97;114;97;99;116;101;114;115;32;119;104;105;99;104;32;99;
   97;110;110;111;116;32;98;101;32;104;97;110;100;108;101;100;32;98;121;32;116;104;105;115;32;80;111;115;
   116;83;99;114;105;112;116;32;100;114;105;118;101;114;10;0;114;111;117;116;101;115;112;108;105;110;101;
   115;105;110;105;116;58;32;99;97;110;110;111;116;32;97;108;108;111;99;97;116;101;32;112;115;10;0;114;111;
   117;116;101;115;112;108;105;110;101;115;58;32;37;100;32;101;100;103;101;115;44;32;37;100;32;98;111;120;
   101;115;32;37;46;50;102;32;115;101;99;10;0;105;110;32;114;111;117;116;101;115;112;108;105;110;101;115;44;
   32;99;97;110;110;111;116;32;102;105;110;100;32;78;79;82;77;65;76;32;101;100;103;101;10;0;105;110;32;99;
   104;101;99;107;112;97;116;104;44;32;98;111;120;32;48;32;104;97;115;32;76;76;32;99;111;111;114;100;32;62;
   32;85;82;32;99;111;111;114;100;10;0;105;110;32;99;104;101;99;107;112;97;116;104;44;32;98;111;120;32;37;
   100;32;104;97;115;32;76;76;32;99;111;111;114;100;32;62;32;85;82;32;99;111;111;114;100;10;0;105;110;32;99;
   104;101;99;107;112;97;116;104;44;32;98;111;120;101;115;32;37;100;32;97;110;100;32;37;100;32;100;111;110;
   39;116;32;116;111;117;99;104;10;0;105;110;32;99;104;101;99;107;112;97;116;104;44;32;115;116;97;114;116;
   32;112;111;114;116;32;110;111;116;32;105;110;32;102;105;114;115;116;32;98;111;120;10;0;105;110;32;99;104;
   101;99;107;112;97;116;104;44;32;101;110;100;32;112;111;114;116;32;110;111;116;32;105;110;32;108;97;115;
   116;32;98;111;120;10;0;105;110;32;114;111;117;116;101;115;112;108;105;110;101;115;44;32;105;108;108;101;
   103;97;108;32;118;97;108;117;101;115;32;111;102;32;112;114;101;118;32;37;100;32;97;110;100;32;110;101;
   120;116;32;37;100;44;32;108;105;110;101;32;37;100;10;0;105;110;32;114;111;117;116;101;115;112;108;105;
   110;101;115;44;32;101;100;103;101;32;105;115;32;97;32;108;111;111;112;32;97;116;32;37;115;10;0;105;110;
   32;114;111;117;116;101;115;112;108;105;110;101;115;44;32;80;115;104;111;114;116;101;115;116;112;97;116;
   104;32;102;97;105;108;101;100;10;0;105;110;32;114;111;117;116;101;115;112;108;105;110;101;115;44;32;80;
   114;111;117;116;101;115;112;108;105;110;101;32;102;97;105;108;101;100;10;0;85;110;97;98;108;101;32;116;
   111;32;114;101;99;108;97;105;109;32;98;111;120;32;115;112;97;99;101;32;105;110;32;115;112;108;105;110;
   101;32;114;111;117;116;105;110;103;32;102;111;114;32;101;100;103;101;32;34;37;115;34;32;45;62;32;34;37;
   115;34;46;32;83;111;109;101;116;104;105;110;103;32;105;115;32;112;114;111;98;97;98;108;121;32;115;101;
   114;105;111;117;115;108;121;32;119;114;111;110;103;46;10;0;37;100;32;98;111;120;101;115;58;10;0;37;100;
   32;40;37;46;53;103;44;32;37;46;53;103;41;44;32;40;37;46;53;103;44;32;37;46;53;103;41;10;0;99;111;110;115;
   116;114;97;105;110;101;100;0;110;111;116;32;99;111;110;115;116;114;97;105;110;101;100;0;115;116;97;114;
   116;32;112;111;114;116;58;32;40;37;46;53;103;44;32;37;46;53;103;41;44;32;116;97;110;103;101;110;116;32;
   97;110;103;108;101;58;32;37;46;53;103;44;32;37;115;10;0;101;110;100;32;112;111;114;116;58;32;40;37;46;53;
   103;44;32;37;46;53;103;41;44;32;116;97;110;103;101;110;116;32;97;110;103;108;101;58;32;37;46;53;103;44;
   32;37;115;10;0;99;97;110;110;111;116;32;114;101;45;97;108;108;111;99;97;116;101;32;112;115;10;0;115;105;
   100;101;115;32;61;61;32;52;0;115;104;97;112;101;115;46;99;0;114;111;117;110;100;95;99;111;114;110;101;
   114;115;0;115;104;97;112;101;102;105;108;101;0;101;112;115;102;0;99;117;115;116;111;109;0;117;115;105;
   110;103;32;37;115;32;102;111;114;32;117;110;107;110;111;119;110;32;115;104;97;112;101;32;37;115;10;0;115;
   0;101;0;119;0;98;111;120;0;112;111;108;121;103;111;110;0;111;118;97;108;0;99;105;114;99;108;101;0;112;
   111;105;110;116;0;101;103;103;0;116;114;105;97;110;103;108;101;0;112;108;97;105;110;116;101;120;116;0;
   112;108;97;105;110;0;100;105;97;109;111;110;100;0;116;114;97;112;101;122;105;117;109;0;112;97;114;97;108;
   108;101;108;111;103;114;97;109;0;104;111;117;115;101;0;112;101;110;116;97;103;111;110;0;104;101;120;97;
   103;111;110;0;115;101;112;116;97;103;111;110;0;111;99;116;97;103;111;110;0;110;111;116;101;0;116;97;98;0;
   102;111;108;100;101;114;0;98;111;120;51;100;0;99;111;109;112;111;110;101;110;116;0;99;121;108;105;110;
   100;101;114;0;114;101;99;116;0;114;101;99;116;97;110;103;108;101;0;115;113;117;97;114;101;0;100;111;117;
   98;108;101;99;105;114;99;108;101;0;100;111;117;98;108;101;111;99;116;97;103;111;110;0;116;114;105;112;
   108;101;111;99;116;97;103;111;110;0;105;110;118;116;114;105;97;110;103;108;101;0;105;110;118;116;114;97;
   112;101;122;105;117;109;0;105;110;118;104;111;117;115;101;0;117;110;100;101;114;108;105;110;101;0;77;100;
   105;97;109;111;110;100;0;77;115;113;117;97;114;101;0;77;99;105;114;99;108;101;0;112;114;111;109;111;116;
   101;114;0;99;100;115;0;116;101;114;109;105;110;97;116;111;114;0;117;116;114;0;105;110;115;117;108;97;116;
   111;114;0;114;105;98;111;115;105;116;101;0;114;110;97;115;116;97;98;0;112;114;111;116;101;97;115;101;115;
   105;116;101;0;112;114;111;116;101;105;110;115;116;97;98;0;112;114;105;109;101;114;115;105;116;101;0;114;
   101;115;116;114;105;99;116;105;111;110;115;105;116;101;0;102;105;118;101;112;111;118;101;114;104;97;110;
   103;0;116;104;114;101;101;112;111;118;101;114;104;97;110;103;0;110;111;118;101;114;104;97;110;103;0;97;
   115;115;101;109;98;108;121;0;115;105;103;110;97;116;117;114;101;0;114;112;114;111;109;111;116;101;114;0;
   108;97;114;114;111;119;0;114;97;114;114;111;119;0;108;112;114;111;109;111;116;101;114;0;114;101;99;111;
   114;100;0;77;114;101;99;111;114;100;0;115;116;97;114;0;35;56;48;56;48;56;48;0;35;102;99;102;99;102;99;0;
   35;51;48;51;48;51;48;0;35;101;56;101;56;101;56;0;35;101;48;101;48;101;48;0;35;102;48;102;48;102;48;0;35;
   49;48;49;48;49;48;0;35;102;56;102;56;102;56;0;105;110;32;110;111;100;101;32;37;115;10;0;114;111;117;110;
   100;101;100;0;100;105;97;103;111;110;97;108;115;0;114;97;100;105;97;108;0;115;116;114;105;112;101;100;0;
   119;101;100;103;101;100;0;95;0;110;111;100;101;32;37;115;44;32;112;111;114;116;32;37;115;44;32;117;110;
   114;101;99;111;103;110;105;122;101;100;32;99;111;109;112;97;115;115;32;112;111;105;110;116;32;39;37;115;
   39;32;45;32;105;103;110;111;114;101;100;10;0;110;111;100;101;32;37;115;44;32;112;111;114;116;32;37;115;
   32;117;110;114;101;99;111;103;110;105;122;101;100;10;0;37;46;53;103;32;37;46;53;103;32;116;114;97;110;
   115;108;97;116;101;32;110;101;119;112;97;116;104;32;117;115;101;114;95;115;104;97;112;101;95;37;100;10;0;
   105;110;118;105;115;0;0;102;105;108;108;101;100;0;0;98;97;100;32;108;97;98;101;108;32;102;111;114;109;97;
   116;32;37;115;10;0;92;78;0;109;97;114;103;105;110;0;37;108;102;44;37;108;102;0;114;101;103;117;108;97;
   114;0;60;110;105;108;62;0;78;111;32;111;114;32;105;109;112;114;111;112;101;114;32;115;104;97;112;101;102;
   105;108;101;61;34;37;115;34;32;102;111;114;32;110;111;100;101;32;34;37;115;34;10;0;78;111;32;111;114;32;
   105;109;112;114;111;112;101;114;32;105;109;97;103;101;61;34;37;115;34;32;102;111;114;32;110;111;100;101;
   32;34;37;115;34;10;0;108;97;98;101;108;108;111;99;0;115;104;97;112;101;0;110;111;100;101;32;39;37;115;39;
   44;32;103;114;97;112;104;32;39;37;115;39;32;115;105;122;101;32;116;111;111;32;115;109;97;108;108;32;102;
   111;114;32;108;97;98;101;108;10;0;115;112;108;105;110;101;115;46;99;0;98;101;103;105;110;112;97;116;104;
   0;80;45;62;101;110;100;46;116;104;101;116;97;32;60;32;50;32;42;32;77;95;80;73;0;101;110;100;112;97;116;
   104;0;109;97;107;101;83;101;108;102;69;100;103;101;0;112;111;108;121;108;105;110;101;77;105;100;112;111;
   105;110;116;0;103;101;116;115;112;108;105;110;101;112;111;105;110;116;115;58;32;110;111;32;115;112;108;
   105;110;101;32;112;111;105;110;116;115;32;97;118;97;105;108;97;98;108;101;32;102;111;114;32;101;100;103;
   101;32;40;37;115;44;37;115;41;10;0;115;112;97;110;45;62;102;111;110;116;0;116;101;120;116;115;112;97;110;
   46;99;0;116;101;120;116;115;112;97;110;95;115;105;122;101;0;102;111;110;116;45;62;110;97;109;101;0;99;
   111;117;114;0;97;114;105;97;108;0;104;101;108;118;101;116;105;99;97;0;91;105;110;116;101;114;110;97;108;
   32;116;105;109;101;115;93;0;91;105;110;116;101;114;110;97;108;32;99;111;117;114;105;101;114;93;0;91;105;
   110;116;101;114;110;97;108;32;97;114;105;97;108;93;0;102;111;110;116;110;97;109;101;58;32;34;37;115;34;
   32;114;101;115;111;108;118;101;100;32;116;111;58;32;37;115;10;0;102;111;110;116;110;97;109;101;58;32;117;
   110;97;98;108;101;32;116;111;32;114;101;115;111;108;118;101;32;34;37;115;34;10;0;65;118;97;110;116;71;97;
   114;100;101;45;66;111;111;107;0;85;82;87;32;71;111;116;104;105;99;32;76;0;98;111;111;107;0;115;97;110;
   115;45;83;101;114;105;102;0;65;118;97;110;116;71;97;114;100;101;45;66;111;111;107;79;98;108;105;113;117;
   101;0;111;98;108;105;113;117;101;0;105;116;97;108;105;99;0;65;118;97;110;116;71;97;114;100;101;45;68;101;
   109;105;0;100;101;109;105;0;65;118;97;110;116;71;97;114;100;101;45;68;101;109;105;79;98;108;105;113;117;
   101;0;66;111;111;107;109;97;110;45;68;101;109;105;0;85;82;87;32;66;111;111;107;109;97;110;32;76;0;115;
   101;114;105;102;0;66;111;111;107;109;97;110;45;68;101;109;105;73;116;97;108;105;99;0;66;111;111;107;109;
   97;110;45;76;105;103;104;116;0;108;105;103;104;116;0;66;111;111;107;109;97;110;45;76;105;103;104;116;73;
   116;97;108;105;99;0;67;111;117;114;105;101;114;0;109;111;110;111;115;112;97;99;101;0;67;111;117;114;105;
   101;114;45;66;111;108;100;0;67;111;117;114;105;101;114;45;66;111;108;100;79;98;108;105;113;117;101;0;67;
   111;117;114;105;101;114;45;79;98;108;105;113;117;101;0;72;101;108;118;101;116;105;99;97;0;72;101;108;118;
   101;116;105;99;97;45;66;111;108;100;0;72;101;108;118;101;116;105;99;97;45;66;111;108;100;79;98;108;105;
   113;117;101;0;72;101;108;118;101;116;105;99;97;45;78;97;114;114;111;119;0;99;111;110;100;101;110;115;101;
   100;0;72;101;108;118;101;116;105;99;97;45;78;97;114;114;111;119;45;66;111;108;100;0;72;101;108;118;101;
   116;105;99;97;45;78;97;114;114;111;119;45;66;111;108;100;79;98;108;105;113;117;101;0;72;101;108;118;101;
   116;105;99;97;45;78;97;114;114;111;119;45;79;98;108;105;113;117;101;0;72;101;108;118;101;116;105;99;97;
   45;79;98;108;105;113;117;101;0;78;101;119;67;101;110;116;117;114;121;83;99;104;108;98;107;45;66;111;108;
   100;0;67;101;110;116;117;114;121;32;83;99;104;111;111;108;98;111;111;107;32;76;0;78;101;119;67;101;110;
   116;117;114;121;83;99;104;108;98;107;45;66;111;108;100;73;116;97;108;105;99;0;78;101;119;67;101;110;116;
   117;114;121;83;99;104;108;98;107;45;73;116;97;108;105;99;0;78;101;119;67;101;110;116;117;114;121;83;99;
   104;108;98;107;45;82;111;109;97;110;0;114;111;109;97;110;0;80;97;108;97;116;105;110;111;45;66;111;108;
   100;0;80;97;108;97;116;105;110;111;32;76;105;110;111;116;121;112;101;0;80;97;108;97;116;105;110;111;45;
   66;111;108;100;73;116;97;108;105;99;0;80;97;108;97;116;105;110;111;45;73;116;97;108;105;99;0;80;97;108;
   97;116;105;110;111;45;82;111;109;97;110;0;83;121;109;98;111;108;0;102;97;110;116;97;115;121;0;84;105;109;
   101;115;45;66;111;108;100;0;84;105;109;101;115;0;84;105;109;101;115;45;66;111;108;100;73;116;97;108;105;
   99;0;84;105;109;101;115;45;73;116;97;108;105;99;0;90;97;112;102;67;104;97;110;99;101;114;121;45;77;101;
   100;105;117;109;73;116;97;108;105;99;0;85;82;87;32;67;104;97;110;99;101;114;121;32;76;0;109;101;100;105;
   117;109;0;90;97;112;102;68;105;110;103;98;97;116;115;0;68;105;110;103;98;97;116;115;0;117;116;105;108;
   115;46;99;0;117;32;61;61;32;85;70;95;102;105;110;100;40;117;41;0;85;70;95;115;101;116;110;97;109;101;0;1;
   102;105;108;101;32;108;111;97;100;105;110;103;32;105;115;32;100;105;115;97;98;108;101;100;32;98;101;99;
   97;117;115;101;32;116;104;101;32;101;110;118;105;114;111;110;109;101;110;116;32;99;111;110;116;97;105;
   110;115;32;83;69;82;86;69;82;95;78;65;77;69;61;34;37;115;34;10;97;110;100;32;116;104;101;32;71;86;95;70;
   73;76;69;95;80;65;84;72;32;118;97;114;105;97;98;108;101;32;105;115;32;117;110;115;101;116;32;111;114;32;
   101;109;112;116;121;46;10;0;80;97;116;104;32;112;114;111;118;105;100;101;100;32;116;111;32;102;105;108;
   101;58;32;34;37;115;34;32;104;97;115;32;98;101;101;110;32;105;103;110;111;114;101;100;32;98;101;99;97;
   117;115;101;32;102;105;108;101;115;32;97;114;101;32;111;110;108;121;32;112;101;114;109;105;116;116;101;
   100;32;116;111;32;98;101;32;108;111;97;100;101;100;32;102;114;111;109;32;116;104;101;32;100;105;114;101;
   99;116;111;114;105;101;115;32;105;110;32;34;37;115;34;32;119;104;101;110;32;114;117;110;110;105;110;103;
   32;105;110;32;97;110;32;104;116;116;112;32;115;101;114;118;101;114;46;10;0;110;111;0;116;114;117;101;0;
   121;101;115;0;101;108;108;105;112;115;101;0;84;105;109;101;115;45;82;111;109;97;110;0;99;108;117;115;116;
   101;114;0;95;95;99;108;117;115;116;101;114;110;111;100;101;115;0;0;85;84;70;56;32;99;111;100;101;115;32;
   62;32;52;32;98;121;116;101;115;32;97;114;101;32;110;111;116;32;99;117;114;114;101;110;116;108;121;32;115;
   117;112;112;111;114;116;101;100;32;40;103;114;97;112;104;32;37;115;41;32;45;32;116;114;101;97;116;101;
   100;32;97;115;32;76;97;116;105;110;45;49;46;32;80;101;114;104;97;112;115;32;34;45;71;99;104;97;114;115;
   101;116;61;108;97;116;105;110;49;34;32;105;115;32;110;101;101;100;101;100;63;10;0;73;110;118;97;108;105;
   100;32;37;100;45;98;121;116;101;32;85;84;70;56;32;102;111;117;110;100;32;105;110;32;105;110;112;117;116;
   32;111;102;32;103;114;97;112;104;32;37;115;32;45;32;116;114;101;97;116;101;100;32;97;115;32;76;97;116;
   105;110;45;49;46;32;80;101;114;104;97;112;115;32;34;45;71;99;104;97;114;115;101;116;61;108;97;116;105;
   110;49;34;32;105;115;32;110;101;101;100;101;100;63;10;0;98;122;46;115;105;122;101;0;111;118;101;114;108;
   97;112;95;98;101;122;105;101;114;0;117;114;118;101;100;0;111;109;112;111;117;110;100;0;97;108;115;101;0;
   105;110;101;0;111;110;101;0;111;0;114;116;104;111;0;111;108;121;108;105;110;101;0;112;108;105;110;101;0;
   114;117;101;0;101;115;0;85;110;107;110;111;119;110;32;34;115;112;108;105;110;101;115;34;32;118;97;108;
   117;101;58;32;34;37;115;34;32;45;32;105;103;110;111;114;101;100;10;0;115;112;108;105;110;101;115;0;65;69;
   108;105;103;0;65;97;99;117;116;101;0;65;99;105;114;99;0;65;103;114;97;118;101;0;65;108;112;104;97;0;65;
   114;105;110;103;0;65;116;105;108;100;101;0;65;117;109;108;0;66;101;116;97;0;67;99;101;100;105;108;0;67;
   104;105;0;68;97;103;103;101;114;0;68;101;108;116;97;0;69;84;72;0;69;97;99;117;116;101;0;69;99;105;114;99;
   0;69;103;114;97;118;101;0;69;112;115;105;108;111;110;0;69;116;97;0;69;117;109;108;0;71;97;109;109;97;0;
   73;97;99;117;116;101;0;73;99;105;114;99;0;73;103;114;97;118;101;0;73;111;116;97;0;73;117;109;108;0;75;97;
   112;112;97;0;76;97;109;98;100;97;0;77;117;0;78;116;105;108;100;101;0;78;117;0;79;69;108;105;103;0;79;97;
   99;117;116;101;0;79;99;105;114;99;0;79;103;114;97;118;101;0;79;109;101;103;97;0;79;109;105;99;114;111;
   110;0;79;115;108;97;115;104;0;79;116;105;108;100;101;0;79;117;109;108;0;80;104;105;0;80;105;0;80;114;105;
   109;101;0;80;115;105;0;82;104;111;0;83;99;97;114;111;110;0;83;105;103;109;97;0;84;72;79;82;78;0;84;97;
   117;0;84;104;101;116;97;0;85;97;99;117;116;101;0;85;99;105;114;99;0;85;103;114;97;118;101;0;85;112;115;
   105;108;111;110;0;85;117;109;108;0;88;105;0;89;97;99;117;116;101;0;89;117;109;108;0;90;101;116;97;0;97;
   97;99;117;116;101;0;97;99;105;114;99;0;97;99;117;116;101;0;97;101;108;105;103;0;97;103;114;97;118;101;0;
   97;108;101;102;115;121;109;0;97;108;112;104;97;0;97;109;112;0;97;110;100;0;97;110;103;0;97;114;105;110;
   103;0;97;115;121;109;112;0;97;116;105;108;100;101;0;97;117;109;108;0;98;100;113;117;111;0;98;101;116;97;
   0;98;114;118;98;97;114;0;98;117;108;108;0;99;97;112;0;99;99;101;100;105;108;0;99;101;100;105;108;0;99;
   101;110;116;0;99;104;105;0;99;105;114;99;0;99;108;117;98;115;0;99;111;110;103;0;99;111;112;121;0;99;114;
   97;114;114;0;99;117;112;0;99;117;114;114;101;110;0;100;65;114;114;0;100;97;103;103;101;114;0;100;97;114;
   114;0;100;101;103;0;100;101;108;116;97;0;100;105;97;109;115;0;100;105;118;105;100;101;0;101;97;99;117;
   116;101;0;101;99;105;114;99;0;101;103;114;97;118;101;0;101;109;112;116;121;0;101;109;115;112;0;101;110;
   115;112;0;101;112;115;105;108;111;110;0;101;113;117;105;118;0;101;116;97;0;101;116;104;0;101;117;109;108;
   0;101;117;114;111;0;101;120;105;115;116;0;102;110;111;102;0;102;111;114;97;108;108;0;102;114;97;99;49;50;
   0;102;114;97;99;49;52;0;102;114;97;99;51;52;0;102;114;97;115;108;0;103;97;109;109;97;0;103;101;0;103;116;
   0;104;65;114;114;0;104;97;114;114;0;104;101;97;114;116;115;0;104;101;108;108;105;112;0;105;97;99;117;116;
   101;0;105;99;105;114;99;0;105;101;120;99;108;0;105;103;114;97;118;101;0;105;109;97;103;101;0;105;110;102;
   105;110;0;105;110;116;0;105;111;116;97;0;105;113;117;101;115;116;0;105;115;105;110;0;105;117;109;108;0;
   107;97;112;112;97;0;108;65;114;114;0;108;97;109;98;100;97;0;108;97;110;103;0;108;97;113;117;111;0;108;97;
   114;114;0;108;99;101;105;108;0;108;100;113;117;111;0;108;101;0;108;102;108;111;111;114;0;108;111;119;97;
   115;116;0;108;111;122;0;108;114;109;0;108;115;97;113;117;111;0;108;115;113;117;111;0;108;116;0;109;97;99;
   114;0;109;100;97;115;104;0;109;105;99;114;111;0;109;105;100;100;111;116;0;109;117;0;110;97;98;108;97;0;
   110;98;115;112;0;110;100;97;115;104;0;110;101;0;110;105;0;110;111;116;0;110;111;116;105;110;0;110;115;
   117;98;0;110;116;105;108;100;101;0;110;117;0;111;97;99;117;116;101;0;111;99;105;114;99;0;111;101;108;105;
   103;0;111;103;114;97;118;101;0;111;108;105;110;101;0;111;109;101;103;97;0;111;109;105;99;114;111;110;0;
   111;112;108;117;115;0;111;114;0;111;114;100;102;0;111;114;100;109;0;111;115;108;97;115;104;0;111;116;105;
   108;100;101;0;111;116;105;109;101;115;0;111;117;109;108;0;112;97;114;97;0;112;97;114;116;0;112;101;114;
   109;105;108;0;112;101;114;112;0;112;104;105;0;112;105;0;112;105;118;0;112;108;117;115;109;110;0;112;111;
   117;110;100;0;112;114;105;109;101;0;112;114;111;100;0;112;114;111;112;0;112;115;105;0;113;117;111;116;0;
   114;65;114;114;0;114;97;100;105;99;0;114;97;110;103;0;114;97;113;117;111;0;114;97;114;114;0;114;99;101;
   105;108;0;114;100;113;117;111;0;114;101;97;108;0;114;101;103;0;114;102;108;111;111;114;0;114;104;111;0;
   114;108;109;0;114;115;97;113;117;111;0;114;115;113;117;111;0;115;98;113;117;111;0;115;99;97;114;111;110;
   0;115;100;111;116;0;115;101;99;116;0;115;104;121;0;115;105;103;109;97;0;115;105;103;109;97;102;0;115;105;
   109;0;115;112;97;100;101;115;0;115;117;98;0;115;117;98;101;0;115;117;109;0;115;117;112;0;115;117;112;49;
   0;115;117;112;50;0;115;117;112;51;0;115;117;112;101;0;115;122;108;105;103;0;116;97;117;0;116;104;101;114;
   101;52;0;116;104;101;116;97;0;116;104;101;116;97;115;121;109;0;116;104;105;110;115;112;0;116;104;111;114;
   110;0;116;105;108;100;101;0;116;105;109;101;115;0;116;114;97;100;101;0;117;65;114;114;0;117;97;99;117;
   116;101;0;117;97;114;114;0;117;99;105;114;99;0;117;103;114;97;118;101;0;117;109;108;0;117;112;115;105;
   104;0;117;112;115;105;108;111;110;0;117;117;109;108;0;119;101;105;101;114;112;0;120;105;0;121;97;99;117;
   116;101;0;121;101;110;0;121;117;109;108;0;122;101;116;97;0;122;119;106;0;122;119;110;106;0;109;97;112;78;
   0;84;119;111;32;99;108;117;115;116;101;114;115;32;110;97;109;101;100;32;37;115;32;45;32;116;104;101;32;
   115;101;99;111;110;100;32;119;105;108;108;32;98;101;32;105;103;110;111;114;101;100;10;0;37;115;37;115;37;
   115;0;47;0;58;0;111;100;98;0;79;114;116;104;111;103;111;110;97;108;32;101;100;103;101;115;32;100;111;32;
   110;111;116;32;99;117;114;114;101;110;116;108;121;32;104;97;110;100;108;101;32;101;100;103;101;32;108;97;
   98;101;108;115;46;32;84;114;121;32;117;115;105;110;103;32;120;108;97;98;101;108;115;46;10;0;37;37;33;80;
   83;45;65;100;111;98;101;45;50;46;48;10;37;37;37;37;66;111;117;110;100;105;110;103;66;111;120;58;32;40;97;
   116;101;110;100;41;10;47;112;111;105;110;116;32;123;10;32;32;47;89;32;101;120;99;104;32;100;101;102;10;
   32;32;47;88;32;101;120;99;104;32;100;101;102;10;32;32;110;101;119;112;97;116;104;10;32;32;88;32;89;32;51;
   32;48;32;51;54;48;32;97;114;99;32;102;105;108;108;10;125;32;100;101;102;10;47;99;101;108;108;32;123;10;
   32;32;47;89;32;101;120;99;104;32;100;101;102;10;32;32;47;88;32;101;120;99;104;32;100;101;102;10;32;32;47;
   121;32;101;120;99;104;32;100;101;102;10;32;32;47;120;32;101;120;99;104;32;100;101;102;10;32;32;110;101;
   119;112;97;116;104;10;32;32;120;32;121;32;109;111;118;101;116;111;10;32;32;120;32;89;32;108;105;110;101;
   116;111;10;32;32;88;32;89;32;108;105;110;101;116;111;10;32;32;88;32;121;32;108;105;110;101;116;111;10;32;
   32;99;108;111;115;101;112;97;116;104;32;115;116;114;111;107;101;10;125;32;100;101;102;10;47;110;111;100;
   101;32;123;10;32;47;117;32;101;120;99;104;32;100;101;102;10;32;47;114;32;101;120;99;104;32;100;101;102;
   10;32;47;100;32;101;120;99;104;32;100;101;102;10;32;47;108;32;101;120;99;104;32;100;101;102;10;32;110;
   101;119;112;97;116;104;32;108;32;100;32;109;111;118;101;116;111;10;32;114;32;100;32;108;105;110;101;116;
   111;32;114;32;117;32;108;105;110;101;116;111;32;108;32;117;32;108;105;110;101;116;111;10;32;99;108;111;
   115;101;112;97;116;104;32;102;105;108;108;10;125;32;100;101;102;10;10;0;37;100;32;37;100;32;116;114;97;
   110;115;108;97;116;101;10;0;110;101;119;112;97;116;104;32;37;100;32;37;100;32;109;111;118;101;116;111;10;
   0;37;100;32;37;100;32;108;105;110;101;116;111;10;0;37;100;32;37;100;32;108;105;110;101;116;111;32;115;
   116;114;111;107;101;10;0;48;46;56;32;48;46;56;32;48;46;56;32;115;101;116;114;103;98;99;111;108;111;114;
   10;0;115;104;111;119;112;97;103;101;10;37;37;37;37;84;114;97;105;108;101;114;10;37;37;37;37;66;111;117;
   110;100;105;110;103;66;111;120;58;32;37;100;32;37;100;32;37;100;32;37;100;10;0;111;114;116;104;111;32;37;
   115;32;37;115;10;0;99;104;97;110;110;101;108;32;37;100;32;40;37;102;44;37;102;41;10;0;32;45;62;10;0;32;
   32;32;32;32;0;66;95;82;73;71;72;84;0;66;95;68;79;87;78;0;66;95;76;69;70;84;0;66;95;85;80;0;66;95;78;79;
   68;69;0;40;40;37;102;44;37;102;41;44;40;37;102;44;37;102;41;41;32;37;115;32;37;115;0;115;101;103;0;111;
   114;116;104;111;46;99;0;110;101;120;116;95;115;101;103;0;100;101;99;105;100;101;95;112;111;105;110;116;0;
   105;110;99;111;109;112;97;114;97;98;108;101;32;115;101;103;109;101;110;116;115;32;33;33;32;45;45;32;65;
   98;111;114;116;105;110;103;10;0;115;49;45;62;99;111;109;109;95;99;111;111;114;100;61;61;115;50;45;62;99;
   111;109;109;95;99;111;111;114;100;0;105;115;95;112;97;114;97;108;108;101;108;0;99;104;97;110;105;0;99;
   104;97;110;83;101;97;114;99;104;0;99;112;0;103;114;97;112;104;32;71;32;123;10;0;32;110;111;100;101;91;
   115;104;97;112;101;61;112;111;105;110;116;93;10;0;32;32;37;100;32;91;112;111;115;61;34;37;100;44;37;100;
   34;93;10;0;32;32;37;100;32;45;45;32;37;100;91;108;101;110;61;34;37;102;34;93;10;0;125;10;0;115;111;108;
   105;100;0;105;110;118;105;115;105;98;108;101;0;98;111;108;100;0;115;101;116;108;105;110;101;119;105;100;
   116;104;0;102;105;108;108;101;100;0;117;110;102;105;108;108;101;100;0;116;97;112;101;114;101;100;0;103;
   118;114;101;110;100;101;114;95;115;101;116;95;115;116;121;108;101;58;32;117;110;115;117;112;112;111;114;
   116;101;100;32;115;116;121;108;101;32;37;115;32;45;32;105;103;110;111;114;105;110;103;10;0;103;118;114;
   101;110;100;101;114;46;99;0;103;118;114;101;110;100;101;114;95;117;115;101;114;115;104;97;112;101;0;110;
   97;109;101;0;110;97;109;101;91;48;93;0;119;105;100;116;104;0;104;101;105;103;104;116;0;98;111;116;104;0;
   99;111;108;111;114;32;37;115;0;37;115;32;105;115;32;110;111;116;32;97;32;107;110;111;119;110;32;99;111;
   108;111;114;46;10;0;101;114;114;111;114;32;105;110;32;99;111;108;120;108;97;116;101;40;41;10;0;108;97;
   121;111;117;116;0;76;97;121;111;117;116;32;116;121;112;101;58;32;34;37;115;34;32;110;111;116;32;114;101;
   99;111;103;110;105;122;101;100;46;32;85;115;101;32;111;110;101;32;111;102;58;37;115;10;0;106;111;98;0;
   103;118;108;111;97;100;105;109;97;103;101;46;99;0;103;118;108;111;97;100;105;109;97;103;101;0;117;115;0;
   117;115;45;62;110;97;109;101;0;117;115;45;62;110;97;109;101;91;48;93;0;78;111;32;108;111;97;100;105;109;
   97;103;101;32;112;108;117;103;105;110;32;102;111;114;32;34;37;115;34;10;0;81;0;76;101;102;116;0;75;80;95;
   76;101;102;116;0;82;105;103;104;116;0;75;80;95;82;105;103;104;116;0;85;112;0;75;80;95;85;112;0;68;111;
   119;110;0;75;80;95;68;111;119;110;0;112;108;117;115;0;75;80;95;65;100;100;0;109;105;110;117;115;0;75;80;
   95;83;117;98;116;114;97;99;116;0;70;0;116;111;111;108;116;105;112;0;110;111;100;101;0;104;114;101;102;0;
   85;82;76;0;101;100;103;101;0;116;97;105;108;112;111;114;116;0;104;101;97;100;112;111;114;116;0;107;101;
   121;0;100;105;103;114;97;112;104;0;103;114;97;112;104;0;115;117;98;103;114;97;112;104;0;95;76;84;88;95;
   108;105;98;114;97;114;121;0;116;101;120;116;108;97;121;111;117;116;0;111;117;116;32;111;102;32;109;101;
   109;111;114;121;10;0;114;101;99;116;46;98;111;117;110;100;97;114;121;91;50;93;32;60;32;73;78;84;95;77;65;
   88;0;120;108;97;98;101;108;115;46;99;0;111;98;106;112;108;112;109;107;115;0;114;101;99;116;46;98;111;117;
   110;100;97;114;121;91;51;93;32;60;32;73;78;84;95;77;65;88;0;118;112;0;120;108;104;100;120;117;110;108;
   111;97;100;0;115;105;122;101;61;61;102;114;101;101;100;0;111;98;106;112;45;62;108;98;108;0;120;108;105;
   110;116;101;114;115;101;99;116;105;111;110;115;0;111;98;106;112;49;45;62;115;122;46;120;32;61;61;32;48;
   32;38;38;32;111;98;106;112;49;45;62;115;122;46;121;32;61;61;32;48;0;108;98;108;101;110;99;108;111;115;
   105;110;103;0;108;112;32;33;61;32;99;108;112;0;103;101;116;105;110;116;114;115;120;105;0;35;37;50;120;37;
   50;120;37;50;120;37;50;120;0;37;108;102;37;108;102;37;108;102;0;108;97;99;107;0;104;105;116;101;0;105;
   103;104;116;103;114;101;121;0;88;49;49;47;0;47;97;99;99;101;110;116;51;47;49;0;47;97;99;99;101;110;116;
   51;47;50;0;47;97;99;99;101;110;116;51;47;51;0;47;97;99;99;101;110;116;52;47;49;0;47;97;99;99;101;110;116;
   52;47;50;0;47;97;99;99;101;110;116;52;47;51;0;47;97;99;99;101;110;116;52;47;52;0;47;97;99;99;101;110;116;
   53;47;49;0;47;97;99;99;101;110;116;53;47;50;0;47;97;99;99;101;110;116;53;47;51;0;47;97;99;99;101;110;116;
   53;47;52;0;47;97;99;99;101;110;116;53;47;53;0;47;97;99;99;101;110;116;54;47;49;0;47;97;99;99;101;110;116;
   54;47;50;0;47;97;99;99;101;110;116;54;47;51;0;47;97;99;99;101;110;116;54;47;52;0;47;97;99;99;101;110;116;
   54;47;53;0;47;97;99;99;101;110;116;54;47;54;0;47;97;99;99;101;110;116;55;47;49;0;47;97;99;99;101;110;116;
   55;47;50;0;47;97;99;99;101;110;116;55;47;51;0;47;97;99;99;101;110;116;55;47;52;0;47;97;99;99;101;110;116;
   55;47;53;0;47;97;99;99;101;110;116;55;47;54;0;47;97;99;99;101;110;116;55;47;55;0;47;97;99;99;101;110;116;
   56;47;49;0;47;97;99;99;101;110;116;56;47;50;0;47;97;99;99;101;110;116;56;47;51;0;47;97;99;99;101;110;116;
   56;47;52;0;47;97;99;99;101;110;116;56;47;53;0;47;97;99;99;101;110;116;56;47;54;0;47;97;99;99;101;110;116;
   56;47;55;0;47;97;99;99;101;110;116;56;47;56;0;47;98;108;117;101;115;51;47;49;0;47;98;108;117;101;115;51;
   47;50;0;47;98;108;117;101;115;51;47;51;0;47;98;108;117;101;115;52;47;49;0;47;98;108;117;101;115;52;47;50;
   0;47;98;108;117;101;115;52;47;51;0;47;98;108;117;101;115;52;47;52;0;47;98;108;117;101;115;53;47;49;0;47;
   98;108;117;101;115;53;47;50;0;47;98;108;117;101;115;53;47;51;0;47;98;108;117;101;115;53;47;52;0;47;98;
   108;117;101;115;53;47;53;0;47;98;108;117;101;115;54;47;49;0;47;98;108;117;101;115;54;47;50;0;47;98;108;
   117;101;115;54;47;51;0;47;98;108;117;101;115;54;47;52;0;47;98;108;117;101;115;54;47;53;0;47;98;108;117;
   101;115;54;47;54;0;47;98;108;117;101;115;55;47;49;0;47;98;108;117;101;115;55;47;50;0;47;98;108;117;101;
   115;55;47;51;0;47;98;108;117;101;115;55;47;52;0;47;98;108;117;101;115;55;47;53;0;47;98;108;117;101;115;
   55;47;54;0;47;98;108;117;101;115;55;47;55;0;47;98;108;117;101;115;56;47;49;0;47;98;108;117;101;115;56;47;
   50;0;47;98;108;117;101;115;56;47;51;0;47;98;108;117;101;115;56;47;52;0;47;98;108;117;101;115;56;47;53;0;
   47;98;108;117;101;115;56;47;54;0;47;98;108;117;101;115;56;47;55;0;47;98;108;117;101;115;56;47;56;0;47;98;
   108;117;101;115;57;47;49;0;47;98;108;117;101;115;57;47;50;0;47;98;108;117;101;115;57;47;51;0;47;98;108;
   117;101;115;57;47;52;0;47;98;108;117;101;115;57;47;53;0;47;98;108;117;101;115;57;47;54;0;47;98;108;117;
   101;115;57;47;55;0;47;98;108;117;101;115;57;47;56;0;47;98;108;117;101;115;57;47;57;0;47;98;114;98;103;49;
   48;47;49;0;47;98;114;98;103;49;48;47;49;48;0;47;98;114;98;103;49;48;47;50;0;47;98;114;98;103;49;48;47;51;
   0;47;98;114;98;103;49;48;47;52;0;47;98;114;98;103;49;48;47;53;0;47;98;114;98;103;49;48;47;54;0;47;98;114;
   98;103;49;48;47;55;0;47;98;114;98;103;49;48;47;56;0;47;98;114;98;103;49;48;47;57;0;47;98;114;98;103;49;
   49;47;49;0;47;98;114;98;103;49;49;47;49;48;0;47;98;114;98;103;49;49;47;49;49;0;47;98;114;98;103;49;49;47;
   50;0;47;98;114;98;103;49;49;47;51;0;47;98;114;98;103;49;49;47;52;0;47;98;114;98;103].

(** [n.q+136178]: 10240 bytes. *)
Definition segment_136178 : list Z :=
  [49;49;47;53;0;47;98;114;98;103;49;49;47;54;0;47;98;114;98;103;49;49;47;55;0;47;98;114;98;103;49;49;47;56;
   0;47;98;114;98;103;49;49;47;57;0;47;98;114;98;103;51;47;49;0;47;98;114;98;103;51;47;50;0;47;98;114;98;
   103;51;47;51;0;47;98;114;98;103;52;47;49;0;47;98;114;98;103;52;47;50;0;47;98;114;98;103;52;47;51;0;47;98;
   114;98;103;52;47;52;0;47;98;114;98;103;53;47;49;0;47;98;114;98;103;53;47;50;0;47;98;114;98;103;53;47;51;
   0;47;98;114;98;103;53;47;52;0;47;98;114;98;103;53;47;53;0;47;98;114;98;103;54;47;49;0;47;98;114;98;103;
   54;47;50;0;47;98;114;98;103;54;47;51;0;47;98;114;98;103;54;47;52;0;47;98;114;98;103;54;47;53;0;47;98;114;
   98;103;54;47;54;0;47;98;114;98;103;55;47;49;0;47;98;114;98;103;55;47;50;0;47;98;114;98;103;55;47;51;0;47;
   98;114;98;103;55;47;52;0;47;98;114;98;103;55;47;53;0;47;98;114;98;103;55;47;54;0;47;98;114;98;103;55;47;
   55;0;47;98;114;98;103;56;47;49;0;47;98;114;98;103;56;47;50;0;47;98;114;98;103;56;47;51;0;47;98;114;98;
   103;56;47;52;0;47;98;114;98;103;56;47;53;0;47;98;114;98;103;56;47;54;0;47;98;114;98;103;56;47;55;0;47;98;
   114;98;103;56;47;56;0;47;98;114;98;103;57;47;49;0;47;98;114;98;103;57;47;50;0;47;98;114;98;103;57;47;51;
   0;47;98;114;98;103;57;47;52;0;47;98;114;98;103;57;47;53;0;47;98;114;98;103;57;47;54;0;47;98;114;98;103;
   57;47;55;0;47;98;114;98;103;57;47;56;0;47;98;114;98;103;57;47;57;0;47;98;117;103;110;51;47;49;0;47;98;
   117;103;110;51;47;50;0;47;98;117;103;110;51;47;51;0;47;98;117;103;110;52;47;49;0;47;98;117;103;110;52;47;
   50;0;47;98;117;103;110;52;47;51;0;47;98;117;103;110;52;47;52;0;47;98;117;103;110;53;47;49;0;47;98;117;
   103;110;53;47;50;0;47;98;117;103;110;53;47;51;0;47;98;117;103;110;53;47;52;0;47;98;117;103;110;53;47;53;
   0;47;98;117;103;110;54;47;49;0;47;98;117;103;110;54;47;50;0;47;98;117;103;110;54;47;51;0;47;98;117;103;
   110;54;47;52;0;47;98;117;103;110;54;47;53;0;47;98;117;103;110;54;47;54;0;47;98;117;103;110;55;47;49;0;47;
   98;117;103;110;55;47;50;0;47;98;117;103;110;55;47;51;0;47;98;117;103;110;55;47;52;0;47;98;117;103;110;55;
   47;53;0;47;98;117;103;110;55;47;54;0;47;98;117;103;110;55;47;55;0;47;98;117;103;110;56;47;49;0;47;98;117;
   103;110;56;47;50;0;47;98;117;103;110;56;47;51;0;47;98;117;103;110;56;47;52;0;47;98;117;103;110;56;47;53;
   0;47;98;117;103;110;56;47;54;0;47;98;117;103;110;56;47;55;0;47;98;117;103;110;56;47;56;0;47;98;117;103;
   110;57;47;49;0;47;98;117;103;110;57;47;50;0;47;98;117;103;110;57;47;51;0;47;98;117;103;110;57;47;52;0;47;
   98;117;103;110;57;47;53;0;47;98;117;103;110;57;47;54;0;47;98;117;103;110;57;47;55;0;47;98;117;103;110;57;
   47;56;0;47;98;117;103;110;57;47;57;0;47;98;117;112;117;51;47;49;0;47;98;117;112;117;51;47;50;0;47;98;117;
   112;117;51;47;51;0;47;98;117;112;117;52;47;49;0;47;98;117;112;117;52;47;50;0;47;98;117;112;117;52;47;51;
   0;47;98;117;112;117;52;47;52;0;47;98;117;112;117;53;47;49;0;47;98;117;112;117;53;47;50;0;47;98;117;112;
   117;53;47;51;0;47;98;117;112;117;53;47;52;0;47;98;117;112;117;53;47;53;0;47;98;117;112;117;54;47;49;0;47;
   98;117;112;117;54;47;50;0;47;98;117;112;117;54;47;51;0;47;98;117;112;117;54;47;52;0;47;98;117;112;117;54;
   47;53;0;47;98;117;112;117;54;47;54;0;47;98;117;112;117;55;47;49;0;47;98;117;112;117;55;47;50;0;47;98;117;
   112;117;55;47;51;0;47;98;117;112;117;55;47;52;0;47;98;117;112;117;55;47;53;0;47;98;117;112;117;55;47;54;
   0;47;98;117;112;117;55;47;55;0;47;98;117;112;117;56;47;49;0;47;98;117;112;117;56;47;50;0;47;98;117;112;
   117;56;47;51;0;47;98;117;112;117;56;47;52;0;47;98;117;112;117;56;47;53;0;47;98;117;112;117;56;47;54;0;47;
   98;117;112;117;56;47;55;0;47;98;117;112;117;56;47;56;0;47;98;117;112;117;57;47;49;0;47;98;117;112;117;57;
   47;50;0;47;98;117;112;117;57;47;51;0;47;98;117;112;117;57;47;52;0;47;98;117;112;117;57;47;53;0;47;98;117;
   112;117;57;47;54;0;47;98;117;112;117;57;47;55;0;47;98;117;112;117;57;47;56;0;47;98;117;112;117;57;47;57;
   0;47;100;97;114;107;50;51;47;49;0;47;100;97;114;107;50;51;47;50;0;47;100;97;114;107;50;51;47;51;0;47;100;
   97;114;107;50;52;47;49;0;47;100;97;114;107;50;52;47;50;0;47;100;97;114;107;50;52;47;51;0;47;100;97;114;
   107;50;52;47;52;0;47;100;97;114;107;50;53;47;49;0;47;100;97;114;107;50;53;47;50;0;47;100;97;114;107;50;
   53;47;51;0;47;100;97;114;107;50;53;47;52;0;47;100;97;114;107;50;53;47;53;0;47;100;97;114;107;50;54;47;49;
   0;47;100;97;114;107;50;54;47;50;0;47;100;97;114;107;50;54;47;51;0;47;100;97;114;107;50;54;47;52;0;47;100;
   97;114;107;50;54;47;53;0;47;100;97;114;107;50;54;47;54;0;47;100;97;114;107;50;55;47;49;0;47;100;97;114;
   107;50;55;47;50;0;47;100;97;114;107;50;55;47;51;0;47;100;97;114;107;50;55;47;52;0;47;100;97;114;107;50;
   55;47;53;0;47;100;97;114;107;50;55;47;54;0;47;100;97;114;107;50;55;47;55;0;47;100;97;114;107;50;56;47;49;
   0;47;100;97;114;107;50;56;47;50;0;47;100;97;114;107;50;56;47;51;0;47;100;97;114;107;50;56;47;52;0;47;100;
   97;114;107;50;56;47;53;0;47;100;97;114;107;50;56;47;54;0;47;100;97;114;107;50;56;47;55;0;47;100;97;114;
   107;50;56;47;56;0;47;103;110;98;117;51;47;49;0;47;103;110;98;117;51;47;50;0;47;103;110;98;117;51;47;51;0;
   47;103;110;98;117;52;47;49;0;47;103;110;98;117;52;47;50;0;47;103;110;98;117;52;47;51;0;47;103;110;98;117;
   52;47;52;0;47;103;110;98;117;53;47;49;0;47;103;110;98;117;53;47;50;0;47;103;110;98;117;53;47;51;0;47;103;
   110;98;117;53;47;52;0;47;103;110;98;117;53;47;53;0;47;103;110;98;117;54;47;49;0;47;103;110;98;117;54;47;
   50;0;47;103;110;98;117;54;47;51;0;47;103;110;98;117;54;47;52;0;47;103;110;98;117;54;47;53;0;47;103;110;
   98;117;54;47;54;0;47;103;110;98;117;55;47;49;0;47;103;110;98;117;55;47;50;0;47;103;110;98;117;55;47;51;0;
   47;103;110;98;117;55;47;52;0;47;103;110;98;117;55;47;53;0;47;103;110;98;117;55;47;54;0;47;103;110;98;117;
   55;47;55;0;47;103;110;98;117;56;47;49;0;47;103;110;98;117;56;47;50;0;47;103;110;98;117;56;47;51;0;47;103;
   110;98;117;56;47;52;0;47;103;110;98;117;56;47;53;0;47;103;110;98;117;56;47;54;0;47;103;110;98;117;56;47;
   55;0;47;103;110;98;117;56;47;56;0;47;103;110;98;117;57;47;49;0;47;103;110;98;117;57;47;50;0;47;103;110;
   98;117;57;47;51;0;47;103;110;98;117;57;47;52;0;47;103;110;98;117;57;47;53;0;47;103;110;98;117;57;47;54;0;
   47;103;110;98;117;57;47;55;0;47;103;110;98;117;57;47;56;0;47;103;110;98;117;57;47;57;0;47;103;114;101;
   101;110;115;51;47;49;0;47;103;114;101;101;110;115;51;47;50;0;47;103;114;101;101;110;115;51;47;51;0;47;
   103;114;101;101;110;115;52;47;49;0;47;103;114;101;101;110;115;52;47;50;0;47;103;114;101;101;110;115;52;
   47;51;0;47;103;114;101;101;110;115;52;47;52;0;47;103;114;101;101;110;115;53;47;49;0;47;103;114;101;101;
   110;115;53;47;50;0;47;103;114;101;101;110;115;53;47;51;0;47;103;114;101;101;110;115;53;47;52;0;47;103;
   114;101;101;110;115;53;47;53;0;47;103;114;101;101;110;115;54;47;49;0;47;103;114;101;101;110;115;54;47;50;
   0;47;103;114;101;101;110;115;54;47;51;0;47;103;114;101;101;110;115;54;47;52;0;47;103;114;101;101;110;115;
   54;47;53;0;47;103;114;101;101;110;115;54;47;54;0;47;103;114;101;101;110;115;55;47;49;0;47;103;114;101;
   101;110;115;55;47;50;0;47;103;114;101;101;110;115;55;47;51;0;47;103;114;101;101;110;115;55;47;52;0;47;
   103;114;101;101;110;115;55;47;53;0;47;103;114;101;101;110;115;55;47;54;0;47;103;114;101;101;110;115;55;
   47;55;0;47;103;114;101;101;110;115;56;47;49;0;47;103;114;101;101;110;115;56;47;50;0;47;103;114;101;101;
   110;115;56;47;51;0;47;103;114;101;101;110;115;56;47;52;0;47;103;114;101;101;110;115;56;47;53;0;47;103;
   114;101;101;110;115;56;47;54;0;47;103;114;101;101;110;115;56;47;55;0;47;103;114;101;101;110;115;56;47;56;
   0;47;103;114;101;101;110;115;57;47;49;0;47;103;114;101;101;110;115;57;47;50;0;47;103;114;101;101;110;115;
   57;47;51;0;47;103;114;101;101;110;115;57;47;52;0;47;103;114;101;101;110;115;57;47;53;0;47;103;114;101;
   101;110;115;57;47;54;0;47;103;114;101;101;110;115;57;47;55;0;47;103;114;101;101;110;115;57;47;56;0;47;
   103;114;101;101;110;115;57;47;57;0;47;103;114;101;121;115;51;47;49;0;47;103;114;101;121;115;51;47;50;0;
   47;103;114;101;121;115;51;47;51;0;47;103;114;101;121;115;52;47;49;0;47;103;114;101;121;115;52;47;50;0;47;
   103;114;101;121;115;52;47;51;0;47;103;114;101;121;115;52;47;52;0;47;103;114;101;121;115;53;47;49;0;47;
   103;114;101;121;115;53;47;50;0;47;103;114;101;121;115;53;47;51;0;47;103;114;101;121;115;53;47;52;0;47;
   103;114;101;121;115;53;47;53;0;47;103;114;101;121;115;54;47;49;0;47;103;114;101;121;115;54;47;50;0;47;
   103;114;101;121;115;54;47;51;0;47;103;114;101;121;115;54;47;52;0;47;103;114;101;121;115;54;47;53;0;47;
   103;114;101;121;115;54;47;54;0;47;103;114;101;121;115;55;47;49;0;47;103;114;101;121;115;55;47;50;0;47;
   103;114;101;121;115;55;47;51;0;47;103;114;101;121;115;55;47;52;0;47;103;114;101;121;115;55;47;53;0;47;
   103;114;101;121;115;55;47;54;0;47;103;114;101;121;115;55;47;55;0;47;103;114;101;121;115;56;47;49;0;47;
   103;114;101;121;115;56;47;50;0;47;103;114;101;121;115;56;47;51;0;47;103;114;101;121;115;56;47;52;0;47;
   103;114;101;121;115;56;47;53;0;47;103;114;101;121;115;56;47;54;0;47;103;114;101;121;115;56;47;55;0;47;
   103;114;101;121;115;56;47;56;0;47;103;114;101;121;115;57;47;49;0;47;103;114;101;121;115;57;47;50;0;47;
   103;114;101;121;115;57;47;51;0;47;103;114;101;121;115;57;47;52;0;47;103;114;101;121;115;57;47;53;0;47;
   103;114;101;121;115;57;47;54;0;47;103;114;101;121;115;57;47;55;0;47;103;114;101;121;115;57;47;56;0;47;
   103;114;101;121;115;57;47;57;0;47;111;114;97;110;103;101;115;51;47;49;0;47;111;114;97;110;103;101;115;51;
   47;50;0;47;111;114;97;110;103;101;115;51;47;51;0;47;111;114;97;110;103;101;115;52;47;49;0;47;111;114;97;
   110;103;101;115;52;47;50;0;47;111;114;97;110;103;101;115;52;47;51;0;47;111;114;97;110;103;101;115;52;47;
   52;0;47;111;114;97;110;103;101;115;53;47;49;0;47;111;114;97;110;103;101;115;53;47;50;0;47;111;114;97;110;
   103;101;115;53;47;51;0;47;111;114;97;110;103;101;115;53;47;52;0;47;111;114;97;110;103;101;115;53;47;53;0;
   47;111;114;97;110;103;101;115;54;47;49;0;47;111;114;97;110;103;101;115;54;47;50;0;47;111;114;97;110;103;
   101;115;54;47;51;0;47;111;114;97;110;103;101;115;54;47;52;0;47;111;114;97;110;103;101;115;54;47;53;0;47;
   111;114;97;110;103;101;115;54;47;54;0;47;111;114;97;110;103;101;115;55;47;49;0;47;111;114;97;110;103;101;
   115;55;47;50;0;47;111;114;97;110;103;101;115;55;47;51;0;47;111;114;97;110;103;101;115;55;47;52;0;47;111;
   114;97;110;103;101;115;55;47;53;0;47;111;114;97;110;103;101;115;55;47;54;0;47;111;114;97;110;103;101;115;
   55;47;55;0;47;111;114;97;110;103;101;115;56;47;49;0;47;111;114;97;110;103;101;115;56;47;50;0;47;111;114;
   97;110;103;101;115;56;47;51;0;47;111;114;97;110;103;101;115;56;47;52;0;47;111;114;97;110;103;101;115;56;
   47;53;0;47;111;114;97;110;103;101;115;56;47;54;0;47;111;114;97;110;103;101;115;56;47;55;0;47;111;114;97;
   110;103;101;115;56;47;56;0;47;111;114;97;110;103;101;115;57;47;49;0;47;111;114;97;110;103;101;115;57;47;
   50;0;47;111;114;97;110;103;101;115;57;47;51;0;47;111;114;97;110;103;101;115;57;47;52;0;47;111;114;97;110;
   103;101;115;57;47;53;0;47;111;114;97;110;103;101;115;57;47;54;0;47;111;114;97;110;103;101;115;57;47;55;0;
   47;111;114;97;110;103;101;115;57;47;56;0;47;111;114;97;110;103;101;115;57;47;57;0;47;111;114;114;100;51;
   47;49;0;47;111;114;114;100;51;47;50;0;47;111;114;114;100;51;47;51;0;47;111;114;114;100;52;47;49;0;47;111;
   114;114;100;52;47;50;0;47;111;114;114;100;52;47;51;0;47;111;114;114;100;52;47;52;0;47;111;114;114;100;53;
   47;49;0;47;111;114;114;100;53;47;50;0;47;111;114;114;100;53;47;51;0;47;111;114;114;100;53;47;52;0;47;111;
   114;114;100;53;47;53;0;47;111;114;114;100;54;47;49;0;47;111;114;114;100;54;47;50;0;47;111;114;114;100;54;
   47;51;0;47;111;114;114;100;54;47;52;0;47;111;114;114;100;54;47;53;0;47;111;114;114;100;54;47;54;0;47;111;
   114;114;100;55;47;49;0;47;111;114;114;100;55;47;50;0;47;111;114;114;100;55;47;51;0;47;111;114;114;100;55;
   47;52;0;47;111;114;114;100;55;47;53;0;47;111;114;114;100;55;47;54;0;47;111;114;114;100;55;47;55;0;47;111;
   114;114;100;56;47;49;0;47;111;114;114;100;56;47;50;0;47;111;114;114;100;56;47;51;0;47;111;114;114;100;56;
   47;52;0;47;111;114;114;100;56;47;53;0;47;111;114;114;100;56;47;54;0;47;111;114;114;100;56;47;55;0;47;111;
   114;114;100;56;47;56;0;47;111;114;114;100;57;47;49;0;47;111;114;114;100;57;47;50;0;47;111;114;114;100;57;
   47;51;0;47;111;114;114;100;57;47;52;0;47;111;114;114;100;57;47;53;0;47;111;114;114;100;57;47;54;0;47;111;
   114;114;100;57;47;55;0;47;111;114;114;100;57;47;56;0;47;111;114;114;100;57;47;57;0;47;112;97;105;114;101;
   100;49;48;47;49;0;47;112;97;105;114;101;100;49;48;47;49;48;0;47;112;97;105;114;101;100;49;48;47;50;0;47;
   112;97;105;114;101;100;49;48;47;51;0;47;112;97;105;114;101;100;49;48;47;52;0;47;112;97;105;114;101;100;
   49;48;47;53;0;47;112;97;105;114;101;100;49;48;47;54;0;47;112;97;105;114;101;100;49;48;47;55;0;47;112;97;
   105;114;101;100;49;48;47;56;0;47;112;97;105;114;101;100;49;48;47;57;0;47;112;97;105;114;101;100;49;49;47;
   49;0;47;112;97;105;114;101;100;49;49;47;49;48;0;47;112;97;105;114;101;100;49;49;47;49;49;0;47;112;97;105;
   114;101;100;49;49;47;50;0;47;112;97;105;114;101;100;49;49;47;51;0;47;112;97;105;114;101;100;49;49;47;52;
   0;47;112;97;105;114;101;100;49;49;47;53;0;47;112;97;105;114;101;100;49;49;47;54;0;47;112;97;105;114;101;
   100;49;49;47;55;0;47;112;97;105;114;101;100;49;49;47;56;0;47;112;97;105;114;101;100;49;49;47;57;0;47;112;
   97;105;114;101;100;49;50;47;49;0;47;112;97;105;114;101;100;49;50;47;49;48;0;47;112;97;105;114;101;100;49;
   50;47;49;49;0;47;112;97;105;114;101;100;49;50;47;49;50;0;47;112;97;105;114;101;100;49;50;47;50;0;47;112;
   97;105;114;101;100;49;50;47;51;0;47;112;97;105;114;101;100;49;50;47;52;0;47;112;97;105;114;101;100;49;50;
   47;53;0;47;112;97;105;114;101;100;49;50;47;54;0;47;112;97;105;114;101;100;49;50;47;55;0;47;112;97;105;
   114;101;100;49;50;47;56;0;47;112;97;105;114;101;100;49;50;47;57;0;47;112;97;105;114;101;100;51;47;49;0;
   47;112;97;105;114;101;100;51;47;50;0;47;112;97;105;114;101;100;51;47;51;0;47;112;97;105;114;101;100;52;
   47;49;0;47;112;97;105;114;101;100;52;47;50;0;47;112;97;105;114;101;100;52;47;51;0;47;112;97;105;114;101;
   100;52;47;52;0;47;112;97;105;114;101;100;53;47;49;0;47;112;97;105;114;101;100;53;47;50;0;47;112;97;105;
   114;101;100;53;47;51;0;47;112;97;105;114;101;100;53;47;52;0;47;112;97;105;114;101;100;53;47;53;0;47;112;
   97;105;114;101;100;54;47;49;0;47;112;97;105;114;101;100;54;47;50;0;47;112;97;105;114;101;100;54;47;51;0;
   47;112;97;105;114;101;100;54;47;52;0;47;112;97;105;114;101;100;54;47;53;0;47;112;97;105;114;101;100;54;
   47;54;0;47;112;97;105;114;101;100;55;47;49;0;47;112;97;105;114;101;100;55;47;50;0;47;112;97;105;114;101;
   100;55;47;51;0;47;112;97;105;114;101;100;55;47;52;0;47;112;97;105;114;101;100;55;47;53;0;47;112;97;105;
   114;101;100;55;47;54;0;47;112;97;105;114;101;100;55;47;55;0;47;112;97;105;114;101;100;56;47;49;0;47;112;
   97;105;114;101;100;56;47;50;0;47;112;97;105;114;101;100;56;47;51;0;47;112;97;105;114;101;100;56;47;52;0;
   47;112;97;105;114;101;100;56;47;53;0;47;112;97;105;114;101;100;56;47;54;0;47;112;97;105;114;101;100;56;
   47;55;0;47;112;97;105;114;101;100;56;47;56;0;47;112;97;105;114;101;100;57;47;49;0;47;112;97;105;114;101;
   100;57;47;50;0;47;112;97;105;114;101;100;57;47;51;0;47;112;97;105;114;101;100;57;47;52;0;47;112;97;105;
   114;101;100;57;47;53;0;47;112;97;105;114;101;100;57;47;54;0;47;112;97;105;114;101;100;57;47;55;0;47;112;
   97;105;114;101;100;57;47;56;0;47;112;97;105;114;101;100;57;47;57;0;47;112;97;115;116;101;108;49;51;47;49;
   0;47;112;97;115;116;101;108;49;51;47;50;0;47;112;97;115;116;101;108;49;51;47;51;0;47;112;97;115;116;101;
   108;49;52;47;49;0;47;112;97;115;116;101;108;49;52;47;50;0;47;112;97;115;116;101;108;49;52;47;51;0;47;112;
   97;115;116;101;108;49;52;47;52;0;47;112;97;115;116;101;108;49;53;47;49;0;47;112;97;115;116;101;108;49;53;
   47;50;0;47;112;97;115;116;101;108;49;53;47;51;0;47;112;97;115;116;101;108;49;53;47;52;0;47;112;97;115;
   116;101;108;49;53;47;53;0;47;112;97;115;116;101;108;49;54;47;49;0;47;112;97;115;116;101;108;49;54;47;50;
   0;47;112;97;115;116;101;108;49;54;47;51;0;47;112;97;115;116;101;108;49;54;47;52;0;47;112;97;115;116;101;
   108;49;54;47;53;0;47;112;97;115;116;101;108;49;54;47;54;0;47;112;97;115;116;101;108;49;55;47;49;0;47;112;
   97;115;116;101;108;49;55;47;50;0;47;112;97;115;116;101;108;49;55;47;51;0;47;112;97;115;116;101;108;49;55;
   47;52;0;47;112;97;115;116;101;108;49;55;47;53;0;47;112;97;115;116;101;108;49;55;47;54;0;47;112;97;115;
   116;101;108;49;55;47;55;0;47;112;97;115;116;101;108;49;56;47;49;0;47;112;97;115;116;101;108;49;56;47;50;
   0;47;112;97;115;116;101;108;49;56;47;51;0;47;112;97;115;116;101;108;49;56;47;52;0;47;112;97;115;116;101;
   108;49;56;47;53;0;47;112;97;115;116;101;108;49;56;47;54;0;47;112;97;115;116;101;108;49;56;47;55;0;47;112;
   97;115;116;101;108;49;56;47;56;0;47;112;97;115;116;101;108;49;57;47;49;0;47;112;97;115;116;101;108;49;57;
   47;50;0;47;112;97;115;116;101;108;49;57;47;51;0;47;112;97;115;116;101;108;49;57;47;52;0;47;112;97;115;
   116;101;108;49;57;47;53;0;47;112;97;115;116;101;108;49;57;47;54;0;47;112;97;115;116;101;108;49;57;47;55;
   0;47;112;97;115;116;101;108;49;57;47;56;0;47;112;97;115;116;101;108;49;57;47;57;0;47;112;97;115;116;101;
   108;50;51;47;49;0;47;112;97;115;116;101;108;50;51;47;50;0;47;112;97;115;116;101;108;50;51;47;51;0;47;112;
   97;115;116;101;108;50;52;47;49;0;47;112;97;115;116;101;108;50;52;47;50;0;47;112;97;115;116;101;108;50;52;
   47;51;0;47;112;97;115;116;101;108;50;52;47;52;0;47;112;97;115;116;101;108;50;53;47;49;0;47;112;97;115;
   116;101;108;50;53;47;50;0;47;112;97;115;116;101;108;50;53;47;51;0;47;112;97;115;116;101;108;50;53;47;52;
   0;47;112;97;115;116;101;108;50;53;47;53;0;47;112;97;115;116;101;108;50;54;47;49;0;47;112;97;115;116;101;
   108;50;54;47;50;0;47;112;97;115;116;101;108;50;54;47;51;0;47;112;97;115;116;101;108;50;54;47;52;0;47;112;
   97;115;116;101;108;50;54;47;53;0;47;112;97;115;116;101;108;50;54;47;54;0;47;112;97;115;116;101;108;50;55;
   47;49;0;47;112;97;115;116;101;108;50;55;47;50;0;47;112;97;115;116;101;108;50;55;47;51;0;47;112;97;115;
   116;101;108;50;55;47;52;0;47;112;97;115;116;101;108;50;55;47;53;0;47;112;97;115;116;101;108;50;55;47;54;
   0;47;112;97;115;116;101;108;50;55;47;55;0;47;112;97;115;116;101;108;50;56;47;49;0;47;112;97;115;116;101;
   108;50;56;47;50;0;47;112;97;115;116;101;108;50;56;47;51;0;47;112;97;115;116;101;108;50;56;47;52;0;47;112;
   97;115;116;101;108;50;56;47;53;0;47;112;97;115;116;101;108;50;56;47;54;0;47;112;97;115;116;101;108;50;56;
   47;55;0;47;112;97;115;116;101;108;50;56;47;56;0;47;112;105;121;103;49;48;47;49;0;47;112;105;121;103;49;
   48;47;49;48;0;47;112;105;121;103;49;48;47;50;0;47;112;105;121;103;49;48;47;51;0;47;112;105;121;103;49;48;
   47;52;0;47;112;105;121;103;49;48;47;53;0;47;112;105;121;103;49;48;47;54;0;47;112;105;121;103;49;48;47;55;
   0;47;112;105;121;103;49;48;47;56;0;47;112;105;121;103;49;48;47;57;0;47;112;105;121;103;49;49;47;49;0;47;
   112;105;121;103;49;49;47;49;48;0;47;112;105;121;103;49;49;47;49;49;0;47;112;105;121;103;49;49;47;50;0;47;
   112;105;121;103;49;49;47;51;0;47;112;105;121;103;49;49;47;52;0;47;112;105;121;103;49;49;47;53;0;47;112;
   105;121;103;49;49;47;54;0;47;112;105;121;103;49;49;47;55;0;47;112;105;121;103;49;49;47;56;0;47;112;105;
   121;103;49;49;47;57;0;47;112;105;121;103;51;47;49;0;47;112;105;121;103;51;47;50;0;47;112;105;121;103;51;
   47;51;0;47;112;105;121;103;52;47;49;0;47;112;105;121;103;52;47;50;0;47;112;105;121;103;52;47;51;0;47;112;
   105;121;103;52;47;52;0;47;112;105;121;103;53;47;49;0;47;112;105;121;103;53;47;50;0;47;112;105;121;103;53;
   47;51;0;47;112;105;121;103;53;47;52;0;47;112;105;121;103;53;47;53;0;47;112;105;121;103;54;47;49;0;47;112;
   105;121;103;54;47;50;0;47;112;105;121;103;54;47;51;0;47;112;105;121;103;54;47;52;0;47;112;105;121;103;54;
   47;53;0;47;112;105;121;103;54;47;54;0;47;112;105;121;103;55;47;49;0;47;112;105;121;103;55;47;50;0;47;112;
   105;121;103;55;47;51;0;47;112;105;121;103;55;47;52;0;47;112;105;121;103;55;47;53;0;47;112;105;121;103;55;
   47;54;0;47;112;105;121;103;55;47;55;0;47;112;105;121;103;56;47;49;0;47;112;105;121;103;56;47;50;0;47;112;
   105;121;103;56;47;51;0;47;112;105;121;103;56;47;52;0;47;112;105;121;103;56;47;53;0;47;112;105;121;103;56;
   47;54;0;47;112;105;121;103;56;47;55;0;47;112;105;121;103;56;47;56;0;47;112;105;121;103;57;47;49;0;47;112;
   105;121;103;57;47;50;0;47;112;105;121;103;57;47;51;0;47;112;105;121;103;57;47;52;0;47;112;105;121;103;57;
   47;53;0;47;112;105;121;103;57;47;54;0;47;112;105;121;103;57;47;55;0;47;112;105;121;103;57;47;56;0;47;112;
   105;121;103;57;47;57;0;47;112;114;103;110;49;48;47;49;0;47;112;114;103;110;49;48;47;49;48;0;47;112;114;
   103;110;49;48;47;50;0;47;112;114;103;110;49;48;47;51;0;47;112;114;103;110;49;48;47;52;0;47;112;114;103;
   110;49;48;47;53;0;47;112;114;103;110;49;48;47;54;0;47;112;114;103;110;49;48;47;55;0;47;112;114;103;110;
   49;48;47;56;0;47;112;114;103;110;49;48;47;57;0;47;112;114;103;110;49;49;47;49;0;47;112;114;103;110;49;49;
   47;49;48;0;47;112;114;103;110;49;49;47;49;49;0;47;112;114;103;110;49;49;47;50;0;47;112;114;103;110;49;49;
   47;51;0;47;112;114;103;110;49;49;47;52;0;47;112;114;103;110;49;49;47;53;0;47;112;114;103;110;49;49;47;54;
   0;47;112;114;103;110;49;49;47;55;0;47;112;114;103;110;49;49;47;56;0;47;112;114;103;110;49;49;47;57;0;47;
   112;114;103;110;51;47;49;0;47;112;114;103;110;51;47;50;0;47;112;114;103;110;51;47;51;0;47;112;114;103;
   110;52;47;49;0;47;112;114;103;110;52;47;50;0;47;112;114;103;110;52;47;51;0;47;112;114;103;110;52;47;52;0;
   47;112;114;103;110;53;47;49;0;47;112;114;103;110;53;47;50;0;47;112;114;103;110;53;47;51;0;47;112;114;103;
   110;53;47;52;0;47;112;114;103;110;53;47;53;0;47;112;114;103;110;54;47;49;0;47;112;114;103;110;54;47;50;0;
   47;112;114;103;110;54;47;51;0;47;112;114;103;110;54;47;52;0;47;112;114;103;110;54;47;53;0;47;112;114;103;
   110;54;47;54;0;47;112;114;103;110;55;47;49;0;47;112;114;103;110;55;47;50;0;47;112;114;103;110;55;47;51;0;
   47;112;114;103;110;55;47;52;0;47;112;114;103;110;55;47;53;0;47;112;114;103;110;55;47;54;0;47;112;114;103;
   110;55;47;55;0;47;112;114;103;110;56;47;49;0;47;112;114;103;110;56;47;50;0;47;112;114;103;110;56;47;51;0;
   47;112;114;103;110;56;47;52;0;47;112;114;103;110;56;47;53;0;47;112;114;103;110;56;47;54;0;47;112;114;103;
   110;56;47;55;0;47;112;114;103;110;56;47;56;0;47;112;114;103;110;57;47;49;0;47;112;114;103;110;57;47;50;0;
   47;112;114;103;110;57;47;51;0;47;112;114;103;110;57;47;52;0;47;112;114;103;110;57;47;53;0;47;112;114;103;
   110;57;47;54;0;47;112;114;103;110;57;47;55;0;47;112;114;103;110;57;47;56;0;47;112;114;103;110;57;47;57;0;
   47;112;117;98;117;51;47;49;0;47;112;117;98;117;51;47;50;0;47;112;117;98;117;51;47;51;0;47;112;117;98;117;
   52;47;49;0;47;112;117;98;117;52;47;50;0;47;112;117;98;117;52;47;51;0;47;112;117;98;117;52;47;52;0;47;112;
   117;98;117;53;47;49;0;47;112;117;98;117;53;47;50;0;47;112;117;98;117;53;47;51;0;47;112;117;98;117;53;47;
   52;0;47;112;117;98;117;53;47;53;0;47;112;117;98;117;54;47;49;0;47;112;117;98;117;54;47;50;0;47;112;117;
   98;117;54;47;51;0;47;112;117;98;117;54;47;52;0;47;112;117;98;117;54;47;53;0;47;112;117;98;117;54;47;54;0;
   47;112;117;98;117;55;47;49;0;47;112;117;98;117;55;47;50;0;47;112;117;98;117;55;47;51;0;47;112;117;98;117;
   55;47;52;0;47;112;117;98;117;55;47;53;0;47;112;117;98;117;55;47;54;0;47;112;117;98;117;55;47;55;0;47;112;
   117;98;117;56;47;49;0;47;112;117;98;117;56;47;50;0;47;112;117;98;117;56;47;51;0;47;112;117;98;117;56;47;
   52;0;47;112;117;98;117;56;47;53;0;47;112;117;98;117;56;47;54;0;47;112;117;98;117;56;47;55;0;47;112;117;
   98;117;56;47;56;0;47;112;117;98;117;57;47;49;0;47;112;117;98;117;57;47;50;0;47;112;117;98;117;57;47;51;0;
   47;112;117;98;117;57;47;52;0;47;112;117;98;117;57;47;53;0;47;112;117;98;117;57;47;54;0;47;112;117;98;117;
   57;47;55;0;47;112;117;98;117;57;47;56;0;47;112;117;98;117;57;47;57;0;47;112;117;98;117;103;110;51;47;49;
   0;47;112;117;98;117;103;110;51;47;50;0;47;112;117;98;117;103;110;51;47;51;0;47;112;117;98;117;103;110;52;
   47;49;0;47;112;117;98;117;103;110;52;47;50;0;47;112;117;98;117;103;110;52;47;51;0;47;112;117;98;117;103;
   110;52;47;52;0;47;112;117;98;117;103;110;53;47;49;0;47;112;117;98;117;103;110;53;47;50;0;47;112;117;98;
   117;103;110;53;47;51;0;47;112;117;98;117;103;110;53;47;52;0;47;112;117;98;117;103;110;53;47;53;0;47;112;
   117;98;117;103;110;54;47;49;0;47;112;117;98;117;103;110;54;47;50;0;47;112;117;98;117;103;110;54;47;51;0;
   47;112;117;98;117;103;110;54;47;52;0;47;112;117;98;117;103;110;54;47;53;0;47;112;117;98;117;103;110;54;
   47;54;0;47;112;117;98;117;103;110;55;47;49;0;47;112;117;98;117;103;110;55;47;50;0;47;112;117;98;117;103;
   110;55;47;51;0;47;112;117;98;117;103;110;55;47;52;0;47;112;117;98;117;103;110;55;47;53;0;47;112;117;98;
   117;103;110;55;47;54;0;47;112;117;98;117;103;110;55;47;55;0;47;112;117;98;117;103;110;56;47;49;0;47;112;
   117;98;117;103;110;56;47;50;0;47;112;117;98;117;103;110;56;47;51;0;47;112;117;98;117;103;110;56;47;52;0;
   47;112;117;98;117;103;110;56;47;53;0;47;112;117;98;117;103;110;56;47;54;0;47;112;117;98;117;103;110;56;
   47;55;0;47;112;117;98;117;103;110;56;47;56;0;47;112;117;98;117;103;110;57;47;49;0;47;112;117;98;117;103;
   110;57;47;50;0;47;112;117;98;117;103;110;57;47;51;0;47;112;117;98;117;103;110;57;47;52;0;47;112;117;98;
   117;103;110;57;47;53;0;47;112;117;98;117;103;110;57;47;54;0;47;112;117;98;117;103;110;57;47;55;0;47;112;
   117;98;117;103;110;57;47;56;0;47;112;117;98;117;103;110;57;47;57;0;47;112;117;111;114;49;48;47;49;0;47;
   112;117;111;114;49;48;47;49;48;0;47;112;117;111;114;49;48;47;50;0;47;112;117;111;114;49;48;47;51;0;47;
   112;117;111;114;49;48;47;52;0;47;112;117;111;114;49;48;47;53;0;47;112;117;111;114;49;48;47;54;0;47;112;
   117;111;114;49;48;47;55;0;47;112;117;111;114;49;48;47;56;0;47;112;117;111;114;49;48;47;57;0;47;112;117;
   111;114;49;49;47;49;0;47;112;117;111;114;49;49;47;49;48;0;47;112;117;111;114;49;49;47;49;49;0;47;112;117;
   111;114;49;49;47;50;0;47;112;117;111;114;49;49;47;51;0;47;112;117;111;114;49;49;47;52;0;47;112;117;111;
   114;49;49;47;53;0;47;112;117;111;114;49;49;47;54;0;47;112;117;111;114;49;49;47;55;0;47;112;117;111;114;
   49;49;47;56;0;47;112;117;111;114;49;49;47;57;0;47;112;117;111;114;51;47;49;0;47;112;117;111;114;51;47;50;
   0;47;112;117;111;114;51;47;51;0;47;112;117;111;114;52;47;49;0;47;112;117;111;114;52;47;50;0;47;112;117;
   111;114;52;47;51;0;47;112;117;111;114;52;47;52;0;47;112;117;111;114;53;47;49;0;47;112;117;111;114;53;47;
   50;0;47;112;117;111;114;53;47;51;0;47;112;117;111;114;53;47;52;0;47;112;117;111;114;53;47;53;0;47;112;
   117;111;114;54;47;49;0;47;112;117;111;114;54;47;50;0;47;112;117;111;114;54;47;51;0;47;112;117;111;114;54;
   47;52;0;47;112;117;111;114;54;47;53;0;47;112;117;111;114;54;47;54;0;47;112;117;111;114;55;47;49;0;47;112;
   117;111;114;55;47;50;0;47;112;117;111;114;55;47;51;0;47;112;117;111;114;55;47;52;0;47;112;117;111;114;55;
   47;53;0;47;112;117;111;114;55;47;54;0;47;112;117;111;114;55;47;55;0;47;112;117;111;114;56;47;49;0;47;112;
   117;111;114;56;47;50;0;47;112;117;111;114;56;47;51;0;47;112;117;111;114;56;47;52;0;47;112;117;111;114;56;
   47;53;0;47;112;117;111;114;56;47;54;0;47;112;117;111;114;56;47;55;0;47;112;117;111;114;56;47;56;0;47;112;
   117;111;114;57;47;49;0;47;112;117;111;114;57;47;50;0;47;112;117;111;114;57;47;51;0;47;112;117;111;114;57;
   47;52;0;47;112;117;111;114;57;47;53;0;47;112;117;111;114;57;47;54;0;47;112;117;111;114;57;47;55;0;47;112;
   117;111;114;57;47;56;0;47;112;117;111;114;57;47;57;0;47;112;117;114;100;51;47;49;0;47;112;117;114;100;51;
   47;50;0;47;112;117;114;100;51;47;51;0;47;112;117;114;100;52;47;49;0;47;112;117;114;100;52;47;50;0;47;112;
   117;114;100;52;47;51;0;47;112;117;114;100;52;47;52;0;47;112;117;114;100;53;47;49;0;47;112;117;114;100;53;
   47;50;0;47;112;117;114;100;53;47;51;0;47;112;117;114;100;53;47;52;0;47;112;117;114;100;53;47;53;0;47;112;
   117;114;100;54;47;49;0;47;112;117;114;100;54;47;50;0;47;112;117;114;100;54;47;51;0;47;112;117;114;100;54;
   47;52;0;47;112;117;114;100;54;47;53;0;47;112;117;114;100;54;47;54;0;47;112;117;114;100;55;47;49;0;47;112;
   117;114;100;55;47;50;0;47;112;117;114;100;55;47;51;0;47;112;117;114;100;55;47;52;0;47;112;117;114;100;55;
   47;53;0;47;112;117;114;100;55;47;54;0;47;112;117;114;100;55;47;55;0;47;112;117;114;100;56;47;49;0;47;112;
   117;114;100;56;47;50;0;47;112;117;114;100;56;47;51;0;47;112;117;114;100;56;47;52;0;47;112;117;114;100;56;
   47;53;0;47;112;117;114;100;56;47;54;0;47;112;117;114;100;56;47;55;0;47;112;117;114;100;56;47;56;0;47;112;
   117;114;100;57;47;49;0;47;112;117;114;100;57;47;50;0;47;112;117;114;100;57;47;51;0;47;112;117;114;100;57;
   47;52;0;47;112;117;114;100;57;47;53;0;47;112;117;114;100;57;47;54;0;47;112;117;114;100;57;47;55;0;47;112;
   117;114;100;57;47;56;0;47;112;117;114;100;57;47;57;0;47;112;117;114;112;108;101;115;51;47;49;0;47;112;
   117;114;112;108;101;115;51;47;50;0;47;112;117;114;112;108;101;115;51;47;51;0;47;112;117;114;112;108;101;
   115;52;47;49;0;47;112;117;114;112;108;101;115;52;47;50;0;47;112;117;114;112;108;101;115;52;47;51;0;47;
   112;117;114;112;108;101;115;52;47;52;0;47;112;117;114;112;108;101;115;53;47;49;0;47;112;117;114;112;108;
   101;115;53;47;50;0;47;112;117;114;112;108;101;115;53;47;51;0;47;112;117;114;112;108;101;115;53;47;52;0;
   47;112;117;114;112;108;101;115;53;47;53;0;47;112;117;114;112;108;101;115;54;47;49;0;47;112;117;114;112;
   108;101;115;54;47;50;0;47;112;117;114;112;108;101;115;54;47;51;0;47;112;117;114;112;108;101;115;54;47;52;
   0;47;112;117;114;112;108;101;115;54;47;53;0;47;112;117;114;112;108;101;115;54;47;54;0;47;112;117;114;112;
   108;101;115;55;47;49;0;47;112;117;114;112;108;101;115;55;47;50;0;47;112;117;114;112;108;101;115;55;47;51;
   0;47;112;117;114;112;108;101;115;55;47;52;0;47;112;117;114;112;108;101;115;55;47;53;0;47;112;117;114;112;
   108;101;115;55;47;54;0;47;112;117;114;112;108;101;115;55;47;55;0;47;112;117;114;112;108;101;115;56;47;49;
   0;47;112;117;114;112;108;101;115;56;47;50;0;47;112;117;114;112;108;101;115;56;47;51;0;47;112;117;114;112;
   108;101;115;56;47;52;0;47;112;117;114;112;108;101;115;56;47;53;0;47;112;117;114;112;108;101;115;56;47;54;
   0;47;112;117;114;112;108;101;115;56;47;55;0;47;112;117;114;112;108;101;115;56;47;56;0;47;112;117;114;112;
   108;101;115;57;47;49;0;47;112;117;114;112;108;101;115;57;47;50;0;47;112;117;114;112;108;101;115;57;47;51;
   0;47;112;117;114;112;108;101;115;57;47;52;0;47;112;117;114;112;108;101;115;57;47;53;0;47;112;117;114;112;
   108;101;115;57;47;54;0;47;112;117;114;112;108;101;115;57;47;55;0;47;112;117;114;112;108;101;115;57;47;56;
   0;47;112;117;114;112;108;101;115;57;47;57;0;47;114;100;98;117;49;48;47;49;0;47;114;100;98;117;49;48;47;
   49;48;0;47;114;100;98;117;49;48;47;50;0;47;114;100;98;117;49;48;47;51;0;47;114;100;98;117;49;48;47;52;0;
   47;114;100;98;117;49;48;47;53;0;47;114;100;98;117;49;48;47;54;0;47;114;100;98;117;49;48;47;55;0;47;114;
   100;98;117;49;48;47;56;0;47;114;100;98;117;49;48;47;57;0;47;114;100;98;117;49;49;47;49;0;47;114;100;98;
   117;49;49;47;49;48;0;47;114;100;98;117;49;49;47;49;49;0;47;114;100;98;117;49;49;47;50;0;47;114;100;98;
   117;49;49;47;51;0;47;114;100;98;117;49;49;47;52;0;47;114;100;98;117;49;49;47;53;0;47;114;100;98;117;49;
   49;47;54;0;47;114;100;98;117;49;49;47;55;0;47;114;100;98;117;49;49;47;56;0;47;114;100;98;117;49;49;47;57;
   0;47;114;100;98;117;51;47;49;0;47;114;100;98;117;51;47;50;0;47;114;100;98;117;51;47;51;0;47;114;100;98;
   117;52;47;49;0;47;114;100;98;117;52;47;50;0;47;114;100;98;117;52;47;51;0;47;114;100;98;117;52;47;52;0;47;
   114;100;98;117;53;47;49;0;47;114;100;98;117;53;47;50;0;47;114;100;98;117;53;47;51;0;47;114;100;98;117;53;
   47;52;0;47;114;100;98;117;53;47;53;0;47;114;100;98;117;54;47;49;0;47;114;100;98;117;54;47;50;0;47;114;
   100;98;117;54;47;51;0;47;114;100;98;117;54;47;52;0;47;114;100;98;117;54;47;53;0;47;114;100;98;117;54;47;
   54;0;47;114;100;98;117;55;47;49;0;47;114;100;98;117;55;47;50;0;47;114;100;98;117;55;47;51;0;47;114;100;
   98;117;55;47;52;0;47;114;100;98;117;55;47;53;0;47;114;100;98;117;55;47;54;0;47;114;100;98;117;55;47;55;0;
   47;114;100;98;117;56;47;49;0;47;114;100;98;117;56;47;50;0;47;114;100;98;117;56;47;51;0;47;114;100;98;117;
   56;47;52;0;47;114;100;98;117;56;47;53;0;47;114;100;98;117;56;47;54;0;47;114;100;98;117;56;47;55;0;47;114;
   100;98;117;56;47;56;0;47;114;100;98;117;57;47;49;0;47;114;100;98;117;57;47;50;0;47;114;100;98;117;57;47;
   51;0;47;114;100;98;117;57;47;52;0;47;114;100;98;117;57;47;53;0;47;114;100;98;117;57;47;54;0;47;114;100;
   98;117;57;47;55;0;47;114;100;98;117;57;47;56;0;47;114;100;98;117;57;47;57;0;47;114;100;103;121;49;48;47;
   49;0;47;114;100;103;121;49;48;47;49;48;0;47;114;100;103;121;49;48;47;50;0;47;114;100;103;121;49;48;47;51;
   0;47;114;100;103;121;49;48;47;52;0;47;114;100;103;121;49;48;47;53;0;47;114;100;103;121;49;48;47;54;0;47;
   114;100;103;121;49;48;47;55;0;47;114;100;103;121;49;48;47;56;0;47;114;100;103;121;49;48;47;57;0;47;114;
   100;103;121;49;49;47;49;0;47;114;100;103;121;49;49;47;49;48;0;47;114;100;103;121;49;49;47;49;49;0;47;114;
   100;103;121;49;49;47;50;0;47;114;100;103;121;49;49;47;51;0;47;114;100;103;121;49;49;47;52;0;47;114;100;
   103;121;49;49;47;53;0;47;114;100;103;121;49;49;47;54;0;47;114;100;103;121;49;49;47;55;0;47;114;100;103;
   121;49;49;47;56;0;47;114;100;103;121;49;49;47;57;0;47;114;100;103;121;51;47;49;0;47;114;100;103;121;51;
   47;50;0;47;114;100;103;121;51;47;51;0;47;114;100;103;121;52;47;49;0;47;114;100;103;121;52;47;50;0;47;114;
   100;103;121;52;47;51;0;47;114;100;103;121;52;47;52;0;47;114;100;103;121;53;47;49;0;47;114;100;103;121;53;
   47;50;0;47;114;100;103;121;53;47;51;0;47;114;100;103;121;53;47;52;0;47;114;100;103;121;53;47;53;0;47;114;
   100;103;121;54;47;49;0;47;114;100;103;121;54;47;50;0;47;114;100;103;121;54;47;51;0;47;114;100;103;121;54;
   47;52;0;47;114;100;103;121;54;47;53;0;47;114;100;103;121;54;47;54;0;47;114;100;103;121;55;47;49;0;47;114;
   100;103;121;55;47;50;0;47;114;100;103;121;55;47;51;0;47;114;100;103;121;55;47;52;0;47;114;100;103;121;55;
   47;53;0;47;114;100;103;121;55;47;54;0;47;114;100;103;121;55;47;55;0;47;114;100;103;121;56;47;49;0;47;114;
   100;103;121;56;47;50;0;47;114;100;103;121;56;47;51;0;47;114;100;103;121;56;47;52;0;47;114;100;103;121;56;
   47;53;0;47;114;100;103;121;56;47;54;0;47;114;100;103;121;56;47;55;0;47;114;100;103;121;56;47;56;0;47;114;
   100;103;121;57;47;49;0;47;114;100;103;121;57;47;50;0;47;114;100;103;121;57;47;51;0;47;114;100;103;121;57;
   47;52;0;47;114;100;103;121;57;47;53;0;47;114;100;103;121;57;47;54;0;47;114;100;103;121;57;47;55;0;47;114;
   100;103;121;57;47;56;0;47;114;100;103;121;57;47;57;0;47;114;100;112;117;51;47;49;0;47;114;100;112;117;51;
   47;50;0;47;114;100;112;117;51;47;51;0;47;114;100;112;117;52;47;49;0;47;114;100;112;117;52;47;50;0;47;114;
   100;112;117;52;47;51;0;47;114;100;112;117;52;47;52;0;47;114;100;112;117;53;47;49;0;47;114;100;112;117;53;
   47;50;0;47;114;100;112;117;53;47;51;0;47;114;100;112;117;53;47;52;0;47;114;100;112;117;53;47;53;0;47;114;
   100;112;117;54;47;49;0;47;114;100;112;117;54;47;50;0;47;114;100;112;117;54;47;51;0;47;114;100;112;117;54;
   47;52;0;47;114;100;112].

(** [n.q+146418]: 10239 bytes. *)
Definition segment_146418 : list Z :=
  [117;54;47;53;0;47;114;100;112;117;54;47;54;0;47;114;100;112;117;55;47;49;0;47;114;100;112;117;55;47;50;0;
   47;114;100;112;117;55;47;51;0;47;114;100;112;117;55;47;52;0;47;114;100;112;117;55;47;53;0;47;114;100;112;
   117;55;47;54;0;47;114;100;112;117;55;47;55;0;47;114;100;112;117;56;47;49;0;47;114;100;112;117;56;47;50;0;
   47;114;100;112;117;56;47;51;0;47;114;100;112;117;56;47;52;0;47;114;100;112;117;56;47;53;0;47;114;100;112;
   117;56;47;54;0;47;114;100;112;117;56;47;55;0;47;114;100;112;117;56;47;56;0;47;114;100;112;117;57;47;49;0;
   47;114;100;112;117;57;47;50;0;47;114;100;112;117;57;47;51;0;47;114;100;112;117;57;47;52;0;47;114;100;112;
   117;57;47;53;0;47;114;100;112;117;57;47;54;0;47;114;100;112;117;57;47;55;0;47;114;100;112;117;57;47;56;0;
   47;114;100;112;117;57;47;57;0;47;114;100;121;108;98;117;49;48;47;49;0;47;114;100;121;108;98;117;49;48;47;
   49;48;0;47;114;100;121;108;98;117;49;48;47;50;0;47;114;100;121;108;98;117;49;48;47;51;0;47;114;100;121;
   108;98;117;49;48;47;52;0;47;114;100;121;108;98;117;49;48;47;53;0;47;114;100;121;108;98;117;49;48;47;54;0;
   47;114;100;121;108;98;117;49;48;47;55;0;47;114;100;121;108;98;117;49;48;47;56;0;47;114;100;121;108;98;
   117;49;48;47;57;0;47;114;100;121;108;98;117;49;49;47;49;0;47;114;100;121;108;98;117;49;49;47;49;48;0;47;
   114;100;121;108;98;117;49;49;47;49;49;0;47;114;100;121;108;98;117;49;49;47;50;0;47;114;100;121;108;98;
   117;49;49;47;51;0;47;114;100;121;108;98;117;49;49;47;52;0;47;114;100;121;108;98;117;49;49;47;53;0;47;114;
   100;121;108;98;117;49;49;47;54;0;47;114;100;121;108;98;117;49;49;47;55;0;47;114;100;121;108;98;117;49;49;
   47;56;0;47;114;100;121;108;98;117;49;49;47;57;0;47;114;100;121;108;98;117;51;47;49;0;47;114;100;121;108;
   98;117;51;47;50;0;47;114;100;121;108;98;117;51;47;51;0;47;114;100;121;108;98;117;52;47;49;0;47;114;100;
   121;108;98;117;52;47;50;0;47;114;100;121;108;98;117;52;47;51;0;47;114;100;121;108;98;117;52;47;52;0;47;
   114;100;121;108;98;117;53;47;49;0;47;114;100;121;108;98;117;53;47;50;0;47;114;100;121;108;98;117;53;47;
   51;0;47;114;100;121;108;98;117;53;47;52;0;47;114;100;121;108;98;117;53;47;53;0;47;114;100;121;108;98;117;
   54;47;49;0;47;114;100;121;108;98;117;54;47;50;0;47;114;100;121;108;98;117;54;47;51;0;47;114;100;121;108;
   98;117;54;47;52;0;47;114;100;121;108;98;117;54;47;53;0;47;114;100;121;108;98;117;54;47;54;0;47;114;100;
   121;108;98;117;55;47;49;0;47;114;100;121;108;98;117;55;47;50;0;47;114;100;121;108;98;117;55;47;51;0;47;
   114;100;121;108;98;117;55;47;52;0;47;114;100;121;108;98;117;55;47;53;0;47;114;100;121;108;98;117;55;47;
   54;0;47;114;100;121;108;98;117;55;47;55;0;47;114;100;121;108;98;117;56;47;49;0;47;114;100;121;108;98;117;
   56;47;50;0;47;114;100;121;108;98;117;56;47;51;0;47;114;100;121;108;98;117;56;47;52;0;47;114;100;121;108;
   98;117;56;47;53;0;47;114;100;121;108;98;117;56;47;54;0;47;114;100;121;108;98;117;56;47;55;0;47;114;100;
   121;108;98;117;56;47;56;0;47;114;100;121;108;98;117;57;47;49;0;47;114;100;121;108;98;117;57;47;50;0;47;
   114;100;121;108;98;117;57;47;51;0;47;114;100;121;108;98;117;57;47;52;0;47;114;100;121;108;98;117;57;47;
   53;0;47;114;100;121;108;98;117;57;47;54;0;47;114;100;121;108;98;117;57;47;55;0;47;114;100;121;108;98;117;
   57;47;56;0;47;114;100;121;108;98;117;57;47;57;0;47;114;100;121;108;103;110;49;48;47;49;0;47;114;100;121;
   108;103;110;49;48;47;49;48;0;47;114;100;121;108;103;110;49;48;47;50;0;47;114;100;121;108;103;110;49;48;
   47;51;0;47;114;100;121;108;103;110;49;48;47;52;0;47;114;100;121;108;103;110;49;48;47;53;0;47;114;100;121;
   108;103;110;49;48;47;54;0;47;114;100;121;108;103;110;49;48;47;55;0;47;114;100;121;108;103;110;49;48;47;
   56;0;47;114;100;121;108;103;110;49;48;47;57;0;47;114;100;121;108;103;110;49;49;47;49;0;47;114;100;121;
   108;103;110;49;49;47;49;48;0;47;114;100;121;108;103;110;49;49;47;49;49;0;47;114;100;121;108;103;110;49;
   49;47;50;0;47;114;100;121;108;103;110;49;49;47;51;0;47;114;100;121;108;103;110;49;49;47;52;0;47;114;100;
   121;108;103;110;49;49;47;53;0;47;114;100;121;108;103;110;49;49;47;54;0;47;114;100;121;108;103;110;49;49;
   47;55;0;47;114;100;121;108;103;110;49;49;47;56;0;47;114;100;121;108;103;110;49;49;47;57;0;47;114;100;121;
   108;103;110;51;47;49;0;47;114;100;121;108;103;110;51;47;50;0;47;114;100;121;108;103;110;51;47;51;0;47;
   114;100;121;108;103;110;52;47;49;0;47;114;100;121;108;103;110;52;47;50;0;47;114;100;121;108;103;110;52;
   47;51;0;47;114;100;121;108;103;110;52;47;52;0;47;114;100;121;108;103;110;53;47;49;0;47;114;100;121;108;
   103;110;53;47;50;0;47;114;100;121;108;103;110;53;47;51;0;47;114;100;121;108;103;110;53;47;52;0;47;114;
   100;121;108;103;110;53;47;53;0;47;114;100;121;108;103;110;54;47;49;0;47;114;100;121;108;103;110;54;47;50;
   0;47;114;100;121;108;103;110;54;47;51;0;47;114;100;121;108;103;110;54;47;52;0;47;114;100;121;108;103;110;
   54;47;53;0;47;114;100;121;108;103;110;54;47;54;0;47;114;100;121;108;103;110;55;47;49;0;47;114;100;121;
   108;103;110;55;47;50;0;47;114;100;121;108;103;110;55;47;51;0;47;114;100;121;108;103;110;55;47;52;0;47;
   114;100;121;108;103;110;55;47;53;0;47;114;100;121;108;103;110;55;47;54;0;47;114;100;121;108;103;110;55;
   47;55;0;47;114;100;121;108;103;110;56;47;49;0;47;114;100;121;108;103;110;56;47;50;0;47;114;100;121;108;
   103;110;56;47;51;0;47;114;100;121;108;103;110;56;47;52;0;47;114;100;121;108;103;110;56;47;53;0;47;114;
   100;121;108;103;110;56;47;54;0;47;114;100;121;108;103;110;56;47;55;0;47;114;100;121;108;103;110;56;47;56;
   0;47;114;100;121;108;103;110;57;47;49;0;47;114;100;121;108;103;110;57;47;50;0;47;114;100;121;108;103;110;
   57;47;51;0;47;114;100;121;108;103;110;57;47;52;0;47;114;100;121;108;103;110;57;47;53;0;47;114;100;121;
   108;103;110;57;47;54;0;47;114;100;121;108;103;110;57;47;55;0;47;114;100;121;108;103;110;57;47;56;0;47;
   114;100;121;108;103;110;57;47;57;0;47;114;101;100;115;51;47;49;0;47;114;101;100;115;51;47;50;0;47;114;
   101;100;115;51;47;51;0;47;114;101;100;115;52;47;49;0;47;114;101;100;115;52;47;50;0;47;114;101;100;115;52;
   47;51;0;47;114;101;100;115;52;47;52;0;47;114;101;100;115;53;47;49;0;47;114;101;100;115;53;47;50;0;47;114;
   101;100;115;53;47;51;0;47;114;101;100;115;53;47;52;0;47;114;101;100;115;53;47;53;0;47;114;101;100;115;54;
   47;49;0;47;114;101;100;115;54;47;50;0;47;114;101;100;115;54;47;51;0;47;114;101;100;115;54;47;52;0;47;114;
   101;100;115;54;47;53;0;47;114;101;100;115;54;47;54;0;47;114;101;100;115;55;47;49;0;47;114;101;100;115;55;
   47;50;0;47;114;101;100;115;55;47;51;0;47;114;101;100;115;55;47;52;0;47;114;101;100;115;55;47;53;0;47;114;
   101;100;115;55;47;54;0;47;114;101;100;115;55;47;55;0;47;114;101;100;115;56;47;49;0;47;114;101;100;115;56;
   47;50;0;47;114;101;100;115;56;47;51;0;47;114;101;100;115;56;47;52;0;47;114;101;100;115;56;47;53;0;47;114;
   101;100;115;56;47;54;0;47;114;101;100;115;56;47;55;0;47;114;101;100;115;56;47;56;0;47;114;101;100;115;57;
   47;49;0;47;114;101;100;115;57;47;50;0;47;114;101;100;115;57;47;51;0;47;114;101;100;115;57;47;52;0;47;114;
   101;100;115;57;47;53;0;47;114;101;100;115;57;47;54;0;47;114;101;100;115;57;47;55;0;47;114;101;100;115;57;
   47;56;0;47;114;101;100;115;57;47;57;0;47;115;101;116;49;51;47;49;0;47;115;101;116;49;51;47;50;0;47;115;
   101;116;49;51;47;51;0;47;115;101;116;49;52;47;49;0;47;115;101;116;49;52;47;50;0;47;115;101;116;49;52;47;
   51;0;47;115;101;116;49;52;47;52;0;47;115;101;116;49;53;47;49;0;47;115;101;116;49;53;47;50;0;47;115;101;
   116;49;53;47;51;0;47;115;101;116;49;53;47;52;0;47;115;101;116;49;53;47;53;0;47;115;101;116;49;54;47;49;0;
   47;115;101;116;49;54;47;50;0;47;115;101;116;49;54;47;51;0;47;115;101;116;49;54;47;52;0;47;115;101;116;49;
   54;47;53;0;47;115;101;116;49;54;47;54;0;47;115;101;116;49;55;47;49;0;47;115;101;116;49;55;47;50;0;47;115;
   101;116;49;55;47;51;0;47;115;101;116;49;55;47;52;0;47;115;101;116;49;55;47;53;0;47;115;101;116;49;55;47;
   54;0;47;115;101;116;49;55;47;55;0;47;115;101;116;49;56;47;49;0;47;115;101;116;49;56;47;50;0;47;115;101;
   116;49;56;47;51;0;47;115;101;116;49;56;47;52;0;47;115;101;116;49;56;47;53;0;47;115;101;116;49;56;47;54;0;
   47;115;101;116;49;56;47;55;0;47;115;101;116;49;56;47;56;0;47;115;101;116;49;57;47;49;0;47;115;101;116;49;
   57;47;50;0;47;115;101;116;49;57;47;51;0;47;115;101;116;49;57;47;52;0;47;115;101;116;49;57;47;53;0;47;115;
   101;116;49;57;47;54;0;47;115;101;116;49;57;47;55;0;47;115;101;116;49;57;47;56;0;47;115;101;116;49;57;47;
   57;0;47;115;101;116;50;51;47;49;0;47;115;101;116;50;51;47;50;0;47;115;101;116;50;51;47;51;0;47;115;101;
   116;50;52;47;49;0;47;115;101;116;50;52;47;50;0;47;115;101;116;50;52;47;51;0;47;115;101;116;50;52;47;52;0;
   47;115;101;116;50;53;47;49;0;47;115;101;116;50;53;47;50;0;47;115;101;116;50;53;47;51;0;47;115;101;116;50;
   53;47;52;0;47;115;101;116;50;53;47;53;0;47;115;101;116;50;54;47;49;0;47;115;101;116;50;54;47;50;0;47;115;
   101;116;50;54;47;51;0;47;115;101;116;50;54;47;52;0;47;115;101;116;50;54;47;53;0;47;115;101;116;50;54;47;
   54;0;47;115;101;116;50;55;47;49;0;47;115;101;116;50;55;47;50;0;47;115;101;116;50;55;47;51;0;47;115;101;
   116;50;55;47;52;0;47;115;101;116;50;55;47;53;0;47;115;101;116;50;55;47;54;0;47;115;101;116;50;55;47;55;0;
   47;115;101;116;50;56;47;49;0;47;115;101;116;50;56;47;50;0;47;115;101;116;50;56;47;51;0;47;115;101;116;50;
   56;47;52;0;47;115;101;116;50;56;47;53;0;47;115;101;116;50;56;47;54;0;47;115;101;116;50;56;47;55;0;47;115;
   101;116;50;56;47;56;0;47;115;101;116;51;49;48;47;49;0;47;115;101;116;51;49;48;47;49;48;0;47;115;101;116;
   51;49;48;47;50;0;47;115;101;116;51;49;48;47;51;0;47;115;101;116;51;49;48;47;52;0;47;115;101;116;51;49;48;
   47;53;0;47;115;101;116;51;49;48;47;54;0;47;115;101;116;51;49;48;47;55;0;47;115;101;116;51;49;48;47;56;0;
   47;115;101;116;51;49;48;47;57;0;47;115;101;116;51;49;49;47;49;0;47;115;101;116;51;49;49;47;49;48;0;47;
   115;101;116;51;49;49;47;49;49;0;47;115;101;116;51;49;49;47;50;0;47;115;101;116;51;49;49;47;51;0;47;115;
   101;116;51;49;49;47;52;0;47;115;101;116;51;49;49;47;53;0;47;115;101;116;51;49;49;47;54;0;47;115;101;116;
   51;49;49;47;55;0;47;115;101;116;51;49;49;47;56;0;47;115;101;116;51;49;49;47;57;0;47;115;101;116;51;49;50;
   47;49;0;47;115;101;116;51;49;50;47;49;48;0;47;115;101;116;51;49;50;47;49;49;0;47;115;101;116;51;49;50;47;
   49;50;0;47;115;101;116;51;49;50;47;50;0;47;115;101;116;51;49;50;47;51;0;47;115;101;116;51;49;50;47;52;0;
   47;115;101;116;51;49;50;47;53;0;47;115;101;116;51;49;50;47;54;0;47;115;101;116;51;49;50;47;55;0;47;115;
   101;116;51;49;50;47;56;0;47;115;101;116;51;49;50;47;57;0;47;115;101;116;51;51;47;49;0;47;115;101;116;51;
   51;47;50;0;47;115;101;116;51;51;47;51;0;47;115;101;116;51;52;47;49;0;47;115;101;116;51;52;47;50;0;47;115;
   101;116;51;52;47;51;0;47;115;101;116;51;52;47;52;0;47;115;101;116;51;53;47;49;0;47;115;101;116;51;53;47;
   50;0;47;115;101;116;51;53;47;51;0;47;115;101;116;51;53;47;52;0;47;115;101;116;51;53;47;53;0;47;115;101;
   116;51;54;47;49;0;47;115;101;116;51;54;47;50;0;47;115;101;116;51;54;47;51;0;47;115;101;116;51;54;47;52;0;
   47;115;101;116;51;54;47;53;0;47;115;101;116;51;54;47;54;0;47;115;101;116;51;55;47;49;0;47;115;101;116;51;
   55;47;50;0;47;115;101;116;51;55;47;51;0;47;115;101;116;51;55;47;52;0;47;115;101;116;51;55;47;53;0;47;115;
   101;116;51;55;47;54;0;47;115;101;116;51;55;47;55;0;47;115;101;116;51;56;47;49;0;47;115;101;116;51;56;47;
   50;0;47;115;101;116;51;56;47;51;0;47;115;101;116;51;56;47;52;0;47;115;101;116;51;56;47;53;0;47;115;101;
   116;51;56;47;54;0;47;115;101;116;51;56;47;55;0;47;115;101;116;51;56;47;56;0;47;115;101;116;51;57;47;49;0;
   47;115;101;116;51;57;47;50;0;47;115;101;116;51;57;47;51;0;47;115;101;116;51;57;47;52;0;47;115;101;116;51;
   57;47;53;0;47;115;101;116;51;57;47;54;0;47;115;101;116;51;57;47;55;0;47;115;101;116;51;57;47;56;0;47;115;
   101;116;51;57;47;57;0;47;115;112;101;99;116;114;97;108;49;48;47;49;0;47;115;112;101;99;116;114;97;108;49;
   48;47;49;48;0;47;115;112;101;99;116;114;97;108;49;48;47;50;0;47;115;112;101;99;116;114;97;108;49;48;47;
   51;0;47;115;112;101;99;116;114;97;108;49;48;47;52;0;47;115;112;101;99;116;114;97;108;49;48;47;53;0;47;
   115;112;101;99;116;114;97;108;49;48;47;54;0;47;115;112;101;99;116;114;97;108;49;48;47;55;0;47;115;112;
   101;99;116;114;97;108;49;48;47;56;0;47;115;112;101;99;116;114;97;108;49;48;47;57;0;47;115;112;101;99;116;
   114;97;108;49;49;47;49;0;47;115;112;101;99;116;114;97;108;49;49;47;49;48;0;47;115;112;101;99;116;114;97;
   108;49;49;47;49;49;0;47;115;112;101;99;116;114;97;108;49;49;47;50;0;47;115;112;101;99;116;114;97;108;49;
   49;47;51;0;47;115;112;101;99;116;114;97;108;49;49;47;52;0;47;115;112;101;99;116;114;97;108;49;49;47;53;0;
   47;115;112;101;99;116;114;97;108;49;49;47;54;0;47;115;112;101;99;116;114;97;108;49;49;47;55;0;47;115;112;
   101;99;116;114;97;108;49;49;47;56;0;47;115;112;101;99;116;114;97;108;49;49;47;57;0;47;115;112;101;99;116;
   114;97;108;51;47;49;0;47;115;112;101;99;116;114;97;108;51;47;50;0;47;115;112;101;99;116;114;97;108;51;47;
   51;0;47;115;112;101;99;116;114;97;108;52;47;49;0;47;115;112;101;99;116;114;97;108;52;47;50;0;47;115;112;
   101;99;116;114;97;108;52;47;51;0;47;115;112;101;99;116;114;97;108;52;47;52;0;47;115;112;101;99;116;114;
   97;108;53;47;49;0;47;115;112;101;99;116;114;97;108;53;47;50;0;47;115;112;101;99;116;114;97;108;53;47;51;
   0;47;115;112;101;99;116;114;97;108;53;47;52;0;47;115;112;101;99;116;114;97;108;53;47;53;0;47;115;112;101;
   99;116;114;97;108;54;47;49;0;47;115;112;101;99;116;114;97;108;54;47;50;0;47;115;112;101;99;116;114;97;
   108;54;47;51;0;47;115;112;101;99;116;114;97;108;54;47;52;0;47;115;112;101;99;116;114;97;108;54;47;53;0;
   47;115;112;101;99;116;114;97;108;54;47;54;0;47;115;112;101;99;116;114;97;108;55;47;49;0;47;115;112;101;
   99;116;114;97;108;55;47;50;0;47;115;112;101;99;116;114;97;108;55;47;51;0;47;115;112;101;99;116;114;97;
   108;55;47;52;0;47;115;112;101;99;116;114;97;108;55;47;53;0;47;115;112;101;99;116;114;97;108;55;47;54;0;
   47;115;112;101;99;116;114;97;108;55;47;55;0;47;115;112;101;99;116;114;97;108;56;47;49;0;47;115;112;101;
   99;116;114;97;108;56;47;50;0;47;115;112;101;99;116;114;97;108;56;47;51;0;47;115;112;101;99;116;114;97;
   108;56;47;52;0;47;115;112;101;99;116;114;97;108;56;47;53;0;47;115;112;101;99;116;114;97;108;56;47;54;0;
   47;115;112;101;99;116;114;97;108;56;47;55;0;47;115;112;101;99;116;114;97;108;56;47;56;0;47;115;112;101;
   99;116;114;97;108;57;47;49;0;47;115;112;101;99;116;114;97;108;57;47;50;0;47;115;112;101;99;116;114;97;
   108;57;47;51;0;47;115;112;101;99;116;114;97;108;57;47;52;0;47;115;112;101;99;116;114;97;108;57;47;53;0;
   47;115;112;101;99;116;114;97;108;57;47;54;0;47;115;112;101;99;116;114;97;108;57;47;55;0;47;115;112;101;
   99;116;114;97;108;57;47;56;0;47;115;112;101;99;116;114;97;108;57;47;57;0;47;115;118;103;47;97;108;105;99;
   101;98;108;117;101;0;47;115;118;103;47;97;110;116;105;113;117;101;119;104;105;116;101;0;47;115;118;103;
   47;97;113;117;97;0;47;115;118;103;47;97;113;117;97;109;97;114;105;110;101;0;47;115;118;103;47;97;122;117;
   114;101;0;47;115;118;103;47;98;101;105;103;101;0;47;115;118;103;47;98;105;115;113;117;101;0;47;115;118;
   103;47;98;108;97;99;107;0;47;115;118;103;47;98;108;97;110;99;104;101;100;97;108;109;111;110;100;0;47;115;
   118;103;47;98;108;117;101;0;47;115;118;103;47;98;108;117;101;118;105;111;108;101;116;0;47;115;118;103;47;
   98;114;111;119;110;0;47;115;118;103;47;98;117;114;108;121;119;111;111;100;0;47;115;118;103;47;99;97;100;
   101;116;98;108;117;101;0;47;115;118;103;47;99;104;97;114;116;114;101;117;115;101;0;47;115;118;103;47;99;
   104;111;99;111;108;97;116;101;0;47;115;118;103;47;99;111;114;97;108;0;47;115;118;103;47;99;111;114;110;
   102;108;111;119;101;114;98;108;117;101;0;47;115;118;103;47;99;111;114;110;115;105;108;107;0;47;115;118;
   103;47;99;114;105;109;115;111;110;0;47;115;118;103;47;99;121;97;110;0;47;115;118;103;47;100;97;114;107;
   98;108;117;101;0;47;115;118;103;47;100;97;114;107;99;121;97;110;0;47;115;118;103;47;100;97;114;107;103;
   111;108;100;101;110;114;111;100;0;47;115;118;103;47;100;97;114;107;103;114;97;121;0;47;115;118;103;47;
   100;97;114;107;103;114;101;101;110;0;47;115;118;103;47;100;97;114;107;103;114;101;121;0;47;115;118;103;
   47;100;97;114;107;107;104;97;107;105;0;47;115;118;103;47;100;97;114;107;109;97;103;101;110;116;97;0;47;
   115;118;103;47;100;97;114;107;111;108;105;118;101;103;114;101;101;110;0;47;115;118;103;47;100;97;114;107;
   111;114;97;110;103;101;0;47;115;118;103;47;100;97;114;107;111;114;99;104;105;100;0;47;115;118;103;47;100;
   97;114;107;114;101;100;0;47;115;118;103;47;100;97;114;107;115;97;108;109;111;110;0;47;115;118;103;47;100;
   97;114;107;115;101;97;103;114;101;101;110;0;47;115;118;103;47;100;97;114;107;115;108;97;116;101;98;108;
   117;101;0;47;115;118;103;47;100;97;114;107;115;108;97;116;101;103;114;97;121;0;47;115;118;103;47;100;97;
   114;107;115;108;97;116;101;103;114;101;121;0;47;115;118;103;47;100;97;114;107;116;117;114;113;117;111;
   105;115;101;0;47;115;118;103;47;100;97;114;107;118;105;111;108;101;116;0;47;115;118;103;47;100;101;101;
   112;112;105;110;107;0;47;115;118;103;47;100;101;101;112;115;107;121;98;108;117;101;0;47;115;118;103;47;
   100;105;109;103;114;97;121;0;47;115;118;103;47;100;105;109;103;114;101;121;0;47;115;118;103;47;100;111;
   100;103;101;114;98;108;117;101;0;47;115;118;103;47;102;105;114;101;98;114;105;99;107;0;47;115;118;103;47;
   102;108;111;114;97;108;119;104;105;116;101;0;47;115;118;103;47;102;111;114;101;115;116;103;114;101;101;
   110;0;47;115;118;103;47;102;117;99;104;115;105;97;0;47;115;118;103;47;103;97;105;110;115;98;111;114;111;
   0;47;115;118;103;47;103;104;111;115;116;119;104;105;116;101;0;47;115;118;103;47;103;111;108;100;0;47;115;
   118;103;47;103;111;108;100;101;110;114;111;100;0;47;115;118;103;47;103;114;97;121;0;47;115;118;103;47;
   103;114;101;101;110;0;47;115;118;103;47;103;114;101;101;110;121;101;108;108;111;119;0;47;115;118;103;47;
   103;114;101;121;0;47;115;118;103;47;104;111;110;101;121;100;101;119;0;47;115;118;103;47;104;111;116;112;
   105;110;107;0;47;115;118;103;47;105;110;100;105;97;110;114;101;100;0;47;115;118;103;47;105;110;100;105;
   103;111;0;47;115;118;103;47;105;118;111;114;121;0;47;115;118;103;47;107;104;97;107;105;0;47;115;118;103;
   47;108;97;118;101;110;100;101;114;0;47;115;118;103;47;108;97;118;101;110;100;101;114;98;108;117;115;104;
   0;47;115;118;103;47;108;97;119;110;103;114;101;101;110;0;47;115;118;103;47;108;101;109;111;110;99;104;
   105;102;102;111;110;0;47;115;118;103;47;108;105;103;104;116;98;108;117;101;0;47;115;118;103;47;108;105;
   103;104;116;99;111;114;97;108;0;47;115;118;103;47;108;105;103;104;116;99;121;97;110;0;47;115;118;103;47;
   108;105;103;104;116;103;111;108;100;101;110;114;111;100;121;101;108;108;111;119;0;47;115;118;103;47;108;
   105;103;104;116;103;114;97;121;0;47;115;118;103;47;108;105;103;104;116;103;114;101;101;110;0;47;115;118;
   103;47;108;105;103;104;116;103;114;101;121;0;47;115;118;103;47;108;105;103;104;116;112;105;110;107;0;47;
   115;118;103;47;108;105;103;104;116;115;97;108;109;111;110;0;47;115;118;103;47;108;105;103;104;116;115;
   101;97;103;114;101;101;110;0;47;115;118;103;47;108;105;103;104;116;115;107;121;98;108;117;101;0;47;115;
   118;103;47;108;105;103;104;116;115;108;97;116;101;103;114;97;121;0;47;115;118;103;47;108;105;103;104;116;
   115;108;97;116;101;103;114;101;121;0;47;115;118;103;47;108;105;103;104;116;115;116;101;101;108;98;108;
   117;101;0;47;115;118;103;47;108;105;103;104;116;121;101;108;108;111;119;0;47;115;118;103;47;108;105;109;
   101;0;47;115;118;103;47;108;105;109;101;103;114;101;101;110;0;47;115;118;103;47;108;105;110;101;110;0;47;
   115;118;103;47;109;97;103;101;110;116;97;0;47;115;118;103;47;109;97;114;111;111;110;0;47;115;118;103;47;
   109;101;100;105;117;109;97;113;117;97;109;97;114;105;110;101;0;47;115;118;103;47;109;101;100;105;117;109;
   98;108;117;101;0;47;115;118;103;47;109;101;100;105;117;109;111;114;99;104;105;100;0;47;115;118;103;47;
   109;101;100;105;117;109;112;117;114;112;108;101;0;47;115;118;103;47;109;101;100;105;117;109;115;101;97;
   103;114;101;101;110;0;47;115;118;103;47;109;101;100;105;117;109;115;108;97;116;101;98;108;117;101;0;47;
   115;118;103;47;109;101;100;105;117;109;115;112;114;105;110;103;103;114;101;101;110;0;47;115;118;103;47;
   109;101;100;105;117;109;116;117;114;113;117;111;105;115;101;0;47;115;118;103;47;109;101;100;105;117;109;
   118;105;111;108;101;116;114;101;100;0;47;115;118;103;47;109;105;100;110;105;103;104;116;98;108;117;101;0;
   47;115;118;103;47;109;105;110;116;99;114;101;97;109;0;47;115;118;103;47;109;105;115;116;121;114;111;115;
   101;0;47;115;118;103;47;109;111;99;99;97;115;105;110;0;47;115;118;103;47;110;97;118;97;106;111;119;104;
   105;116;101;0;47;115;118;103;47;110;97;118;121;0;47;115;118;103;47;111;108;100;108;97;99;101;0;47;115;
   118;103;47;111;108;105;118;101;0;47;115;118;103;47;111;108;105;118;101;100;114;97;98;0;47;115;118;103;47;
   111;114;97;110;103;101;0;47;115;118;103;47;111;114;97;110;103;101;114;101;100;0;47;115;118;103;47;111;
   114;99;104;105;100;0;47;115;118;103;47;112;97;108;101;103;111;108;100;101;110;114;111;100;0;47;115;118;
   103;47;112;97;108;101;103;114;101;101;110;0;47;115;118;103;47;112;97;108;101;116;117;114;113;117;111;105;
   115;101;0;47;115;118;103;47;112;97;108;101;118;105;111;108;101;116;114;101;100;0;47;115;118;103;47;112;
   97;112;97;121;97;119;104;105;112;0;47;115;118;103;47;112;101;97;99;104;112;117;102;102;0;47;115;118;103;
   47;112;101;114;117;0;47;115;118;103;47;112;105;110;107;0;47;115;118;103;47;112;108;117;109;0;47;115;118;
   103;47;112;111;119;100;101;114;98;108;117;101;0;47;115;118;103;47;112;117;114;112;108;101;0;47;115;118;
   103;47;114;101;100;0;47;115;118;103;47;114;111;115;121;98;114;111;119;110;0;47;115;118;103;47;114;111;
   121;97;108;98;108;117;101;0;47;115;118;103;47;115;97;100;100;108;101;98;114;111;119;110;0;47;115;118;103;
   47;115;97;108;109;111;110;0;47;115;118;103;47;115;97;110;100;121;98;114;111;119;110;0;47;115;118;103;47;
   115;101;97;103;114;101;101;110;0;47;115;118;103;47;115;101;97;115;104;101;108;108;0;47;115;118;103;47;
   115;105;101;110;110;97;0;47;115;118;103;47;115;105;108;118;101;114;0;47;115;118;103;47;115;107;121;98;
   108;117;101;0;47;115;118;103;47;115;108;97;116;101;98;108;117;101;0;47;115;118;103;47;115;108;97;116;101;
   103;114;97;121;0;47;115;118;103;47;115;108;97;116;101;103;114;101;121;0;47;115;118;103;47;115;110;111;
   119;0;47;115;118;103;47;115;112;114;105;110;103;103;114;101;101;110;0;47;115;118;103;47;115;116;101;101;
   108;98;108;117;101;0;47;115;118;103;47;116;97;110;0;47;115;118;103;47;116;101;97;108;0;47;115;118;103;47;
   116;104;105;115;116;108;101;0;47;115;118;103;47;116;111;109;97;116;111;0;47;115;118;103;47;116;117;114;
   113;117;111;105;115;101;0;47;115;118;103;47;118;105;111;108;101;116;0;47;115;118;103;47;119;104;101;97;
   116;0;47;115;118;103;47;119;104;105;116;101;0;47;115;118;103;47;119;104;105;116;101;115;109;111;107;101;
   0;47;115;118;103;47;121;101;108;108;111;119;0;47;115;118;103;47;121;101;108;108;111;119;103;114;101;101;
   110;0;47;121;108;103;110;51;47;49;0;47;121;108;103;110;51;47;50;0;47;121;108;103;110;51;47;51;0;47;121;
   108;103;110;52;47;49;0;47;121;108;103;110;52;47;50;0;47;121;108;103;110;52;47;51;0;47;121;108;103;110;52;
   47;52;0;47;121;108;103;110;53;47;49;0;47;121;108;103;110;53;47;50;0;47;121;108;103;110;53;47;51;0;47;121;
   108;103;110;53;47;52;0;47;121;108;103;110;53;47;53;0;47;121;108;103;110;54;47;49;0;47;121;108;103;110;54;
   47;50;0;47;121;108;103;110;54;47;51;0;47;121;108;103;110;54;47;52;0;47;121;108;103;110;54;47;53;0;47;121;
   108;103;110;54;47;54;0;47;121;108;103;110;55;47;49;0;47;121;108;103;110;55;47;50;0;47;121;108;103;110;55;
   47;51;0;47;121;108;103;110;55;47;52;0;47;121;108;103;110;55;47;53;0;47;121;108;103;110;55;47;54;0;47;121;
   108;103;110;55;47;55;0;47;121;108;103;110;56;47;49;0;47;121;108;103;110;56;47;50;0;47;121;108;103;110;56;
   47;51;0;47;121;108;103;110;56;47;52;0;47;121;108;103;110;56;47;53;0;47;121;108;103;110;56;47;54;0;47;121;
   108;103;110;56;47;55;0;47;121;108;103;110;56;47;56;0;47;121;108;103;110;57;47;49;0;47;121;108;103;110;57;
   47;50;0;47;121;108;103;110;57;47;51;0;47;121;108;103;110;57;47;52;0;47;121;108;103;110;57;47;53;0;47;121;
   108;103;110;57;47;54;0;47;121;108;103;110;57;47;55;0;47;121;108;103;110;57;47;56;0;47;121;108;103;110;57;
   47;57;0;47;121;108;103;110;98;117;51;47;49;0;47;121;108;103;110;98;117;51;47;50;0;47;121;108;103;110;98;
   117;51;47;51;0;47;121;108;103;110;98;117;52;47;49;0;47;121;108;103;110;98;117;52;47;50;0;47;121;108;103;
   110;98;117;52;47;51;0;47;121;108;103;110;98;117;52;47;52;0;47;121;108;103;110;98;117;53;47;49;0;47;121;
   108;103;110;98;117;53;47;50;0;47;121;108;103;110;98;117;53;47;51;0;47;121;108;103;110;98;117;53;47;52;0;
   47;121;108;103;110;98;117;53;47;53;0;47;121;108;103;110;98;117;54;47;49;0;47;121;108;103;110;98;117;54;
   47;50;0;47;121;108;103;110;98;117;54;47;51;0;47;121;108;103;110;98;117;54;47;52;0;47;121;108;103;110;98;
   117;54;47;53;0;47;121;108;103;110;98;117;54;47;54;0;47;121;108;103;110;98;117;55;47;49;0;47;121;108;103;
   110;98;117;55;47;50;0;47;121;108;103;110;98;117;55;47;51;0;47;121;108;103;110;98;117;55;47;52;0;47;121;
   108;103;110;98;117;55;47;53;0;47;121;108;103;110;98;117;55;47;54;0;47;121;108;103;110;98;117;55;47;55;0;
   47;121;108;103;110;98;117;56;47;49;0;47;121;108;103;110;98;117;56;47;50;0;47;121;108;103;110;98;117;56;
   47;51;0;47;121;108;103;110;98;117;56;47;52;0;47;121;108;103;110;98;117;56;47;53;0;47;121;108;103;110;98;
   117;56;47;54;0;47;121;108;103;110;98;117;56;47;55;0;47;121;108;103;110;98;117;56;47;56;0;47;121;108;103;
   110;98;117;57;47;49;0;47;121;108;103;110;98;117;57;47;50;0;47;121;108;103;110;98;117;57;47;51;0;47;121;
   108;103;110;98;117;57;47;52;0;47;121;108;103;110;98;117;57;47;53;0;47;121;108;103;110;98;117;57;47;54;0;
   47;121;108;103;110;98;117;57;47;55;0;47;121;108;103;110;98;117;57;47;56;0;47;121;108;103;110;98;117;57;
   47;57;0;47;121;108;111;114;98;114;51;47;49;0;47;121;108;111;114;98;114;51;47;50;0;47;121;108;111;114;98;
   114;51;47;51;0;47;121;108;111;114;98;114;52;47;49;0;47;121;108;111;114;98;114;52;47;50;0;47;121;108;111;
   114;98;114;52;47;51;0;47;121;108;111;114;98;114;52;47;52;0;47;121;108;111;114;98;114;53;47;49;0;47;121;
   108;111;114;98;114;53;47;50;0;47;121;108;111;114;98;114;53;47;51;0;47;121;108;111;114;98;114;53;47;52;0;
   47;121;108;111;114;98;114;53;47;53;0;47;121;108;111;114;98;114;54;47;49;0;47;121;108;111;114;98;114;54;
   47;50;0;47;121;108;111;114;98;114;54;47;51;0;47;121;108;111;114;98;114;54;47;52;0;47;121;108;111;114;98;
   114;54;47;53;0;47;121;108;111;114;98;114;54;47;54;0;47;121;108;111;114;98;114;55;47;49;0;47;121;108;111;
   114;98;114;55;47;50;0;47;121;108;111;114;98;114;55;47;51;0;47;121;108;111;114;98;114;55;47;52;0;47;121;
   108;111;114;98;114;55;47;53;0;47;121;108;111;114;98;114;55;47;54;0;47;121;108;111;114;98;114;55;47;55;0;
   47;121;108;111;114;98;114;56;47;49;0;47;121;108;111;114;98;114;56;47;50;0;47;121;108;111;114;98;114;56;
   47;51;0;47;121;108;111;114;98;114;56;47;52;0;47;121;108;111;114;98;114;56;47;53;0;47;121;108;111;114;98;
   114;56;47;54;0;47;121;108;111;114;98;114;56;47;55;0;47;121;108;111;114;98;114;56;47;56;0;47;121;108;111;
   114;98;114;57;47;49;0;47;121;108;111;114;98;114;57;47;50;0;47;121;108;111;114;98;114;57;47;51;0;47;121;
   108;111;114;98;114;57;47;52;0;47;121;108;111;114;98;114;57;47;53;0;47;121;108;111;114;98;114;57;47;54;0;
   47;121;108;111;114;98;114;57;47;55;0;47;121;108;111;114;98;114;57;47;56;0;47;121;108;111;114;98;114;57;
   47;57;0;47;121;108;111;114;114;100;51;47;49;0;47;121;108;111;114;114;100;51;47;50;0;47;121;108;111;114;
   114;100;51;47;51;0;47;121;108;111;114;114;100;52;47;49;0;47;121;108;111;114;114;100;52;47;50;0;47;121;
   108;111;114;114;100;52;47;51;0;47;121;108;111;114;114;100;52;47;52;0;47;121;108;111;114;114;100;53;47;49;
   0;47;121;108;111;114;114;100;53;47;50;0;47;121;108;111;114;114;100;53;47;51;0;47;121;108;111;114;114;100;
   53;47;52;0;47;121;108;111;114;114;100;53;47;53;0;47;121;108;111;114;114;100;54;47;49;0;47;121;108;111;
   114;114;100;54;47;50;0;47;121;108;111;114;114;100;54;47;51;0;47;121;108;111;114;114;100;54;47;52;0;47;
   121;108;111;114;114;100;54;47;53;0;47;121;108;111;114;114;100;54;47;54;0;47;121;108;111;114;114;100;55;
   47;49;0;47;121;108;111;114;114;100;55;47;50;0;47;121;108;111;114;114;100;55;47;51;0;47;121;108;111;114;
   114;100;55;47;52;0;47;121;108;111;114;114;100;55;47;53;0;47;121;108;111;114;114;100;55;47;54;0;47;121;
   108;111;114;114;100;55;47;55;0;47;121;108;111;114;114;100;56;47;49;0;47;121;108;111;114;114;100;56;47;50;
   0;47;121;108;111;114;114;100;56;47;51;0;47;121;108;111;114;114;100;56;47;52;0;47;121;108;111;114;114;100;
   56;47;53;0;47;121;108;111;114;114;100;56;47;54;0;47;121;108;111;114;114;100;56;47;55;0;47;121;108;111;
   114;114;100;56;47;56;0;47;121;108;111;114;114;100;57;47;49;0;47;121;108;111;114;114;100;57;47;50;0;47;
   121;108;111;114;114;100;57;47;51;0;47;121;108;111;114;114;100;57;47;52;0;47;121;108;111;114;114;100;57;
   47;53;0;47;121;108;111;114;114;100;57;47;54;0;47;121;108;111;114;114;100;57;47;55;0;47;121;108;111;114;
   114;100;57;47;56;0;47;121;108;111;114;114;100;57;47;57;0;97;108;105;99;101;98;108;117;101;0;97;110;116;
   105;113;117;101;119;104;105;116;101;0;97;110;116;105;113;117;101;119;104;105;116;101;49;0;97;110;116;105;
   113;117;101;119;104;105;116;101;50;0;97;110;116;105;113;117;101;119;104;105;116;101;51;0;97;110;116;105;
   113;117;101;119;104;105;116;101;52;0;97;113;117;97;109;97;114;105;110;101;0;97;113;117;97;109;97;114;105;
   110;101;49;0;97;113;117;97;109;97;114;105;110;101;50;0;97;113;117;97;109;97;114;105;110;101;51;0;97;113;
   117;97;109;97;114;105;110;101;52;0;97;122;117;114;101;0;97;122;117;114;101;49;0;97;122;117;114;101;50;0;
   97;122;117;114;101;51;0;97;122;117;114;101;52;0;98;101;105;103;101;0;98;105;115;113;117;101;0;98;105;115;
   113;117;101;49;0;98;105;115;113;117;101;50;0;98;105;115;113;117;101;51;0;98;105;115;113;117;101;52;0;98;
   108;97;110;99;104;101;100;97;108;109;111;110;100;0;98;108;117;101;0;98;108;117;101;49;0;98;108;117;101;
   50;0;98;108;117;101;51;0;98;108;117;101;52;0;98;108;117;101;118;105;111;108;101;116;0;98;114;111;119;110;
   0;98;114;111;119;110;49;0;98;114;111;119;110;50;0;98;114;111;119;110;51;0;98;114;111;119;110;52;0;98;117;
   114;108;121;119;111;111;100;0;98;117;114;108;121;119;111;111;100;49;0;98;117;114;108;121;119;111;111;100;
   50;0;98;117;114;108;121;119;111;111;100;51;0;98;117;114;108;121;119;111;111;100;52;0;99;97;100;101;116;
   98;108;117;101;0;99;97;100;101;116;98;108;117;101;49;0;99;97;100;101;116;98;108;117;101;50;0;99;97;100;
   101;116;98;108;117;101;51;0;99;97;100;101;116;98;108;117;101;52;0;99;104;97;114;116;114;101;117;115;101;
   0;99;104;97;114;116;114;101;117;115;101;49;0;99;104;97;114;116;114;101;117;115;101;50;0;99;104;97;114;
   116;114;101;117;115;101;51;0;99;104;97;114;116;114;101;117;115;101;52;0;99;104;111;99;111;108;97;116;101;
   0;99;104;111;99;111;108;97;116;101;49;0;99;104;111;99;111;108;97;116;101;50;0;99;104;111;99;111;108;97;
   116;101;51;0;99;104;111;99;111;108;97;116;101;52;0;99;111;114;97;108;0;99;111;114;97;108;49;0;99;111;114;
   97;108;50;0;99;111;114;97;108;51;0;99;111;114;97;108;52;0;99;111;114;110;102;108;111;119;101;114;98;108;
   117;101;0;99;111;114;110;115;105;108;107;0;99;111;114;110;115;105;108;107;49;0;99;111;114;110;115;105;
   108;107;50;0;99;111;114;110;115;105;108;107;51;0;99;111;114;110;115;105;108;107;52;0;99;114;105;109;115;
   111;110;0;99;121;97;110;0;99;121;97;110;49;0;99;121;97;110;50;0;99;121;97;110;51;0;99;121;97;110;52;0;
   100;97;114;107;103;111;108;100;101;110;114;111;100;0;100;97;114;107;103;111;108;100;101;110;114;111;100;
   49;0;100;97;114;107;103;111;108;100;101;110;114;111;100;50;0;100;97;114;107;103;111;108;100;101;110;114;
   111;100;51;0;100;97;114;107;103;111;108;100;101;110;114;111;100;52;0;100;97;114;107;103;114;101;101;110;
   0;100;97;114;107;107;104;97;107;105;0;100;97;114;107;111;108;105;118;101;103;114;101;101;110;0;100;97;
   114;107;111;108;105;118;101;103;114;101;101;110;49;0;100;97;114;107;111;108;105;118;101;103;114;101;101;
   110;50;0;100;97;114;107;111;108;105;118;101;103;114;101;101;110;51;0;100;97;114;107;111;108;105;118;101;
   103;114;101;101;110;52;0;100;97;114;107;111;114;97;110;103;101;0;100;97;114;107;111;114;97;110;103;101;
   49;0;100;97;114;107;111;114;97;110;103;101;50;0;100;97;114;107;111;114;97;110;103;101;51;0;100;97;114;
   107;111;114;97;110;103;101;52;0;100;97;114;107;111;114;99;104;105;100;0;100;97;114;107;111;114;99;104;
   105;100;49;0;100;97;114;107;111;114;99;104;105;100;50;0;100;97;114;107;111;114;99;104;105;100;51;0;100;
   97;114;107;111;114;99;104;105;100;52;0;100;97;114;107;115;97;108;109;111;110;0;100;97;114;107;115;101;97;
   103;114;101;101;110;0;100;97;114;107;115;101;97;103;114;101;101;110;49;0;100;97;114;107;115;101;97;103;
   114;101;101;110;50;0;100;97;114;107;115;101;97;103;114;101;101;110;51;0;100;97;114;107;115;101;97;103;
   114;101;101;110;52;0;100;97;114;107;115;108;97;116;101;98;108;117;101;0;100;97;114;107;115;108;97;116;
   101;103;114;97;121;0;100;97;114;107;115;108;97;116;101;103;114;97;121;49;0;100;97;114;107;115;108;97;116;
   101;103;114;97;121;50;0;100;97;114;107;115;108;97;116;101;103;114;97;121;51;0;100;97;114;107;115;108;97;
   116;101;103;114;97;121;52;0;100;97;114;107;115;108;97;116;101;103;114;101;121;0;100;97;114;107;116;117;
   114;113;117;111;105;115;101;0;100;97;114;107;118;105;111;108;101;116;0;100;101;101;112;112;105;110;107;0;
   100;101;101;112;112;105;110;107;49;0;100;101;101;112;112;105;110;107;50;0;100;101;101;112;112;105;110;
   107;51;0;100;101;101;112;112;105;110;107;52;0;100;101;101;112;115;107;121;98;108;117;101;0;100;101;101;
   112;115;107;121;98;108;117;101;49;0;100;101;101;112;115;107;121;98;108;117;101;50;0;100;101;101;112;115;
   107;121;98;108;117;101;51;0;100;101;101;112;115;107;121;98;108;117;101;52;0;100;105;109;103;114;97;121;0;
   100;105;109;103;114;101;121;0;100;111;100;103;101;114;98;108;117;101;0;100;111;100;103;101;114;98;108;
   117;101;49;0;100;111;100;103;101;114;98;108;117;101;50;0;100;111;100;103;101;114;98;108;117;101;51;0;100;
   111;100;103;101;114;98;108;117;101;52;0;102;105;114;101;98;114;105;99;107;0;102;105;114;101;98;114;105;
   99;107;49;0;102;105;114;101;98;114;105;99;107;50;0;102;105;114;101;98;114;105;99;107;51;0;102;105;114;
   101;98;114;105;99;107;52;0;102;108;111;114;97;108;119;104;105;116;101;0;102;111;114;101;115;116;103;114;
   101;101;110;0;103;97;105;110;115;98;111;114;111;0;103;104;111;115;116;119;104;105;116;101;0;103;111;108;
   100;0;103;111;108;100;49;0;103;111;108;100;50;0;103;111;108;100;51;0;103;111;108;100;52;0;103;111;108;
   100;101;110;114;111;100;0;103;111;108;100;101;110;114;111;100;49;0;103;111;108;100;101;110;114;111;100;
   50;0;103;111;108;100;101;110;114;111;100;51;0;103;111;108;100;101;110;114;111;100;52;0;103;114;97;121;0;
   103;114;97;121;48;0;103;114;97;121;49;0;103;114;97;121;49;48;0;103;114;97;121;49;48;48;0;103;114;97;121;
   49;49;0;103;114;97;121;49;50;0;103;114;97;121;49;51;0;103;114;97;121;49;52;0;103;114;97;121;49;53;0;103;
   114;97;121;49;54;0;103;114;97;121;49;55;0;103;114;97;121;49;56;0;103;114;97;121;49;57;0;103;114;97;121;
   50;0;103;114;97;121;50;48;0;103;114;97;121;50;49;0;103;114;97;121;50;50;0;103;114;97;121;50;51;0;103;114;
   97;121;50;52;0;103;114;97;121;50;53;0;103;114;97;121;50;54;0;103;114;97;121;50;55;0;103;114;97;121;50;56;
   0;103;114;97;121;50;57;0;103;114;97;121;51;0;103;114;97;121;51;48;0;103;114;97;121;51;49;0;103;114;97;
   121;51;50;0;103;114;97;121;51;51;0;103;114;97;121;51;52;0;103;114;97;121;51;53;0;103;114;97;121;51;54;0;
   103;114;97;121;51;55;0;103;114;97;121;51;56;0;103;114;97;121;51;57;0;103;114;97;121;52;0;103;114;97;121;
   52;48;0;103;114;97;121;52;49;0;103;114;97;121;52;50;0;103;114;97;121;52;51;0;103;114;97;121;52;52;0;103;
   114;97;121;52;53;0;103;114;97;121;52;54;0;103;114;97;121;52;55;0;103;114;97;121;52;56;0;103;114;97;121;
   52;57;0;103;114;97;121;53;0;103;114;97;121;53;48;0;103;114;97;121;53;49;0;103;114;97;121;53;50;0;103;114;
   97;121;53;51;0;103;114;97;121;53;52;0;103;114;97;121;53;53;0;103;114;97;121;53;54;0;103;114;97;121;53;55;
   0;103;114;97;121;53;56;0;103;114;97;121;53;57;0;103;114;97;121;54;0;103;114;97;121;54;48;0;103;114;97;
   121;54;49;0;103;114;97;121;54;50;0;103;114;97;121;54;51;0;103;114;97;121;54;52;0;103;114;97;121;54;53;0;
   103;114;97;121;54;54;0;103;114;97;121;54;55;0;103;114;97;121;54;56;0;103;114;97;121;54;57;0;103;114;97;
   121;55].

(** [n.q+156658]: 10238 bytes. *)
Definition segment_156658 : list Z :=
  [103;114;97;121;55;48;0;103;114;97;121;55;49;0;103;114;97;121;55;50;0;103;114;97;121;55;51;0;103;114;97;
   121;55;52;0;103;114;97;121;55;53;0;103;114;97;121;55;54;0;103;114;97;121;55;55;0;103;114;97;121;55;56;0;
   103;114;97;121;55;57;0;103;114;97;121;56;0;103;114;97;121;56;48;0;103;114;97;121;56;49;0;103;114;97;121;
   56;50;0;103;114;97;121;56;51;0;103;114;97;121;56;52;0;103;114;97;121;56;53;0;103;114;97;121;56;54;0;103;
   114;97;121;56;55;0;103;114;97;121;56;56;0;103;114;97;121;56;57;0;103;114;97;121;57;0;103;114;97;121;57;
   48;0;103;114;97;121;57;49;0;103;114;97;121;57;50;0;103;114;97;121;57;51;0;103;114;97;121;57;52;0;103;114;
   97;121;57;53;0;103;114;97;121;57;54;0;103;114;97;121;57;55;0;103;114;97;121;57;56;0;103;114;97;121;57;57;
   0;103;114;101;101;110;0;103;114;101;101;110;49;0;103;114;101;101;110;50;0;103;114;101;101;110;51;0;103;
   114;101;101;110;52;0;103;114;101;101;110;121;101;108;108;111;119;0;103;114;101;121;0;103;114;101;121;48;
   0;103;114;101;121;49;0;103;114;101;121;49;48;0;103;114;101;121;49;48;48;0;103;114;101;121;49;49;0;103;
   114;101;121;49;50;0;103;114;101;121;49;51;0;103;114;101;121;49;52;0;103;114;101;121;49;53;0;103;114;101;
   121;49;54;0;103;114;101;121;49;55;0;103;114;101;121;49;56;0;103;114;101;121;49;57;0;103;114;101;121;50;0;
   103;114;101;121;50;48;0;103;114;101;121;50;49;0;103;114;101;121;50;50;0;103;114;101;121;50;51;0;103;114;
   101;121;50;52;0;103;114;101;121;50;53;0;103;114;101;121;50;54;0;103;114;101;121;50;55;0;103;114;101;121;
   50;56;0;103;114;101;121;50;57;0;103;114;101;121;51;0;103;114;101;121;51;48;0;103;114;101;121;51;49;0;103;
   114;101;121;51;50;0;103;114;101;121;51;51;0;103;114;101;121;51;52;0;103;114;101;121;51;53;0;103;114;101;
   121;51;54;0;103;114;101;121;51;55;0;103;114;101;121;51;56;0;103;114;101;121;51;57;0;103;114;101;121;52;0;
   103;114;101;121;52;48;0;103;114;101;121;52;49;0;103;114;101;121;52;50;0;103;114;101;121;52;51;0;103;114;
   101;121;52;52;0;103;114;101;121;52;53;0;103;114;101;121;52;54;0;103;114;101;121;52;55;0;103;114;101;121;
   52;56;0;103;114;101;121;52;57;0;103;114;101;121;53;0;103;114;101;121;53;48;0;103;114;101;121;53;49;0;103;
   114;101;121;53;50;0;103;114;101;121;53;51;0;103;114;101;121;53;52;0;103;114;101;121;53;53;0;103;114;101;
   121;53;54;0;103;114;101;121;53;55;0;103;114;101;121;53;56;0;103;114;101;121;53;57;0;103;114;101;121;54;0;
   103;114;101;121;54;48;0;103;114;101;121;54;49;0;103;114;101;121;54;50;0;103;114;101;121;54;51;0;103;114;
   101;121;54;52;0;103;114;101;121;54;53;0;103;114;101;121;54;54;0;103;114;101;121;54;55;0;103;114;101;121;
   54;56;0;103;114;101;121;54;57;0;103;114;101;121;55;0;103;114;101;121;55;48;0;103;114;101;121;55;49;0;103;
   114;101;121;55;50;0;103;114;101;121;55;51;0;103;114;101;121;55;52;0;103;114;101;121;55;53;0;103;114;101;
   121;55;54;0;103;114;101;121;55;55;0;103;114;101;121;55;56;0;103;114;101;121;55;57;0;103;114;101;121;56;0;
   103;114;101;121;56;48;0;103;114;101;121;56;49;0;103;114;101;121;56;50;0;103;114;101;121;56;51;0;103;114;
   101;121;56;52;0;103;114;101;121;56;53;0;103;114;101;121;56;54;0;103;114;101;121;56;55;0;103;114;101;121;
   56;56;0;103;114;101;121;56;57;0;103;114;101;121;57;0;103;114;101;121;57;48;0;103;114;101;121;57;49;0;103;
   114;101;121;57;50;0;103;114;101;121;57;51;0;103;114;101;121;57;52;0;103;114;101;121;57;53;0;103;114;101;
   121;57;54;0;103;114;101;121;57;55;0;103;114;101;121;57;56;0;103;114;101;121;57;57;0;104;111;110;101;121;
   100;101;119;0;104;111;110;101;121;100;101;119;49;0;104;111;110;101;121;100;101;119;50;0;104;111;110;101;
   121;100;101;119;51;0;104;111;110;101;121;100;101;119;52;0;104;111;116;112;105;110;107;0;104;111;116;112;
   105;110;107;49;0;104;111;116;112;105;110;107;50;0;104;111;116;112;105;110;107;51;0;104;111;116;112;105;
   110;107;52;0;105;110;100;105;97;110;114;101;100;0;105;110;100;105;97;110;114;101;100;49;0;105;110;100;
   105;97;110;114;101;100;50;0;105;110;100;105;97;110;114;101;100;51;0;105;110;100;105;97;110;114;101;100;
   52;0;105;110;100;105;103;111;0;105;110;118;105;115;0;105;118;111;114;121;0;105;118;111;114;121;49;0;105;
   118;111;114;121;50;0;105;118;111;114;121;51;0;105;118;111;114;121;52;0;107;104;97;107;105;0;107;104;97;
   107;105;49;0;107;104;97;107;105;50;0;107;104;97;107;105;51;0;107;104;97;107;105;52;0;108;97;118;101;110;
   100;101;114;0;108;97;118;101;110;100;101;114;98;108;117;115;104;0;108;97;118;101;110;100;101;114;98;108;
   117;115;104;49;0;108;97;118;101;110;100;101;114;98;108;117;115;104;50;0;108;97;118;101;110;100;101;114;
   98;108;117;115;104;51;0;108;97;118;101;110;100;101;114;98;108;117;115;104;52;0;108;97;119;110;103;114;
   101;101;110;0;108;101;109;111;110;99;104;105;102;102;111;110;0;108;101;109;111;110;99;104;105;102;102;
   111;110;49;0;108;101;109;111;110;99;104;105;102;102;111;110;50;0;108;101;109;111;110;99;104;105;102;102;
   111;110;51;0;108;101;109;111;110;99;104;105;102;102;111;110;52;0;108;105;103;104;116;98;108;117;101;0;
   108;105;103;104;116;98;108;117;101;49;0;108;105;103;104;116;98;108;117;101;50;0;108;105;103;104;116;98;
   108;117;101;51;0;108;105;103;104;116;98;108;117;101;52;0;108;105;103;104;116;99;111;114;97;108;0;108;105;
   103;104;116;99;121;97;110;0;108;105;103;104;116;99;121;97;110;49;0;108;105;103;104;116;99;121;97;110;50;
   0;108;105;103;104;116;99;121;97;110;51;0;108;105;103;104;116;99;121;97;110;52;0;108;105;103;104;116;103;
   111;108;100;101;110;114;111;100;0;108;105;103;104;116;103;111;108;100;101;110;114;111;100;49;0;108;105;
   103;104;116;103;111;108;100;101;110;114;111;100;50;0;108;105;103;104;116;103;111;108;100;101;110;114;111;
   100;51;0;108;105;103;104;116;103;111;108;100;101;110;114;111;100;52;0;108;105;103;104;116;103;111;108;
   100;101;110;114;111;100;121;101;108;108;111;119;0;108;105;103;104;116;103;114;97;121;0;108;105;103;104;
   116;103;114;101;121;0;108;105;103;104;116;112;105;110;107;0;108;105;103;104;116;112;105;110;107;49;0;108;
   105;103;104;116;112;105;110;107;50;0;108;105;103;104;116;112;105;110;107;51;0;108;105;103;104;116;112;
   105;110;107;52;0;108;105;103;104;116;115;97;108;109;111;110;0;108;105;103;104;116;115;97;108;109;111;110;
   49;0;108;105;103;104;116;115;97;108;109;111;110;50;0;108;105;103;104;116;115;97;108;109;111;110;51;0;108;
   105;103;104;116;115;97;108;109;111;110;52;0;108;105;103;104;116;115;101;97;103;114;101;101;110;0;108;105;
   103;104;116;115;107;121;98;108;117;101;0;108;105;103;104;116;115;107;121;98;108;117;101;49;0;108;105;103;
   104;116;115;107;121;98;108;117;101;50;0;108;105;103;104;116;115;107;121;98;108;117;101;51;0;108;105;103;
   104;116;115;107;121;98;108;117;101;52;0;108;105;103;104;116;115;108;97;116;101;98;108;117;101;0;108;105;
   103;104;116;115;108;97;116;101;103;114;97;121;0;108;105;103;104;116;115;108;97;116;101;103;114;101;121;0;
   108;105;103;104;116;115;116;101;101;108;98;108;117;101;0;108;105;103;104;116;115;116;101;101;108;98;108;
   117;101;49;0;108;105;103;104;116;115;116;101;101;108;98;108;117;101;50;0;108;105;103;104;116;115;116;101;
   101;108;98;108;117;101;51;0;108;105;103;104;116;115;116;101;101;108;98;108;117;101;52;0;108;105;103;104;
   116;121;101;108;108;111;119;0;108;105;103;104;116;121;101;108;108;111;119;49;0;108;105;103;104;116;121;
   101;108;108;111;119;50;0;108;105;103;104;116;121;101;108;108;111;119;51;0;108;105;103;104;116;121;101;
   108;108;111;119;52;0;108;105;109;101;103;114;101;101;110;0;108;105;110;101;110;0;109;97;103;101;110;116;
   97;0;109;97;103;101;110;116;97;49;0;109;97;103;101;110;116;97;50;0;109;97;103;101;110;116;97;51;0;109;97;
   103;101;110;116;97;52;0;109;97;114;111;111;110;0;109;97;114;111;111;110;49;0;109;97;114;111;111;110;50;0;
   109;97;114;111;111;110;51;0;109;97;114;111;111;110;52;0;109;101;100;105;117;109;97;113;117;97;109;97;114;
   105;110;101;0;109;101;100;105;117;109;98;108;117;101;0;109;101;100;105;117;109;111;114;99;104;105;100;0;
   109;101;100;105;117;109;111;114;99;104;105;100;49;0;109;101;100;105;117;109;111;114;99;104;105;100;50;0;
   109;101;100;105;117;109;111;114;99;104;105;100;51;0;109;101;100;105;117;109;111;114;99;104;105;100;52;0;
   109;101;100;105;117;109;112;117;114;112;108;101;0;109;101;100;105;117;109;112;117;114;112;108;101;49;0;
   109;101;100;105;117;109;112;117;114;112;108;101;50;0;109;101;100;105;117;109;112;117;114;112;108;101;51;
   0;109;101;100;105;117;109;112;117;114;112;108;101;52;0;109;101;100;105;117;109;115;101;97;103;114;101;
   101;110;0;109;101;100;105;117;109;115;108;97;116;101;98;108;117;101;0;109;101;100;105;117;109;115;112;
   114;105;110;103;103;114;101;101;110;0;109;101;100;105;117;109;116;117;114;113;117;111;105;115;101;0;109;
   101;100;105;117;109;118;105;111;108;101;116;114;101;100;0;109;105;100;110;105;103;104;116;98;108;117;101;
   0;109;105;110;116;99;114;101;97;109;0;109;105;115;116;121;114;111;115;101;0;109;105;115;116;121;114;111;
   115;101;49;0;109;105;115;116;121;114;111;115;101;50;0;109;105;115;116;121;114;111;115;101;51;0;109;105;
   115;116;121;114;111;115;101;52;0;109;111;99;99;97;115;105;110;0;110;97;118;97;106;111;119;104;105;116;
   101;0;110;97;118;97;106;111;119;104;105;116;101;49;0;110;97;118;97;106;111;119;104;105;116;101;50;0;110;
   97;118;97;106;111;119;104;105;116;101;51;0;110;97;118;97;106;111;119;104;105;116;101;52;0;110;97;118;121;
   0;110;97;118;121;98;108;117;101;0;110;111;110;101;0;111;108;100;108;97;99;101;0;111;108;105;118;101;100;
   114;97;98;0;111;108;105;118;101;100;114;97;98;49;0;111;108;105;118;101;100;114;97;98;50;0;111;108;105;
   118;101;100;114;97;98;51;0;111;108;105;118;101;100;114;97;98;52;0;111;114;97;110;103;101;0;111;114;97;
   110;103;101;49;0;111;114;97;110;103;101;50;0;111;114;97;110;103;101;51;0;111;114;97;110;103;101;52;0;111;
   114;97;110;103;101;114;101;100;0;111;114;97;110;103;101;114;101;100;49;0;111;114;97;110;103;101;114;101;
   100;50;0;111;114;97;110;103;101;114;101;100;51;0;111;114;97;110;103;101;114;101;100;52;0;111;114;99;104;
   105;100;0;111;114;99;104;105;100;49;0;111;114;99;104;105;100;50;0;111;114;99;104;105;100;51;0;111;114;99;
   104;105;100;52;0;112;97;108;101;103;111;108;100;101;110;114;111;100;0;112;97;108;101;103;114;101;101;110;
   0;112;97;108;101;103;114;101;101;110;49;0;112;97;108;101;103;114;101;101;110;50;0;112;97;108;101;103;114;
   101;101;110;51;0;112;97;108;101;103;114;101;101;110;52;0;112;97;108;101;116;117;114;113;117;111;105;115;
   101;0;112;97;108;101;116;117;114;113;117;111;105;115;101;49;0;112;97;108;101;116;117;114;113;117;111;105;
   115;101;50;0;112;97;108;101;116;117;114;113;117;111;105;115;101;51;0;112;97;108;101;116;117;114;113;117;
   111;105;115;101;52;0;112;97;108;101;118;105;111;108;101;116;114;101;100;0;112;97;108;101;118;105;111;108;
   101;116;114;101;100;49;0;112;97;108;101;118;105;111;108;101;116;114;101;100;50;0;112;97;108;101;118;105;
   111;108;101;116;114;101;100;51;0;112;97;108;101;118;105;111;108;101;116;114;101;100;52;0;112;97;112;97;
   121;97;119;104;105;112;0;112;101;97;99;104;112;117;102;102;0;112;101;97;99;104;112;117;102;102;49;0;112;
   101;97;99;104;112;117;102;102;50;0;112;101;97;99;104;112;117;102;102;51;0;112;101;97;99;104;112;117;102;
   102;52;0;112;101;114;117;0;112;105;110;107;0;112;105;110;107;49;0;112;105;110;107;50;0;112;105;110;107;
   51;0;112;105;110;107;52;0;112;108;117;109;0;112;108;117;109;49;0;112;108;117;109;50;0;112;108;117;109;51;
   0;112;108;117;109;52;0;112;111;119;100;101;114;98;108;117;101;0;112;117;114;112;108;101;0;112;117;114;
   112;108;101;49;0;112;117;114;112;108;101;50;0;112;117;114;112;108;101;51;0;112;117;114;112;108;101;52;0;
   114;101;100;0;114;101;100;49;0;114;101;100;50;0;114;101;100;51;0;114;101;100;52;0;114;111;115;121;98;114;
   111;119;110;0;114;111;115;121;98;114;111;119;110;49;0;114;111;115;121;98;114;111;119;110;50;0;114;111;
   115;121;98;114;111;119;110;51;0;114;111;115;121;98;114;111;119;110;52;0;114;111;121;97;108;98;108;117;
   101;0;114;111;121;97;108;98;108;117;101;49;0;114;111;121;97;108;98;108;117;101;50;0;114;111;121;97;108;
   98;108;117;101;51;0;114;111;121;97;108;98;108;117;101;52;0;115;97;100;100;108;101;98;114;111;119;110;0;
   115;97;108;109;111;110;0;115;97;108;109;111;110;49;0;115;97;108;109;111;110;50;0;115;97;108;109;111;110;
   51;0;115;97;108;109;111;110;52;0;115;97;110;100;121;98;114;111;119;110;0;115;101;97;103;114;101;101;110;
   0;115;101;97;103;114;101;101;110;49;0;115;101;97;103;114;101;101;110;50;0;115;101;97;103;114;101;101;110;
   51;0;115;101;97;103;114;101;101;110;52;0;115;101;97;115;104;101;108;108;0;115;101;97;115;104;101;108;108;
   49;0;115;101;97;115;104;101;108;108;50;0;115;101;97;115;104;101;108;108;51;0;115;101;97;115;104;101;108;
   108;52;0;115;105;101;110;110;97;0;115;105;101;110;110;97;49;0;115;105;101;110;110;97;50;0;115;105;101;
   110;110;97;51;0;115;105;101;110;110;97;52;0;115;107;121;98;108;117;101;0;115;107;121;98;108;117;101;49;0;
   115;107;121;98;108;117;101;50;0;115;107;121;98;108;117;101;51;0;115;107;121;98;108;117;101;52;0;115;108;
   97;116;101;98;108;117;101;0;115;108;97;116;101;98;108;117;101;49;0;115;108;97;116;101;98;108;117;101;50;
   0;115;108;97;116;101;98;108;117;101;51;0;115;108;97;116;101;98;108;117;101;52;0;115;108;97;116;101;103;
   114;97;121;0;115;108;97;116;101;103;114;97;121;49;0;115;108;97;116;101;103;114;97;121;50;0;115;108;97;
   116;101;103;114;97;121;51;0;115;108;97;116;101;103;114;97;121;52;0;115;108;97;116;101;103;114;101;121;0;
   115;110;111;119;0;115;110;111;119;49;0;115;110;111;119;50;0;115;110;111;119;51;0;115;110;111;119;52;0;
   115;112;114;105;110;103;103;114;101;101;110;0;115;112;114;105;110;103;103;114;101;101;110;49;0;115;112;
   114;105;110;103;103;114;101;101;110;50;0;115;112;114;105;110;103;103;114;101;101;110;51;0;115;112;114;
   105;110;103;103;114;101;101;110;52;0;115;116;101;101;108;98;108;117;101;0;115;116;101;101;108;98;108;117;
   101;49;0;115;116;101;101;108;98;108;117;101;50;0;115;116;101;101;108;98;108;117;101;51;0;115;116;101;101;
   108;98;108;117;101;52;0;116;97;110;0;116;97;110;49;0;116;97;110;50;0;116;97;110;51;0;116;97;110;52;0;116;
   104;105;115;116;108;101;0;116;104;105;115;116;108;101;49;0;116;104;105;115;116;108;101;50;0;116;104;105;
   115;116;108;101;51;0;116;104;105;115;116;108;101;52;0;116;111;109;97;116;111;0;116;111;109;97;116;111;49;
   0;116;111;109;97;116;111;50;0;116;111;109;97;116;111;51;0;116;111;109;97;116;111;52;0;116;117;114;113;
   117;111;105;115;101;0;116;117;114;113;117;111;105;115;101;49;0;116;117;114;113;117;111;105;115;101;50;0;
   116;117;114;113;117;111;105;115;101;51;0;116;117;114;113;117;111;105;115;101;52;0;118;105;111;108;101;
   116;0;118;105;111;108;101;116;114;101;100;0;118;105;111;108;101;116;114;101;100;49;0;118;105;111;108;101;
   116;114;101;100;50;0;118;105;111;108;101;116;114;101;100;51;0;118;105;111;108;101;116;114;101;100;52;0;
   119;104;101;97;116;0;119;104;101;97;116;49;0;119;104;101;97;116;50;0;119;104;101;97;116;51;0;119;104;101;
   97;116;52;0;119;104;105;116;101;0;119;104;105;116;101;115;109;111;107;101;0;121;101;108;108;111;119;0;
   121;101;108;108;111;119;49;0;121;101;108;108;111;119;50;0;121;101;108;108;111;119;51;0;121;101;108;108;
   111;119;52;0;121;101;108;108;111;119;103;114;101;101;110;0;47;37;115;47;37;115;0;105;109;97;103;101;115;
   99;97;108;101;0;102;97;108;115;101;0;98;108;97;99;107;0;0;0;0;0;0;0;0;0;0;0;0;0;0;0;0;0;0;0;0;0;0;0;0;0;
   0;0;0;0;0;0;0;0;0;0;0;0;0;0;0;0;0;0;0;0;0;0;0;0;0;0;0;0;0;0;0;0;0;0;0;0;0;0;0;0;0;0;0;0;0;0;0;0;0;0;0;0;
   0;0;0;0;0;0;0;0;0;0;0;0;0;0;0;0;0;0;0;0;0;0;0;0;37;100;0;65;103;110;111;100;101;105;110;102;111;95;116;0;
   114;111;119;103;0;99;111;108;103;0;65;103;114;97;112;104;105;110;102;111;95;116;0;45;62;0;45;45;0;60;84;
   65;66;76;69;62;0;100;101;108;120;32;62;61;32;48;0;104;116;109;108;116;97;98;108;101;46;99;0;112;111;115;
   95;104;116;109;108;95;116;98;108;0;100;101;108;121;32;62;61;32;48;0;116;97;98;108;101;32;115;105;122;101;
   32;116;111;111;32;115;109;97;108;108;32;102;111;114;32;99;111;110;116;101;110;116;10;0;102;105;120;101;
   100;32;116;97;98;108;101;32;115;105;122;101;32;119;105;116;104;32;117;110;115;112;101;99;105;102;105;101;
   100;32;119;105;100;116;104;32;111;114;32;104;101;105;103;104;116;10;0;78;111;32;111;114;32;105;109;112;
   114;111;112;101;114;32;105;109;97;103;101;32;102;105;108;101;61;34;37;115;34;10;0;99;101;108;108;32;115;
   105;122;101;32;116;111;111;32;115;109;97;108;108;32;102;111;114;32;99;111;110;116;101;110;116;10;0;102;
   105;120;101;100;32;99;101;108;108;32;115;105;122;101;32;119;105;116;104;32;117;110;115;112;101;99;105;
   102;105;101;100;32;119;105;100;116;104;32;111;114;32;104;101;105;103;104;116;10;0;112;101;110;99;111;108;
   111;114;0;99;111;108;111;114;0;65;103;101;100;103;101;105;110;102;111;95;116;0;49;0;50;0;51;0;52;0;53;0;
   54;0;55;0;56;0;57;0;49;48;0;49;49;0;49;50;0;49;51;0;49;52;0;49;53;0;49;54;0;49;55;0;49;56;0;49;57;0;50;
   48;0;99;112;45;62;115;114;99;0;101;109;105;116;95;104;116;109;108;95;105;109;103;0;99;112;45;62;115;114;
   99;91;48;93;0;100;97;115;104;101;100;0;100;111;116;116;101;100;0;116;114;97;110;115;112;97;114;101;110;
   116;0;95;37;100;0;102;80;81;46;99;0;80;81;99;104;101;99;107;0;72;101;97;112;32;111;118;101;114;102;108;
   111;119;10;0;37;37;37;37;80;97;103;101;58;32;49;32;49;10;37;37;37;37;80;97;103;101;66;111;117;110;100;
   105;110;103;66;111;120;58;32;37;100;32;37;100;32;37;100;32;37;100;10;0;37;102;32;37;102;32;116;114;97;
   110;115;108;97;116;101;10;0;48;32;48;32;49;32;115;101;116;114;103;98;99;111;108;111;114;10;0;37;102;32;
   37;102;32;37;102;32;37;102;32;110;111;100;101;10;0;48;32;48;32;48;32;115;101;116;114;103;98;99;111;108;
   111;114;10;0;37;102;32;37;102;32;37;102;32;37;102;32;99;101;108;108;10;0;49;32;48;32;48;32;115;101;116;
   114;103;98;99;111;108;111;114;10;0;102;97;105;108;101;100;32;97;116;32;110;111;100;101;32;37;100;91;48;
   93;10;0;110;112;45;62;99;101;108;108;115;91;48;93;0;109;97;122;101;46;99;0;99;104;107;83;103;114;97;112;
   104;0;102;97;105;108;101;100;32;97;116;32;110;111;100;101;32;37;100;91;49;93;10;0;110;112;45;62;99;101;
   108;108;115;91;49;93;0;37;33;80;83;45;65;100;111;98;101;45;50;46;48;10;47;110;111;100;101;32;123;10;32;
   32;47;89;32;101;120;99;104;32;100;101;102;10;32;32;47;88;32;101;120;99;104;32;100;101;102;10;32;32;47;
   121;32;101;120;99;104;32;100;101;102;10;32;32;47;120;32;101;120;99;104;32;100;101;102;10;32;32;110;101;
   119;112;97;116;104;10;32;32;120;32;121;32;109;111;118;101;116;111;10;32;32;120;32;89;32;108;105;110;101;
   116;111;10;32;32;88;32;89;32;108;105;110;101;116;111;10;32;32;88;32;121;32;108;105;110;101;116;111;10;32;
   32;99;108;111;115;101;112;97;116;104;32;102;105;108;108;10;125;32;100;101;102;10;47;99;101;108;108;32;
   123;10;32;32;47;89;32;101;120;99;104;32;100;101;102;10;32;32;47;88;32;101;120;99;104;32;100;101;102;10;
   32;32;47;121;32;101;120;99;104;32;100;101;102;10;32;32;47;120;32;101;120;99;104;32;100;101;102;10;32;32;
   110;101;119;112;97;116;104;10;32;32;120;32;121;32;109;111;118;101;116;111;10;32;32;120;32;89;32;108;105;
   110;101;116;111;10;32;32;88;32;89;32;108;105;110;101;116;111;10;32;32;88;32;121;32;108;105;110;101;116;
   111;10;32;32;99;108;111;115;101;112;97;116;104;32;115;116;114;111;107;101;10;125;32;100;101;102;10;0;115;
   104;111;119;112;97;103;101;10;0;100;105;116;101;109;115;0;102;105;110;100;83;86;101;114;116;0;117;110;
   101;120;112;101;99;116;101;100;32;99;97;115;101;32;105;110;32;108;111;99;97;116;101;95;101;110;100;112;
   111;105;110;116;10;0;48;0;116;114;97;112;101;122;111;105;100;46;99;0;108;111;99;97;116;101;95;101;110;
   100;112;111;105;110;116;0;97;100;100;95;115;101;103;109;101;110;116;58;32;101;114;114;111;114;10;0;110;
   101;119;116;114;97;112;58;32;84;114;97;112;101;122;111;105;100;45;116;97;98;108;101;32;111;118;101;114;
   102;108;111;119;32;37;100;10;0;110;101;119;116;114;97;112;0;110;101;119;110;111;100;101;58;32;81;117;101;
   114;121;45;116;97;98;108;101;32;111;118;101;114;102;108;111;119;10;0;110;101;119;110;111;100;101;0;105;
   110;100;101;120;46;99;0;82;84;114;101;101;83;101;97;114;99;104;0;110;45;62;108;101;118;101;108;32;62;61;
   32;48;0;82;84;114;101;101;73;110;115;101;114;116;0;108;101;118;101;108;32;62;61;32;48;32;38;38;32;108;
   101;118;101;108;32;60;61;32;40;42;110;41;45;62;108;101;118;101;108;0;114;45;62;98;111;117;110;100;97;114;
   121;91;105;93;32;60;61;32;114;45;62;98;111;117;110;100;97;114;121;91;78;85;77;68;73;77;83;32;43;32;105;
   93;0;114;32;38;38;32;110;32;38;38;32;110;101;119;0;82;84;114;101;101;73;110;115;101;114;116;50;0;108;101;
   118;101;108;32;62;61;32;48;32;38;38;32;108;101;118;101;108;32;60;61;32;110;45;62;108;101;118;101;108;0;
   70;65;76;83;69;0;110;111;100;101;46;99;0;78;111;100;101;67;111;118;101;114;0;114;32;38;38;32;110;0;80;
   105;99;107;66;114;97;110;99;104;0;65;100;100;66;114;97;110;99;104;0;105;32;60;32;78;79;68;69;67;65;82;68;
   0;110;101;119;0;110;32;38;38;32;105;32;62;61;32;48;32;38;38;32;105;32;60;32;78;79;68;69;67;65;82;68;0;68;
   105;115;99;111;110;66;114;97;110;99;104;0;114;0;114;101;99;116;97;110;103;108;101;46;99;0;82;101;99;116;
   65;114;101;97;0;114;32;38;38;32;114;114;0;67;111;109;98;105;110;101;82;101;99;116;0;114;32;38;38;32;115;
   0;79;118;101;114;108;97;112;0;110;0;115;112;108;105;116;46;113;46;99;0;83;112;108;105;116;78;111;100;101;
   0;98;0;110;45;62;98;114;97;110;99;104;91;105;93;46;99;104;105;108;100;0;71;101;116;66;114;97;110;99;104;
   101;115;0;114;116;112;45;62;115;112;108;105;116;46;80;97;114;116;105;116;105;111;110;115;91;48;93;46;99;
   111;117;110;116;91;48;93;32;43;32;114;116;112;45;62;115;112;108;105;116;46;80;97;114;116;105;116;105;111;
   110;115;91;48;93;46;99;111;117;110;116;91;49;93;32;61;61;32;78;79;68;69;67;65;82;68;32;43;32;49;0;77;101;
   116;104;111;100;90;101;114;111;0;114;116;112;45;62;115;112;108;105;116;46;80;97;114;116;105;116;105;111;
   110;115;91;48;93;46;99;111;117;110;116;91;48;93;32;62;61;32;114;116;112;45;62;77;105;110;70;105;108;108;
   32;38;38;32;114;116;112;45;62;115;112;108;105;116;46;80;97;114;116;105;116;105;111;110;115;91;48;93;46;
   99;111;117;110;116;91;49;93;32;62;61;32;114;116;112;45;62;77;105;110;70;105;108;108;0;113;0;76;111;97;
   100;78;111;100;101;115;0;114;116;112;45;62;115;112;108;105;116;46;80;97;114;116;105;116;105;111;110;115;
   91;48;93;46;112;97;114;116;105;116;105;111;110;91;105;93;32;61;61;32;48;32;124;124;32;114;116;112;45;62;
   115;112;108;105;116;46;80;97;114;116;105;116;105;111;110;115;91;48;93;46;112;97;114;116;105;116;105;111;
   110;91;105;93;32;61;61;32;49;0;110;45;62;99;111;117;110;116;32;43;32;40;42;110;110;41;45;62;99;111;117;
   110;116;32;61;61;32;78;79;68;69;67;65;82;68;32;43;32;49;0;33;114;116;112;45;62;115;112;108;105;116;46;80;
   97;114;116;105;116;105;111;110;115;91;48;93;46;116;97;107;101;110;91;105;93;0;67;108;97;115;115;105;102;
   121;0;0;2;2;2;2;2;2;2;2;2;2;2;2;2;2;2;2;2;2;2;2;2;2;2;2;2;2;2;2;2;2;2;2;2;2;2;2;2;2;2;2;2;2;2;2;2;2;2;2;
   2;2;2;2;2;2;2;2;2;2;2;2;2;2;2;2;2;2;2;2;2;2;2;2;2;2;2;2;2;2;2;2;2;2;2;2;2;2;2;2;2;2;2;2;2;2;2;2;2;2;2;2;
   2;2;2;2;2;2;2;2;2;2;2;2;2;2;2;2;2;2;2;2;2;2;2;2;2;2;2;2;2;2;2;2;2;2;2;2;2;2;2;2;2;2;2;2;2;2;2;2;2;2;2;2;
   2;2;2;2;2;2;2;2;2;2;2;2;2;2;2;2;2;2;2;2;2;2;2;2;2;2;2;2;2;2;2;2;2;2;2;2;2;2;2;2;2;2;2;2;2;2;2;2;2;2;2;2;
   2;2;2;2;2;2;2;2;2;2;2;2;2;2;2;2;2;2;2;2;2;2;2;2;2;2;2;2;2;2;2;2;2;2;2;2;2;2;2;2;2;2;2;2;2;2;2;2;2;2;2;1;
   2;3;4;5;6;7;8;9;10;11;12;13;14;15;16;17;18;19;20;21;22;23;24;25;26;27;28;29;30;31;32;33;34;35;36;37;38;
   39;40;2;2;2;2;2;2;16;12;89;1;0;31;80;8;3;7;18;19;20;87;22;23;8;11;105;12;31;10;5;12;14;41;17;43;15;45;16;
   47;48;32;50;6;52;53;27;28;29;30;11;12;33;34;35;36;37;38;39;40;12;24;25;23;4;10;27;28;26;32;42;10;33;34;
   35;36;37;38;39;40;12;10;14;83;10;44;88;49;88;88;88;88;88;88;12;27;28;15;46;88;51;33;34;35;36;37;38;39;40;
   27;28;255;83;255;255;33;34;35;36;37;38;39;40;12;255;255;5;255;255;255;9;20;255;255;255;255;255;12;27;28;
   255;16;21;22;33;34;35;36;37;38;39;40;27;28;255;255;255;255;33;34;35;36;37;38;39;40;12;255;18;19;20;17;22;
   23;255;255;255;255;255;255;12;27;28;255;255;255;18;33;34;35;36;37;38;39;40;27;28;255;255;255;255;33;34;
   35;36;37;38;39;40;12;255;255;255;255;255;255;19;255;255;255;255;255;255;12;27;28;255;255;255;255;33;34;
   35;36;37;38;39;40;27;28;255;255;255;255;33;34;35;36;37;38;39;40;18;19;20;21;22;23;24;25;255;255;255;255;
   255;255;255;255;255;35;36;37;38;39;27;18;19;20;22;23;34;54;104;1;31;56;86;33;32;2;27;27;27;94;27;27;55;
   57;112;54;210;194;79;4;60;34;71;34;63;34;68;34;34;88;34;101;34;34;5;6;95;96;57;4;7;8;9;10;11;12;13;14;4;
   102;103;93;106;109;5;6;111;88;59;113;7;8;9;10;11;12;13;14;4;114;60;91;115;62;97;70;27;18;19;20;22;23;4;5;
   6;63;65;98;73;7;8;9;10;11;12;13;14;5;6;0;92;0;0;7;8;9;10;11;12;13;14;4;0;0;79;0;0;0;83;66;0;0;0;0;0;4;5;
   6;0;68;84;85;7;8;9;10;11;12;13;14;5;6;0;0;0;0;7;8;9;10;11;12;13;14;4;0;42;44;46;71;49;51;0;0;0;0;0;0;4;5;
   6;0;0;0;74;7;8;9;10;11;12;13;14;5;6;0;0;0;0;7;8;9;10;11;12;13;14;4;0;0;0;0;0;0;76;0;0;0;0;0;0;4;5;6;0;0;
   0;0;7;8;9;10;11;12;13;14;5;6;0;0;0;0;7;8;9;10;11;12;13;14;41;43;45;47;48;50;52;53;0;0;0;0;0;0;0;0;0;41;
   43;45;48;50;0;4;47;0;36;35;0;18;20;22;26;28;30;32;24;0;5;7;47;47;47;0;47;47;0;0;9;8;40;0;0;1;34;2;6;0;0;
   0;0;0;8;0;0;0;0;0;0;0;0;0;0;0;0;0;37;3;38;19;10;41;21;11;42;23;14;45;25;17;27;12;43;29;13;44;31;15;33;16;
   0;51;0;48;0;47;67;0;49;0;47;0;53;46;39;66;50;65;0;58;56;0;60;52;69;0;54;0;64;0;0;63;0;68;55;59;57;61;0;2;
   3;3;1;1;2;1;1;1;3;3;3;3;3;3;3;3;1;1;1;1;1;1;1;1;1;1;1;1;1;1;1;1;2;1;1;2;0;6;1;3;3;3;3;3;1;0;1;2;3;0;4;1;
   2;3;0;4;0;4;0;4;0;3;2;1;2;1;2;1;83;121;110;116;97;120;32;101;114;114;111;114;58;32;110;111;110;45;115;
   112;97;99;101;32;115;116;114;105;110;103;32;117;115;101;100;32;98;101;102;111;114;101;32;60;84;65;66;76;
   69;62;0;83;121;110;116;97;120;32;101;114;114;111;114;58;32;110;111;110;45;115;112;97;99;101;32;115;116;
   114;105;110;103;32;117;115;101;100;32;97;102;116;101;114;32;60;47;84;65;66;76;69;62;0;0;41;42;42;42;43;
   44;44;45;45;45;45;45;45;45;45;45;45;46;47;48;49;50;51;52;53;54;55;56;57;58;59;60;61;62;62;63;63;65;64;66;
   66;66;66;66;66;67;67;68;68;68;70;69;71;71;71;73;72;74;72;75;72;76;72;77;77;78;78;79;79;255;3;15;16;17;35;
   58;36;61;37;64;21;67;38;69;39;72;24;75;25;77;26;40;28;78;29;30;80;81;82;89;90;108;107;110;99;100;87;105;
   115;121;110;116;97;120;32;101;114;114;111;114;0;109;101;109;111;114;121;32;101;120;104;97;117;115;116;
   101;100;0;0;0;37;115;32;105;110;32;108;105;110;101;32;37;100;32;10;0;78;111;116;32;98;117;105;108;116;32;
   119;105;116;104;32;108;105;98;101;120;112;97;116;46;32;84;97;98;108;101;32;102;111;114;109;97;116;116;
   105;110;103;32;105;115;32;110;111;116;32;97;118;97;105;108;97;98;108;101;46;10;0;114;111;117;116;101;46;
   99;0;108;105;98;112;97;116;104;47;37;115;58;37;100;58;32;37;115;10;0;115;104;111;114;116;101;115;116;46;
   99;0;99;97;110;110;111;116;32;109;97;108;108;111;99;32;112;110;108;115;0;99;97;110;110;111;116;32;109;97;
   108;108;111;99;32;112;110;108;112;115;0;99;97;110;110;111;116;32;114;101;97;108;108;111;99;32;112;110;
   108;115;0;99;97;110;110;111;116;32;114;101;97;108;108;111;99;32;112;110;108;112;115;0;99;97;110;110;111;
   116;32;109;97;108;108;111;99;32;100;113;46;112;110;108;115;0;99;97;110;110;111;116;32;114;101;97;108;108;
   111;99;32;100;113;46;112;110;108;115;0;116;114;105;97;110;103;117;108;97;116;105;111;110;32;102;97;105;
   108;101;100;0;115;111;117;114;99;101;32;112;111;105;110;116;32;110;111;116;32;105;110;32;97;110;121;32;
   116;114;105;97;110;103;108;101;0;100;101;115;116;105;110;97;116;105;111;110;32;112;111;105;110;116;32;
   110;111;116;32;105;110;32;97;110;121;32;116;114;105;97;110;103;108;101;0;99;97;110;110;111;116;32;102;
   105;110;100;32;116;114;105;97;110;103;108;101;32;112;97;116;104;0;99;97;110;110;111;116;32;109;97;108;
   108;111;99;32;111;112;115;0;99;97;110;110;111;116;32;114;101;97;108;108;111;99;32;111;112;115;0;99;97;
   110;110;111;116;32;109;97;108;108;111;99;32;116;114;105;115;0;99;97;110;110;111;116;32;114;101;97;108;
   108;111;99;32;116;114;105;115;0;18;17;19;20;21;22;23;24;25;26;27;28;29;30;31;32;33;17;34;35;36;17;37;38;
   39;40;41;42;43;44;17;45;46;47;16;16;48;16;16;16;16;16;16;16;49;50;51;16;52;53;16;16;17;17;17;17;17;17;17;
   17;17;17;17;17;17;17;17;17;17;17;17;17;17;17;17;17;17;54;17;17;17;17;17;17;17;17;17;17;17;17;17;17;17;17;
   17;17;17;17;17;17;17;17;17;17;17;17;17;17;17;17;17;17;17;17;17;17;17;17;17;17;17;17;17;17;17;17;17;17;17;
   17;17;17;17;17;17;17;17;17;17;17;17;17;17;17;17;17;17;17;17;17;17;17;17;17;17;17;17;17;17;55;17;17;17;17;
   56;17;57;58;59;60;61;62;17;17;17;17;17;17;17;17;17;17;17;17;17;17;17;17;17;17;17;17;17;17;17;17;17;17;17;
   17;17;17;17;17;17;17;17;17;17;17;17;17;17;17;17;63;16;16;16;16;16;16;16;16;16;16;16;16;16;16;16;16;16;16;
   16;16;16;16;16;16;16;16;16;16;16;16;16;16;16;17;64;65;17;66;67;68;69;70;71;72;73;16;16;16;74;75;76;77;78;
   16;16;16;79;80;16;16;16;16;81;16;16;16;16;16;16;16;16;16;17;17;17;82;83;16;16;16;16;16;16;16;16;16;16;16;
   17;17;17;17;84;16;16;16;16;16;16;16;16;16;16;16;16;16;16;16;16;16;16;16;16;16;16;16;16;16;16;16;16;16;16;
   16;16;16;16;16;16;16;16;16;16;16;16;16;16;16;16;16;16;16;16;16;17;17;85;16;16;16;16;86;16;16;16;16;16;16;
   16;16;16;16;16;16;16;16;16;16;16;16;16;16;16;16;16;16;16;16;16;16;16;16;16;16;16;16;16;16;16;16;16;16;16;
   16;16;16;16;16;16;16;16;16;16;16;16;16;16;16;16;16;16;16;16;16;16;16;87;16;16;16;16;16;16;16;16;16;16;16;
   16;16;16;16;16;16;16;16;16;16;16;16;16;16;16;16;16;16;16;16;16;16;16;16;88;89;90;91;16;16;16;16;16;16;16;
   16;16;16;16;16;16;16;16;16;16;16;16;16;16;16;92;16;16;16;16;16;16;16;16;16;16;16;16;16;16;16;16;16;0;0;0;
   0;0;0;0;0;0;0;0;0;0;0;0;0;0;0;0;0;0;0;0;0;0;0;0;0;0;0;0;0;255;255;255;255;255;255;255;255;255;255;255;
   255;255;255;255;255;255;255;255;255;255;255;255;255;255;255;255;255;255;255;255;255;0;0;0;0;0;0;0;0;254;
   255;255;7;254;255;255;7;0;0;0;0;0;4;32;4;255;255;127;255;255;255;127;255;255;255;255;255;255;255;255;255;
   255;255;255;255;255;255;255;255;255;255;255;255;255;255;255;255;195;255;3;0;31;80;0;0;0;0;0;0;0;0;0;0;32;
   0;0;0;0;0;223;60;64;215;255;255;251;255;255;255;255;255;255;255;255;255;191;255;255;255;255;255;255;255;
   255;255;255;255;255;255;255;255;255;255;3;252;255;255;255;255;255;255;255;255;255;255;255;255;255;255;
   255;255;255;255;255;0;254;255;255;255;127;2;254;255;255;255;255;0;0;0;0;0;255;191;182;0;255;255;255;7;7;
   0;0;0;255;7;255;255;255;255;255;255;255;254;255;195;255;255;255;255;255;255;255;255;255;255;255;255;239;
   31;254;225;255;159;0;0;255;255;255;255;255;255;0;224;255;255;255;255;255;255;255;255;255;255;255;255;3;0;
   255;255;255;255;255;7;48;4;255;255;255;252;255;31;0;0;255;255;255;1;0;0;0;0;0;0;0;0;253;31;0;0;0;0;0;0;
   240;3;255;127;255;255;255;255;255;255;255;239;255;223;225;255;207;255;254;254;238;159;249;255;255;253;
   197;227;159;89;128;176;207;255;3;0;238;135;249;255;255;253;109;195;135;25;2;94;192;255;63;0;238;191;251;
   255;255;253;237;227;191;27;1;0;207;255;0;0;238;159;249;255;255;253;237;227;159;25;192;176;207;255;2;0;
   236;199;61;214;24;199;255;195;199;29;129;0;192;255;0;0;238;223;253;255;255;253;239;227;223;29;96;3;207;
   255;0;0;236;223;253;255;255;253;239;227;223;29;96;64;207;255;6;0;236;223;253;255;255;255;255;231;223;93;
   128;0;207;255;0;252;236;255;127;252;255;255;251;47;127;128;95;255;0;0;12;0;254;255;255;255;255;127;255;7;
   63;32;255;3;0;0;0;0;150;37;240;254;174;236;255;59;95;32;255;243;0;0;0;0;1;0;0;0;255;3;0;0;255;254;255;
   255;255;31;254;255;3;255;255;254;255;255;255;31;0;0;0;0;0;0;0;0;255;255;255;255;255;255;127;249;255;3;
   255;255;231;193;255;255;127;64;255;51;255;255;255;255;191;32;255;255;255;255;255;247;255;255;255;255;255;
   255;255;255;255;61;127;61;255;255;255;255;255;61;255;255;255;255;61;127;61;255;127;255;255;255;255;255;
   255;255;61;255;255;255;255;255;255;255;255;135;0;0;0;0;255;255;0;0;255;255;255;255;255;255;255;255;255;
   255;31;0;254;255;255;255;255;255;255;255;255;255;255;255;255;255;255;255;255;255;255;255;255;255;255;255;
   255;255;255;255;255;255;255;255;255;255;255;255;255;255;255;255;255;255;255;255;255;159;255;255;254;255;
   255;7;255;255;255;255;255;255;255;255;255;199;1;0;255;223;15;0;255;255;15;0;255;255;15;0;255;223;13;0;
   255;255;255;255;255;255;207;255;255;1;128;16;255;3;0;0;0;0;255;3;255;255;255;255;255;255;255;255;255;255;
   255;0;255;255;255;255;255;7;255;255;255;255;255;255;255;255;63;0;255;255;255;31;255;15;255;1;192;255;255;
   255;255;63;31;0;255;255;255;255;255;15;255;255;255;3;255;3;0;0;0;0;255;255;255;15;255;255;255;255;255;
   255;255;127;254;255;31;0;255;3;255;3;128;0;0;0;0;0;0;0;0;0;0;0;255;255;255;255;255;255;239;255;239;15;
   255;3;0;0;0;0;255;255;255;255;255;243;255;255;255;255;255;255;191;255;3;0;255;255;255;255;255;255;63;0;
   255;227;255;255;255;255;255;63;0;0;0;0;0;0;0;0;0;0;0;0;0;222;111;0;255;255;255;255;255;255;255;255;255;
   255;255;255;255;255;255;255;255;255;255;255;255;255;255;255;0;0;0;0;0;0;0;0;255;255;63;63;255;255;255;
   255;63;63;255;170;255;255;255;63;255;255;255;255;255;255;223;95;220;31;207;15;255;31;220;31;0;0;0;0;0;0;
   0;0;0;0;0;0;0;0;2;128;0;0;255;31;0;0;0;0;0;0;0;0;0;0;0;0;132;252;47;62;80;189;255;243;224;67;0;0;255;255;
   255;255;255;1;0;0;0;0;0;0;0;0;0;0;0;0;0;0;0;0;0;0;0;0;0;0;0;0;0;0;0;0;0;0;0;0;0;0;0;0;192;255;255;255;
   255;255;255;3;0;0;255;255;255;255;255;127;255;255;255;255;255;127;255;255;255;255;255;255;255;255;255;
   255;255;255;255;255;255;255;31;120;12;0;255;255;255;255;191;32;255;255;255;255;255;255;255;128;0;0;255;
   255;127;0;127;127;127;127;127;127;127;127;255;255;255;255;0;0;0;0;0;128;0;0;0;0;0;0;0;0;0;0;0;0;0;0;0;0;
   0;0;0;0;0;0;0;0;0;0;224;0;0;0;254;3;62;31;254;255;255;255;255;255;255;255;255;255;127;224;254;255;255;
   255;255;255;255;255;255;255;255;247;224;255;255;255;255;63;254;255;255;255;255;255;255;255;255;255;255;
   127;0;0;255;255;255;7;0;0;0;0;0;0;255;255;255;255;255;255;255;255;255;255;255;255;255;255;255;255;255;
   255;255;255;255;255;255;255;63;0;0;0;0;0;0;0;0;0;255;255;255;255;255;255;255;255;255;255;255;255;255;255;
   255;255;255;255;255;255;255;255;255;255;255;31;0;0;0;0;0;0;255;255;255;255;255;255;255;255;255;255;255;
   255;255;255;255;255;255;31;0;0;0;0;0;0;0;0;255;255;255;255;255;63;255;31;255;255;255;15;0;0;255;255;255;
   255;255;127;240;143;255;255;255;128;255;255;255;255;255;255;255;255;255;255;0;0;0;0;128;255;252;255;255;
   255;255;255;255;255;255;255;255;255;255;121;15;0;255;7;0;0;0;0;0;0;0;0;0;255;187;247;255;255;255;0;0;0;
   255;255;255;255;255;255;15;0;255;255;255;255;255;255;255;255;15;0;255;3;0;0;252;8;255;255;255;255;255;7;
   255;255;255;255;7;0;255;255;255;31;255;255;255;255;255;255;247;255;0;128;255;3;0;0;0;0;255;255;255;255;
   255;255;127;0;255;63;255;3;255;255;127;4;255;255;255;255;255;255;255;127;5;0;0;56;255;255;60;0;126;126;
   126;0;127;127;0;0;0;0;0;0;0;0;0;0;0;0;0;0;0;0;0;0;255;255;255;255;255;7;255;3;255;255;255;255;255;255;
   255;255;255;255;255;255;255;255;255;255;255;255;255;255;15;0;255;255;127;248;255;255;255;255;255;15;255;
   255;255;255;255;255;255;255;255;255;255;255;255;63;255;255;255;255;255;255;255;255;255;255;255;255;255;3;
   0;0;0;0;127;0;248;224;255;253;127;95;219;255;255;255;255;255;255;255;255;255;255;255;255;255;3;0;0;0;248;
   255;255;255;255;255;255;255;255;255;255;255;255;63;0;0;255;255;255;255;255;255;255;255;252;255;255;255;
   255;255;255;0;0;0;0;0;255;15;0;0;0;0;0;0;0;0;0;0;0;0;0;0;223;255;255;255;255;255;255;255;255;255;255;255;
   255;255;255;255;255;31;0;0;255;3;254;255;255;7;254;255;255;7;192;255;255;255;255;255;255;255;255;255;255;
   127;252;252;252;28;0;0;0;0;255;239;255;255;127;255;255;183;255;63;255;63;0;0;0;0;255;255;255;255;255;255;
   255;255;255;255;255;255;255;255;255;7;0;0;0;0;0;0;0;0;255;255;255;255;255;255;31;0;0;0;0;0;0;0;0;0;0;0;0;
   0;0;0;0;0;0;0;0;0;0;0;0;0;0;0;0;0;0;0;0;0;255;255;255;31;255;255;255;255;255;255;1;0;0;0;0;0;255;255;255;
   127;0;0;255;255;255;7;0;0;0;0;0;0;255;255;255;63;255;255;255;255;15;255;62].

(** [n.q+166901]: 6114 bytes. *)
Definition segment_166901 : list Z :=
  [255;255;255;255;255;255;255;255;255;255;255;255;255;255;255;255;255;255;255;63;255;3;0;0;0;0;0;0;0;0;0;0;
   63;253;255;255;255;255;191;145;255;255;63;0;0;0;0;0;0;0;0;0;0;0;0;0;0;0;0;0;0;0;0;0;255;255;63;0;255;255;
   255;3;0;0;0;0;0;0;0;0;255;255;255;255;255;255;255;192;0;0;0;0;0;0;0;0;111;240;239;254;255;255;15;0;0;0;0;
   0;255;255;255;31;0;0;0;0;0;0;0;0;0;0;0;0;0;0;0;0;255;255;255;255;255;255;63;0;255;255;63;0;255;255;7;0;0;
   0;0;0;0;0;0;0;0;0;0;0;0;0;0;0;255;255;255;255;255;255;255;255;255;1;0;0;0;0;0;0;0;0;0;0;0;0;0;0;0;0;0;0;
   0;0;0;0;255;255;255;255;255;255;255;255;63;0;0;0;192;255;0;0;252;255;255;255;255;255;255;1;0;0;255;255;
   255;1;255;3;255;255;255;255;255;255;199;255;0;0;0;0;0;0;0;0;255;255;255;255;255;255;255;255;30;0;255;3;0;
   0;0;0;0;0;0;0;0;0;0;0;0;0;0;0;0;0;0;0;255;255;255;255;255;255;63;0;255;3;0;0;0;0;0;0;255;255;255;255;255;
   255;255;255;255;255;255;255;255;127;0;0;0;0;0;0;0;0;0;0;0;0;0;0;0;0;0;0;255;255;255;255;255;255;255;255;
   255;255;255;255;7;0;0;0;0;0;0;0;0;0;0;0;0;0;0;0;0;0;0;0;255;255;255;255;255;127;0;0;0;0;0;0;0;0;0;0;0;0;
   0;0;0;0;0;0;0;0;0;0;0;0;0;0;255;255;255;255;255;255;255;1;0;0;0;0;0;0;0;0;0;0;0;0;0;0;0;0;0;0;0;0;0;0;0;
   0;255;255;255;255;255;255;255;255;31;0;255;255;255;255;255;127;0;0;248;255;0;0;0;0;0;0;0;0;0;0;0;0;3;0;0;
   0;0;0;0;0;0;0;0;0;0;0;0;0;0;0;0;0;0;0;0;0;0;0;0;0;0;0;0;0;255;255;255;255;255;255;255;255;255;255;223;
   255;255;255;255;255;255;255;255;223;100;222;255;235;239;255;255;255;255;255;255;255;191;231;223;223;255;
   255;255;123;95;252;253;255;255;255;255;255;255;255;255;255;255;255;255;255;255;255;255;255;255;255;255;
   255;255;255;255;255;255;255;255;255;255;255;255;255;255;255;255;255;255;255;255;255;63;255;255;255;253;
   255;255;247;255;255;255;247;255;255;223;255;255;255;223;255;255;127;255;255;255;127;255;255;255;253;255;
   255;255;253;255;255;247;207;255;255;255;255;255;255;239;255;255;255;150;254;247;10;132;234;150;170;150;
   247;247;94;255;251;255;15;238;251;255;15;0;0;0;0;0;0;0;0;97;108;110;117;109;0;97;108;112;104;97;0;98;108;
   97;110;107;0;99;110;116;114;108;0;100;105;103;105;116;0;103;114;97;112;104;0;108;111;119;101;114;0;112;
   114;105;110;116;0;112;117;110;99;116;0;115;112;97;99;101;0;117;112;112;101;114;0;120;100;105;103;105;116;
   0;18;16;19;20;21;22;23;24;25;26;27;28;29;30;31;32;33;16;16;34;35;16;36;37;38;39;40;41;42;43;16;44;45;46;
   17;47;48;17;17;49;17;17;17;50;51;52;53;54;55;56;57;17;16;16;16;16;16;16;16;16;16;16;16;16;16;16;16;16;16;
   16;16;16;16;16;16;16;16;58;16;16;16;16;16;16;16;16;16;16;16;16;16;16;16;16;16;16;16;16;16;16;16;16;16;16;
   16;16;16;16;16;16;16;16;16;16;16;16;16;16;16;16;16;16;16;16;16;16;16;16;16;16;16;16;16;16;16;16;16;16;16;
   16;16;16;16;16;16;16;16;16;16;16;16;16;16;16;16;16;16;16;16;16;16;16;16;16;59;16;60;61;62;63;64;65;16;16;
   16;16;16;16;16;16;16;16;16;16;16;16;16;16;16;16;16;16;16;16;16;16;16;16;16;16;16;16;16;16;16;16;16;16;16;
   16;16;16;16;16;16;16;16;16;16;16;16;16;16;16;66;16;16;16;16;16;16;16;16;16;16;16;16;16;16;16;16;16;16;16;
   16;16;16;16;67;16;16;68;16;69;70;71;16;72;16;73;16;16;16;16;74;75;76;77;16;16;78;16;79;80;16;16;16;16;81;
   16;16;16;16;16;16;16;16;16;16;16;16;16;82;16;16;16;16;16;16;16;16;16;16;16;16;16;16;16;16;16;16;16;16;16;
   16;16;16;16;16;16;16;16;16;16;16;16;16;16;16;16;16;16;16;16;16;16;16;16;16;16;16;16;16;16;16;16;16;16;16;
   16;16;16;16;16;16;16;16;16;16;16;16;16;16;16;16;16;16;83;16;16;16;16;16;16;16;16;16;16;16;16;16;16;16;16;
   16;16;16;16;16;16;16;16;16;16;16;16;16;16;16;16;16;16;16;16;16;16;16;16;16;16;16;16;16;16;16;16;16;16;16;
   16;16;16;16;16;16;16;16;16;16;16;16;16;16;16;16;16;16;16;16;16;16;16;16;16;16;16;16;16;16;16;16;16;16;16;
   16;16;16;16;16;16;16;16;16;16;84;85;86;87;16;16;88;89;16;16;16;16;16;16;16;16;16;16;16;16;16;16;16;16;16;
   16;16;16;16;16;90;16;91;92;93;94;95;96;97;98;16;16;16;16;16;16;16;16;0;0;0;0;0;0;0;0;0;0;0;0;0;0;0;0;0;0;
   0;0;0;0;0;0;0;0;0;0;0;0;0;0;255;255;255;255;255;255;255;255;255;255;255;255;255;255;255;255;255;255;255;
   255;255;255;255;255;255;255;255;255;255;255;255;255;0;0;0;0;254;255;0;252;1;0;0;248;1;0;0;120;0;0;0;0;
   255;251;223;251;0;0;128;0;0;0;128;0;0;0;0;0;0;0;0;0;0;0;0;0;0;0;0;0;0;0;0;0;0;0;0;0;60;0;252;255;224;175;
   255;255;255;255;255;255;255;255;255;255;223;255;255;255;255;255;32;64;176;0;0;0;0;0;0;0;0;0;0;0;0;0;64;0;
   0;0;0;0;0;0;0;0;0;0;0;0;0;0;0;0;252;3;0;0;0;0;0;0;0;0;0;0;0;0;0;0;0;0;0;0;0;0;0;0;0;0;0;252;0;0;0;0;0;
   134;254;255;255;255;0;64;73;0;0;0;0;0;24;0;223;255;0;200;0;0;0;0;0;0;0;1;0;60;0;0;0;0;0;0;0;0;0;0;0;0;16;
   224;1;30;0;96;255;191;0;0;0;0;0;0;255;7;0;0;0;0;0;0;0;0;0;0;0;0;0;0;0;0;0;0;0;248;207;3;0;0;0;3;0;32;255;
   127;0;0;0;78;0;0;0;0;0;0;0;0;0;0;0;0;0;0;0;0;0;252;0;0;0;0;0;0;0;0;0;16;0;32;30;0;48;0;1;0;0;0;0;0;0;0;0;
   16;0;32;0;0;0;0;252;15;0;0;0;0;0;0;0;16;0;32;0;0;0;0;0;0;0;0;0;0;0;0;0;16;0;32;0;0;0;0;3;0;0;0;0;0;0;0;0;
   16;0;32;0;0;0;0;253;0;0;0;0;0;0;0;0;0;0;32;0;0;0;0;255;7;0;0;0;0;0;0;0;0;0;32;0;0;0;0;0;255;0;0;0;0;0;0;
   0;16;0;32;0;0;0;0;0;0;0;0;0;0;0;0;0;0;0;32;0;0;0;0;63;2;0;0;0;0;0;0;0;0;0;4;0;0;0;0;16;0;0;0;0;0;0;128;0;
   128;192;223;0;12;0;0;0;0;0;0;0;0;0;0;0;0;0;31;0;0;0;0;0;0;254;255;255;255;0;252;255;255;0;0;0;0;0;0;0;0;
   252;0;0;0;0;0;0;192;255;223;255;7;0;0;0;0;0;0;0;0;0;0;128;6;0;252;0;0;24;62;0;0;128;191;0;204;0;0;0;0;0;
   0;0;0;0;0;0;8;0;0;0;0;0;0;0;0;0;0;0;96;255;255;255;31;0;0;255;3;0;0;0;0;0;0;0;0;0;0;0;0;1;0;0;0;0;0;0;0;
   0;0;0;0;0;0;0;0;0;0;0;0;0;0;0;0;0;0;0;0;0;0;0;0;0;0;0;0;0;0;0;0;0;0;0;0;0;96;0;0;1;0;0;24;0;0;0;0;0;0;0;
   0;0;56;0;0;0;0;16;0;0;0;112;0;0;0;0;0;0;0;0;0;0;0;0;0;0;0;48;0;0;254;127;47;0;0;255;3;255;127;0;0;0;0;0;
   0;0;0;0;0;0;0;0;0;0;0;0;0;0;0;0;0;0;0;0;0;0;0;0;0;0;0;0;0;0;0;0;14;49;0;0;0;0;0;0;0;0;0;0;0;0;0;0;0;0;0;
   0;196;255;255;255;255;0;0;0;192;0;0;0;0;0;0;0;0;1;0;224;159;0;0;0;0;127;63;0;0;0;0;0;0;0;0;0;0;0;0;0;0;0;
   0;16;0;16;0;0;252;255;255;255;31;0;0;0;0;0;12;0;0;0;0;0;0;64;0;12;240;0;0;0;0;0;0;192;248;0;0;0;0;0;0;0;
   192;0;0;0;0;0;0;0;0;255;0;255;255;255;33;16;0;0;0;0;0;0;0;0;0;0;0;0;0;0;0;0;0;0;0;0;0;0;0;0;0;255;255;
   255;255;127;0;0;240;0;0;0;0;0;0;0;0;0;0;0;0;0;0;0;0;0;0;0;0;0;0;0;160;3;224;0;224;0;224;0;96;128;248;255;
   255;255;252;255;255;255;255;255;127;31;252;241;127;255;127;0;0;255;255;255;3;0;0;255;255;255;255;1;0;123;
   3;208;193;175;66;0;12;31;188;255;255;0;0;0;0;0;2;255;255;255;255;255;255;255;255;255;255;255;255;255;255;
   255;255;255;255;255;255;255;255;255;255;255;255;255;255;255;255;255;255;255;255;255;255;255;255;255;255;
   255;255;255;255;15;0;255;255;255;255;127;0;0;0;255;7;0;0;255;255;255;255;255;255;255;255;255;255;63;0;0;
   0;0;0;0;252;255;255;254;255;255;255;255;255;255;255;255;255;255;255;255;255;255;255;255;255;255;255;255;
   255;255;255;255;255;255;255;255;255;255;255;255;255;255;255;255;255;255;255;255;31;255;3;0;0;0;0;0;0;0;0;
   0;0;0;0;0;0;0;0;0;0;0;0;0;0;0;0;0;0;0;0;0;0;0;0;0;0;0;0;0;0;0;0;0;0;0;0;0;0;0;0;224;135;3;254;0;0;0;0;0;
   0;0;0;0;0;0;0;0;0;1;128;0;0;0;0;0;0;0;0;0;0;0;0;0;0;0;0;255;255;255;255;255;127;255;15;0;0;0;0;0;0;0;0;
   255;255;255;251;255;255;255;255;255;255;255;255;255;255;15;0;255;255;255;255;255;255;255;255;255;255;255;
   255;255;255;255;255;255;255;255;255;255;255;255;255;255;255;63;0;0;0;255;15;30;255;255;255;1;252;193;224;
   0;0;0;0;0;0;0;0;0;0;0;30;1;0;0;0;0;0;0;0;0;0;0;8;0;0;0;0;0;0;0;0;0;0;0;0;0;0;0;0;0;0;255;255;0;0;0;0;255;
   255;255;255;15;0;0;0;255;255;255;127;255;255;255;255;255;255;255;255;255;255;255;255;255;255;255;255;255;
   255;255;255;255;255;255;255;255;255;255;127;0;0;0;0;0;0;0;0;0;0;0;0;0;0;0;0;0;0;0;0;0;0;0;0;255;255;255;
   255;255;255;255;255;0;0;0;0;0;0;0;0;0;0;0;0;0;0;0;0;0;0;255;255;255;255;255;255;127;0;0;0;0;0;0;192;0;
   224;0;0;0;0;0;0;0;0;0;0;0;128;15;112;0;0;0;0;0;0;0;0;0;0;0;0;0;0;255;0;255;255;127;0;3;0;0;0;0;0;0;0;0;0;
   0;0;0;6;0;0;0;0;0;0;0;0;0;0;0;0;0;0;68;8;0;0;0;15;255;3;0;0;0;0;0;0;240;0;0;0;0;0;0;0;0;0;16;192;0;0;255;
   255;3;7;0;0;0;0;0;248;0;0;0;0;8;128;0;0;0;0;0;0;0;0;0;0;8;0;255;63;0;192;0;0;0;0;0;0;0;0;0;0;0;0;0;0;0;
   240;0;0;128;11;0;0;0;0;0;0;0;128;2;0;0;192;0;0;67;0;0;0;0;0;0;0;0;0;0;0;0;0;0;0;0;0;0;0;0;0;0;0;0;0;0;0;
   0;0;0;56;0;0;1;0;0;0;0;0;0;0;0;0;0;0;0;0;0;0;0;0;0;0;0;0;0;0;0;0;0;0;0;0;0;0;0;0;0;0;0;0;0;0;0;0;0;0;0;0;
   0;0;0;0;0;0;0;0;0;0;0;0;0;0;0;0;0;128;0;0;0;0;0;2;0;0;0;0;0;0;0;0;0;0;0;0;0;0;0;0;252;255;3;0;0;0;0;0;0;
   0;0;0;0;0;0;0;0;192;0;0;0;0;0;0;0;0;0;0;0;0;0;0;0;0;0;0;0;0;0;0;0;48;255;255;255;3;127;0;255;255;255;255;
   247;255;127;15;0;0;0;0;0;0;0;0;0;0;0;0;0;0;0;0;0;128;254;255;0;252;1;0;0;248;1;0;0;248;63;0;0;0;0;0;0;0;
   0;0;0;0;0;0;0;0;127;127;0;48;135;255;255;255;255;255;143;255;0;0;0;0;0;0;224;255;255;7;255;15;0;0;0;0;0;
   0;255;255;255;255;255;63;0;0;0;0;15;0;0;0;0;0;0;0;0;0;0;0;0;0;0;128;0;0;0;0;0;0;1;0;0;0;0;0;0;0;0;0;0;0;
   0;0;0;0;128;255;0;0;0;0;0;0;0;0;0;0;0;0;0;0;0;0;0;0;0;0;0;0;192;143;0;0;0;128;0;0;0;0;0;0;0;0;0;0;0;0;0;
   0;0;0;0;0;0;0;0;0;0;0;0;0;0;0;0;0;0;135;255;0;255;1;0;0;0;224;0;0;0;0;0;0;0;0;0;0;0;0;0;0;0;0;0;0;0;0;0;
   0;0;254;0;0;0;255;0;0;0;255;0;0;0;0;0;0;0;0;0;0;0;0;0;0;0;0;0;0;0;0;0;0;0;0;0;0;0;0;255;255;255;127;0;0;
   0;0;0;0;0;0;0;0;0;0;0;0;0;0;0;0;0;0;0;0;0;0;192;63;252;255;63;0;0;0;3;0;0;0;0;0;0;254;3;0;0;0;0;0;0;0;0;
   0;0;0;0;0;24;0;15;0;0;0;0;0;0;0;0;0;0;0;0;0;0;0;225;1;0;0;0;0;0;0;0;0;0;0;0;0;0;0;0;0;0;0;0;0;0;0;0;0;0;
   0;0;0;192;0;0;0;0;0;0;0;0;0;0;0;0;0;0;0;0;0;0;0;0;0;0;0;15;0;0;0;0;0;0;0;0;0;0;0;0;0;0;0;0;0;0;0;0;0;0;0;
   0;0;0;0;0;0;0;0;0;0;0;128;7;0;0;0;0;0;0;0;0;0;0;0;0;0;255;255;255;255;255;255;255;255;255;255;255;255;
   255;255;255;255;255;255;255;255;255;255;255;255;255;255;255;255;255;255;63;0;255;255;255;255;127;254;255;
   255;255;255;255;255;255;255;255;255;255;255;255;255;255;255;255;255;255;255;255;63;0;0;0;0;255;255;255;
   255;255;255;255;255;63;0;0;0;0;0;0;0;0;0;0;0;0;0;0;0;0;0;0;0;0;0;0;0;255;255;255;255;255;255;255;255;255;
   255;127;0;255;255;3;0;0;0;0;0;0;0;0;0;0;0;0;0;0;0;0;0;0;0;0;0;0;0;0;0;0;0;0;0;0;0;0;0;0;0;0;0;0;0;0;0;2;
   0;0;8;0;0;0;8;0;0;32;0;0;0;32;0;0;128;0;0;0;128;0;0;0;2;0;0;0;2;0;0;8;0;0;0;0;0;0;0;0;0;0;0;0;0;0;0;0;0;
   0;0;0;0;0;0;0;0;0;0;0;0;0;0;0;0;0;0;0;0;3;0;255;255;255;255;255;15;255;255;255;255;255;255;255;255;255;
   255;255;255;15;0;255;127;254;127;254;255;254;255;0;0;0;0;255;7;255;255;255;127;255;255;255;255;255;255;
   255;15;255;255;255;255;255;7;0;0;0;0;0;0;0;0;192;255;255;255;7;0;255;255;255;255;255;7;255;1;3;0;0;0;0;0;
   0;0;0;0;0;0;0;0;0;0;0;0;0;0;0;0;255;255;255;255;1;0;191;255;255;255;255;255;255;255;255;31;255;255;15;0;
   255;255;255;255;223;7;0;0;255;255;1;0;255;255;255;255;255;255;255;127;253;255;255;255;255;255;255;255;
   255;255;255;255;255;255;255;255;255;255;255;255;255;255;255;30;255;255;255;255;255;255;255;63;15;0;255;
   255;255;0;0;0;0;0;0;0;0;0;0;0;0;0;0;0;0;0;0;248;255;255;255;255;255;255;255;255;225;255;0;0;0;0;0;0;255;
   255;255;255;255;255;255;255;63;0;0;0;0;0;0;0;255;255;255;255;255;255;255;255;255;255;255;255;255;255;15;
   0;0;0;0;0;0;0;0;0;0;0;0;0;0;0;0;0;84;33;34;25;13;1;2;3;17;75;28;12;16;4;11;29;18;30;39;104;110;111;112;
   113;98;32;5;6;15;19;20;21;26;8;22;7;40;36;23;24;9;10;14;27;31;37;35;131;130;125;38;42;43;60;61;62;63;67;
   71;74;77;88;89;90;91;92;93;94;95;96;97;99;100;101;102;103;105;106;107;108;114;115;116;121;122;123;124;0;
   73;108;108;101;103;97;108;32;98;121;116;101;32;115;101;113;117;101;110;99;101;0;68;111;109;97;105;110;32;
   101;114;114;111;114;0;82;101;115;117;108;116;32;110;111;116;32;114;101;112;114;101;115;101;110;116;97;98;
   108;101;0;78;111;116;32;97;32;116;116;121;0;80;101;114;109;105;115;115;105;111;110;32;100;101;110;105;
   101;100;0;79;112;101;114;97;116;105;111;110;32;110;111;116;32;112;101;114;109;105;116;116;101;100;0;78;
   111;32;115;117;99;104;32;102;105;108;101;32;111;114;32;100;105;114;101;99;116;111;114;121;0;78;111;32;
   115;117;99;104;32;112;114;111;99;101;115;115;0;70;105;108;101;32;101;120;105;115;116;115;0;86;97;108;117;
   101;32;116;111;111;32;108;97;114;103;101;32;102;111;114;32;100;97;116;97;32;116;121;112;101;0;78;111;32;
   115;112;97;99;101;32;108;101;102;116;32;111;110;32;100;101;118;105;99;101;0;79;117;116;32;111;102;32;109;
   101;109;111;114;121;0;82;101;115;111;117;114;99;101;32;98;117;115;121;0;73;110;116;101;114;114;117;112;
   116;101;100;32;115;121;115;116;101;109;32;99;97;108;108;0;82;101;115;111;117;114;99;101;32;116;101;109;
   112;111;114;97;114;105;108;121;32;117;110;97;118;97;105;108;97;98;108;101;0;73;110;118;97;108;105;100;32;
   115;101;101;107;0;67;114;111;115;115;45;100;101;118;105;99;101;32;108;105;110;107;0;82;101;97;100;45;111;
   110;108;121;32;102;105;108;101;32;115;121;115;116;101;109;0;68;105;114;101;99;116;111;114;121;32;110;111;
   116;32;101;109;112;116;121;0;67;111;110;110;101;99;116;105;111;110;32;114;101;115;101;116;32;98;121;32;
   112;101;101;114;0;79;112;101;114;97;116;105;111;110;32;116;105;109;101;100;32;111;117;116;0;67;111;110;
   110;101;99;116;105;111;110;32;114;101;102;117;115;101;100;0;72;111;115;116;32;105;115;32;100;111;119;110;
   0;72;111;115;116;32;105;115;32;117;110;114;101;97;99;104;97;98;108;101;0;65;100;100;114;101;115;115;32;
   105;110;32;117;115;101;0;66;114;111;107;101;110;32;112;105;112;101;0;73;47;79;32;101;114;114;111;114;0;
   78;111;32;115;117;99;104;32;100;101;118;105;99;101;32;111;114;32;97;100;100;114;101;115;115;0;66;108;111;
   99;107;32;100;101;118;105;99;101;32;114;101;113;117;105;114;101;100;0;78;111;32;115;117;99;104;32;100;
   101;118;105;99;101;0;78;111;116;32;97;32;100;105;114;101;99;116;111;114;121;0;73;115;32;97;32;100;105;
   114;101;99;116;111;114;121;0;84;101;120;116;32;102;105;108;101;32;98;117;115;121;0;69;120;101;99;32;102;
   111;114;109;97;116;32;101;114;114;111;114;0;73;110;118;97;108;105;100;32;97;114;103;117;109;101;110;116;
   0;65;114;103;117;109;101;110;116;32;108;105;115;116;32;116;111;111;32;108;111;110;103;0;83;121;109;98;
   111;108;105;99;32;108;105;110;107;32;108;111;111;112;0;70;105;108;101;110;97;109;101;32;116;111;111;32;
   108;111;110;103;0;84;111;111;32;109;97;110;121;32;111;112;101;110;32;102;105;108;101;115;32;105;110;32;
   115;121;115;116;101;109;0;78;111;32;102;105;108;101;32;100;101;115;99;114;105;112;116;111;114;115;32;97;
   118;97;105;108;97;98;108;101;0;66;97;100;32;102;105;108;101;32;100;101;115;99;114;105;112;116;111;114;0;
   78;111;32;99;104;105;108;100;32;112;114;111;99;101;115;115;0;66;97;100;32;97;100;100;114;101;115;115;0;
   70;105;108;101;32;116;111;111;32;108;97;114;103;101;0;84;111;111;32;109;97;110;121;32;108;105;110;107;
   115;0;78;111;32;108;111;99;107;115;32;97;118;97;105;108;97;98;108;101;0;82;101;115;111;117;114;99;101;32;
   100;101;97;100;108;111;99;107;32;119;111;117;108;100;32;111;99;99;117;114;0;83;116;97;116;101;32;110;111;
   116;32;114;101;99;111;118;101;114;97;98;108;101;0;80;114;101;118;105;111;117;115;32;111;119;110;101;114;
   32;100;105;101;100;0;79;112;101;114;97;116;105;111;110;32;99;97;110;99;101;108;101;100;0;70;117;110;99;
   116;105;111;110;32;110;111;116;32;105;109;112;108;101;109;101;110;116;101;100;0;78;111;32;109;101;115;
   115;97;103;101;32;111;102;32;100;101;115;105;114;101;100;32;116;121;112;101;0;73;100;101;110;116;105;102;
   105;101;114;32;114;101;109;111;118;101;100;0;68;101;118;105;99;101;32;110;111;116;32;97;32;115;116;114;
   101;97;109;0;78;111;32;100;97;116;97;32;97;118;97;105;108;97;98;108;101;0;68;101;118;105;99;101;32;116;
   105;109;101;111;117;116;0;79;117;116;32;111;102;32;115;116;114;101;97;109;115;32;114;101;115;111;117;114;
   99;101;115;0;76;105;110;107;32;104;97;115;32;98;101;101;110;32;115;101;118;101;114;101;100;0;80;114;111;
   116;111;99;111;108;32;101;114;114;111;114;0;66;97;100;32;109;101;115;115;97;103;101;0;70;105;108;101;32;
   100;101;115;99;114;105;112;116;111;114;32;105;110;32;98;97;100;32;115;116;97;116;101;0;78;111;116;32;97;
   32;115;111;99;107;101;116;0;68;101;115;116;105;110;97;116;105;111;110;32;97;100;100;114;101;115;115;32;
   114;101;113;117;105;114;101;100;0;77;101;115;115;97;103;101;32;116;111;111;32;108;97;114;103;101;0;80;
   114;111;116;111;99;111;108;32;119;114;111;110;103;32;116;121;112;101;32;102;111;114;32;115;111;99;107;
   101;116;0;80;114;111;116;111;99;111;108;32;110;111;116;32;97;118;97;105;108;97;98;108;101;0;80;114;111;
   116;111;99;111;108;32;110;111;116;32;115;117;112;112;111;114;116;101;100;0;83;111;99;107;101;116;32;116;
   121;112;101;32;110;111;116;32;115;117;112;112;111;114;116;101;100;0;78;111;116;32;115;117;112;112;111;
   114;116;101;100;0;80;114;111;116;111;99;111;108;32;102;97;109;105;108;121;32;110;111;116;32;115;117;112;
   112;111;114;116;101;100;0;65;100;100;114;101;115;115;32;102;97;109;105;108;121;32;110;111;116;32;115;117;
   112;112;111;114;116;101;100;32;98;121;32;112;114;111;116;111;99;111;108;0;65;100;100;114;101;115;115;32;
   110;111;116;32;97;118;97;105;108;97;98;108;101;0;78;101;116;119;111;114;107;32;105;115;32;100;111;119;
   110;0;78;101;116;119;111;114;107;32;117;110;114;101;97;99;104;97;98;108;101;0;67;111;110;110;101;99;116;
   105;111;110;32;114;101;115;101;116;32;98;121;32;110;101;116;119;111;114;107;0;67;111;110;110;101;99;116;
   105;111;110;32;97;98;111;114;116;101;100;0;78;111;32;98;117;102;102;101;114;32;115;112;97;99;101;32;97;
   118;97;105;108;97;98;108;101;0;83;111;99;107;101;116;32;105;115;32;99;111;110;110;101;99;116;101;100;0;
   83;111;99;107;101;116;32;110;111;116;32;99;111;110;110;101;99;116;101;100;0;67;97;110;110;111;116;32;115;
   101;110;100;32;97;102;116;101;114;32;115;111;99;107;101;116;32;115;104;117;116;100;111;119;110;0;79;112;
   101;114;97;116;105;111;110;32;97;108;114;101;97;100;121;32;105;110;32;112;114;111;103;114;101;115;115;0;
   79;112;101;114;97;116;105;111;110;32;105;110;32;112;114;111;103;114;101;115;115;0;83;116;97;108;101;32;
   102;105;108;101;32;104;97;110;100;108;101;0;82;101;109;111;116;101;32;73;47;79;32;101;114;114;111;114;0;
   81;117;111;116;97;32;101;120;99;101;101;100;101;100;0;78;111;32;109;101;100;105;117;109;32;102;111;117;
   110;100;0;87;114;111;110;103;32;109;101;100;105;117;109;32;116;121;112;101;0;78;111;32;101;114;114;111;
   114;32;105;110;102;111;114;109;97;116;105;111;110;0;0;105;110;102;105;110;105;116;121;0;255;255;255;255;
   255;255;255;255;255;255;255;255;255;255;255;255;255;255;255;255;255;255;255;255;255;255;255;255;255;255;
   255;255;255;255;255;255;255;255;255;255;255;255;255;255;255;255;255;255;255;0;1;2;3;4;5;6;7;8;9;255;255;
   255;255;255;255;255;10;11;12;13;14;15;16;17;18;19;20;21;22;23;24;25;26;27;28;29;30;31;32;33;34;35;255;
   255;255;255;255;255;10;11;12;13;14;15;16;17;18;19;20;21;22;23;24;25;26;27;28;29;30;31;32;33;34;35;255;
   255;255;255;255;255;255;255;255;255;255;255;255;255;255;255;255;255;255;255;255;255;255;255;255;255;255;
   255;255;255;255;255;255;255;255;255;255;255;255;255;255;255;255;255;255;255;255;255;255;255;255;255;255;
   255;255;255;255;255;255;255;255;255;255;255;255;255;255;255;255;255;255;255;255;255;255;255;255;255;255;
   255;255;255;255;255;255;255;255;255;255;255;255;255;255;255;255;255;255;255;255;255;255;255;255;255;255;
   255;255;255;255;255;255;255;255;255;255;255;255;255;255;255;255;255;255;255;255;255;255;255;255;255;255;
   255;255;0;1;2;4;7;3;6;5;0;47;112;114;111;99;47;115;101;108;102;47;102;100;47;0;67;46;85;84;70;45;56;0;
   114;119;97;0;119;43;0;0;0;0;0;0;0;0;0;0;0;0;0;0;0;0;0;0;0;0;0;47;116;109;112;0;47;116;109;112;47;116;37;
   120;45;37;120].

(** [n.q+175088]: 623 bytes. *)
Definition segment_175088 : list Z :=
  [17;0;10;0;17;17;17;0;0;0;0;5;0;0;0;0;0;0;9;0;0;0;0;11;0;0;0;0;0;0;0;0;17;0;15;10;17;17;17;3;10;7;0;1;19;
   9;11;11;0;0;9;6;11;0;0;11;0;6;17;0;0;0;17;17;17;0;0;0;0;0;0;0;0;0;0;0;0;0;0;0;0;11;0;0;0;0;0;0;0;0;17;0;
   10;10;17;17;17;0;10;0;0;2;0;9;11;0;0;0;9;0;11;0;0;11;0;0;0;0;0;0;0;0;0;0;0;0;0;0;0;0;0;0;0;0;0;0;0;0;0;
   12;0;0;0;0;0;0;0;0;0;0;0;12;0;0;0;0;12;0;0;0;0;9;12;0;0;0;0;0;12;0;0;12;0;0;0;0;0;0;0;0;0;0;0;0;0;0;0;0;
   0;0;0;0;0;0;0;0;0;14;0;0;0;0;0;0;0;0;0;0;0;13;0;0;0;4;13;0;0;0;0;9;14;0;0;0;0;0;14;0;0;14;0;0;0;0;0;0;0;
   0;0;0;0;0;0;0;0;0;0;0;0;0;0;0;0;0;0;16;0;0;0;0;0;0;0;0;0;0;0;15;0;0;0;0;15;0;0;0;0;9;16;0;0;0;0;0;16;0;0;
   16;0;0;18;0;0;0;18;18;18;0;0;0;0;0;0;0;0;0;0;0;0;0;0;0;0;0;0;0;0;0;0;0;0;0;18;0;0;0;18;18;18;0;0;0;0;0;0;
   9;0;0;0;0;0;0;0;0;0;0;0;0;0;0;0;0;0;0;0;0;0;0;0;0;0;0;0;0;0;0;0;0;0;0;0;11;0;0;0;0;0;0;0;0;0;0;0;10;0;0;
   0;0;10;0;0;0;0;9;11;0;0;0;0;0;11;0;0;11;0;0;0;0;0;0;0;0;0;0;0;0;0;0;0;0;0;0;0;0;0;0;0;0;0;12;0;0;0;0;0;0;
   0;0;0;0;0;12;0;0;0;0;12;0;0;0;0;9;12;0;0;0;0;0;12;0;0;12;0;0;48;49;50;51;52;53;54;55;56;57;65;66;67;68;
   69;70;45;43;32;32;32;48;88;48;120;0;40;110;117;108;108;41;0;45;48;88;43;48;88;32;48;88;45;48;120;43;48;
   120;32;48;120;0;105;110;102;0;73;78;70;0;110;97;110;0;78;65;78;0;46;0;9;0;10;0;13;0;12;0;7;0;27;0;91;91;
   58;97;108;110;117;109;58;93;95;93;0;91;94;91;58;97;108;110;117;109;58;93;95;93;0;91;91;58;115;112;97;99;
   101;58;93;93;0;91;94;91;58;115;112;97;99;101;58;93;93;0;91;91;58;100;105;103;105;116;58;93;93;0;91;94;91;
   58;100;105;103;105;116;58;93;93;0].
