(* ===== verification/VizRuntime.v ===== *)
(** * The runtime of viz-lite.js

    [src/example/servicegraph/js/viz/viz-lite.js], the viewer of the service
    graph example: the helpers of the JavaScript runtime that carries the
    Graphviz object code (UTF-8 conversion [Ca], [Xa]; path functions [mb],
    [nb], [pb], [rb], [sb]; the name hash [Lb]; integer helpers [Math.imul],
    [Math.clz32]; stack allocation and memory sizing), and the [Viz] entry
    points.  The object code itself (the [asm.js] function) is a parameter.

    A JavaScript string is its list of UTF-16 code units. *)

From Stdlib Require Import ZArith Lia List String Ascii.
From stdpp Require Import base list.
From S2P Require Import Prelude.

Open Scope Z_scope.

Definition jsstr : Type := list Z.

(** A string literal of the source. *)
Definition js (s : string) : jsstr := (fun c => Z.of_nat (Ascii.nat_of_ascii c)) <$> String.list_ascii_of_string s.

(** [String.fromCharCode] keeps the low 16 bits of each argument. *)
Definition u16 (z : Z) : Z := z mod 65536.
Definition fromCharCode (cs : list Z) : jsstr := u16 <$> cs.

(** Array and string access out of range is [undefined] or [NaN], which the bit
    operators take for 0. *)
Definition at0 (l : list Z) : Z := match l with [] => 0 | x :: _ => x end.

(** ** UTF-8 ([Ca], [Xa], [sa]) *)

(** One character of [Ca], of first byte [c] with the high bit set, the bytes
    [a] following: the code units it adds and the bytes left. *)
Definition Ca_multi (c : Z) (a : list Z) : jsstr * list Z :=
  let cont l := Z.land (at0 l) 63 in
  let d := cont a in
  let a1 := tail a in
  if Z.land c 224 =? 192
  then (fromCharCode [Z.lor (Z.shiftl (Z.land c 31) 6) d], a1)
  else
    let f := cont a1 in
    let a2 := tail a1 in
    let '(code, rest) :=
      if Z.land c 240 =? 224
      then (Z.lor (Z.lor (Z.shiftl (Z.land c 15) 12) (Z.shiftl d 6)) f, a2)
      else
        let g := cont a2 in
        let a3 := tail a2 in
        if Z.land c 248 =? 240
        then (Z.lor (Z.lor (Z.lor (Z.shiftl (Z.land c 7) 18) (Z.shiftl d 12)) (Z.shiftl f 6)) g, a3)
        else
          let k := cont a3 in
          let a4 := tail a3 in
          if Z.land c 252 =? 248
          then
            (Z.lor (Z.lor (Z.lor (Z.lor (Z.shiftl (Z.land c 3) 24) (Z.shiftl d 18)) (Z.shiftl f 12))
                      (Z.shiftl g 6)) k, a4)
          else
            let h := cont a4 in
            (Z.lor (Z.lor (Z.lor (Z.lor (Z.lor (Z.shiftl (Z.land c 1) 30) (Z.shiftl d 24)) (Z.shiftl f 18))
                             (Z.shiftl g 12)) (Z.shiftl k 6)) h, tail a4)
    in
    if code <? 65536 then (fromCharCode [code], rest)
    else
      let code := code - 65536 in
      (fromCharCode [Z.lor 55296 (Z.shiftr code 10); Z.lor 56320 (Z.land code 1023)], rest).

(** [Ca], from the byte at the index: up to a zero byte or the end. *)
Fixpoint Ca_loop (fuel : nat) (a : list Z) : jsstr :=
  match fuel with
  | O => []
  | S fuel' =>
      match a with
      | [] => []
      | c :: a1 =>
          if c =? 0 then []
          else if Z.land c 128 =? 0 then fromCharCode [c] ++ Ca_loop fuel' a1
          else let '(u, rest) := Ca_multi c a1 in u ++ Ca_loop fuel' rest
      end
  end.

Definition Ca (a : list Z) : jsstr := Ca_loop (length a) a.

(** The code point at the head of a string, as [Xa] reads it: a surrogate is
    combined with the unit that follows. *)
Definition next_char (s : jsstr) : Z * jsstr :=
  match s with
  | [] => (0, [])
  | f :: s' =>
      if (55296 <=? f) && (f <=? 57343)
      then (Z.lor (65536 + Z.shiftl (Z.land f 1023) 10) (Z.land (at0 s') 1023), tail s')
      else (f, s')
  end.

Definition char_size (f : Z) : Z :=
  if f <=? 127 then 1 else if f <=? 2047 then 2 else if f <=? 65535 then 3
  else if f <=? 2097151 then 4 else if f <=? 67108863 then 5 else 6.

(** The first loop of [Xa]: the number of bytes. *)
Fixpoint utf8_count (fuel : nat) (s : jsstr) (c : Z) : Z :=
  match fuel, s with
  | S fuel', _ :: _ => let '(f, s') := next_char s in utf8_count fuel' s' (c + char_size f)
  | _, _ => c
  end.

(** The bytes [Xa] stores for a code point, in the order it stores them. *)
Definition char_bytes (h : Z) : list Z :=
  let low k := Z.lor 128 (Z.land (Z.shiftr h k) 63) in
  if h <=? 127 then [h]
  else if h <=? 2047 then [Z.lor 192 (Z.shiftr h 6); low 0]
  else if h <=? 65535 then [Z.lor 224 (Z.shiftr h 12); low 6; low 0]
  else if h <=? 2097151 then [Z.lor 240 (Z.shiftr h 18); low 12; low 6; low 0]
  else if h <=? 67108863 then [Z.lor 248 (Z.shiftr h 24); low 18; low 12; low 6; low 0]
  else [Z.lor 252 (Z.shiftr h 30); low 24; low 18; low 12; low 6; low 0].

(** The second loop of [Xa]: it stops before a character that does not fit
    below the index [g]; [out] is what is stored so far. *)
Fixpoint utf8_fill (fuel : nat) (g : Z) (s : jsstr) (out : list Z) : list Z :=
  match fuel, s with
  | S fuel', _ :: _ =>
      let '(h, s') := next_char s in
      if g <=? zlength out + char_size h - 1 then out
      else utf8_fill fuel' g s' (out ++ char_bytes h)
  | _, _ => out
  end.

(** [Xa(a, b)]: an array of the counted length plus one, filled and ended with
    a zero; the slots never stored to are holes.  With [b] the zero is cut. *)
Definition Xa (a : jsstr) (b : bool) : list (option Z) :=
  let c := utf8_count (length a) a 0 in
  let d := utf8_fill (length a) c a [] in
  if b then Some <$> d
  else (Some <$> (d ++ [0])) ++ replicate (Z.to_nat (c - zlength d)) None.

Example Xa_euro : Xa (js "a" ++ [8364]) false = [Some 97; Some 226; Some 130; Some 172; Some 0].
Proof. reflexivity. Qed.
Example Ca_clef : Ca [240; 157; 132; 158; 0; 65] = [55348; 56606].
Proof. reflexivity. Qed.

(** ** Paths ([mb], [nb], [pb], [rb], [sb]) *)

Definition slash : Z := 47.
Definition dot1 : jsstr := js ".".
Definition dot2 : jsstr := js "..".

(** [s.split("/")]: at least one part. *)
Fixpoint split_slash (s : jsstr) : list jsstr :=
  match s with
  | [] => [[]]
  | c :: s' =>
      if c =? slash then [] :: split_slash s'
      else match split_slash s' with [] => [[c]] | p :: ps => (c :: p) :: ps end
  end.

Definition nonempty (p : jsstr) : bool := match p with [] => false | _ => true end.

(** [.filter(function(a){return!!a})] *)
Definition parts (s : jsstr) : list jsstr := List.filter nonempty (split_slash s).

Fixpoint join (ps : list jsstr) : jsstr :=
  match ps with
  | [] => []
  | [p] => p
  | p :: ps' => p ++ slash :: join ps'
  end.

(** One step of the loop of [mb], from the last part to the first; [c] counts
    the pending [..]. *)
Definition mb_step (f : jsstr) (st : list jsstr * nat) : list jsstr * nat :=
  let '(a, c) := st in
  if decide (f = dot1) then (a, c)
  else if decide (f = dot2) then (a, S c)
  else match c with O => (f :: a, O) | S c' => (a, c') end.

Definition mb (a : list jsstr) (b : bool) : list jsstr :=
  let '(a, c) := foldr mb_step ([], O) a in
  if b then replicate c dot2 ++ a else a.

Definition starts_slash (a : jsstr) : bool := match a with c :: _ => c =? slash | [] => false end.
Definition ends_slash (a : jsstr) : bool := match last a with Some c => c =? slash | None => false end.

Definition nb (a : jsstr) : jsstr :=
  let b := starts_slash a in
  let c := ends_slash a in
  let a := join (mb (parts a) (negb b)) in
  let a := if nonempty a || b then a else dot1 in
  let a := if nonempty a && c then a ++ [slash] else a in
  (if b then [slash] else []) ++ a.

(** [pb]: the part after the last slash. *)
Fixpoint pb_loop (a : jsstr) (best : jsstr) : jsstr :=
  match a with
  | [] => best
  | c :: a' => pb_loop a' (if c =? slash then a' else best)
  end.
Definition pb (a : jsstr) : jsstr := if decide (a = [slash]) then [slash] else pb_loop a a.

Definition rb (a b : jsstr) : jsstr := nb (a ++ slash :: b).

(** The loop of [sb] over the arguments from the last to the first, then ["/"]:
    the joined path, or [None] when an argument is the empty string. *)
Fixpoint sb_loop (rargs : list jsstr) (a : jsstr) : option (jsstr * bool) :=
  match rargs with
  | [] => Some ([slash] ++ slash :: a, true)
  | b :: rargs' =>
      if nonempty b then
        let a := b ++ slash :: a in
        if starts_slash b then Some (a, true) else sb_loop rargs' a
      else None
  end.

Definition sb (args : list jsstr) : jsstr :=
  match sb_loop (rev args) [] with
  | None => []
  | Some (a, b) =>
      let a := join (mb (parts a) (negb b)) in
      let r := (if b : bool then [slash] else []) ++ a in
      if nonempty r then r else dot1
  end.

Example nb_ex : nb (js "/a/./b//../c/") = js "/a/c/".
Proof. reflexivity. Qed.
Example sb_ex : sb [js "/home"; js "../x"; js "y"] = js "/x/y".
Proof. reflexivity. Qed.

(** ** Hashing of names ([Lb]) *)

(** [c=(c<<5)-c+b.charCodeAt(d)|0]; [O.length] is 4096. *)
Definition Lb (a : Z) (b : jsstr) : Z :=
  let c := foldl (fun c x => i32 (i32 (Z.shiftl c 5) - c + x)) 0 b in
  u32 (a + c) mod 4096.

(** ** Integers *)

(** [Math.imul], the replacement used when the engine has none. *)
Definition imul (a b : Z) : Z :=
  let c := Z.land a 65535 in
  let d := Z.land b 65535 in
  i32 (c * d + i32 (Z.shiftl (i32 (Z.shiftr (u32 a) 16 * d + c * Z.shiftr (u32 b) 16)) 16)).

(** [Math.clz32]: the loop from the top bit. *)
Fixpoint clz32_loop (n : nat) (a : Z) (b : Z) : Z :=
  match n with
  | O => 32
  | S n' => if Z.land a (Z.shiftl 1 (31 - b)) =? 0 then clz32_loop n' a (b + 1) else b
  end.
Definition clz32 (a : Z) : Z := clz32_loop 32 (u32 a) 0.

(** ** Allocation *)

(** [n.na(a, b)]: [a] rounded up to a multiple of [b], 16 by default. *)
Definition align (a : Z) (b : option Z) : Z :=
  let b := default 16 b in (a + b - 1) / b * b.

(** [n.ia(a)] (and [n.mb], [n.ba] without the bound): bump allocation; the new
    top is rounded up to 16. *)
Definition stack_alloc (m a : Z) : Z * Z :=
  let top := i32 (m + a) in (m, Z.land (i32 (top + 15)) (-16)).

(** The loop that sizes the memory: [ma] is the requested total, [Pa] the stack. *)
Fixpoint memory_loop (fuel : nat) (G ma Pa : Z) : Z :=
  match fuel with
  | O => G
  | S fuel' =>
      if (G <? ma) || (G <? 2 * Pa)
      then memory_loop fuel' (if G <? 16777216 then 2 * G else G + 16777216) ma Pa
      else G
  end.

(** ** The entry points *)

(** [options]: a missing field is [undefined]. *)
Record options : Type := mkOptions {
  o_format : option jsstr;
  o_engine : option jsstr;
  o_scale : option Z;
  o_totalMemory : option Z
}.

(** What [Viz] returns: the rendered text, or an image made from SVG. *)
Inductive viz_result : Type :=
| RText (s : jsstr)
| RImage (svg : jsstr) (scale : option Z).

Section Viz.
(** The object code: the result and the last error message of rendering a
    source in a format with a layout engine, in a memory of a size. *)
Context (graphviz : option Z → jsstr → jsstr → jsstr → jsstr * jsstr).

Definition render (src format engine : jsstr) (totalMemory : option Z) : go jsstr jsstr :=
  let '(resultString, errorMessageString) := graphviz totalMemory src format engine in
  if decide (errorMessageString ≠ []) then GoErr errorMessageString else GoRet resultString.

Definition Viz (src : jsstr) (opts : option options) : go jsstr viz_result :=
  let o := default (mkOptions None None None None) opts in
  let format := default (js "svg") (o_format o) in
  let engine := default (js "dot") (o_engine o) in
  if decide (format = js "png-image-element")
  then let! svg := render src (js "svg") engine (o_totalMemory o) in GoRet (RImage svg (o_scale o))
  else let! s := render src format engine (o_totalMemory o) in GoRet (RText s).
End Viz.
