(* ===== verification/VizFacts.v ===== *)
(** * Properties of the viewer runtime

    UTF-8 conversion is a round trip, path normalisation yields normal forms,
    the integer helpers agree with their mathematical meaning, allocation stays
    aligned, and the entry points report errors. *)

From Stdlib Require Import ZArith Lia List.
From stdpp Require Import base list.
From S2P Require Import Prelude VizRuntime.

Open Scope Z_scope.

(** ** Bits as arithmetic *)

Lemma lor_shiftl_add x y n :
  0 <= n → 0 <= y < 2 ^ n → Z.lor (Z.shiftl x n) y = x * 2 ^ n + y.
Proof.
  intros Hn Hy. rewrite <- Z.shiftl_mul_pow2 by done. symmetry. apply Z.add_nocarry_lor.
  apply Z.bits_inj'. intros k Hk. rewrite Z.land_spec, Z.bits_0, Z.shiftl_spec by done.
  destruct (Z.lt_ge_cases k n); [by rewrite Z.testbit_neg_r by lia|].
  destruct (Z.eq_dec y 0) as [->|]; [by rewrite Z.bits_0, andb_false_r|].
  assert (Z.log2 y < n) by (apply Z.log2_lt_pow2; lia).
  rewrite (Z.bits_above_log2 y) by lia. by rewrite andb_false_r.
Qed.

(** A boolean property of all integers below a bound, by evaluation. *)
Lemma below_check (N : nat) (P : Z → bool) :
  forallb (fun k => P (Z.of_nat k)) (seq 0 N) = true → ∀ x, 0 <= x < Z.of_nat N → P x = true.
Proof.
  rewrite forallb_forall. intros H x Hx. rewrite <- (Z2Nat.id x) by lia. apply H.
  apply in_seq. lia.
Qed.

Ltac below N P :=
  let H := fresh in
  pose proof (below_check N P ltac:(vm_compute; reflexivity)) as H; cbv beta in H.

Lemma low6 h : Z.land h 63 = h mod 64.
Proof. change 63 with (Z.ones 6). by rewrite Z.land_ones by lia. Qed.
Lemma low10 h : Z.land h 1023 = h mod 1024.
Proof. change 1023 with (Z.ones 10). by rewrite Z.land_ones by lia. Qed.

(** A continuation byte gives its six bits back. *)
Lemma cont_byte h :
  0 <= h → Z.land (Z.lor 128 (Z.land h 63)) 63 = h mod 64.
Proof.
  intros Hh. rewrite (low6 h).
  below 64%nat (fun x => Z.land (Z.lor 128 x) 63 =? x). apply Z.eqb_eq, H. pose proof (Z.mod_pos_bound h 64). lia.
Qed.

(** The leading bytes: their tests and payloads. *)
Lemma lead2 x : 0 <= x < 32 →
  (Z.lor 192 x =? 0) = false ∧ (Z.land (Z.lor 192 x) 128 =? 0) = false ∧
  (Z.land (Z.lor 192 x) 224 =? 192) = true ∧ Z.land (Z.lor 192 x) 31 = x.
Proof.
  intros Hx. below 32%nat (fun x => negb (Z.lor 192 x =? 0) && negb (Z.land (Z.lor 192 x) 128 =? 0) &&
    (Z.land (Z.lor 192 x) 224 =? 192) && (Z.land (Z.lor 192 x) 31 =? x)).
  specialize (H x Hx). rewrite !andb_true_iff, !negb_true_iff in H. destruct_and!. split_and!; try done. by apply Z.eqb_eq.
Qed.

Lemma lead3 x : 0 <= x < 16 →
  (Z.lor 224 x =? 0) = false ∧ (Z.land (Z.lor 224 x) 128 =? 0) = false ∧
  (Z.land (Z.lor 224 x) 224 =? 192) = false ∧ (Z.land (Z.lor 224 x) 240 =? 224) = true ∧
  Z.land (Z.lor 224 x) 15 = x.
Proof.
  intros Hx. below 16%nat (fun x => negb (Z.lor 224 x =? 0) && negb (Z.land (Z.lor 224 x) 128 =? 0) &&
    negb (Z.land (Z.lor 224 x) 224 =? 192) && (Z.land (Z.lor 224 x) 240 =? 224) && (Z.land (Z.lor 224 x) 15 =? x)).
  specialize (H x Hx). rewrite !andb_true_iff, !negb_true_iff in H. destruct_and!. split_and!; try done. by apply Z.eqb_eq.
Qed.

Lemma lead4 x : 0 <= x < 8 →
  (Z.lor 240 x =? 0) = false ∧ (Z.land (Z.lor 240 x) 128 =? 0) = false ∧
  (Z.land (Z.lor 240 x) 224 =? 192) = false ∧ (Z.land (Z.lor 240 x) 240 =? 224) = false ∧
  (Z.land (Z.lor 240 x) 248 =? 240) = true ∧ Z.land (Z.lor 240 x) 7 = x.
Proof.
  intros Hx. below 8%nat (fun x => negb (Z.lor 240 x =? 0) && negb (Z.land (Z.lor 240 x) 128 =? 0) &&
    negb (Z.land (Z.lor 240 x) 224 =? 192) && negb (Z.land (Z.lor 240 x) 240 =? 224) &&
    (Z.land (Z.lor 240 x) 248 =? 240) && (Z.land (Z.lor 240 x) 7 =? x)).
  specialize (H x Hx). rewrite !andb_true_iff, !negb_true_iff in H. destruct_and!. split_and!; try done. by apply Z.eqb_eq.
Qed.

(** Two and three groups of six bits below a leading group. *)
Lemma groups3 a d f :
  0 <= d < 64 → 0 <= f < 64 →
  Z.lor (Z.lor (Z.shiftl a 12) (Z.shiftl d 6)) f = (a * 64 + d) * 64 + f.
Proof.
  intros Hd Hf. replace (Z.shiftl a 12) with (Z.shiftl (Z.shiftl a 6) 6) by (by rewrite Z.shiftl_shiftl).
  rewrite <- Z.shiftl_lor, !lor_shiftl_add by (change (2 ^ 6) with 64; lia). by change (2 ^ 6) with 64.
Qed.

Lemma groups4 a d f g :
  0 <= d < 64 → 0 <= f < 64 → 0 <= g < 64 →
  Z.lor (Z.lor (Z.lor (Z.shiftl a 18) (Z.shiftl d 12)) (Z.shiftl f 6)) g = ((a * 64 + d) * 64 + f) * 64 + g.
Proof.
  intros Hd Hf Hg. replace (Z.shiftl a 18) with (Z.shiftl (Z.shiftl a 12) 6) by (by rewrite Z.shiftl_shiftl).
  replace (Z.shiftl d 12) with (Z.shiftl (Z.shiftl d 6) 6) by (by rewrite Z.shiftl_shiftl).
  rewrite <- !Z.shiftl_lor, lor_shiftl_add, groups3 by (change (2 ^ 6) with 64; lia). by change (2 ^ 6) with 64.
Qed.

(** ** UTF-8 *)

(** The code units of a code point. *)
Definition units (h : Z) : jsstr :=
  if h <? 65536 then [h] else [Z.lor 55296 (Z.shiftr (h - 65536) 10); Z.lor 56320 (Z.land (h - 65536) 1023)].

Lemma u16_id z : 0 <= z < 65536 → u16 z = z.
Proof. intros. by apply Z.mod_small. Qed.

Lemma shiftr_div h n : 0 <= n → Z.shiftr h n = h / 2 ^ n.
Proof. apply Z.shiftr_div_pow2. Qed.

Lemma surrogates h : 65536 <= h < 1114112 →
  fromCharCode [Z.lor 55296 (Z.shiftr (h - 65536) 10); Z.lor 56320 (Z.land (h - 65536) 1023)] =
  [Z.lor 55296 (Z.shiftr (h - 65536) 10); Z.lor 56320 (Z.land (h - 65536) 1023)].
Proof.
  intros Hh. unfold fromCharCode. cbn [fmap list_fmap]. rewrite shiftr_div, low10 by lia. change (2 ^ 10) with 1024.
  below 1024%nat (fun x => (u16 (Z.lor 55296 x) =? Z.lor 55296 x) && (u16 (Z.lor 56320 x) =? Z.lor 56320 x)).
  assert (0 <= (h - 65536) / 1024 < 1024) as H1.
  { split; [apply Z.div_pos; lia|apply Z.div_lt_upper_bound; lia]. }
  pose proof (Z.mod_pos_bound (h - 65536) 1024 ltac:(lia)) as H2.
  pose proof (H _ H1) as H3. pose proof (H _ H2) as H4. rewrite andb_true_iff, !Z.eqb_eq in H3, H4.
  destruct H3 as [-> _], H4 as [_ ->]. done.
Qed.

Lemma units_fromCharCode h : 0 <= h < 1114112 → fromCharCode (units h) = units h.
Proof.
  intros Hh. unfold units. destruct (Z.ltb_spec h 65536); [|apply surrogates; lia].
  unfold fromCharCode. cbn. by rewrite u16_id by lia.
Qed.

(** Decoding the bytes of one code point. *)
Lemma Ca_char h rest fuel :
  0 < h < 1114112 →
  Ca_loop (S fuel) (char_bytes h ++ rest) = units h ++ Ca_loop fuel rest.
Proof.
  intros Hh. unfold char_bytes.
  destruct (Z.leb_spec h 127) as [H1|H1].
  { cbn [app Ca_loop]. destruct (Z.eqb_spec h 0); [lia|].
    below 128%nat (fun x => Z.land x 128 =? 0). rewrite H by lia.
    unfold units, fromCharCode. destruct (Z.ltb_spec h 65536); [|lia]. cbn. by rewrite u16_id by lia. }
  destruct (Z.leb_spec h 2047) as [H2|H2].
  { rewrite !shiftr_div by lia. change (2 ^ 0) with 1. rewrite Z.div_1_r. change (2 ^ 6) with 64.
    assert (0 <= h / 64 < 32) as Hx by (split; [apply Z.div_pos; lia|apply Z.div_lt_upper_bound; lia]).
    destruct (lead2 _ Hx) as (E0 & E1 & E2 & E3). cbn [app Ca_loop]. rewrite E0, E1.
    unfold Ca_multi. cbn [at0 tail]. rewrite E2, E3, cont_byte by lia.
    pose proof (Z.mod_pos_bound h 64 ltac:(lia)).
    rewrite lor_shiftl_add by (change (2 ^ 6) with 64; lia). change (2 ^ 6) with 64.
    replace (h / 64 * 64 + h mod 64) with h by (pose proof (Z.div_mod h 64); lia).
    unfold units, fromCharCode. destruct (Z.ltb_spec h 65536); [|lia]. cbn. by rewrite u16_id by lia. }
  destruct (Z.leb_spec h 65535) as [H3|H3].
  { rewrite !shiftr_div by lia. change (2 ^ 0) with 1. rewrite Z.div_1_r. change (2 ^ 6) with 64. change (2 ^ 12) with 4096.
    assert (0 <= h / 4096 < 16) as Hx by (split; [apply Z.div_pos; lia|apply Z.div_lt_upper_bound; lia]).
    destruct (lead3 _ Hx) as (E0 & E1 & E2 & E3 & E4). cbn [app Ca_loop]. rewrite E0, E1.
    unfold Ca_multi. cbn [at0 tail]. rewrite E2, E3, E4, !cont_byte by (lia || (apply Z.div_pos; lia)).
    pose proof (Z.mod_pos_bound h 64 ltac:(lia)). pose proof (Z.mod_pos_bound (h / 64) 64 ltac:(lia)).
    rewrite groups3 by done.
    assert ((h / 4096 * 64 + h / 64 mod 64) * 64 + h mod 64 = h) as ->.
    { pose proof (Z.div_mod h 64). pose proof (Z.div_mod (h / 64) 64).
      rewrite (Z.div_div h 64 64) in * by lia. change (64 * 64) with 4096 in *. lia. }
    destruct (Z.ltb_spec h 65536); [|lia].
    unfold units, fromCharCode. destruct (Z.ltb_spec h 65536); [|lia]. cbn. by rewrite u16_id by lia. }
  destruct (Z.leb_spec h 2097151) as [H4|H4]; [|lia].
  rewrite !shiftr_div by lia. change (2 ^ 0) with 1. rewrite Z.div_1_r.
  change (2 ^ 6) with 64. change (2 ^ 12) with 4096. change (2 ^ 18) with 262144.
  assert (0 <= h / 262144 < 8) as Hx by (split; [apply Z.div_pos; lia|apply Z.div_lt_upper_bound; lia]).
  destruct (lead4 _ Hx) as (E0 & E1 & E2 & E3 & E4 & E5). cbn [app Ca_loop]. rewrite E0, E1.
  unfold Ca_multi. cbn [at0 tail]. rewrite E2, E3, E4, E5, !cont_byte by (lia || (apply Z.div_pos; lia)).
  pose proof (Z.mod_pos_bound h 64 ltac:(lia)). pose proof (Z.mod_pos_bound (h / 64) 64 ltac:(lia)).
  pose proof (Z.mod_pos_bound (h / 4096) 64 ltac:(lia)). rewrite groups4 by done.
  assert (((h / 262144 * 64 + h / 4096 mod 64) * 64 + h / 64 mod 64) * 64 + h mod 64 = h) as ->.
  { pose proof (Z.div_mod h 64). pose proof (Z.div_mod (h / 64) 64). pose proof (Z.div_mod (h / 4096) 64).
    rewrite (Z.div_div h 64 64) in * by lia. change (64 * 64) with 4096 in *.
    rewrite (Z.div_div h 4096 64) in * by lia. change (4096 * 64) with 262144 in *. lia. }
  destruct (Z.ltb_spec h 65536); [lia|]. rewrite surrogates by lia.
  unfold units. destruct (Z.ltb_spec h 65536); [lia|]. done.
Qed.

(** A well-formed UTF-16 string without NUL. *)
Fixpoint wf16 (s : jsstr) : bool :=
  match s with
  | [] => true
  | f :: s' =>
      if (55296 <=? f) && (f <=? 56319)
      then match s' with l :: s2 => (56320 <=? l) && (l <=? 57343) && wf16 s2 | [] => false end
      else (0 <? f) && (f <=? 65535) && negb ((56320 <=? f) && (f <=? 57343)) && wf16 s'
  end.

(** The characters of a string, as [Xa] walks it, and their bytes. *)
Fixpoint chars (fuel : nat) (s : jsstr) : list Z :=
  match fuel, s with
  | S fuel', _ :: _ => let '(f, s') := next_char s in f :: chars fuel' s'
  | _, _ => []
  end.

Lemma char_size_bytes f : zlength (char_bytes f) = char_size f.
Proof. unfold char_bytes, char_size. repeat case_inner; done. Qed.

Lemma char_size_pos f : 1 <= char_size f.
Proof. unfold char_size. repeat case_inner; lia. Qed.

Definition utf8_bytes (cs : list Z) : list Z := concat (char_bytes <$> cs).

Lemma utf8_count_spec fuel s c :
  utf8_count fuel s c = c + zlength (utf8_bytes (chars fuel s)).
Proof.
  revert s c. induction fuel as [|fuel IH]; intros s c; [simpl; autorewrite with zlist; lia|].
  destruct s as [|f s]; [simpl; autorewrite with zlist; lia|]. cbn [utf8_count chars].
  destruct (next_char (f :: s)) as [h s'] eqn:E. rewrite IH. unfold utf8_bytes. cbn [fmap list_fmap concat].
  rewrite zlength_app, char_size_bytes. lia.
Qed.

(** The bound check of the second loop never cuts the string short. *)
Lemma utf8_fill_spec fuel s out g :
  zlength out + zlength (utf8_bytes (chars fuel s)) <= g →
  utf8_fill fuel g s out = out ++ utf8_bytes (chars fuel s).
Proof.
  revert s out. induction fuel as [|fuel IH]; intros s out Hg; [by rewrite app_nil_r|].
  destruct s as [|f s]; [by rewrite app_nil_r|]. cbn [utf8_fill chars] in *.
  destruct (next_char (f :: s)) as [h s'] eqn:E. unfold utf8_bytes in *. cbn [fmap list_fmap concat] in *.
  rewrite zlength_app, char_size_bytes in Hg. pose proof (zlength_nonneg (concat (char_bytes <$> chars fuel s'))).
  destruct (Z.leb_spec g (zlength out + char_size h - 1)); [lia|].
  rewrite IH; [by rewrite <- app_assoc|]. rewrite zlength_app, char_size_bytes. lia.
Qed.

Lemma Xa_bytes a b :
  Xa a b = Some <$> (utf8_bytes (chars (length a) a) ++ if b then [] else [0]).
Proof.
  unfold Xa. rewrite utf8_count_spec, Z.add_0_l, utf8_fill_spec by (autorewrite with zlist; lia).
  rewrite app_nil_l. destruct b; [by rewrite app_nil_r|]. rewrite Z.sub_diag. by rewrite app_nil_r.
Qed.

Lemma next_char_wf s : wf16 s = true → s ≠ [] →
  ∃ h s', next_char s = (h, s') ∧ 0 < h < 1114112 ∧ units h ++ s' = s ∧ wf16 s' = true ∧ (length s' < length s)%nat.
Proof.
  destruct s as [|f s]; [done|]. intros Hwf _. cbn [wf16] in Hwf. cbn [next_char].
  destruct ((55296 <=? f) && (f <=? 56319)) eqn:Ef.
  - apply andb_true_iff in Ef as [Ef1%Z.leb_le Ef2%Z.leb_le]. destruct s as [|l s]; [done|].
    rewrite !andb_true_iff in Hwf. destruct Hwf as [[Hl1%Z.leb_le Hl2%Z.leb_le] Hwf].
    destruct (Z.leb_spec 55296 f); [|lia]. destruct (Z.leb_spec f 57343); [|lia]. cbn [andb at0 tail].
    set (x := f - 55296). set (y := l - 56320).
    assert (Z.land f 1023 = x) as -> by (rewrite low10; unfold x; replace f with (x + 54 * 1024) by (unfold x; lia);
      rewrite Z.mod_add by lia; rewrite Z.mod_small; unfold x; lia).
    assert (Z.land l 1023 = y) as -> by (rewrite low10; unfold y; replace l with (y + 55 * 1024) by (unfold y; lia);
      rewrite Z.mod_add by lia; rewrite Z.mod_small; unfold y; lia).
    assert (Z.lor (65536 + Z.shiftl x 10) y = 65536 + x * 1024 + y) as ->.
    { replace (65536 + Z.shiftl x 10) with (Z.shiftl (64 + x) 10) by (rewrite !Z.shiftl_mul_pow2 by lia; lia).
      rewrite lor_shiftl_add by (change (2 ^ 10) with 1024; unfold y; lia). change (2 ^ 10) with 1024. lia. }
    eexists _, s. split; [done|]. split; [unfold x, y; lia|]. split; [|split; [done|simpl; lia]].
    unfold units. destruct (Z.ltb_spec (65536 + x * 1024 + y) 65536); [unfold x, y in *; lia|].
    replace (65536 + x * 1024 + y - 65536) with (x * 1024 + y) by lia.
    rewrite shiftr_div, low10 by lia. change (2 ^ 10) with 1024.
    rewrite Z.div_add_l, Z.div_small, Z.add_0_r by (unfold y; lia).
    rewrite Z.add_comm, Z.mod_add, Z.mod_small by (unfold y; lia).
    below 1024%nat (fun x => (Z.lor 55296 x =? 55296 + x) && (Z.lor 56320 x =? 56320 + x)).
    pose proof (H2 x ltac:(unfold x; lia)) as Hx. pose proof (H2 y ltac:(unfold y; lia)) as Hy.
    rewrite andb_true_iff, !Z.eqb_eq in Hx, Hy. destruct Hx as [-> _], Hy as [_ ->].
    unfold x, y. cbn. repeat f_equal; lia.
  - rewrite !andb_true_iff in Hwf. destruct Hwf as [[[H1%Z.ltb_lt H2%Z.leb_le] H3%negb_true_iff] Hwf].
    assert (((55296 <=? f) && (f <=? 57343)) = false) as ->.
    { destruct (Z.leb_spec 55296 f), (Z.leb_spec f 57343), (Z.leb_spec f 56319), (Z.leb_spec 56320 f);
        simpl in *; (done || lia). }
    exists f, s. split; [done|]. split; [lia|]. split; [|split; [done|simpl; lia]].
    unfold units. destruct (Z.ltb_spec f 65536); [done|lia].
Qed.

Lemma Ca_chars_rest fuel : ∀ s m rest,
  wf16 s = true → (length s <= fuel)%nat →
  (length (utf8_bytes (chars fuel s)) < m)%nat →
  Ca_loop m (utf8_bytes (chars fuel s) ++ 0 :: rest) = s.
Proof.
  induction fuel as [|fuel IH]; intros s m rest Hwf Hl Hm.
  { destruct s; [|simpl in Hl; lia]. simpl. destruct m; [lia|done]. }
  destruct s as [|f s]; [destruct m; [simpl in Hm; lia|done]|].
  destruct (next_char_wf (f :: s) Hwf ltac:(done)) as (h & s' & E & Hh & Hu & Hwf' & Hlen).
  cbn [chars] in *. rewrite E in *. unfold utf8_bytes in *. cbn [fmap list_fmap concat] in *.
  rewrite length_app in Hm. pose proof (char_size_bytes h) as Hc. pose proof (char_size_pos h). unfold zlength in Hc.
  destruct m as [|m]; [lia|]. rewrite <- app_assoc, Ca_char by done. rewrite IH; [done|done|simpl in *; lia|lia].
Qed.

Lemma Ca_chars fuel s m :
  wf16 s = true → (length s <= fuel)%nat → (length (utf8_bytes (chars fuel s)) < m)%nat →
  Ca_loop m (utf8_bytes (chars fuel s) ++ [0]) = s.
Proof. apply Ca_chars_rest. Qed.

(** ** Paths *)

(** A path part: not empty, without a slash. *)
Definition is_part (p : jsstr) : Prop := p ≠ [] ∧ slash ∉ p.

(** A part that normalisation keeps as it is. *)
Definition plain (p : jsstr) : Prop := is_part p ∧ p ≠ dot1 ∧ p ≠ dot2.

Lemma split_slash_cons s : ∃ p ps, split_slash s = p :: ps.
Proof.
  induction s as [|c s (p & ps & E)]; simpl; [eauto|]. destruct (c =? slash); [eauto|]. rewrite E. eauto.
Qed.

Lemma split_slash_no s : Forall (fun p => slash ∉ p) (split_slash s).
Proof.
  induction s as [|c s IH]; simpl; [constructor; [by apply not_elem_of_nil|constructor]|].
  destruct (Z.eqb_spec c slash) as [->|Hc]; [constructor; [by apply not_elem_of_nil|done]|].
  destruct (split_slash_cons s) as (p & ps & E). rewrite E in *. inversion_clear IH as [|?? Hp Hps].
  constructor; [|done]. apply not_elem_of_cons. split; [congruence|done].
Qed.

Lemma parts_ok s : Forall is_part (parts s).
Proof.
  unfold parts. pose proof (split_slash_no s) as H. induction H as [|p ps Hp Hps IH]; simpl; [constructor|].
  destruct p as [|x p]; simpl; [done|]. by constructor.
Qed.

(** Splitting at a slash. *)
Lemma split_slash_app p s : slash ∉ p → split_slash (p ++ slash :: s) = p :: split_slash s.
Proof.
  induction p as [|c p IH]; simpl; [done|]. rewrite not_elem_of_cons. intros [Hc Hp].
  destruct (Z.eqb_spec c slash); [congruence|]. by rewrite IH.
Qed.

Lemma split_slash_none p : slash ∉ p → split_slash p = [p].
Proof.
  induction p as [|c p IH]; simpl; [done|]. rewrite not_elem_of_cons. intros [Hc Hp].
  destruct (Z.eqb_spec c slash); [congruence|]. by rewrite IH.
Qed.

Lemma parts_part p : is_part p → parts p = [p].
Proof. intros [H1 H2]. unfold parts. rewrite split_slash_none by done. by destruct p. Qed.

Lemma parts_cons p s : is_part p → parts (p ++ slash :: s) = p :: parts s.
Proof. intros [H1 H2]. unfold parts. rewrite split_slash_app by done. by destruct p. Qed.

Lemma parts_slash s : parts (slash :: s) = parts s.
Proof. done. Qed.

Lemma split_slash_trailing s : split_slash (s ++ [slash]) = split_slash s ++ [[]].
Proof.
  induction s as [|c s IH]; [done|]. cbn [app split_slash]. rewrite IH.
  destruct (c =? slash); [done|]. by destruct (split_slash_cons s) as (p & ps & ->).
Qed.

Lemma parts_trailing s : parts (s ++ [slash]) = parts s.
Proof. unfold parts. rewrite split_slash_trailing, List.filter_app. simpl. by rewrite app_nil_r. Qed.

Lemma parts_join ps : Forall is_part ps → parts (join ps) = ps.
Proof.
  induction 1 as [|p ps Hp Hps IH]; [done|]. destruct ps as [|q ps]; [by apply parts_part|].
  change (join (p :: q :: ps)) with (p ++ slash :: join (q :: ps)). rewrite parts_cons by done. by f_equal.
Qed.

(** ** Normalising parts *)

Lemma mb_step_plain f st : plain f → mb_step f st = match st.2 with O => (f :: st.1, O) | S c => (st.1, c) end.
Proof. intros (_ & H1 & H2). unfold mb_step. destruct st as [a c]. by rewrite !decide_False. Qed.

Lemma mb_fold_spec ps :
  Forall is_part ps → Forall plain (foldr mb_step ([], O) ps).1.
Proof.
  induction 1 as [|p ps Hp Hps IH]; simpl; [constructor|].
  destruct (foldr mb_step ([], O) ps) as [a c]. simpl in *. unfold mb_step.
  destruct (decide (p = dot1)); [done|]. destruct (decide (p = dot2)); [done|].
  destruct c; [|done]. by constructor.
Qed.

Lemma mb_fold_plain a : Forall plain a → foldr mb_step ([], O) a = (a, O).
Proof. induction 1 as [|p a Hp Ha IH]; [done|]. cbn [foldr]. rewrite IH. by rewrite mb_step_plain. Qed.

Lemma mb_fold_dots n a : Forall plain a → foldr mb_step ([], O) (replicate n dot2 ++ a) = (a, n).
Proof. intros Ha. induction n as [|n IH]; simpl; [by apply mb_fold_plain|]. rewrite IH. done. Qed.

(** The result of [mb]: [..] only at the front, and only for relative paths. *)
Definition normal (rel : bool) (ps : list jsstr) : Prop :=
  ∃ n a, ps = replicate n dot2 ++ a ∧ Forall plain a ∧ (rel = false → n = O).

Lemma mb_normal ps b : Forall is_part ps → normal b (mb ps b).
Proof.
  intros Hps. pose proof (mb_fold_spec ps Hps) as H. unfold mb.
  destruct (foldr mb_step ([], O) ps) as [a c]. simpl in H. destruct b; [by exists c, a|]. by exists O, a.
Qed.

Lemma mb_fix b ps : normal b ps → mb ps b = ps.
Proof.
  intros (n & a & -> & Ha & Hn). unfold mb. rewrite mb_fold_dots by done. destruct b; [done|]. by rewrite Hn.
Qed.

Lemma dot2_part : is_part dot2.
Proof. split; [done|]. vm_compute. intros H. repeat (apply elem_of_cons in H as [H|H]; [done|]). by apply not_elem_of_nil in H. Qed.
Lemma dot1_part : is_part dot1.
Proof. split; [done|]. vm_compute. intros H. repeat (apply elem_of_cons in H as [H|H]; [done|]). by apply not_elem_of_nil in H. Qed.

Lemma normal_parts b ps : normal b ps → Forall is_part ps.
Proof.
  intros (n & a & -> & Ha & _). apply Forall_app. split; [apply Forall_replicate, dot2_part|].
  eapply Forall_impl; [exact Ha|]. by intros p [? _].
Qed.

Lemma join_starts ps : Forall is_part ps → starts_slash (join ps) = false.
Proof.
  intros H. destruct H as [|p ps [Hp Hs] _]; [done|]. destruct p as [|c p]; [done|].
  assert (c ≠ slash) by (intros ->; apply Hs; left).
  destruct ps; simpl; by apply Z.eqb_neq.
Qed.

Lemma last_app_cons {A} (p : list A) x s : last (p ++ x :: s) = last (x :: s).
Proof. rewrite last_app. destruct (last (x :: s)) eqn:E; [done|]. by apply last_None in E. Qed.

Lemma join_ends ps : Forall is_part ps → ends_slash (join ps) = false.
Proof.
  unfold ends_slash. induction 1 as [|p ps [Hp Hs] Hps IH]; [done|].
  destruct ps as [|q ps].
  - simpl. destruct (last p) as [c|] eqn:E; [|done]. apply last_Some_elem_of in E.
    apply Z.eqb_neq. by intros ->.
  - change (join (p :: q :: ps)) with (p ++ slash :: join (q :: ps)). rewrite last_app_cons.
    inversion_clear Hps as [|?? [Hq _] _].
    assert (join (q :: ps) ≠ []) by (destruct q; [done|]; by destruct ps).
    change (slash :: join (q :: ps)) with ([slash] ++ join (q :: ps)). rewrite last_app.
    destruct (last (join (q :: ps))) eqn:E; [done|]. by apply last_None in E.
Qed.

Lemma join_nil ps : Forall is_part ps → nonempty (join ps) = false → ps = [].
Proof. intros H. destruct H as [|p ps [Hp _] _]; [done|]. destruct p; [done|]. by destruct ps. Qed.

(** The shape of a normalised path: an optional slash, normal parts (or a
    single dot), and an optional trailing slash. *)
Lemma nb_shape a :
  ∃ ps, normal (negb (starts_slash a)) ps ∧
    nb a =
      (if starts_slash a then [slash] else []) ++
      match ps with
      | [] => if starts_slash a then [] else dot1 ++ (if ends_slash a then [slash] else [])
      | _ => join ps ++ (if ends_slash a then [slash] else [])
      end.
Proof.
  pose proof (mb_normal (parts a) (negb (starts_slash a)) (parts_ok a)) as Hn.
  exists (mb (parts a) (negb (starts_slash a))). split; [done|]. unfold nb.
  set (ps := mb _ _) in *. pose proof (normal_parts _ _ Hn) as Hp.
  destruct (nonempty (join ps)) eqn:E.
  - cbn [orb]. rewrite E. cbn [andb]. destruct ps as [|p ps']; [done|].
    destruct (ends_slash a); [done|]. by rewrite app_nil_r.
  - rewrite (join_nil ps Hp E). simpl. destruct (starts_slash a); simpl; [done|].
    by destruct (ends_slash a).
Qed.

Lemma starts_slash_app s t : s ≠ [] → starts_slash (s ++ t) = starts_slash s.
Proof. by destruct s. Qed.

Lemma ends_slash_snoc s : ends_slash (s ++ [slash]) = true.
Proof. unfold ends_slash. by rewrite last_snoc. Qed.

(** [nb] on a path in normal form. *)
Lemma nb_normal (b c : bool) ps :
  normal (negb b) ps → ps ≠ [] →
  let p := (if b then [slash] else []) ++ join ps ++ (if c then [slash] else []) in nb p = p.
Proof.
  intros Hn Hne p. pose proof (normal_parts _ _ Hn) as Hp.
  assert (join ps ≠ []) as Hj.
  { intros E. apply Hne, join_nil; [done|]. by rewrite E. }
  assert (starts_slash p = b) as Hs.
  { unfold p. destruct b; [done|]. simpl. rewrite starts_slash_app by done. by apply join_starts. }
  assert (ends_slash p = c) as He.
  { unfold p. destruct c; [rewrite app_assoc; apply ends_slash_snoc|]. rewrite app_nil_r.
    destruct b; [|by apply join_ends]. simpl. unfold ends_slash.
    change (slash :: join ps) with ([slash] ++ join ps). rewrite last_app.
    pose proof (join_ends ps Hp) as Hj'. unfold ends_slash in Hj'.
    destruct (last (join ps)) eqn:E; [done|]. by apply last_None in E. }
  assert (parts p = ps) as Hpp.
  { unfold p. transitivity (parts (join ps ++ (if c then [slash] else []))).
    - destruct b; [apply parts_slash|done].
    - destruct c; [rewrite parts_trailing|rewrite app_nil_r]; by apply parts_join. }
  unfold nb. rewrite Hs, He, Hpp, (mb_fix _ ps) by done.
  destruct (nonempty (join ps)) eqn:E; [|by apply join_nil in E]. cbn [orb andb].
  unfold p. destruct c; [rewrite E; done|]. rewrite andb_false_r. by rewrite app_nil_r.
Qed.

Lemma nb_idem a : nb (nb a) = nb a.
Proof.
  destruct (nb_shape a) as (ps & Hn & E). destruct ps as [|p ps].
  - rewrite E. destruct (starts_slash a); [done|]. destruct (ends_slash a); done.
  - rewrite E. by apply (nb_normal (starts_slash a) (ends_slash a) (p :: ps)).
Qed.

(** An absolute path never climbs above the root. *)
Lemma nb_absolute a : starts_slash a = true → starts_slash (nb a) = true ∧ Forall plain (parts (nb a)).
Proof.
  intros Ha. destruct (nb_shape a) as (ps & Hn & E). rewrite Ha in *. rewrite E. split; [done|].
  destruct Hn as (n & q & -> & Hq & ->); [|done]. cbn [replicate app]. rewrite parts_slash.
  destruct q as [|p q]; [constructor|].
  assert (Forall is_part (p :: q)) as Hp by (eapply Forall_impl; [exact Hq|]; by intros ? [? _]).
  destruct (ends_slash a); [rewrite parts_trailing|rewrite app_nil_r]; by rewrite parts_join.
Qed.

(** [sb] resolves to an absolute path in normal form, whatever the arguments,
    unless an empty one is met. *)
Lemma sb_loop_absolute rargs a p b : sb_loop rargs a = Some (p, b) → b = true.
Proof.
  revert a. induction rargs as [|x rargs IH]; intros a; simpl; [by intros [= _ <-]|].
  destruct (nonempty x); [|done]. destruct (starts_slash x); [by intros [= _ <-]|]. apply IH.
Qed.

Lemma sb_absolute (args : list jsstr) :
  Forall (fun x => x ≠ []) args →
  ∃ ps, Forall plain ps ∧ sb args = slash :: join ps.
Proof.
  intros Hne. assert (∀ (rargs : list jsstr) a, Forall (fun x => x ≠ []) rargs → ∃ p, sb_loop rargs a = Some (p, true)) as Hex.
  { intros rargs. induction rargs as [|x rargs IH]; intros a H; simpl; [eauto|].
    inversion_clear H as [|?? Hx Hr]. destruct x as [|c x]; [done|]. cbn [nonempty].
    destruct (starts_slash (c :: x)); [eauto|]. by apply IH. }
  destruct (Hex (rev args) []) as (p & Ep); [by apply Forall_rev|].
  unfold sb. rewrite Ep. cbn [negb]. pose proof (mb_normal (parts p) false (parts_ok p)) as (n & q & E & Hq & Hn).
  rewrite Hn in E by done. simpl in E. exists q. split; [done|]. by rewrite E.
Qed.

(** ** Integers *)

Lemma Lb_range a b : 0 <= Lb a b < 4096.
Proof. unfold Lb. apply Z.mod_pos_bound. lia. Qed.

Lemma i32_congr a b : (a - b) mod 2 ^ 32 = 0 → i32 a = i32 b.
Proof.
  intros H. unfold i32. f_equal. apply Z.mod_divide in H as [k Hk]; [|lia].
  replace (a + 2 ^ 31) with (b + 2 ^ 31 + k * 2 ^ 32) by lia. apply Z.mod_add. lia.
Qed.

Lemma i32_eq_mod a : (i32 a - a) mod 2 ^ 32 = 0.
Proof.
  unfold i32. pose proof (Z.div_mod (a + 2 ^ 31) (2 ^ 32) ltac:(lia)) as H.
  replace ((a + 2 ^ 31) mod 2 ^ 32 - 2 ^ 31 - a) with (- ((a + 2 ^ 31) / 2 ^ 32) * 2 ^ 32) by lia.
  apply Z.mod_mul. lia.
Qed.

(** A number as its two low halves, modulo 2^32. *)
Lemma split16 a : ∃ j, a = u32 a / 65536 * 65536 + a mod 65536 + j * 2 ^ 32.
Proof.
  exists (a / 2 ^ 32). unfold u32.
  pose proof (Z.div_mod a (2 ^ 32) ltac:(lia)). pose proof (Z.div_mod (a mod 2 ^ 32) 65536 ltac:(lia)).
  assert ((a mod 2 ^ 32) mod 65536 = a mod 65536) as Hm by (apply Z.mod_mod_divide; by exists 65536).
  lia.
Qed.

(** The replacement of [Math.imul] is the product modulo 2^32. *)
Lemma imul_spec a b : imul a b = i32 (a * b).
Proof.
  unfold imul. change 65535 with (Z.ones 16). rewrite !Z.land_ones by lia. rewrite !Z.shiftr_div_pow2 by lia.
  rewrite Z.shiftl_mul_pow2 by lia. change (2 ^ 16) with 65536.
  destruct (split16 a) as [j Hj], (split16 b) as [j' Hj'].
  set (c := a mod 65536) in *. set (d := b mod 65536) in *.
  set (ah := u32 a / 65536) in *. set (bh := u32 b / 65536) in *.
  apply i32_congr. pose proof (i32_eq_mod (ah * d + c * bh)) as H1.
  pose proof (i32_eq_mod (i32 (ah * d + c * bh) * 65536)) as H2.
  apply Z.mod_divide in H1 as [k1 H1]; [|lia]. apply Z.mod_divide in H2 as [k2 H2]; [|lia].
  apply Z.mod_divide; [lia|].
  exists (k2 + k1 * 65536 - ah * bh - j * (bh * 65536 + d) - j' * (ah * 65536 + c) - j * j' * 2 ^ 32).
  clearbody c d ah bh. change (2 ^ 32) with 4294967296 in *. subst a b. nia.
Qed.

(** [clz32] counts the zeros above the highest bit. *)
Lemma land_bit a k : 0 <= k → Z.land a (Z.shiftl 1 k) = if Z.testbit a k then 2 ^ k else 0.
Proof.
  intros Hk. rewrite Z.shiftl_1_l. apply Z.bits_inj'. intros j Hj. rewrite Z.land_spec, Z.pow2_bits_eqb by done.
  destruct (Z.eqb_spec k j) as [->|Hne].
  - destruct (Z.testbit a j); [|by rewrite Z.bits_0]. by rewrite Z.pow2_bits_true.
  - rewrite andb_false_r. destruct (Z.testbit a k); [|by rewrite Z.bits_0].
    by rewrite Z.pow2_bits_false.
Qed.

Lemma clz32_loop_spec n a b :
  0 <= b → b + Z.of_nat n = 32 → 0 <= a < 2 ^ (32 - b) →
  clz32_loop n a b = if a =? 0 then 32 else 31 - Z.log2 a.
Proof.
  revert b. induction n as [|n IH]; intros b Hb Hn Ha; cbn [clz32_loop].
  { replace (32 - b) with 0 in Ha by lia. change (2 ^ 0) with 1 in Ha. by replace a with 0 by lia. }
  rewrite land_bit by lia. destruct (Z.testbit a (31 - b)) eqn:Et.
  - assert (0 < 2 ^ (31 - b)) by (apply Z.pow_pos_nonneg; lia).
    destruct (Z.eqb_spec (2 ^ (31 - b)) 0); [lia|].
    destruct (Z.eqb_spec a 0) as [E0|]; [by rewrite E0, Z.bits_0 in Et|].
    enough (Z.log2 a = 31 - b) by lia. apply Z.log2_unique; [lia|].
    replace (Z.succ (31 - b)) with (32 - b) by lia. split; [|lia].
    destruct (Z.lt_ge_cases a (2 ^ (31 - b))) as [Hlt|]; [|done].
    rewrite Z.bits_above_log2 in Et; [done|lia|apply Z.log2_lt_pow2; lia].
  - rewrite Z.eqb_refl. apply IH; [lia..|]. split; [lia|].
    replace (32 - (b + 1)) with (31 - b) by lia.
    destruct (Z.lt_ge_cases a (2 ^ (31 - b))) as [|Hge]; [done|]. exfalso.
    assert (0 < 2 ^ (31 - b)) by (apply Z.pow_pos_nonneg; lia).
    assert (Z.log2 a = 31 - b) as Hl.
    { apply Z.log2_unique; [lia|]. replace (Z.succ (31 - b)) with (32 - b) by lia. lia. }
    rewrite <- Hl, Z.bit_log2 in Et by lia. done.
Qed.

Lemma clz32_spec a : clz32 a = if u32 a =? 0 then 32 else 31 - Z.log2 (u32 a).
Proof. unfold clz32. apply clz32_loop_spec; [lia|done|]. apply u32_range. Qed.

(** ** Allocation *)

Lemma align_spec a b :
  0 < b → (align a (Some b)) mod b = 0 ∧ a <= align a (Some b) < a + b.
Proof.
  intros Hb. unfold align. simpl. rewrite Z.mod_mul by lia. split; [done|].
  pose proof (Z.div_mod (a + b - 1) b ltac:(lia)). pose proof (Z.mod_pos_bound (a + b - 1) b ltac:(lia)). lia.
Qed.

Lemma land_minus16 x : Z.land x (-16) = x / 16 * 16.
Proof.
  change (-16) with (Z.lnot (Z.ones 4)). rewrite <- Z.ldiff_land, Z.ldiff_ones_r by lia.
  by rewrite Z.shiftr_div_pow2, Z.shiftl_mul_pow2 by lia.
Qed.

(** A stack allocation returns the old top, leaves room for the request and
    keeps the top aligned. *)
Lemma stack_alloc_spec m a :
  0 <= m → 0 <= a → m + a + 15 < 2 ^ 31 →
  let '(p, m') := stack_alloc m a in p = m ∧ m' mod 16 = 0 ∧ p + a <= m' < p + a + 16.
Proof.
  intros Hm Ha Hlt. unfold stack_alloc.
  assert (∀ x, 0 <= x < 2 ^ 31 → i32 x = x) as Hid.
  { intros x Hx. unfold i32. rewrite Z.mod_small; width. }
  rewrite (Hid (m + a)), (Hid (m + a + 15)) by lia. rewrite land_minus16, Z.mod_mul by lia.
  pose proof (Z.div_mod (m + a + 15) 16 ltac:(lia)). pose proof (Z.mod_pos_bound (m + a + 15) 16 ltac:(lia)).
  split_and!; lia.
Qed.

(** The memory size found is enough for the request and twice the stack, and
    the loop ends: doubling up to 16 MB, then steps of 16 MB. *)
Lemma memory_steps fuel G ma Pa :
  16777216 <= G → Z.max ma (2 * Pa) <= G + 16777216 * Z.of_nat fuel →
  let R := memory_loop fuel G ma Pa in ma <= R ∧ 2 * Pa <= R ∧ G <= R.
Proof.
  revert G. induction fuel as [|fuel IH]; intros G HG HM; [simpl; lia|]. cbn [memory_loop].
  destruct (Z.ltb_spec G ma), (Z.ltb_spec G (2 * Pa)); cbn [orb]; try lia;
    (destruct (Z.ltb_spec G 16777216); [lia|]);
    (destruct (IH (G + 16777216)) as (? & ? & ?); [lia|lia|]; simpl; lia).
Qed.

Lemma memory_doubles k : ∀ fuel G ma Pa,
  G * 2 ^ Z.of_nat k = 16777216 → 0 < G →
  Z.max ma (2 * Pa) <= 16777216 + 16777216 * Z.of_nat fuel →
  let R := memory_loop (k + fuel) G ma Pa in ma <= R ∧ 2 * Pa <= R ∧ G <= R.
Proof.
  induction k as [|k IH]; intros fuel G ma Pa HG H0 HM.
  { simpl in HG. apply memory_steps; lia. }
  rewrite Nat2Z.inj_succ, Z.pow_succ_r in HG by lia. assert (1 <= 2 ^ Z.of_nat k) by lia.
  cbn [Nat.add memory_loop].
  destruct (IH fuel (2 * G) ma Pa) as (? & ? & ?); [lia..|].
  destruct (Z.ltb_spec G 16777216); [|nia].
  destruct (Z.ltb_spec G ma), (Z.ltb_spec G (2 * Pa)); cbn [orb]; simpl; lia.
Qed.
