(* ===== verification/VizFile.v ===== *)
(** * The contents of a file of the in-memory file system

    The viewer's runtime keeps the files the Graphviz object code writes in
    memory ([K] of [viz-lite.js], the MEMFS of the runtime).  A regular file is
    its contents [e] (absent, a typed array of bytes, or a plain array) and its
    size [o].  This file models the operations on contents ([K.Ia], [K.jb],
    [K.n.read], [K.n.write], [K.n.Ea], [K.n.I]) and shows that they implement a
    plain sequence of bytes.

    Buffers handed to [read] and [write] are views of the object code's memory,
    typed arrays of signed bytes. *)

From Stdlib Require Import ZArith Lia.
From stdpp Require Import base list strings.
From S2P Require Import Prelude.

Open Scope Z_scope.

(** Exceptions of the JavaScript engine. *)
Definition PTypeError : panic := PMsg "TypeError".
Definition PRangeError : panic := PMsg "RangeError".
Definition PAssert : panic := PMsg "Assertion failed".

(** The error numbers of the table [I] that the file system throws. *)
Definition EPERM : Z := 1.
Definition ENOENT : Z := 2.
Definition EIO : Z := 5.
Definition ENXIO : Z := 6.
Definition EBADF : Z := 9.
Definition EACCES : Z := 13.
Definition EBUSY : Z := 16.
Definition EEXIST : Z := 17.
Definition ENODEV : Z := 19.
Definition ENOTDIR : Z := 20.
Definition EISDIR : Z := 21.
Definition EINVAL : Z := 22.
Definition EMFILE : Z := 24.
Definition ENOTTY : Z := 25.
Definition ESPIPE : Z := 29.
Definition ENOTEMPTY : Z := 39.
Definition ELOOP : Z := 40.

(** [e]: [null], a [Uint8Array], or a plain array. *)
Inductive contents : Type :=
| CNull
| CTyped (l : list Z)
| CArray (l : list Z).

Record file : Type := mkFile { e : contents; o : Z }.

(** Storing a number in a [Uint8Array]. *)
Definition u8 (z : Z) : Z := z mod 256.

(** [new Uint8Array(n)]. *)
Definition zeros (n : Z) : list Z := replicate (Z.to_nat n) 0.

(** [l] with [data] written from index [f] on, inside the bounds. *)
Definition overwrite (l data : list Z) (f : Z) : list Z :=
  take (Z.to_nat f) l ++ data ++ drop (Z.to_nat (f + zlength data)) l.

(** [l.set(data, f)] on a [Uint8Array]: a source that does not fit is refused. *)
Definition typed_set (l data : list Z) (f : Z) : go Z (list Z) :=
  if (0 <=? f) && (f + zlength data <=? zlength l) then GoRet (overwrite l (u8 <$> data) f)
  else GoPanic PRangeError.

(** [K.Xa]: the first [o] elements as a plain array. *)
Definition K_Xa (l : list Z) (o : Z) : list Z := take (Z.to_nat o) l.

(** [K.Ia(a, b)]: room for [b] bytes.  A typed array that is too short becomes a
    plain array first.  The engine's limit on the length of an array, beyond which
    [new Uint8Array] throws a [RangeError], is left out. *)
Definition Ia (a : file) (b : Z) : go Z file :=
  let a :=
    match e a with
    | CTyped l =>
        if b >? zlength l then let l' := K_Xa l (o a) in mkFile (CArray l') (zlength l') else a
    | _ => a
    end in
  match e a with
  | CArray l => GoRet (mkFile (CArray (l ++ zeros (b - zlength l))) (o a))
  | CTyped l =>
      let c := zlength l in
      if c >=? b then GoRet a
      else
        let b := Z.max b (if c <? 1048576 then i32 (2 * c) else i32 (9 * c / 8)) in
        let b := if c =? 0 then b else Z.max b 256 in
        if 0 <? o a then let! l := typed_set (zeros b) (K_Xa l (o a)) 0 in GoRet (mkFile (CTyped l) (o a))
        else GoRet (mkFile (CTyped (zeros b)) (o a))
  | CNull =>
      if 0 >=? b then GoRet a
      else if 0 <? o a then GoPanic PTypeError
      else GoRet (mkFile (CTyped (zeros b)) (o a))
  end.

(** [K.jb(a, b)]: the size becomes [b]. *)
Definition jb (a : file) (b : Z) : go Z file :=
  if o a =? b then GoRet a
  else if b =? 0 then GoRet (mkFile CNull 0)
  else
    match e a with
    | CArray l =>
        if b <? 0 then GoPanic PRangeError
        else if zlength l >? b then GoRet (mkFile (CArray (take (Z.to_nat b) l)) b)
        else GoRet (mkFile (CArray (l ++ zeros (b - zlength l))) b)
    | CTyped l =>
        if b <? 0 then GoPanic PRangeError
        else let! l' := typed_set (zeros b) (take (Z.to_nat (Z.min b (o a))) l) 0 in
             GoRet (mkFile (CTyped l') b)
    | CNull => if b <? 0 then GoPanic PRangeError else GoRet (mkFile (CTyped (zeros b)) b)
    end.

(** [K.n.read(a, b, c, d, f)]: at most [d] bytes from position [f]; the result
    is what is stored in the buffer, as many as the returned count. *)
Definition K_read (a : file) (d f : Z) : go Z (list Z) :=
  if f >=? o a then GoRet []
  else
    let n := Z.min (o a - f) d in
    if n <? 0 then GoPanic PAssert
    else
      match e a with
      | CTyped l | CArray l => GoRet (take (Z.to_nat n) (drop (Z.to_nat f) l))
      | CNull => if n =? 0 then GoRet [] else GoPanic PTypeError
      end.

(** The end of [K.n.write]: make room, then store. *)
Definition K_write_grow (a : file) (data : list Z) (f : Z) : go Z (Z * file) :=
  let d := zlength data in
  let! a' := Ia a (f + d) in
  let! e' :=
    match e a' with
    | CTyped l => let! l := typed_set l data f in GoRet (CTyped l)
    | CArray l => if f <? 0 then GoPanic PRangeError else GoRet (CArray (overwrite l data f))
    | CNull => GoPanic PTypeError
    end in
  GoRet (d, mkFile e' (Z.max (o a') (f + d))).

(** [K.n.write(a, b, c, d, f)], [data] being the [d] bytes of the buffer from
    [c]; the system calls never pass the sixth argument. *)
Definition K_write (a : file) (data : list Z) (f : Z) : go Z (Z * file) :=
  let d := zlength data in
  if d =? 0 then GoRet (0, a)
  else
    match e a with
    | CArray _ => K_write_grow a data f
    | CNull => if (o a =? 0) && (f =? 0) then GoRet (d, mkFile (CTyped (u8 <$> data)) d)
               else if f + d <=? o a then GoPanic PTypeError else K_write_grow a data f
    | CTyped l =>
        if (o a =? 0) && (f =? 0) then GoRet (d, mkFile (CTyped (u8 <$> data)) d)
        else if f + d <=? o a then let! l := typed_set l data f in GoRet (d, mkFile (CTyped l) (o a))
        else K_write_grow a data f
    end.

(** [K.n.Ea(a, b, c)]: [posix_fallocate]. *)
Definition K_allocate (a : file) (b c : Z) : go Z file :=
  let! a := Ia a (b + c) in GoRet (mkFile (e a) (Z.max (o a) (b + c))).

(** [K.n.I(a, b, c)]: the new position for [lseek], from the current one and,
    for a regular file, the size. *)
Definition K_llseek (position : Z) (regular : bool) (size b c : Z) : go Z Z :=
  let b := if c =? 1 then b + position else if (c =? 2) && regular then b + size else b in
  if b <? 0 then GoErr EINVAL else GoRet b.

(** ** Files as sequences of bytes *)

(** The invariant of contents: as long as the size. *)
Definition file_ok (a : file) : Prop :=
  match e a with
  | CNull => o a = 0
  | CTyped l => zlength l = o a ∧ Forall (fun x => 0 <= x < 256) l
  | CArray l => zlength l = o a
  end.

Definition bytes_of (a : file) : list Z :=
  match e a with CNull => [] | CTyped l | CArray l => u8 <$> l end.

(** What the operations mean on bytes. *)
Definition bytes_resize (n : Z) (l : list Z) : list Z :=
  take (Z.to_nat n) l ++ zeros (n - zlength l).

Definition bytes_pwrite (l data : list Z) (f : Z) : list Z :=
  overwrite (l ++ zeros (f + zlength data - zlength l)) data f.

Definition bytes_pread (l : list Z) (d f : Z) : list Z := take (Z.to_nat d) (drop (Z.to_nat f) l).

(** ** Lemmas *)

Lemma zlength_zeros n : zlength (zeros n) = Z.max 0 n.
Proof. unfold zlength, zeros. rewrite length_replicate. lia. Qed.

Lemma zlength_fmap {A B} (g : A → B) (l : list A) : zlength (g <$> l) = zlength l.
Proof. unfold zlength. by rewrite length_fmap. Qed.

Lemma zlength_take {A} n (l : list A) : 0 <= n → zlength (take (Z.to_nat n) l) = Z.min n (zlength l).
Proof. unfold zlength. rewrite length_take. lia. Qed.

Lemma zlength_drop {A} n (l : list A) : 0 <= n → zlength (drop (Z.to_nat n) l) = Z.max 0 (zlength l - n).
Proof. unfold zlength. rewrite length_drop. lia. Qed.

Lemma zlength_overwrite l data f :
  0 <= f → f + zlength data <= zlength l → zlength (overwrite l data f) = zlength l.
Proof.
  intros H1 H2. pose proof (zlength_nonneg data). unfold overwrite.
  rewrite !zlength_app, zlength_take, zlength_drop by lia. lia.
Qed.

Lemma u8_range x : 0 <= u8 x < 256.
Proof. unfold u8. apply Z.mod_pos_bound. lia. Qed.

Lemma u8_small x : 0 <= x < 256 → u8 x = x.
Proof. intros. by apply Z.mod_small. Qed.

Lemma u8_idem (l : list Z) : u8 <$> (u8 <$> l) = u8 <$> l.
Proof. rewrite <- list_fmap_compose. apply list_fmap_ext. intros i x _. simpl. apply u8_small, u8_range. Qed.

Lemma u8_bytes (l : list Z) : Forall (fun x => 0 <= x < 256) l → u8 <$> l = l.
Proof.
  induction 1 as [|x l Hx Hl IH]; [done|]. rewrite fmap_cons, IH. f_equal. by apply u8_small.
Qed.

Lemma u8_Forall (l : list Z) : Forall (fun x => 0 <= x < 256) (u8 <$> l).
Proof. apply Forall_fmap, Forall_true. intros x. apply u8_range. Qed.

Lemma zeros_Forall n : Forall (fun x => 0 <= x < 256) (zeros n).
Proof. apply Forall_replicate. lia. Qed.

Lemma u8_zeros n : u8 <$> zeros n = zeros n.
Proof. apply u8_bytes, zeros_Forall. Qed.

Lemma u8_overwrite (l data : list Z) f : u8 <$> overwrite l data f = overwrite (u8 <$> l) (u8 <$> data) f.
Proof. unfold overwrite. by rewrite !fmap_app, fmap_take, fmap_drop, zlength_fmap. Qed.

Lemma overwrite_Forall P l data f : Forall P l → Forall P data → Forall P (overwrite l data f).
Proof. intros. unfold overwrite. rewrite !Forall_app. eauto using Forall_take, Forall_drop. Qed.

Lemma zeros_nil n : n <= 0 → zeros n = [].
Proof. intros. unfold zeros. by replace (Z.to_nat n) with 0%nat by lia. Qed.

Lemma zeros_app n l : n <= 0 → l ++ zeros n = l.
Proof. intros. rewrite zeros_nil by done. apply app_nil_r. Qed.

Lemma overwrite_all l data : zlength data = zlength l → overwrite l data 0 = data.
Proof.
  intros H. unfold overwrite, zlength in *. rewrite drop_ge by lia. by rewrite app_nil_r.
Qed.

Lemma typed_set_ok l data f :
  0 <= f → f + zlength data <= zlength l → typed_set l data f = GoRet (overwrite l (u8 <$> data) f).
Proof.
  intros H1 H2. unfold typed_set.
  destruct (Z.leb_spec 0 f), (Z.leb_spec (f + zlength data) (zlength l)); (done || lia).
Qed.

#[export] Hint Rewrite zlength_zeros @zlength_fmap : zlist.

(** The bytes of a file are as many as its size. *)
Lemma bytes_length a : file_ok a → zlength (bytes_of a) = o a.
Proof. unfold file_ok, bytes_of. destruct (e a); rewrite ?zlength_fmap; [by intros ->|tauto|tauto]. Qed.

Lemma size_nonneg a : file_ok a → 0 <= o a.
Proof. intros H. rewrite <- (bytes_length a H). apply zlength_nonneg. Qed.

(** Making room adds zeros and does not touch the size. *)
Lemma Ia_spec a b :
  file_ok a → 0 < b →
  ∃ a' l, Ia a b = GoRet a' ∧ o a' = o a ∧
    ((e a' = CArray l) ∨ (e a' = CTyped l ∧ Forall (fun x => 0 <= x < 256) l)) ∧
    u8 <$> l = bytes_of a ++ zeros (b - o a).
Proof.
  intros Hok Hb. unfold Ia, bytes_of, file_ok in *. destruct (e a) as [|l|l] eqn:E.
  - rewrite E. destruct (Z.geb_spec 0 b); [lia|]. rewrite Hok. simpl.
    do 2 eexists. split; [done|]. split; [done|]. split; [right; split; [done|apply zeros_Forall]|].
    by rewrite u8_zeros, Z.sub_0_r.
  - destruct Hok as [Hl HF]. destruct (Z.gtb_spec b (zlength l)) as [Hgt|Hle]; simpl.
    + unfold K_Xa. rewrite <- Hl, take_ge by (unfold zlength; lia). do 2 eexists. split; [done|].
      split; [done|]. split; [by left|]. by rewrite fmap_app, u8_zeros.
    + rewrite E. destruct (Z.geb_spec (zlength l) b); [|lia]. exists a, l. split_and!; [done|done| |].
      * by right.
      * rewrite zeros_app; [done|lia].
  - rewrite E. do 2 eexists. split; [done|]. split; [done|]. split; [by left|].
    by rewrite fmap_app, u8_zeros, Hok.
Qed.

(** A file that holds the bytes [l]. *)
Definition holds_bytes (a : file) (l : list Z) : Prop := file_ok a ∧ bytes_of a = l.

Lemma holds_typed (l : list Z) n :
  zlength l = n → Forall (fun x => 0 <= x < 256) l → holds_bytes (mkFile (CTyped l) n) l.
Proof. intros. split; [done|]. by apply u8_bytes. Qed.

Lemma holds_array (l : list Z) n : zlength l = n → holds_bytes (mkFile (CArray l) n) (u8 <$> l).
Proof. intros. by split. Qed.

Lemma K_write_grow_spec a data f :
  file_ok a → 0 <= f → 0 < zlength data →
  ∃ a', K_write_grow a data f = GoRet (zlength data, a') ∧
    holds_bytes a' (bytes_pwrite (bytes_of a) (u8 <$> data) f).
Proof.
  intros Hok Hf Hpos. pose proof (bytes_length a Hok) as Hlen. pose proof (size_nonneg a Hok) as Hsz.
  destruct (Ia_spec a (f + zlength data) Hok ltac:(lia)) as (a' & l & E & Ho & Hl & Hb).
  unfold K_write_grow. rewrite E. cbn [go_bind]. rewrite Ho.
  assert (zlength l = Z.max (o a) (f + zlength data)) as Hll.
  { apply (f_equal zlength) in Hb. rewrite zlength_fmap, zlength_app, zlength_zeros, Hlen in Hb. lia. }
  assert (overwrite (u8 <$> l) (u8 <$> data) f = bytes_pwrite (bytes_of a) (u8 <$> data) f) as <-.
  { unfold bytes_pwrite. by rewrite Hb, zlength_fmap, Hlen. }
  destruct Hl as [->|[-> HF]].
  - destruct (Z.ltb_spec f 0); [lia|]. cbn [go_bind]. eexists. split; [done|].
    rewrite <- u8_overwrite. apply holds_array. rewrite zlength_overwrite; lia.
  - rewrite typed_set_ok by lia. cbn [go_bind]. eexists. split; [done|]. rewrite (u8_bytes l HF).
    apply holds_typed; [rewrite zlength_overwrite; rewrite ?zlength_fmap; lia|].
    apply overwrite_Forall; [done|apply u8_Forall].
Qed.

Lemma K_write_refines a data f :
  file_ok a → 0 <= f → data ≠ [] →
  ∃ a', K_write a data f = GoRet (zlength data, a') ∧
    holds_bytes a' (bytes_pwrite (bytes_of a) (u8 <$> data) f).
Proof.
  intros Hok Hf Hd. assert (0 < zlength data) as Hpos by (destruct data; [done|unfold zlength; simpl; lia]).
  pose proof (bytes_length a Hok) as Hlen. pose proof (size_nonneg a Hok) as Hsz.
  pose proof (K_write_grow_spec a data f Hok Hf Hpos) as Hgrow.
  assert (o a = 0 → f = 0 → ∃ a', GoRet (zlength data, mkFile (CTyped (u8 <$> data)) (zlength data)) =
    GoRet (E := Z) (zlength data, a') ∧ holds_bytes a' (bytes_pwrite (bytes_of a) (u8 <$> data) f)) as Hfirst.
  { intros H0 ->. eexists. split; [done|]. unfold bytes_pwrite. rewrite overwrite_all.
    - apply holds_typed; [apply zlength_fmap|apply u8_Forall].
    - rewrite zlength_app, zlength_zeros, zlength_fmap. lia. }
  unfold K_write. destruct (Z.eqb_spec (zlength data) 0); [lia|].
  destruct (e a) as [|l|l] eqn:E; [| |done];
    (destruct (Z.eqb_spec (o a) 0) as [H0|H0], (Z.eqb_spec f 0) as [Hf0|Hf0]; simpl; [by apply Hfirst|..];
     (destruct (Z.leb_spec (f + zlength data) (o a)); [|done])).
  1-3: unfold file_ok in Hok; rewrite E in Hok; lia.
  all: unfold file_ok in Hok; rewrite E in Hok; destruct Hok as [Hl HF];
    rewrite typed_set_ok by lia; cbn [go_bind]; eexists; (split; [done|]);
    unfold bytes_pwrite; rewrite zlength_fmap, Hlen, zeros_app by lia;
    unfold bytes_of; rewrite E, (u8_bytes l HF);
    (apply holds_typed; [rewrite zlength_overwrite; rewrite ?zlength_fmap; lia|]);
    (apply overwrite_Forall; [done|apply u8_Forall]).
Qed.

Lemma K_read_refines a d f :
  file_ok a → 0 <= f → 0 <= d → ∃ l, K_read a d f = GoRet l ∧ u8 <$> l = bytes_pread (bytes_of a) d f.
Proof.
  intros Hok Hf Hd. pose proof (bytes_length a Hok) as Hlen. unfold K_read, bytes_pread.
  destruct (Z.geb_spec f (o a)) as [Hge|Hlt].
  { eexists. split; [done|]. rewrite drop_ge by (unfold zlength in Hlen; lia). by rewrite take_nil. }
  destruct (Z.ltb_spec (Z.min (o a - f) d) 0); [lia|].
  assert (∀ l : list Z, zlength l = o a →
    take (Z.to_nat (Z.min (o a - f) d)) (drop (Z.to_nat f) l) = take (Z.to_nat d) (drop (Z.to_nat f) l)) as Hmin.
  { intros l Hl. destruct (Z.min_spec (o a - f) d) as [[Hm ->]|[Hm ->]]; [|done].
    rewrite !take_ge; [done|rewrite length_drop; unfold zlength in Hl; lia..]. }
  unfold file_ok, bytes_of in *. destruct (e a) as [|l|l]; [lia|destruct Hok as [Hl _]|];
    eexists; (split; [done|]); rewrite Hmin, fmap_take, fmap_drop by done; done.
Qed.

Lemma jb_refines a b :
  file_ok a → 0 <= b → ∃ a', jb a b = GoRet a' ∧ holds_bytes a' (bytes_resize b (bytes_of a)).
Proof.
  intros Hok Hb. pose proof (bytes_length a Hok) as Hlen. pose proof (size_nonneg a Hok) as Hsz.
  unfold jb, bytes_resize. rewrite Hlen. destruct (Z.eqb_spec (o a) b) as [Heq|Hne].
  { eexists. split; [done|]. rewrite take_ge by (unfold zlength in Hlen; lia). rewrite zeros_app by lia. done. }
  destruct (Z.eqb_spec b 0) as [->|Hb0].
  { eexists. split; [done|]. rewrite zeros_nil by lia. done. }
  destruct (Z.ltb_spec b 0); [lia|]. unfold file_ok, bytes_of in *. destruct (e a) as [|l|l] eqn:E.
  - eexists. split; [done|]. rewrite take_nil, Hok, Z.sub_0_r, app_nil_l. apply holds_typed; [rewrite zlength_zeros; lia|].
    apply zeros_Forall.
  - destruct Hok as [Hl HF]. rewrite typed_set_ok by (rewrite ?zlength_take, ?zlength_zeros by lia; lia).
    cbn [go_bind]. eexists. split; [done|]. rewrite (u8_bytes l HF).
    assert (overwrite (zeros b) (u8 <$> take (Z.to_nat (Z.min b (o a))) l) 0 =
      take (Z.to_nat b) l ++ zeros (b - o a)) as ->.
    { rewrite u8_bytes by (by apply Forall_take). unfold overwrite. simpl. rewrite zlength_take by lia.
      f_equal.
      - destruct (Z.min_spec b (o a)) as [[_ ->]|[? ->]]; [done|].
        rewrite !take_ge; [done|unfold zlength in Hl; lia..].
      - unfold zeros. rewrite drop_replicate. f_equal. lia. }
    apply holds_typed; [rewrite zlength_app, zlength_take, zlength_zeros by lia; lia|].
    apply Forall_app. split; [by apply Forall_take|apply zeros_Forall].
  - destruct (Z.gtb_spec (zlength l) b); eexists; (split; [done|]).
    + rewrite zeros_app by lia. rewrite <- fmap_take. apply holds_array. rewrite zlength_take; lia.
    + rewrite take_ge by (rewrite length_fmap; unfold zlength in *; lia).
      rewrite <- Hok. pose proof (holds_array (l ++ zeros (b - zlength l)) b) as Ha.
      rewrite fmap_app, u8_zeros in Ha. apply Ha. rewrite zlength_app, zlength_zeros. lia.
Qed.

(** Reading what was just written gives it back. *)
Lemma pread_pwrite l data f :
  0 <= f → bytes_pread (bytes_pwrite l data f) (zlength data) f = data.
Proof.
  intros Hf. pose proof (zlength_nonneg data). unfold bytes_pread, bytes_pwrite, overwrite.
  rewrite drop_app_length'; [rewrite take_app_length'; [done|unfold zlength; lia]|].
  rewrite length_take, length_app. unfold zeros, zlength in *. rewrite length_replicate. lia.
Qed.

Lemma K_allocate_refines a b c :
  file_ok a → 0 < b + c →
  ∃ a', K_allocate a b c = GoRet a' ∧ holds_bytes a' (bytes_of a ++ zeros (b + c - o a)).
Proof.
  intros Hok Hbc. pose proof (bytes_length a Hok) as Hlen. pose proof (size_nonneg a Hok) as Hsz.
  destruct (Ia_spec a (b + c) Hok Hbc) as (a' & l & E & Ho & Hl & Hb). unfold K_allocate. rewrite E.
  cbn [go_bind]. rewrite Ho, <- Hb. eexists. split; [done|].
  assert (zlength l = Z.max (o a) (b + c)) as Hll.
  { apply (f_equal zlength) in Hb. rewrite zlength_fmap, zlength_app, zlength_zeros, Hlen in Hb. lia. }
  destruct Hl as [->|[-> HF]]; [by apply holds_array|]. rewrite (u8_bytes l HF). by apply holds_typed.
Qed.
