(* ===== verification/VizFS.v ===== *)
(** * The file system of the viewer's runtime

    Nodes, the table of names, path resolution, creation, symbolic links,
    opening and closing of streams ([FS] of the runtime of [viz-lite.js],
    functions [Q] to [ec]), over the in-memory nodes of [K].

    A node is known by its [id]; the objects the source links to each other are
    entries of one store.  Two kinds of objects have no id of their own: the
    string ["/proc/self"] that the root of the mount on [/proc/self/fd] has for its
    parent, written 0, and the objects that the lookup in this root makes up for
    the open descriptors, written [- 1 - fd].  A thrown [J] is a [GoErr] with its error number; an
    exception of the engine is a [GoPanic].  The depth of the calls is bounded
    by the engine's stack: [depth] counts the nested calls of [Q] it allows. *)

From Stdlib Require Import ZArith Lia.
From stdpp Require Import base list gmap strings.
From S2P Require Import Prelude VizRuntime VizFile.

Open Scope Z_scope.

Definition PStack : panic := PMsg "RangeError: Maximum call stack size exceeded".

(** ** Nodes *)

(** The operations [k] and [n] of a node: the four tables of [K.G], the empty
    object, [lookup] alone for the root of the mount on [/proc/self/fd], and
    [readlink] alone for the objects this lookup returns. *)
Inductive ops : Type := OpsDir | OpsFile | OpsLink | OpsDev | OpsNone | OpsFd | OpsFake.

Record node : Type := mkNode {
  parent : Z;
  name : jsstr;
  mode : Z;
  rdev : Z;
  k : ops;
  entries : gmap (list Z) Z;   (** [e] of a directory *)
  data : file;                 (** [e] and [o] of a file *)
  link : jsstr;
  O_next : option Z;           (** [O], the next node of the bucket *)
  mountpoint : option jsstr;   (** [A.Oa] *)
  V : option Z                 (** [V.root] *)
}.

Definition set_O_next x nd := mkNode (parent nd) (name nd) (mode nd) (rdev nd) (k nd) (entries nd) (data nd) (link nd) x (mountpoint nd) (V nd).
Definition set_k x nd := mkNode (parent nd) (name nd) (mode nd) (rdev nd) x (entries nd) (data nd) (link nd) (O_next nd) (mountpoint nd) (V nd).
Definition set_entries x nd := mkNode (parent nd) (name nd) (mode nd) (rdev nd) (k nd) x (data nd) (link nd) (O_next nd) (mountpoint nd) (V nd).
Definition set_data x nd := mkNode (parent nd) (name nd) (mode nd) (rdev nd) (k nd) (entries nd) x (link nd) (O_next nd) (mountpoint nd) (V nd).
Definition set_link x nd := mkNode (parent nd) (name nd) (mode nd) (rdev nd) (k nd) (entries nd) (data nd) x (O_next nd) (mountpoint nd) (V nd).
Definition set_mountpoint x nd := mkNode (parent nd) (name nd) (mode nd) (rdev nd) (k nd) (entries nd) (data nd) (link nd) (O_next nd) x (V nd).
Definition set_V x nd := mkNode (parent nd) (name nd) (mode nd) (rdev nd) (k nd) (entries nd) (data nd) (link nd) (O_next nd) (mountpoint nd) x.

(** [mode&61440] and its values. *)
Definition fmt (m : Z) : Z := Z.land m 61440.
Definition L (m : Z) : bool := fmt m =? 16384.
Definition is_file (m : Z) : bool := fmt m =? 32768.
Definition is_link (m : Z) : bool := fmt m =? 40960.
Definition is_chr (m : Z) : bool := fmt m =? 8192.

(** ** The state *)

(** The operations of an open stream: those of its node, or of its device. *)
Inductive stream_ops : Type :=
| SDir | SFile | SLink
| SDev            (** [zb], before [open] has found the device *)
| SNull           (** [/dev/null] *)
| STty            (** [wb] *)
| SFn             (** a device made by [ec] *)
| SNone           (** a node without operations *).

Record stream : Type := mkStream {
  s_node : Z;
  s_path : jsstr;
  s_flags : Z;
  s_seekable : bool;
  s_position : Z;
  s_n : stream_ops
}.

Record fs : Type := mkFs {
  nodes : gmap Z node;
  O_tab : gmap Z Z;          (** [O], the buckets of the table of names *)
  Hb : Z;                    (** the next node id *)
  Eb : option Z;             (** the root *)
  N_fd : gmap Z stream;      (** [N], the streams by descriptor *)
  Gb : gmap Z stream_ops;    (** devices by number *)
  Ib : bool                  (** permissions are ignored *)
}.

Definition set_nodes x s := mkFs x (O_tab s) (Hb s) (Eb s) (N_fd s) (Gb s) (Ib s).
Definition set_O_tab x s := mkFs (nodes s) x (Hb s) (Eb s) (N_fd s) (Gb s) (Ib s).
Definition set_Hb x s := mkFs (nodes s) (O_tab s) x (Eb s) (N_fd s) (Gb s) (Ib s).
Definition set_Eb x s := mkFs (nodes s) (O_tab s) (Hb s) x (N_fd s) (Gb s) (Ib s).
Definition set_N_fd x s := mkFs (nodes s) (O_tab s) (Hb s) (Eb s) x (Gb s) (Ib s).
Definition set_Gb x s := mkFs (nodes s) (O_tab s) (Hb s) (Eb s) (N_fd s) x (Ib s).
Definition set_Ib x s := mkFs (nodes s) (O_tab s) (Hb s) (Eb s) (N_fd s) (Gb s) x.

Definition upd (i : Z) (f : node → node) (s : fs) : fs := set_nodes (alter f i (nodes s)) s.

(** The object for the stream [d] of descriptor [-1-i]:
    [{parent:null,A:{Oa:"fake"},k:{readlink:function(){return d.path}}}], its own
    parent.  Its mode is [undefined], which counts as 0. *)
Definition fake_node (i : Z) (d : stream) : node :=
  mkNode i [] 0 0 OpsFake ∅ (mkFile CNull 0) (s_path d) None (Some (js "fake")) None.

(** A reference to a node that is not there is [undefined]. *)
Definition get_node (i : Z) (s : fs) : go Z node :=
  match nodes s !! i with
  | Some nd => GoRet nd
  | None =>
      if i <? 0
      then match N_fd s !! (-1 - i) with Some d => GoRet (fake_node i d) | None => GoPanic PTypeError end
      else GoPanic PTypeError
  end.

(** Before any mount: [Hb=1], [Ib=!0]. *)
Definition fs0 : fs := mkFs ∅ ∅ 1 None ∅ ∅ true.

(** ** Permissions ([Nb]) *)

Record perms : Type := mkPerms { p_r : bool; p_w : bool; p_x : bool }.

Definition Nb (nd : node) (b : perms) (s : fs) : Z :=
  if Ib s then 0
  else if negb (p_r b) || negb (Z.land (mode nd) 292 =? 0) then
    if (p_w b && (Z.land (mode nd) 146 =? 0)) || (p_x b && (Z.land (mode nd) 73 =? 0)) then EACCES else 0
  else EACCES.

(** ** Numbers of strings

    [N[+c]]: the value of a string as a number, when it is an index.  Decimal
    literals are rounded to the nearest double. *)

Definition is_space (c : Z) : bool :=
  ((9 <=? c) && (c <=? 13)) || ((8192 <=? c) && (c <=? 8202)) ||
  existsb (Z.eqb c) [32; 160; 5760; 8232; 8233; 8239; 8287; 12288; 65279].
Fixpoint ltrim (s : jsstr) : jsstr :=
  match s with c :: s' => if is_space c then ltrim s' else s | [] => [] end.
Definition trim (s : jsstr) : jsstr := rev (ltrim (rev (ltrim s))).

Definition digit_of (base c : Z) : option Z :=
  let v := if (48 <=? c) && (c <=? 57) then c - 48
           else if (97 <=? c) && (c <=? 102) then c - 87
           else if (65 <=? c) && (c <=? 70) then c - 55 else base in
  if v <? base then Some v else None.

(** The digits a string begins with: their number, how many, and the rest. *)
Fixpoint digits (base : Z) (s : jsstr) (v n : Z) : Z * Z * jsstr :=
  match s with
  | c :: s' => match digit_of base c with Some d => digits base s' (base * v + d) (n + 1) | None => (v, n, s) end
  | [] => (v, n, [])
  end.

Definition prefixed (base : Z) (s : jsstr) : option Z :=
  match digits base s 0 0 with (v, n, []) => if n =? 0 then None else Some v | _ => None end.

Definition signed (s : jsstr) : bool * jsstr :=
  match s with c :: s' => if c =? 45 then (true, s') else if c =? 43 then (false, s') else (false, s) | [] => (false, []) end.

(** The decimal number [m * 10 ^ e]. *)
Definition decimal (s : jsstr) : option (Z * Z) :=
  let '(m, n1, s) := digits 10 s 0 0 in
  let '(m, n2, s) := match s with c :: s' => if c =? 46 then digits 10 s' m 0 else (m, 0, s) | [] => (m, 0, []) end in
  if n1 + n2 =? 0 then None
  else match s with
       | [] => Some (m, - n2)
       | c :: s' =>
           if (c =? 101) || (c =? 69) then
             let '(neg, s') := signed s' in
             match digits 10 s' 0 0 with
             | (x, n, []) => if n =? 0 then None else Some (m, (if neg : bool then - x else x) - n2)
             | _ => None
             end
           else None
       end.

(** The natural number [num / den] is rounded to, if it is rounded to one. *)
Definition rounded (num den : Z) : option Z :=
  let n := (2 * num + den) / (2 * den) in
  if n =? 0 then (if num * 2 ^ 1075 <=? den then Some 0 else None)
  else
    let l := Z.log2 n in
    let below := if n =? 2 ^ l then 54 - l else 53 - l in
    if ((num - n * den) * 2 ^ (53 - l) <=? den) && ((n * den - num) * 2 ^ below <=? den) then Some n else None.

Definition to_index (s : jsstr) : option Z :=
  match trim s with
  | [] => Some 0
  | s =>
      let literal :=
        let '(neg, s) := signed s in
        '(m, e) ← decimal s;
        n ← rounded (m * 10 ^ Z.max e 0) (10 ^ Z.max (- e) 0);
        if neg && negb (n =? 0) then None else Some n in
      match s with
      | 48 :: c :: s' =>
          if (c =? 120) || (c =? 88) then prefixed 16 s'
          else if (c =? 111) || (c =? 79) then prefixed 8 s'
          else if (c =? 98) || (c =? 66) then prefixed 2 s'
          else literal
      | _ => literal
      end
  end.

Example to_index_ex : map to_index [js "3"; js "0x10"; js " 7 "; js "1e1"; js "2.50"; js "-0"; js "-1"; js "3x"; js "1.0000000000000000001"] =
  [Some 3; Some 16; Some 7; Some 10; None; Some 0; None; None; Some 1].
Proof. vm_compute. reflexivity. Qed.

(** [lookup] of the root of the mount: the object for an open descriptor. *)
Definition fd_lookup (b : jsstr) (s : fs) : go Z Z :=
  match to_index b with
  | Some n => match N_fd s !! n with Some _ => GoRet (-1 - n) | None => GoErr EBADF end
  | None => GoErr EBADF
  end.

(** ** The table of names ([Mb], [Cb]) *)

(** [Lb(a.id,b)]; for the string, which has no id, it is [NaN>>>0]. *)
Definition bucket (a : Z) (b : jsstr) : Z := if a =? 0 then 0 else Lb a b.

Definition Mb (i : Z) (s : fs) : fs :=
  match nodes s !! i with
  | Some nd =>
      let b := bucket (parent nd) (name nd) in
      set_O_tab (<[b := i]> (O_tab s)) (upd i (set_O_next (O_tab s !! b)) s)
  | None => s
  end.

(** The loop of [Cb] along a bucket.  Ids decrease along it. *)
Fixpoint chain_find (n : nat) (c : option Z) (a : Z) (b : jsstr) (s : fs) : go Z (option Z) :=
  match n, c with
  | _, None => GoRet None
  | 0%nat, Some _ => GoPanic (PMsg "endless chain")
  | S n', Some i =>
      let! nd := get_node i s in
      if (parent nd =? a) && bool_decide (name nd = b) then GoRet (Some i)
      else chain_find n' (O_next nd) a b s
  end.

Definition has_lookup (o : ops) : bool := match o with OpsDir | OpsFd => true | _ => false end.

(** [a.k.lookup(a,b)]; [K.k.lookup] always throws. *)
Definition lookup_miss (o : ops) (b : jsstr) (s : fs) : go Z Z :=
  match o with OpsFd => fd_lookup b s | _ => GoErr ENOENT end.

(** [Cb(a, b)]: the child of [a] with name [b]. *)
Definition Cb (a : Z) (b : jsstr) (s : fs) : go Z Z :=
  let! nd := get_node a s in
  let c := Nb nd (mkPerms false false true) s in
  let c := if c =? 0 then (if has_lookup (k nd) then 0 else EACCES) else c in
  if c =? 0 then
    let! r := chain_find (Z.to_nat (Hb s)) (O_tab s !! bucket a b) a b s in
    match r with Some i => GoRet i | None => lookup_miss (k nd) b s end
  else GoErr c.

(** ** Creation of nodes ([Ab], [K.createNode]) *)

Definition Ab (p : option Z) (b : jsstr) (m d : Z) (s : fs) : Z * fs :=
  let id := Hb s in
  let mp := p ← p; nd ← nodes s !! p; mountpoint nd in
  let nd := mkNode (default id p) b m d OpsNone ∅ (mkFile CNull 0) [] None mp None in
  (id, Mb id (set_Hb (id + 1) (set_nodes (<[id := nd]> (nodes s)) s))).

Definition ops_of (m : Z) : ops :=
  if L m then OpsDir else if is_file m then OpsFile else if is_link m then OpsLink
  else if is_chr m then OpsDev else OpsNone.

Definition createNode (p : option Z) (b : jsstr) (m d : Z) (s : fs) : go Z (Z * fs) :=
  if (fmt m =? 24576) || (fmt m =? 4096) then GoErr EPERM
  else
    let '(id, s) := Ab p b m d s in
    let s := upd id (set_k (ops_of m)) s in
    let s := match p with
             | Some a => upd a (fun nd => set_entries (<[b := id]> (entries nd)) nd) s
             | None => s
             end in
    GoRet (id, s).

(** ** Paths of nodes ([Kb]) *)

(** [b] is the path so far; [None] before the first name. *)
Fixpoint Kb_loop (n : nat) (i : Z) (b : option jsstr) (s : fs) : go Z jsstr :=
  match n with
  | 0%nat => GoPanic (PMsg "endless parents")
  | S n' =>
      let! nd := get_node i s in
      if parent nd =? i then
        match mountpoint nd with
        | None => GoPanic PTypeError
        | Some a =>
            GoRet (match b with
                   | Some b => if ends_slash a then a ++ b else a ++ slash :: b
                   | None => a
                   end)
        end
      else
        let b := match b with Some b => name nd ++ slash :: b | None => name nd end in
        Kb_loop n' (parent nd) (if nonempty b then Some b else None) s
  end.

Definition Kb (i : Z) (s : fs) : go Z jsstr := Kb_loop (Z.to_nat (Hb s) + 1) i None s.

(** [ob]: everything before the last part.  The regular expression takes an
    optional first slash, then as little as leaves a part without slashes and
    a run of slashes at the end. *)
Fixpoint drop_slashes (r : jsstr) : jsstr :=
  match r with c :: r' => if c =? slash then drop_slashes r' else r | [] => [] end.
Fixpoint drop_part (r : jsstr) : jsstr :=
  match r with c :: r' => if c =? slash then r else drop_part r' | [] => [] end.

Definition ob (a : jsstr) : jsstr :=
  let root := if starts_slash a then [slash] else [] in
  let rest := if starts_slash a then tail a else a in
  let dir := rev (drop_part (drop_slashes (rev rest))) in
  if negb (nonempty root) && negb (nonempty dir) then dot1
  else root ++ removelast dir.

(** ** Path resolution ([Q], [Jb]) *)

Record opts : Type := mkOpts { o_parent : bool; o_Ka : bool; o_da : bool }.
Definition opts0 : opts := mkOpts false true false.

Section Resolve.
Context (Qrec : jsstr → opts → go Z (jsstr * option Z)).
Context (s : fs).

Definition Jb_with (a : jsstr) : go Z jsstr :=
  let! (_, g) := Qrec a opts0 in
  match g with
  | None => GoErr ENOENT
  | Some i =>
      let! nd := get_node i s in
      match k nd with
      | OpsLink =>
          let! p := Kb (parent nd) s in
          if is_link (mode nd) then GoRet (sb [p; link nd]) else GoErr EINVAL
      | OpsFake => let! p := Kb (parent nd) s in GoRet (sb [p; link nd])
      | _ => GoErr EINVAL
      end
  end.

(** The loop that follows links at [d]; [q] counts them. *)
Fixpoint follow (n : nat) (q : Z) (d : jsstr) (f : option Z) : go Z (jsstr * option Z) :=
  match n, f with
  | _, None => GoPanic PTypeError
  | 0%nat, _ => GoPanic (PMsg "endless links")
  | S n', Some i =>
      let! nd := get_node i s in
      if is_link (mode nd) then
        let! l := Jb_with d in
        let d := sb [ob d; l] in
        let! (_, f) := Qrec d opts0 in
        if 40 <? q then GoErr ELOOP else follow n' (q + 1) d f
      else GoRet (d, f)
  end.

(** The loop over the parts of the path. *)
Fixpoint walk (b : opts) (c : list jsstr) (d : jsstr) (f : option Z) : go Z (jsstr * option Z) :=
  match c with
  | [] => GoRet (d, f)
  | p :: c' =>
      let last := match c' with [] => true | _ => false end in
      if last && o_parent b then GoRet (d, f)
      else
        match f with
        | None => GoPanic PTypeError
        | Some f =>
            let! i := Cb f p s in
            let d := rb d p in
            let! nd := get_node i s in
            let i := match V nd with
                     | Some r => if negb last || o_Ka b then r else i
                     | None => i
                     end in
            let! (d, f) := if negb last || o_da b then follow 43 0 d (Some i) else GoRet (d, Some i) in
            walk b c' d f
        end
  end.
End Resolve.

(** [Q(a, b)]: the path reached and its node; the count [ua] of nested calls is
    passed on unchanged, so the check on it never fires. *)
Fixpoint Q (depth : nat) (s : fs) (a : jsstr) (b : opts) : go Z (jsstr * option Z) :=
  match depth with
  | 0%nat => GoPanic PStack
  | S depth' =>
      let a := sb [[slash]; a] in
      if nonempty a then walk (Q depth' s) s b (mb (parts a) false) [slash] (Eb s)
      else GoRet ([], None)
  end.

Definition Jb (depth : nat) (s : fs) (a : jsstr) : go Z jsstr := Jb_with (Q depth s) s a.

(** ** Creating entries ([Qb], [Vb], [R], [Wb], [Xb], [Ub], [vb], [ec]) *)

(** [Qb(a, b)]: may [b] be created in [a]?  Any exception of [Cb] means it is
    free. *)
Definition Qb (a : Z) (b : jsstr) (s : fs) : go Z Z :=
  match Cb a b s with
  | GoRet _ => GoRet EEXIST
  | _ => let! nd := get_node a s in GoRet (Nb nd (mkPerms false true true) s)
  end.

(** The parent of a new entry, its checked name. *)
Definition Vb (depth : nat) (a : jsstr) (m d : Z) (s : fs) : go Z (Z * fs) :=
  let! (_, p) := Q depth s a (mkOpts true true false) in
  let b := pb a in
  if negb (nonempty b) || bool_decide (b = dot1) || bool_decide (b = dot2) then GoErr EINVAL
  else
    match p with
    | None => GoPanic PTypeError
    | Some p =>
        let! f := Qb p b s in
        if f =? 0 then
          let! nd := get_node p s in
          match k nd with
          | OpsDir => createNode (Some p) b m d s
          | _ => GoErr EPERM
          end
        else GoErr f
    end.

(** [R(a)]: make a directory. *)
Definition R (depth : nat) (a : jsstr) (s : fs) : go Z fs :=
  let! (_, s) := Vb depth a (Z.lor (Z.land 511 1023) 16384) 0 s in GoRet s.

(** [Wb(a, b, c)]: make a device; without [c] the mode is 438. *)
Definition Wb (depth : nat) (a : jsstr) (m d : Z) (s : fs) : go Z fs :=
  let! (_, s) := Vb depth a (Z.lor m 8192) d s in GoRet s.

(** [Xb(a, b)]: make [b] a link to [a]. *)
Definition Xb (depth : nat) (a b : jsstr) (s : fs) : go Z fs :=
  if negb (nonempty (sb [a])) then GoErr ENOENT
  else
    let! (_, c) := Q depth s b (mkOpts true true false) in
    match c with
    | None => GoErr ENOENT
    | Some c =>
        let d := pb b in
        let! f := Qb c d s in
        if f =? 0 then
          let! nd := get_node c s in
          match k nd with
          | OpsDir =>
              let! (i, s) := createNode (Some c) d 41471 0 s in
              GoRet (upd i (set_link a) s)
          | _ => GoErr EPERM
          end
        else GoErr f
    end.

(** What can be mounted: the in-memory file system, and the one made for
    [/proc/self/fd], whose root is [Ab("/proc/self","fd",16895,73)]. *)
Inductive fstype : Type := FsK | FsFd.

Definition mount_root (a : fstype) (s : fs) : go Z (Z * fs) :=
  match a with
  | FsK => createNode None [slash] 16895 0 s
  | FsFd => let '(g, s) := Ab (Some 0) (js "fd") 16895 73 s in GoRet (g, upd g (set_k OpsFd) s)
  end.

(** [Ub(a, b)]: mount a fresh file system at [b]. *)
Definition Ub (depth : nat) (a : fstype) (b : jsstr) (s : fs) : go Z fs :=
  let root := bool_decide (b = [slash]) in
  match root, Eb s with
  | true, Some _ => GoErr EBUSY
  | _, _ =>
      let! (b, f) :=
        if root || negb (nonempty b) then GoRet (b, None)
        else
          let! (b, f) := Q depth s b (mkOpts false false false) in
          match f with
          | None => GoPanic PTypeError
          | Some i =>
              let! nd := get_node i s in
              match V nd with
              | Some _ => GoErr EBUSY
              | None => if L (mode nd) then GoRet (b, Some i) else GoErr ENOTDIR
              end
          end in
      let! (g, s) := mount_root a s in
      let s := upd g (set_mountpoint (Some b)) s in
      GoRet (if root then set_Eb (Some g) s
             else match f with Some i => upd i (set_V (Some g)) s | None => s end)
  end.

(** [vb(a, b)]: register a device. *)
Definition vb (a : Z) (b : stream_ops) (s : fs) : fs := set_Gb (<[a := b]> (Gb s)) s.

(** [dc(a, b)]: the mode of a device from what it can do. *)
Definition dc (a b : bool) : Z := Z.lor (if a then 365 else 0) (if b then 146 else 0).

(** [ec(a, b, c)], the counter [fc] passed in and out: a device of user functions. *)
Definition ec (depth : nat) (fc : Z) (a : jsstr) (b c : bool) (s : fs) : go Z (Z * fs) :=
  let a := rb (js "/dev") a in
  let d := dc b c in
  let f := i32 (Z.shiftl fc 8) in
  let! s := Wb depth a d f (vb f SFn s) in
  GoRet (fc + 1, s).

(** ** Removing entries ([___syscall10]) *)

(** The loop that takes node [g] out of its bucket, from the node [c] on. *)
Fixpoint chain_unlink (n : nat) (c : option Z) (g : Z) (next : option Z) (s : fs) : go Z fs :=
  match n, c with
  | _, None => GoRet s
  | 0%nat, Some _ => GoPanic (PMsg "endless chain")
  | S n', Some i =>
      let! nd := get_node i s in
      if bool_decide (O_next nd = Some g) then GoRet (upd i (set_O_next next) s)
      else chain_unlink n' (O_next nd) g next s
  end.

(** Take a node out of the table of names. *)
Definition name_remove (g : Z) (s : fs) : go Z fs :=
  let! nd := get_node g s in
  let r := bucket (parent nd) (name nd) in
  if bool_decide (O_tab s !! r = Some g)
  then GoRet (set_O_tab (partial_alter (fun _ => O_next nd) r (O_tab s)) s)
  else chain_unlink (Z.to_nat (Hb s)) (O_tab s !! r) g (O_next nd) s.

(** [___syscall10]: remove the entry at a path that is not a directory. *)
Definition unlink (depth : nat) (c : jsstr) (s : fs) : go Z fs :=
  let! (_, d) := Q depth s c (mkOpts true true false) in
  let f := pb c in
  match d with
  | None => GoPanic PTypeError
  | Some d =>
      let! g := Cb d f s in
      let! gnd := get_node g s in
      let! dnd := get_node d s in
      let p := Nb dnd (mkPerms false true true) s in
      if negb (p =? 0) then GoErr p
      else if L (mode gnd) then GoErr EPERM
      else
        match k dnd with
        | OpsDir =>
            match V gnd with
            | Some _ => GoErr EBUSY
            | None => name_remove g (upd d (fun nd => set_entries (delete f (entries nd)) nd) s)
            end
        | _ => GoErr EPERM
        end
  end.

(** ** Descriptors ([Rb], [Sb]) *)

Fixpoint Rb_loop (n : nat) (a : Z) (s : fs) : go Z Z :=
  match n with
  | 0%nat => GoErr EMFILE
  | S n' => match N_fd s !! a with None => GoRet a | Some _ => Rb_loop n' (a + 1) s end
  end.

(** The smallest free descriptor from [a] to 4096. *)
Definition Rb (a : Z) (s : fs) : go Z Z := Rb_loop (Z.to_nat (4097 - a)) a s.

(** The rest of [Sb]: the stream goes to its slot. *)
Definition Sb (st : stream) (fd : Z) (s : fs) : fs := set_N_fd (<[fd := st]> (N_fd s)) s.

(** ** Opening and closing ([Yb], [$b]) *)

(** [Pb]: open flags by name. *)
Definition Pb (m : string) : option Z :=
  if decide (m = "r") then Some 0 else if decide (m = "rs") then Some 1052672
  else if decide (m = "r+") then Some 2 else if decide (m = "w") then Some 577
  else if decide (m = "wx") then Some 705 else if decide (m = "xw") then Some 705
  else if decide (m = "w+") then Some 578 else if decide (m = "wx+") then Some 706
  else if decide (m = "xw+") then Some 706 else if decide (m = "a") then Some 1089
  else if decide (m = "ax") then Some 1217 else if decide (m = "xa") then Some 1217
  else if decide (m = "a+") then Some 1090 else if decide (m = "ax+") then Some 1218
  else if decide (m = "xa+") then Some 1218 else None.

Definition flag (b m : Z) : bool := negb (Z.land b m =? 0).

(** May an existing node be opened with these flags? *)
Definition may_open (nd : node) (b : Z) (s : fs) : go Z Z :=
  if is_link (mode nd) then GoRet ELOOP
  else if L (mode nd) && (flag b 2097155 || flag b 512) then GoRet EISDIR
  else
    let t := flag b 512 in
    if Z.land b 3 =? 0 then GoRet (Nb nd (mkPerms true t false) s)
    else if Z.land b 3 =? 1 then GoRet (Nb nd (mkPerms false true false) s)
    else if Z.land b 3 =? 2 then GoRet (Nb nd (mkPerms true true false) s)
    else if Ib s then GoRet 0
    else if t then GoRet (Nb nd (mkPerms false true false) s) else GoPanic PTypeError.

(** The truncation of [open]: [k.F(h, {size: 0})]. *)
Definition truncate0 (i : Z) (s : fs) : go Z fs :=
  let! nd := get_node i s in
  match k nd with
  | OpsNone | OpsFd | OpsFake => GoErr EPERM
  | _ =>
      if L (mode nd) then GoErr EISDIR
      else if negb (is_file (mode nd)) then GoErr EINVAL
      else
        let c := Nb nd (mkPerms false true false) s in
        if c =? 0 then let! f := jb (data nd) 0 in GoRet (upd i (set_data f) s)
        else GoErr c
  end.

Definition stream_ops_of (o : ops) : stream_ops :=
  match o with
  | OpsDir => SDir | OpsFile => SFile | OpsLink => SLink | OpsDev => SDev | OpsNone | OpsFd | OpsFake => SNone
  end.

(** [d.n.open&&d.n.open(d)]: only devices have one; it picks the device's
    operations and calls their [open]. *)
Definition stream_open (rd : Z) (st : stream) (s : fs) : go Z stream :=
  match s_n st with
  | SDev =>
      match Gb s !! rd with
      | None => GoPanic PTypeError
      | Some n =>
          let seek := match n with STty | SFn => false | _ => s_seekable st end in
          GoRet (mkStream (s_node st) (s_path st) (s_flags st) seek (s_position st) n)
      end
  | _ => GoRet st
  end.

(** The node to open: found, or made with mode [c] when the flags ask for it;
    any exception of the search means it is not there. *)
Definition open_node (depth : nat) (a : jsstr) (b c : Z) (s : fs) : go Z (Z * bool * fs) :=
  let g := match Q depth s a (mkOpts false true (negb (flag b 131072))) with
           | GoRet (_, g) => g
           | _ => None
           end in
  match g with
  | Some i => if flag b 64 && flag b 128 then GoErr EEXIST else GoRet (i, false, s)
  | None =>
      if flag b 64 then let! (i, s) := Vb depth a c 0 s in GoRet (i, true, s)
      else GoErr ENOENT
  end.

(** The checks of [open] on the node. *)
Definition open_checks (nd : node) (b : Z) (created : bool) (s : fs) : go Z unit :=
  if flag b 65536 && negb (L (mode nd)) then GoErr ENOTDIR
  else
    let! err := if created then GoRet 0 else may_open nd b s in
    if err =? 0 then GoRet tt else GoErr err.

(** [Yb(a, b, c, d)] with numeric flags [b]; [c] is the mode for a new file and
    [fd] the lowest descriptor wanted.  What was done before an error stays
    done, so the state is returned in any case.  An object for a descriptor has no
    [n], so that [d.n.open] throws a [TypeError]; it comes to that only as long as
    permissions are ignored, and the slot the stream has then got is left out. *)
Definition Yb (depth : nat) (a : jsstr) (b : Z) (c : option Z) (fd : Z) (s : fs) : go Z Z * fs :=
  let c := if flag b 64 then Z.lor (Z.land (default 438 c) 4095) 32768 else 0 in
  match (if nonempty a then open_node depth (nb a) b c s else GoErr ENOENT) with
  | GoErr err => (GoErr err, s)
  | GoPanic p => (GoPanic p, s)
  | GoRet (i, created, s) =>
      match get_node i s with
      | GoErr err => (GoErr err, s)
      | GoPanic p => (GoPanic p, s)
      | GoRet nd =>
          let b := if is_chr (mode nd) then Z.land b (-513) else b in
          match (let! _ := open_checks nd b created s in if flag b 512 then truncate0 i s else GoRet s) with
          | GoErr err => (GoErr err, s)
          | GoPanic p => (GoPanic p, s)
          | GoRet s =>
              match Kb i s with
              | GoErr err => (GoErr err, s)
              | GoPanic p => (GoPanic p, s)
              | GoRet path =>
                  let st := mkStream i path (Z.land b (-641)) true 0 (stream_ops_of (k nd)) in
                  match Rb fd s with
                  | GoErr err => (GoErr err, s)
                  | GoPanic p => (GoPanic p, s)
                  | GoRet fd =>
                      if i <? 0 then (GoPanic PTypeError, s) else
                      let s := Sb st fd s in
                      match stream_open (rdev nd) st s with
                      | GoErr err => (GoErr err, s)
                      | GoPanic p => (GoPanic p, s)
                      | GoRet st => (GoRet fd, set_N_fd (<[fd := st]> (N_fd s)) s)
                      end
                  end
              end
          end
      end
  end.

(** [$b(a)] on a descriptor: the slot is freed. *)
Definition close (fd : Z) (s : fs) : fs := set_N_fd (delete fd (N_fd s)) s.

(** ** Start-up *)

(** The calls made when the script is loaded. *)
Definition boot_dirs (depth : nat) : go Z fs :=
  let! s := Ub depth FsK [slash] fs0 in
  let! s := R depth (js "/tmp") s in
  let! s := R depth (js "/home") s in
  let! s := R depth (js "/home/web_user") s in
  let! s := R depth (js "/dev") s in
  let! s := Wb depth (js "/dev/null") 438 259 (vb 259 SNull s) in
  let s := vb 1536 STty (vb 1280 STty s) in
  let! s := Wb depth (js "/dev/tty") 438 1280 s in
  let! s := Wb depth (js "/dev/tty1") 438 1536 s in
  let! (fc, s) := ec depth 64 (js "random") true false s in
  let! (fc, s) := ec depth fc (js "urandom") true false s in
  let! s := R depth (js "/dev/shm") s in
  let! s := R depth (js "/dev/shm/tmp") s in
  let! s := R depth (js "/proc") s in
  let! s := R depth (js "/proc/self") s in
  R depth (js "/proc/self/fd") s.

Definition boot (depth : nat) : go Z fs :=
  let! s := boot_dirs depth in
  Ub depth FsFd (js "/proc/self/fd") s.

Definition open_or (r : go Z Z * fs) (fd : Z) : go Z fs :=
  match r with
  | (GoRet n, s) => if n =? fd then GoRet s else GoPanic PAssert
  | (GoErr err, _) => GoErr err
  | (GoPanic p, _) => GoPanic p
  end.

(** The initialisation run before the program: the standard streams, without
    user-supplied functions for them; then permissions are enforced. *)
Definition FS_init (depth : nat) (s : fs) : go Z fs :=
  let! s := Xb depth (js "/dev/tty") (js "/dev/stdin") s in
  let! s := Xb depth (js "/dev/tty") (js "/dev/stdout") s in
  let! s := Xb depth (js "/dev/tty1") (js "/dev/stderr") s in
  let! s := open_or (Yb depth (js "/dev/stdin") 0 None 0 s) 0 in
  let! s := open_or (Yb depth (js "/dev/stdout") 577 None 0 s) 1 in
  let! s := open_or (Yb depth (js "/dev/stderr") 577 None 0 s) 2 in
  GoRet (set_Ib false s).

Definition started : go Z fs := let! s := boot 3 in FS_init 3 s.
