(* ===== verification/VizFSFacts.v ===== *)
(** * The table of names of the viewer's file system

    The buckets of [O], linked through the nodes, implement a finite map from
    a parent and a name to a node. *)

From Stdlib Require Import ZArith Lia.
From stdpp Require Import base list gmap strings sorting.
From S2P Require Import Prelude VizRuntime VizFile VizFS.

Open Scope Z_scope.

(** What the table sees of a node: parent, name, next of the bucket. *)
Definition bones (nd : node) : Z * jsstr * option Z := (parent nd, name nd, O_next nd).
Definition skel (s : fs) (i : Z) : option (Z * jsstr * option Z) := bones <$> nodes s !! i.

(** The nodes of a bucket, from a first one on; ids decrease. *)
Inductive chain (s : fs) : option Z → list Z → Prop :=
| chain_nil : chain s None []
| chain_cons i p b c l :
    skel s i = Some (p, b, c) → 0 < i → Forall (fun j => j < i) l → chain s c l →
    chain s (Some i) (i :: l).

(** The table of [s] holds the map [M]. *)
Record names (s : fs) (M : gmap (Z * list Z) Z) : Prop := {
  names_ids : ∀ i, is_Some (skel s i) → 0 < i < Hb s;
  names_bucket : ∀ h, ∃ l, chain s (O_tab s !! h) l ∧
    ∀ i, i ∈ l ↔ ∃ p b c, skel s i = Some (p, b, c) ∧ bucket p b = h ∧ M !! (p, b) = Some i;
  names_node : ∀ p b i, M !! (p, b) = Some i → ∃ c, skel s i = Some (p, b, c)
}.

(** ** Changes the table does not see *)

Definition same_table (s s' : fs) : Prop :=
  Hb s' = Hb s ∧ O_tab s' = O_tab s ∧ ∀ i, skel s' i = skel s i.

#[export] Instance same_table_equiv : Equivalence same_table.
Proof.
  split.
  - intros s. by split_and!.
  - intros s s' (? & ? & ?). by split_and!.
  - intros s s' s'' (H1 & H2 & H3) (H4 & H5 & H6).
    split_and!; [by rewrite H4|by rewrite H5|intros i; by rewrite H6].
Qed.

Lemma chain_same s s' c l : (∀ i, i ∈ l → skel s' i = skel s i) → chain s c l → chain s' c l.
Proof.
  intros Hs H. induction H as [|i p b c l Hi Hp HF H IH]; [constructor|].
  econstructor; [|done|done|].
  - rewrite Hs; [done|left].
  - apply IH. intros j Hj. apply Hs. by right.
Qed.

#[export] Instance names_proper : Proper (same_table ==> eq ==> iff) names.
Proof.
  assert (∀ s s' M, same_table s s' → names s M → names s' M) as Himp.
  { intros s s' M (HH & HO & HN) [H1 H2 H3]. split.
    - intros i Hi. rewrite HN in Hi. rewrite HH. by apply H1.
    - intros h. destruct (H2 h) as (l & Hl & Hin). exists l. rewrite HO. split.
      + eapply chain_same; [|done]. intros i _. apply HN.
      + intros i. rewrite Hin, HN. done.
    - intros p b i Hi. rewrite HN. by apply H3. }
  intros s s' Hs M ? <-. split; [by apply Himp|]. apply Himp. by symmetry.
Qed.

Lemma upd_same i f s : (∀ nd, bones (f nd) = bones nd) → same_table s (upd i f s).
Proof.
  intros Hf. split_and!; [done|done|]. intros j. unfold skel, upd. simpl.
  destruct (decide (i = j)) as [->|Hne]; [|by rewrite lookup_alter_ne].
  rewrite lookup_alter_eq. destruct (nodes s !! j); [|done]. simpl. by rewrite Hf.
Qed.

(** ** Searching *)

Lemma chain_length s c l : chain s c l → ∀ i, c = Some i → Z.of_nat (length l) <= i.
Proof.
  intros H. induction H as [|i p b c l Hi Hp HF H IH]; intros ? [= <-].
  destruct H as [|j p' b' c' l' Hj Hp' HF' H']; [simpl; lia|].
  specialize (IH j eq_refl). inversion_clear HF. simpl in *. lia.
Qed.

Lemma chain_find_spec s n c l a b :
  chain s c l → (length l <= n)%nat →
  ∃ r, chain_find n c a b s = GoRet r ∧
    (∀ i, r = Some i → i ∈ l ∧ ∃ x, skel s i = Some (a, b, x)) ∧
    (r = None → ∀ i x, i ∈ l → skel s i ≠ Some (a, b, x)).
Proof.
  intros H. revert n. induction H as [|i p q c l Hi Hp HF H IH]; intros n Hn.
  { exists None. destruct n; (split; [done|]); (split; [done|]); intros _ i x Hi; by apply not_elem_of_nil in Hi. }
  destruct n as [|n]; [simpl in Hn; lia|]. simpl in *. unfold skel in Hi.
  destruct (nodes s !! i) as [nd|] eqn:E; [|done]. injection Hi as H1 H2 H3.
  unfold get_node. rewrite E. cbn [go_bind]. rewrite H1, H2, H3.
  destruct (Z.eqb_spec p a) as [->|Hpa]; simpl; [case_bool_decide as Hqb|].
  - exists (Some i). split; [done|]. split; [|done]. intros ? [= <-]. split; [left|].
    unfold skel. rewrite E. exists c. simpl. unfold bones. by rewrite H1, H2, H3, Hqb.
  - destruct (IH n ltac:(lia)) as (r & Hr & Hs & Hnone). exists r. split; [done|]. split.
    + intros j Hj. destruct (Hs j Hj). split; [by right|done].
    + intros Hr0 j x [->|Hj]%elem_of_cons; [|by apply Hnone]. unfold skel. rewrite E. simpl. unfold bones. congruence.
  - destruct (IH n ltac:(lia)) as (r & Hr & Hs & Hnone). exists r. split; [done|]. split.
    + intros j Hj. destruct (Hs j Hj). split; [by right|done].
    + intros Hr0 j x [->|Hj]%elem_of_cons; [|by apply Hnone]. unfold skel. rewrite E. simpl. unfold bones. congruence.
Qed.

(** The bucket search computes the map. *)
Lemma names_find s M a b :
  names s M → chain_find (Z.to_nat (Hb s)) (O_tab s !! bucket a b) a b s = GoRet (M !! (a, b)).
Proof.
  intros HM. destruct (names_bucket _ _ HM (bucket a b)) as (l & Hl & Hin).
  destruct (chain_find_spec s (Z.to_nat (Hb s)) _ l a b Hl) as (r & -> & Hs & Hnone).
  { destruct l as [|i l]; [simpl; lia|]. inversion Hl as [|? p q c ? Hi]; subst.
    assert (is_Some (skel s i)) as Hi' by (rewrite Hi; eauto). apply (names_ids _ _ HM) in Hi'.
    pose proof (chain_length s _ _ Hl i ltac:(congruence)). lia. }
  f_equal. destruct r as [i|].
  - destruct (Hs i eq_refl) as [Hi [x Hx]]. apply Hin in Hi as (p & q & c & H1 & H2 & H3). congruence.
  - destruct (M !! (a, b)) as [i|] eqn:E; [|done]. exfalso.
    destruct (names_node _ _ HM _ _ _ E) as [c Hc]. apply (Hnone eq_refl i c); [|done].
    apply Hin. eauto 10.
Qed.

(** May this node be searched? *)
Definition searchable (nd : node) (s : fs) : Prop :=
  has_lookup (k nd) = true ∧ Nb nd (mkPerms false false true) s = 0.

Lemma Cb_spec s M a nd b :
  names s M → nodes s !! a = Some nd → searchable nd s →
  Cb a b s = match M !! (a, b) with Some i => GoRet i | None => lookup_miss (k nd) b s end.
Proof.
  intros HM Ha [Hk Hp]. unfold Cb, get_node. rewrite Ha. cbn [go_bind]. rewrite Hp, Hk.
  change (0 =? 0) with true. cbn match. rewrite (names_find s M) by done. cbn [go_bind]. done.
Qed.

(** ** Adding *)

Lemma Mb_bucket s i nd :
  nodes s !! i = Some nd →
  O_tab (Mb i s) = <[bucket (parent nd) (name nd) := i]> (O_tab s) ∧
  skel (Mb i s) i = Some (parent nd, name nd, O_tab s !! bucket (parent nd) (name nd)) ∧
  (∀ j, j ≠ i → skel (Mb i s) j = skel s j) ∧ Hb (Mb i s) = Hb s.
Proof.
  intros Hi. unfold Mb. rewrite Hi. split_and!; try done.
  - unfold skel. simpl. rewrite lookup_alter_eq, Hi. done.
  - intros j Hj. unfold skel. simpl. by rewrite lookup_alter_ne.
Qed.

Lemma chain_ids s M c l : names s M → chain s c l → ∀ i, i ∈ l → 0 < i < Hb s.
Proof.
  intros HM H. induction H as [|i p b c l Hi Hp HF H IH]; intros j Hj; [by apply not_elem_of_nil in Hj|].
  apply elem_of_cons in Hj as [->|Hj]; [|by apply IH]. apply (names_ids _ _ HM). rewrite Hi. eauto.
Qed.

Lemma Ab_names s M p b m d :
  names s M → 0 < Hb s → M !! (default (Hb s) p, b) = None →
  let '(id, s') := Ab p b m d s in
  id = Hb s ∧ names s' (<[(default (Hb s) p, b) := id]> M) ∧ Hb s' = Hb s + 1.
Proof.
  intros HM Hpos Hfree. unfold Ab.
  set (nd := mkNode _ _ _ _ _ _ _ _ _ _ _). set (s1 := set_Hb (Hb s + 1) _).
  assert (nodes s1 !! Hb s = Some nd) as Hnd by (unfold s1; simpl; apply lookup_insert_eq).
  destruct (Mb_bucket s1 (Hb s) nd Hnd) as (HO & Hnew & Hold & HH).
  set (s2 := Mb (Hb s) s1) in *. set (q := default (Hb s) p) in *.
  change (parent nd) with q in *. change (name nd) with b in *. change (O_tab s1) with (O_tab s) in *.
  assert (∀ j, j ≠ Hb s → skel s2 j = skel s j) as Hother.
  { intros j Hj. rewrite Hold by done. unfold skel, s1. simpl. by rewrite lookup_insert_ne by congruence. }
  assert (skel s (Hb s) = None) as Hfresh.
  { destruct (skel s (Hb s)) eqn:E; [|done]. pose proof (names_ids _ _ HM (Hb s) ltac:(eauto)). lia. }
  split; [done|]. split; [|by rewrite HH].
  split.
  - intros i Hi. rewrite HH. change (Hb s1) with (Hb s + 1). destruct (decide (i = Hb s)) as [->|Hne]; [lia|].
    rewrite Hother in Hi by done. apply (names_ids _ _ HM) in Hi. lia.
  - intros h. destruct (names_bucket _ _ HM h) as (l & Hl & Hin). rewrite HO.
    pose proof (chain_ids s M _ l HM Hl) as Hids.
    assert (chain s2 (O_tab s !! h) l) as Hl2.
    { eapply chain_same; [|exact Hl]. intros i Hi. apply Hother. apply Hids in Hi. lia. }
    destruct (decide (bucket q b = h)) as [<-|Hh].
    + exists (Hb s :: l). rewrite lookup_insert_eq. split.
      * eapply chain_cons; [exact Hnew|done| |exact Hl2]. apply Forall_forall. intros j Hj. by apply Hids.
      * intros i. rewrite elem_of_cons. split.
        -- intros [->|Hi].
           ++ exists q, b, (O_tab s !! bucket q b). by rewrite lookup_insert_eq.
           ++ apply Hids in Hi as Hb'. apply Hin in Hi as (p' & b' & c' & H1 & H2 & H3).
              exists p', b', c'. rewrite Hother by lia. split_and!; [done|done|].
              rewrite lookup_insert_ne; [done|]. congruence.
        -- intros (p' & b' & c' & H1 & H2 & H3). destruct (decide (i = Hb s)) as [->|Hne]; [by left|right].
           rewrite Hother in H1 by done. rewrite lookup_insert_Some in H3. destruct H3 as [[_ ?]|[_ H3]]; [done|].
           apply Hin. eauto 10.
    + exists l. rewrite lookup_insert_ne by done. split; [done|]. intros i. rewrite Hin. split.
      * intros (p' & b' & c' & H1 & H2 & H3). exists p', b', c'.
        destruct (decide (i = Hb s)) as [->|Hne]; [congruence|]. rewrite Hother by done.
        split_and!; [done|done|]. rewrite lookup_insert_ne; [done|]. congruence.
      * intros (p' & b' & c' & H1 & H2 & H3). destruct (decide (i = Hb s)) as [->|Hne].
        -- rewrite Hnew in H1. congruence.
        -- rewrite Hother in H1 by done. rewrite lookup_insert_Some in H3. destruct H3 as [[_ ?]|[_ H3]]; [done|].
           eauto 10.
  - intros p' b' i. rewrite lookup_insert_Some. intros [[[= <- <-] <-]|[Hne Hi]]; [by eauto|].
    destruct (names_node _ _ HM _ _ _ Hi) as [c Hc]. exists c.
    rewrite Hother; [done|]. intros ->. congruence.
Qed.

(** ** Removing *)

Lemma skel_upd_ne i j f s : j ≠ i → skel (upd i f s) j = skel s j.
Proof. intros H. unfold skel, upd. simpl. by rewrite lookup_alter_ne. Qed.

Lemma skel_set_next i x p b c s :
  skel s i = Some (p, b, c) → skel (upd i (set_O_next x) s) i = Some (p, b, x).
Proof.
  unfold skel, upd. simpl. rewrite lookup_alter_eq. destruct (nodes s !! i) as [nd|]; [|done].
  simpl. unfold bones. simpl. congruence.
Qed.

Lemma remove_below (i : Z) (l : list Z) : Forall (fun j => j < i) l → List.remove Z.eq_dec i l = l.
Proof.
  intros H. apply List.notin_remove. intros Hin%list_elem_of_In. rewrite Forall_forall in H.
  specialize (H _ Hin). simpl in H. lia.
Qed.

Lemma elem_of_remove (i g : Z) (l : list Z) : i ∈ List.remove Z.eq_dec g l ↔ i ≠ g ∧ i ∈ l.
Proof.
  rewrite !list_elem_of_In. split.
  - intros H%List.in_remove. tauto.
  - intros [H1 H2]. by apply List.in_in_remove.
Qed.

Lemma chain_unlink_spec s c l n g next p b :
  chain s c l → (length l <= n)%nat → g ∈ l → c ≠ Some g → skel s g = Some (p, b, next) →
  ∃ i, i ∈ l ∧ chain_unlink n c g next s = GoRet (upd i (set_O_next next) s) ∧
    chain (upd i (set_O_next next) s) c (List.remove Z.eq_dec g l).
Proof.
  intros H. revert n. induction H as [|i p' b' c l Hi Hp HF H IH]; intros n Hn Hg Hc Hsk.
  { by apply not_elem_of_nil in Hg. }
  assert (g ≠ i) as Hgi by congruence. apply elem_of_cons in Hg as [?|Hg]; [done|].
  destruct n as [|n]; [simpl in Hn; lia|]. simpl chain_unlink. simpl List.remove.
  destruct (Z.eq_dec g i); [done|]. unfold get_node.
  pose proof Hi as Hi0. unfold skel in Hi0. destruct (nodes s !! i) as [nd|] eqn:E; [|done].
  injection Hi0 as H1 H2 H3. cbn [go_bind]. rewrite H3. rewrite Forall_forall in HF.
  destruct (decide (c = Some g)) as [->|Hcg].
  - rewrite bool_decide_true by done. exists i. split; [left|]. split; [done|].
    inversion H as [|? p2 b2 c2 l2 Hg2 Hgp HF2 H']; subst. rewrite Hsk in Hg2. injection Hg2 as <- <- <-.
    simpl List.remove. destruct (Z.eq_dec g g); [|done]. rewrite remove_below by done.
    econstructor; [eapply skel_set_next; exact Hi|done| |].
    + apply Forall_forall. intros j Hj. apply HF. by right.
    + eapply chain_same; [|done]. intros j Hj. apply skel_upd_ne.
      assert (j < i) by (apply HF; by right). lia.
  - rewrite bool_decide_false by done. destruct (IH n ltac:(simpl in Hn; lia) Hg Hcg Hsk) as (j & Hj & -> & Hch).
    exists j. split; [by right|]. split; [done|]. apply HF in Hj as Hji.
    econstructor; [rewrite skel_upd_ne by lia; exact Hi|done| |done].
    apply Forall_forall. intros x [_ Hx]%elem_of_remove. by apply HF.
Qed.

(** Changing a link inside a bucket leaves the other buckets alone. *)
Lemma other_bucket s s' M r h l :
  names s M → r ≠ h → chain s (O_tab s !! h) l → O_tab s' !! h = O_tab s !! h →
  (∀ i, i ∈ l ↔ ∃ p b c, skel s i = Some (p, b, c) ∧ bucket p b = h ∧ M !! (p, b) = Some i) →
  (∀ i p b c, skel s i = Some (p, b, c) → bucket p b ≠ r → skel s' i = skel s i) →
  chain s' (O_tab s' !! h) l.
Proof.
  intros HM Hrh Hl HO Hin Hs. rewrite HO. eapply chain_same; [|done]. intros i Hi.
  apply Hin in Hi as (p & b & c & Hi & Hb & _). eapply Hs; [done|]. congruence.
Qed.

(** Removing a bucket's node from the table, given its new chain. *)
Lemma names_delete s s' M g p b next l :
  names s M → skel s g = Some (p, b, next) → M !! (p, b) = Some g →
  chain s (O_tab s !! bucket p b) l →
  (∀ i, i ∈ l ↔ ∃ p' b' c, skel s i = Some (p', b', c) ∧ bucket p' b' = bucket p b ∧ M !! (p', b') = Some i) →
  chain s' (O_tab s' !! bucket p b) (List.remove Z.eq_dec g l) →
  Hb s' = Hb s → (∀ h, h ≠ bucket p b → O_tab s' !! h = O_tab s !! h) →
  (∀ i p' b' c, skel s i = Some (p', b', c) → ∃ c', skel s' i = Some (p', b', c') ∧ (bucket p' b' ≠ bucket p b → c' = c)) →
  (∀ i, skel s i = None → skel s' i = None) →
  names s' (delete (p, b) M).
Proof.
  intros HM Hg HMg Hl Hin Hl' HH HO Hsk Hnone.
  assert (∀ i p' b' c', skel s' i = Some (p', b', c') → ∃ c, skel s i = Some (p', b', c)) as Hback.
  { intros i p' b' c' Hi. destruct (skel s i) as [[[p2 b2] c2]|] eqn:E.
    - destruct (Hsk _ _ _ _ E) as (c3 & H3 & _). exists c2. congruence.
    - rewrite Hnone in Hi; done. }
  split.
  - intros i [[[p' b'] c'] Hi]. destruct (Hback _ _ _ _ Hi) as [c Hc]. rewrite HH. apply (names_ids _ _ HM). eauto.
  - intros h. destruct (decide (h = bucket p b)) as [->|Hne].
    + exists (List.remove Z.eq_dec g l). split; [done|]. intros i. rewrite elem_of_remove, Hin. split.
      * intros (Hig & p' & b' & c & H1 & H2 & H3). destruct (Hsk _ _ _ _ H1) as (c' & H4 & _).
        exists p', b', c'. split_and!; [done|done|]. rewrite lookup_delete_ne; congruence.
      * intros (p' & b' & c' & H1 & H2 & H3). apply lookup_delete_Some in H3 as [Hne H3].
        destruct (Hback _ _ _ _ H1) as [c Hc]. split; [|eauto 10]. intros ->. congruence.
    + destruct (names_bucket _ _ HM h) as (lh & Hlh & Hinh). exists lh. split.
      * eapply (other_bucket s s' M (bucket p b)); [done|congruence|done|by apply HO|done|].
        intros i p' b' c Hi Hb. destruct (Hsk _ _ _ _ Hi) as (c' & H' & Hc'). rewrite H', Hi, Hc'; done.
      * intros i. rewrite Hinh. split.
        -- intros (p' & b' & c & H1 & H2 & H3). destruct (Hsk _ _ _ _ H1) as (c' & H4 & _).
           exists p', b', c'. split_and!; [done|done|]. rewrite lookup_delete_ne; [done|]. congruence.
        -- intros (p' & b' & c' & H1 & H2 & H3). apply lookup_delete_Some in H3 as [_ H3].
           destruct (Hback _ _ _ _ H1) as [c Hc]. eauto 10.
  - intros p' b' i [_ Hi]%lookup_delete_Some. destruct (names_node _ _ HM _ _ _ Hi) as [c Hc].
    destruct (Hsk _ _ _ _ Hc) as (c' & H' & _). eauto.
Qed.

Lemma name_remove_spec s M g p b next :
  names s M → skel s g = Some (p, b, next) → M !! (p, b) = Some g →
  ∃ s', name_remove g s = GoRet s' ∧ names s' (delete (p, b) M).
Proof.
  intros HM Hg HMg. destruct (names_bucket _ _ HM (bucket p b)) as (l & Hl & Hin).
  assert (g ∈ l) as Hgl by (apply Hin; eauto 10).
  unfold name_remove, get_node. pose proof Hg as Hg0. unfold skel in Hg0.
  destruct (nodes s !! g) as [nd|] eqn:E; [|done]. injection Hg0 as H1 H2 H3. cbn [go_bind]. rewrite H1, H2, H3.
  destruct (decide (O_tab s !! bucket p b = Some g)) as [Hhead|Hhead].
  - rewrite bool_decide_true by done. eexists. split; [done|].
    rewrite Hhead in Hl. inversion Hl as [|? p2 b2 c2 l2 Hg2 Hgp HF2 Hl2]; subst l.
    rewrite Hg in Hg2. injection Hg2 as <- <- <-. rewrite <- Hhead in Hl.
    eapply (names_delete s _ M g p b next); [done..| |done| | |].
    + simpl. rewrite lookup_partial_alter_eq. destruct (Z.eq_dec g g); [|done]. rewrite remove_below by done.
      eapply chain_same; [|done]. done.
    + intros h Hh. simpl. by rewrite lookup_partial_alter_ne.
    + intros j p' b' c Hj. by exists c.
    + done.
  - rewrite bool_decide_false by done.
    assert (length l <= Z.to_nat (Hb s))%nat as Hlen.
    { destruct (O_tab s !! bucket p b) as [i|] eqn:Ei; [|by inversion Hl; subst; simpl; lia].
      pose proof (chain_length s _ _ Hl i eq_refl). inversion Hl as [|? p2 b2 c2 l2 Hi2]; subst.
      pose proof (names_ids _ _ HM i ltac:(eauto)). lia. }
    destruct (chain_unlink_spec s _ l _ g next p b Hl Hlen Hgl Hhead Hg) as (i & Hi & -> & Hch).
    eexists. split; [done|]. eapply (names_delete s _ M g p b next); [done..| |].
    + intros j p' b' c Hj. destruct (decide (j = i)) as [->|Hji].
      * rewrite (skel_set_next i next p' b' c) by done. exists next. split; [done|]. intros Hb. exfalso. apply Hb.
        apply Hin in Hi as (p3 & b3 & c3 & Hi3 & ? & _). congruence.
      * rewrite skel_upd_ne by done. by exists c.
    + intros j Hj. destruct (decide (j = i)) as [->|Hji]; [|by rewrite skel_upd_ne].
      apply Hin in Hi as (p3 & b3 & c3 & Hi3 & _). congruence.
Qed.
