(* ===== verification/VizFSInv.v ===== *)
(** * The invariant of the viewer's file system

    What every reachable state of the file system satisfies, with the map [M]
    that the table of names implements, and that the operations keep it. *)

From Stdlib Require Import ZArith Lia.
From stdpp Require Import base list gmap strings.
From S2P Require Import Prelude VizRuntime VizFile VizFS VizFSFacts.

Open Scope Z_scope.

(** What is true of every node [i] of a state.  The root of the mount on
    [/proc/self/fd] is the one kind of node that is in the table and in no
    directory. *)
Record node_ok (s : fs) (M : gmap (Z * list Z) Z) (i : Z) (nd : node) : Prop := {
  ok_kind : k nd = ops_of (mode nd) ∨ (k nd = OpsFd ∧ L (mode nd) = true);
  ok_entries : ∀ b j, entries nd !! b = Some j ↔ M !! (i, b) = Some j ∧ j ≠ i;
  ok_parent : parent nd = i ∨
    (parent nd < i ∧ ∃ p, nodes s !! parent nd = Some p ∧ k p = OpsDir) ∨
    (parent nd = 0 ∧ k nd = OpsFd);
  ok_mountpoint : is_Some (mountpoint nd);
  ok_data : file_ok (data nd);
  ok_V : ∀ r, V nd = Some r → is_Some (nodes s !! r)
}.

Record fs_ok (s : fs) (M : gmap (Z * list Z) Z) : Prop := {
  ok_names : names s M;
  ok_pos : 0 < Hb s;
  ok_nodes : ∀ i nd, nodes s !! i = Some nd → node_ok s M i nd;
  ok_root : ∀ r, Eb s = Some r → M !! (r, [slash]) = Some r;
  ok_root_dir : ∀ r nd, Eb s = Some r → nodes s !! r = Some nd → k nd = OpsDir;
  ok_streams : ∀ fd st, N_fd s !! fd = Some st →
    0 <= fd <= 4096 ∧ is_Some (nodes s !! s_node st) ∧ 0 <= s_position st
}.

Lemma fs_ok_ids s M i nd : fs_ok s M → nodes s !! i = Some nd → 0 < i < Hb s.
Proof.
  intros Hs Hi. apply (names_ids s M (ok_names _ _ Hs)). unfold skel. rewrite Hi. by eexists.
Qed.

Lemma fs_ok_named s M p b i :
  fs_ok s M → M !! (p, b) = Some i → ∃ nd, nodes s !! i = Some nd ∧ parent nd = p ∧ name nd = b.
Proof.
  intros Hs Hi. destruct (names_node _ _ (ok_names _ _ Hs) _ _ _ Hi) as [c Hc]. unfold skel in Hc.
  destruct (nodes s !! i) as [nd|]; [|done]. injection Hc as <- <- _. by exists nd.
Qed.

Lemma fs_ok_root_node s M r : fs_ok s M → Eb s = Some r → ∃ nd, nodes s !! r = Some nd.
Proof. intros Hs Hr. destruct (fs_ok_named s M _ _ _ Hs (ok_root _ _ Hs r Hr)) as (nd & H & _). by exists nd. Qed.

(** ** Creating a node *)

(** A state that differs from [s] by one new node [id], the child [b] of the
    directory [a]. *)
Record grown (s s' : fs) (a : Z) (b : jsstr) (nda nd : node) : Prop := {
  g_parent : nodes s !! a = Some nda;
  g_new : nodes s' !! Hb s = Some nd;
  g_a : nodes s' !! a = Some (set_entries (<[b := Hb s]> (entries nda)) nda);
  g_other : ∀ j, j ≠ Hb s → j ≠ a → nodes s' !! j = nodes s !! j;
  g_Hb : Hb s' = Hb s + 1;
  g_Eb : Eb s' = Eb s;
  g_N : N_fd s' = N_fd s;
  g_Ib : Ib s' = Ib s
}.

Lemma createNode_spec s M a nda b m d :
  fs_ok s M → nodes s !! a = Some nda → M !! (a, b) = None → fmt m ≠ 24576 → fmt m ≠ 4096 →
  ∃ s', createNode (Some a) b m d s = GoRet (Hb s, s') ∧
    names s' (<[(a, b) := Hb s]> M) ∧
    grown s s' a b nda
      (mkNode a b m d (ops_of m) ∅ (mkFile CNull 0) [] (O_tab s !! bucket a b) (mountpoint nda) None).
Proof.
  intros Hs Ha Hfree Hm1 Hm2. pose proof (fs_ok_ids s M a nda Hs Ha) as Hida.
  unfold createNode. destruct (Z.eqb_spec (fmt m) 24576); [done|]. destruct (Z.eqb_spec (fmt m) 4096); [done|].
  cbn [orb]. pose proof (Ab_names s M (Some a) b m d (ok_names _ _ Hs) (ok_pos _ _ Hs)) as HAb.
  specialize (HAb Hfree).
  destruct (Ab (Some a) b m d s) as [id s1] eqn:EA. destruct HAb as (-> & Hn & HH).
  eexists. split; [done|].
  assert (same_table s1 (upd a (λ nd, set_entries (<[b:=Hb s]> (entries nd)) nd) (upd (Hb s) (set_k (ops_of m)) s1)))
    as Hsame. { etrans; [|apply upd_same; done]. by apply upd_same. }
  split; [by rewrite <- Hsame|].
  unfold Ab in EA. unfold Mb in EA. simpl in EA. rewrite lookup_insert_eq in EA. simpl in EA. injection EA as <-.
  split; simpl; try done.
  - rewrite lookup_alter_ne by lia. rewrite lookup_alter_eq, lookup_alter_eq, lookup_insert_eq. simpl.
    rewrite Ha. done.
  - rewrite lookup_alter_eq, lookup_alter_ne, lookup_alter_ne, lookup_insert_ne by lia. by rewrite Ha.
  - intros j Hj1 Hj2. rewrite !lookup_alter_ne, lookup_insert_ne by congruence. done.
Qed.

Lemma grown_ok s s' M a b nda nd :
  fs_ok s M → names s' (<[(a, b) := Hb s]> M) → grown s s' a b nda nd →
  M !! (a, b) = None → k nda = OpsDir → parent nd = a → entries nd = ∅ → k nd = ops_of (mode nd) →
  mountpoint nd = mountpoint nda → file_ok (data nd) → V nd = None →
  fs_ok s' (<[(a, b) := Hb s]> M).
Proof.
  intros Hs Hn Hg Hfree Hdir Hp He Hk Hmp Hd HV. pose proof (g_Hb _ _ _ _ _ _ Hg) as HH. pose proof (fs_ok_ids s M a nda Hs (g_parent _ _ _ _ _ _ Hg)) as Hida.
  assert (∀ j, is_Some (nodes s !! j) → is_Some (nodes s' !! j)) as Hmono.
  { intros j [x Hx]. destruct (decide (j = a)) as [->|]; [rewrite (g_a _ _ _ _ _ _ Hg); by eexists|].
    pose proof (fs_ok_ids s M j x Hs Hx). rewrite (g_other _ _ _ _ _ _ Hg) by lia. by eexists. }
  assert (∀ j p, nodes s !! j = Some p → k p = OpsDir → ∃ p', nodes s' !! j = Some p' ∧ k p' = OpsDir) as Hdirs.
  { intros j p Hj Hkp. destruct (decide (j = a)) as [->|].
    - rewrite (g_a _ _ _ _ _ _ Hg). eexists. split; [done|]. simpl. done.
    - pose proof (fs_ok_ids s M j p Hs Hj). rewrite (g_other _ _ _ _ _ _ Hg) by lia. eauto. }
  assert (∀ j, M !! (Hb s, j) = None) as Hnokids.
  { intros j. destruct (M !! (Hb s, j)) as [i|] eqn:E; [|done].
    destruct (fs_ok_named s M _ _ _ Hs E) as (x & Hx & Hpx & _). pose proof (fs_ok_ids s M i x Hs Hx).
    pose proof (ok_pos _ _ Hs). destruct (ok_parent _ _ _ _ (ok_nodes _ _ Hs i x Hx)) as [?|[[? _]|[? _]]]; lia. }
  split.
  - done.
  - rewrite HH. pose proof (ok_pos _ _ Hs). lia.
  - intros i x Hi. destruct (decide (i = Hb s)) as [->|Hne].
    { rewrite (g_new _ _ _ _ _ _ Hg) in Hi. injection Hi as <-. split.
      - by left.
      - intros c j. rewrite He, lookup_empty, lookup_insert_ne, Hnokids by (intros [=]; lia). split; [done|by intros []].
      - right. left. rewrite Hp. split; [lia|]. eapply Hdirs; [exact (g_parent _ _ _ _ _ _ Hg)|done].
      - rewrite Hmp. apply (ok_nodes _ _ Hs a nda (g_parent _ _ _ _ _ _ Hg)).
      - done.
      - rewrite HV. done. }
    destruct (decide (i = a)) as [->|Hia].
    + rewrite (g_a _ _ _ _ _ _ Hg) in Hi. injection Hi as <-.
      destruct (ok_nodes _ _ Hs a nda (g_parent _ _ _ _ _ _ Hg)) as [K1 K2 K3 K4 K5 K6]. split; simpl; try done.
      * intros c j. destruct (decide (b = c)) as [->|Hbc].
        -- rewrite !lookup_insert_eq. split; [intros [= <-]; split; [done|lia]|by intros [[= <-] _]].
        -- rewrite !lookup_insert_ne by congruence. apply K2.
      * destruct K3 as [?|[(? & p & H1 & H2)|?]]; [by left|right; left|by right; right]. split; [done|]. by eapply Hdirs.
      * intros r Hr. by apply Hmono, K6.
    + rewrite (g_other _ _ _ _ _ _ Hg) in Hi by done.
      destruct (ok_nodes _ _ Hs i x Hi) as [K1 K2 K3 K4 K5 K6]. split; try done.
      * intros c j. rewrite lookup_insert_ne by congruence. apply K2.
      * destruct K3 as [?|[(? & p & H1 & H2)|?]]; [by left|right; left|by right; right]. split; [done|]. by eapply Hdirs.
      * intros r Hr. by apply Hmono, K6.
  - intros r Hr. rewrite (g_Eb _ _ _ _ _ _ Hg) in Hr. pose proof (ok_root _ _ Hs r Hr) as HM.
    rewrite lookup_insert_ne; [done|]. intros Heq. rewrite <- Heq in HM. pose proof (eq_trans (eq_sym Hfree) HM). done.
  - intros r x Hr Hx. rewrite (g_Eb _ _ _ _ _ _ Hg) in Hr. destruct (fs_ok_root_node s M r Hs Hr) as [y Hy].
    destruct (Hdirs r y Hy (ok_root_dir _ _ Hs r y Hr Hy)) as (y' & Hy' & Hk'). congruence.
  - intros fd st Hst. rewrite (g_N _ _ _ _ _ _ Hg) in Hst. destruct (ok_streams _ _ Hs fd st Hst) as (? & ? & ?).
    split_and!; [lia|lia|by apply Hmono|done].
Qed.

(** ** Changing a node in place *)

(** Nodes that differ in their contents, entries and links of the table only. *)
Definition node_sim (x y : node) : Prop :=
  parent y = parent x ∧ k y = k x ∧ mode y = mode x ∧ mountpoint y = mountpoint x ∧ V y = V x ∧
  (file_ok (data x) → file_ok (data y)).

#[export] Instance node_sim_refl : Reflexive node_sim.
Proof. intros x. by split_and!. Qed.

(** States with the same nodes up to that. *)
Record similar (s s' : fs) : Prop := {
  sim_Hb : Hb s' = Hb s;
  sim_Eb : Eb s' = Eb s;
  sim_N : N_fd s' = N_fd s;
  sim_Ib : Ib s' = Ib s;
  sim_fwd : ∀ j x, nodes s !! j = Some x → ∃ y, nodes s' !! j = Some y ∧ node_sim x y;
  sim_back : ∀ j y, nodes s' !! j = Some y → ∃ x, nodes s !! j = Some x ∧ node_sim x y
}.

Lemma similar_ok s s' M M' :
  fs_ok s M → similar s s' → names s' M' →
  (∀ i nd, nodes s' !! i = Some nd → ∀ b j, entries nd !! b = Some j ↔ M' !! (i, b) = Some j ∧ j ≠ i) →
  (∀ r, Eb s = Some r → M' !! (r, [slash]) = Some r) → fs_ok s' M'.
Proof.
  intros Hs Hsim Hn He Hr. pose proof (sim_fwd _ _ Hsim) as Hfwd. pose proof (sim_back _ _ Hsim) as Hback.
  split; [done|rewrite (sim_Hb _ _ Hsim); apply (ok_pos _ _ Hs)| |by rewrite (sim_Eb _ _ Hsim)| |].
  - intros j y Hy. destruct (Hback j y Hy) as (x & Hx & F1 & F2 & F3 & F4 & F5 & F6).
    destruct (ok_nodes _ _ Hs j x Hx) as [K1 K2 K3 K4 K5 K6]. split; rewrite ?F1, ?F2, ?F3, ?F4, ?F5; auto.
    + destruct K3 as [?|[(? & p & H1 & H2)|?]]; [by left|right; left|by right; right]. split; [done|].
      destruct (Hfwd _ _ H1) as (p' & Hp' & _ & Hk' & _). exists p'. split; [done|congruence].
    + intros r Hr'. destruct (K6 r Hr') as [z Hz]. destruct (Hfwd _ _ Hz) as (z' & Hz' & _). by eexists.
  - intros r y. rewrite (sim_Eb _ _ Hsim). intros Hroot Hy. destruct (Hback r y Hy) as (x & Hx & _ & -> & _).
    by apply (ok_root_dir _ _ Hs r x).
  - intros fd st. rewrite (sim_N _ _ Hsim). intros Hst.
    destruct (ok_streams _ _ Hs fd st Hst) as (? & [y Hy] & ?). split_and!; [lia|lia| |done].
    destruct (Hfwd _ _ Hy) as (x & Hx & _). by eexists.
Qed.

Lemma lookup_upd i f s j : nodes (upd i f s) !! j = if decide (i = j) then f <$> nodes s !! j else nodes s !! j.
Proof.
  unfold upd. simpl. case_decide as H; [subst; apply lookup_alter_eq|by rewrite lookup_alter_ne].
Qed.

Lemma upd_similar i f s : (∀ nd, node_sim nd (f nd)) → similar s (upd i f s).
Proof.
  intros Hf. split; [done..| |].
  - intros j x Hx. rewrite lookup_upd, Hx. case_decide; eexists; (split; [done|]); [apply Hf|done].
  - intros j y. rewrite lookup_upd. case_decide; [|intros Hy; exists y; by split].
    destruct (nodes s !! j) as [x|]; [|done]. intros [= <-]. eauto.
Qed.

Lemma similar_trans s1 s2 s3 : similar s1 s2 → similar s2 s3 → similar s1 s3.
Proof.
  intros [A1 A2 A3 AI A4 A5] [B1 B2 B3 BI B4 B5]. split; [congruence..| |].
  - intros j x Hx. destruct (A4 j x Hx) as (y & Hy & Hxy). destruct (B4 j y Hy) as (z & Hz & Hyz).
    exists z. split; [done|]. destruct Hxy as (?&?&?&?&?&?), Hyz as (?&?&?&?&?&?).
    split_and!; try congruence. auto.
  - intros j z Hz. destruct (B5 j z Hz) as (y & Hy & Hyz). destruct (A5 j y Hy) as (x & Hx & Hxy).
    exists x. split; [done|]. destruct Hxy as (?&?&?&?&?&?), Hyz as (?&?&?&?&?&?).
    split_and!; try congruence. auto.
Qed.

(** A change of contents or of a link's target. *)
Lemma upd_ok i f s M :
  (∀ nd, node_sim nd (f nd) ∧ bones (f nd) = bones nd ∧ entries (f nd) = entries nd) →
  fs_ok s M → fs_ok (upd i f s) M.
Proof.
  intros Hf Hs. eapply similar_ok; [done|apply upd_similar; intros nd; apply Hf| | |apply (ok_root _ _ Hs)].
  - rewrite <- (upd_same i f s) by (intros nd; apply Hf). apply (ok_names _ _ Hs).
  - intros j y. rewrite lookup_upd. case_decide; [|by intros Hy; apply (ok_nodes _ _ Hs)].
    destruct (nodes s !! j) as [x|] eqn:Hx; [|done]. intros [= <-]. destruct (Hf x) as (_ & _ & ->).
    apply (ok_nodes _ _ Hs j x Hx).
Qed.

(** ** Objects of the store and others *)

(** A node is in the store, or stands for an open descriptor. *)
Lemma get_node_inv i s nd : get_node i s = GoRet nd →
  nodes s !! i = Some nd ∨ (i < 0 ∧ nodes s !! i = None ∧ ∃ d, N_fd s !! (-1 - i) = Some d ∧ nd = fake_node i d).
Proof.
  unfold get_node. destruct (nodes s !! i) as [x|]; [by intros [= ->]; left|]. destruct (Z.ltb_spec i 0); [|done].
  destruct (N_fd s !! (-1 - i)) as [d|]; [|done]. intros [= <-]. right. eauto.
Qed.

Lemma get_node_dir i s nd : get_node i s = GoRet nd → k nd ≠ OpsFake → nodes s !! i = Some nd.
Proof. intros [?|(_ & _ & d & _ & ->)]%get_node_inv Hk; done. Qed.

(** ** Entries *)

Lemma Nb_wx nd s : Nb nd (mkPerms false true true) s = 0 → Nb nd (mkPerms false false true) s = 0.
Proof.
  unfold Nb. destruct (Ib s); [done|]. simpl.
  destruct (Z.land (mode nd) 146 =? 0), (Z.land (mode nd) 73 =? 0); done.
Qed.

(** A name that may be created in a directory is free. *)
Lemma Qb_free s M p nd b :
  fs_ok s M → nodes s !! p = Some nd → k nd = OpsDir → Qb p b s = GoRet 0 → M !! (p, b) = None.
Proof.
  intros Hs Hp Hk Hq. unfold Qb in Hq. unfold get_node in Hq. rewrite Hp in Hq.
  assert (∀ r, Cb p b s = r → match r with GoRet _ => False | _ => Nb nd (mkPerms false true true) s = 0 end) as Hw.
  { intros r <-. destruct (Cb p b s); cbn [go_bind] in Hq; [done|congruence..]. }
  destruct (M !! (p, b)) as [i|] eqn:E; [|done]. exfalso.
  destruct (Cb p b s) as [x|x|x] eqn:EC; specialize (Hw _ eq_refl); [done|..];
    (rewrite (Cb_spec s M p nd b (ok_names _ _ Hs) Hp) in EC by (split; [by rewrite Hk|by apply Nb_wx]));
    rewrite E in EC; done.
Qed.

(** Creating in a directory where the name is free. *)
Lemma createNode_ok s M a nda b m d i s' :
  fs_ok s M → nodes s !! a = Some nda → k nda = OpsDir → M !! (a, b) = None →
  createNode (Some a) b m d s = GoRet (i, s') →
  i = Hb s ∧ fs_ok s' (<[(a, b) := i]> M) ∧
  grown s s' a b nda
    (mkNode a b m d (ops_of m) ∅ (mkFile CNull 0) [] (O_tab s !! bucket a b) (mountpoint nda) None).
Proof.
  intros Hs Ha Hk Hfree Hc.
  assert (fmt m ≠ 24576 ∧ fmt m ≠ 4096) as [Hm1 Hm2].
  { unfold createNode in Hc. destruct (Z.eqb_spec (fmt m) 24576); [done|].
    by destruct (Z.eqb_spec (fmt m) 4096). }
  destruct (createNode_spec s M a nda b m d Hs Ha Hfree Hm1 Hm2) as (s1 & E & Hn & Hg).
  rewrite E in Hc. injection Hc as <- <-. split; [done|]. split; [|done]. by eapply grown_ok.
Qed.

Lemma Vb_ok depth a m d s M i s' :
  fs_ok s M → Vb depth a m d s = GoRet (i, s') →
  ∃ path p nda, Q depth s a (mkOpts true true false) = GoRet (path, Some p) ∧
    nonempty (pb a) = true ∧ pb a ≠ dot1 ∧ pb a ≠ dot2 ∧
    nodes s !! p = Some nda ∧ k nda = OpsDir ∧ M !! (p, pb a) = None ∧ i = Hb s ∧
    Nb nda (mkPerms false true true) s = 0 ∧
    fs_ok s' (<[(p, pb a) := i]> M) ∧
    grown s s' p (pb a) nda
      (mkNode p (pb a) m d (ops_of m) ∅ (mkFile CNull 0) [] (O_tab s !! bucket p (pb a)) (mountpoint nda) None).
Proof.
  intros Hs HV. unfold Vb in HV. destruct (Q depth s a _) as [[path g]| |]; cbn [go_bind] in HV; [|done..].
  destruct (nonempty (pb a)) eqn:Hne; [|done]. case_bool_decide as H1; [done|]. case_bool_decide as H2; [done|].
  cbn [negb orb] in HV. destruct g as [p|]; [|done].
  destruct (Qb p (pb a) s) as [f| |] eqn:EQ; cbn [go_bind] in HV; [|done..].
  destruct (Z.eqb_spec f 0) as [->|]; [|done].
  destruct (get_node p s) as [nda| |] eqn:Hgn; cbn [go_bind] in HV; [|done..]. destruct (k nda) eqn:Hk; try done.
  apply get_node_dir in Hgn as Hp; [|congruence].
  pose proof (Qb_free s M p nda (pb a) Hs Hp Hk EQ) as Hfree.
  destruct (createNode_ok s M p nda (pb a) m d i s' Hs Hp Hk Hfree HV) as (-> & Hok & Hg).
  exists path, p, nda. split_and!; try done.
  unfold Qb, get_node in EQ. rewrite Hp in EQ. destruct (Cb p (pb a) s); cbn [go_bind] in EQ; [done|congruence..].
Qed.

Lemma Xb_ok depth a b s M s' :
  fs_ok s M → Xb depth a b s = GoRet s' → ∃ p, M !! (p, pb b) = None ∧ fs_ok s' (<[(p, pb b) := Hb s]> M).
Proof.
  intros Hs HX. unfold Xb in HX. destruct (nonempty (sb [a])); [|done]. cbn [negb] in HX.
  destruct (Q depth s b _) as [[path g]| |]; cbn [go_bind] in HX; [|done..]. destruct g as [p|]; [|done].
  destruct (Qb p (pb b) s) as [f| |] eqn:EQ; cbn [go_bind] in HX; [|done..].
  destruct (Z.eqb_spec f 0) as [->|]; [|done].
  destruct (get_node p s) as [nda| |] eqn:Hgn; cbn [go_bind] in HX; [|done..]. destruct (k nda) eqn:Hk; try done.
  apply get_node_dir in Hgn as Hp; [|congruence].
  pose proof (Qb_free s M p nda (pb b) Hs Hp Hk EQ) as Hfree.
  destruct (createNode _ _ _ _ s) as [[i s1]| |] eqn:EC; cbn [go_bind] in HX; [|done..]. injection HX as <-.
  destruct (createNode_ok s M p nda (pb b) _ _ i s1 Hs Hp Hk Hfree EC) as (-> & Hok & _).
  exists p. split; [done|]. by apply upd_ok.
Qed.

(** ** Removal *)

(** What a node holds. *)
Definition holding (nd : node) : gmap (list Z) Z * file := (entries nd, data nd).

Lemma set_O_next_sim x nd : node_sim nd (set_O_next x nd).
Proof. by split_and!. Qed.

Lemma chain_unlink_similar n c g next s s' :
  chain_unlink n c g next s = GoRet s' →
  similar s s' ∧ ∀ j, holding <$> nodes s' !! j = holding <$> nodes s !! j.
Proof.
  revert c. induction n as [|n IH]; intros [i|] H; simpl in H; try done; try (injection H as <-).
  - split; [|done]. split; eauto using node_sim_refl.
  - destruct (get_node i s) as [nd| |]; cbn [go_bind] in H; [|done..].
    case_bool_decide; [|by eapply IH]. injection H as <-. split; [apply upd_similar; intros; apply set_O_next_sim|].
    intros j. rewrite lookup_upd. case_decide; [|done]. by destruct (nodes s !! j).
  - split; [|done]. split; eauto using node_sim_refl.
Qed.

Lemma name_remove_similar g s s' :
  name_remove g s = GoRet s' → similar s s' ∧ ∀ j, holding <$> nodes s' !! j = holding <$> nodes s !! j.
Proof.
  unfold name_remove. destruct (get_node g s) as [nd| |]; cbn [go_bind]; [|done..].
  case_bool_decide; [|apply chain_unlink_similar]. intros [= <-]. split; [|done]. split; eauto using node_sim_refl.
Qed.

Lemma remove_entry_ok s M d b g s' :
  fs_ok s M → M !! (d, b) = Some g → g ≠ d →
  name_remove g (upd d (fun nd => set_entries (delete b (entries nd)) nd) s) = GoRet s' →
  fs_ok s' (delete (d, b) M) ∧ similar s s' ∧ ∀ j, data <$> nodes s' !! j = data <$> nodes s !! j.
Proof.
  intros Hs HM Hgd Hrm. set (f := fun nd => set_entries (delete b (entries nd)) nd) in *.
  assert (names (upd d f s) M) as Hn by (rewrite <- (upd_same d f s) by done; apply (ok_names _ _ Hs)).
  destruct (names_node _ _ Hn _ _ _ HM) as [c Hc].
  destruct (name_remove_spec _ M g d b c Hn Hc HM) as (s1 & E & Hn1). rewrite Hrm in E. injection E as <-.
  destruct (name_remove_similar _ _ _ Hrm) as [Hsim Hent].
  assert (similar s s') as Hsim' by (eapply similar_trans; [by apply (upd_similar d f)|done]).
  split; [|split; [done|]].
  2:{ intros j. specialize (Hent j). rewrite lookup_upd in Hent.
      case_decide; destruct (nodes s' !! j), (nodes s !! j); try done; unfold f, holding in *; simpl in *; congruence. }
  eapply (similar_ok s s' M); [done|done|done| |].
  - intros i nd Hi b' j. specialize (Hent i). rewrite Hi in Hent. rewrite lookup_upd in Hent.
    case_decide as Hdi; [subst i|]; destruct (nodes s !! _) as [x|] eqn:Hx; try done; injection Hent as -> _;
      destruct (ok_nodes _ _ Hs _ x Hx) as [_ K2 _ _ _ _].
    + simpl. rewrite !lookup_delete_Some, K2. split.
      * intros (? & ? & ?). split_and!; [congruence|done|done].
      * intros [[Hne ?] ?]. split_and!; [congruence|done|done].
    + rewrite lookup_delete_ne by congruence. apply K2.
  - intros r Hr. rewrite lookup_delete_ne; [apply (ok_root _ _ Hs r Hr)|].
    intros [= -> ->]. pose proof (eq_trans (eq_sym HM) (ok_root _ _ Hs r Hr)). congruence.
Qed.

Lemma unlink_ok depth c s M s' :
  fs_ok s M → unlink depth c s = GoRet s' →
  ∃ path p nd g, Q depth s c (mkOpts true true false) = GoRet (path, Some p) ∧
    nodes s !! p = Some nd ∧ searchable nd s ∧ k nd = OpsDir ∧
    M !! (p, pb c) = Some g ∧ fs_ok s' (delete (p, pb c) M) ∧
    similar s s' ∧ ∀ j, data <$> nodes s' !! j = data <$> nodes s !! j.
Proof.
  intros Hs Hu. unfold unlink in Hu. destruct (Q depth s c _) as [[path d]| |]; cbn [go_bind] in Hu; [|done..].
  destruct d as [d|]; [|done]. destruct (Cb d (pb c) s) as [g| |] eqn:EC; cbn [go_bind] in Hu; [|done..].
  destruct (get_node g s) as [gnd| |] eqn:Hg; cbn [go_bind] in Hu; [|done..].
  destruct (get_node d s) as [dnd| |] eqn:Hd; cbn [go_bind] in Hu; [|done..].
  destruct (Z.eqb_spec (Nb dnd (mkPerms false true true) s) 0) as [Hp|]; [|done]. cbn [negb] in Hu.
  destruct (L (mode gnd)) eqn:HL; [done|]. destruct (k dnd) eqn:Hk; try done. apply get_node_dir in Hd as Hd'; [|congruence].
  rewrite (Cb_spec s M d dnd (pb c) (ok_names _ _ Hs) Hd') in EC by (split; [by rewrite Hk|by apply Nb_wx]). rewrite Hk in EC.
  destruct (M !! (d, pb c)) as [g'|] eqn:HM; [|done]. injection EC as ->. exists path, d, dnd, g.
  split; [done|]. split; [done|]. split; [split; [by rewrite Hk|by apply Nb_wx]|]. split; [done|]. split; [done|].
  destruct (V gnd); [done|]. apply (remove_entry_ok s M d (pb c) g s' Hs HM); [|done].
  intros ->. rewrite Hd in Hg. injection Hg as <-.
  destruct (ok_kind _ _ _ _ (ok_nodes _ _ Hs d dnd Hd')) as [Hkind|[Hkind _]]; [|congruence].
  unfold ops_of in Hkind. rewrite HL, Hk in Hkind. by repeat case_match.
Qed.

(** ** Descriptors *)

Lemma Rb_loop_spec n a s :
  match Rb_loop n a s with
  | GoRet fd => a <= fd < a + Z.of_nat n ∧ N_fd s !! fd = None ∧ ∀ x, a <= x < fd → is_Some (N_fd s !! x)
  | GoErr err => err = EMFILE ∧ ∀ x, a <= x < a + Z.of_nat n → is_Some (N_fd s !! x)
  | GoPanic _ => False
  end.
Proof.
  revert a. induction n as [|n IH]; intros a; simpl; [split; [done|lia]|].
  destruct (N_fd s !! a) as [st|] eqn:E; [|split_and!; [lia|lia|done|lia]].
  specialize (IH (a + 1)). destruct (Rb_loop n (a + 1) s); [| |done].
  - destruct IH as (H1 & H2 & H3). split_and!; [lia|lia|done|]. intros x Hx.
    destruct (decide (x = a)) as [->|]; [by eexists|]. apply H3. lia.
  - destruct IH as [-> H]. split; [done|]. intros x Hx.
    destruct (decide (x = a)) as [->|]; [by eexists|]. apply H. lia.
Qed.

(** The smallest free descriptor from [a] on, or none up to 4096. *)
Lemma Rb_spec a s :
  0 <= a →
  match Rb a s with
  | GoRet fd => a <= fd <= 4096 ∧ N_fd s !! fd = None ∧ ∀ x, a <= x < fd → is_Some (N_fd s !! x)
  | GoErr err => err = EMFILE ∧ ∀ x, a <= x <= 4096 → is_Some (N_fd s !! x)
  | GoPanic _ => False
  end.
Proof.
  intros Ha. pose proof (Rb_loop_spec (Z.to_nat (4097 - a)) a s) as H. unfold Rb.
  destruct (Rb_loop _ _ _) as [fd|err|]; [| |done].
  - destruct H as (H1 & H2 & H3). split_and!; [lia|lia|done|done].
  - destruct H as [-> H]. split; [done|]. intros x Hx. apply H. lia.
Qed.

(** ** Paths of nodes *)

Lemma Kb_loop_total s M n i b nd :
  fs_ok s M → nodes s !! i = Some nd → k nd ≠ OpsFd → i < Z.of_nat n → ∃ p, Kb_loop n i b s = GoRet p.
Proof.
  intros Hs. revert i b nd. induction n as [|n IH]; intros i b nd Hi Hk Hn.
  { pose proof (fs_ok_ids s M i nd Hs Hi). lia. }
  simpl. unfold get_node. rewrite Hi. cbn [go_bind].
  destruct (ok_nodes _ _ Hs i nd Hi) as [_ _ K3 K4 _ _]. destruct (Z.eqb_spec (parent nd) i) as [_|Hne].
  - destruct K4 as [a ->]. eauto.
  - destruct K3 as [?|[(Hlt & p & Hp & Hkp)|[_ ?]]]; [done| |done]. apply (IH _ _ p Hp); [congruence|lia].
Qed.

(** Every node but the root of the mount has a path. *)
Lemma Kb_total s M i nd : fs_ok s M → nodes s !! i = Some nd → k nd ≠ OpsFd → ∃ p, Kb i s = GoRet p.
Proof.
  intros Hs Hi Hk. unfold Kb. eapply Kb_loop_total; [done|done|done|].
  pose proof (fs_ok_ids s M i nd Hs Hi). lia.
Qed.

(** ** Streams *)

(** Only the streams, the devices and the permission switch change. *)
Lemma streams_ok s M ns gb ib :
  fs_ok s M →
  (∀ fd st, ns !! fd = Some st → 0 <= fd <= 4096 ∧ is_Some (nodes s !! s_node st) ∧ 0 <= s_position st) →
  fs_ok (mkFs (nodes s) (O_tab s) (Hb s) (Eb s) ns gb ib) M.
Proof.
  intros [H1 H2 H3 H4 H5 H6] Hns. split; try done.
  - assert (same_table s (mkFs (nodes s) (O_tab s) (Hb s) (Eb s) ns gb ib)) as <- by done. done.
  - intros i nd Hi. destruct (H3 i nd Hi). by split.
Qed.

Lemma open_stream_ok s M fd st :
  fs_ok s M → 0 <= fd <= 4096 → is_Some (nodes s !! s_node st) → 0 <= s_position st →
  fs_ok (set_N_fd (<[fd := st]> (N_fd s)) s) M.
Proof.
  intros Hs Hfd Hn Hp. apply (streams_ok s M _ (Gb s) (Ib s) Hs). intros fd' st'.
  rewrite lookup_insert_Some. intros [[<- <-]|[_ H]]; [done|]. by apply (ok_streams _ _ Hs).
Qed.

Lemma close_ok s M fd : fs_ok s M → fs_ok (close fd s) M.
Proof.
  intros Hs. apply (streams_ok s M _ (Gb s) (Ib s) Hs). intros fd' st' [_ H]%lookup_delete_Some.
  by apply (ok_streams _ _ Hs).
Qed.

Lemma truncate0_node i s s' : truncate0 i s = GoRet s' → ∃ nd, nodes s !! i = Some nd.
Proof.
  unfold truncate0. destruct (get_node i s) as [nd| |] eqn:Hi; cbn [go_bind]; [|done..]. intros H. exists nd.
  apply get_node_dir; [done|]. intros Hk. by rewrite Hk in H.
Qed.

Lemma truncate0_ok s M i s' :
  fs_ok s M → truncate0 i s = GoRet s' →
  fs_ok s' M ∧ N_fd s' = N_fd s ∧ (∀ j, is_Some (nodes s !! j) → is_Some (nodes s' !! j)).
Proof.
  intros Hs H. destruct (truncate0_node _ _ _ H) as [nd Hi]. unfold truncate0, get_node in H. rewrite Hi in H. cbn [go_bind] in H.
  assert (∃ f, jb (data nd) 0 = GoRet f ∧ file_ok f) as (f & Hf & Hok).
  { destruct (jb_refines (data nd) 0) as (f & ? & ? & _); [|lia|by eauto]. apply (ok_nodes _ _ Hs i nd Hi). }
  rewrite Hf in H. cbn [go_bind] in H.
  assert (s' = upd i (set_data f) s) as -> by (repeat case_match; simplify_eq; done).
  split; [|split; [done|]].
  - apply upd_ok; [|done]. intros x. by split_and!.
  - intros j [x Hx]. rewrite lookup_upd, Hx. case_decide; by eexists.
Qed.

(** ** Opening *)

(** What a search returns is a node, or stands for an open descriptor. *)
Definition is_object (s : fs) (i : Z) : Prop :=
  is_Some (nodes s !! i) ∨ (i < 0 ∧ is_Some (N_fd s !! (-1 - i))).
Definition is_node (s : fs) (g : option Z) : Prop := ∀ i, g = Some i → is_object s i.

Lemma is_object_get s i : is_object s i → ∃ nd, get_node i s = GoRet nd.
Proof.
  unfold get_node. intros [[nd ->]|[Hi [d Hd]]]; [eauto|]. destruct (nodes s !! i); [eauto|].
  apply Z.ltb_lt in Hi as ->. rewrite Hd. eauto.
Qed.

Lemma Cb_node s M a b i : fs_ok s M → Cb a b s = GoRet i → is_object s i.
Proof.
  intros Hs H. unfold Cb in H. destruct (get_node a s) as [nd| |]; cbn [go_bind] in H; [|done..].
  rewrite (names_find s M a b (ok_names _ _ Hs)) in H. cbn [go_bind] in H.
  destruct (_ =? 0) in H; [|done]. destruct (M !! (a, b)) as [j|] eqn:E.
  - destruct (fs_ok_named s M a b j Hs E) as (x & Hx & _). injection H as <-. left. by eexists.
  - unfold lookup_miss, fd_lookup in H. destruct (k nd); try done. destruct (to_index b) as [n|]; [|done].
    destruct (N_fd s !! n) as [d|] eqn:Ed; [|done]. injection H as <-. right.
    replace (-1 - (-1 - n)) with n by lia. split; [|by eexists].
    destruct (ok_streams _ _ Hs n d Ed) as (? & _). lia.
Qed.

Section Search.
Context (s : fs) (M : gmap (Z * list Z) Z) (Hs : fs_ok s M).
Context (Qrec : jsstr → opts → go Z (jsstr * option Z)).
Context (HQ : ∀ a b p g, Qrec a b = GoRet (p, g) → is_node s g).

Lemma follow_node n q d f p g :
  is_node s f → follow Qrec s n q d f = GoRet (p, g) → is_node s g.
Proof using HQ.
  revert q d f. induction n as [|n IH]; intros q d [i|] Hf H; simpl in H; try done.
  destruct (get_node i s) as [nd| |]; cbn [go_bind] in H; [|done..].
  destruct (is_link (mode nd)); [|by injection H as <- <-].
  destruct (Jb_with Qrec s d); cbn [go_bind] in H; [|done..].
  destruct (Qrec _ _) as [[p' g']| |] eqn:E; cbn [go_bind] in H; [|done..].
  destruct (40 <? q); [done|]. eapply IH; [|exact H]. by eapply HQ.
Qed.

Lemma walk_node b c d f p g :
  is_node s f → walk Qrec s b c d f = GoRet (p, g) → is_node s g.
Proof using HQ Hs.
  revert d f. induction c as [|x c IH]; intros d f Hf H; [by injection H as <- <-|]. cbn [walk] in H.
  destruct (_ && _) in H; [by injection H as <- <-|]. destruct f as [f|]; [|done].
  destruct (Cb f x s) as [i| |] eqn:EC; cbn [go_bind] in H; [|done..].
  pose proof (Cb_node s M f x i Hs EC) as Ho. destruct (get_node i s) as [nd| |] eqn:Hg; cbn [go_bind] in H; [|done..].
  set (j := match V nd with Some r => if negb _ || o_Ka b then r else i | None => i end) in H.
  assert (is_node s (Some j)) as Hj.
  { intros ? [= <-]. unfold j. destruct (V nd) as [r|] eqn:EV; [|done]. destruct (_ || _); [|done].
    apply get_node_inv in Hg as [Hi|(_ & _ & d0 & _ & ->)]; [|done]. left. by apply (ok_V _ _ _ _ (ok_nodes _ _ Hs i nd Hi)). }
  destruct (_ || o_da b) in H.
  - destruct (follow Qrec s 43 0 _ _) as [[d' f']| |] eqn:EF; cbn [go_bind] in H; [|done..].
    eapply IH; [|exact H]. by eapply follow_node.
  - cbn [go_bind] in H. by eapply IH.
Qed.
End Search.

Lemma Q_node s M depth a b p g : fs_ok s M → Q depth s a b = GoRet (p, g) → is_node s g.
Proof.
  intros Hs. revert a b p g. induction depth as [|depth IH]; intros a b p g H; [done|]. simpl in H.
  destruct (nonempty _); [|by injection H as <- <-]. eapply walk_node; [done|exact IH| |exact H].
  intros r Hr. left. by apply (fs_ok_root_node s M r Hs).
Qed.

Lemma open_node_ok depth a b c s M i cr s' :
  fs_ok s M → open_node depth a b c s = GoRet (i, cr, s') →
  ∃ M', fs_ok s' M' ∧ M ⊆ M' ∧ is_object s' i ∧ N_fd s' = N_fd s.
Proof.
  intros Hs H. unfold open_node in H.
  destruct (Q depth s a _) as [[p g]| |] eqn:EQ; [destruct g as [j|]|..].
  { destruct (_ && _); [done|]. injection H as <- <- <-. exists M. split_and!; try done. by eapply Q_node. }
  all: destruct (flag b 64); [|done];
    destruct (Vb depth a c 0 s) as [[j s1]| |] eqn:EV; cbn [go_bind] in H; [|done..]; injection H as <- <- <-;
    destruct (Vb_ok depth a c 0 s M j s1 Hs EV)
      as (path & p' & nda & _ & _ & _ & _ & _ & _ & Hfree & -> & _ & Hok & Hg);
    (eexists; split_and!; [exact Hok|by apply insert_subseteq|left; rewrite (g_new _ _ _ _ _ _ Hg); by eexists|
       exact (g_N _ _ _ _ _ _ Hg)]).
Qed.

(** What [open] does to the streams: nothing, or one new stream at the smallest
    free descriptor, at position 0. *)
Lemma Yb_ok depth a b c fd s M r s' :
  fs_ok s M → 0 <= fd → Yb depth a b c fd s = (r, s') →
  ∃ M', fs_ok s' M' ∧ M ⊆ M' ∧
    match r with
    | GoRet n => fd <= n <= 4096 ∧ N_fd s !! n = None ∧ (∀ x, fd <= x < n → is_Some (N_fd s !! x)) ∧
        ∃ st, N_fd s' = <[n := st]> (N_fd s) ∧ s_position st = 0
    | GoErr _ => N_fd s' = N_fd s
    | GoPanic _ => True
    end.
Proof.
  intros Hs Hfd H. unfold Yb in H.
  destruct (nonempty a); [|injection H as <- <-; by exists M].
  set (c' := if flag b 64 then _ else _) in H.
  destruct (open_node depth (nb a) b c' s) as [[[i cr] s1]|err|pn] eqn:EO;
    [|injection H as <- <-; by exists M..].
  destruct (open_node_ok _ _ _ _ _ M _ _ _ Hs EO) as (M1 & Hs1 & Hsub & Ho & HN1).
  destruct (is_object_get s1 i Ho) as [nd Hg]. rewrite Hg in H.
  set (b' := if is_chr (mode nd) then _ else _) in H. set (m := go_bind (open_checks nd b' cr s1) _) in H.
  assert (∀ s2, m = GoRet s2 → fs_ok s2 M1 ∧ N_fd s2 = N_fd s1 ∧ ∀ j, is_Some (nodes s1 !! j) → is_Some (nodes s2 !! j)) as Hm.
  { intros s2. unfold m. destruct (open_checks nd b' cr s1); cbn [go_bind]; [|done..].
    destruct (flag b' 512); [by apply truncate0_ok|]. by intros [= <-]. }
  destruct m as [s2|err|pn]; [|injection H as <- <-; by exists M1..].
  destruct (Hm s2 eq_refl) as (Hs2 & HN2 & Hmono).
  destruct (Kb i s2) as [path|err|pn]; [|injection H as <- <-; exists M1; rewrite ?HN2, ?HN1; done..].
  pose proof (Rb_spec fd s2 Hfd) as HR. rewrite HN2, HN1 in HR.
  destruct (Rb fd s2) as [n|err|pn]; [|injection H as <- <-; exists M1; rewrite ?HN2, ?HN1; done|done].
  destruct (Z.ltb_spec i 0) as [Hneg|Hpos]; [injection H as <- <-; by exists M1|].
  assert (is_Some (nodes s2 !! i)) as Hi2 by (apply Hmono; destruct Ho as [?|[? _]]; [done|lia]).
  destruct HR as (Hn & Hfree & Hmin). set (st := mkStream i path _ true 0 _) in H.
  assert (∀ st', s_node st' = i → s_position st' = 0 → fs_ok (set_N_fd (<[n := st']> (N_fd s2)) s2) M1) as Hopen.
  { intros st' H1 H2. apply open_stream_ok; [done|lia|by rewrite H1|lia]. }
  assert (∀ x st', stream_open (rdev nd) st x = GoRet st' → s_node st' = i ∧ s_position st' = 0) as Hst'.
  { intros x st'. unfold stream_open. destruct (s_n st); try (by intros [= <-]).
    destruct (Gb x !! rdev nd); [|done]. by intros [= <-]. }
  destruct (stream_open (rdev nd) st (Sb st n s2)) as [st'|err|pn] eqn:ES.
  - injection H as <- <-. destruct (Hst' _ _ ES) as [H1 H2]. exists M1. unfold Sb.
    split_and!; [|done|lia|lia|done|done|].
    + change (fs_ok (set_N_fd (<[n := st']> (<[n := st]> (N_fd s2))) s2) M1). rewrite insert_insert_eq. by apply Hopen.
    + exists st'. split; [|done]. simpl. rewrite insert_insert_eq. by rewrite HN2, HN1.
  - exfalso. unfold stream_open in ES. by repeat case_match.
  - injection H as <- <-. exists M1. split; [by apply Hopen|done].
Qed.
