(* ===== verification/VizFSPaths.v ===== *)
(** * Path resolution in the viewer's file system

    What a resolution found is found again after an entry was added, and a new
    entry is found under the path it was created with. *)

From Stdlib Require Import ZArith Lia.
From stdpp Require Import base list gmap strings.
From S2P Require Import Prelude VizRuntime VizFacts VizFile VizFS VizFSFacts VizFSInv.

Open Scope Z_scope.

(** ** The parts of a path *)

(** The parts [Q] walks along. *)
Definition comps (a : jsstr) : list jsstr := mb (parts a) false.

Lemma comps_plain a : Forall plain (comps a).
Proof.
  destruct (mb_normal (parts a) false (parts_ok a)) as (n & ps & E & Hps & Hn).
  unfold comps. rewrite E, Hn by done. done.
Qed.

Lemma comps_fix a : comps (slash :: join (comps a)) = comps a.
Proof.
  unfold comps at 1. pose proof (mb_normal (parts a) false (parts_ok a)) as Hn. fold (comps a) in Hn.
  rewrite parts_slash, parts_join by (by eapply normal_parts). by apply mb_fix.
Qed.

Lemma sb_root a : a ≠ [] → sb [[slash]; a] = slash :: join (comps a).
Proof.
  intros Ha. unfold sb. cbn [rev app sb_loop]. destruct a as [|c a]; [done|]. cbn [nonempty].
  destruct (starts_slash (c :: a)).
  - by rewrite parts_trailing.
  - cbn [starts_slash]. rewrite Z.eqb_refl. rewrite !parts_slash. by rewrite parts_trailing.
Qed.

Lemma Q_unfold depth s a b :
  a ≠ [] → Q (S depth) s a b = walk (Q depth s) s b (comps a) [slash] (Eb s).
Proof.
  intros Ha. cbn [Q]. rewrite sb_root by done. cbn [nonempty].
  fold (comps (slash :: join (comps a))). by rewrite comps_fix.
Qed.

Lemma split_slash_app2 s t : split_slash (s ++ slash :: t) = split_slash s ++ split_slash t.
Proof.
  induction s as [|c s IH]; [done|]. cbn [app split_slash]. rewrite IH.
  destruct (c =? slash); [done|]. by destruct (split_slash_cons s) as (p & ps & ->).
Qed.

Lemma parts_app_slash s t : parts (s ++ slash :: t) = parts s ++ parts t.
Proof. unfold parts. by rewrite split_slash_app2, List.filter_app. Qed.

Lemma mb_fold_acc ps acc n :
  foldr mb_step (acc, n) ps = ((foldr mb_step ([], n) ps).1 ++ acc, (foldr mb_step ([], n) ps).2).
Proof.
  induction ps as [|p ps IH]; [done|]. cbn [foldr]. rewrite IH.
  destruct (foldr mb_step ([], n) ps) as [a c]. simpl. unfold mb_step.
  destruct (decide (p = dot1)); [done|]. destruct (decide (p = dot2)); [done|]. by destruct c.
Qed.

Lemma mb_snoc ps x : plain x → mb (ps ++ [x]) false = mb ps false ++ [x].
Proof.
  intros Hx. unfold mb. rewrite foldr_app. cbn [foldr]. rewrite mb_step_plain by done. cbn [fst snd].
  rewrite mb_fold_acc. by destruct (foldr mb_step ([], O) ps).
Qed.

(** [pb] is the last part. *)
Lemma pb_loop_spec a best :
  (slash ∉ a ∧ pb_loop a best = best) ∨
  ∃ pre x, a = pre ++ slash :: x ∧ slash ∉ x ∧ pb_loop a best = x.
Proof.
  revert best. induction a as [|c a IH]; intros best; simpl; [left; split; [by apply not_elem_of_nil|done]|].
  destruct (Z.eqb_spec c slash) as [->|Hc].
  - destruct (IH a) as [[H1 ->]|(pre & x & -> & H1 & ->)].
    + right. by exists [], a.
    + right. by exists (slash :: pre), x.
  - destruct (IH best) as [[H1 ->]|(pre & x & -> & H1 & ->)].
    + left. split; [|done]. apply not_elem_of_cons. split; [congruence|done].
    + right. by exists (c :: pre), x.
Qed.

Lemma comps_last a :
  a ≠ [slash] → nonempty (pb a) = true → pb a ≠ dot1 → pb a ≠ dot2 →
  ∃ c, comps a = c ++ [pb a].
Proof.
  intros Ha Hne H1 H2. unfold pb in *. rewrite decide_False in * by done.
  destruct (pb_loop_spec a a) as [[Hs E]|(pre & x & Ea & Hs & E)]; rewrite E in *.
  - exists []. unfold comps. rewrite parts_part by (split; [by destruct a|done]).
    apply (mb_snoc [] a). split; [split; [by destruct a|done]|done].
  - exists (comps pre). unfold comps. rewrite Ea, parts_app_slash, (parts_part x) by (split; [by destruct x|done]).
    apply mb_snoc. split; [split; [by destruct x|done]|done].
Qed.

(** ** Resolution after adding an entry *)

(** [s'] knows at least what [s] knows. *)
Record extends (s s' : fs) : Prop := {
  ext_Hb : Hb s <= Hb s';
  ext_Ib : Ib s' = Ib s;
  ext_Eb : Eb s' = Eb s;
  ext_node : ∀ i x, nodes s !! i = Some x → ∃ y, nodes s' !! i = Some y ∧
    parent y = parent x ∧ name y = name x ∧ mode y = mode x ∧ k y = k x ∧ link y = link x ∧
    mountpoint y = mountpoint x ∧ V y = V x;
  ext_fd : ∀ fd d, N_fd s !! fd = Some d → ∃ d', N_fd s' !! fd = Some d' ∧ s_path d' = s_path d;
  ext_names : ∃ M M', names s M ∧ names s' M' ∧ M ⊆ M' ∧
    ∀ a x b, nodes s !! a = Some x → k x = OpsFd → M !! (a, b) = None → M' !! (a, b) = None
}.

Lemma get_node_ext s s' i x :
  extends s s' → get_node i s = GoRet x → ∃ y, get_node i s' = GoRet y ∧
    parent y = parent x ∧ name y = name x ∧ mode y = mode x ∧ k y = k x ∧ link y = link x ∧
    mountpoint y = mountpoint x ∧ V y = V x.
Proof.
  intros He [E|(Hi & _ & d & Hd & ->)]%get_node_inv; unfold get_node.
  - destruct (ext_node _ _ He i x E) as (y & -> & Hy). by exists y.
  - destruct (ext_names _ _ He) as (_ & M' & _ & HM' & _ & _). destruct (nodes s' !! i) as [y|] eqn:E.
    { pose proof (names_ids _ _ HM' i) as H. unfold skel in H. rewrite E in H. specialize (H ltac:(by eexists)). lia. }
    apply Z.ltb_lt in Hi as ->. destruct (ext_fd _ _ He _ _ Hd) as (d' & -> & Hp). eexists. split; [done|].
    unfold fake_node. rewrite Hp. by split_and!.
Qed.

Lemma Nb_ext s s' x y b : extends s s' → mode y = mode x → Nb y b s' = Nb x b s.
Proof. intros He Hm. unfold Nb. by rewrite (ext_Ib _ _ He), Hm. Qed.

Lemma Cb_ext s s' a b i : extends s s' → Cb a b s = GoRet i → Cb a b s' = GoRet i.
Proof.
  intros He H. unfold Cb in *. destruct (get_node a s) as [x| |] eqn:Ex; cbn [go_bind] in H; [|done..].
  destruct (get_node_ext _ _ _ _ He Ex) as (y & -> & _ & _ & Hm & Hk & _). cbn [go_bind].
  rewrite (Nb_ext s s' x y _ He Hm), Hk. destruct (_ =? 0) in H |- *; [|done].
  destruct (ext_names _ _ He) as (M & M' & HM & HM' & Hsub & Hroot).
  rewrite (names_find s M) in H by done. rewrite (names_find s' M') by done. cbn [go_bind] in *.
  destruct (M !! (a, b)) as [j|] eqn:E.
  { injection H as ->. by rewrite (lookup_weaken M M' (a, b) i E Hsub). }
  unfold lookup_miss in *. destruct (k x) eqn:Hkx; try done. apply get_node_dir in Ex; [|congruence].
  assert (M' !! (a, b) = None) as -> by exact (Hroot a x b Ex Hkx E). unfold fd_lookup in *. destruct (to_index b) as [n|]; [|done].
  destruct (N_fd s !! n) as [d|] eqn:Hd; [|done]. by destruct (ext_fd _ _ He _ _ Hd) as (d' & -> & _).
Qed.

Lemma Kb_loop_ext s s' n n' i b p :
  extends s s' → (n <= n')%nat → Kb_loop n i b s = GoRet p → Kb_loop n' i b s' = GoRet p.
Proof.
  intros He. revert n' i b. induction n as [|n IH]; intros n' i b Hn H; [done|].
  destruct n' as [|n']; [lia|]. simpl in *. destruct (get_node i s) as [x| |] eqn:Ex; cbn [go_bind] in H; [|done..].
  destruct (get_node_ext _ _ _ _ He Ex) as (y & -> & Hp & Hnm & _ & _ & _ & Hmp & _). cbn [go_bind].
  rewrite Hp, Hnm, Hmp. destruct (parent x =? i); [done|]. apply IH; [lia|done].
Qed.

Lemma Kb_ext s s' i p : extends s s' → Kb i s = GoRet p → Kb i s' = GoRet p.
Proof. intros He. apply Kb_loop_ext; [done|]. pose proof (ext_Hb _ _ He). lia. Qed.

Section Ext.
Context (s s' : fs) (He : extends s s').
Context (Q1 Q2 : jsstr → opts → go Z (jsstr * option Z)).
Context (HQ : ∀ a b r, Q1 a b = GoRet r → Q2 a b = GoRet r).

Lemma Jb_with_ext a l : Jb_with Q1 s a = GoRet l → Jb_with Q2 s' a = GoRet l.
Proof using All.
  unfold Jb_with. destruct (Q1 a opts0) as [[p g]| |] eqn:EQ; cbn [go_bind]; [|done..].
  rewrite (HQ _ _ _ EQ). cbn [go_bind]. destruct g as [i|]; [|done].
  destruct (get_node i s) as [x| |] eqn:Ex; cbn [go_bind]; [|done..].
  destruct (get_node_ext _ _ _ _ He Ex) as (y & -> & Hp & _ & Hm & Hk & Hl & _). cbn [go_bind].
  rewrite Hp, Hm, Hk, Hl. destruct (k x); try done;
    (destruct (Kb (parent x) s) as [q| |] eqn:EK; cbn [go_bind]; [|done..]; by rewrite (Kb_ext s s' _ _ He EK)).
Qed.

Lemma follow_ext n q d f r : follow Q1 s n q d f = GoRet r → follow Q2 s' n q d f = GoRet r.
Proof using All.
  revert q d f. induction n as [|n IH]; intros q d [i|] H; simpl in *; try done.
  destruct (get_node i s) as [x| |] eqn:Ex; cbn [go_bind] in *; [|done..].
  destruct (get_node_ext _ _ _ _ He Ex) as (y & -> & _ & _ & Hm & _). cbn [go_bind]. rewrite Hm.
  destruct (is_link (mode x)); [|done].
  destruct (Jb_with Q1 s d) as [l| |] eqn:EJ; cbn [go_bind] in *; [|done..]. rewrite (Jb_with_ext d l EJ). cbn [go_bind].
  destruct (Q1 _ _) as [[p g]| |] eqn:EQ; cbn [go_bind] in *; [|done..]. rewrite (HQ _ _ _ EQ). cbn [go_bind].
  destruct (40 <? q); [done|]. by apply IH.
Qed.

Lemma walk_ext b c d f r : walk Q1 s b c d f = GoRet r → walk Q2 s' b c d f = GoRet r.
Proof using All.
  revert d f. induction c as [|x c IH]; intros d f H; [done|]. cbn [walk] in *.
  destruct (_ && _); [done|]. destruct f as [f|]; [|done].
  destruct (Cb f x s) as [i| |] eqn:EC; cbn [go_bind] in *; [|done..]. rewrite (Cb_ext s s' _ _ _ He EC). cbn [go_bind].
  destruct (get_node i s) as [nd| |] eqn:Ex; cbn [go_bind] in *; [|done..].
  destruct (get_node_ext _ _ _ _ He Ex) as (y & -> & _ & _ & _ & _ & _ & _ & HV). cbn [go_bind]. rewrite HV.
  destruct (_ || o_da b).
  - destruct (follow Q1 s 43 0 _ _) as [[d' f']| |] eqn:EF; cbn [go_bind] in *; [|done..].
    rewrite (follow_ext _ _ _ _ _ EF). cbn [go_bind]. by apply IH.
  - cbn [go_bind] in *. by apply IH.
Qed.
End Ext.

Lemma Q_ext s s' depth a b r : extends s s' → Q depth s a b = GoRet r → Q depth s' a b = GoRet r.
Proof.
  intros He. revert a b r. induction depth as [|depth IH]; intros a b r H; [done|]. cbn [Q] in *.
  destruct (nonempty _); [|done]. rewrite (ext_Eb _ _ He). by eapply walk_ext.
Qed.

(** A state with one more entry. *)
Lemma grown_extends s s' M a b nda nd :
  fs_ok s M → names s' (<[(a, b) := Hb s]> M) → grown s s' a b nda nd →
  k nda = OpsDir → M !! (a, b) = None → extends s s'.
Proof.
  intros Hs Hn Hg Hk Hfree. split; [rewrite (g_Hb _ _ _ _ _ _ Hg); lia|exact (g_Ib _ _ _ _ _ _ Hg)|exact (g_Eb _ _ _ _ _ _ Hg)| | |].
  - intros i x Hi. destruct (decide (i = a)) as [->|Hne].
    + rewrite (g_parent _ _ _ _ _ _ Hg) in Hi. injection Hi as <-. rewrite (g_a _ _ _ _ _ _ Hg).
      eexists. split; [done|]. by split_and!.
    + pose proof (fs_ok_ids s M i x Hs Hi). rewrite (g_other _ _ _ _ _ _ Hg) by lia. exists x. by split_and!.
  - intros fd d. rewrite (g_N _ _ _ _ _ _ Hg). eauto.
  - exists M, (<[(a, b) := Hb s]> M). split_and!; [apply (ok_names _ _ Hs)|done|by apply insert_subseteq|].
    intros c x b' Hc Hkc. rewrite lookup_insert_ne; [done|]. intros [= <- _].
    rewrite (g_parent _ _ _ _ _ _ Hg) in Hc. congruence.
Qed.

(** Resolving the parent of the last part, then the last part. *)
Lemma walk_parent Qrec s c x d f r ka da ka' da' :
  walk Qrec s (mkOpts true ka da) (c ++ [x]) d f = GoRet r →
  walk Qrec s (mkOpts false ka' da') (c ++ [x]) d f = walk Qrec s (mkOpts false ka' da') [x] r.1 r.2.
Proof.
  revert d f. induction c as [|y c IH]; intros d f H; [by injection H as <-|].
  cbn [app walk] in H |- *. assert (∃ z zs, c ++ [x] = z :: zs) as (z & zs & E) by (destruct c; simpl; eauto).
  rewrite E in *. cbn [andb negb orb o_parent o_Ka o_da] in *. destruct f as [f|]; [|done].
  destruct (Cb f y s) as [i| |]; cbn [go_bind] in *; [|done..].
  destruct (get_node i s) as [nd| |]; cbn [go_bind] in *; [|done..].
  destruct (follow Qrec s 43 0 _ _) as [[d' f']| |]; cbn [go_bind] in *; [|done..]. by apply IH.
Qed.

(** A new entry is found under its path. *)
Lemma Vb_found depth a m d s M i s' ka da :
  fs_ok s M → Vb depth a m d s = GoRet (i, s') → is_link m = false →
  ∃ path, Q depth s' a (mkOpts false ka da) = GoRet (path, Some i).
Proof.
  intros Hs HV Hlink.
  destruct (Vb_ok depth a m d s M i s' Hs HV)
    as (path & p & nda & HQ & Hne & H1 & H2 & Hp & Hk & Hfree & -> & Hwx & Hok & Hg).
  assert (a ≠ [slash]) as Hroot.
  { intros ->. destruct depth as [|depth]; [done|]. rewrite Q_unfold in HQ by done. injection HQ as <- Hr.
    pose proof (eq_trans (eq_sym Hfree) (ok_root _ _ Hs p Hr)). done. }
  assert (a ≠ []) as Ha by (intros ->; done).
  assert (extends s s') as He.
  { eapply (grown_extends s s' M p (pb a)); [done|apply (ok_names _ _ Hok)|done|done|done]. }
  destruct depth as [|depth]; [done|].
  pose proof (Q_ext s s' (S depth) a _ _ He HQ) as HQ'. rewrite Q_unfold in HQ' |- * by done.
  destruct (comps_last a Hroot Hne H1 H2) as [c Hc]. rewrite Hc in *.
  rewrite (walk_parent _ _ _ _ _ _ _ _ _ ka da HQ'). cbn [fst snd walk andb o_parent].
  set (nd := mkNode _ _ _ _ _ _ _ _ _ _ _) in Hg.
  pose proof (g_a _ _ _ _ _ _ Hg) as Hpa. pose proof (g_new _ _ _ _ _ _ Hg) as Hnew.
  rewrite (Cb_spec s' _ p _ (pb a) (ok_names _ _ Hok) Hpa).
  - rewrite lookup_insert_eq. cbn [go_bind]. unfold get_node. rewrite Hnew. cbn [go_bind]. simpl V. cbn match.
    destruct (_ || _); cbn [follow go_bind]; [|by eexists]. unfold get_node. rewrite Hnew. cbn [go_bind].
    simpl mode. rewrite Hlink. cbn [go_bind]. by eexists.
  - split; [simpl; by rewrite Hk|]. apply Nb_wx. unfold Nb in *. rewrite (g_Ib _ _ _ _ _ _ Hg). exact Hwx.
Qed.
