(* ===== verification/VizStream.v ===== *)
(** * Streams and system calls of the viewer's runtime

    Reading, writing and seeking on open descriptors, as the Graphviz object
    code asks for them ([___syscall145], [___syscall146], [___syscall140],
    [___syscall6], [___syscall5], [___syscall10] of [viz-lite.js]), the terminal
    devices [xb] and [yb] with their line buffers, and [/dev/null].

    The buffers of a call are given by their contents: the bytes of each
    [iovec] for a write, the wanted length of each for a read, whose result is
    what the call stores. *)

From Stdlib Require Import ZArith Lia.
From stdpp Require Import base list gmap strings.
From S2P Require Import Prelude VizRuntime VizFile VizFS.

Open Scope Z_scope.

(** A terminal: what was read ahead, what waits for the end of its line, and
    whether it is [yb] (printing errors, no input). *)
Record tty : Type := mkTty { t_input : list Z; t_output : list Z; t_err : bool }.

(** What the terminal is given when it asks: under Node a chunk of the standard
    input (an empty one at its end), elsewhere the line [prompt] or [readline] returns, to which
    a newline is added; when there is no more, [null]. *)
Inductive input : Type := Chunk (b : jsstr) | Line (b : jsstr).

Definition text (i : input) : jsstr := match i with Chunk b => b | Line b => b ++ [10] end.

Record sys : Type := mkSys {
  y_fs : fs;
  y_tb : gmap Z tty;
  y_stdin : list input;
  y_printed : list (bool * jsstr)     (** the calls of [print] and [printErr] *)
}.

Definition set_fs x y := mkSys x (y_tb y) (y_stdin y) (y_printed y).
Definition set_tb x y := mkSys (y_fs y) x (y_stdin y) (y_printed y).
Definition set_stdin x y := mkSys (y_fs y) (y_tb y) x (y_printed y).

(** ** Terminals *)

(** [ta(a, b)]: a byte goes to the line buffer; a newline prints it. *)
Definition tty_put (b : Z) (st : tty * list (bool * jsstr)) : tty * list (bool * jsstr) :=
  let '(t, out) := st in
  if b =? 10 then (mkTty (t_input t) [] (t_err t), out ++ [(t_err t, Ca (t_output t))])
  else if b =? 0 then (t, out)
  else (mkTty (t_input t) (t_output t ++ [b]) (t_err t), out).

(** [wb.write]. *)
Definition tty_write (data : list Z) (st : tty * list (bool * jsstr)) : tty * list (bool * jsstr) :=
  foldl (fun st b => tty_put b st) st data.

(** [flush]. *)
Definition tty_flush (st : tty * list (bool * jsstr)) : tty * list (bool * jsstr) :=
  let '(t, out) := st in
  match t_output t with
  | [] => (t, out)
  | l => (mkTty (t_input t) [] (t_err t), out ++ [(t_err t, Ca l)])
  end.

(** [xb.Na]: the next byte of input, asking for a line when there is none;
    [None] for [null]. *)
Definition tty_get (t : tty) (stdin : list input) : option Z * tty * list input :=
  match t_input t with
  | x :: l => (Some x, mkTty l (t_output t) (t_err t), stdin)
  | [] =>
      match stdin with
      | [] => (None, t, [])
      | i :: stdin' =>
          let b := text i in
          if nonempty b then
            match utf8_fill (length b) (utf8_count (length b) b 0) b [] with
            | x :: l => (Some x, mkTty l (t_output t) (t_err t), stdin')
            | [] => (None, t, stdin')
            end
          else (None, t, stdin')
      end
  end.

(** The loop of [wb.read] for at most [n] bytes. *)
Fixpoint tty_read (n : nat) (t : tty) (stdin : list input) : list Z * tty * list input :=
  match n with
  | O => ([], t, stdin)
  | S n' =>
      match tty_get t stdin with
      | (None, t, stdin) => ([], t, stdin)
      | (Some x, t, stdin) => let '(l, t, stdin) := tty_read n' t stdin in (x :: l, t, stdin)
      end
  end.

(** ** One buffer *)

Section Calls.
(** The user functions of the devices made by [ec], by device number. *)
Context (fn_read : Z → Z → go Z (list Z)) (fn_write : Z → list Z → go Z Z).

Definition set_stream (fd : Z) (st : stream) (y : sys) : sys :=
  set_fs (set_N_fd (<[fd := st]> (N_fd (y_fs y))) (y_fs y)) y.

Definition set_position (p : Z) (st : stream) : stream :=
  mkStream (s_node st) (s_path st) (s_flags st) (s_seekable st) p (s_n st).

(** [stream.n.read] on the node [nd] at the stream's position. *)
Definition ops_read (st : stream) (nd : node) (len : Z) (y : sys) : go Z (list Z * sys) :=
  match s_n st with
  | SFile => let! l := K_read (data nd) len (s_position st) in GoRet (l, y)
  | SNull => GoRet ([], y)
  | STty =>
      match y_tb y !! rdev nd with
      | None => GoErr ENXIO
      | Some t =>
          if t_err t then GoErr ENXIO
          else let '(l, t, stdin) := tty_read (Z.to_nat len) t (y_stdin y) in
               GoRet (l, set_stdin stdin (set_tb (<[rdev nd := t]> (y_tb y)) y))
      end
  | SFn => let! l := fn_read (rdev nd) len in GoRet (l, y)
  | SDir | SLink | SDev | SNone => GoErr EINVAL
  end.

(** The body of the loop of [___syscall145] for one buffer. *)
Definition read1 (fd len : Z) (y : sys) : go Z (list Z * sys) :=
  match N_fd (y_fs y) !! fd with
  | None => GoErr EBADF
  | Some st =>
      if len <? 0 then GoErr EINVAL
      else if Z.land (s_flags st) 2097155 =? 1 then GoErr EBADF
      else
        let! nd := get_node (s_node st) (y_fs y) in
        if L (mode nd) then GoErr EISDIR
        else
          let! (l, y) := ops_read st nd len y in
          GoRet (l, set_stream fd (set_position (s_position st + zlength l) st) y)
  end.

(** [stream.n.I], through [ac]. *)
Definition ops_llseek (st : stream) (nd : node) (b c : Z) : go Z Z :=
  if s_seekable st then
    match s_n st with
    | SFile | SDir => K_llseek (s_position st) (is_file (mode nd)) (o (data nd)) b c
    | SDev | SNull | STty | SFn | SLink | SNone => GoErr ESPIPE
    end
  else GoErr ESPIPE.

(** [ac(a, b, c)]. *)
Definition llseek (fd b c : Z) (y : sys) : go Z (Z * sys) :=
  match N_fd (y_fs y) !! fd with
  | None => GoErr EBADF
  | Some st =>
      let! nd := get_node (s_node st) (y_fs y) in
      let! p := ops_llseek st nd b c in
      GoRet (p, set_stream fd (set_position p st) y)
  end.

(** [stream.n.write]. *)
Definition ops_write (st : stream) (nd : node) (d : list Z) (y : sys) : go Z (Z * sys) :=
  match s_n st with
  | SFile =>
      let! (n, f) := K_write (data nd) d (s_position st) in
      GoRet (n, set_fs (upd (s_node st) (set_data f) (y_fs y)) y)
  | SNull => GoRet (zlength d, y)
  | STty =>
      match y_tb y !! rdev nd with
      | None => GoErr ENXIO
      | Some t =>
          let '(t, out) := tty_write d (t, y_printed y) in
          GoRet (zlength d, mkSys (y_fs y) (<[rdev nd := t]> (y_tb y)) (y_stdin y) out)
      end
  | SFn => let! n := fn_write (rdev nd) d in GoRet (n, y)
  | SDir | SLink | SDev | SNone => GoErr EINVAL
  end.

(** The body of the loop of [___syscall146] for one buffer.  The seek of a stream
    opened with [O_APPEND] succeeds on files only, whose [write] does not throw: no
    exception is thrown between it and the update of the position. *)
Definition write1 (fd : Z) (d : list Z) (y : sys) : go Z (Z * sys) :=
  match N_fd (y_fs y) !! fd with
  | None => GoErr EBADF
  | Some st =>
      if Z.land (s_flags st) 2097155 =? 0 then GoErr EBADF
      else
        let! nd := get_node (s_node st) (y_fs y) in
        if L (mode nd) then GoErr EISDIR
        else
          match s_n st with
          | SDir | SLink | SDev | SNone => GoErr EINVAL
          | _ =>
              let! p := if flag (s_flags st) 1024 then ops_llseek st nd 0 2 else GoRet (s_position st) in
              let st := set_position p st in
              let! (n, y) := ops_write st nd d y in
              GoRet (n, set_stream fd (set_position (p + n) st) y)
          end
  end.

(** ** The calls *)

(** An error number is returned negated; another exception aborts. *)
Definition result (r : go Z Z) : go Z Z :=
  match r with
  | GoRet n => GoRet n
  | GoErr err => GoRet (- err)
  | GoPanic p => GoPanic p
  end.

(** [writev]: what earlier buffers did stays done. *)
Fixpoint writev_loop (fd : Z) (bufs : list (list Z)) (total : Z) (y : sys) : go Z Z * sys :=
  match bufs with
  | [] => (GoRet total, y)
  | d :: bufs' =>
      match write1 fd d y with
      | GoRet (n, y) => writev_loop fd bufs' (total + n) y
      | GoErr err => (GoErr err, y)
      | GoPanic p => (GoPanic p, y)
      end
  end.

Definition syscall146 (fd : Z) (bufs : list (list Z)) (y : sys) : go Z Z * sys :=
  let '(r, y) := match N_fd (y_fs y) !! fd with
                 | None => (GoErr EBADF, y)
                 | Some _ => writev_loop fd bufs 0 y
                 end in
  (result r, y).

(** [readv]: a short read ends the call. *)
Fixpoint readv_loop (fd : Z) (lens : list Z) (acc : list (list Z)) (y : sys) : go Z (list (list Z)) * sys :=
  match lens with
  | [] => (GoRet acc, y)
  | n :: lens' =>
      match read1 fd n y with
      | GoRet (l, y) =>
          if zlength l <? n then (GoRet (acc ++ [l]), y) else readv_loop fd lens' (acc ++ [l]) y
      | GoErr err => (GoErr err, y)
      | GoPanic p => (GoPanic p, y)
      end
  end.

(** The count returned and the buffers as far as they were filled. *)
Definition syscall145 (fd : Z) (lens : list Z) (y : sys) : go Z (Z * list (list Z)) * sys :=
  match N_fd (y_fs y) !! fd with
  | None => (GoRet (- EBADF, []), y)
  | Some _ =>
      let '(r, y) := readv_loop fd lens [] y in
      (match r with
       | GoRet bufs => GoRet (foldr Z.add 0 (zlength <$> bufs), bufs)
       | GoErr err => GoRet (- err, [])
       | GoPanic p => GoPanic p
       end, y)
  end.

(** [___syscall140]: of an open descriptor; the high word of the offset has to be 0. *)
Definition syscall140 (fd high off whence : Z) (y : sys) : go Z Z * sys :=
  match N_fd (y_fs y) !! fd with
  | None => (GoRet (- EBADF), y)
  | Some _ =>
      if negb (high =? 0) then (GoPanic PAssert, y)
      else
        match llseek fd off whence y with
        | GoRet (p, y) => (GoRet 0, y)
        | GoErr err => (GoRet (- err), y)
        | GoPanic p => (GoPanic p, y)
        end
  end.

(** [a.n.close&&a.n.close(a)]: a terminal is flushed; a device made by [ec] of
    the start-up has no buffer. *)
Definition stream_close (st : stream) (y : sys) : sys :=
  match s_n st, nodes (y_fs y) !! s_node st with
  | STty, Some nd =>
      match y_tb y !! rdev nd with
      | Some t => let '(t, out) := tty_flush (t, y_printed y) in
                  mkSys (y_fs y) (<[rdev nd := t]> (y_tb y)) (y_stdin y) out
      | None => y
      end
  | _, _ => y
  end.

(** [___syscall6], through [$b]. *)
Definition syscall6 (fd : Z) (y : sys) : go Z Z * sys :=
  match N_fd (y_fs y) !! fd with
  | None => (GoRet (- EBADF), y)
  | Some st => let y := stream_close st y in (GoRet 0, set_fs (close fd (y_fs y)) y)
  end.

(** [___syscall5]: open. *)
Definition syscall5 (depth : nat) (path : jsstr) (flags mode : Z) (y : sys) : go Z Z * sys :=
  let '(r, s) := Yb depth path flags (Some mode) 0 (y_fs y) in (result r, set_fs s y).

(** [___syscall10]: unlink. *)
Definition syscall10 (depth : nat) (path : jsstr) (y : sys) : go Z Z * sys :=
  match unlink depth path (y_fs y) with
  | GoRet s => (GoRet 0, set_fs s y)
  | GoErr err => (GoRet (- err), y)
  | GoPanic p => (GoPanic p, y)
  end.

(** [___syscall33]: may the path be accessed with the permissions of [f]?  A
    missing permission is [EACCES]. *)
Definition syscall33 (depth : nat) (path : jsstr) (f : Z) (y : sys) : go Z Z :=
  if negb (Z.land f (-8) =? 0) then GoRet (- EINVAL)
  else
    result
      (let! (_, g) := Q depth (y_fs y) path (mkOpts false true true) in
       let c := mkPerms (flag f 4) (flag f 2) (flag f 1) in
       if p_r c || p_w c || p_x c then
         match g with
         | Some i => let! nd := get_node i (y_fs y) in
                     GoRet (if Nb nd c (y_fs y) =? 0 then 0 else - EACCES)
         | None => if Ib (y_fs y) then GoRet 0 else GoPanic PTypeError
         end
       else GoRet 0).

(** [___syscall54]: [ioctl]; only terminals know the four requests, and no
    stream has an [ioctl] of its own. *)
Definition syscall54 (fd req : Z) (y : sys) : go Z Z :=
  match N_fd (y_fs y) !! fd with
  | None => GoRet (- EBADF)
  | Some st =>
      let tty := match s_n st with STty => true | _ => false end in
      if (req =? 21505) || (req =? 21506) || (req =? 21519) then GoRet (if tty then 0 else - ENOTTY)
      else if req =? 21520 then GoRet (if tty then - EINVAL else - ENOTTY)
      else if req =? 21531 then GoRet (- ENOTTY)
      else GoPanic (PMsg "bad ioctl syscall")
  end.

Definition set_flags (f : Z) (st : stream) : stream :=
  mkStream (s_node st) (s_path st) f (s_seekable st) (s_position st) (s_n st).

(** [___syscall221]: [fcntl].  Duplication opens the path of the stream again,
    from descriptor [d] on. *)
Definition syscall221 (depth : nat) (fd cmd d : Z) (y : sys) : go Z Z * sys :=
  match N_fd (y_fs y) !! fd with
  | None => (GoRet (- EBADF), y)
  | Some st =>
      if cmd =? 0 then
        if d <? 0 then (GoRet (- EINVAL), y)
        else let '(r, s) := Yb depth (s_path st) (s_flags st) (Some 0) d (y_fs y) in (result r, set_fs s y)
      else if (cmd =? 1) || (cmd =? 2) then (GoRet 0, y)
      else if cmd =? 3 then (GoRet (s_flags st), y)
      else if cmd =? 4 then (GoRet 0, set_stream fd (set_flags (Z.lor (s_flags st) d) st) y)
      else if (cmd =? 12) || (cmd =? 13) || (cmd =? 14) then (GoRet 0, y)
      else if (cmd =? 16) || (cmd =? 8) then (GoRet (- EINVAL), y)
      else if cmd =? 9 then (GoRet (-1), y)
      else (GoRet (- EINVAL), y)
  end.
End Calls.

(** The terminals [ub] registers, and the state the program starts in. *)
Definition ttys0 : gmap Z tty := {[ 1280 := mkTty [] [] false; 1536 := mkTty [] [] true ]}.

Definition start (stdin : list input) : go Z sys :=
  let! s := started in GoRet (mkSys s ttys0 stdin []).
