(* ===== verification/VizStreamFacts.v ===== *)
(** * The invariant of the running viewer's file system, and its streams *)

From Stdlib Require Import ZArith Lia.
From stdpp Require Import base list gmap strings.
From S2P Require Import Prelude VizRuntime VizFacts VizFile VizFS VizFSFacts VizFSInv VizStream.

Open Scope Z_scope.

(** ** Start-up *)

Lemma names_fs0 : names fs0 ∅.
Proof.
  split.
  - intros i [x Hx]. unfold skel in Hx. simpl in Hx. by rewrite lookup_empty in Hx.
  - intros h. exists []. split; [simpl; rewrite lookup_empty; constructor|]. intros i. split.
    + intros Hi. by apply not_elem_of_nil in Hi.
    + intros (p & b & c & _ & _ & H). by rewrite lookup_empty in H.
  - intros p b i H. by rewrite lookup_empty in H.
Qed.

(** Mounting the root on nothing. *)
Lemma Ub_root_ok depth s : Ub depth FsK [slash] fs0 = GoRet s → fs_ok s {[ (1, [slash]) := 1 ]}.
Proof.
  intros H. unfold Ub in H. rewrite bool_decide_true in H by done. simpl Eb in H. cbn match in H.
  cbn [orb go_bind] in H. unfold mount_root, createNode in H. change ((fmt 16895 =? 24576) || (fmt 16895 =? 4096)) with false in H.
  cbn match in H. pose proof (Ab_names fs0 ∅ None [slash] 16895 0 names_fs0) as HA.
  specialize (HA ltac:(simpl; lia) ltac:(by rewrite lookup_empty)).
  destruct (Ab None [slash] 16895 0 fs0) as [id s1] eqn:EA. destruct HA as (-> & Hn & HH).
  cbn [go_bind] in H. injection H as <-. simpl Hb in *. simpl default in Hn.
  assert (nodes s1 = {[ 1 := mkNode 1 [slash] 16895 0 OpsNone ∅ (mkFile CNull 0) [] None None None ]} ∧
    N_fd s1 = ∅ ∧ Hb s1 = 2) as (Hnodes & HN & HH1).
  { unfold Ab in EA. injection EA as <-. vm_compute. done. }
  assert (∀ i nd, nodes (upd 1 (set_mountpoint (Some [slash])) (upd 1 (set_k (ops_of 16895)) s1)) !! i = Some nd →
    i = 1 ∧ nd = mkNode 1 [slash] 16895 0 OpsDir ∅ (mkFile CNull 0) [] None (Some [slash]) None) as Hnd.
  { intros i nd. rewrite !lookup_upd, Hnodes. repeat case_decide; subst.
    - rewrite lookup_singleton_eq. simpl. intros [= <-]. done.
    - rewrite lookup_singleton_ne by done. done. }
  split.
  - assert (same_table s1 (set_Eb (Some 1) (upd 1 (set_mountpoint (Some [slash])) (upd 1 (set_k (ops_of 16895)) s1)))) as <-.
    { etrans; [by apply (upd_same 1 (set_k (ops_of 16895)))|]. by apply (upd_same 1 (set_mountpoint (Some [slash]))). }
    exact Hn.
  - simpl. lia.
  - intros i nd Hi. destruct (Hnd i nd Hi) as [-> ->]. split; simpl; try done.
    + by left.
    + intros b j. rewrite lookup_empty. split; [done|]. intros [[_ <-]%lookup_singleton_Some ?]. done.
    + by left.
  - intros r [= <-]. by rewrite lookup_singleton_eq.
  - intros r nd [= <-] Hi. destruct (Hnd 1 nd Hi) as [_ ->]. done.
  - intros fd st. simpl. rewrite HN, lookup_empty. done.
Qed.

(** ** The mount on [/proc/self/fd] *)

(** A state [s'] that differs from [s] by the new root of the mount at [i]. *)
Record mounted (s s' : fs) (i : Z) (nd : node) : Prop := {
  mt_names : ∀ M, names s M → 0 < Hb s → M !! (0, js "fd") = None → names s' (<[(0, js "fd") := Hb s]> M);
  mt_new : nodes s' !! Hb s = Some nd;
  mt_k : k nd = OpsFd;
  mt_mode : L (mode nd) = true;
  mt_entries : entries nd = ∅;
  mt_parent : parent nd = 0;
  mt_mountpoint : is_Some (mountpoint nd);
  mt_data : data nd = mkFile CNull 0;
  mt_V : V nd = None;
  mt_other : ∀ j, j ≠ Hb s → nodes s' !! j = (if decide (i = j) then set_V (Some (Hb s)) else id) <$> nodes s !! j;
  mt_Hb : Hb s' = Hb s + 1;
  mt_Eb : Eb s' = Eb s;
  mt_N : N_fd s' = N_fd s
}.

Lemma Ub_fd_mounts depth b s M s' :
  fs_ok s M → b ≠ [slash] → nonempty b = true → Ub depth FsFd b s = GoRet s' → ∃ i nd, mounted s s' i nd.
Proof.
  intros Hs Hb1 Hb2 H. unfold Ub in H. rewrite bool_decide_false, Hb2 in H by done. cbn [orb negb] in H.
  destruct (Q depth s b _) as [[b' f]| |]; cbn [go_bind] in H; [|done..]. destruct f as [i|]; [|done].
  destruct (get_node i s) as [nd| |] eqn:Hg; cbn [go_bind] in H; [|done..]. destruct (V nd); [done|].
  destruct (L (mode nd)); [|done]. cbn [go_bind] in H.
  assert (i ≠ Hb s) as Hi.
  { apply get_node_inv in Hg as [Hi|(? & _)]; [pose proof (fs_ok_ids s M i nd Hs Hi)|pose proof (ok_pos _ _ Hs)]; lia. }
  unfold mount_root in H. destruct (Ab (Some 0) (js "fd") 16895 73 s) as [g s1] eqn:EA. cbn [go_bind] in H.
  injection H as <-. pose proof EA as EA'. unfold Ab, Mb in EA. simpl in EA. rewrite lookup_insert_eq in EA.
  simpl in EA. injection EA as <- <-. eexists i, _. split; simpl; try done.
  - intros M' HM Hpos Hfree. pose proof (Ab_names s M' (Some 0) (js "fd") 16895 73 HM Hpos Hfree) as HA.
    rewrite EA' in HA. destruct HA as (_ & Hn & _). simpl default in Hn.
    rewrite <- (upd_same i (set_V (Some (Hb s)))) by done.
    rewrite <- (upd_same (Hb s) (set_mountpoint (Some b'))) by done.
    rewrite <- (upd_same (Hb s) (set_k OpsFd)) by done. exact Hn.
  - rewrite lookup_alter_ne by done. rewrite !lookup_alter_eq, lookup_insert_eq. done.
  - done.
  - done.
  - done.
  - done.
  - by eexists.
  - done.
  - done.
  - intros j Hj. case_decide as Hij.
    + subst j. rewrite lookup_alter_eq, !lookup_alter_ne, lookup_insert_ne by done. done.
    + rewrite !lookup_alter_ne, lookup_insert_ne by done. by destruct (nodes s !! j).
Qed.

Lemma mounted_ok s s' i nd M :
  fs_ok s M → (∀ j x, nodes s !! j = Some x → k x ≠ OpsFd) → mounted s s' i nd →
  fs_ok s' (<[(0, js "fd") := Hb s]> M).
Proof.
  intros Hs Hno Hm. pose proof (ok_pos _ _ Hs) as Hpos.
  assert (∀ b j, M !! (0, b) = Some j → False) as H0.
  { intros b j Hj. destruct (fs_ok_named s M _ _ _ Hs Hj) as (x & Hx & Hp & _). pose proof (fs_ok_ids s M j x Hs Hx).
    destruct (ok_parent _ _ _ _ (ok_nodes _ _ Hs j x Hx)) as [?|[(_ & p & Hpn & _)|[_ ?]]]; [lia| |by eapply Hno].
    pose proof (fs_ok_ids s M _ p Hs Hpn). lia. }
  assert (∀ b j, M !! (Hb s, b) = Some j → False) as HH.
  { intros b j Hj. destruct (fs_ok_named s M _ _ _ Hs Hj) as (x & Hx & Hp & _). pose proof (fs_ok_ids s M j x Hs Hx).
    destruct (ok_parent _ _ _ _ (ok_nodes _ _ Hs j x Hx)) as [?|[[? _]|[? _]]]; lia. }
  assert (∀ j x, nodes s !! j = Some x → ∃ y, nodes s' !! j = Some y ∧ k y = k x ∧ mode y = mode x) as Hfwd.
  { intros j x Hx. pose proof (fs_ok_ids s M j x Hs Hx). rewrite (mt_other _ _ _ _ Hm), Hx by lia. eexists.
    split; [done|]. by case_decide. }
  split.
  - apply (mt_names _ _ _ _ Hm); [apply (ok_names _ _ Hs)|done|].
    destruct (M !! _) as [j|] eqn:E; [by destruct (H0 _ _ E)|done].
  - rewrite (mt_Hb _ _ _ _ Hm). lia.
  - intros j y Hy. destruct (decide (j = Hb s)) as [->|Hj].
    { rewrite (mt_new _ _ _ _ Hm) in Hy. injection Hy as <-. split.
      - right. split; [exact (mt_k _ _ _ _ Hm)|exact (mt_mode _ _ _ _ Hm)].
      - intros b j. rewrite (mt_entries _ _ _ _ Hm), lookup_empty, lookup_insert_ne by (intros [=]; lia).
        split; [done|]. intros [Hj _]. by destruct (HH _ _ Hj).
      - right. right. split; [exact (mt_parent _ _ _ _ Hm)|exact (mt_k _ _ _ _ Hm)].
      - exact (mt_mountpoint _ _ _ _ Hm).
      - rewrite (mt_data _ _ _ _ Hm). done.
      - rewrite (mt_V _ _ _ _ Hm). done. }
    rewrite (mt_other _ _ _ _ Hm) in Hy by done. destruct (nodes s !! j) as [x|] eqn:Hx; [|done].
    pose proof (fs_ok_ids s M j x Hs Hx). destruct (ok_nodes _ _ Hs j x Hx) as [K1 K2 K3 K4 K5 K6].
    assert (k y = k x ∧ mode y = mode x ∧ entries y = entries x ∧ parent y = parent x ∧ mountpoint y = mountpoint x ∧
      data y = data x ∧ ∀ r, V y = Some r → r = Hb s ∨ V x = Some r) as (F1 & F2 & F3 & F4 & F5 & F6 & F7).
    { injection Hy as <-. case_decide; simpl; split_and!; try done; [|by right]. intros r [= <-]. by left. }
    split; rewrite ?F1, ?F2, ?F3, ?F4, ?F5, ?F6; try done.
    + intros b r. rewrite lookup_insert_ne by (intros [=]; lia). apply K2.
    + destruct K3 as [?|[(? & p & H1 & H2)|?]]; [by left|right; left|by right; right]. split; [done|].
      destruct (Hfwd _ _ H1) as (p' & Hp' & Hk' & _). exists p'. split; [done|congruence].
    + intros r [->|Hr]%F7; [rewrite (mt_new _ _ _ _ Hm); by eexists|]. destruct (K6 r Hr) as [z Hz].
      destruct (Hfwd _ _ Hz) as (z' & Hz' & _). by eexists.
  - intros r. rewrite (mt_Eb _ _ _ _ Hm). intros Hr. pose proof (ok_root _ _ Hs r Hr) as HM.
    rewrite lookup_insert_ne; [done|]. intros [=].
  - intros r y. rewrite (mt_Eb _ _ _ _ Hm). intros Hr Hy. destruct (fs_ok_root_node s M r Hs Hr) as [x Hx].
    destruct (Hfwd r x Hx) as (y' & Hy' & Hk' & _). rewrite Hy in Hy'. injection Hy' as <-.
    rewrite Hk'. by apply (ok_root_dir _ _ Hs r x).
  - intros fd st. rewrite (mt_N _ _ _ _ Hm). intros Hst. destruct (ok_streams _ _ Hs fd st Hst) as (? & [x Hx] & ?).
    destruct (Hfwd _ _ Hx) as (y & Hy & _). split_and!; [lia|lia|by eexists|done].
Qed.

(** ** Start-up keeps the invariant *)

(** A result whose state, if any, keeps the invariant. *)
Definition keeps (r : go Z fs) : Prop := ∀ s, r = GoRet s → ∃ M, fs_ok s M.

Lemma keeps_bind r f : keeps r → (∀ s, (∃ M, fs_ok s M) → keeps (f s)) → keeps (go_bind r f).
Proof. intros Hr Hf s H. destruct r as [s1| |]; [|done..]. by apply (Hf s1 (Hr s1 eq_refl)). Qed.

Lemma vb_keeps a b s : (∃ M, fs_ok s M) → ∃ M, fs_ok (vb a b s) M.
Proof. intros [M Hs]. exists M. apply (streams_ok s M _ _ (Ib s) Hs). apply (ok_streams _ _ Hs). Qed.

Lemma set_Ib_keeps b s : (∃ M, fs_ok s M) → ∃ M, fs_ok (set_Ib b s) M.
Proof. intros [M Hs]. exists M. apply (streams_ok s M _ (Gb s) b Hs). apply (ok_streams _ _ Hs). Qed.

Lemma Vb_keeps depth a m d s : (∃ M, fs_ok s M) → keeps (let! (_, s) := Vb depth a m d s in GoRet s).
Proof.
  intros [M Hs] s' H. destruct (Vb depth a m d s) as [[i s1]| |] eqn:E; [|done..]. injection H as <-.
  destruct (Vb_ok depth a m d s M i s1 Hs E) as (? & p & ? & _ & _ & _ & _ & _ & _ & _ & _ & _ & Hok & _). by eexists.
Qed.

Lemma Xb_keeps depth a b s : (∃ M, fs_ok s M) → keeps (Xb depth a b s).
Proof. intros [M Hs] s' H. destruct (Xb_ok depth a b s M s' Hs H) as (p & _ & Hok). by eexists. Qed.

Lemma open_keeps depth a b c fd n s :
  0 <= fd → (∃ M, fs_ok s M) → keeps (open_or (Yb depth a b c fd s) n).
Proof.
  intros Hfd [M Hs] s' H. destruct (Yb depth a b c fd s) as [r s1] eqn:E.
  destruct (Yb_ok depth a b c fd s M r s1 Hs Hfd E) as (M' & Hok & _). unfold open_or in H.
  destruct r; [|done..]. destruct (_ =? n); [|done]. injection H as <-. by exists M'.
Qed.

Create HintDb keeps.
#[local] Hint Resolve vb_keeps set_Ib_keeps Vb_keeps Xb_keeps : keeps.

Lemma ec_keeps depth fc a b c s f :
  (∃ M, fs_ok s M) → (∀ fc s, (∃ M, fs_ok s M) → keeps (f fc s)) →
  keeps (let! (fc, s) := ec depth fc a b c s in f fc s).
Proof.
  intros Hs Hf s' H. unfold ec in H.
  assert (keeps (Wb depth (rb (js "/dev") a) (dc b c) (i32 (Z.shiftl fc 8)) (vb (i32 (Z.shiftl fc 8)) SFn s))) as Hw
    by (apply Vb_keeps; auto with keeps).
  destruct (Wb _ _ _ _ _) as [s1| |]; [|done..]. cbn [go_bind] in H. by apply (Hf (fc + 1) s1 (Hw s1 eq_refl)).
Qed.

Lemma boot_dirs_keeps depth : keeps (boot_dirs depth).
Proof.
  unfold boot_dirs. apply keeps_bind; [intros s Hs; eexists; by eapply Ub_root_ok|]. intros s0 H0.
  do 7 (apply keeps_bind; [apply Vb_keeps; auto with keeps|intros ??]).
  apply ec_keeps; [done|]. intros ???. apply ec_keeps; [done|]. intros ???.
  do 4 (apply keeps_bind; [apply Vb_keeps; auto with keeps|intros ??]). by apply Vb_keeps.
Qed.

(** Before the mount there is no node like its root. *)
Lemma boot_dirs_unmounted s : boot_dirs 3 = GoRet s → ∀ i nd, nodes s !! i = Some nd → k nd ≠ OpsFd.
Proof.
  intros Hs. assert (match boot_dirs 3 with
    | GoRet s => forallb (fun p => match k p.2 with OpsFd => false | _ => true end) (map_to_list (nodes s))
    | _ => true end = true) as H by (vm_compute; reflexivity).
  rewrite Hs in H. intros i nd Hi Hk. rewrite forallb_forall in H. specialize (H (i, nd)). simpl in H. rewrite Hk in H.
  discriminate H. apply list_elem_of_In, elem_of_map_to_list, Hi.
Qed.

Lemma boot_keeps : keeps (boot 3).
Proof.
  intros s' H. unfold boot in H. destruct (boot_dirs 3) as [s| |] eqn:E; cbn [go_bind] in H; [|done..].
  destruct (boot_dirs_keeps 3 s E) as [M Hs].
  destruct (Ub_fd_mounts 3 (js "/proc/self/fd") s M s' Hs ltac:(done) eq_refl H) as (i & nd & Hm).
  eexists. exact (mounted_ok s s' i nd M Hs (boot_dirs_unmounted s E) Hm).
Qed.

Lemma FS_init_keeps depth s : (∃ M, fs_ok s M) → keeps (FS_init depth s).
Proof.
  intros Hs. unfold FS_init. do 3 (apply keeps_bind; [apply Xb_keeps; assumption|intros ??]).
  do 3 (apply keeps_bind; [apply open_keeps; [lia|assumption]|intros ??]).
  intros s' [= <-]. auto with keeps.
Qed.

Lemma started_keeps : keeps started.
Proof. unfold started. apply keeps_bind; [exact boot_keeps|]. intros s. apply FS_init_keeps. Qed.

Lemma started_returns : ∃ s, started = GoRet s.
Proof. eexists. vm_compute. reflexivity. Qed.

Lemma started_ok : ∃ s M, started = GoRet s ∧ fs_ok s M.
Proof. destruct started_returns as [s Hs]. destruct (started_keeps s Hs) as [M HM]. exists s, M. exact (conj Hs HM). Qed.

(** ** System calls keep the invariant *)

Definition sys_ok (y : sys) : Prop := ∃ M, fs_ok (y_fs y) M.

Section Calls.
Context (fn_read : Z → Z → go Z (list Z)) (fn_write : Z → list Z → go Z Z).
(** A device function returns a count. *)
Context (fn_write_count : ∀ rd d n, fn_write rd d = GoRet n → 0 <= n).

Lemma set_stream_ok y fd st st' p :
  sys_ok y → N_fd (y_fs y) !! fd = Some st → s_node st' = s_node st → s_position st' = p → 0 <= p →
  sys_ok (set_stream fd st' y).
Proof using.
  intros [M Hs] Hst Hn Hp Hpos. exists M. simpl. destruct (ok_streams _ _ Hs fd st Hst) as (H1 & H2 & _).
  apply open_stream_ok; [done|done|by rewrite Hn|by rewrite Hp].
Qed.

(** A file of the invariant, written: the new contents and the new state. *)
Lemma write_file_ok y i nd d p :
  sys_ok y → nodes (y_fs y) !! i = Some nd → 0 <= p →
  ∃ f, K_write (data nd) d p = GoRet (zlength d, f) ∧ file_ok f ∧
    sys_ok (set_fs (upd i (set_data f) (y_fs y)) y) ∧
    (d ≠ [] → bytes_of f = bytes_pwrite (bytes_of (data nd)) (u8 <$> d) p).
Proof using.
  intros [M Hs] Hi Hp. pose proof (ok_data _ _ _ _ (ok_nodes _ _ Hs i nd Hi)) as Hd.
  assert (∀ f, file_ok f → sys_ok (set_fs (upd i (set_data f) (y_fs y)) y)) as Hupd.
  { intros f Hf. exists M. apply upd_ok; [|done]. intros x. by split_and!. }
  destruct (decide (d = [])) as [->|Hne].
  - exists (data nd). split; [done|]. split; [done|]. split; [by apply Hupd|done].
  - destruct (K_write_refines (data nd) d p Hd Hp Hne) as (f & E & Hf & Hb). exists f. eauto.
Qed.

Lemma K_llseek_nonneg q r size b c p : K_llseek q r size b c = GoRet p → 0 <= p.
Proof using. unfold K_llseek. intros H. by destruct (Z.ltb_spec (if c =? 1 then b + q else if (c =? 2) && r then b + size else b) 0); simplify_eq. Qed.

Lemma ops_llseek_nonneg st nd b c p : ops_llseek st nd b c = GoRet p → 0 <= p.
Proof using.
  unfold ops_llseek. destruct (s_seekable st); [|done]. destruct (s_n st); try done; apply K_llseek_nonneg.
Qed.

Lemma llseek_ok fd b c y p y' : sys_ok y → llseek fd b c y = GoRet (p, y') → sys_ok y'.
Proof using.
  intros Hy H. unfold llseek in H. destruct (N_fd (y_fs y) !! fd) as [st|] eqn:Hst; [|done].
  destruct (get_node _ _) as [nd| |]; cbn [go_bind] in H; [|done..].
  destruct (ops_llseek st nd b c) as [q| |] eqn:E; cbn [go_bind] in H; [|done..]. injection H as <- <-.
  eapply set_stream_ok; [done|done|done|done|]. by eapply ops_llseek_nonneg.
Qed.

Lemma ops_read_fs st nd len y l y' : ops_read fn_read st nd len y = GoRet (l, y') → y_fs y' = y_fs y.
Proof using.
  unfold ops_read. destruct (s_n st); try done.
  - destruct (K_read _ _ _); cbn [go_bind]; [|done..]. by intros [= _ <-].
  - by intros [= _ <-].
  - destruct (y_tb y !! rdev nd) as [t|]; [|done]. destruct (t_err t); [done|].
    destruct (tty_read _ _ _) as [[l' t'] sd]. by intros [= _ <-].
  - destruct (fn_read _ _); cbn [go_bind]; [|done..]. by intros [= _ <-].
Qed.

Lemma read1_ok fd len y l y' : sys_ok y → read1 fn_read fd len y = GoRet (l, y') → sys_ok y'.
Proof using.
  intros Hy H. unfold read1 in H. destruct (N_fd (y_fs y) !! fd) as [st|] eqn:Hst; [|done].
  destruct (len <? 0); [done|]. destruct (_ =? 1); [done|].
  destruct (get_node _ _) as [nd| |]; cbn [go_bind] in H; [|done..]. destruct (L (mode nd)); [done|].
  destruct (ops_read _ _ _ _ _) as [[l' y1]| |] eqn:E; cbn [go_bind] in H; [|done..]. injection H as <- <-.
  apply ops_read_fs in E. destruct Hy as [M Hs].
  destruct (ok_streams _ _ Hs fd st Hst) as (_ & _ & Hp). pose proof (zlength_nonneg l').
  assert (sys_ok y1) as Hy1 by (exists M; by rewrite E).
  eapply (set_stream_ok y1); [done|by rewrite E|done|done|]. simpl. lia.
Qed.

Lemma ops_write_ok st nd d y n y' :
  sys_ok y → nodes (y_fs y) !! s_node st = Some nd → 0 <= s_position st →
  ops_write fn_write st nd d y = GoRet (n, y') →
  sys_ok y' ∧ N_fd (y_fs y') = N_fd (y_fs y) ∧ 0 <= n.
Proof using fn_write_count.
  intros Hy Hi Hp. pose proof (zlength_nonneg d). unfold ops_write. destruct (s_n st); try done.
  - destruct (write_file_ok y _ nd d (s_position st) Hy Hi Hp) as (f & -> & _ & Hok & _). cbn [go_bind].
    by intros [= <- <-].
  - by intros [= <- <-].
  - destruct (y_tb y !! rdev nd) as [t|]; [|done]. destruct (tty_write _ _) as [t' out]. intros [= <- <-].
    split; [|done]. destruct Hy as [M HM]. by exists M.
  - destruct (fn_write _ _) as [m| |] eqn:E; cbn [go_bind]; [|done..]. intros [= <- <-].
    split_and!; [done|done|]. by eapply fn_write_count.
Qed.

Lemma write1_ok fd d y n y' : sys_ok y → write1 fn_write fd d y = GoRet (n, y') → sys_ok y'.
Proof using fn_write_count.
  intros Hy H. unfold write1 in H. destruct (N_fd (y_fs y) !! fd) as [st|] eqn:Hst; [|done].
  destruct (_ =? 0); [done|].
  assert (∃ nd, nodes (y_fs y) !! s_node st = Some nd) as [nd Hi].
  { destruct Hy as [M Hs]. by destruct (ok_streams _ _ Hs fd st Hst) as (_ & [nd ?] & _); eauto. }
  unfold get_node in H. rewrite Hi in H. cbn [go_bind] in H.
  destruct (L (mode nd)); [done|].
  set (pos := if flag (s_flags st) 1024 then _ else _) in H.
  assert (∀ p, pos = GoRet p → 0 <= p) as Hpos.
  { intros p. unfold pos. destruct (flag _ _); [apply ops_llseek_nonneg|]. intros [= <-].
    destruct Hy as [M Hs]. by destruct (ok_streams _ _ Hs fd st Hst) as (_ & _ & ?). }
  assert (∃ p y1 n1, pos = GoRet p ∧ ops_write fn_write (set_position p st) nd d y = GoRet (n1, y1) ∧
    y' = set_stream fd (set_position (p + n1) (set_position p st)) y1) as (p & y1 & n1 & -> & E & ->).
  { destruct (s_n st); try done; destruct pos as [p| |]; cbn [go_bind] in H; try done;
      destruct (ops_write _ _ _ _ _) as [[n1 y1]| |] eqn:E; cbn [go_bind] in H; try done;
      injection H as <- <-; by exists p, y1, n1. }
  destruct (ops_write_ok (set_position p st) nd d y n1 y1 Hy Hi (Hpos p eq_refl) E) as (Hy1 & HN & Hn).
  eapply (set_stream_ok y1 fd st); [done|by rewrite HN|done|done|]. specialize (Hpos p eq_refl). simpl. lia.
Qed.
End Calls.
