(* ===== verification/VizTtyFacts.v ===== *)
(** * Terminals print lines

    The bytes of a text, written to a terminal in any pieces, come out as its
    lines.  The memory of the object code holds signed bytes, so the buffers do
    too. *)

From Stdlib Require Import ZArith Lia.
From stdpp Require Import base list gmap strings.
From S2P Require Import Prelude VizRuntime VizFacts VizFile VizFS VizStream.

Open Scope Z_scope.

(** A byte as [Int8Array] holds it. *)
Definition i8 (x : Z) : Z := if x <? 128 then x else x - 256.

(** The bytes of a text in the memory of the object code. *)
Definition utf8 (s : jsstr) : list Z := i8 <$> utf8_bytes (chars (length s) s).

(** ** Decoding signed bytes *)

Lemma land_i8 x m : 0 <= m < 256 → Z.land (i8 x) m = Z.land x m.
Proof.
  intros Hm. assert (∀ a, Z.land a m = Z.land (a mod 256) m) as H.
  { intros a. change 256 with (2 ^ 8). rewrite <- Z.land_ones, <- Z.land_assoc by lia. f_equal.
    rewrite Z.land_comm, Z.land_ones by lia. symmetry. apply Z.mod_small. lia. }
  rewrite H, (H x). f_equal. unfold i8. destruct (x <? 128); [done|].
  replace (x - 256) with (x + (-1) * 256) by lia. apply Z.mod_add. lia.
Qed.

Lemma at0_i8 l m : 0 <= m < 256 → Z.land (at0 (i8 <$> l)) m = Z.land (at0 l) m.
Proof. intros. destruct l as [|x l]; [done|]. by apply land_i8. Qed.

Lemma tail_i8 l : tail (i8 <$> l) = i8 <$> tail l.
Proof. by destruct l. Qed.

Lemma Ca_multi_i8 c a :
  Ca_multi (i8 c) (i8 <$> a) = ((Ca_multi c a).1, i8 <$> (Ca_multi c a).2).
Proof.
  unfold Ca_multi. rewrite !tail_i8, !at0_i8, !land_i8 by lia.
  destruct (Z.land c 224 =? 192); [done|]. destruct (Z.land c 240 =? 224).
  { cbn zeta match. by destruct (_ <? 65536). }
  destruct (Z.land c 248 =? 240).
  { cbn zeta match. by destruct (_ <? 65536). }
  destruct (Z.land c 252 =? 248); cbn zeta match; by destruct (_ <? 65536).
Qed.

Lemma Ca_loop_i8 m l : Forall (fun x => 0 <= x < 256) l → Ca_loop m (i8 <$> l) = Ca_loop m l.
Proof.
  revert l. induction m as [|m IH]; intros l Hl; [done|]. destruct l as [|c l]; [done|].
  inversion_clear Hl as [|?? Hc Hl']. rewrite fmap_cons. cbn [Ca_loop]. rewrite land_i8 by lia.
  assert ((i8 c =? 0) = (c =? 0)) as ->.
  { unfold i8. destruct (Z.ltb_spec c 128); [done|]. destruct (Z.eqb_spec (c - 256) 0), (Z.eqb_spec c 0); lia. }
  destruct (c =? 0); [done|]. destruct (Z.land c 128 =? 0) eqn:E.
  - rewrite (IH l) by done. f_equal. unfold i8. destruct (Z.ltb_spec c 128); [done|].
    exfalso. apply Z.eqb_eq in E.
    assert (forallb (fun k => negb (Z.land (Z.of_nat k) 128 =? 0)) (seq 128 128) = true) as Hall by (vm_compute; reflexivity).
    rewrite forallb_forall in Hall. specialize (Hall (Z.to_nat c) ltac:(apply List.in_seq; lia)).
    rewrite Z2Nat.id, E in Hall by lia. done.
  - rewrite Ca_multi_i8. destruct (Ca_multi c l) as [u rest] eqn:Em. cbn [fst snd]. f_equal. apply IH.
    assert (∀ P, Forall P l → Forall P rest) as Hrest; [|by apply Hrest].
    intros P HP. assert (∀ k : list Z, Forall P k → Forall P (tail k)) as Ht by (by intros ? []).
    unfold Ca_multi in Em. repeat case_match; simplify_eq; auto 8.
Qed.

(** The zero at the end of an array makes no difference. *)
Definition zero_ended (l l' : list Z) : Prop := l' = l ++ [0] ∨ (l = [] ∧ l' = []).

Lemma zero_at0 l l' : zero_ended l l' → at0 l' = at0 l ∧ zero_ended (tail l) (tail l').
Proof.
  intros [->|[-> ->]]; [|by split; [|right]]. destruct l as [|x l]; [by split; [|right]|]. by split; [|left].
Qed.

Lemma Ca_multi_zero c l l' :
  zero_ended l l' → (Ca_multi c l').1 = (Ca_multi c l).1 ∧ zero_ended (Ca_multi c l).2 (Ca_multi c l').2.
Proof.
  intros H0. destruct (zero_at0 _ _ H0) as [E0 H1]. destruct (zero_at0 _ _ H1) as [E1 H2].
  destruct (zero_at0 _ _ H2) as [E2 H3]. destruct (zero_at0 _ _ H3) as [E3 H4].
  destruct (zero_at0 _ _ H4) as [E4 H5]. unfold Ca_multi. rewrite E0, E1, E2, E3, E4.
  destruct (Z.land c 224 =? 192); [done|]. destruct (Z.land c 240 =? 224).
  { cbn zeta match. by destruct (_ <? 65536). }
  destruct (Z.land c 248 =? 240).
  { cbn zeta match. by destruct (_ <? 65536). }
  destruct (Z.land c 252 =? 248); cbn zeta match; by destruct (_ <? 65536).
Qed.

Lemma Ca_rest_shorter c l : (length (Ca_multi c l).2 <= length l)%nat.
Proof.
  assert (∀ k : list Z, length (tail k) <= length k)%nat as Ht by (intros []; simpl; lia).
  pose proof (Ht l). pose proof (Ht (tail l)). pose proof (Ht (tail (tail l))).
  pose proof (Ht (tail (tail (tail l)))). pose proof (Ht (tail (tail (tail (tail l))))).
  unfold Ca_multi. repeat case_match; simplify_eq; simpl; lia.
Qed.

Lemma Ca_loop_zero m m' l l' :
  zero_ended l l' → (length l' <= m)%nat → (length l <= m')%nat → Ca_loop m l' = Ca_loop m' l.
Proof.
  revert m' l l'. induction m as [|m IH]; intros m' l l' Hz Hm Hm'.
  { destruct Hz as [->|[-> ->]]; [rewrite length_app in Hm; simpl in Hm; lia|]. by destruct m'. }
  destruct l as [|c l].
  { destruct Hz as [->|[_ ->]]; by destruct m'. }
  destruct m' as [|m']; [simpl in Hm'; lia|]. destruct Hz as [->|[? _]]; [|done].
  rewrite length_app in Hm. simpl in Hm, Hm'. cbn [app Ca_loop]. destruct (c =? 0); [done|].
  destruct (Z.land c 128 =? 0).
  - f_equal. apply IH; [by left|rewrite length_app; simpl; lia|lia].
  - destruct (Ca_multi_zero c l (l ++ [0]) ltac:(by left)) as [Eu Hr].
    pose proof (Ca_rest_shorter c l). pose proof (Ca_rest_shorter c (l ++ [0])) as Hs. rewrite length_app in Hs. simpl in Hs.
    destruct (Ca_multi c (l ++ [0])) as [u' r'], (Ca_multi c l) as [u r]. simpl in *. subst u'.
    f_equal. apply IH; [done|lia|lia].
Qed.

(** ** The bytes of a text *)

Lemma lor_byte b n x :
  0 <= x < Z.of_nat n → forallb (fun k => (128 <=? Z.lor b (Z.of_nat k)) && (Z.lor b (Z.of_nat k) <? 256)) (seq 0 n) = true →
  128 <= Z.lor b x < 256.
Proof.
  intros Hx Hall. pose proof (below_check n (fun x => (128 <=? Z.lor b x) && (Z.lor b x <? 256)) Hall x Hx) as H.
  simpl in H. lia.
Qed.

(** A character is one byte below 128, or bytes from 128 on. *)
Lemma char_bytes_range h :
  0 < h < 1114112 → char_bytes h = [h] ∧ h <= 127 ∨ Forall (fun x => 128 <= x < 256) (char_bytes h).
Proof.
  intros Hh. assert (∀ q, 128 <= Z.lor 128 (Z.land q 63) < 256) as Hlow.
  { intros q. rewrite low6. apply (lor_byte 128 64); [|vm_compute; reflexivity].
    pose proof (Z.mod_pos_bound q 64 ltac:(lia)). lia. }
  assert (∀ n q b, 0 <= q → h < 2 ^ q * Z.of_nat n →
    forallb (fun k => (128 <=? Z.lor b (Z.of_nat k)) && (Z.lor b (Z.of_nat k) <? 256)) (seq 0 n) = true →
    128 <= Z.lor b (Z.shiftr h q) < 256) as Hlead.
  { intros n q b Hq Hlt Hall. apply (lor_byte b n); [|done]. rewrite shiftr_div by done. split.
    - apply Z.div_pos; [lia|]. by apply Z.pow_pos_nonneg.
    - apply Z.div_lt_upper_bound; [by apply Z.pow_pos_nonneg|done]. }
  unfold char_bytes. destruct (Z.leb_spec h 127); [by left|]. right.
  destruct (Z.leb_spec h 2047).
  { repeat constructor; try apply Hlow; apply (Hlead 32%nat 6 192); (lia || (vm_compute; reflexivity)). }
  destruct (Z.leb_spec h 65535).
  { repeat constructor; try apply Hlow; apply (Hlead 16%nat 12 224); (lia || (vm_compute; reflexivity)). }
  destruct (Z.leb_spec h 2097151); [|lia].
  repeat constructor; try apply Hlow; apply (Hlead 8%nat 18 240); (lia || (vm_compute; reflexivity)).
Qed.

(** Bytes of a text that is well formed: none is zero, and a newline only for a
    newline. *)
Lemma text_bytes fuel s :
  wf16 s = true → Forall (fun x => 0 < x < 256 ∧ (x = 10 → 10 ∈ s)) (utf8_bytes (chars fuel s)).
Proof.
  revert s. induction fuel as [|fuel IH]; intros s Hs; [constructor|]. destruct s as [|f s]; [constructor|].
  destruct (next_char_wf (f :: s) Hs ltac:(done)) as (h & s' & E & Hh & Hu & Hwf & _).
  cbn [chars]. rewrite E. unfold utf8_bytes. cbn [fmap list_fmap concat]. apply Forall_app. split.
  - destruct (char_bytes_range h Hh) as [[-> Hlt]|HF].
    + apply Forall_singleton. split; [lia|]. intros ->. rewrite <- Hu. apply elem_of_app. left. by left.
    + eapply Forall_impl; [exact HF|]. intros x Hx. simpl in Hx. split; [lia|]. intros ->. lia.
  - eapply Forall_impl; [apply (IH s' Hwf)|]. intros x [Hx Hn]. split; [done|]. intros Hx10.
    rewrite <- Hu. apply elem_of_app. right. auto.
Qed.

Lemma Ca_utf8 s : wf16 s = true → Ca (utf8 s) = s.
Proof.
  intros Hs. unfold utf8, Ca. rewrite length_fmap, Ca_loop_i8.
  - set (bs := utf8_bytes (chars (length s) s)). rewrite <- (Ca_loop_zero (S (length bs)) _ bs (bs ++ [0])); [|by left| |done].
    + apply Ca_chars; [done|lia|]. fold bs. lia.
    + rewrite length_app. simpl. lia.
  - eapply Forall_impl; [by apply (text_bytes (length s) s)|]. intros x [Hx _]. lia.
Qed.

(** ** Lines *)

Lemma tty_write_plain d t out :
  Forall (fun x => x ≠ 10 ∧ x ≠ 0) d →
  tty_write d (t, out) = (mkTty (t_input t) (t_output t ++ d) (t_err t), out).
Proof.
  intros H. revert t. induction H as [|x d [H1 H2] _ IH]; intros t.
  { unfold tty_write. simpl. rewrite app_nil_r. by destruct t. }
  change (tty_write (x :: d) (t, out)) with (tty_write d (tty_put x (t, out))). unfold tty_put.
  destruct (Z.eqb_spec x 10); [done|]. destruct (Z.eqb_spec x 0); [done|]. rewrite IH. simpl.
  by rewrite <- app_assoc.
Qed.

Lemma tty_write_app d1 d2 st : tty_write (d1 ++ d2) st = tty_write d2 (tty_write d1 st).
Proof. apply foldl_app. Qed.

(** The bytes of a text of lines. *)
Definition lines_bytes (ls : list jsstr) : list Z := concat ((fun l => utf8 l ++ [10]) <$> ls).

Lemma tty_lines ls t out :
  Forall (fun l => wf16 l = true ∧ 10 ∉ l) ls → t_output t = [] →
  tty_write (lines_bytes ls) (t, out) = (t, out ++ ((fun l => (t_err t, l)) <$> ls)).
Proof.
  intros H. revert out. induction H as [|l ls [Hwf Hnl] _ IH]; intros out Ht.
  { unfold tty_write. simpl. by rewrite app_nil_r. }
  unfold lines_bytes. cbn [fmap list_fmap concat]. rewrite <- app_assoc, !tty_write_app.
  rewrite tty_write_plain.
  - rewrite Ht, app_nil_l. change (tty_write [10] (mkTty (t_input t) (utf8 l) (t_err t), out)) with
      (mkTty (t_input t) [] (t_err t), out ++ [(t_err t, Ca (utf8 l))]).
    rewrite Ca_utf8 by done.
    assert (mkTty (t_input t) [] (t_err t) = t) as -> by (destruct t; simpl in *; by subst).
    fold (lines_bytes ls). rewrite IH by done. rewrite <- app_assoc. done.
  - apply Forall_fmap. eapply Forall_impl; [by apply (text_bytes (length l) l)|]. intros x [Hx Hn]. simpl.
    unfold i8. destruct (Z.ltb_spec x 128).
    + split; [|lia]. intros ->. auto.
    + lia.
Qed.

(** ** Terminal streams *)

(** Descriptor [fd] writes to the terminal of device [rd], which is [t]. *)
Record at_tty (y : sys) (fd rd : Z) (t : tty) : Prop := {
  at_stream : ∃ st nd, N_fd (y_fs y) !! fd = Some st ∧ nodes (y_fs y) !! s_node st = Some nd ∧
    s_n st = STty ∧ Z.land (s_flags st) 2097155 ≠ 0 ∧ flag (s_flags st) 1024 = false ∧
    L (mode nd) = false ∧ rdev nd = rd;
  at_tb : y_tb y !! rd = Some t
}.

Section Tty.
Context (fn_write : Z → list Z → go Z Z).

Lemma write1_tty y fd rd t d :
  at_tty y fd rd t →
  ∃ y', write1 fn_write fd d y = GoRet (zlength d, y') ∧
    at_tty y' fd rd (tty_write d (t, y_printed y)).1 ∧ y_printed y' = (tty_write d (t, y_printed y)).2.
Proof using.
  intros [(st & nd & Hst & Hnd & Hn & Hw & Ha & HL & <-) Ht]. unfold write1, get_node. rewrite Hst, Hnd. cbn [go_bind].
  destruct (Z.eqb_spec (Z.land (s_flags st) 2097155) 0); [done|]. rewrite HL, Hn, Ha. cbn [go_bind]. unfold ops_write.
  simpl s_n. rewrite Hn, Ht. destruct (tty_write d (t, y_printed y)) as [t' out]. cbn [go_bind].
  eexists. split; [done|]. split; [|done]. split; [|apply lookup_insert_eq].
  eexists _, nd. simpl. rewrite lookup_insert_eq. split; [done|]. by split_and!.
Qed.

(** A [writev] to a terminal is one write of the concatenation. *)
Lemma writev_tty y fd rd t bufs total :
  at_tty y fd rd t →
  ∃ y', writev_loop fn_write fd bufs total y = (GoRet (total + zlength (concat bufs)), y') ∧
    at_tty y' fd rd (tty_write (concat bufs) (t, y_printed y)).1 ∧
    y_printed y' = (tty_write (concat bufs) (t, y_printed y)).2.
Proof using.
  revert y t total. induction bufs as [|d bufs IH]; intros y t total Hat.
  { exists y. rewrite Z.add_0_r. by split_and!. }
  destruct (write1_tty y fd rd t d Hat) as (y1 & E & H1 & Hp). cbn [writev_loop concat]. rewrite E.
  destruct (IH y1 _ (total + zlength d) H1) as (y2 & E2 & H2 & Hp2). exists y2.
  rewrite E2, tty_write_app, zlength_app. rewrite Hp, <- surjective_pairing in H2, Hp2.
  split_and!; [do 2 f_equal; lia|done|done].
Qed.
End Tty.

(** The standard output and error of a started runtime. *)
Definition writes_to_tty (y : sys) (fd rd : Z) (err : bool) : bool :=
  match N_fd (y_fs y) !! fd with
  | Some st =>
      match nodes (y_fs y) !! s_node st, y_tb y !! rd with
      | Some nd, Some t =>
          match s_n st with STty => true | _ => false end &&
          negb (Z.land (s_flags st) 2097155 =? 0) && negb (flag (s_flags st) 1024) &&
          negb (L (mode nd)) && (rdev nd =? rd) && bool_decide (t_output t = []) && Bool.eqb (t_err t) err
      | _, _ => false
      end
  | None => false
  end.

Lemma writes_to_tty_at y fd rd err :
  writes_to_tty y fd rd err = true → ∃ t, at_tty y fd rd t ∧ t_output t = [] ∧ t_err t = err.
Proof.
  unfold writes_to_tty. destruct (N_fd (y_fs y) !! fd) as [st|] eqn:Hst; [|done].
  destruct (nodes (y_fs y) !! s_node st) as [nd|] eqn:Hnd; [|done]. destruct (y_tb y !! rd) as [t|] eqn:Ht; [|done].
  rewrite !andb_true_iff, !negb_true_iff, bool_decide_eq_true, Z.eqb_eq, Z.eqb_neq, Bool.eqb_true_iff.
  intros ((((((Hn & Hw) & Ha) & HL) & Hr) & Ho) & He). exists t. split; [|done]. split; [|done].
  exists st, nd. split_and!; try done. by destruct (s_n st).
Qed.

Lemma start_writes stdin y :
  start stdin = GoRet y → writes_to_tty y 1 1280 false = true ∧ writes_to_tty y 2 1536 true = true ∧ y_printed y = [].
Proof.
  assert (match started with
          | GoRet s => writes_to_tty (mkSys s ttys0 [] []) 1 1280 false && writes_to_tty (mkSys s ttys0 [] []) 2 1536 true
          | _ => false
          end = true) as H by (vm_compute; reflexivity).
  unfold start. destruct started as [s| |]; [|discriminate H..]. cbn [go_bind]. intros E. injection E as <-.
  apply andb_true_iff in H as [H1 H2]. exact (conj H1 (conj H2 eq_refl)).
Qed.
