(* ===== verification/VizSysFacts.v ===== *)
(** * Sequences of system calls

    The states the viewer's runtime reaches by any sequence of system calls,
    with the invariant they all satisfy; reading and writing of several buffers
    as one transfer of bytes; a file written and read back by its path. *)

From Stdlib Require Import ZArith Lia.
From stdpp Require Import base list gmap strings.
From S2P Require Import Prelude VizRuntime VizFacts VizFile VizFS VizFSFacts VizFSInv VizFSPaths VizStream VizStreamFacts.

Open Scope Z_scope.

(** ** Calls and reachable states *)

Inductive call : Type :=
| Open (path : jsstr) (flags mode : Z)
| Unlink (path : jsstr)
| Write (fd : Z) (bufs : list (list Z))
| Read (fd : Z) (lens : list Z)
| Seek (fd high off whence : Z)
| Close (fd : Z)
| Access (path : jsstr) (perms : Z)
| Ioctl (fd req : Z)
| Fcntl (fd cmd arg : Z).

Section Calls.
Context (fn_read : Z → Z → go Z (list Z)) (fn_write : Z → list Z → go Z Z).
Context (depth : nat).

(** What a call returns, without the bytes read, and the state it leaves. *)
Definition run_call (c : call) (y : sys) : go Z Z * sys :=
  match c with
  | Open path flags mode => syscall5 depth path flags mode y
  | Unlink path => syscall10 depth path y
  | Write fd bufs => syscall146 fn_write fd bufs y
  | Read fd lens =>
      let '(r, y) := syscall145 fn_read fd lens y in
      (let! (n, _) := r in GoRet n, y)
  | Seek fd high off whence => syscall140 fd high off whence y
  | Close fd => syscall6 fd y
  | Access path f => (syscall33 depth path f y, y)
  | Ioctl fd req => (syscall54 fd req y, y)
  | Fcntl fd cmd d => syscall221 depth fd cmd d y
  end.

(** The states after any calls on a freshly started runtime. *)
Inductive reachable (stdin : list input) : sys → Prop :=
| reach_start y : start stdin = GoRet y → reachable stdin y
| reach_call y c : reachable stdin y → reachable stdin (run_call c y).2.

(** *** The invariant *)

Context (fn_write_count : ∀ rd d n, fn_write rd d = GoRet n → 0 <= n).

Lemma writev_loop_ok fd bufs total y : sys_ok y → sys_ok (writev_loop fn_write fd bufs total y).2.
Proof using fn_write_count.
  revert total y. induction bufs as [|d bufs IH]; intros total y Hy; [done|]. simpl.
  destruct (write1 fn_write fd d y) as [[n y']| |] eqn:E; [|done..]. by eapply IH, write1_ok.
Qed.

Lemma readv_loop_ok fd lens acc y : sys_ok y → sys_ok (readv_loop fn_read fd lens acc y).2.
Proof using.
  revert acc y. induction lens as [|n lens IH]; intros acc y Hy; [done|]. simpl.
  destruct (read1 fn_read fd n y) as [[l y']| |] eqn:E; [|done..].
  pose proof (read1_ok fn_read fd n y l y' Hy E). destruct (_ <? n); [done|]. by apply IH.
Qed.

Lemma open_ok path flags mode fd y :
  sys_ok y → 0 <= fd → sys_ok (set_fs (Yb depth path flags mode fd (y_fs y)).2 y).
Proof using.
  intros [M Hs] Hfd. destruct (Yb depth path flags mode fd (y_fs y)) as [r s'] eqn:E.
  destruct (Yb_ok depth path flags mode fd (y_fs y) M r s' Hs Hfd E) as (M' & Hok & _). by exists M'.
Qed.

Lemma stream_close_fs st y : y_fs (stream_close st y) = y_fs y.
Proof using. unfold stream_close, tty_flush. by repeat case_match; simplify_eq. Qed.

Lemma run_call_ok c y : sys_ok y → sys_ok (run_call c y).2.
Proof using fn_write_count.
  intros Hy. destruct c as [path flags mode|path|fd bufs|fd lens|fd high off whence|fd|path f|fd req|fd cmd d]; simpl; [..|done|done|].
  - pose proof (open_ok path flags (Some mode) 0 y Hy ltac:(lia)) as H. unfold syscall5. by destruct (Yb _ _ _ _ _ _).
  - unfold syscall10. destruct (unlink depth path (y_fs y)) as [s'| |] eqn:E; [|done..]. destruct Hy as [M Hs].
    destruct (unlink_ok _ _ _ M _ Hs E) as (? & p & ? & g & _ & _ & _ & _ & _ & Hok & _). by eexists.
  - unfold syscall146. destruct (N_fd _ !! fd); [|done]. pose proof (writev_loop_ok fd bufs 0 y Hy) as H.
    by destruct (writev_loop _ _ _ _ _).
  - unfold syscall145. destruct (N_fd _ !! fd); [|done]. pose proof (readv_loop_ok fd lens [] y Hy) as H.
    by destruct (readv_loop _ _ _ _ _).
  - unfold syscall140. destruct (N_fd _ !! fd); [|done]. destruct (negb _); [done|].
    destruct (llseek fd off whence y) as [[p y']| |] eqn:E; [|done..]. by eapply llseek_ok.
  - unfold syscall6. destruct (N_fd (y_fs y) !! fd) as [st|]; [|done].
    destruct Hy as [M Hs]. exists M. simpl. rewrite stream_close_fs. by apply close_ok.
  - unfold syscall221. destruct (N_fd (y_fs y) !! fd) as [st|] eqn:Hst; [|done].
    destruct (cmd =? 0).
    { destruct (Z.ltb_spec d 0); [done|]. pose proof (open_ok (s_path st) (s_flags st) (Some 0) d y Hy ltac:(lia)) as H0.
      by destruct (Yb _ _ _ _ _ _). }
    destruct (_ || _); [done|]. destruct (_ =? 3); [done|]. destruct (_ =? 4).
    { destruct Hy as [M Hs]. destruct (ok_streams _ _ Hs fd st Hst) as (_ & _ & Hp).
      eapply (set_stream_ok y fd st); [by exists M|done|done|done|done]. }
    by repeat case_match.
Qed.

Lemma start_ok stdin y : start stdin = GoRet y → sys_ok y.
Proof using.
  destruct started_ok as (s & M & Es & Hs). unfold start. rewrite Es. cbn [go_bind]. intros [= <-]. by exists M.
Qed.

Lemma reachable_ok stdin y : reachable stdin y → sys_ok y.
Proof using fn_write_count. induction 1; [by eapply start_ok|by apply run_call_ok]. Qed.
End Calls.

(** *** No exception escapes *)

Section NoPanic.
Context (fn_read : Z → Z → go Z (list Z)) (fn_write : Z → list Z → go Z Z).
Context (fn_write_count : ∀ rd d n, fn_write rd d = GoRet n → 0 <= n).
(** The devices of [ec] turn every exception into an error number. *)
Context (fn_read_safe : ∀ rd n p, fn_read rd n ≠ GoPanic p).
Context (fn_write_safe : ∀ rd d p, fn_write rd d ≠ GoPanic p).

(** The node of an open stream is there. *)
Lemma stream_node y fd st :
  sys_ok y → N_fd (y_fs y) !! fd = Some st → ∃ nd, get_node (s_node st) (y_fs y) = GoRet nd ∧
    nodes (y_fs y) !! s_node st = Some nd ∧ file_ok (data nd) ∧ 0 <= s_position st.
Proof using.
  intros [M Hs] Hst. destruct (ok_streams _ _ Hs fd st Hst) as (_ & [nd Hn] & Hp). exists nd. unfold get_node.
  rewrite Hn. split_and!; try done. apply (ok_data _ _ _ _ (ok_nodes _ _ Hs _ nd Hn)).
Qed.

Lemma read1_safe fd n y p : sys_ok y → read1 fn_read fd n y ≠ GoPanic p.
Proof using fn_read_safe.
  intros Hy. unfold read1. destruct (N_fd (y_fs y) !! fd) as [st|] eqn:Hst; [|done].
  destruct (Z.ltb_spec n 0); [done|]. destruct (_ =? 1); [done|].
  destruct (stream_node y fd st Hy Hst) as (nd & -> & Hn & Hd & Hp). cbn [go_bind]. destruct (L (mode nd)); [done|].
  assert (∀ q, ops_read fn_read st nd n y ≠ GoPanic q) as Hsafe.
  { intros q. unfold ops_read. destruct (s_n st); try done.
    - destruct (K_read_refines (data nd) n (s_position st) Hd Hp) as (l & -> & _); done.
    - destruct (y_tb y !! rdev nd) as [t|]; [|done]. destruct (t_err t); [done|]. by destruct (tty_read _ _ _) as [[??]?].
    - destruct (fn_read (rdev nd) n) eqn:E; cbn [go_bind]; try done. by destruct (fn_read_safe _ _ _ E). }
  destruct (ops_read fn_read st nd n y) as [[l y']| |q]; [done..|]. by destruct (Hsafe q).
Qed.

Lemma ops_llseek_safe st nd b c p : ops_llseek st nd b c ≠ GoPanic p.
Proof using. unfold ops_llseek, K_llseek. by repeat case_match. Qed.

Lemma write1_safe fd d y p : sys_ok y → write1 fn_write fd d y ≠ GoPanic p.
Proof using fn_write_safe.
  intros Hy. unfold write1. destruct (N_fd (y_fs y) !! fd) as [st|] eqn:Hst; [|done].
  destruct (_ =? 0); [done|].
  destruct (stream_node y fd st Hy Hst) as (nd & -> & Hn & Hd & Hp). cbn [go_bind]. destruct (L (mode nd)); [done|].
  set (pos := if flag (s_flags st) 1024 then _ else _).
  assert (∀ q, pos = GoRet q → 0 <= q) as Hpos.
  { intros q. unfold pos. destruct (flag _ _); [apply ops_llseek_nonneg|]. by intros [= <-]. }
  assert (∀ q, pos ≠ GoPanic q) as Hps.
  { intros q. unfold pos. destruct (flag _ _); [apply ops_llseek_safe|done]. }
  assert (∀ q x, 0 <= q → ops_write fn_write (set_position q st) nd d y ≠ GoPanic x) as Hsafe.
  { intros q x Hq. unfold ops_write. simpl. destruct (s_n st); try done.
    - destruct (write_file_ok y (s_node st) nd d q Hy Hn Hq) as (f & -> & _); done.
    - destruct (y_tb y !! rdev nd) as [t|]; [|done]. by destruct (tty_write _ _).
    - destruct (fn_write (rdev nd) d) eqn:E; cbn [go_bind]; try done. by destruct (fn_write_safe _ _ _ E). }
  destruct (s_n st); try done;
    (destruct pos as [q| |q]; cbn [go_bind]; [|done|by destruct (Hps q)]);
    (pose proof (Hsafe q) as Hq; specialize (fun x => Hq x (Hpos q eq_refl)) as Hq');
    (destruct (ops_write fn_write _ nd d y) as [[n y']| |x]; [done..|by destruct (Hq' x)]).
Qed.

Lemma writev_loop_safe fd bufs total y p : sys_ok y → (writev_loop fn_write fd bufs total y).1 ≠ GoPanic p.
Proof using fn_write_count fn_write_safe.
  revert total y. induction bufs as [|d bufs IH]; intros total y Hy; [done|]. simpl.
  destruct (write1 fn_write fd d y) as [[n y']| |q] eqn:E; [|done|by destruct (write1_safe fd d y q Hy)].
  by eapply IH, write1_ok.
Qed.

Lemma readv_loop_safe fd lens acc y p : sys_ok y → (readv_loop fn_read fd lens acc y).1 ≠ GoPanic p.
Proof using fn_read_safe.
  revert acc y. induction lens as [|n lens IH]; intros acc y Hy; [done|]. simpl.
  destruct (read1 fn_read fd n y) as [[l y']| |q] eqn:E; [|done|by destruct (read1_safe fd n y q Hy)].
  pose proof (read1_ok fn_read fd n y l y' Hy E). destruct (_ <? n); [done|]. by apply IH.
Qed.

(** The calls on a descriptor, and the one of them that aborts: seeking an open
    descriptor by an offset whose high word is not 0. *)
Definition on_descriptor (c : call) : bool :=
  match c with Write _ _ | Read _ _ | Seek _ _ _ _ | Close _ => true | _ => false end.

Definition far_seek (c : call) (y : sys) : bool :=
  match c with Seek fd high _ _ => bool_decide (is_Some (N_fd (y_fs y) !! fd)) && negb (high =? 0) | _ => false end.

Lemma run_call_safe depth c y :
  sys_ok y → on_descriptor c = true →
  if far_seek c y then run_call fn_read fn_write depth c y = (GoPanic PAssert, y)
  else ∃ n, (run_call fn_read fn_write depth c y).1 = GoRet n.
Proof using All.
  intros Hy Hc. destruct c as [| |fd bufs|fd lens|fd high off whence|fd| | |]; try done; simpl.
  - unfold syscall146. destruct (N_fd _ !! fd); [|by eexists]. pose proof (writev_loop_safe fd bufs 0 y) as H.
    destruct (writev_loop _ _ _ _ _) as [r y']. destruct r as [| |p]; [by eexists..|]. by destruct (H p Hy).
  - unfold syscall145. destruct (N_fd _ !! fd); [|by eexists]. pose proof (readv_loop_safe fd lens [] y) as H.
    destruct (readv_loop _ _ _ _ _) as [r y']. destruct r as [| |p]; [by eexists..|]. by destruct (H p Hy).
  - unfold syscall140, llseek. destruct (N_fd (y_fs y) !! fd) as [st|] eqn:Hst; [|by eexists].
    rewrite bool_decide_true by done. destruct (high =? 0); cbn [negb andb]; [|done].
    destruct (stream_node y fd st Hy Hst) as (nd & -> & _). cbn [go_bind].
    pose proof (ops_llseek_safe st nd off whence) as H.
    destruct (ops_llseek st nd off whence) as [q| |p]; [by eexists..|]. by destruct (H p).
  - unfold syscall6. destruct (N_fd _ !! fd); by eexists.
Qed.
End NoPanic.
