(* ===== verification/VizTransfer.v ===== *)
(** * Transfers of bytes through descriptors

    A [writev] or [readv] on a regular file is one transfer of the concatenated
    buffers, and a file written under a path is read back under it. *)

From Stdlib Require Import ZArith Lia.
From stdpp Require Import base list gmap strings.
From S2P Require Import Prelude VizRuntime VizFacts VizFile VizFS VizFSFacts VizFSInv VizFSPaths VizStream VizStreamFacts VizSysFacts.

Open Scope Z_scope.

(** ** Sequences of bytes *)

(** A write byte by byte. *)
Lemma lookup_pwrite l d f (i : nat) :
  0 <= f →
  bytes_pwrite l d f !! i =
    if decide (Z.of_nat i < f) then Some (default 0 (l !! i))
    else if decide (Z.of_nat i < f + zlength d) then d !! (i - Z.to_nat f)%nat
    else l !! i.
Proof.
  intros Hf. unfold bytes_pwrite, overwrite, zeros, zlength. set (n := Z.to_nat (_ - _)).
  assert (length l + n = Nat.max (length l) (Z.to_nat f + length d))%nat as Hn by lia.
  repeat case_decide.
  - rewrite lookup_app_l by (rewrite length_take, length_app, length_replicate; lia).
    rewrite lookup_take_lt by lia. destruct (decide (i < length l)%nat) as [Hi|Hi].
    + rewrite lookup_app_l by done. destruct (lookup_lt_is_Some_2 l i Hi) as [x ->]. done.
    + rewrite lookup_app_r, lookup_replicate_2, lookup_ge_None_2 by lia. done.
  - rewrite lookup_app_r, length_take, length_app, length_replicate by (rewrite length_take; lia).
    rewrite lookup_app_l by lia. f_equal. lia.
  - rewrite lookup_app_r, length_take, length_app, length_replicate by (rewrite length_take; lia).
    rewrite lookup_app_r by lia. rewrite lookup_drop.
    replace (Z.to_nat (f + Z.of_nat (length d)) + _)%nat with i by lia.
    destruct (decide (i < length l)%nat) as [Hi|Hi]; [by rewrite lookup_app_l|].
    rewrite !lookup_ge_None_2; [done|lia|rewrite length_app, length_replicate; lia].
Qed.

(** Two writes one after the other are one. *)
Lemma pwrite_app l d1 d2 f :
  0 <= f → bytes_pwrite (bytes_pwrite l d1 f) d2 (f + zlength d1) = bytes_pwrite l (d1 ++ d2) f.
Proof.
  intros Hf. pose proof (zlength_nonneg d1). apply list_eq. intros i. rewrite !lookup_pwrite, zlength_app by lia.
  unfold zlength in *. repeat case_decide; try lia; try done.
  - rewrite lookup_app_l by lia. by destruct (lookup_lt_is_Some_2 d1 (i - Z.to_nat f)) as [x ->]; [lia|].
  - rewrite lookup_app_r by lia. f_equal. lia.
Qed.

(** Two reads one after the other are one. *)
Lemma pread_app l n1 n2 f :
  0 <= f → 0 <= n1 → 0 <= n2 → bytes_pread l (n1 + n2) f = bytes_pread l n1 f ++ bytes_pread l n2 (f + n1).
Proof.
  intros ???. unfold bytes_pread. rewrite !Z2Nat.inj_add by lia.
  rewrite <- drop_drop, <- take_take_drop. done.
Qed.

Lemma zlength_pread l n f : 0 <= f → 0 <= n → zlength (bytes_pread l n f) = Z.max 0 (Z.min n (zlength l - f)).
Proof. intros ??. unfold bytes_pread. rewrite zlength_take, zlength_drop by done. lia. Qed.

(** A short read is at the end. *)
Lemma pread_short l n m f :
  0 <= f → 0 <= n <= m → zlength (bytes_pread l n f) < n → bytes_pread l m f = bytes_pread l n f.
Proof.
  intros ?? Hs. rewrite zlength_pread in Hs by lia. unfold bytes_pread, zlength in *.
  rewrite !take_ge by (rewrite length_drop; lia). done.
Qed.

(** ** Streams on regular files *)

(** Descriptor [fd], opened with [fl], is at position [p] of the regular file
    [i], which holds the bytes [l]. *)
Record at_file (y : sys) (fd i fl p : Z) (l : list Z) : Prop := {
  af_ok : sys_ok y;
  af_stream : ∃ st, N_fd (y_fs y) !! fd = Some st ∧ s_node st = i ∧ s_flags st = fl ∧ s_position st = p ∧
    s_n st = SFile ∧ s_seekable st = true;
  af_node : ∃ nd, nodes (y_fs y) !! i = Some nd ∧ is_file (mode nd) = true ∧ bytes_of (data nd) = l
}.

(** A step that resolves every path as before and touches no descriptor but [fd]. *)
Record only_fd (fd : Z) (y y' : sys) : Prop := {
  of_paths : extends (y_fs y) (y_fs y');
  of_fd : is_Some (N_fd (y_fs y') !! fd);
  of_others : ∀ x, x ≠ fd → N_fd (y_fs y') !! x = N_fd (y_fs y) !! x
}.

Lemma extends_refl s M : fs_ok s M → extends s s.
Proof.
  intros Hs. split; [done..| | |].
  - intros i x Hx. exists x. by split_and!.
  - eauto.
  - exists M, M. by split_and!; [apply (ok_names _ _ Hs)..| |].
Qed.

Lemma extends_trans s1 s2 s3 : extends s1 s2 → extends s2 s3 → extends s1 s3.
Proof.
  intros [A1 A2 A3 A4 AF (M & M' & A5 & A6 & A7 & A8)] [B1 B2 B3 B4 BF (N & N' & B5 & B6 & B7 & B8)].
  split; [lia|congruence|congruence| | |].
  - intros i x Hx. destruct (A4 i x Hx) as (y & Hy & E1). destruct (B4 i y Hy) as (z & Hz & E2). exists z.
    split; [done|]. naive_solver congruence.
  - intros fd d Hd. destruct (AF fd d Hd) as (d' & Hd' & E1). destruct (BF fd d' Hd') as (d'' & Hd'' & E2).
    exists d''. split; [done|congruence].
  - assert (M' = N) as ->.
    { apply map_eq. intros [a b]. pose proof (names_find s2 M' a b A6) as E1. pose proof (names_find s2 N a b B5) as E2.
      rewrite E1 in E2. by injection E2. }
    exists M, N'. split_and!; [done|done|by etrans|]. intros a x b Hx Hk Hn.
    destruct (A4 a x Hx) as (y & Hy & _ & _ & _ & Hky & _). eapply B8; [exact Hy|congruence|by eapply A8].
Qed.

Lemma upd_data_extends i f s M : fs_ok s M → extends s (upd i (set_data f) s).
Proof.
  intros Hs. split; [done..| | |].
  - intros j x Hx. rewrite lookup_upd, Hx. case_decide; eexists; split; [done| |done|]; by split_and!.
  - eauto.
  - exists M, M. split_and!; [apply (ok_names _ _ Hs)| |done|done].
    rewrite <- (upd_same i (set_data f) s) by done. apply (ok_names _ _ Hs).
Qed.

Lemma streams_extends s M ns gb :
  fs_ok s M → (∀ fd d, N_fd s !! fd = Some d → ∃ d', ns !! fd = Some d' ∧ s_path d' = s_path d) →
  extends s (mkFs (nodes s) (O_tab s) (Hb s) (Eb s) ns gb (Ib s)).
Proof.
  intros Hs Hns. split; [done..| |done|].
  - intros j x Hx. exists x. by split_and!.
  - exists M, M. split_and!; [apply (ok_names _ _ Hs)| |done|done].
    assert (same_table s (mkFs (nodes s) (O_tab s) (Hb s) (Eb s) ns gb (Ib s))) as <- by done. apply (ok_names _ _ Hs).
Qed.

Lemma only_fd_trans fd y1 y2 y3 : only_fd fd y1 y2 → only_fd fd y2 y3 → only_fd fd y1 y3.
Proof.
  intros [A1 A2 A3] [B1 B2 B3]. split; [by eapply extends_trans|done|]. intros x Hx. rewrite B3, A3 by done. done.
Qed.

Lemma only_fd_refl fd i fl p l y : at_file y fd i fl p l → only_fd fd y y.
Proof.
  intros [[M Hs] (st & Hst & _) _]. split; [by eapply extends_refl|by eexists|done].
Qed.

(** What else was known before the descriptor was opened is known after it is closed. *)
Lemma only_fd_close fd y y' : only_fd fd y y' → extends (close fd (y_fs y)) (close fd (y_fs y')).
Proof.
  intros [[E1 E2 E3 E4 _ (M & M' & E5 & E6 & E7)] _ Ho]. split; [done..| | |].
  - intros i x Hx. by apply E4.
  - intros x d. simpl. intros [Hne Hd]%lookup_delete_Some. exists d. by rewrite lookup_delete_ne, Ho.
  - exists M, M'.
    assert (∀ s, same_table s (close fd s)) as Hc by done. rewrite <- !Hc. done.
Qed.

Lemma set_stream_only y fd st0 st y' : sys_ok y → extends (y_fs y') (y_fs y) → N_fd (y_fs y) = N_fd (y_fs y') →
  N_fd (y_fs y) !! fd = Some st0 → s_path st = s_path st0 → only_fd fd y' (set_stream fd st y).
Proof.
  intros [M Hs] He HN Hst0 Hpath. split; simpl.
  - eapply extends_trans; [exact He|]. apply (streams_extends (y_fs y) M _ (Gb (y_fs y)) Hs). intros x d Hd.
    destruct (decide (x = fd)) as [->|Hne]; [rewrite lookup_insert_eq; eexists; split; [done|congruence]|].
    rewrite lookup_insert_ne by done. eauto.
  - rewrite lookup_insert_eq. by eexists.
  - intros x Hx. rewrite lookup_insert_ne by done. by rewrite HN.
Qed.

Lemma regular_not_dir m : is_file m = true → L m = false.
Proof. unfold is_file, L. destruct (Z.eqb_spec (fmt m) 32768) as [->|]; done. Qed.

(** *** Writing *)

(** Where a write goes, and what it makes of the contents. *)
Definition wpos (fl p : Z) (l : list Z) : Z := if flag fl 1024 then zlength l else p.
Definition written (l d : list Z) (q : Z) : list Z :=
  match d with [] => l | _ => bytes_pwrite l (u8 <$> d) q end.

Lemma written_app l d1 d2 q :
  0 <= q → written (written l d1 q) d2 (q + zlength d1) = written l (d1 ++ d2) q.
Proof.
  intros Hq. destruct d1 as [|x d1]; [by rewrite Z.add_0_r|]. destruct d2 as [|x2 d2]; [by rewrite app_nil_r|].
  unfold written at 1 2. rewrite <- (zlength_fmap u8), pwrite_app, <- fmap_app by done. done.
Qed.

Lemma zlength_written_end l d : zlength (written l d (zlength l)) = zlength l + zlength d.
Proof.
  destruct d as [|x d]; [by rewrite Z.add_0_r|]. unfold written, bytes_pwrite. pose proof (zlength_nonneg l).
  pose proof (zlength_nonneg (x :: d)).
  rewrite zlength_overwrite; rewrite ?zlength_app, ?zlength_zeros, ?zlength_fmap; lia.
Qed.

Section Transfer.
Context (fn_read : Z → Z → go Z (list Z)) (fn_write : Z → list Z → go Z Z).

Lemma write1_file y fd i fl p l d :
  at_file y fd i fl p l → Z.land fl 2097155 ≠ 0 →
  ∃ y', write1 fn_write fd d y = GoRet (zlength d, y') ∧
    at_file y' fd i fl (wpos fl p l + zlength d) (written l d (wpos fl p l)) ∧ only_fd fd y y'.
Proof using.
  intros [Hok (st & Hst & <- & <- & <- & Hn & Hsk) (nd & Hnd & Hreg & <-)] Hw.
  unfold write1. rewrite Hst. destruct (Z.eqb_spec (Z.land (s_flags st) 2097155) 0); [done|].
  unfold get_node. rewrite Hnd. cbn [go_bind]. rewrite (regular_not_dir _ Hreg), Hn.
  destruct Hok as [M Hs]. pose proof (ok_data _ _ _ _ (ok_nodes _ _ Hs _ nd Hnd)) as Hd.
  destruct (ok_streams _ _ Hs fd st Hst) as (Hfd & _ & Hp). pose proof (bytes_length _ Hd) as Hlen.
  assert ((if flag (s_flags st) 1024 then ops_llseek st nd 0 2 else GoRet (s_position st)) =
    GoRet (wpos (s_flags st) (s_position st) (bytes_of (data nd)))) as ->.
  { unfold wpos, ops_llseek, K_llseek. destruct (flag _ 1024); [|done]. rewrite Hsk, Hn, Hreg, Hlen. cbn [Z.eqb Pos.eqb andb]. rewrite Z.add_0_l.
    pose proof (size_nonneg _ Hd). destruct (Z.ltb_spec (o (data nd)) 0); [lia|done]. }
  set (q := wpos _ _ _). assert (0 <= q) as Hq.
  { unfold q, wpos. destruct (flag _ _); [apply zlength_nonneg|done]. }
  cbn [go_bind]. unfold ops_write. simpl s_n. rewrite Hn. simpl s_node. simpl s_position.
  destruct (write_file_ok y (s_node st) nd d q (ex_intro _ M Hs) Hnd Hq) as (f & E & Hf & Hok' & Hb). rewrite E.
  cbn [go_bind]. eexists. split; [done|]. pose proof (zlength_nonneg d). split; [split|].
  - eapply set_stream_ok; [done|exact Hst|done|done|]. simpl. lia.
  - eexists. simpl. rewrite lookup_insert_eq. split_and!; try done.
  - simpl. rewrite lookup_alter_eq, Hnd. eexists. split; [done|]. split; [done|]. simpl.
    destruct d as [|x d]; [|by apply Hb]. unfold K_write in E. simpl in E. by injection E as <-.
  - eapply set_stream_only; [done|by eapply upd_data_extends|done|exact Hst|done].
Qed.

Lemma writev_file y fd i fl p l bufs total :
  at_file y fd i fl p l → Z.land fl 2097155 ≠ 0 →
  ∃ y', writev_loop fn_write fd bufs total y = (GoRet (total + zlength (concat bufs)), y') ∧
    at_file y' fd i fl (match bufs with [] => p | _ => wpos fl p l + zlength (concat bufs) end)
      (written l (concat bufs) (wpos fl p l)) ∧
    only_fd fd y y'.
Proof using.
  intros Hat Hw. revert y p l total Hat. induction bufs as [|d bufs IH]; intros y p l total Hat.
  { exists y. rewrite Z.add_0_r. split_and!; [done|done|by eapply only_fd_refl]. }
  destruct (write1_file y fd i fl p l d Hat Hw) as (y1 & E & H1 & F1). cbn [writev_loop concat]. rewrite E.
  assert (0 <= wpos fl p l) as Hq.
  { destruct Hat as [[M Hs] (st & Hst & _ & _ & <- & _) _]. unfold wpos. destruct (flag _ _); [apply zlength_nonneg|].
    apply (ok_streams _ _ Hs fd st Hst). }
  destruct (IH y1 _ _ (total + zlength d) H1) as (y2 & E2 & H2 & F2). exists y2. rewrite E2, zlength_app.
  assert (wpos fl (wpos fl p l + zlength d) (written l d (wpos fl p l)) = wpos fl p l + zlength d) as Hwp.
  { unfold wpos. destruct (flag fl 1024); [apply zlength_written_end|done]. }
  rewrite Hwp, written_app in H2 by done. split_and!; [do 2 f_equal; lia| |by eapply only_fd_trans].
  destruct bufs; [simpl; rewrite Z.add_0_r; exact H2|]. by rewrite Z.add_assoc.
Qed.

(** *** Reading *)

Lemma read1_file y fd i fl p l n :
  at_file y fd i fl p l → Z.land fl 2097155 ≠ 1 → 0 <= n →
  ∃ r y', read1 fn_read fd n y = GoRet (r, y') ∧ u8 <$> r = bytes_pread l n p ∧
    at_file y' fd i fl (p + zlength r) l ∧ only_fd fd y y'.
Proof using.
  intros [Hok (st & Hst & <- & <- & <- & Hn & Hsk) (nd & Hnd & Hreg & <-)] Hr Hpos.
  unfold read1. rewrite Hst. destruct (Z.ltb_spec n 0); [lia|].
  destruct (Z.eqb_spec (Z.land (s_flags st) 2097155) 1); [done|]. unfold get_node. rewrite Hnd. cbn [go_bind].
  rewrite (regular_not_dir _ Hreg). unfold ops_read. rewrite Hn. destruct Hok as [M Hs].
  pose proof (ok_data _ _ _ _ (ok_nodes _ _ Hs _ nd Hnd)) as Hd.
  destruct (ok_streams _ _ Hs fd st Hst) as (Hfd & _ & Hp).
  destruct (K_read_refines (data nd) n (s_position st) Hd Hp Hpos) as (r & -> & Hb). cbn [go_bind].
  pose proof (zlength_nonneg r). do 2 eexists. split; [done|]. split; [done|]. split; [split|].
  - eapply set_stream_ok; [by exists M|exact Hst|done|done|]. simpl. lia.
  - eexists. simpl. rewrite lookup_insert_eq. by split_and!.
  - simpl. by exists nd.
  - eapply set_stream_only; [by exists M|by eapply extends_refl|done|exact Hst|done].
Qed.

Lemma readv_file y fd i fl p l lens acc :
  at_file y fd i fl p l → Z.land fl 2097155 ≠ 1 → Forall (Z.le 0) lens →
  ∃ bufs y', readv_loop fn_read fd lens acc y = (GoRet (acc ++ bufs), y') ∧
    u8 <$> concat bufs = bytes_pread l (foldr Z.add 0 lens) p ∧
    at_file y' fd i fl (p + zlength (concat bufs)) l ∧ only_fd fd y y'.
Proof using.
  intros Hat Hr Hlens. revert y p acc Hat. induction Hlens as [|n lens Hn Hlens IH]; intros y p acc Hat.
  { exists [], y. rewrite app_nil_r, Z.add_0_r. split_and!; [done|done|done|by eapply only_fd_refl]. }
  assert (0 <= foldr Z.add 0 lens) as Hsum by (clear -Hlens; induction Hlens; simpl; lia).
  assert (0 <= p) as Hp.
  { destruct Hat as [[M Hs] (st & Hst & _ & _ & <- & _) _]. apply (ok_streams _ _ Hs fd st Hst). }
  destruct (read1_file y fd i fl p l n Hat Hr Hn) as (r & y1 & E & Hb & H1 & F1). cbn [readv_loop foldr]. rewrite E.
  assert (zlength r = zlength (bytes_pread l n p)) as Hlr by (rewrite <- Hb, zlength_fmap; done).
  destruct (Z.ltb_spec (zlength r) n) as [Hs|Hfull].
  - exists [r], y1. simpl. rewrite app_nil_r. split_and!; [done| |done|done].
    rewrite Hb. symmetry. apply pread_short; lia.
  - destruct (IH y1 _ (acc ++ [r]) H1) as (bufs & y2 & E2 & Hb2 & H2 & F2). exists (r :: bufs), y2.
    rewrite E2, <- app_assoc. simpl. rewrite fmap_app, Hb, Hb2, zlength_app.
    assert (zlength r = n) as Hrn by (rewrite zlength_pread in Hlr by lia; lia).
    split_and!; [done| | |by eapply only_fd_trans].
    + rewrite Hrn. symmetry. by apply pread_app.
    + by rewrite Z.add_assoc.
Qed.

(** *** Seeking *)

Lemma llseek_file y fd i fl p l b c :
  at_file y fd i fl p l →
  let q := if c =? 1 then b + p else if c =? 2 then b + zlength l else b in
  if q <? 0 then llseek fd b c y = GoErr EINVAL
  else ∃ y', llseek fd b c y = GoRet (q, y') ∧ at_file y' fd i fl q l ∧ only_fd fd y y'.
Proof using.
  intros [Hok (st & Hst & <- & <- & <- & Hn & Hsk) (nd & Hnd & Hreg & <-)] q.
  destruct Hok as [M Hs]. pose proof (ok_data _ _ _ _ (ok_nodes _ _ Hs _ nd Hnd)) as Hd.
  assert (ops_llseek st nd b c = if q <? 0 then GoErr EINVAL else GoRet q) as E.
  { unfold ops_llseek, K_llseek. rewrite Hsk, Hn, Hreg, andb_true_r. unfold q. by rewrite (bytes_length _ Hd). }
  unfold llseek, get_node. rewrite Hst, Hnd. cbn [go_bind]. rewrite E.
  destruct (Z.ltb_spec q 0) as [|Hq]; cbn [go_bind]; [done|].
  eexists. split; [done|]. split; [split|].
  - eapply set_stream_ok; [by exists M|exact Hst|done|done|done].
  - eexists. simpl. rewrite lookup_insert_eq. by split_and!.
  - simpl. by exists nd.
  - eapply set_stream_only; [by exists M|by eapply extends_refl|done|exact Hst|done].
Qed.
End Transfer.

(** ** Opening by path *)

Definition follows : opts := mkOpts false true true.

Lemma file_mode_regular m : is_file (Z.lor (Z.land m 4095) 32768) = true.
Proof.
  unfold is_file, fmt. rewrite Z.land_lor_distr_l, <- Z.land_assoc.
  change (Z.land 4095 61440) with 0. by rewrite Z.land_0_r.
Qed.

Lemma regular_not_link m : is_file m = true → is_link m = false.
Proof. unfold is_file, is_link. destruct (Z.eqb_spec (fmt m) 32768) as [->|]; done. Qed.

Lemma regular_not_chr m : is_file m = true → is_chr m = false.
Proof. unfold is_file, is_chr. destruct (Z.eqb_spec (fmt m) 32768) as [->|]; done. Qed.

Lemma regular_ops s M i nd : fs_ok s M → nodes s !! i = Some nd → is_file (mode nd) = true → k nd = OpsFile.
Proof.
  intros Hs Hi Hf. pose proof (regular_not_dir _ Hf) as HL.
  destruct (ok_kind _ _ _ _ (ok_nodes _ _ Hs i nd Hi)) as [->|[_ HL']]; [|congruence]. unfold ops_of. by rewrite HL, Hf.
Qed.

(** The node [open] works on is the one its path leads to afterwards. *)
Lemma open_node_found depth a b m s M i cr s' :
  fs_ok s M → flag b 131072 = false → open_node depth a b (Z.lor (Z.land m 4095) 32768) s = GoRet (i, cr, s') →
  ∃ path, Q depth s' a follows = GoRet (path, Some i).
Proof.
  intros Hs Hb H. unfold open_node in H. rewrite Hb in H. cbn [negb] in H. fold follows in H.
  destruct (Q depth s a follows) as [[p g]| |] eqn:EQ; [destruct g as [j|]|..].
  { destruct (_ && _); [done|]. injection H as <- _ <-. by exists p. }
  all: destruct (flag b 64); [|done];
    destruct (Vb depth a _ 0 s) as [[j s1]| |] eqn:EV; cbn [go_bind] in H; [|done..]; injection H as <- _ <-;
    apply (Vb_found depth a _ 0 s M j s1 true true Hs EV), regular_not_link, file_mode_regular.
Qed.

(** Truncation empties the file and nothing else. *)
Lemma truncate0_spec s M i s' :
  fs_ok s M → truncate0 i s = GoRet s' →
  extends s s' ∧ ∃ nd f, nodes s !! i = Some nd ∧ s' = upd i (set_data f) s ∧ bytes_of f = [].
Proof.
  intros Hs H. destruct (truncate0_node _ _ _ H) as [nd Hi]. unfold truncate0, get_node in H. rewrite Hi in H.
  cbn [go_bind] in H.
  destruct (jb_refines (data nd) 0) as (f & Hf & _ & Hb); [apply (ok_nodes _ _ Hs i nd Hi)|lia|].
  rewrite Hf in H. cbn [go_bind] in H.
  assert (s' = upd i (set_data f) s) as -> by (repeat case_match; simplify_eq; done).
  split; [by eapply upd_data_extends|]. exists nd, f. split_and!; [done|done|]. rewrite Hb. unfold bytes_resize.
  simpl. apply zeros_nil. pose proof (zlength_nonneg (bytes_of (data nd))). lia.
Qed.

(** The regular file at a descriptor, if there is one. *)
Definition regular_at (fd : Z) (s : fs) : option (Z * node) :=
  st ← N_fd s !! fd; nd ← nodes s !! s_node st; if is_file (mode nd) then Some (s_node st, nd) else None.

(** The stages of an [open] that returned. *)
Lemma Yb_stages depth a b c fd0 s n s' :
  Yb depth a b c fd0 s = (GoRet n, s') →
  nonempty a = true ∧ ∃ i cr s1 nd s2 path st,
    let b' := if is_chr (mode nd) then Z.land b (-513) else b in
    open_node depth (nb a) b (if flag b 64 then Z.lor (Z.land (default 438 c) 4095) 32768 else 0) s = GoRet (i, cr, s1) ∧
    nodes s1 !! i = Some nd ∧
    (if flag b' 512 then truncate0 i s1 else GoRet s1) = GoRet s2 ∧
    stream_open (rdev nd) (mkStream i path (Z.land b' (-641)) true 0 (stream_ops_of (k nd)))
      (Sb (mkStream i path (Z.land b' (-641)) true 0 (stream_ops_of (k nd))) n s2) = GoRet st ∧
    s_node st = i ∧
    s' = mkFs (nodes s2) (O_tab s2) (Hb s2) (Eb s2) (<[n := st]> (N_fd s2)) (Gb s2) (Ib s2).
Proof.
  unfold Yb. intros H. destruct (nonempty a); [|done]. split; [done|].
  destruct (open_node depth (nb a) b _ s) as [[[i cr] s1]| |] eqn:EO; [|done..].
  destruct (get_node i s1) as [nd| |] eqn:Hi; [|done..]. set (b' := if is_chr (mode nd) then _ else _) in H.
  destruct (open_checks nd b' cr s1); cbn [go_bind] in H; [|done..].
  destruct (if flag b' 512 then truncate0 i s1 else GoRet s1) as [s2| |] eqn:ET; [|done..].
  destruct (Kb i s2) as [path| |]; [|done..]. destruct (Rb fd0 s2) as [n'| |]; [|done..].
  destruct (Z.ltb_spec i 0) as [|Hpos]; [done|].
  destruct (stream_open _ _ _) as [st| |] eqn:ES; [|done..]. injection H as -> <-.
  exists i, cr, s1, nd, s2, path, st. fold b'. split_and!; try done.
  - apply get_node_inv in Hi as [?|[? _]]; [done|lia].
  - unfold stream_open in ES. by repeat case_match; simplify_eq.
  - unfold Sb, set_N_fd. simpl. by rewrite insert_insert_eq.
Qed.

(** An [open] that may create and truncates: an empty file at the path. *)
Lemma Yb_truncates depth a b m fd0 s M n s' i nd :
  fs_ok s M → 0 <= fd0 → flag b 131072 = false → flag b 64 = true → flag b 512 = true →
  Yb depth a b (Some m) fd0 s = (GoRet n, s') → regular_at n s' = Some (i, nd) →
  nonempty a = true ∧ N_fd s !! n = None ∧
  (∃ path, Q depth (close n s') (nb a) follows = GoRet (path, Some i)) ∧ bytes_of (data nd) = [] ∧
  ∃ path, N_fd s' = <[n := mkStream i path (Z.land b (-641)) true 0 SFile]> (N_fd s).
Proof.
  intros Hs Hfd0 Hb1 Hb2 Hb3 H Hreg.
  destruct (Yb_ok _ _ _ _ _ _ M _ _ Hs Hfd0 H) as (_ & _ & _ & _ & Hfree & _). destruct (Yb_stages _ _ _ _ _ _ _ _ H)
    as (Ha & j & cr & s1 & nd1 & s2 & pth & st & EO & Hj & ET & ES & Hst & ->).
  rewrite Hb2 in EO. simpl default in EO. destruct (open_node_found _ _ _ _ _ M _ _ _ Hs Hb1 EO) as [path HQ].
  destruct (open_node_ok _ _ _ _ _ M _ _ _ Hs EO) as (M1 & Hs1 & _ & _ & HN1).
  unfold regular_at in Hreg. simpl in Hreg. rewrite lookup_insert_eq in Hreg. simpl in Hreg. rewrite Hst in Hreg.
  destruct (nodes s2 !! j) as [nd2|] eqn:E2; simpl in Hreg; [|done].
  destruct (is_file (mode nd2)) eqn:Ef; [|done]. injection Hreg as -> ->.
  set (b' := if is_chr (mode nd1) then _ else _) in ET, ES.
  assert (mode nd = mode nd1) as Em.
  { destruct (flag b' 512); [|congruence]. destruct (truncate0_spec s1 M1 i s2 Hs1 ET) as (_ & x & f & Hx & -> & _).
    rewrite lookup_upd, Hx in E2. case_decide; [|done]. injection E2 as <-. simpl. congruence. }
  rewrite Em in Ef. assert (b' = b) as Eb' by (unfold b'; by rewrite (regular_not_chr _ Ef)). rewrite Eb' in ET, ES. rewrite Hb3 in ET.
  destruct (truncate0_spec s1 M1 i s2 Hs1 ET) as (He & x & f & Hx & -> & Hbf).
  destruct (truncate0_ok s1 M1 i _ Hs1 ET) as (Hs2 & HN2 & _). split; [done|]. split; [done|]. split_and!.
  - exists path. apply (Q_ext s1); [|done]. eapply extends_trans; [exact He|].
    apply (streams_extends (upd i (set_data f) s1) M1 _ (Gb s1) Hs2). intros z d. simpl. rewrite HN1. intros Hd.
    rewrite delete_insert_id by done. eauto.
  - rewrite lookup_upd, Hx in E2. case_decide; [|done]. by injection E2 as <-.
  - unfold stream_open in ES. rewrite (regular_ops s1 M1 i nd1 Hs1 Hj Ef) in ES. simpl in ES. injection ES as <-.
    exists pth. simpl. by rewrite HN1.
Qed.

(** Opening an existing regular file for reading. *)
Lemma Yb_reads depth a c fd0 s M i nd path :
  fs_ok s M → nonempty a = true → Q depth s (nb a) follows = GoRet (path, Some i) → nodes s !! i = Some nd →
  is_file (mode nd) = true → Nb nd (mkPerms true false false) s = 0 →
  ∃ p, Yb depth a 0 c fd0 s =
    match Rb fd0 s with
    | GoRet n => (GoRet n, set_N_fd (<[n := mkStream i p 0 true 0 SFile]> (N_fd s)) s)
    | GoErr err => (GoErr err, s)
    | GoPanic q => (GoPanic q, s)
    end.
Proof.
  intros Hs Ha HQ Hi Hf Hr. pose proof (regular_ops s M i nd Hs Hi Hf) as Hk.
  destruct (Kb_total s M i nd Hs Hi ltac:(congruence)) as [p Hp]. exists p.
  unfold Yb. rewrite Ha. unfold open_node. change (flag 0 131072) with false. change (flag 0 64) with false.
  cbn [negb andb]. fold follows. rewrite HQ. unfold get_node. rewrite Hi, (regular_not_chr _ Hf).
  unfold open_checks, may_open. rewrite (regular_not_link _ Hf), (regular_not_dir _ Hf).
  change (flag 0 65536) with false. change (flag 0 512) with false. cbn [andb]. change (Z.land 0 3 =? 0) with true.
  cbn match. cbn [go_bind]. rewrite Hr. cbn [Z.eqb go_bind]. rewrite Hp.
  destruct (Rb fd0 s) as [n| |]; [|done..]. pose proof (fs_ok_ids s M i nd Hs Hi). destruct (Z.ltb_spec i 0); [lia|].
  unfold stream_open. rewrite Hk. simpl.
  unfold Sb, set_N_fd. simpl. by rewrite insert_insert_eq.
Qed.

(** The smallest free descriptor is unique. *)
Lemma Rb_lowest a fd s :
  0 <= a <= fd → fd <= 4096 → N_fd s !! fd = None → (∀ x, a <= x < fd → is_Some (N_fd s !! x)) → Rb a s = GoRet fd.
Proof.
  intros Ha Hfd Hfree Hbelow. pose proof (Rb_spec a s ltac:(lia)) as H. destruct (Rb a s) as [n| |]; [| |done].
  - destruct H as (Hn & Hnone & Hmin). f_equal. destruct (Z.lt_trichotomy n fd) as [Hlt|[->|Hgt]]; [|done|].
    + destruct (Hbelow n ltac:(lia)) as [x Hx]. congruence.
    + destruct (Hmin fd ltac:(lia)) as [x Hx]. congruence.
  - destruct H as [_ H]. destruct (H fd ltac:(lia)) as [x Hx]. congruence.
Qed.

(** Closing a file and opening its path for reading: the same descriptor, at
    the start of the same bytes. *)
Lemma reopen_file y fd i fl p l depth path rp c :
  at_file y fd i fl p l → nonempty path = true → Q depth (close fd (y_fs y)) (nb path) follows = GoRet (rp, Some i) →
  (∀ nd, nodes (y_fs y) !! i = Some nd → Nb nd (mkPerms true false false) (y_fs y) = 0) →
  (∀ x, 0 <= x < fd → is_Some (N_fd (y_fs y) !! x)) →
  ∃ y1 y2, syscall6 fd y = (GoRet 0, y1) ∧ syscall5 depth path 0 c y1 = (GoRet fd, y2) ∧ at_file y2 fd i 0 0 l.
Proof.
  intros Hat Hpath HQ Hperm Hbelow. destruct Hat as [[M Hs] (st & Hst & Hi & _ & _ & Hn & _) (nd & Hnd & Hf & Hl)].
  destruct (ok_streams _ _ Hs fd st Hst) as (Hfd & _ & _).
  unfold syscall6, stream_close. rewrite Hst, Hn. exists (set_fs (close fd (y_fs y)) y).
  unfold syscall5. set (s1 := close fd (y_fs y)). simpl y_fs.
  assert (fs_ok s1 M) as Hs1 by (by apply close_ok).
  destruct (Yb_reads depth path (Some c) 0 s1 M i nd rp Hs1 Hpath HQ Hnd Hf (Hperm nd Hnd)) as [pth ->].
  rewrite (Rb_lowest 0 fd s1).
  - eexists. split; [done|]. split; [done|]. split.
    + exists M. apply open_stream_ok; [done|done|by exists nd|done].
    + eexists. simpl. rewrite lookup_insert_eq. by split_and!.
    + by exists nd.
  - lia.
  - lia.
  - apply lookup_delete_eq.
  - intros x Hx. simpl. rewrite lookup_delete_ne by lia. auto.
Qed.
