(* ===== verification/VizFSProps.v ===== *)
(** * The file system of the viewer's runtime: properties

    What the Graphviz object code can rely on when it opens, writes, reads,
    seeks, closes and removes files and prints. *)

From Stdlib Require Import ZArith Lia.
From stdpp Require Import base list gmap strings.
From S2P Require Import Prelude VizRuntime VizFacts VizFile VizFS VizFSFacts VizFSInv VizFSPaths VizStream VizStreamFacts.
From S2P Require Import VizTtyFacts VizSysFacts VizTransfer.

Open Scope Z_scope.

(** Device functions for the concrete instances: the random devices give zeros
    and refuse to be written. *)
Definition zero_read (rd n : Z) : go Z (list Z) := GoRet (zeros n).
Definition no_write (rd : Z) (d : list Z) : go Z Z := if zlength d =? 0 then GoRet 0 else GoErr EIO.

Lemma no_write_count rd d n : no_write rd d = GoRet n → 0 <= n.
Proof. unfold no_write. destruct (_ =? 0); [|done]. by intros [= <-]. Qed.

Lemma zero_read_safe rd n p : zero_read rd n ≠ GoPanic p.
Proof. done. Qed.

Lemma no_write_safe rd d p : no_write rd d ≠ GoPanic p.
Proof. unfold no_write. by destruct (_ =? 0). Qed.

Lemma start_returns : ∃ y, start [] = GoRet y.
Proof. destruct started_returns as [s Hs]. unfold start. rewrite Hs. eexists. reflexivity. Qed.

(** C21: The three representations of a file's contents (nothing yet, a typed
    array, a growing array) implement one sequence of bytes: writing at a
    position is a positional write (with zeros up to it when it is past the
    end), reading is a slice, and resizing and allocation cut or pad with
    zeros; none of them throws. *)
Theorem file_refines_bytes a d f n b :
  file_ok a → 0 <= f → 0 <= n → 0 <= b →
  (∃ a', K_write a d f = GoRet (zlength d, a') ∧ file_ok a' ∧
     bytes_of a' = (if decide (d = []) then bytes_of a else bytes_pwrite (bytes_of a) (u8 <$> d) f)) ∧
  (∃ l, K_read a n f = GoRet l ∧ u8 <$> l = bytes_pread (bytes_of a) n f) ∧
  (∃ a', jb a b = GoRet a' ∧ file_ok a' ∧ bytes_of a' = bytes_resize b (bytes_of a)) ∧
  (0 < f + n → ∃ a', K_allocate a f n = GoRet a' ∧ file_ok a' ∧ bytes_of a' = bytes_of a ++ zeros (f + n - o a)).
Proof.
  intros Ha Hf Hn Hb. split; [|split; [by apply K_read_refines|split; [by apply jb_refines|]]].
  - case_decide as Hd; [subst; by exists a|]. by apply K_write_refines.
  - intros. by apply K_allocate_refines.
Qed.

Lemma file_refines_bytes_witness :
  let a := mkFile (CTyped [1; 2; 3]) 3 in
  file_ok a ∧ (∃ a', K_write a [7; -1] 4 = GoRet (2, a') ∧ file_ok a' ∧ bytes_of a' = [1; 2; 3; 0; 7; 255]).
Proof.
  split; [split; [done|repeat constructor; lia]|].
  destruct (file_refines_bytes (mkFile (CTyped [1; 2; 3]) 3) [7; -1] 4 0 0) as (H & _);
    [split; [done|repeat constructor; lia]|lia|lia|lia|]. exact H.
Defined.

(** C5: Whatever system calls are made on a started runtime, the file system
    stays well formed: the hash table of names is a map from parent and name to
    node that agrees with the entries of the directories, parents are older
    directories, every file's size is the length of its contents, and every
    open descriptor is between 0 and 4096, on an existing node, at a position
    that is not negative.  The root of the mount on [/proc/self/fd] is apart: it is
    in the table under the string ["/proc/self"] that is its parent (written 0),
    and in no directory. *)
Theorem fs_reachable_ok fn_read fn_write depth stdin y :
  (∀ rd d n, fn_write rd d = GoRet n → 0 <= n) →
  reachable fn_read fn_write depth stdin y → ∃ M, fs_ok (y_fs y) M.
Proof. intros Hw Hy. exact (reachable_ok fn_read fn_write depth Hw stdin y Hy). Qed.

Lemma fs_reachable_ok_witness :
  ∃ y, reachable zero_read no_write 5 [] y ∧ ∃ M, fs_ok (y_fs y) M.
Proof.
  destruct start_returns as [y Hy].
  assert (reachable zero_read no_write 5 [] (run_call zero_read no_write 5 (Close 1) y).2) as Hr
    by (apply reach_call, reach_start; exact Hy).
  eexists. split; [exact Hr|]. exact (fs_reachable_ok zero_read no_write 5 [] _ no_write_count Hr).
Defined.

(** C22: In every state a started runtime reaches, reading, writing, seeking and
    closing return a count or an error number to the object code, for any
    descriptor, buffers and offset, and no exception of the engine escapes (memory
    for the contents of files is not limited here), in all cases but one: a seek
    of an open descriptor by an offset whose high word is not 0 (a negative offset
    is one) fails the assertion of [___syscall140], which aborts the program and
    leaves the state as it was. *)
Theorem descriptor_calls_return fn_read fn_write depth stdin y c :
  (∀ rd d n, fn_write rd d = GoRet n → 0 <= n) →
  (∀ rd n p, fn_read rd n ≠ GoPanic p) → (∀ rd d p, fn_write rd d ≠ GoPanic p) →
  reachable fn_read fn_write depth stdin y → on_descriptor c = true →
  if far_seek c y then run_call fn_read fn_write depth c y = (GoPanic PAssert, y)
  else ∃ n, (run_call fn_read fn_write depth c y).1 = GoRet n.
Proof.
  intros Hcount Hr Hw Hy Hc. apply run_call_safe; try done.
  exact (reachable_ok fn_read fn_write depth Hcount stdin y Hy).
Qed.

(** A seek of the standard output by -1, and of a descriptor that is not open. *)
Lemma started_far_seek y :
  start [] = GoRet y → far_seek (Seek 1 (-1) (-1) 1) y = true ∧ far_seek (Seek 7 (-1) (-1) 1) y = false.
Proof.
  intros Hy. assert (match start [] with
    | GoRet y => far_seek (Seek 1 (-1) (-1) 1) y && negb (far_seek (Seek 7 (-1) (-1) 1) y) | _ => false end = true) as H
    by (vm_compute; reflexivity).
  rewrite Hy in H. apply andb_true_iff in H as [H1 H7]. exact (conj H1 (proj1 (negb_true_iff _) H7)).
Qed.

Lemma descriptor_calls_return_witness :
  ∃ y n, start [] = GoRet y ∧ (run_call zero_read no_write 5 (Seek 7 (-1) (-1) 1) y).1 = GoRet n ∧
    run_call zero_read no_write 5 (Seek 1 (-1) (-1) 1) y = (GoPanic PAssert, y).
Proof.
  destruct start_returns as [y Hy]. destruct (started_far_seek y Hy) as [H1 H7].
  pose proof (fun c => descriptor_calls_return zero_read no_write 5 [] y c no_write_count zero_read_safe no_write_safe
    (reach_start zero_read no_write 5 [] y Hy)) as H.
  pose proof (H (Seek 7 (-1) (-1) 1) eq_refl) as G7. rewrite H7 in G7. destruct G7 as [n Hn].
  pose proof (H (Seek 1 (-1) (-1) 1) eq_refl) as G1. rewrite H1 in G1.
  exists y, n. exact (conj Hy (conj Hn G1)).
Defined.

(** A state with a new file [/tmp/g], for the concrete instances. *)
Definition with_file : go Z (Z * fs) := let! s := started in Vb 3 (js "/tmp/g") 33188 0 s.

Lemma with_file_returns : ∃ s M i s', fs_ok s M ∧ Vb 3 (js "/tmp/g") 33188 0 s = GoRet (i, s').
Proof.
  destruct started_ok as (s & M & Hs & Hok).
  assert (match with_file with GoRet _ => true | _ => false end = true) as H by (vm_compute; reflexivity).
  unfold with_file in H. rewrite Hs in H. cbn [go_bind] in H.
  destruct (Vb 3 (js "/tmp/g") 33188 0 s) as [[i s']| |] eqn:E; [|discriminate H..].
  exists s, M, i, s'. exact (conj Hok E).
Qed.

(** C6: When an entry that is not a symbolic link is created under a path, the
    path then resolves to exactly the new node, whatever the options, and
    every path that resolved before resolves to the same node as before. *)
Theorem created_entry_found depth a m d s M i s' :
  fs_ok s M → Vb depth a m d s = GoRet (i, s') → is_link m = false →
  nodes s !! i = None ∧
  (∀ ka da, ∃ path, Q depth s' a (mkOpts false ka da) = GoRet (path, Some i)) ∧
  (∀ n b o r, Q n s b o = GoRet r → Q n s' b o = GoRet r).
Proof.
  intros Hs HV Hm. destruct (Vb_ok depth a m d s M i s' Hs HV)
    as (path & p & nda & _ & _ & _ & _ & Hp & Hdir & Hfree & -> & _ & Hok & Hg). split; [|split].
  - destruct (nodes s !! Hb s) as [x|] eqn:E; [|done]. pose proof (fs_ok_ids s M _ x Hs E). lia.
  - intros ka da. by apply (Vb_found depth a m d s M).
  - intros n b o r. apply Q_ext. eapply grown_extends; [done|apply (ok_names _ _ Hok)|done|done|done].
Qed.

Lemma created_entry_found_witness :
  ∃ s s' i path, Vb 3 (js "/tmp/g") 33188 0 s = GoRet (i, s') ∧
    Q 3 s' (js "/tmp/g") (mkOpts false true true) = GoRet (path, Some i).
Proof.
  destruct with_file_returns as (s & M & i & s' & Hs & HV).
  destruct (created_entry_found 3 (js "/tmp/g") 33188 0 s M i s' Hs HV eq_refl) as (_ & H & _).
  destruct (H true true) as [path Hp]. exists s, s', i, path. exact (conj HV Hp).
Defined.

(** C23: Removing a path takes exactly its last name out of its directory: the
    name is then not found there, every other name of every searchable directory
    is found as before, and all nodes keep their contents and all descriptors
    stay open, so a file removed while open can still be read and written. *)
Theorem unlink_removes_one depth c s M s' :
  fs_ok s M → unlink depth c s = GoRet s' →
  (∃ path p, Q depth s c (mkOpts true true false) = GoRet (path, Some p) ∧
     Cb p (pb c) s' = GoErr ENOENT ∧
     ∀ d nd b, nodes s !! d = Some nd → searchable nd s → (d, b) ≠ (p, pb c) → Cb d b s' = Cb d b s) ∧
  (∀ j, data <$> nodes s' !! j = data <$> nodes s !! j) ∧ N_fd s' = N_fd s.
Proof.
  intros Hs Hu. destruct (unlink_ok depth c s M s' Hs Hu) as (path & p & nd & g & HQ & Hp & Hsr & Hdir & HM & Hok & Hsim & Hd).
  split; [|split; [done|exact (sim_N _ _ Hsim)]]. exists path, p. split; [done|].
  assert (∀ d nd, nodes s !! d = Some nd → searchable nd s →
    ∃ nd', nodes s' !! d = Some nd' ∧ searchable nd' s' ∧ k nd' = k nd) as Hsr'.
  { intros d x Hx [Hk HN]. destruct (sim_fwd _ _ Hsim d x Hx) as (y & Hy & _ & Hky & Hmy & _). exists y. split; [done|].
    split; [|done]. split; [by rewrite Hky|]. unfold Nb in *. by rewrite (sim_Ib _ _ Hsim), Hmy. }
  split.
  - destruct (Hsr' p nd Hp Hsr) as (nd' & Hp' & Hs' & Hk'). rewrite (Cb_spec s' _ p nd' _ (ok_names _ _ Hok) Hp' Hs').
    by rewrite lookup_delete_eq, Hk', Hdir.
  - intros d x b Hx Hxs Hne. destruct (Hsr' d x Hx Hxs) as (x' & Hx' & Hxs' & Hk').
    rewrite (Cb_spec s' _ d x' b (ok_names _ _ Hok) Hx' Hxs'), (Cb_spec s M d x b (ok_names _ _ Hs) Hx Hxs).
    rewrite lookup_delete_ne by done. destruct (M !! (d, b)); [done|]. rewrite Hk'. unfold lookup_miss, fd_lookup.
    by rewrite (sim_N _ _ Hsim).
Qed.

(** C24: Opening gives the smallest descriptor from the asked one on that is not
    in use, never above 4096, at position 0 and with every other descriptor as
    it was; an error leaves the descriptors alone.  Entries are only added. *)
Theorem open_lowest_descriptor depth a b c fd s M r s' :
  fs_ok s M → 0 <= fd → Yb depth a b c fd s = (r, s') →
  ∃ M', fs_ok s' M' ∧ M ⊆ M' ∧
    match r with
    | GoRet n => fd <= n <= 4096 ∧ N_fd s !! n = None ∧ (∀ x, fd <= x < n → is_Some (N_fd s !! x)) ∧
        ∃ st, N_fd s' = <[n := st]> (N_fd s) ∧ s_position st = 0
    | GoErr _ => N_fd s' = N_fd s
    | GoPanic _ => True
    end.
Proof. apply Yb_ok. Qed.

Lemma open_lowest_descriptor_witness :
  ∃ s M r s', fs_ok s M ∧ Yb 3 (js "/tmp/g") 577 None 0 s = (r, s') ∧ ∃ M', fs_ok s' M' ∧ M ⊆ M'.
Proof.
  destruct started_ok as (s & M & _ & Hok). destruct (Yb 3 (js "/tmp/g") 577 None 0 s) as [r s'] eqn:E.
  destruct (open_lowest_descriptor 3 (js "/tmp/g") 577 None 0 s M r s' Hok ltac:(lia) E)
    as (M' & H1 & H2 & _).
  exists s, M, r, s'. split; [exact Hok|]. split; [exact E|]. exists M'. exact (conj H1 H2).
Defined.

Lemma removed_file : ∃ s M s', fs_ok s M ∧ unlink 3 (js "/tmp/g") s = GoRet s'.
Proof.
  destruct started_ok as (s1 & M1 & Hs1 & Hok1).
  assert (match started with
          | GoRet s => match Xb 3 (js "/tmp/h") (js "/tmp/g") s with
                       | GoRet s => match unlink 3 (js "/tmp/g") s with GoRet _ => true | _ => false end
                       | _ => false
                       end
          | _ => false
          end = true) as H by (vm_compute; reflexivity).
  rewrite Hs1 in H. destruct (Xb 3 (js "/tmp/h") (js "/tmp/g") s1) as [s2| |] eqn:EX; [|discriminate H..].
  destruct (Xb_ok _ _ _ _ M1 _ Hok1 EX) as (q & _ & Hok2).
  destruct (unlink 3 (js "/tmp/g") s2) as [s3| |] eqn:EU; [|discriminate H..].
  exists s2, (<[(q, pb (js "/tmp/g")) := Hb s1]> M1), s3. exact (conj Hok2 EU).
Qed.

Lemma unlink_removes_one_witness :
  ∃ s s' path p, unlink 3 (js "/tmp/g") s = GoRet s' ∧
    Q 3 s (js "/tmp/g") (mkOpts true true false) = GoRet (path, Some p) ∧ Cb p (js "g") s' = GoErr ENOENT.
Proof.
  destruct removed_file as (s & M & s' & Hs & Hu).
  destruct (unlink_removes_one 3 (js "/tmp/g") s M s' Hs Hu) as ((path & p & HQ & HC & _) & _).
  exists s, s', path, p. exact (conj Hu (conj HQ HC)).
Defined.

(** C4: A file written under a path is read back under it.  When [open] with
    [O_WRONLY|O_CREAT|O_TRUNC] has returned descriptor [fd] on a regular file
    that may be read, then writing any buffers, closing [fd] and opening the
    same path for reading all succeed, the same descriptor number is given
    again, and reading with buffers that are large enough returns the bytes
    written, in order, whatever the division into buffers on both sides. *)
Theorem write_close_read fn_read fn_write depth path m m' bufs lens y fd s1 i nd :
  sys_ok y → Yb depth path 577 (Some m) 0 (y_fs y) = (GoRet fd, s1) →
  regular_at fd s1 = Some (i, nd) → Nb nd (mkPerms true false false) s1 = 0 →
  Forall (Z.le 0) lens → zlength (concat bufs) <= foldr Z.add 0 lens →
  ∃ y2 y3 y4 y5 got,
    syscall5 depth path 577 m y = (GoRet fd, set_fs s1 y) ∧
    syscall146 fn_write fd bufs (set_fs s1 y) = (GoRet (zlength (concat bufs)), y2) ∧
    syscall6 fd y2 = (GoRet 0, y3) ∧
    syscall5 depth path 0 m' y3 = (GoRet fd, y4) ∧
    syscall145 fn_read fd lens y4 = (GoRet (zlength (concat bufs), got), y5) ∧
    u8 <$> concat got = u8 <$> concat bufs.
Proof.
  intros [M Hs] HO Hreg Hr Hlens Hsum. assert (0 <= 0) as H0 by done.
  destruct (Yb_ok depth path 577 (Some m) 0 (y_fs y) M (GoRet fd) s1 Hs H0 HO) as (M1 & Hs1 & _ & Hn & _ & Hmin & _).
  destruct (Yb_truncates depth path 577 m 0 _ M fd s1 i nd Hs H0 eq_refl eq_refl eq_refl HO Hreg)
    as (Hpath & _ & [rp HQ] & Hempty & pth & HN).
  assert (nodes s1 !! i = Some nd ∧ is_file (mode nd) = true) as [Hi Hf].
  { unfold regular_at in Hreg. rewrite HN, lookup_insert_eq in Hreg. simpl in Hreg.
    destruct (nodes s1 !! i) as [x|]; [|done]. simpl in Hreg. destruct (is_file (mode x)) eqn:?; simplify_eq. done. }
  assert (at_file (set_fs s1 y) fd i 65 0 []) as Hat.
  { split; [by exists M1| |by exists nd]. eexists. simpl. rewrite HN, lookup_insert_eq. by split_and!. }
  destruct (writev_file fn_write (set_fs s1 y) fd i 65 0 [] bufs 0 Hat ltac:(done)) as (y2 & EW & H2 & Honly).
  pose proof (only_fd_close _ _ _ Honly) as Hcl. destruct Honly as [Hext _ Hoth]. simpl y_fs in Hcl, Hext, Hoth.
  destruct (reopen_file y2 fd i 65 _ _ depth path rp m' H2 Hpath (Q_ext _ _ _ _ _ _ Hcl HQ)) as (y3 & y4 & E6 & E5 & H4).
  { intros x Hx. destruct (ext_node _ _ Hext i nd Hi) as (x' & Hx' & _ & _ & Hmode & _). simplify_eq.
    by rewrite (Nb_ext s1 (y_fs y2) nd x _ Hext Hmode). }
  { intros x Hx. rewrite Hoth, HN, lookup_insert_ne by lia. apply Hmin. lia. }
  destruct (readv_file fn_read y4 fd i 0 0 _ lens [] H4 ltac:(done) Hlens) as (got & y5 & ER & Hgot & _).
  assert (written [] (concat bufs) (wpos 65 0 []) = u8 <$> concat bufs) as Hw.
  { change (wpos 65 0 []) with 0. unfold written. destruct (concat bufs) as [|x l]; [done|]. unfold bytes_pwrite.
    rewrite overwrite_all; [done|]. pose proof (zlength_nonneg (u8 <$> x :: l)).
    rewrite app_nil_l, zlength_zeros. change (zlength []) with 0. lia. }
  assert (bytes_pread (u8 <$> concat bufs) (foldr Z.add 0 lens) 0 = u8 <$> concat bufs) as Hall.
  { unfold bytes_pread. rewrite drop_0. apply take_ge. rewrite length_fmap. unfold zlength in Hsum. lia. }
  rewrite Hw, Hall in Hgot.
  exists y2, y3, y4, y5, got. unfold syscall5 at 1. rewrite HO. split; [done|].
  unfold syscall146. simpl y_fs. rewrite HN, lookup_insert_eq, EW. split; [done|]. split; [done|]. split; [done|].
  split; [|done]. destruct H4 as [_ (st & Hst & _) _]. unfold syscall145. rewrite Hst, ER. cbn [app].
  assert (foldr Z.add 0 (zlength <$> got) = zlength (concat got)) as ->.
  { clear. induction got as [|l got IH]; [done|]. rewrite fmap_cons. cbn [foldr concat]. by rewrite zlength_app, IH. }
  by rewrite <- (zlength_fmap u8 (concat got)), Hgot, zlength_fmap.
Qed.

(** A started runtime with [/tmp/g] open for writing. *)
Lemma written_file :
  ∃ y fd s1 i nd, sys_ok y ∧ Yb 3 (js "/tmp/g") 577 (Some 438) 0 (y_fs y) = (GoRet fd, s1) ∧
    regular_at fd s1 = Some (i, nd) ∧ Nb nd (mkPerms true false false) s1 = 0.
Proof.
  destruct started_ok as (s & M & Hs & Hok).
  assert (match started with
          | GoRet s => match Yb 3 (js "/tmp/g") 577 (Some 438) 0 s with
                       | (GoRet fd, s1) => match regular_at fd s1 with
                                           | Some (i, nd) => Nb nd (mkPerms true false false) s1 =? 0
                                           | None => false
                                           end
                       | _ => false
                       end
          | _ => false
          end = true) as H by (vm_compute; reflexivity).
  rewrite Hs in H. destruct (Yb 3 (js "/tmp/g") 577 (Some 438) 0 s) as [[fd| |] s1] eqn:E; [|discriminate H..].
  destruct (regular_at fd s1) as [[i nd]|] eqn:Hr; [|discriminate H]. apply Z.eqb_eq in H.
  exists (mkSys s ttys0 [] []), fd, s1, i, nd. exact (conj (ex_intro _ M Hok) (conj E (conj Hr H))).
Qed.

Lemma write_close_read_witness :
  ∃ y fd s1 y2 y3 y4 y5 got,
    syscall146 no_write fd [[104; 105]; []; [-61; -87]] (set_fs s1 y) = (GoRet 4, y2) ∧ syscall6 fd y2 = (GoRet 0, y3) ∧
    syscall5 3 (js "/tmp/g") 0 0 y3 = (GoRet fd, y4) ∧ syscall145 zero_read fd [1; 100] y4 = (GoRet (4, got), y5) ∧
    u8 <$> concat got = [104; 105; 195; 169].
Proof.
  destruct written_file as (y & fd & s1 & i & nd & Hy & HO & Hr & Hp).
  destruct (write_close_read zero_read no_write 3 (js "/tmp/g") 438 0 [[104; 105]; []; [-61; -87]] [1; 100] y fd s1 i nd
    Hy HO Hr Hp ltac:(repeat constructor; lia) ltac:(vm_compute; discriminate)) as (y2 & y3 & y4 & y5 & got & _ & H).
  exists y, fd, s1, y2, y3, y4, y5, got. exact H.
Defined.

(** C25: Text written to the standard output or error of a started runtime, in any
    division into buffers, is printed line by line: the UTF-8 bytes of lines
    ended by newlines produce one call of [print] (or [printErr]) per line,
    with exactly the lines. *)
Theorem text_printed_by_lines fn_write stdin ls bufs err :
  Forall (fun l => wf16 l = true ∧ 10 ∉ l) ls → concat bufs = lines_bytes ls →
  ∃ y y', start stdin = GoRet y ∧
    syscall146 fn_write (if err : bool then 2 else 1) bufs y = (GoRet (zlength (concat bufs)), y') ∧
    y_printed y' = (fun l => (err, l)) <$> ls.
Proof.
  intros Hls Hb. destruct started_returns as [s Hs].
  destruct (start stdin) as [y| |] eqn:E; [|unfold start in E; rewrite Hs in E; discriminate E..].
  destruct (start_writes stdin y E) as (H1 & H2 & Hp).
  assert (∃ rd t, at_tty y (if err then 2 else 1) rd t ∧ t_output t = [] ∧ t_err t = err) as (rd & t & Hat & Ho & He).
  { destruct err; eexists; apply writes_to_tty_at; eassumption. }
  destruct (writev_tty fn_write y _ rd t bufs 0 Hat) as (y' & EW & _ & Hout). exists y, y'. split; [done|].
  destruct Hat as [(st & nd & Hst & _) _]. unfold syscall146. rewrite Hst, EW. split; [done|].
  rewrite Hout, Hb, tty_lines by done. simpl. rewrite Hp, He. done.
Qed.

Lemma text_printed_by_lines_witness :
  ∃ y y', start [] = GoRet y ∧
    syscall146 no_write 2 [take 3 (lines_bytes [js "syntax"; js "error"]); drop 3 (lines_bytes [js "syntax"; js "error"])] y =
      (GoRet 13, y') ∧
    y_printed y' = [(true, js "syntax"); (true, js "error")].
Proof.
  exact (text_printed_by_lines no_write [] [js "syntax"; js "error"]
    [take 3 (lines_bytes [js "syntax"; js "error"]); drop 3 (lines_bytes [js "syntax"; js "error"])] true
    ltac:(apply (bool_decide_unpack _); vm_compute; exact I)
    ltac:(vm_compute; reflexivity)).
Defined.

(** ** Where the runtime does not do what it means to *)

(** A symbolic link [/a] to [/a/x]: the count of nested resolutions that should
    end with [ELOOP] is never raised, so resolution uses up any stack. *)
Section Loop.
Context (s : fs) (r i : Z) (nd : node).
Context (HE : Eb s = Some r) (HC : Cb r (js "a") s = GoRet i) (HK : Kb r s = GoRet [slash]).
Context (HN : get_node i s = GoRet nd) (HV : V nd = None) (Hm : is_link (mode nd) = true) (Hk : k nd = OpsLink).
Context (Hp : parent nd = r) (Hl : link nd = js "/a/x").

Lemma loop_a depth : Q (S depth) s (js "/a") opts0 = GoRet (js "/a", Some i).
Proof using All.
  cbn [Q]. change (nonempty (sb [[slash]; js "/a"])) with true. cbn match.
  change (mb (parts (sb [[slash]; js "/a"])) false) with [js "a"]. rewrite HE.
  cbn [walk andb o_parent opts0]. rewrite HC. cbn [go_bind]. rewrite HN. cbn [go_bind]. rewrite HV.
  cbn [negb orb o_da go_bind walk]. reflexivity.
Qed.

Lemma loop_ax depth : Q depth s (js "/a/x") opts0 = GoPanic PStack.
Proof using All.
  induction depth as [|depth IH]; [done|].
  cbn [Q]. change (nonempty (sb [[slash]; js "/a/x"])) with true. cbn match.
  change (mb (parts (sb [[slash]; js "/a/x"])) false) with [js "a"; js "x"]. rewrite HE.
  cbn [walk andb o_parent opts0]. rewrite HC. cbn [go_bind]. rewrite HN. cbn [go_bind]. rewrite HV.
  cbn [negb orb]. change (rb [slash] (js "a")) with (js "/a"). cbn [follow]. rewrite HN. cbn [go_bind]. rewrite Hm.
  unfold Jb_with. destruct depth as [|depth]; [done|]. rewrite loop_a. cbn [go_bind]. rewrite HN. cbn [go_bind].
  rewrite Hk, Hp, HK. cbn [go_bind]. rewrite Hm, Hl. cbn [go_bind].
  change (sb [ob (js "/a"); sb [[slash]; js "/a/x"]]) with (js "/a/x"). rewrite IH. done.
Qed.
End Loop.
Definition self_prefixed : go Z fs := let! s := started in Xb 3 (js "/a/x") (js "/a") s.
(** The facts above, of a state. *)
Definition loops (s : fs) : bool :=
  match Eb s, Cb 1 (js "a") s, Kb 1 s, get_node 20 s with
  | Some r, GoRet i, GoRet p, GoRet nd =>
      (r =? 1) && (i =? 20) && bool_decide (p = [slash]) && bool_decide (V nd = None) && is_link (mode nd) &&
      match k nd with OpsLink => true | _ => false end && (parent nd =? 1) && bool_decide (link nd = js "/a/x")
  | _, _, _, _ => false
  end.

Lemma loops_Q s depth : loops s = true → Q depth s (js "/a/x") opts0 = GoPanic PStack.
Proof.
  unfold loops. destruct (Eb s) as [r|] eqn:HE; [|done]. destruct (Cb 1 (js "a") s) as [i| |] eqn:HC; [|done..].
  destruct (Kb 1 s) as [p| |] eqn:HK; [|done..]. destruct (get_node 20 s) as [nd| |] eqn:HN; [|done..].
  rewrite !andb_true_iff, !bool_decide_eq_true, !Z.eqb_eq.
  intros (((((((-> & ->) & ->) & HV) & Hm) & Hk) & Hp) & Hl). apply (loop_ax s 1 20 nd); try done. by destruct (k nd).
Qed.

Lemma symlink_recursion_unbounded :
  ∃ s, self_prefixed = GoRet s ∧ ∀ depth, Q depth s (js "/a/x") opts0 = GoPanic PStack.
Proof.
  assert (match self_prefixed with GoRet s => loops s | _ => false end = true) as H by (vm_compute; reflexivity).
  destruct self_prefixed as [s| |]; [|discriminate H..]. exists s. split; [reflexivity|]. intros depth. exact (loops_Q s depth H).
Qed.

(** The access mode 3 has no entry in the table of permission strings: opening
    with it, once permissions are enforced, throws an exception that is not a
    file system error and aborts the program. *)
Lemma open_access_mode_3 :
  ∃ s, started = GoRet s ∧ (Yb 3 (js "/dev/null") 3 None 0 s).1 = GoPanic PTypeError.
Proof.
  assert (match started with
          | GoRet s => match (Yb 3 (js "/dev/null") 3 None 0 s).1 with
                       | GoPanic (PMsg m) => String.eqb m "TypeError" | _ => false end
          | _ => false
          end = true) as H by (vm_compute; reflexivity).
  destruct started as [s| |]; [|discriminate H..]. exists s. split; [reflexivity|].
  destruct (Yb 3 (js "/dev/null") 3 None 0 s).1 as [| |[ | | |m]]; try discriminate H.
  apply String.eqb_eq in H. by subst.
Qed.
