(* ===== verification/VizMemory.v ===== *)
(** * The memory of the viewer and its static data

    When [viz-lite.js] is loaded it creates the memory of the Graphviz object
    code and writes the static data into it with calls of [B].  This file holds
    the memory, those calls in the order of the source, and the lemmas that say
    what the memory contains afterwards. *)

From Stdlib Require Import ZArith Lia.
From stdpp Require Import base list gmap.
From S2P Require Import Prelude VizData.

Open Scope Z_scope.

(** [E], the bytes of the memory. *)
Definition heap : Type := Z → Z.

(** [new ArrayBuffer(ma)], then [z[0]=255]: the probe of the byte order leaves
    its word in place. *)
Definition fresh_memory : heap := fun a => if a =? 0 then 255 else 0.

(** [E.set(data, ptr)]. *)
Definition E_set (data : list Z) (ptr : Z) (E : heap) : heap :=
  fun a => match zlookup data (a - ptr) with Some x => x | None => E a end.

(** [B(data, "i8", 4, ptr)]: with 4 for the third argument the data go to the
    address that is the fourth. *)
Definition B_i8 (data : list Z) (ptr : Z) (E : heap) : heap := E_set data ptr E.

(** [n.q] and [la=Ka+175728], the end of the static area, with [Ka=8]. *)
Definition n_q : Z := 8.
Definition static_end : Z := 8 + 175728.

(** The calls, in the order of the source. *)
Definition static_calls : list (Z * list Z) :=
  [(0, segment_0); (33336, segment_33336); (43580, segment_43580); (53824, segment_53824);
   (64066, segment_64066); (74306, segment_74306); (84546, segment_84546); (95218, segment_95218);
   (105458, segment_105458); (115698, segment_115698); (125938, segment_125938);
   (136178, segment_136178); (146418, segment_146418); (156658, segment_156658);
   (166901, segment_166901); (175088, segment_175088)].

Definition run_calls (cs : list (Z * list Z)) (E : heap) : heap :=
  foldl (fun E c => B_i8 c.2 (n_q + c.1) E) E cs.

Definition static_memory : heap := run_calls static_calls fresh_memory.

(** A little-endian word and a C string of the memory. *)
Definition load32 (E : heap) (p : Z) : Z :=
  E p + 256 * E (p + 1) + 65536 * E (p + 2) + 16777216 * E (p + 3).

Fixpoint cstring (fuel : nat) (E : heap) (p : Z) : option (list Z) :=
  match fuel with
  | O => None
  | S fuel' => if E p =? 0 then Some [] else s ← cstring fuel' E (p + 1); Some (E p :: s)
  end.

(** ** Contents of memory ranges *)

Definition holds (E : heap) (p : Z) (l : list Z) : Prop :=
  ∀ j x, zlookup l j = Some x → E (p + j) = x.

Lemma holds_app E p l1 l2 : holds E p l1 → holds E (p + zlength l1) l2 → holds E p (l1 ++ l2).
Proof.
  intros H1 H2 j x Hj. destruct (Z.lt_ge_cases j (zlength l1)).
  - rewrite zlookup_app_l in Hj by done. by apply H1.
  - rewrite zlookup_app_r in Hj by done.
    replace (p + j) with (p + zlength l1 + (j - zlength l1)) by lia. by apply H2.
Qed.

Lemma holds_app_inv E p l1 l2 : holds E p (l1 ++ l2) → holds E p l1 ∧ holds E (p + zlength l1) l2.
Proof.
  intros H. split; intros j x Hj; pose proof (zlookup_Some_lt _ _ _ Hj).
  - apply H. by rewrite zlookup_app_l by lia.
  - pose proof (zlength_nonneg l1). replace (p + zlength l1 + j) with (p + (zlength l1 + j)) by lia. apply H.
    rewrite zlookup_app_r by lia. by replace (zlength l1 + j - zlength l1) with j by lia.
Qed.

Lemma holds_take E p l n : holds E p l → holds E p (take n l).
Proof. intros H. rewrite <- (take_drop n l) in H. by apply holds_app_inv in H as [H _]. Qed.

Lemma holds_drop E p l n :
  (n <= length l)%nat → holds E p l → holds E (p + Z.of_nat n) (drop n l).
Proof.
  intros Hn H. rewrite <- (take_drop n l) in H. apply holds_app_inv in H as [_ H].
  unfold zlength in H. rewrite length_take in H. by replace (n `min` length l)%nat with n in H by lia.
Qed.

Lemma holds_same d p E : holds (E_set d p E) p d.
Proof. intros j x Hj. unfold E_set. replace (p + j - p) with j by lia. by rewrite Hj. Qed.

Lemma holds_other d q E p l :
  p + zlength l <= q ∨ q + zlength d <= p → holds E p l → holds (E_set d q E) p l.
Proof.
  intros Hd H j x Hj. pose proof (zlookup_Some_lt _ _ _ Hj). unfold E_set.
  destruct (zlookup d (p + j - q)) as [y|] eqn:E'; [|by apply H].
  apply zlookup_Some_lt in E'. lia.
Qed.

Lemma holds_at E p p' l : holds E p l → p = p' → holds E p' l.
Proof. by intros H ->. Qed.

Lemma holds_zero p l : 0 < p → Forall (eq 0) l → holds fresh_memory p l.
Proof.
  intros Hp H j x Hj. pose proof (zlookup_Some_lt _ _ _ Hj). unfold fresh_memory.
  destruct (Z.eqb_spec (p + j) 0); [lia|]. unfold zlookup in Hj. destruct (0 <=? j); [|done].
  rewrite Forall_lookup in H. by apply H in Hj.
Qed.

(** ** The layout of the calls *)

(** The calls write at increasing addresses from [p] and never overlap, up to [stop]. *)
Fixpoint in_order (p stop : Z) (cs : list (Z * list Z)) : bool :=
  match cs with
  | [] => p <=? stop
  | c :: cs' => (p <=? n_q + c.1) && in_order (n_q + c.1 + zlength c.2) stop cs'
  end.

Lemma in_order_static : in_order n_q static_end static_calls = true.
Proof. vm_compute. reflexivity. Qed.

(** Nothing below [p] changes. *)
Lemma in_order_below p stop cs E q l :
  in_order p stop cs = true → q + zlength l <= p → holds E q l → holds (run_calls cs E) q l.
Proof.
  revert p E. induction cs as [|c cs IH]; intros p E Hs Hq HE; [done|].
  simpl in Hs. apply andb_true_iff in Hs as [H1%Z.leb_le H2]. pose proof (zlength_nonneg c.2).
  change (holds (run_calls cs (B_i8 c.2 (n_q + c.1) E)) q l).
  eapply IH; [exact H2|lia|]. apply holds_other; [lia|done].
Qed.

Lemma in_order_holds p stop cs E n off d :
  in_order p stop cs = true → cs !! n = Some (off, d) → holds (run_calls cs E) (n_q + off) d.
Proof.
  revert p E n. induction cs as [|c cs IH]; intros p E n Hs Hn; [done|].
  simpl in Hs. apply andb_true_iff in Hs as [_ H2].
  change (holds (run_calls cs (B_i8 c.2 (n_q + c.1) E)) (n_q + off) d).
  destruct n as [|n]; [|by eapply IH]. injection Hn as ->.
  eapply in_order_below; [exact H2|simpl; lia|]. apply holds_same.
Qed.

Lemma in_order_stop p stop cs : in_order p stop cs = true → p <= stop.
Proof.
  revert p. induction cs as [|c cs IH]; intros p; simpl; [lia|].
  intros [H1%Z.leb_le H2]%andb_true_iff. pose proof (zlength_nonneg c.2). apply IH in H2. lia.
Qed.

Lemma in_order_range p stop cs n off d :
  in_order p stop cs = true → cs !! n = Some (off, d) → p <= n_q + off ∧ n_q + off + zlength d <= stop.
Proof.
  revert p n. induction cs as [|c cs IH]; intros p n Hs Hn; [done|].
  simpl in Hs. apply andb_true_iff in Hs as [H1%Z.leb_le H2]. pose proof (zlength_nonneg c.2).
  destruct n as [|n].
  - injection Hn as ->. split; [done|]. by apply in_order_stop in H2.
  - destruct (IH _ _ H2 Hn). simpl in *. lia.
Qed.

Lemma in_order_apart p stop cs n n' off d off' d' :
  in_order p stop cs = true → cs !! n = Some (off, d) → cs !! n' = Some (off', d') → n ≠ n' →
  off + zlength d <= off' ∨ off' + zlength d' <= off.
Proof.
  revert p n n'. induction cs as [|c cs IH]; intros p n n' Hs Hn Hn' Hne; [done|].
  simpl in Hs. apply andb_true_iff in Hs as [_ H2].
  destruct n as [|n], n' as [|n']; [done| | |by eapply (IH _ n n'); [| | |congruence]].
  - injection Hn as ->. destruct (in_order_range _ _ _ _ _ _ H2 Hn'). simpl in *. left. lia.
  - injection Hn' as ->. destruct (in_order_range _ _ _ _ _ _ H2 Hn). simpl in *. right. lia.
Qed.

Lemma static_bytes_check : forallb (fun c => forallb (fun x => (0 <=? x) && (x <? 256)) c.2) static_calls = true.
Proof. vm_compute. reflexivity. Qed.

Lemma static_bytes n off d j x :
  static_calls !! n = Some (off, d) → zlookup d j = Some x → 0 <= x < 256.
Proof.
  intros Hn Hj. pose proof static_bytes_check as H. rewrite forallb_forall in H.
  specialize (H _ (proj1 (list_elem_of_In _ _) (list_elem_of_lookup_2 _ _ _ Hn))). simpl in H.
  unfold zlookup in Hj. destruct (0 <=? j); [|done]. rewrite forallb_forall in H.
  specialize (H _ (proj1 (list_elem_of_In _ _) (list_elem_of_lookup_2 _ _ _ Hj))). simpl in H. lia.
Qed.

(** Each segment is in memory at its address. *)
Lemma static_holds n off d : static_calls !! n = Some (off, d) → holds static_memory (n_q + off) d.
Proof. by apply (in_order_holds n_q static_end), in_order_static. Qed.

(** The bytes [p, p+k) lie between segments. *)
Definition in_gap (p k : Z) : bool :=
  (0 <? p) && forallb (fun c => (p + k <=? n_q + c.1) || (n_q + c.1 + zlength c.2 <=? p)) static_calls.

Lemma static_gap p l : in_gap p (zlength l) = true → Forall (eq 0) l → holds static_memory p l.
Proof.
  unfold in_gap, static_memory. intros [Hp%Z.ltb_lt Hd]%andb_true_iff Hz.
  revert Hd. generalize static_calls. intros cs Hd. pose proof (holds_zero p l Hp Hz) as HE.
  revert HE. generalize fresh_memory. induction cs as [|c cs IH]; intros E HE; [done|].
  simpl in Hd. apply andb_true_iff in Hd as [Hc Hd]. apply orb_true_iff in Hc. rewrite !Z.leb_le in Hc.
  change (holds (run_calls cs (B_i8 c.2 (n_q + c.1) E)) p l). apply IH; [done|]. by apply holds_other.
Qed.
