(* ===== verification/VizPng.v ===== *)
(** * Images from SVG: [Viz.svgXmlToPngImageElement] and [Viz.svgXmlToPngBase64]

    The conversion of rendered SVG to a PNG image, with its two ways of
    reporting: the image element it returns, or a callback.  With the library
    Fabric present the work is done by [fabric.loadSVGFromString]; otherwise by
    an image element of the browser that later fires its load or error event.

    The browser and Fabric are parameters; so is the callback, which may throw.
    An effect is a change of the state [png], with the exception it may end in. *)

From Stdlib Require Import ZArith Lia.
From stdpp Require Import base list strings.
From S2P Require Import Prelude VizRuntime.

Open Scope Z_scope.

Section Png.
(** JavaScript numbers, with the operations on them the code uses, and
    exceptions. *)
Context {num exn obj : Type} (one : num) (above_one : num → bool) (times : num → num → num).
(** [new Error(message)]. *)
Context (Error : jsstr → exn).

(** An image element: its source ([""] when new) and its size, if set. *)
Record image : Type := mkImage { i_src : jsstr; i_width : option num; i_height : option num }.

(** The arguments of the callback. *)
Inductive cbarg : Type :=
| CbError (e : exn)
| CbImage (i : image).

(** The image element, the calls of the callback so far, and the source and
    scale of the browser image being loaded, if any. *)
Record png : Type := mkPng { pngImage : image; calls : list cbarg; loading : option (jsstr * num) }.

(** An effect: it ends in an exception or not. *)
Definition effect : Type := png → option exn * png.

(** [window.devicePixelRatio], if it is there. *)
Context (devicePixelRatio : option num).
(** [canvas.toDataURL] of a drawing of the SVG on a canvas of a size: by the
    browser, and by Fabric with a multiplier. *)
Context (toDataURL : jsstr → num → num → jsstr) (fabricDataURL : list obj → num → num → num → jsstr).
(** [btoa]: it throws on characters above 255. *)
Context (btoa : jsstr → exn + jsstr).
(** [fabric.loadSVGFromString(svg, f)], if Fabric is there: any code that may
    call [f] with the objects of the drawing and its size.  Only calls made
    before it returns are covered. *)
Context (fabric : option (jsstr → (list obj → num → num → effect) → effect)).
(** The callback, if one is given: what it throws. *)
Context (callback : option (cbarg → option exn)).

Definition call (f : cbarg → option exn) (a : cbarg) : effect :=
  fun st => (f a, mkPng (pngImage st) (calls st ++ [a]) (loading st)).

Definition set_image (src : jsstr) (w h : num) (st : png) : png :=
  mkPng (mkImage src (Some w) (Some h)) (calls st) (loading st).

(** [if (callback !== undefined) callback(null, pngImage)] *)
Definition report : effect :=
  fun st => match callback with
            | Some f => call f (CbImage (pngImage st)) st
            | None => (None, st)
            end.

(** The function given to Fabric. *)
Definition fabric_loaded (scale : num) (objects : list obj) (w h : num) : effect :=
  fun st =>
    match objects with
    | [] =>
        let e := Error (js "Error loading SVG with Fabric") in
        match callback with Some f => call f (CbError e) st | None => (Some e, st) end
    | _ => report (set_image (fabricDataURL objects w h scale) w h st)
    end.

(** [svgImage.onload] with the size of the loaded image. *)
Definition onload (w h : num) : effect :=
  fun st =>
    match loading st with
    | None => (None, st)
    | Some (svg, scale) => report (set_image (toDataURL svg (times w scale) (times h scale)) w h st)
    end.

(** [svgImage.onerror]. *)
Definition onerror (e : exn) : effect :=
  fun st =>
    match loading st, callback with
    | Some _, Some f => call f (CbError e) st
    | _, _ => (None, st)
    end.

Definition default_scale (scale : option num) : num :=
  match scale with
  | Some s => s
  | None => match devicePixelRatio with Some r => if above_one r then r else one | None => one end
  end.

Definition png0 : png := mkPng (mkImage [] None None) [] None.

(** [Viz.svgXmlToPngImageElement(svgXml, scale, callback)]: the exception it
    throws or what it returns ([None] for [undefined]), and the state it leaves
    to the events. *)
Definition svgXmlToPngImageElement (svgXml : jsstr) (scale : option num) : (exn + option image) * png :=
  let scale := default_scale scale in
  let '(r, st) :=
    match fabric with
    | Some load =>
        match load svgXml (fabric_loaded scale) png0 with
        | (None, st) => (None, st)
        | (Some e, st) => match callback with Some f => call f (CbError e) st | None => (Some e, st) end
        end
    | None =>
        match btoa svgXml with
        | inl e => (Some e, png0)
        | inr b => (None, mkPng (pngImage png0) [] (Some (js "data:image/svg+xml;base64," ++ b, scale)))
        end
    end in
  (match r with
   | Some e => inl e
   | None => inr (match callback with Some _ => None | None => Some (pngImage st) end)
   end, st).

(** An event of the browser image. *)
Inductive event : Type := Loaded (w h : num) | Failed (e : exn).

Definition fire (ev : event) : effect :=
  match ev with Loaded w h => onload w h | Failed e => onerror e end.

Definition fire_all (evs : list event) (st : png) : png := foldl (fun st ev => (fire ev st).2) st evs.
End Png.

Arguments CbError {num exn} e.
Arguments CbImage {num exn} i.

(** ** [Viz.svgXmlToPngBase64] *)

Definition png_prefix : jsstr := js "data:image/png;base64,".

(** The callback it gives to [svgXmlToPngImageElement], for a callback [f] of
    an error or a text. *)
Definition base64_callback {num exn : Type} (f : exn + jsstr → option exn) (a : @cbarg num exn) : option exn :=
  match a with
  | CbError e => f (inl e)
  | CbImage i => f (inr (drop (length png_prefix) (i_src i)))
  end.
