(* ===== verification/VizEnv.v ===== *)
(** * The environment variables of the object code

    [Y] holds the variables, [rc] ([___buildEnvironment]) lays them out in the
    memory as C expects them (a block of ["NAME=value"] strings and a table of
    pointers to them ended by a null pointer), [_setenv] changes a variable and
    lays them out again, and [sc] ([_getenv]) copies a value for the caller.

    [Y] is an association list in the order of insertion, which is the order in
    which JavaScript enumerates properties that are not array indices. *)

From Stdlib Require Import ZArith Lia.
From stdpp Require Import base list strings.
From S2P Require Import Prelude VizRuntime VizFacts VizFile VizMemory.

Open Scope Z_scope.

Definition env : Type := list (jsstr * jsstr).

(** [Y[k]=v]: a new property comes last, an old one keeps its place. *)
Fixpoint env_set (k v : jsstr) (Y : env) : env :=
  match Y with
  | [] => [(k, v)]
  | (k', v') :: Y' => if decide (k' = k) then (k, v) :: Y' else (k', v') :: env_set k v Y'
  end.

Fixpoint env_get (k : jsstr) (Y : env) : option jsstr :=
  match Y with
  | [] => None
  | (k', v') :: Y' => if decide (k' = k) then Some v' else env_get k Y'
  end.

(** [z[p>>2]=v]. *)
Definition store32 (p v : Z) (E : heap) : heap :=
  E_set [u8 v; u8 (Z.shiftr v 8); u8 (Z.shiftr v 16); u8 (Z.shiftr v 24)] (Z.shiftl (Z.shiftr p 2) 2) E.

(** The state: the variables, whether the block is allocated ([rc.C]), the
    memory and the end of the static area ([la]). *)
Record env_state : Type := mkEnvState { e_Y : env; e_C : bool; e_E : heap; e_la : Z }.

Section Env.
(** [qc], where the address of the table is kept, and [e.thisProgram]. *)
Context (qc : Z) (thisProgram : jsstr).

(** The variables every program starts with. *)
Definition env_defaults (Y : env) : env :=
  let Y := env_set (js "LOGNAME") (js "web_user") Y in
  let Y := env_set (js "USER") (js "web_user") Y in
  let Y := env_set (js "PATH") (js "/") Y in
  let Y := env_set (js "PWD") (js "/") Y in
  let Y := env_set (js "HOME") (js "/home/web_user") Y in
  let Y := env_set (js "LANG") (js "C") Y in
  env_set (js "_") thisProgram Y.

(** ["NAME=value"]. *)
Definition env_strings (Y : env) : list jsstr := (fun kv => kv.1 ++ js "=" ++ kv.2) <$> Y.

(** The loop of [rc] over the strings: each is stored at [b] with a zero and
    its address in the table at [c]; at the end a null pointer. *)
Fixpoint write_env (ds : list jsstr) (b c : Z) (E : heap) : heap :=
  match ds with
  | [] => store32 c 0 E
  | d :: ds' => write_env ds' (b + zlength d + 1) (c + 4) (store32 c b (E_set ((u8 <$> d) ++ [0]) b E))
  end.

(** The first part of [rc]: the addresses of the block and the table, allocated
    by the first call. *)
Definition env_block (st : env_state) : Z * Z * env_state :=
  if e_C st then
    let c := load32 (e_E st) qc in (load32 (e_E st) c, c, st)
  else
    let '(b, la) := stack_alloc (e_la st) 1024 in
    let '(c, la) := stack_alloc la 256 in
    let E := E_set (zeros 256) c (E_set (zeros 1024) b (e_E st)) in
    (b, c, mkEnvState (env_defaults (e_Y st)) true (store32 qc c (store32 c b E)) la).

Definition env_size (ds : list jsstr) : Z := foldr (fun d n => zlength d + n) 0 ds.

(** [rc(Y)]: the message it throws, and the state it leaves. *)
Definition rc (st : env_state) : option jsstr * env_state :=
  let '(b, c, st) := env_block st in
  let ds := env_strings (e_Y st) in
  if 1024 <? env_size ds then (Some (js "Environment size exceeded TOTAL_ENV_SIZE!"), st)
  else (None, mkEnvState (e_Y st) (e_C st) (write_env ds b c (e_E st)) (e_la st)).

(** [_setenv] on the strings of its arguments: the value it returns, or the
    message it throws; an error number goes to [errno]. *)
Definition setenv (name value : jsstr) (replace : bool) (st : env_state) : (jsstr + Z) * env_state :=
  if negb (nonempty name) || bool_decide (61 ∈ name) then (inr (-1), st)
  else
    match env_get name (e_Y st), replace with
    | Some _, false => (inr 0, st)
    | _, _ =>
        let '(r, st) := rc (mkEnvState (env_set name value (e_Y st)) (e_C st) (e_E st) (e_la st)) in
        (match r with Some e => inl e | None => inr 0 end, st)
    end.

(** [sc], without the copy: the bytes handed to the caller. *)
Definition getenv (name : jsstr) (st : env_state) : option (list (option Z)) :=
  v ← env_get name (e_Y st); Some (Xa v false).
End Env.

(** ** The layout *)

(** The bytes the strings take, with their zeros. *)
Definition block_size (ds : list jsstr) : Z := foldr (fun d n => zlength d + 1 + n) 0 ds.

(** What C finds: pointers to the strings, in order, and a null pointer. *)
Fixpoint env_table (E : heap) (ds : list jsstr) (b c : Z) : Prop :=
  match ds with
  | [] => load32 E c = 0
  | d :: ds' => load32 E c = b ∧ holds E b ((u8 <$> d) ++ [0]) ∧ env_table E ds' (b + zlength d + 1) (c + 4)
  end.

Lemma block_nonneg ds : 0 <= block_size ds.
Proof. induction ds as [|d ds IH]; simpl; [lia|]. pose proof (zlength_nonneg d). lia. Qed.

Lemma aligned c : c mod 4 = 0 → Z.shiftl (Z.shiftr c 2) 2 = c.
Proof.
  intros H. rewrite Z.shiftr_div_pow2, Z.shiftl_mul_pow2 by lia. change (2 ^ 2) with 4.
  pose proof (Z.div_mod c 4 ltac:(lia)). lia.
Qed.

Lemma E_set_other d p E a : a < p ∨ p + zlength d <= a → E_set d p E a = E a.
Proof.
  intros Ha. unfold E_set. destruct (zlookup d (a - p)) eqn:H; [|done]. apply zlookup_Some_lt in H. lia.
Qed.

Lemma store32_other c v E a : c mod 4 = 0 → a < c ∨ c + 4 <= a → store32 c v E a = E a.
Proof. intros Hc Ha. unfold store32. rewrite aligned by done. apply E_set_other. change (zlength [_; _; _; _]) with 4. lia. Qed.

Lemma load32_store32 c v E : c mod 4 = 0 → 0 <= v < 2 ^ 32 → load32 (store32 c v E) c = v.
Proof.
  intros Hc Hv. unfold store32. rewrite aligned by done. unfold load32, E_set.
  replace (c - c) with 0 by lia. replace (c + 1 - c) with 1 by lia. replace (c + 2 - c) with 2 by lia.
  replace (c + 3 - c) with 3 by lia. cbn [zlookup Z.leb Z.compare Z.to_nat Pos.to_nat Pos.iter_op lookup list_lookup].
  unfold zlookup. simpl. unfold u8. rewrite !Z.shiftr_div_pow2 by lia.
  change (2 ^ 8) with 256. change (2 ^ 16) with (256 * 256). change (2 ^ 24) with (256 * 256 * 256). change (2 ^ 32) with 4294967296 in Hv.
  rewrite <- !Z.div_div by lia.
  pose proof (Z.div_mod v 256 ltac:(lia)). pose proof (Z.div_mod (v / 256) 256 ltac:(lia)).
  pose proof (Z.div_mod (v / 256 / 256) 256 ltac:(lia)).
  assert (0 <= v / 256 / 256 / 256 < 256) as Hr.
  { rewrite !Z.div_div by lia. split; [apply Z.div_pos; lia|apply Z.div_lt_upper_bound; lia]. }
  rewrite (Z.mod_small (v / 256 / 256 / 256)) by lia. lia.
Qed.

(** The loop writes its two areas only. *)
Lemma write_env_other ds b c E a :
  c mod 4 = 0 → a < b ∨ b + block_size ds <= a → a < c ∨ c + 4 * (zlength ds + 1) <= a →
  write_env ds b c E a = E a.
Proof.
  revert b c E. induction ds as [|d ds IH]; intros b c E Hc Hb Ha; simpl in *.
  { apply store32_other; [done|]. change (zlength []) with 0 in Ha. lia. }
  rewrite zlength_cons in Ha. pose proof (zlength_nonneg d). pose proof (zlength_nonneg ds). pose proof (block_nonneg ds).
  rewrite IH; [|rewrite Z.add_mod, Hc by lia; done|lia|lia].
  rewrite store32_other by (done || lia). apply E_set_other. rewrite zlength_app, zlength_fmap. change (zlength [0]) with 1. lia.
Qed.

Lemma load32_ext E E' p : (∀ a, p <= a < p + 4 → E' a = E a) → load32 E' p = load32 E p.
Proof. intros H. unfold load32. rewrite !H by lia. done. Qed.

Lemma holds_ext E E' p l : (∀ a, p <= a < p + zlength l → E' a = E a) → holds E p l → holds E' p l.
Proof. intros H Hh j x Hj. pose proof (zlookup_Some_lt _ _ _ Hj). rewrite H by lia. by apply Hh. Qed.

(** With its areas apart, the loop leaves the table C expects. *)
Lemma write_env_table ds b c E :
  c mod 4 = 0 → 0 <= b → b + block_size ds < 2 ^ 32 →
  b + block_size ds <= c ∨ c + 4 * (zlength ds + 1) <= b →
  env_table (write_env ds b c E) ds b c.
Proof.
  revert b c E. induction ds as [|d ds IH]; intros b c E Hc Hb Hlt Hap; cbn [write_env env_table block_size foldr] in *.
  { apply load32_store32; [done|lia]. }
  fold (block_size ds) in *. rewrite zlength_cons in Hap.
  pose proof (zlength_nonneg d). pose proof (zlength_nonneg ds). pose proof (block_nonneg ds).
  assert ((c + 4) mod 4 = 0) as Hc' by (rewrite Z.add_mod, Hc by lia; done).
  assert (∀ a, c <= a < c + 4 ∨ b <= a < b + zlength d + 1 →
    write_env ds (b + zlength d + 1) (c + 4) (store32 c b (E_set ((u8 <$> d) ++ [0]) b E)) a =
    store32 c b (E_set ((u8 <$> d) ++ [0]) b E) a) as Hkeep.
  { intros a Ha. apply write_env_other; [done|lia|lia]. }
  split_and!.
  - rewrite (load32_ext (store32 c b (E_set ((u8 <$> d) ++ [0]) b E))) by (intros a Ha; apply Hkeep; lia).
    apply load32_store32; [done|lia].
  - assert (zlength ((u8 <$> d) ++ [0]) = zlength d + 1) as Hl by (rewrite zlength_app, zlength_fmap; done).
    eapply holds_ext; [|apply (holds_same ((u8 <$> d) ++ [0]) b E)].
    intros a Ha. rewrite Hl in Ha. rewrite Hkeep by lia. apply store32_other; [done|lia].
  - apply IH; [done|lia|lia|lia].
Qed.

(** ** Variables *)

Lemma env_get_set k v Y k' : env_get k' (env_set k v Y) = if decide (k = k') then Some v else env_get k' Y.
Proof.
  induction Y as [|[k1 v1] Y IH]; simpl; [done|]. destruct (decide (k1 = k)) as [->|Hk]; simpl.
  - repeat case_decide; congruence.
  - rewrite IH. repeat case_decide; congruence.
Qed.

Section Facts.
Context (qc : Z) (thisProgram : jsstr).

Lemma env_block_Y st : e_C st = true → e_Y (env_block qc thisProgram st).2 = e_Y st.
Proof using. intros H. unfold env_block. by rewrite H. Qed.

Lemma rc_Y st : e_C st = true → e_Y (rc qc thisProgram st).2 = e_Y st.
Proof using.
  intros H. pose proof (env_block_Y st H) as HY. unfold rc. destruct (env_block qc thisProgram st) as [[b c] st'].
  simpl in HY. by destruct (1024 <? _).
Qed.

(** The first layout, after a static area that ends at [la]. *)
Lemma rc_first st :
  e_C st = false → 0 < e_la st → e_la st mod 16 = 0 → e_la st + 1296 < 2 ^ 31 → qc mod 4 = 0 → 0 <= qc → qc + 4 <= e_la st →
  let ds := env_strings (env_defaults thisProgram (e_Y st)) in
  block_size ds <= 1024 → zlength ds < 64 →
  ∃ st', rc qc thisProgram st = (None, st') ∧ e_Y st' = env_defaults thisProgram (e_Y st) ∧ e_C st' = true ∧
    load32 (e_E st') qc = e_la st + 1024 ∧ env_table (e_E st') ds (e_la st) (e_la st + 1024) ∧
    (∀ a, a < qc ∨ qc + 4 <= a < e_la st ∨ e_la st + 1280 <= a → e_E st' a = e_E st a).
Proof using.
  intros HC Hla Hal Hlt Hq Hq0 Hqla ds Hsz Hn. unfold rc, env_block. rewrite HC.
  assert (∀ x, 0 <= x < 2 ^ 31 → i32 x = x) as Hid by (intros x Hx; unfold i32; rewrite Z.mod_small; width).
  assert (∀ m n, 0 <= m → m mod 16 = 0 → n mod 16 = 0 → 0 <= n → m + n + 16 < 2 ^ 31 → stack_alloc m n = (m, m + n)) as Hsa.
  { intros m n H1 H2 H3 H4 H5. unfold stack_alloc. rewrite (Hid (m + n)), (Hid (m + n + 15)) by lia. f_equal. rewrite land_minus16.
    apply Z.mod_divide in H2 as [q1 ->]; [|lia]. apply Z.mod_divide in H3 as [q2 ->]; [|lia].
    replace (q1 * 16 + q2 * 16 + 15) with (15 + (q1 + q2) * 16) by lia. rewrite Z.div_add by lia.
    change (15 / 16) with 0. lia. }
  assert ((e_la st + 1024) mod 16 = 0) as Hal2 by (rewrite Z.add_mod, Hal by lia; done).
  rewrite (Hsa (e_la st) 1024) by (done || lia). rewrite (Hsa (e_la st + 1024) 256) by (done || lia).
  cbn [e_Y e_C e_E e_la]. fold ds. set (b := e_la st) in *. set (c := b + 1024) in *.
  assert (c mod 4 = 0) as Hc4.
  { apply Z.mod_divide in Hal2 as [q Hq2]; [|lia]. rewrite Hq2. replace (q * 16) with ((q * 4) * 4) by lia. apply Z.mod_mul. lia. }
  assert (env_size ds <= block_size ds) as Hle.
  { clear. induction ds as [|d ds IH]; simpl; lia. }
  destruct (Z.ltb_spec 1024 (env_size ds)); [lia|]. eexists. split; [done|].
  set (E1 := store32 qc c _). pose proof (block_nonneg ds). pose proof (zlength_nonneg ds).
  split; [done|]. split; [done|]. cbn [e_E]. split_and!.
  - rewrite (load32_ext E1).
    + unfold E1. apply load32_store32; [done|]. unfold c, b. lia.
    + intros a Ha. apply write_env_other; [done|unfold b; lia|unfold c, b; lia].
  - apply write_env_table; [done|unfold b; lia|unfold b; lia|unfold c; lia].
  - intros a Ha. rewrite write_env_other; [|done|unfold b in *; lia|unfold c, b in *; lia].
    unfold E1. rewrite !store32_other by (done || (unfold c, b in *; lia)).
    rewrite !E_set_other; [done|rewrite zlength_zeros; unfold b in *; lia|rewrite zlength_zeros; unfold c, b in *; lia].
Qed.
End Facts.
