(* ===== verification/VizCcall.v ===== *)
(** * Calling the object code: strings in memory and [ccall]

    How [render] hands strings to the Graphviz object code and reads its
    results: [sa] and [stringToC] store them as C strings on the stack of the
    memory, [y] ([Pointer_stringify]) reads them, and [ra] ([ccall]) converts
    the arguments, calls and restores the stack.  The object code is a
    parameter that acts on the memory. *)

From Stdlib Require Import ZArith Lia.
From stdpp Require Import base list gmap strings.
From S2P Require Import Prelude VizRuntime VizFacts VizFile VizMemory VizTtyFacts.

Open Scope Z_scope.

(** The memory and the top of its stack ([m] of the runtime). *)
Record mach : Type := mkMach { m_E : heap; m_top : Z }.

(** ** Strings to memory *)

(** [sa(a, b)]: a hole of the array is stored as 0. *)
Definition sa (a : jsstr) (b : Z) (E : heap) : heap :=
  E_set ((fun x => u8 (default 0 x)) <$> Xa a false) b E.

(** [stringToC]: [None] stands for [null], [undefined] and 0. *)
Definition stringToC (a : option jsstr) (M : mach) : Z * mach :=
  match a with
  | None => (0, M)
  | Some a =>
      let '(b, top) := stack_alloc (m_top M) (i32 (Z.shiftl (zlength a) 2) + 1) in
      (b, mkMach (sa a b (m_E M)) top)
  end.

(** [arrayToC]. *)
Definition arrayToC (a : list Z) (M : mach) : Z * mach :=
  let '(b, top) := stack_alloc (m_top M) (zlength a) in
  (b, mkMach (E_set (u8 <$> a) b (m_E M)) top).

(** ** Strings from memory *)

Section Read.
(** [ma], the size of the memory. *)
Context (total : Z).

(** The first loop of [y]: the length and the bitwise or of the bytes up to a
    zero.  Past the memory the bytes are [undefined] and the loop never ends. *)
Fixpoint y_scan (fuel : nat) (E : heap) (a f c : Z) : option (Z * Z) :=
  match fuel with
  | O => None
  | S fuel' =>
      let d := E (a + f) in
      if d =? 0 then Some (f, Z.lor c d) else y_scan fuel' E a (f + 1) (Z.lor c d)
  end.

(** The bytes of the memory from [a]. *)
Definition bytes_at (E : heap) (a : Z) (n : Z) : list Z := (fun i => E (a + Z.of_nat i)) <$> seq 0 (Z.to_nat n).

(** The second loop: at most 1024 characters at a time. *)
Fixpoint y_chunks (fuel : nat) (E : heap) (a b : Z) (d : jsstr) : jsstr :=
  match fuel with
  | O => d
  | S fuel' =>
      if 0 <? b
      then y_chunks fuel' E (a + 1024) (b - 1024) (d ++ fromCharCode (bytes_at E a (Z.min b 1024)))
      else d
  end.

(** [y(a)]. *)
Definition y (E : heap) (a : Z) : go Z jsstr :=
  if a =? 0 then GoRet []
  else
    match y_scan (Z.to_nat (total - a)) E a 0 0 with
    | None => GoPanic (PMsg "endless loop")
    | Some (f, c) =>
        if c <? 128 then GoRet (y_chunks (Z.to_nat f) E a f [])
        else GoRet (Ca (bytes_at E a (total - a)))
    end.

(** ** [ccall] *)

Inductive carg : Type :=
| CString (s : option jsstr)
| CBytes (l : list Z)
| CNumber (z : Z).

(** A function of the object code: it may throw. *)
Definition cfun : Type := list Z → mach → go Z (Z * mach).

(** The conversion loop of [ra]: the values for the call, and [t], the stack
    top saved before the first conversion (0 for none). *)
Fixpoint convert (args : list carg) (t : Z) (M : mach) : list Z * Z * mach :=
  match args with
  | [] => ([], t, M)
  | CNumber z :: args' => let '(ps, t, M) := convert args' t M in (z :: ps, t, M)
  | arg :: args' =>
      let t := if t =? 0 then m_top M else t in
      let '(p, M) := match arg with CString s => stringToC s M | CBytes l => arrayToC l M | CNumber z => (z, M) end in
      let '(ps, t, M) := convert args' t M in (p :: ps, t, M)
  end.

(** [ra(a, "number", d, h)]. *)
Definition ccall (f : cfun) (args : list carg) (M : mach) : go Z (Z * mach) :=
  let '(ps, t, M) := convert args 0 M in
  let! (d, M) := f ps M in
  GoRet (d, if t =? 0 then M else mkMach (m_E M) t).

(** ** [render] *)

(** The two functions of the object code the viewer calls. *)
Context (vizRenderFromString vizLastErrorMessage : cfun).

(** [render] on the memory [M] of the fresh module; an error message is thrown. *)
Definition render_mem (src format engine : jsstr) (M : mach) : go Z (jsstr + jsstr) :=
  let! (resultPointer, M) :=
    ccall vizRenderFromString [CString (Some src); CString (Some format); CString (Some engine)] M in
  let! resultString := y (m_E M) resultPointer in
  let! (errorMessagePointer, M) := ccall vizLastErrorMessage [] M in
  let! errorMessageString := y (m_E M) errorMessagePointer in
  if decide (errorMessageString ≠ []) then GoRet (inl errorMessageString) else GoRet (inr resultString).
End Read.
