(* ===== verification/VizCcallFacts.v ===== *)
(** * What [ccall] guarantees

    C strings written by [sa] fit where [stringToC] puts them and are read back
    by [y]; [ccall] hands every argument over, writes only above the stack top
    and restores it. *)

From Stdlib Require Import ZArith Lia.
From stdpp Require Import base list gmap strings.
From S2P Require Import Prelude VizRuntime VizFacts VizFile VizMemory VizTtyFacts VizCcall.

Open Scope Z_scope.

(** ** Bits *)

Lemma lor_below a b n : 0 <= n → 0 <= a → 0 <= b → Z.lor a b < 2 ^ n ↔ a < 2 ^ n ∧ b < 2 ^ n.
Proof.
  intros Hn Ha Hb. assert (0 <= Z.lor a b) as Hl by (by apply Z.lor_nonneg).
  assert (∀ x, 0 <= x → x < 2 ^ n ↔ x = 0 ∨ Z.log2 x < n) as Hx.
  { intros x Hx. pose proof (Z.pow_pos_nonneg 2 n ltac:(lia) Hn). destruct (decide (x = 0)) as [->|Hne]; [lia|].
    rewrite Z.log2_lt_pow2 by lia. lia. }
  rewrite !Hx, Z.lor_eq_0_iff, Z.log2_lor by done. pose proof (Z.log2_nonneg a). pose proof (Z.log2_nonneg b).
  destruct (decide (a = 0)) as [->|], (decide (b = 0)) as [->|]; change (Z.log2 0) with 0 in *; lia.
Qed.

(** ** Room for a string *)

(** A unit of a JavaScript string. *)
Definition unit16 (x : Z) : Prop := 0 <= x < 65536.

Lemma next_char_small f s : unit16 f → Forall unit16 s → 0 <= (next_char (f :: s)).1 < 2097152 ∧
  Forall unit16 (next_char (f :: s)).2 ∧ (length (next_char (f :: s)).2 <= length s)%nat.
Proof.
  intros Hf Hs. unfold unit16 in Hf. cbn [next_char]. destruct (_ && _); simpl; [|split_and!; [lia|lia|done|lia]].
  assert (0 <= Z.land f 1023 < 1024) as H1 by (rewrite low10; apply Z.mod_pos_bound; lia).
  assert (0 <= Z.land (at0 s) 1023 < 1024) as H2 by (rewrite low10; apply Z.mod_pos_bound; lia).
  rewrite Z.shiftl_mul_pow2 by lia. change (2 ^ 10) with 1024. change 2097152 with (2 ^ 21).
  split; [split; [apply Z.lor_nonneg; lia|apply lor_below; lia]|].
  split; [by apply Forall_tail|]. destruct s; simpl; lia.
Qed.

(** The bytes of any string, well formed or not, are at most four per unit. *)
Lemma utf8_room fuel s : Forall unit16 s → zlength (utf8_bytes (chars fuel s)) <= 4 * zlength s.
Proof.
  revert s. induction fuel as [|fuel IH]; intros s Hs; [pose proof (zlength_nonneg s); simpl; unfold utf8_bytes; simpl; autorewrite with zlist; lia|].
  destruct s as [|f s]; [done|]. inversion_clear Hs as [|?? Hf Hs'].
  pose proof (next_char_small f s Hf Hs') as (Hc & Hs2 & Hlen). cbn [chars].
  destruct (next_char (f :: s)) as [h s2]. simpl in *. unfold utf8_bytes. cbn [fmap list_fmap concat].
  rewrite zlength_app, char_size_bytes. specialize (IH s2 Hs2). unfold utf8_bytes in IH.
  assert (char_size h <= 4).
  { unfold char_size. repeat case_match; lia. }
  unfold zlength in *. simpl. lia.
Qed.

(** ** Writing *)

(** The C string of a JavaScript string. *)
Definition cstr (s : jsstr) : list Z := utf8_bytes (chars (length s) s) ++ [0].

Lemma cstr_bytes s : wf16 s = true → u8 <$> cstr s = cstr s.
Proof.
  intros Hs. apply u8_bytes. apply Forall_app. split; [|repeat constructor; lia].
  eapply Forall_impl; [by apply (text_bytes (length s) s)|]. intros x [Hx _]. lia.
Qed.

Lemma sa_cstr s b E : wf16 s = true → sa s b E = E_set (cstr s) b E.
Proof.
  intros Hs. unfold sa. rewrite Xa_bytes, <- list_fmap_compose. f_equal.
  rewrite <- (cstr_bytes s Hs). by apply list_fmap_ext.
Qed.

Lemma wf16_units s : wf16 s = true → Forall unit16 s.
Proof.
  remember (length s) as n eqn:Hn. revert s Hn. induction n as [n IH] using lt_wf_ind. intros s -> Hs.
  destruct s as [|f s]; [done|]. cbn [wf16] in Hs. unfold unit16. destruct ((55296 <=? f) && (f <=? 56319)) eqn:Ef.
  - destruct s as [|l s]; [done|]. rewrite !andb_true_iff, !Z.leb_le in *. destruct Hs as [[??] Hs].
    constructor; [lia|]. constructor; [lia|]. apply (IH (length s)); simpl; auto.
  - rewrite !andb_true_iff, Z.ltb_lt, Z.leb_le in Hs. destruct Hs as [[[??] _] Hs].
    constructor; [lia|]. apply (IH (length s)); simpl; auto.
Qed.

Lemma cstr_room s : wf16 s = true → 1 <= zlength (cstr s) <= 4 * zlength s + 1.
Proof.
  intros Hs. unfold cstr. rewrite zlength_app. pose proof (utf8_room (length s) s (wf16_units s Hs)).
  pose proof (zlength_nonneg (utf8_bytes (chars (length s) s))). change (zlength [0]) with 1. lia.
Qed.

(** ** Reading *)

Lemma bytes_at_holds E p l n : holds E p l → zlength l <= n →
  bytes_at E p n = l ++ bytes_at E (p + zlength l) (n - zlength l).
Proof.
  intros Hh Hn. pose proof (zlength_nonneg l). apply list_eq. intros i. unfold bytes_at.
  destruct (decide (i < length l)%nat) as [Hi|Hi].
  - rewrite lookup_app_l, list_lookup_fmap, lookup_seq_lt by (unfold zlength in *; lia). simpl.
    destruct (lookup_lt_is_Some_2 l i Hi) as [x Hx]. rewrite Hx. f_equal. apply Hh. unfold zlookup.
    destruct (Z.leb_spec 0 (Z.of_nat i)); [|lia]. by rewrite Nat2Z.id.
  - rewrite lookup_app_r, !list_lookup_fmap by lia. unfold zlength in *.
    destruct (decide (i < Z.to_nat n)%nat).
    + rewrite !lookup_seq_lt by lia. simpl. do 2 f_equal. lia.
    + rewrite !lookup_seq_ge by lia. done.
Qed.

Lemma bytes_at_app E p n m : 0 <= n → 0 <= m → bytes_at E p (n + m) = bytes_at E p n ++ bytes_at E (p + n) m.
Proof.
  intros Hn Hm. assert (holds E p (bytes_at E p n)) as Hh.
  { intros j x Hj. pose proof (zlookup_Some_lt _ _ _ Hj) as Hlt. unfold zlookup in Hj.
    destruct (Z.leb_spec 0 j); [|done]. unfold bytes_at in Hj. rewrite list_lookup_fmap in Hj.
    unfold bytes_at, zlength in Hlt. rewrite length_fmap, length_seq in Hlt. rewrite lookup_seq_lt in Hj by lia.
    simpl in Hj. injection Hj as <-. f_equal. lia. }
  assert (zlength (bytes_at E p n) = n) as Hl by (unfold bytes_at, zlength; rewrite length_fmap, length_seq; lia).
  rewrite (bytes_at_holds E p _ (n + m) Hh) by lia. rewrite Hl. do 2 f_equal. lia.
Qed.

Lemma y_chunks_spec fuel E a b d : b <= Z.of_nat fuel * 1024 →
  y_chunks fuel E a b d = d ++ fromCharCode (bytes_at E a b).
Proof.
  revert a b d. induction fuel as [|fuel IH]; intros a b d Hb; simpl.
  - unfold bytes_at. replace (Z.to_nat b) with 0%nat by lia. simpl. by rewrite app_nil_r.
  - destruct (Z.ltb_spec 0 b).
    + rewrite IH, <- app_assoc by lia. f_equal. unfold fromCharCode. rewrite <- fmap_app. f_equal.
      destruct (Z.le_gt_cases b 1024).
      * rewrite Z.min_l by lia. replace (bytes_at E (a + 1024) (b - 1024)) with (@nil Z); [by rewrite app_nil_r|].
        unfold bytes_at. by replace (Z.to_nat (b - 1024)) with 0%nat by lia.
      * rewrite Z.min_r, <- bytes_at_app by lia. f_equal. lia.
    + unfold bytes_at. replace (Z.to_nat b) with 0%nat by lia. simpl. by rewrite app_nil_r.
Qed.

Lemma y_scan_spec fuel E a bs f c :
  holds E (a + f) (bs ++ [0]) → Forall (fun x => 0 < x) bs → (length bs < fuel)%nat →
  y_scan fuel E a f c = Some (f + zlength bs, foldl Z.lor c bs).
Proof.
  revert fuel f c. induction bs as [|x bs IH]; intros fuel f c Hh Hb Hf; (destruct fuel as [|fuel]; [simpl in Hf; lia|]); simpl.
  - assert (E (a + f) = 0) as -> by (rewrite <- (Z.add_0_r (a + f)); apply Hh; reflexivity).
    simpl. by rewrite Z.lor_0_r, Z.add_0_r.
  - inversion_clear Hb as [|?? Hx Hb']. assert (E (a + f) = x) as -> by (rewrite <- (Z.add_0_r (a + f)); apply Hh; reflexivity).
    destruct (Z.eqb_spec x 0); [lia|]. rewrite IH; [|..|done|simpl in Hf; lia].
    + rewrite zlength_cons. do 2 f_equal. lia.
    + change (x :: bs) with ([x] ++ bs) in Hh. rewrite <- app_assoc in Hh. apply holds_app_inv in Hh as [_ Hh].
      by rewrite <- Z.add_assoc in Hh.
Qed.

Lemma foldl_lor_below bs c : 0 <= c → Forall (fun x => 0 < x) bs →
  foldl Z.lor c bs < 128 ↔ c < 128 ∧ Forall (fun x => x < 128) bs.
Proof.
  intros Hc Hb. revert c Hc. induction Hb as [|x bs Hx _ IH]; intros c Hc; simpl; [rewrite Forall_nil; tauto|].
  rewrite IH by (apply Z.lor_nonneg; lia). change 128 with (2 ^ 7) at 1. rewrite (lor_below c x 7) by lia. change (2 ^ 7) with 128.
  rewrite Forall_cons. tauto.
Qed.

Lemma Ca_ascii bs m rest : Forall (fun x => 0 < x < 128) bs → (length bs < m)%nat → Ca_loop m (bs ++ 0 :: rest) = bs.
Proof.
  intros Hb. revert m. induction Hb as [|x bs Hx _ IH]; intros m Hm; (destruct m as [|m]; [simpl in Hm; lia|]); [done|].
  cbn [app Ca_loop]. destruct (Z.eqb_spec x 0); [lia|].
  below 128%nat (fun x => (Z.land x 128 =? 0) && (u16 x =? x)).
  pose proof (H x ltac:(lia)) as Hc. rewrite andb_true_iff, !Z.eqb_eq in Hc. destruct Hc as [-> Hu].
  rewrite IH by (simpl in Hm; lia). unfold fromCharCode. simpl. by rewrite Hu.
Qed.

(** Reading a C string gives the JavaScript string it was made from. *)
Lemma y_cstr total E p s :
  wf16 s = true → holds E p (cstr s) → 0 < p → p + zlength (cstr s) <= total → y total E p = GoRet s.
Proof.
  intros Hs Hh Hp Hfit. set (bs := utf8_bytes (chars (length s) s)) in *.
  assert (zlength (cstr s) = zlength bs + 1) as Hlen by (unfold cstr; rewrite zlength_app; done).
  assert (Forall (fun x => 0 < x < 256 ∧ (x = 10 → 10 ∈ s)) bs) as Hall by (by apply text_bytes).
  assert (Forall (fun x => 0 < x) bs) as Hpos. { eapply Forall_impl; [exact Hall|]. intros x [? _]. simpl. lia. }
  assert (∀ n rest, (length bs < n)%nat → Ca_loop n (bs ++ 0 :: rest) = s) as HCa.
  { intros n rest Hn. apply Ca_chars_rest; [done|lia|done]. }
  unfold y. destruct (Z.eqb_spec p 0); [lia|].
  rewrite (y_scan_spec _ E p bs 0 0); [|by rewrite Z.add_0_r|done|unfold zlength in *; lia].
  rewrite Z.add_0_l. destruct (Z.ltb_spec (foldl Z.lor 0 bs) 128) as [Hlt|_].
  - apply foldl_lor_below in Hlt as [_ Hlow]; [|lia|done]. f_equal.
    rewrite y_chunks_spec, app_nil_l by (pose proof (zlength_nonneg bs); lia).
    rewrite (bytes_at_holds E p bs) by (first [by apply holds_app_inv in Hh as [Hh _]|lia]). rewrite Z.sub_diag, app_nil_r.
    assert (Forall (fun x => 0 < x < 128) bs) as Hab.
    { rewrite Forall_forall in *. intros x Hx. split; [by apply Hpos|by apply Hlow]. }
    trans bs; [|rewrite <- (HCa (S (length bs)) []) by lia; symmetry; by apply Ca_ascii; [|lia]].
    unfold fromCharCode. rewrite <- (list_fmap_id bs) at 2. apply list_fmap_ext. intros i x Hx. apply u16_id.
    apply list_elem_of_lookup_2 in Hx. rewrite Forall_forall in Hab. apply Hab in Hx. unfold id. lia.
  - f_equal. unfold Ca. assert (cstr s = bs ++ [0]) as Hcs by done.
    rewrite (bytes_at_holds E p (cstr s) _ Hh), Hcs, <- app_assoc by lia. apply HCa.
    rewrite !length_app. simpl. lia.
Qed.

(** ** Converting the arguments *)

(** The stack room the string arguments take at most. *)
Definition room (ss : list jsstr) : Z := foldr (fun s n => 4 * zlength s + 17 + n) 0 ss.

Lemma room_nonneg ss : 0 <= room ss.
Proof. induction ss as [|s ss IH]; simpl; [lia|]. pose proof (zlength_nonneg s). lia. Qed.

Lemma stringToC_spec s M :
  wf16 s = true → 0 < m_top M → m_top M + 4 * zlength s + 17 < 2 ^ 31 →
  ∃ top, stringToC (Some s) M = (m_top M, mkMach (E_set (cstr s) (m_top M) (m_E M)) top) ∧
    m_top M + zlength (cstr s) <= top <= m_top M + 4 * zlength s + 17.
Proof.
  intros Hs Hm Hlt. pose proof (zlength_nonneg s). unfold stringToC.
  assert (i32 (Z.shiftl (zlength s) 2) = 4 * zlength s) as ->.
  { rewrite Z.shiftl_mul_pow2 by lia. change (2 ^ 2) with 4. unfold i32. rewrite Z.mod_small; width. }
  pose proof (stack_alloc_spec (m_top M) (4 * zlength s + 1) ltac:(lia) ltac:(lia) ltac:(lia)) as Hsp.
  destruct (stack_alloc _ _) as [b top]. destruct Hsp as (-> & _ & Htop). exists top.
  rewrite sa_cstr by done. split; [done|]. pose proof (cstr_room s Hs). lia.
Qed.

(** Every string is handed over as a pointer to its C string, above the stack
    top; the memory below the old and above the new top is untouched, and the
    saved top is the old one. *)
Lemma convert_strings ss M t :
  Forall (fun s => wf16 s = true) ss → 0 < m_top M → m_top M + room ss < 2 ^ 31 →
  ∃ ps M', convert ((fun s => CString (Some s)) <$> ss) t M =
      (ps, match ss with [] => t | _ => if t =? 0 then m_top M else t end, M') ∧
    m_top M <= m_top M' <= m_top M + room ss ∧
    (∀ a, a < m_top M ∨ m_top M' <= a → m_E M' a = m_E M a) ∧
    Forall2 (fun p s => m_top M <= p ∧ p + zlength (cstr s) <= m_top M' ∧ holds (m_E M') p (cstr s)) ps ss.
Proof.
  intros Hss. revert M t. induction Hss as [|s ss Hs Hss IH]; intros M t Hm Hlt; simpl in Hlt.
  { exists [], M. split; [done|]. simpl. split; [lia|]. split; [done|constructor]. }
  pose proof (zlength_nonneg s). pose proof (room_nonneg ss). rewrite fmap_cons. cbn [convert].
  destruct (stringToC_spec s M Hs Hm ltac:(lia)) as (top & -> & Htop). set (M1 := mkMach _ top).
  pose proof (cstr_room s Hs) as Hroom.
  destruct (IH M1 (if t =? 0 then m_top M else t) ltac:(simpl; lia) ltac:(simpl; lia)) as (ps & M' & -> & Ht & Hout & Hps).
  simpl in Ht, Hout, Hps. exists (m_top M :: ps), M'. split; [|split; [simpl; lia|split]].
  - destruct ss; [done|]. destruct (Z.eqb_spec t 0) as [|Ht0]; [|by destruct (Z.eqb_spec t 0)].
    by destruct (Z.eqb_spec (m_top M) 0); [lia|].
  - intros a Ha. rewrite Hout by (destruct Ha; [left|right]; lia). simpl. unfold E_set.
    destruct (zlookup (cstr s) (a - m_top M)) eqn:E; [|done]. apply zlookup_Some_lt in E. lia.
  - constructor; [|eapply Forall2_impl; [exact Hps|]; simpl; intros p x (? & ? & ?); split_and!; [lia|done|done]].
    split; [lia|]. split; [lia|]. intros j x Hj. pose proof (zlookup_Some_lt _ _ _ Hj). rewrite Hout by (left; lia).
    simpl. unfold E_set. replace (m_top M + j - m_top M) with j by lia. by rewrite Hj.
Qed.

(** A call with strings: the function finds them where its arguments point,
    between the old and the new stack top, the rest of the memory is unchanged, and
    the top is restored. *)
Lemma ccall_strings total f ss M :
  Forall (fun s => wf16 s = true) ss → ss ≠ [] → 0 < m_top M → m_top M + room ss < Z.min total (2 ^ 31) →
  ∃ ps M1,
    Forall2 (fun p s => m_top M <= p < m_top M1 ∧ y total (m_E M1) p = GoRet s) ps ss ∧
    (∀ a, a < m_top M ∨ m_top M1 <= a → m_E M1 a = m_E M a) ∧ m_top M <= m_top M1 <= m_top M + room ss ∧
    ccall f ((fun s => CString (Some s)) <$> ss) M =
      (let! (d, M2) := f ps M1 in GoRet (d, mkMach (m_E M2) (m_top M))).
Proof.
  intros Hss Hne Hm Hlt. destruct (convert_strings ss M 0 Hss Hm ltac:(lia)) as (ps & M1 & E & Htop & Hout & Hps).
  exists ps, M1. split_and!; [|done|lia|lia|].
  - assert (m_top M1 <= total) as Htot by lia. clear -Hps Hss Hm Htot.
    induction Hps as [|p s ps ss (Hp1 & Hp2 & Hp3) _ IH]; [constructor|].
    inversion_clear Hss as [|?? Hs Hss']. pose proof (cstr_room s Hs).
    constructor; [split; [lia|apply y_cstr; (done || lia)]|by apply IH].
  - unfold ccall. rewrite E. destruct ss; [done|]. cbn match. change (0 =? 0) with true. cbn match.
    destruct (f ps M1) as [[d M2]| |]; [|done..]. cbn [go_bind]. by destruct (Z.eqb_spec (m_top M) 0); [lia|].
Qed.

(** ** What the object code promises *)

(** The memory [M] with the arguments of a call on the stack of a fresh module
    [M0]: outside the part of the stack they take it is as it was. *)
Definition with_arguments (M0 M : mach) (ss : list jsstr) : Prop :=
  m_top M0 <= m_top M <= m_top M0 + room ss ∧ ∀ a, a < m_top M0 ∨ m_top M <= a → m_E M a = m_E M0 a.

(** On the C level, in the memory of a fresh module [M0]: given pointers to a
    source, a format and an engine on its stack, it either throws (it aborts, or
    runs out of memory), or returns a pointer to the result; then, in the memory the call left and
    with the stack as before the call, it returns a pointer to the message of the
    last error.  Both strings, or the exception, are what [spec] says. *)
Class Graphviz (total : Z) (M0 : mach) (vizRenderFromString vizLastErrorMessage : cfun)
    (spec : jsstr → jsstr → jsstr → go Z (jsstr * jsstr)) : Prop := {
  gv_calls : ∀ M p1 p2 p3 src format engine,
    with_arguments M0 M [src; format; engine] → m_top M < total →
    Forall (fun p => m_top M0 <= p < m_top M) [p1; p2; p3] →
    y total (m_E M) p1 = GoRet src → y total (m_E M) p2 = GoRet format → y total (m_E M) p3 = GoRet engine →
    match spec src format engine with
    | GoRet (result, message) =>
        ∃ r M', vizRenderFromString [p1; p2; p3] M = GoRet (r, M') ∧ y total (m_E M') r = GoRet result ∧
          ∃ q M3, vizLastErrorMessage [] (mkMach (m_E M') (m_top M0)) = GoRet (q, M3) ∧ y total (m_E M3) q = GoRet message
    | GoErr e => vizRenderFromString [p1; p2; p3] M = GoErr e
    | GoPanic p => vizRenderFromString [p1; p2; p3] M = GoPanic p
    end
}.

Lemma render_mem_spec total M vr ve spec src format engine :
  Graphviz total M vr ve spec → wf16 src = true → wf16 format = true → wf16 engine = true →
  0 < m_top M → m_top M + room [src; format; engine] < Z.min total (2 ^ 31) →
  render_mem total vr ve src format engine M =
    (let! (r, err) := spec src format engine in GoRet (if decide (err ≠ []) then inl err else inr r)).
Proof.
  intros Hg H1 H2 H3 Hm Hlt.
  destruct (ccall_strings total vr [src; format; engine] M) as (ps & M1 & Hps & Hout & Htop & E);
    [by repeat constructor|done|done|done|].
  apply Forall2_cons_inv_r in Hps as (p1 & ps1 & [Q1 Hp1] & Hps & ->).
  apply Forall2_cons_inv_r in Hps as (p2 & ps2 & [Q2 Hp2] & Hps & ->).
  apply Forall2_cons_inv_r in Hps as (p3 & ps3 & [Q3 Hp3] & Hps & ->). apply Forall2_nil_inv_r in Hps as ->.
  assert (m_top M1 < total) as Htot by lia.
  assert (Forall (fun p => m_top M <= p < m_top M1) [p1; p2; p3]) as Hps by (repeat (constructor; [done|]); constructor).
  pose proof (@gv_calls _ _ _ _ _ Hg M1 p1 p2 p3 src format engine (conj Htop Hout) Htot Hps Hp1 Hp2 Hp3) as Hc.
  unfold render_mem. cbn [fmap list_fmap] in E. rewrite E.
  destruct (spec src format engine) as [[res err]|e|p]; [|by rewrite Hc..].
  destruct Hc as (r & M2 & -> & Hr & q & M3 & Eq & Hq). cbn [go_bind m_E]. rewrite Hr. cbn [go_bind].
  unfold ccall. cbn [convert]. rewrite Eq. cbn [go_bind]. change (0 =? 0) with true. cbn match. rewrite Hq. cbn [go_bind].
  by case_decide.
Qed.

(** Reading a string looks at the memory from its pointer on. *)
Lemma y_ext total E E' p : (∀ x, p <= x → E' x = E x) → y total E' p = y total E p.
Proof.
  intros Hx. unfold y.
  assert (∀ n f c, 0 <= f → y_scan n E' p f c = y_scan n E p f c) as Hs.
  { induction n as [|n IH]; intros f c Hf; [done|]. cbn [y_scan]. rewrite Hx, !IH by lia. done. }
  assert (∀ a n, p <= a → bytes_at E' a n = bytes_at E a n) as Hb.
  { intros a n Ha. unfold bytes_at. apply list_fmap_ext. intros i x Hi. apply Hx. lia. }
  assert (∀ n a b d, p <= a → y_chunks n E' a b d = y_chunks n E a b d) as Hc.
  { induction n as [|n IH]; intros a b d Ha; [done|]. cbn [y_chunks]. rewrite Hb, IH by lia. done. }
  rewrite Hs by lia. destruct (p =? 0); [done|]. destruct (y_scan _ E p 0 0) as [[f c]|]; [|done]. by rewrite Hc, Hb by lia.
Qed.
