(* ===== verification/VizColors.v ===== *)
(** * The colour table of the viewer's static memory

    When [viz-lite.js] is loaded it writes its static data into memory with
    calls of [B]; the Graphviz object code then finds a colour by binary search
    in a table of 12-byte entries: a pointer to the name and the colour in HSV
    and RGB.  The theorems show what that search relies on: the table lies in
    the memory the segments initialise, every name pointer is a terminated
    string of that memory, the names are strictly increasing, and the value
    component is the largest of the RGB components. *)

From Stdlib Require Import ZArith Lia.
From stdpp Require Import base list gmap.
From S2P Require Import Prelude VizData VizMemory.

Open Scope Z_scope.

(** ** The table *)

Definition color_table : Z := 59640.
Definition color_count : Z := 2491.

Record color : Type := mkColor {
  c_name : Z; c_h : Z; c_s : Z; c_v : Z; c_r : Z; c_g : Z; c_b : Z; c_a : Z
}.

Definition color_at (E : heap) (k : Z) : color :=
  let p := color_table + 12 * k in
  mkColor (load32 E p) (E (p + 4)) (E (p + 5)) (E (p + 6)) (E (p + 7)) (E (p + 8)) (E (p + 9)) (E (p + 10)).

(** [strcmp] order of names. *)
Fixpoint name_lt (a b : list Z) : bool :=
  match a, b with
  | [], _ :: _ => true
  | x :: a', y :: b' => (x <? y) || ((x =? y) && name_lt a' b')
  | _, _ => false
  end.

(** ** The bytes of the tables *)

(** The segments in the order of the calls, with the bytes of the gaps. *)
Definition table_bytes : list Z :=
  drop (Z.to_nat 5808) segment_53824 ++ [0; 0; 0] ++ segment_64066 ++ segment_74306 ++ take (Z.to_nat 4978) segment_84546.

Definition name_base : Z := n_q + 125938.
Definition name_bytes : list Z :=
  segment_125938 ++ segment_136178 ++ segment_146418 ++ [0] ++ segment_156658.

(** Segments that follow each other. *)
Lemma segments_lengths :
  zlength (drop (Z.to_nat 5808) segment_53824) = 4431 ∧ zlength segment_64066 = 10240 ∧
  zlength segment_74306 = 10240 ∧ zlength segment_125938 = 10240 ∧ zlength segment_136178 = 10240 ∧
  zlength segment_146418 = 10239.
Proof. vm_compute. done. Qed.

(** One segment at its place in a table. *)
Ltac segment n := eapply holds_at; [by apply (static_holds n)|autorewrite with zlist; unfold name_base, color_table, n_q; lia].

Lemma table_holds : holds static_memory color_table table_bytes.
Proof.
  destruct segments_lengths as (L1 & L2 & L3 & _). unfold table_bytes.
  apply holds_app.
  { apply (holds_drop _ (n_q + 53824) segment_53824 (Z.to_nat 5808)); [apply Nat.leb_le; vm_compute; reflexivity|]. by apply (static_holds 3). }
  rewrite L1. apply holds_app; [apply static_gap; [vm_compute; reflexivity|by repeat constructor]|].
  apply holds_app; [segment 4%nat|]. rewrite L2. apply holds_app; [segment 5%nat|]. rewrite L3.
  apply holds_take. segment 6%nat.
Qed.

Lemma names_hold : holds static_memory name_base name_bytes.
Proof.
  destruct segments_lengths as (_ & _ & _ & L1 & L2 & L3). unfold name_bytes.
  apply holds_app; [segment 10%nat|]. rewrite L1. apply holds_app; [segment 11%nat|]. rewrite L2.
  apply holds_app; [segment 12%nat|]. rewrite L3.
  apply holds_app; [apply static_gap; [vm_compute; reflexivity|by repeat constructor]|]. segment 13%nat.
Qed.

(** ** Decoding *)

Fixpoint decode (l : list Z) : list color :=
  match l with
  | p0 :: p1 :: p2 :: p3 :: h :: s :: v :: r :: g :: b :: a :: _ :: l' =>
      mkColor (p0 + 256 * p1 + 65536 * p2 + 16777216 * p3) h s v r g b a :: decode l'
  | _ => []
  end.

Lemma decode_spec E k : ∀ l n c,
  holds E (color_table + 12 * Z.of_nat k) l → decode l !! n = Some c →
  color_at E (Z.of_nat (k + n)) = c.
Proof.
  intros l n c. revert k l. induction n as [|n IH]; intros k l Hl Hc.
  - do 12 (destruct l as [|? l]; [done|]). injection Hc as <-. rewrite Nat.add_0_r.
    unfold color_at, load32. set (p := color_table + 12 * Z.of_nat k) in *.
    pose proof (Hl 0 _ eq_refl) as H0. rewrite Z.add_0_r in H0. rewrite H0.
    by rewrite (Hl 1 _ eq_refl), (Hl 2 _ eq_refl), (Hl 3 _ eq_refl), (Hl 4 _ eq_refl), (Hl 5 _ eq_refl),
      (Hl 6 _ eq_refl), (Hl 7 _ eq_refl), (Hl 8 _ eq_refl), (Hl 9 _ eq_refl), (Hl 10 _ eq_refl).
  - do 12 (destruct l as [|? l]; [done|]). replace (k + S n)%nat with (S k + n)%nat by lia.
    apply (IH (S k) l); [|exact Hc].
    eapply (holds_app_inv E _ [_; _; _; _; _; _; _; _; _; _; _; _] l) in Hl as [_ Hl].
    change (zlength [_; _; _; _; _; _; _; _; _; _; _; _]) with 12 in Hl.
    by replace (color_table + 12 * Z.of_nat (S k)) with (color_table + 12 * Z.of_nat k + 12) by lia.
Qed.

(** The terminated strings of a range, with their addresses. *)
Fixpoint strings_from (start p : Z) (cur : list Z) (l : list Z) : list (Z * list Z) :=
  match l with
  | [] => []
  | x :: l' =>
      if x =? 0 then (start, rev cur) :: strings_from (p + 1) (p + 1) [] l'
      else strings_from start (p + 1) (x :: cur) l'
  end.

Lemma cstring_spec E p s fuel :
  Forall (fun x => x ≠ 0) s → holds E p (s ++ [0]) → (length s < fuel)%nat → cstring fuel E p = Some s.
Proof.
  revert p fuel. induction s as [|x s IH]; intros p fuel Hnz Hs Hf; (destruct fuel as [|fuel]; [simpl in Hf; lia|]); simpl.
  - pose proof (Hs 0 0 eq_refl) as H. rewrite Z.add_0_r in H. by rewrite H.
  - inversion_clear Hnz as [|?? Hx Hs']. pose proof (Hs 0 x eq_refl) as H. rewrite Z.add_0_r in H. rewrite H.
    destruct (Z.eqb_spec x 0); [done|].
    rewrite (IH (p + 1) fuel); [done|done| |simpl in Hf; lia].
    by apply (holds_app_inv E p [x] (s ++ [0])) in Hs as [_ Hs].
Qed.

Lemma strings_from_spec E l : ∀ start p cur a s,
  (a, s) ∈ strings_from start p cur l →
  holds E start (rev cur ++ l) → p = start + zlength cur → Forall (fun x => x ≠ 0) cur →
  Forall (fun x => x ≠ 0) s ∧ holds E a (s ++ [0]).
Proof.
  induction l as [|x l IH]; intros start p cur a s Hin Hh Hp Hnz; [by apply not_elem_of_nil in Hin|].
  simpl in Hin. destruct (Z.eqb_spec x 0) as [->|Hx].
  - apply elem_of_cons in Hin as [[= -> ->]|Hin].
    + split; [by apply Forall_rev|]. change (0 :: l) with ([0] ++ l) in Hh. rewrite app_assoc in Hh.
      by apply holds_app_inv in Hh as [Hh _].
    + eapply IH; [exact Hin| |autorewrite with zlist; lia|constructor].
      change (0 :: l) with ([0] ++ l) in Hh. rewrite app_assoc in Hh. apply holds_app_inv in Hh as [_ Hh].
      assert (start + zlength (rev cur ++ [0]) = p + 1) as E1.
      { rewrite zlength_app. unfold zlength in *. rewrite length_rev. simpl. lia. }
      by rewrite E1 in Hh.
  - eapply IH; [exact Hin| |autorewrite with zlist; lia|by constructor].
    simpl. rewrite <- app_assoc. done.
Qed.

(** ** The checks *)

Definition index_strings (base : Z) (l : list Z) : gmap Z (list Z) :=
  list_to_map (strings_from base base [] l).

Definition names_map : gmap Z (list Z) := index_strings name_base name_bytes.

(** The names of the colours, in table order. *)
Definition color_names (names : gmap Z (list Z)) (cs : list color) : option (list (list Z)) :=
  mapM (fun c => names !! c_name c) cs.

Fixpoint increasing (ns : list (list Z)) : bool :=
  match ns with
  | a :: (b :: _) as ns' => name_lt a b && increasing ns'
  | _ => true
  end.

Definition color_ok (c : color) : bool :=
  (c_v c =? Z.max (c_r c) (Z.max (c_g c) (c_b c))) && ((c_a c =? 255) || (c_a c =? 0)).

Definition names_checked (ns : option (list (list Z))) : bool :=
  match ns with
  | Some l => (zlength l =? color_count) && increasing l && forallb (fun n => zlength n <? 32) l
  | None => false
  end.

Lemma table_checked :
  names_checked (color_names names_map (decode table_bytes)) && forallb color_ok (decode table_bytes) = true.
Proof. vm_compute. reflexivity. Qed.

Lemma name_lt_trans a b c : name_lt a b = true → name_lt b c = true → name_lt a c = true.
Proof.
  revert b c. induction a as [|x a IH]; intros [|y b] [|z c]; simpl; try done.
  rewrite !orb_true_iff, !andb_true_iff, !Z.ltb_lt, !Z.eqb_eq. intros [?|[-> ?]] [?|[-> ?]].
  - left. lia.
  - left. lia.
  - left. lia.
  - right. split; [done|]. by eapply IH.
Qed.

Lemma increasing_lt ns : increasing ns = true → ∀ i j a b,
  (i < j)%nat → ns !! i = Some a → ns !! j = Some b → name_lt a b = true.
Proof.
  induction ns as [|n ns IH]; [done|]. intros H i j a b Hij Ha Hb.
  destruct j as [|j]; [lia|]. simpl in Hb. destruct ns as [|n' ns']; [done|].
  simpl in H. apply andb_true_iff in H as [H1 H2]. destruct i as [|i].
  - simpl in Ha. injection Ha as <-. destruct j as [|j]; [by injection Hb as <-|].
    eapply name_lt_trans; [exact H1|]. by apply (IH H2 0%nat (S j) n' b ltac:(lia) eq_refl Hb).
  - by apply (IH H2 i j a b ltac:(lia) Ha Hb).
Qed.

(** A table whose names, read one by one, are an increasing list. *)
Lemma names_in_order ns (count : Z) (name : Z → option (list Z)) :
  increasing ns = true → (∀ k, 0 <= k < count → ∃ n, ns !! Z.to_nat k = Some n ∧ name k = Some n) →
  ∀ j k a b, 0 <= j < k → k < count → name j = Some a → name k = Some b → name_lt a b = true.
Proof.
  intros Hinc He j k a b Hj Hk Ha Hb. destruct (He j ltac:(lia)) as (n1 & H1 & Hc1).
  destruct (He k ltac:(lia)) as (n2 & H2 & Hc2). rewrite Hc1 in Ha. rewrite Hc2 in Hb.
  injection Ha as <-. injection Hb as <-. eapply increasing_lt; [done| |done|done]. lia.
Qed.

(** What the checks give for a table [cs] decoded from memory, with names [m]. *)
Section Table.
Context (E : heap) (bytes : list Z) (m : gmap Z (list Z)) (ns : list (list Z)).
Context (Hbytes : holds E color_table bytes).
Context (Hm : ∀ a s, m !! a = Some s → Forall (fun x => x ≠ 0) s ∧ holds E a (s ++ [0])).
Context (Hns : color_names m (decode bytes) = Some ns) (Hlen : zlength ns = color_count).
Context (Hinc : increasing ns = true) (Hshort : forallb (fun n => zlength n <? 32) ns = true).
Context (Hok : forallb color_ok (decode bytes) = true).

Lemma table_entry k :
  0 <= k < color_count →
  ∃ n, ns !! Z.to_nat k = Some n ∧ cstring 32 E (c_name (color_at E k)) = Some n ∧
    color_ok (color_at E k) = true.
Proof using All.
  intros Hk. destruct (lookup_lt_is_Some_2 ns (Z.to_nat k)) as [n Hn]; [unfold zlength in Hlen; lia|].
  pose proof (mapM_Some_1 _ _ _ Hns) as HF.
  destruct (Forall2_lookup_r _ _ _ _ _ HF Hn) as (c & Hc & Hname).
  pose proof (decode_spec E 0 bytes (Z.to_nat k) c ltac:(by rewrite Z.mul_0_r, Z.add_0_r) Hc) as Hcol.
  rewrite Nat.add_0_l, Z2Nat.id in Hcol by lia. exists n. rewrite Hcol. split; [done|].
  destruct (Hm _ _ Hname) as [Hnz Hh]. rewrite forallb_forall in Hshort, Hok. split.
  - apply cstring_spec; [done..|].
    specialize (Hshort n (proj1 (list_elem_of_In _ _) (list_elem_of_lookup_2 _ _ _ Hn))).
    apply Z.ltb_lt in Hshort. unfold zlength in Hshort. lia.
  - apply Hok. apply list_elem_of_In. by eapply list_elem_of_lookup_2.
Qed.
End Table.

Lemma index_strings_spec E base l a s :
  holds E base l → index_strings base l !! a = Some s →
  Forall (fun x => x ≠ 0) s ∧ holds E a (s ++ [0]).
Proof.
  intros Hh H. apply elem_of_list_to_map_2 in H.
  eapply strings_from_spec; [exact H|exact Hh|autorewrite with zlist; lia|constructor].
Qed.

Lemma names_map_spec a s :
  names_map !! a = Some s → Forall (fun x => x ≠ 0) s ∧ holds static_memory a (s ++ [0]).
Proof. exact (index_strings_spec static_memory name_base name_bytes a s names_hold). Qed.

Lemma names_checked_spec ns :
  names_checked ns = true →
  ∃ l, ns = Some l ∧ zlength l = color_count ∧ increasing l = true ∧ forallb (fun n => zlength n <? 32) l = true.
Proof.
  destruct ns as [l|]; [|done]. simpl. rewrite !andb_true_iff, Z.eqb_eq. intros [[]]. by exists l.
Qed.

(** The name of the [k]-th colour. *)
Definition color_name (k : Z) : option (list Z) := cstring 32 static_memory (c_name (color_at static_memory k)).

Lemma colors_search :
  (∀ k, 0 <= k < color_count → is_Some (color_name k) ∧ color_ok (color_at static_memory k) = true) ∧
  (∀ j k a b, 0 <= j < k → k < color_count → color_name j = Some a → color_name k = Some b →
     name_lt a b = true).
Proof.
  pose proof table_checked as H. apply andb_true_iff in H as [Hn Hok].
  destruct (names_checked_spec _ Hn) as (ns & Hns & Hlen & Hinc & Hshort).
  pose proof (table_entry static_memory table_bytes names_map ns table_holds names_map_spec Hns Hlen Hinc Hshort Hok) as He.
  split.
  - intros k Hk. destruct (He k Hk) as (n & _ & Hc & Ho). split; [by exists n|done].
  - apply (names_in_order ns color_count); [exact Hinc|]. intros k Hk.
    destruct (He k Hk) as (n & Hnk & Hc & _). exists n. exact (conj Hnk Hc).
Qed.
