(* ===== verification/VizEntities.v ===== *)
(** * The entity table of the viewer's static memory

    Labels may hold HTML character entities; the Graphviz object code looks the
    name up by binary search in a table of 8-byte entries of the static memory:
    a pointer to the name and the code point. *)

From Stdlib Require Import ZArith Lia.
From stdpp Require Import base list gmap.
From S2P Require Import Prelude VizData VizMemory VizColors.

Open Scope Z_scope.

Definition entity_table : Z := 57152.
Definition entity_count : Z := 252.

Record entity : Type := mkEntity { e_name : Z; e_value : Z }.

Definition entity_at (E : heap) (k : Z) : entity :=
  let p := entity_table + 8 * k in mkEntity (load32 E p) (load32 E (p + 4)).

(** The name of the [k]-th entity. *)
Definition entity_name (k : Z) : option (list Z) := cstring 16 static_memory (e_name (entity_at static_memory k)).

(** A code point outside the control characters and the surrogates. *)
Definition entity_ok (e : entity) : bool := (32 <? e_value e) && (e_value e <? 55296).

(** ** The bytes of the table *)

Definition entity_bytes : list Z := take (Z.to_nat (8 * entity_count)) (drop (Z.to_nat 3320) segment_53824).

Lemma entity_holds : holds static_memory entity_table entity_bytes.
Proof.
  apply holds_take. apply (holds_drop _ (n_q + 53824) segment_53824 (Z.to_nat 3320)).
  - apply Nat.leb_le. vm_compute. reflexivity.
  - by apply (static_holds 3).
Qed.

Fixpoint decode8 (l : list Z) : list entity :=
  match l with
  | p0 :: p1 :: p2 :: p3 :: v0 :: v1 :: v2 :: v3 :: l' =>
      mkEntity (p0 + 256 * p1 + 65536 * p2 + 16777216 * p3)
        (v0 + 256 * v1 + 65536 * v2 + 16777216 * v3) :: decode8 l'
  | _ => []
  end.

Lemma decode8_spec E k : ∀ l n e,
  holds E (entity_table + 8 * Z.of_nat k) l → decode8 l !! n = Some e → entity_at E (Z.of_nat (k + n)) = e.
Proof.
  intros l n e. revert k l. induction n as [|n IH]; intros k l Hl He.
  - do 8 (destruct l as [|? l]; [done|]). injection He as <-. rewrite Nat.add_0_r.
    unfold entity_at, load32. set (p := entity_table + 8 * Z.of_nat k) in *. rewrite <- !Z.add_assoc.
    pose proof (Hl 0 _ eq_refl) as H0. rewrite Z.add_0_r in H0. rewrite H0.
    by rewrite (Hl 1 _ eq_refl), (Hl 2 _ eq_refl), (Hl 3 _ eq_refl), (Hl 4 _ eq_refl),
      (Hl (4 + 1) _ eq_refl), (Hl (4 + 2) _ eq_refl), (Hl (4 + 3) _ eq_refl), !Z.add_assoc.
  - do 8 (destruct l as [|? l]; [done|]). replace (k + S n)%nat with (S k + n)%nat by lia.
    apply (IH (S k) l); [|exact He].
    eapply (holds_app_inv E _ [_; _; _; _; _; _; _; _] l) in Hl as [_ Hl].
    change (zlength [_; _; _; _; _; _; _; _]) with 8 in Hl.
    by replace (entity_table + 8 * Z.of_nat (S k)) with (entity_table + 8 * Z.of_nat k + 8) by lia.
Qed.

(** ** The checks *)

Definition entities_checked (names : gmap Z (list Z)) (es : list entity) : bool :=
  match mapM (fun e => names !! e_name e) es with
  | Some ns =>
      (zlength ns =? entity_count) && increasing ns && forallb (fun n => zlength n <? 16) ns && forallb entity_ok es
  | None => false
  end.

Lemma entities_check : entities_checked names_map (decode8 entity_bytes) = true.
Proof. vm_compute. reflexivity. Qed.

(** What the check gives for a table of a memory, with the strings [m] of it. *)
Section Table.
Context (E : heap) (bytes : list Z) (m : gmap Z (list Z)).
Context (Hbytes : holds E entity_table bytes).
Context (Hm : ∀ a s, m !! a = Some s → Forall (fun x => x ≠ 0) s ∧ holds E a (s ++ [0])).
Context (Hcheck : entities_checked m (decode8 bytes) = true).

Lemma entities_listed :
  ∃ ns, increasing ns = true ∧ ∀ k, 0 <= k < entity_count →
    ∃ n, ns !! Z.to_nat k = Some n ∧ cstring 16 E (e_name (entity_at E k)) = Some n ∧
      entity_ok (entity_at E k) = true.
Proof using All.
  unfold entities_checked in Hcheck. destruct (mapM _ _) as [ns|] eqn:Hns; [|done].
  rewrite !andb_true_iff, Z.eqb_eq, !forallb_forall in Hcheck. destruct Hcheck as [[[Hlen Hinc] Hshort] Hok].
  exists ns. split; [done|]. intros k Hk.
  destruct (lookup_lt_is_Some_2 ns (Z.to_nat k)) as [n Hn]; [unfold zlength in Hlen; lia|].
  destruct (Forall2_lookup_r _ _ _ _ _ (mapM_Some_1 _ _ _ Hns) Hn) as (e & He & Hname).
  pose proof (decode8_spec E 0 bytes (Z.to_nat k) e) as Hat.
  rewrite Z.mul_0_r, Z.add_0_r, Nat.add_0_l, Z2Nat.id in Hat by lia.
  specialize (Hat Hbytes He). exists n. rewrite Hat. destruct (Hm _ _ Hname) as [Hnz Hh].
  split_and!; [done| |].
  - apply cstring_spec; [done..|].
    specialize (Hshort n (proj1 (list_elem_of_In _ _) (list_elem_of_lookup_2 _ _ _ Hn))).
    apply Z.ltb_lt in Hshort. unfold zlength in Hshort. lia.
  - apply Hok. apply list_elem_of_In. by eapply list_elem_of_lookup_2.
Qed.
End Table.

Lemma entities_search :
  (∀ k, 0 <= k < entity_count → is_Some (entity_name k) ∧ entity_ok (entity_at static_memory k) = true) ∧
  (∀ j k a b, 0 <= j < k → k < entity_count → entity_name j = Some a → entity_name k = Some b →
     name_lt a b = true).
Proof.
  destruct (entities_listed static_memory entity_bytes names_map entity_holds names_map_spec entities_check)
    as (ns & Hinc & He). split.
  - intros k Hk. destruct (He k Hk) as (n & _ & Hn & Ho). split; [by exists n|exact Ho].
  - apply (names_in_order ns); [exact Hinc|]. intros k Hk.
    destruct (He k Hk) as (n & Hn & Hc & _). exists n. exact (conj Hn Hc).
Qed.
