(* ===== verification/VizInt64.v ===== *)
(** * The 64-bit arithmetic of the object code

    The object code of [viz-lite.js] has 32-bit integers.  A 64-bit integer is
    two of them, and the functions [vB] to [MB] at the end of the object code
    compute on such pairs: addition, subtraction, shifts, multiplication,
    division and remainder, signed and not, and the count of trailing zeros.
    A function returns the low half and leaves the high half in the variable
    [C]; here it returns the pair of both.  Division also stores the remainder
    in the memory when it gets an address for it. *)

From Stdlib Require Import ZArith Lia.
From stdpp Require Import base list.
From S2P Require Import Prelude VizRuntime VizMemory VizEnv.

Open Scope Z_scope.

(** ** The operators of JavaScript on 32-bit integers

    An operand of any size is brought to 32 bits first; a shift count is taken
    modulo 32.  [i32] is [x|0] and [u32] is [x>>>0]. *)

Definition jor (a b : Z) : Z := Z.lor (i32 a) (i32 b).
Definition jand (a b : Z) : Z := Z.land (i32 a) (i32 b).
Definition jxor (a b : Z) : Z := Z.lxor (i32 a) (i32 b).
Definition shl (a k : Z) : Z := i32 (Z.shiftl (i32 a) (Z.land k 31)).
Definition shr (a k : Z) : Z := Z.shiftr (i32 a) (Z.land k 31).
Definition shru (a k : Z) : Z := Z.shiftr (u32 a) (Z.land k 31).

(** [(a>>>0)/(b>>>0)>>>0] and [(a>>>0)%(b>>>0)] stored in an integer: the
    infinities and NaN of a division by zero become 0. *)
Definition udiv (a b : Z) : Z := if u32 b =? 0 then 0 else u32 a / u32 b.
Definition urem (a b : Z) : Z := if u32 b =? 0 then 0 else u32 a mod u32 b.

(** [(x|0)<0?-1:0], and [x>>31|((x|0)<0?-1:0)<<1]. *)
Definition neg_mask (x : Z) : Z := if i32 x <? 0 then -1 else 0.
Definition sign_lo (x : Z) : Z := jor (shr x 31) (shl (neg_mask x) 1).
Definition sign_hi (x : Z) : Z := jor (shr (neg_mask x) 31) (shl (neg_mask x) 1).

(** ** Sums, differences and shifts *)

(** [_i64Subtract]. *)
Definition vB (a b c d : Z) : Z * Z :=
  let a := i32 a in let b := i32 b in let c := i32 c in let d := i32 d in
  let d := u32 (b - d - Z.b2z (u32 a <? u32 c)) in
  (i32 (u32 (a - c)), d).

(** [_i64Add]. *)
Definition wB (a b c d : Z) : Z * Z :=
  let a := i32 a in let b := i32 b in let c := i32 c in let d := i32 d in
  let c := u32 (a + c) in
  (i32 c, u32 (b + d + Z.b2z (u32 c <? u32 a))).

(** [_bitshift64Lshr]. *)
Definition yB (a b c : Z) : Z * Z :=
  let a := i32 a in let b := i32 b in let c := i32 c in
  if c <? 32 then (jor (shru a c) (shl (jand b (shl 1 c - 1)) (32 - c)), shru b c)
  else (i32 (shru b (c - 32)), 0).

(** [_bitshift64Shl]. *)
Definition DB (a b c : Z) : Z * Z :=
  let a := i32 a in let b := i32 b in let c := i32 c in
  if c <? 32 then (shl a c, jor (shl b c) (shru (jand a (shl (shl 1 c - 1) (32 - c))) (32 - c)))
  else (0, shl a (c - 32)).

(** [_bitshift64Ashr]. *)
Definition EB (a b c : Z) : Z * Z :=
  let a := i32 a in let b := i32 b in let c := i32 c in
  if c <? 32 then (jor (shru a c) (shl (jand b (shl 1 c - 1)) (32 - c)), shr b c)
  else (i32 (shr b (c - 32)), if b <? 0 then -1 else 0).

(** ** Products *)

(** The product of two 32-bit integers. *)
Definition GB (a b : Z) : Z * Z :=
  let a := i32 a in let b := i32 b in
  let f := jand a 65535 in
  let e := jand b 65535 in
  let c := imul e f in
  let d := shru a 16 in
  let a := i32 (shru c 16 + imul e d) in
  let e := shru b 16 in
  let b := imul e f in
  (jor (shl (a + b) 16) (jand c 65535), i32 (shru a 16 + imul e d + shru (i32 (jand a 65535 + b)) 16)).

(** [___muldi3]. *)
Definition JB (a b c d : Z) : Z * Z :=
  let a := i32 a in let b := i32 b in let c := i32 c in let d := i32 d in
  let e := a in let f := c in
  let '(c, a) := GB e f in
  (i32 c, jor (imul b f + imul d e + a) (jand a 0)).

(** ** Trailing zeros *)

(** [nd], the table at [m]: for each byte, the number of its zeros below the
    lowest one, 8 for 0. *)
Definition nd : list Z :=
  [8;0;1;0;2;0;1;0;3;0;1;0;2;0;1;0;4;0;1;0;2;0;1;0;3;0;1;0;2;0;1;0;5;0;1;0;2;0;1;0;3;0;1;0;2;0;1;0;4;0;1;0;
   2;0;1;0;3;0;1;0;2;0;1;0;6;0;1;0;2;0;1;0;3;0;1;0;2;0;1;0;4;0;1;0;2;0;1;0;3;0;1;0;2;0;1;0;5;0;1;0;2;0;1;0;
   3;0;1;0;2;0;1;0;4;0;1;0;2;0;1;0;3;0;1;0;2;0;1;0;7;0;1;0;2;0;1;0;3;0;1;0;2;0;1;0;4;0;1;0;2;0;1;0;3;0;1;0;
   2;0;1;0;5;0;1;0;2;0;1;0;3;0;1;0;2;0;1;0;4;0;1;0;2;0;1;0;3;0;1;0;2;0;1;0;6;0;1;0;2;0;1;0;3;0;1;0;2;0;1;0;
   4;0;1;0;2;0;1;0;3;0;1;0;2;0;1;0;5;0;1;0;2;0;1;0;3;0;1;0;2;0;1;0;4;0;1;0;2;0;1;0;3;0;1;0;2;0;1;0].

(** [a[p>>0]]: a signed byte of the memory. *)
Definition load8s (E : heap) (p : Z) : Z := let x := E p in if x <? 128 then x else x - 256.

(** [c[p>>2]]: a signed word of the memory. *)
Definition load32s (E : heap) (p : Z) : Z := i32 (load32 E (Z.shiftl (Z.shiftr p 2) 2)).

Section Cttz.
(** [m], where the table is. *)
Context (m : Z).

(** [_llvm_cttz_i32]. *)
Definition FB (b : Z) (E : heap) : Z :=
  let b := i32 b in
  let c := load8s E (m + jand b 255) in
  if c <? 8 then c
  else
    let c := load8s E (m + jand (shr b 8) 255) in
    if c <? 8 then i32 (c + 8)
    else
      let c := load8s E (m + jand (shr b 16) 255) in
      if c <? 8 then i32 (c + 16)
      else i32 (load8s E (m + shru b 24) + 24).

(** ** Division *)

(** [if(f){c[f>>2]=lo;c[f+4>>2]=hi}]. *)
Definition put_rem (f lo hi : Z) (E : heap) : heap :=
  if f =? 0 then E else store32 (f + 4) hi (store32 f lo E).

(** How the cases of [___udivmoddi4] end: with the result (quotient and
    memory), or with the counter, the remainder ([a], [b]) and the dividend
    ([g], [i]) of the loop. *)
Inductive mb_case : Type :=
| MBDone (lo hi : Z) (E : heap)
| MBLoop (h a b g i : Z).

(** The high half of the dividend is not 0 and the low half of the divisor is not 0. *)
Definition MB_low (a b d e f : Z) (E : heap) : mb_case :=
  let l := a in let j := b in let k := j in let h := d in let i := e in
  if negb (i =? 0) then
    let g := i32 (clz32 i - clz32 k) in
    if u32 g <=? 31 then
      let m := i32 (g + 1) in
      let i := i32 (31 - g) in
      let b := shr (g - 31) 31 in
      MBLoop m (jor (jand (shru l (u32 m)) b) (shl k i)) (jand (shru k (u32 m)) b) 0 (shl l i)
    else MBDone 0 0 (put_rem f (i32 a) (jor j (jand b 0)) E)
  else
    let g := i32 (h - 1) in
    if negb (jand g h =? 0) then
      let i := i32 (clz32 h + 33 - clz32 k) in
      let p := i32 (64 - i) in
      let m := i32 (32 - i) in
      let j := shr m 31 in
      let o := i32 (i - 32) in
      let b := shr o 31 in
      MBLoop i
        (jor (jand (shr (m - 1) 31) (shru k (u32 o))) (jand (jor (shl k m) (shru l (u32 i))) b))
        (jand b (shru k (u32 i)))
        (jand (shl l p) j)
        (jor (jand (jor (shl k p) (shru l (u32 o))) j) (jand (shl l m) (shr (i - 33) 31)))
    else
      let E := put_rem f (jand g l) 0 E in
      if h =? 1 then MBDone (i32 a) (jor j (jand b 0)) E
      else
        let p := FB h E in
        MBDone (i32 (jor (shl k (32 - p)) (shru l (u32 p)))) (i32 (shru k (u32 p))) E.

(** The high half of the dividend is not 0 and the low half of the divisor is 0. *)
Definition MB_high (a b d e f : Z) (E : heap) : mb_case :=
  let l := a in let j := b in let k := j in let h := d in let i := e in
  if i =? 0 then MBDone (udiv k h) 0 (put_rem f (urem k h) 0 E)
  else if l =? 0 then MBDone (udiv k i) 0 (put_rem f 0 (urem k i) E)
  else
    let g := i32 (i - 1) in
    if jand g i =? 0 then
      let E := put_rem f (i32 a) (jor (jand g k) (jand b 0)) E in
      MBDone (shru k (u32 (FB i E))) 0 E
    else
      let g := i32 (clz32 i - clz32 k) in
      if u32 g <=? 30 then
        let b := i32 (g + 1) in
        let i := i32 (31 - g) in
        MBLoop b (jor (shl k i) (shru l (u32 b))) (shru k (u32 b)) 0 (shl l i)
      else MBDone 0 0 (put_rem f (i32 a) (jor j (jand b 0)) E).

Definition MB_case (a b d e f : Z) (E : heap) : mb_case :=
  let l := a in let k := b in let h := d in let i := e in
  if k =? 0 then
    if i =? 0 then MBDone (udiv l h) 0 (put_rem f (urem l h) 0 E)
    else MBDone 0 0 (put_rem f (i32 a) (jand b 0) E)
  else if negb (h =? 0) then MB_low a b d e f E else MB_high a b d e f E.

(** The [do ... while((h|0)!=0)] loop; [n] is its counter [h].  One turn shifts
    remainder and dividend left by one bit, subtracts the divisor ([m], [l])
    where it fits and keeps the bit of the quotient in [i]; [k] and [d] are the
    divisor less one. *)
Fixpoint MB_loop (n : nat) (m l k d : Z) (a b g j i : Z) : Z * Z * Z * Z * Z :=
  match n with
  | O => (a, b, g, j, i)
  | S n' =>
      let e := j in
      let j := jor (shru g 31) (shl j 1) in
      let g := jor i (shl g 1) in
      let e := i32 (jor (shl a 1) (shru e 31)) in
      let n := i32 (jor (shru a 31) (shl b 1)) in
      let p := (vB k d e n).2 in
      let o := sign_lo p in
      let i := jand o 1 in
      let '(a, b) := vB e n (jand o m) (jand (sign_hi p) l) in
      MB_loop n' m l k d (i32 a) b g j i
  end.

(** [___udivmoddi4]: the quotient and the memory. *)
Definition MB (a b d e f : Z) (E : heap) : Z * Z * heap :=
  let a := i32 a in let b := i32 b in let d := i32 d in let e := i32 e in let f := i32 f in
  match MB_case a b d e f E with
  | MBDone lo hi E => (i32 lo, hi, E)
  | MBLoop h a b g i =>
      let '(a, b, g, k, j, i) :=
        if h =? 0 then (a, b, g, i, 0, 0)
        else
          let m := i32 d in
          let l := jor e (jand e 0) in
          let '(k, d) := wB m l (-1) (-1) in
          let '(a, b, g, j, i) := MB_loop (Z.to_nat (u32 h)) m l k d a b g i 0 in
          (a, b, g, j, 0, i) in
      let h := 0 in
      let E := put_rem f a b E in
      let o := jor (jor (jor (shru (i32 g) 31) (shl (jor k h) 1)) (jand (jor (shl h 1) (shru g 31)) 0)) j in
      let p := jor (jand (jor (shl g 1) (shru 0 31)) (-2)) i in
      (i32 p, o, E)
  end.

(** [___udivdi3]. *)
Definition KB (a b c d : Z) (E : heap) : Z * Z * heap := MB a b c d 0 E.

Section Stack.
(** [i], the top of the stack; the functions below put it back. *)
Context (i : Z).

(** [___uremdi3]: 16 bytes of the stack hold the remainder. *)
Definition LB (a b d e : Z) (E : heap) : Z * Z * heap :=
  let g := i in
  let f := i32 g in
  let '(_, _, E) := MB a b d e f E in
  (load32s E f, load32s E (f + 4), E).

(** [___divdi3]: the quotient of the absolute values, with its sign. *)
Definition HB (a b c d : Z) (E : heap) : Z * Z * heap :=
  let a := i32 a in let b := i32 b in let c := i32 c in let d := i32 d in
  let j := sign_lo b in let i := sign_hi b in
  let f := sign_lo d in let e := sign_hi d in
  let '(h, g) := vB (jxor j a) (jxor i b) j i in
  let a := jxor f j in let b := jxor e i in
  let '(x, y) := vB (jxor f c) (jxor e d) f e in
  let '(q, C, E) := MB h g x y 0 E in
  let '(lo, C) := vB (jxor q a) (jxor C b) a b in
  (lo, C, E).

(** [___remdi3]: the remainder of the absolute values, with the sign of the dividend. *)
Definition IB (a b d e : Z) (E : heap) : Z * Z * heap :=
  let a := i32 a in let b := i32 b in let d := i32 d in let e := i32 e in
  let f := i in
  let j := i32 f in
  let h := sign_lo b in let g := sign_hi b in
  let l := sign_lo e in let k := sign_hi e in
  let '(a, b) := vB (jxor h a) (jxor g b) h g in
  let '(x, y) := vB (jxor l d) (jxor k e) l k in
  let '(_, _, E) := MB a b x y j E in
  let '(lo, C) := vB (jxor (load32s E j) h) (jxor (load32s E (j + 4)) g) h g in
  (lo, C, E).
End Stack.
End Cttz.
