(* ===== verification/VizInt64Facts.v ===== *)
(** * The words of the object code as numbers

    Each operator on 32-bit integers is an operation on their unsigned values
    ([u32]), and a pair of halves stands for [v64]; with these lemmas the sums,
    differences, shifts and products of [VizInt64] are those of 64-bit integers. *)

From Stdlib Require Import ZArith Lia.
From stdpp Require Import base list.
From S2P Require Import Prelude VizRuntime VizFacts VizMemory VizEnv VizInt64.

Open Scope Z_scope.

(** The number a pair of halves stands for. *)
Definition v64 (p : Z * Z) : Z := u32 p.1 + 2 ^ 32 * u32 p.2.

(** ** Operators *)

Lemma u32_i32 z : u32 (i32 z) = u32 z.
Proof. unfold u32, i32. change (2 ^ 32) with 4294967296. change (2 ^ 31) with 2147483648. Z.div_mod_to_equations. lia. Qed.

Lemma i32_u32 z : i32 (u32 z) = i32 z.
Proof. unfold u32, i32. change (2 ^ 32) with 4294967296. change (2 ^ 31) with 2147483648. Z.div_mod_to_equations. lia. Qed.

Lemma i32_i32 z : i32 (i32 z) = i32 z.
Proof. rewrite <- (i32_u32 (i32 z)), u32_i32. apply i32_u32. Qed.

Lemma u32_u32 z : u32 (u32 z) = u32 z.
Proof. apply u32_id, u32_range. Qed.

Lemma u32_land_ones z : u32 z = Z.land z (Z.ones 32).
Proof. unfold u32. by rewrite Z.land_ones by lia. Qed.

Lemma i32_eq_iff a b : i32 a = i32 b ↔ u32 a = u32 b.
Proof.
  split; intros H.
  - by rewrite <- (u32_i32 a), H, u32_i32.
  - by rewrite <- (i32_u32 a), H, i32_u32.
Qed.

Lemma u32_lor a b : u32 (Z.lor a b) = Z.lor (u32 a) (u32 b).
Proof. rewrite !u32_land_ones. apply Z.land_lor_distr_l. Qed.

Lemma u32_land a b : u32 (Z.land a b) = Z.land (u32 a) (u32 b).
Proof.
  rewrite !u32_land_ones. apply Z.bits_inj'. intros n Hn. rewrite !Z.land_spec.
  destruct (Z.testbit a n), (Z.testbit b n), (Z.testbit (Z.ones 32) n); done.
Qed.

Lemma u32_lxor a b : u32 (Z.lxor a b) = Z.lxor (u32 a) (u32 b).
Proof.
  rewrite !u32_land_ones. apply Z.bits_inj'. intros n Hn. rewrite !Z.land_spec, !Z.lxor_spec, !Z.land_spec.
  destruct (Z.testbit a n), (Z.testbit b n), (Z.testbit (Z.ones 32) n); done.
Qed.

Lemma u32_jor a b : u32 (jor a b) = Z.lor (u32 a) (u32 b).
Proof. unfold jor. by rewrite u32_lor, !u32_i32. Qed.

Lemma u32_jand a b : u32 (jand a b) = Z.land (u32 a) (u32 b).
Proof. unfold jand. by rewrite u32_land, !u32_i32. Qed.

Lemma u32_jxor a b : u32 (jxor a b) = Z.lxor (u32 a) (u32 b).
Proof. unfold jxor. by rewrite u32_lxor, !u32_i32. Qed.

Lemma shift_count k : 0 <= k < 32 → Z.land k 31 = k.
Proof. intros. change 31 with (Z.ones 5). rewrite Z.land_ones by lia. by apply Z.mod_small. Qed.

Lemma u32_mul_l a b : u32 (u32 a * b) = u32 (a * b).
Proof. unfold u32. by rewrite Z.mul_mod_idemp_l by lia. Qed.

Lemma u32_add_l a b : u32 (u32 a + b) = u32 (a + b).
Proof. unfold u32. by rewrite Z.add_mod_idemp_l by lia. Qed.

Lemma u32_add_r a b : u32 (a + u32 b) = u32 (a + b).
Proof. unfold u32. by rewrite Z.add_mod_idemp_r by lia. Qed.

Lemma u32_shl a k : 0 <= k < 32 → u32 (shl a k) = u32 (u32 a * 2 ^ k).
Proof.
  intros Hk. unfold shl. rewrite shift_count, u32_i32, Z.shiftl_mul_pow2, u32_mul_l by lia.
  by rewrite <- u32_mul_l, u32_i32, u32_mul_l.
Qed.

Lemma shru_div a k : 0 <= k < 32 → shru a k = u32 a / 2 ^ k.
Proof. intros Hk. unfold shru. by rewrite shift_count, Z.shiftr_div_pow2 by lia. Qed.

Lemma u32_shru a k : 0 <= k < 32 → u32 (shru a k) = u32 a / 2 ^ k.
Proof.
  intros Hk. rewrite shru_div by done. pose proof (u32_range a) as Hr. apply u32_id.
  assert (0 < 2 ^ k) by (apply Z.pow_pos_nonneg; lia). unfold is_u32 in *. split; [apply Z.div_pos; lia|].
  apply Z.le_lt_trans with (u32 a); [|lia]. apply Z.div_le_upper_bound; nia.
Qed.

Lemma shr_div a k : 0 <= k < 32 → shr a k = i32 a / 2 ^ k.
Proof. intros Hk. unfold shr. by rewrite shift_count, Z.shiftr_div_pow2 by lia. Qed.

Lemma i32_range z : is_i32 (i32 z).
Proof. unfold is_i32, i32. pose proof (Z.mod_pos_bound (z + 2 ^ 31) (2 ^ 32) ltac:(lia)). lia. Qed.

Lemma i32_id z : is_i32 z → i32 z = z.
Proof. unfold is_i32, i32. intros. rewrite Z.mod_small; lia. Qed.

(** The masks of a sign. *)
Lemma i32_neg z : (i32 z <? 0) = (2 ^ 31 <=? u32 z).
Proof.
  pose proof (u32_range z) as H. rewrite <- (i32_u32 z). generalize dependent (u32 z). clear z. intros z H.
  unfold i32. width. Z.div_mod_to_equations. lia.
Qed.

(** Two values without a common bit: the bitwise or is the sum. *)
Lemma lor_split x y k : 0 <= k → 0 <= y < 2 ^ k → Z.lor (x * 2 ^ k) y = x * 2 ^ k + y.
Proof.
  intros Hk Hy. rewrite <- Z.shiftl_mul_pow2 by done.
  assert (Z.land (Z.shiftl x k) y = 0) as H0.
  { apply Z.bits_inj'. intros n Hn. rewrite Z.land_spec, Z.bits_0, Z.shiftl_spec by done.
    destruct (Z.lt_ge_cases n k); [by rewrite Z.testbit_neg_r by lia|].
    destruct (Z.eq_dec y 0) as [->|]; [by rewrite Z.bits_0, andb_false_r|].
    rewrite (Z.bits_above_log2 y), andb_false_r; [done|lia|].
    apply Z.lt_le_trans with k; [apply Z.log2_lt_pow2; lia|done]. }
  by rewrite Z.add_nocarry_lxor, Z.lxor_lor by done.
Qed.

Lemma pow2_split k : 0 <= k <= 32 → 2 ^ k * 2 ^ (32 - k) = 2 ^ 32.
Proof. intros. rewrite <- Z.pow_add_r by lia. f_equal. lia. Qed.

(** The low part of a word moved to the top. *)
Lemma u32_mul_pow b k : 0 <= k <= 32 → u32 (b * 2 ^ (32 - k)) = b mod 2 ^ k * 2 ^ (32 - k).
Proof.
  intros Hk. unfold u32. rewrite <- (pow2_split k) by lia.
  rewrite Z.mul_mod_distr_r; [done|apply Z.pow_nonzero; lia..].
Qed.

(** ** Halves of shifted numbers *)

Section Halves.
Context (a b : Z) (Ha : is_u32 a) (Hb : is_u32 b).

Lemma half_range k : 0 <= k <= 32 → 0 <= a / 2 ^ k < 2 ^ (32 - k).
Proof.
  intros Hk. assert (0 < 2 ^ k) by (apply Z.pow_pos_nonneg; lia). unfold is_u32 in Ha.
  split; [apply Z.div_pos; lia|]. apply Z.div_lt_upper_bound; [done|]. rewrite pow2_split by lia. lia.
Qed.

Lemma shift_right k : 0 <= k <= 32 →
  (a + 2 ^ 32 * b) / 2 ^ k = (a / 2 ^ k + b mod 2 ^ k * 2 ^ (32 - k)) + 2 ^ 32 * (b / 2 ^ k).
Proof.
  intros Hk. assert (0 < 2 ^ k) by (apply Z.pow_pos_nonneg; lia).
  rewrite <- (pow2_split k) by lia. set (P := 2 ^ k) in *. set (Q := 2 ^ (32 - k)).
  replace (a + P * Q * b) with (a + b * Q * P) by ring. rewrite Z.div_add by lia.
  pose proof (Z.div_mod b P ltac:(lia)). nia.
Qed.

Lemma shift_right_lor k : 0 <= k <= 32 →
  Z.lor (a / 2 ^ k) (u32 (b * 2 ^ (32 - k))) = a / 2 ^ k + b mod 2 ^ k * 2 ^ (32 - k).
Proof.
  intros Hk. rewrite u32_mul_pow, Z.lor_comm, lor_split; [lia|lia|by apply half_range|done].
Qed.

Lemma shift_left k : 0 <= k <= 32 →
  u64 ((a + 2 ^ 32 * b) * 2 ^ k) = u32 (a * 2 ^ k) + 2 ^ 32 * (u32 (b * 2 ^ k) + a / 2 ^ (32 - k)).
Proof.
  intros Hk. assert (0 < 2 ^ (32 - k)) by (apply Z.pow_pos_nonneg; lia). assert (0 < 2 ^ k) by (apply Z.pow_pos_nonneg; lia).
  pose proof (half_range (32 - k) ltac:(lia)) as Hr. replace (32 - (32 - k)) with k in Hr by lia.
  pose proof (u32_mul_pow a (32 - k) ltac:(lia)) as Hm. replace (32 - (32 - k)) with k in Hm by lia. rewrite Hm.
  pose proof (u32_mul_pow b (32 - k) ltac:(lia)) as Hm'. replace (32 - (32 - k)) with k in Hm' by lia. rewrite Hm'.
  pose proof (pow2_split k Hk) as HPQ. set (P := 2 ^ k) in *. set (Q := 2 ^ (32 - k)) in *.
  pose proof (Z.div_mod a Q ltac:(lia)). pose proof (Z.div_mod b Q ltac:(lia)).
  pose proof (Z.mod_pos_bound a Q ltac:(lia)). pose proof (Z.mod_pos_bound b Q ltac:(lia)).
  unfold u64. symmetry. apply Z.mod_unique with (b / Q); [|change (2 ^ 64) with (2 ^ 32 * 2 ^ 32); rewrite <- HPQ; nia].
  left. change (2 ^ 64) with (2 ^ 32 * 2 ^ 32). rewrite <- HPQ. split; [nia|].
  assert (a mod Q * P <= Q * P - P) by nia. assert (b mod Q * P <= Q * P - P) by nia. nia.
Qed.

Lemma shift_left_lor k : 0 <= k <= 32 →
  Z.lor (u32 (b * 2 ^ k)) (a / 2 ^ (32 - k)) = u32 (b * 2 ^ k) + a / 2 ^ (32 - k).
Proof.
  intros Hk. pose proof (u32_mul_pow b (32 - k) ltac:(lia)) as Hm.
  replace (32 - (32 - k)) with k in Hm by lia. rewrite Hm. apply lor_split; [lia|].
  pose proof (half_range (32 - k) ltac:(lia)) as Hr. by replace (32 - (32 - k)) with k in Hr by lia.
Qed.
End Halves.

Lemma v64_range p : is_u64 (v64 p).
Proof. unfold v64. pose proof (u32_range p.1). pose proof (u32_range p.2). width. Qed.

Lemma v64_halves lo hi : v64 (lo, hi) = u32 lo + 2 ^ 32 * u32 hi.
Proof. done. Qed.

(** ** Sums and differences *)

Lemma u32_arg2 (f : Z → Z → Z) a b :
  (∀ x y x' y', u32 x = u32 x' → u32 y = u32 y' → u32 (f x y) = u32 (f x' y')) →
  u32 (f (i32 a) (i32 b)) = u32 (f (u32 a) (u32 b)).
Proof. intros H. apply H; by rewrite u32_i32, u32_u32. Qed.

Lemma u32_sub_congr x y x' y' : u32 x = u32 x' → u32 y = u32 y' → u32 (x - y) = u32 (x' - y').
Proof. intros Hx Hy. unfold u32 in *. by rewrite Zminus_mod, Hx, Hy, <- Zminus_mod. Qed.

Lemma u32_add_congr x y x' y' : u32 x = u32 x' → u32 y = u32 y' → u32 (x + y) = u32 (x' + y').
Proof. intros Hx Hy. unfold u32 in *. by rewrite Zplus_mod, Hx, Hy, <- Zplus_mod. Qed.

Lemma u32_mul_congr x y x' y' : u32 x = u32 x' → u32 y = u32 y' → u32 (x * y) = u32 (x' * y').
Proof. intros Hx Hy. unfold u32 in *. by rewrite Zmult_mod, Hx, Hy, <- Zmult_mod. Qed.

Lemma wB_spec a b c d : v64 (wB a b c d) = u64 (v64 (a, b) + v64 (c, d)).
Proof.
  unfold wB, v64; cbn [fst snd]. rewrite !u32_i32, !u32_u32.
  rewrite (u32_arg2 Z.add) by apply u32_add_congr.
  rewrite (u32_add_congr (i32 b + i32 d) (Z.b2z _) (u32 b + u32 d) (Z.b2z (u32 (u32 a + u32 c) <? u32 a)));
    [|apply (u32_arg2 Z.add), u32_add_congr|done].
  pose proof (u32_range a). pose proof (u32_range b). pose proof (u32_range c). pose proof (u32_range d).
  destruct (Z.ltb_spec (u32 (u32 a + u32 c)) (u32 a)); cbn [Z.b2z];
  generalize dependent (u32 a); generalize dependent (u32 b); generalize dependent (u32 c); generalize dependent (u32 d);
  width; intros; Z.div_mod_to_equations; lia.
Qed.

Lemma vB_spec a b c d : v64 (vB a b c d) = u64 (v64 (a, b) - v64 (c, d)).
Proof.
  unfold vB, v64; cbn [fst snd]. rewrite !u32_i32, !u32_u32.
  rewrite (u32_arg2 Z.sub) by apply u32_sub_congr.
  rewrite (u32_sub_congr (i32 b - i32 d) (Z.b2z _) (u32 b - u32 d) (Z.b2z (u32 a <? u32 c)));
    [|apply (u32_arg2 Z.sub), u32_sub_congr|done].
  pose proof (u32_range a). pose proof (u32_range b). pose proof (u32_range c). pose proof (u32_range d).
  destruct (Z.ltb_spec (u32 a) (u32 c)); cbn [Z.b2z];
  generalize dependent (u32 a); generalize dependent (u32 b); generalize dependent (u32 c); generalize dependent (u32 d);
  width; intros; Z.div_mod_to_equations; lia.
Qed.

(** ** Shifts *)

(** [(1<<c)-1] masks the low [c] bits. *)
Lemma mask_low b c : 0 <= c < 32 → u32 (jand b (shl 1 c - 1)) = u32 b mod 2 ^ c.
Proof.
  intros Hc. rewrite u32_jand. assert (u32 (shl 1 c - 1) = Z.ones c) as ->.
  { rewrite (u32_sub_congr _ 1 (1 * 2 ^ c) 1); [|rewrite u32_shl by done; change (u32 1) with 1; done|done].
    rewrite Z.mul_1_l, Z.ones_equiv. apply u32_id. unfold is_u32.
    pose proof (Z.pow_le_mono_r 2 0 c ltac:(lia) ltac:(lia)). pose proof (Z.pow_le_mono_r 2 c 31 ltac:(lia) ltac:(lia)).
    change (2 ^ 0) with 1 in *. change (2 ^ 31) with 2147483648 in *. lia. }
  apply Z.land_ones. lia.
Qed.

(** The low word of a right shift. *)
Lemma right_low a b c : 0 <= c < 32 →
  u32 (jor (shru a c) (shl (jand b (shl 1 c - 1)) (32 - c))) = u32 a / 2 ^ c + u32 b mod 2 ^ c * 2 ^ (32 - c).
Proof.
  intros Hc. rewrite u32_jor, u32_shru by done. pose proof (u32_range a) as Ha.
  destruct (Z.eq_dec c 0) as [->|Hc0].
  { unfold shl at 1. change (Z.land (32 - 0) 31) with 0. rewrite Z.shiftl_0_r, i32_i32, u32_i32, mask_low by lia.
    change (2 ^ 0) with 1. by rewrite Z.mod_1_r, Z.lor_0_r, Z.mul_0_l, Z.add_0_r. }
  rewrite u32_shl, mask_low by lia. pose proof (shift_right_lor (u32 a) (u32 b) Ha c ltac:(lia)) as <-. f_equal.
  rewrite !u32_mul_pow, Z.mod_mod by (lia || apply Z.pow_nonzero; lia). done.
Qed.

Lemma yB_spec a b c : 0 <= c < 64 → v64 (yB a b c) = v64 (a, b) / 2 ^ c.
Proof.
  intros Hc. unfold yB. rewrite (i32_id c) by width. pose proof (u32_range a) as Ha. pose proof (u32_range b) as Hb.
  destruct (Z.ltb_spec c 32) as [Hlt|Hge]; unfold v64; cbn [fst snd].
  - rewrite right_low, u32_shru, !u32_i32 by lia. rewrite shift_right by (done || lia). done.
  - rewrite u32_i32, u32_shru, u32_i32 by lia. change (u32 0) with 0. rewrite Z.mul_0_r, Z.add_0_r.
    replace c with (32 + (c - 32)) at 2 by lia. rewrite Z.pow_add_r, <- Z.div_div by (lia || apply Z.pow_nonzero; lia).
    f_equal. rewrite Z.mul_comm, Z.div_add, Z.div_small by (unfold is_u32 in *; lia). lia.
Qed.

Lemma EB_spec a b c : 0 <= c < 64 → v64 (EB a b c) = u64 (i64 (v64 (a, b)) / 2 ^ c).
Proof.
  intros Hc. pose proof (yB_spec a b c Hc) as Hy. pose proof (u32_range a) as Ha. pose proof (u32_range b) as Hb.
  unfold EB, yB in *. rewrite (i32_id c) in * by width. pose proof (i32_neg b) as Hn.
  assert (i64 (v64 (a, b)) = u32 a + 2 ^ 32 * i32 b) as Hi.
  { rewrite <- (i32_u32 b). unfold v64; cbn [fst snd]. generalize dependent (u32 a). generalize dependent (u32 b).
    intros. unfold i64, i32. width. Z.div_mod_to_equations. lia. }
  rewrite Hi. assert (0 < 2 ^ c) by (apply Z.pow_pos_nonneg; lia).
  destruct (Z.ltb_spec c 32) as [Hlt|Hge]; unfold v64; cbn [fst snd].
  - rewrite right_low, shr_div, i32_i32, !u32_i32 by lia.
    assert ((u32 a + 2 ^ 32 * i32 b) / 2 ^ c = (u32 a / 2 ^ c + u32 b mod 2 ^ c * 2 ^ (32 - c)) + 2 ^ 32 * (i32 b / 2 ^ c)) as ->.
    { assert (u32 b mod 2 ^ c = i32 b mod 2 ^ c) as ->.
      { rewrite <- (u32_i32 b). unfold u32. apply Z.mod_mod_divide. exists (2 ^ (32 - c)).
        rewrite Z.mul_comm. symmetry. apply pow2_split. lia. }
      rewrite <- (pow2_split c) by lia. set (P := 2 ^ c) in *. set (Q := 2 ^ (32 - c)).
      replace (u32 a + P * Q * i32 b) with (u32 a + i32 b * Q * P) by ring. rewrite Z.div_add by lia.
      pose proof (Z.div_mod (i32 b) P ltac:(lia)). nia. }
    rewrite <- (shift_right_lor (u32 a) (u32 b)) by (done || lia).
    set (L := Z.lor _ _). assert (is_u32 L) as HL.
    { unfold L. pose proof (half_range (u32 a) Ha c ltac:(lia)). rewrite shift_right_lor by (done || lia).
      pose proof (Z.mod_pos_bound (u32 b) (2 ^ c) ltac:(lia)). pose proof (pow2_split c ltac:(lia)). unfold is_u32.
      assert (0 < 2 ^ (32 - c)) by (apply Z.pow_pos_nonneg; lia). nia. }
    clearbody L. generalize (i32 b / 2 ^ c). intros x. clear -HL. width. Z.div_mod_to_equations. lia.
  - assert ((u32 a + 2 ^ 32 * i32 b) / 2 ^ c = i32 b / 2 ^ (c - 32)) as ->.
    { replace c with (32 + (c - 32)) at 1 by lia. rewrite Z.pow_add_r, <- Z.div_div by (lia || apply Z.pow_nonzero; lia).
      f_equal. rewrite Z.mul_comm, Z.div_add, Z.div_small by (unfold is_u32 in *; lia). lia. }
    rewrite u32_i32, shr_div, i32_i32 by lia. pose proof (i32_range b) as Hr.
    assert (0 < 2 ^ (c - 32)) as Hp by (apply Z.pow_pos_nonneg; lia).
    destruct (Z.ltb_spec (i32 b) 0) as [Hneg|Hpos].
    + assert (- 2 ^ 31 <= i32 b / 2 ^ (c - 32) < 0) as Hx.
      { unfold is_i32 in Hr. split; [apply Z.div_le_lower_bound; nia|apply Z.div_lt_upper_bound; nia]. }
      revert Hx. generalize (i32 b / 2 ^ (c - 32)). clear. intros x Hx. width. Z.div_mod_to_equations. lia.
    + assert (0 <= i32 b / 2 ^ (c - 32) < 2 ^ 31) as Hx.
      { unfold is_i32 in Hr. split; [apply Z.div_pos; lia|apply Z.div_lt_upper_bound; nia]. }
      revert Hx. generalize (i32 b / 2 ^ (c - 32)). clear. intros x Hx. width. Z.div_mod_to_equations. lia.
Qed.

(** The top [c] bits of a word, masked and moved down. *)
Lemma high_bits a c : 0 <= c < 32 →
  u32 (shru (jand a (shl (shl 1 c - 1) (32 - c))) (32 - c)) = u32 a / 2 ^ (32 - c).
Proof.
  intros Hc. pose proof (u32_range a) as Ha. destruct (Z.eq_dec c 0) as [->|Hc0].
  { change (shl (shl 1 0 - 1) (32 - 0)) with 0. unfold jand. change (i32 0) with 0. rewrite Z.land_0_r.
    change (u32 (shru 0 (32 - 0))) with 0. rewrite Z.div_small; [done|unfold is_u32 in *; lia]. }
  rewrite u32_shru, u32_jand by lia. assert (u32 (shl (shl 1 c - 1) (32 - c)) = Z.shiftl (Z.ones c) (32 - c)) as ->.
  { rewrite u32_shl by lia. rewrite u32_mul_l, Z.shiftl_mul_pow2, Z.ones_equiv by lia.
    rewrite (u32_mul_congr _ (2 ^ (32 - c)) (1 * 2 ^ c - 1) (2 ^ (32 - c)));
      [|apply u32_sub_congr; [rewrite u32_shl by lia; change (u32 1) with 1|]; done|done].
    rewrite Z.mul_1_l, <- Z.sub_1_r. apply u32_id. unfold is_u32. pose proof (pow2_split c ltac:(lia)).
    assert (0 < 2 ^ (32 - c)) by (apply Z.pow_pos_nonneg; lia). assert (0 < 2 ^ c) by (apply Z.pow_pos_nonneg; lia). nia. }
  rewrite <- Z.shiftr_div_pow2, Z.shiftr_land, Z.shiftr_shiftl_l, Z.sub_diag, Z.shiftl_0_r by lia.
  rewrite Z.land_ones, Z.shiftr_div_pow2 by lia. apply Z.mod_small.
  pose proof (half_range (u32 a) Ha (32 - c) ltac:(lia)) as Hr. by replace (32 - (32 - c)) with c in Hr by lia.
Qed.

Lemma DB_spec a b c : 0 <= c < 64 → v64 (DB a b c) = u64 (v64 (a, b) * 2 ^ c).
Proof.
  intros Hc. unfold DB. rewrite (i32_id c) by width. pose proof (u32_range a) as Ha. pose proof (u32_range b) as Hb.
  destruct (Z.ltb_spec c 32) as [Hlt|Hge]; unfold v64; cbn [fst snd].
  - rewrite u32_jor, high_bits, !u32_shl, !u32_i32 by lia.
    rewrite shift_left_lor, shift_left by (done || lia). done.
  - change (u32 0) with 0. rewrite Z.add_0_l, u32_shl, u32_i32 by lia. unfold u64, u32 at 1.
    replace c with (32 + (c - 32)) at 2 by lia. rewrite Z.pow_add_r by lia. change (2 ^ 64) with (2 ^ 32 * 2 ^ 32).
    rewrite <- Z.mul_mod_distr_l by lia.
    replace ((u32 a + 2 ^ 32 * u32 b) * (2 ^ 32 * 2 ^ (c - 32)))
      with (2 ^ 32 * (u32 a * 2 ^ (c - 32)) + u32 b * 2 ^ (c - 32) * (2 ^ 32 * 2 ^ 32)) by ring.
    by rewrite Z.mod_add by lia.
Qed.

(** ** Products *)

Lemma u32_imul a b : u32 (imul a b) = u32 (u32 a * u32 b).
Proof. rewrite imul_spec, u32_i32. apply u32_mul_congr; by rewrite u32_u32. Qed.

Lemma low16 a : u32 (jand a 65535) = u32 a mod 65536.
Proof. rewrite u32_jand. change (u32 65535) with (Z.ones 16). by rewrite Z.land_ones by lia. Qed.

Lemma u32_mul_65536 x : u32 (x * 65536) = x mod 65536 * 65536.
Proof. width. Z.div_mod_to_equations. lia. Qed.

Lemma lor_65536 x y : 0 <= y < 65536 → Z.lor (x * 65536) y = x * 65536 + y.
Proof. intros. by apply (lor_split x y 16). Qed.

Lemma small_product x y : 0 <= x < 65536 → 0 <= y < 65536 → 0 <= x * y <= 4294836225.
Proof. nia. Qed.

(** The sum of the four partial products, with the carries between the halves. *)
Lemma partial_products al ah bl bh :
  0 <= al < 65536 → 0 <= ah < 65536 → 0 <= bl < 65536 → 0 <= bh < 65536 →
  let a := bl * al / 65536 + bl * ah in
  u32 ((a + bh * al) * 65536) + (bl * al) mod 65536 +
  2 ^ 32 * u32 (a / 65536 + bh * ah + (a mod 65536 + bh * al) / 65536)
  = (al + 65536 * ah) * (bl + 65536 * bh).
Proof.
  intros Hal Hah Hbl Hbh a. unfold a. clear a.
  pose proof (small_product bl al Hbl Hal). pose proof (small_product bl ah Hbl Hah).
  pose proof (small_product bh al Hbh Hal). pose proof (small_product bh ah Hbh Hah).
  replace ((al + 65536 * ah) * (bl + 65536 * bh))
    with (bl * al + 65536 * (bl * ah + bh * al) + 4294967296 * (bh * ah)) by ring.
  generalize dependent (bl * al). generalize dependent (bl * ah). generalize dependent (bh * al). generalize dependent (bh * ah).
  width. intros. Z.div_mod_to_equations. lia.
Qed.

(** The three products of [GB], as numbers. *)
Lemma GB_product x y : is_u32 (u32 x * u32 y) → u32 (imul x y) = u32 x * u32 y.
Proof. intros. rewrite u32_imul. by apply u32_id. Qed.

Lemma high16 a : u32 (shru a 16) = u32 a / 65536.
Proof. by apply (u32_shru a 16). Qed.

Lemma halves16 x : is_u32 x → 0 <= x mod 65536 < 65536 ∧ 0 <= x / 65536 < 65536.
Proof. intros. width. Z.div_mod_to_equations. lia. Qed.

Lemma GB_sum c a1 b1 v w al ah bl bh :
  0 <= al < 65536 → 0 <= ah < 65536 → 0 <= bl < 65536 → 0 <= bh < 65536 →
  u32 c = bl * al → u32 v = bl * ah → u32 b1 = bh * al → u32 w = bh * ah → a1 = i32 (shru c 16 + v) →
  v64 (jor (shl (a1 + b1) 16) (jand c 65535), i32 (shru a1 16 + w + shru (i32 (jand a1 65535 + b1)) 16)) =
  (al + 65536 * ah) * (bl + 65536 * bh).
Proof.
  intros Hal Hah Hbl Hbh Hc Hv Hb1 Hw Ha1.
  pose proof (small_product _ _ Hbl Hal). pose proof (small_product _ _ Hbl Hah). pose proof (small_product _ _ Hbh Hal).
  assert (u32 a1 = bl * al / 65536 + bl * ah) as Hu.
  { rewrite Ha1, u32_i32, (u32_add_congr _ v (u32 c / 65536) (u32 v)), Hc, Hv by (by rewrite ?high16, ?u32_u32, <- ?high16, ?u32_u32).
    apply u32_id. width. Z.div_mod_to_equations. lia. }
  unfold v64; cbn [fst snd]. rewrite <- (partial_products al ah bl bh Hal Hah Hbl Hbh). cbv zeta. rewrite <- Hu. f_equal.
  - rewrite u32_jor, low16, Hc, (u32_shl _ 16 ltac:(lia)). change (2 ^ 16) with 65536.
    rewrite (u32_add_congr a1 b1 (u32 a1) (u32 b1)), u32_mul_l, Hb1 by (by rewrite u32_u32).
    rewrite !u32_mul_65536. apply lor_65536, Z.mod_pos_bound. lia.
  - f_equal. rewrite u32_i32. apply u32_add_congr; [apply u32_add_congr|].
    + by rewrite <- high16, u32_u32.
    + by rewrite <- Hw, u32_u32.
    + rewrite high16, u32_i32, (u32_add_congr (jand a1 65535) b1 (u32 a1 mod 65536) (u32 b1)), Hb1
        by (by rewrite <- ?low16, ?u32_u32).
      pose proof (Z.mod_pos_bound (u32 a1) 65536 ltac:(lia)).
      rewrite (u32_id (_ + _)) by width. symmetry. apply u32_id. width. Z.div_mod_to_equations. lia.
Qed.

Lemma GB_spec a b : v64 (GB a b) = u32 a * u32 b.
Proof.
  pose proof (halves16 _ (u32_range a)) as [Hal Hah]. pose proof (halves16 _ (u32_range b)) as [Hbl Hbh].
  unfold GB. cbv zeta.
  rewrite (GB_sum _ _ _ (imul (jand (i32 b) 65535) (shru (i32 a) 16)) _ _ _ _ _ Hal Hah Hbl Hbh).
  - f_equal; rewrite Z.add_comm; symmetry; apply Z.div_mod; lia.
  - rewrite GB_product; rewrite !low16, !u32_i32; [done|]. pose proof (small_product _ _ Hbl Hal). unfold is_u32. lia.
  - rewrite GB_product; rewrite low16, high16, !u32_i32; [done|]. pose proof (small_product _ _ Hbl Hah). unfold is_u32. lia.
  - rewrite GB_product; rewrite low16, high16, !u32_i32; [done|]. pose proof (small_product _ _ Hbh Hal). unfold is_u32. lia.
  - rewrite GB_product; rewrite !high16, !u32_i32; [done|]. pose proof (small_product _ _ Hbh Hah). unfold is_u32. lia.
  - done.
Qed.

Lemma JB_spec a b c d : v64 (JB a b c d) = u64 (v64 (a, b) * v64 (c, d)).
Proof.
  unfold JB. pose proof (GB_spec (i32 a) (i32 c)) as HG. rewrite !u32_i32 in HG.
  destruct (GB (i32 a) (i32 c)) as [lo hi]. unfold v64 in *; cbn [fst snd] in *.
  rewrite u32_i32, u32_jor, u32_jand. change (u32 0) with 0. rewrite Z.land_0_r, Z.lor_0_r.
  rewrite (u32_add_congr (imul (i32 b) (i32 c) + imul (i32 d) (i32 a)) hi (u32 b * u32 c + u32 d * u32 a) (u32 hi)).
  - pose proof (u32_range lo). pose proof (u32_range hi).
    replace ((u32 a + 2 ^ 32 * u32 b) * (u32 c + 2 ^ 32 * u32 d))
      with (u32 a * u32 c + 2 ^ 32 * (u32 b * u32 c + u32 d * u32 a) + u32 b * u32 d * 2 ^ 64) by (change (2 ^ 64) with (2 ^ 32 * 2 ^ 32); ring).
    unfold u64. rewrite Z.mod_add by lia. rewrite <- HG. clear HG.
    generalize dependent (u32 lo). generalize dependent (u32 hi). generalize (u32 b * u32 c + u32 d * u32 a).
    width. intros. Z.div_mod_to_equations. lia.
  - apply u32_add_congr; rewrite u32_imul, !u32_i32, u32_u32 || rewrite u32_imul, !u32_i32; done.
  - by rewrite u32_u32.
Qed.

(** ** Trailing zeros *)

(** [x] is an odd multiple of [2 ^ t]. *)
Definition trailing (x t : Z) : Prop := 0 <= t ∧ x mod 2 ^ t = 0 ∧ (x / 2 ^ t) mod 2 = 1.

Lemma trailing_odd x t : trailing x t ↔ 0 <= t ∧ ∃ q, x = 2 ^ t * (2 * q + 1).
Proof.
  unfold trailing. split; intros (Ht & H).
  - split; [done|]. destruct H as [Hm Ho]. exists (x / 2 ^ t / 2).
    assert (0 < 2 ^ t) by (apply Z.pow_pos_nonneg; lia).
    pose proof (Z.div_mod x (2 ^ t) ltac:(lia)). pose proof (Z.div_mod (x / 2 ^ t) 2 ltac:(lia)). nia.
  - destruct H as [q ->]. assert (2 ^ t ≠ 0) by (apply Z.pow_nonzero; lia). rewrite Z.mul_comm.
    rewrite Z.mod_mul, Z.div_mul by done. split_and!; [done..|]. rewrite Z.add_comm, Z.mul_comm, Z.mod_add by lia. done.
Qed.

(** What is above the lowest bits does not matter. *)
Lemma trailing_add y z s t : 0 <= t < s → trailing y t → trailing (y + 2 ^ s * z) t.
Proof.
  rewrite !trailing_odd. intros Hs (Ht & q & ->). split; [done|]. exists (q + 2 ^ (s - t - 1) * z).
  replace s with (t + 1 + (s - t - 1)) at 1 by lia. rewrite !Z.pow_add_r by lia. ring.
Qed.

Lemma trailing_mul y s t : 0 <= s → trailing y t → trailing (2 ^ s * y) (s + t).
Proof.
  rewrite !trailing_odd. intros Hs (Ht & q & ->). split; [lia|]. exists q. rewrite Z.pow_add_r by lia. ring.
Qed.

(** The table, checked byte by byte. *)
Definition nd_ok (x : nat) : bool :=
  match nd !! x with
  | Some t => if Nat.eqb x 0 then t =? 8
              else (0 <=? t) && (t <? 8) && (Z.of_nat x mod 2 ^ t =? 0) && ((Z.of_nat x / 2 ^ t) mod 2 =? 1)
  | None => false
  end.

Lemma nd_checked : forallb nd_ok (seq 0 256) = true.
Proof. vm_compute. reflexivity. Qed.

Section Table.
Context (m : Z) (E : heap) (Hnd : holds E m nd).

Lemma nd_entry x : 0 <= x < 256 →
  let t := load8s E (m + x) in if x =? 0 then t = 8 else 0 <= t < 8 ∧ trailing x t.
Proof.
  intros Hx. pose proof nd_checked as H. rewrite forallb_forall in H.
  specialize (H (Z.to_nat x) ltac:(apply in_seq; lia)). unfold nd_ok in H.
  destruct (nd !! Z.to_nat x) as [t|] eqn:Et; [|done].
  assert (E (m + x) = t) as HE by (apply Hnd; unfold zlookup; destruct (Z.leb_spec 0 x); [done|lia]).
  unfold load8s. rewrite HE. rewrite Z2Nat.id in H by lia.
  destruct (Z.eqb_spec x 0) as [->|Hne].
  - simpl in H. apply Z.eqb_eq in H as ->. done.
  - destruct (Nat.eqb_spec (Z.to_nat x) 0); [lia|].
    apply andb_prop in H as [H H4]. apply andb_prop in H as [H H3]. apply andb_prop in H as [H1 H2].
    apply Z.leb_le in H1. apply Z.ltb_lt in H2. apply Z.eqb_eq in H3. apply Z.eqb_eq in H4.
    destruct (Z.ltb_spec t 128); [|lia]. unfold trailing. done.
Qed.

(** The bytes of a word. *)
Lemma byte_low b : jand b 255 = u32 b mod 256.
Proof.
  unfold jand. change (i32 255) with (Z.ones 8). rewrite Z.land_ones by lia. rewrite <- (u32_i32 b).
  unfold u32. symmetry. apply Z.mod_mod_divide. by exists 16777216.
Qed.

Lemma byte_mid b k : 0 <= k < 32 → 8 + k <= 32 → jand (shr b k) 255 = u32 b / 2 ^ k mod 256.
Proof.
  intros Hk Hk'. rewrite byte_low, shr_div by done.
  replace (i32 b) with (u32 b + (i32 b / 2 ^ 32) * 2 ^ (32 - k) * 2 ^ k).
  2:{ rewrite <- Z.mul_assoc, (Z.mul_comm (2 ^ (32 - k))), pow2_split by lia. rewrite <- (u32_i32 b). unfold u32.
      pose proof (Z.div_mod (i32 b) (2 ^ 32) ltac:(lia)). lia. }
  rewrite Z.div_add by (apply Z.pow_nonzero; lia). unfold u32 at 1.
  replace (2 ^ (32 - k)) with (2 ^ (32 - k - 8) * 256)
    by (change 256 with (2 ^ 8); rewrite <- Z.pow_add_r by lia; f_equal; lia).
  rewrite (Z.mod_mod_divide _ (2 ^ 32) 256) by (by exists 16777216). rewrite Z.mul_assoc. by rewrite Z.mod_add.
Qed.

Lemma FB_spec b :
  if u32 b =? 0 then FB m b E = 32 else 0 <= FB m b E < 32 ∧ trailing (u32 b) (FB m b E).
Proof.
  unfold FB. rewrite byte_low, (byte_mid _ 8), (byte_mid _ 16), (shru_div _ 24), !u32_i32 by lia.
  pose proof (u32_range b) as Hb. set (x := u32 b) in *. clearbody x.
  change (2 ^ 8) with 256. change (2 ^ 16) with 65536. change (2 ^ 24) with 16777216.
  set (b0 := x mod 256). set (b1 := x / 256 mod 256). set (b2 := x / 65536 mod 256). set (b3 := x / 16777216).
  assert (x = b0 + 2 ^ 8 * b1 + 2 ^ 16 * b2 + 2 ^ 24 * b3 ∧ 0 <= b0 < 256 ∧ 0 <= b1 < 256 ∧ 0 <= b2 < 256 ∧ 0 <= b3 < 256)
    as (Hx & H0 & H1 & H2 & H3).
  { unfold b0, b1, b2, b3. change (2 ^ 8) with 256. change (2 ^ 16) with 65536. change (2 ^ 24) with 16777216.
    width. Z.div_mod_to_equations. lia. }
  clearbody b0 b1 b2 b3.
  pose proof (nd_entry b0 H0) as N0. pose proof (nd_entry b1 H1) as N1. pose proof (nd_entry b2 H2) as N2.
  pose proof (nd_entry b3 H3) as N3. cbv zeta in *.
  set (t0 := load8s E (m + b0)) in *. set (t1 := load8s E (m + b1)) in *.
  set (t2 := load8s E (m + b2)) in *. set (t3 := load8s E (m + b3)) in *. clearbody t0 t1 t2 t3.
  assert (∀ t s, 0 <= t <= 8 → 0 <= s <= 24 → i32 (t + s) = t + s) as Hi by (intros; apply i32_id; width).
  destruct (Z.eqb_spec b0 0) as [->|]; [subst t0|].
  2:{ destruct N0 as [Ht N0]. destruct (Z.ltb_spec t0 8); [|lia]. destruct (Z.eqb_spec x 0); [lia|]. split; [lia|].
      replace x with (b0 + 2 ^ 8 * (b1 + 2 ^ 8 * b2 + 2 ^ 16 * b3)) by lia. by apply trailing_add. }
  change (8 <? 8) with false. cbv iota. destruct (Z.eqb_spec b1 0) as [->|]; [subst t1|].
  2:{ destruct N1 as [Ht N1]. destruct (Z.ltb_spec t1 8); [|lia]. destruct (Z.eqb_spec x 0); [lia|]. rewrite Hi by lia.
      split; [lia|]. rewrite Z.add_comm. replace x with (2 ^ 8 * (b1 + 2 ^ 8 * (b2 + 2 ^ 8 * b3))) by lia.
      apply trailing_mul; [lia|]. by apply trailing_add. }
  change (8 <? 8) with false. cbv iota. destruct (Z.eqb_spec b2 0) as [->|]; [subst t2|].
  2:{ destruct N2 as [Ht N2]. destruct (Z.ltb_spec t2 8); [|lia]. destruct (Z.eqb_spec x 0); [lia|]. rewrite Hi by lia.
      split; [lia|]. rewrite Z.add_comm. replace x with (2 ^ 16 * (b2 + 2 ^ 8 * b3)) by lia.
      apply trailing_mul; [lia|]. by apply trailing_add. }
  change (8 <? 8) with false. cbv iota. destruct (Z.eqb_spec b3 0) as [->|].
  - subst t3. destruct (Z.eqb_spec x 0); [done|lia].
  - destruct N3 as [Ht N3]. destruct (Z.eqb_spec x 0); [lia|]. rewrite Hi by lia. split; [lia|]. rewrite Z.add_comm.
    replace x with (2 ^ 24 * b3) by lia. by apply trailing_mul.
Qed.

(** A word with one bit is the power of two that [FB] counts. *)
Lemma land_pred_odd q : Z.land (2 * q + 1) (2 * q) = 2 * q.
Proof.
  apply Z.bits_inj'. intros n Hn. rewrite Z.land_spec. destruct (Z.eq_dec n 0) as [->|].
  - by rewrite Z.testbit_even_0, andb_false_r.
  - replace n with (Z.succ (Z.pred n)) by lia. rewrite Z.testbit_odd_succ, Z.testbit_even_succ by lia. by destruct (Z.testbit q _).
Qed.

Lemma one_bit x t : trailing x t → Z.land x (x - 1) = 0 → x = 2 ^ t.
Proof.
  rewrite trailing_odd. intros (Ht & q & ->) H. assert (0 < 2 ^ t) by (apply Z.pow_pos_nonneg; lia).
  assert (Z.shiftr (Z.land (2 ^ t * (2 * q + 1)) (2 ^ t * (2 * q + 1) - 1)) t = 0) as H1 by (rewrite H; apply Z.shiftr_0_l).
  rewrite Z.shiftr_land, !Z.shiftr_div_pow2 in H1 by done.
  rewrite (Z.mul_comm (2 ^ t)), Z.div_mul in H1 by lia.
  replace ((2 * q + 1) * 2 ^ t - 1) with (2 ^ t - 1 + 2 * q * 2 ^ t) in H1 by ring.
  rewrite Z.div_add, Z.div_small, Z.add_0_l, land_pred_odd in H1 by lia. nia.
Qed.

Lemma FB_pow2 b : u32 b ≠ 0 → jand (i32 (b - 1)) b = 0 → u32 b = 2 ^ FB m b E ∧ 0 <= FB m b E < 32.
Proof.
  intros Hb H. pose proof (FB_spec b) as HF. destruct (Z.eqb_spec (u32 b) 0); [done|]. destruct HF as [Hr Ht].
  split; [|done]. apply one_bit; [done|]. pose proof (u32_range b) as HB. pose proof (f_equal u32 H) as H'.
  rewrite u32_jand, u32_i32, Z.land_comm in H'. change (u32 0) with 0 in H'.
  rewrite (u32_sub_congr b 1 (u32 b) 1), (u32_id (u32 b - 1)) in H' by (by rewrite ?u32_u32 || width). done.
Qed.
End Table.
