(* ===== verification/VizDivision.v ===== *)
(** * The 64-bit division of the object code

    [MB] divides by shifting and subtracting: its cases set up the shifted
    dividend, each turn of its loop yields one bit of the quotient.  The
    lemmas follow the function: the turns of the loop keep the equation of
    division on the bits seen so far, the cases establish it, and so quotient
    and remainder are those of the numbers. *)

From Stdlib Require Import ZArith Lia.
From stdpp Require Import base list.
From S2P Require Import Prelude VizRuntime VizFacts VizFile VizMemory VizEnv VizInt64 VizInt64Facts.

Open Scope Z_scope.

(** ** One turn of the loop *)

Lemma sign_lo_spec x : sign_lo x = if 2 ^ 31 <=? u32 x then -1 else 0.
Proof.
  rewrite <- i32_neg. unfold sign_lo, neg_mask. pose proof (i32_range x) as Hr. rewrite shr_div by lia.
  destruct (Z.ltb_spec (i32 x) 0).
  - replace (i32 x / 2 ^ 31) with (-1); [done|]. apply Z.div_unique with (i32 x + 2 ^ 31); width.
  - rewrite Z.div_small by width. done.
Qed.

Lemma sign_hi_spec x : sign_hi x = if 2 ^ 31 <=? u32 x then -1 else 0.
Proof. rewrite <- i32_neg. unfold sign_hi, neg_mask. by destruct (i32 x <? 0). Qed.

Lemma jand_ones x : jand (-1) x = i32 x.
Proof. unfold jand. change (i32 (-1)) with (-1). apply Z.land_m1_l. Qed.

Lemma jand_zero x : jand 0 x = 0.
Proof. unfold jand. change (i32 0) with 0. apply Z.land_0_l. Qed.

Lemma v64_i32_l a b : v64 (i32 a, b) = v64 (a, b).
Proof. unfold v64; cbn [fst snd]. by rewrite u32_i32. Qed.

Lemma v64_i32_r a b : v64 (a, i32 b) = v64 (a, b).
Proof. unfold v64; cbn [fst snd]. by rewrite u32_i32. Qed.

Lemma u64_id x : is_u64 x → u64 x = x.
Proof. intros. unfold u64. by apply Z.mod_small. Qed.

(** A pair shifted left by one bit, with a bit [i] put in below. *)
Lemma double_words g j i : i = 0 ∨ i = 1 →
  v64 (jor i (shl g 1), jor (shru g 31) (shl j 1)) = u64 (2 * v64 (g, j)) + i.
Proof.
  intros Hi. pose proof (u32_range g) as Hg. pose proof (u32_range j) as Hj.
  unfold v64; cbn [fst snd]. rewrite !u32_jor, !u32_shl, u32_shru by lia.
  rewrite (Z.lor_comm (u32 g / _)).
  replace (2 * (u32 g + 2 ^ 32 * u32 j)) with ((u32 g + 2 ^ 32 * u32 j) * 2 ^ 1) by lia.
  rewrite (shift_left _ _ Hg 1), <- (shift_left_lor _ _ Hg 1) by lia. change (32 - 1) with 31.
  rewrite Z.lor_comm. change (2 ^ 1) with 2. replace (u32 i) with i by (destruct Hi as [-> | ->]; done).
  assert (∃ x, u32 (u32 g * 2) = x * 2 ^ 1) as [x ->].
  { exists (u32 g mod 2 ^ 31). by apply (u32_mul_pow _ 31). }
  rewrite lor_split by (lia || (change (2 ^ 1) with 2; lia)). lia.
Qed.

(** The remainder shifted left, with the top bit of the dividend put in below. *)
Lemma shift_in a b j : v64 (a, b) < 2 ^ 63 →
  v64 (jor (shl a 1) (shru j 31), jor (shru a 31) (shl b 1)) = 2 * v64 (a, b) + u32 j / 2 ^ 31.
Proof.
  intros Hab. pose proof (u32_range j) as Hj.
  assert (u32 j / 2 ^ 31 = 0 ∨ u32 j / 2 ^ 31 = 1) as Hb by (width; Z.div_mod_to_equations; lia).
  rewrite <- (u64_id (2 * v64 (a, b))), <- double_words by (done || (pose proof (v64_range (a, b)); width)).
  unfold v64; cbn [fst snd]. f_equal. rewrite !u32_jor, Z.lor_comm. f_equal.
  rewrite u32_shru by lia. symmetry. apply u32_id. width.
Qed.

(** The sign of the difference decides the bit. *)
Lemma top_bit x y : - 2 ^ 63 <= v64 x - v64 y < 2 ^ 63 →
  (2 ^ 31 <=? u32 (vB x.1 x.2 y.1 y.2).2) = (v64 x <? v64 y).
Proof.
  intros H. pose proof (vB_spec x.1 x.2 y.1 y.2) as Hs. rewrite <- !surjective_pairing in Hs.
  unfold v64 at 1 in Hs. set (lo := u32 _) in Hs. set (hi := u32 _) in *.
  assert (is_u32 lo ∧ is_u32 hi) as [Hlo Hhi] by (split; apply u32_range). clearbody lo hi.
  pose proof (v64_range x) as Hx. pose proof (v64_range y) as Hy. generalize dependent (v64 x). generalize dependent (v64 y).
  intros. width. Z.div_mod_to_equations. lia.
Qed.

Lemma top_of_pair g j : u32 j / 2 ^ 31 = v64 (g, j) / 2 ^ 63.
Proof.
  unfold v64; cbn [fst snd]. pose proof (u32_range g) as Hg. pose proof (u32_range j) as Hj.
  generalize dependent (u32 g). generalize dependent (u32 j). intros. width. Z.div_mod_to_equations. lia.
Qed.

(** The turn as the code writes it. *)
Lemma MB_loop_S n m l k d a b g j i :
  MB_loop (S n) m l k d a b g j i =
  let e := i32 (jor (shl a 1) (shru j 31)) in
  let r := i32 (jor (shru a 31) (shl b 1)) in
  let p := (vB k d e r).2 in
  let v := vB e r (jand (sign_lo p) m) (jand (sign_hi p) l) in
  MB_loop n m l k d (i32 v.1) v.2 (jor i (shl g 1)) (jor (shru g 31) (shl j 1)) (jand (sign_lo p) 1).
Proof. cbn [MB_loop]. cbv zeta. by destruct (vB _ _ (jand _ _) _). Qed.

(** The difference of the divisor less one and the shifted remainder is
    negative when the divisor fits. *)
Lemma fits_bit k d e r D R' :
  v64 (k, d) = D - 1 → v64 (e, r) = R' → - 2 ^ 63 <= D - 1 - R' < 2 ^ 63 →
  (2 ^ 31 <=? u32 (vB k d e r).2) = (D <=? R').
Proof.
  intros Hk Her Hd. pose proof (top_bit (k, d) (e, r)) as Ht. rewrite Hk, Her in Ht. specialize (Ht Hd).
  cbn [fst snd] in Ht. rewrite Ht. lia.
Qed.

(** The divisor, or 0, subtracted. *)
Lemma subtract_masked m l e r D R' :
  v64 (m, l) = D → v64 (e, r) = R' →
  let v := vB e r (jand (if D <=? R' then -1 else 0) m) (jand (if D <=? R' then -1 else 0) l) in
  v64 (i32 v.1, v.2) = if D <=? R' then R' - D else R'.
Proof.
  intros HDm Her. cbv zeta. rewrite v64_i32_l, <- surjective_pairing, vB_spec, Her.
  pose proof (v64_range (e, r)) as HB. rewrite Her in HB. pose proof (v64_range (m, l)) as HD. rewrite HDm in HD.
  destruct (Z.leb_spec D R').
  - rewrite !jand_ones, v64_i32_l, v64_i32_r, HDm. apply u64_id. unfold is_u64 in *. lia.
  - rewrite !jand_zero. change (v64 (0, 0)) with 0. rewrite Z.sub_0_r. by apply u64_id.
Qed.

(** One turn: the next bit of the quotient is 1 when the divisor fits. *)
Lemma MB_turn n m l k d a b g j i D R' :
  v64 (m, l) = D → 2 * v64 (a, b) + v64 (g, j) / 2 ^ 63 = R' →
  v64 (k, d) = D - 1 → i = 0 ∨ i = 1 → v64 (a, b) < 2 ^ 63 → - 2 ^ 63 <= D - 1 - R' < 2 ^ 63 →
  ∃ a' b' g' j',
    MB_loop (S n) m l k d a b g j i = MB_loop n m l k d a' b' g' j' (if D <=? R' then 1 else 0) ∧
    v64 (g', j') = u64 (2 * v64 (g, j)) + i ∧ v64 (a', b') = if D <=? R' then R' - D else R'.
Proof.
  intros HDm HR' Hk Hi HR Hd. rewrite MB_loop_S. cbv zeta.
  assert (v64 (i32 (jor (shl a 1) (shru j 31)), i32 (jor (shru a 31) (shl b 1))) = R') as Her
    by (by rewrite v64_i32_l, v64_i32_r, shift_in, (top_of_pair g)).
  revert Her. generalize (i32 (jor (shl a 1) (shru j 31))) (i32 (jor (shru a 31) (shl b 1))). intros e r Her.
  pose proof (subtract_masked m l e r D R' HDm Her) as Hv. cbv zeta in Hv.
  rewrite sign_lo_spec, sign_hi_spec, (fits_bit k d e r D R' Hk Her Hd). revert Hv.
  generalize (vB e r (jand (if D <=? R' then -1 else 0) m) (jand (if D <=? R' then -1 else 0) l)). intros v Hv.
  assert (jand (if D <=? R' then -1 else 0) 1 = if D <=? R' then 1 else 0) as -> by (by destruct (D <=? R')).
  exists (i32 v.1), v.2, (jor i (shl g 1)), (jor (shru g 31) (shl j 1)).
  split; [reflexivity|]. split; [by apply double_words|exact Hv].
Qed.

(** ** The loop *)

(** After some turns, with [n] to go: the bits of the quotient so far are below
    in [Q], but for the last one, [i]; the rest of the dividend is above. *)
Definition turning (n N D R Q i : Z) : Prop :=
  0 <= R < D ∧ (i = 0 ∨ i = 1) ∧ N mod 2 ^ n = Q / 2 ^ (64 - n) ∧
  N / 2 ^ n = (2 * (Q mod 2 ^ (64 - n)) + i) * D + R.

(** The next bit of the dividend, and what is left of it. *)
Lemma next_bit N n : 0 <= n →
  N / 2 ^ n = 2 * (N / 2 ^ (n + 1)) + N mod 2 ^ (n + 1) / 2 ^ n ∧
  N mod 2 ^ n = N mod 2 ^ (n + 1) - 2 ^ n * (N mod 2 ^ (n + 1) / 2 ^ n).
Proof.
  intros Hn. rewrite Z.pow_add_r by lia. change (2 ^ 1) with 2. assert (0 < 2 ^ n) as Hp by (apply Z.pow_pos_nonneg; lia).
  set (P := 2 ^ n) in *. clearbody P. rewrite Z.rem_mul_r by lia.
  rewrite <- (Z.div_div N P 2) by lia. rewrite (Z.add_comm (N mod P)), (Z.mul_comm P ((N / P) mod 2)).
  rewrite Z.div_add_l by lia. rewrite (Z.div_small (N mod P) P) by (apply Z.mod_pos_bound; lia).
  split; [|lia]. pose proof (Z.div_mod (N / P) 2 ltac:(lia)). lia.
Qed.

Lemma turning_step n N D R Q i : 0 <= n < 64 → is_u64 Q → turning (n + 1) N D R Q i →
  let R' := 2 * R + Q / 2 ^ 63 in
  turning n N D (if D <=? R' then R' - D else R') (u64 (2 * Q) + i) (if D <=? R' then 1 else 0).
Proof.
  intros Hn HQ (HR & Hi & Hmod & Hdiv) R'.
  assert (2 ^ 63 = 2 ^ (64 - (n + 1)) * 2 ^ n) as H63 by (rewrite <- Z.pow_add_r by lia; f_equal; lia).
  assert (2 ^ (64 - n) = 2 * 2 ^ (64 - (n + 1))) as HT by (rewrite <- Z.pow_succ_r by lia; f_equal; lia).
  assert (0 < 2 ^ n) as HP by (apply Z.pow_pos_nonneg; lia).
  assert (0 < 2 ^ (64 - (n + 1))) as HT0 by (apply Z.pow_pos_nonneg; lia).
  destruct (next_bit N n) as [Hb1 Hb2]; [lia|]. rewrite Hmod in Hb1, Hb2.
  set (T := 2 ^ (64 - (n + 1))) in *. set (P := 2 ^ n) in *.
  assert (Q / 2 ^ 63 = Q / T / P) as Hbit by (rewrite H63, Z.div_div by lia; done).
  assert (u64 (2 * Q) = 2 * Q - (Q / 2 ^ 63) * 2 ^ 64) as Hu.
  { clear -HQ. width. Z.div_mod_to_equations. lia. }
  assert (2 ^ 64 = 2 * T * P) as H64 by (change (2 ^ 64) with (2 * 2 ^ 63); rewrite H63; ring).
  assert (0 <= Q / 2 ^ 63 <= 1) as Hbound by (clear -HQ; width; Z.div_mod_to_equations; lia).
  unfold turning. fold P. rewrite HT.
  assert ((u64 (2 * Q) + i) / (2 * T) = Q / T - Q / T / P * P ∧ (u64 (2 * Q) + i) mod (2 * T) = 2 * (Q mod T) + i) as [-> ->].
  { rewrite Hu, Hbit, H64. pose proof (Z.div_mod Q T ltac:(lia)) as Hdm. pose proof (Z.mod_pos_bound Q T ltac:(lia)) as Hmb.
    assert (2 * Q - Q / T / P * (2 * T * P) + i = (2 * T) * (Q / T - Q / T / P * P) + (2 * (Q mod T) + i)) as -> by lia.
    split; symmetry; [apply Z.div_unique with (2 * (Q mod T) + i)|apply Z.mod_unique with (Q / T - Q / T / P * P)]; lia. }
  split; [|split; [|split]].
  - unfold R'. destruct (Z.leb_spec D (2 * R + Q / 2 ^ 63)); lia.
  - destruct (D <=? R'); [by right|by left].
  - rewrite Hb2. lia.
  - rewrite Hb1, Hdiv, <- Hbit. unfold R'. destruct (D <=? _); ring.
Qed.

(** The loop from any such state, when the divisor has at most 63 bits. *)
Lemma MB_loop_spec n N m l k d a b g j i :
  let D := v64 (m, l) in
  (n <= 64)%nat → D <= 2 ^ 63 → v64 (k, d) = D - 1 →
  turning (Z.of_nat n) N D (v64 (a, b)) (v64 (g, j)) i →
  ∃ a' b' g' j' i',
    MB_loop n m l k d a b g j i = (a', b', g', j', i') ∧ turning 0 N D (v64 (a', b')) (v64 (g', j')) i'.
Proof.
  intros D Hn HD Hk. revert a b g j i. induction n as [|n IH]; intros a b g j i Ht.
  { cbn [MB_loop]. by eexists _, _, _, _, _. }
  pose proof (v64_range (g, j)) as HQ. replace (Z.of_nat (S n)) with (Z.of_nat n + 1) in Ht by lia.
  pose proof Ht as (HR & Hi & _ & _).
  assert (0 <= v64 (g, j) / 2 ^ 63 <= 1) by (clear -HQ; width; Z.div_mod_to_equations; lia).
  destruct (MB_turn n m l k d a b g j i D _ eq_refl eq_refl Hk Hi) as (a' & b' & g' & j' & HE & Hg & Ha); [lia|lia|].
  rewrite HE. apply IH; [lia|]. rewrite Hg, Ha. apply turning_step; [lia|done|done].
Qed.

(** A divisor of 64 bits: one turn is enough. *)
Lemma MB_loop_top N m l k d a b g j :
  let D := v64 (m, l) in
  2 ^ 63 <= D → 2 ^ 63 <= N < 2 ^ 64 → v64 (k, d) = D - 1 → turning 1 N D (v64 (a, b)) (v64 (g, j)) 0 →
  ∃ a' b' g' j' i',
    MB_loop 1 m l k d a b g j 0 = (a', b', g', j', i') ∧ turning 0 N D (v64 (a', b')) (v64 (g', j')) i'.
Proof.
  intros D HD HN Hk Ht. pose proof (v64_range (g, j)) as HQ. pose proof (v64_range (m, l)) as HDr. fold D in HDr.
  pose proof (turning_step 0 N D (v64 (a, b)) (v64 (g, j)) 0 ltac:(lia) HQ Ht) as Hs.
  destruct Ht as (HR & _ & Hmod & Hdiv). change (64 - 1) with 63 in *. change (2 ^ 1) with 2 in *.
  assert (v64 (a, b) = N / 2 ∧ v64 (g, j) / 2 ^ 63 = N mod 2) as [Ha Hg].
  { split; [|done]. assert (2 * (v64 (g, j) mod 2 ^ 63) + 0 = 0) as Hz; [|nia].
    pose proof (Z.mod_pos_bound (v64 (g, j)) (2 ^ 63) ltac:(lia)).
    destruct (Z.eq_dec (v64 (g, j) mod 2 ^ 63) 0); [lia|]. exfalso.
    assert (N / 2 < 2 ^ 63) by (apply Z.div_lt_upper_bound; lia). nia. }
  pose proof (Z.div_mod N 2 ltac:(lia)) as HN2.
  destruct (MB_turn 0 m l k d a b g j 0 D _ eq_refl eq_refl Hk (or_introl eq_refl)) as (a' & b' & g' & j' & HE & Hg' & Ha').
  - rewrite Ha. apply Z.div_lt_upper_bound; lia.
  - rewrite Ha, Hg. unfold is_u64 in HDr. lia.
  - rewrite HE. cbn [MB_loop]. eexists _, _, _, _, _. split; [reflexivity|]. rewrite Hg', Ha'. exact Hs.
Qed.

(** ** The cases *)

(** Quotient and remainder, with 0 for those of a division by zero. *)
Definition quot64 (N D : Z) : Z := if D =? 0 then 0 else N / D.
Definition rem64 (N D : Z) : Z := if D =? 0 then 0 else N mod D.

(** The words of [N / 2 ^ s] and of [N * 2 ^ (64 - s)]. *)
Lemma words_right l k s : 1 <= s <= 31 →
  v64 (jor (shru l s) (shl k (32 - s)), shru k s) = v64 (l, k) / 2 ^ s.
Proof.
  intros Hs. unfold v64; cbn [fst snd]. rewrite u32_jor, !u32_shru, u32_shl by lia.
  rewrite shift_right_lor, shift_right by (apply u32_range || lia). done.
Qed.

Lemma words_far l k s : 32 <= s <= 63 → v64 (shru k (s - 32), 0) = v64 (l, k) / 2 ^ s.
Proof.
  intros Hs. unfold v64; cbn [fst snd]. rewrite u32_shru by lia. change (u32 0) with 0.
  replace s with (32 + (s - 32)) at 2 by lia. rewrite Z.pow_add_r, <- Z.div_div by (lia || apply Z.pow_nonzero; lia).
  rewrite (Z.mul_comm (2 ^ 32) (u32 k)), Z.div_add, (Z.div_small (u32 l)) by (pose proof (u32_range l); unfold is_u32 in *; lia). by rewrite Z.mul_0_r, Z.add_0_r, Z.add_0_l.
Qed.

Lemma words_left l k s : 1 <= s <= 32 → v64 (0, shl l (32 - s)) = u64 (v64 (l, k) * 2 ^ (64 - s)).
Proof.
  intros Hs. unfold v64; cbn [fst snd]. change (u32 0) with 0. rewrite u32_shl by lia. unfold u64, u32 at 1.
  replace (64 - s) with (32 + (32 - s)) by lia. rewrite Z.pow_add_r by lia. change (2 ^ 64) with (2 ^ 32 * 2 ^ 32).
  replace ((u32 l + 2 ^ 32 * u32 k) * (2 ^ 32 * 2 ^ (32 - s)))
    with (2 ^ 32 * (u32 l * 2 ^ (32 - s)) + u32 k * 2 ^ (32 - s) * (2 ^ 32 * 2 ^ 32)) by ring.
  rewrite Z.mod_add, Z.mul_mod_distr_l by lia. lia.
Qed.

Lemma words_left_far l k s : 33 <= s <= 63 →
  v64 (shl l (64 - s), jor (shl k (64 - s)) (shru l (s - 32))) = u64 (v64 (l, k) * 2 ^ (64 - s)).
Proof.
  intros Hs. unfold v64; cbn [fst snd]. rewrite u32_jor, !u32_shl, u32_shru by lia.
  pose proof (u32_range l) as Hl. rewrite (shift_left _ _ Hl), <- (shift_left_lor _ _ Hl) by lia.
  replace (32 - (64 - s)) with (s - 32) by lia. done.
Qed.

(** What a case leaves for the loop. *)
Definition shifted (N D h a b g i : Z) : Prop :=
  1 <= h <= 63 ∧ v64 (a, b) = N / 2 ^ h ∧ v64 (g, i) = u64 (N * 2 ^ (64 - h)) ∧ N / 2 ^ h < D ∧
  (D <= 2 ^ 63 ∨ h = 1 ∧ 2 ^ 63 <= N).

Lemma shifted_turning N D h a b g i : is_u64 N → shifted N D h a b g i → turning h N D (v64 (a, b)) (v64 (g, i)) 0.
Proof.
  intros HN (Hh & Ha & Hg & Hlt & _). assert (0 < 2 ^ h) by (apply Z.pow_pos_nonneg; lia).
  assert (0 < 2 ^ (64 - h)) by (apply Z.pow_pos_nonneg; lia).
  assert (2 ^ 64 = 2 ^ h * 2 ^ (64 - h)) as H64 by (rewrite <- Z.pow_add_r by lia; f_equal; lia).
  assert (v64 (g, i) = N mod 2 ^ h * 2 ^ (64 - h)) as HQ.
  { rewrite Hg. unfold u64. rewrite H64, Z.mul_mod_distr_r by lia. done. }
  unfold turning. rewrite HQ, Ha, Z.div_mul, Z.mod_mul by lia. unfold is_u64 in HN.
  split_and!; [apply Z.div_pos; lia|done|by left|done|lia].
Qed.

(** Leading zeros and sizes. *)
Lemma log2_word x : u32 x ≠ 0 → 0 <= Z.log2 (u32 x) <= 31 ∧ 2 ^ Z.log2 (u32 x) <= u32 x < 2 ^ (Z.log2 (u32 x) + 1).
Proof.
  intros Hx. pose proof (u32_range x) as Hr. unfold is_u32 in Hr. split.
  - split; [apply Z.log2_nonneg|]. enough (Z.log2 (u32 x) < 32) by lia. apply Z.log2_lt_pow2; lia.
  - apply Z.log2_spec. lia.
Qed.

Lemma clz32_word x : u32 x ≠ 0 → clz32 x = 31 - Z.log2 (u32 x).
Proof. intros. rewrite clz32_spec. by destruct (Z.eqb_spec (u32 x) 0). Qed.

(** The dividend shifted by one more than the difference of the sizes is below the divisor. *)
Lemma below_divisor N D t h : 0 <= h <= t → 0 <= N < 2 ^ t → 2 ^ (t - h) <= D → N / 2 ^ h < D.
Proof.
  intros Hh HN HD. apply Z.lt_le_trans with (2 ^ (t - h)); [|done].
  apply Z.div_lt_upper_bound; [apply Z.pow_pos_nonneg; lia|]. rewrite <- Z.pow_add_r by lia. replace (h + (t - h)) with t by lia. lia.
Qed.

Lemma v64_size a b : u32 b ≠ 0 → v64 (a, b) < 2 ^ (33 + Z.log2 (u32 b)) ∧ 2 ^ (32 + Z.log2 (u32 b)) <= v64 (a, b).
Proof.
  intros Hb. destruct (log2_word b Hb) as [Hl [H1 H2]]. pose proof (u32_range a) as Ha. unfold is_u32 in Ha.
  unfold v64; cbn [fst snd]. replace (33 + Z.log2 (u32 b)) with (32 + (Z.log2 (u32 b) + 1)) by lia.
  rewrite !(Z.pow_add_r 2 32) by lia. split; nia.
Qed.

(** Divisors with a high half. *)
Lemma shifted_high a b d e h x y z :
  u32 b ≠ 0 → u32 e ≠ 0 → h = Z.log2 (u32 b) - Z.log2 (u32 e) + 1 → 1 <= h →
  v64 (x, y) = v64 (a, b) / 2 ^ h → z = shl a (32 - h) → shifted (v64 (a, b)) (v64 (d, e)) h x y 0 z.
Proof.
  intros Hb He Hh Hh1 Hxy ->. destruct (log2_word b Hb) as [Hlb _]. destruct (log2_word e He) as [Hle _].
  destruct (v64_size a b Hb) as [HN1 HN2]. destruct (v64_size d e He) as [HD1 HD2]. pose proof (v64_range (a, b)) as HN.
  unfold shifted. split_and!; [lia|lia|done|apply words_left; lia| |].
  - apply below_divisor with (33 + Z.log2 (u32 b)); [lia|unfold is_u64 in HN; lia|].
    replace (33 + Z.log2 (u32 b) - h) with (32 + Z.log2 (u32 e)) by lia. done.
  - destruct (Z.le_gt_cases (v64 (d, e)) (2 ^ 63)) as [|Hgt]; [by left|right].
    assert (Z.log2 (u32 e) = 31) as He31.
    { destruct (Z.eq_dec (Z.log2 (u32 e)) 31); [done|]. exfalso.
      assert (2 ^ (33 + Z.log2 (u32 e)) <= 2 ^ 63) by (apply Z.pow_le_mono_r; lia). lia. }
    assert (Z.log2 (u32 b) = 31) as Hb31 by lia. rewrite Hb31 in HN2. split; [lia|done].
Qed.

Lemma jand_ones_r x : jand x (-1) = i32 x.
Proof. unfold jand. change (i32 (-1)) with (-1). apply Z.land_m1_r. Qed.

Lemma jand_zero_r x : jand x 0 = 0.
Proof. unfold jand. change (i32 0) with 0. apply Z.land_0_r. Qed.

Lemma jor_zero_r x : jor x 0 = i32 x.
Proof. unfold jor. change (i32 0) with 0. apply Z.lor_0_r. Qed.

Lemma jor_zero_l x : jor 0 x = i32 x.
Proof. unfold jor. change (i32 0) with 0. apply Z.lor_0_l. Qed.

Lemma jor_i32_l x y : jor (i32 x) y = jor x y.
Proof. unfold jor. by rewrite i32_i32. Qed.

Lemma jor_i32_r x y : jor x (i32 y) = jor x y.
Proof. unfold jor. by rewrite i32_i32. Qed.

Lemma jor_comm x y : jor x y = jor y x.
Proof. apply Z.lor_comm. Qed.

(** The mask of a small number. *)
Lemma small_mask x : - 2 ^ 31 <= x < 2 ^ 31 → shr x 31 = if x <? 0 then -1 else 0.
Proof.
  intros Hx. rewrite shr_div, i32_id by (width; lia). destruct (Z.ltb_spec x 0).
  - symmetry. apply Z.div_unique with (x + 2 ^ 31); lia.
  - apply Z.div_small. lia.
Qed.

Lemma i32_zero x : is_i32 x → u32 x = 0 ↔ x = 0.
Proof. intros. width. Z.div_mod_to_equations. lia. Qed.

Create Rewrite HintDb words.
#[export] Hint Rewrite jand_ones jand_ones_r jand_zero jand_zero_r jor_zero_l jor_zero_r jor_i32_l jor_i32_r i32_i32
  v64_i32_l v64_i32_r : words.

(** The end of a case: a result, or the start of the loop. *)
Definition case_ok (N D f : Z) (E : heap) (c : mb_case) : Prop :=
  match c with
  | MBDone lo hi E' =>
      v64 (lo, hi) = quot64 N D ∧ ∃ r s, v64 (r, s) = rem64 N D ∧ E' = put_rem f r s E
  | MBLoop h a b g i => shifted N D h a b g i
  end.

Lemma done_small N D f E lo hi r s :
  0 <= N < D → v64 (lo, hi) = 0 → v64 (r, s) = N → case_ok N D f E (MBDone lo hi (put_rem f r s E)).
Proof.
  intros HN Hq Hr. unfold case_ok, quot64, rem64. destruct (Z.eqb_spec D 0); [lia|].
  rewrite Z.div_small, Hq by done. split; [done|]. exists r, s. by rewrite Z.mod_small by done.
Qed.

Section Cases.
Context (m f : Z) (E : heap) (Htab : ∀ r s, holds (put_rem f r s E) m nd).
Context (a b d e : Z) (Ha : is_i32 a) (Hb : is_i32 b) (Hd : is_i32 d) (He : is_i32 e).

Lemma size_order : u32 b ≠ 0 → u32 e ≠ 0 → Z.log2 (u32 b) < Z.log2 (u32 e) → v64 (a, b) < v64 (d, e).
Proof.
  intros Hb0 He0 Hl. destruct (v64_size a b Hb0) as [HN _]. destruct (v64_size d e He0) as [_ HD].
  destruct (log2_word b Hb0) as [? _].
  assert (2 ^ (33 + Z.log2 (u32 b)) <= 2 ^ (32 + Z.log2 (u32 e))) by (apply Z.pow_le_mono_r; lia). lia.
Qed.

(** The difference of the leading zeros of two high halves. *)
Lemma clz_difference : u32 b ≠ 0 → u32 e ≠ 0 →
  i32 (clz32 e - clz32 b) = Z.log2 (u32 b) - Z.log2 (u32 e) ∧ -31 <= Z.log2 (u32 b) - Z.log2 (u32 e) <= 31.
Proof.
  intros Hb0 He0. destruct (log2_word b Hb0) as [Hlb _]. destruct (log2_word e He0) as [Hle _].
  rewrite !clz32_word by done. split; [|lia]. rewrite i32_id; [lia|]. unfold is_i32. lia.
Qed.

(** The words the cases compute for a shift by [s = g + 1] up to 32. *)
Lemma words_masked g : 0 <= g <= 31 →
  v64 (jor (jand (shru a (u32 (i32 (g + 1)))) (shr (g - 31) 31)) (shl b (i32 (31 - g))),
       jand (shru b (u32 (i32 (g + 1)))) (shr (g - 31) 31)) = v64 (a, b) / 2 ^ (g + 1).
Proof.
  intros Hg. rewrite u32_i32, u32_id, (i32_id (31 - g)), small_mask by (unfold is_i32, is_u32; lia).
  destruct (Z.ltb_spec (g - 31) 0).
  - autorewrite with words. rewrite <- words_right by lia. by replace (32 - (g + 1)) with (31 - g) by lia.
  - replace g with 31 by lia. autorewrite with words. change (31 + 1) with 32. rewrite <- (words_far a b 32) by lia.
    unfold v64; cbn [fst snd]. rewrite u32_shl, u32_shru by lia. change (31 - 31) with 0. change (32 - 32) with 0.
    change (2 ^ 0) with 1. by rewrite Z.mul_1_r, u32_u32, Z.div_1_r.
Qed.

Lemma MB_low_high : b ≠ 0 → e ≠ 0 → case_ok (v64 (a, b)) (v64 (d, e)) f E (MB_low m a b d e f E).
Proof.
  intros Hb0%(not_iff_compat (i32_zero b Hb)) He0'. pose proof He0' as He0%(not_iff_compat (i32_zero e He)).
  unfold MB_low. destruct (Z.eqb_spec e 0); [done|]. cbn [negb].
  destruct (clz_difference Hb0 He0) as [-> Hr]. set (g := Z.log2 (u32 b) - Z.log2 (u32 e)) in *.
  destruct (Z.leb_spec (u32 g) 31) as [Hg|Hg].
  - assert (0 <= g) by (destruct (Z.le_gt_cases 0 g); [done|exfalso; revert Hg; width; Z.div_mod_to_equations; lia]).
    cbn [case_ok]. rewrite (i32_id (g + 1)) by (unfold is_i32; lia).
    apply (shifted_high _ _ _ _ _ _ _ _ Hb0 He0); [unfold g; lia|lia| |].
    + rewrite <- words_masked by lia. by rewrite (i32_id (g + 1)) by (unfold is_i32; lia).
    + rewrite i32_id by (unfold is_i32; lia). f_equal. lia.
  - assert (g < 0) by (destruct (Z.lt_ge_cases g 0); [done|exfalso; rewrite u32_id in Hg; unfold is_u32; lia]).
    apply done_small; [|done|].
    + split; [apply v64_range|]. apply size_order; [done..|]. unfold g in *. lia.
    + by autorewrite with words.
Qed.

(** Divisors below [2 ^ 32] that are no power of two. *)
Lemma words_middle s : 2 <= s <= 63 →
  let p := i32 (64 - s) in let m := i32 (32 - s) in let j := shr m 31 in let o := i32 (s - 32) in let w := shr o 31 in
  v64 (jor (jand (shr (m - 1) 31) (shru b (u32 o))) (jand (jor (shl b m) (shru a (u32 s))) w), jand w (shru b (u32 s)))
    = v64 (a, b) / 2 ^ s ∧
  v64 (jand (shl a p) j, jor (jand (jor (shl b p) (shru a (u32 o))) j) (jand (shl a m) (shr (s - 33) 31)))
    = u64 (v64 (a, b) * 2 ^ (64 - s)).
Proof.
  intros Hs. cbv zeta. rewrite !(i32_id (64 - s)), !(i32_id (32 - s)), !(i32_id (s - 32)), (u32_id s) by (unfold is_i32, is_u32; lia).
  rewrite !small_mask by lia.
  destruct (Z.ltb_spec (32 - s - 1) 0), (Z.ltb_spec (s - 32) 0), (Z.ltb_spec (32 - s) 0), (Z.ltb_spec (s - 33) 0); try lia;
    autorewrite with words.
  - rewrite (u32_id (s - 32)) by (unfold is_u32; lia). split; [apply words_far; lia|apply words_left_far; lia].
  - replace s with 32 by lia. split.
    + rewrite (u32_id (32 - 32)) by done. apply words_far. lia.
    + apply words_left. lia.
  - split; [|apply words_left; lia]. rewrite jor_comm. apply words_right. lia.
Qed.

Lemma power_of_two d' : is_i32 d' → d' ≠ 0 → jand (i32 (d' - 1)) d' = 0 → ∀ r s,
  let p := FB m d' (put_rem f r s E) in u32 d' = 2 ^ p ∧ 0 <= p < 32.
Proof. intros Hd' Hne H r s. apply FB_pow2; [apply Htab| |done]. by apply (not_iff_compat (i32_zero d' Hd')). Qed.

(** The mask of a power of two. *)
Lemma mask_pow2 x d' p : u32 d' = 2 ^ p → 0 <= p → u32 (jand (i32 (d' - 1)) x) = u32 x mod 2 ^ p.
Proof.
  intros Hp Hp0. rewrite u32_jand, u32_i32, (u32_sub_congr d' 1 (u32 d') 1) by (by rewrite ?u32_u32).
  rewrite Hp, Z.land_comm, <- Z.land_ones, Z.ones_equiv, <- Z.sub_1_r by done. f_equal. apply u32_id. rewrite <- Hp.
  pose proof (u32_range d') as Hr. assert (0 < u32 d') by (rewrite Hp; apply Z.pow_pos_nonneg; lia). unfold is_u32 in *. lia.
Qed.

Lemma MB_low_low : b ≠ 0 → d ≠ 0 → e = 0 → case_ok (v64 (a, b)) (v64 (d, e)) f E (MB_low m a b d e f E).
Proof.
  intros Hb0%(not_iff_compat (i32_zero b Hb)) Hd0 He0. pose proof Hd0 as Hd0'%(not_iff_compat (i32_zero d Hd)).
  assert (v64 (d, e) = u32 d) as HD by (rewrite He0; unfold v64; cbn [fst snd]; change (u32 0) with 0; lia).
  unfold MB_low. rewrite He0. cbn [Z.eqb negb]. rewrite He0 in HD. rewrite HD.
  destruct (log2_word d Hd0') as [Hld [Hd1 Hd2]]. destruct (log2_word b Hb0) as [Hlb _]. destruct (v64_size a b Hb0) as [HN _].
  pose proof (u32_range d) as Hdr. pose proof (v64_range (a, b)) as HNr.
  destruct (Z.eqb_spec (jand (i32 (d - 1)) d) 0) as [Hp|Hp]; cbn [negb].
  - destruct (power_of_two d Hd Hd0 Hp (jand (i32 (d - 1)) a) 0) as [Hpow Hpr]. set (p := FB m d _) in *.
    assert (0 < 2 ^ p) by (apply Z.pow_pos_nonneg; lia).
    assert (v64 (jand (i32 (d - 1)) a, 0) = v64 (a, b) mod 2 ^ p) as Hrem.
    { unfold v64; cbn [fst snd]. rewrite (mask_pow2 a d p) by lia. change (u32 0) with 0.
      rewrite <- (pow2_split p) by lia. replace (u32 a + 2 ^ p * 2 ^ (32 - p) * u32 b) with (u32 a + 2 ^ (32 - p) * u32 b * 2 ^ p) by ring.
      rewrite Z.mod_add by lia. lia. }
    destruct (Z.eqb_spec d 1) as [Hd1'|Hd1']; cbn [case_ok]; unfold quot64, rem64; rewrite Hpow;
      (destruct (Z.eqb_spec (2 ^ p) 0); [lia|]); (split; [|by eauto]).
    + autorewrite with words. rewrite <- Hpow, Hd1'. change (u32 1) with 1. by rewrite Z.div_1_r.
    + autorewrite with words. rewrite <- (words_right a b p).
      * rewrite jor_comm. by rewrite (u32_id p) by (unfold is_u32; lia).
      * split; [|lia]. destruct (Z.eq_dec p 0) as [E0|]; [|lia]. exfalso. rewrite E0 in Hpow. apply Hd1'.
        rewrite <- (i32_id d), <- i32_u32, Hpow by done. done.
  - assert (1 <= Z.log2 (u32 d)) as Hl1.
    { destruct (Z.eq_dec (Z.log2 (u32 d)) 0) as [E0|]; [|lia]. exfalso. rewrite E0 in *. apply Hp.
      assert (d = 1) as -> by (rewrite <- (i32_id d), <- i32_u32 by done; replace (u32 d) with 1 by lia; done). done. }
    rewrite !clz32_word by done. set (s := Z.log2 (u32 b) + 33 - Z.log2 (u32 d)).
    replace (31 - Z.log2 (u32 d) + 33 - (31 - Z.log2 (u32 b))) with s by (unfold s; lia).
    rewrite (i32_id s) by (unfold is_i32, s; lia). cbn [case_ok]. destruct (words_middle s) as [H1 H2]; [unfold s; lia|].
    unfold shifted. split_and!; [unfold s; lia|unfold s; lia|exact H1|exact H2| |left; unfold is_u32 in Hdr; lia].
    apply below_divisor with (33 + Z.log2 (u32 b)); [unfold s; lia|unfold is_u64 in HNr; lia|].
    by replace (33 + Z.log2 (u32 b) - s) with (Z.log2 (u32 d)) by (unfold s; lia).
Qed.

(** Divisors that are multiples of [2 ^ 32]. *)
Lemma high_division x y z : is_u32 x → 0 < y → 0 <= z →
  (x + 2 ^ 32 * z) / (2 ^ 32 * y) = z / y ∧ (x + 2 ^ 32 * z) mod (2 ^ 32 * y) = x + 2 ^ 32 * (z mod y).
Proof.
  intros Hx Hy Hz. unfold is_u32 in Hx. pose proof (Z.div_mod z y ltac:(lia)). pose proof (Z.mod_pos_bound z y Hy).
  split; symmetry; [apply Z.div_unique with (x + 2 ^ 32 * (z mod y))|apply Z.mod_unique with (z / y)]; nia.
Qed.

Lemma v64_u32_l x y : is_u32 x → v64 (x, y) = x + 2 ^ 32 * u32 y.
Proof. intros. unfold v64; cbn [fst snd]. by rewrite u32_id. Qed.

Lemma udiv_range x y : is_u32 (udiv x y).
Proof.
  unfold udiv. destruct (Z.eqb_spec (u32 y) 0); [done|]. pose proof (u32_range x). pose proof (u32_range y). unfold is_u32 in *.
  split; [apply Z.div_pos; lia|]. apply Z.le_lt_trans with (u32 x); [|lia]. apply Z.div_le_upper_bound; nia.
Qed.

Lemma urem_range x y : is_u32 (urem x y).
Proof.
  unfold urem. destruct (Z.eqb_spec (u32 y) 0); [done|]. pose proof (u32_range y).
  pose proof (Z.mod_pos_bound (u32 x) (u32 y)). unfold is_u32 in *. lia.
Qed.

Lemma MB_high_spec : b ≠ 0 → d = 0 → case_ok (v64 (a, b)) (v64 (d, e)) f E (MB_high m a b d e f E).
Proof.
  intros Hb0%(not_iff_compat (i32_zero b Hb)) Hd0. unfold MB_high. pose proof (u32_range a) as Har. pose proof (u32_range b) as Hbr.
  assert (v64 (d, e) = 2 ^ 32 * u32 e) as HD by (by rewrite Hd0).
  destruct (Z.eqb_spec e 0) as [He0' | He0']; [rewrite Hd0, He0'; by split; [|exists 0, 0]|].
  pose proof He0' as He0%(not_iff_compat (i32_zero e He)). pose proof (u32_range e) as Her.
  destruct (high_division (u32 a) (u32 e) (u32 b)) as [Hq Hr]; [done|unfold is_u32 in *; lia..|].
  assert (quot64 (v64 (a, b)) (v64 (d, e)) = u32 b / u32 e ∧ rem64 (v64 (a, b)) (v64 (d, e)) = u32 a + 2 ^ 32 * (u32 b mod u32 e)) as [HQ HR].
  { rewrite HD. unfold quot64, rem64. destruct (Z.eqb_spec (2 ^ 32 * u32 e) 0); [lia|]. done. }
  destruct (Z.eqb_spec a 0) as [Ha0 | Ha0].
  { rewrite Ha0 in HQ, HR |- *. cbn [case_ok]. rewrite HQ, HR. pose proof (udiv_range b e). pose proof (urem_range b e) as Hu. split.
    - rewrite v64_u32_l by done. unfold udiv. destruct (Z.eqb_spec (u32 e) 0); [done|]. change (u32 0) with 0. lia.
    - exists 0, (urem b e). split; [|done]. unfold v64; cbn [fst snd]. rewrite (u32_id (urem b e)) by done.
      unfold urem. by destruct (Z.eqb_spec (u32 e) 0). }
  destruct (Z.eqb_spec (jand (i32 (e - 1)) e) 0) as [Hp|Hp].
  - destruct (power_of_two e He He0' Hp (i32 a) (jor (jand (i32 (e - 1)) b) (jand b 0))) as [Hpow Hpr]. set (p := FB m e _) in *.
    cbn [case_ok]. rewrite HQ, HR. split.
    + rewrite (u32_id p), shru_div by (unfold is_u32; lia). rewrite Hpow, v64_u32_l; [change (u32 0) with 0; lia|].
      rewrite <- (u32_shru b p) by lia. apply u32_range.
    + eexists _, _. split; [|reflexivity]. autorewrite with words. unfold v64; cbn [fst snd]. rewrite (mask_pow2 b e p) by (done || lia).
      by rewrite Hpow.
  - destruct (clz_difference Hb0 He0) as [-> Hg]. set (g := Z.log2 (u32 b) - Z.log2 (u32 e)) in *.
    destruct (Z.leb_spec (u32 g) 30) as [Hg'|Hg'].
    + assert (0 <= g <= 30) as Hg0.
      { destruct (Z.le_gt_cases 0 g); [rewrite u32_id in Hg'; unfold is_u32; lia|exfalso; revert Hg'; width; Z.div_mod_to_equations; lia]. }
      cbn [case_ok]. rewrite (i32_id (g + 1)), (i32_id (31 - g)) by (unfold is_i32; lia).
      apply (shifted_high _ _ _ _ _ _ _ _ Hb0 He0); [unfold g; lia|lia| |f_equal; lia].
      rewrite u32_id, jor_comm by (unfold is_u32; lia). rewrite <- words_right by lia. by replace (32 - (g + 1)) with (31 - g) by lia.
    + apply done_small; [|done|by autorewrite with words].
      split; [apply v64_range|]. apply size_order; [done..|]. fold g.
      destruct (Z.eq_dec g 31) as [E31|]; [|unfold g in *; destruct (Z.lt_ge_cases (Z.log2 (u32 b)) (Z.log2 (u32 e))); [done|rewrite u32_id in Hg'; unfold is_u32; lia]].
      exfalso. apply Hp. destruct (log2_word b Hb0) as [? _]. destruct (log2_word e He0) as [? [? ?]].
      assert (Z.log2 (u32 e) = 0) as E0 by (unfold g in E31; lia). rewrite E0 in *.
      assert (e = 1) as -> by (rewrite <- (i32_id e), <- i32_u32 by done; replace (u32 e) with 1 by lia; done). done.
Qed.

Lemma MB_case_spec : case_ok (v64 (a, b)) (v64 (d, e)) f E (MB_case m a b d e f E).
Proof.
  unfold MB_case. destruct (Z.eqb_spec b 0) as [Hb0|Hb0].
  - subst b. assert (v64 (a, 0) = u32 a) as -> by (unfold v64; cbn [fst snd]; change (u32 0) with 0; lia).
    pose proof (u32_range a) as Har. destruct (Z.eqb_spec e 0) as [He0|He0].
    + subst e. assert (v64 (d, 0) = u32 d) as -> by (unfold v64; cbn [fst snd]; change (u32 0) with 0; lia).
      cbn [case_ok]. split.
      * rewrite v64_u32_l by apply udiv_range. change (u32 0) with 0. unfold udiv, quot64. lia.
      * eexists _, _. split; [|reflexivity]. rewrite v64_u32_l by apply urem_range. change (u32 0) with 0. unfold urem, rem64. lia.
    + apply done_small; [|done|].
      * unfold v64; cbn [fst snd]. apply (not_iff_compat (i32_zero e He)) in He0. pose proof (u32_range d). pose proof (u32_range e).
        unfold is_u32 in *. lia.
      * autorewrite with words. unfold v64; cbn [fst snd]. change (u32 0) with 0. lia.
  - destruct (Z.eqb_spec d 0) as [Hd0|Hd0]; cbn [negb]; [by apply MB_high_spec|].
    destruct (Z.eq_dec e 0) as [He0|He0]; [by apply MB_low_low|by apply MB_low_high].
Qed.
End Cases.

(** ** The whole function *)

(** Where the remainder goes does not touch the table. *)
Definition apart (f m : Z) : Prop := f = 0 ∨ f mod 4 = 0 ∧ (f + 8 <= m ∨ m + 256 <= f).

Lemma put_rem_holds f m r s E : apart f m → holds E m nd → holds (put_rem f r s E) m nd.
Proof.
  intros Hf H. unfold put_rem. destruct (Z.eqb_spec f 0); [done|]. destruct Hf as [?|[Hf Hr]]; [done|].
  intros j x Hj. pose proof (zlookup_Some_lt _ _ _ Hj) as Hl. change (zlength nd) with 256 in Hl.
  assert ((f + 4) mod 4 = 0) by (rewrite <- Z.add_mod_idemp_l, Hf by lia; done).
  rewrite !store32_other by (done || lia). by apply H.
Qed.

(** Words in memory. *)
Lemma store32_u32 c v E : store32 c (u32 v) E = store32 c v E.
Proof.
  unfold store32. assert (∀ k, 0 <= k <= 24 → u8 (Z.shiftr (u32 v) k) = u8 (Z.shiftr v k)) as H.
  { intros k Hk. rewrite !Z.shiftr_div_pow2 by lia. unfold u8, u32. assert (0 < 2 ^ k) by (apply Z.pow_pos_nonneg; lia).
    rewrite (Z.div_mod v (2 ^ 32) ltac:(lia)) at 2. rewrite <- (pow2_split k) at 2 by lia.
    replace (2 ^ k * 2 ^ (32 - k) * (v / 2 ^ 32) + v mod 2 ^ 32) with (v mod 2 ^ 32 + 2 ^ (32 - k) * (v / 2 ^ 32) * 2 ^ k) by ring.
    rewrite Z.div_add by lia. replace (2 ^ (32 - k)) with (2 ^ (24 - k) * 256)
      by (change 256 with (2 ^ 8); rewrite <- Z.pow_add_r by lia; f_equal; lia).
    replace (2 ^ (24 - k) * 256 * (v / 2 ^ 32)) with (2 ^ (24 - k) * (v / 2 ^ 32) * 256) by ring. by rewrite Z.mod_add by lia. }
  rewrite <- (H 8), <- (H 16), <- (H 24) by lia. pose proof (H 0 ltac:(lia)) as H0. rewrite !Z.shiftr_0_r in H0. by rewrite H0.
Qed.

Lemma load32s_store32 c v E : c mod 4 = 0 → u32 (load32s (store32 c v E) c) = u32 v.
Proof.
  intros Hc. unfold load32s. rewrite u32_i32, aligned, <- store32_u32 by done.
  rewrite load32_store32 by (done || apply u32_range). apply u32_u32.
Qed.

Lemma load32s_store32_other c c' v E : c mod 4 = 0 → c' mod 4 = 0 → c ≠ c' → load32s (store32 c v E) c' = load32s E c'.
Proof.
  intros Hc Hc' Hne. unfold load32s. rewrite aligned by done. f_equal. apply load32_ext. intros x Hx.
  apply store32_other; [done|]. pose proof (Z.div_mod c 4 ltac:(lia)). pose proof (Z.div_mod c' 4 ltac:(lia)). lia.
Qed.

Lemma put_rem_words f r s E : f ≠ 0 → f mod 4 = 0 →
  v64 (load32s (put_rem f r s E) f, load32s (put_rem f r s E) (f + 4)) = v64 (r, s).
Proof.
  intros Hf H4. unfold put_rem. destruct (Z.eqb_spec f 0); [done|].
  assert ((f + 4) mod 4 = 0) by (rewrite <- Z.add_mod_idemp_l, H4 by lia; done).
  unfold v64; cbn [fst snd]. rewrite load32s_store32, load32s_store32_other, load32s_store32 by (done || lia). done.
Qed.

(** The words the function returns after the loop. *)
Lemma even_mask g : jand (shl g 1) (-2) = shl g 1.
Proof.
  unfold shl. change (Z.land 1 31) with 1. rewrite Z.shiftl_mul_pow2 by lia. change (2 ^ 1) with 2. unfold jand.
  rewrite i32_i32. change (i32 (-2)) with (Z.lnot (Z.ones 1)). rewrite <- Z.ldiff_land, Z.ldiff_ones_r by lia.
  rewrite Z.shiftl_mul_pow2, Z.shiftr_div_pow2 by lia. change (2 ^ 1) with 2.
  generalize (i32 g). intros x. unfold i32. width. Z.div_mod_to_equations. lia.
Qed.

Lemma quotient_words g j i : i = 0 ∨ i = 1 →
  v64 (i32 (jor (jand (jor (shl g 1) (shru 0 31)) (-2)) i),
       jor (jor (jor (shru (i32 g) 31) (shl (jor j 0) 1)) (jand (jor (shl 0 1) (shru g 31)) 0)) 0) = u64 (2 * v64 (g, j)) + i.
Proof.
  intros Hi. rewrite <- double_words by done. change (shru 0 31) with 0. autorewrite with words.
  assert (∀ x, jand (i32 x) (-2) = jand x (-2)) as -> by (intros; unfold jand; by rewrite i32_i32).
  rewrite even_mask, (jor_comm _ i). unfold shru, shl. by rewrite u32_i32, i32_i32.
Qed.

(** Division: quotient and remainder of the numbers, for every dividend and divisor. *)
Lemma MB_spec m a b d e f E :
  holds E m nd → apart (i32 f) m →
  ∃ lo hi r s, MB m a b d e f E = (lo, hi, put_rem (i32 f) r s E) ∧
    v64 (lo, hi) = quot64 (v64 (a, b)) (v64 (d, e)) ∧ v64 (r, s) = rem64 (v64 (a, b)) (v64 (d, e)).
Proof.
  intros Htab Hf. unfold MB.
  pose proof (MB_case_spec m (i32 f) E (fun r s => put_rem_holds _ _ r s _ Hf Htab) (i32 a) (i32 b) (i32 d) (i32 e)
    (i32_range b) (i32_range d) (i32_range e)) as Hc. autorewrite with words in Hc.
  destruct (MB_case m (i32 a) (i32 b) (i32 d) (i32 e) (i32 f) E) as [lo hi E'|h a' b' g i]; cbn [case_ok] in Hc.
  { destruct Hc as (Hq & r & s & Hr & ->). exists (i32 lo), hi, r, s. by autorewrite with words. }
  pose proof (v64_range (a, b)) as HN. pose proof (shifted_turning _ _ _ _ _ _ _ HN Hc) as Ht.
  destruct Hc as (Hh & _ & _ & Hlt & Hsize). destruct (Z.eqb_spec h 0); [lia|].
  autorewrite with words. rewrite (u32_id h) by (unfold is_u32; lia).
  pose proof (wB_spec (i32 d) (i32 e) (-1) (-1)) as Hw. autorewrite with words in Hw.
  assert (0 < v64 (d, e)) as HD0. { assert (0 <= v64 (a, b) / 2 ^ h) by (apply Z.div_pos; [apply HN|apply Z.pow_pos_nonneg; lia]). lia. }
  pose proof (v64_range (d, e)) as HD. change (v64 (-1, -1)) with (2 ^ 64 - 1) in Hw.
  assert (u64 (v64 (d, e) + (2 ^ 64 - 1)) = v64 (d, e) - 1) as Hk by (clear -HD0 HD; width; Z.div_mod_to_equations; lia).
  rewrite Hk in Hw. destruct (wB (i32 d) (i32 e) (-1) (-1)) as [k d1].
  assert (∃ a2 b2 g2 j2 i2, MB_loop (Z.to_nat h) (i32 d) (i32 e) k d1 a' b' g i 0 = (a2, b2, g2, j2, i2) ∧
    turning 0 (v64 (a, b)) (v64 (d, e)) (v64 (a2, b2)) (v64 (g2, j2)) i2) as (a2 & b2 & g2 & j2 & i2 & -> & Ht2).
  { pose proof (MB_loop_spec (Z.to_nat h) (v64 (a, b)) (i32 d) (i32 e) k d1 a' b' g i 0) as H1.
    pose proof (MB_loop_top (v64 (a, b)) (i32 d) (i32 e) k d1 a' b' g i) as H2. autorewrite with words in H1, H2.
    destruct Hsize as [Hs|[-> Hs]].
    - apply H1; [lia|done|done|]. by rewrite Z2Nat.id by lia.
    - destruct (Z.le_gt_cases (v64 (d, e)) (2 ^ 63)); [apply H1; [lia|done|done|by rewrite Z2Nat.id by lia]|].
      apply H2; [lia| |done|done]. split; [done|apply HN]. }
  destruct Ht2 as (HR & Hi & _ & Hdiv). change (2 ^ 0) with 1 in Hdiv. rewrite Z.div_1_r in Hdiv. change (64 - 0) with 64 in Hdiv.
  pose proof (v64_range (g2, j2)) as HQ. rewrite (Z.mod_small (v64 (g2, j2))) in Hdiv by apply HQ.
  assert (2 * v64 (g2, j2) + i2 < 2 ^ 64) as Hfit by (destruct HN, HQ; nia).
  exists (i32 (jor (jand (jor (shl g2 1) (shru 0 31)) (-2)) i2)),
    (jor (jor (jor (shru (i32 g2) 31) (shl (jor j2 0) 1)) (jand (jor (shl 0 1) (shru g2 31)) 0)) 0), a2, b2.
  split; [done|]. rewrite quotient_words by done. rewrite u64_id by (destruct HQ; unfold is_u64; lia).
  unfold quot64, rem64. destruct (Z.eqb_spec (v64 (d, e)) 0); [lia|]. split.
  - apply Z.div_unique with (v64 (a2, b2)); lia.
  - apply Z.mod_unique with (2 * v64 (g2, j2) + i2); lia.
Qed.

(** ** Signed division *)

Definition signed64 (p : Z * Z) : Z := i64 (v64 p).

Lemma jxor_comm x y : jxor x y = jxor y x.
Proof. apply Z.lxor_comm. Qed.

Lemma jxor_zero x : jxor 0 x = i32 x.
Proof. unfold jxor. change (i32 0) with 0. apply Z.lxor_0_l. Qed.

Lemma jxor_ones x : jxor (-1) x = -1 - i32 x.
Proof. unfold jxor. change (i32 (-1)) with (-1). rewrite Z.lxor_m1_l. pose proof (Z.add_lnot_diag (i32 x)). lia. Qed.

(** Complement and subtraction of -1: the negated number. *)
Lemma negate_words s a b : s = 0 ∨ s = -1 →
  v64 (vB (jxor s a) (jxor s b) s s) = if s =? 0 then v64 (a, b) else u64 (- v64 (a, b)).
Proof.
  intros [-> | ->]; rewrite vB_spec.
  - rewrite !jxor_zero, v64_i32_l, v64_i32_r. change (v64 (0, 0)) with 0. rewrite Z.sub_0_r. apply u64_id, v64_range.
  - rewrite !jxor_ones. change (v64 (-1, -1)) with (2 ^ 64 - 1). change (-1 =? 0) with false. cbv iota.
    assert (∀ x, u32 (-1 - i32 x) = 2 ^ 32 - 1 - u32 x) as Hx.
    { intros x. rewrite (u32_sub_congr (-1) (i32 x) (-1) (u32 x)) by (by rewrite ?u32_i32, ?u32_u32).
      pose proof (u32_range x) as Hr. revert Hr. generalize (u32 x). intros. width. Z.div_mod_to_equations. lia. }
    unfold v64; cbn [fst snd]. rewrite !Hx. pose proof (u32_range a). pose proof (u32_range b). f_equal. lia.
Qed.

Lemma sign_mask p : (if 2 ^ 31 <=? u32 p.2 then -1 else 0) = if signed64 p <? 0 then -1 else 0.
Proof.
  unfold signed64, v64. pose proof (u32_range p.1). pose proof (u32_range p.2). generalize dependent (u32 p.1). generalize dependent (u32 p.2).
  intros y Hy x Hx. replace (i64 (x + 2 ^ 32 * y) <? 0) with (2 ^ 31 <=? y); [done|]. unfold i64. width. Z.div_mod_to_equations. lia.
Qed.

Definition mask_of (z : Z) : Z := if z <? 0 then -1 else 0.

Lemma mask_cases z : mask_of z = 0 ∨ mask_of z = -1.
Proof. unfold mask_of. destruct (z <? 0); auto. Qed.

Lemma sign_words a b : sign_lo b = mask_of (signed64 (a, b)) ∧ sign_hi b = mask_of (signed64 (a, b)).
Proof. rewrite sign_lo_spec, sign_hi_spec. split; apply (sign_mask (a, b)). Qed.

Lemma signed64_range p : is_i64 (signed64 p).
Proof. apply i64_range. Qed.

(** The absolute value. *)
Lemma abs_words a b :
  let s := mask_of (signed64 (a, b)) in v64 (vB (jxor s a) (jxor s b) s s) = Z.abs (signed64 (a, b)).
Proof.
  cbv zeta. rewrite negate_words by apply mask_cases. unfold mask_of, signed64. pose proof (v64_range (a, b)) as H.
  generalize dependent (v64 (a, b)). intros v Hv. destruct (Z.ltb_spec (i64 v) 0); cbn [Z.eqb]; revert H; unfold i64; width;
    intros; Z.div_mod_to_equations; lia.
Qed.

(** The sign put back. *)
Lemma signed_words s a b z : s = 0 ∨ s = -1 → v64 (a, b) = z → is_u64 z →
  v64 (vB (jxor a s) (jxor b s) s s) = u64 (if s =? 0 then z else - z).
Proof.
  intros Hs <- Hz. rewrite (jxor_comm a), (jxor_comm b), negate_words by done.
  destruct (s =? 0); [symmetry; by apply u64_id|done].
Qed.

Lemma mask_xor x y : jxor (mask_of x) (mask_of y) = if Bool.eqb (x <? 0) (y <? 0) then 0 else -1.
Proof. unfold mask_of. by destruct (x <? 0), (y <? 0). Qed.

Lemma abs_range p : is_u64 (Z.abs (signed64 p)).
Proof. pose proof (signed64_range p). width. Qed.

Lemma quot64_range N D : is_u64 N → 0 <= D → is_u64 (quot64 N D).
Proof.
  unfold quot64, is_u64. intros. destruct (Z.eqb_spec D 0); [lia|]. split; [apply Z.div_pos; lia|].
  apply Z.le_lt_trans with N; [|lia]. apply Z.div_le_upper_bound; nia.
Qed.

Lemma rem64_range N D : is_u64 N → 0 <= D → is_u64 (rem64 N D).
Proof.
  unfold rem64, is_u64. intros. destruct (Z.eqb_spec D 0); [lia|]. pose proof (Z.mod_pos_bound N D). split; [lia|].
  apply Z.le_lt_trans with N; [|lia]. apply Z.mod_le; lia.
Qed.

Lemma quot_signs A B : B ≠ 0 →
  Z.quot A B = if Bool.eqb (A <? 0) (B <? 0) then Z.abs A / Z.abs B else - (Z.abs A / Z.abs B).
Proof.
  intros HB. rewrite Z.quot_div by done. destruct (Z.eq_dec A 0) as [->|].
  { rewrite Z.div_0_l by lia. destruct (Bool.eqb _ _); lia. }
  destruct (Z.ltb_spec A 0), (Z.ltb_spec B 0); cbn [Bool.eqb]; rewrite ?(Z.sgn_neg A), ?(Z.sgn_pos A), ?(Z.sgn_neg B), ?(Z.sgn_pos B) by lia; lia.
Qed.

Lemma rem_sign A B : B ≠ 0 → Z.rem A B = if A <? 0 then - (Z.abs A mod Z.abs B) else Z.abs A mod Z.abs B.
Proof.
  intros HB. rewrite Z.rem_mod by done. destruct (Z.eq_dec A 0) as [->|].
  { rewrite Z.mod_0_l by lia. done. }
  destruct (Z.ltb_spec A 0); rewrite ?(Z.sgn_neg A), ?(Z.sgn_pos A) by lia; lia.
Qed.

(** The quotient rounds towards zero; that of a division by zero is 0. *)
Lemma HB_spec m a b c d E : holds E m nd →
  ∃ lo hi, HB m a b c d E = (lo, hi, E) ∧
    v64 (lo, hi) = if signed64 (c, d) =? 0 then 0 else u64 (Z.quot (signed64 (a, b)) (signed64 (c, d))).
Proof.
  intros Htab. unfold HB. set (A := signed64 (a, b)). set (B := signed64 (c, d)).
  destruct (sign_words (i32 a) (i32 b)) as [-> ->]. destruct (sign_words (i32 c) (i32 d)) as [-> ->].
  assert (signed64 (i32 a, i32 b) = A ∧ signed64 (i32 c, i32 d) = B) as [HA HB].
  { unfold A, B, signed64. by rewrite !v64_i32_l, !v64_i32_r. }
  pose proof (abs_words (i32 a) (i32 b)) as H1. pose proof (abs_words (i32 c) (i32 d)) as H2. cbv zeta in H1, H2.
  rewrite HA in *. rewrite HB in *.
  destruct (vB (jxor (mask_of A) (i32 a)) _ _ _) as [h g]. destruct (vB (jxor (mask_of B) (i32 c)) _ _ _) as [x y].
  destruct (MB_spec m h g x y 0 E Htab ltac:(by left)) as (lo & hi & r & s & -> & Hq & _). rewrite H1, H2 in Hq.
  assert (put_rem (i32 0) r s E = E) as -> by done. rewrite mask_xor.
  set (t := if Bool.eqb (B <? 0) (A <? 0) then 0 else -1).
  assert (t = 0 ∨ t = -1) as Ht by (unfold t; destruct (Bool.eqb _ _); auto).
  pose proof (signed_words t lo hi _ Ht Hq) as Hs. destruct (vB (jxor lo t) (jxor hi t) t t) as [lo' hi'].
  exists lo', hi'. split; [done|]. rewrite Hs by (apply quot64_range; [apply abs_range|lia]).
  unfold quot64. destruct (Z.eqb_spec (Z.abs B) 0), (Z.eqb_spec B 0); try lia.
  - by destruct (t =? 0).
  - f_equal. rewrite quot_signs by done. unfold t. by destruct (A <? 0), (B <? 0).
Qed.

(** A place on the stack for the remainder. *)
Definition stack_slot (i m : Z) : Prop := i32 i ≠ 0 ∧ i32 i mod 4 = 0 ∧ (i32 i + 8 <= m ∨ m + 256 <= i32 i).

Lemma slot_apart i m : stack_slot i m → apart (i32 (i32 i)) m.
Proof. intros (? & ? & ?). rewrite i32_i32. by right. Qed.

(** The remainder has the sign of the dividend. *)
Lemma IB_spec m i a b d e E : holds E m nd → stack_slot i m →
  ∃ lo hi E', IB m i a b d e E = (lo, hi, E') ∧
    v64 (lo, hi) = if signed64 (d, e) =? 0 then 0 else u64 (Z.rem (signed64 (a, b)) (signed64 (d, e))).
Proof.
  intros Htab Hi. unfold IB. set (A := signed64 (a, b)). set (B := signed64 (d, e)).
  destruct (sign_words (i32 a) (i32 b)) as [-> ->]. destruct (sign_words (i32 d) (i32 e)) as [-> ->].
  assert (signed64 (i32 a, i32 b) = A ∧ signed64 (i32 d, i32 e) = B) as [HA HB].
  { unfold A, B, signed64. by rewrite !v64_i32_l, !v64_i32_r. }
  pose proof (abs_words (i32 a) (i32 b)) as H1. pose proof (abs_words (i32 d) (i32 e)) as H2. cbv zeta in H1, H2.
  rewrite HA in *. rewrite HB in *.
  destruct (vB (jxor (mask_of A) (i32 a)) _ _ _) as [h g]. destruct (vB (jxor (mask_of B) (i32 d)) _ _ _) as [x y].
  destruct (MB_spec m h g x y (i32 i) E Htab (slot_apart _ _ Hi)) as (lo & hi & r & s & -> & _ & Hr). rewrite H1, H2 in Hr.
  destruct Hi as (Hi0 & Hi4 & _). rewrite i32_i32.
  rewrite <- (put_rem_words (i32 i) r s E Hi0 Hi4) in Hr.
  pose proof (signed_words (mask_of A) _ _ _ (mask_cases A) Hr) as Hs. destruct (vB (jxor (load32s _ _) _) _ _ _) as [lo' hi'].
  exists lo', hi', (put_rem (i32 i) r s E). split; [done|]. rewrite Hs by (apply rem64_range; [apply abs_range|lia]).
  unfold rem64. destruct (Z.eqb_spec (Z.abs B) 0), (Z.eqb_spec B 0); try lia.
  - by destruct (mask_of A =? 0).
  - f_equal. rewrite rem_sign by done. unfold mask_of. by destruct (A <? 0).
Qed.

Lemma LB_spec m i a b d e E : holds E m nd → stack_slot i m →
  ∃ lo hi E', LB m i a b d e E = (lo, hi, E') ∧ v64 (lo, hi) = rem64 (v64 (a, b)) (v64 (d, e)).
Proof.
  intros Htab Hi. unfold LB. destruct (MB_spec m a b d e (i32 i) E Htab (slot_apart _ _ Hi)) as (lo & hi & r & s & -> & _ & Hr).
  destruct Hi as (Hi0 & Hi4 & _). rewrite i32_i32. eexists _, _, _. split; [reflexivity|]. by rewrite put_rem_words.
Qed.

Lemma KB_spec m a b c d E : holds E m nd →
  ∃ lo hi, KB m a b c d E = (lo, hi, E) ∧ v64 (lo, hi) = quot64 (v64 (a, b)) (v64 (c, d)).
Proof.
  intros Htab. unfold KB. destruct (MB_spec m a b c d 0 E Htab ltac:(by left)) as (lo & hi & r & s & -> & Hq & _).
  by exists lo, hi.
Qed.
