(* ===== verification/VizLibc.v ===== *)
(** * Memory and string functions of the object code

    The C library functions at the end of the object code of [viz-lite.js]:
    [AB], [BB], [CB] ([memcpy], [memmove], [memset]), [pA] ([strlen]), [lA],
    [hA] and [dA] ([strcmp], [strcasecmp], [memcmp]) and [Zz] ([bsearch]).
    They copy and scan a word at a time where addresses allow it.

    A loop whose length the arguments bound runs on that bound; a loop that
    ends at a zero byte takes fuel, and [None] is a loop that did not end. *)

From Stdlib Require Import ZArith Lia.
From stdpp Require Import base list.
From S2P Require Import Prelude VizRuntime VizFile VizMemory VizEnv VizInt64.

Open Scope Z_scope.

(** [a[p>>0]=v]. *)
Definition store8 (p v : Z) (E : heap) : heap := E_set [u8 v] p E.

(** ** Copies *)

(** [_emscripten_memcpy_big]: [E.set(E.subarray(b,b+c),a)] reads before it writes. *)
Definition memcpy_big (a b c : Z) (E : heap) : heap :=
  E_set ((fun k => E (b + Z.of_nat k)) <$> seq 0 (Z.to_nat c)) a E.

(** [while(b&3){if(!e)return f|0;...}]: [None] for the early return. *)
Fixpoint AB_align (fuel : nat) (b d e : Z) (E : heap) : option (Z * Z * Z) * heap :=
  match fuel with
  | O => (Some (b, d, e), E)
  | S fuel' =>
      if jand b 3 =? 0 then (Some (b, d, e), E)
      else if e =? 0 then (None, E)
      else AB_align fuel' (i32 (b + 1)) (i32 (d + 1)) (i32 (e - 1)) (store8 b (load8s E d) E)
  end.

(** [while((e|0)>=4)]: a word at a time. *)
Fixpoint AB_words (fuel : nat) (b d e : Z) (E : heap) : Z * Z * Z * heap :=
  match fuel with
  | O => (b, d, e, E)
  | S fuel' =>
      if 4 <=? e
      then AB_words fuel' (i32 (b + 4)) (i32 (d + 4)) (i32 (e - 4)) (store32 b (load32s E d) E)
      else (b, d, e, E)
  end.

(** [while((e|0)>0)]: the rest, a byte at a time. *)
Fixpoint AB_bytes (fuel : nat) (b d e : Z) (E : heap) : heap :=
  match fuel with
  | O => E
  | S fuel' =>
      if 0 <? e
      then AB_bytes fuel' (i32 (b + 1)) (i32 (d + 1)) (i32 (e - 1)) (store8 b (load8s E d) E)
      else E
  end.

(** [_memcpy]. *)
Definition AB (b d e : Z) (E : heap) : Z * heap :=
  let b := i32 b in let d := i32 d in let e := i32 e in
  if 4096 <=? e then (b, memcpy_big b d e E)
  else
    let f := b in
    if jand b 3 =? jand d 3 then
      match AB_align 4 b d e E with
      | (None, E) => (f, E)
      | (Some (b, d, e), E) =>
          let '(b, d, e, E) := AB_words (Z.to_nat e) b d e E in
          (f, AB_bytes (Z.to_nat e) b d e E)
      end
    else (f, AB_bytes (Z.to_nat e) b d e E).

(** The loop of [_memmove] from the end. *)
Fixpoint BB_down (fuel : nat) (b c d : Z) (E : heap) : heap :=
  match fuel with
  | O => E
  | S fuel' =>
      if 0 <? d then
        let b := i32 (b - 1) in let c := i32 (c - 1) in let d := i32 (d - 1) in
        BB_down fuel' b c d (store8 b (load8s E c) E)
      else E
  end.

(** [_memmove]. *)
Definition BB (b c d : Z) (E : heap) : Z * heap :=
  let b := i32 b in let c := i32 c in let d := i32 d in
  if (c <? b) && (b <? i32 (c + d))
  then (b, BB_down (Z.to_nat d) (i32 (b + d)) (i32 (c + d)) d E)
  else (b, (AB b c d E).2).

(** The loops of [_memset]: bytes up to [h], words up to [g]. *)
Fixpoint CB_bytes (fuel : nat) (b h d : Z) (E : heap) : Z * heap :=
  match fuel with
  | O => (b, E)
  | S fuel' => if b <? h then CB_bytes fuel' (i32 (b + 1)) h d (store8 b d E) else (b, E)
  end.

Fixpoint CB_words (fuel : nat) (b g i : Z) (E : heap) : Z * heap :=
  match fuel with
  | O => (b, E)
  | S fuel' => if b <? g then CB_words fuel' (i32 (b + 4)) g i (store32 b i E) else (b, E)
  end.

(** [_memset]. *)
Definition CB (b d e : Z) (E : heap) : Z * heap :=
  let b := i32 b in let d := i32 d in let e := i32 e in
  let f := i32 (b + e) in
  let n := Z.to_nat e in
  let '(b, d, E) :=
    if 20 <=? e then
      let d := jand d 255 in
      let h := jand b 3 in
      let i := jor (jor (jor d (shl d 8)) (shl d 16)) (shl d 24) in
      let g := jand f (Z.lnot 3) in
      let '(b, E) := if negb (h =? 0) then CB_bytes 3 b (i32 (b + 4 - h)) d E else (b, E) in
      let '(b, E) := CB_words n b g i E in
      (b, d, E)
    else (b, d, E) in
  let '(b, E) := CB_bytes n b f d E in
  (i32 (b - e), E).

(** ** Strings *)

(** [(d&-2139062144^-2139062144)&d+-16843009]: not 0 when a byte of the word is 0. *)
Definition zero_byte (d : Z) : Z := jand (jxor (jand d (-2139062144)) (-2139062144)) (d - 16843009).

(** The bytes up to an aligned address: [inl] is the address of a zero among them. *)
Fixpoint pA_align (fuel : nat) (E : heap) (d : Z) : Z + Z :=
  match fuel with
  | O => inr d
  | S fuel' =>
      if load8s E d =? 0 then inl d
      else
        let d := i32 (d + 1) in
        if jand d 3 =? 0 then inr d else pA_align fuel' E d
  end.

(** Words without a zero byte, then the bytes of the word with one. *)
Fixpoint pA_words (fuel : nat) (E : heap) (b : Z) : option Z :=
  match fuel with
  | O => None
  | S fuel' => if zero_byte (load32s E b) =? 0 then pA_words fuel' E (i32 (b + 4)) else Some b
  end.

Fixpoint pA_bytes (fuel : nat) (E : heap) (b : Z) : option Z :=
  match fuel with
  | O => None
  | S fuel' => let b := i32 (b + 1) in if negb (load8s E b =? 0) then pA_bytes fuel' E b else Some b
  end.

(** [_strlen]. *)
Definition pA (fuel : nat) (E : heap) (b : Z) : option Z :=
  let f := i32 b in
  match (if jand f 3 =? 0 then inr f else pA_align 3 E f) with
  | inl b => Some (i32 (b - f))
  | inr b =>
      match pA_words fuel E b with
      | None => None
      | Some b =>
          let d := load32s E b in
          if negb (shr (shl (jand d 255) 24) 24 =? 0)
          then match pA_bytes fuel E b with Some b => Some (i32 (b - f)) | None => None end
          else Some (i32 (b - f))
      end
  end.

(** [_strcmp]. *)
Fixpoint lA (fuel : nat) (E : heap) (b c : Z) : option Z :=
  match fuel with
  | O => None
  | S fuel' =>
      let e := load8s E b in
      let d := load8s E c in
      if (e =? 0) || negb (e =? d) then Some (i32 (jand e 255 - jand d 255))
      else lA fuel' E (i32 (b + 1)) (i32 (c + 1))
  end.

(** [_isupper] and [_tolower]. *)
Definition isupper (a : Z) : bool := u32 (i32 (i32 a - 65)) <? 26.
Definition ny (a : Z) : Z := if isupper a then jor a 32 else i32 a.

(** [_strcasecmp]: the byte of [b] at the end of the loop, and [c]; [g] is the
    byte at [b], which is not 0. *)
Fixpoint hA_loop (fuel : nat) (E : heap) (b c g : Z) : option (Z * Z) :=
  match fuel with
  | O => None
  | S fuel' =>
      let e := load8s E c in
      if e =? 0 then Some (g, c)
      else if negb (g =? e) && negb (ny (jand g 255) =? ny (E c)) then Some (load8s E b, c)
      else
        let b := i32 (b + 1) in let c := i32 (c + 1) in
        let e := load8s E b in
        if e =? 0 then Some (0, c) else hA_loop fuel' E b c e
  end.

Definition hA (fuel : nat) (E : heap) (b c : Z) : option Z :=
  let e := load8s E b in
  match (if e =? 0 then Some (0, c) else hA_loop fuel E b c e) with
  | Some (b, c) => Some (i32 (ny (jand b 255) - ny (E c)))
  | None => None
  end.

(** [_memcmp]: [d] is not 0 in the loop. *)
Fixpoint dA_loop (fuel : nat) (E : heap) (e c f : Z) : Z :=
  match fuel with
  | O => 0
  | S fuel' =>
      let b := load8s E e in
      let d := load8s E c in
      if negb (b =? d) then i32 (jand b 255 - jand d 255)
      else
        let f := i32 (f - 1) in
        if f =? 0 then 0 else dA_loop fuel' E (i32 (e + 1)) (i32 (c + 1)) f
  end.

Definition dA (E : heap) (b c d : Z) : Z := if d =? 0 then 0 else dA_loop (Z.to_nat (u32 d)) E b c d.

(** ** Binary search *)

Section Search.
(** [Lb[e&63]]: the comparison, of the key with an element. *)
Context (cmp : Z → Z → option Z).

(** The loop of [_bsearch]: [c] elements of [d] bytes from [h]; 0 when none is equal. *)
Fixpoint Zz_loop (fuel : nat) (a h c d : Z) : option Z :=
  match fuel with
  | O => None
  | S fuel' =>
      let g := shru c 1 in
      let b := i32 (h + imul g d) in
      match cmp a b with
      | None => None
      | Some f =>
          if f =? 0 then Some b
          else if c =? 1 then Some 0
          else
            let lt := f <? 0 in
            let c := if lt then g else i32 (c - g) in
            if c =? 0 then Some 0 else Zz_loop fuel' a (if lt then h else b) c d
      end
  end.

Definition Zz (a b c d : Z) : option Z := if c =? 0 then Some 0 else Zz_loop (Z.to_nat c) a b c d.
End Search.
