(* ===== verification/VizLibcFacts.v ===== *)
(** * The memory and string functions against their references

    Copies and fills are compared with the memory they should leave
    ([copied], [filled]), whatever the alignment and, for [BB], whatever the
    overlap; comparisons with the difference of the first bytes that differ
    ([bytes_diff]); the search with the elements its comparison calls equal. *)

From Stdlib Require Import ZArith Lia.
From stdpp Require Import base list.
From S2P Require Import Prelude VizRuntime VizFacts VizFile VizMemory VizEnv VizInt64 VizInt64Facts VizDivision VizLibc.

Open Scope Z_scope.

(** ** Memories *)

Definition bytes (E : heap) : Prop := ∀ x, 0 <= E x < 256.
Definition same (E E' : heap) : Prop := ∀ x, E x = E' x.

(** A block of the memory, below [2 ^ 31]. *)
Definition block (b n : Z) : Prop := 0 <= b ∧ 0 <= n ∧ b + n < 2 ^ 31.

Definition copied (b d n : Z) (E : heap) : heap :=
  fun x => if (b <=? x) && (x <? b + n) then E (d + (x - b)) else E x.

Definition filled (b n v : Z) (E : heap) : heap :=
  fun x => if (b <=? x) && (x <? b + n) then v else E x.

Lemma same_refl E : same E E.
Proof. done. Qed.

Lemma same_trans E1 E2 E3 : same E1 E2 → same E2 E3 → same E1 E3.
Proof. intros H1 H2 x. by rewrite H1. Qed.

Lemma copied_same b d n E E' : same E E' → same (copied b d n E) (copied b d n E').
Proof. intros H x. unfold copied. by rewrite !H. Qed.

Lemma filled_same b n v E E' : same E E' → same (filled b n v E) (filled b n v E').
Proof. intros H x. unfold filled. by rewrite !H. Qed.

Lemma bytes_same E E' : same E E' → bytes E → bytes E'.
Proof. intros H HE x. rewrite <- H. apply HE. Qed.

Lemma bytes_copied b d n E : bytes E → bytes (copied b d n E).
Proof. intros H x. unfold copied. destruct (_ && _); apply H. Qed.

Ltac in_range := repeat match goal with
  | |- context [?a <=? ?b] => destruct (Z.leb_spec a b)
  | |- context [?a <? ?b] => destruct (Z.ltb_spec a b)
  end; cbn [andb].

Lemma copied_0 b d E : same (copied b d 0 E) E.
Proof. intros x. unfold copied. in_range; try done. lia. Qed.

(** Two copies, one after the other, are one copy when the source is not
    overwritten before it is read. *)
Lemma copied_app b d k n E :
  0 <= k → 0 <= n → b <= d ∨ d + k + n <= b →
  same (copied (b + k) (d + k) n (copied b d k E)) (copied b d (k + n) E).
Proof.
  intros Hk Hn Ho x. unfold copied.
  in_range; try lia; try done; f_equal; lia.
Qed.

Lemma filled_app b k n v E : 0 <= k → 0 <= n → same (filled (b + k) n v (filled b k v E)) (filled b (k + n) v E).
Proof. intros Hk Hn x. unfold filled. in_range; try lia; done. Qed.

(** ** Single stores *)

Lemma u8_load8s E p : bytes E → u8 (load8s E p) = E p.
Proof.
  intros H. specialize (H p). unfold load8s, u8. destruct (Z.ltb_spec (E p) 128); [by apply Z.mod_small|].
  rewrite <- (Z.mod_small (E p) 256) at 2 by lia. replace (E p - 256) with (E p + (-1) * 256) by lia. by apply Z.mod_add.
Qed.

Lemma store8_spec p v E x : store8 p v E x = if x =? p then u8 v else E x.
Proof.
  unfold store8, E_set. destruct (Z.eqb_spec x p) as [->|]; [by rewrite Z.sub_diag|].
  destruct (zlookup [u8 v] (x - p)) as [y|] eqn:Hl; [|done]. apply zlookup_Some_lt in Hl.
  change (zlength [u8 v]) with 1 in Hl. lia.
Qed.

Lemma store8_copied b d E : bytes E → same (store8 b (load8s E d) E) (copied b d 1 E).
Proof.
  intros H x. rewrite store8_spec, u8_load8s by done. unfold copied.
  destruct (Z.eqb_spec x b) as [->|]; in_range; try lia; try done. f_equal. lia.
Qed.

Lemma store8_filled b v E : same (store8 b v E) (filled b 1 (u8 v) E).
Proof. intros x. rewrite store8_spec. unfold filled. destruct (Z.eqb_spec x b) as [->|]; in_range; try lia; done. Qed.

Lemma word_bytes w0 w1 w2 w3 :
  0 <= w0 < 256 → 0 <= w1 < 256 → 0 <= w2 < 256 → 0 <= w3 < 256 →
  let w := w0 + 256 * w1 + 65536 * w2 + 16777216 * w3 in
  u8 w = w0 ∧ u8 (Z.shiftr w 8) = w1 ∧ u8 (Z.shiftr w 16) = w2 ∧ u8 (Z.shiftr w 24) = w3.
Proof.
  intros H0 H1 H2 H3 w. rewrite !Z.shiftr_div_pow2 by lia. change (2 ^ 8) with 256. change (2 ^ 16) with 65536.
  change (2 ^ 24) with 16777216. unfold u8, w. split_and!; Z.div_mod_to_equations; lia.
Qed.

(** A word stored at an aligned address is four bytes. *)
Lemma store32_bytes p w0 w1 w2 w3 E x :
  p mod 4 = 0 → 0 <= w0 < 256 → 0 <= w1 < 256 → 0 <= w2 < 256 → 0 <= w3 < 256 →
  store32 p (w0 + 256 * w1 + 65536 * w2 + 16777216 * w3) E x =
  if x =? p then w0 else if x =? p + 1 then w1 else if x =? p + 2 then w2 else if x =? p + 3 then w3 else E x.
Proof.
  intros Hp H0 H1 H2 H3. destruct (word_bytes _ _ _ _ H0 H1 H2 H3) as (E0 & E1 & E2 & E3).
  unfold store32. rewrite aligned, E0, E1, E2, E3 by done. unfold E_set.
  destruct (Z.eqb_spec x p) as [->|]; [by rewrite Z.sub_diag|].
  destruct (Z.eqb_spec x (p + 1)) as [->|]; [by replace (p + 1 - p) with 1 by lia|].
  destruct (Z.eqb_spec x (p + 2)) as [->|]; [by replace (p + 2 - p) with 2 by lia|].
  destruct (Z.eqb_spec x (p + 3)) as [->|]; [by replace (p + 3 - p) with 3 by lia|].
  destruct (zlookup _ (x - p)) as [y|] eqn:Hl; [|done]. apply zlookup_Some_lt in Hl.
  change (zlength [w0; w1; w2; w3]) with 4 in Hl. lia.
Qed.

Lemma store32_i32 p v E : store32 p (i32 v) E = store32 p v E.
Proof. by rewrite <- (store32_u32 p (i32 v)), u32_i32, store32_u32. Qed.

Lemma store32_copied b d E : bytes E → b mod 4 = 0 → d mod 4 = 0 → same (store32 b (load32s E d) E) (copied b d 4 E).
Proof.
  intros H Hb Hd x. unfold load32s. rewrite store32_i32, aligned by done. unfold load32.
  rewrite store32_bytes by (done || apply H). unfold copied.
  destruct (Z.eqb_spec x b) as [->|]; [in_range; try lia; f_equal; lia|].
  destruct (Z.eqb_spec x (b + 1)) as [->|]; [in_range; try lia; f_equal; lia|].
  destruct (Z.eqb_spec x (b + 2)) as [->|]; [in_range; try lia; f_equal; lia|].
  destruct (Z.eqb_spec x (b + 3)) as [->|]; in_range; try lia; try done. f_equal. lia.
Qed.

(** Equality of tuples of numbers. *)
Ltac tuple := repeat match goal with |- (_, _) = (_, _) => apply f_equal2 end; try done; lia.

(** ** [memcpy] *)

Definition forward (b d n : Z) : Prop := b <= d ∨ d + n <= b.

Lemma block_i32 b n k : block b n → 0 <= k <= n → i32 (b + k) = b + k.
Proof. intros (H1 & H2 & H3) Hk. apply i32_id. unfold is_i32. lia. Qed.

Lemma AB_bytes_spec n b d E : bytes E → block b (Z.of_nat n) → block d (Z.of_nat n) → forward b d (Z.of_nat n) →
  same (AB_bytes n b d (Z.of_nat n) E) (copied b d (Z.of_nat n) E).
Proof.
  revert b d E. induction n as [|n IH]; intros b d E HE Hb Hd Hf; cbn [AB_bytes]; [intros x; by rewrite copied_0|].
  destruct (Z.ltb_spec 0 (Z.of_nat (S n))); [|lia].
  rewrite (block_i32 b _ 1 Hb), (block_i32 d _ 1 Hd), i32_id by (try (unfold block, is_i32 in *; lia); lia).
  replace (Z.of_nat (S n) - 1) with (Z.of_nat n) by lia. unfold block, forward in *.
  eapply same_trans; [apply IH; unfold block, forward; try lia|].
  { eapply bytes_same; [intros x; symmetry; by apply store8_copied|]. by apply bytes_copied. }
  eapply same_trans; [apply copied_same, store8_copied; done|].
  replace (Z.of_nat (S n)) with (1 + Z.of_nat n) by lia. apply copied_app; lia.
Qed.

(** The word loop: [e = 4 * q + r] bytes are left, [q] words are copied. *)
Lemma AB_words_spec q r b d E fuel : bytes E → b mod 4 = 0 → d mod 4 = 0 → 0 <= r < 4 →
  let e := 4 * Z.of_nat q + r in block b e → block d e → forward b d e → (q <= fuel)%nat →
  ∃ E', AB_words fuel b d e E = (b + 4 * Z.of_nat q, d + 4 * Z.of_nat q, r, E') ∧ same E' (copied b d (4 * Z.of_nat q) E).
Proof.
  revert b d E fuel. induction q as [|q IH]; intros b d E fuel HE Hb4 Hd4 Hr e Hb Hd Hf Hfuel;
    [|destruct fuel as [|fuel]; [lia|]; cbn [AB_words]].
  { exists E. split; [|intros x; by rewrite copied_0].
    destruct fuel; cbn [AB_words]; [unfold e; tuple|]. destruct (Z.leb_spec 4 e); unfold e in *; [lia|tuple]. }
  destruct (Z.leb_spec 4 e); [|unfold e in *; lia].
  rewrite (block_i32 b e 4 Hb), (block_i32 d e 4 Hd), i32_id by (try (unfold block, is_i32 in *; lia); lia).
  unfold block, forward in *. replace (e - 4) with (4 * Z.of_nat q + r) by (unfold e; lia).
  destruct (IH (b + 4) (d + 4) (store32 b (load32s E d) E) fuel) as (E' & HE' & Hs); [|rewrite <- Z.add_mod_idemp_r, Z.add_0_r by lia; done..|lia|lia|lia|lia|lia|].
  { eapply bytes_same; [intros x; symmetry; by apply store32_copied|]. by apply bytes_copied. }
  exists E'. rewrite HE'. split; [tuple|].
  eapply same_trans; [exact Hs|]. eapply same_trans; [apply copied_same, store32_copied; done|].
  replace (4 * Z.of_nat (S q)) with (4 + 4 * Z.of_nat q) by lia. apply copied_app; lia.
Qed.

Lemma jand_3 b : 0 <= b < 2 ^ 31 → jand b 3 = b mod 4.
Proof.
  intros. unfold jand. rewrite (i32_id b) by (unfold is_i32; lia). change (i32 3) with (Z.ones 2). by rewrite Z.land_ones by lia.
Qed.

(** The loop up to an aligned address: [k] bytes are copied. *)
Lemma AB_align_spec fuel b d e E : bytes E → block b e → block d e → forward b d e →
  b mod 4 = d mod 4 → (- b) mod 4 < Z.of_nat fuel →
  let k := (- b) mod 4 in
  ∃ E', same E' (copied b d (Z.min k e) E) ∧
    AB_align fuel b d e E = (if e <? k then None else Some (b + k, d + k, e - k), E').
Proof.
  revert b d e E. induction fuel as [|fuel IH]; intros b d e E HE Hb Hd Hf Hm Hk k;
    (assert (0 <= k < 4) as Hk4 by (apply Z.mod_pos_bound; lia)); [unfold k in *; lia|].
  cbn [AB_align]. rewrite jand_3 by (unfold block in *; lia).
  destruct (Z.eqb_spec (b mod 4) 0) as [H0|H0].
  { assert (k = 0) as -> by (unfold k; clear -H0; Z.div_mod_to_equations; lia). exists E. unfold block in Hb.
    destruct (Z.ltb_spec e 0); [lia|]. rewrite Z.min_l, !Z.add_0_r, Z.sub_0_r by lia. split; [intros x; by rewrite copied_0|done]. }
  assert (0 < k) as Hk0 by (unfold k; clear -H0; Z.div_mod_to_equations; lia).
  destruct (Z.eqb_spec e 0) as [->|He].
  { exists E. destruct (Z.ltb_spec 0 k); [|lia]. rewrite Z.min_r by lia. split; [intros x; by rewrite copied_0|done]. }
  rewrite (block_i32 b e 1 Hb), (block_i32 d e 1 Hd), i32_id by (try (unfold block, is_i32 in *; lia); unfold block in *; lia).
  assert ((- (b + 1)) mod 4 = k - 1) as Hk1 by (unfold k in *; clear -H0; Z.div_mod_to_equations; lia).
  unfold block, forward in *.
  destruct (IH (b + 1) (d + 1) (e - 1) (store8 b (load8s E d) E)) as (E' & Hs & Ha); [|lia|lia|lia| |lia|].
  { eapply bytes_same; [intros x; symmetry; by apply store8_copied|]. by apply bytes_copied. }
  { clear -Hm. Z.div_mod_to_equations. lia. }
  rewrite Hk1 in Hs, Ha. exists E'. split.
  - eapply same_trans; [exact Hs|]. eapply same_trans; [apply copied_same, store8_copied; done|].
    replace (Z.min k e) with (1 + Z.min (k - 1) (e - 1)) by lia. apply copied_app; lia.
  - rewrite Ha. destruct (Z.ltb_spec (e - 1) (k - 1)), (Z.ltb_spec e k); try lia; [done|]. apply f_equal2; [f_equal; tuple|done].
Qed.

Lemma memcpy_big_spec a b c E : 0 <= c → same (memcpy_big a b c E) (copied a b c E).
Proof.
  intros Hc x. unfold memcpy_big, E_set, copied. set (l := _ <$> _).
  assert (zlength l = c) as Hl by (unfold l, zlength; rewrite length_fmap, length_seq; lia).
  destruct (zlookup l (x - a)) as [y|] eqn:Hy.
  - pose proof (zlookup_Some_lt _ _ _ Hy). in_range; try lia. unfold zlookup in Hy. destruct (Z.leb_spec 0 (x - a)); [|lia].
    unfold l in Hy. apply list_lookup_fmap_Some in Hy as (k & -> & Hk). apply lookup_seq in Hk as [-> ?]. f_equal. lia.
  - unfold zlookup in Hy. in_range; try done. destruct (Z.leb_spec 0 (x - a)); [|lia]. apply lookup_ge_None in Hy.
    unfold zlength in Hl. lia.
Qed.

Lemma AB_spec b d e E : bytes E → block b e → block d e → forward b d e →
  (AB b d e E).1 = b ∧ same (AB b d e E).2 (copied b d e E).
Proof.
  intros HE Hb Hd Hf. unfold AB. pose proof Hb as (Hb0 & He0 & Hbe). pose proof Hd as (Hd0 & _ & Hde).
  rewrite !(i32_id b), !(i32_id d), !(i32_id e) by (unfold is_i32; lia).
  destruct (Z.leb_spec 4096 e); [split; [done|by apply memcpy_big_spec]|].
  assert (same (AB_bytes (Z.to_nat e) b d e E) (copied b d e E)) as Hbytes.
  { pose proof (AB_bytes_spec (Z.to_nat e) b d E HE) as H'. rewrite Z2Nat.id in H' by lia. by apply H'. }
  rewrite !jand_3 by lia. destruct (Z.eqb_spec (b mod 4) (d mod 4)) as [Hm|]; [|done].
  destruct (AB_align_spec 4 b d e E HE Hb Hd Hf Hm) as (E' & Hs & Ha); [pose proof (Z.mod_pos_bound (- b) 4); lia|].
  rewrite Ha. set (k := (- b) mod 4) in *. assert (0 <= k < 4) as Hk by (apply Z.mod_pos_bound; lia).
  destruct (Z.ltb_spec e k) as [Hlt|Hge]; [split; [done|]; by rewrite Z.min_r in Hs by lia|]. rewrite Z.min_l in Hs by lia.
  assert (bytes E') as HE' by (eapply bytes_same; [intros x; symmetry; apply Hs|by apply bytes_copied]).
  set (q := Z.to_nat ((e - k) / 4)). set (r := (e - k) mod 4).
  assert (e - k = 4 * Z.of_nat q + r) as Heq.
  { unfold q, r. rewrite Z2Nat.id by (apply Z.div_pos; lia). apply Z.div_mod. lia. }
  assert (0 <= r < 4) as Hr by (apply Z.mod_pos_bound; lia).
  rewrite Heq. unfold block, forward in *.
  destruct (AB_words_spec q r (b + k) (d + k) E' (Z.to_nat (4 * Z.of_nat q + r)) HE') as (E2 & HE2 & Hs2).
  - unfold k. clear. Z.div_mod_to_equations. lia.
  - unfold k. clear -Hm. Z.div_mod_to_equations. lia.
  - done.
  - unfold block. lia.
  - unfold block. lia.
  - unfold forward. lia.
  - lia.
  - rewrite HE2. split; [done|]. pose proof (AB_bytes_spec (Z.to_nat r) (b + k + 4 * Z.of_nat q) (d + k + 4 * Z.of_nat q) E2) as H3.
    rewrite Z2Nat.id in H3 by lia. unfold block, forward in H3. cbn [snd].
    assert (same E2 (copied b d (k + 4 * Z.of_nat q) E)) as Hs3.
    { eapply same_trans; [exact Hs2|]. eapply same_trans; [apply copied_same, Hs|]. apply copied_app; lia. }
    eapply same_trans; [apply H3; try lia|].
    { eapply bytes_same; [intros x; symmetry; apply Hs3|by apply bytes_copied]. }
    eapply same_trans; [apply copied_same, Hs3|]. rewrite <- !Z.add_assoc.
    eapply same_trans; [apply copied_app; lia|]. replace (k + 4 * Z.of_nat q + r) with e by lia. done.
Qed.

(** ** [memmove] *)

Lemma BB_down_spec n b c E : bytes E → block b (Z.of_nat n) → block c (Z.of_nat n) → c < b →
  same (BB_down n (b + Z.of_nat n) (c + Z.of_nat n) (Z.of_nat n) E) (copied b c (Z.of_nat n) E).
Proof.
  revert E. induction n as [|n IH]; intros E HE Hb Hc Hlt; cbn [BB_down]; [intros x; by rewrite copied_0|].
  destruct (Z.ltb_spec 0 (Z.of_nat (S n))); [|lia]. unfold block in *.
  rewrite !i32_id by (unfold is_i32; lia).
  replace (b + Z.of_nat (S n) - 1) with (b + Z.of_nat n) by lia. replace (c + Z.of_nat (S n) - 1) with (c + Z.of_nat n) by lia.
  replace (Z.of_nat (S n) - 1) with (Z.of_nat n) by lia.
  eapply same_trans; [apply IH; try lia|].
  { eapply bytes_same; [intros x; symmetry; by apply store8_copied|]. by apply bytes_copied. }
  intros x. unfold copied. rewrite !store8_spec, u8_load8s by done.
  in_range; try lia.
  - destruct (Z.eqb_spec (c + (x - b)) (b + Z.of_nat n)); [lia|done].
  - destruct (Z.eqb_spec x (b + Z.of_nat n)); [f_equal; lia|lia].
  - destruct (Z.eqb_spec x (b + Z.of_nat n)); [lia|done].
  - destruct (Z.eqb_spec x (b + Z.of_nat n)); [lia|done].
Qed.

Lemma BB_spec b c d E : bytes E → block b d → block c d →
  (BB b c d E).1 = b ∧ same (BB b c d E).2 (copied b c d E).
Proof.
  intros HE Hb Hc. unfold BB. pose proof Hb as (Hb0 & Hd0 & Hbe). pose proof Hc as (Hc0 & _ & Hce).
  rewrite !(i32_id b), !(i32_id c), !(i32_id d), (i32_id (c + d)), (i32_id (b + d)) by (unfold is_i32; lia).
  destruct (Z.ltb_spec c b), (Z.ltb_spec b (c + d)); cbn [andb fst snd]; (split; [done|]);
    try (apply AB_spec; [done..|unfold forward; lia]).
  pose proof (BB_down_spec (Z.to_nat d) b c E HE) as H'. rewrite Z2Nat.id in H' by lia. by apply H'.
Qed.

(** ** [memset] *)

Lemma filled_0 b v E : same (filled b 0 v E) E.
Proof. intros x. unfold filled. in_range; try done. lia. Qed.

Lemma CB_bytes_spec n fuel b d E : block b (Z.of_nat n) → (n <= fuel)%nat →
  ∃ E', CB_bytes fuel b (b + Z.of_nat n) d E = (b + Z.of_nat n, E') ∧ same E' (filled b (Z.of_nat n) (u8 d) E).
Proof.
  revert fuel b E. induction n as [|n IH]; intros fuel b E Hb Hn.
  { exists E. split; [|intros x; by rewrite filled_0]. destruct fuel; cbn [CB_bytes]; [tuple|].
    destruct (Z.ltb_spec b (b + Z.of_nat 0)); [lia|tuple]. }
  destruct fuel as [|fuel]; [lia|]. cbn [CB_bytes]. destruct (Z.ltb_spec b (b + Z.of_nat (S n))); [|lia].
  rewrite (block_i32 b _ 1 Hb) by lia. unfold block in *. replace (b + Z.of_nat (S n)) with (b + 1 + Z.of_nat n) by lia.
  destruct (IH fuel (b + 1) (store8 b d E)) as (E' & HE' & Hs); [lia|lia|]. exists E'. split; [done|].
  eapply same_trans; [exact Hs|]. eapply same_trans; [apply filled_same, store8_filled|].
  replace (Z.of_nat (S n)) with (1 + Z.of_nat n) by lia. apply filled_app; lia.
Qed.

Lemma store32_filled b v E : b mod 4 = 0 → 0 <= v < 256 →
  same (store32 b (v + 256 * v + 65536 * v + 16777216 * v) E) (filled b 4 v E).
Proof.
  intros Hb Hv x. rewrite store32_bytes by done. unfold filled.
  destruct (Z.eqb_spec x b), (Z.eqb_spec x (b + 1)), (Z.eqb_spec x (b + 2)), (Z.eqb_spec x (b + 3)); in_range; try lia; done.
Qed.

Lemma CB_words_spec q fuel b i v E : block b (4 * Z.of_nat q) → b mod 4 = 0 → 0 <= v < 256 → (q <= fuel)%nat →
  u32 i = v + 256 * v + 65536 * v + 16777216 * v →
  ∃ E', CB_words fuel b (b + 4 * Z.of_nat q) i E = (b + 4 * Z.of_nat q, E') ∧ same E' (filled b (4 * Z.of_nat q) v E).
Proof.
  intros Hb Hb4 Hv Hn Hi. revert fuel b E Hb Hb4 Hn. induction q as [|q IH]; intros fuel b E Hb Hb4 Hn.
  { exists E. split; [|intros x; by rewrite filled_0]. destruct fuel; cbn [CB_words]; [tuple|].
    destruct (Z.ltb_spec b (b + 4 * Z.of_nat 0)); [lia|tuple]. }
  destruct fuel as [|fuel]; [lia|]. cbn [CB_words]. destruct (Z.ltb_spec b (b + 4 * Z.of_nat (S q))); [|lia].
  rewrite (block_i32 b _ 4 Hb) by lia. unfold block in *. replace (b + 4 * Z.of_nat (S q)) with (b + 4 + 4 * Z.of_nat q) by lia.
  destruct (IH fuel (b + 4) (store32 b i E)) as (E' & HE' & Hs); [lia|rewrite <- Z.add_mod_idemp_r, Z.add_0_r by lia; done|lia|].
  exists E'. split; [done|]. eapply same_trans; [exact Hs|].
  eapply same_trans; [apply filled_same; rewrite <- store32_u32, Hi; by apply store32_filled|].
  replace (4 * Z.of_nat (S q)) with (4 + 4 * Z.of_nat q) by lia. apply filled_app; lia.
Qed.

(** The word with one byte four times. *)
Lemma four_bytes d : 0 <= d < 256 →
  u32 (jor (jor (jor d (shl d 8)) (shl d 16)) (shl d 24)) = d + 256 * d + 65536 * d + 16777216 * d.
Proof.
  intros Hd. rewrite !u32_jor, !u32_shl by lia. rewrite (u32_id d), !u32_id by (unfold is_u32; lia).
  rewrite (Z.lor_comm d), lor_split, (Z.lor_comm _ (d * 2 ^ 16)), lor_split, Z.lor_comm, lor_split; lia.
Qed.

Lemma jand_255 d : jand d 255 = u8 d.
Proof. rewrite byte_low. unfold u8, u32. apply Z.mod_mod_divide. by exists 16777216. Qed.

Lemma jand_not3 f : 0 <= f < 2 ^ 31 → jand f (Z.lnot 3) = f - f mod 4.
Proof.
  intros Hf. unfold jand. rewrite (i32_id f) by (unfold is_i32; lia). change (i32 (Z.lnot 3)) with (Z.lnot (Z.ones 2)).
  rewrite <- Z.ldiff_land, Z.ldiff_ones_r, Z.shiftl_mul_pow2, Z.shiftr_div_pow2 by lia. change (2 ^ 2) with 4.
  pose proof (Z.div_mod f 4 ltac:(lia)). lia.
Qed.

(** The bytes up to an aligned address, then words. *)
Lemma CB_aligned b d e E : block b e → 20 <= e → 0 <= d < 256 →
  let h := jand b 3 in
  let i := jor (jor (jor d (shl d 8)) (shl d 16)) (shl d 24) in
  let g := jand (i32 (b + e)) (Z.lnot 3) in
  ∃ E1 E2 b1,
    (if negb (h =? 0) then CB_bytes 3 b (i32 (b + 4 - h)) d E else (b, E)) = (b1, E1) ∧
    CB_words (Z.to_nat e) b1 g i E1 = (b + e - (b + e) mod 4, E2) ∧
    same E2 (filled b (e - (b + e) mod 4) d E).
Proof.
  intros (Hb0 & He0 & Hbe) He Hd. cbv zeta. rewrite jand_3, (i32_id (b + e)), jand_not3 by (unfold is_i32; lia).
  pose proof (Z.mod_pos_bound b 4 ltac:(lia)) as Hm. pose proof (Z.mod_pos_bound (b + e) 4 ltac:(lia)) as Hm'.
  set (k := (- b) mod 4). assert (0 <= k < 4) as Hk by (apply Z.mod_pos_bound; lia).
  assert (∃ E1, (if negb (b mod 4 =? 0) then CB_bytes 3 b (i32 (b + 4 - b mod 4)) d E else (b, E)) = (b + k, E1) ∧
    same E1 (filled b k d E)) as (E1 & HE1 & Hs1).
  { destruct (Z.eqb_spec (b mod 4) 0) as [H0|H0]; cbn [negb].
    - assert (k = 0) as -> by (unfold k; clear -H0; Z.div_mod_to_equations; lia). exists E.
      split; [tuple|intros x; by rewrite filled_0].
    - assert (4 - b mod 4 = k) as Hk' by (unfold k; clear -H0; Z.div_mod_to_equations; lia).
      replace (b + 4 - b mod 4) with (b + k) by lia. rewrite i32_id by (unfold is_i32; lia).
      destruct (CB_bytes_spec (Z.to_nat k) 3 b d E) as (E1 & HE1 & Hs1); [unfold block; lia|lia|].
      rewrite Z2Nat.id in HE1, Hs1 by lia. exists E1. split; [done|]. unfold u8 in Hs1. by rewrite Z.mod_small in Hs1 by lia. }
  set (q := Z.to_nat ((e - k) / 4)). assert (b + e - (b + e) mod 4 = b + k + 4 * Z.of_nat q) as Hg.
  { unfold q, k. rewrite Z2Nat.id by (apply Z.div_pos; unfold k in *; lia). clear. Z.div_mod_to_equations. lia. }
  destruct (CB_words_spec q (Z.to_nat e) (b + k) (jor (jor (jor d (shl d 8)) (shl d 16)) (shl d 24)) d E1) as (E2 & HE2 & Hs2).
  - unfold block. lia.
  - unfold k. clear. Z.div_mod_to_equations. lia.
  - done.
  - unfold q. apply Z2Nat.inj_le; [apply Z.div_pos; lia|lia|]. apply Z.div_le_upper_bound; lia.
  - by apply four_bytes.
  - exists E1, E2, (b + k). rewrite Hg. split_and!; [done|done|]. eapply same_trans; [exact Hs2|].
    eapply same_trans; [apply filled_same, Hs1|]. replace (e - (b + e) mod 4) with (k + 4 * Z.of_nat q) by lia. apply filled_app; lia.
Qed.

Lemma CB_spec b d e E : block b e → (CB b d e E).1 = b ∧ same (CB b d e E).2 (filled b e (u8 d) E).
Proof.
  intros Hb. pose proof Hb as (Hb0 & He0 & Hbe). unfold CB.
  rewrite !(i32_id b), !(i32_id e) by (unfold is_i32; lia). destruct (Z.leb_spec 20 e) as [H20|H20].
  - assert (u8 (i32 d) = u8 d) as Hu by (rewrite <- !jand_255; unfold jand; by rewrite i32_i32).
    rewrite jand_255, Hu. assert (0 <= u8 d < 256) as Hr by (apply Z.mod_pos_bound; lia).
    destruct (CB_aligned b (u8 d) e E Hb H20 Hr) as (E1 & E2 & b1 & H1 & H2 & Hs). rewrite H1, H2, (i32_id (b + e)) by (unfold is_i32; lia).
    set (m := (b + e) mod 4) in *. assert (0 <= m < 4) as Hm by (apply Z.mod_pos_bound; lia).
    destruct (CB_bytes_spec (Z.to_nat m) (Z.to_nat e) (b + e - m) (u8 d) E2) as (E3 & H3 & Hs3); [unfold block; lia|lia|].
    rewrite Z2Nat.id in H3, Hs3 by lia. replace (b + e - m + m) with (b + e) in H3 by lia. rewrite H3. cbn [fst snd].
    split; [rewrite i32_id by (unfold is_i32; lia); lia|]. eapply same_trans; [exact Hs3|].
    eapply same_trans; [apply filled_same, Hs|]. assert (u8 (u8 d) = u8 d) as -> by (apply Z.mod_small; lia).
    replace (b + e - m) with (b + (e - m)) by lia. eapply same_trans; [apply filled_app; lia|].
    by replace (e - m + m) with e by lia.
  - destruct (CB_bytes_spec (Z.to_nat e) (Z.to_nat e) b (i32 d) E) as (E1 & H1 & Hs); [by rewrite Z2Nat.id by lia|lia|].
    rewrite Z2Nat.id in H1, Hs by lia. rewrite (i32_id (b + e)), H1 by (unfold is_i32; lia). cbn [fst snd].
    split; [rewrite i32_id by (unfold is_i32; lia); lia|].
    assert (u8 (i32 d) = u8 d) as <- by (rewrite <- !jand_255; unfold jand; by rewrite i32_i32). done.
Qed.

(** ** Strings *)

(** A C string of the memory. *)
Definition string_at (E : heap) (p : Z) (s : list Z) : Prop :=
  Forall (fun x => 0 < x < 256) s ∧ holds E p (s ++ [0]) ∧ block p (zlength s + 1).

Lemma string_byte E p s j x : string_at E p s → (s ++ [0]) !! j = Some x → E (p + Z.of_nat j) = x.
Proof. intros (_ & H & _) Hj. apply H. unfold zlookup. destruct (Z.leb_spec 0 (Z.of_nat j)); [|lia]. by rewrite Nat2Z.id. Qed.

Lemma string_head E p s : string_at E p s → E p = default 0 (head s).
Proof. intros H. pose proof (string_byte E p s 0) as H0. rewrite Z.add_0_r in H0. destruct s; by apply H0. Qed.

Lemma string_tail E p x s : string_at E p (x :: s) → string_at E (p + 1) s ∧ 0 < x < 256 ∧ i32 (p + 1) = p + 1.
Proof.
  intros (Hf & Hh & Hb). inversion_clear Hf as [|?? Hx Hs]. rewrite zlength_cons in Hb. unfold block in Hb.
  pose proof (zlength_nonneg s). split; [split; [done|split]|split; [lia|]].
  - change ((x :: s) ++ [0]) with ([x] ++ (s ++ [0])) in Hh. by apply holds_app_inv in Hh as [_ Hh].
  - unfold block. lia.
  - apply i32_id. unfold is_i32. lia.
Qed.

Lemma load8s_zero E p : 0 <= E p < 256 → (load8s E p =? 0) = (E p =? 0).
Proof. intros H. unfold load8s. destruct (Z.ltb_spec (E p) 128); [done|]. destruct (Z.eqb_spec (E p - 256) 0), (Z.eqb_spec (E p) 0); lia. Qed.

Lemma load8s_eq E p q : 0 <= E p < 256 → 0 <= E q < 256 → (load8s E p =? load8s E q) = (E p =? E q).
Proof.
  intros Hp Hq. unfold load8s. destruct (Z.ltb_spec (E p) 128), (Z.ltb_spec (E q) 128);
    repeat match goal with |- context [?a =? ?b] => destruct (Z.eqb_spec a b) end; lia.
Qed.

Lemma load8s_low E p : 0 <= E p < 256 → jand (load8s E p) 255 = E p.
Proof.
  intros H. rewrite jand_255. unfold load8s, u8. destruct (Z.ltb_spec (E p) 128); [by apply Z.mod_small|].
  replace (E p - 256) with (E p + -1 * 256) by lia. rewrite Z.mod_add by lia. by apply Z.mod_small.
Qed.

(** The difference of the first bytes that differ. *)
Fixpoint bytes_diff (s t : list Z) : Z :=
  match s, t with
  | [], [] => 0
  | [], y :: _ => - y
  | x :: _, [] => x
  | x :: s', y :: t' => if x =? y then bytes_diff s' t' else x - y
  end.

Lemma head_range s : Forall (fun x => 0 < x < 256) s → 0 <= default 0 (head s) < 256.
Proof. intros H. destruct s; simpl; [lia|]. inversion H; lia. Qed.

Lemma lA_spec s t E p q fuel : string_at E p s → string_at E q t → (length s < fuel)%nat →
  lA fuel E p q = Some (bytes_diff s t).
Proof.
  revert t p q fuel. induction s as [|x s IH]; intros t p q fuel Hs Ht Hn; (destruct fuel as [|fuel]; [simpl in Hn; lia|]); cbn [lA].
  - pose proof (string_head _ _ _ Hs) as Hp. pose proof (string_head _ _ _ Ht) as Hq. simpl in Hp.
    pose proof (head_range t (proj1 Ht)) as Hr. rewrite <- Hq in Hr.
    rewrite load8s_zero, Hp by lia. cbn [Z.eqb orb]. rewrite !load8s_low by lia. rewrite Hp, Hq, i32_id by (unfold is_i32; lia).
    by destruct t.
  - pose proof (string_head _ _ _ Hs) as Hp. pose proof (string_head _ _ _ Ht) as Hq. simpl in Hp.
    destruct (string_tail _ _ _ _ Hs) as (Hs' & Hx & Hp1). pose proof (head_range t (proj1 Ht)) as Hr. rewrite <- Hq in Hr.
    rewrite load8s_zero, load8s_eq, !load8s_low by lia. rewrite Hp. destruct (Z.eqb_spec x 0); [lia|]. cbn [orb].
    destruct t as [|y t]; simpl in Hq; rewrite Hq.
    + destruct (Z.eqb_spec x 0); [lia|]. cbn [negb]. rewrite i32_id by (unfold is_i32; lia). simpl. f_equal. lia.
    + destruct (string_tail _ _ _ _ Ht) as (Ht' & Hy & Hq1). cbn [bytes_diff]. destruct (Z.eqb_spec x y); cbn [negb].
      * rewrite Hp1, Hq1. apply IH; [done..|]. simpl in Hn. lia.
      * rewrite i32_id by (unfold is_i32; lia). done.
Qed.

(** [tolower] on a byte. *)
Definition lower (x : Z) : Z := if (65 <=? x) && (x <=? 90) then x + 32 else x.

Lemma ny_lower x : 0 <= x < 256 → ny x = lower x.
Proof.
  intros Hx. assert (forallb (fun n => ny (Z.of_nat n) =? lower (Z.of_nat n)) (seq 0 256) = true) as H by (vm_compute; reflexivity).
  rewrite forallb_forall in H. specialize (H (Z.to_nat x) ltac:(apply in_seq; lia)). rewrite Z2Nat.id in H by lia. by apply Z.eqb_eq.
Qed.

Lemma lower_range x : 0 <= x < 256 → 0 <= lower x < 256 ∧ (lower x = 0 ↔ x = 0).
Proof. unfold lower. destruct (Z.leb_spec 65 x), (Z.leb_spec x 90); simpl; lia. Qed.

Lemma hA_loop_spec s t E p q x fuel : string_at E p (x :: s) → string_at E q t → (length s < fuel)%nat →
  ∃ b c, hA_loop fuel E p q (load8s E p) = Some (b, c) ∧ 0 <= E c < 256 ∧
    lower (jand b 255) - lower (E c) = bytes_diff (lower <$> (x :: s)) (lower <$> t) ∧ 0 <= jand b 255 < 256.
Proof.
  revert t p q x fuel. induction s as [|x' s IH]; intros t p q x fuel Hs Ht Hn; (destruct fuel as [|fuel]; [simpl in Hn; lia|]);
    cbn [hA_loop]; pose proof (string_head _ _ _ Hs) as Hp; pose proof (string_head _ _ _ Ht) as Hq; simpl in Hp;
    destruct (string_tail _ _ _ _ Hs) as (Hs' & Hx & Hp1);
    pose proof (head_range t (proj1 Ht)) as Hr; rewrite <- Hq in Hr; rewrite load8s_zero, load8s_eq, !load8s_low, Hp by lia;
    (destruct t as [|y t]; simpl in Hq; rewrite Hq;
      [eexists _, _; split; [reflexivity|]; rewrite Hq, load8s_low, Hp by lia; simpl; destruct (lower_range 0); [lia|]; split_and!; lia|]);
    destruct (string_tail _ _ _ _ Ht) as (Ht' & Hy & Hq1); (destruct (Z.eqb_spec y 0); [lia|]).
  all: rewrite !ny_lower by lia; cbn [fmap list_fmap bytes_diff].
  all: destruct (lower_range x) as [Hlx _]; [lia|]; destruct (lower_range y) as [Hly _]; [lia|].
  all: destruct (Z.eqb_spec (lower x) (lower y)) as [Heq|Hne];
    [|destruct (Z.eqb_spec x y) as [->|]; [done|]; cbn [negb andb];
      eexists _, _; split; [reflexivity|]; rewrite Hq, load8s_low, Hp by lia; split_and!; lia].
  all: rewrite andb_false_r; rewrite Hp1, Hq1; pose proof (string_head _ _ _ Hs') as Hp'; simpl in Hp'.
  - rewrite load8s_zero, Hp' by lia. cbn [Z.eqb]. pose proof (string_head _ _ _ Ht') as Hq'.
    pose proof (head_range t (proj1 Ht')) as Hr'. rewrite <- Hq' in Hr'. eexists _, _. split; [reflexivity|].
    change (jand 0 255) with 0. change (lower 0) with 0. split_and!; try lia. rewrite Hq'. destruct t; simpl; [done|lia].
  - destruct (string_tail _ _ _ _ Hs') as (_ & Hx' & _). rewrite load8s_zero, Hp' by lia. destruct (Z.eqb_spec x' 0); [lia|].
    apply IH; [done..|]. simpl in Hn. lia.
Qed.

Lemma hA_spec s t E p q fuel : string_at E p s → string_at E q t → (length s <= fuel)%nat →
  hA fuel E p q = Some (bytes_diff (lower <$> s) (lower <$> t)).
Proof.
  intros Hs Ht Hn. unfold hA. pose proof (string_head _ _ _ Hs) as Hp. destruct s as [|x s]; simpl in Hp.
  - rewrite load8s_zero, Hp by lia. cbn [Z.eqb]. pose proof (string_head _ _ _ Ht) as Hq.
    pose proof (head_range t (proj1 Ht)) as Hr. rewrite <- Hq in Hr. change (jand 0 255) with 0. rewrite !ny_lower by lia.
    destruct (lower_range (E q)) as [Hl _]; [lia|]. change (lower 0) with 0. rewrite i32_id by (unfold is_i32; lia).
    rewrite Hq. destruct t; simpl; f_equal; lia.
  - destruct (string_tail _ _ _ _ Hs) as (_ & Hx & _). rewrite load8s_zero, Hp by lia. destruct (Z.eqb_spec x 0); [lia|].
    destruct (hA_loop_spec s t E p q x fuel Hs Ht) as (b & c & -> & Hc & Hd & Hb); [simpl in Hn; lia|].
    rewrite !ny_lower by lia. destruct (lower_range (jand b 255)) as [? _]; [lia|]. destruct (lower_range (E c)) as [? _]; [lia|].
    rewrite i32_id by (unfold is_i32; lia). by rewrite Hd.
Qed.

(** *** [memcmp] *)

Lemma dA_loop_spec s t E p q fuel : bytes E → length s = length t → s ≠ [] → (length s <= fuel)%nat →
  holds E p s → holds E q t → block p (zlength s) → block q (zlength s) →
  dA_loop fuel E p q (zlength s) = bytes_diff s t.
Proof.
  intros HE. revert t p q fuel. induction s as [|x s IH]; intros [|y t] p q fuel Hl Hne Hn Hs Ht Hp Hq; try done.
  destruct fuel as [|fuel]; [simpl in Hn; lia|]. cbn [dA_loop bytes_diff].
  apply (holds_app_inv E p [x] s) in Hs as [Hx Hs]. apply (holds_app_inv E q [y] t) in Ht as [Hy Ht].
  pose proof (Hx 0 x eq_refl) as Ex. pose proof (Hy 0 y eq_refl) as Ey. rewrite Z.add_0_r in Ex, Ey.
  pose proof (HE p) as Bx. pose proof (HE q) as By. rewrite Ex in Bx. rewrite Ey in By.
  change (zlength [x]) with 1 in Hs. change (zlength [y]) with 1 in Ht.
  unfold block in Hp, Hq. autorewrite with zlist in *. pose proof (zlength_nonneg s).
  rewrite load8s_eq, !load8s_low, Ex, Ey by (rewrite ?Ex, ?Ey; done).
  destruct (Z.eqb_spec x y) as [->|]; cbn [negb]; [|apply i32_id; unfold is_i32; lia].
  rewrite !i32_id by (unfold is_i32; lia). injection Hl as Hl.
  destruct s as [|x' s]; [by destruct t|]. destruct (Z.eqb_spec (1 + zlength (x' :: s) - 1) 0) as [E0|_].
  { autorewrite with zlist in E0. pose proof (zlength_nonneg s). lia. }
  replace (1 + zlength (x' :: s) - 1) with (zlength (x' :: s)) by lia.
  apply IH; [done|done|simpl in Hn |- *; lia|done|done|unfold block; lia..].
Qed.

Lemma dA_spec s t E p q : bytes E → length s = length t → holds E p s → holds E q t →
  block p (zlength s) → block q (zlength s) → dA E p q (zlength s) = bytes_diff s t.
Proof.
  intros HE Hl Hs Ht Hp Hq. unfold dA. destruct s as [|x s]; [by destruct t|].
  destruct (Z.eqb_spec (zlength (x :: s)) 0) as [E0|_].
  { autorewrite with zlist in E0. pose proof (zlength_nonneg s). lia. }
  apply dA_loop_spec; try done. rewrite u32_id by (unfold is_u32; unfold block in Hp; lia).
  unfold zlength. lia.
Qed.

(** *** [strlen] *)

(** The bits of [zero_byte]: the top bits of the bytes, where the word less
    [0x01010101] has one and the word has none. *)
Lemma zero_byte_bits w n : 0 <= n →
  Z.testbit (u32 (zero_byte w)) n =
  Z.testbit 2155905152 n && negb (Z.testbit (u32 w) n) && Z.testbit (u32 (w - 16843009)) n.
Proof.
  intros Hn. unfold zero_byte. rewrite u32_jand, u32_jxor, u32_jand. change (u32 (-2139062144)) with 2155905152.
  rewrite Z.land_spec, Z.lxor_spec, Z.land_spec. by destruct (Z.testbit (u32 w) n), (Z.testbit 2155905152 n).
Qed.

Lemma top_bits n : 0 <= n → Z.testbit 2155905152 n = (n =? 7) || (n =? 15) || (n =? 23) || (n =? 31).
Proof.
  intros Hn. destruct (Z.lt_ge_cases n 32).
  - assert (forallb (fun k => Bool.eqb (Z.testbit 2155905152 (Z.of_nat k))
      ((Z.of_nat k =? 7) || (Z.of_nat k =? 15) || (Z.of_nat k =? 23) || (Z.of_nat k =? 31))) (seq 0 32) = true) as H' by (vm_compute; reflexivity).
    rewrite forallb_forall in H'. specialize (H' (Z.to_nat n) ltac:(apply in_seq; lia)). rewrite Z2Nat.id in H' by lia.
    by apply eqb_prop in H'.
  - rewrite Z.bits_above_log2 by (change (Z.log2 2155905152) with 31; lia).
    destruct (Z.eqb_spec n 7), (Z.eqb_spec n 15), (Z.eqb_spec n 23), (Z.eqb_spec n 31); lia || done.
Qed.

Lemma testbit_half a n : 0 <= n → Z.testbit a n = ((a / 2 ^ n) mod 2 =? 1).
Proof. intros Hn. rewrite <- Z.testbit_spec' by done. by destruct (Z.testbit a n). Qed.

Section Word.
Context (w0 w1 w2 w3 : Z) (H0 : 0 <= w0 < 256) (H1 : 0 <= w1 < 256) (H2 : 0 <= w2 < 256) (H3 : 0 <= w3 < 256).
Let w := w0 + 256 * w1 + 65536 * w2 + 16777216 * w3.

Lemma zero_byte_at n : n = 7 ∨ n = 15 ∨ n = 23 ∨ n = 31 →
  Z.testbit (u32 (zero_byte w)) n = negb ((w / 2 ^ n) mod 2 =? 1) && ((u32 (w - 16843009) / 2 ^ n) mod 2 =? 1).
Proof using H0 H1 H2 H3.
  intros Hn. rewrite zero_byte_bits, top_bits, !testbit_half by lia. rewrite (u32_id w) by (unfold w; width).
  by destruct Hn as [-> | [-> | [-> | ->]]].
Qed.

Lemma zero_byte_none : w0 ≠ 0 → w1 ≠ 0 → w2 ≠ 0 → w3 ≠ 0 → u32 (zero_byte w) = 0.
Proof using H0 H1 H2 H3.
  intros N0 N1 N2 N3. apply Z.bits_inj'. intros n Hn. rewrite Z.bits_0.
  destruct (Z.testbit (u32 (zero_byte w)) n) eqn:Hb; [|done]. exfalso.
  assert (n = 7 ∨ n = 15 ∨ n = 23 ∨ n = 31) as Hc.
  { rewrite zero_byte_bits, top_bits in Hb by done.
    destruct (Z.eqb_spec n 7), (Z.eqb_spec n 15), (Z.eqb_spec n 23), (Z.eqb_spec n 31); auto; done. }
  rewrite zero_byte_at in Hb by done. apply andb_prop in Hb as [Hb1 Hb2]. apply negb_true_iff, Z.eqb_neq in Hb1. apply Z.eqb_eq in Hb2.
  rewrite u32_id in Hb2 by (unfold w; width). unfold w in *.
  destruct Hc as [-> | [-> | [-> | ->]]]; [change (2 ^ 7) with 128 in *|change (2 ^ 15) with 32768 in *|
    change (2 ^ 23) with 8388608 in *|change (2 ^ 31) with 2147483648 in *]; Z.div_mod_to_equations; lia.
Qed.

Lemma zero_byte_some : w0 = 0 ∨ w1 = 0 ∨ w2 = 0 ∨ w3 = 0 → u32 (zero_byte w) ≠ 0.
Proof using H0 H1 H2 H3.
  intros Hz Hc.
  assert (∃ n, (n = 7 ∨ n = 15 ∨ n = 23 ∨ n = 31) ∧ (w / 2 ^ n) mod 2 = 0 ∧ (u32 (w - 16843009) / 2 ^ n) mod 2 = 1) as (n & Hn & Ha & Hb).
  { unfold w. destruct (Z.eq_dec w0 0) as [E0|E0]; [exists 7|destruct (Z.eq_dec w1 0) as [E1|E1]; [exists 15|destruct (Z.eq_dec w2 0) as [E2|E2]; [exists 23|exists 31]]];
    [change (2 ^ 7) with 128|change (2 ^ 15) with 32768|change (2 ^ 23) with 8388608|change (2 ^ 31) with 2147483648];
    (split; [lia|]); unfold u32; change (2 ^ 32) with 4294967296; split; Z.div_mod_to_equations; lia. }
  pose proof (zero_byte_at n Hn) as Ht. rewrite Hc, Z.bits_0, Ha, Hb in Ht. done.
Qed.
End Word.

Lemma string_drop E p s k : string_at E p s → (k <= length s)%nat → string_at E (p + Z.of_nat k) (drop k s).
Proof.
  intros (Hf & Hh & Hb) Hk. split; [by apply Forall_drop|]. split.
  - rewrite <- drop_app_le by done. apply holds_drop; [rewrite length_app; lia|done].
  - unfold block, zlength in *. rewrite length_drop. lia.
Qed.

Lemma jand_i32 x y : is_i32 (jand x y).
Proof.
  assert (∀ z, is_i32 z ↔ Z.shiftr z 31 = 0 ∨ Z.shiftr z 31 = -1) as H.
  { intros z. rewrite Z.shiftr_div_pow2 by lia. unfold is_i32. change (2 ^ 31) with 2147483648. Z.div_mod_to_equations. lia. }
  apply H. unfold jand. rewrite Z.shiftr_land. destruct (proj1 (H _) (i32_range x)) as [-> | ->]; [left; apply Z.land_0_l|].
  rewrite Z.land_m1_l. apply H, i32_range.
Qed.

Lemma zero_byte_i32 w : zero_byte (i32 w) = zero_byte w.
Proof.
  unfold zero_byte, jand. rewrite i32_i32. f_equal. apply i32_eq_iff. apply u32_sub_congr; [apply u32_i32|done].
Qed.

(** A word without a zero byte. *)
Lemma load32s_word E p : bytes E → p mod 4 = 0 →
  zero_byte (load32s E p) = 0 ↔ E p ≠ 0 ∧ E (p + 1) ≠ 0 ∧ E (p + 2) ≠ 0 ∧ E (p + 3) ≠ 0.
Proof.
  intros HE Hp. unfold load32s. rewrite aligned, zero_byte_i32 by done. unfold load32.
  rewrite <- i32_zero by apply jand_i32.
  pose proof (zero_byte_none (E p) (E (p + 1)) (E (p + 2)) (E (p + 3)) (HE _) (HE _) (HE _) (HE _)) as H1.
  pose proof (zero_byte_some (E p) (E (p + 1)) (E (p + 2)) (E (p + 3)) (HE _) (HE _) (HE _) (HE _)) as H2.
  split; [|intros (? & ? & ? & ?); by apply H1]. intros Hz. split_and!; intros H0; apply H2; auto.
Qed.

Lemma string_nonzero E p s k : string_at E p s → (k < length s)%nat → 0 < E (p + Z.of_nat k) < 256.
Proof.
  intros Hs Hk. destruct (lookup_lt_is_Some_2 s k Hk) as [x Hx].
  rewrite (string_byte E p s k x Hs) by (rewrite lookup_app_l by done; done).
  by apply (Forall_lookup_1 _ _ _ _ (proj1 Hs) Hx).
Qed.

Lemma string_end E p s : string_at E p s → E (p + zlength s) = 0.
Proof. intros Hs. apply (string_byte E p s (length s) 0 Hs). rewrite lookup_app_r by done. by rewrite Nat.sub_diag. Qed.

(** The words of an aligned string: the loop stops at the one with the end. *)
Lemma pA_words_spec fuel E b s : bytes E → b mod 4 = 0 → string_at E b s → (length s < fuel)%nat →
  ∃ k, pA_words fuel E b = Some (b + Z.of_nat k) ∧ (k <= length s)%nat ∧ (length s < k + 4)%nat ∧ (b + Z.of_nat k) mod 4 = 0.
Proof.
  intros HE. revert b s. induction fuel as [|fuel IH]; intros b s Hb Hs Hn; [lia|]. cbn [pA_words].
  pose proof (load32s_word E b HE Hb) as Hw. destruct (decide (length s < 4)%nat) as [Hl|Hl].
  - exists 0%nat. rewrite Z.add_0_r. split; [|split_and!; lia || done]. destruct (Z.eqb_spec (zero_byte (load32s E b)) 0) as [Hz|]; [|done].
    exfalso. apply Hw in Hz as (Z0 & Z1 & Z2 & Z3). pose proof (string_end E b s Hs) as He. unfold zlength in He.
    destruct (length s) as [|[|[|[|]]]]; [rewrite Z.add_0_r in He| | | |]; done || lia.
  - assert (zero_byte (load32s E b) = 0) as ->.
    { apply Hw. pose proof (string_nonzero E b s 0 Hs ltac:(lia)) as N0. rewrite Z.add_0_r in N0.
      pose proof (string_nonzero E b s 1 Hs ltac:(lia)) as N1. pose proof (string_nonzero E b s 2 Hs ltac:(lia)) as N2.
      pose proof (string_nonzero E b s 3 Hs ltac:(lia)) as N3. change (Z.of_nat 1) with 1 in N1. change (Z.of_nat 2) with 2 in N2.
      change (Z.of_nat 3) with 3 in N3. split_and!; lia. }
    cbn [Z.eqb]. pose proof (string_drop E b s 4 Hs ltac:(lia)) as Hd. destruct Hs as (_ & _ & Hblk).
    rewrite (block_i32 b _ 4 Hblk) by (unfold zlength; lia).
    destruct (IH (b + 4) (drop 4 s)) as (k & Hk & Hk1 & Hk2 & Hk3); [rewrite <- Z.add_mod_idemp_r, Z.add_0_r by lia; done|done|rewrite length_drop; lia|].
    rewrite length_drop in *. exists (4 + k)%nat. rewrite Hk. split_and!; [f_equal; lia|lia|lia|].
    by replace (b + Z.of_nat (4 + k)) with (b + 4 + Z.of_nat k) by lia.
Qed.

(** The bytes after the first one. *)
Lemma pA_bytes_spec fuel E b x s : string_at E b (x :: s) → (length s < fuel)%nat → pA_bytes fuel E b = Some (b + zlength s + 1).
Proof.
  revert b x s. induction fuel as [|fuel IH]; intros b x s Hs Hn; [lia|]. cbn [pA_bytes].
  destruct (string_tail _ _ _ _ Hs) as (Hs' & Hx & ->). pose proof (string_head _ _ _ Hs') as Hh.
  pose proof (head_range s (proj1 Hs')) as Hr. rewrite <- Hh in Hr. rewrite load8s_zero, Hh by done.
  destruct s as [|y s]; simpl; [f_equal; unfold zlength; simpl; lia|].
  destruct (string_tail _ _ _ _ Hs') as (_ & Hy & _). destruct (Z.eqb_spec y 0); [lia|]. cbn [negb].
  rewrite (IH (b + 1) y s Hs') by (simpl in Hn; lia). f_equal. rewrite zlength_cons. lia.
Qed.

(** The bytes up to an aligned address. *)
Lemma pA_align_spec fuel E d s : string_at E d s → d mod 4 ≠ 0 → (- d) mod 4 <= Z.of_nat fuel →
  let k := (- d) mod 4 in
  pA_align fuel E d = if zlength s <? k then inl (d + zlength s) else inr (d + k).
Proof.
  revert d s. induction fuel as [|fuel IH]; intros d s Hs Hd Hk k; (assert (0 < k < 4) as Hk4 by (unfold k; clear -Hd; Z.div_mod_to_equations; lia)).
  { unfold k in *. lia. }
  cbn [pA_align]. pose proof (string_head _ _ _ Hs) as Hh. pose proof (head_range s (proj1 Hs)) as Hr. rewrite <- Hh in Hr.
  rewrite load8s_zero, Hh by done. destruct s as [|x s]; simpl.
  { change (zlength []) with 0. destruct (Z.ltb_spec 0 k); [|lia]. f_equal. lia. }
  destruct (string_tail _ _ _ _ Hs) as (Hs' & Hx & ->). destruct (Z.eqb_spec x 0); [lia|]. rewrite zlength_cons.
  pose proof (zlength_nonneg s). rewrite jand_3 by (destruct Hs' as (_ & _ & Hb); unfold block in Hb; lia).
  destruct (Z.eqb_spec ((d + 1) mod 4) 0) as [H0|H0].
  - assert (k = 1) as -> by (unfold k; clear -H0; Z.div_mod_to_equations; lia). destruct (Z.ltb_spec (1 + zlength s) 1); [lia|done].
  - assert ((- (d + 1)) mod 4 = k - 1) as Hk1 by (unfold k in *; clear -Hd; Z.div_mod_to_equations; lia).
    rewrite (IH (d + 1) s Hs' H0) by lia. rewrite Hk1. destruct (Z.ltb_spec (zlength s) (k - 1)), (Z.ltb_spec (1 + zlength s) k); try lia; f_equal; lia.
Qed.

(** From an aligned address on. *)
Lemma pA_rest fuel E f b s : bytes E → b mod 4 = 0 → string_at E b s → (length s < fuel)%nat →
  0 <= f <= b →
  match pA_words fuel E b with
  | None => None
  | Some b =>
      if negb (shr (shl (jand (load32s E b) 255) 24) 24 =? 0)
      then match pA_bytes fuel E b with Some b => Some (i32 (b - f)) | None => None end
      else Some (i32 (b - f))
  end = Some (b + zlength s - f).
Proof.
  intros HE Hb Hs Hn Hf. destruct (pA_words_spec fuel E b s HE Hb Hs Hn) as (k & -> & Hk & Hk4 & Hbk).
  pose proof (string_drop E b s k Hs Hk) as Hd. destruct Hs as (_ & _ & Hblk). unfold block, zlength in Hblk.
  assert (jand (load32s E (b + Z.of_nat k)) 255 = E (b + Z.of_nat k)) as ->.
  { rewrite byte_low. unfold load32s. rewrite aligned, u32_i32 by done. pose proof (HE (b + Z.of_nat k)). pose proof (HE (b + Z.of_nat k + 1)).
    pose proof (HE (b + Z.of_nat k + 2)). pose proof (HE (b + Z.of_nat k + 3)). unfold load32. rewrite u32_id by width.
    Z.div_mod_to_equations. lia. }
  pose proof (string_head _ _ _ Hd) as Hh. pose proof (HE (b + Z.of_nat k)) as Hr.
  assert ((shr (shl (E (b + Z.of_nat k)) 24) 24 =? 0) = (E (b + Z.of_nat k) =? 0)) as ->.
  { generalize dependent (E (b + Z.of_nat k)). intros y _ Hy.
    assert (forallb (fun n => Bool.eqb (shr (shl (Z.of_nat n) 24) 24 =? 0) (Z.of_nat n =? 0)) (seq 0 256) = true) as H' by (vm_compute; reflexivity).
    rewrite forallb_forall in H'. specialize (H' (Z.to_nat y) ltac:(apply in_seq; lia)). rewrite Z2Nat.id in H' by lia. by apply eqb_prop in H'. }
  assert (length (drop k s) = length s - k)%nat as Hl by apply length_drop. rewrite Hh.
  destruct (drop k s) as [|y t] eqn:Ed; simpl in *.
  - rewrite i32_id by (unfold is_i32; lia). f_equal. unfold zlength. lia.
  - destruct (string_tail _ _ _ _ Hd) as (_ & Hy & _). destruct (Z.eqb_spec y 0); [lia|]. cbn [negb].
    rewrite (pA_bytes_spec fuel E _ y t Hd) by lia. unfold zlength in *. rewrite i32_id by (unfold is_i32; lia). f_equal. lia.
Qed.

Lemma pA_spec fuel E p s : bytes E → string_at E p s → (length s < fuel)%nat → pA fuel E p = Some (zlength s).
Proof.
  intros HE Hs Hn. pose proof Hs as (_ & _ & Hb). unfold block in Hb. pose proof (zlength_nonneg s).
  unfold pA. rewrite (i32_id p), jand_3 by (unfold is_i32; lia). destruct (Z.eqb_spec (p mod 4) 0) as [H0|H0].
  - rewrite (pA_rest fuel E p p s) by (done || lia). f_equal. lia.
  - assert (0 < (- p) mod 4 < 4) as Hk by (clear -H0; Z.div_mod_to_equations; lia).
    rewrite (pA_align_spec 3 E p s Hs H0) by lia. set (k := (- p) mod 4) in *.
    destruct (Z.ltb_spec (zlength s) k); [rewrite i32_id by (unfold is_i32; lia); f_equal; lia|].
    pose proof (string_drop E p s (Z.to_nat k) Hs) as Hd. rewrite Z2Nat.id in Hd by lia.
    rewrite (pA_rest fuel E p (p + k) (drop (Z.to_nat k) s)); [|done| | | |lia].
    + f_equal. unfold zlength in *. rewrite length_drop. lia.
    + unfold k. clear. Z.div_mod_to_equations. lia.
    + apply Hd. unfold zlength in *. lia.
    + rewrite length_drop. lia.
Qed.

(** ** Binary search *)

Section Search.
Context (cmp : Z → Z → option Z) (a base n w : Z) (v : Z → Z).
Context (Hw : 0 < w) (Htable : block base (n * w)).
Context (Hcmp : ∀ i, 0 <= i < n → cmp a (base + i * w) = Some (v i)).
(** The key is above a first part of the table and below a last part. *)
Context (Hup : ∀ i j, 0 <= i <= j → j < n → v i < 0 → v j < 0).
Context (Hdown : ∀ i j, 0 <= i <= j → j < n → 0 < v j → 0 < v i).

Definition search_result (r : Z) : Prop :=
  (∃ i, 0 <= i < n ∧ v i = 0 ∧ r = base + i * w) ∨ (r = 0 ∧ ∀ i, 0 <= i < n → v i ≠ 0).

Lemma Zz_loop_spec fuel lo c : 0 <= lo → 1 <= c <= Z.of_nat fuel → lo + c <= n →
  (∀ i, 0 <= i < n → v i = 0 → lo <= i < lo + c) →
  ∃ r, Zz_loop cmp fuel a (base + lo * w) c w = Some r ∧ search_result r.
Proof using All.
  revert lo c. induction fuel as [|fuel IH]; intros lo c Hlo Hc Hn Hin; [lia|]. cbn [Zz_loop]. unfold block in Htable.
  assert (0 <= n * w < 2 ^ 31 ∧ 0 <= n < 2 ^ 31) as [Hnw Hn31] by nia.
  assert (shru c 1 = c / 2) as -> by (rewrite shru_div, u32_id by (unfold is_u32; lia); done).
  assert (0 <= c / 2 ∧ 2 * (c / 2) <= c ∧ c <= 2 * (c / 2) + 1) as (Hg0 & Hg1 & Hg2) by (Z.div_mod_to_equations; lia).
  set (g := c / 2) in *. clearbody g.
  assert (i32 (base + lo * w + imul g w) = base + (lo + g) * w) as ->.
  { rewrite imul_spec. assert (0 <= (lo + g) * w <= n * w) by nia. assert (0 <= g * w <= n * w) by nia.
    rewrite (i32_id (g * w)) by (unfold is_i32; lia). rewrite i32_id by (unfold is_i32; nia). ring. }
  rewrite Hcmp by lia. destruct (Z.eqb_spec (v (lo + g)) 0) as [H0|H0].
  { eexists. split; [reflexivity|]. left. exists (lo + g). split_and!; lia || done. }
  destruct (Z.eqb_spec c 1) as [->|Hc1].
  { exists 0. split; [done|]. right. split; [done|]. intros i Hi Hv. apply Hin in Hv as Hr; [|done].
    replace (lo + g) with i in H0 by lia. done. }
  destruct (Z.ltb_spec (v (lo + g)) 0) as [Hlt|Hge].
  - destruct (Z.eqb_spec g 0); [lia|]. apply IH; [lia..|]. intros i Hi Hv. pose proof (Hin i Hi Hv).
    destruct (Z.lt_ge_cases i (lo + g)); [lia|]. pose proof (Hup (lo + g) i ltac:(lia) ltac:(lia) Hlt). lia.
  - rewrite (i32_id (c - g)) by (unfold is_i32; lia). destruct (Z.eqb_spec (c - g) 0); [lia|]. apply IH; [lia..|].
    intros i Hi Hv. pose proof (Hin i Hi Hv). destruct (Z.lt_ge_cases (lo + g) i); [lia|].
    pose proof (Hdown i (lo + g) ltac:(lia) ltac:(lia) ltac:(lia)). lia.
Qed.

Lemma Zz_spec : ∃ r, Zz cmp a base n w = Some r ∧ search_result r.
Proof using All.
  unfold Zz. destruct (Z.eqb_spec n 0) as [->|Hn0].
  { exists 0. split; [done|]. right. split; [done|]. intros i Hi. lia. }
  assert (0 <= n * w) by (unfold block in Htable; lia). assert (0 < n) by nia.
  pose proof (Zz_loop_spec (Z.to_nat n) 0 n) as H'. rewrite Z.mul_0_l, Z.add_0_r in H'. apply H'; lia.
Qed.
End Search.
