(* ===== verification/VizLookup.v ===== *)
(** * Looking up names: entities and colours

    The object code finds a character entity ([Dt], which reads the text after
    an ampersand) and a colour by binary search in the tables of the static
    memory, comparing the names with [lA] and [hA] ([Bt] and [Ov], the
    functions 31 and 42 of the table [Lb]). *)

From Stdlib Require Import ZArith Lia.
From stdpp Require Import base list gmap.
From S2P Require Import Prelude VizRuntime VizFacts VizFile VizMemory VizEnv VizColors VizEntities.
From S2P Require Import VizInt64 VizInt64Facts VizDivision VizLibc VizLibcFacts.

Open Scope Z_scope.

Section Lookup.
(** Bounds the length of the names compared. *)
Context (fuel : nat).

(** Comparisons of the names two pointers lead to. *)
Definition Bt (E : heap) (a b : Z) : option Z := lA fuel E (load32s E a) (load32s E b).
Definition Ov (E : heap) (a b : Z) : option Z := hA fuel E (load32s E a) (load32s E b).

(** [Zz(B,59640,2491,12,42)]: the search for a colour. *)
Definition find_color (E : heap) (B : Z) : option Z := Zz (Ov E) B color_table color_count 12.

(** ** Entities *)

(** [(x<<24)>>24]. *)
Definition sext8 (x : Z) : Z := shr (shl x 24) 24.

(** The digits after [#]: value, index of the character after them, and that
    character.  At most six are read. *)
Fixpoint Dt_dec (n : nat) (E : heap) (d g e f : Z) : Z * Z * Z :=
  match n with
  | O => (e, g, f)
  | S n' =>
      let e := i32 (i32 (e * 10) - 48 + f) in
      let g := i32 (g + 1) in
      if 8 <=? g then (e, g, f)
      else
        let k := load8s E (i32 (d + g)) in
        let f := jand k 255 in
        if jand (k - 48) 255 <? 10 then Dt_dec n' E d g e f else (e, g, f)
  end.

(** The value of a hexadecimal digit. *)
Definition hex_digit (g : Z) : option Z :=
  let f := jand g 255 in
  if jand (g - 65) 255 <? 6 then Some (i32 (f - 55))
  else if jand (g - 97) 255 <? 6 then Some (i32 (f - 87))
  else if 10 <=? jand (g - 48) 255 then None
  else Some (i32 (f - 48)).

(** The digits after [#x]. *)
Fixpoint Dt_hex (n : nat) (E : heap) (d h e : Z) : Z * Z * Z :=
  match n with
  | O => (e, h, 0)
  | S n' =>
      let g := load8s E (i32 (d + h)) in
      match hex_digit g with
      | None => (e, h, jand g 255)
      | Some f =>
          let e := i32 (f + shl e 4) in
          let g := i32 (h + 1) in
          if g <? 8 then Dt_hex n' E d g e else (e, g, f)
      end
  end.

(** The characters of a name, up to eight, copied to [j] (the code repeats the
    steps eight times): where the semicolon was found, if it was. *)
Fixpoint Dt_copy (n : nat) (d j k : Z) (E : heap) : option Z * heap :=
  match n with
  | O => (None, E)
  | S n' =>
      let f := load8s E (i32 (d + k)) in
      if f =? 0 then (None, E)
      else if f =? 59 then (Some k, E)
      else Dt_copy n' d j (k + 1) (store8 (i32 (j + k)) f E)
  end.

(** [Dt(b)]: the character the text at [c[b>>2]] names, 0 for none; the
    pointer is moved past it.  [i] is the top of the stack. *)
Definition Dt (i b : Z) (E : heap) : option (Z * heap) :=
  let b := i32 b in
  let l := i in
  let k := l in
  let j := i32 (l + 8) in
  let d := load32s E b in
  if load8s E d =? 35 then
    let e := load8s E (i32 (d + 1)) in
    let '(e, g, f) :=
      if negb (sext8 (jand e (-33)) =? 88) then
        let f := jand e 255 in
        if jand (e - 48) 255 <? 10 then Dt_dec 7 E d 1 0 f else (0, 1, f)
      else Dt_hex 6 E d 2 0 in
    if f =? 59 then Some (e, store32 b (i32 (d + (g + 1))) E) else Some (0, store32 b d E)
  else
    let E := store32 k j E in
    match Dt_copy 8 d j 0 E with
    | (None, E) => Some (0, store32 b d E)
    | (Some n, E) =>
        let E := store8 (i32 (j + n)) 0 E in
        let h := n + 1 in
        match Zz (Bt E) k entity_table entity_count 8 with
        | None => None
        | Some e =>
            if e =? 0 then Some (0, store32 b d E)
            else Some (load32s E (e + 4), store32 b (i32 (d + h)) E)
        end
    end.
End Lookup.
