(* ===== verification/VizLookupFacts.v ===== *)
(** * What the lookups of names find

    A search in a table of names finds the entry of a name that is there and
    nothing else; [Dt] on the memory does what [entity_scan] does on the text. *)

From Stdlib Require Import ZArith Lia.
From stdpp Require Import base list gmap.
From S2P Require Import Prelude VizRuntime VizFacts VizFile VizMemory VizEnv VizColors VizEntities.
From S2P Require Import VizInt64 VizInt64Facts VizDivision VizLibc VizLibcFacts VizLookup.

Open Scope Z_scope.

(** ** The order of names *)

Section Order.
Abbreviation positive_bytes := (Forall (fun x => 0 < x < 256)).

Lemma bytes_diff_eq s t : positive_bytes s → positive_bytes t → bytes_diff s t = 0 ↔ s = t.
Proof.
  revert t. induction s as [|x s IH]; intros [|y t] Hs Ht; simpl; try done.
  - inversion_clear Ht. split; [lia|done].
  - inversion_clear Hs. split; [lia|done].
  - inversion_clear Hs. inversion_clear Ht. destruct (Z.eqb_spec x y) as [->|].
    + rewrite IH by done. split; [by intros ->|by intros [=]].
    + split; [lia|]. by intros [=].
Qed.

Lemma bytes_diff_neg s t : positive_bytes s → positive_bytes t → bytes_diff s t < 0 ↔ name_lt s t = true.
Proof.
  revert t. induction s as [|x s IH]; intros [|y t] Hs Ht; simpl; try done.
  - inversion_clear Ht. split; [done|lia].
  - inversion_clear Hs. split; [lia|done].
  - inversion_clear Hs. inversion_clear Ht. destruct (Z.eqb_spec x y) as [->|]; simpl.
    + rewrite IH by done. by rewrite Z.ltb_irrefl.
    + rewrite orb_false_r, Z.ltb_lt. lia.
Qed.

Lemma bytes_diff_opp s t : bytes_diff s t = - bytes_diff t s.
Proof.
  revert t. induction s as [|x s IH]; intros [|y t]; simpl; try lia.
  rewrite (Z.eqb_sym y). destruct (Z.eqb_spec x y); [apply IH|lia].
Qed.

Lemma bytes_diff_pos s t : positive_bytes s → positive_bytes t → 0 < bytes_diff s t ↔ name_lt t s = true.
Proof. intros Hs Ht. rewrite bytes_diff_opp, <- bytes_diff_neg by done. lia. Qed.
End Order.

(** ** A search in a table of names *)

Section Table.
(** Entries of [w] bytes that start with a pointer to their name. *)
Context (E : heap) (base count w : Z) (ns : list (list Z)).
Context (Hw : 0 < w) (Hblock : block base (count * w)) (Hbase : 0 < base).
Context (Hnames : ∀ k, 0 <= k < count → ∃ n, ns !! Z.to_nat k = Some n ∧ string_at E (load32s E (base + k * w)) n).
Context (Hinc : increasing ns = true) (Hlen : zlength ns = count).
(** A comparison that reads the names through [f]. *)
Context (cmp : Z → Z → option Z) (a : Z) (s : list Z) (f : list Z → list Z).
Context (Hs : Forall (fun x => 0 < x < 256) s).
Context (Hf : ∀ n, n ∈ ns → f n = n).
Context (Hcmp : ∀ b n, string_at E (load32s E b) n → cmp a b = Some (bytes_diff s (f n))).

Lemma search_names :
  ∃ r, Zz cmp a base count w = Some r ∧
    ((∃ k, 0 <= k < count ∧ ns !! Z.to_nat k = Some s ∧ r = base + k * w) ∨ (r = 0 ∧ s ∉ ns)).
Proof using All.
  set (name k := default [] (ns !! Z.to_nat k)). set (v k := bytes_diff s (name k)).
  assert (∀ k, 0 <= k < count → ns !! Z.to_nat k = Some (name k) ∧ Forall (fun x => 0 < x < 256) (name k) ∧
    cmp a (base + k * w) = Some (v k)) as Hk.
  { intros k Hk. destruct (Hnames k Hk) as (n & Hn & Hat). unfold v, name. rewrite Hn. simpl. split; [done|].
    split; [apply Hat|]. rewrite (Hcmp _ n Hat), Hf; [done|]. by eapply list_elem_of_lookup_2. }
  assert (∀ i j, 0 <= i <= j → j < count → i = j ∨ name_lt (name i) (name j) = true) as Hord.
  { intros i j Hij Hj. destruct (Z.eq_dec i j); [by left|right]. destruct (Hk i ltac:(lia)) as [Hi _]. destruct (Hk j ltac:(lia)) as [Hj' _].
    eapply increasing_lt; [exact Hinc| |exact Hi|exact Hj']. lia. }
  destruct (Zz_spec cmp a base count w v Hw Hblock) as (r & Hr & Hres).
  - intros i Hi. by apply Hk.
  - intros i j Hij Hj Hv. destruct (Hord i j Hij Hj) as [<-|Hlt]; [done|]. destruct (Hk i ltac:(lia)) as (_ & Hi & _).
    destruct (Hk j ltac:(lia)) as (_ & Hj' & _). unfold v in *. rewrite bytes_diff_neg in * by done. by eapply name_lt_trans.
  - intros i j Hij Hj Hv. destruct (Hord i j Hij Hj) as [<-|Hlt]; [done|]. destruct (Hk i ltac:(lia)) as (_ & Hi & _).
    destruct (Hk j ltac:(lia)) as (_ & Hj' & _). unfold v in *. rewrite bytes_diff_pos in * by done. by eapply name_lt_trans.
  - exists r. split; [done|]. destruct Hres as [(k & Hkr & Hv & ->)|[-> Hv]].
    + left. exists k. destruct (Hk k Hkr) as (Hn & Hp & _). split; [done|]. split; [|done].
      unfold v in Hv. rewrite bytes_diff_eq in Hv by done. by rewrite Hv.
    + right. split; [done|]. intros [k Hin]%list_elem_of_lookup. pose proof (lookup_lt_Some _ _ _ Hin) as Hl. unfold zlength in Hlen.
      destruct (Hk (Z.of_nat k) ltac:(lia)) as (Hn & Hp & _). rewrite Nat2Z.id, Hin in Hn. injection Hn as Hn.
      apply (Hv (Z.of_nat k) ltac:(lia)). unfold v. rewrite <- Hn. apply bytes_diff_eq; [done..|]. done.
Qed.
End Table.

(** ** The names of the two tables *)

(** A name as the tables have them: bytes of a string, no capital letter. *)
Definition name_ok (n : list Z) : bool :=
  (zlength n <? 32) && forallb (fun x => (0 <? x) && (x <? 256)) n.

Definition pointer_ok (p : Z) : bool := (0 <=? p) && (p <? static_end).

(** The pointers of a table and the names they lead to. *)
Definition pointed (names : gmap Z (list Z)) (ps : list Z) : option (list (list Z)) := mapM (fun p => names !! p) ps.

Lemma pointed_length names ps ns : pointed names ps = Some ns → length ps = length ns.
Proof. intros H. exact (Forall2_length _ _ _ (mapM_Some_1 _ _ _ H)). Qed.

Lemma pointed_names E base l ps ns k p :
  holds E base l → pointed (index_strings base l) ps = Some ns →
  forallb name_ok ns = true → forallb pointer_ok ps = true → ps !! k = Some p →
  ∃ n, ns !! k = Some n ∧ string_at E p n ∧ 0 <= p < static_end.
Proof.
  intros HE Hns Hok Hp Hk. pose proof (mapM_Some_1 _ _ _ Hns) as HF.
  destruct (Forall2_lookup_l _ _ _ _ _ HF Hk) as (n & Hn & Hname). exists n. split; [done|].
  rewrite forallb_forall in Hok, Hp. specialize (Hok n (proj1 (list_elem_of_In _ _) (list_elem_of_lookup_2 _ _ _ Hn))).
  specialize (Hp p (proj1 (list_elem_of_In _ _) (list_elem_of_lookup_2 _ _ _ Hk))).
  unfold name_ok in Hok. apply andb_prop in Hok as [Hl Hb]. apply Z.ltb_lt in Hl.
  unfold pointer_ok in Hp. apply andb_prop in Hp as [Hp1 Hp2]. apply Z.leb_le in Hp1. apply Z.ltb_lt in Hp2.
  split; [|lia]. split; [|split].
  - apply Forall_forall. intros x Hx. rewrite forallb_forall in Hb. specialize (Hb x (proj1 (list_elem_of_In _ _) Hx)). lia.
  - apply (index_strings_spec E base l p n HE Hname).
  - unfold block. pose proof (zlength_nonneg n). unfold static_end in Hp2. lia.
Qed.

Lemma load32s_load32 E p : p mod 4 = 0 → 0 <= load32 E p < 2 ^ 31 → load32s E p = load32 E p.
Proof. intros Hp Hr. unfold load32s. rewrite aligned by done. apply i32_id. unfold is_i32. lia. Qed.

Definition is_some {A} (o : option A) : bool := match o with Some _ => true | None => false end.

Lemma is_some_default {A} (o : option (list A)) : is_some o = true → o = Some (default [] o).
Proof. by destruct o. Qed.

Lemma lower_positive s : Forall (fun x => 0 < x < 256) s → Forall (fun x => 0 < x < 256) (lower <$> s).
Proof. intros H. apply Forall_fmap. eapply Forall_impl; [exact H|]. intros x Hx. cbv beta in Hx. unfold compose. pose proof (lower_range x ltac:(lia)). lia. Qed.

(** *** Colours *)

Definition colors_checked (ps : list Z) (ns : list (list Z)) : bool :=
  (zlength ns =? color_count) && increasing ns && forallb name_ok ns && forallb pointer_ok ps &&
  forallb (fun n => bool_decide (lower <$> n = n)) ns.

Section Colors.
Context (E : heap) (l nl : list Z) (nbase : Z) (ns : list (list Z)).
Context (HC : holds E color_table l) (HN : holds E nbase nl).
Context (Hptr : pointed (index_strings nbase nl) (c_name <$> decode l) = Some ns).
Context (Hchk : colors_checked (c_name <$> decode l) ns = true).

Lemma color_pointer k p : (c_name <$> decode l) !! k = Some p → 0 <= p < static_end →
  load32s E (color_table + Z.of_nat k * 12) = p.
Proof using HC.
  intros Hk Hp. apply list_lookup_fmap_Some in Hk as (c & -> & Hc).
  pose proof (decode_spec E 0 l k c) as H. rewrite Z.mul_0_r, Z.add_0_r, Nat.add_0_l in H. specialize (H HC Hc).
  rewrite <- H in Hp |- *. unfold color_at in *. cbn [c_name] in *. replace (color_table + 12 * Z.of_nat k) with (color_table + Z.of_nat k * 12) in * by lia.
  apply load32s_load32; [|unfold static_end in Hp; lia].
  replace (color_table + Z.of_nat k * 12) with (0 + (14910 + Z.of_nat k * 3) * 4) by (unfold color_table; lia). by rewrite Z.mod_add.
Qed.

Lemma color_search fuel B s : string_at E (load32s E B) s → (length s <= fuel)%nat →
  ∃ r, find_color fuel E B = Some r ∧
    ((∃ k, 0 <= k < color_count ∧ ns !! Z.to_nat k = Some (lower <$> s) ∧ r = color_table + k * 12) ∨
     (r = 0 ∧ (lower <$> s) ∉ ns)).
Proof using All.
  intros Hs Hn. unfold find_color, colors_checked in *. rewrite !andb_true_iff, Z.eqb_eq in Hchk.
  destruct Hchk as [[[[Hlen Hinc] Hok] Hpok] Hlow].
  apply (search_names E color_table color_count 12 ns ltac:(lia)) with (f := fun n => lower <$> n); try done.
  - intros k Hk. pose proof (pointed_length _ _ _ Hptr) as HL.
    destruct (lookup_lt_is_Some_2 (c_name <$> decode l) (Z.to_nat k)) as [p Hp]; [rewrite HL; unfold zlength in Hlen; lia|].
    destruct (pointed_names E nbase nl _ ns (Z.to_nat k) p HN Hptr Hok Hpok Hp) as (n & Hn' & Hat & Hr).
    exists n. split; [done|]. pose proof (color_pointer (Z.to_nat k) p Hp Hr) as Hl. rewrite Z2Nat.id in Hl by lia. by rewrite Hl.
  - apply lower_positive, Hs.
  - intros n Hin. rewrite forallb_forall in Hlow. specialize (Hlow n (proj1 (list_elem_of_In _ _) Hin)). by apply bool_decide_eq_true in Hlow.
  - intros b n Hat. unfold Ov. by apply hA_spec.
Qed.
End Colors.

Definition color_list : list (list Z) := default [] (pointed (index_strings name_base name_bytes) (c_name <$> decode table_bytes)).

Lemma color_list_checked :
  is_some (pointed (index_strings name_base name_bytes) (c_name <$> decode table_bytes)) &&
  colors_checked (c_name <$> decode table_bytes) color_list = true.
Proof. vm_compute. reflexivity. Qed.

(** The tables of a memory in which the object code runs. *)
Definition tables_in_place (E : heap) : Prop :=
  holds E color_table table_bytes ∧ holds E entity_table entity_bytes ∧ holds E name_base name_bytes.

Lemma tables_static : tables_in_place static_memory.
Proof. split; [exact table_holds|]. split; [exact entity_holds|exact names_hold]. Qed.

Lemma find_color_spec fuel E B s : tables_in_place E → string_at E (load32s E B) s → (length s <= fuel)%nat →
  ∃ r, find_color fuel E B = Some r ∧
    ((∃ k, 0 <= k < color_count ∧ color_list !! Z.to_nat k = Some (lower <$> s) ∧ r = color_table + k * 12) ∨
     (r = 0 ∧ (lower <$> s) ∉ color_list)).
Proof.
  intros (HC & _ & HN). destruct (andb_prop _ _ color_list_checked) as [H1 H2].
  exact (color_search E table_bytes name_bytes name_base color_list HC HN (is_some_default _ H1) H2 fuel B s).
Qed.

(** *** Entities *)

(** The value a name stands for in a table of names and values. *)
Fixpoint assoc (s : list Z) (l : list (list Z * Z)) : option Z :=
  match l with
  | [] => None
  | (n, v) :: l' => if decide (n = s) then Some v else assoc s l'
  end.

Lemma assoc_zip s ns vs k v :
  NoDup ns → ns !! k = Some s → vs !! k = Some v → assoc s (zip ns vs) = Some v.
Proof.
  revert vs k. induction ns as [|n ns IH]; intros [|u vs] [|k] Hnd Hn Hv; simpl in *; try done.
  - destruct (decide (n = s)); congruence.
  - inversion_clear Hnd as [|?? Hnin Hnd']. destruct (decide (n = s)) as [->|]; [|by eapply IH].
    exfalso. apply Hnin. by eapply list_elem_of_lookup_2.
Qed.

Lemma assoc_none s ns vs : s ∉ ns → assoc s (zip ns vs) = None.
Proof.
  revert vs. induction ns as [|n ns IH]; intros [|u vs] Hs; simpl; try done.
  apply not_elem_of_cons in Hs as [? ?]. destruct (decide (n = s)); [done|]. by apply IH.
Qed.

Lemma name_lt_irrefl a : name_lt a a = false.
Proof. induction a as [|x a IH]; simpl; [done|]. by rewrite Z.ltb_irrefl, Z.eqb_refl, IH. Qed.

Lemma increasing_NoDup ns : increasing ns = true → NoDup ns.
Proof.
  intros H. apply NoDup_alt. intros i j x Hi Hj. destruct (Nat.lt_trichotomy i j) as [Hlt|[?|Hlt]]; [|done|].
  - pose proof (increasing_lt ns H i j x x Hlt Hi Hj) as Hx. by rewrite name_lt_irrefl in Hx.
  - pose proof (increasing_lt ns H j i x x Hlt Hj Hi) as Hx. by rewrite name_lt_irrefl in Hx.
Qed.

Definition entities_valid (es : list entity) (ns : list (list Z)) : bool :=
  (zlength ns =? entity_count) && increasing ns && forallb name_ok ns && forallb pointer_ok (e_name <$> es) &&
  forallb (fun e => (0 <? e_value e) && (e_value e <? 65536)) es.

Section Entities.
Context (E : heap) (l nl : list Z) (nbase : Z) (ns : list (list Z)).
Context (HE : holds E entity_table l) (HN : holds E nbase nl).
Context (Hptr : pointed (index_strings nbase nl) (e_name <$> decode8 l) = Some ns).
Context (Hchk : entities_valid (decode8 l) ns = true).

Lemma entity_words k e : decode8 l !! k = Some e → 0 <= e_name e < static_end → 0 <= e_value e < 65536 →
  load32s E (entity_table + Z.of_nat k * 8) = e_name e ∧ load32s E (entity_table + Z.of_nat k * 8 + 4) = e_value e.
Proof using HE.
  intros Hk Hp Hv. pose proof (decode8_spec E 0 l k e) as H. rewrite Z.mul_0_r, Z.add_0_r, Nat.add_0_l in H. specialize (H HE Hk).
  rewrite <- H in Hp, Hv |- *. unfold entity_at in *. cbn [e_name e_value] in *.
  replace (entity_table + 8 * Z.of_nat k) with (entity_table + Z.of_nat k * 8) in * by lia.
  assert ((entity_table + Z.of_nat k * 8) mod 4 = 0 ∧ (entity_table + Z.of_nat k * 8 + 4) mod 4 = 0) as [H1 H2].
  { replace (entity_table + Z.of_nat k * 8) with (0 + (14288 + Z.of_nat k * 2) * 4) by (unfold entity_table; lia).
    rewrite Z.mod_add by lia. split; [done|]. replace (0 + (14288 + Z.of_nat k * 2) * 4 + 4) with (0 + (14289 + Z.of_nat k * 2) * 4) by lia. by rewrite Z.mod_add. }
  split; apply load32s_load32; try done; unfold static_end in *; lia.
Qed.

Lemma entity_search fuel a s : string_at E (load32s E a) s → (length s < fuel)%nat →
  ∃ r, Zz (Bt fuel E) a entity_table entity_count 8 = Some r ∧
    match assoc s (zip ns (e_value <$> decode8 l)) with
    | Some v => r ≠ 0 ∧ load32s E (r + 4) = v ∧ 0 < v < 65536
    | None => r = 0
    end.
Proof using All.
  intros Hs Hn. unfold entities_valid in Hchk. rewrite !andb_true_iff, Z.eqb_eq in Hchk.
  destruct Hchk as [[[[Hlen Hinc] Hok] Hpok] Hval]. pose proof (pointed_length _ _ _ Hptr) as HL. rewrite length_fmap in HL.
  assert (∀ k, 0 <= k < entity_count → ∃ n e, ns !! Z.to_nat k = Some n ∧ decode8 l !! Z.to_nat k = Some e ∧
    string_at E (e_name e) n ∧ 0 < e_value e < 65536 ∧
    load32s E (entity_table + k * 8) = e_name e ∧ load32s E (entity_table + k * 8 + 4) = e_value e) as Hk.
  { intros k Hk. destruct (lookup_lt_is_Some_2 (decode8 l) (Z.to_nat k)) as [e He]; [unfold zlength in Hlen; lia|].
    destruct (pointed_names E nbase nl _ ns (Z.to_nat k) (e_name e) HN Hptr Hok Hpok) as (n & Hn' & Hat & Hr).
    { by rewrite list_lookup_fmap, He. }
    rewrite forallb_forall in Hval. specialize (Hval e (proj1 (list_elem_of_In _ _) (list_elem_of_lookup_2 _ _ _ He))).
    destruct (entity_words (Z.to_nat k) e He Hr ltac:(lia)) as [H1 H2]. rewrite Z2Nat.id in H1, H2 by lia.
    exists n, e. split_and!; done || lia. }
  destruct (search_names E entity_table entity_count 8 ns ltac:(lia)) with (cmp := Bt fuel E) (a := a) (s := s) (f := fun n : list Z => n)
    as (r & Hr & Hres); try done.
  - intros k Hkr. destruct (Hk k Hkr) as (n & e & Hn' & _ & Hat & _ & Hl & _). exists n. by rewrite Hl.
  - apply Hs.
  - intros b n Hat. unfold Bt. by apply lA_spec.
  - exists r. split; [done|]. destruct Hres as [(k & Hkr & Hns & ->)|[-> Hnin]]; [|by rewrite assoc_none].
    destruct (Hk k Hkr) as (n & e & Hn' & He & _ & Hv & _ & Hl). rewrite Hns in Hn'. injection Hn' as <-.
    rewrite (assoc_zip s ns _ (Z.to_nat k) (e_value e)); [|by apply increasing_NoDup|done|by rewrite list_lookup_fmap, He].
    split_and!; [unfold entity_table; lia|done|lia|lia].
Qed.
End Entities.

Definition entity_names : list (list Z) :=
  default [] (pointed (index_strings name_base name_bytes) (e_name <$> decode8 entity_bytes)).

Lemma entity_names_checked :
  is_some (pointed (index_strings name_base name_bytes) (e_name <$> decode8 entity_bytes)) &&
  entities_valid (decode8 entity_bytes) entity_names = true.
Proof. vm_compute. reflexivity. Qed.

(** The entities by name. *)
Definition entity_list : list (list Z * Z) := zip entity_names (e_value <$> decode8 entity_bytes).

Lemma find_entity_spec fuel E a s : tables_in_place E → string_at E (load32s E a) s → (length s < fuel)%nat →
  ∃ r, Zz (Bt fuel E) a entity_table entity_count 8 = Some r ∧
    match assoc s entity_list with
    | Some v => r ≠ 0 ∧ load32s E (r + 4) = v ∧ 0 < v < 65536
    | None => r = 0
    end.
Proof.
  intros (_ & HE & HN). destruct (andb_prop _ _ entity_names_checked) as [H1 H2].
  exact (entity_search E entity_bytes name_bytes name_base entity_names HE HN (is_some_default _ H1) H2 fuel a s).
Qed.

(** ** The scan of an entity, on the text *)

(** The character at an index, 0 at the end. *)
Definition ch (s : list Z) (k : Z) : Z := default 0 (zlookup s k).

Definition is_digit (x : Z) : bool := (48 <=? x) && (x <=? 57).

(** Digits from index [g]: value, index and character after them. *)
Fixpoint scan_dec (n : nat) (s : list Z) (g e : Z) : Z * Z * Z :=
  match n with
  | O => (e, g, ch s g)
  | S n' => if is_digit (ch s g) then scan_dec n' s (g + 1) (10 * e + (ch s g - 48)) else (e, g, ch s g)
  end.

Definition hex_value (x : Z) : option Z :=
  if (65 <=? x) && (x <=? 70) then Some (x - 55)
  else if (97 <=? x) && (x <=? 102) then Some (x - 87)
  else if is_digit x then Some (x - 48) else None.

Fixpoint scan_hex (n : nat) (s : list Z) (h e : Z) : Z * Z * Z :=
  match n with
  | O => (e, h, ch s h)
  | S n' =>
      match hex_value (ch s h) with
      | Some v => scan_hex n' s (h + 1) (16 * e + v)
      | None => (e, h, ch s h)
      end
  end.

(** The characters before a semicolon, when it is among the first [n]. *)
Fixpoint name_prefix (n : nat) (s : list Z) : option (list Z) :=
  match n, s with
  | S n', x :: s' => if x =? 59 then Some [] else cons x <$> name_prefix n' s'
  | _, _ => None
  end.

(** The number after [#]: at most six digits, and a semicolon. *)
Definition scan_number (s : list Z) : Z * Z :=
  let x := ch s 1 in
  let '(e, g, f) := if (x =? 88) || (x =? 120) then scan_hex 6 s 2 0 else scan_dec 7 s 1 0 in
  if (f =? 59) && (g <? 8) then (e, g + 1) else (0, 0).

(** The character a text names, 0 for none, and the characters that name it. *)
Definition entity_scan (tab : list (list Z * Z)) (s : list Z) : Z * Z :=
  if ch s 0 =? 35 then scan_number s
  else
    match name_prefix 8 s with
    | None => (0, 0)
    | Some n => match assoc n tab with Some v => (v, zlength n + 1) | None => (0, 0) end
    end.

(** ** Reading the text *)

(** A byte as the object code reads it, with a sign. *)
Definition sx (x : Z) : Z := if x <? 128 then x else x - 256.

Lemma ch_range s k : Forall (fun x => 0 < x < 256) s → 0 <= ch s k < 256.
Proof.
  intros H. unfold ch, zlookup. destruct (0 <=? k); simpl; [|lia]. destruct (s !! Z.to_nat k) eqn:E; simpl; [|lia].
  pose proof (Forall_lookup_1 _ _ _ _ H E). simpl in *. lia.
Qed.

Lemma ch_nonzero s k : ch s k ≠ 0 → 0 <= k < zlength s.
Proof.
  unfold ch. destruct (zlookup s k) eqn:E; [|done]. intros _. by eapply zlookup_Some_lt.
Qed.

Lemma load_ch E d s k : string_at E d s → 0 <= k <= zlength s → load8s E (i32 (d + k)) = sx (ch s k).
Proof.
  intros Hs Hk. pose proof Hs as (_ & _ & Hb). rewrite (block_i32 d _ k Hb) by lia. unfold load8s, sx.
  enough (E (d + k) = ch s k) as -> by done. unfold ch, zlookup. destruct (Z.leb_spec 0 k); [|lia].
  replace (d + k) with (d + Z.of_nat (Z.to_nat k)) by lia. destruct (s !! Z.to_nat k) as [x|] eqn:Ek; simpl.
  - apply (string_byte E d s _ x Hs). by rewrite lookup_app_l by (by eapply lookup_lt_Some).
  - apply lookup_ge_None in Ek. unfold zlength in Hk. replace (Z.to_nat k) with (length s) by lia. apply (string_end E d s Hs).
Qed.

(** What the code computes from a signed byte, checked for all of them. *)
Definition byte_checks (x : Z) : bool :=
  (jand (sx x) 255 =? x) && Bool.eqb (jand (sx x - 48) 255 <? 10) (is_digit x) &&
  bool_decide (hex_digit (sx x) = hex_value x) &&
  Bool.eqb (sext8 (jand (sx x) (-33)) =? 88) ((x =? 88) || (x =? 120)) &&
  Bool.eqb (sx x =? 35) (x =? 35) && Bool.eqb (sx x =? 59) (x =? 59) && Bool.eqb (sx x =? 0) (x =? 0).

Lemma bytes_checked : forallb (fun n => byte_checks (Z.of_nat n)) (seq 0 256) = true.
Proof. vm_compute. reflexivity. Qed.

Lemma byte_facts x : 0 <= x < 256 →
  jand (sx x) 255 = x ∧ (jand (sx x - 48) 255 <? 10) = is_digit x ∧ hex_digit (sx x) = hex_value x ∧
  (sext8 (jand (sx x) (-33)) =? 88) = ((x =? 88) || (x =? 120)) ∧
  (sx x =? 35) = (x =? 35) ∧ (sx x =? 59) = (x =? 59) ∧ (sx x =? 0) = (x =? 0).
Proof.
  intros Hx. pose proof bytes_checked as H. rewrite forallb_forall in H. specialize (H (Z.to_nat x) ltac:(apply in_seq; lia)).
  rewrite Z2Nat.id in H by lia. unfold byte_checks in H. rewrite !andb_true_iff, !eqb_true_iff, bool_decide_eq_true, Z.eqb_eq in H. tauto.
Qed.

(** ** Numbers *)

(** How [Dt] and [scan_number] end. *)
Definition code_end (r : Z * Z * Z) : Z * Z := let '(e, g, f) := r in if f =? 59 then (e, g + 1) else (0, 0).
Definition scan_end (r : Z * Z * Z) : Z * Z := let '(e, g, f) := r in if (f =? 59) && (g <? 8) then (e, g + 1) else (0, 0).

Lemma digit_range x : is_digit x = true → 48 <= x <= 57.
Proof. unfold is_digit. lia. Qed.

Lemma Dt_dec_spec n E d s g e : string_at E d s → 1 <= g → g + Z.of_nat n = 8 →
  is_digit (ch s g) = true → 0 <= e < 10 ^ (g - 1) →
  code_end (Dt_dec n E d g e (ch s g)) = scan_end (scan_dec n s g e).
Proof.
  intros Hs. revert g e. induction n as [|n IH]; intros g e Hg Hn Hd He.
  { assert (g = 8) as -> by lia. pose proof (digit_range _ Hd). cbn [Dt_dec scan_dec code_end scan_end].
    destruct (Z.eqb_spec (ch s 8) 59); [lia|done]. }
  pose proof (digit_range _ Hd) as Hr. cbn [Dt_dec scan_dec]. rewrite Hd.
  assert (10 ^ (g - 1) <= 10 ^ 6) by (apply Z.pow_le_mono_r; lia). change (10 ^ 6) with 1000000 in *.
  rewrite (i32_id (e * 10)), (i32_id (e * 10 - 48 + ch s g)), (i32_id (g + 1)) by (unfold is_i32; lia).
  replace (e * 10 - 48 + ch s g) with (10 * e + (ch s g - 48)) by lia.
  assert (0 <= 10 * e + (ch s g - 48) < 10 ^ (g + 1 - 1)) as He'.
  { replace (g + 1 - 1) with (Z.succ (g - 1)) by lia. rewrite Z.pow_succ_r by lia. lia. }
  pose proof (ch_nonzero s g ltac:(lia)) as Hlen.
  destruct (Z.leb_spec 8 (g + 1)).
  - assert (g + 1 = 8) as -> by lia. replace n with 0%nat by lia. cbn [scan_dec code_end scan_end].
    destruct (Z.eqb_spec (ch s g) 59); [lia|]. by rewrite andb_false_r.
  - rewrite (load_ch E d s (g + 1) Hs) by lia. pose proof (ch_range s (g + 1) (proj1 Hs)) as Hc.
    destruct (byte_facts _ Hc) as (-> & -> & _). destruct (is_digit (ch s (g + 1))) eqn:Hd'.
    + apply IH; [lia..|done|done].
    + destruct n as [|n]; [lia|]. cbn [scan_dec]. rewrite Hd'. cbn [code_end scan_end].
      destruct (Z.ltb_spec (g + 1) 8); [|lia]. by rewrite andb_true_r.
Qed.

Lemma hex_value_range x v : hex_value x = Some v → 0 <= v < 16 ∧ x ≠ 0.
Proof.
  unfold hex_value, is_digit. destruct (Z.leb_spec 65 x), (Z.leb_spec x 70), (Z.leb_spec 97 x), (Z.leb_spec x 102),
    (Z.leb_spec 48 x), (Z.leb_spec x 57); simpl; intros [=]; lia.
Qed.

Lemma shl_4 e : 0 <= e < 2 ^ 24 → shl e 4 = 16 * e.
Proof.
  intros He. unfold shl. change (Z.land 4 31) with 4. rewrite (i32_id e) by (unfold is_i32; lia).
  rewrite Z.shiftl_mul_pow2 by lia. rewrite i32_id by (unfold is_i32; lia). lia.
Qed.

Lemma Dt_hex_spec n E d s h e : string_at E d s → 2 <= h <= zlength s → h + Z.of_nat n = 8 → (0 < n)%nat →
  0 <= e < 16 ^ (h - 2) → code_end (Dt_hex n E d h e) = scan_end (scan_hex n s h e).
Proof.
  intros Hs. revert h e. induction n as [|n IH]; intros h e Hh Hn Hn0 He; [lia|]. cbn [Dt_hex scan_hex].
  rewrite (load_ch E d s h Hs) by lia. pose proof (ch_range s h (proj1 Hs)) as Hc.
  destruct (byte_facts _ Hc) as (-> & _ & -> & _).
  assert (16 ^ (h - 2) <= 16 ^ 5) by (apply Z.pow_le_mono_r; lia). change (16 ^ 5) with 1048576 in *.
  destruct (hex_value (ch s h)) as [v|] eqn:Hv.
  - destruct (hex_value_range _ _ Hv) as [Hvr Hne]. pose proof (ch_nonzero s h Hne) as Hlen.
    rewrite shl_4, (i32_id (h + 1)), i32_id by (unfold is_i32; lia).
    replace (v + 16 * e) with (16 * e + v) by lia. destruct (Z.ltb_spec (h + 1) 8).
    + apply IH; [lia..|]. replace (h + 1 - 2) with (Z.succ (h - 2)) by lia. rewrite Z.pow_succ_r by lia. lia.
    + replace n with 0%nat by lia. assert (h + 1 = 8) as -> by lia. cbn [scan_hex code_end scan_end].
      destruct (Z.eqb_spec v 59); [lia|]. by rewrite andb_false_r.
  - cbn [code_end scan_end]. destruct (Z.ltb_spec h 8); [|lia]. by rewrite andb_true_r.
Qed.

(** ** Names *)

Lemma u8_sx x : 0 <= x < 256 → u8 (sx x) = x.
Proof.
  intros H. unfold sx, u8. destruct (Z.ltb_spec x 128); [by apply Z.mod_small|].
  replace (x - 256) with (x + -1 * 256) by lia. rewrite Z.mod_add by lia. by apply Z.mod_small.
Qed.

(** Two ranges of addresses without a common one. *)
Definition disjoint (p n q m : Z) : Prop := p + n <= q ∨ q + m <= p.

Lemma string_at_ext E E' p s : (∀ x, p <= x < p + zlength s + 1 → E' x = E x) → string_at E p s → string_at E' p s.
Proof.
  intros H (Hf & Hh & Hb). split; [done|]. split; [|done]. intros j x Hj. rewrite H; [by apply Hh|].
  apply zlookup_Some_lt in Hj. rewrite zlength_app in Hj. change (zlength [0]) with 1 in Hj. lia.
Qed.

Lemma Dt_copy_spec n E d j k s : string_at E (d + k) s → 0 <= k → 0 <= d → block j (k + Z.of_nat n) →
  disjoint (d + k) (zlength s + 1) j (k + Z.of_nat n) →
  ∃ E', Dt_copy n d j k E = ((fun nm => k + zlength nm) <$> name_prefix n s, E') ∧
    (∀ x, x < j + k ∨ j + k + Z.of_nat n <= x → E' x = E x) ∧
    ∀ nm, name_prefix n s = Some nm → holds E' (j + k) nm ∧ zlength nm < Z.of_nat n ∧ Forall (fun x => 0 < x < 256) nm.
Proof.
  revert E k s. induction n as [|n IH]; intros E k s Hs Hk Hd Hj Hdis.
  { exists E. by destruct s. }
  assert (load8s E (i32 (d + k)) = sx (ch s 0)) as Hload.
  { pose proof (load_ch E (d + k) s 0 Hs) as H. rewrite Z.add_0_r in H. apply H. pose proof (zlength_nonneg s). lia. }
  cbn [Dt_copy]. rewrite Hload. pose proof (ch_range s 0 (proj1 Hs)) as Hc.
  destruct (byte_facts _ Hc) as (_ & _ & _ & _ & _ & -> & ->). destruct s as [|x s].
  { exists E. done. }
  destruct (string_tail _ _ _ _ Hs) as (Hs' & Hx & _). change (ch (x :: s) 0) with x in *.
  destruct (Z.eqb_spec x 0); [lia|]. cbn [name_prefix]. destruct (Z.eqb_spec x 59).
  { exists E. split; [simpl; rewrite Z.add_0_r; done|]. split; [done|]. intros nm [= <-].
    split; [by intros i y Hi%zlookup_Some_lt; change (zlength []) with 0 in Hi; lia|]. change (zlength []) with 0. split; [lia|constructor]. }
  rewrite (block_i32 j _ k Hj) by lia. unfold block, disjoint in *. rewrite zlength_cons in Hdis. pose proof (zlength_nonneg s).
  set (E1 := store8 (j + k) (sx x) E).
  assert (∀ y, y ≠ j + k → E1 y = E y) as HE1 by (intros y Hy; unfold E1; rewrite store8_spec; by destruct (Z.eqb_spec y (j + k))).
  replace (d + k + 1) with (d + (k + 1)) in Hs' by lia.
  destruct (IH E1 (k + 1) s) as (E' & HE' & Hout & Hnm); [|lia..|].
  { eapply string_at_ext; [|exact Hs']. intros y Hy. apply HE1. lia. }
  exists E'. rewrite HE'. split; [|split].
  - destruct (name_prefix n s); simpl; [|done]. f_equal. f_equal. rewrite zlength_cons. lia.
  - intros y Hy. rewrite Hout by lia. apply HE1. lia.
  - intros nm Hp. destruct (name_prefix n s) as [nm'|]; simpl in Hp; [|done]. injection Hp as <-.
    destruct (Hnm nm' eq_refl) as (Hh & Hl & Hf). rewrite zlength_cons. split; [|split; [lia|by constructor]].
    apply (holds_app E' (j + k) [x] nm'); [|by replace (j + k + zlength [x]) with (j + (k + 1)) by (unfold zlength; simpl; lia)].
    intros i y Hi. pose proof (zlookup_Some_lt _ _ _ Hi) as Hr. change (zlength [x]) with 1 in Hr. replace i with 0 in * by lia.
    injection Hi as <-. rewrite Z.add_0_r, Hout by lia. unfold E1. rewrite store8_spec, Z.eqb_refl. by apply u8_sx.
Qed.

(** ** The whole scan *)

Lemma holds_below E E' p l stop : (∀ x, 0 <= x < stop → E' x = E x) → 0 <= p → p + zlength l <= stop → holds E p l → holds E' p l.
Proof. intros H Hp Hl Hh j x Hj. pose proof (zlookup_Some_lt _ _ _ Hj). rewrite H by lia. by apply Hh. Qed.

Lemma tables_lengths :
  color_table + zlength table_bytes <= static_end ∧ entity_table + zlength entity_bytes <= static_end ∧
  name_base + zlength name_bytes <= static_end.
Proof. split; [|split]; apply Z.leb_le; vm_compute; reflexivity. Qed.

Lemma tables_ext E E' : (∀ x, 0 <= x < static_end → E' x = E x) → tables_in_place E → tables_in_place E'.
Proof.
  intros H (H1 & H2 & H3). destruct tables_lengths as (L1 & L2 & L3).
  assert (0 <= color_table ∧ 0 <= entity_table ∧ 0 <= name_base) as (P1 & P2 & P3)
    by (unfold color_table, entity_table, name_base, n_q; lia).
  exact (conj (holds_below _ _ _ _ _ H P1 L1 H1) (conj (holds_below _ _ _ _ _ H P2 L2 H2) (holds_below _ _ _ _ _ H P3 L3 H3))).
Qed.

(** A memory in which [Dt] is called: the tables in place, a text, a pointer to
    it at [b], and 16 bytes of the stack at [i] apart from both. *)
Record scan_ready (E : heap) (i b d : Z) (s : list Z) : Prop := {
  sr_tables : tables_in_place E;
  sr_text : string_at E d s;
  sr_pointer : load32s E b = d;
  sr_word : block b 4 ∧ b mod 4 = 0;
  sr_stack : static_end <= i ∧ i mod 4 = 0 ∧ block i 16;
  sr_apart : disjoint d (zlength s + 1) i 16 ∧ disjoint b 4 i 16
}.

(** What [Dt] leaves: the pointer moved by [n], other memory but the stack unchanged. *)
Definition scanned (E E' : heap) (i b d n : Z) : Prop :=
  load32s E' b = d + n ∧ ∀ x, x < b ∨ b + 4 <= x → x < i ∨ i + 16 <= x → E' x = E x.

Lemma load32s_stored p v E : p mod 4 = 0 → 0 <= v < 2 ^ 31 → load32s (store32 p v E) p = v.
Proof.
  intros Hp Hv. pose proof (load32s_store32 p v E Hp) as H. rewrite (u32_id v) in H by (unfold is_u32; lia).
  rewrite <- (i32_id (load32s _ _)), <- i32_u32, H by (apply i32_range). apply i32_id. unfold is_i32. lia.
Qed.

Lemma store_scanned E E' i b d n v : block b 4 → b mod 4 = 0 → v = d + n → 0 <= v < 2 ^ 31 →
  (∀ x, x < i ∨ i + 16 <= x → E' x = E x) → scanned E (store32 b v E') i b d n.
Proof.
  intros Hb Hb4 -> Hv H. split; [by apply load32s_stored|]. intros x Hx Hi. rewrite store32_other by done. by apply H.
Qed.

Lemma scan_number_length s : 0 <= (scan_number s).2 <= zlength s.
Proof.
  pose proof (zlength_nonneg s). unfold scan_number.
  destruct (if (ch s 1 =? 88) || (ch s 1 =? 120) then scan_hex 6 s 2 0 else scan_dec 7 s 1 0) as [[e g] f] eqn:Er.
  assert (f = ch s g ∧ 0 <= g) as [-> Hg].
  { revert Er. destruct (_ || _).
    - assert (∀ n h e', 0 <= h → scan_hex n s h e' = (e, g, f) → f = ch s g ∧ 0 <= g) as H'; [|apply H'; lia].
      induction n as [|n IH]; intros h e' Hh; cbn [scan_hex]; [by intros [= <- <- <-]|].
      destruct (hex_value _); [apply IH; lia|by intros [= <- <- <-]].
    - assert (∀ n h e', 0 <= h → scan_dec n s h e' = (e, g, f) → f = ch s g ∧ 0 <= g) as H'; [|apply H'; lia].
      induction n as [|n IH]; intros h e' Hh; cbn [scan_dec]; [by intros [= <- <- <-]|].
      destruct (is_digit _); [apply IH; lia|by intros [= <- <- <-]]. }
  destruct (Z.eqb_spec (ch s g) 59) as [H59|]; simpl; [|lia]. destruct (g <? 8); simpl; [|lia].
  pose proof (ch_nonzero s g ltac:(lia)). lia.
Qed.

Lemma name_prefix_length n s nm : name_prefix n s = Some nm → zlength nm + 1 <= zlength s.
Proof.
  revert s nm. induction n as [|n IH]; intros [|x s] nm; cbn [name_prefix]; try done. rewrite zlength_cons.
  destruct (x =? 59); [intros [= <-]; change (zlength []) with 0; pose proof (zlength_nonneg s); lia|].
  destruct (name_prefix n s) as [nm'|] eqn:E; simpl; [|done]. intros [= <-]. rewrite zlength_cons. specialize (IH s nm' E). lia.
Qed.

Section Scan.
Context (fuel : nat) (Hfuel : (8 < fuel)%nat) (E : heap) (i b d : Z) (s : list Z) (Hready : scan_ready E i b d s).

(** A number. *)
Lemma Dt_number : ch s 0 = 35 →
  ∃ E', Dt fuel i b E = Some ((scan_number s).1, E') ∧ scanned E E' i b d (scan_number s).2.
Proof using All.
  intros H35. destruct Hready as [_ Ht Hp [Hb Hb4] _ _]. pose proof Ht as (Hf & _ & Hblk). unfold block in Hblk, Hb.
  pose proof (ch_nonzero s 0 ltac:(lia)) as Hlen. unfold Dt. rewrite (i32_id b), Hp by (unfold is_i32; lia).
  pose proof (load_ch E d s 0 Ht ltac:(lia)) as H0. rewrite Z.add_0_r, (i32_id d), H35 in H0 by (unfold is_i32; lia). rewrite H0.
  change (sx 35 =? 35) with true. cbv iota. rewrite (load_ch E d s 1 Ht) by lia.
  pose proof (ch_range s 1 Hf) as Hc. destruct (byte_facts _ Hc) as (-> & -> & _ & -> & _).
  assert (∀ r : Z * Z * Z, (let '(e, g, f) := r in
    if f =? 59 then Some (e, store32 b (i32 (d + (g + 1))) E) else Some (0, store32 b d E)) =
    Some ((code_end r).1, store32 b (if r.2 =? 59 then i32 (d + (code_end r).2) else d) E)) as Hend.
  { intros [[e g] f]. simpl. by destruct (f =? 59). }
  rewrite Hend.
  set (r := if negb ((ch s 1 =? 88) || (ch s 1 =? 120)) then _ else _).
  assert (code_end r = scan_number s) as Hr.
  { unfold r, scan_number. destruct ((ch s 1 =? 88) || (ch s 1 =? 120)) eqn:Hx; cbn [negb].
    - apply (Dt_hex_spec 6 E d s 2 0 Ht); try lia. apply orb_true_iff in Hx. rewrite !Z.eqb_eq in Hx.
      pose proof (ch_nonzero s 1 ltac:(lia)). lia.
    - destruct (is_digit (ch s 1)) eqn:Hd; [by apply (Dt_dec_spec 7 E d s 1 0 Ht)|].
      cbn [scan_dec]. rewrite Hd. cbn [code_end scan_end]. by rewrite andb_true_r. }
  rewrite Hr. eexists. split; [reflexivity|]. pose proof (scan_number_length s).
  apply store_scanned; [unfold block; lia|done| | |done].
  - destruct (r.2 =? 59) eqn:H59; [apply i32_id; unfold is_i32; lia|].
    assert ((scan_number s).2 = 0) as -> by (rewrite <- Hr; destruct r as [[e g] f]; simpl in *; by rewrite H59). lia.
  - destruct (r.2 =? 59); [rewrite i32_id by (unfold is_i32; lia); lia|lia].
Qed.

(** The copied name, with its end, is a string on the stack. *)
Lemma copied_name E' nm : holds E' (i + 8) nm → zlength nm < 8 → Forall (fun x => 0 < x < 256) nm →
  string_at (store8 (i + 8 + zlength nm) 0 E') (i + 8) nm.
Proof using All.
  intros Hh Hl Hf. destruct Hready as [_ _ _ _ (_ & _ & Hblk) _]. unfold block in Hblk. pose proof (zlength_nonneg nm).
  split; [done|]. split; [|unfold block; lia]. apply holds_app.
  - intros j x Hj. pose proof (zlookup_Some_lt _ _ _ Hj). rewrite store8_spec.
    destruct (Z.eqb_spec (i + 8 + j) (i + 8 + zlength nm)); [lia|]. by apply Hh.
  - intros j x Hj. pose proof (zlookup_Some_lt _ _ _ Hj) as Hr. change (zlength [0]) with 1 in Hr. replace j with 0 in * by lia.
    injection Hj as <-. by rewrite Z.add_0_r, store8_spec, Z.eqb_refl.
Qed.

Lemma Dt_name : ch s 0 ≠ 35 →
  ∃ E', Dt fuel i b E = Some ((entity_scan entity_list s).1, E') ∧ scanned E E' i b d (entity_scan entity_list s).2.
Proof using All.
  intros H35. pose proof Hready as [Htab Ht Hp [Hb Hb4] (Hi & Hi4 & Hiblk) [Hap _]]. pose proof Ht as (Hf & _ & Hblk).
  unfold block, static_end in Hblk, Hb, Hiblk, Hi. pose proof (zlength_nonneg s). unfold Dt, entity_scan.
  rewrite (i32_id b), Hp, (i32_id (i + 8)) by (unfold is_i32; lia).
  pose proof (load_ch E d s 0 Ht ltac:(lia)) as H0. rewrite Z.add_0_r, (i32_id d) in H0 by (unfold is_i32; lia). rewrite H0.
  destruct (byte_facts _ (ch_range s 0 Hf)) as (_ & _ & _ & _ & -> & _). destruct (Z.eqb_spec (ch s 0) 35); [done|].
  set (E1 := store32 i (i + 8) E).
  assert (∀ x, x < i ∨ i + 4 <= x → E1 x = E x) as HE1 by (intros x Hx; by apply store32_other).
  destruct (Dt_copy_spec 8 E1 d (i + 8) 0 s) as (E2 & HE2 & Hout & Hnm).
  { rewrite Z.add_0_r. eapply string_at_ext; [|exact Ht]. intros x Hx. apply HE1. unfold disjoint in Hap. lia. }
  { lia. }
  { lia. }
  { unfold block. lia. }
  { unfold disjoint in *. lia. }
  assert (∀ x, x < i ∨ i + 16 <= x → E2 x = E x) as HE2'.
  { intros x Hx. rewrite Hout by lia. apply HE1. lia. }
  rewrite HE2. destruct (name_prefix 8 s) as [nm|] eqn:Hnp; cbn [fmap option_fmap option_map].
  2:{ eexists. split; [reflexivity|]. apply store_scanned; [unfold block; lia|done|simpl; lia|lia|done]. }
  destruct (Hnm nm eq_refl) as (Hh & Hl & Hnf). rewrite Z.add_0_r in Hh. change (Z.of_nat 8) with 8 in Hl. pose proof (zlength_nonneg nm).
  rewrite Z.add_0_l, (i32_id (i + 8 + zlength nm)) by (unfold is_i32; lia).
  set (E3 := store8 (i + 8 + zlength nm) 0 E2).
  assert (∀ x, x < i ∨ i + 16 <= x → E3 x = E x) as HE3.
  { intros x Hx. unfold E3. rewrite store8_spec. destruct (Z.eqb_spec x (i + 8 + zlength nm)); [lia|]. by apply HE2'. }
  assert (load32s E3 i = i + 8) as Hkey.
  { rewrite <- (load32s_stored i (i + 8) E) by (done || lia). unfold load32s. rewrite aligned by done. f_equal. apply load32_ext.
    intros x Hx. unfold E3. rewrite store8_spec. destruct (Z.eqb_spec x (i + 8 + zlength nm)); [lia|]. apply Hout. lia. }
  destruct (find_entity_spec fuel E3 i nm) as (r & -> & Hr).
  { eapply tables_ext; [|exact Htab]. intros x Hx. apply HE3. unfold static_end in Hx. lia. }
  { rewrite Hkey. by apply copied_name. }
  { unfold zlength in Hl. lia. }
  pose proof (name_prefix_length 8 s nm Hnp). destruct (assoc nm entity_list) as [v|].
  - destruct Hr as (Hr0 & -> & _). destruct (Z.eqb_spec r 0); [done|]. eexists. split; [reflexivity|]. cbn [snd].
    apply store_scanned; [unfold block; lia|done|rewrite i32_id by (unfold is_i32; lia); lia|rewrite i32_id by (unfold is_i32; lia); lia|done].
  - subst r. cbn [Z.eqb]. eexists. split; [reflexivity|]. apply store_scanned; [unfold block; lia|done|simpl; lia|lia|done].
Qed.

Lemma Dt_spec :
  ∃ E', Dt fuel i b E = Some ((entity_scan entity_list s).1, E') ∧ scanned E E' i b d (entity_scan entity_list s).2.
Proof using All.
  destruct (Z.eq_dec (ch s 0) 35) as [H|H]; [|by apply Dt_name].
  destruct (Dt_number H) as (E' & H1 & H2). exists E'. unfold entity_scan. rewrite H, Z.eqb_refl. exact (conj H1 H2).
Qed.
End Scan.
