(* ===== verification/VizJump.v ===== *)
(** * Non-local jumps of the object code

    [setjmp] and [longjmp] as the object code has them.  A function that calls
    [setjmp] keeps a table of the jumps it has set up: pairs of an identifier,
    which is also stored at the jump buffer, and a label, ended by an identifier
    0.  [xB] adds an entry, [zB] looks one up.  [pc] ([longjmp]) notes buffer and
    value in the variables [n] and [o] and throws the string ["longjmp"]; the
    wrappers [invoke_...] catch it, and the caller looks the buffer up in its
    table. *)

From Stdlib Require Import ZArith Lia.
From stdpp Require Import base list.
From S2P Require Import Prelude VizRuntime VizFacts VizFile VizMemory VizEnv VizInt64.

Open Scope Z_scope.

(** The memory, the last identifier ([p]), and [n] and [o]. *)
Record jumps : Type := mkJumps { j_E : heap; j_p : Z; j_n : Z; j_o : Z }.

(** [while((f|0)<(e|0))] of [xB], which runs at most [n] times: the memory with
    the new entry, if one is free. *)
Fixpoint xB_scan (n : nat) (f e d b p : Z) (E : heap) : option heap :=
  match n with
  | O => None
  | S n' =>
      if f <? e then
        if load32s E (d + shl f 3) =? 0
        then Some (store32 (d + (shl f 3 + 8)) 0 (store32 (d + (shl f 3 + 4)) b (store32 (d + shl f 3) p E)))
        else xB_scan n' (i32 (f + 1)) e d b p E
      else None
  end.

(** [zB]: [_testSetjmp]. *)
Fixpoint zB_loop (n : nat) (f a b d : Z) (E : heap) : Z :=
  match n with
  | O => 0
  | S n' =>
      if f <? d then
        let e := load32s E (b + shl f 3) in
        if e =? 0 then 0
        else if e =? a then load32s E (b + (shl f 3 + 4))
        else zB_loop n' (i32 (f + 1)) a b d E
      else 0
  end.
Definition zB (a b d : Z) (E : heap) : Z := zB_loop (Z.to_nat d) 0 a b d E.

(** How a call ends. *)
Inductive thrown : Type := ThrowNumber (x : Z) | ThrowLongjmp | ThrowOther (x : Z).
Definition outcome : Type := (thrown + Z) * jumps.

(** [Sb]: [setThrew]. *)
Definition Sb (a b : Z) (s : jumps) : jumps := if j_n s =? 0 then mkJumps (j_E s) (j_p s) a b else s.

(** [pc]: [longjmp]. *)
Definition pc (a b : Z) (s : jumps) : outcome := (inl ThrowLongjmp, Sb a (if b =? 0 then 1 else b) s).

(** [invoke_...]: a function of the table that may throw. *)
Definition invoke (f : jumps → outcome) (s : jumps) : outcome :=
  match f s with
  | (inl (ThrowOther x), s) => (inl (ThrowOther x), s)
  | (inl _, s) => (inr 0, Sb 1 0 s)
  | r => r
  end.

(** A call in a function that has set up jumps, with the table at [ma] of [oa]
    entries: [n=0;g=invoke(...);j=n;n=0;if((j|0)!=0&(o|0)!=0){l=zB(c[j>>2],ma,oa);
    if(!l)Ka(j,o);C=o}else l=-1].  The label ([-1] for none), the value of the jump
    or of the call. *)
Definition checked_call (f : jumps → outcome) (ma oa : Z) (s : jumps) : (thrown + (Z * Z)) * jumps :=
  match invoke f (mkJumps (j_E s) (j_p s) 0 (j_o s)) with
  | (inl e, s) => (inl e, s)
  | (inr g, s) =>
      let j := j_n s in
      let o := j_o s in
      let s := mkJumps (j_E s) (j_p s) 0 o in
      if negb (j =? 0) && negb (o =? 0) then
        let l := zB (load32s (j_E s) j) ma oa (j_E s) in
        if l =? 0 then let '(r, s) := pc j o s in (match r with inl e => inl e | inr g => inr (-1, g) end, s)
        else (inr (l, o), s)
      else (inr (-1, g), s)
  end.

Section Save.
(** [rB]: [realloc]. *)
Context (realloc : Z → Z → heap → Z * heap).

(** [xB]: [_saveSetjmp]: the table and its size; [fuel] bounds the times it grows. *)
Fixpoint xB (fuel : nat) (a b d e : Z) (s : jumps) : option (Z * Z * jumps) :=
  match fuel with
  | O => None
  | S fuel' =>
      let p := i32 (j_p s + 1) in
      let E := store32 a p (j_E s) in
      match xB_scan (Z.to_nat e) 0 e d b p E with
      | Some E => Some (d, e, mkJumps E p (j_n s) (j_o s))
      | None =>
          let e := i32 (e * 2) in
          let '(d, E) := realloc d (i32 (8 * i32 (e + 1))) E in
          xB fuel' a b d e (mkJumps E p (j_n s) (j_o s))
      end
  end.
End Save.
