(* ===== verification/VizJumpProps.v ===== *)
(** * Facts about non-local jumps *)

From Stdlib Require Import ZArith Lia.
From stdpp Require Import base list.
From S2P Require Import Prelude VizRuntime VizFacts VizFile VizMemory VizEnv VizInt64 VizInt64Facts VizDivision.
From S2P Require Import VizLibc VizLibcFacts VizLookupFacts VizJump.

Open Scope Z_scope.

(** A table of jumps in memory: room for [e] entries and an end. *)
Record jump_table (E : heap) (d e : Z) (l : list (Z * Z)) : Prop := {
  jt_place : 0 <= d ∧ d mod 4 = 0 ∧ 1 <= e ∧ d + 8 * (e + 1) < 2 ^ 31;
  jt_room : zlength l <= e;
  jt_entries : ∀ k i x, l !! k = Some (i, x) →
    load32s E (d + 8 * Z.of_nat k) = i ∧ load32s E (d + 8 * Z.of_nat k + 4) = x ∧ i ≠ 0;
  jt_end : load32s E (d + 8 * zlength l) = 0
}.

(** The label of an identifier, 0 for none. *)
Fixpoint jump_label (a : Z) (l : list (Z * Z)) : Z :=
  match l with [] => 0 | (i, x) :: l' => if i =? a then x else jump_label a l' end.

Lemma shl_3 f : 0 <= f < 2 ^ 28 → shl f 3 = 8 * f.
Proof.
  intros Hf. unfold shl. rewrite (i32_id f) by (unfold is_i32; lia). change (Z.land 3 31) with 3.
  rewrite Z.shiftl_mul_pow2 by lia. rewrite i32_id by (unfold is_i32; lia). lia.
Qed.

Section Table.
Context (E : heap) (d e : Z) (l : list (Z * Z)) (Ht : jump_table E d e l).

Lemma zB_loop_spec a n f : (f <= length l)%nat → Z.of_nat f + Z.of_nat n = e →
  zB_loop n (Z.of_nat f) a d e E = jump_label a (drop f l).
Proof using Ht.
  destruct Ht as [(H1 & H2 & H3 & H4) H5 H6 H7]. revert f. induction n as [|n IH]; intros f Hl He; cbn [zB_loop].
  - rewrite drop_ge by (unfold zlength in H5; lia). done.
  - destruct (Z.ltb_spec (Z.of_nat f) e); [|lia]. rewrite shl_3 by lia. destruct (l !! f) as [[i x]|] eqn:E0.
    + destruct (H6 f i x E0) as (-> & Hx & Hi). rewrite (drop_S l (i, x) f E0). cbn [jump_label].
      destruct (Z.eqb_spec i 0); [done|]. destruct (Z.eqb_spec i a); [by rewrite Z.add_assoc|].
      rewrite i32_id by (unfold is_i32; lia). replace (Z.of_nat f + 1) with (Z.of_nat (S f)) by lia.
      apply lookup_lt_Some in E0. apply IH; lia.
    + apply lookup_ge_None in E0. rewrite drop_ge by done. assert (f = length l) as -> by lia.
      by fold (zlength l); rewrite H7.
Qed.

Lemma zB_spec a : zB a d e E = jump_label a l.
Proof using Ht.
  unfold zB. pose proof (zB_loop_spec a (Z.to_nat e) 0) as H. rewrite drop_0 in H. apply H; [lia|].
  destruct Ht as [(_ & _ & ? & _) _ _ _]. lia.
Qed.

(** The table with an entry more. *)
Lemma table_word k : (d + 8 * k) mod 4 = 0 ∧ (d + 8 * k + 4) mod 4 = 0.
Proof using Ht.
  destruct Ht as [(_ & H & _) _ _ _]. split.
  - replace (d + 8 * k) with (d + 2 * k * 4) by lia. by rewrite Z.mod_add by lia.
  - replace (d + 8 * k + 4) with (d + (2 * k + 1) * 4) by lia. by rewrite Z.mod_add by lia.
Qed.

Lemma load32s_stored_i32 p v E' : p mod 4 = 0 → is_i32 v → load32s (store32 p v E') p = v.
Proof.
  intros Hp Hv. rewrite <- (i32_id (load32s _ _)) by (apply i32_range). rewrite <- i32_u32, load32s_store32, i32_u32 by done.
  by apply i32_id.
Qed.

Definition with_entry (p b : Z) : heap :=
  let q := d + 8 * zlength l in store32 (q + 8) 0 (store32 (q + 4) b (store32 q p E)).

Lemma with_entry_table p b : zlength l < e → is_i32 p → p ≠ 0 → is_i32 b → jump_table (with_entry p b) d e (l ++ [(p, b)]).
Proof using Ht.
  intros Hl Hp Hp0 Hb. destruct Ht as [(H1 & H2 & H3 & H4) H5 H6 H7]. pose proof (zlength_nonneg l) as Hn.
  set (q := d + 8 * zlength l). assert (q mod 4 = 0 ∧ (q + 4) mod 4 = 0 ∧ (q + 8) mod 4 = 0) as (Q0 & Q4 & Q8).
  { destruct (table_word (zlength l)) as [? ?], (table_word (zlength l + 1)) as [H8 _]. split_and!; [done|done|].
    by replace (q + 8) with (d + 8 * (zlength l + 1)) by lia. }
  assert (∀ x, x mod 4 = 0 → x ≠ q → x ≠ q + 4 → x ≠ q + 8 → load32s (with_entry p b) x = load32s E x) as Hother.
  { intros x Hx N1 N2 N3. unfold with_entry. fold q. by rewrite !load32s_store32_other by done. }
  split; [done|rewrite zlength_app; change (zlength [(p, b)]) with 1; lia| |].
  - intros k i x Hk. apply lookup_app_Some in Hk as [Hk|[Hge Hk]].
    + pose proof (lookup_lt_Some _ _ _ Hk) as Hlt. destruct (table_word (Z.of_nat k)) as [W0 W4]. unfold zlength in q.
      rewrite !Hother by (done || lia). by apply H6.
    + assert (k = length l) as -> by (apply lookup_lt_Some in Hk; simpl in Hk; lia). rewrite Nat.sub_diag in Hk.
      injection Hk as <- <-. fold (zlength l). fold q. unfold with_entry. fold q.
      rewrite !load32s_store32_other by (done || lia). rewrite load32s_stored_i32 by done.
      rewrite (load32s_store32_other (q + 8) (q + 4)) by (done || lia). by rewrite load32s_stored_i32 by done.
  - rewrite zlength_app. change (zlength [(p, b)]) with 1. replace (d + 8 * (zlength l + 1)) with (q + 8) by lia.
    unfold with_entry. fold q. by apply load32s_stored_i32.
Qed.

Lemma xB_scan_spec p b n f : (f <= length l)%nat → Z.of_nat f + Z.of_nat n = e →
  xB_scan n (Z.of_nat f) e d b p E = if zlength l <? e then Some (with_entry p b) else None.
Proof using Ht.
  destruct Ht as [(H1 & H2 & H3 & H4) H5 H6 H7]. revert f. induction n as [|n IH]; intros f Hl He; cbn [xB_scan].
  - destruct (Z.ltb_spec (zlength l) e); [unfold zlength in *; lia|done].
  - destruct (Z.ltb_spec (Z.of_nat f) e); [|lia]. rewrite shl_3 by lia. destruct (l !! f) as [[i x]|] eqn:E0.
    + destruct (H6 f i x E0) as (-> & _ & Hi). destruct (Z.eqb_spec i 0); [done|].
      rewrite i32_id by (unfold is_i32; lia). replace (Z.of_nat f + 1) with (Z.of_nat (S f)) by lia.
      apply lookup_lt_Some in E0. apply IH; lia.
    + apply lookup_ge_None in E0. assert (f = length l) as -> by lia. fold (zlength l) in *. rewrite H7. cbn [Z.eqb].
      destruct (Z.ltb_spec (zlength l) e); [|lia]. unfold with_entry. by rewrite !Z.add_assoc.
Qed.
End Table.

(** ** Words and tables that move *)

Lemma load32s_moved E E' p q : p mod 4 = 0 → q mod 4 = 0 → (∀ k, 0 <= k < 4 → E' (q + k) = E (p + k)) → load32s E' q = load32s E p.
Proof.
  intros Hp Hq H. unfold load32s. rewrite !(Z.shiftl_mul_pow2 _ 2), !(Z.shiftr_div_pow2 _ 2) by lia. change (2 ^ 2) with 4.
  replace (p / 4 * 4) with p by (pose proof (Z.div_mod p 4); lia). replace (q / 4 * 4) with q by (pose proof (Z.div_mod q 4); lia).
  unfold load32. pose proof (H 0) as H0. rewrite !Z.add_0_r in H0. rewrite H0, (H 1), (H 2), (H 3) by lia. done.
Qed.

Lemma table_moved E E' d d' e e' l : jump_table E d e l → 0 <= d' ∧ d' mod 4 = 0 ∧ d' + 8 * (e' + 1) < 2 ^ 31 → e <= e' →
  (∀ x, 0 <= x < 8 * (e + 1) → E' (d' + x) = E (d + x)) → jump_table E' d' e' l.
Proof.
  intros [(H1 & H2 & H3 & H4) H5 H6 H7] (P1 & P2 & P3) He Hx.
  assert (∀ y, y mod 4 = 0 → 0 <= y → y + 4 <= 8 * (e + 1) → load32s E' (d' + y) = load32s E (d + y)) as Hl.
  { intros y Hy Hy0 Hy1. apply load32s_moved; [rewrite Z.add_mod, H2, Hy by lia; done|rewrite Z.add_mod, P2, Hy by lia; done|].
    intros k Hk. rewrite <- !Z.add_assoc. apply Hx. lia. }
  assert (∀ k, (8 * k) mod 4 = 0 ∧ (8 * k + 4) mod 4 = 0) as Hm.
  { intros k. split; [replace (8 * k) with (2 * k * 4) by lia; by rewrite Z.mod_mul by lia|].
    replace (8 * k + 4) with ((2 * k + 1) * 4) by lia. by rewrite Z.mod_mul by lia. }
  pose proof (zlength_nonneg l). split; [split_and!; lia|lia| |].
  - intros k i x Hk. destruct (Hm (Z.of_nat k)) as [M0 M4]. pose proof (lookup_lt_Some _ _ _ Hk) as Hlt. unfold zlength in H5.
    rewrite <- Z.add_assoc, !Hl by (done || lia). rewrite Z.add_assoc. by apply H6.
  - rewrite Hl; [done|apply Hm|lia|lia].
Qed.

Lemma store32_at p v E x : p mod 4 = 0 → x < p ∨ p + 4 <= x → store32 p v E x = E x.
Proof.
  intros Hp Hx. unfold store32. rewrite (Z.shiftl_mul_pow2 _ 2), (Z.shiftr_div_pow2 _ 2) by lia. change (2 ^ 2) with 4.
  replace (p / 4 * 4) with p by (pose proof (Z.div_mod p 4); lia). apply E_set_other. autorewrite with zlist. lia.
Qed.

(** ** Jumps *)

Lemma jump_label_fresh l p b a : (∀ i x, (i, x) ∈ l → i < p) → jump_label a (l ++ [(p, b)]) = if p =? a then b else jump_label a l.
Proof.
  induction l as [|[i x] l IH]; intros Hl; cbn [app jump_label]; [done|].
  assert (i < p) by (apply (Hl i x); apply elem_of_cons; by left).
  rewrite IH by (intros i' x' H'; apply (Hl i' x'); apply elem_of_cons; by right).
  destruct (Z.eqb_spec i a) as [->|]; [|done]. by destruct (Z.eqb_spec p a); [lia|].
Qed.

(** A jump arrives where its buffer is in the table, and goes on where it is not. *)
Lemma checked_jump E0 f d e l s a v s1 : jump_table (j_E s1) d e l → E0 = j_E s1 → a ≠ 0 → j_n s1 = 0 →
  f (mkJumps (j_E s) (j_p s) 0 (j_o s)) = pc a v s1 →
  let v' := if v =? 0 then 1 else v in
  let lab := jump_label (load32s E0 a) l in
  checked_call f d e s =
    if lab =? 0 then (inl ThrowLongjmp, mkJumps (j_E s1) (j_p s1) a v') else (inr (lab, v'), mkJumps (j_E s1) (j_p s1) 0 v').
Proof.
  intros Ht -> Ha Hn Hf v' lab. unfold checked_call, invoke. rewrite Hf. unfold pc, Sb. rewrite Hn. cbn [Z.eqb j_n].
  destruct (Z.eqb_spec a 0) as [|_]; [done|]. cbn [j_n j_o j_E j_p]. fold v'.
  destruct (Z.eqb_spec a 0) as [|_]; [done|]. assert (v' ≠ 0) as Hv by (unfold v'; destruct (Z.eqb_spec v 0); done).
  destruct (Z.eqb_spec v' 0) as [|_]; [done|]. cbn [negb andb]. rewrite (zB_spec _ d e l Ht). fold lab.
  destruct (Z.eqb_spec lab 0); [|done]. destruct (Z.eqb_spec v' 0); done.
Qed.
