(* ===== verification/VizShellProps.v ===== *)
(** * The shell around the object code: properties

    Passing strings to the object code and back, images, and environment
    variables. *)

From Stdlib Require Import ZArith Lia.
From stdpp Require Import base list strings.
From S2P Require Import Prelude VizRuntime VizFacts VizFile VizMemory VizTtyFacts VizCcall VizCcallFacts VizPng VizEnv.
From S2P Require Import VizInt64 VizInt64Facts VizJumpProps.

Open Scope Z_scope.

(** C7: [render] on the memory refines [render] on strings: with an object
    code that, in the memory of a fresh module and given C strings on its stack, produces
    the C strings of a function [spec] or throws as [spec] does,
    rendering well-formed texts that fit on the stack returns [spec]'s result,
    throws its error message when that is not empty, and passes an exception of
    the object code on.  So the conversions to
    UTF-8 and back, the placement on the stack and the order of the two calls
    lose nothing. *)
Theorem render_refines total M vr ve spec src format engine tm :
  Graphviz total M vr ve spec → wf16 src = true → wf16 format = true → wf16 engine = true →
  0 < m_top M → m_top M + room [src; format; engine] < Z.min total (2 ^ 31) →
  match spec src format engine with
  | GoRet strings =>
      render_mem total vr ve src format engine M =
        match render (fun _ _ _ _ => strings) src format engine tm with
        | GoRet s => GoRet (inr s)
        | GoErr e => GoRet (inl e)
        | GoPanic p => GoPanic p
        end
  | GoErr e => render_mem total vr ve src format engine M = GoErr e
  | GoPanic p => render_mem total vr ve src format engine M = GoPanic p
  end.
Proof.
  intros. rewrite (render_mem_spec total M vr ve spec) by done. unfold render.
  destruct (spec src format engine) as [[r err]|e|p]; cbn [go_bind]; [|done..]. by case_decide.
Qed.

(** An object code with a state in its memory: the word at 8 is the pointer to the
    message of the last error, whose text is at 16.  It returns the source for the
    engine [dot], reports an error for others, and aborts on an empty source. *)
Definition no_engine : jsstr := js "unknown engine".
Definition toy_module : mach := mkMach (E_set (cstr no_engine) 16 fresh_memory) 1024.

Definition toy_render : cfun := fun ps M =>
  match ps with
  | [p1; _; p3] =>
      let! src := y 65536 (m_E M) p1 in
      let! engine := y 65536 (m_E M) p3 in
      if nonempty src then
        if decide (engine = js "dot") then GoRet (p1, mkMach (store32 8 0 (m_E M)) (m_top M))
        else GoRet (0, mkMach (store32 8 16 (m_E M)) (m_top M + 64))
      else GoPanic PAssert
  | _ => GoPanic PAssert
  end.
Definition toy_error : cfun := fun _ M => GoRet (load32s (m_E M) 8, M).
Definition toy_spec (src format engine : jsstr) : go Z (jsstr * jsstr) :=
  if nonempty src then GoRet (if decide (engine = js "dot") then (src, []) else ([], no_engine)) else GoPanic PAssert.

#[export] Instance toy_graphviz : Graphviz 65536 toy_module toy_render toy_error toy_spec.
Proof.
  constructor. intros M p1 p2 p3 src format engine [Ht Hout] Htot Hps H1 _ H3. unfold toy_spec, toy_render. rewrite H1, H3. cbn [go_bind].
  inversion_clear Hps as [|?? Hp1 _]. change (m_top toy_module) with 1024 in *.
  destruct (nonempty src); [|done]. case_decide.
  - eexists _, _. split; [done|]. split; [rewrite <- H1; apply y_ext; intros x Hx; apply store32_at; [done|]; lia|].
    eexists _, _. split; [done|]. cbn [m_E]. rewrite load32s_stored_i32 by (done || unfold is_i32; lia). done.
  - eexists _, _. split; [done|]. split; [done|]. eexists _, _. split; [done|].
    cbn [m_E]. rewrite load32s_stored_i32 by (done || unfold is_i32; lia).
    apply y_cstr; [done| |lia|vm_compute; discriminate]. intros j x Hj. pose proof (zlookup_Some_lt _ _ _ Hj) as Hlt.
    change (zlength (cstr no_engine)) with 15 in Hlt.
    rewrite store32_at by (done || lia). rewrite Hout by lia. cbn [m_E toy_module]. unfold E_set. replace (16 + j - 16) with j by lia.
    by rewrite Hj.
Qed.

(** A graph that is drawn, an engine that is not known and an empty source. *)
Lemma render_refines_witness :
  render_mem 65536 toy_render toy_error (js "digraph { " ++ [8364]) (js "svg") (js "dot") toy_module =
    GoRet (inr (js "digraph { " ++ [8364])) ∧
  render_mem 65536 toy_render toy_error (js "graph") (js "svg") (js "neato") toy_module = GoRet (inl no_engine) ∧
  render_mem 65536 toy_render toy_error [] (js "svg") (js "dot") toy_module = GoPanic PAssert.
Proof.
  split; [|split].
  - exact (render_refines 65536 toy_module toy_render toy_error toy_spec (js "digraph { " ++ [8364]) (js "svg") (js "dot")
      None toy_graphviz eq_refl eq_refl eq_refl eq_refl eq_refl).
  - exact (render_refines 65536 toy_module toy_render toy_error toy_spec (js "graph") (js "svg") (js "neato")
      None toy_graphviz eq_refl eq_refl eq_refl eq_refl eq_refl).
  - exact (render_refines 65536 toy_module toy_render toy_error toy_spec [] (js "svg") (js "dot")
      None toy_graphviz eq_refl eq_refl eq_refl eq_refl eq_refl).
Defined.

(** [ccall] with string arguments: the called function gets pointers at which
    it reads exactly the strings, everything below the old and above the new stack
    top is as before the call, and when the function returns, its value is passed on and the stack top
    is the one from before the call, whatever the function left it at. *)
Theorem ccall_hands_over total f ss M :
  Forall (fun s => wf16 s = true) ss → ss ≠ [] → 0 < m_top M → m_top M + room ss < Z.min total (2 ^ 31) →
  ∃ ps M1,
    Forall2 (fun p s => m_top M <= p < m_top M1 ∧ y total (m_E M1) p = GoRet s) ps ss ∧
    (∀ a, a < m_top M ∨ m_top M1 <= a → m_E M1 a = m_E M a) ∧ m_top M <= m_top M1 <= m_top M + room ss ∧
    ccall f ((fun s => CString (Some s)) <$> ss) M =
      (let! (d, M2) := f ps M1 in GoRet (d, mkMach (m_E M2) (m_top M))).
Proof. apply ccall_strings. Qed.

Lemma ccall_hands_over_witness :
  ∃ ps M1, Forall2 (fun p s => 64 <= p < m_top M1 ∧ y 65536 (m_E M1) p = GoRet s) ps [js "dot"; [233]] ∧
    ccall toy_error [CString (Some (js "dot")); CString (Some [233])] (mkMach fresh_memory 64) =
      (let! (d, M2) := toy_error ps M1 in GoRet (d, mkMach (m_E M2) 64)).
Proof.
  destruct (ccall_hands_over 65536 toy_error [js "dot"; [233]] (mkMach fresh_memory 64)
    ltac:(repeat constructor) ltac:(discriminate) eq_refl eq_refl) as (ps & M1 & H1 & _ & _ & H2).
  exists ps, M1. exact (conj H1 H2).
Defined.

(** Any JavaScript string, well formed or not, takes at most the [4*length+1]
    bytes that [stringToC] reserves for it, terminating zero included: storing an
    argument never reaches past its allocation. *)
Theorem string_fits s : Forall unit16 s → 1 <= zlength (Xa s false) <= 4 * zlength s + 1.
Proof.
  intros Hs. rewrite Xa_bytes, zlength_fmap, zlength_app. pose proof (utf8_room (length s) s Hs).
  pose proof (zlength_nonneg (utf8_bytes (chars (length s) s))). change (zlength [0]) with 1. lia.
Qed.

Lemma string_fits_witness : 1 <= zlength (Xa [55348; 65; 56320] false) <= 13.
Proof. exact (string_fits [55348; 65; 56320] ltac:(repeat constructor; unfold unit16; lia)). Defined.

(** ** Images *)

(** The call of the callback an event of the browser image leads to. *)
Definition reported {num exn} (times : num → num → num) (toDataURL : jsstr → num → num → jsstr) (src : jsstr) (scale : num)
    (ev : @event num exn) : @cbarg num exn :=
  match ev with
  | Loaded w h => CbImage (mkImage (toDataURL src (times w scale) (times h scale)) (Some w) (Some h))
  | Failed e => CbError e
  end.

(** Without Fabric and with a callback, converting SVG that [btoa] accepts
    calls nothing and returns [undefined]; then every event of the browser
    image leads to exactly one call of the callback, in order: an error event
    to the error, a load event to the image with the size of the SVG image and
    the PNG of a canvas scaled by the given scale, or by the device's pixel ratio
    when that is above 1, or by 1.  This holds whatever the callback throws. *)
Theorem png_reports_events {num exn obj : Type} one above_one times Error dpr toDataURL fabricDataURL btoa f svg b scale :
  btoa svg = inr b →
  let r := @svgXmlToPngImageElement num exn obj one above_one Error dpr fabricDataURL btoa None (Some f) svg scale in
  r.1 = inr None ∧ calls r.2 = [] ∧
  ∀ evs, calls (fire_all times toDataURL (Some f) evs r.2) =
    reported times toDataURL (js "data:image/svg+xml;base64," ++ b) (default_scale one above_one dpr scale) <$> evs.
Proof.
  intros Hb r. unfold r, svgXmlToPngImageElement. rewrite Hb. cbn [fst snd calls]. split; [done|]. split; [done|].
  intros evs. unfold fire_all. set (st := mkPng _ _ _).
  assert (∀ st, loading st = Some (js "data:image/svg+xml;base64," ++ b, default_scale one above_one dpr scale) →
    calls (foldl (fun st ev => (fire times toDataURL (Some f) ev st).2) st evs) = calls st ++
      (reported times toDataURL (js "data:image/svg+xml;base64," ++ b) (default_scale one above_one dpr scale) <$> evs)) as H;
    [|by rewrite H].
  clear. induction evs as [|ev evs IH]; intros st Hl; [by rewrite app_nil_r|]. cbn [foldl]. rewrite fmap_cons.
  assert (calls (fire times toDataURL (Some f) ev st).2 =
    calls st ++ [reported times toDataURL (js "data:image/svg+xml;base64," ++ b) (default_scale one above_one dpr scale) ev] ∧
    loading (fire times toDataURL (Some f) ev st).2 = loading st) as [Hc Hl'].
  { destruct ev as [w h|e]; cbn [fire reported]; [unfold onload|unfold onerror]; rewrite Hl; split; done. }
  rewrite IH by (by rewrite Hl'). by rewrite Hc, <- app_assoc.
Qed.

Lemma png_reports_events_witness :
  calls (fire_all Z.mul (fun src w h => js "data:image/png;base64,AA") (Some (fun _ => Some tt)) [Failed tt; Loaded 30 20]
    (@svgXmlToPngImageElement Z unit unit 1 (Z.ltb 1) (fun _ => tt) (Some 2) (fun _ _ _ _ => []) inr None
       (Some (fun _ => Some tt)) (js "<svg/>") None).2) =
  [CbError tt; CbImage (mkImage (js "data:image/png;base64,AA") (Some 30) (Some 20))].
Proof.
  exact (proj2 (proj2 (png_reports_events (obj := unit) 1 (Z.ltb 1) Z.mul (fun _ => tt) (Some 2)
    (fun src w h => js "data:image/png;base64,AA") (fun _ _ _ _ => []) inr (fun _ => Some tt) (js "<svg/>") (js "<svg/>") None
    eq_refl)) [Failed tt; Loaded 30 20]).
Defined.

(** ** Environment variables *)

(** The first layout of the environment: when the strings with their zeros
    fit in the 1024 bytes and there are fewer than 64 of them, the memory holds
    at [qc] the address of a table whose entries point, in order, to the
    zero-terminated strings ["NAME=value"], ended by a null pointer, and nothing
    outside the two new areas and [qc] is touched. *)
Theorem environment_laid_out qc thisProgram st :
  e_C st = false → 0 < e_la st → e_la st mod 16 = 0 → e_la st + 1296 < 2 ^ 31 → qc mod 4 = 0 → 0 <= qc → qc + 4 <= e_la st →
  let ds := env_strings (env_defaults thisProgram (e_Y st)) in
  block_size ds <= 1024 → zlength ds < 64 →
  ∃ st', rc qc thisProgram st = (None, st') ∧ e_Y st' = env_defaults thisProgram (e_Y st) ∧
    load32 (e_E st') qc = e_la st + 1024 ∧ env_table (e_E st') ds (e_la st) (e_la st + 1024) ∧
    (∀ a, a < qc ∨ qc + 4 <= a < e_la st ∨ e_la st + 1280 <= a → e_E st' a = e_E st a).
Proof.
  intros. destruct (rc_first qc thisProgram st) as (st' & G1 & G2 & _ & G3); try done.
  exists st'. exact (conj G1 (conj G2 G3)).
Qed.

Lemma environment_laid_out_witness :
  ∃ st', rc 128 (js "viz") (mkEnvState [] false fresh_memory 4096) = (None, st') ∧ load32 (e_E st') 128 = 5120.
Proof.
  destruct (environment_laid_out 128 (js "viz") (mkEnvState [] false fresh_memory 4096) eq_refl eq_refl eq_refl eq_refl eq_refl
    ltac:(discriminate) ltac:(discriminate) ltac:(discriminate) eq_refl) as (st' & H1 & _ & H2 & _).
  exists st'. exact (conj H1 H2).
Defined.

(** Setting a variable to a value, with a name that is not empty and has no
    [=], makes [getenv] give the UTF-8 bytes of that value and changes no other
    variable, also when laying the environment out throws; without the flag to
    replace, a variable that is set keeps its value. *)
Theorem setenv_getenv qc thisProgram name value replace st :
  nonempty name = true → 61 ∉ name → e_C st = true →
  ∀ k, getenv k (setenv qc thisProgram name value replace st).2 =
    if decide (name = k ∧ (replace = true ∨ env_get name (e_Y st) = None)) then Some (Xa value false) else getenv k st.
Proof.
  intros Hn Heq HC k. unfold setenv. rewrite Hn, bool_decide_false by done. cbn [negb orb].
  set (st1 := mkEnvState (env_set name value (e_Y st)) (e_C st) (e_E st) (e_la st)).
  pose proof (rc_Y qc thisProgram st1 HC) as HY.
  assert (∀ k, getenv k (rc qc thisProgram st1).2 = if decide (name = k) then Some (Xa value false) else getenv k st) as Hset.
  { intros j. unfold getenv. rewrite HY. simpl. rewrite env_get_set. by case_decide. }
  destruct (rc qc thisProgram st1) as [r st2]. simpl in Hset.
  destruct (env_get name (e_Y st)) as [v|] eqn:Ev; [destruct replace|].
  - simpl. rewrite Hset. repeat case_decide; naive_solver.
  - simpl. case_decide; naive_solver.
  - simpl. rewrite Hset. repeat case_decide; naive_solver.
Qed.

Lemma setenv_getenv_witness :
  getenv (js "LANG") (setenv 128 (js "viz") (js "LANG") (js "de") true (mkEnvState [(js "LANG", js "C")] true fresh_memory 4096)).2 =
    Some (Xa (js "de") false).
Proof.
  exact (setenv_getenv 128 (js "viz") (js "LANG") (js "de") true (mkEnvState [(js "LANG", js "C")] true fresh_memory 4096)
    eq_refl ltac:(apply (bool_decide_unpack _); vm_compute; exact I) eq_refl (js "LANG")).
Defined.

(** ** Where the shell does not do what it means to *)

(** A callback that throws on the image, with a Fabric that calls back at once:
    the exception is taken for one of Fabric and the callback is called again. *)
Lemma callback_called_twice {num exn obj : Type} one above_one Error dpr fabricDataURL btoa (e : exn) svg scale (o : obj) (w h : num) :
  let f (a : @cbarg num exn) := match a with CbImage _ => Some e | CbError _ => None end in
  let load (_ : jsstr) (k : list obj → num → num → effect) := k [o] w h in
  calls (svgXmlToPngImageElement one above_one Error dpr fabricDataURL btoa (Some load) (Some f) svg scale).2 =
    [CbImage (mkImage (fabricDataURL [o] w h (default_scale one above_one dpr scale)) (Some w) (Some h)); CbError e].
Proof. done. Qed.

(** SVG with a character above 255: [btoa] throws, and the exception goes to the
    caller although there is a callback for errors. *)
Lemma unencodable_svg_throws {num exn obj : Type} one above_one Error dpr fabricDataURL btoa (f : @cbarg num exn → option exn) svg scale (e : exn) :
  btoa svg = inl e →
  svgXmlToPngImageElement (obj := obj) one above_one Error dpr fabricDataURL btoa None (Some f) svg scale =
    (inl e, png0).
Proof. intros He. unfold svgXmlToPngImageElement. by rewrite He. Qed.

(** The size check of the environment leaves the zeros out: strings of 1024
    characters are accepted and their zeros overwrite the table, which follows. *)
Definition full_env : env_state :=
  mkEnvState [(js "A", replicate (Z.to_nat (1024 - env_size (env_strings (env_defaults (js "viz") [])) - 2)) 97)] false fresh_memory 4096.

Lemma environment_overwrites_table :
  match rc 128 (js "viz") full_env with
  | (None, st) => load32 (e_E st) 5120 <> 4096
  | (Some _, _) => False
  end.
Proof. vm_compute. discriminate. Qed.
