(* ===== verification/VizText.v ===== *)
(** * The text of labels

    Graphviz turns the text of a label into UTF-8 before it measures and draws
    it: [ft] for a graph whose text is UTF-8, [gt] for Latin-1.  Both replace
    character entities ([Dt], here [entity_scan]); [ft] passes well-formed
    UTF-8 on and converts the bytes of malformed sequences as Latin-1 ([Ct]).

    The functions append bytes to a growing buffer, which is a list here; the
    warnings they print are left out. *)

From Stdlib Require Import ZArith Lia.
From stdpp Require Import base list.
From S2P Require Import Prelude VizRuntime VizFacts VizFile VizMemory VizEnv.
From S2P Require Import VizInt64 VizInt64Facts VizLibc VizLookup VizLookupFacts.

Open Scope Z_scope.

(** The bytes both functions append for a character. *)
Definition text_char (f : Z) : list Z :=
  if u32 f <? 127 then [u8 f]
  else if u32 f <? 2047 then [u8 (jor (shru f 6) 192); u8 (jor (jand f 63) 128)]
  else [u8 (jor (shru f 12) 224); u8 (jor (jand (shru f 6) 63) 128); u8 (jor (jand f 63) 128)].

Section Text.
(** The entities by name. *)
Context (tab : list (list Z * Z)).

(** [if(b<<24>>24==38){b=Dt(h)|0;if(!b)...}]: what an ampersand stands for, and
    the text after it. *)
Definition ampersand (s : list Z) : list Z * list Z :=
  let '(v, n) := entity_scan tab s in
  (if v =? 0 then [38] else text_char v, drop (Z.to_nat n) s).

(** [gt]: Latin-1. *)
Fixpoint gt_loop (fuel : nat) (s : list Z) : list Z :=
  match fuel, s with
  | S fuel', b :: s' =>
      if b =? 38 then let '(out, s') := ampersand s' in out ++ gt_loop fuel' s'
      else text_char b ++ gt_loop fuel' s'
  | _, _ => []
  end.
Definition gt (s : list Z) : list Z := gt_loop (length s) s.

(** [Ct]: one byte, as Latin-1. *)
Definition Ct (b : Z) : list Z := gt [b].

(** [(a[e>>0]&-64)<<24>>24==-128]: a continuation byte comes next. *)
Definition continues (s : list Z) : bool :=
  match s with y :: _ => sext8 (jand (sx y) (-64)) =? -128 | [] => false end.

(** The loop over the [h] bytes that should follow [b]. *)
Fixpoint ft_sequence (h : nat) (b : Z) (s : list Z) : list Z * list Z :=
  match h with
  | O => ([b], s)
  | S h' =>
      if continues s
      then match s with
           | y :: s' => let '(out, s') := ft_sequence h' y s' in (b :: out, s')
           | [] => ([], [])
           end
      else (Ct b, s)
  end.

(** [ft]: UTF-8. *)
Fixpoint ft_loop (fuel : nat) (s : list Z) : list Z :=
  match fuel, s with
  | S fuel', b :: s' =>
      let '(out, s') :=
        if b <? 192 then if b =? 38 then ampersand s' else ([b], s')
        else if 224 <=? b then
          if 240 <=? b then
            if b <? 248 then ft_sequence 3 b s' else (Ct b, s')
          else ft_sequence 2 b s'
        else ft_sequence 1 b s' in
      out ++ ft_loop fuel' s'
  | _, _ => []
  end.
Definition ft (s : list Z) : list Z := ft_loop (length s) s.
End Text.
