(* ===== verification/VizTextFacts.v ===== *)
(** * Facts about the text of labels

    A label is a sequence of pieces: characters, named entities and numbers.
    [ft] and [gt] turn the text of each piece into the bytes of its meaning, which
    are those of UTF-8 for most characters. *)

From Stdlib Require Import ZArith Lia.
From stdpp Require Import base list strings.
From S2P Require Import Prelude VizRuntime VizFacts VizFile VizMemory VizEnv.
From S2P Require Import VizColors VizEntities VizInt64 VizInt64Facts VizDivision VizLibc VizLibcFacts VizLookup VizLookupFacts VizText.

Open Scope Z_scope.

(** ** The bytes of a character *)

(** The numbers the object code encodes as UTF-8 does. *)
Definition text_value (v : Z) : bool := (0 <? v) && (v <? 65536) && negb (v =? 127) && negb (v =? 2047).

Lemma shru_shiftr v k : 0 <= v < 2 ^ 31 → 0 <= k < 32 → shru v k = Z.shiftr v k.
Proof. intros Hv Hk. unfold shru. by rewrite shift_count, u32_id by (done || unfold is_u32; lia). Qed.

Lemma jand_63 v : 0 <= v < 2 ^ 31 → jand v 63 = v mod 64.
Proof. intros Hv. unfold jand. rewrite i32_id by (unfold is_i32; lia). change (i32 63) with 63. apply low6. Qed.

(** A byte after the first one. *)
Lemma text_low v k : 0 <= v < 2 ^ 31 → 0 <= k < 32 →
  u8 (jor (jand (Z.shiftr v k) 63) 128) = Z.lor 128 (Z.land (Z.shiftr v k) 63).
Proof.
  intros Hv Hk. rewrite shiftr_div by lia.
  assert (0 <= v / 2 ^ k < 2 ^ 31).
  { split; [apply Z.div_pos; lia|]. apply Z.le_lt_trans with v; [apply Z.div_le_upper_bound; [lia|]; nia|lia]. }
  rewrite jand_63, low6 by lia. below 64%nat (fun x => u8 (jor x 128) =? Z.lor 128 x).
  apply Z.eqb_eq, H0, Z.mod_pos_bound. lia.
Qed.

(** Below 65536, apart from 127 and 2047, a character's bytes are those of UTF-8. *)
Lemma text_char_bytes v : text_value v = true → text_char v = char_bytes v.
Proof.
  unfold text_value. rewrite !andb_true_iff, !negb_true_iff, !Z.ltb_lt, !Z.eqb_neq. intros [[[H1 H2] H3] H4].
  unfold text_char, char_bytes. rewrite u32_id by (unfold is_u32; lia). rewrite !shru_shiftr by lia.
  pose proof (text_low v 0) as L0. rewrite !Z.shiftr_0_r in *.
  destruct (Z.leb_spec v 127).
  { destruct (Z.ltb_spec v 127); [|lia]. unfold u8. by rewrite Z.mod_small by lia. }
  destruct (Z.ltb_spec v 127); [lia|]. destruct (Z.leb_spec v 2047).
  - destruct (Z.ltb_spec v 2047); [|lia]. rewrite L0, shiftr_div by lia. f_equal.
    below 32%nat (fun x => u8 (jor x 192) =? Z.lor 192 x). apply Z.eqb_eq, H7.
    split; [apply Z.div_pos|apply Z.div_lt_upper_bound]; lia.
  - destruct (Z.ltb_spec v 2047); [lia|]. destruct (Z.leb_spec v 65535); [|lia].
    rewrite (text_low v 6), L0, (shiftr_div v 12) by lia. f_equal.
    below 16%nat (fun x => u8 (jor x 224) =? Z.lor 224 x). apply Z.eqb_eq, H8.
    split; [apply Z.div_pos|apply Z.div_lt_upper_bound]; lia.
Qed.

(** And only there. *)
Lemma text_char_iff v : 0 < v < 1114112 → text_char v = char_bytes v ↔ v < 65536 ∧ v ≠ 127 ∧ v ≠ 2047.
Proof.
  intros Hv. split; [|intros (? & ? & ?); apply text_char_bytes; unfold text_value; lia].
  intros E. split_and!; [|intros ->; discriminate E|intros ->; discriminate E].
  destruct (Z.lt_ge_cases v 65536); [done|]. exfalso. unfold text_char, char_bytes in E. rewrite u32_id in E by (unfold is_u32; lia).
  destruct (Z.ltb_spec v 127); [lia|]. destruct (Z.ltb_spec v 2047); [lia|].
  destruct (Z.leb_spec v 127); [lia|]. destruct (Z.leb_spec v 2047); [lia|]. destruct (Z.leb_spec v 65535); [lia|].
  destruct (Z.leb_spec v 2097151); [discriminate E|lia].
Qed.

(** ** UTF-8 passes *)

Lemma continues_cons y s t : continues (y :: s) = continues (y :: t).
Proof. cbn [continues]. generalize (sext8 (jand (sx y) (-64)) =? -128). reflexivity. Qed.

Lemma continues_low x rest : continues (Z.lor 128 (Z.land x 63) :: rest) = true.
Proof.
  rewrite low6. below 64%nat (fun x => continues [Z.lor 128 x]).
  rewrite (continues_cons _ rest []). apply H, Z.mod_pos_bound. lia.
Qed.

Section Text.
Context (tab : list (list Z * Z)).

(** One turn of the loop of [ft]. *)
Definition ft_step (b : Z) (s : list Z) : list Z * list Z :=
  if b <? 192 then if b =? 38 then ampersand tab s else ([b], s)
  else if 224 <=? b then
    if 240 <=? b then if b <? 248 then ft_sequence tab 3 b s else (Ct tab b, s)
    else ft_sequence tab 2 b s
  else ft_sequence tab 1 b s.

Lemma ft_loop_S fuel b s :
  ft_loop tab (S fuel) (b :: s) = (ft_step b s).1 ++ ft_loop tab fuel (ft_step b s).2.
Proof. cbn [ft_loop]. fold (ft_step b s). by destruct (ft_step b s). Qed.

Lemma ft_sequence_low n b x rest :
  ft_sequence tab (S n) b (Z.lor 128 (Z.land x 63) :: rest) =
  (b :: (ft_sequence tab n (Z.lor 128 (Z.land x 63)) rest).1, (ft_sequence tab n (Z.lor 128 (Z.land x 63)) rest).2).
Proof. cbn [ft_sequence]. rewrite continues_low. by destruct (ft_sequence tab n _ rest). Qed.

Lemma lead_two x : 0 <= x < 32 → 192 <= Z.lor 192 x < 224.
Proof. intros Hx. below 32%nat (fun x => (192 <=? Z.lor 192 x) && (Z.lor 192 x <? 224)). specialize (H x Hx). lia. Qed.
Lemma lead_three x : 0 <= x < 16 → 224 <= Z.lor 224 x < 240.
Proof. intros Hx. below 16%nat (fun x => (224 <=? Z.lor 224 x) && (Z.lor 224 x <? 240)). specialize (H x Hx). lia. Qed.
Lemma lead_four x : 0 <= x < 8 → 240 <= Z.lor 240 x < 248.
Proof. intros Hx. below 8%nat (fun x => (240 <=? Z.lor 240 x) && (Z.lor 240 x <? 248)). specialize (H x Hx). lia. Qed.

Lemma shiftr_range h k n : 0 <= k → 0 <= n → 0 <= h < 2 ^ (k + n) → 0 <= Z.shiftr h k < 2 ^ n.
Proof.
  intros Hk Hn Hh. rewrite Z.pow_add_r in Hh by done. rewrite shiftr_div by done.
  split; [apply Z.div_pos|apply Z.div_lt_upper_bound]; lia.
Qed.

Lemma ft_char fuel h rest : 0 < h < 1114112 → h ≠ 38 →
  ft_loop tab (S fuel) (char_bytes h ++ rest) = char_bytes h ++ ft_loop tab fuel rest.
Proof.
  intros Hh H38. unfold char_bytes.
  destruct (Z.leb_spec h 127); [|destruct (Z.leb_spec h 2047); [|destruct (Z.leb_spec h 65535);
    [|destruct (Z.leb_spec h 2097151); [|lia]]]]; cbn [app]; rewrite ft_loop_S; unfold ft_step.
  - destruct (Z.ltb_spec h 192); [|lia]. destruct (Z.eqb_spec h 38); [done|]. done.
  - pose proof (lead_two _ (shiftr_range h 6 5 ltac:(lia) ltac:(lia) ltac:(simpl; lia))) as Hl.
    destruct (Z.ltb_spec (Z.lor 192 (Z.shiftr h 6)) 192); [lia|].
    destruct (Z.leb_spec 224 (Z.lor 192 (Z.shiftr h 6))); [lia|]. by rewrite !ft_sequence_low.
  - pose proof (lead_three _ (shiftr_range h 12 4 ltac:(lia) ltac:(lia) ltac:(simpl; lia))) as Hl.
    destruct (Z.ltb_spec (Z.lor 224 (Z.shiftr h 12)) 192); [lia|].
    destruct (Z.leb_spec 224 (Z.lor 224 (Z.shiftr h 12))); [|lia].
    destruct (Z.leb_spec 240 (Z.lor 224 (Z.shiftr h 12))); [lia|]. by rewrite !ft_sequence_low.
  - pose proof (lead_four _ (shiftr_range h 18 3 ltac:(lia) ltac:(lia) ltac:(simpl; lia))) as Hl.
    destruct (Z.ltb_spec (Z.lor 240 (Z.shiftr h 18)) 192); [lia|].
    destruct (Z.leb_spec 224 (Z.lor 240 (Z.shiftr h 18))); [|lia].
    destruct (Z.leb_spec 240 (Z.lor 240 (Z.shiftr h 18))); [|lia].
    destruct (Z.ltb_spec (Z.lor 240 (Z.shiftr h 18)) 248); [|lia]. by rewrite !ft_sequence_low.
Qed.

(** ** Entities *)

Definition dec_number (ds : list Z) (e : Z) : Z := foldl (fun e x => 10 * e + (x - 48)) e ds.
Definition hex_number (ds : list Z) (e : Z) : Z := foldl (fun e x => 16 * e + default 0 (hex_value x)) e ds.

Lemma ch_app pre x rest : ch (pre ++ x :: rest) (zlength pre) = x.
Proof.
  unfold ch, zlookup, zlength. rewrite (proj2 (Z.leb_le _ _)) by lia. rewrite Nat2Z.id.
  by rewrite lookup_app_r, Nat.sub_diag by lia.
Qed.

Lemma snoc_shift {A} (pre : list A) x rest : pre ++ x :: rest = (pre ++ [x]) ++ rest.
Proof. by rewrite <- app_assoc. Qed.

Lemma zlength_snoc {A} (pre : list A) x : zlength (pre ++ [x]) = zlength pre + 1.
Proof. by rewrite zlength_app. Qed.

Lemma scan_dec_digits n ds pre rest e : (length ds <= n)%nat → forallb is_digit ds = true →
  scan_dec n (pre ++ ds ++ 59 :: rest) (zlength pre) e = (dec_number ds e, zlength pre + zlength ds, 59).
Proof.
  revert ds pre e. induction n as [|n IH]; intros [|x ds] pre e Hn Hd; simpl in Hn; try lia; cbn [scan_dec app].
  - by rewrite ch_app, Z.add_0_r.
  - rewrite ch_app. by rewrite Z.add_0_r.
  - cbn [forallb] in Hd. apply andb_prop in Hd as [Hx Hd].
    change (pre ++ (x :: ds) ++ 59 :: rest) with (pre ++ x :: (ds ++ 59 :: rest)).
    rewrite ch_app, Hx, (snoc_shift pre x), <- (zlength_snoc pre x), IH by (done || lia).
    f_equal. f_equal. autorewrite with zlist. lia.
Qed.

Lemma scan_hex_digits n ds pre rest e : (length ds <= n)%nat → forallb (fun x => is_some (hex_value x)) ds = true →
  scan_hex n (pre ++ ds ++ 59 :: rest) (zlength pre) e = (hex_number ds e, zlength pre + zlength ds, 59).
Proof.
  revert ds pre e. induction n as [|n IH]; intros [|x ds] pre e Hn Hd; simpl in Hn; try lia; cbn [scan_hex app].
  - by rewrite ch_app, Z.add_0_r.
  - rewrite ch_app. by rewrite Z.add_0_r.
  - cbn [forallb] in Hd. apply andb_prop in Hd as [Hx Hd].
    change (pre ++ (x :: ds) ++ 59 :: rest) with (pre ++ x :: (ds ++ 59 :: rest)).
    rewrite ch_app. unfold hex_number at 1. cbn [foldl]. destruct (hex_value x) as [v|] eqn:Ev; [|done].
    rewrite (snoc_shift pre x), <- (zlength_snoc pre x), IH by (done || lia).
    f_equal. f_equal. autorewrite with zlist. lia.
Qed.

Lemma name_prefix_name n nm rest : (length nm < n)%nat → forallb (fun x => negb (x =? 59)) nm = true →
  name_prefix n (nm ++ 59 :: rest) = Some nm.
Proof.
  revert nm. induction n as [|n IH]; intros [|x nm] Hn Hx; simpl in Hn; try lia; cbn [name_prefix app forallb] in *; [done|].
  apply andb_prop in Hx as [Hx H]. destruct (x =? 59); [done|]. by rewrite IH by (done || lia).
Qed.

Lemma entity_named nm v rest : assoc nm tab = Some v → (length nm < 8)%nat →
  forallb (fun x => negb (x =? 59)) nm = true → ch nm 0 ≠ 35 →
  entity_scan tab (nm ++ 59 :: rest) = (v, zlength nm + 1).
Proof.
  intros Ha Hl Hs H35. unfold entity_scan.
  assert (ch (nm ++ 59 :: rest) 0 ≠ 35) as H by (destruct nm; [done|exact H35]).
  apply Z.eqb_neq in H as ->. by rewrite name_prefix_name, Ha by done.
Qed.

Lemma entity_decimal ds rest : (length ds <= 6)%nat → forallb is_digit ds = true →
  entity_scan tab (35 :: ds ++ 59 :: rest) = (dec_number ds 0, zlength ds + 2).
Proof.
  intros Hl Hd. unfold entity_scan, scan_number.
  change (ch (35 :: ds ++ 59 :: rest) 0 =? 35) with true.
  assert ((ch (35 :: ds ++ 59 :: rest) 1 =? 88) || (ch (35 :: ds ++ 59 :: rest) 1 =? 120) = false) as ->.
  { destruct ds as [|x ds]; [done|]. cbn [forallb] in Hd. apply andb_prop in Hd as [Hx _].
    change (ch (35 :: (x :: ds) ++ 59 :: rest) 1) with x. unfold is_digit in Hx. lia. }
  pose proof (scan_dec_digits 7 ds [35] rest 0 ltac:(lia) Hd) as H. cbn [app] in H. change (zlength [35]) with 1 in H.
  rewrite H. assert (1 + zlength ds < 8) as Hg by (unfold zlength; lia). apply Z.ltb_lt in Hg. rewrite Hg.
  cbn. f_equal. lia.
Qed.

Lemma entity_hexadecimal x ds rest : x = 88 ∨ x = 120 → (length ds <= 5)%nat →
  forallb (fun x => is_some (hex_value x)) ds = true →
  entity_scan tab (35 :: x :: ds ++ 59 :: rest) = (hex_number ds 0, zlength ds + 3).
Proof.
  intros Hx Hl Hd. unfold entity_scan, scan_number.
  change (ch (35 :: x :: ds ++ 59 :: rest) 0 =? 35) with true.
  change (ch (35 :: x :: ds ++ 59 :: rest) 1) with x.
  assert ((x =? 88) || (x =? 120) = true) as -> by lia.
  pose proof (scan_hex_digits 6 ds [35; x] rest 0 ltac:(lia) Hd) as H. cbn [app] in H. change (zlength [35; x]) with 2 in H.
  rewrite H. assert (2 + zlength ds < 8) as Hg by (unfold zlength; lia). apply Z.ltb_lt in Hg. rewrite Hg.
  cbn. f_equal. lia.
Qed.

(** ** Labels by pieces *)

Inductive piece : Type :=
  | Char (h : Z)
  | Named (nm : list Z)
  | Decimal (ds : list Z)
  | Hexadecimal (x : Z) (ds : list Z).

(** The character a piece stands for. *)
Definition meaning (p : piece) : Z :=
  match p with
  | Char h => h
  | Named nm => default 0 (assoc nm tab)
  | Decimal ds => dec_number ds 0
  | Hexadecimal _ ds => hex_number ds 0
  end.

(** The text after the ampersand of an entity. *)
Definition entity_text (p : piece) : list Z :=
  match p with
  | Char _ => []
  | Named nm => nm ++ [59]
  | Decimal ds => 35 :: ds ++ [59]
  | Hexadecimal x ds => 35 :: x :: ds ++ [59]
  end.

(** An entity the object code recognises, by the way it is written: a name of the
    table of less than eight letters, up to six decimal or five hexadecimal digits. *)
Definition recognised (p : piece) : bool :=
  match p with
  | Char _ => false
  | Named nm => is_some (assoc nm tab) && Nat.ltb (length nm) 8 && forallb (fun x => negb (x =? 59)) nm && negb (ch nm 0 =? 35)
  | Decimal ds => Nat.leb (length ds) 6 && forallb is_digit ds
  | Hexadecimal x ds => ((x =? 88) || (x =? 120)) && Nat.leb (length ds) 5 && forallb (fun x => is_some (hex_value x)) ds
  end.

(** The bytes of a piece, with [f] for a character; an entity for 0 is an ampersand. *)
Definition drawn (f : Z → list Z) (p : piece) : list Z :=
  match p with Char h => f h | _ => if meaning p =? 0 then [38] else text_char (meaning p) end.

(** The text of a piece, with [f] for a character, and the pieces [ft] and
    [gt] are used for. *)
Definition piece_text (f : Z → list Z) (p : piece) : list Z :=
  match p with Char h => f h | _ => 38 :: entity_text p end.
Definition utf8_piece (p : piece) : bool :=
  match p with Char h => (0 <? h) && (h <? 1114112) && negb (h =? 38) | _ => recognised p end.
Definition latin1_piece (p : piece) : bool :=
  match p with Char h => (0 <? h) && (h <? 256) && negb (h =? 38) | _ => recognised p end.

Lemma recognised_scan p rest : recognised p = true →
  entity_scan tab (entity_text p ++ rest) = (meaning p, zlength (entity_text p)).
Proof.
  intros Hp. destruct p as [h|nm|ds|x ds]; [done|..]; cbn [recognised entity_text app] in *; rewrite ?andb_true_iff in Hp.
  - destruct Hp as [[[H0 H1] H2] H3]. apply Nat.ltb_lt in H1. apply negb_true_iff, Z.eqb_neq in H3.
    rewrite <- app_assoc. cbn [meaning app] in *. destruct (assoc nm tab) as [v|] eqn:Ea; [|done].
    rewrite (entity_named nm v) by done. f_equal. by autorewrite with zlist.
  - destruct Hp as [H1 H2]. apply Nat.leb_le in H1. rewrite <- app_assoc. cbn [app].
    rewrite entity_decimal by done.
    cbn [meaning]. f_equal. autorewrite with zlist. lia.
  - destruct Hp as [[H1 H2] H3]. apply Nat.leb_le in H2. rewrite <- app_assoc. cbn [app].
    rewrite entity_hexadecimal; [|lia|done|done]. cbn [meaning]. f_equal. autorewrite with zlist. lia.
Qed.

Lemma ampersand_entity p rest f : recognised p = true → ampersand tab (entity_text p ++ rest) = (drawn f p, rest).
Proof.
  intros Hp. unfold ampersand. rewrite recognised_scan by done. f_equal; [by destruct p|].
  unfold zlength. rewrite Nat2Z.id. apply drop_app_length.
Qed.

(** [ft] of a label, piece by piece. *)
Lemma ft_pieces ps fuel : forallb utf8_piece ps = true →
  (length (concat (piece_text char_bytes <$> ps)) <= fuel)%nat →
  ft_loop tab fuel (concat (piece_text char_bytes <$> ps)) = concat (drawn char_bytes <$> ps).
Proof.
  revert fuel. induction ps as [|p ps IH]; intros fuel Hok Hf; cbn [fmap list_fmap concat] in *; [by destruct fuel|].
  cbn [forallb] in Hok. apply andb_prop in Hok as [Hp Hok]. rewrite length_app in Hf.
  destruct p as [h|nm|ds|x ds].
  { cbn [piece_text drawn utf8_piece] in *. pose proof (char_size_pos h). pose proof (char_size_bytes h) as Hz. unfold zlength in Hz.
    destruct fuel as [|fuel]; [lia|].
    rewrite ft_char, IH by (done || lia). done. }
  all: cbn [piece_text utf8_piece length] in *; destruct fuel as [|fuel]; [lia|]; cbn [app]; rewrite ft_loop_S; unfold ft_step;
    cbn [Z.ltb Z.compare Pos.compare Pos.compare_cont Z.eqb Pos.eqb];
    rewrite (ampersand_entity _ _ char_bytes) by done; cbn [fst snd]; by rewrite IH by (done || lia).
Qed.

(** The same for [gt], whose characters are single bytes. *)
Lemma gt_pieces ps fuel : forallb latin1_piece ps = true →
  (length (concat (piece_text (fun h => [h]) <$> ps)) <= fuel)%nat →
  gt_loop tab fuel (concat (piece_text (fun h => [h]) <$> ps)) = concat (drawn text_char <$> ps).
Proof.
  revert fuel. induction ps as [|p ps IH]; intros fuel Hok Hf; cbn [fmap list_fmap concat] in *; [by destruct fuel|].
  cbn [forallb] in Hok. apply andb_prop in Hok as [Hp Hok]. rewrite length_app in Hf.
  destruct p as [h|nm|ds|x ds].
  { cbn [piece_text drawn latin1_piece length] in *. destruct fuel as [|fuel]; [lia|]. cbn [app gt_loop].
    destruct (Z.eqb_spec h 38); [lia|]. by rewrite IH by (done || lia). }
  all: cbn [piece_text latin1_piece length] in *; destruct fuel as [|fuel]; [lia|]; cbn [app gt_loop Z.eqb Pos.eqb];
    rewrite (ampersand_entity _ _ text_char) by done; by rewrite IH by (done || lia).
Qed.
End Text.

(** ** The entities of the table *)

Lemma assoc_member ns vs nm v : NoDup ns → (nm, v) ∈ zip ns vs → assoc nm (zip ns vs) = Some v.
Proof.
  intros Hnd Hin. apply list_elem_of_lookup in Hin as [k Hk]. apply lookup_zip_with_Some in Hk as (n & u & [= -> ->] & Hn & Hu).
  by eapply assoc_zip.
Qed.

(** The one name of the table that is too long. *)
Definition thetasym : list Z := js "thetasym"%string.

Definition usable (e : list Z * Z) : bool :=
  text_value e.2 &&
  (Nat.ltb (length e.1) 8 && forallb (fun x => negb (x =? 59)) e.1 && negb (ch e.1 0 =? 35) || bool_decide (e.1 = thetasym)).

Lemma usable_named l ns vs nm v : l = zip ns vs → NoDup ns → forallb usable l = true → (nm, v) ∈ l → nm ≠ thetasym →
  recognised l (Named nm) = true ∧ drawn l char_bytes (Named nm) = char_bytes v.
Proof.
  intros -> Hnd Hu Hin Hne. cbn [recognised drawn meaning]. rewrite (assoc_member ns vs nm v) by done. cbn [from_option id is_some andb].
  rewrite forallb_forall in Hu. apply list_elem_of_In in Hin. specialize (Hu _ Hin). unfold usable in Hu. cbn [fst snd] in Hu.
  rewrite bool_decide_eq_false_2, orb_false_r, andb_true_iff in Hu by done. destruct Hu as [Hv Hu]. split; [exact Hu|].
  destruct (Z.eqb_spec v 0) as [->|_]; [done|]. by apply text_char_bytes.
Qed.

Lemma entities_usable : forallb usable entity_list = true.
Proof. vm_compute. reflexivity. Qed.

Lemma valid_NoDup b es ns : b && entities_valid es ns = true → NoDup ns.
Proof. unfold entities_valid. rewrite !andb_true_iff. intros (_ & ((([_ H] & _) & _) & _)). by apply increasing_NoDup. Qed.

Lemma entity_names_NoDup : NoDup entity_names.
Proof. exact (valid_NoDup _ _ _ entity_names_checked). Qed.

Lemma entity_list_zip : entity_list = zip entity_names (e_value <$> decode8 entity_bytes).
Proof. unfold entity_list. reflexivity. Qed.

Lemma entity_recognised nm v : (nm, v) ∈ entity_list → nm ≠ thetasym →
  recognised entity_list (Named nm) = true ∧ drawn entity_list char_bytes (Named nm) = char_bytes v.
Proof. exact (usable_named entity_list _ _ nm v entity_list_zip entity_names_NoDup entities_usable). Qed.

(** ** Escaped text *)

(** The pieces of a string whose ampersands are written as entities. *)
Definition amp : list Z := js "amp"%string.
Definition escaped (s : jsstr) : list piece := (fun h => if h =? 38 then Named amp else Char h) <$> chars (length s) s.

Lemma chars_range fuel s : wf16 s = true → Forall (fun h => 0 < h < 1114112) (chars fuel s).
Proof.
  revert s. induction fuel as [|fuel IH]; intros [|f s] Hs; simpl; try done.
  destruct (next_char_wf (f :: s) Hs ltac:(done)) as (h & s' & E & Hh & _ & Hwf & _).
  cbn [next_char] in *. rewrite E. constructor; [done|by apply IH].
Qed.

Section Escape.
Context (tab : list (list Z * Z)) (Hamp : assoc amp tab = Some 38).

Lemma escaped_ok s : wf16 s = true → forallb (utf8_piece tab) (escaped s) = true.
Proof.
  intros Hs. pose proof (chars_range (length s) s Hs) as H. unfold escaped.
  induction H as [|h cs Hh H IH]; [done|]. cbn [fmap list_fmap forallb]. rewrite IH, andb_true_r.
  destruct (Z.eqb_spec h 38); cbn [utf8_piece]; [|lia].
  cbn [recognised]. by rewrite Hamp.
Qed.

Lemma escaped_drawn s : concat (drawn tab char_bytes <$> escaped s) = utf8_bytes (chars (length s) s).
Proof.
  unfold escaped, utf8_bytes. f_equal. rewrite <- list_fmap_compose. apply list_fmap_ext. intros i h _. unfold compose.
  destruct (Z.eqb_spec h 38) as [->|]; [|done]. cbn [drawn meaning]. by rewrite Hamp.
Qed.
End Escape.

Lemma amp_entity : assoc amp entity_list = Some 38.
Proof. vm_compute. reflexivity. Qed.
