(* ===== verification/VizLife.v ===== *)
(** * Start, run and exit of the runtime

    [viz-lite.js] keeps five queues of callbacks: [Ra] (before the run), [Sa]
    (initialisers), [Ta] (before [main]), [H] (at exit) and [Ua] (after the
    run).  [qd] ([run]) goes through them, [pd] ([exit]) runs the handlers of
    [H], [v] ([abort]) marks the program as ended, [Qa] empties a queue.

    What a callback does is a parameter: it may change the state, queue more
    callbacks, or throw.  Everything called is recorded in [r_log].  The time of
    the first run ([od]) and the stack top, which [pd] forgets, are left out;
    [preRun] and [postRun] are lists ([qd] wraps a single function in one). *)

From Stdlib Require Import ZArith Lia.
From stdpp Require Import base list strings.
From S2P Require Import Prelude VizRuntime VizFile VizMemory VizEnv.

Open Scope Z_scope.

(** An element of a queue: a function, or an object with a function or the
    number of one in [Va] and an argument in [aa]. *)
Inductive target : Type := Number (c : Z) | Function (c : Z).
Inductive callback : Type := Plain (f : Z) | Object_ (Va : target) (aa : option Z).

Inductive queue : Type := Q_Ra | Q_Sa | Q_Ta | Q_H | Q_Ua.

#[export] Instance target_eq_dec : EqDecision target.
Proof. solve_decision. Defined.
#[export] Instance callback_eq_dec : EqDecision callback.
Proof. solve_decision. Defined.
#[export] Instance queue_eq_dec : EqDecision queue.
Proof. solve_decision. Defined.

(** What is called. *)
Inductive action : Type :=
  | Callback (b : callback)
  | DynCall (sig : jsstr) (c : Z) (args : list Z)
  | Apply (c : Z) (arg : option Z)   (* [None] is null *)
  | OnRuntimeInitialized
  | OnExit (a : Z)
  | SetStatus (s : jsstr)
  | Print (s : jsstr)
  | PrintErr (s : jsstr)
  | Main (argc argv : Z)
  | ProcessExit (a : Z)
  | Quit (a : Z).

(** Exceptions: [ja] of [exit], the string of [abort], ["SimulateInfiniteLoop"],
    others, with the text printed for those that are objects with a stack. *)
Inductive exn : Type :=
  | ExitStatus (a : Z)
  | Aborted (why : jsstr)
  | InfiniteLoop
  | Thrown (x : Z) (stack : option jsstr).

(** Where the program runs: [da] is Node, [fa] a shell. *)
Inductive host : Type := Node | Shell | Browser.

(** How the module is set up: the host, which of [_main], [setStatus],
    [onRuntimeInitialized] and [onExit] are defined, [rd], [thisProgram] and
    [arguments]. *)
Record config : Type := mkConfig {
  c_host : host; c_main : bool; c_status : bool; c_init : bool; c_exit : bool; rd : bool;
  thisProgram : jsstr; arguments : list jsstr
}.

(** What [setTimeout] put off: a run with its arguments, the end of the status. *)
Inductive late : Type := LateRun (a : list jsstr) | ClearStatus.

Record rt : Type := mkRt {
  r_queue : queue → list callback;
  r_Va : bool;             (* the initialisers have run *)
  r_calledRun : bool;
  r_w : bool;              (* aborted or ended *)
  r_preRun : list callback;
  r_postRun : list callback;
  r_noExitRuntime : bool;
  r_timers : list late;
  r_E : heap;
  r_log : list action
}.

Inductive res (A : Type) : Type := Ret (a : A) | Throw (e : exn) | Endless.
Arguments Ret {A} a.
Arguments Throw {A} e.
Arguments Endless {A}.

Definition life (A : Type) : Type := rt → res A * rt.
Definition ret {A} (a : A) : life A := fun s => (Ret a, s).
Definition throw {A} (e : exn) : life A := fun s => (Throw e, s).
Definition bind {A B} (m : life A) (k : A → life B) : life B := fun s =>
  match m s with
  | (Ret a, s) => k a s
  | (Throw e, s) => (Throw e, s)
  | (Endless, s) => (Endless, s)
  end.
(** [try{m}catch(k){...}]. *)
Definition catch (m : life unit) (h : exn → life unit) : life unit := fun s =>
  match m s with (Throw e, s) => h e s | r => r end.
Definition when (b : bool) (m : life unit) : life unit := if b then m else ret tt.
Definition modify (f : rt → rt) : life unit := fun s => (Ret tt, f s).
Definition gets {A} (f : rt → A) : life A := fun s => (Ret (f s), s).

Notation "'do' x <- m ; k" := (bind m (fun x => k)) (at level 10, x pattern, m at level 100, k at level 200).
Notation "m ;; k" := (bind m (fun _ => k)) (at level 100, k at level 200, right associativity).

Definition set_queue (q : queue) (l : list callback) (s : rt) : rt :=
  mkRt (fun q' => if decide (q' = q) then l else r_queue s q') (r_Va s) (r_calledRun s) (r_w s) (r_preRun s) (r_postRun s)
    (r_noExitRuntime s) (r_timers s) (r_E s) (r_log s).
Definition set_Va (b : bool) (s : rt) : rt :=
  mkRt (r_queue s) b (r_calledRun s) (r_w s) (r_preRun s) (r_postRun s) (r_noExitRuntime s) (r_timers s) (r_E s) (r_log s).
Definition set_calledRun (b : bool) (s : rt) : rt :=
  mkRt (r_queue s) (r_Va s) b (r_w s) (r_preRun s) (r_postRun s) (r_noExitRuntime s) (r_timers s) (r_E s) (r_log s).
Definition set_w (b : bool) (s : rt) : rt :=
  mkRt (r_queue s) (r_Va s) (r_calledRun s) b (r_preRun s) (r_postRun s) (r_noExitRuntime s) (r_timers s) (r_E s) (r_log s).
Definition set_preRun (l : list callback) (s : rt) : rt :=
  mkRt (r_queue s) (r_Va s) (r_calledRun s) (r_w s) l (r_postRun s) (r_noExitRuntime s) (r_timers s) (r_E s) (r_log s).
Definition set_postRun (l : list callback) (s : rt) : rt :=
  mkRt (r_queue s) (r_Va s) (r_calledRun s) (r_w s) (r_preRun s) l (r_noExitRuntime s) (r_timers s) (r_E s) (r_log s).
Definition set_noExitRuntime (b : bool) (s : rt) : rt :=
  mkRt (r_queue s) (r_Va s) (r_calledRun s) (r_w s) (r_preRun s) (r_postRun s) b (r_timers s) (r_E s) (r_log s).
Definition set_timers (l : list late) (s : rt) : rt :=
  mkRt (r_queue s) (r_Va s) (r_calledRun s) (r_w s) (r_preRun s) (r_postRun s) (r_noExitRuntime s) l (r_E s) (r_log s).
Definition set_E (E : heap) (s : rt) : rt :=
  mkRt (r_queue s) (r_Va s) (r_calledRun s) (r_w s) (r_preRun s) (r_postRun s) (r_noExitRuntime s) (r_timers s) E (r_log s).
Definition set_log (l : list action) (s : rt) : rt :=
  mkRt (r_queue s) (r_Va s) (r_calledRun s) (r_w s) (r_preRun s) (r_postRun s) (r_noExitRuntime s) (r_timers s) (r_E s) l.

(** ** Arguments of [main] *)

(** The words of [callMain]: [B] steps through an array of words four places at
    a time, so three zeros follow each pointer. *)
Definition argv_slab (ps : list Z) : list Z := concat ((fun p => [p; 0; 0; 0]) <$> ps) ++ [0].

(** [B(a,"i32",0)], after the allocation of [c]. *)
Fixpoint B_words (fuel : nat) (a : list Z) (c d : Z) (E : heap) : heap :=
  match fuel with
  | O => E
  | S fuel' =>
      match zlookup a d with
      | Some p => B_words fuel' a c (d + 4) (store32 (c + d) p E)
      | None => E
      end
  end.

Section Life.
(** What the callbacks and the object code's allocator do. *)
Context (act : action → life unit) (malloc : Z → life Z) (main : Z → Z → life Z).
Context (cfg : config).

Definition perform (a : action) : life unit := modify (fun s => set_log (r_log s ++ [a]) s) ;; act a.

(** [v]. *)
Definition v (a : jsstr) : life unit :=
  perform (Print a) ;; perform (PrintErr a) ;; modify (set_w true) ;; throw (Aborted a).

Definition assert_ (b : bool) (why : jsstr) : life unit := if b then ret tt else v (js "Assertion failed: " ++ why).

(** The call an element of a queue makes. *)
Definition called (b : callback) : action :=
  match b with
  | Plain _ => Callback b
  | Object_ (Number c) None => DynCall (js "v") c []
  | Object_ (Number c) (Some x) => DynCall (js "vi") c [x]
  | Object_ (Function c) x => Apply c x
  end.

(** [Qa]: [fuel] bounds the callbacks run. *)
Fixpoint Qa (fuel : nat) (q : queue) : life unit := fun s =>
  match r_queue s q with
  | [] => (Ret tt, s)
  | b :: l =>
      match fuel with
      | O => (Endless, s)
      | S fuel' => (perform (called b) ;; Qa fuel' q) (set_queue q l s)
      end
  end.

(** [Va||(Va=!0,Qa(Sa))]. *)
Definition initialise (fuel : nat) : life unit :=
  do Va <- gets r_Va; when (negb Va) (modify (set_Va true) ;; Qa fuel Q_Sa).

(** [Wa], and the loop that calls it; the same loop for [postRun]. *)
Definition Wa (s : rt) : rt :=
  match r_preRun s with
  | [] => s
  | a :: l => let s := set_preRun l s in set_queue Q_Ra (a :: r_queue s Q_Ra) s
  end.
Fixpoint Wa_loop (fuel : nat) (s : rt) : rt :=
  match fuel, r_preRun s with S fuel', _ :: _ => Wa_loop fuel' (Wa s) | _, _ => s end.
Fixpoint postRun_loop (fuel : nat) (s : rt) : rt :=
  match fuel, r_postRun s with
  | S fuel', b :: l => let s := set_postRun l s in postRun_loop fuel' (set_queue Q_Ua (b :: r_queue s Q_Ua) s)
  | _, _ => s
  end.

(** [pd]: [exit(a, b)].  On Node the process ends once its output is written, or
    after half a second ([ProcessExit]). *)
Definition pd (fuel : nat) (a : Z) (b : bool) : life unit :=
  do noExit <- gets r_noExitRuntime;
  when (negb (b && noExit))
    (when (negb noExit) (modify (set_w true) ;; Qa fuel Q_H ;; when (c_exit cfg) (perform (OnExit a))) ;;
     match c_host cfg with Node => perform (ProcessExit a) | Shell => perform (Quit a) | Browser => ret tt end ;;
     throw (ExitStatus a)).

(** [B(Xa(s),"i8",0)]. *)
Definition new_string (x : jsstr) : life Z :=
  let data := default 0 <$> Xa x false in
  do c <- malloc (zlength data); modify (fun s => set_E (B_i8 data c (r_E s)) s) ;; ret c.

Fixpoint new_strings (l : list jsstr) : life (list Z) :=
  match l with
  | [] => ret []
  | x :: l' => do p <- new_string x; do ps <- new_strings l'; ret (p :: ps)
  end.

(** [callMain]. *)
Definition callMain (fuel : nat) (a : list jsstr) : life unit :=
  do Ra <- gets (fun s => r_queue s Q_Ra);
  assert_ (bool_decide (Ra = [])) (js "cannot call main when preRun functions remain to be called") ;;
  initialise fuel ;;
  do ps <- new_strings (thisProgram cfg :: a);
  let d := argv_slab ps in
  do p <- malloc (zlength d);
  modify (fun s => set_E (B_words (length d) d p 0 (r_E s)) s) ;;
  catch (modify (fun s => set_log (r_log s ++ [Main (zlength a + 1) p]) s) ;; do g <- main (zlength a + 1) p; pd fuel g true)
    (fun k => match k with
              | ExitStatus _ => ret tt
              | InfiniteLoop => modify (set_noExitRuntime true)
              | Thrown _ (Some m) => perform (PrintErr (js "exception thrown: " ++ m)) ;; throw k
              | _ => throw k
              end).

(** The inner function of [qd]. *)
Definition qd_b (fuel : nat) (a : list jsstr) : life unit :=
  do calledRun <- gets r_calledRun;
  when (negb calledRun)
    (modify (set_calledRun true) ;;
     do w <- gets r_w;
     when (negb w)
       (initialise fuel ;; Qa fuel Q_Ta ;;
        when (c_init cfg) (perform OnRuntimeInitialized) ;;
        when (c_main cfg && rd cfg) (callMain fuel a) ;;
        modify (fun s => postRun_loop (length (r_postRun s)) s) ;;
        Qa fuel Q_Ua)).

(** [qd]: [run(a)]; with [setStatus] the rest is put off. *)
Definition qd (fuel : nat) (a : option (list jsstr)) : life unit :=
  let a := default (arguments cfg) a in
  modify (fun s => Wa_loop (length (r_preRun s)) s) ;;
  Qa fuel Q_Ra ;;
  do calledRun <- gets r_calledRun;
  when (negb calledRun)
    (if c_status cfg
     then perform (SetStatus (js "Running...")) ;; modify (fun s => set_timers (r_timers s ++ [LateRun a]) s)
     else qd_b fuel a).

(** The first thing that was put off. *)
Definition timer (fuel : nat) : life unit :=
  do ts <- gets r_timers;
  match ts with
  | [] => ret tt
  | LateRun a :: ts => modify (set_timers (ts ++ [ClearStatus])) ;; qd_b fuel a
  | ClearStatus :: ts => modify (set_timers ts) ;; perform (SetStatus [])
  end.

(** The last statements of the file: the functions of [preInit] from the last
    one on, then [qd()]. *)
Fixpoint preInit_loop (fs : list Z) : life unit :=
  match fs with [] => ret tt | f :: fs => perform (Callback (Plain f)) ;; preInit_loop fs end.
Definition start (fuel : nat) (preInit : list Z) : life unit := preInit_loop (rev preInit) ;; qd fuel None.

(** [nc]: [atexit]; the function it queues calls the function number [a]. *)
Definition nc (a b : Z) : life unit :=
  modify (fun s => set_queue Q_H (r_queue s Q_H ++ [Object_ (Number a) (Some b)]) s).
End Life.
