(* ===== verification/VizLifeFacts.v ===== *)
(** * Facts about start, run and exit *)

From Stdlib Require Import ZArith Lia.
From stdpp Require Import base list strings relations.
From S2P Require Import Prelude VizRuntime VizFacts VizFile VizMemory VizEnv VizInt64 VizInt64Facts VizDivision.
From S2P Require Import VizLibc VizLibcFacts VizLookupFacts VizLife.

Open Scope Z_scope.

(** ** Callbacks that queue others *)

(** The queues together. *)
Definition queues : list queue := [Q_Ra; Q_Sa; Q_Ta; Q_H; Q_Ua].

Section Progress.
(** Each callback may queue callbacks of smaller weight in all. *)
Context (act : action → life unit) (weight : callback → nat).

Definition load (l : list callback) : nat := list_sum (weight <$> l).
Lemma load_cons b l : load (b :: l) = (weight b + load l)%nat.
Proof. done. Qed.

Definition total (s : rt) : nat :=
  (load (r_queue s Q_Ra) + load (r_queue s Q_Sa) + load (r_queue s Q_Ta) + load (r_queue s Q_H) + load (r_queue s Q_Ua))%nat.

(** Nothing but the queues, the memory and the log is changed. *)
Definition same_flags (s s' : rt) : Prop :=
  r_Va s' = r_Va s ∧ r_calledRun s' = r_calledRun s ∧ r_w s' = r_w s ∧ r_preRun s' = r_preRun s ∧
  r_postRun s' = r_postRun s ∧ r_noExitRuntime s' = r_noExitRuntime s ∧ r_timers s' = r_timers s.

(** Callbacks stay queued until they are called. *)
Definition kept (s s' : rt) : Prop :=
  r_log s `prefix_of` r_log s' ∧ ∀ q b, b ∈ r_queue s q → b ∈ r_queue s' q ∨ called b ∈ r_log s'.
Definition evolves (s s' : rt) : Prop := same_flags s s' ∧ kept s s'.

(** A callback returns, keeps what is queued and queues less than its weight. *)
Definition orderly : Prop := ∀ a s, ∃ s', act a s = (Ret tt, s') ∧ evolves s s' ∧ r_log s' = r_log s ∧
  match a with
  | Callback _ | DynCall _ _ _ | Apply _ _ => ∀ b, called b = a → (total s' < total s + weight b)%nat
  | _ => total s' = total s
  end.

Lemma kept_refl s : kept s s.
Proof. split; [done|by left]. Qed.

Lemma kept_trans s1 s2 s3 : kept s1 s2 → kept s2 s3 → kept s1 s3.
Proof.
  intros (L1 & Q1) (L2 & Q2). split; [by trans (r_log s2)|].
  intros q b Hb. destruct (Q1 q b Hb) as [H|H]; [by apply Q2|]. right. destruct L2 as [l ->]. apply elem_of_app. by left.
Qed.

Lemma evolves_refl s : evolves s s.
Proof. split; [unfold same_flags; tauto|apply kept_refl]. Qed.

Lemma evolves_trans s1 s2 s3 : evolves s1 s2 → evolves s2 s3 → evolves s1 s3.
Proof.
  intros (F1 & K1) (F2 & K2). split; [|by eapply kept_trans].
  unfold same_flags in *. destruct F1 as (?&?&?&?&?&?&?), F2 as (?&?&?&?&?&?&?). split_and!; congruence.
Qed.

Lemma kept_logged s s' a : kept s s' → a ∈ r_log s → a ∈ r_log s'.
Proof. intros ([l ->] & _) H. apply elem_of_app. by left. Qed.

Context (Horderly : orderly).

Lemma called_kind b : match called b with Callback _ | DynCall _ _ _ | Apply _ _ => True | _ => False end.
Proof. destruct b as [f|[c|c] [x|]]; exact I. Qed.

(** Calling the first of a queue. *)
Lemma perform_called b q l s : r_queue s q = b :: l →
  ∃ s', perform act (called b) (set_queue q l s) = (Ret tt, s') ∧ evolves s s' ∧ called b ∈ r_log s' ∧ (total s' < total s)%nat.
Proof using Horderly.
  intros Hq. set (s1 := set_log (r_log s ++ [called b]) (set_queue q l s)).
  destruct (Horderly (called b) s1) as (s' & Hact & Hev & Hlog & Hw). exists s'.
  assert (called b ∈ r_log s') as Hin by (rewrite Hlog; simpl; apply elem_of_app; right; by apply list_elem_of_singleton).
  split_and!; [exact Hact| |exact Hin|].
  - destruct Hev as (F & L & Q). split; [exact F|split].
    + rewrite Hlog. simpl. by apply prefix_app_r.
    + intros q' b' Hb'. destruct (decide (q' = q)) as [->|Hne].
      * rewrite Hq in Hb'. apply elem_of_cons in Hb' as [->|Hb']; [by right|]. apply Q. simpl. by rewrite decide_True by done.
      * apply Q. simpl. by rewrite decide_False by done.
  - assert (total s1 + weight b = total s)%nat as Ht.
    { unfold total, s1. destruct q; simpl; rewrite Hq, load_cons; unfold load; lia. }
    pose proof (called_kind b) as Hk. destruct (called b) eqn:Ec; try done; specialize (Hw b Ec); lia.
Qed.

(** A queue is emptied, with fuel for the weight of what is queued. *)
Lemma Qa_live fuel q s : (total s <= fuel)%nat →
  ∃ s', Qa act fuel q s = (Ret tt, s') ∧ r_queue s' q = [] ∧ evolves s s' ∧ (total s' <= total s)%nat ∧
    ∀ b, b ∈ r_queue s q → called b ∈ r_log s'.
Proof using Horderly.
  revert s. induction fuel as [|fuel IH]; intros s Hf.
  - exists s. assert (r_queue s q = []) as Hq.
    { destruct (r_queue s q) as [|b l] eqn:Hq; [done|]. destruct (perform_called b q l s Hq) as (? & _ & _ & _ & ?). lia. }
    cbn [Qa]. rewrite Hq. split_and!; [done|done|apply evolves_refl|done|]. intros b Hb. by apply elem_of_nil in Hb.
  - cbn [Qa]. destruct (r_queue s q) as [|b l] eqn:Hq.
    { exists s. split_and!; [done|done|apply evolves_refl|done|]. intros b Hb. by apply elem_of_nil in Hb. }
    destruct (perform_called b q l s Hq) as (s1 & Hp & Hev & Hin & Ht).
    destruct (IH s1) as (s' & Hr & Hnil & Hev' & Ht' & Hall); [lia|]. exists s'. unfold bind. rewrite Hp.
    split_and!; [exact Hr|exact Hnil|by eapply evolves_trans|lia|].
    intros b' Hb'. destruct Hev as (_ & _ & Q). rewrite <- Hq in Hb'. destruct (Q q b' Hb') as [H|H]; [by apply Hall|].
    destruct Hev' as (_ & [k ->] & _). apply elem_of_app. by left.
Qed.

(** ** A run *)

(** What was queued before is called once a later queue is empty. *)
Lemma kept_called q s s1 s2 : kept s s1 → kept s1 s2 → (∀ b, b ∈ r_queue s1 q → called b ∈ r_log s2) →
  ∀ b, b ∈ r_queue s q → called b ∈ r_log s2.
Proof.
  intros [_ Q1] K2 H b Hb. destruct (Q1 q b Hb) as [H'|H']; [by apply H|]. by eapply kept_logged.
Qed.

Lemma Wa_loop_spec s : ∃ s', Wa_loop (length (r_preRun s)) s = s' ∧ r_preRun s' = [] ∧
  r_queue s' Q_Ra = rev (r_preRun s) ++ r_queue s Q_Ra ∧ (∀ q, q ≠ Q_Ra → r_queue s' q = r_queue s q) ∧
  r_log s' = r_log s ∧ r_Va s' = r_Va s ∧ r_calledRun s' = r_calledRun s ∧ r_w s' = r_w s ∧ r_postRun s' = r_postRun s.
Proof.
  remember (r_preRun s) as l eqn:Hl. revert s Hl. induction l as [|b l IH]; intros s Hl.
  - exists s. cbn [length Wa_loop]. by split_and!.
  - cbn [length Wa_loop]. rewrite <- Hl. unfold Wa. rewrite <- Hl.
    destruct (IH (set_queue Q_Ra (b :: r_queue s Q_Ra) (set_preRun l s)) eq_refl) as (s' & Es & Hp & Hr & Ho & H1 & H2 & H3 & H4 & H5).
    exists s'. split_and!; try done.
    + rewrite Hr. cbn [rev]. by rewrite <- app_assoc.
    + intros q Hq. rewrite Ho by done. cbn [r_queue set_queue]. by rewrite decide_False by done.
Qed.

Lemma postRun_loop_spec s : ∃ s', postRun_loop (length (r_postRun s)) s = s' ∧
  r_queue s' Q_Ua = rev (r_postRun s) ++ r_queue s Q_Ua ∧ (∀ q, q ≠ Q_Ua → r_queue s' q = r_queue s q) ∧
  r_log s' = r_log s ∧ r_calledRun s' = r_calledRun s ∧ r_w s' = r_w s.
Proof.
  remember (r_postRun s) as l eqn:Hl. revert s Hl. induction l as [|b l IH]; intros s Hl.
  - exists s. cbn [length postRun_loop]. by split_and!.
  - cbn [length postRun_loop]. rewrite <- Hl.
    destruct (IH (set_queue Q_Ua (b :: r_queue s Q_Ua) (set_postRun l s)) eq_refl) as (s' & Es & Hr & Ho & H1 & H2 & H3).
    exists s'. split_and!; try done.
    + rewrite Hr. cbn [rev]. by rewrite <- app_assoc.
    + intros q Hq. rewrite Ho by done. cbn [r_queue set_queue]. by rewrite decide_False by done.
Qed.

Lemma load_app l k : load (l ++ k) = (load l + load k)%nat.
Proof. unfold load. by rewrite fmap_app, list_sum_app. Qed.

Lemma load_rev l : load (rev l) = load l.
Proof. induction l as [|b l IH]; [done|]. cbn [rev]. rewrite load_app, IH, !load_cons. unfold load. simpl. lia. Qed.

(** Callbacks put in front of a queue. *)
Lemma kept_front q l s s' : r_queue s' q = l ++ r_queue s q → (∀ q', q' ≠ q → r_queue s' q' = r_queue s q') →
  r_log s' = r_log s → kept s s' ∧ total s' = (total s + load l)%nat.
Proof.
  intros Hq Ho Hl. split.
  - split; [by rewrite Hl|]. intros q' b Hb. left. destruct (decide (q' = q)) as [->|Hne]; [|by rewrite Ho].
    rewrite Hq. apply elem_of_app. by right.
  - unfold total. destruct q; rewrite Hq, load_app; rewrite !Ho by done; lia.
Qed.

(** Calls that are not of callbacks. *)
Definition other (a : action) : bool := match a with Callback _ | DynCall _ _ _ | Apply _ _ => false | _ => true end.

Lemma perform_other a s : other a = true →
  ∃ s', perform act a s = (Ret tt, s') ∧ evolves s s' ∧ total s' = total s ∧ a ∈ r_log s'.
Proof using Horderly.
  intros Ha. destruct (Horderly a (set_log (r_log s ++ [a]) s)) as (s' & Hact & [F [L Q]] & Hl & Ht).
  exists s'. split_and!; [exact Hact| | |].
  - split; [exact F|]. split; [|exact Q]. rewrite Hl. simpl. by apply prefix_app_r.
  - by destruct a.
  - rewrite Hl. simpl. apply elem_of_app. right. by apply list_elem_of_singleton.
Qed.

Section Run.
Context (malloc : Z → life Z) (main : Z → Z → life Z) (cfg : config) (Hmain : c_main cfg = false).

(** [qd_b] on a program that has not run: every queued initialiser, callback
    and [postRun] function is called. *)
Lemma qd_b_live fuel a s : (total s + load (r_postRun s) <= fuel)%nat →
  r_calledRun s = false → r_w s = false → r_Va s = false →
  ∃ s', qd_b act malloc main cfg fuel a s = (Ret tt, s') ∧ kept s s' ∧ r_calledRun s' = true ∧
    (∀ q b, q = Q_Sa ∨ q = Q_Ta ∨ q = Q_Ua → b ∈ r_queue s q → called b ∈ r_log s') ∧
    (∀ b, b ∈ r_postRun s → called b ∈ r_log s').
Proof using Horderly Hmain.
  intros Hf Hc Hw HVa. unfold qd_b, initialise, bind, gets, when, modify. rewrite Hc. cbn [negb].
  cbn [r_w set_calledRun]. rewrite Hw. cbn [negb r_Va set_calledRun]. rewrite HVa. cbn [negb]. set (s0 := set_Va true (set_calledRun true s)).
  destruct (Qa_live fuel Q_Sa s0) as (s1 & -> & _ & [F1 K1] & T1 & A1); [change (total s0) with (total s); lia|].
  destruct (Qa_live fuel Q_Ta s1) as (s2 & -> & _ & [F2 K2] & T2 & A2); [change (total s0) with (total s) in T1; lia|].
  assert (∃ s3, (if c_init cfg then perform act OnRuntimeInitialized else ret tt) s2 = (Ret tt, s3) ∧ evolves s2 s3 ∧ total s3 = total s2)
    as (s3 & -> & [F3 K3] & T3).
  { destruct (c_init cfg); [destruct (perform_other OnRuntimeInitialized s2) as (s3 & ? & ? & ? & _); [done|by exists s3]|]. exists s2. split_and!; [done|apply evolves_refl|done]. }
  rewrite Hmain. cbn [andb ret].
  assert (r_postRun s3 = r_postRun s ∧ r_calledRun s3 = true) as [P3 C3].
  { destruct F1 as (?&?&?&?&?&?), F2 as (?&?&?&?&?&?), F3 as (?&?&?&?&?&?). simpl in *. split; congruence. }
  destruct (postRun_loop_spec s3) as (s4 & -> & Hq4 & Ho4 & Hl4 & C4 & _).
  destruct (kept_front Q_Ua _ s3 s4 Hq4 Ho4 Hl4) as [K4 T4]. rewrite load_rev, P3 in T4.
  destruct (Qa_live fuel Q_Ua s4) as (s5 & E5 & _ & [F5 K5] & _ & A5); [change (total s0) with (total s) in T1; lia|].
  exists s5. pose proof (kept_trans _ _ _ K3 K4) as K34. pose proof (kept_trans _ _ _ K34 K5) as K35.
  pose proof (kept_trans _ _ _ K2 K35) as K25. pose proof (kept_trans _ _ _ K1 K25) as K15.
  split_and!; [exact E5|exact K15| | |].
  - destruct F5 as (_ & -> & _). congruence.
  - intros q b [->|[->| ->]] Hb.
    + apply (kept_logged s1 s5 _ K25), A1, Hb.
    + apply (kept_logged s2 s5 _ K35), (kept_called Q_Ta s0 s1 s2 K1 K2 A2), Hb.
    + refine (kept_called Q_Ua s0 s4 s5 _ K5 A5 b Hb). exact (kept_trans _ _ _ K1 (kept_trans _ _ _ K2 K34)).
  - intros b Hb. apply A5. rewrite Hq4, P3. apply elem_of_app. left. apply list_elem_of_In, in_rev.
    rewrite rev_involutive. by apply list_elem_of_In.
Qed.

(** [qd] without [setStatus]. *)
Lemma qd_live fuel a s : c_status cfg = false → (total s + load (r_preRun s) + load (r_postRun s) <= fuel)%nat →
  r_calledRun s = false → r_w s = false → r_Va s = false →
  ∃ s', qd act malloc main cfg fuel a s = (Ret tt, s') ∧ r_calledRun s' = true ∧
    (∀ q b, q ≠ Q_H → b ∈ r_queue s q → called b ∈ r_log s') ∧
    (∀ b, b ∈ r_preRun s ++ r_postRun s → called b ∈ r_log s').
Proof using Horderly Hmain.
  intros Hst Hf Hc Hw HVa. unfold qd, bind, modify, gets, when.
  destruct (Wa_loop_spec s) as (s0 & -> & _ & Hq0 & Ho0 & Hl0 & V0 & C0 & W0 & P0).
  destruct (kept_front Q_Ra _ s s0 Hq0 Ho0 Hl0) as [K0 T0]. rewrite load_rev in T0.
  destruct (Qa_live fuel Q_Ra s0) as (s1 & -> & _ & [F1 K1] & T1 & A1); [lia|].
  destruct F1 as (V1 & C1 & W1 & _ & P1 & _). rewrite C1, C0, Hc, Hst. cbn [negb].
  destruct (qd_b_live fuel (default (arguments cfg) a) s1) as (s2 & E2 & K2 & C2 & A2 & P2); [rewrite P1, P0; lia|congruence..|].
  exists s2. split_and!; [exact E2|exact C2| |].
  - intros q b Hq Hb. destruct (proj2 (kept_trans _ _ _ K0 K1) q b Hb) as [Hb'|Hb']; [|by apply (kept_logged s1)].
    destruct q; [|apply (A2 Q_Sa b); [tauto|done]|apply (A2 Q_Ta b); [tauto|done]|done|apply (A2 Q_Ua b); [tauto|done]].
    apply (kept_logged s1 s2 _ K2), A1. rewrite Hq0. apply elem_of_app. by right.
  - intros b [Hb|Hb]%elem_of_app; [|apply P2; by rewrite P1, P0].
    apply (kept_logged s1 s2 _ K2), A1. rewrite Hq0. apply elem_of_app. left. apply list_elem_of_In, in_rev.
    rewrite rev_involutive. by apply list_elem_of_In.
Qed.

(** [pd], when the runtime may exit: the handlers are called, and the program
    is marked as ended. *)
Lemma pd_live fuel a b s : (total s <= fuel)%nat → r_noExitRuntime s = false →
  ∃ s', pd act cfg fuel a b s = (Throw (ExitStatus a), s') ∧ r_w s' = true ∧ r_noExitRuntime s' = false ∧
    (∀ h, h ∈ r_queue s Q_H → called h ∈ r_log s') ∧ (c_exit cfg = true → OnExit a ∈ r_log s').
Proof using Horderly.
  intros Hf Hn. unfold pd, bind, modify, gets, when. rewrite Hn, andb_false_r. cbn [negb].
  destruct (Qa_live fuel Q_H (set_w true s) Hf) as (s1 & -> & _ & [F1 K1] & T1 & A1).
  assert (∃ s2, (if c_exit cfg then perform act (OnExit a) else ret tt) s1 = (Ret tt, s2) ∧ evolves s1 s2 ∧
    (c_exit cfg = true → OnExit a ∈ r_log s2)) as (s2 & -> & [F2 K2] & X2).
  { destruct (c_exit cfg); [|exists s1; split_and!; [done|apply evolves_refl|done]].
    destruct (perform_other (OnExit a) s1) as (s2 & ? & ? & _ & ?); [done|by exists s2]. }
  assert (∃ s3, (match c_host cfg with Node => perform act (ProcessExit a) | Shell => perform act (Quit a) | Browser => ret tt end) s2
    = (Ret tt, s3) ∧ evolves s2 s3) as (s3 & -> & [F3 K3]).
  { destruct (c_host cfg); [| |exists s2; split; [done|apply evolves_refl]].
    - destruct (perform_other (ProcessExit a) s2) as (s3 & ? & ? & _); [done|by exists s3].
    - destruct (perform_other (Quit a) s2) as (s3 & ? & ? & _); [done|by exists s3]. }
  exists s3. split; [done|]. destruct F1 as (_ & _ & W1 & _ & _ & N1 & _), F2 as (_ & _ & W2 & _ & _ & N2 & _), F3 as (_ & _ & W3 & _ & _ & N3 & _).
  simpl in W1, N1. split_and!; [congruence|congruence| |].
  - intros h Hh. apply (kept_logged s2 s3 _ K3), (kept_logged s1 s2 _ K2), A1, Hh.
  - intros Hx. by apply (kept_logged s2 s3 _ K3), X2.
Qed.

(** After it, a run that was put off only notes that it was called. *)
Lemma qd_b_ended fuel a s : r_w s = true → r_calledRun s = false →
  qd_b act malloc main cfg fuel a s = (Ret tt, set_calledRun true s).
Proof. intros Hw Hc. unfold qd_b, bind, modify, gets, when. rewrite Hc. cbn [negb r_w set_calledRun]. by rewrite Hw. Qed.

Lemma qd_b_again fuel a s : r_calledRun s = true → qd_b act malloc main cfg fuel a s = (Ret tt, s).
Proof. intros Hc. unfold qd_b, bind, gets, when. by rewrite Hc. Qed.
End Run.
End Progress.

(** ** Initialised once *)


#[export] Instance action_is_init (a : action) : Decision (a = OnRuntimeInitialized).
Proof. destruct a; (by left) || (by right). Defined.

Definition inits (s : rt) : nat := length (filter (fun a => a = OnRuntimeInitialized) (r_log s)).

(** From [s] to [s']: a run that was called stays called, and there are no more
    new initialisations than runs that were called. *)
Definition run_credit (s : rt) : nat := if r_calledRun s then 1%nat else 0%nat.
Definition advances (s s' : rt) : Prop :=
  (r_calledRun s = true → r_calledRun s' = true) ∧ (inits s' + run_credit s <= inits s + run_credit s')%nat.

#[export] Instance advances_preorder : PreOrder advances.
Proof. split; [done|]. intros s1 s2 s3 [A1 A2] [B1 B2]. split; [auto|lia]. Qed.

Lemma advances_same s s' : inits s' = inits s → r_calledRun s' = r_calledRun s → advances s s'.
Proof. intros H1 H2. unfold advances, run_credit. rewrite H1, H2. done. Qed.

(** Computations that only advance. *)
Definition safe_step {A} (m : life A) : Prop := ∀ s, advances s (m s).2.

Create HintDb life.

Lemma safe_ret {A} (a : A) : safe_step (ret a).
Proof. intros s. reflexivity. Qed.
Lemma safe_throw {A} e : safe_step (@throw A e).
Proof. intros s. reflexivity. Qed.
Lemma safe_gets {A} (f : rt → A) : safe_step (gets f).
Proof. intros s. reflexivity. Qed.
Lemma safe_bind {A B} (m : life A) (k : A → life B) : safe_step m → (∀ a, safe_step (k a)) → safe_step (bind m k).
Proof.
  intros Hm Hk s. unfold bind. specialize (Hm s). destruct (m s) as [[a|e|] s1]; [|exact Hm..].
  etrans; [exact Hm|apply Hk].
Qed.
Lemma safe_when b m : safe_step m → safe_step (when b m).
Proof. destruct b; [done|]. intros _ s. reflexivity. Qed.
Lemma safe_catch m h : safe_step m → (∀ e, safe_step (h e)) → safe_step (catch m h).
Proof.
  intros Hm Hh s. unfold catch. specialize (Hm s). destruct (m s) as [[a|e|] s1]; [exact Hm| |exact Hm].
  etrans; [exact Hm|apply Hh].
Qed.
Lemma safe_modify f : (∀ s, inits (f s) = inits s ∧ r_calledRun (f s) = r_calledRun s) → safe_step (modify f).
Proof. intros Hf s. by apply advances_same; apply Hf. Qed.
#[export] Hint Resolve safe_ret safe_throw safe_gets safe_bind safe_when safe_catch safe_modify : life.

Section Once.
Context (act : action → life unit) (malloc : Z → life Z) (main : Z → Z → life Z) (cfg : config).
(** What callbacks and the object code do only advances. *)
Context (Hact : ∀ a, safe_step (act a)) (Hmalloc : ∀ n, safe_step (malloc n)) (Hmain : ∀ c p, safe_step (main c p)).

Lemma inits_log a s : a ≠ OnRuntimeInitialized → inits (set_log (r_log s ++ [a]) s) = inits s.
Proof. intros Ha. unfold inits. cbn [r_log set_log]. rewrite filter_app, length_app, filter_cons_False by done. simpl. lia. Qed.

Lemma safe_perform a : a ≠ OnRuntimeInitialized → safe_step (perform act a).
Proof using Hact. intros Ha. apply safe_bind; [|done]. apply safe_modify. intros s. by rewrite inits_log. Qed.

Lemma called_not_init b : called b ≠ OnRuntimeInitialized.
Proof. by destruct b as [f|[c|c] [x|]]. Qed.
#[local] Hint Resolve safe_perform called_not_init : life.

Lemma safe_Qa fuel q : safe_step (Qa act fuel q).
Proof using Hact.
  induction fuel as [|fuel IH]; intros s; cbn [Qa]; destruct (r_queue s q) as [|b l]; [reflexivity..|].
  etrans; [apply (advances_same s (set_queue q l s)); done|].
  pose proof (safe_bind (perform act (called b)) (fun _ => Qa act fuel q) (safe_perform _ (called_not_init b)) (fun _ => IH)) as H.
  exact (H (set_queue q l s)).
Qed.
#[local] Hint Resolve safe_Qa : life.

Lemma safe_initialise fuel : safe_step (initialise act fuel).
Proof using Hact. unfold initialise. eauto 8 with life. Qed.

Lemma safe_pd fuel a b : safe_step (pd act cfg fuel a b).
Proof using Hact.
  unfold pd. apply safe_bind; [eauto with life|]. intros noExit. apply safe_when, safe_bind.
  - apply safe_when, safe_bind; [by apply safe_modify|]. intros _. apply safe_bind; [apply safe_Qa|]. intros _.
    apply safe_when. by apply safe_perform.
  - intros _. apply safe_bind; [|eauto with life]. destruct (c_host cfg); [by apply safe_perform..|eauto with life].
Qed.

Lemma safe_new_strings l : safe_step (new_strings malloc l).
Proof using Hmalloc.
  induction l as [|x l IH]; cbn [new_strings]; [eauto with life|]. apply safe_bind; [|eauto with life].
  unfold new_string. apply safe_bind; [done|]. intros c. apply safe_bind; [by apply safe_modify|eauto with life].
Qed.

Lemma safe_callMain fuel a : safe_step (callMain act malloc main cfg fuel a).
Proof using Hact Hmalloc Hmain.
  unfold callMain. apply safe_bind; [eauto with life|]. intros Ra. apply safe_bind.
  { unfold assert_. case_match; [eauto with life|]. unfold v. apply safe_bind; [by apply safe_perform|]. intros _.
    apply safe_bind; [by apply safe_perform|]. intros _. apply safe_bind; [by apply safe_modify|eauto with life]. }
  intros _. apply safe_bind; [apply safe_initialise|]. intros _. apply safe_bind; [apply safe_new_strings|]. intros ps.
  apply safe_bind; [done|]. intros p. apply safe_bind; [by apply safe_modify|]. intros _. apply safe_catch.
  - apply safe_bind; [apply safe_modify; intros s; by rewrite inits_log|]. intros _. apply safe_bind; [done|].
    intros g. apply safe_pd.
  - intros [g|why| |x [m|]]; [eauto with life|eauto with life|by apply safe_modify| |eauto with life].
    apply safe_bind; [by apply safe_perform|eauto with life].
Qed.

Lemma postRun_plain n s : inits (postRun_loop n s) = inits s ∧ r_calledRun (postRun_loop n s) = r_calledRun s.
Proof.
  revert s. induction n as [|n IH]; intros s; [done|]. cbn [postRun_loop]. destruct (r_postRun s); [done|].
  destruct (IH (set_queue Q_Ua (c :: r_queue (set_postRun l s) Q_Ua) (set_postRun l s))) as [-> ->]. done.
Qed.

Lemma Wa_plain n s : inits (Wa_loop n s) = inits s ∧ r_calledRun (Wa_loop n s) = r_calledRun s.
Proof.
  revert s. induction n as [|n IH]; intros s; [done|]. cbn [Wa_loop]. destruct (r_preRun s) eqn:E; [done|].
  destruct (IH (Wa s)) as [-> ->]. unfold Wa. by rewrite E.
Qed.

(** After a run was called: at most [n] initialisations. *)
Definition upto {A} (n : nat) (m : life A) : Prop :=
  ∀ s, r_calledRun s = true → r_calledRun (m s).2 = true ∧ (inits (m s).2 <= n + inits s)%nat.

Lemma upto_bind {A B} n k (m : life A) (f : A → life B) : upto n m → (∀ a, upto k (f a)) → upto (n + k) (bind m f).
Proof.
  intros Hm Hf s Hs. unfold bind. destruct (Hm s Hs) as [H1 H2]. destruct (m s) as [[a|e|] s1]; simpl in *; [|split; [done|lia]..].
  destruct (Hf a s1 H1) as [H3 H4]. split; [done|lia].
Qed.

Lemma safe_upto {A} (m : life A) : safe_step m → upto 0 m.
Proof.
  intros Hm s Hs. destruct (Hm s) as [H1 H2]. specialize (H1 Hs). split; [done|]. unfold run_credit in H2. rewrite Hs, H1 in H2. lia.
Qed.

Lemma init_upto : upto 1 (perform act OnRuntimeInitialized).
Proof using Hact.
  intros s Hs. set (s1 := set_log (r_log s ++ [OnRuntimeInitialized]) s).
  change ((perform act OnRuntimeInitialized s).2) with ((act OnRuntimeInitialized s1).2).
  destruct (safe_upto _ (Hact OnRuntimeInitialized) s1 Hs) as [H1 H2]. split; [done|].
  assert (inits s1 = S (inits s)) as E; [|lia]. unfold inits, s1. cbn [r_log set_log].
  rewrite filter_app, length_app, filter_cons_True by done. simpl. lia.
Qed.

Lemma safe_qd_b fuel a : safe_step (qd_b act malloc main cfg fuel a).
Proof using Hact Hmalloc Hmain.
  intros s. unfold qd_b. unfold bind at 1. cbn [gets]. destruct (r_calledRun s) eqn:Hc; [reflexivity|]. cbn [negb when].
  unfold bind at 1. cbn [modify]. set (s0 := set_calledRun true s). unfold advances.
  match goal with |- context [inits (?m s0).2] => assert (upto 1 m) as Hm end.
  2: { destruct (Hm s0 eq_refl) as [H1 H2]. split; [done|]. unfold run_credit. rewrite Hc, H1. change (inits s0) with (inits s) in H2. lia. }
  apply (upto_bind 0 1); [apply safe_upto; eauto with life|]. intros [|]; cbn [when negb]; [intros t Ht; split; [done|simpl; lia]|].
  apply (upto_bind 0 1); [apply safe_upto, safe_initialise|]. intros _.
  apply (upto_bind 0 1); [apply safe_upto, safe_Qa|]. intros _. apply (upto_bind 1 0).
  { destruct (c_init cfg); [apply init_upto|]. intros t Ht. split; [done|simpl; lia]. }
  intros _. apply safe_upto. apply safe_bind; [apply safe_when, safe_callMain|]. intros _.
  apply safe_bind; [apply safe_modify; intros t; apply postRun_plain|]. intros _. apply safe_Qa.
Qed.

Lemma safe_qd fuel a : safe_step (qd act malloc main cfg fuel a).
Proof using Hact Hmalloc Hmain.
  unfold qd. apply safe_bind; [apply safe_modify; intros s; apply Wa_plain|]. intros _. apply safe_bind; [apply safe_Qa|]. intros _.
  apply safe_bind; [apply safe_gets|]. intros called. apply safe_when. destruct (c_status cfg); [|apply safe_qd_b].
  apply safe_bind; [by apply safe_perform|]. intros _. by apply safe_modify.
Qed.

Lemma safe_timer fuel : safe_step (timer act malloc main cfg fuel).
Proof using Hact Hmalloc Hmain.
  unfold timer. apply safe_bind; [apply safe_gets|]. intros [|[a|] ts]; [apply safe_ret| |].
  - apply safe_bind; [by apply safe_modify|]. intros _. apply safe_qd_b.
  - apply safe_bind; [by apply safe_modify|]. intros _. by apply safe_perform.
Qed.

(** What can happen to a program: a run, something put off, an exit, a handler
    for the exit. *)
Inductive life_step (s : rt) : rt → Prop :=
  | step_run fuel a : life_step s (qd act malloc main cfg fuel a s).2
  | step_timer fuel : life_step s (timer act malloc main cfg fuel s).2
  | step_exit fuel a b : life_step s (pd act cfg fuel a b s).2
  | step_atexit a b : life_step s (nc a b s).2.

Lemma life_advances s s' : rtc life_step s s' → advances s s'.
Proof using Hact Hmalloc Hmain.
  induction 1 as [|s s1 s' Hst _ IH]; [done|]. etrans; [|exact IH]. destruct Hst.
  - apply safe_qd.
  - apply safe_timer.
  - apply safe_pd.
  - done.
Qed.
End Once.

(** *** What callbacks can do *)

(** A piece of code of the user or the object code, as the steps it takes: it
    looks at the state and changes it, but for [calledRun], calls the runtime's
    functions, catches or passes on what they throw, and may never end. *)
Inductive code (A : Type) : Type :=
  | Done (a : A)
  | Raise (e : exn)
  | Hang
  | Look (k : rt → code A)
  | Change (f : rt → rt) (k : code A)
  | CallRun (a : option (list jsstr)) (k : res unit → code A)
  | CallMain (a : list jsstr) (k : res unit → code A)
  | CallExit (a : Z) (b : bool) (k : res unit → code A)
  | CallAtexit (a b : Z) (k : code A)
  | CallAbort (why : jsstr) (k : res unit → code A).
Arguments Done {A} a.
Arguments Raise {A} e.
Arguments Hang {A}.
Arguments Look {A} k.
Arguments Change {A} f k.
Arguments CallRun {A} a k.
Arguments CallMain {A} a k.
Arguments CallExit {A} a b k.
Arguments CallAtexit {A} a b k.
Arguments CallAbort {A} why k.

(** A change of the state that leaves [calledRun] and the record of calls. *)
Definition changed (f : rt → rt) (s : rt) : rt := set_log (r_log s) (set_calledRun (r_calledRun s) (f s)).

Section Code.
Context (cfg : config) (fuel : nat).

(** Go on with what a call returned or threw. *)
Definition resume {A} (m : life unit) (k : res unit → life A) : life A := fun s =>
  match m s with
  | (Endless, s) => (Endless, s)
  | (r, s) => k r s
  end.

Section Meaning.
Context (act : action → life unit) (malloc : Z → life Z) (main : Z → Z → life Z).

Fixpoint run_code {A} (c : code A) : life A :=
  match c with
  | Done a => ret a
  | Raise e => throw e
  | Hang => fun s => (Endless, s)
  | Look k => fun s => run_code (k s) s
  | Change f k => fun s => run_code k (changed f s)
  | CallRun a k => resume (qd act malloc main cfg fuel a) (fun r => run_code (k r))
  | CallMain a k => resume (callMain act malloc main cfg fuel a) (fun r => run_code (k r))
  | CallExit a b k => resume (pd act cfg fuel a b) (fun r => run_code (k r))
  | CallAtexit a b k => bind (nc a b) (fun _ => run_code k)
  | CallAbort why k => resume (v act why) (fun r => run_code (k r))
  end.

Context (Hact : ∀ a, safe_step (act a)) (Hmalloc : ∀ n, safe_step (malloc n)) (Hmain : ∀ c p, safe_step (main c p)).

Lemma safe_resume {A} m (k : res unit → life A) : safe_step m → (∀ r, safe_step (k r)) → safe_step (resume m k).
Proof using.
  intros Hm Hk s. unfold resume. specialize (Hm s). destruct (m s) as [[a|e|] s1]; [..|exact Hm]; (etrans; [exact Hm|apply Hk]).
Qed.

Lemma safe_v why : safe_step (v act why).
Proof using Hact.
  unfold v. apply safe_bind; [by apply safe_perform|]. intros _. apply safe_bind; [by apply safe_perform|]. intros _.
  apply safe_bind; [by apply safe_modify|]. intros _. apply safe_throw.
Qed.

Lemma safe_code {A} (c : code A) : safe_step (run_code c).
Proof using Hact Hmalloc Hmain.
  induction c as [a|e| |k IH|f k IH|a k IH|a k IH|a b k IH|a b k IH|why k IH]; cbn [run_code].
  - apply safe_ret.
  - apply safe_throw.
  - intros s. reflexivity.
  - intros s. apply IH.
  - intros s. etrans; [|apply IH]. by apply advances_same.
  - apply safe_resume; [by apply safe_qd|done].
  - apply safe_resume; [by apply safe_callMain|done].
  - apply safe_resume; [by apply safe_pd|done].
  - apply safe_bind; [by apply safe_modify|done].
  - apply safe_resume; [by apply safe_v|done].
Qed.
End Meaning.

(** ** Callbacks that run the program

    What the callbacks, the allocator and [main] are, as code; the code may run the
    program, whose callbacks are the same.  [depth] counts the nested calls the
    engine's stack allows. *)
Record user : Type := mkUser { u_act : action → code unit; u_malloc : Z → code Z; u_main : Z → Z → code Z }.

Context (u : user).

Definition stack_overflow : exn := Thrown 0 (Some (js "RangeError")).

Record powers : Type := mkPowers { p_act : action → life unit; p_malloc : Z → life Z; p_main : Z → Z → life Z }.

Fixpoint nested (depth : nat) : powers :=
  match depth with
  | O => mkPowers (fun _ => throw stack_overflow) (fun _ => throw stack_overflow) (fun _ _ => throw stack_overflow)
  | S depth' =>
      let p := nested depth' in
      mkPowers (fun a => run_code (p_act p) (p_malloc p) (p_main p) (u_act u a))
        (fun n => run_code (p_act p) (p_malloc p) (p_main p) (u_malloc u n))
        (fun c q => run_code (p_act p) (p_malloc p) (p_main p) (u_main u c q))
  end.

Lemma nested_safe depth :
  (∀ a, safe_step (p_act (nested depth) a)) ∧ (∀ n, safe_step (p_malloc (nested depth) n)) ∧
  (∀ c q, safe_step (p_main (nested depth) c q)).
Proof using.
  induction depth as [|depth (H1 & H2 & H3)]; cbn [nested p_act p_malloc p_main].
  - split_and!; intros; apply safe_throw.
  - split_and!; intros; by apply safe_code.
Qed.
End Code.

(** ** The arguments of [main] *)

Lemma slab_word ps k : zlookup (argv_slab ps) (4 * Z.of_nat k) =
  match ps !! k with Some p => Some p | None => if decide (k = length ps) then Some 0 else None end.
Proof.
  unfold argv_slab. revert k. induction ps as [|p ps IH]; intros [|k]; [done| |done|].
  - cbn [fmap list_fmap concat app]. rewrite decide_False by (simpl; lia). unfold zlookup.
    rewrite (proj2 (Z.leb_le _ _)) by lia. rewrite lookup_nil. apply lookup_ge_None. simpl. lia.
  - cbn [fmap list_fmap concat app]. replace (4 * Z.of_nat (S k)) with (4 * Z.of_nat k + 4) by lia.
    specialize (IH k). unfold zlookup in *. rewrite (proj2 (Z.leb_le _ _)) in IH by lia. rewrite (proj2 (Z.leb_le _ _)) by lia.
    replace (Z.to_nat (4 * Z.of_nat k + 4)) with (S (S (S (S (Z.to_nat (4 * Z.of_nat k)))))) by lia.
    cbn [lookup list_lookup length]. etransitivity; [exact IH|]. destruct (ps !! k); [done|].
    destruct (decide (k = length ps)), (decide (S k = S (length ps))); done || lia.
Qed.

Lemma slab_length ps : length (argv_slab ps) = (4 * length ps + 1)%nat.
Proof.
  unfold argv_slab. rewrite length_app. cbn [length].
  assert (length (concat ((fun p : Z => [p; 0; 0; 0]%Z) <$> ps)) = 4 * length ps)%nat as ->; [|lia].
  induction ps as [|p ps IH]; [done|]. cbn [fmap list_fmap concat length app]. rewrite IH. lia.
Qed.

Section Words.
Context (a : list Z) (c : Z) (n : nat) (w : nat → Z).
Context (Ha : ∀ k, zlookup a (4 * Z.of_nat k) = if decide (k <= n)%nat then Some (w k) else None).
Context (Hc : 0 <= c ∧ c mod 4 = 0) (Hw : ∀ k, (k <= n)%nat → 0 <= w k < 2 ^ 31).

Lemma word_aligned k : (c + 4 * Z.of_nat k) mod 4 = 0.
Proof using Hc. replace (c + 4 * Z.of_nat k) with (c + Z.of_nat k * 4) by lia. rewrite Z.mod_add by lia. tauto. Qed.

Lemma B_words_spec fuel j E : (n < j + fuel)%nat → ∀ k,
  load32s (B_words fuel a c (4 * Z.of_nat j) E) (c + 4 * Z.of_nat k) =
  if decide (j <= k <= n)%nat then w k else load32s E (c + 4 * Z.of_nat k).
Proof using Ha Hc Hw.
  revert j E. induction fuel as [|fuel IH]; intros j E Hf k; cbn [B_words].
  - by rewrite decide_False by lia.
  - rewrite Ha. destruct (decide (j <= n)%nat) as [Hj|Hj]; [|by rewrite decide_False by lia].
    replace (4 * Z.of_nat j + 4) with (4 * Z.of_nat (S j)) by lia. rewrite IH by lia.
    destruct (decide (S j <= k <= n)%nat) as [Hk|Hk]; [by rewrite decide_True by lia|].
    destruct (decide (k = j)) as [->|Hne].
    + rewrite decide_True by lia. apply load32s_stored; [apply word_aligned|by apply Hw].
    + rewrite decide_False by lia. apply load32s_store32_other; [apply word_aligned..|lia].
Qed.
End Words.

(** The words at the address given to [main]: the pointers, then 0. *)
Lemma argv_words ps c E : 0 <= c → c mod 4 = 0 → Forall (fun p => 0 <= p < 2 ^ 31) ps →
  let E' := B_words (length (argv_slab ps)) (argv_slab ps) c 0 E in
  (∀ k p, ps !! k = Some p → load32s E' (c + 4 * Z.of_nat k) = p) ∧ load32s E' (c + 4 * Z.of_nat (length ps)) = 0.
Proof.
  intros Hc Hm Hps E'.
  assert (∀ k, zlookup (argv_slab ps) (4 * Z.of_nat k) = if decide (k <= length ps)%nat then Some (default 0 (ps !! k)) else None) as Ha.
  { intros k. rewrite slab_word. destruct (ps !! k) as [p|] eqn:E0.
    - apply lookup_lt_Some in E0. by rewrite decide_True by lia.
    - apply lookup_ge_None in E0. by repeat (case_decide; try lia). }
  assert (∀ k, (k <= length ps)%nat → 0 <= default 0 (ps !! k) < 2 ^ 31) as Hw.
  { intros k _. destruct (ps !! k) as [p|] eqn:E0; simpl; [|lia]. rewrite Forall_lookup in Hps. by eapply Hps. }
  assert (length ps < 0 + length (argv_slab ps))%nat as Hl.
  { rewrite slab_length. lia. }
  pose proof (B_words_spec (argv_slab ps) c (length ps) (fun k => default 0 (ps !! k)) Ha (conj Hc Hm) Hw _ 0 E Hl) as H.
  change (4 * Z.of_nat 0) with 0 in H. fold E' in H. split.
  - intros k p Hk. rewrite H, Hk, decide_True; [done|]. apply lookup_lt_Some in Hk. lia.
  - rewrite H, decide_True by lia. by rewrite (proj2 (lookup_ge_None ps (length ps))) by lia.
Qed.
