(* ===== verification/VizObjProps.v ===== *)
(** * Properties of the object code and of the runtime's life *)

From Stdlib Require Import ZArith Lia.
From stdpp Require Import base list gmap strings relations.
From S2P Require Import Prelude VizData VizRuntime VizFacts VizFile VizMemory VizEnv VizColors VizEntities.
From S2P Require Import VizInt64 VizInt64Facts VizDivision VizLibc VizLibcFacts VizLookup VizLookupFacts VizText VizTextFacts.
From S2P Require Import VizLife VizLifeFacts.

Open Scope Z_scope.

(** ** Integers *)

(** C35: the 64-bit arithmetic on pairs of 32-bit words is arithmetic modulo
    2^64: sums, differences, products, shifts to the left and both shifts to the
    right, for any words and any shift below 64.  The product [GB] of two words
    does not overflow. *)
Theorem int64_arithmetic (a b c d n : Z) :
  0 <= n < 64 →
  v64 (wB a b c d) = u64 (v64 (a, b) + v64 (c, d)) ∧
  v64 (vB a b c d) = u64 (v64 (a, b) - v64 (c, d)) ∧
  v64 (JB a b c d) = u64 (v64 (a, b) * v64 (c, d)) ∧
  v64 (GB a b) = u32 a * u32 b ∧
  v64 (DB a b n) = u64 (v64 (a, b) * 2 ^ n) ∧
  v64 (yB a b n) = v64 (a, b) / 2 ^ n ∧
  v64 (EB a b n) = u64 (i64 (v64 (a, b)) / 2 ^ n).
Proof.
  intros Hn.
  exact (conj (wB_spec a b c d) (conj (vB_spec a b c d) (conj (JB_spec a b c d)
    (conj (GB_spec a b) (conj (DB_spec a b n Hn) (conj (yB_spec a b n Hn) (EB_spec a b n Hn))))))).
Qed.

Lemma int64_arithmetic_witness :
  v64 (DB 3000000000 1 33) = u64 (v64 (3000000000, 1) * 2 ^ 33) ∧ DB 3000000000 1 33 = (0, 1705032704).
Proof. split; [apply (int64_arithmetic 3000000000 1 0 0 33); lia|vm_compute; reflexivity]. Defined.

(** A memory that holds the table of trailing zeros at [m]. *)
Definition table_memory (m : Z) : heap := E_set nd m fresh_memory.

Lemma table_memory_holds m : holds (table_memory m) m nd.
Proof. intros j x Hj. unfold table_memory, E_set. replace (m + j - m) with j by lia. by rewrite Hj. Qed.

(** C26: 64-bit division.  In a memory with the table of trailing zeros at [m],
    [MB] returns the quotient of the words read as 64-bit numbers without sign
    and stores the remainder where asked, and nowhere else; [KB] and [LB] return
    the quotient and the remainder; [HB] and [IB] do so for signed numbers, the
    quotient rounded towards zero and the remainder with the sign of the
    dividend.  Division by zero gives 0. *)
Theorem int64_division (m i a b d e f : Z) (E : heap) :
  holds E m nd → apart (i32 f) m → stack_slot i m →
  (∃ lo hi r s, MB m a b d e f E = (lo, hi, put_rem (i32 f) r s E) ∧
     v64 (lo, hi) = quot64 (v64 (a, b)) (v64 (d, e)) ∧ v64 (r, s) = rem64 (v64 (a, b)) (v64 (d, e))) ∧
  (∃ lo hi, KB m a b d e E = (lo, hi, E) ∧ v64 (lo, hi) = quot64 (v64 (a, b)) (v64 (d, e))) ∧
  (∃ lo hi E', LB m i a b d e E = (lo, hi, E') ∧ v64 (lo, hi) = rem64 (v64 (a, b)) (v64 (d, e))) ∧
  (∃ lo hi, HB m a b d e E = (lo, hi, E) ∧
     v64 (lo, hi) = if signed64 (d, e) =? 0 then 0 else u64 (Z.quot (signed64 (a, b)) (signed64 (d, e)))) ∧
  (∃ lo hi E', IB m i a b d e E = (lo, hi, E') ∧
     v64 (lo, hi) = if signed64 (d, e) =? 0 then 0 else u64 (Z.rem (signed64 (a, b)) (signed64 (d, e)))).
Proof.
  intros Ht Hf Hi. split; [by apply MB_spec|]. split; [by apply KB_spec|]. split; [by apply LB_spec|].
  split; [by apply HB_spec|by apply IB_spec].
Qed.

Lemma int64_division_witness :
  ∃ lo hi, KB 1000 (-1) (-1) 10 0 (table_memory 1000) = (lo, hi, table_memory 1000) ∧
    v64 (lo, hi) = quot64 (v64 (-1, -1)) (v64 (10, 0)).
Proof.
  destruct (int64_division 1000 2000 (-1) (-1) 10 0 0 (table_memory 1000)) as (_ & H & _).
  - apply table_memory_holds.
  - by left.
  - unfold stack_slot. split_and!; vm_compute; try discriminate; try reflexivity. right. discriminate.
  - exact H.
Defined.

(** ** Memory and strings *)

(** C30: [BB] ([memmove]) copies [n] bytes whether the blocks overlap or not: the
    target holds what the source held before, and nothing else changes.  [AB]
    ([memcpy]) does the same when it may copy forwards, and [CB] ([memset])
    fills a block; each returns the target.  They work a word at a time where
    the addresses allow it. *)
Theorem memory_moves (b d n v : Z) (E : heap) :
  bytes E → block b n → block d n →
  ((BB b d n E).1 = b ∧ same (BB b d n E).2 (copied b d n E)) ∧
  (forward b d n → (AB b d n E).1 = b ∧ same (AB b d n E).2 (copied b d n E)) ∧
  ((CB b v n E).1 = b ∧ same (CB b v n E).2 (filled b n (u8 v) E)).
Proof.
  intros HE Hb Hd. split; [by apply BB_spec|]. split; [intros Hf; by apply AB_spec|by apply CB_spec].
Qed.

(** The bytes 0 to 255 again and again. *)
Definition counting : heap := fun a => a mod 256.

Lemma memory_moves_witness :
  (BB 1003 1000 40 counting).1 = 1003 ∧ same (BB 1003 1000 40 counting).2 (copied 1003 1000 40 counting).
Proof.
  assert (bytes counting) as Hb by (intros x; apply Z.mod_pos_bound; lia).
  exact (proj1 (memory_moves 1003 1000 40 0 counting Hb ltac:(unfold block; lia) ltac:(unfold block; lia))).
Defined.

(** C36: on terminated strings [pA] ([strlen]) is the length, [lA] ([strcmp]) the
    difference of the first bytes that differ, [hA] ([strcasecmp]) that of the
    strings in lower case, and [dA] ([memcmp]) the difference of blocks; the loops
    end, with fuel for the length of the string. *)
Theorem string_functions (E : heap) (p q : Z) (s t : list Z) (fuel : nat) :
  bytes E → string_at E p s → string_at E q t → (length s < fuel)%nat →
  pA fuel E p = Some (zlength s) ∧ lA fuel E p q = Some (bytes_diff s t) ∧
  hA fuel E p q = Some (bytes_diff (lower <$> s) (lower <$> t)) ∧
  (length s = length t → dA E p q (zlength s) = bytes_diff s t).
Proof.
  intros HE Hs Ht Hf. split; [by apply pA_spec|]. split; [by apply lA_spec|]. split; [apply hA_spec; [done..|lia]|].
  intros Hl. destruct Hs as (_ & Hs & Hp), Ht as (_ & Ht & Hq).
  apply holds_app_inv in Hs as [Hs _]. apply holds_app_inv in Ht as [Ht _].
  assert (zlength t = zlength s) as Hz by (unfold zlength; lia). rewrite Hz in Hq.
  pose proof (zlength_nonneg s). unfold block in *. apply dA_spec; unfold block; done || lia.
Qed.

(** A terminated string in a memory. *)
Definition with_string (p : Z) (s : list Z) (E : heap) : heap := E_set (s ++ [0]) p E.

Lemma with_string_at p s E : Forall (fun x => 0 < x < 256) s → block p (zlength s + 1) → string_at (with_string p s E) p s.
Proof.
  intros Hs Hp. split; [done|]. split; [|done]. intros j x Hj. unfold with_string, E_set.
  replace (p + j - p) with j by lia. by rewrite Hj.
Qed.

Lemma with_string_bytes p s E : Forall (fun x => 0 < x < 256) s → bytes E → bytes (with_string p s E).
Proof.
  intros Hs HE x. unfold with_string, E_set. destruct (zlookup (s ++ [0]) (x - p)) as [y|] eqn:Hy; [|done].
  unfold zlookup in Hy. destruct (0 <=? x - p); [|done]. apply list_elem_of_lookup_2, elem_of_app in Hy as [Hy|Hy].
  - rewrite Forall_forall in Hs. specialize (Hs y Hy). lia.
  - apply list_elem_of_singleton in Hy as ->. lia.
Qed.

Lemma string_functions_witness :
  let E := with_string 1001 (js "Rank") counting in
  hA 10 E 1001 1001 = Some 0 ∧ pA 10 E 1001 = Some 4.
Proof.
  intros E. assert (string_at E 1001 (js "Rank")) as Hs.
  { apply with_string_at; [repeat constructor|vm_compute; repeat split; discriminate || reflexivity]. }
  assert (bytes E) as Hb by (apply with_string_bytes; [repeat constructor|intros x; apply Z.mod_pos_bound; lia]).
  destruct (string_functions E 1001 1001 (js "Rank") (js "Rank") 10 Hb Hs Hs ltac:(apply Nat.ltb_lt; reflexivity)) as (H1 & _ & H3 & _).
  rewrite H1, H3. split; reflexivity.
Defined.

(** ** Names *)

(** C29: the search for a colour.  In a memory with the tables of the static data
    in place, [find_color] on a pointer to a name returns the entry of the table
    whose name is the given one in lower case, and 0 exactly when the table has
    none: the table is sorted the way the binary search and the comparison
    expect, for all 2491 names. *)
Theorem color_lookup (fuel : nat) (E : heap) (B : Z) (s : list Z) :
  tables_in_place E → string_at E (load32s E B) s → (length s <= fuel)%nat →
  ∃ r, find_color fuel E B = Some r ∧
    ((∃ k, 0 <= k < color_count ∧ color_list !! Z.to_nat k = Some (lower <$> s) ∧ r = color_table + k * 12) ∨
     (r = 0 ∧ (lower <$> s) ∉ color_list)).
Proof. exact (find_color_spec fuel E B s). Qed.

(** C27: the scan of an entity.  In a memory with the tables in place and a text
    behind the pointer at [b], [Dt] returns the character the text after an
    ampersand stands for and moves the pointer past it, as the scan of the text
    itself says ([entity_scan] with the list of the 252 entities); it changes no
    memory but the pointer and its stack frame. *)
Theorem entity_lookup (fuel : nat) (E : heap) (i b d : Z) (s : list Z) :
  (8 < fuel)%nat → scan_ready E i b d s →
  ∃ E', Dt fuel i b E = Some ((entity_scan entity_list s).1, E') ∧ scanned E E' i b d (entity_scan entity_list s).2.
Proof. intros Hf Hr. exact (Dt_spec fuel Hf E i b d s Hr). Qed.

(** A text above the static data, and a pointer to it. *)
Definition with_text (s : list Z) (E : heap) : heap := store32 200000 210000 (with_string 210000 s E).

Lemma with_text_ready s E : tables_in_place E → Forall (fun x => 0 < x < 256) s → zlength s < 1000 →
  tables_in_place (with_text s E) ∧ load32s (with_text s E) 200000 = 210000 ∧ string_at (with_text s E) 210000 s.
Proof.
  intros HE Hs Hl. pose proof (zlength_nonneg s) as H0.
  assert (∀ x, x < 200000 ∨ 200004 <= x → with_text s E x = with_string 210000 s E x) as Hx.
  { intros x Hx. unfold with_text, store32. change (Z.shiftl (Z.shiftr 200000 2) 2) with 200000. apply E_set_other.
    autorewrite with zlist. lia. }
  split_and!.
  - apply (tables_ext E); [|done]. intros x Hr. change static_end with 175736 in Hr. rewrite Hx by lia.
    unfold with_string. apply E_set_other. lia.
  - apply load32s_stored; [done|lia].
  - apply (string_at_ext (with_string 210000 s E)); [intros x Hr; apply Hx; lia|].
    apply with_string_at; [done|unfold block; lia].
Qed.

Lemma with_text_scan s E : tables_in_place E → Forall (fun x => 0 < x < 256) s → zlength s < 1000 →
  scan_ready (with_text s E) 220000 200000 210000 s.
Proof.
  intros HE Hs Hl. destruct (with_text_ready s E HE Hs Hl) as (H1 & H2 & H3). pose proof (zlength_nonneg s).
  split; [done|done|done|unfold block; split; [lia|done]| |unfold disjoint; lia].
  change static_end with 175736. unfold block. split_and!; try lia. done.
Qed.

Lemma color_lookup_witness :
  ∃ r, find_color 10 (with_text (js "Red") static_memory) 200000 = Some r ∧
    ((∃ k, 0 <= k < color_count ∧ color_list !! Z.to_nat k = Some (lower <$> js "Red") ∧ r = color_table + k * 12) ∨
     (r = 0 ∧ (lower <$> js "Red") ∉ color_list)).
Proof.
  destruct (with_text_ready (js "Red") static_memory tables_static ltac:(repeat constructor) ltac:(reflexivity)) as (H1 & H2 & H3).
  apply color_lookup; [exact H1|rewrite H2; exact H3|apply Nat.leb_le; reflexivity].
Defined.

Lemma entity_lookup_witness :
  ∃ E', Dt 10 220000 200000 (with_text (js "alpha;x") static_memory) = Some ((entity_scan entity_list (js "alpha;x")).1, E') ∧
    scanned (with_text (js "alpha;x") static_memory) E' 220000 200000 210000 (entity_scan entity_list (js "alpha;x")).2.
Proof.
  apply entity_lookup; [apply Nat.ltb_lt; reflexivity|].
  exact (with_text_scan (js "alpha;x") static_memory tables_static ltac:(repeat constructor) ltac:(reflexivity)).
Defined.

(** ** Labels *)

(** C28: the text of labels.  For a label written as characters (in UTF-8 for [ft],
    in Latin-1 for [gt]), names of the table of less than eight letters, and
    numbers of up to six decimal or five hexadecimal digits, the result is, piece
    by piece, the characters of [ft] as they are, and for the characters of [gt]
    and the entities [text_char] of their value (an ampersand for 0).  These bytes
    are the UTF-8 of a character exactly when it is below 65536 and neither 127 nor
    2047; so they are for every entity of the table but [thetasym], which has eight
    letters and is left as it is written.  A string of JavaScript whose
    ampersands are written [&amp;] comes back from [ft] and [Ca] as it was. *)
Theorem labels_decoded (ps qs : list piece) (s : jsstr) :
  forallb (utf8_piece entity_list) ps = true → forallb (latin1_piece entity_list) qs = true → wf16 s = true →
  ft entity_list (concat (piece_text char_bytes <$> ps)) = concat (drawn entity_list char_bytes <$> ps) ∧
  gt entity_list (concat (piece_text (fun h => [h]) <$> qs)) = concat (drawn entity_list text_char <$> qs) ∧
  (∀ v, 0 < v < 1114112 → text_char v = char_bytes v ↔ v < 65536 ∧ v ≠ 127 ∧ v ≠ 2047) ∧
  (∀ nm v, (nm, v) ∈ entity_list → nm ≠ thetasym →
     recognised entity_list (Named nm) = true ∧ drawn entity_list char_bytes (Named nm) = char_bytes v) ∧
  ft entity_list (38 :: thetasym ++ [59]) = 38 :: thetasym ++ [59] ∧
  Ca (ft entity_list (concat (piece_text char_bytes <$> escaped s)) ++ [0]) = s.
Proof.
  intros Hp Hq Hs. split; [by apply ft_pieces|]. split; [by apply gt_pieces|]. split; [apply text_char_iff|].
  split; [apply entity_recognised|]. split; [vm_compute; reflexivity|].
  assert (∀ tab, assoc amp tab = Some 38 → Ca (ft tab (concat (piece_text char_bytes <$> escaped s)) ++ [0]) = s) as H.
  { intros tab Hamp. unfold ft. rewrite ft_pieces, escaped_drawn; [|done|by apply escaped_ok|done].
    unfold Ca. apply Ca_chars; [done|lia|]. rewrite length_app. simpl. lia. }
  exact (H entity_list amp_entity).
Qed.

(** Among them a number that is no UTF-8 afterwards, and one without digits. *)
Definition demo_label : list piece :=
  [Char 97; Named (js "alpha"); Decimal (js "8364"); Hexadecimal 120 (js "3b1"); Char 128512; Decimal (js "127"); Decimal []].

Lemma labels_decoded_witness :
  ft entity_list (concat (piece_text char_bytes <$> demo_label)) = concat (drawn entity_list char_bytes <$> demo_label) ∧
  concat (drawn entity_list char_bytes <$> demo_label) =
    utf8_bytes [97; 945; 8364; 945; 128512] ++ [193; 191] ++ [38].
Proof.
  split; [|vm_compute; reflexivity].
  exact (proj1 (labels_decoded demo_label [] [] ltac:(vm_compute; reflexivity) ltac:(reflexivity) ltac:(reflexivity))).
Defined.

(** ** The runtime's life *)









(** ** Findings *)

(** [&thetasym;] is in the table and can never be found: the scan copies at most
    eight characters, the semicolon included. *)
Theorem thetasym_not_recognised (rest : list Z) :
  assoc thetasym entity_list = Some 977 ∧ entity_scan entity_list (thetasym ++ 59 :: rest) = (0, 0).
Proof. split; [vm_compute; reflexivity|]. generalize entity_list. intros tab. reflexivity. Qed.

(** A number without digits stands for no character, but the text is moved past
    it: [a&#;b] is drawn as [a&b]. *)
Theorem empty_number_dropped : ft entity_list (js "a&#;b") = js "a&b" ∧ ft entity_list (js "a&#x;b") = js "a&b".
Proof. split; vm_compute; reflexivity. Qed.

(** Numbers above 65535 are encoded in three bytes, the first of which is no
    first byte of UTF-8. *)
Theorem large_number_mangled :
  ft entity_list (js "&#128512;") = [255; 152; 128] ∧ char_bytes 128512 = [240; 159; 152; 128].
Proof. split; vm_compute; reflexivity. Qed.

(** The bounds of the encoding are off by one: 127 and 2047 get one byte more
    than in UTF-8, and decoders refuse such forms. *)
Theorem overlong_characters :
  gt entity_list [127] = [193; 191] ∧ char_bytes 127 = [127] ∧
  ft entity_list (js "&#2047;") = [224; 159; 191] ∧ char_bytes 2047 = [223; 191].
Proof. split_and!; vm_compute; reflexivity. Qed.

(** The table of [main]'s arguments is written past its end: for one argument five
    bytes are allocated and eight are written. *)
Theorem argv_overruns :
  zlength (argv_slab [1000]) = 5 ∧
  B_words (length (argv_slab [1000])) (argv_slab [1000]) 64 0 (fun _ => 255) (64 + 7) = 0.
Proof. split; vm_compute; reflexivity. Qed.
