(* ===== verification/VizLoop.v ===== *)
(** * The main loop of the runtime

    [Hc] ([emscripten_set_main_loop]) makes the browser call the main function
    again and again: it sets [Ec], the body of a turn, and [Z], which asks the
    browser for the next turn; [Ac] chooses how [Z] asks, [e.pauseMainLoop] and
    [e.resumeMainLoop] stop and start the loop.  [Jc] counts the generations of
    the loop, so that a turn asked for before a pause does nothing.

    The turns asked for and not yet taken are the list [pending]; the browser
    may take them in any order.  What the main function, [preMainLoop] and
    [postMainLoop] do at a frame is a parameter: a
    list of commands that change the loop, and how it ends.  The texts on the
    progress of blockers ([Lc], [Mc]) and warnings are left out. *)

From Stdlib Require Import ZArith Lia.
From stdpp Require Import base list.
From S2P Require Import Prelude.

Open Scope Z_scope.

(** How [Z] asks for a turn, and [Fc]. *)
Inductive sched : Type := SetTimeout (ms : Z) | AnimationFrame | Immediate.
Inductive method : Type := MNone | MTimeout | MAnimationFrame | MImmediate.

(** A value of [Ec]: the variables [a], [d] and [g] it was made with. *)
Record turn : Type := mkTurn { t_fun : option Z; t_arg : option Z; t_gen : Z }.

Record loop : Type := mkLoop {
  Bc : Z;                           (* mode and value of the timing *)
  Cc : Z;
  Dc : option Z;                    (* the main function *)
  Ic : option Z;                    (* its argument *)
  Z_ : option sched;
  Fc : method;
  Jc : Z;                           (* the generation *)
  Nc : Z;                           (* the frames so far *)
  Ec : option turn;
  Kc : list Z;                      (* blockers *)
  w : bool;                         (* aborted *)
  noExitRuntime : bool;
  pending : list (sched * option turn);
  calls : list Z                    (* the frames at which the main function was called *)
}.

Definition loop0 : loop := mkLoop 0 0 None None None MNone 0 0 None [] false false [] [].

Inductive err : Type := TypeError | AssertionFailed | InfiniteLoop | ExitStatus | Thrown (x : Z).
Definition ret_loop : Type := option err * loop.

Definition set_timing b c l := mkLoop b c (Dc l) (Ic l) (Z_ l) (Fc l) (Jc l) (Nc l) (Ec l) (Kc l) (w l) (noExitRuntime l) (pending l) (calls l).
Definition set_Dc d l := mkLoop (Bc l) (Cc l) d (Ic l) (Z_ l) (Fc l) (Jc l) (Nc l) (Ec l) (Kc l) (w l) (noExitRuntime l) (pending l) (calls l).
Definition set_Z z f l := mkLoop (Bc l) (Cc l) (Dc l) (Ic l) z f (Jc l) (Nc l) (Ec l) (Kc l) (w l) (noExitRuntime l) (pending l) (calls l).
Definition set_Jc j l := mkLoop (Bc l) (Cc l) (Dc l) (Ic l) (Z_ l) (Fc l) j (Nc l) (Ec l) (Kc l) (w l) (noExitRuntime l) (pending l) (calls l).
Definition set_Nc n l := mkLoop (Bc l) (Cc l) (Dc l) (Ic l) (Z_ l) (Fc l) (Jc l) n (Ec l) (Kc l) (w l) (noExitRuntime l) (pending l) (calls l).
Definition set_main d i e l := mkLoop (Bc l) (Cc l) d i (Z_ l) (Fc l) (Jc l) (Nc l) e (Kc l) (w l) (noExitRuntime l) (pending l) (calls l).
Definition set_Kc k l := mkLoop (Bc l) (Cc l) (Dc l) (Ic l) (Z_ l) (Fc l) (Jc l) (Nc l) (Ec l) k (w l) (noExitRuntime l) (pending l) (calls l).
Definition set_w b l := mkLoop (Bc l) (Cc l) (Dc l) (Ic l) (Z_ l) (Fc l) (Jc l) (Nc l) (Ec l) (Kc l) b (noExitRuntime l) (pending l) (calls l).
Definition set_noExit b l := mkLoop (Bc l) (Cc l) (Dc l) (Ic l) (Z_ l) (Fc l) (Jc l) (Nc l) (Ec l) (Kc l) (w l) b (pending l) (calls l).
Definition set_pending p l := mkLoop (Bc l) (Cc l) (Dc l) (Ic l) (Z_ l) (Fc l) (Jc l) (Nc l) (Ec l) (Kc l) (w l) (noExitRuntime l) p (calls l).
Definition set_calls c l := mkLoop (Bc l) (Cc l) (Dc l) (Ic l) (Z_ l) (Fc l) (Jc l) (Nc l) (Ec l) (Kc l) (w l) (noExitRuntime l) (pending l) c.

(** [m1;m2], which stops at an exception. *)
Definition seq_ (m1 m2 : loop → ret_loop) : loop → ret_loop := fun l =>
  match m1 l with (None, l) => m2 l | r => r end.

(** [!Dc]: there is no main function, or its number is 0. *)
Definition unset (d : option Z) : bool := match d with None => true | Some n => n =? 0 end.

(** [Ac(a,b)]. *)
Definition Ac (a b : Z) (l : loop) : Z * loop :=
  let l := set_timing a b l in
  if unset (Dc l) then (1, l)
  else
    (0, if a =? 0 then set_Z (Some (SetTimeout b)) MTimeout l
        else if a =? 1 then set_Z (Some AnimationFrame) MAnimationFrame l
        else if a =? 2 then set_Z (Some Immediate) MImmediate l
        else l).

(** [Z()]: the turn asked for is the current [Ec]. *)
Definition call_Z (l : loop) : ret_loop :=
  match Z_ l with
  | None => (Some TypeError, l)
  | Some m => (None, set_pending (pending l ++ [(m, Ec l)]) l)
  end.

Section Loop.
(** [1E3/b]. *)
Context (per_second : Z → Z).

(** [Hc(a,b,c,d,f)]. *)
Definition Hc (a : option Z) (b : Z) (c : bool) (d : option Z) (f : bool) (l : loop) : ret_loop :=
  let l := set_noExit true l in
  if negb (unset (Dc l)) then (Some AssertionFailed, set_w true l)
  else
    let l := set_main a d (Some (mkTurn a d (Jc l))) l in
    seq_ (fun l => if f then (None, l) else call_Z (if 0 <? b then Ac 0 (per_second b) l else Ac 1 1 l).2)
      (fun l => (if c then Some InfiniteLoop else None, l)) l.

Definition pauseMainLoop (l : loop) : loop := set_Jc (Jc l + 1) (set_Z None (Fc l) l).

Definition resumeMainLoop (l : loop) : ret_loop :=
  let l := set_Jc (Jc l + 1) l in
  let a := Bc l in let b := Cc l in let c := Dc l in
  seq_ (Hc c 0 false (Ic l) true) (fun l => call_Z (Ac a b l).2) (set_Dc None l).

(** ** A turn *)

Inductive cmd : Type := Pause | Resume | Timing (a b : Z) | Start (a b : Z) (c : bool) (d : option Z) | Aborts.
Inductive ending : Type := Returns | Exits | Throws (x : Z).

(** What the three functions do at a frame, and whether [preMainLoop] returns
    something else than [false]; one that is not there does nothing. *)
Record program : Type := mkProgram {
  main : Z → list cmd * ending;
  preMainLoop : Z → list cmd * ending * bool;
  postMainLoop : Z → list cmd * ending
}.

Context (prog : program) (warns : bool).

Definition run_cmd (c : cmd) (l : loop) : ret_loop :=
  match c with
  | Pause => (None, pauseMainLoop l)
  | Resume => resumeMainLoop l
  | Timing a b => (None, (Ac a b l).2)
  | Start a b c d => Hc (Some a) b c d false l
  | Aborts => (Some (Thrown 0), set_w true l)
  end.

Fixpoint run_cmds (cs : list cmd) (l : loop) : ret_loop :=
  match cs with [] => (None, l) | c :: cs => seq_ (run_cmd c) (run_cmds cs) l end.

(** A call whose exceptions go on. *)
Definition run_user (p : list cmd * ending) : loop → ret_loop :=
  seq_ (run_cmds p.1)
    (fun l => (match p.2 with Returns => None | Exits => Some ExitStatus | Throws x => Some (Thrown x) end, l)).

(** [Oc]: the exception of [exit] thrown by the main function ends the call; others go on. *)
Definition Oc (l : loop) : ret_loop :=
  if w l then (None, l)
  else
    seq_ (run_user (preMainLoop prog (Nc l)).1)
      (fun l =>
         if negb (preMainLoop prog (Nc l)).2 then (None, l)
         else
           match run_user (main prog (Nc l)) (set_calls (calls l ++ [Nc l]) l) with
           | (None, l) => run_user (postMainLoop prog (Nc l)) l
           | (Some ExitStatus, l) => (None, l)
           | r => r
           end) l.

(** The function [Ec] made with [t]. *)
Definition take_turn (t : turn) (l : loop) : ret_loop :=
  let g := t_gen t in
  if w l then (None, l)
  else match Kc l with
  | _ :: ks => (None, let l := set_Kc ks l in set_pending (pending l ++ [(SetTimeout 0, Ec l)]) l)
  | [] =>
      if g <? Jc l then (None, l)
      else
        let l := set_Nc (i32 (Nc l + 1)) l in
        if (Bc l =? 1) && (1 <? Cc l) && negb (Z.rem (Nc l) (Cc l) =? 0) then call_Z l
        else
          let l := match Fc l with MTimeout => if warns then set_Z (Z_ l) MNone l else l | _ => l end in
          seq_ Oc (fun l => if g <? Jc l then (None, l) else call_Z l) l
  end.

(** The browser takes the [i]-th turn asked for. *)
Definition fire (i : nat) (l : loop) : ret_loop :=
  match pending l !! i with
  | None => (None, l)
  | Some (_, t) =>
      let l := set_pending (take i (pending l) ++ drop (S i) (pending l)) l in
      match t with Some t => take_turn t l | None => (Some TypeError, l) end
  end.

(** What can happen to the loop. *)
Inductive loop_step (l : loop) : loop → Prop :=
  | loop_set a b c d : loop_step l (Hc (Some a) b c d false l).2
  | loop_timing a b : loop_step l (Ac a b l).2
  | loop_pause : loop_step l (pauseMainLoop l)
  | loop_resume : loop_step l (resumeMainLoop l).2
  | loop_fire i : loop_step l (fire i l).2.
End Loop.
