(* ===== verification/VizLoopFacts.v ===== *)
(** * Facts about the main loop *)

From Stdlib Require Import ZArith Lia.
From stdpp Require Import base list relations.
From S2P Require Import Prelude VizLoop.

Open Scope Z_scope.

(** ** One loop at a time *)

(** The generation of a turn asked for. *)
Definition gen (p : sched * option turn) : Z := match p.2 with Some t => t_gen t | None => -1 end.

(** The turns of the generation [j]. *)
Definition of_gen (j : Z) (ps : list (sched * option turn)) : nat := length (filter (fun p => gen p = j) ps).

Lemma of_gen_app j ps qs : of_gen j (ps ++ qs) = (of_gen j ps + of_gen j qs)%nat.
Proof. unfold of_gen. by rewrite filter_app, length_app. Qed.

Lemma of_gen_one j p : (of_gen j [p] <= 1)%nat.
Proof. unfold of_gen. pose proof (length_filter (fun p => gen p = j) [p]). simpl in *. lia. Qed.

Lemma of_gen_new j ps : Forall (fun p => gen p <= j) ps → of_gen (j + 1) ps = 0%nat.
Proof.
  intros H. unfold of_gen. induction H as [|p ps Hp H IH]; [done|]. by rewrite filter_cons_False by lia.
Qed.

Lemma of_gen_remove j ps i p : ps !! i = Some p →
  of_gen j ps = (of_gen j (take i ps ++ drop (S i) ps) + of_gen j [p])%nat.
Proof.
  intros H. rewrite <- (take_drop_middle ps i p H) at 1. rewrite !of_gen_app.
  change (p :: drop (S i) ps) with ([p] ++ drop (S i) ps). rewrite of_gen_app. lia.
Qed.

(** The state of a loop: at most [n] turns of the present generation are asked
    for, none of a later one, and there are no blockers. *)
Record loop_ok (n : nat) (l : loop) : Prop := {
  ok_gens : Forall (fun p => gen p <= Jc l) (pending l);
  ok_one : (of_gen (Jc l) (pending l) <= n)%nat;
  ok_unset : unset (Dc l) = true → Z_ l = None ∧ of_gen (Jc l) (pending l) = 0%nat;
  ok_Ec : match Ec l with Some t => t_gen t <= Jc l | None => True end;
  ok_Kc : Kc l = [];
  ok_Jc : 0 <= Jc l
}.

Lemma loop_ok_0 : loop_ok 1 loop0.
Proof. split; simpl; try done; try lia. unfold of_gen. simpl. lia. Qed.

Lemma loop_ok_le n k l : (n <= k)%nat → loop_ok n l → loop_ok k l.
Proof. intros Hn []. split; try done. lia. Qed.

(** Changes of other variables. *)
Lemma loop_ok_same n l l' : Jc l' = Jc l → pending l' = pending l → Ec l' = Ec l → Kc l' = Kc l →
  (unset (Dc l') = true → unset (Dc l) = true ∧ Z_ l' = Z_ l) → loop_ok n l → loop_ok n l'.
Proof.
  intros Hj Hp He Hk Hd []. split; rewrite ?Hj, ?Hp, ?He, ?Hk; try done. intros H. destruct (Hd H) as [Hd' ->]. by apply ok_unset0.
Qed.

Lemma Ac_ok n a b l : loop_ok n l → loop_ok n (Ac a b l).2.
Proof.
  intros H. unfold Ac. cbn [Dc set_timing]. destruct (unset (Dc l)) eqn:E; cbn [snd]; [by apply (loop_ok_same n l); simpl; rewrite ?E|].
  destruct (a =? 0); [|destruct (a =? 1); [|destruct (a =? 2)]]; apply (loop_ok_same n l); simpl; rewrite ?E; done.
Qed.

Lemma Ac_kept a b l : Dc (Ac a b l).2 = Dc l ∧ Jc (Ac a b l).2 = Jc l ∧ Ec (Ac a b l).2 = Ec l ∧ pending (Ac a b l).2 = pending l.
Proof.
  unfold Ac. cbn [Dc set_timing]. destruct (unset (Dc l)); cbn [snd]; [simpl; done|].
  destruct (a =? 0); [|destruct (a =? 1); [|destruct (a =? 2)]]; simpl; done.
Qed.

Lemma call_Z_ok l : unset (Dc l) = false → loop_ok 0 l → loop_ok 1 (call_Z l).2.
Proof.
  intros Hd H. unfold call_Z. destruct (Z_ l); [|apply (loop_ok_le 0); [lia|done]].
  destruct H. split; cbn [snd Jc pending set_pending Dc Ec Kc]; try done.
  - apply Forall_app. split; [done|]. constructor; [|done]. unfold gen. simpl. destruct (Ec l); lia.
  - rewrite of_gen_app. pose proof (of_gen_one (Jc l) (s, Ec l)). lia.
  - by rewrite Hd.
Qed.

Lemma pause_ok n k l : loop_ok n l → loop_ok k (pauseMainLoop l).
Proof.
  intros []. unfold pauseMainLoop. split; simpl; try done; try lia.
  - eapply Forall_impl; [exact ok_gens0|]. simpl. lia.
  - rewrite of_gen_new by done. lia.
  - intros _. split; [done|by apply of_gen_new].
  - destruct (Ec l); [lia|done].
Qed.

Section Loop.
Context (per_second : Z → Z) (prog : program) (warns : bool).

(** Where [Z] is not set nothing is asked for. *)
Lemma call_Z_unset n l : Z_ l = None → loop_ok n l → loop_ok n (call_Z l).2.
Proof. intros HZ H. unfold call_Z. by rewrite HZ. Qed.

Lemma Hc_ok a b c d l : loop_ok 1 l → loop_ok 1 (Hc per_second (Some a) b c d false l).2.
Proof.
  intros H. unfold Hc. cbn [Dc set_noExit]. destruct (unset (Dc l)) eqn:E; cbn [negb].
  2:{ cbn [snd]. apply (loop_ok_same 1 l); simpl; rewrite ?E; done. }
  set (l1 := set_main _ _ _ _). unfold seq_. set (l2 := (if 0 <? b then _ else _).2).
  assert (loop_ok 0 l1) as H1.
  { destruct H as [H1 H2 H3 H4 H5 H6]. destruct (H3 E) as [HZ H0]. split; subst l1; simpl; try done; lia. }
  assert (loop_ok 0 l2 ∧ Dc l2 = Some a) as [H2 D2].
  { unfold l2. destruct (0 <? b); (split; [by apply Ac_ok|]).
    - by destruct (Ac_kept 0 (per_second b) l1) as (-> & _).
    - by destruct (Ac_kept 1 1 l1) as (-> & _). }
  assert (loop_ok 1 (call_Z l2).2) as H3.
  { destruct (unset (Dc l2)) eqn:U; [|by apply call_Z_ok]. destruct (ok_unset _ _ H2 U) as [HZ _].
    apply call_Z_unset; [done|]. apply (loop_ok_le 0); [lia|done]. }
  destruct (call_Z l2) as [[e|] l3]; exact H3.
Qed.

Lemma resume_ok n l : loop_ok n l → loop_ok 1 (resumeMainLoop per_second l).2.
Proof.
  intros H. unfold resumeMainLoop. cbn [Jc Bc Cc Dc Ic set_Jc set_Dc]. unfold seq_. cbn [Hc Dc set_noExit set_Dc seq_].
  unfold Hc, seq_. cbn [Dc set_noExit set_Dc].
  set (l1 := set_main _ _ _ _).
  assert (loop_ok 0 l1 ∧ Dc l1 = Dc l) as [H1 D1].
  { split; [|done]. destruct H as [H1 H2 H3 H4 H5 H6]. split; subst l1; simpl; try done; try lia.
    - eapply Forall_impl; [exact H1|]. simpl. lia.
    - rewrite of_gen_new by done. lia.
    - intros D. split; [by apply H3|by apply of_gen_new]. }
  pose proof (Ac_ok 0 (Bc l) (Cc l) l1 H1) as H2. destruct (Ac_kept (Bc l) (Cc l) l1) as (D2 & _).
  cbn [Bc Cc set_Jc] in *. destruct (unset (Dc l)) eqn:E.
  - destruct (ok_unset _ _ H2 ltac:(by rewrite D2, D1)) as [EZ _]. apply call_Z_unset; [exact EZ|].
    apply (loop_ok_le 0); [lia|exact H2].
  - apply call_Z_ok; [by rewrite D2, D1|exact H2].
Qed.

Lemma call_Z_kept l : Dc (call_Z l).2 = Dc l ∧ Jc (call_Z l).2 = Jc l ∧ calls (call_Z l).2 = calls l.
Proof. unfold call_Z. by destruct (Z_ l). Qed.

Lemma resume_kept l : Dc (resumeMainLoop per_second l).2 = Dc l ∧ Jc (resumeMainLoop per_second l).2 = Jc l + 1.
Proof.
  unfold resumeMainLoop, seq_, Hc, seq_. cbn [Dc set_noExit set_Dc Jc Bc Cc Ic set_Jc unset negb]. set (l1 := set_main _ _ _ _).
  destruct (call_Z_kept (Ac (Bc l) (Cc l) l1).2) as (-> & -> & _). destruct (Ac_kept (Bc l) (Cc l) l1) as (-> & -> & _). done.
Qed.

(** In a turn of the generation [j]: either it is still the present one, and no
    other turn of it is asked for, or the loop was stopped. *)
Definition turn_ok (j : Z) (l : loop) : Prop :=
  unset (Dc l) = false ∧ j <= Jc l ∧ loop_ok 1 l ∧ (Jc l = j → loop_ok 0 l).

Lemma run_cmd_ok j c l : turn_ok j l → turn_ok j (run_cmd per_second c l).2.
Proof.
  intros (Hd & Hj & H1 & H0). destruct c as [| |a b|a b c d|]; cbn [run_cmd snd].
  - split_and!; [done|simpl; lia|by apply (pause_ok 1)|simpl; lia].
  - destruct (resume_kept l) as [Ed Ej]. unfold turn_ok. rewrite Ed, Ej. split_and!; [done|lia|by apply (resume_ok 1)|lia].
  - destruct (Ac_kept a b l) as (Ed & Ej & _). unfold turn_ok. rewrite Ed, Ej. split_and!; [done|done|by apply Ac_ok|].
    intros E. by apply Ac_ok, H0.
  - unfold Hc. cbn [Dc set_noExit]. rewrite Hd. cbn [negb snd].
    split_and!; [done|done|apply (loop_ok_same 1 l); simpl; rewrite ?Hd; done|].
    intros E. apply (loop_ok_same 0 l); simpl; rewrite ?Hd; try done. by apply H0.
  - split_and!; [done|done|by apply (loop_ok_same 1 l)|]. intros E. by apply (loop_ok_same 0 l), H0.
Qed.

Lemma run_cmds_ok j cs l : turn_ok j l → turn_ok j (run_cmds per_second cs l).2.
Proof.
  revert l. induction cs as [|c cs IH]; intros l H; [exact H|]. cbn [run_cmds]. unfold seq_.
  pose proof (run_cmd_ok j c l H) as H'. destruct (run_cmd per_second c l) as [[e|] l']; [exact H'|]. by apply IH.
Qed.

Lemma turn_ok_same j l l' : Jc l' = Jc l → pending l' = pending l → Ec l' = Ec l → Kc l' = Kc l → Dc l' = Dc l →
  turn_ok j l → turn_ok j l'.
Proof.
  intros Hj Hp He Hk Hd (H1 & H2 & H3 & H4). unfold turn_ok. rewrite Hj, Hd. split_and!; [done|done| |].
  - apply (loop_ok_same 1 l); try done. congruence.
  - intros E. apply (loop_ok_same 0 l); try done; [congruence|by apply H4].
Qed.

Lemma run_user_ok j p l : turn_ok j l → turn_ok j (run_user per_second p l).2.
Proof.
  intros H. unfold run_user, seq_. pose proof (run_cmds_ok j p.1 l H) as H'.
  destruct (run_cmds per_second p.1 l) as [[x|] l']; exact H'.
Qed.

Lemma Oc_ok j l : turn_ok j l → turn_ok j (Oc per_second prog l).2.
Proof.
  intros H. unfold Oc, seq_. destruct (w l); [exact H|]. pose proof (run_user_ok j (preMainLoop prog (Nc l)).1 l H) as H1.
  destruct (run_user per_second _ l) as [[x|] l1]; [exact H1|]. cbn [snd] in H1.
  destruct (negb _); [exact H1|].
  assert (turn_ok j (set_calls (calls l1 ++ [Nc l1]) l1)) as H' by (by apply (turn_ok_same j l1)).
  pose proof (run_user_ok j (main prog (Nc l1)) _ H') as H2.
  destruct (run_user per_second (main prog (Nc l1)) _) as [[[]|] l2]; try exact H2. by apply run_user_ok.
Qed.

Lemma turn_end j l : turn_ok j l → loop_ok 1 (if j <? Jc l then (None, l) else call_Z l).2.
Proof.
  intros (Hd & Hj & H1 & H0). destruct (Z.ltb_spec j (Jc l)); [exact H1|]. apply call_Z_ok; [done|]. apply H0. lia.
Qed.

Lemma take_turn_ok t l : Kc l = [] → ((t_gen t <? Jc l) = true → loop_ok 1 l) → ((t_gen t <? Jc l) = false → turn_ok (t_gen t) l) →
  w l = false → loop_ok 1 (take_turn per_second prog warns t l).2.
Proof.
  intros Hk Hold Hnew Hw. unfold take_turn. rewrite Hw, Hk. destruct (t_gen t <? Jc l) eqn:E; [by apply Hold|].
  specialize (Hnew eq_refl). set (l1 := set_Nc _ l).
  assert (turn_ok (t_gen t) l1) as H1 by (by apply (turn_ok_same _ l)).
  destruct ((Bc l1 =? 1) && (1 <? Cc l1) && negb (Z.rem (Nc l1) (Cc l1) =? 0)).
  { pose proof (turn_end _ _ H1) as H. change (Jc l1) with (Jc l) in H. by rewrite E in H. }
  set (l2 := match Fc l1 with MTimeout => _ | _ => _ end).
  assert (turn_ok (t_gen t) l2) as H2 by (unfold l2; destruct (Fc l1); try exact H1; destruct warns; [by apply (turn_ok_same _ l1)|exact H1]).
  unfold seq_. pose proof (Oc_ok _ _ H2) as H3. destruct (Oc per_second prog l2) as [[e|] l3]; [apply H3|].
  by apply turn_end.
Qed.

Lemma fire_ok i l : loop_ok 1 l → loop_ok 1 (fire per_second prog warns i l).2.
Proof.
  intros H. unfold fire. destruct (pending l !! i) as [[m t]|] eqn:Ei; [|exact H].
  set (l1 := set_pending _ l). pose proof (of_gen_remove (Jc l) _ _ _ Ei) as Hr. destruct H as [G1 G2 G3 G4 G5 G6].
  assert (Forall (fun p => gen p <= Jc l) (pending l1)) as F1.
  { rewrite <- (take_drop_middle (pending l) i (m, t) Ei) in G1. apply Forall_app in G1 as [Fa Fb]. inversion_clear Fb.
    by apply Forall_app. }
  assert (loop_ok 1 l1) as O1.
  { split; try done; change (Jc l1) with (Jc l); [subst l1; simpl; lia|]. intros D. destruct (G3 D) as [? ?]. split; [done|]. subst l1. simpl. lia. }
  destruct t as [t|]; [|exact O1]. destruct (w l) eqn:Ew; [unfold take_turn; change (w l1) with (w l); rewrite Ew; exact O1|].
  apply take_turn_ok; [done|done| |done]. change (Jc l1) with (Jc l). intros E. apply Z.ltb_ge in E.
  assert (t_gen t = Jc l) as Eg.
  { apply list_elem_of_lookup_2 in Ei. rewrite Forall_forall in G1. specialize (G1 _ Ei). unfold gen in G1. simpl in G1. lia. }
  assert (of_gen (Jc l) [(m, Some t)] = 1%nat) as E1 by (unfold of_gen; rewrite filter_cons_True; [done|exact Eg]).
  split_and!; [|change (Jc l1) with (Jc l); lia|exact O1|].
  - change (Dc l1) with (Dc l). destruct (unset (Dc l)) eqn:D; [|done]. destruct (G3 eq_refl) as [_ ?]. lia.
  - intros _. split; try done; change (Jc l1) with (Jc l); [subst l1; simpl; lia|]. intros D. destruct (G3 D) as [_ ?]. lia.
Qed.

Lemma loop_reach_ok l l' : rtc (loop_step per_second prog warns) l l' → loop_ok 1 l → loop_ok 1 l'.
Proof.
  induction 1 as [|l l1 l' Hs _ IH]; [done|]. intros H. apply IH. destruct Hs.
  - by apply Hc_ok.
  - by apply Ac_ok.
  - by apply (pause_ok 1).
  - by apply (resume_ok 1).
  - by apply fire_ok.
Qed.
End Loop.

(** ** Frames *)

(** The frames at which the main function is called. *)
Definition due (b c n : Z) : bool := negb ((b =? 1) && (1 <? c) && negb (Z.rem n c =? 0)).

(** A loop at work: one turn is asked for, and it is the present one. *)
Definition running (t : turn) (l : loop) : Prop :=
  w l = false ∧ Kc l = [] ∧ Z_ l ≠ None ∧ t_gen t = Jc l ∧ Ec l = Some t ∧ ∃ m, pending l = [(m, Some t)].

(** The browser takes the first turn asked for, [k] times. *)
Fixpoint turns (per_second : Z → Z) (prog : program) (warns : bool) (k : nat) (l : loop) : loop :=
  match k with O => l | S k' => turns per_second prog warns k' (fire per_second prog warns 0 l).2 end.

(** At every frame [preMainLoop] and [postMainLoop] return, the main function
    returns or exits, and none of them touches the loop. *)
Definition lets_loop_be (prog : program) : Prop :=
  ∀ n, (preMainLoop prog n).1 = ([], Returns) ∧ (main prog n).1 = [] ∧ (main prog n).2 ∈ [Returns; Exits] ∧
    postMainLoop prog n = ([], Returns).

Section Frames.
Context (per_second : Z → Z) (prog : program) (warns : bool) (Hprog : lets_loop_be prog).

(** The calls at a frame. *)
Definition called (b c n : Z) : bool := due b c n && (preMainLoop prog n).2.

Lemma Oc_frame l : w l = false →
  Oc per_second prog l = (None, if (preMainLoop prog (Nc l)).2 then set_calls (calls l ++ [Nc l]) l else l).
Proof using Hprog.
  intros Hw. unfold Oc. rewrite Hw. destruct (Hprog (Nc l)) as (H1 & H2 & H3 & H4). rewrite H1.
  unfold seq_ at 1, run_user at 1, seq_ at 1. cbn [fst run_cmds]. destruct (preMainLoop prog (Nc l)).2; cbn [negb]; [|done].
  unfold run_user at 1, seq_. rewrite H2. cbn [run_cmds]. change (Nc (set_calls _ l)) with (Nc l). rewrite H4.
  destruct (main prog (Nc l)).2; [done|done|]. set_solver.
Qed.

Lemma fire_running t l : running t l →
  let n := i32 (Nc l + 1) in let l' := (fire per_second prog warns 0 l).2 in
  running t l' ∧ Bc l' = Bc l ∧ Cc l' = Cc l ∧ Nc l' = n ∧
  calls l' = calls l ++ (if called (Bc l) (Cc l) n then [n] else []).
Proof using Hprog.
  intros (Hw & Hk & Hz & Hg & He & m & Hp) n. unfold fire. rewrite Hp. cbn [lookup list_lookup take drop app].
  unfold take_turn. cbn [w set_pending Kc Jc]. rewrite Hw, Hk, Hg, Z.ltb_irrefl. cbn [Bc Cc Nc set_Nc set_pending]. fold n.
  unfold called, due. destruct ((Bc l =? 1) && (1 <? Cc l) && negb (Z.rem n (Cc l) =? 0)); cbn [negb andb].
  - unfold call_Z. cbn [Z_ set_Nc set_pending pending Ec]. destruct (Z_ l) as [z|] eqn:Ez; [|done]. cbn [snd app].
    rewrite app_nil_r. split_and!; try done. unfold running. simpl. rewrite Ez. split_and!; try done. rewrite He. by eexists.
  - cbn [Fc set_Nc set_pending]. set (l2 := match Fc l with MTimeout => _ | _ => _ end).
    assert (w l2 = false ∧ Kc l2 = [] ∧ Z_ l2 = Z_ l ∧ Jc l2 = Jc l ∧ Ec l2 = Ec l ∧ pending l2 = [] ∧ Bc l2 = Bc l ∧ Cc l2 = Cc l ∧
      Nc l2 = n ∧ calls l2 = calls l) as (W2 & K2 & Z2 & J2 & E2 & P2 & B2 & C2 & N2 & L2).
    { unfold l2. destruct (Fc l); [|destruct warns| |]; done. }
    unfold seq_. rewrite Oc_frame by done. rewrite N2. set (l3 := if (preMainLoop prog n).2 then _ else _).
    assert (w l3 = false ∧ Kc l3 = [] ∧ Z_ l3 = Z_ l ∧ Jc l3 = Jc l ∧ Ec l3 = Ec l ∧ pending l3 = [] ∧ Bc l3 = Bc l ∧ Cc l3 = Cc l ∧
      Nc l3 = n ∧ calls l3 = calls l ++ (if (preMainLoop prog n).2 then [n] else []))
      as (W3 & K3 & Z3 & J3 & E3 & P3 & B3 & C3 & N3 & L3).
    { unfold l3. destruct (preMainLoop prog n).2; simpl; rewrite ?L2, ?app_nil_r; done. }
    rewrite J3, Z.ltb_irrefl. unfold call_Z. rewrite Z3. destruct (Z_ l) as [z|] eqn:Ez; [|done]. cbn [snd].
    split_and!; try done. unfold running. simpl. rewrite Z3, P3, E3, J3. split_and!; try done. rewrite He. by eexists.
Qed.

Lemma i32_add_i32 x y : i32 (i32 x + y) = i32 (x + y).
Proof using.
  unfold i32. f_equal. replace ((x + 2 ^ 31) mod 2 ^ 32 - 2 ^ 31 + y + 2 ^ 31) with ((x + 2 ^ 31) mod 2 ^ 32 + y) by lia.
  rewrite Z.add_mod_idemp_l by lia. f_equal. lia.
Qed.

Lemma turns_running k t l : running t l →
  let l' := turns per_second prog warns k l in
  running t l' ∧
  calls l' = calls l ++
    filter (fun n => called (Bc l) (Cc l) n = true) ((fun j => i32 (Nc l + Z.of_nat j)) <$> seq 1 k).
Proof using Hprog.
  revert l. induction k as [|k IH]; intros l Hr; cbn [turns].
  - simpl. rewrite app_nil_r. done.
  - destruct (fire_running t l Hr) as (R1 & B1 & C1 & N1 & L1). set (l1 := (fire _ _ _ _ _).2) in *.
    destruct (IH l1 R1) as (R2 & L2). cbv zeta. split; [done|].
    rewrite L2, L1, B1, C1, N1, <- app_assoc. f_equal. cbn [seq fmap list_fmap].
    change (Nc l + Z.of_nat 1) with (Nc l + 1).
    assert ((fun j => i32 (Nc l + Z.of_nat j)) <$> seq 2 k = (fun j => i32 (i32 (Nc l + 1) + Z.of_nat j)) <$> seq 1 k) as Hseq.
    { rewrite <- (fmap_S_seq 1 k), <- list_fmap_compose. apply list_fmap_ext. intros i x _. unfold compose.
      rewrite i32_add_i32. f_equal. lia. }
    rewrite <- Hseq.
    destruct (called (Bc l) (Cc l) (i32 (Nc l + 1))) eqn:E; [rewrite filter_cons_True by done|rewrite filter_cons_False by (by rewrite E)]; done.
Qed.
End Frames.
