(* ===== verification/VizLoopProps.v ===== *)
(** * Properties of the main loop *)

From Stdlib Require Import ZArith Lia.
From stdpp Require Import base list relations.
From S2P Require Import Prelude VizLoop VizLoopFacts.

Open Scope Z_scope.

(** C33: there is one main loop.  Whatever the main function, [preMainLoop] and
    [postMainLoop] do, through any
    sequence of settings, changes of timing, pauses, resumptions and turns taken
    in any order, at most one turn of the present generation is ever asked for,
    and turns asked for before a pause or a resumption do not call the main
    function.  A loop at work whose functions do not throw and do not touch the
    loop goes on for ever: after any number [k] of turns one is asked for again. Its
    main function was called at exactly the turns that [preMainLoop] lets through
    and whose frame number, kept as a signed 32-bit integer, is a multiple of the
    swap interval. *)
Theorem one_main_loop (per_second : Z → Z) (prog : program) (warns : bool) (l : loop) :
  rtc (loop_step per_second prog warns) loop0 l →
  (of_gen (Jc l) (pending l) <= 1)%nat ∧
  (∀ i m t, pending l !! i = Some (m, Some t) → t_gen t < Jc l →
     calls (fire per_second prog warns i l).2 = calls l) ∧
  (∀ k t, lets_loop_be prog → running t l →
     let l' := turns per_second prog warns k l in
     running t l' ∧
     calls l' = calls l ++
       filter (fun n => due (Bc l) (Cc l) n && (preMainLoop prog n).2 = true) ((fun j => i32 (Nc l + Z.of_nat j)) <$> seq 1 k)).
Proof.
  intros Hr. pose proof (loop_reach_ok _ _ _ _ _ Hr loop_ok_0) as Hok. split_and!.
  - apply Hok.
  - intros i m t Hi Hg. unfold fire. rewrite Hi. unfold take_turn. cbn [w Kc Jc set_pending]. rewrite (ok_Kc _ _ Hok).
    apply Z.ltb_lt in Hg as ->. by destruct (w l).
  - intros k t Hp Hrun. exact (turns_running per_second prog warns Hp k t l Hrun).
Qed.

(** A main function that pauses at frame 2, and one that only returns, which
    [preMainLoop] does not let run at frame 6. *)
Definition pausing : program :=
  mkProgram (fun n => (if n =? 2 then [Pause; Resume] else [], Returns)) (fun _ => ([], Returns, true)) (fun _ => ([], Returns)).
Definition quiet : program :=
  mkProgram (fun _ => ([], Returns)) (fun n => ([], Returns, negb (n =? 6))) (fun _ => ([], Returns)).

Lemma quiet_lets_loop_be : lets_loop_be quiet.
Proof. intros n. split_and!; try done. simpl. by left. Qed.

Lemma one_main_loop_witness :
  let step := fire (fun b => 1000 / b) pausing false 0 in
  let l := (step (step (Hc (fun b => 1000 / b) (Some 5) 0 false None false loop0).2).2).2 in
  let q := (Ac 1 3 (Hc (fun b => 1000 / b) (Some 5) 0 false None false loop0).2).2 in
  (of_gen (Jc l) (pending l) <= 1)%nat ∧ Jc l = 2 ∧ calls l = [1; 2] ∧
  calls (turns (fun b => 1000 / b) quiet false 10 q) = [3; 9].
Proof.
  intros step l q. split_and!; [|reflexivity|reflexivity|].
  - refine (proj1 (one_main_loop (fun b => 1000 / b) pausing false l _)).
    eapply rtc_l; [apply (loop_set _ _ _ _ 5 0 false None)|]. eapply rtc_l; [apply (loop_fire _ _ _ _ 0)|].
    eapply rtc_l; [apply (loop_fire _ _ _ _ 0)|]. apply rtc_refl.
  - assert (rtc (loop_step (fun b => 1000 / b) quiet false) loop0 q) as Hq.
    { eapply rtc_l; [apply (loop_set _ _ _ _ 5 0 false None)|]. eapply rtc_l; [apply (loop_timing _ _ _ _ 1 3)|]. apply rtc_refl. }
    destruct (one_main_loop (fun b => 1000 / b) quiet false q Hq) as (_ & _ & H).
    destruct (H 10%nat (mkTurn (Some 5) None 0) quiet_lets_loop_be) as [_ H'].
    + repeat split; [discriminate|by exists AnimationFrame].
    + rewrite H'. reflexivity.
Defined.

(** After [2^31] frames the number is negative, and the turns at which the main
    function is called no longer are the multiples of the swap interval: with
    interval 3 they are those one after. *)
Lemma swap_interval_after_wrap :
  let n := 2 ^ 31 + 1 in n mod 3 = 0 ∧ due 1 3 (i32 n) = false ∧ due 1 3 (i32 (n + 1)) = true.
Proof. vm_compute. done. Qed.
