(* ===== verification/VizConf.v ===== *)
(** * Error numbers and system limits

    The numbers of errors ([I]) and their texts ([kb]), what an error object [J]
    says of its number, and [_sysconf]. *)

From Stdlib Require Import ZArith Lia.
From stdpp Require Import base list strings.
From S2P Require Import Prelude VizFile.

Open Scope Z_scope.

(** [I]; the names are the minified ones. *)
Definition error_numbers : list (string * Z) :=
  [
   ("J", 1); ("H", 2); ("$c", 3); ("Xb", 4); ("Y", 5); ("Da", 6); ("qb", 7); ("uc", 8); ("S", 9); ("Eb", 10);
   ("za", 11); ("ld", 11); ("Ba", 12); ("R", 13); ("Qb", 14); ("Gc", 15); ("ka", 16); ("Aa", 17); ("md", 18);
   ("Z", 19); ("ma", 20); ("M", 21); ("p", 22); ("pc", 23); ("Qa", 24); ("T", 25); ("hd", 26); ("Rb", 27);
   ("Cc", 28); ("$", 29); ("Xc", 30); ("ic", 31); ("Qc", 32); ("Nb", 33); ("Uc", 34); ("yc", 42); ("Ub", 43);
   ("Fb", 44); ("$b", 45); ("ac", 46); ("bc", 47); ("hc", 48); ("jd", 49); ("sc", 50); ("Zb", 51); ("Kb", 35);
   ("vc", 37); ("wb", 52); ("zb", 53); ("nd", 54); ("qc", 55); ("Ab", 56); ("Bb", 57); ("Lb", 35); ("Cb", 59);
   ("Ec", 60); ("tc", 61); ("dd", 62); ("Dc", 63); ("zc", 64); ("Ac", 65); ("Wc", 66); ("wc", 67); ("tb", 68);
   ("ad", 69); ("Gb", 70); ("Rc", 71); ("kc", 72); ("Ob", 73); ("yb", 74); ("Lc", 76); ("xb", 77); ("Vc", 78);
   ("cc", 79); ("dc", 80); ("gc", 81); ("fc", 82); ("ec", 83); ("Fc", 38); ("Ca", 39); ("lc", 36); ("la", 40);
   ("Mc", 95); ("Pc", 96); ("Jb", 104); ("rc", 105); ("ub", 97); ("Tc", 91); ("Jc", 88); ("Bc", 92); ("Yc", 108);
   ("Ib", 111); ("rb", 98); ("Hb", 103); ("oc", 101); ("mc", 100); ("ed", 110); ("Sb", 112); ("Tb", 113);
   ("Wb", 115); ("vb", 114); ("Mb", 89); ("jc", 90); ("Sc", 93); ("Zc", 94); ("sb", 99); ("nc", 102); ("Yb", 106);
   ("Hc", 107); ("gd", 109); ("kd", 87); ("Pb", 122); ("bd", 116); ("Kc", 95); ("xc", 123); ("Vb", 84);
   ("Nc", 75); ("Db", 125); ("Ic", 131); ("Oc", 130); ("cd", 86)
  ]%string.

(** [kb]. *)
Definition error_texts : list (Z * string) :=
  [
   (0, "Success"); (1, "Not super-user"); (2, "No such file or directory"); (3, "No such process");
   (4, "Interrupted system call"); (5, "I/O error"); (6, "No such device or address"); (7, "Arg list too long");
   (8, "Exec format error"); (9, "Bad file number"); (10, "No children"); (11, "No more processes");
   (12, "Not enough core"); (13, "Permission denied"); (14, "Bad address"); (15, "Block device required");
   (16, "Mount device busy"); (17, "File exists"); (18, "Cross-device link"); (19, "No such device");
   (20, "Not a directory"); (21, "Is a directory"); (22, "Invalid argument");
   (23, "Too many open files in system"); (24, "Too many open files"); (25, "Not a typewriter");
   (26, "Text file busy"); (27, "File too large"); (28, "No space left on device"); (29, "Illegal seek");
   (30, "Read only file system"); (31, "Too many links"); (32, "Broken pipe");
   (33, "Math arg out of domain of func"); (34, "Math result not representable");
   (35, "File locking deadlock error"); (36, "File or path name too long"); (37, "No record locks available");
   (38, "Function not implemented"); (39, "Directory not empty"); (40, "Too many symbolic links");
   (42, "No message of desired type"); (43, "Identifier removed"); (44, "Channel number out of range");
   (45, "Level 2 not synchronized"); (46, "Level 3 halted"); (47, "Level 3 reset");
   (48, "Link number out of range"); (49, "Protocol driver not attached"); (50, "No CSI structure available");
   (51, "Level 2 halted"); (52, "Invalid exchange"); (53, "Invalid request descriptor"); (54, "Exchange full");
   (55, "No anode"); (56, "Invalid request code"); (57, "Invalid slot"); (59, "Bad font file fmt");
   (60, "Device not a stream"); (61, "No data (for no delay io)"); (62, "Timer expired");
   (63, "Out of streams resources"); (64, "Machine is not on the network"); (65, "Package not installed");
   (66, "The object is remote"); (67, "The link has been severed"); (68, "Advertise error");
   (69, "Srmount error"); (70, "Communication error on send"); (71, "Protocol error"); (72, "Multihop attempted");
   (73, "Cross mount point (not really error)"); (74, "Trying to read unreadable message");
   (75, "Value too large for defined data type"); (76, "Given log. name not unique");
   (77, "f.d. invalid for this operation"); (78, "Remote address changed");
   (79, "Can   access a needed shared lib"); (80, "Accessing a corrupted shared lib");
   (81, ".lib section in a.out corrupted"); (82, "Attempting to link in too many libs");
   (83, "Attempting to exec a shared library"); (84, "Illegal byte sequence"); (86, "Streams pipe error");
   (87, "Too many users"); (88, "Socket operation on non-socket"); (89, "Destination address required");
   (90, "Message too long"); (91, "Protocol wrong type for socket"); (92, "Protocol not available");
   (93, "Unknown protocol"); (94, "Socket type not supported"); (95, "Not supported");
   (96, "Protocol family not supported"); (97, "Address family not supported by protocol family");
   (98, "Address already in use"); (99, "Address not available"); (100, "Network interface is not configured");
   (101, "Network is unreachable"); (102, "Connection reset by network"); (103, "Connection aborted");
   (104, "Connection reset by peer"); (105, "No buffer space available"); (106, "Socket is already connected");
   (107, "Socket is not connected"); (108, "Can't send after socket shutdown"); (109, "Too many references");
   (110, "Connection timed out"); (111, "Connection refused"); (112, "Host is down");
   (113, "Host is unreachable"); (114, "Socket already connected"); (115, "Connection already in progress");
   (116, "Stale file handle"); (122, "Quota exceeded"); (123, "No medium (in tape drive)");
   (125, "Operation canceled"); (130, "Previous owner died"); (131, "State not recoverable")
  ]%string.

(** [for(var b in I)if(I[b]===a){this.code=b;break}]. *)
Fixpoint first_code (l : list (string * Z)) (a : Z) : option string :=
  match l with [] => None | (b, n) :: l' => if n =? a then Some b else first_code l' a end.
Definition J_code (a : Z) : option string := first_code error_numbers a.

(** [this.message=kb[a]]. *)
Fixpoint text_of (l : list (Z * string)) (a : Z) : option string :=
  match l with [] => None | (n, m) :: l' => if n =? a then Some m else text_of l' a end.
Definition J_message (a : Z) : option string := text_of error_texts a.

(** The cases of [_sysconf] that return a constant. *)
Definition sysconf_cases : list (list Z * Z) :=
  [
   ([30], 4096);
   ([132; 133; 12; 137; 138; 15; 235; 16; 17; 18; 19; 20; 149; 13; 10; 236; 153; 9; 21; 22; 159; 154; 14; 77; 78;
   139; 80; 81; 82; 68; 67; 164; 11; 29; 47; 48; 95; 52; 51; 46], 200809);
   ([79], 0);
   ([27; 246; 127; 128; 23; 24; 160; 161; 181; 182; 242; 183; 184; 243; 244; 245; 165; 178; 179; 49; 50; 168; 169;
   175; 170; 171; 172; 97; 76; 32; 173; 35], (-1));
   ([176; 177; 7; 155; 8; 157; 125; 126; 92; 93; 129; 130; 131; 94; 91], 1);
   ([74; 60; 69; 70; 4], 1024);
   ([31; 42; 72], 32);
   ([87; 26; 33], 2147483647);
   ([34; 1], 47839);
   ([38; 36], 99);
   ([43; 37], 2048);
   ([0], 2097152);
   ([3], 65536);
   ([28], 32768);
   ([44], 32767);
   ([75], 16384);
   ([39], 1000);
   ([89], 700);
   ([71], 256);
   ([40], 255);
   ([2], 100);
   ([180], 64);
   ([25], 20);
   ([5], 16);
   ([6], 6);
   ([73], 4)
  ].

Fixpoint case_value (l : list (list Z * Z)) (a : Z) : option Z :=
  match l with [] => None | (cs, v) :: l' => if existsb (Z.eqb a) cs then Some v else case_value l' a end.

(** [_sysconf(a)], with the size of the memory and the number of processors the
    browser tells, if it does; the error number is set for other [a]. *)
Definition sysconf (G : Z) (hardwareConcurrency : option Z) (a : Z) : Z * option Z :=
  if a =? 85 then (G / 4096, None)
  else if a =? 84 then (match hardwareConcurrency with Some n => if n =? 0 then 1 else n | None => 1 end, None)
  else match case_value sysconf_cases a with Some v => (v, None) | None => (-1, Some EINVAL) end.

(** ** Facts *)

(** Every error number has a text, and a name whose number it is. *)
Lemma errors_described c n : (c, n) ∈ error_numbers →
  ∃ c' m, J_code n = Some c' ∧ (c', n) ∈ error_numbers ∧ J_message n = Some m.
Proof.
  assert (forallb (fun p => match J_code p.2, J_message p.2 with
    | Some c', Some _ => existsb (fun q => (String.eqb q.1 c') && (q.2 =? p.2)) error_numbers
    | _, _ => false end) error_numbers = true) as H by (vm_compute; reflexivity).
  intros Hin. rewrite forallb_forall in H. specialize (H (c, n) (proj1 (list_elem_of_In _ _) Hin)). cbn [snd] in H.
  destruct (J_code n) as [c'|]; [|done]. destruct (J_message n) as [m|]; [|done]. exists c', m. split_and!; [done| |done].
  apply existsb_exists in H as ([c2 n2] & Hin2 & Heq). cbn [fst snd] in Heq.
  apply andb_prop in Heq as [H1 H2]. apply String.eqb_eq in H1 as ->. apply Z.eqb_eq in H2 as ->. by apply list_elem_of_In.
Qed.

(** No constant is named by two cases, and none by those outside the table. *)
Lemma sysconf_cases_distinct :
  NoDup (concat (fst <$> sysconf_cases)) ∧ 84 ∉ concat (fst <$> sysconf_cases) ∧ 85 ∉ concat (fst <$> sysconf_cases).
Proof.
  split_and!; [|apply (bool_decide_eq_true_1 (84 ∉ _)); vm_compute; reflexivity|apply (bool_decide_eq_true_1 (85 ∉ _)); vm_compute; reflexivity].
  apply (bool_decide_eq_true_1 (NoDup _)). vm_compute. reflexivity.
Qed.

(** The pages of the memory, times their size. *)
Lemma sysconf_memory G h : G mod 4096 = 0 → (sysconf G h 85).1 * (sysconf G h 30).1 = G.
Proof.
  intros HG. change ((sysconf G h 30).1) with 4096. change ((sysconf G h 85).1) with (G / 4096).
  pose proof (Z.div_mod G 4096). lia.
Qed.
