(* ===== verification/VizAlloc.v ===== *)
(** * Memory of the object code

    The allocator of the object code ([oB], [rB], [pB]: [malloc], [realloc] and
    [free]) as its clients see it: a class that states what they rely on, and
    an allocator that meets it.  The class speaks of the memory a program holds:
    the addresses [L] it has from elsewhere (its stack, its static data) and the
    list [D] of blocks it has from the allocator, with [room] bytes left.

    Also the functions of [utilities] that wrap it: [$p], [aq], [bq] and [cq]
    ([zmalloc], [gmalloc], [zrealloc], [grealloc]). *)

From Stdlib Require Import ZArith Lia.
From stdpp Require Import base list.
From S2P Require Import Prelude VizRuntime VizFacts VizFile VizMemory VizEnv VizInt64 VizInt64Facts VizDivision.
From S2P Require Import VizLibc VizLibcFacts VizLookupFacts VizJumpProps.

Open Scope Z_scope.

(** ** Memory held *)

Definition span (p n x : Z) : Prop := p <= x < p + n.

Definition held (L : Z → Prop) (D : list (Z * Z)) (x : Z) : Prop :=
  L x ∨ ∃ p n, (p, n) ∈ D ∧ span p n x.

Lemma held_cons L p n D x : held L ((p, n) :: D) x ↔ span p n x ∨ held L D x.
Proof.
  unfold held. setoid_rewrite elem_of_cons. split.
  - intros [?|(q & m & [[= -> ->]|?] & ?)]; [tauto|tauto|]. right. right. by exists q, m.
  - intros [?|[?|(q & m & ? & ?)]]; [|by left|]; right; [exists p, n|exists q, m]; tauto.
Qed.

Lemma held_perm L D D' x : D ≡ₚ D' → held L D x → held L D' x.
Proof. intros Hp [?|(p & n & Hin & ?)]; [by left|]. right. exists p, n. by rewrite <- Hp. Qed.

Lemma held_sub (L L' : Z → Prop) D x : (∀ y, L y → L' y) → held L D x → held L' D x.
Proof. unfold held. intros H [?|?]; [left; auto|by right]. Qed.

(** What programs rely on: an allocation that finds room takes memory nobody
    holds and leaves what is held alone, [realloc] keeps the bytes, and what the
    allocator keeps in memory is outside what programs hold. *)
Class Allocator (malloc : Z → heap → Z * heap) (realloc : Z → Z → heap → Z * heap) (free : Z → heap → heap)
    (heap_ok : heap → (Z → Prop) → list (Z * Z) → Z → Prop) : Prop := {
  heap_bytes E L D room : heap_ok E L D room → bytes E ∧ 0 <= room < 2 ^ 31;
  heap_perm E L D D' room : D ≡ₚ D' → heap_ok E L D room → heap_ok E L D' room;
  heap_sub E (L L' : Z → Prop) D room : (∀ x, L' x → L x) → heap_ok E L D room → heap_ok E L' D room;
  heap_write E E' L D room : heap_ok E L D room → bytes E' → (∀ x, ¬ held L D x → E' x = E x) → heap_ok E' L D room;
  malloc_ok E L D room n : heap_ok E L D room → 0 <= n → n + 16 <= room →
    ∃ p E', malloc n E = (p, E') ∧ 0 < p ∧ p mod 8 = 0 ∧ block p n ∧
      (∀ x, span p n x → ¬ held L D x) ∧ (∀ x, held L D x → E' x = E x) ∧ heap_ok E' L ((p, n) :: D) (room - n - 16);
  realloc_ok E L D room p m n : heap_ok E L ((p, m) :: D) room → (∀ x, span p m x → ¬ held L D x) → 0 <= n → n + 16 <= room →
    ∃ q E', realloc p n E = (q, E') ∧ 0 < q ∧ q mod 8 = 0 ∧ block q n ∧
      (∀ x, span q n x → ¬ held L D x) ∧ (∀ x, held L D x → E' x = E x) ∧
      (∀ k, 0 <= k < Z.min m n → E' (q + k) = E (p + k)) ∧ heap_ok E' L ((q, n) :: D) (room - n - 16);
  free_ok E L D room p m : heap_ok E L ((p, m) :: D) room → (∀ x, span p m x → ¬ held L D x) →
    (∀ x, held L D x → free p E x = E x) ∧ heap_ok (free p E) L D room
}.

(** ** An allocator *)

(** Blocks are taken one after the other from the address kept at 8. *)
Module Bump.
Definition top (E : heap) : Z := load32s E 8.
Definition up (n : Z) : Z := (n + 7) / 8 * 8.
Definition malloc (n : Z) (E : heap) : Z * heap := (top E, store32 8 (top E + up n) E).
Definition realloc (p n : Z) (E : heap) : Z * heap := (top E, store32 8 (top E + up n) (copied (top E) p n E)).
Definition free (p : Z) (E : heap) : heap := E.
Record ok (E : heap) (L : Z → Prop) (D : list (Z * Z)) (room : Z) : Prop := {
  ok_bytes : bytes E;
  ok_top : 16 <= top E ∧ top E mod 8 = 0;
  ok_room : 0 <= room ∧ top E + room < 2 ^ 31;
  ok_held : ∀ x, held L D x → 16 <= x < top E
}.
End Bump.

Lemma bytes_store32 p v E : bytes E → bytes (store32 p v E).
Proof.
  intros HE x. unfold store32, E_set. destruct (zlookup _ _) as [y|] eqn:Hy; [|apply HE].
  unfold zlookup in Hy. destruct (0 <=? _); [|done]. apply list_elem_of_lookup_2 in Hy.
  repeat (apply elem_of_cons in Hy as [->|Hy]; [unfold u8; apply (Z.mod_pos_bound _ 256); lia|]). by apply elem_of_nil in Hy.
Qed.

Lemma bytes_store8 p v E : bytes E → bytes (store8 p v E).
Proof. intros HE x. rewrite store8_spec. destruct (_ =? _); [|apply HE]. unfold u8. apply (Z.mod_pos_bound _ 256). lia. Qed.

Lemma bytes_filled p n v E : 0 <= v < 256 → bytes E → bytes (filled p n v E).
Proof. intros Hv HE x. unfold filled. destruct (_ && _); [done|apply HE]. Qed.

(** A byte and a word apart can be stored in either order. *)
Lemma store8_store32 p v q w E : q mod 4 = 0 → p < q ∨ q + 4 <= p →
  same (store8 p v (store32 q w E)) (store32 q w (store8 p v E)).
Proof.
  intros Hq Hp x. rewrite store8_spec. destruct (Z.eqb_spec x p) as [->|Hne].
  - rewrite store32_at by done. by rewrite store8_spec, Z.eqb_refl.
  - unfold store32, E_set. destruct (zlookup _ _); [done|]. rewrite store8_spec. by destruct (Z.eqb_spec x p).
Qed.

(** A word whose bytes are kept is kept. *)
Lemma word_kept E E' p : p mod 4 = 0 → (∀ x, span p 4 x → E' x = E x) → load32s E' p = load32s E p.
Proof. intros Hp H. apply load32s_moved; [done..|]. intros k Hk. apply H. unfold span. lia. Qed.

Lemma span_sub p n q m x : span q m x → p <= q → q + m <= p + n → span p n x.
Proof. unfold span. lia. Qed.

Lemma up_bound n : 0 <= n → n <= Bump.up n <= n + 7 ∧ Bump.up n mod 8 = 0.
Proof. intros Hn. unfold Bump.up. rewrite Z.mod_mul by lia. split; [|done]. Z.div_mod_to_equations. lia. Qed.

(** Taking a block: the top moves past it. *)
Lemma bump_take E E0 L D room n : Bump.ok E L D room → 0 <= n → n + 16 <= room →
  bytes E0 → (∀ x, x < Bump.top E → E0 x = E x) →
  let p := Bump.top E in
  let E' := store32 8 (p + Bump.up n) E0 in
  0 < p ∧ p mod 8 = 0 ∧ block p n ∧ (∀ x, span p n x → ¬ held L D x) ∧ (∀ x, held L D x → E' x = E x) ∧
  (∀ x, p <= x → E' x = E0 x) ∧ Bump.ok E' L ((p, n) :: D) (room - n - 16).
Proof.
  intros [HE [Ht Hm] [Hr0 Hr] Hh] Hn Hroom HE0 Hlow p E'. destruct (up_bound n Hn) as [Hu Hum]. subst p.
  assert (∀ x, x < 8 ∨ 12 <= x → E' x = E0 x) as Hx by (intros x Hx; unfold E'; by apply store32_at; [|lia]).
  assert (Bump.top E' = Bump.top E + Bump.up n) as Htop.
  { unfold Bump.top at 1, E'. apply load32s_stored_i32; [done|]. unfold is_i32. lia. }
  split; [lia|]. split; [done|]. split; [unfold block; lia|]. split.
  { intros x Hs Hx'. apply Hh in Hx'. unfold span in Hs. lia. } split.
  { intros x Hx'. apply Hh in Hx'. rewrite Hx by lia. apply Hlow. lia. } split; [intros x ?; apply Hx; lia|]. split.
  - by apply bytes_store32.
  - rewrite Htop. split; [lia|]. rewrite Z.add_mod, Hm, Hum by lia. done.
  - rewrite Htop. lia.
  - intros x Hx'. rewrite Htop. apply held_cons in Hx' as [Hs|Hx']; [unfold span in Hs; lia|]. apply Hh in Hx'. lia.
Qed.

(** The laws have an implementation. *)
#[export] Instance bump_allocator : Allocator Bump.malloc Bump.realloc Bump.free Bump.ok.
Proof.
  split.
  - intros E L D room [HE [Ht _] Hr _]. split; [done|lia].
  - intros E L D D' room Hp [HE Ht Hr Hh]. split; try done. intros x Hx. apply Hh. by apply (held_perm _ D').
  - intros E L L' D room Hs [HE Ht Hr Hh]. split; try done. intros x Hx. apply Hh. by apply (held_sub L').
  - intros E E' L D room [HE Ht Hr Hh] HE' Hx.
    assert (Bump.top E' = Bump.top E) as Htop.
    { apply word_kept; [done|]. intros x Hs. apply Hx. intros Hx'%Hh. unfold span in Hs. lia. }
    split; rewrite ?Htop; done.
  - intros E L D room n Hok Hn Hroom. destruct (bump_take E E L D room n Hok Hn Hroom) as (?&?&?&?&?&_&?); [apply Hok|done|].
    eexists _, _. split; [reflexivity|]. done.
  - intros E L D room p m n Hok Hd Hn Hroom. pose proof Hok as [HE [Ht _] Hr Hh].
    destruct (bump_take E (copied (Bump.top E) p n E) L ((p, m) :: D) room n Hok Hn Hroom) as (?&?&?&Hf&Hk&Hc&[? ? ? Hh']).
    { by apply bytes_copied. } { intros x Hx. unfold copied. in_range; lia || done. }
    eexists _, _. split; [reflexivity|]. split_and!; try done.
    + intros x Hx Hx'. apply (Hf x Hx). apply held_cons. by right.
    + intros x Hx. apply Hk. apply held_cons. by right.
    + intros k Hkm. rewrite Hc by lia. unfold copied. in_range; try lia. f_equal. lia.
    + split; try done. intros x Hx. apply Hh'. rewrite !held_cons in *. tauto.
  - intros E L D room p m [HE Ht Hr Hh] Hd. split; [done|]. split; try done. intros x Hx. apply Hh. apply held_cons. by right.
Qed.

(** ** The wrappers *)

Section Wrappers.
Context (malloc : Z → heap → Z * heap) (realloc : Z → Z → heap → Z * heap).
(** [Mz(134974,14,1,c[22667])]: the message [out of memory] to the standard error. *)
Context (complain : heap → heap).

(** [aq]: [gmalloc]. *)
Definition aq (a : Z) (E : heap) : Z * heap :=
  if negb (a =? 0) then
    let '(a, E) := malloc a E in
    if a =? 0 then (0, complain E) else (a, E)
  else (0, E).

(** [$p]: [zmalloc]. *)
Definition zmalloc (a : Z) (E : heap) : Z * heap :=
  if a =? 0 then (0, E)
  else let '(b, E) := aq a E in (b, (CB b 0 a E).2).

(** [bq]: [zrealloc]. *)
Definition bq (a b d e : Z) (E : heap) : Z * heap :=
  let '(a, E) := realloc a (imul d b) E in
  if negb (negb (b =? 0) && (a =? 0)) then
    if u32 e <? u32 b then (a, (CB (i32 (a + imul e d)) 0 (imul (i32 (b - e)) d) E).2) else (a, E)
  else (a, complain E).

(** [cq]: [grealloc]. *)
Definition cq (a b : Z) (E : heap) : Z * heap :=
  let '(a, E) := realloc a b E in
  if negb (b =? 0) && (a =? 0) then (a, complain E) else (a, E).

(** When memory runs out [zmalloc] clears the memory from 0 on. *)
Lemma zmalloc_exhausted n E : 0 < n < 2 ^ 31 → (malloc n E).1 = 0 →
  (zmalloc n E).1 = 0 ∧ ∀ x, 0 <= x < n → (zmalloc n E).2 x = 0.
Proof.
  intros Hn Hm. unfold zmalloc, aq. destruct (Z.eqb_spec n 0); [lia|]. cbn [negb]. destruct (malloc n E) as [p E'] eqn:Em.
  simpl in Hm. subst p. cbn [Z.eqb fst snd]. split; [done|]. intros x Hx.
  destruct (CB_spec 0 0 n (complain E')) as [_ Hs]; [unfold block; lia|]. rewrite Hs. unfold filled. in_range; lia || done.
Qed.

Context (free : Z → heap → heap) (heap_ok : heap → (Z → Prop) → list (Z * Z) → Z → Prop).
Context `{HA : !Allocator malloc realloc free heap_ok}.

Lemma aq_ok E L D room n : heap_ok E L D room → 1 <= n → n + 16 <= room →
  ∃ p E', aq n E = (p, E') ∧ 0 < p ∧ p mod 8 = 0 ∧ block p n ∧
    (∀ x, span p n x → ¬ held L D x) ∧ (∀ x, held L D x → E' x = E x) ∧ heap_ok E' L ((p, n) :: D) (room - n - 16).
Proof using HA.
  intros Hok Hn Hroom. destruct (malloc_ok E L D room n Hok ltac:(lia) Hroom) as (p & E' & Em & Hp & Hrest).
  exists p, E'. split; [|done]. unfold aq. destruct (Z.eqb_spec n 0); [lia|]. cbn [negb]. rewrite Em.
  by destruct (Z.eqb_spec p 0); [lia|].
Qed.

Lemma zmalloc_ok E L D room n : heap_ok E L D room → 1 <= n → n + 16 <= room →
  ∃ p E', zmalloc n E = (p, E') ∧ 0 < p ∧ p mod 8 = 0 ∧ block p n ∧ (∀ x, span p n x → ¬ held L D x) ∧
    (∀ x, held L D x → E' x = E x) ∧ (∀ x, span p n x → E' x = 0) ∧ heap_ok E' L ((p, n) :: D) (room - n - 16).
Proof using HA.
  intros Hok Hn Hroom. destruct (aq_ok E L D room n Hok Hn Hroom) as (p & E' & Em & Hp & H8 & Hb & Hf & Hk & Hok').
  unfold zmalloc. destruct (Z.eqb_spec n 0); [lia|]. rewrite Em. eexists p, _. split; [reflexivity|].
  destruct (CB_spec p 0 n E' Hb) as [_ Hs]. change (u8 0) with 0 in Hs. split_and!; try done.
  - intros x Hx. rewrite Hs. unfold filled. in_range; try (by apply Hk). destruct (Hf x); [unfold span; lia|done].
  - intros x Hx. rewrite Hs. unfold filled, span in *. in_range; lia || done.
  - apply (heap_write E'); [done| |].
    + apply (bytes_same (filled p n 0 E')); [intros x; by rewrite Hs|]. apply bytes_filled; [lia|]. by eapply heap_bytes.
    + intros x Hx. rewrite Hs. unfold filled. in_range; try done. destruct Hx. apply held_cons. left. unfold span. lia.
Qed.

(** [zrealloc] keeps the [e] old elements of [d] bytes and clears the new ones. *)
Lemma bq_ok E L D room p b d e : heap_ok E L ((p, e * d) :: D) room → (∀ x, span p (e * d) x → ¬ held L D x) →
  0 <= e < b → 1 <= d → b * d + 16 <= room →
  ∃ q E', bq p b d e E = (q, E') ∧ 0 < q ∧ q mod 8 = 0 ∧ block q (b * d) ∧
    (∀ x, span q (b * d) x → ¬ held L D x) ∧ (∀ x, held L D x → E' x = E x) ∧
    (∀ k, 0 <= k < e * d → E' (q + k) = E (p + k)) ∧ (∀ k, e * d <= k < b * d → E' (q + k) = 0) ∧
    heap_ok E' L ((q, b * d) :: D) (room - b * d - 16).
Proof using HA.
  intros Hok Hdis He Hd Hroom. assert (0 <= e * d < b * d) as Hed by nia.
  assert (1 <= b <= b * d ∧ d <= b * d) as Hbd by nia.
  pose proof (heap_bytes _ _ _ _ Hok) as [HE Hr].
  destruct (realloc_ok E L D room p (e * d) (b * d) Hok Hdis ltac:(lia) Hroom) as (q & E' & Em & Hq & H8 & Hb & Hf & Hk & Hkeep & Hok').
  unfold bq. rewrite !imul_spec, (Z.mul_comm d b), !(i32_id (b * d)) by (unfold is_i32; lia).
  rewrite Em. destruct (Z.eqb_spec q 0); [lia|]. rewrite andb_false_r. cbn [negb].
  rewrite !u32_id by (unfold is_u32; lia). destruct (Z.ltb_spec e b); [|lia]. unfold block in Hb.
  rewrite !(i32_id (b - e)), !(i32_id (e * d)), !(i32_id ((b - e) * d)) by (unfold is_i32; nia).
  rewrite !(i32_id (q + e * d)) by (unfold is_i32; lia).
  eexists q, _. split; [reflexivity|]. destruct (CB_spec (q + e * d) 0 ((b - e) * d) E') as [_ Hs]; [unfold block; nia|].
  change (u8 0) with 0 in Hs. replace (q + e * d) with (q + (e * d)) in Hs by lia.
  assert (∀ x, (CB (q + e * d) 0 ((b - e) * d) E').2 x = if (q + e * d <=? x) && (x <? q + b * d) then 0 else E' x) as Hs'.
  { intros x. rewrite Hs. unfold filled. by replace (q + e * d + (b - e) * d) with (q + b * d) by lia. }
  clear Hs. split_and!; try done; try lia.
  - intros x Hx. rewrite Hs'. in_range; try (by apply Hk). destruct (Hf x); [unfold span; lia|done].
  - intros k Hkk. rewrite Hs'. in_range; try lia; apply Hkeep; lia.
  - intros k Hkk. rewrite Hs'. in_range; lia || done.
  - apply (heap_write E'); [done| |].
    + intros x. rewrite Hs'. destruct (_ && _); [lia|]. by eapply heap_bytes.
    + intros x Hx. rewrite Hs'. in_range; try done. destruct Hx. apply held_cons. left. unfold span. lia.
Qed.
End Wrappers.
