(* ===== verification/VizSetjmp.v ===== *)
(** * Properties of non-local jumps

    [setjmp] adds to the table of jumps of its function, which is a block of the
    allocator and grows when it is full; [longjmp] comes back to it. *)

From Stdlib Require Import ZArith Lia.
From stdpp Require Import base list.
From S2P Require Import Prelude VizRuntime VizFacts VizFile VizMemory VizEnv VizInt64 VizInt64Facts VizDivision.
From S2P Require Import VizLibc VizLibcFacts VizLookupFacts VizJump VizJumpProps VizAlloc.

Open Scope Z_scope.

(** ** Saving a jump *)

Section Save.
Context (realloc : Z → Z → heap → Z * heap) (a b : Z).
Context (Ha : 0 <= a ∧ a mod 4 = 0) (Hb : is_i32 b).

(** What [xB] leaves. *)
Definition saved (s s' : jumps) (d e : Z) (l : list (Z * Z)) : Prop :=
  jump_table (j_E s') d e (l ++ [(j_p s', b)]) ∧ load32s (j_E s') a = j_p s' ∧ j_p s < j_p s' ∧
  j_n s' = j_n s ∧ j_o s' = j_o s.

(** Storing the identifier at the buffer leaves the table alone. *)
Lemma buffer_table p E d e l : disjoint a 4 d (8 * (e + 1)) → jump_table E d e l → jump_table (store32 a p E) d e l.
Proof using Ha realloc.
  intros Hd Ht. apply (table_moved E _ d d e e); [done|destruct Ht as [(? & ? & ? & ?) _ _ _]; tauto|lia|].
  intros x Hx. apply store32_at; [tauto|unfold disjoint in Hd; lia].
Qed.

Lemma xB_room fuel d e l s : jump_table (j_E s) d e l → zlength l < e → disjoint a 4 d (8 * (e + 1)) → 0 <= j_p s < 2 ^ 31 - 1 →
  ∃ s', xB realloc (S fuel) a b d e s = Some (d, e, s') ∧ saved s s' d e l ∧ (bytes (j_E s) → bytes (j_E s')) ∧
    (∀ x, ¬ span a 4 x → ¬ span d (8 * (e + 1)) x → j_E s' x = j_E s x).
Proof using Ha Hb.
  intros Ht Hl Hd Hp. cbn [xB]. rewrite i32_id by (unfold is_i32; lia).
  pose proof (buffer_table (j_p s + 1) _ d e l Hd Ht) as Ht1. pose proof (zlength_nonneg l).
  pose proof (xB_scan_spec _ d e l Ht1 (j_p s + 1) b (Z.to_nat e) 0 ltac:(lia) ltac:(lia)) as Hs. change (Z.of_nat 0) with 0 in Hs.
  rewrite Hs. apply Z.ltb_lt in Hl as Hl'. rewrite Hl'. eexists. split; [reflexivity|].
  unfold saved. cbn [j_E j_p j_n j_o]. split_and!; try done; [| |lia| |].
  - by apply with_entry_table; unfold is_i32; try lia.
  - unfold with_entry. destruct (table_word _ _ _ _ Ht1 (zlength l)) as [W0 W4], (table_word _ _ _ _ Ht1 (zlength l + 1)) as [W8 _].
    replace (d + 8 * (zlength l + 1)) with (d + 8 * zlength l + 8) in W8 by lia. unfold disjoint in Hd.
    rewrite !load32s_store32_other by (done || tauto || lia). apply load32s_stored_i32; [tauto|unfold is_i32; lia].
  - intros HE. unfold with_entry. by repeat apply bytes_store32.
  - intros x Hx1 Hx2. unfold span in Hx1, Hx2. unfold with_entry.
    destruct (table_word _ _ _ _ Ht1 (zlength l)) as [W0 W4], (table_word _ _ _ _ Ht1 (zlength l + 1)) as [W8 _].
    replace (d + 8 * (zlength l + 1)) with (d + 8 * zlength l + 8) in W8 by lia.
    rewrite !store32_at by (done || tauto || lia). done.
Qed.

Context (malloc : Z → heap → Z * heap) (free : Z → heap → heap) (heap_ok : heap → (Z → Prop) → list (Z * Z) → Z → Prop).
Context `{HA : !Allocator malloc realloc free heap_ok}.
Context (L : Z → Prop) (D : list (Z * Z)) (Hbuf : ∀ x, span a 4 x → L x).

(** A table that is a block of the allocator, with [n] bytes left beside it. *)
Definition table_block (E : heap) (d e room : Z) : Prop :=
  heap_ok E L ((d, 8 * (e + 1)) :: D) room ∧ ∀ x, span d (8 * (e + 1)) x → ¬ held L D x.

Lemma table_apart E d e room : 0 <= e → table_block E d e room → disjoint a 4 d (8 * (e + 1)).
Proof using Hbuf.
  intros He [_ Hd]. unfold disjoint. destruct (Z.le_gt_cases (a + 4) d); [by left|]. destruct (Z.le_gt_cases (d + 8 * (e + 1)) a); [by right|].
  destruct (Hd (Z.max a d)); [unfold span; lia|]. left. apply Hbuf. unfold span. lia.
Qed.

(** Writing into the buffer and the table. *)
Lemma table_write E E' d e room : table_block E d e room → bytes E' →
  (∀ x, ¬ span a 4 x → ¬ span d (8 * (e + 1)) x → E' x = E x) → table_block E' d e room.
Proof using HA Hbuf.
  intros [Hok Hd] HE' Hx. split; [|done]. apply (heap_write E); [done..|]. intros x Hn. rewrite held_cons in Hn.
  apply Hx; intros Hs; apply Hn; [|by left]. right. left. by apply Hbuf.
Qed.

(** What is held besides buffer and table stays as it is. *)
Definition rest_kept (E E' : heap) : Prop := ∀ x, held L D x → ¬ span a 4 x → E' x = E x.

(** [xB] adds an entry; a full table grows to twice its size. *)
Lemma xB_spec d e l s room : jump_table (j_E s) d e l → table_block (j_E s) d e room →
  (zlength l = e → 8 * (2 * e + 1) + 16 <= room) → 0 <= j_p s < 2 ^ 31 - 2 →
  ∃ d' e' s' room', xB realloc 2 a b d e s = Some (d', e', s') ∧ saved s s' d' e' l ∧
    table_block (j_E s') d' e' room' ∧ rest_kept (j_E s) (j_E s').
Proof using All.
  intros Ht Hblk Hroom Hp. pose proof (table_apart _ d e room ltac:(destruct Ht as [(_ & _ & ? & _) _ _ _]; lia) Hblk) as Hd.
  pose proof (heap_bytes _ _ _ _ (proj1 Hblk)) as [HE Hr].
  destruct (Z.lt_ge_cases (zlength l) e) as [Hl|Hl].
  { destruct (xB_room 1 d e l s Ht Hl Hd ltac:(lia)) as (s' & ? & ? & HE' & Hx). exists d, e, s', room. split_and!; [done|done| |].
    - apply (table_write (j_E s)); auto.
    - intros x Hh Hs. apply Hx; [done|]. intros Ht'. by destruct (proj2 Hblk x Ht'). }
  pose proof (buffer_table (j_p s + 1) _ d e l Hd Ht) as Ht1. destruct Ht as [(P1 & P2 & P3 & P4) R _ _].
  specialize (Hroom ltac:(lia)).
  pose proof (xB_scan_spec _ d e l Ht1 (j_p s + 1) b (Z.to_nat e) 0 ltac:(lia) ltac:(lia)) as Hs. change (Z.of_nat 0) with 0 in Hs.
  assert ((zlength l <? e) = false) as Hl' by (apply Z.ltb_ge; lia). rewrite Hl' in Hs.
  remember 1%nat as one eqn:E1. cbn [xB]. rewrite (i32_id (j_p s + 1)) by (unfold is_i32; lia). rewrite Hs.
  rewrite (i32_id (e * 2)), (i32_id (e * 2 + 1)), (i32_id (8 * _)) by (unfold is_i32; lia).
  set (E1' := store32 a (j_p s + 1) (j_E s)) in *.
  assert (∀ x, ¬ span a 4 x → E1' x = j_E s x) as Hx1 by (intros x Hx; apply store32_at; [tauto|unfold span in Hx; lia]).
  assert (table_block E1' d e room) as [Hok1 Hdis] by (apply (table_write (j_E s)); [done|by apply bytes_store32|auto]).
  destruct (realloc_ok E1' L D room d (8 * (e + 1)) (8 * (e * 2 + 1)) Hok1 Hdis ltac:(lia) ltac:(lia))
    as (d' & E' & Er & M1 & M2 & M3 & M4 & M5 & M6 & M7). rewrite Er.
  assert (table_block E' d' (e * 2) (room - 8 * (e * 2 + 1) - 16)) as Hblk' by (split; done).
  assert (jump_table E' d' (e * 2) l) as Ht2.
  { apply (table_moved E1' _ d d' e); [done| |lia|intros x Hx; apply M6; lia]. unfold block in M3.
    split_and!; [lia| |lia]. clear -M2. Z.div_mod_to_equations. lia. }
  destruct (xB_room 0 d' (e * 2) l (mkJumps E' (j_p s + 1) (j_n s) (j_o s)) Ht2)
    as (s' & Ex & (S1 & S2 & S3 & S5 & S6) & HE' & Hx); [lia|by eapply (table_apart E' d' (e * 2)); [lia|]|simpl; lia|]. subst one. simpl in *.
  exists d', (e * 2), s', (room - 8 * (e * 2 + 1) - 16). split; [exact Ex|]. split; [unfold saved; split_and!; done || lia|]. split.
  - apply (table_write E'); [done| |done]. apply HE'. by eapply heap_bytes.
  - intros x Hh Hsp. rewrite Hx; [rewrite M5 by done; by apply Hx1|done|]. intros Ht'. by destruct (M4 x Ht').
Qed.
End Save.

(** C34: [longjmp] returns to [setjmp].  For a table of jumps that is a block of the
    allocator, saving a jump under the label [b] makes
    room when the table is full (there has to be memory left for one of twice the
    size), keeps the labels of all other identifiers and all other memory the
    program holds, and
    from then on a call that ends in [longjmp] to the buffer with a value [v]
    comes back with the label and the value, 1 for 0; a jump to a buffer the table
    does not know goes on to the caller, buffer and value unchanged. *)
Theorem setjmp_longjmp (malloc : Z → heap → Z * heap) (realloc : Z → Z → heap → Z * heap) (free : Z → heap → heap)
    (heap_ok : heap → (Z → Prop) → list (Z * Z) → Z → Prop) `{!Allocator malloc realloc free heap_ok}
    (L : Z → Prop) (D : list (Z * Z)) (a b d e room : Z) (l : list (Z * Z)) (s : jumps) :
  0 < a ∧ a mod 4 = 0 → (∀ x, span a 4 x → L x) → is_i32 b → b ≠ 0 →
  jump_table (j_E s) d e l → table_block heap_ok L D (j_E s) d e room →
  (zlength l = e → 8 * (2 * e + 1) + 16 <= room) →
  0 <= j_p s < 2 ^ 31 - 2 → (∀ i x, (i, x) ∈ l → i <= j_p s) →
  ∃ d' e' s' room', xB realloc 2 a b d e s = Some (d', e', s') ∧
    jump_table (j_E s') d' e' (l ++ [(j_p s', b)]) ∧ table_block heap_ok L D (j_E s') d' e' room' ∧
    rest_kept a L D (j_E s) (j_E s') ∧
    (∀ i, i ≠ j_p s' → zB i d' e' (j_E s') = zB i d e (j_E s)) ∧
    (∀ f v s1, f (mkJumps (j_E s') (j_p s') 0 (j_o s')) = pc a v s1 → j_n s1 = 0 →
       (∀ x, a <= x < a + 4 ∨ d' <= x < d' + 8 * (e' + 1) → j_E s1 x = j_E s' x) →
       checked_call f d' e' s' = (inr (b, if v =? 0 then 1 else v), mkJumps (j_E s1) (j_p s1) 0 (if v =? 0 then 1 else v))) ∧
    (∀ f a2 v s1, f (mkJumps (j_E s') (j_p s') 0 (j_o s')) = pc a2 v s1 → j_n s1 = 0 → a2 ≠ 0 →
       (∀ x, d' <= x < d' + 8 * (e' + 1) → j_E s1 x = j_E s' x) →
       load32s (j_E s1) a2 ≠ j_p s' → zB (load32s (j_E s1) a2) d e (j_E s) = 0 →
       checked_call f d' e' s' = (inl ThrowLongjmp, mkJumps (j_E s1) (j_p s1) a2 (if v =? 0 then 1 else v))).
Proof.
  intros [Ha0 Ha4] Hbuf Hb Hb0 Ht Hblk Hroom Hp Hids.
  destruct (xB_spec realloc a b ltac:(lia) Hb malloc free heap_ok L D Hbuf d e l s room Ht Hblk Hroom Hp)
    as (d' & e' & s' & room' & Ex & (T' & B' & P' & _) & Hblk' & Hrest).
  assert (∀ i, jump_label i (l ++ [(j_p s', b)]) = if j_p s' =? i then b else jump_label i l) as Hlab.
  { intros i. apply jump_label_fresh. intros i' x H'. specialize (Hids i' x H'). lia. }
  assert (∀ s1, (∀ x, d' <= x < d' + 8 * (e' + 1) → j_E s1 x = j_E s' x) → jump_table (j_E s1) d' e' (l ++ [(j_p s', b)])) as Hkept.
  { intros s1 Hx. apply (table_moved (j_E s') _ d' d' e' e'); [done|destruct T' as [(? & ? & ? & ?) _ _ _]; tauto|lia|].
    intros x Hr. apply Hx. lia. }
  exists d', e', s', room'. split_and!; [exact Ex|done|done|done| | |].
  - intros i Hi. rewrite (zB_spec _ _ _ _ T'), (zB_spec _ _ _ _ Ht), Hlab. by destruct (Z.eqb_spec (j_p s') i); [congruence|].
  - intros f v s1 Hf Hn Hx. rewrite (checked_jump (j_E s1) f d' e' _ s' a v s1 (Hkept s1 ltac:(auto)) eq_refl ltac:(lia) Hn Hf).
    assert (load32s (j_E s1) a = j_p s') as -> by (rewrite <- B'; apply load32s_moved; [done|done|intros k Hk; apply Hx; lia]).
    rewrite Hlab, Z.eqb_refl. by destruct (Z.eqb_spec b 0).
  - intros f a2 v s1 Hf Hn Ha2 Hx Hne Hz. rewrite (checked_jump (j_E s1) f d' e' _ s' a2 v s1 (Hkept s1 Hx) eq_refl Ha2 Hn Hf).
    rewrite (zB_spec _ _ _ _ Ht) in Hz. rewrite Hlab, Hz. by destruct (Z.eqb_spec (j_p s') (load32s (j_E s1) a2)); [congruence|].
Qed.

(** A full table of one entry at 1000, the jump buffer at 100. *)
Definition full_heap : heap := store32 8 1024 (store32 1000 3 (store32 1004 7 (fun _ => 0))).

Lemma full_table : jump_table full_heap 1000 1 [(3, 7)].
Proof.
  split; [split_and!; lia || reflexivity|done| |reflexivity]. intros [|k] i x Hk; [|done]. injection Hk as <- <-. by split_and!.
Qed.

Lemma full_block : table_block Bump.ok (span 100 4) [] full_heap 1000 1 100.
Proof.
  split; [split|].
  - unfold full_heap. repeat apply bytes_store32. intros x. lia.
  - split; [|reflexivity]. vm_compute. discriminate.
  - split; [lia|]. reflexivity.
  - intros x Hx. rewrite held_cons in Hx. change (Bump.top full_heap) with 1024. unfold span, held in Hx.
    destruct Hx as [?|[?|(p & n & H & _)]]; [lia|lia|by apply elem_of_nil in H].
  - intros x Hx [Hs|(p & n & H & _)]; [unfold span in *; lia|by apply elem_of_nil in H].
Qed.

(** The table grows, is moved, and knows both jumps. *)
Lemma setjmp_longjmp_witness :
  ∃ d' e' s', xB Bump.realloc 2 100 5 1000 1 (mkJumps full_heap 3 0 0) = Some (d', e', s') ∧ (d', e') = (1024, 2) ∧
    zB 3 d' e' (j_E s') = 7 ∧ checked_call (pc 100 0) d' e' s' = (inr (5, 1), mkJumps (j_E s') (j_p s') 0 1).
Proof.
  destruct (setjmp_longjmp Bump.malloc Bump.realloc Bump.free Bump.ok (span 100 4) [] 100 5 1000 1 100 [(3, 7)] (mkJumps full_heap 3 0 0))
    as (d' & e' & s' & room' & H1 & _ & _ & _ & H2 & H3 & _).
  - split; [lia|reflexivity].
  - done.
  - unfold is_i32. lia.
  - lia.
  - exact full_table.
  - exact full_block.
  - intros _. lia.
  - simpl. lia.
  - intros i x H. apply list_elem_of_singleton in H. injection H as -> _. simpl. lia.
  - exists d', e', s'. split; [exact H1|].
    assert ((d', e') = (1024, 2) ∧ j_p s' = 5) as [Hde Hp] by (vm_compute in H1; injection H1 as <- <- <-; split; reflexivity).
    split; [exact Hde|]. split.
    + rewrite H2 by (rewrite Hp; lia). reflexivity.
    + exact (H3 (pc 100 0) 0 _ eq_refl eq_refl (fun _ _ => eq_refl)).
Defined.
