(* ===== verification/VizBuf.v ===== *)
(** * Growing byte buffers of the object code

    The buffers in which the object code builds texts ([agxbuf] of Graphviz).  A
    buffer is a record of four words: the start of its block, the next free byte,
    the end of the block, and whether the block came from the allocator.  A buffer
    starts on a block its user gives it, often on the stack, and moves to the
    allocator when that is full. *)

From Stdlib Require Import ZArith Lia.
From stdpp Require Import base list.
From S2P Require Import Prelude VizRuntime VizFile VizMemory VizEnv VizInt64 VizLibc.

Open Scope Z_scope.

Section Buf.
(** [oB], [rB] and [pB]. *)
Context (malloc : Z → heap → Z * heap) (realloc : Z → Z → heap → Z * heap) (free : Z → heap → heap).

(** [gj]: [agxbinit]. *)
Definition gj (b d e : Z) (E : heap) : heap :=
  let '(d, e, E) :=
    if e =? 0 then
      let e := if d =? 0 then 1024 else d in
      let E := store32 (b + 12) 1 E in
      let d := e in
      let '(e, E) := malloc e E in
      (d, e, E)
    else (d, e, store32 (b + 12) 0 E) in
  let E := store32 b e E in
  let E := store32 (b + 8) (e + d) E in
  let E := store32 (b + 4) e E in
  store8 e 0 E.

(** [hj]: [agxbmore]. *)
Definition hj (a b : Z) (E : heap) : Z * heap :=
  let h := a + 8 in
  let f := load32s E a in
  let e := f in
  let g := i32 (load32s E h - e) in
  let d := shl g 1 in
  let g := i32 (g + b) in
  let d := if u32 d <? u32 g then g else d in
  let g := a + 4 in
  let e := i32 (load32s E g - e) in
  let b := a + 12 in
  let '(b, E) :=
    if load32s E b =? 0 then
      let '(i, E) := malloc d E in
      let E := (AB i f e E).2 in
      (i, store32 b 1 E)
    else realloc f d E in
  let E := store32 a b E in
  let E := store32 g (b + e) E in
  (0, store32 h (b + d) E).

(** [ij]: [agxbput_n]. *)
Definition ij (a b d : Z) (E : heap) : Z * heap :=
  let f := a + 4 in
  let e := load32s E f in
  let '(e, E) :=
    if u32 (load32s E (a + 8)) <? u32 (e + d) then
      let E := (hj a d E).2 in (load32s E f, E)
    else (e, E) in
  let E := (AB e b d E).2 in
  (d, store32 f (load32s E f + d) E).

(** [jj]: [agxbput]; [None] when the string has no end within [fuel]. *)
Definition jj (fuel : nat) (a b : Z) (E : heap) : option (Z * heap) :=
  n ← pA fuel E b; Some (ij a b n E).

(** [kj]: [agxbfree]. *)
Definition kj (a : Z) (E : heap) : heap :=
  if negb (load32s E (a + 12) =? 0) then free (load32s E a) E else E.

(** [lj]: [agxbpop]. *)
Definition lj (a : Z) (E : heap) : Z * heap :=
  let b := a + 4 in
  let e := load32s E b in
  if u32 (load32s E a) <? u32 e then let E := store32 b (e - 1) E in (E e, E) else (-1, E).

(** Room for one more byte, as its users have it in line:
    [b=c[n>>2]|0;if(b>>>0>=(c[j>>2]|0)>>>0){hj(o,1)|0;b=c[n>>2]|0}]. *)
Definition room_for_one (o : Z) (E : heap) : Z * heap :=
  let b := load32s E (o + 4) in
  if u32 (load32s E (o + 8)) <=? u32 b then let E := (hj o 1 E).2 in (load32s E (o + 4), E) else (b, E).

(** A byte appended: [c[n>>2]=b+1;a[b>>0]=f]. *)
Definition agxbputc (o f : Z) (E : heap) : heap :=
  let '(b, E) := room_for_one o E in
  store8 b f (store32 (o + 4) (b + 1) E).

(** The text taken out: [a[b>>0]=0;m=c[o>>2]|0;c[n>>2]=m]. *)
Definition agxbuse (o : Z) (E : heap) : Z * heap :=
  let '(b, E) := room_for_one o E in
  let E := store8 b 0 E in
  let m := load32s E o in
  (m, store32 (o + 4) m E).
End Buf.
