(* ===== verification/VizBufFacts.v ===== *)
(** * Buffers hold the bytes appended to them

    [buffer] relates the record and its block to a list of bytes.  Every operation
    is specified against that list and leaves alone all memory held outside the
    record and the block. *)

From Stdlib Require Import ZArith Lia.
From stdpp Require Import base list.
From S2P Require Import Prelude VizRuntime VizFacts VizFile VizMemory VizEnv VizInt64 VizInt64Facts VizDivision.
From S2P Require Import VizLibc VizLibcFacts VizLookupFacts VizJumpProps VizAlloc VizBuf.

Open Scope Z_scope.

Definition blocks (dyn : bool) (p n : Z) : list (Z * Z) := if dyn then [(p, n)] else [].

Lemma holds_nil E p : holds E p [].
Proof. intros j x Hj. apply zlookup_Some_lt in Hj. change (zlength []) with 0 in Hj. lia. Qed.

Section Buf.
Context (malloc : Z → heap → Z * heap) (realloc : Z → Z → heap → Z * heap) (free : Z → heap → heap).
Context (heap_ok : heap → (Z → Prop) → list (Z * Z) → Z → Prop).
Context `{HA : !Allocator malloc realloc free heap_ok}.
(** What else the program holds, and the record. *)
Context (L : Z → Prop) (D : list (Z * Z)) (b : Z).

(** A buffer with the bytes [l] in a block of [cap] bytes at [start]. *)
Record buffer (E : heap) (l : list Z) (start cap : Z) (dyn : bool) (room : Z) : Prop := {
  bf_ok : heap_ok E L (blocks dyn start cap ++ D) room;
  bf_record : 0 <= b ∧ b mod 4 = 0 ∧ ∀ x, span b 16 x → L x;
  bf_block : 0 < start ∧ 1 <= cap ∧ block start cap;
  bf_given : dyn = false → (∀ x, span start cap x → L x) ∧ disjoint b 16 start cap;
  bf_own : dyn = true → ∀ x, span start cap x → ¬ held L D x;
  bf_start : load32s E b = start;
  bf_ptr : load32s E (b + 4) = start + zlength l;
  bf_end : load32s E (b + 8) = start + cap;
  bf_dyn : load32s E (b + 12) = if dyn then 1 else 0;
  bf_room : zlength l <= cap;
  bf_bytes : holds E start l
}.

(** The record and the block are apart. *)
Lemma buffer_apart E l start cap dyn room x : buffer E l start cap dyn room → span b 16 x → ¬ span start cap x.
Proof.
  intros [_ (_ & _ & HL) _ Hg Ho _ _ _ _ _ _] Hx Hs. destruct dyn; [apply (Ho eq_refl x Hs); left; auto|].
  destruct (Hg eq_refl) as [_ Hd]. unfold disjoint, span in *. lia.
Qed.

Lemma record_words : b mod 4 = 0 → (b + 4) mod 4 = 0 ∧ (b + 8) mod 4 = 0 ∧ (b + 12) mod 4 = 0.
Proof. intros Hb. split_and!; rewrite Z.add_mod, Hb by lia; reflexivity. Qed.

(** What writes to the block and to the next-byte word leave. *)
Lemma buffer_update E E' l l' start cap dyn room : buffer E l start cap dyn room → bytes E' →
  (∀ x, ¬ span (b + 4) 4 x → ¬ span start cap x → E' x = E x) →
  load32s E' (b + 4) = start + zlength l' → zlength l' <= cap → holds E' start l' → buffer E' l' start cap dyn room.
Proof using HA.
  intros Hb HE' Hx Hp Hl Hh. pose proof (fun x => buffer_apart E l start cap dyn room x Hb) as Ha.
  pose proof Hb as [Hok Hrec Hblk Hg Ho H0 H4 H8 H12 Hr _]. destruct (record_words ltac:(tauto)) as (M4 & M8 & M12).
  assert (∀ k, k = 0 ∨ k = 8 ∨ k = 12 → load32s E' (b + k) = load32s E (b + k)) as Hw.
  { intros k Hk. apply word_kept; [destruct Hk as [->|[->| ->]]; rewrite ?Z.add_0_r; tauto|].
    intros x Hs. apply Hx; [unfold span in *; lia|]. apply Ha. unfold span in *; lia. }
  split; try done.
  - apply (heap_write E); [done..|]. intros x Hn. apply Hx; intros Hs; apply Hn.
    + left. apply Hrec. unfold span in *. lia.
    + destruct dyn; [apply held_cons; by left|]. left. by apply (Hg eq_refl).
  - rewrite <- (Z.add_0_r b), Hw by tauto. by rewrite Z.add_0_r.
  - rewrite Hw by tauto. done.
  - rewrite Hw by tauto. done.
Qed.

(** What writes to the record leave. *)
Lemma buffer_record E E' l start cap dyn room : heap_ok E L (blocks dyn start cap ++ D) room →
  0 <= b ∧ b mod 4 = 0 ∧ (∀ x, span b 16 x → L x) → 0 < start ∧ 1 <= cap ∧ block start cap →
  (dyn = false → (∀ x, span start cap x → L x) ∧ disjoint b 16 start cap) →
  (dyn = true → ∀ x, span start cap x → ¬ held L D x) →
  bytes E' → (∀ x, ¬ span b 16 x → E' x = E x) →
  load32s E' b = start → load32s E' (b + 4) = start + zlength l → load32s E' (b + 8) = start + cap →
  load32s E' (b + 12) = (if dyn then 1 else 0) → zlength l <= cap → holds E start l → buffer E' l start cap dyn room.
Proof using HA.
  intros Hok Hrec Hblk Hg Ho HE' Hx H0 H4 H8 H12 Hr Hh. split; try done.
  - apply (heap_write E); [done..|]. intros x Hn. apply Hx. intros Hs. apply Hn. left. by apply Hrec.
  - intros j x Hj. pose proof (zlookup_Some_lt _ _ _ Hj) as Hlt. rewrite Hx; [by apply Hh|]. intros Hs.
    assert (span start cap (start + j)) as Hs' by (unfold span; lia).
    destruct dyn; [apply (Ho eq_refl _ Hs'); left; by apply Hrec|]. destruct (Hg eq_refl) as [_ Hd].
    unfold disjoint, span in *. lia.
Qed.

(** Loads from a chain of stores to the record. *)
Ltac words := repeat first
  [ rewrite load32s_stored_i32 by (tauto || (unfold is_i32; lia))
  | rewrite load32s_store32_other by (tauto || lia) ].

Lemma set_frame v0 v1 v2 E x : b mod 4 = 0 → ¬ span b 16 x →
  store32 (b + 8) v2 (store32 (b + 4) v1 (store32 b v0 E)) x = E x.
Proof using.
  intros Hm Hs. destruct (record_words Hm) as (M4 & M8 & M12). unfold span in Hs.
  rewrite !store32_at by (done || lia). done.
Qed.

(** The record set to a block that holds the bytes. *)
Lemma moved_buffer E E2 E3 l p cap room : 0 <= b ∧ b mod 4 = 0 ∧ (∀ x, span b 16 x → L x) →
  heap_ok E2 L ((p, cap) :: D) room → 0 < p → 1 <= cap → block p cap → (∀ x, span p cap x → ¬ held L D x) →
  (∀ x, held L D x → E2 x = E x) → bytes E3 → (∀ x, ¬ span (b + 12) 4 x → E3 x = E2 x) → load32s E3 (b + 12) = 1 →
  zlength l <= cap → holds E2 p l →
  let E' := store32 (b + 8) (p + cap) (store32 (b + 4) (p + zlength l) (store32 b p E3)) in
  buffer E' l p cap true room ∧ (∀ x, held L D x → ¬ span b 16 x → E' x = E x).
Proof using HA.
  intros (B0 & B4 & BL) Hok Hp Hc Hb Hf Hk HE3 Hx H12 Hl Hh E'. pose proof (zlength_nonneg l). unfold block in Hb.
  destruct (record_words B4) as (M4 & M8 & M12).
  assert (∀ x, ¬ span b 16 x → E' x = E2 x) as Hx'.
  { intros x Hs. unfold E'. rewrite set_frame by done. apply Hx. unfold span in *. lia. }
  split; [|intros x Hh' Hs; rewrite Hx' by done; by apply Hk].
  apply (buffer_record E2); try done; unfold E'; words; try done. by repeat apply bytes_store32.
Qed.

(** [hj]: a block at least twice as large, with the same bytes. *)
Lemma hj_spec E l start cap dyn room n : buffer E l start cap dyn room → 0 <= n → Z.max (2 * cap) (cap + n) + 16 <= room →
  let cap' := Z.max (2 * cap) (cap + n) in
  ∃ start' E', hj malloc realloc b n E = (0, E') ∧ buffer E' l start' cap' true (room - cap' - 16) ∧
    (∀ x, held L D x → ¬ span b 16 x → E' x = E x).
Proof using HA.
  intros Hb Hn Hroom cap'. pose proof Hb as [Hok Hrec (S0 & S1 & S2) Hg Ho W0 W4 W8 W12 Hr Hh]. pose proof Hrec as (B0 & B4 & BL).
  destruct (heap_bytes _ _ _ _ Hok) as [HE Hrm]. destruct (record_words B4) as (M4 & M8 & M12).
  pose proof (zlength_nonneg l) as Hl. unfold block in S2.
  unfold hj. rewrite W0, W4, W8, W12. replace (start + cap - start) with cap by lia.
  replace (start + zlength l - start) with (zlength l) by lia.
  rewrite (i32_id cap), (i32_id (cap + n)), (i32_id (zlength l)) by (unfold is_i32; lia).
  assert (shl cap 1 = 2 * cap) as -> .
  { unfold shl. rewrite (i32_id cap) by (unfold is_i32; lia). change (Z.land 1 31) with 1. rewrite Z.shiftl_mul_pow2 by lia.
    rewrite i32_id by (unfold is_i32; lia). lia. }
  rewrite !u32_id by (unfold is_u32; lia).
  replace (if 2 * cap <? cap + n then cap + n else 2 * cap) with cap' by (unfold cap'; destruct (Z.ltb_spec (2 * cap) (cap + n)); lia).
  destruct dyn; cbn [Z.eqb].
  - destruct (realloc_ok E L D room start cap cap' Hok (Ho eq_refl)) as (p & E1 & -> & Hp & _ & Hblk & Hf & Hk & Hkeep & Hok1); [lia..|].
    eexists p, _. split; [reflexivity|]. apply (moved_buffer E E1); try done; try lia.
    + by eapply heap_bytes.
    + rewrite <- W12. apply word_kept; [done|]. intros x Hs. apply Hk. left. apply BL. unfold span in *. lia.
    + intros j x Hj. pose proof (zlookup_Some_lt _ _ _ Hj). rewrite Hkeep by lia. by apply Hh.
  - cbn [blocks app] in Hok. destruct (Hg eq_refl) as [HL Hd].
    destruct (malloc_ok E L D room cap' Hok) as (p & E1 & -> & Hp & _ & Hblk & Hf & Hk & Hok1); [lia..|]. unfold block in Hblk.
    assert (forward p start (zlength l)) as Hfw.
    { unfold forward. destruct (Z.le_gt_cases p start); [by left|]. right. destruct (Z.le_gt_cases (start + zlength l) p); [done|].
      destruct (Hf p); [unfold span; lia|]. left. apply HL. unfold span. lia. }
    destruct (heap_bytes _ _ _ _ Hok1) as [HE1 _].
    destruct (AB_spec p start (zlength l) E1) as [_ Hs]; [done|unfold block; lia|unfold block; lia|done|].
    set (E2 := (AB p start (zlength l) E1).2) in *.
    assert (bytes E2) as HE2 by (apply (bytes_same (copied p start (zlength l) E1)); [intros x; by rewrite Hs|by apply bytes_copied]).
    assert (∀ x, ¬ span p cap' x → E2 x = E1 x) as Hout by (intros x Hx; rewrite Hs; unfold copied, span in *; in_range; lia || done).
    eexists p, _. split; [reflexivity|]. apply (moved_buffer E E2); try done; try lia.
    + apply (heap_write E1); [done..|]. intros x Hx. apply Hout. intros Hsp. apply Hx. apply held_cons. by left.
    + intros x Hx. rewrite Hout by (intros Hsp; by apply (Hf x)). by apply Hk.
    + by apply bytes_store32.
    + intros x Hx. apply store32_at; [done|]. unfold span in Hx. lia.
    + words. done.
    + intros j x Hj. pose proof (zlookup_Some_lt _ _ _ Hj). rewrite Hs. unfold copied. in_range; try lia.
      replace (start + (p + j - p)) with (start + j) by lia. rewrite Hk by (left; apply HL; unfold span; lia). by apply Hh.
Qed.

(** A buffer after an operation: on the same block, or on one of its own. *)
Definition became (E : heap) (start cap : Z) (dyn : bool) (room : Z) (l' : list Z) (E' : heap) (start' cap' : Z) (dyn' : bool) (room' : Z) : Prop :=
  buffer E' l' start' cap' dyn' room' ∧ (start' = start ∧ cap' = cap ∧ dyn' = dyn ∨ dyn' = true) ∧ room' <= room ∧
  (∀ x, held L D x → ¬ span b 16 x → ¬ span start cap x → E' x = E x).

Lemma became_outside E start cap dyn room l' E' start' cap' dyn' room' x :
  became E start cap dyn room l' E' start' cap' dyn' room' → held L D x → ¬ span start cap x → ¬ span start' cap' x.
Proof using HA. intros (Hb & [(-> & -> & ->)| ->] & _) Hx Hs; [done|]. intros Hs'. by apply (bf_own _ _ _ _ _ _ Hb eq_refl x). Qed.

Lemma became_trans E0 E1 E2 s0 c0 d0 r0 l1 s1 c1 d1 r1 l2 s2 c2 d2 r2 :
  became E0 s0 c0 d0 r0 l1 E1 s1 c1 d1 r1 → became E1 s1 c1 d1 r1 l2 E2 s2 c2 d2 r2 → became E0 s0 c0 d0 r0 l2 E2 s2 c2 d2 r2.
Proof using HA.
  intros H1 H2. pose proof (fun x => became_outside _ _ _ _ _ _ _ _ _ _ _ x H1) as Ho.
  destruct H1 as (B1 & F1 & R1 & X1), H2 as (B2 & F2 & R2 & X2). split; [done|]. split; [|split; [lia|]].
  - destruct F2 as [(-> & -> & ->)|?]; [done|by right].
  - intros x Hx Hs Hc. rewrite X2; [by apply X1|done|done|]. by apply Ho.
Qed.

(** Room for [n] bytes more. *)
Lemma ensure_room E l start cap dyn room n : buffer E l start cap dyn room → 0 <= n → 2 * (zlength l + n) + 16 <= room →
  let E1 := if u32 (start + cap) <? u32 (start + zlength l + n) then (hj malloc realloc b n E).2 else E in
  ∃ s1 c1 d1 r1, became E start cap dyn room l E1 s1 c1 d1 r1 ∧ zlength l + n <= c1 ∧ room - 2 * (zlength l + n) - 16 <= r1 ∧
    (∀ x, held L D x → ¬ span b 16 x → E1 x = E x).
Proof using HA.
  intros Hb Hn Hroom E1. pose proof (bf_block _ _ _ _ _ _ Hb) as (S0 & S1 & S2). pose proof (bf_room _ _ _ _ _ _ Hb) as Hr.
  destruct (heap_bytes _ _ _ _ (bf_ok _ _ _ _ _ _ Hb)) as [_ Hrm]. pose proof (zlength_nonneg l). unfold block in S2.
  unfold E1. rewrite !u32_id by (unfold is_u32; lia). destruct (Z.ltb_spec (start + cap) (start + zlength l + n)).
  - destruct (hj_spec E l start cap dyn room n Hb Hn) as (s1 & E' & -> & Hb' & Hx); [lia|].
    exists s1, (Z.max (2 * cap) (cap + n)), true, (room - Z.max (2 * cap) (cap + n) - 16).
    split; [|split; [lia|split; [lia|exact Hx]]].
    split; [exact Hb'|]. split; [by right|]. split; [lia|auto].
  - exists start, cap, dyn, room. split; [|split; [lia|split; [lia|done]]]. split; [done|]. split; [by left|]. split; [lia|done].
Qed.

(** A write behind the bytes, with the next-byte word set after it. *)
Lemma buffer_write E E1 E' l s start cap dyn room : buffer E l start cap dyn room → zlength l + zlength s <= cap →
  bytes E1 → (∀ x, ¬ span (start + zlength l) (zlength s) x → E1 x = E x) → holds E1 (start + zlength l) s →
  same E' (store32 (b + 4) (start + zlength l + zlength s) E1) → became E start cap dyn room (l ++ s) E' start cap dyn room.
Proof using HA.
  intros Hb Hc HE1 Hx Hs Hsame. pose proof (zlength_nonneg l). pose proof (zlength_nonneg s).
  pose proof (bf_record _ _ _ _ _ _ Hb) as (B0 & B4 & BL). destruct (record_words B4) as (M4 & M8 & M12).
  pose proof (bf_block _ _ _ _ _ _ Hb) as (S0 & S1 & S2). unfold block in S2.
  assert (∀ x, span start cap x → store32 (b + 4) (start + zlength l + zlength s) E1 x = E1 x) as Hin.
  { intros x Hx'. apply store32_at; [done|]. pose proof (buffer_apart E l start cap dyn room x Hb) as Ha.
    destruct (Z.lt_ge_cases x (b + 4)); [by left|]. destruct (Z.lt_ge_cases x (b + 8)); [|right; lia].
    exfalso. apply Ha; [unfold span; lia|done]. }
  assert (∀ x, ¬ span (b + 4) 4 x → ¬ span start cap x → store32 (b + 4) (start + zlength l + zlength s) E1 x = E x) as Hout.
  { intros x Hx1 Hx2. rewrite store32_at by (done || (unfold span in Hx1; lia)). apply Hx. unfold span in *. lia. }
  split; [|split; [by left|split; [lia|]]].
  - apply (buffer_update E _ l); try done.
    + apply (bytes_same _ _ (fun x => eq_sym (Hsame x))). by apply bytes_store32.
    + intros x Hx1 Hx2. rewrite Hsame. by apply Hout.
    + rewrite (word_kept (store32 (b + 4) (start + zlength l + zlength s) E1)) by (done || (intros; apply Hsame)).
      words. rewrite zlength_app. lia.
    + rewrite zlength_app. lia.
    + apply holds_app; intros j x Hj; pose proof (zlookup_Some_lt _ _ _ Hj); rewrite Hsame, Hin by (unfold span; lia).
      * rewrite Hx by (unfold span; lia). by apply (bf_bytes _ _ _ _ _ _ Hb).
      * by apply Hs.
  - intros x Hx1 Hx2 Hx3. rewrite Hsame. apply Hout; [unfold span in *; lia|done].
Qed.

(** A write into the block does not touch the record. *)
Lemma ptr_kept E E1 l start cap dyn room : buffer E l start cap dyn room → (∀ x, ¬ span start cap x → E1 x = E x) →
  load32s E1 (b + 4) = start + zlength l ∧ load32s E1 b = start.
Proof using.
  intros Hb Hx. pose proof (bf_record _ _ _ _ _ _ Hb) as (B0 & B4 & BL). destruct (record_words B4) as (M4 & M8 & M12).
  split; [transitivity (load32s E (b + 4))|transitivity (load32s E b)];
    try (apply word_kept; [done|]; intros x Hs; apply Hx; apply (buffer_apart E l start cap dyn room x Hb); unfold span in *; lia);
    by destruct Hb.
Qed.

(** [ij] appends [s]. *)
Lemma ij_spec E l start cap dyn room src s : buffer E l start cap dyn room → block src (zlength s) → holds E src s →
  (∀ x, span src (zlength s) x → held L D x ∧ ¬ span b 16 x ∧ ¬ span start cap x) →
  2 * (zlength l + zlength s) + 16 <= room →
  ∃ E' s' c' d' r', ij malloc realloc b src (zlength s) E = (zlength s, E') ∧
    became E start cap dyn room (l ++ s) E' s' c' d' r' ∧ room - 2 * (zlength l + zlength s) - 16 <= r'.
Proof using HA.
  intros Hb Hsrc Hh Hout Hroom. pose proof (zlength_nonneg l). pose proof (zlength_nonneg s) as Hs0.
  destruct (ensure_room E l start cap dyn room (zlength s) Hb Hs0 Hroom) as (s1 & c1 & d1 & r1 & H1 & Hc1 & Hr1 & Hx1).
  unfold ij. rewrite (bf_ptr _ _ _ _ _ _ Hb), (bf_end _ _ _ _ _ _ Hb). set (E1 := if _ : bool then _ else E) in *.
  pose proof (fun x => became_outside _ _ _ _ _ _ _ _ _ _ _ x H1) as Ho1. pose proof H1 as (B1 & _).
  match goal with |- context [if ?c then ?x else (start + zlength l, E)] =>
    replace (if c then x else (start + zlength l, E)) with (load32s E1 (b + 4), E1)
      by (unfold E1; destruct c; [done|by rewrite (bf_ptr _ _ _ _ _ _ Hb)]) end.
  rewrite (bf_ptr _ _ _ _ _ _ B1). pose proof (bf_block _ _ _ _ _ _ B1) as (S0 & S1 & S2). unfold block in S2, Hsrc.
  destruct (heap_bytes _ _ _ _ (bf_ok _ _ _ _ _ _ B1)) as [HE1 _].
  assert (∀ x, span src (zlength s) x → E1 x = E x ∧ ¬ span s1 c1 x) as Hsx.
  { intros x Hx. destruct (Hout x Hx) as (? & ? & ?). split; [by apply Hx1|by apply Ho1]. }
  destruct (AB_spec (s1 + zlength l) src (zlength s) E1) as [_ Hcp]; [done|unfold block; lia|unfold block; lia| |].
  { unfold forward. destruct (Z.le_gt_cases (s1 + zlength l) src); [by left|]. right.
    destruct (Z.le_gt_cases (src + zlength s) (s1 + zlength l)); [done|].
    destruct (Hsx (s1 + zlength l)) as [_ []]; unfold span; lia. }
  set (E2 := (AB _ _ _ E1).2) in *.
  assert (∀ x, ¬ span (s1 + zlength l) (zlength s) x → E2 x = E1 x) as H2 by (intros x Hx; rewrite Hcp; unfold copied, span in *; in_range; lia || done).
  assert (load32s E2 (b + 4) = s1 + zlength l) as -> .
  { apply (ptr_kept E1 E2 l s1 c1 d1 r1 B1). intros x Hx. apply H2. unfold span in *. lia. }
  eexists _, s1, c1, d1, r1. split; [reflexivity|]. split; [|done]. eapply became_trans; [exact H1|].
  apply (buffer_write E1 E2 _ l s); try done.
  - apply (bytes_same (copied (s1 + zlength l) src (zlength s) E1)); [intros x; by rewrite Hcp|by apply bytes_copied].
  - intros j x Hj. pose proof (zlookup_Some_lt _ _ _ Hj). rewrite Hcp. unfold copied. in_range; try lia.
    replace (src + (s1 + zlength l + j - (s1 + zlength l))) with (src + j) by lia.
    rewrite (proj1 (Hsx (src + j) ltac:(unfold span; lia))). by apply Hh.
Qed.

(** [jj] appends a string. *)
Lemma jj_spec fuel E l start cap dyn room src s : buffer E l start cap dyn room → string_at E src s → (length s < fuel)%nat →
  (∀ x, span src (zlength s) x → held L D x ∧ ¬ span b 16 x ∧ ¬ span start cap x) →
  2 * (zlength l + zlength s) + 16 <= room →
  ∃ E' s' c' d' r', jj malloc realloc fuel b src E = Some (zlength s, E') ∧
    became E start cap dyn room (l ++ s) E' s' c' d' r' ∧ room - 2 * (zlength l + zlength s) - 16 <= r'.
Proof using HA.
  intros Hb Hs Hf Hout Hroom. pose proof (heap_bytes _ _ _ _ (bf_ok _ _ _ _ _ _ Hb)) as [HE _].
  unfold jj. rewrite (pA_spec fuel E src s HE Hs Hf). destruct Hs as (_ & Hh & Hblk).
  destruct (ij_spec E l start cap dyn room src s Hb) as (E' & s' & c' & d' & r' & Hij & Hrest); try done.
  - pose proof (zlength_nonneg s). unfold block in *. lia.
  - by apply holds_app_inv in Hh as [Hh _].
  - exists E', s', c', d', r'. simpl. by rewrite Hij.
Qed.

Lemma room_for_one_spec E l start cap dyn room : buffer E l start cap dyn room → 2 * (zlength l + 1) + 16 <= room →
  ∃ E1 s1 c1 d1 r1, room_for_one malloc realloc b E = (s1 + zlength l, E1) ∧ became E start cap dyn room l E1 s1 c1 d1 r1 ∧
    zlength l + 1 <= c1 ∧ room - 2 * (zlength l + 1) - 16 <= r1.
Proof using HA.
  intros Hb Hroom. destruct (ensure_room E l start cap dyn room 1 Hb ltac:(lia) Hroom) as (s1 & c1 & d1 & r1 & H1 & Hc1 & Hr1 & _).
  pose proof (bf_block _ _ _ _ _ _ Hb) as (S0 & S1 & S2). pose proof (bf_room _ _ _ _ _ _ Hb). pose proof (zlength_nonneg l).
  unfold block in S2. eexists _, s1, c1, d1, r1. split; [|split; [exact H1|done]].
  pose proof H1 as (B1 & _). rewrite <- (bf_ptr _ _ _ _ _ _ B1). unfold room_for_one. rewrite (bf_ptr _ _ _ _ _ _ Hb), (bf_end _ _ _ _ _ _ Hb).
  rewrite !u32_id by (unfold is_u32; lia). destruct (Z.leb_spec (start + cap) (start + zlength l)), (Z.ltb_spec (start + cap) (start + zlength l + 1));
    [done|lia|lia|by rewrite (bf_ptr _ _ _ _ _ _ Hb)].
Qed.

(** A byte appended. *)
Lemma agxbputc_spec E l start cap dyn room v : buffer E l start cap dyn room → 2 * (zlength l + 1) + 16 <= room →
  ∃ s' c' d' r', became E start cap dyn room (l ++ [u8 v]) (agxbputc malloc realloc b v E) s' c' d' r' ∧
    room - 2 * (zlength l + 1) - 16 <= r'.
Proof using HA.
  intros Hb Hroom. destruct (room_for_one_spec E l start cap dyn room Hb Hroom) as (E1 & s1 & c1 & d1 & r1 & Hr & H1 & Hc & Hroom1).
  exists s1, c1, d1, r1. split; [|done]. eapply became_trans; [exact H1|]. unfold agxbputc. rewrite Hr. destruct H1 as (B1 & _).
  pose proof (bf_record _ _ _ _ _ _ B1) as (B0 & B4 & BL). destruct (record_words B4) as (M4 & M8 & M12).
  destruct (heap_bytes _ _ _ _ (bf_ok _ _ _ _ _ _ B1)) as [HE1 _]. pose proof (zlength_nonneg l).
  apply (buffer_write E1 (store8 (s1 + zlength l) v E1) _ l [u8 v]); try done.
  - by apply bytes_store8.
  - intros x Hx. rewrite store8_spec. change (zlength [u8 v]) with 1 in Hx. unfold span in Hx. by destruct (Z.eqb_spec x (s1 + zlength l)); [lia|].
  - intros j x Hj. pose proof (zlookup_Some_lt _ _ _ Hj) as Hlt. change (zlength [u8 v]) with 1 in Hlt. assert (j = 0) as -> by lia.
    rewrite Z.add_0_r, store8_spec, Z.eqb_refl. by injection Hj.
  - change (zlength [u8 v]) with 1. apply store8_store32; [done|].
    destruct (Z.lt_ge_cases (s1 + zlength l) (b + 4)); [by left|]. destruct (Z.lt_ge_cases (s1 + zlength l) (b + 8)); [|right; lia].
    exfalso. apply (buffer_apart E1 l s1 c1 d1 r1 (s1 + zlength l) B1); unfold span; lia.
Qed.

(** [lj] drops the last byte; what it returns is the byte behind it. *)
Lemma lj_spec E l x start cap dyn room : buffer E (l ++ [x]) start cap dyn room →
  became E start cap dyn room l (lj b E).2 start cap dyn room ∧ (zlength l + 1 < cap → (lj b E).1 = E (start + zlength l + 1)).
Proof using HA.
  intros Hb. pose proof (bf_record _ _ _ _ _ _ Hb) as (B0 & B4 & BL). destruct (record_words B4) as (M4 & M8 & M12).
  pose proof (bf_block _ _ _ _ _ _ Hb) as (S0 & S1 & S2). pose proof (zlength_nonneg l). pose proof (bf_room _ _ _ _ _ _ Hb) as Hr.
  pose proof (bf_bytes _ _ _ _ _ _ Hb) as Hh. apply holds_app_inv in Hh as [Hh _].
  destruct (heap_bytes _ _ _ _ (bf_ok _ _ _ _ _ _ Hb)) as [HE _].
  unfold lj. rewrite (bf_ptr _ _ _ _ _ _ Hb), (bf_start _ _ _ _ _ _ Hb). rewrite zlength_app in *. change (zlength [x]) with 1 in *.
  unfold block in S2. rewrite !u32_id by (unfold is_u32; lia). destruct (Z.ltb_spec start (start + (zlength l + 1))); [|lia].
  cbn [fst snd]. replace (start + (zlength l + 1) - 1) with (start + zlength l) by lia.
  assert (∀ y, span start cap y → store32 (b + 4) (start + zlength l) E y = E y) as Hin.
  { intros y Hy. apply store32_at; [done|]. destruct (Z.lt_ge_cases y (b + 4)); [by left|]. destruct (Z.lt_ge_cases y (b + 8)); [|right; lia].
    exfalso. apply (buffer_apart _ _ _ _ _ _ y Hb); [unfold span; lia|done]. }
  split; [split; [|split; [by left|split; [lia|]]]|].
  - apply (buffer_update E _ (l ++ [x])); try done.
    + by apply bytes_store32.
    + intros y Hy1 Hy2. apply store32_at; [done|]. unfold span in Hy1. lia.
    + words. done.
    + lia.
    + intros j y Hj. pose proof (zlookup_Some_lt _ _ _ Hj). rewrite Hin by (unfold span; lia). by apply Hh.
  - intros y Hy1 Hy2 Hy3. apply store32_at; [done|]. unfold span in Hy2. lia.
  - intros Hlt. rewrite Hin by (unfold span; lia). f_equal. lia.
Qed.

Lemma lj_empty E start cap dyn room : buffer E [] start cap dyn room → lj b E = (-1, E).
Proof using.
  intros Hb. unfold lj. rewrite (bf_ptr _ _ _ _ _ _ Hb), (bf_start _ _ _ _ _ _ Hb). change (zlength []) with 0. rewrite Z.add_0_r.
  by rewrite Z.ltb_irrefl.
Qed.

(** The text taken out of a buffer, which is then empty. *)
Lemma agxbuse_spec E l start cap dyn room : buffer E l start cap dyn room → Forall (fun x => 0 < x < 256) l →
  2 * (zlength l + 1) + 16 <= room →
  ∃ E' s' c' d' r', agxbuse malloc realloc b E = (s', E') ∧ became E start cap dyn room [] E' s' c' d' r' ∧ string_at E' s' l.
Proof using HA.
  intros Hb Hl Hroom. destruct (room_for_one_spec E l start cap dyn room Hb Hroom) as (E1 & s1 & c1 & d1 & r1 & Hr & H1 & Hc & Hroom1).
  pose proof H1 as (B1 & _). pose proof (bf_record _ _ _ _ _ _ B1) as (B0 & B4 & BL). destruct (record_words B4) as (M4 & M8 & M12).
  destruct (heap_bytes _ _ _ _ (bf_ok _ _ _ _ _ _ B1)) as [HE1 _]. pose proof (zlength_nonneg l).
  pose proof (bf_block _ _ _ _ _ _ B1) as (S0 & S1 & S2). unfold block in S2.
  set (E2 := store8 (s1 + zlength l) 0 E1).
  assert (∀ x, ¬ span s1 c1 x → E2 x = E1 x) as Hout.
  { intros x Hx. unfold E2. rewrite store8_spec. destruct (Z.eqb_spec x (s1 + zlength l)); [|done]. unfold span in Hx. lia. }
  unfold agxbuse. rewrite Hr. fold E2. rewrite (proj2 (ptr_kept E1 E2 _ _ _ _ _ B1 Hout)).
  set (E3 := store32 (b + 4) s1 E2).
  assert (∀ x, span s1 c1 x → E3 x = E2 x) as Hin.
  { intros x Hx. unfold E3. apply store32_at; [done|]. destruct (Z.lt_ge_cases x (b + 4)); [by left|]. destruct (Z.lt_ge_cases x (b + 8)); [|right; lia].
    exfalso. apply (buffer_apart _ _ _ _ _ _ x B1); [unfold span; lia|done]. }
  exists E3, s1, c1, d1, r1. split; [done|]. split.
  - eapply became_trans; [exact H1|]. split; [|split; [by left|split; [lia|]]].
    + apply (buffer_update E1 _ l); try done.
      * by apply bytes_store32, bytes_store8.
      * intros x Hx1 Hx2. unfold E3. rewrite store32_at by (done || (unfold span in Hx1; lia)). by apply Hout.
      * unfold E3. words. change (zlength []) with 0. lia.
      * change (zlength []) with 0. lia.
      * apply holds_nil.
    + intros x Hx1 Hx2 Hx3. unfold E3. rewrite store32_at by (done || (unfold span in Hx2; lia)). by apply Hout.
  - split; [done|]. split; [|unfold block; lia]. apply holds_app; intros j x Hj; pose proof (zlookup_Some_lt _ _ _ Hj) as Hlt.
    + rewrite Hin by (unfold span; lia). unfold E2. rewrite store8_spec. destruct (Z.eqb_spec (s1 + j) (s1 + zlength l)); [lia|].
      by apply (bf_bytes _ _ _ _ _ _ B1).
    + change (zlength [0]) with 1 in Hlt. assert (j = 0) as -> by lia. rewrite Z.add_0_r, Hin by (unfold span; lia).
      unfold E2. rewrite store8_spec, Z.eqb_refl. by injection Hj as <-.
Qed.

(** [kj] gives the block back. *)
Lemma kj_spec E l start cap dyn room : buffer E l start cap dyn room →
  heap_ok (kj free b E) L D room ∧ ∀ x, held L D x → kj free b E x = E x.
Proof using HA.
  intros Hb. unfold kj. rewrite (bf_dyn _ _ _ _ _ _ Hb), (bf_start _ _ _ _ _ _ Hb). pose proof (bf_ok _ _ _ _ _ _ Hb) as Hok.
  destruct dyn; cbn [Z.eqb negb]; [|done]. destruct (free_ok E L D room start cap Hok) as [H1 H2]; [by apply (bf_own _ _ _ _ _ _ Hb)|done].
Qed.

Lemma given_record v0 v1 v2 v3 E x : b mod 4 = 0 → ¬ span b 16 x →
  store32 (b + 4) v1 (store32 (b + 8) v2 (store32 b v0 (store32 (b + 12) v3 E))) x = E x.
Proof using.
  intros Hm Hs. destruct (record_words Hm) as (M4 & M8 & M12). unfold span in Hs. by rewrite !store32_at by (done || lia).
Qed.

(** The first byte cleared, as [gj] ends. *)
Lemma cleared_buffer E start cap dyn room : buffer E [] start cap dyn room →
  buffer (store8 start 0 E) [] start cap dyn room ∧ ∀ x, ¬ span start cap x → store8 start 0 E x = E x.
Proof using HA.
  intros Hb. pose proof (bf_block _ _ _ _ _ _ Hb) as (S0 & S1 & S2).
  assert (∀ x, ¬ span start cap x → store8 start 0 E x = E x) as Hx.
  { intros x Hx. rewrite store8_spec. destruct (Z.eqb_spec x start); [|done]. unfold span in Hx. lia. }
  split; [|done]. destruct (ptr_kept E (store8 start 0 E) [] start cap dyn room Hb Hx) as [Hp _].
  apply (buffer_update E _ []); try done.
  - apply bytes_store8. apply (heap_bytes _ _ _ _ (bf_ok _ _ _ _ _ _ Hb)).
  - intros x _ Hs. by apply Hx.
  - change (zlength []) with 0. lia.
  - apply holds_nil.
Qed.

(** [gj] on a block its user gives. *)
Lemma gj_given E room d e : heap_ok E L D room → 0 <= b ∧ b mod 4 = 0 ∧ (∀ x, span b 16 x → L x) →
  0 < e ∧ 1 <= d ∧ block e d → (∀ x, span e d x → L x) → disjoint b 16 e d →
  buffer (gj malloc b d e E) [] e d false room ∧ ∀ x, ¬ span b 16 x → ¬ span e d x → gj malloc b d e E x = E x.
Proof using HA.
  intros Hok Hrec Hblk HL Hd. pose proof Hrec as (B0 & B4 & BL). destruct (record_words B4) as (M4 & M8 & M12). destruct Hblk as (S0 & S1 & S2).
  destruct (heap_bytes _ _ _ _ Hok) as [HE _]. unfold gj. destruct (Z.eqb_spec e 0); [lia|]. unfold block in S2.
  set (E1 := store32 (b + 4) e _).
  assert (∀ x, ¬ span b 16 x → E1 x = E x) as Hx by (intros x Hs; by apply given_record).
  assert (buffer E1 [] e d false room) as Hb.
  { apply (buffer_record E); try done; try (unfold E1; words; change (zlength []) with 0; lia || done).
    - unfold E1. by repeat apply bytes_store32.
    - apply holds_nil. }
  destruct (cleared_buffer E1 e d false room Hb) as [Hb' Hx']. split; [done|]. intros x H1 H2. rewrite Hx' by done. by apply Hx.
Qed.

(** [gj] with a block from the allocator. *)
Lemma gj_alloc E room d : heap_ok E L D room → 0 <= b ∧ b mod 4 = 0 ∧ (∀ x, span b 16 x → L x) →
  let n := if d =? 0 then 1024 else d in 1 <= n → n + 16 <= room →
  ∃ p, buffer (gj malloc b d 0 E) [] p n true (room - n - 16) ∧ ∀ x, held L D x → ¬ span b 16 x → gj malloc b d 0 E x = E x.
Proof using HA.
  intros Hok Hrec n Hn Hroom. pose proof Hrec as (B0 & B4 & BL). destruct (record_words B4) as (M4 & M8 & M12).
  destruct (heap_bytes _ _ _ _ Hok) as [HE Hrm]. unfold gj. cbn [Z.eqb]. fold n.
  assert (heap_ok (store32 (b + 12) 1 E) L D room) as Hok0.
  { apply (heap_write E); [done|by apply bytes_store32|]. intros x Hx. apply store32_at; [done|].
    destruct (decide (span b 16 x)) as [Hs|Hs]; [destruct Hx; left; by apply BL|]. unfold span in Hs. lia. }
  destruct (malloc_ok _ L D room n Hok0 ltac:(lia) Hroom) as (p & E1 & -> & Hp & _ & Hblk & Hf & Hk & Hok1). unfold block in Hblk.
  set (E2 := store32 (b + 4) p _).
  assert (∀ x, ¬ span b 16 x → E2 x = E1 x) as Hx.
  { intros x Hs. unfold E2, span in *. by rewrite !store32_at by (done || lia). }
  assert (load32s E1 (b + 12) = 1) as H12.
  { rewrite (word_kept (store32 (b + 12) 1 E)); [by words|done|]. intros x Hs. apply Hk. left. apply BL. unfold span in *. lia. }
  assert (buffer E2 [] p n true (room - n - 16)) as Hb.
  { apply (buffer_record E1); try done; try (unfold E2; words; change (zlength []) with 0; lia || done).
    - unfold E2. repeat apply bytes_store32. by eapply heap_bytes.
    - apply holds_nil. }
  exists p. destruct (cleared_buffer E2 p n true _ Hb) as [Hb' Hx']. split; [done|]. intros x H1 H2.
  rewrite Hx' by (intros Hs; by apply (Hf x)). rewrite Hx by done. rewrite Hk by done. apply store32_at; [done|]. unfold span in H2. lia.
Qed.
End Buf.
