(* ===== verification/VizBufProps.v ===== *)
(** * Properties of buffers *)

From Stdlib Require Import ZArith Lia.
From stdpp Require Import base list.
From S2P Require Import Prelude VizRuntime VizFacts VizFile VizMemory VizEnv VizInt64 VizInt64Facts VizDivision.
From S2P Require Import VizLibc VizLibcFacts VizLookupFacts VizJumpProps VizText VizAlloc VizBuf VizBufFacts.

Open Scope Z_scope.

(** What a program does with a buffer: bytes from elsewhere, one byte, the last byte dropped. *)
Inductive buf_op : Type := PutN (src n : Z) | PutC (v : Z) | Pop.

Definition read_bytes (E : heap) (p n : Z) : list Z := (fun k => E (p + Z.of_nat k)) <$> seq 0 (Z.to_nat n).

(** The bytes after an operation; sources are read in the memory [E]. *)
Definition content (E : heap) (l : list Z) (o : buf_op) : list Z :=
  match o with
  | PutN src n => l ++ read_bytes E src n
  | PutC v => l ++ [u8 v]
  | Pop => removelast l
  end.

Definition op_size (o : buf_op) : Z := match o with PutN _ n => n | PutC _ => 1 | Pop => 0 end.
Definition ops_size (ops : list buf_op) : Z := foldr (fun o n => op_size o + n) 0 ops.

(** Room for every block the operations may take. *)
Definition ops_room (ops : list buf_op) : Z := (zlength ops + 1) * (2 * (ops_size ops + 1) + 16).

Lemma zlength_read E p n : 0 <= n → zlength (read_bytes E p n) = n.
Proof. intros Hn. unfold read_bytes, zlength. rewrite length_fmap, length_seq. lia. Qed.

Lemma read_holds E E' p n : (∀ x, span p n x → E' x = E x) → holds E' p (read_bytes E p n).
Proof.
  intros Hx j y Hj. unfold zlookup in Hj. destruct (Z.leb_spec 0 j); [|done]. unfold read_bytes in Hj.
  apply list_lookup_fmap_Some in Hj as (k & -> & Hk). apply lookup_seq in Hk as [-> Hlt]. replace (Z.of_nat (0 + Z.to_nat j)) with j by lia.
  apply Hx. unfold span. lia.
Qed.

Section Buf.
Context (malloc : Z → heap → Z * heap) (realloc : Z → Z → heap → Z * heap) (free : Z → heap → heap).
Context (heap_ok : heap → (Z → Prop) → list (Z * Z) → Z → Prop).

(** The operations on memory. *)
Definition buf_step (b : Z) (E : heap) (o : buf_op) : heap :=
  match o with
  | PutN src n => (ij malloc realloc b src n E).2
  | PutC v => agxbputc malloc realloc b v E
  | Pop => (lj b E).2
  end.

(** Sources are held, apart from the record and the block in [given]. *)
Definition op_ok (L : Z → Prop) (D : list (Z * Z)) (b : Z) (given : Z → Prop) (o : buf_op) : Prop :=
  match o with
  | PutN src n => block src n ∧ ∀ x, span src n x → held L D x ∧ ¬ span b 16 x ∧ ¬ given x
  | _ => True
  end.

Context `{HA : !Allocator malloc realloc free heap_ok} (L : Z → Prop) (D : list (Z * Z)) (b : Z).
Abbreviation became := (became heap_ok L D b).

Lemma buf_step_spec E0 start cap dyn room l E s c d r o :
  became E0 start cap dyn room l E s c d r → op_ok L D b (span start cap) o → 2 * (zlength l + op_size o) + 16 <= r →
  ∃ s' c' d' r', became E0 start cap dyn room (content E0 l o) (buf_step b E o) s' c' d' r' ∧ r - 2 * (zlength l + op_size o) - 16 <= r'.
Proof using HA.
  intros H0 Hok Hr. pose proof H0 as (B & _ & _ & X). destruct o as [src n|v|]; cbn [op_ok op_size content buf_step] in *.
  - destruct Hok as [Hblk Hsrc]. assert (0 <= n) as Hn by (unfold block in Hblk; lia).
    destruct (ij_spec malloc realloc free heap_ok L D b E l s c d r src (read_bytes E0 src n) B) as (E' & s' & c' & d' & r' & Hij & H1 & Hr');
      rewrite ?zlength_read by done; try done.
    + apply read_holds. intros x Hx. destruct (Hsrc x Hx) as (? & ? & ?). by apply X.
    + intros x Hx. destruct (Hsrc x Hx) as (? & ? & ?). split_and!; try done.
      by apply (became_outside malloc realloc free heap_ok L D b _ _ _ _ _ _ _ _ _ _ _ x H0).
    + rewrite zlength_read in Hij, Hr' by done. rewrite Hij. exists s', c', d', r'. split; [|done].
      eapply became_trans; [apply HA|exact H0|exact H1].
  - destruct (agxbputc_spec malloc realloc free heap_ok L D b E l s c d r v B Hr) as (s' & c' & d' & r' & H1 & Hr').
    exists s', c', d', r'. split; [|done]. eapply became_trans; [apply HA|exact H0|exact H1].
  - exists s, c, d, r. split; [|pose proof (zlength_nonneg l); lia]. destruct l as [|x l _] using rev_ind.
    + by rewrite (lj_empty heap_ok L D b E s c d r B).
    + rewrite removelast_last. eapply became_trans; [apply HA|exact H0|].
      by apply (lj_spec malloc realloc free heap_ok L D b E l x s c d r B).
Qed.

Lemma content_size E l o : 0 <= op_size o → zlength (content E l o) <= zlength l + op_size o.
Proof using.
  destruct o as [src n|v|]; cbn [content op_size]; intros H; rewrite ?zlength_app, ?zlength_read by done; [lia|by change (zlength [u8 v]) with 1|].
  destruct l as [|x l _] using rev_ind; [done|]. rewrite removelast_last, zlength_app. change (zlength [x]) with 1. lia.
Qed.

Lemma buf_run_spec ops E0 start cap dyn room l E s c d r :
  became E0 start cap dyn room l E s c d r → Forall (op_ok L D b (span start cap)) ops → Forall (fun o => 0 <= op_size o) ops →
  zlength ops * (2 * (zlength l + ops_size ops) + 16) <= r →
  ∃ s' c' d' r', became E0 start cap dyn room (foldl (content E0) l ops) (foldl (buf_step b) E ops) s' c' d' r' ∧
    zlength (foldl (content E0) l ops) <= zlength l + ops_size ops ∧ r - zlength ops * (2 * (zlength l + ops_size ops) + 16) <= r'.
Proof using HA.
  revert l E s c d r. induction ops as [|o ops IH]; intros l E s c d r H0 Hok Hsz Hr.
  { exists s, c, d, r. cbn [foldl ops_size foldr]. split; [done|]. change (@zlength buf_op []) with 0. split; lia. }
  apply Forall_cons in Hok as [Ho Hok]. apply Forall_cons in Hsz as [Hos Hsz].
  assert (0 <= ops_size ops) as Hs0 by (clear -Hsz; unfold ops_size; induction Hsz; cbn [foldr]; lia).
  cbn [ops_size foldr] in *. fold (ops_size ops) in *. unfold zlength in Hr at 1. cbn [length] in Hr.
  assert (zlength (o :: ops) = zlength ops + 1) as -> by (unfold zlength; cbn [length]; lia). pose proof (zlength_nonneg ops) as N1.
  replace (Z.of_nat (S (length ops))) with (zlength ops + 1) in Hr by (unfold zlength; lia). pose proof (zlength_nonneg l) as N2.
  destruct (buf_step_spec E0 start cap dyn room l E s c d r o H0 Ho) as (s1 & c1 & d1 & r1 & H1 & Hr1); [nia|].
  pose proof (content_size E0 l o Hos) as Hc.
  destruct (IH _ _ _ _ _ _ H1 Hok Hsz) as (s2 & c2 & d2 & r2 & H2 & Hl2 & Hr2); [nia|].
  exists s2, c2, d2, r2. cbn [foldl]. split; [done|]. split; [lia|nia].
Qed.
End Buf.

Section Life.
Context (malloc : Z → heap → Z * heap) (realloc : Z → Z → heap → Z * heap) (free : Z → heap → heap).
Context (heap_ok : heap → (Z → Prop) → list (Z * Z) → Z → Prop) `{HA : !Allocator malloc realloc free heap_ok}.
Context (L : Z → Prop) (D : list (Z * Z)) (b d e : Z).

(** The bytes the block its user gave takes. *)
Definition given_block (x : Z) : Prop := e ≠ 0 ∧ span e d x.
Definition first_block : Z := if d =? 0 then 1024 else d.

(** A new buffer, and where its block is. *)
Lemma gj_became E room : heap_ok E L D room → 0 <= b ∧ b mod 4 = 0 ∧ (∀ x, span b 16 x → L x) →
  (e = 0 ∧ 0 <= d ∧ first_block + 16 <= room ∨ 0 < e ∧ 1 <= d ∧ block e d ∧ (∀ x, span e d x → L x) ∧ disjoint b 16 e d) →
  let r := if e =? 0 then room - first_block - 16 else room in
  ∃ start cap dyn, became heap_ok L D b E start cap dyn r [] (gj malloc b d e E) start cap dyn r ∧
    (∀ x, held L D x → ¬ given_block x → ¬ span start cap x) ∧
    (∀ x, held L D x → ¬ span b 16 x → ¬ given_block x → gj malloc b d e E x = E x).
Proof using HA.
  intros Hok Hrec Hst r. unfold r, given_block. destruct Hst as [(-> & Hd & Hroom)|(He & Hd & Hblk & HL & Hdis)].
  - cbn [Z.eqb]. destruct (gj_alloc malloc realloc free heap_ok L D b E room d Hok Hrec) as (p & Hb & Hx);
      [fold first_block; unfold first_block; destruct (Z.eqb_spec d 0); lia|done|]. fold first_block in Hb.
    exists p, first_block, true. split; [|split].
    + split; [done|]. split; [by left|]. split; [lia|auto].
    + intros x Hx' _ Hs. by apply (bf_own _ _ _ _ _ _ _ _ _ _ Hb eq_refl x Hs).
    + auto.
  - destruct (Z.eqb_spec e 0); [lia|].
    destruct (gj_given malloc realloc free heap_ok L D b E room d e Hok Hrec) as (Hb & Hx); [done..|].
    exists e, d, false. split; [|split].
    + split; [done|]. split; [by left|]. split; [lia|auto].
    + tauto.
    + intros x _ H1 H2. apply Hx; tauto.
Qed.

Lemma ops_sized ops : Forall (op_ok L D b given_block) ops → Forall (fun o => 0 <= op_size o) ops.
Proof using. intros H. eapply Forall_impl; [exact H|]. intros [src n|v|]; cbn; [unfold block; lia|lia|lia]. Qed.

(** A buffer used for a text: started, filled, read, given back. *)
Lemma buffer_life E room ops : heap_ok E L D room → 0 <= b ∧ b mod 4 = 0 ∧ (∀ x, span b 16 x → L x) →
  (e = 0 ∧ 0 <= d ∨ 0 < e ∧ 1 <= d ∧ block e d ∧ (∀ x, span e d x → L x) ∧ disjoint b 16 e d) →
  Forall (op_ok L D b given_block) ops → (if e =? 0 then first_block + 16 else 0) + ops_room ops <= room →
  let l := foldl (content E) [] ops in
  Forall (fun x => 0 < x < 256) l →
  ∃ p E' room', agxbuse malloc realloc b (foldl (buf_step malloc realloc b) (gj malloc b d e E) ops) = (p, E') ∧ string_at E' p l ∧
    (∀ x, held L D x → ¬ span b 16 x → ¬ given_block x → E' x = E x) ∧
    heap_ok (kj free b E') L D room' ∧ (∀ x, held L D x → kj free b E' x = E' x).
Proof using HA.
  intros Hok Hrec Hst Hops Hroom l Hl. pose proof (ops_sized ops Hops) as Hsz.
  assert (0 <= ops_size ops) as Hs0 by (clear -Hsz; unfold ops_size; induction Hsz; cbn [foldr]; lia).
  pose proof (zlength_nonneg ops) as N. unfold ops_room in Hroom.
  destruct (gj_became E room Hok Hrec) as (start & cap & dyn & H0 & Ho & _).
  { destruct Hst as [[He Hd]|Hst]; [left|by right]. rewrite He in Hroom. cbn [Z.eqb] in Hroom. split_and!; [done|done|nia]. }
  set (r := if e =? 0 then _ else _) in H0.
  assert ((zlength ops + 1) * (2 * (ops_size ops + 1) + 16) <= r) as Hr by (unfold r; destruct (Z.eqb_spec e 0); lia).
  destruct (buf_run_spec malloc realloc free heap_ok L D b ops E start cap dyn r [] _ start cap dyn r H0) as (s1 & c1 & d1 & r1 & H1 & Hl1 & Hr1).
  { eapply Forall_impl; [exact Hops|]. intros [src n|v|] Ho'; [|done|done]. destruct Ho' as [Hb' Hs']. split; [done|].
    intros x Hx. destruct (Hs' x Hx) as (? & ? & ?). split_and!; try done. by apply Ho. }
  { done. } { change (@zlength Z []) with 0. nia. }
  fold l in H1, Hl1. change (@zlength Z []) with 0 in *. pose proof H1 as (B1 & _).
  destruct (agxbuse_spec malloc realloc free heap_ok L D b _ l s1 c1 d1 r1 B1 Hl) as (E' & s2 & c2 & d2 & r2 & Hu & H2 & Hs); [nia|].
  destruct (became_trans malloc realloc free heap_ok L D b _ _ _ _ _ _ _ _ _ _ _ _ _ _ _ _ _ H1 H2) as (B2 & _ & _ & X2).
  exists s2, E', r2. split; [done|]. split; [done|]. split; [|by apply (kj_spec malloc realloc free heap_ok L D b E' [] s2 c2 d2)].
  intros x Hx1 Hx2 Hx3. apply X2; try done. by apply Ho.
Qed.
End Life.

(** C37: A buffer is the list of the bytes put into it.  Started on a block of its
    user or on one of the allocator, filled by any sequence of blocks, single
    bytes and drops of the last byte, moved as often as it has to grow, it yields
    the string of exactly these bytes, in order; nothing else that is held changes
    meanwhile, and freeing it returns its block and leaves the rest alone. *)
Theorem buffer_refines_bytes (malloc : Z → heap → Z * heap) (realloc : Z → Z → heap → Z * heap) (free : Z → heap → heap)
    (heap_ok : heap → (Z → Prop) → list (Z * Z) → Z → Prop) (HA : Allocator malloc realloc free heap_ok)
    (L : Z → Prop) (D : list (Z * Z)) (b d e room : Z) (E : heap) (ops : list buf_op) :
  heap_ok E L D room → 0 <= b ∧ b mod 4 = 0 ∧ (∀ x, span b 16 x → L x) →
  (e = 0 ∧ 0 <= d ∨ 0 < e ∧ 1 <= d ∧ block e d ∧ (∀ x, span e d x → L x) ∧ disjoint b 16 e d) →
  Forall (op_ok L D b (given_block d e)) ops → (if e =? 0 then first_block d + 16 else 0) + ops_room ops <= room →
  let l := foldl (content E) [] ops in
  Forall (fun x => 0 < x < 256) l →
  ∃ p E' room', agxbuse malloc realloc b (foldl (buf_step malloc realloc b) (gj malloc b d e E) ops) = (p, E') ∧ string_at E' p l ∧
    (∀ x, held L D x → ¬ span b 16 x → ¬ given_block d e x → E' x = E x) ∧
    heap_ok (kj free b E') L D room' ∧ (∀ x, held L D x → kj free b E' x = E' x).
Proof. intros. by apply (buffer_life malloc realloc free heap_ok L D b d e E room ops). Qed.

(** A memory with [abc] at 300 and the allocator's top at 65536. *)
Definition small_memory : heap := E_set [97; 98; 99] 300 (store32 8 65536 (fun _ => 0)).
Definition stack (x : Z) : Prop := 16 <= x < 1024.

Lemma small_memory_ok : Bump.ok small_memory stack [] (2 ^ 20).
Proof.
  assert (Bump.top small_memory = 65536) as Ht by reflexivity. split.
  - intros x. unfold small_memory, E_set. destruct (zlookup _ _) as [y|] eqn:Hy; [|by apply bytes_store32].
    unfold zlookup in Hy. destruct (0 <=? _); [|done]. apply list_elem_of_lookup_2 in Hy.
    repeat (apply elem_of_cons in Hy as [->|Hy]; [lia|]). by apply elem_of_nil in Hy.
  - rewrite Ht. split; [lia|reflexivity].
  - rewrite Ht. lia.
  - rewrite Ht. intros x [Hx|(p & n & Hin & _)]; [unfold stack in Hx; lia|by apply elem_of_nil in Hin].
Qed.

(** A block of two bytes that has to grow: [abc], [!] dropped again, [?]. *)
Lemma buffer_refines_bytes_witness :
  ∃ p E', agxbuse Bump.malloc Bump.realloc 16
      (foldl (buf_step Bump.malloc Bump.realloc 16) (gj Bump.malloc 16 2 100 small_memory) [PutN 300 3; PutC 33; Pop; PutC 63]) = (p, E') ∧
    string_at E' p [97; 98; 99; 63].
Proof.
  destruct (buffer_refines_bytes Bump.malloc Bump.realloc Bump.free Bump.ok bump_allocator stack [] 16 2 100 (2 ^ 20) small_memory
    [PutN 300 3; PutC 33; Pop; PutC 63]) as (p & E' & _ & H1 & H2 & _).
  - apply small_memory_ok.
  - split_and!; [lia|reflexivity|]. intros x. unfold span, stack. lia.
  - right. split_and!; [lia|lia|unfold block; lia|intros x; unfold span, stack; lia|unfold disjoint; lia].
  - apply Forall_cons. split; [|by repeat constructor]. split; [unfold block; lia|]. intros x Hx. unfold span in Hx.
    split_and!; [left; unfold stack; lia|unfold span; lia|unfold given_block, span; lia].
  - vm_compute. discriminate.
  - vm_compute. repeat constructor.
  - exists p, E'. split; [exact H1|exact H2].
Defined.

(** [agxbpop] drops the last byte, but the value it returns is the byte behind the
    last one: of a buffer with [A] and [B] it returns 0, then [B]. *)
Theorem pop_returns_next_byte :
  let E1 := foldl (buf_step Bump.malloc Bump.realloc 16) (gj Bump.malloc 16 8 100 small_memory) [PutC 65; PutC 66] in
  let '(v1, E2) := lj 16 E1 in
  let '(v2, _) := lj 16 E2 in
  v1 = 0 ∧ v2 = 66.
Proof. vm_compute. done. Qed.

(** ** Label text *)

Lemma putc_content E l l0 : Forall (fun x => 0 <= x < 256) l → foldl (content E) l0 (PutC <$> l) = l0 ++ l.
Proof.
  intros Hl. revert l0. induction Hl as [|x l Hx _ IH]; intros l0; cbn [fmap list_fmap foldl content]; [by rewrite app_nil_r|].
  rewrite IH. unfold u8. rewrite Z.mod_small by lia. by rewrite <- app_assoc.
Qed.

Lemma putc_ops L D b given l : Forall (op_ok L D b given) (PutC <$> l) ∧ ops_size (PutC <$> l) = zlength l ∧ zlength (PutC <$> l) = zlength l.
Proof.
  induction l as [|x l (IH1 & IH2 & IH3)]; [done|]. cbn [fmap list_fmap]. split; [by constructor|].
  unfold ops_size, zlength in *. cbn [foldr op_size length]. split; lia.
Qed.

(** The bytes [ft] appends for a label, with the entities [t], put one by one into a buffer that starts on
    1024 bytes of the stack as [ft] has it, are the string the buffer yields: the
    conversion on lists of [VizText] is the one in memory. *)
Theorem label_in_buffer (malloc : Z → heap → Z * heap) (realloc : Z → Z → heap → Z * heap) (free : Z → heap → heap)
    (heap_ok : heap → (Z → Prop) → list (Z * Z) → Z → Prop) (HA : Allocator malloc realloc free heap_ok)
    (L : Z → Prop) (D : list (Z * Z)) (b e room : Z) (E : heap) (t : list (list Z * Z)) (s : list Z) :
  heap_ok E L D room → 0 <= b ∧ b mod 4 = 0 ∧ (∀ x, span b 16 x → L x) →
  0 < e ∧ block e 1024 ∧ (∀ x, span e 1024 x → L x) ∧ disjoint b 16 e 1024 →
  Forall (fun x => 0 < x < 256) (ft t s) → (zlength (ft t s) + 1) * (2 * (zlength (ft t s) + 1) + 16) <= room →
  ∃ p E' room', agxbuse malloc realloc b (foldl (fun E c => agxbputc malloc realloc b c E) (gj malloc b 1024 e E) (ft t s)) = (p, E') ∧
    string_at E' p (ft t s) ∧ heap_ok (kj free b E') L D room'.
Proof.
  intros Hok Hrec (He & Hblk & HL & Hd) Hbytes Hroom. set (ops := PutC <$> ft t s).
  destruct (putc_ops L D b (given_block 1024 e) (ft t s)) as (H1 & H2 & H3). fold ops in H1, H2, H3.
  assert (Forall (fun x => 0 <= x < 256) (ft t s)) as Hb' by (eapply Forall_impl; [exact Hbytes|]; intros x Hx; simpl in *; lia).
  assert (foldl (content E) [] ops = ft t s) as Hc by (unfold ops; by rewrite putc_content).
  destruct (buffer_life malloc realloc free heap_ok L D b 1024 e E room ops) as (p & E' & r & Hu & Hs & _ & Hk & _); try done.
  - right. split_and!; try done; lia.
  - destruct (Z.eqb_spec e 0); [lia|]. unfold ops_room. rewrite H2, H3. lia.
  - by rewrite Hc.
  - exists p, E', r. rewrite Hc in Hs. split_and!; try done. rewrite <- Hu. f_equal. unfold ops. clear.
    generalize (gj malloc b 1024 e E). induction (ft t s) as [|c l IH]; intros E1; [done|]. cbn [fmap list_fmap foldl buf_step]. apply IH.
Qed.
