(* ===== verification/VizQueue.v ===== *)
(** * Queues of the object code

    The queue in which Graphviz keeps nodes it has to visit: a record with the
    store, its limit, the head and the tail, over a ring of words ([new_queue],
    [enqueue], [dequeue] and [free_queue] of its utilities). *)

From Stdlib Require Import ZArith Lia.
From stdpp Require Import base list.
From S2P Require Import Prelude VizRuntime VizFacts VizFile VizMemory VizEnv VizInt64 VizInt64Facts VizDivision.
From S2P Require Import VizLibc VizLibcFacts VizLookupFacts VizJumpProps VizAlloc.

Open Scope Z_scope.

(** [Es]: [enqueue]. *)
Definition Es (a b : Z) (E : heap) : heap :=
  let d := a + 12 in
  let e := load32s E d in
  let E := store32 d (e + 4) E in
  let E := store32 e b E in
  if u32 (load32s E (a + 4)) <=? u32 (load32s E d) then store32 d (load32s E a) E else E.

(** [Fs]: [dequeue], 0 when empty. *)
Definition Fs (a : Z) (E : heap) : Z * heap :=
  let d := a + 8 in
  let b := load32s E d in
  if negb (b =? load32s E (a + 12)) then
    let e := i32 (b + 4) in
    let E := store32 d e E in
    let b := load32s E b in
    (b, if u32 (load32s E (a + 4)) <=? u32 e then store32 d (load32s E a) E else E)
  else (0, E).

Section Alloc.
(** [oB] and [pB], and the message on the standard error. *)
Context (malloc : Z → heap → Z * heap) (free : Z → heap → heap) (complain : heap → heap).

(** [Cs]: [new_queue]. *)
Definition Cs (a : Z) (E : heap) : Z * heap :=
  let '(b, E) := zmalloc malloc complain 16 E in
  let a := if a <? 2 then 2 else a in
  let '(d, E) := zmalloc malloc complain (shl a 2) E in
  let E := store32 b d E in
  let E := store32 (b + 12) d E in
  let E := store32 (b + 8) d E in
  (b, store32 (b + 4) (d + shl a 2) E).

(** [Ds]: [free_queue]. *)
Definition Ds (a : Z) (E : heap) : heap := free a (free (load32s E a) E).
End Alloc.

(** ** The queue as a list *)

(** A queue with the elements [l] in a ring of [cap] words at [store]. *)
Record queue (E : heap) (q store cap : Z) (l : list Z) : Prop := {
  q_record : 0 < q ∧ q mod 4 = 0 ∧ block q 16;
  q_ring : 0 < store ∧ store mod 4 = 0 ∧ 2 <= cap ∧ block store (4 * cap);
  q_apart : disjoint q 16 store (4 * cap);
  q_store : load32s E q = store;
  q_limit : load32s E (q + 4) = store + 4 * cap;
  q_len : zlength l < cap;
  q_words : ∃ h, 0 <= h < cap ∧ load32s E (q + 8) = store + 4 * h ∧
    load32s E (q + 12) = store + 4 * ((h + zlength l) mod cap) ∧
    ∀ k x, l !! k = Some x → load32s E (store + 4 * ((h + Z.of_nat k) mod cap)) = x
}.

Lemma mod_next i cap : 2 <= cap → 0 <= i → (i + 1) mod cap = if i mod cap + 1 =? cap then 0 else i mod cap + 1.
Proof.
  intros Hc Hi. pose proof (Z.mod_pos_bound i cap). rewrite <- Z.add_mod_idemp_l by lia.
  destruct (Z.eqb_spec (i mod cap + 1) cap) as [->|]; [by apply Z.mod_same; lia|]. apply Z.mod_small. lia.
Qed.

Lemma mod_apart i j cap : 2 <= cap → 0 <= i → i < j < i + cap → i mod cap ≠ j mod cap.
Proof.
  intros Hc Hi Hj He. assert ((j - i) mod cap = 0) as H by (rewrite Zminus_mod, He, Z.sub_diag; apply Z.mod_0_l; lia).
  rewrite Z.mod_small in H by lia. lia.
Qed.

Lemma queue_words q : q mod 4 = 0 → (q + 4) mod 4 = 0 ∧ (q + 8) mod 4 = 0 ∧ (q + 12) mod 4 = 0.
Proof. intros H. split_and!; rewrite Z.add_mod, H by lia; reflexivity. Qed.

Lemma ring_word p i : p mod 4 = 0 → (p + 4 * i) mod 4 = 0.
Proof. intros H. rewrite (Z.mul_comm 4), Z.mod_add by lia. done. Qed.

(** Loads from stores to other words, and from the word stored last. *)
Ltac qwords := repeat first
  [ rewrite load32s_stored_i32 by (done || (unfold is_i32; lia))
  | rewrite load32s_store32_other by (done || lia) ].

(** [Es] adds at the end. *)
Lemma Es_spec E q store cap l v : queue E q store cap l → zlength l + 1 < cap → is_i32 v → queue (Es q v E) q store cap (l ++ [v]).
Proof.
  intros [(Q0 & Q4 & Q16) (S0 & S4 & C & SB) Ha Hs Hl Hn (h & Hh & Hhd & Htl & Hx)] Hroom Hv.
  destruct (queue_words q Q4) as (M4 & M8 & M12). pose proof (zlength_nonneg l). unfold block, disjoint in *.
  set (t := (h + zlength l) mod cap) in *. assert (0 <= t < cap) as Ht by (apply Z.mod_pos_bound; lia).
  pose proof (ring_word store t S4) as Mt.
  assert (∀ k, 0 <= k < cap → (store + 4 * k) mod 4 = 0) as Mk by (intros; by apply ring_word).
  set (t' := (h + zlength (l ++ [v])) mod cap).
  assert (t' = if t + 1 =? cap then 0 else t + 1) as Ht'.
  { unfold t'. rewrite zlength_app. change (zlength [v]) with 1. rewrite Z.add_assoc. apply mod_next; lia. }
  assert (∃ E', Es q v E = E' ∧ load32s E' (q + 12) = store + 4 * t' ∧ load32s E' (store + 4 * t) = v ∧
    ∀ p, p mod 4 = 0 → p ≠ q + 12 → p ≠ store + 4 * t → load32s E' p = load32s E p) as (E' & -> & T' & V' & P').
  { unfold Es. rewrite Htl. qwords. rewrite Hl, Hs, !u32_id by (unfold is_u32; lia). eexists. split; [reflexivity|]. rewrite Ht'.
    destruct (Z.leb_spec (store + 4 * cap) (store + 4 * t + 4)), (Z.eqb_spec (t + 1) cap); try lia; split_and!.
    all: try (qwords; lia). all: intros p Mp N1 N2; rewrite !load32s_store32_other by (done || lia); done. }
  split; try done.
  - rewrite P' by (done || lia). done.
  - rewrite P' by (done || lia). done.
  - rewrite zlength_app. change (zlength [v]) with 1. lia.
  - exists h. split; [done|]. split; [by rewrite P' by (done || lia)|]. split; [done|].
    intros k x Hk. apply lookup_app_Some in Hk as [Hk|[Hge Hk]].
    + pose proof (lookup_lt_Some _ _ _ Hk) as Hlt. unfold zlength in *.
      pose proof (Z.mod_pos_bound (h + Z.of_nat k) cap). rewrite P'; [by apply Hx|by apply Mk; lia|lia|].
      pose proof (mod_apart (h + Z.of_nat k) (h + Z.of_nat (length l)) cap). unfold t. lia.
    + assert (k = length l) as -> by (apply lookup_lt_Some in Hk; simpl in Hk; lia). rewrite Nat.sub_diag in Hk. injection Hk as <-. done.
Qed.

(** [Fs] takes the first. *)
Lemma Fs_spec E q store cap x l : queue E q store cap (x :: l) → ∃ E', Fs q E = (x, E') ∧ queue E' q store cap l.
Proof.
  intros [(Q0 & Q4 & Q16) (S0 & S4 & C & SB) Ha Hs Hl Hn (h & Hh & Hhd & Htl & Hx)].
  destruct (queue_words q Q4) as (M4 & M8 & M12). pose proof (zlength_nonneg l). unfold block, disjoint in *.
  assert (zlength (x :: l) = zlength l + 1) as Hlen by (unfold zlength; cbn [length]; lia). rewrite Hlen in *.
  pose proof (Hx 0%nat x eq_refl) as Hx0. rewrite Z.add_0_r, Z.mod_small in Hx0 by lia.
  pose proof (mod_apart h (h + (zlength l + 1)) cap) as Hne. rewrite (Z.mod_small h) in Hne by lia.
  pose proof (ring_word store h S4) as Mh. unfold Fs. rewrite Hhd, Htl.
  destruct (Z.eqb_spec (store + 4 * h) (store + 4 * ((h + (zlength l + 1)) mod cap))); [lia|]. cbn [negb].
  rewrite (i32_id (store + 4 * h + 4)) by (unfold is_i32; lia). qwords. rewrite Hx0, Hl, Hs, !u32_id by (unfold is_u32; lia).
  set (h' := (h + 1) mod cap). assert (h' = if h + 1 =? cap then 0 else h + 1) as Hh'.
  { unfold h'. rewrite mod_next, (Z.mod_small h) by lia. done. }
  eexists. split; [reflexivity|]. set (E' := if _ : bool then _ else _).
  assert (load32s E' (q + 8) = store + 4 * h' ∧ ∀ p, p mod 4 = 0 → p ≠ q + 8 → load32s E' p = load32s E p) as [H8 P'].
  { unfold E'. rewrite Hh'. destruct (Z.leb_spec (store + 4 * cap) (store + 4 * h + 4)), (Z.eqb_spec (h + 1) cap); try lia;
      (split; [qwords; lia|]); intros p Mp N1; rewrite !load32s_store32_other by (done || lia); done. }
  assert (∀ k, 0 <= k → (h' + k) mod cap = (h + (k + 1)) mod cap) as Hmod.
  { intros k Hk. unfold h'. rewrite Z.add_mod_idemp_l by lia. f_equal. lia. }
  split; try done.
  - by rewrite P' by (done || lia).
  - by rewrite P' by (done || lia).
  - lia.
  - exists h'. split; [unfold h'; apply Z.mod_pos_bound; lia|]. split; [done|]. split.
    + rewrite P' by (done || lia). rewrite Hmod by lia. done.
    + intros k y Hk. rewrite Hmod by lia. pose proof (Z.mod_pos_bound (h + (Z.of_nat k + 1)) cap).
      rewrite P' by (apply ring_word || lia; done). specialize (Hx (S k) y Hk). by replace (Z.of_nat (S k)) with (Z.of_nat k + 1) in Hx by lia.
Qed.

Lemma Fs_empty E q store cap : queue E q store cap [] → Fs q E = (0, E).
Proof.
  intros [_ _ _ _ _ Hn (h & Hh & Hhd & Htl & _)]. unfold Fs. rewrite Hhd, Htl. change (@zlength Z []) with 0 in *.
  rewrite Z.add_0_r, Z.mod_small by lia. by rewrite Z.eqb_refl.
Qed.

(** One element too many, and the queue looks empty. *)
Lemma Es_full E q store cap l v : queue E q store cap l → zlength l + 1 = cap → is_i32 v → (Fs q (Es q v E)).1 = 0.
Proof.
  intros [(Q0 & Q4 & Q16) (S0 & S4 & C & SB) Ha Hs Hl Hn (h & Hh & Hhd & Htl & Hx)] Hroom Hv.
  destruct (queue_words q Q4) as (M4 & M8 & M12). unfold block, disjoint in *.
  set (t := (h + zlength l) mod cap) in *. assert (0 <= t < cap) as Ht by (apply Z.mod_pos_bound; lia).
  pose proof (ring_word store t S4) as Mt. pose proof (zlength_nonneg l).
  assert (h = if t + 1 =? cap then 0 else t + 1) as Ht'.
  { rewrite <- (Z.mod_small h cap) at 1 by lia. unfold t. rewrite <- mod_next by lia. replace (h + zlength l + 1) with (h + 1 * cap) by lia.
    by rewrite Z.mod_add by lia. }
  unfold Fs, Es. rewrite Htl. qwords. rewrite Hl, Hs, !u32_id by (unfold is_u32; lia).
  destruct (Z.leb_spec (store + 4 * cap) (store + 4 * t + 4)), (Z.eqb_spec (t + 1) cap); try lia; qwords; rewrite Hhd;
    match goal with |- context [?x =? ?y] => destruct (Z.eqb_spec x y); [done|lia] end.
Qed.

Lemma Es_frame E q store cap l v x : queue E q store cap l → ¬ span q 16 x → ¬ span store (4 * cap) x → Es q v E x = E x.
Proof.
  intros [(Q0 & Q4 & Q16) (S0 & S4 & C & SB) Ha Hs Hl Hn (h & Hh & Hhd & Htl & Hx)] H1 H2. unfold span in *.
  destruct (queue_words q Q4) as (M4 & M8 & M12). pose proof (Z.mod_pos_bound (h + zlength l) cap).
  pose proof (ring_word store ((h + zlength l) mod cap) S4). unfold Es. rewrite Htl.
  destruct (_ <=? _); rewrite !store32_at by (done || lia); done.
Qed.

Lemma Fs_frame E q store cap l x : queue E q store cap l → ¬ span q 16 x → (Fs q E).2 x = E x.
Proof.
  intros [(Q0 & Q4 & Q16) _ _ _ _ _ _] H1. unfold span in *. destruct (queue_words q Q4) as (M4 & M8 & M12).
  unfold Fs. destruct (negb _); [|done]. cbn [snd]. destruct (_ <=? _); rewrite !store32_at by (done || lia); done.
Qed.

Lemma bytes_Es E q v : bytes E → bytes (Es q v E).
Proof. intros HE. unfold Es. destruct (_ <=? _); by repeat apply bytes_store32. Qed.

Lemma bytes_Fs E q : bytes E → bytes (Fs q E).2.
Proof. intros HE. unfold Fs. destruct (negb _); [|done]. cbn [snd]. destruct (_ <=? _); by repeat apply bytes_store32. Qed.

(** ** Uses of a queue *)

Inductive queue_op : Type := Enqueue (v : Z) | Dequeue.

Fixpoint queue_run (q : Z) (ops : list queue_op) (E : heap) : list Z * heap :=
  match ops with
  | [] => ([], E)
  | Enqueue v :: ops' => queue_run q ops' (Es q v E)
  | Dequeue :: ops' => let '(v, E) := Fs q E in let '(vs, E) := queue_run q ops' E in (v :: vs, E)
  end.

(** The values taken out of a list used first in, first out; [None] when more than
    [n] values wait. *)
Fixpoint fifo (n : Z) (ops : list queue_op) (l : list Z) : option (list Z) :=
  match ops with
  | [] => Some []
  | Enqueue v :: ops' => if zlength l <? n then fifo n ops' (l ++ [v]) else None
  | Dequeue :: ops' => vs ← fifo n ops' (tail l); Some (default 0 (head l) :: vs)
  end.

Definition op_word (o : queue_op) : Prop := match o with Enqueue v => is_i32 v | Dequeue => True end.

Section Queue.
Context (malloc : Z → heap → Z * heap) (realloc : Z → Z → heap → Z * heap) (free : Z → heap → heap).
Context (heap_ok : heap → (Z → Prop) → list (Z * Z) → Z → Prop) `{HA : !Allocator malloc realloc free heap_ok}.
Context (L : Z → Prop) (D : list (Z * Z)).

(** A queue in memory of its own. *)
Definition own_queue (E : heap) (q store cap room : Z) (l : list Z) : Prop :=
  queue E q store cap l ∧ heap_ok E L ((store, 4 * cap) :: (q, 16) :: D) room ∧
  (∀ x, span store (4 * cap) x → ¬ held L ((q, 16) :: D) x) ∧ (∀ x, span q 16 x → ¬ held L D x).

(** Writes to the record and the ring. *)
Lemma own_write E E' q store cap room l l' : own_queue E q store cap room l → queue E' q store cap l' → bytes E' →
  (∀ x, ¬ span q 16 x → ¬ span store (4 * cap) x → E' x = E x) →
  own_queue E' q store cap room l' ∧ ∀ x, held L D x → E' x = E x.
Proof using HA.
  intros (Hq & Hok & H1 & H2) Hq' HE' Hx. split; [split_and!; try done|].
  - apply (heap_write E); [done..|]. intros x Hn. rewrite !held_cons in Hn. apply Hx; tauto.
  - intros x Hh. apply Hx; intros Hs; [by apply (H2 x)|]. apply (H1 x Hs), held_cons. by right.
Qed.

Lemma queue_run_spec ops E q store cap room l vs : own_queue E q store cap room l → Forall op_word ops →
  fifo (cap - 1) ops l = Some vs →
  ∃ E' l', queue_run q ops E = (vs, E') ∧ own_queue E' q store cap room l' ∧ ∀ x, held L D x → E' x = E x.
Proof using HA.
  revert E l vs. induction ops as [|[v|] ops IH]; intros E l vs Hown Hw Hf; cbn [queue_run fifo] in *.
  - injection Hf as <-. by exists E, l.
  - apply Forall_cons in Hw as [Hv Hw]. destruct (Z.ltb_spec (zlength l) (cap - 1)); [|done].
    pose proof Hown as (Hq & Hok & _). destruct (heap_bytes _ _ _ _ Hok) as [HE _].
    destruct (own_write E (Es q v E) q store cap room l (l ++ [v]) Hown) as [Hown' Hx'].
    { apply Es_spec; [done|lia|done]. } { by apply bytes_Es. } { intros x. by apply (Es_frame E q store cap l). }
    destruct (IH _ _ _ Hown' Hw Hf) as (E' & l' & Hr & Ho & Hx). exists E', l'. split_and!; [done..|].
    intros x Hh. rewrite Hx by done. by apply Hx'.
  - apply Forall_cons in Hw as [_ Hw]. destruct (fifo (cap - 1) ops (tail l)) as [vs'|] eqn:Ef; [|done]. injection Hf as <-.
    pose proof Hown as (Hq & Hok & _). destruct (heap_bytes _ _ _ _ Hok) as [HE _].
    assert (∃ E1, Fs q E = (default 0 (head l), E1) ∧ queue E1 q store cap (tail l)) as (E1 & HF & Hq1).
    { destruct l as [|x l]; [exists E; split; [by apply (Fs_empty E q store cap)|done]|]. by apply Fs_spec. }
    destruct (own_write E E1 q store cap room l (tail l) Hown Hq1) as [Hown' Hx'].
    { rewrite (surjective_pairing (Fs q E)) in HF. injection HF as _ <-. by apply bytes_Fs. }
    { intros x Hs _. rewrite (surjective_pairing (Fs q E)) in HF. injection HF as _ <-. by apply (Fs_frame E q store cap l). }
    rewrite HF. destruct (IH _ _ _ Hown' Hw Ef) as (E' & l' & Hr & Ho & Hx). rewrite Hr. exists E', l'. split_and!; [done..|].
    intros x Hh. rewrite Hx by done. by apply Hx'.
Qed.

Lemma shl_2 a : 0 <= a < 2 ^ 28 → shl a 2 = 4 * a.
Proof.
  intros Ha. unfold shl. rewrite (i32_id a) by (unfold is_i32; lia). change (Z.land 2 31) with 2.
  rewrite Z.shiftl_mul_pow2 by lia. rewrite i32_id by (unfold is_i32; lia). lia.
Qed.

Context (complain : heap → heap).

(** [Cs]: an empty queue. *)
Lemma Cs_spec E room n : heap_ok E L D room → n < 2 ^ 28 → let cap := Z.max 2 n in 4 * cap + 48 <= room →
  ∃ q store E', Cs malloc complain n E = (q, E') ∧ own_queue E' q store cap (room - 4 * cap - 48) [] ∧ ∀ x, held L D x → E' x = E x.
Proof using HA.
  intros Hok Hn cap Hroom. unfold Cs.
  destruct (zmalloc_ok malloc realloc complain free heap_ok E L D room 16 Hok) as (q & E1 & -> & Q0 & Q8 & QB & Qf & Qk & Qz & Hok1); [lia..|].
  replace (if n <? 2 then 2 else n) with cap by (unfold cap; destruct (Z.ltb_spec n 2); lia). rewrite shl_2 by lia.
  destruct (zmalloc_ok malloc realloc complain free heap_ok E1 L ((q, 16) :: D) (room - 16 - 16) (4 * cap) Hok1)
    as (s & E2 & -> & S0 & S8 & SB & Sf & Sk & Sz & Hok2); [lia..|].
  assert (q mod 4 = 0 ∧ s mod 4 = 0) as [Q4 S4] by (clear -Q8 S8; split; Z.div_mod_to_equations; lia).
  destruct (queue_words q Q4) as (M4 & M8 & M12). unfold block in QB, SB.
  set (E3 := store32 (q + 4) (s + 4 * cap) _).
  assert (disjoint q 16 s (4 * cap)) as Hd.
  { unfold disjoint. destruct (Z.le_gt_cases (q + 16) s); [by left|]. right. destruct (Z.le_gt_cases (s + 4 * cap) q); [done|].
    destruct (Z.le_gt_cases q s).
    - destruct (Sf s); [unfold span; lia|]. apply held_cons. left. unfold span. lia.
    - destruct (Sf q); [unfold span; lia|]. apply held_cons. left. unfold span. lia. }
  assert (∀ x, ¬ span q 16 x → E3 x = E2 x) as Hx by (intros x Hs; unfold E3, span in *; rewrite !store32_at by (done || lia); done).
  destruct (heap_bytes _ _ _ _ Hok2) as [HE2 _]. exists q, s, E3. split; [done|]. split; [split; [|split_and!]|].
  - split; try done; try (unfold E3; qwords; done).
    + split_and!; [done|done|lia|done].
    + change (@zlength Z []) with 0. lia.
    + exists 0. change (@zlength Z []) with 0. rewrite Z.mod_0_l by lia. split; [lia|]. unfold E3. split; [qwords; lia|]. split; [qwords; lia|done].
  - replace (room - 4 * cap - 48) with (room - 16 - 16 - 4 * cap - 16) by lia. apply (heap_write E2); [done| |].
    + unfold E3. by repeat apply bytes_store32.
    + intros x Hn'. rewrite !held_cons in Hn'. apply Hx. tauto.
  - done.
  - done.
  - intros x Hh. rewrite Hx by (intros Hs; by apply (Qf x)). rewrite Sk by (apply held_cons; by right). by apply Qk.
Qed.

(** [Ds] gives both blocks back. *)
Lemma Ds_spec E q store cap room l : own_queue E q store cap room l →
  heap_ok (Ds free q E) L D room ∧ ∀ x, held L D x → Ds free q E x = E x.
Proof using HA.
  intros (Hq & Hok & H1 & H2). unfold Ds. rewrite (q_store _ _ _ _ _ Hq).
  destruct (free_ok E L ((q, 16) :: D) room store (4 * cap) Hok H1) as [Hk Hok1].
  destruct (free_ok _ L D room q 16 Hok1 H2) as [Hk2 Hok2]. split; [done|]. intros x Hx. rewrite Hk2 by done. apply Hk, held_cons. by right.
Qed.
End Queue.

(** C38: A queue gives its elements back in the order they came.  A queue made for
    [n] elements, used by any sequence of [enqueue] and [dequeue] during which
    fewer than [max 2 n] values wait, returns the values of a list used first in,
    first out, 0 when nothing waits; nothing else that is held changes, and
    [free_queue] returns both blocks. *)
Theorem queue_first_in_first_out (malloc : Z → heap → Z * heap) (realloc : Z → Z → heap → Z * heap) (free : Z → heap → heap)
    (heap_ok : heap → (Z → Prop) → list (Z * Z) → Z → Prop) (HA : Allocator malloc realloc free heap_ok) (complain : heap → heap)
    (L : Z → Prop) (D : list (Z * Z)) (E : heap) (room n : Z) (ops : list queue_op) (vs : list Z) :
  heap_ok E L D room → n < 2 ^ 28 → 4 * Z.max 2 n + 48 <= room → Forall op_word ops → fifo (Z.max 2 n - 1) ops [] = Some vs →
  ∃ q E1 E2 room', Cs malloc complain n E = (q, E1) ∧ queue_run q ops E1 = (vs, E2) ∧
    (∀ x, held L D x → E2 x = E x) ∧ heap_ok (Ds free q E2) L D room' ∧ (∀ x, held L D x → Ds free q E2 x = E x).
Proof.
  intros Hok Hn Hroom Hw Hf.
  destruct (Cs_spec malloc realloc free heap_ok L D complain E room n Hok Hn Hroom) as (q & s & E1 & H1 & Ho1 & X1).
  destruct (queue_run_spec malloc realloc free heap_ok L D ops E1 q s _ _ [] vs Ho1 Hw Hf) as (E2 & l & H2 & Ho2 & X2).
  destruct (Ds_spec malloc realloc free heap_ok L D E2 q s _ _ l Ho2) as [H3 X3].
  eexists q, E1, E2, _. split_and!; [done|done| |exact H3|]; intros x Hx; rewrite ?X3, X2 by done; by apply X1.
Qed.

Definition empty_memory : heap := store32 8 65536 (fun _ => 0).

Lemma empty_memory_ok : Bump.ok empty_memory (fun x => 16 <= x < 1024) [] (2 ^ 20).
Proof.
  assert (Bump.top empty_memory = 65536) as Ht by reflexivity. split.
  - by apply bytes_store32.
  - rewrite Ht. split; [lia|reflexivity].
  - rewrite Ht. lia.
  - rewrite Ht. intros x [Hx|(p & n & Hin & _)]; [lia|by apply elem_of_nil in Hin].
Qed.

(** A ring of three words that is used around its end. *)
Definition sample_ops : list queue_op :=
  [Enqueue 11; Enqueue 12; Dequeue; Enqueue 13; Dequeue; Enqueue 14; Dequeue; Dequeue; Dequeue].

Lemma queue_first_in_first_out_witness :
  ∃ q E1 E2, Cs Bump.malloc (fun E => E) 3 empty_memory = (q, E1) ∧ queue_run q sample_ops E1 = ([11; 12; 13; 14; 0], E2).
Proof.
  destruct (queue_first_in_first_out Bump.malloc Bump.realloc Bump.free Bump.ok bump_allocator (fun E => E) (fun x => 16 <= x < 1024) []
    empty_memory (2 ^ 20) 3 sample_ops [11; 12; 13; 14; 0]) as (q & E1 & E2 & _ & H1 & H2 & _).
  - apply empty_memory_ok.
  - lia.
  - lia.
  - repeat constructor; lia.
  - reflexivity.
  - exists q, E1, E2. split; [exact H1|exact H2].
Defined.
