(* ===== verification/VizUnion.v ===== *)
(** * Union-find of the object code

    [Bh], [Rh] and [Qh] are [find], [union_one] and [union_all] of the ranking
    phase.  A node has at 16 the address of its data, and these have at 152 the
    node it is joined to: 0 or itself for the leader of a set.  Finding a leader
    shortens the path to it. *)

From Stdlib Require Import ZArith Lia.
From stdpp Require Import base list gmap.
From S2P Require Import Prelude VizRuntime VizFacts VizFile VizMemory VizEnv VizInt64 VizInt64Facts VizDivision.
From S2P Require Import VizLibc VizLibcFacts VizLookupFacts VizJumpProps VizAlloc.

Open Scope Z_scope.

(** [Bh]: [None] when the path is longer than [fuel]. *)
Fixpoint Bh (fuel : nat) (a : Z) (E : heap) : option (Z * heap) :=
  match fuel with
  | O => None
  | S fuel' =>
      let b := a + 16 in
      let d := load32s E b + 152 in
      let e := load32s E d in
      if negb (e =? 0) then
        if negb (e =? a) then
          '(a, E) ← Bh fuel' e E;
          Some (a, store32 (load32s E b + 152) a E)
        else Some (a, E)
      else Some (a, store32 d a E)
  end.

(** [Rh]. *)
Definition Rh (fuel : nat) (a b : Z) (E : heap) : option (Z * heap) :=
  if negb (b =? 0) then
    '(a, E) ← Bh fuel a E;
    '(r, E) ← Bh fuel b E;
    Some (a, store32 (load32s E (r + 16) + 152) a E)
  else Some (a, E).

Section All.
(** [Rk] and [Sk]: the first node of a graph and the one after a node, 0 for none. *)
Context (Rk : Z → heap → Z * heap) (Sk : Z → Z → heap → Z * heap).

(** [do{Rh(b,c);c=Sk(a,c)}while(c)]; [n] bounds the nodes. *)
Fixpoint Qh_loop (n fuel : nat) (a b c : Z) (E : heap) : option heap :=
  match n with
  | O => None
  | S n' =>
      '(_, E) ← Rh fuel b c E;
      let '(c, E) := Sk a c E in
      if negb (c =? 0) then Qh_loop n' fuel a b c E else Some E
  end.

(** [Qh]. *)
Definition Qh (n fuel : nat) (a : Z) (E : heap) : option (Z * heap) :=
  let '(c, E) := Rk a E in
  if negb (c =? 0) then
    '(b, E) ← Bh fuel c E;
    let '(c, E) := Sk a c E in
    if negb (c =? 0) then E ← Qh_loop n fuel a b c E; Some (b, E) else Some (b, E)
  else Some (0, E).
End All.

(** ** Forests *)

Section Forest.
(** The nodes and the address of the data of each; and what else the memory has to
    hold, apart from the words that join nodes. *)
Context (N : gset Z) (data : Z → Z) (graph : heap → Prop).
Definition graph_apart : Prop := ∀ E a v, a ∈ N → graph E → graph (store32 (data a + 152) v E).
Context (Hgraph : graph_apart).

Record nodes_ok (E : heap) : Prop := {
  no_graph : graph E;
  no_node : ∀ a, a ∈ N → 0 < a < 2 ^ 31 ∧ a mod 4 = 0 ∧ load32s E (a + 16) = data a ∧ data a mod 4 = 0;
  no_apart : ∀ a b, a ∈ N → b ∈ N → a + 16 ≠ data b + 152;
  no_inj : ∀ a b, a ∈ N → b ∈ N → data a = data b → a = b
}.

Definition parent (E : heap) (a : Z) : Z := load32s E (data a + 152).

(** The sets, given by their leaders; [depth] shows that paths end. *)
Definition forest (E : heap) (lead : Z → Z) (depth : Z → nat) : Prop :=
  nodes_ok E ∧ ∀ a, a ∈ N →
    lead a = a ∧ (parent E a = 0 ∨ parent E a = a) ∨
    parent E a ∈ N ∧ lead (parent E a) = lead a ∧ (depth (parent E a) < depth a)%nat.

Definition sets (E : heap) (lead : Z → Z) : Prop := ∃ depth, forest E lead depth.

(** Two memories with the same words of the nodes. *)
Definition same_nodes (E E' : heap) : Prop :=
  ∀ a, a ∈ N → load32s E' (a + 16) = load32s E (a + 16) ∧ load32s E' (data a + 152) = load32s E (data a + 152).

Lemma same_nodes_forest E E' lead depth : same_nodes E E' → graph E' → forest E lead depth → forest E' lead depth.
Proof.
  intros Hs Hg [[_ H1 H2 H3] Hf]. split; [split; try done|].
  - intros a Ha. destruct (Hs a Ha) as [-> _]. by apply H1.
  - intros a Ha. unfold parent. destruct (Hs a Ha) as [_ ->]. by apply Hf.
Qed.

Lemma words_ok E a : nodes_ok E → a ∈ N → (a + 16) mod 4 = 0 ∧ (data a + 152) mod 4 = 0.
Proof. intros [_ H _ _] Ha. destruct (H a Ha) as (_ & Ha4 & _ & Hd). split; rewrite Z.add_mod, ?Ha4, ?Hd by lia; reflexivity. Qed.

(** A node given a parent. *)
Lemma parent_set E a v b : nodes_ok E → a ∈ N → b ∈ N → is_i32 v →
  parent (store32 (data a + 152) v E) b = if b =? a then v else parent E b.
Proof.
  intros Hn Ha Hb Hv. destruct (words_ok E a Hn Ha) as [_ Wa], (words_ok E b Hn Hb) as [_ Wb]. unfold parent.
  destruct (Z.eqb_spec b a) as [->|Hne]; [by apply load32s_stored_i32|]. apply load32s_store32_other; [done..|].
  intros He. apply Hne. symmetry. apply (no_inj E Hn); [done..|lia].
Qed.

Lemma nodes_set E a v : nodes_ok E → a ∈ N → nodes_ok (store32 (data a + 152) v E).
Proof using Hgraph.
  intros Hn Ha. pose proof Hn as [H0 H1 H2 H3]. split; try done; [by apply Hgraph|]. intros b Hb. destruct (H1 b Hb) as (? & ? & Hd & ?). split_and!; try done; try lia.
  destruct (words_ok E a Hn Ha) as [_ Wa], (words_ok E b Hn Hb) as [Wb _]. rewrite load32s_store32_other; [done..|].
  intros He. by apply (H2 b a).
Qed.

(** Leaders lead themselves, and are no deeper. *)
Lemma lead_spec E lead depth a : forest E lead depth → a ∈ N →
  lead a ∈ N ∧ lead (lead a) = lead a ∧ (depth (lead a) <= depth a)%nat.
Proof.
  intros [Hn Hf]. remember (depth a) as k eqn:Hk. revert a Hk. induction (lt_wf k) as [k _ IH]. intros a -> Ha.
  destruct (Hf a Ha) as [[Hl _]|(Hp & Hl & Hd)]; [by rewrite !Hl|]. destruct (IH _ Hd _ eq_refl Hp) as (H1 & H2 & H3).
  rewrite <- Hl. split_and!; [done..|lia].
Qed.

(** A node given its leader as parent. *)
Lemma forest_shorten E lead depth a : forest E lead depth → a ∈ N → forest (store32 (data a + 152) (lead a) E) lead depth.
Proof.
  intros Hf Ha. pose proof (lead_spec E lead depth a Hf Ha) as (L1 & L2 & L3). pose proof Hf as [Hn Hp]. split; [by apply nodes_set|].
  intros b Hb. destruct (no_node E Hn _ L1) as (Hr & _). rewrite parent_set by (done || (unfold is_i32; lia)).
  destruct (Z.eqb_spec b a) as [->|]; [|by apply Hp]. destruct (decide (lead a = a)) as [He|He]; [left; by rewrite He; auto|].
  right. split_and!; [done..|]. destruct (Hp a Ha) as [[? _]|(P1 & P2 & P3)]; [done|].
  destruct (lead_spec E lead depth _ Hf P1) as (_ & _ & P4). rewrite P2 in P4. lia.
Qed.

(** The nodes not deeper than [a], which bound the path from it. *)
Definition above (depth : Z → nat) (a : Z) : gset Z := filter (fun x => (depth x <= depth a)%nat) N.

Lemma above_less depth a e : a ∈ N → (depth e < depth a)%nat → (size (above depth e) < size (above depth a))%nat.
Proof.
  intros Ha Hd. apply subset_size. split.
  - intros x. unfold above. rewrite !elem_of_filter. intros [? ?]. split; [lia|done].
  - intros Hs. assert (a ∈ above depth e) as Hin by (apply Hs; unfold above; apply elem_of_filter; split; [lia|done]).
    unfold above in Hin. apply elem_of_filter in Hin as [? _]. lia.
Qed.

(** [Bh] returns the leader, and the sets stay. *)
Lemma Bh_spec fuel E lead depth a : forest E lead depth → a ∈ N → (size (above depth a) <= fuel)%nat →
  ∃ E', Bh fuel a E = Some (lead a, E') ∧ forest E' lead depth.
Proof.
  revert a E. induction fuel as [|fuel IH]; intros a E Hf Ha Hfuel.
  { exfalso. assert (a ∈ above depth a) as Hin by (unfold above; apply elem_of_filter; split; [lia|done]).
    assert (size (above depth a) = 0)%nat as H0 by lia. apply size_empty_inv in H0. by apply (not_elem_of_empty (C := gset Z) a), H0. }
  pose proof Hf as [Hn Hp]. cbn [Bh]. destruct (no_node E Hn a Ha) as (Hr & _ & Hda & _). rewrite Hda. fold (parent E a).
  assert (lead a = a → forest (store32 (data a + 152) a E) lead depth) as Hself.
  { intros Hl. pose proof (forest_shorten E lead depth a Hf Ha) as H. by rewrite Hl in H. }
  destruct (Hp a Ha) as [[Hl [-> | ->]]|(P1 & P2 & P3)].
  - cbn [Z.eqb negb]. rewrite Hl. eexists. split; [reflexivity|auto].
  - destruct (Z.eqb_spec a 0); [lia|]. rewrite Z.eqb_refl, Hl. cbn [negb]. by exists E.
  - destruct (no_node E Hn _ P1) as (Hr' & _). destruct (Z.eqb_spec (parent E a) 0); [lia|].
    destruct (Z.eqb_spec (parent E a) a) as [He|]; [rewrite He in P3; lia|]. cbn [negb].
    pose proof (above_less depth a (parent E a) Ha P3). destruct (IH (parent E a) E Hf P1) as (E' & -> & Hf'); [lia|].
    cbn [mbind option_bind]. rewrite P2. eexists. split; [reflexivity|].
    destruct (no_node E' (proj1 Hf') a Ha) as (_ & _ & -> & _). by apply forest_shorten.
Qed.

Lemma above_bound depth a : (size (above depth a) <= size N)%nat.
Proof. apply subseteq_size. intros x. unfold above. rewrite elem_of_filter. tauto. Qed.

(** Two sets joined under the leader of the first. *)
Definition joined (lead : Z → Z) (a b x : Z) : Z := if lead x =? lead b then lead a else lead x.

Lemma forest_join E lead depth a b : forest E lead depth → a ∈ N → b ∈ N →
  sets (store32 (data (lead b) + 152) (lead a) E) (joined lead a b).
Proof.
  intros Hf Ha Hb. pose proof (lead_spec E lead depth a Hf Ha) as (A1 & A2 & _). pose proof (lead_spec E lead depth b Hf Hb) as (B1 & B2 & _).
  pose proof Hf as [Hn Hp]. destruct (no_node E Hn _ A1) as (Hr & _).
  destruct (decide (lead a = lead b)) as [He|He].
  { exists depth. assert (forest (store32 (data (lead b) + 152) (lead a) E) lead depth) as Hs.
    { pose proof (forest_shorten E lead depth (lead b) Hf B1) as H. rewrite B2, <- He in *. done. }
    destruct Hs as [Hn' Hs]. split; [done|]. intros x Hx. assert (∀ y, joined lead a b y = lead y) as Hj.
    { intros y. unfold joined. destruct (Z.eqb_spec (lead y) (lead b)); congruence. }
    rewrite !Hj. by apply Hs. }
  exists (fun x => if lead x =? lead b then (depth x + depth (lead a) + 1)%nat else depth x).
  split; [by apply nodes_set|]. intros x Hx. rewrite parent_set by (done || (unfold is_i32; lia)). unfold joined.
  destruct (Z.eqb_spec x (lead b)) as [->|Hne].
  - right. rewrite A2, B2, Z.eqb_refl. destruct (Z.eqb_spec (lead a) (lead b)); [done|]. split_and!; [done..|lia].
  - destruct (Hp x Hx) as [[Hl Hpar]|(P1 & P2 & P3)].
    + left. rewrite Hl. by destruct (Z.eqb_spec x (lead b)).
    + right. rewrite P2. split; [done|]. split; [done|]. destruct (Z.eqb_spec (lead x) (lead b)); lia.
Qed.

(** [Rh] joins. *)
Lemma Rh_spec fuel E lead a b : sets E lead → a ∈ N → b ∈ N → (size N <= fuel)%nat →
  ∃ E', Rh fuel a b E = Some (lead a, E') ∧ sets E' (joined lead a b).
Proof.
  intros [depth Hf] Ha Hb Hfuel. unfold Rh. destruct (no_node E (proj1 Hf) b Hb) as (Hb0 & _). destruct (Z.eqb_spec b 0); [lia|]. cbn [negb].
  pose proof (above_bound depth a). pose proof (above_bound depth b).
  destruct (Bh_spec fuel E lead depth a Hf Ha) as (E1 & -> & Hf1); [lia|]. cbn [mbind option_bind].
  destruct (Bh_spec fuel E1 lead depth b Hf1 Hb) as (E2 & -> & Hf2); [lia|]. cbn [mbind option_bind].
  destruct (lead_spec E2 lead depth b Hf2 Hb) as (B1 & _). destruct (no_node E2 (proj1 Hf2) _ B1) as (_ & _ & -> & _).
  eexists. split; [reflexivity|]. by apply (forest_join E2 lead depth).
Qed.

Lemma sets_ext E lead lead' : (∀ x, lead x = lead' x) → sets E lead → sets E lead'.
Proof. intros He [depth [Hn Hf]]. exists depth. split; [done|]. intros a Ha. rewrite <- !He. by apply Hf. Qed.

(** ** A whole graph *)

(** The sets of the nodes of [pre] joined under [r]. *)
Definition merged (lead : Z → Z) (pre : list Z) (r x : Z) : Z := if existsb (fun n => lead x =? lead n) pre then r else lead x.

Lemma merged_in (lead : Z → Z) pre x : existsb (fun n => lead x =? lead n) pre = true ↔ ∃ n, n ∈ pre ∧ lead x = lead n.
Proof.
  rewrite existsb_exists. split; intros (n & Hn & He); exists n.
  - apply list_elem_of_In in Hn. by apply Z.eqb_eq in He.
  - apply list_elem_of_In in Hn. by rewrite Z.eqb_eq.
Qed.

Lemma merged_join lead c0 pre c x : lead (lead c0) = lead c0 →
  joined (merged lead (c0 :: pre) (lead c0)) (lead c0) c x = merged lead ((c0 :: pre) ++ [c]) (lead c0) x.
Proof.
  intros Hr. set (P y := existsb (fun n => lead y =? lead n) (c0 :: pre)).
  assert (∀ y, merged lead (c0 :: pre) (lead c0) y = if P y then lead c0 else lead y) as Hm by done.
  assert (merged lead ((c0 :: pre) ++ [c]) (lead c0) x = if P x || (lead x =? lead c) then lead c0 else lead x) as ->.
  { unfold merged. rewrite existsb_app. unfold P. cbn [existsb]. by rewrite orb_false_r. }
  assert (∀ y, lead y = lead c0 → P y = true) as HP by (intros y Hy; unfold P; cbn [existsb]; rewrite Hy, Z.eqb_refl; done).
  assert (P c = true → lead x = lead c → P x = true) as HPx by (intros Hy Hxy; unfold P in *; by rewrite Hxy).
  unfold joined. rewrite !Hm, (HP (lead c0) Hr). destruct (P x) eqn:Ex, (P c) eqn:Ec; cbn [orb].
  - by rewrite Z.eqb_refl.
  - by destruct (Z.eqb_spec (lead c0) (lead c)).
  - destruct (Z.eqb_spec (lead x) (lead c0)) as [He|]; [by rewrite (HP x He) in Ex|].
    destruct (Z.eqb_spec (lead x) (lead c)) as [He|]; [|done]. by specialize (HPx eq_refl He).
  - done.
Qed.

Section Walk.
Context (Rk : Z → heap → Z * heap) (Sk : Z → Z → heap → Z * heap).

(** [Rk] and [Sk] go through the nodes [ns] of the graph [g], and leave the words of
    the nodes alone. *)
Definition walks (g : Z) (ns : list Z) : Prop := ∀ E, graph E →
  ((Rk g E).1 = default 0 (head ns) ∧ same_nodes E (Rk g E).2 ∧ graph (Rk g E).2) ∧
  ∀ k a, ns !! k = Some a → (Sk g a E).1 = default 0 (ns !! S k) ∧ same_nodes E (Sk g a E).2 ∧ graph (Sk g a E).2.

Lemma sets_walk E E' lead : same_nodes E E' → graph E' → sets E lead → sets E' lead.
Proof. intros Hs Hg [depth Hf]. exists depth. by apply (same_nodes_forest E). Qed.

Lemma Qh_loop_spec fuel g c0 mid c rest lead E n :
  walks g ((c0 :: mid) ++ c :: rest) → (∀ a, a ∈ (c0 :: mid) ++ c :: rest → a ∈ N) → lead c0 ∈ N → lead (lead c0) = lead c0 →
  sets E (merged lead (c0 :: mid) (lead c0)) → (size N <= fuel)%nat → (length rest < n)%nat →
  ∃ E', Qh_loop Sk n fuel g (lead c0) c E = Some E' ∧ sets E' (merged lead ((c0 :: mid) ++ c :: rest) (lead c0)).
Proof using Hgraph.
  revert mid c rest E. induction n as [|n IH]; intros mid c rest E Hw Hin Hr0 Hr Hs Hfuel Hn; [lia|]. cbn [Qh_loop].
  destruct (Rh_spec fuel E _ (lead c0) c Hs Hr0) as (E1 & -> & Hs1); [apply Hin; rewrite ?elem_of_app, ?elem_of_cons; tauto|done|]. cbn [mbind option_bind].
  apply (sets_ext _ _ _ (fun x => merged_join lead c0 mid c x Hr)) in Hs1.
  pose proof Hs1 as [dep [Hn1 _]]. destruct (Hw E1 (no_graph E1 Hn1)) as [_ Hnext].
  destruct (Hnext (length (c0 :: mid)) c) as (Hc & Hsame & Hg).
  { by rewrite lookup_app_r, Nat.sub_diag by lia. }
  rewrite lookup_app_r in Hc by lia. replace (S (length (c0 :: mid)) - length (c0 :: mid))%nat with 1%nat in Hc by lia.
  destruct (Sk g c E1) as [c' E2]. cbn [fst snd] in Hc, Hsame, Hg. pose proof (sets_walk E1 E2 _ Hsame Hg Hs1) as Hs2.
  destruct rest as [|r rest]; cbn [lookup list_lookup] in Hc; unfold default, from_option, id in Hc; subst c'.
  - cbn [Z.eqb negb]. by exists E2.
  - assert (r ∈ N) as Hrn by (apply Hin; rewrite ?elem_of_app, ?elem_of_cons; tauto). destruct (no_node E1 Hn1 r Hrn) as (? & _).
    destruct (Z.eqb_spec r 0); [lia|]. cbn [negb]. cbn [length] in Hn.
    assert ((c0 :: mid) ++ c :: r :: rest = (c0 :: (mid ++ [c])) ++ r :: rest) as Hl by (cbn [app]; by rewrite <- app_assoc).
    rewrite Hl in *. apply IH; done || lia.
Qed.

(** [Qh] joins the nodes of a graph. *)
Lemma Qh_spec fuel g c0 rest lead E n :
  walks g (c0 :: rest) → (∀ a, a ∈ c0 :: rest → a ∈ N) → sets E lead → (size N <= fuel)%nat → (length rest <= n)%nat →
  ∃ E', Qh Rk Sk n fuel g E = Some (lead c0, E') ∧ sets E' (merged lead (c0 :: rest) (lead c0)).
Proof using Hgraph.
  intros Hw Hin Hs Hfuel Hn. assert (c0 ∈ N) as Hc0 by (apply Hin; rewrite ?elem_of_app, ?elem_of_cons; tauto).
  pose proof Hs as [dep Hf]. destruct (Hw E (no_graph E (proj1 Hf))) as [(HR & Hsame & Hg) _].
  unfold Qh. destruct (Rk g E) as [c E1]. cbn [fst snd head] in *. unfold default, from_option, id in HR. subst c. pose proof (same_nodes_forest E E1 lead dep Hsame Hg Hf) as Hf1.
  destruct (no_node E (proj1 Hf) c0 Hc0) as (? & _). destruct (Z.eqb_spec c0 0); [lia|]. cbn [negb].
  pose proof (above_bound dep c0). destruct (Bh_spec fuel E1 lead dep c0 Hf1 Hc0) as (E2 & -> & Hf2); [lia|]. cbn [mbind option_bind].
  destruct (Hw E2 (no_graph E2 (proj1 Hf2))) as [_ Hnext]. destruct (Hnext 0%nat c0 eq_refl) as (Hc & Hsame2 & Hg2).
  destruct (Sk g c0 E2) as [c E3]. cbn [fst snd] in *. pose proof (same_nodes_forest E2 E3 lead dep Hsame2 Hg2 Hf2) as Hf3.
  destruct (lead_spec E lead dep c0 Hf Hc0) as (L1 & L2 & _).
  assert (sets E3 (merged lead [c0] (lead c0))) as Hs3.
  { apply (sets_ext _ lead); [|by exists dep]. intros x. unfold merged. cbn [existsb]. rewrite orb_false_r.
    by destruct (Z.eqb_spec (lead x) (lead c0)) as [->|]. }
  destruct rest as [|r rest]; cbn [lookup list_lookup] in Hc; unfold default, from_option, id in Hc; subst c.
  - cbn [Z.eqb negb]. by exists E3.
  - assert (r ∈ N) as Hrn by (apply Hin; rewrite ?elem_of_app, ?elem_of_cons; tauto). destruct (no_node E (proj1 Hf) r Hrn) as (? & _). destruct (Z.eqb_spec r 0); [lia|]. cbn [negb].
    destruct (Qh_loop_spec fuel g c0 [] r rest lead E3 n Hw Hin L1 L2 Hs3 Hfuel) as (E' & -> & Hs'); [cbn [length] in Hn; lia|].
    cbn [mbind option_bind]. by exists E'.
Qed.
End Walk.
End Forest.

(** C39: The nodes form sets, each with its leader.  With as much fuel as there are
    nodes, [find] returns the leader of a node and changes no set while it shortens
    paths; [union_one] puts the set of its second node under the leader of the
    first, and returns that; [union_all] joins the sets of all nodes of a graph
    under the leader of the first and leaves every other set as it was. *)
Theorem union_find_sets (N : gset Z) (data : Z → Z) (graph : heap → Prop) (E : heap) (lead : Z → Z) (fuel : nat) :
  graph_apart N data graph → sets N data graph E lead → (size N <= fuel)%nat →
  (∀ a, a ∈ N → ∃ E', Bh fuel a E = Some (lead a, E') ∧ sets N data graph E' lead) ∧
  (∀ a b, a ∈ N → b ∈ N → ∃ E', Rh fuel a b E = Some (lead a, E') ∧
     sets N data graph E' (fun x => if lead x =? lead b then lead a else lead x)) ∧
  (∀ Rk Sk g c0 rest n, walks N data graph Rk Sk g (c0 :: rest) → (∀ a, a ∈ c0 :: rest → a ∈ N) → (length rest <= n)%nat →
     ∃ E' lead', Qh Rk Sk n fuel g E = Some (lead c0, E') ∧ sets N data graph E' lead' ∧
       (∀ x, (∃ a, a ∈ c0 :: rest ∧ lead x = lead a) → lead' x = lead c0) ∧
       (∀ x, (∀ a, a ∈ c0 :: rest → lead x ≠ lead a) → lead' x = lead x)).
Proof.
  intros Hg Hs Hfuel. split_and!.
  - intros a Ha. destruct Hs as [dep Hf]. pose proof (above_bound N dep a).
    destruct (Bh_spec N data graph Hg fuel E lead dep a Hf Ha) as (E' & H1 & H2); [lia|]. exists E'. split; [done|by exists dep].
  - intros a b Ha Hb. by apply Rh_spec.
  - intros Rk Sk g c0 rest n Hw Hin Hn.
    destruct (Qh_spec N data graph Hg Rk Sk fuel g c0 rest lead E n Hw Hin Hs Hfuel Hn) as (E' & H1 & H2).
    exists E', (merged lead (c0 :: rest) (lead c0)). split_and!; [done|done|intros x Hx|intros x Hx]; unfold merged.
    + by rewrite (proj2 (merged_in lead (c0 :: rest) x) Hx).
    + destruct (existsb _ _) eqn:Ex; [|done]. apply merged_in in Ex as (a & Ha & He). by destruct (Hx a Ha).
Qed.

(** Three nodes not joined yet, with their data at 1000, 2000 and 3000. *)
Definition three : gset Z := {[100; 200; 300]}.
Definition three_data (a : Z) : Z := 10 * a.
Definition three_memory : heap := store32 116 1000 (store32 216 2000 (store32 316 3000 (fun _ => 0))).
Definition three_next (g a : Z) (E : heap) : Z * heap := (if a =? 100 then 200 else if a =? 200 then 300 else 0, E).

Lemma three_cases (P : Z → Prop) : P 100 → P 200 → P 300 → ∀ a, a ∈ three → P a.
Proof. intros H1 H2 H3 a Ha. unfold three in Ha. rewrite !elem_of_union, !elem_of_singleton in Ha. by destruct Ha as [[->| ->]| ->]. Qed.

Lemma three_sets : sets three three_data (fun _ => True) three_memory (fun x => x).
Proof.
  exists (fun _ => O). split; [split|].
  - done.
  - apply three_cases; (split; [lia|split_and!; reflexivity]).
  - unfold three_data. intros a b Ha Hb. revert b Hb. revert a Ha. apply (three_cases (fun a => ∀ b, b ∈ three → _));
      apply (three_cases (fun b => _)); lia.
  - unfold three_data. intros a b _ _ H. lia.
  - apply three_cases; left; (split; [done|left; reflexivity]).
Qed.

Lemma union_find_sets_witness : ∃ E' lead', Qh (fun _ E => (100, E)) three_next 5 5 1 three_memory = Some (100, E') ∧
  sets three three_data (fun _ => True) E' lead' ∧ lead' 300 = 100.
Proof.
  destruct (union_find_sets three three_data (fun _ => True) three_memory (fun x => x) 5) as (_ & _ & H).
  - intros E a v _ _. exact I.
  - apply three_sets.
  - vm_compute. lia.
  - destruct (H (fun _ E => (100, E)) three_next 1 100 [200; 300] 5%nat) as (E' & lead' & H1 & H2 & H3 & _).
    + intros E _. split; [split; [reflexivity|split; [done|exact I]]|]. intros k a Hk.
      do 3 (destruct k as [|k]; [injection Hk as <-; split; [reflexivity|split; [done|exact I]]|]). discriminate Hk.
    + intros a Ha. unfold three. rewrite !elem_of_cons in Ha. rewrite !elem_of_union, !elem_of_singleton.
      destruct Ha as [Ha|[Ha|[Ha|Ha]]]; [tauto|tauto|tauto|by apply elem_of_nil in Ha].
    + simpl. lia.
    + exists E', lead'. split; [exact H1|]. split; [exact H2|]. apply H3. exists 300. split; [|reflexivity].
      rewrite !elem_of_cons. tauto.
Defined.
