(* ===== verification/VizNodes.v ===== *)
(** * Lists of nodes of the object code

    The layout keeps the nodes it works on in a doubly linked list: the data of a
    graph have its head at 192, the data of a node the next node at 164 and the
    one before at 168.  [ig], [jg] and [kg] are [fast_node], [fast_nodeapp] and
    [delete_fast_node]; an assertion that fails ends the program.  [cg]
    ([zapinlist]) takes an edge out of an array ended by 0. *)

From Stdlib Require Import ZArith Lia.
From stdpp Require Import base list.
From S2P Require Import Prelude VizRuntime VizFacts VizFile VizMemory VizEnv VizInt64 VizInt64Facts VizDivision.
From S2P Require Import VizLibc VizLibcFacts VizLookupFacts VizJumpProps VizAlloc.

Open Scope Z_scope.

(** The text and the line of the assertion that failed. *)
Inductive assertion : Type := AssertFail (text line : Z).

(** [ig]. *)
Definition ig (a b : Z) (E : heap) : assertion + heap :=
  let a := load32s E (a + 16) + 192 in
  let f := load32s E a in
  let d := load32s E (b + 16) in
  let E := store32 (d + 164) f E in
  let e := f in
  let E := if negb (f =? 0) then store32 (load32s E (e + 16) + 168) b E else E in
  let E := store32 a b E in
  let E := store32 (d + 168) 0 E in
  if e =? b then inl (AssertFail 116836 215) else inr E.

(** [jg]. *)
Definition jg (a b : Z) (E : heap) : assertion + heap :=
  if a =? b then inl (AssertFail 116862 220)
  else
    let e := load32s E (b + 16) in
    let d := e + 164 in
    if negb (load32s E d =? 0) then inl (AssertFail 116882 221)
    else
      let f := load32s E (a + 16) + 164 in
      let E := store32 d (load32s E f) E in
      let d := load32s E f in
      let E := if negb (d =? 0) then store32 (load32s E (d + 16) + 168) b E else E in
      let E := store32 (e + 168) a E in
      inr (store32 f b E).

(** [do a=c[(c[a+16>>2]|0)+164>>2]|0;while(!((a|0)==0|(a|0)==(b|0)))], which runs at
    most [n] times. *)
Fixpoint kg_find (n : nat) (a b : Z) (E : heap) : option Z :=
  if (a =? 0) || (a =? b) then Some a
  else match n with O => None | S n' => kg_find n' (load32s E (load32s E (a + 16) + 164)) b E end.

(** [kg]; [None] when the list is longer than [n]. *)
Definition kg (n : nat) (a b : Z) (E : heap) : option (assertion + heap) :=
  let e := load32s E (a + 16) + 192 in
  a ← kg_find n (load32s E e) b E;
  Some (if a =? 0 then inl (AssertFail 116901 231)
  else
    let a := load32s E (b + 16) in
    let b := load32s E (a + 164) in
    let d := b in
    let a := a + 168 in
    let E := if negb (b =? 0) then store32 (load32s E (b + 16) + 168) (load32s E a) E else E in
    let a := load32s E a in
    inr (if a =? 0 then store32 e d E else store32 (load32s E (a + 16) + 164) d E)).

(** [while(1){if((c[d>>2]|0)==(b|0))break;e=e+1|0;if((e|0)>=(g|0))break a}] of [cg]. *)
Fixpoint cg_find (n : nat) (h e g b : Z) (E : heap) : option Z :=
  match n with
  | O => None
  | S n' =>
      let d := h + shl e 2 in
      if load32s E d =? b then Some d
      else let e := i32 (e + 1) in if g <=? e then None else cg_find n' h e g b E
  end.

(** [cg]. *)
Definition cg (a b : Z) (E : heap) : heap :=
  let f := a + 4 in
  let g := load32s E f in
  if 0 <? g then
    let h := load32s E a in
    match cg_find (Z.to_nat g) h 0 g b E with
    | None => E
    | Some d =>
        let g := i32 (g - 1) in
        let E := store32 f g E in
        let E := store32 d (load32s E (h + shl g 2)) E in
        store32 (load32s E a + shl g 2) 0 E
    end
  else E.

(** ** Linked lists, by the functions that give neighbours *)

Section Links.
Context (nx pv : Z → Z).

(** The first of a list, or what comes after it; the last, or what came before. *)
Definition first_of (q : Z) (l : list Z) : Z := default q (head l).
Definition last_of (p : Z) (l : list Z) : Z := default p (last l).

Fixpoint links (p : Z) (l : list Z) (q : Z) : Prop :=
  match l with
  | [] => True
  | x :: l' => pv x = p ∧ nx x = first_of q l' ∧ links x l' q
  end.

Lemma last_of_cons p x l : last_of p (x :: l) = last_of x l.
Proof. unfold last_of. by rewrite last_cons; destruct (last l). Qed.

Lemma first_of_app q l1 l2 : first_of q (l1 ++ l2) = first_of (first_of q l2) l1.
Proof. by destruct l1. Qed.

Lemma links_app p l1 l2 q : links p (l1 ++ l2) q ↔ links p l1 (first_of q l2) ∧ links (last_of p l1) l2 q.
Proof.
  revert p. induction l1 as [|x l1 IH]; intros p; cbn [app links]; [by unfold last_of; tauto|].
  rewrite IH, last_of_cons, first_of_app. tauto.
Qed.
End Links.

Lemma links_ext nx pv nx' pv' p l q : (∀ x, x ∈ l → nx' x = nx x ∧ pv' x = pv x) → links nx pv p l q → links nx' pv' p l q.
Proof.
  revert p. induction l as [|x l IH]; intros p Hx; cbn [links]; [done|]. intros (H1 & H2 & H3).
  destruct (Hx x) as [-> ->]; [apply elem_of_cons; by left|]. split_and!; [done..|]. apply IH; [|done]. intros y Hy. apply Hx, elem_of_cons. by right.
Qed.

Definition set_at (f : Z → Z) (a v x : Z) : Z := if x =? a then v else f x.

Lemma set_at_same f a v : set_at f a v a = v.
Proof. unfold set_at. by rewrite Z.eqb_refl. Qed.

Lemma set_at_other f a v x : x ≠ a → set_at f a v x = f x.
Proof. intros H. unfold set_at. by destruct (Z.eqb_spec x a). Qed.

(** Updates of nodes that are not in the list. *)
Lemma links_set_next nx pv p l q a v : a ∉ l → links nx pv p l q → links (set_at nx a v) pv p l q.
Proof. intros Ha. apply links_ext. intros x Hx. split; [|done]. apply set_at_other. by intros ->. Qed.

Lemma links_set_prev nx pv p l q a v : a ∉ l → links nx pv p l q → links nx (set_at pv a v) p l q.
Proof. intros Ha. apply links_ext. intros x Hx. split; [done|]. apply set_at_other. by intros ->. Qed.

(** The node before the first set. *)
Lemma links_before nx pv p x l q p' : x ∉ l → links nx pv p (x :: l) q → links nx (set_at pv x p') p' (x :: l) q.
Proof. intros Hx (H1 & H2 & H3). split_and!; [apply set_at_same|done|by apply links_set_prev]. Qed.

(** The node after the last set. *)
Lemma links_after nx pv p l x q q' : x ∉ l → links nx pv p (l ++ [x]) q → links (set_at nx x q') pv p (l ++ [x]) q'.
Proof.
  intros Hx H. apply links_app in H as [H1 (H2 & H3 & _)]. apply links_app. split; [by apply links_set_next|].
  split_and!; [done|apply set_at_same|done].
Qed.

(** ** The list in memory *)

Section List.
(** The nodes, the address of the data of each, the graph and its data. *)
Context (N : Z → Prop) (data : Z → Z) (g gd : Z).

Record layout (E : heap) : Prop := {
  lo_graph : g mod 4 = 0 ∧ load32s E (g + 16) = gd ∧ gd mod 4 = 0 ∧ disjoint g 20 gd 196;
  lo_node : ∀ a, N a → 0 < a < 2 ^ 31 ∧ a mod 4 = 0 ∧ load32s E (a + 16) = data a ∧ data a mod 4 = 0;
  lo_nodes : ∀ a b, N a → N b → disjoint a 20 (data b) 304 ∧ (a ≠ b → disjoint (data a) 304 (data b) 304);
  lo_apart : ∀ a, N a → disjoint gd 196 a 20 ∧ disjoint gd 196 (data a) 304 ∧ disjoint g 20 (data a) 304
}.

(** What a memory [E] that came from [E0] says of the list. *)
Record view (E0 E : heap) (h : Z) (nx pv : Z → Z) : Prop := {
  vi_layout : layout E;
  vi_head : load32s E (gd + 192) = h;
  vi_next : ∀ a, N a → load32s E (data a + 164) = nx a;
  vi_prev : ∀ a, N a → load32s E (data a + 168) = pv a;
  vi_frame : ∀ x, ¬ span (gd + 192) 4 x → (∀ a, N a → ¬ span (data a + 164) 8 x) → E x = E0 x
}.

Lemma view_words E : layout E → (g + 16) mod 4 = 0 ∧ (gd + 192) mod 4 = 0 ∧
  ∀ a, N a → (a + 16) mod 4 = 0 ∧ (data a + 164) mod 4 = 0 ∧ (data a + 168) mod 4 = 0.
Proof.
  intros [(G & _ & D & _) H _ _]. split_and!; [rewrite Z.add_mod, ?G, ?D by lia; reflexivity..|]. intros a Ha.
  destruct (H a Ha) as (_ & A & _ & B). split_and!; rewrite Z.add_mod, ?A, ?B by lia; reflexivity.
Qed.

(** A store to a word of the list leaves the layout. *)
Lemma layout_store E p v : layout E → p mod 4 = 0 → p ≠ g + 16 → (∀ a, N a → p ≠ a + 16) → layout (store32 p v E).
Proof.
  intros Hl Hp H1 H2. destruct (view_words E Hl) as (Wg & _ & Wa). pose proof Hl as [(G & G1 & G2 & G3) H3 H4 H5]. split; try done.
  - rewrite load32s_store32_other by (done || lia). done.
  - intros a Ha. destruct (Wa a Ha) as (W & _). rewrite load32s_store32_other by (done || by apply H2). by apply H3.
Qed.

Lemma view_set_next E0 E h nx pv a v : view E0 E h nx pv → N a → is_i32 v → view E0 (store32 (data a + 164) v E) h (set_at nx a v) pv.
Proof.
  intros [Hl Hh Hn Hp Hf] Ha Hv. destruct (view_words E Hl) as (Wg & Wh & Wa). destruct (Wa a Ha) as (W16 & W164 & W168).
  destruct (lo_apart E Hl a Ha) as (A1 & A2 & A3). unfold disjoint in *. split.
  - apply layout_store; [done|done|lia|]. intros b Hb. destruct (lo_nodes E Hl b a Hb Ha) as [H _]. unfold disjoint in H. lia.
  - rewrite load32s_store32_other by (done || lia). done.
  - intros b Hb. unfold set_at. destruct (Wa b Hb) as (_ & Wb & _). destruct (Z.eqb_spec b a) as [->|Hne]; [by apply load32s_stored_i32|].
    destruct (lo_nodes E Hl b a Hb Ha) as [_ H]. specialize (H Hne). unfold disjoint in H.
    rewrite load32s_store32_other by (done || lia). by apply Hn.
  - intros b Hb. destruct (Wa b Hb) as (_ & _ & Wb). rewrite load32s_store32_other; [by apply Hp|done|done|].
    destruct (decide (b = a)) as [->|Hne]; [lia|]. destruct (lo_nodes E Hl b a Hb Ha) as [_ H]. specialize (H Hne). unfold disjoint in H. lia.
  - intros x H1 H2. specialize (H2 a Ha) as H2a. unfold span in H2a. rewrite store32_at by (done || lia). by apply Hf.
Qed.

Lemma view_set_prev E0 E h nx pv a v : view E0 E h nx pv → N a → is_i32 v → view E0 (store32 (data a + 168) v E) h nx (set_at pv a v).
Proof.
  intros [Hl Hh Hn Hp Hf] Ha Hv. destruct (view_words E Hl) as (Wg & Wh & Wa). destruct (Wa a Ha) as (W16 & W164 & W168).
  destruct (lo_apart E Hl a Ha) as (A1 & A2 & A3). unfold disjoint in *. split.
  - apply layout_store; [done|done|lia|]. intros b Hb. destruct (lo_nodes E Hl b a Hb Ha) as [H _]. unfold disjoint in H. lia.
  - rewrite load32s_store32_other by (done || lia). done.
  - intros b Hb. destruct (Wa b Hb) as (_ & Wb & _). rewrite load32s_store32_other; [by apply Hn|done|done|].
    destruct (decide (b = a)) as [->|Hne]; [lia|]. destruct (lo_nodes E Hl b a Hb Ha) as [_ H]. specialize (H Hne). unfold disjoint in H. lia.
  - intros b Hb. unfold set_at. destruct (Wa b Hb) as (_ & _ & Wb). destruct (Z.eqb_spec b a) as [->|Hne]; [by apply load32s_stored_i32|].
    destruct (lo_nodes E Hl b a Hb Ha) as [_ H]. specialize (H Hne). unfold disjoint in H.
    rewrite load32s_store32_other by (done || lia). by apply Hp.
  - intros x H1 H2. specialize (H2 a Ha) as H2a. unfold span in H2a. rewrite store32_at by (done || lia). by apply Hf.
Qed.

Lemma view_set_head E0 E h nx pv v : view E0 E h nx pv → is_i32 v → view E0 (store32 (gd + 192) v E) v nx pv.
Proof.
  intros [Hl Hh Hn Hp Hf] Hv. destruct (view_words E Hl) as (Wg & Wh & Wa). pose proof (lo_graph E Hl) as (_ & _ & _ & G3).
  unfold disjoint in *. split.
  - apply layout_store; [done|done|lia|]. intros b Hb. destruct (lo_apart E Hl b Hb) as (H & _). unfold disjoint in H. lia.
  - by apply load32s_stored_i32.
  - intros b Hb. destruct (Wa b Hb) as (_ & Wb & _), (lo_apart E Hl b Hb) as (_ & H & _). unfold disjoint in H.
    rewrite load32s_store32_other by (done || lia). by apply Hn.
  - intros b Hb. destruct (Wa b Hb) as (_ & _ & Wb), (lo_apart E Hl b Hb) as (_ & H & _). unfold disjoint in H.
    rewrite load32s_store32_other by (done || lia). by apply Hp.
  - intros x H1 H2. unfold span in H1. rewrite store32_at by (done || lia). by apply Hf.
Qed.

(** The list [l] of nodes, in a memory that came from [E0]. *)
Definition node_list (E0 E : heap) (l : list Z) : Prop :=
  NoDup l ∧ (∀ x, x ∈ l → N x) ∧ ∃ nx pv, view E0 E (first_of 0 l) nx pv ∧ links nx pv 0 l 0.

Lemma node_data E0 E h nx pv a : view E0 E h nx pv → N a → load32s E (a + 16) = data a ∧ 0 < a < 2 ^ 31 ∧ is_i32 a.
Proof. intros Hv Ha. destruct (lo_node E (vi_layout _ _ _ _ _ Hv) a Ha) as (? & _ & ? & _). unfold is_i32. split_and!; done || lia. Qed.

(** Where a node of the list is [0] there is none. *)
Lemma first_node E l : layout E → (∀ x, x ∈ l → N x) → first_of 0 l = 0 ∧ l = [] ∨ ∃ x l', l = x :: l' ∧ first_of 0 l = x ∧ N x ∧ x ≠ 0.
Proof.
  intros Hl HN. destruct l as [|x l']; [by left|]. right. exists x, l'. assert (N x) as Hx by (apply HN, elem_of_cons; by left).
  destruct (lo_node E Hl x Hx) as (? & _). split_and!; done || lia.
Qed.

(** [ig] adds at the front. *)
Lemma ig_spec E0 E l b : node_list E0 E l → N b → b ∉ l → ∃ E', ig g b E = inr E' ∧ node_list E0 E' (b :: l).
Proof.
  intros (Hd & HN & nx & pv & Hv & Hk) Hb Hin. pose proof (vi_layout _ _ _ _ _ Hv) as Hl. destruct (lo_graph E Hl) as (_ & Hg & _).
  destruct (node_data _ _ _ _ _ b Hv Hb) as (Hdb & Hb0 & Hbi). unfold ig. rewrite Hg, Hdb, (vi_head _ _ _ _ _ Hv).
  assert (NoDup (b :: l) ∧ ∀ x, x ∈ b :: l → N x) as [Hd' HN'].
  { split; [by constructor|]. intros x Hx. apply elem_of_cons in Hx as [->|Hx]; auto. }
  destruct (first_node E l Hl HN) as [[Hf ->]|(h & l' & -> & Hf & Hh & Hh0)]; rewrite Hf.
  - destruct (Z.eqb_spec 0 b); [lia|]. rewrite Z.eqb_refl. cbn [negb]. eexists. split; [reflexivity|]. split; [done|]. split; [done|].
    eexists _, _. split; [|]. { apply view_set_prev; [|done|unfold is_i32; lia]. apply (view_set_head _ _ (first_of 0 [])); [|done].
      apply view_set_next; [exact Hv|done|unfold is_i32; lia]. }
    cbn [links]. rewrite !set_at_same. done.
  - destruct (node_data _ _ _ _ _ h Hv Hh) as (Hdh & Hh1 & Hhi). destruct (Z.eqb_spec h 0); [done|]. cbn [negb].
    pose proof (view_set_next _ _ _ _ _ b h Hv Hb Hhi) as V1.
    destruct (node_data _ _ _ _ _ h V1 Hh) as (-> & _ & _).
    pose proof (view_set_prev _ _ _ _ _ h b V1 Hh Hbi) as V2. pose proof (view_set_head _ _ _ _ _ b V2 Hbi) as V3.
    pose proof (view_set_prev _ _ _ _ _ b 0 V3 Hb ltac:(unfold is_i32; lia)) as V4.
    destruct (Z.eqb_spec h b) as [->|Hne]; [destruct Hin; apply elem_of_cons; by left|].
    eexists. split; [reflexivity|]. split; [done|]. split; [done|]. eexists _, _. split; [exact V4|].
    split; [apply set_at_same|]. split; [apply set_at_same|]. apply (links_set_prev _ _ _ (h :: l')); [done|].
    apply links_set_next; [done|]. apply links_before with 0; [by apply NoDup_cons in Hd as [? _]|done].
Qed.

(** A node that is at the front already. *)
Lemma ig_front E0 E l b : node_list E0 E (b :: l) → ig g b E = inl (AssertFail 116836 215).
Proof.
  intros (_ & _ & nx & pv & Hv & _). destruct (lo_graph E (vi_layout _ _ _ _ _ Hv)) as (_ & Hg & _). unfold ig. rewrite Hg.
  rewrite (vi_head _ _ _ _ _ Hv). cbn [first_of head default from_option]. change (default b (head [])) with b. by rewrite Z.eqb_refl.
Qed.

Lemma last_of_snoc p l x : last_of p (l ++ [x]) = x.
Proof. unfold last_of. by rewrite last_snoc. Qed.

Lemma inserted_NoDup (l1 : list Z) u l2 b : NoDup (l1 ++ u :: l2) → b ∉ l1 ++ u :: l2 → NoDup (l1 ++ u :: b :: l2).
Proof.
  intros Hd Hin. assert (l1 ++ u :: b :: l2 ≡ₚ b :: l1 ++ u :: l2) as -> by solve_Permutation. by constructor.
Qed.

Lemma inserted_in (l1 : list Z) u l2 b (P : Z → Prop) : (∀ x, x ∈ l1 ++ u :: l2 → P x) → P b → ∀ x, x ∈ l1 ++ u :: b :: l2 → P x.
Proof.
  intros H Hb x. rewrite elem_of_app, !elem_of_cons. intros Hx. destruct (decide (x = b)) as [->|]; [done|].
  apply H. rewrite elem_of_app, elem_of_cons. tauto.
Qed.

(** [jg] adds after a node. *)
Lemma jg_spec E0 E l1 u l2 b : node_list E0 E (l1 ++ u :: l2) → N b → b ∉ l1 ++ u :: l2 → load32s E (data b + 164) = 0 →
  ∃ E', jg u b E = inr E' ∧ node_list E0 E' (l1 ++ u :: b :: l2).
Proof.
  intros (Hd & HN & nx & pv & Hv & Hk) Hb Hin Hz. assert (u ∈ l1 ++ u :: l2) as Hu' by (rewrite elem_of_app, elem_of_cons; tauto).
  pose proof (HN u Hu') as Hu. assert (u ≠ b) as Hub by (intros ->; done).
  assert (l1 ++ u :: l2 = (l1 ++ [u]) ++ l2) as Hl by (by rewrite <- app_assoc).
  assert (l1 ++ u :: b :: l2 = (l1 ++ [u]) ++ b :: l2) as Hl' by (by rewrite <- app_assoc).
  pose proof (inserted_NoDup l1 u l2 b Hd Hin) as Hd'. pose proof (inserted_in l1 u l2 b N HN Hb) as HN'.
  rewrite Hl in Hk, Hd, Hin, HN. apply links_app in Hk as [K1 K2]. rewrite last_of_snoc in K2.
  apply NoDup_app in Hd as (D1 & D2 & D3). rewrite elem_of_app in Hin. assert (u ∉ l2) as Hu2 by (apply D2; rewrite elem_of_app, list_elem_of_singleton; tauto).
  assert (u ∉ l1) as Hu1 by (apply NoDup_app in D1 as (_ & D1 & _); intros H; by apply (D1 u H), list_elem_of_singleton).
  assert (nx u = first_of 0 l2) as Hnu by (apply links_app in K1 as [_ (_ & K1 & _)]; done).
  destruct (node_data _ _ _ _ _ b Hv Hb) as (Hdb & Hb0 & Hbi), (node_data _ _ _ _ _ u Hv Hu) as (Hdu & Hu0 & Hui).
  unfold jg. destruct (Z.eqb_spec u b); [done|]. rewrite Hdb, Hz, Z.eqb_refl, Hdu, (vi_next _ _ _ _ _ Hv u Hu), Hnu. cbn [negb].
  assert (is_i32 (first_of 0 l2) ∧ (first_of 0 l2 = 0 ∧ l2 = [] ∨ ∃ x l', l2 = x :: l' ∧ first_of 0 l2 = x ∧ N x ∧ x ≠ 0)) as [Hfi Hfirst].
  { assert (∀ x, x ∈ l2 → N x) as HN2 by (intros x Hx; apply HN; rewrite elem_of_app; tauto).
    pose proof (first_node E l2 (vi_layout _ _ _ _ _ Hv) HN2) as H. split; [|done].
    destruct H as [[-> _]|(x & l' & -> & -> & Hx & _)]; [unfold is_i32; lia|]. by apply (node_data _ _ _ _ _ x Hv Hx). }
  pose proof (view_set_next _ _ _ _ _ b (first_of 0 l2) Hv Hb Hfi) as V1. rewrite (vi_next _ _ _ _ _ V1 u Hu), set_at_other, Hnu by done.
  assert (∀ pv2, links nx pv2 0 (l1 ++ [u]) (first_of 0 l2) → links nx pv2 b l2 0 →
    links (set_at (set_at nx b (first_of 0 l2)) u b) (set_at pv2 b u) 0 (l1 ++ u :: b :: l2) 0) as Hgoal.
  { intros pv2 P1 P2. rewrite Hl'. apply links_app. rewrite last_of_snoc. split; [|split; [apply set_at_same|split]].
    - apply links_set_prev; [tauto|]. apply links_after with (first_of 0 l2); [done|]. apply links_set_next; [tauto|done].
    - rewrite set_at_other by done. apply set_at_same.
    - apply links_set_prev; [tauto|]. apply links_set_next; [done|]. apply links_set_next; [tauto|done]. }
  destruct Hfirst as [[Hf ->]|(x & l' & -> & Hf & Hx & Hx0)].
  - rewrite Hf in *. cbn [Z.eqb negb]. pose proof (view_set_prev _ _ _ _ _ b u V1 Hb Hui) as V2. pose proof (view_set_next _ _ _ _ _ u b V2 Hu Hbi) as V3.
    eexists. split; [reflexivity|]. split; [done|]. split; [done|]. eexists _, _. split; [|by apply Hgoal].
    replace (first_of 0 (l1 ++ [u; b])) with (first_of 0 ((l1 ++ [u]) ++ [])); [by rewrite Hl in V3|]. by destruct l1.
  - rewrite Hf in *. destruct (Z.eqb_spec x 0); [done|]. cbn [negb]. destruct (node_data _ _ _ _ _ x V1 Hx) as (-> & Hx1 & Hxi).
    pose proof (view_set_prev _ _ _ _ _ x b V1 Hx Hbi) as V2. pose proof (view_set_prev _ _ _ _ _ b u V2 Hb Hui) as V3.
    pose proof (view_set_next _ _ _ _ _ u b V3 Hu Hbi) as V4.
    eexists. split; [reflexivity|]. split; [done|]. split; [done|]. eexists _, _. split; [|apply Hgoal].
    + replace (first_of 0 (l1 ++ u :: b :: x :: l')) with (first_of 0 (l1 ++ u :: x :: l')) by (by destruct l1). exact V4.
    + apply links_set_prev; [|done]. intros H. apply (D2 x H), elem_of_cons. by left.
    + apply links_before with u; [by apply NoDup_cons in D3 as [? _]|done].
Qed.

(** The walk of [kg]. *)
Lemma kg_find_spec E0 E h nx pv p l b n : view E0 E h nx pv → (∀ x, x ∈ l → N x) → links nx pv p l 0 → (length l <= n)%nat →
  0 < b → kg_find n (first_of 0 l) b E = Some (if decide (b ∈ l) then b else 0).
Proof.
  intros Hv. revert p n. induction l as [|x l IH]; intros p n HN Hk Hn Hb.
  - change (first_of 0 []) with 0. destruct n; cbn; done.
  - change (first_of 0 (x :: l)) with x. assert (N x) as Hx by (apply HN, elem_of_cons; by left).
    destruct (node_data _ _ _ _ _ x Hv Hx) as (Hdx & Hx0 & _). destruct n as [|n]; [cbn [length] in Hn; lia|]. cbn [kg_find].
    destruct (Z.eqb_spec x 0); [lia|]. cbn [orb]. destruct (Z.eqb_spec x b) as [->|Hne].
    + destruct (decide (b ∈ b :: l)) as [_|H]; [done|]. destruct H. apply elem_of_cons. by left.
    + destruct Hk as (_ & K2 & K3). rewrite Hdx, (vi_next _ _ _ _ _ Hv x Hx), K2. cbn [length] in Hn. rewrite (IH x); [|intros y Hy; apply HN, elem_of_cons; by right|done|lia|done].
      destruct (decide (b ∈ l)) as [Hin|Hin], (decide (b ∈ x :: l)) as [Hin'|Hin']; rewrite elem_of_cons in *; done || (exfalso; intuition congruence).
Qed.

(** [kg] takes a node out; a node that is not there fails the assertion. *)
Lemma kg_absent E0 E l b n : node_list E0 E l → 0 < b → b ∉ l → (length l <= n)%nat → kg n g b E = Some (inl (AssertFail 116901 231)).
Proof.
  intros (Hd & HN & nx & pv & Hv & Hk) Hb Hin Hn. destruct (lo_graph E (vi_layout _ _ _ _ _ Hv)) as (_ & Hg & _). unfold kg.
  rewrite Hg, (vi_head _ _ _ _ _ Hv), (kg_find_spec _ _ _ _ _ 0 l b n Hv HN Hk Hn Hb). destruct (decide (b ∈ l)); done.
Qed.

Lemma kg_spec E0 E l1 b l2 n : node_list E0 E (l1 ++ b :: l2) → (length (l1 ++ b :: l2) <= n)%nat →
  ∃ E', kg n g b E = Some (inr E') ∧ node_list E0 E' (l1 ++ l2).
Proof.
  intros (Hd & HN & nx & pv & Hv & Hk) Hn. assert (b ∈ l1 ++ b :: l2) as Hbin by (rewrite elem_of_app, elem_of_cons; tauto).
  pose proof (HN b Hbin) as Hb. destruct (node_data _ _ _ _ _ b Hv Hb) as (Hdb & Hb0 & Hbi).
  destruct (lo_graph E (vi_layout _ _ _ _ _ Hv)) as (_ & Hg & _). unfold kg.
  rewrite Hg, (vi_head _ _ _ _ _ Hv), (kg_find_spec _ _ _ _ _ 0 _ b n Hv HN Hk Hn ltac:(lia)). destruct (decide (b ∈ l1 ++ b :: l2)); [|done].
  cbn [mbind option_bind]. destruct (Z.eqb_spec b 0); [lia|]. apply links_app in Hk as [K1 (K2 & K3 & K4)]. change (first_of 0 (b :: l2)) with b in K1.
  rewrite Hdb, (vi_next _ _ _ _ _ Hv b Hb), K3. apply NoDup_app in Hd as (D1 & D2 & D3). apply NoDup_cons in D3 as [Db D3].
  assert (NoDup (l1 ++ l2)) as Hd' by (apply NoDup_app; split_and!; [done|intros x Hx Hx2; apply (D2 x Hx), elem_of_cons; by right|done]).
  assert (∀ x, x ∈ l1 ++ l2 → N x) as HN' by (intros x; rewrite elem_of_app; intros Hx; apply HN; rewrite elem_of_app, elem_of_cons; tauto).
  assert (∃ E1 pv1, (if negb (first_of 0 l2 =? 0) then store32 (load32s E (first_of 0 l2 + 16) + 168) (load32s E (data b + 168)) E else E) = E1 ∧
    view E0 E1 (first_of 0 (l1 ++ b :: l2)) nx pv1 ∧ pv1 b = last_of 0 l1 ∧ links nx pv1 0 l1 b ∧ links nx pv1 (last_of 0 l1) l2 0) as (E1 & pv1 & -> & V1 & P1 & P2 & P3).
  { destruct (first_node E l2 (vi_layout _ _ _ _ _ Hv)) as [[-> ->]|(x & l' & -> & -> & Hx & Hx0)].
    { intros x Hx. apply HN. rewrite elem_of_app, elem_of_cons. tauto. }
    - cbn [Z.eqb negb]. by exists E, pv.
    - destruct (Z.eqb_spec x 0); [done|]. cbn [negb]. destruct (node_data _ _ _ _ _ x Hv Hx) as (-> & _ & _). rewrite (vi_prev _ _ _ _ _ Hv b Hb), K2.
      assert (is_i32 (last_of 0 l1)) as Hli by (rewrite <- K2, <- (vi_prev _ _ _ _ _ Hv b Hb); apply i32_range).
      eexists _, _. split; [reflexivity|]. split; [apply view_set_prev; done|]. apply NoDup_cons in D3 as [Dx _].
      rewrite set_at_other by (intros ->; apply Db, elem_of_cons; by left). split; [done|]. split; [|by apply links_before with b].
      apply links_set_prev; [|done]. intros H. apply (D2 x H). rewrite !elem_of_cons. tauto. }
  rewrite (vi_prev _ _ _ _ _ V1 b Hb), P1.
  assert (is_i32 (first_of 0 l2)) as Hfi by (rewrite <- K3, <- (vi_next _ _ _ _ _ Hv b Hb); apply i32_range).
  destruct l1 as [|y l1' _] using rev_ind.
  - change (last_of 0 []) with 0 in *. cbn [Z.eqb]. eexists. split; [reflexivity|]. split; [done|]. split; [done|]. exists nx, pv1.
    split; [by apply (view_set_head _ _ _ _ _ _ V1)|done].
  - rewrite last_of_snoc in *. assert (N y) as Hy by (apply HN; rewrite !elem_of_app, list_elem_of_singleton; tauto).
    destruct (node_data _ _ _ _ _ y V1 Hy) as (-> & Hy0 & _). destruct (Z.eqb_spec y 0); [lia|]. eexists. split; [reflexivity|]. split; [done|]. split; [done|].
    pose proof (view_set_next _ _ _ _ _ y (first_of 0 l2) V1 Hy Hfi) as V2. eexists _, _. split.
    + replace (first_of 0 ((l1' ++ [y]) ++ l2)) with (first_of 0 ((l1' ++ [y]) ++ b :: l2)) by (by destruct l1'). exact V2.
    + apply links_app. rewrite last_of_snoc. split.
      * apply links_after with b; [|done]. apply NoDup_app in D1 as (_ & D1 & _). intros H. by apply (D1 y H), list_elem_of_singleton.
      * apply links_set_next; [|done]. intros H. apply (D2 y); [rewrite elem_of_app, list_elem_of_singleton; tauto|]. apply elem_of_cons. by right.
Qed.
End List.

(** ** Arrays of edges *)

(** An array of words: the record at [a] has its address and its length. *)
Record elist (E : heap) (a h : Z) (l : list Z) : Prop := {
  el_record : a mod 4 = 0 ∧ load32s E a = h ∧ load32s E (a + 4) = zlength l;
  el_array : 0 <= h ∧ h mod 4 = 0 ∧ block h (4 * zlength l) ∧ zlength l < 2 ^ 28 ∧ disjoint a 8 h (4 * zlength l);
  el_words : ∀ k x, l !! k = Some x → load32s E (h + 4 * Z.of_nat k) = x
}.

(** The first [b] replaced by the last element. *)
Definition zap (b : Z) (l : list Z) : list Z :=
  match list_find (eq b) l with
  | Some (i, _) => take (length l - 1) (<[i := default 0 (last l)]> l)
  | None => l
  end.

Lemma shl_word e : 0 <= e < 2 ^ 28 → shl e 2 = 4 * e.
Proof.
  intros He. unfold shl. rewrite (i32_id e) by (unfold is_i32; lia). change (Z.land 2 31) with 2.
  rewrite Z.shiftl_mul_pow2 by lia. rewrite i32_id by (unfold is_i32; lia). lia.
Qed.

Lemma cg_find_spec E a h l b n k : elist E a h l → (k < length l)%nat → (length l - k <= n)%nat →
  cg_find n h (Z.of_nat k) (zlength l) b E = (fun p => h + 4 * Z.of_nat (k + p.1)) <$> list_find (eq b) (drop k l).
Proof.
  intros He. pose proof He as [_ (_ & _ & _ & Hlen & _) Hw]. unfold zlength in *. revert k. induction n as [|n IH]; intros k Hk Hn; [lia|].
  destruct (lookup_lt_is_Some_2 l k Hk) as [x Hx]. cbn [cg_find]. rewrite shl_word, (Hw k x Hx) by lia. rewrite (drop_S l x k Hx). cbn [list_find].
  rewrite (i32_id (Z.of_nat k + 1)) by (unfold is_i32; lia). destruct (Z.eqb_spec x b) as [->|Hne].
  - rewrite decide_True by done. cbn. f_equal. lia.
  - rewrite decide_False by congruence. replace (Z.of_nat k + 1) with (Z.of_nat (S k)) by lia.
    destruct (Z.leb_spec (Z.of_nat (length l)) (Z.of_nat (S k))).
    + by rewrite drop_ge by lia.
    + rewrite IH by lia. rewrite <- option_fmap_compose. destruct (list_find (eq b) (drop (S k) l)) as [[i y]|]; [|done]. cbn. f_equal. lia.
Qed.

Lemma zap_snoc b l z i y : list_find (eq b) (l ++ [z]) = Some (i, y) →
  zap b (l ++ [z]) = take (length l) (<[i := z]> (l ++ [z])) ∧ zap b (l ++ [z]) ++ [b] ≡ₚ l ++ [z].
Proof.
  intros Ei. unfold zap. rewrite Ei, last_snoc, length_app. cbn [default from_option length]. replace (length l + 1 - 1)%nat with (length l) by lia.
  split; [done|]. apply list_find_Some in Ei as (Hi & <- & _). pose proof (lookup_lt_Some _ _ _ Hi) as Hlt. rewrite length_app in Hlt. cbn [length] in Hlt.
  destruct (decide (i = length l)) as [->|Hne].
  - rewrite list_lookup_middle in Hi by done. injection Hi as ->. by rewrite list_insert_id, take_app_length by (by apply list_lookup_middle).
  - rewrite insert_app_l, take_app_length' by (rewrite ?length_insert; lia). rewrite lookup_app_l in Hi by lia.
    rewrite <- (take_drop_middle l i b Hi) at 2. rewrite insert_take_drop by lia. solve_Permutation.
Qed.

(** [cg] leaves the array without one [b], and the words behind it clear. *)
Lemma cg_spec E a h l b : elist E a h l → elist (cg a b E) a h (zap b l) ∧
  (b ∈ l → zap b l ++ [b] ≡ₚ l ∧ load32s (cg a b E) (h + 4 * (zlength l - 1)) = 0) ∧ (b ∉ l → cg a b E = E).
Proof.
  intros He. pose proof He as [(A4 & R0 & R4) (H0 & H4 & Hb & Hlen & Hd) Hw].
  assert ((a + 4) mod 4 = 0) as A44 by (rewrite Z.add_mod, A4 by lia; reflexivity).
  assert (∀ k, (h + 4 * k) mod 4 = 0) as Hm by (intros k; rewrite (Z.mul_comm 4), Z.mod_add by lia; done).
  unfold cg. rewrite R0, R4. unfold block, disjoint in *. destruct (Z.ltb_spec 0 (zlength l)) as [Hpos|Hpos].
  2: { assert (l = []) as -> by (destruct l; [done|]; unfold zlength in Hpos; cbn [length] in Hpos; lia).
    split; [done|]. split; [intros Hin; by apply elem_of_nil in Hin|done]. }
  unfold zlength in Hpos. pose proof (cg_find_spec E a h l b (Z.to_nat (zlength l)) 0 He) as Hf. change (Z.of_nat 0) with 0 in Hf.
  rewrite Hf by (unfold zlength; lia). rewrite drop_0. unfold zap. destruct (list_find (eq b) l) as [[i y]|] eqn:Ei; cbn [fmap option_fmap option_map fst].
  2: { split; [done|]. split; [|done]. intros Hin. apply list_find_None in Ei. rewrite Forall_forall in Ei. by destruct (Ei b Hin). }
  destruct l as [|z l' _] using rev_ind; [done|]. destruct (zap_snoc b l' z i y Ei) as [Hz Hperm]. unfold zap in Hz, Hperm. rewrite Ei in Hz, Hperm.
  apply list_find_Some in Ei as (Hi & <- & _). pose proof (lookup_lt_Some _ _ _ Hi) as Hlt. set (zl := take _ _) in *.
  rewrite length_app in Hlt. rewrite zlength_app in *. change (zlength [z]) with 1 in *. cbn [length] in Hlt. pose proof (zlength_nonneg l') as Hn0.
  replace (zlength l' + 1 - 1) with (zlength l') by lia. rewrite (i32_id (zlength l')), shl_word by (unfold is_i32; lia).
  assert (load32s E (h + 4 * zlength l') = z) as Hlast by (apply Hw; by apply list_lookup_middle).
  assert (Z.of_nat i < zlength l' + 1) as Hi' by (unfold zlength; lia). rewrite Nat.add_0_l. assert (is_i32 z) as Hzi by (rewrite <- Hlast; apply i32_range).
  rewrite !load32s_store32_other by (done || lia). rewrite Hlast, R0.
  set (E3 := store32 (h + 4 * zlength l') 0 _).
  assert (∀ k, 0 <= k < zlength l' → load32s E3 (h + 4 * k) = if k =? Z.of_nat i then z else load32s E (h + 4 * k)) as HE3.
  { intros k Hk. unfold E3. rewrite load32s_store32_other by (done || lia). destruct (Z.eqb_spec k (Z.of_nat i)) as [->|].
    - by apply load32s_stored_i32.
    - by rewrite !load32s_store32_other by (done || lia). }
  assert (zlength zl = zlength l') as Hzl by (rewrite Hz; unfold zlength; rewrite length_take, length_insert, length_app; cbn [length]; lia).
  split; [|split; [|intros Hnin; destruct Hnin; by apply list_elem_of_lookup_2 in Hi]].
  - split.
    + unfold E3. split; [done|]. rewrite Hzl. rewrite !load32s_store32_other by (done || lia). split; [done|].
      apply load32s_stored_i32; [done|unfold is_i32; lia].
    + rewrite Hzl. unfold block, disjoint. lia.
    + intros k x Hk. pose proof (lookup_lt_Some _ _ _ Hk) as Hkl. rewrite HE3 by (unfold zlength in *; lia).
      rewrite Hz in Hk. apply lookup_take_Some in Hk as [Hk Hk2]. destruct (Z.eqb_spec (Z.of_nat k) (Z.of_nat i)) as [Heq|Hne].
      * assert (k = i) as -> by lia. rewrite list_lookup_insert_eq in Hk by (rewrite length_app; cbn [length]; lia). by injection Hk.
      * rewrite list_lookup_insert_ne in Hk by lia. by apply Hw.
  - intros _. split; [done|]. unfold E3. by apply load32s_stored_i32.
Qed.

(** C40: The lists of nodes are doubly linked lists.  [fast_node] puts a node at the
    front, [fast_nodeapp] behind another, [delete_fast_node] takes one out, whatever
    its place; head and both links of every node stay those of the list, and no
    other memory changes.  A node that is at the front already, two nodes that are
    the same or a second one that has a successor, and a node that is not in the
    list fail the assertions. *)
Theorem node_list_operations (N : Z → Prop) (data : Z → Z) (g gd : Z) (E0 E : heap) (l : list Z) (b : Z) (n : nat) :
  node_list N data g gd E0 E l → N b → (length l <= n)%nat →
  (b ∉ l → ∃ E', ig g b E = inr E' ∧ node_list N data g gd E0 E' (b :: l)) ∧
  (b ∉ l → load32s E (data b + 164) = 0 → ∀ l1 u l2, l = l1 ++ u :: l2 →
     ∃ E', jg u b E = inr E' ∧ node_list N data g gd E0 E' (l1 ++ u :: b :: l2)) ∧
  (∀ l1 l2, l = l1 ++ b :: l2 → ∃ E', kg n g b E = Some (inr E') ∧ node_list N data g gd E0 E' (l1 ++ l2)) ∧
  (head l = Some b → ig g b E = inl (AssertFail 116836 215)) ∧
  jg b b E = inl (AssertFail 116862 220) ∧
  (load32s E (data b + 164) ≠ 0 → ∀ u, u ≠ b → jg u b E = inl (AssertFail 116882 221)) ∧
  (b ∉ l → kg n g b E = Some (inl (AssertFail 116901 231))).
Proof.
  intros Hl Hb Hn. pose proof Hl as (_ & _ & nx & pv & Hv & _). destruct (node_data _ _ _ _ _ _ _ _ _ b Hv Hb) as (Hdb & Hb0 & _). split_and!.
  - intros Hin. by apply ig_spec.
  - intros Hin Hz l1 u l2 ->. by apply jg_spec.
  - intros l1 l2 ->. by apply kg_spec.
  - intros Hh. destruct l as [|x l]; [done|]. injection Hh as ->. by apply (ig_front N data g gd E0 E l).
  - unfold jg. by rewrite Z.eqb_refl.
  - intros Hz u Hu. unfold jg. destruct (Z.eqb_spec u b); [done|]. rewrite Hdb. by destruct (Z.eqb_spec (load32s E (data b + 164)) 0).
  - intros Hin. apply (kg_absent N data g gd E0 E l); [done|lia|done|done].
Qed.

(** Two nodes with their data at 1000 and 2000, a graph with its data at 3000. *)
Definition two_nodes (x : Z) : Prop := x = 100 ∨ x = 200.
Definition two_memory : heap := store32 116 1000 (store32 216 2000 (store32 416 3000 (fun _ => 0))).

Lemma two_list : node_list two_nodes (fun a => 10 * a) 400 3000 two_memory two_memory [].
Proof.
  split; [constructor|]. split; [intros x Hx; by apply elem_of_nil in Hx|]. exists (fun _ => 0), (fun _ => 0). split; [|done].
  split; [split|..].
  - split_and!; [reflexivity..|unfold disjoint; lia].
  - intros a [->| ->]; (split; [lia|split_and!; reflexivity]).
  - intros a b [->| ->] [->| ->]; unfold disjoint; lia.
  - intros a [->| ->]; unfold disjoint; lia.
  - reflexivity.
  - intros a [->| ->]; reflexivity.
  - intros a [->| ->]; reflexivity.
  - done.
Qed.

Lemma node_list_operations_witness :
  ∃ E', ig 400 200 two_memory = inr E' ∧ node_list two_nodes (fun a => 10 * a) 400 3000 two_memory E' [200].
Proof.
  destruct (node_list_operations two_nodes (fun a => 10 * a) 400 3000 two_memory two_memory [] 200 5) as (H & _).
  - apply two_list.
  - right. reflexivity.
  - simpl. lia.
  - apply H. intros Hx. by apply elem_of_nil in Hx.
Defined.
