(* ===== verification/VizStat.v ===== *)
(** * Status of files

    The calls [stat] and [fstat] ([___syscall195], [___syscall197], [hc]).  An
    error that a lookup throws carries the node at which it stopped; [hc] uses it
    to report a path that goes through something that is no directory.  Path
    resolution is given once more with these errors ([Q_e]), and without them it
    is the resolution [Q] all other calls use. *)

From Stdlib Require Import ZArith Lia.
From stdpp Require Import base list gmap strings.
From S2P Require Import Prelude VizRuntime VizFile VizFS VizStream VizMemory VizEnv.

Open Scope Z_scope.

(** An error number and the node of the error ([J(a,b)]: [u] and [g]). *)
Definition jerror : Type := Z * option Z.

Definition no_node {A} (r : go Z A) : go jerror A :=
  match r with GoRet a => GoRet a | GoErr c => GoErr (c, None) | GoPanic p => GoPanic p end.

(** The error without its node. *)
Definition erase {A} (r : go jerror A) : go Z A :=
  match r with GoRet a => GoRet a | GoErr c => GoErr c.1 | GoPanic p => GoPanic p end.

(** [Cb]: [throw new J(c,a)] for a node in which nothing can be looked up. *)
Definition Cb_e (a : Z) (b : jsstr) (s : fs) : go jerror Z :=
  let! nd := no_node (get_node a s) in
  let c := Nb nd (mkPerms false false true) s in
  let c := if c =? 0 then (if has_lookup (k nd) then 0 else EACCES) else c in
  if c =? 0 then
    let! r := no_node (chain_find (Z.to_nat (Hb s)) (O_tab s !! bucket a b) a b s) in
    match r with Some i => GoRet i | None => no_node (lookup_miss (k nd) b s) end
  else GoErr (c, Some a).

Section Resolve.
Context (Qrec : jsstr → opts → go jerror (jsstr * option Z)).
Context (s : fs).

Definition Jb_e (a : jsstr) : go jerror jsstr :=
  let! (_, g) := Qrec a opts0 in
  match g with
  | None => GoErr (ENOENT, None)
  | Some i =>
      let! nd := no_node (get_node i s) in
      match k nd with
      | OpsLink =>
          let! p := no_node (Kb (parent nd) s) in
          if is_link (mode nd) then GoRet (sb [p; link nd]) else GoErr (EINVAL, None)
      | OpsFake => let! p := no_node (Kb (parent nd) s) in GoRet (sb [p; link nd])
      | _ => GoErr (EINVAL, None)
      end
  end.

Fixpoint follow_e (n : nat) (q : Z) (d : jsstr) (f : option Z) : go jerror (jsstr * option Z) :=
  match n, f with
  | _, None => GoPanic PTypeError
  | 0%nat, _ => GoPanic (PMsg "endless links")
  | S n', Some i =>
      let! nd := no_node (get_node i s) in
      if is_link (mode nd) then
        let! l := Jb_e d in
        let d := sb [ob d; l] in
        let! (_, f) := Qrec d opts0 in
        if 40 <? q then GoErr (ELOOP, None) else follow_e n' (q + 1) d f
      else GoRet (d, f)
  end.

Fixpoint walk_e (b : opts) (c : list jsstr) (d : jsstr) (f : option Z) : go jerror (jsstr * option Z) :=
  match c with
  | [] => GoRet (d, f)
  | p :: c' =>
      let last := match c' with [] => true | _ => false end in
      if last && o_parent b then GoRet (d, f)
      else
        match f with
        | None => GoPanic PTypeError
        | Some f =>
            let! i := Cb_e f p s in
            let d := rb d p in
            let! nd := no_node (get_node i s) in
            let i := match V nd with
                     | Some r => if negb last || o_Ka b then r else i
                     | None => i
                     end in
            let! (d, f) := if negb last || o_da b then follow_e 43 0 d (Some i) else GoRet (d, Some i) in
            walk_e b c' d f
        end
  end.
End Resolve.

Fixpoint Q_e (depth : nat) (s : fs) (a : jsstr) (b : opts) : go jerror (jsstr * option Z) :=
  match depth with
  | 0%nat => GoPanic PStack
  | S depth' =>
      let a := sb [[slash]; a] in
      if nonempty a then walk_e (Q_e depth' s) s b (mb (parts a) false) [slash] (Eb s)
      else GoRet ([], None)
  end.

(** ** [stat] *)

(** What [K.k.D] reports; the three dates are all the time stamp of the node. *)
Record stat : Type := mkStat {
  st_dev : Z; st_ino : Z; st_mode : Z; st_nlink : Z; st_uid : Z; st_gid : Z; st_rdev : Z; st_size : Z; st_blocks : Z; st_time : Z
}.

(** The length of a file ([o]). *)
Definition node_size (nd : node) : Z :=
  if L (mode nd) then 4096
  else if is_file (mode nd) then o (data nd)
  else if is_link (mode nd) then zlength (link nd)
  else 0.

(** [K.k.D], with the time stamp of the node in milliseconds. *)
Definition K_D (stamp : Z → Z) (i : Z) (nd : node) : stat :=
  let size := node_size nd in
  mkStat (if is_chr (mode nd) then i else 1) i (mode nd) 1 0 0 (rdev nd) size ((size + 4095) / 4096) (stamp i).

(** The nineteen words [hc] stores. *)
Definition stat_words (c : stat) : list Z :=
  [st_dev c; 0; st_ino c; st_mode c; st_nlink c; st_uid c; st_gid c; st_rdev c; 0; st_size c; 4096; st_blocks c;
   Z.quot (st_time c) 1000; 0; Z.quot (st_time c) 1000; 0; Z.quot (st_time c) 1000; 0; st_ino c].

Fixpoint store_words (b : Z) (ws : list Z) (E : heap) : heap :=
  match ws with [] => E | w :: ws' => store_words (b + 4) ws' (store32 b w E) end.

(** [hc]. *)
Definition hc (depth : nat) (stamp : Z → Z) (a : jsstr) (b : Z) (s : fs) (E : heap) : go Z Z * heap :=
  let c :=
    let! (_, d) := Q_e depth s a (mkOpts false true true) in
    match d with
    | None => GoErr (ENOENT, None)
    | Some d =>
        let! nd := no_node (get_node d s) in
        match k nd with
        | OpsNone | OpsFd | OpsFake => GoErr (EPERM, None)
        | _ => GoRet (K_D stamp d nd)
        end
    end in
  match c with
  | GoRet c => (GoRet 0, store_words b (stat_words c) E)
  | GoErr (u, Some g) =>
      match Kb g s with
      | GoRet p => if bool_decide (nb a = nb p) then (GoErr u, E) else (GoRet (- ENOTDIR), E)
      | GoErr u => (GoErr u, E)
      | GoPanic p => (GoPanic p, E)
      end
  | GoErr (u, None) => (GoErr u, E)
  | GoPanic p => (GoPanic p, E)
  end.

(** [___syscall195]: [stat]. *)
Definition syscall195 (depth : nat) (stamp : Z → Z) (path : jsstr) (b : Z) (y : sys) (E : heap) : go Z Z * heap :=
  let '(r, E) := hc depth stamp path b (y_fs y) E in (result r, E).

(** [___syscall197]: [fstat]. *)
Definition syscall197 (depth : nat) (stamp : Z → Z) (fd b : Z) (y : sys) (E : heap) : go Z Z * heap :=
  match N_fd (y_fs y) !! fd with
  | None => (GoRet (- EBADF), E)
  | Some st => let '(r, E) := hc depth stamp (s_path st) b (y_fs y) E in (result r, E)
  end.
