(* ===== verification/VizStatFacts.v ===== *)
(** * What [stat] reports *)

From Stdlib Require Import ZArith Lia.
From stdpp Require Import base list gmap strings.
From S2P Require Import Prelude VizRuntime VizFile VizFS VizStream VizMemory VizEnv VizInt64 VizInt64Facts VizDivision VizJumpProps VizStat.

Open Scope Z_scope.

(** ** The resolution with nodes in its errors is the resolution *)

Lemma erase_no_node {A} (r : go Z A) : erase (no_node r) = r.
Proof. by destruct r. Qed.

Lemma erase_bind {A B} (r : go jerror A) (f : A → go jerror B) : erase (go_bind r f) = go_bind (erase r) (fun a => erase (f a)).
Proof. by destruct r. Qed.

Lemma bind_ext {A B} (r r' : go Z A) (f f' : A → go Z B) : r = r' → (∀ a, f a = f' a) → go_bind r f = go_bind r' f'.
Proof. intros -> Hf. destruct r'; cbn [go_bind]; auto. Qed.

Lemma Cb_erase a b s : erase (Cb_e a b s) = Cb a b s.
Proof.
  unfold Cb_e, Cb. rewrite erase_bind, erase_no_node. apply bind_ext; [done|]. intros nd. destruct (_ =? 0); [|done].
  rewrite erase_bind, erase_no_node. apply bind_ext; [done|]. intros [i|]; [done|apply erase_no_node].
Qed.

Section Resolve.
Context (Qrec : jsstr → opts → go Z (jsstr * option Z)) (Qrec_e : jsstr → opts → go jerror (jsstr * option Z)) (s : fs).
Context (Hrec : ∀ a b, erase (Qrec_e a b) = Qrec a b).

Lemma Jb_erase a : erase (Jb_e Qrec_e s a) = Jb_with Qrec s a.
Proof using Hrec.
  unfold Jb_e, Jb_with. rewrite erase_bind, Hrec. apply bind_ext; [done|]. intros [_ [i|]]; [|done].
  rewrite erase_bind, erase_no_node. apply bind_ext; [done|]. intros nd. destruct (k nd); try done;
    (rewrite erase_bind, erase_no_node; apply bind_ext; [done|]); intros p; [by destruct (is_link _)|done].
Qed.

Lemma follow_erase n q d f : erase (follow_e Qrec_e s n q d f) = follow Qrec s n q d f.
Proof using Hrec.
  revert q d f. induction n as [|n IH]; intros q d [i|]; try done. cbn [follow_e follow]. rewrite erase_bind, erase_no_node.
  apply bind_ext; [done|]. intros nd. destruct (is_link _); [|done]. rewrite erase_bind, Jb_erase. apply bind_ext; [done|]. intros l.
  rewrite erase_bind, Hrec. apply bind_ext; [done|]. intros [_ f]. destruct (40 <? q); [done|apply IH].
Qed.

Lemma walk_erase b c d f : erase (walk_e Qrec_e s b c d f) = walk Qrec s b c d f.
Proof using Hrec.
  revert d f. induction c as [|p c IH]; intros d f; [done|]. cbn [walk_e walk]. destruct (_ && o_parent b); [done|]. destruct f as [f|]; [|done].
  rewrite erase_bind, Cb_erase. apply bind_ext; [done|]. intros i. rewrite erase_bind, erase_no_node. apply bind_ext; [done|]. intros nd.
  rewrite erase_bind. apply bind_ext; [|intros [d' f']; apply IH]. destruct (_ || o_da b); [apply follow_erase|done].
Qed.
End Resolve.

Lemma Q_erase depth s a b : erase (Q_e depth s a b) = Q depth s a b.
Proof. revert a b. induction depth as [|depth IH]; intros a b; [done|]. cbn [Q_e Q]. destruct (nonempty _); [by apply walk_erase|done]. Qed.

(** ** The record *)

Lemma store_words_other ws b E x : b mod 4 = 0 → x < b ∨ b + 4 * zlength ws <= x → store_words b ws E x = E x.
Proof.
  revert b E. induction ws as [|w ws IH]; intros b E Hb Hx; [done|]. cbn [store_words].
  assert (zlength (w :: ws) = zlength ws + 1) as Hl by (unfold zlength; cbn [length]; lia). rewrite Hl in Hx. pose proof (zlength_nonneg ws).
  rewrite IH; [|rewrite Z.add_mod, Hb by lia; reflexivity|lia]. apply store32_at; [done|lia].
Qed.

Lemma store_words_at ws b E j w : b mod 4 = 0 → ws !! j = Some w → load32s (store_words b ws E) (b + 4 * Z.of_nat j) = i32 w.
Proof.
  revert b E j. induction ws as [|w' ws IH]; intros b E j Hb Hj; [done|]. cbn [store_words].
  assert ((b + 4) mod 4 = 0) as Hb4 by (rewrite Z.add_mod, Hb by lia; reflexivity). destruct j as [|j].
  - injection Hj as ->. rewrite Z.add_0_r. rewrite (load32s_moved (store32 b w E) _ b b Hb Hb).
    + rewrite <- (i32_id (load32s _ _)) by apply i32_range. apply i32_eq_iff. by rewrite load32s_store32.
    + intros k Hk. apply store_words_other; [done|lia].
  - replace (b + 4 * Z.of_nat (S j)) with (b + 4 + 4 * Z.of_nat j) by lia. by apply IH.
Qed.

(** [stat] of a path that leads to a node fills the record, and nothing else. *)
Theorem stat_reports (depth : nat) (stamp : Z → Z) (a : jsstr) (b : Z) (y : sys) (E : heap) (p : jsstr) (i : Z) (nd : node) :
  b mod 4 = 0 → Q depth (y_fs y) a (mkOpts false true true) = GoRet (p, Some i) → nodes (y_fs y) !! i = Some nd →
  k nd ∈ [OpsDir; OpsFile; OpsLink; OpsDev] →
  let E' := (syscall195 depth stamp a b y E).2 in
  (syscall195 depth stamp a b y E).1 = GoRet 0 ∧
  (∀ j w, stat_words (K_D stamp i nd) !! j = Some w → load32s E' (b + 4 * Z.of_nat j) = i32 w) ∧
  (∀ x, x < b ∨ b + 76 <= x → E' x = E x).
Proof.
  intros Hb Hq Hi Hk E'. assert (syscall195 depth stamp a b y E = (GoRet 0, store_words b (stat_words (K_D stamp i nd)) E)) as Hr.
  { unfold syscall195, hc. pose proof (Q_erase depth (y_fs y) a (mkOpts false true true)) as He. rewrite Hq in He.
    destruct (Q_e _ _ _ _) as [[p' d]|[? ?]|?]; cbn [erase] in He; try done. injection He as -> ->. cbn [go_bind]. unfold get_node. rewrite Hi.
    cbn [no_node go_bind]. destruct (k nd); [done..| | |]; exfalso; set_solver. }
  unfold E'. rewrite Hr. split; [done|]. split; [intros j w Hj; by apply store_words_at|]. intros x Hx. by apply store_words_other.
Qed.

(** A [stat] that fails leaves the memory as it was, and returns the error of the
    lookup, or [ENOTDIR] where the lookup stopped at a node on the way. *)
Theorem stat_fails (depth : nat) (stamp : Z → Z) (a : jsstr) (b : Z) (y : sys) (E : heap) (u : Z) (g : option Z) :
  Q_e depth (y_fs y) a (mkOpts false true true) = GoErr (u, g) →
  (syscall195 depth stamp a b y E).2 = E ∧ Q depth (y_fs y) a (mkOpts false true true) = GoErr u ∧
  (g = None → (syscall195 depth stamp a b y E).1 = GoRet (- u)) ∧
  (∀ i p, g = Some i → Kb i (y_fs y) = GoRet p → nb a ≠ nb p → (syscall195 depth stamp a b y E).1 = GoRet (- ENOTDIR)).
Proof.
  intros Hq. pose proof (Q_erase depth (y_fs y) a (mkOpts false true true)) as He. rewrite Hq in He. cbn [erase fst] in He.
  unfold syscall195, hc. rewrite Hq. cbn [go_bind]. split_and!; [|done|by intros ->|].
  - destruct g as [i|]; [|done]. destruct (Kb i (y_fs y)) as [p|?|?]; try done. by case_bool_decide.
  - intros i p -> Hp Hne. rewrite Hp. rewrite bool_decide_false by done. done.
Qed.

(** At start: a directory, a device, a path through a device, a path to nothing. *)
Theorem stat_at_start :
  match start [] with
  | GoRet y =>
      let call p := syscall195 3 (fun _ => 0) (js p) 1000 y (fun _ => 0) in
      (call "/tmp").1 = GoRet 0 ∧ load32s (call "/tmp").2 1012 = 16895 ∧ load32s (call "/tmp").2 1036 = 4096 ∧
      (call "/dev/null").1 = GoRet 0 ∧ (call "/dev/null/x").1 = GoRet (- ENOTDIR) ∧ (call "/nowhere/x").1 = GoRet (- ENOENT)
  | _ => False
  end.
Proof. vm_compute. done. Qed.
