(* ===== verification/VizNodefs.v ===== *)
(** * The file system of the host

    NODEFS ([M]) maps nodes of the runtime's file system to files of Node.js: a
    node below a mount stands for the file at the root of the mount joined with
    the names that lead to the node.  The functions of the module [fs] of Node.js
    are parameters: they act on the host and may throw, with or without a code. *)

From Stdlib Require Import ZArith Lia.
From stdpp Require Import base list gmap strings.
From S2P Require Import Prelude VizRuntime VizFile VizFS VizConf.

Open Scope Z_scope.

(** What a function of the host throws. *)
Inductive host_exn : Type := Coded (code : string) | Uncoded.

(** [I[code]]: the names of the table are the minified ones. *)
Fixpoint assoc (l : list (string * Z)) (c : string) : option Z :=
  match l with [] => None | (b, n) :: l' => if String.eqb b c then Some n else assoc l' c end.
Definition I_get (c : string) : option Z := assoc error_numbers c.

(** What is thrown on: [J] with a number or with [undefined]; or the host's exception. *)
Definition nerr : Type := option Z.

(** [catch(c){if(!c.code)throw c;throw new J(I[c.code]);}]. *)
Definition catch_coded {A} (r : host_exn + A) : go nerr A :=
  match r with
  | inr a => GoRet a
  | inl (Coded EmptyString) | inl Uncoded => GoPanic (PMsg "host")
  | inl (Coded c) => GoErr (I_get c)
  end.

(** [catch(h){throw new J(I[h.code]);}]. *)
Definition catch_all {A} (r : host_exn + A) : go nerr A :=
  match r with
  | inr a => GoRet a
  | inl (Coded c) => GoErr (I_get c)
  | inl Uncoded => GoErr None
  end.

(** The state: the runtime's nodes and the host. *)
Definition world (H : Type) : Type := fs * H.
Definition act (H A : Type) : Type := world H → go nerr A * world H.

Definition aret {H A} (a : A) : act H A := fun w => (GoRet a, w).
Definition athrow {H A} (e : nerr) : act H A := fun w => (GoErr e, w).
Definition abind {H A B} (m : act H A) (f : A → act H B) : act H B := fun w =>
  match m w with
  | (GoRet a, w) => f a w
  | (GoErr e, w) => (GoErr e, w)
  | (GoPanic p, w) => (GoPanic p, w)
  end.
Notation "'do!' x := m 'in' k" := (abind m (fun x => k)) (at level 10, x pattern, k at level 200).

(** An error number of the runtime's own. *)
Definition lift {A} (r : go Z A) : go nerr A :=
  match r with GoRet a => GoRet a | GoErr c => GoErr (Some c) | GoPanic p => GoPanic p end.

(** What [lstat] reports of a file: [dev], [ino], [nlink] and the other fields that
    are passed on ([hs_rest]), [mode], [size], and [L] and [blocks] where it has them. *)
Record host_stat : Type := mkHostStat { hs_rest : list Z; hs_mode : Z; hs_size : Z; hs_L : option Z; hs_blocks : option Z }.

(** The functions of the module [fs] that NODEFS calls. *)
Record host_fs (H : Type) : Type := mkHostFs {
  lstatSync : jsstr → H → (host_exn + host_stat) * H;
  chmodSync : jsstr → Z → H → (host_exn + unit) * H;
  truncateSync : jsstr → Z → H → (host_exn + unit) * H;
  mkdirSync : jsstr → Z → H → (host_exn + unit) * H;
  writeFileSync : jsstr → Z → H → (host_exn + unit) * H;
  renameSync : jsstr → jsstr → H → (host_exn + unit) * H;
  unlinkSync : jsstr → H → (host_exn + unit) * H;
  rmdirSync : jsstr → H → (host_exn + unit) * H;
  readdirSync : jsstr → H → (host_exn + list jsstr) * H;
  symlinkSync : jsstr → jsstr → H → (host_exn + unit) * H;
  readlinkSync : jsstr → H → (host_exn + jsstr) * H;
  openSync : jsstr → string → H → (host_exn + Z) * H;
  closeSync : Z → H → (host_exn + unit) * H;
  readSync : Z → Z → Z → H → (host_exn + list Z) * H;
  writeSync : Z → list Z → Z → H → (host_exn + Z) * H;
  fstatSync : Z → H → (host_exn + host_stat) * H
}.
Arguments lstatSync {H} _. Arguments chmodSync {H} _. Arguments truncateSync {H} _. Arguments mkdirSync {H} _.
Arguments writeFileSync {H} _. Arguments renameSync {H} _. Arguments unlinkSync {H} _. Arguments rmdirSync {H} _.
Arguments readdirSync {H} _. Arguments symlinkSync {H} _. Arguments readlinkSync {H} _. Arguments openSync {H} _.
Arguments closeSync {H} _. Arguments readSync {H} _. Arguments writeSync {H} _. Arguments fstatSync {H} _.

(** [qb]: the parts joined and normalised. *)
Definition qb (ps : list jsstr) : jsstr := nb (join ps).

(** [M.Ja]: the modes of the host for the flags of [open]. *)
Definition flag_modes : list (Z * string) :=
  [(0, "r"); (1, "r+"); (2, "r+"); (64, "r"); (65, "r+"); (66, "r+"); (129, "rx+"); (193, "rx+"); (514, "w+");
   (577, "w"); (578, "w+"); (705, "wx"); (706, "wx+"); (1024, "a"); (1025, "a"); (1026, "a+"); (1089, "a"); (1090, "a+");
   (1153, "ax"); (1154, "ax+"); (1217, "ax"); (1218, "ax+"); (4096, "rs"); (4098, "rs+")]%string.

Fixpoint mode_for (l : list (Z * string)) (a : Z) : option string :=
  match l with [] => None | (f, m) :: l' => if f =? a then Some m else mode_for l' a end.

(** [M.Ua]. *)
Definition Ua (a : Z) : go nerr string :=
  match mode_for flag_modes (Z.land (i32 a) (-32769)) with Some m => GoRet m | None => GoErr (Some EINVAL) end.

Section Nodefs.
Context {H : Type} (hfs : host_fs H).
(** Whether the host is Windows ([fa]), and the root of the mount. *)
Context (fa : bool) (root : jsstr).
(** [Db.relative(Db.resolve(root),b)] of the host. *)
Context (relative_to_root : jsstr → jsstr).

Definition on_fs {A} (f : fs → go nerr A) : act H A := fun w => (f w.1, w).
Definition on_host {A} (catch : host_exn + A → go nerr A) (f : H → (host_exn + A) * H) : act H A :=
  fun w => let '(r, h) := f w.2 in (catch r, (w.1, h)).

(** [M.B]: the path of a node on the host. *)
Fixpoint B_loop (n : nat) (a : Z) (b : list jsstr) (s : fs) : go Z jsstr :=
  match n with
  | O => GoPanic (PMsg "endless path")
  | S n' =>
      let! nd := get_node a s in
      if parent nd =? a then GoRet (qb (root :: b)) else B_loop n' (parent nd) (name nd :: b) s
  end.
Definition B (a : Z) (s : fs) : go Z jsstr := B_loop (Z.to_nat (Hb s) + 1) a [] s.

(** [M.createNode]. *)
Definition M_createNode (a : option Z) (b : jsstr) (c d : Z) : act H Z := fun w =>
  if negb (L c) && negb (is_file c) && negb (is_link c) then (GoErr (Some EINVAL), w)
  else let '(i, s) := Ab a b c d w.1 in (GoRet i, (s, w.2)).

(** [M.La]: the mode of a file of the host. *)
Definition La (a : jsstr) : act H Z :=
  do! b := on_host catch_coded (lstatSync hfs a) in
  aret (if fa then Z.lor (hs_mode b) (Z.shiftr (Z.land (hs_mode b) 146) 1) else hs_mode b).

(** [M.A]: mounting. *)
Definition M_mount : act H Z :=
  do! m := La root in M_createNode None [slash] m 0.

Definition path_of (a : Z) : act H jsstr := on_fs (fun s => lift (B a s)).

(** [M.k.lookup]. *)
Definition M_lookup (a : Z) (b : jsstr) : act H Z :=
  do! p := path_of a in
  do! c := La (rb p b) in
  M_createNode (Some a) b c 0.

(** [M.k.U]: [mknod]. *)
Definition M_U (a : Z) (b : jsstr) (c d : Z) : act H Z :=
  do! i := M_createNode (Some a) b c d in
  do! p := path_of i in
  do! _ := (if L c then on_host catch_coded (mkdirSync hfs p c) else on_host catch_coded (writeFileSync hfs p c)) in
  aret i.

(** [!x], for a number or [undefined]. *)
Definition falsy (x : option Z) : bool := match x with Some n => n =? 0 | None => true end.

(** [M.k.D]: what [lstat] reports, with block size and number of blocks filled in on
    Windows. *)
Definition M_D (a : Z) : act H host_stat :=
  do! p := path_of a in
  do! b := on_host catch_coded (lstatSync hfs p) in
  let l := if fa && falsy (hs_L b) then Some 4096 else hs_L b in
  let n := if fa && falsy (hs_blocks b) then Some (i32 (Z.quot (hs_size b + default 0 l - 1) (default 0 l))) else hs_blocks b in
  aret (mkHostStat (hs_rest b) (hs_mode b) (hs_size b) l n).

(** [M.k.F]: [setattr]; the mode of the node changes when the host has changed it. *)
Definition M_F (a : Z) (m size : option Z) : act H unit :=
  do! p := path_of a in
  do! _ := (match m with
    | Some m => do! _ := on_host catch_coded (chmodSync hfs p m) in
                (fun w => (GoRet tt, (upd a (fun nd => mkNode (parent nd) (name nd) m (rdev nd) (k nd) (entries nd) (data nd) (link nd) (O_next nd) (mountpoint nd) (V nd)) w.1, w.2)))
    | None => aret tt
    end) in
  match size with Some n => on_host catch_coded (truncateSync hfs p n) | None => aret tt end.

Definition M_rename (a b : Z) (c : jsstr) : act H unit :=
  do! p := path_of a in do! q := path_of b in on_host catch_coded (renameSync hfs p (rb q c)).
Definition M_unlink (a : Z) (b : jsstr) : act H unit :=
  do! p := path_of a in on_host catch_coded (unlinkSync hfs (rb p b)).
Definition M_rmdir (a : Z) (b : jsstr) : act H unit :=
  do! p := path_of a in on_host catch_coded (rmdirSync hfs (rb p b)).
Definition M_readdir (a : Z) : act H (list jsstr) :=
  do! p := path_of a in on_host catch_coded (readdirSync hfs p).
Definition M_symlink (a : Z) (b c : jsstr) : act H unit :=
  do! p := path_of a in on_host catch_coded (symlinkSync hfs c (rb p b)).
Definition M_readlink (a : Z) : act H jsstr :=
  do! p := path_of a in do! b := on_host catch_coded (readlinkSync hfs p) in aret (relative_to_root b).

(** ** Streams *)

(** [M.n.open]: the descriptor of the host, for a regular file. *)
Definition M_open (g : Z) (flags : Z) : act H (option Z) :=
  do! p := path_of g in
  do! nd := on_fs (fun s => lift (get_node g s)) in
  if is_file (mode nd) then
    do! m := on_fs (fun _ => Ua flags) in
    do! fd := on_host catch_coded (openSync hfs p m) in aret (Some fd)
  else aret None.

(** [M.n.close]; a descriptor 0 is taken for none. *)
Definition M_close (g : Z) (W : option Z) : act H unit :=
  do! nd := on_fs (fun s => lift (get_node g s)) in
  match W with
  | Some fd => if is_file (mode nd) && negb (fd =? 0) then on_host catch_coded (closeSync hfs fd) else aret tt
  | None => aret tt
  end.

(** [M.n.read]: the bytes read. *)
Definition M_read (W d f : Z) : act H (list Z) :=
  if d =? 0 then aret [] else on_host catch_all (readSync hfs W d f).

(** [M.n.write]. *)
Definition M_write (W : Z) (b : list Z) (f : Z) : act H Z := on_host catch_all (writeSync hfs W b f).

(** [M.n.I]: [llseek]. *)
Definition M_llseek (g W position b c : Z) : act H Z :=
  do! nd := on_fs (fun s => lift (get_node g s)) in
  do! b := (if c =? 1 then aret (b + position)
            else if (c =? 2) && is_file (mode nd) then
              do! st := on_host catch_all (fstatSync hfs W) in aret (b + hs_size st)
            else aret b) in
  if b <? 0 then athrow (Some EINVAL) else aret b.
End Nodefs.
