(* ===== verification/VizNodefsFacts.v ===== *)
(** * Paths and errors of the host's file system *)

From Stdlib Require Import ZArith Lia.
From stdpp Require Import base list gmap strings.
From S2P Require Import Prelude VizRuntime VizFacts VizFile VizFS VizFSFacts VizFSPaths VizConf VizNodefs.

Open Scope Z_scope.

(** ** Paths *)

Lemma mb_snoc_any ps x r : plain x → mb (ps ++ [x]) r = mb ps r ++ [x].
Proof.
  intros Hx. unfold mb. rewrite foldr_app. cbn [foldr]. rewrite mb_step_plain by done. cbn [fst snd].
  rewrite mb_fold_acc. destruct (foldr mb_step ([], O) ps) as [a c]. cbn [fst snd]. destruct r; [by rewrite app_assoc|done].
Qed.

(** The parts of a normalised path are normal. *)
Lemma mb_parts_nb a : nb a ≠ [] ∧ starts_slash (nb a) = starts_slash a ∧
  mb (parts (nb a)) (negb (starts_slash a)) = mb (parts a) (negb (starts_slash a)).
Proof.
  pose proof (mb_normal (parts a) (negb (starts_slash a)) (parts_ok a)) as Hn. unfold nb.
  set (r := negb (starts_slash a)) in *. set (ps := mb (parts a) r) in *. pose proof (normal_parts _ _ Hn) as Hp.
  destruct (nonempty (join ps)) eqn:Ej.
  - assert (ps ≠ []) as Hne by (intros ->; done). cbn [orb andb]. assert (join ps ≠ []) as Hj by (intros E0; by rewrite E0 in Ej).
    set (q := if ends_slash a then join ps ++ [slash] else join ps).
    assert ((if nonempty (join ps) && ends_slash a then join ps ++ [slash] else join ps) = q) as -> by (rewrite Ej; done).
    assert (parts q = ps) as Hq by (unfold q; destruct (ends_slash a); [rewrite parts_trailing|]; by apply parts_join).
    assert (q ≠ [] ∧ starts_slash q = false) as [Hq0 Hq1].
    { unfold q. destruct (ends_slash a); [|split; [done|by apply join_starts]]. split; [by destruct (join ps)|].
      rewrite starts_slash_app by done. by apply join_starts. }
    unfold r in *. destruct (starts_slash a); cbn [app negb] in *.
    + split; [done|]. split; [done|]. rewrite parts_slash, Hq. by apply mb_fix.
    + split; [done|]. split; [done|]. rewrite Hq. by apply mb_fix.
  - assert (ps = []) as Hps by (by apply join_nil). unfold r in *. cbn [orb]. rewrite Hps. destruct (starts_slash a); cbn [app negb nonempty andb join].
    + done.
    + destruct (ends_slash a); done.
Qed.

Lemma ends_slash_part s b : is_part b → ends_slash (s ++ slash :: b) = false.
Proof.
  intros [Hb Hs]. unfold ends_slash. rewrite last_app. destruct b as [|c b _] using rev_ind; [done|].
  change (slash :: b ++ [c]) with ((slash :: b) ++ [c]). rewrite last_snoc. destruct (Z.eqb_spec c slash) as [->|]; [|done].
  destruct Hs. rewrite elem_of_app, list_elem_of_singleton. tauto.
Qed.

(** A name appended before or after normalising. *)
Lemma nb_child a b : a ≠ [] → plain b → nb (nb a ++ slash :: b) = nb (a ++ slash :: b).
Proof.
  intros Ha Hb. destruct (mb_parts_nb a) as (Hne & Hs & Hm). pose proof Hb as [Hp _].
  assert (∀ x, x ≠ [] → starts_slash x = starts_slash a → mb (parts x) (negb (starts_slash a)) = mb (parts a) (negb (starts_slash a)) →
    nb (x ++ slash :: b) = (if starts_slash a then [slash] else []) ++ join (mb (parts a) (negb (starts_slash a)) ++ [b])) as H.
  { intros x Hx Hsx Hmx. unfold nb. rewrite starts_slash_app, Hsx, ends_slash_part, parts_app_slash, (parts_part b Hp) by done.
    rewrite mb_snoc_any, Hmx by done. set (l := mb _ _). rewrite andb_false_r.
    assert (nonempty (join (l ++ [b])) = true) as ->; [|done]. destruct l as [|p l]; [by destruct Hp as [H0 _]; destruct b|].
    cbn [app join]. destruct (l ++ [b]) as [|p' l'] eqn:El; [by destruct l|]. by destruct p. }
  rewrite (H (nb a)), (H a) by done. done.
Qed.

Lemma join_snoc ps b : ps ≠ [] → join (ps ++ [b]) = join ps ++ slash :: b.
Proof.
  induction ps as [|p ps IH]; [done|]. intros _. destruct ps as [|q ps]; [done|].
  change ((p :: q :: ps) ++ [b]) with (p :: ((q :: ps) ++ [b])). cbn [join app] in *. rewrite IH by done.
  change (q :: ps ++ [b]) with ((q :: ps) ++ [b]). by rewrite <- app_assoc.
Qed.

(** ** Nodes and files *)

(** The names that lead from the mount to a node; parents are older. *)
Inductive names_of (s : fs) : Z → list jsstr → Prop :=
| names_root a nd : nodes s !! a = Some nd → parent nd = a → 0 < a < Hb s → names_of s a []
| names_child a nd l : nodes s !! a = Some nd → 0 < parent nd < a → a < Hb s → names_of s (parent nd) l → names_of s a (l ++ [name nd]).

Lemma names_bound s a l : names_of s a l → 0 < a < Hb s ∧ Z.of_nat (length l) < a.
Proof. induction 1 as [a nd Ha Hp Hb|a nd l Ha Hp Hb Hl [IH1 IH2]]; [simpl; lia|]. rewrite length_app. simpl. lia. Qed.

Lemma B_loop_names root s a l b n : names_of s a l → (length l < n)%nat → B_loop root n a b s = GoRet (qb (root :: l ++ b)).
Proof.
  intros Hn. revert b n. induction Hn as [a nd Ha Hp Hb|a nd l Ha Hp Hb Hl IH]; intros b n Hlen.
  - destruct n as [|n]; [simpl in Hlen; lia|]. cbn [B_loop]. unfold get_node. rewrite Ha. cbn [go_bind]. rewrite Hp, Z.eqb_refl. done.
  - rewrite length_app in Hlen. simpl in Hlen. destruct n as [|n]; [lia|]. cbn [B_loop]. unfold get_node. rewrite Ha. cbn [go_bind].
    destruct (Z.eqb_spec (parent nd) a); [lia|]. rewrite IH by lia. by rewrite <- app_assoc.
Qed.

(** A node stands for the file at the names that lead to it. *)
Lemma B_names root s a l : names_of s a l → B root a s = GoRet (qb (root :: l)).
Proof. intros Hn. pose proof (names_bound s a l Hn). unfold B. rewrite (B_loop_names root s a l [] _ Hn) by lia. by rewrite app_nil_r. Qed.

Lemma names_ext s s' a l : (∀ j, j < Hb s → nodes s' !! j = nodes s !! j) → Hb s <= Hb s' → names_of s a l → names_of s' a l.
Proof.
  intros Hj Hle. induction 1 as [a nd Ha Hp Hlt|a nd l Ha Hp Hlt Hl IH].
  - apply names_root with nd; [rewrite Hj by lia; done|done|lia].
  - apply names_child; [rewrite Hj by lia; done|done|lia|done].
Qed.

Lemma names_new s a l b m d i s' : names_of s a l → Ab (Some a) b m d s = (i, s') → names_of s' i (l ++ [b]).
Proof.
  intros Hn HA. unfold Ab in HA. injection HA as <- <-. pose proof (names_bound s a l Hn) as [Ha _].
  set (nd := mkNode a b m d OpsNone ∅ (mkFile CNull 0) [] None (p ← Some a; nd ← nodes s !! p; mountpoint nd) None).
  set (s1 := set_Hb (Hb s + 1) (set_nodes (<[Hb s := nd]> (nodes s)) s)).
  assert (∀ j, j ≠ Hb s → nodes (Mb (Hb s) s1) !! j = nodes s !! j) as Hother.
  { intros j Hj. unfold Mb, s1. cbn [nodes set_Hb set_nodes]. rewrite lookup_insert_eq. unfold upd. cbn [nodes set_O_tab set_nodes set_Hb].
    rewrite lookup_alter_ne by done. by rewrite lookup_insert_ne by done. }
  assert (∃ nd', nodes (Mb (Hb s) s1) !! Hb s = Some nd' ∧ parent nd' = a ∧ name nd' = b) as (nd' & Hnew & Hp & Hname).
  { unfold Mb, s1. cbn [nodes set_Hb set_nodes]. rewrite lookup_insert_eq. unfold upd. cbn [nodes set_O_tab set_nodes set_Hb].
    rewrite lookup_alter_eq, lookup_insert_eq. eexists. split; [reflexivity|]. done. }
  assert (Hb (Mb (Hb s) s1) = Hb s + 1) as HHb.
  { unfold Mb, s1. cbn [nodes set_Hb set_nodes]. by rewrite lookup_insert_eq. }
  change (names_of (Mb (Hb s) s1) (Hb s) (l ++ [b])). rewrite <- Hname. apply names_child; [done|lia|lia|]. rewrite Hp.
  apply (names_ext s); [|lia|done]. intros j Hj. apply Hother. lia.
Qed.

Section Host.
Context {H : Type} (hfs : host_fs H) (fa : bool) (root : jsstr).

(** Looking up a name asks the host for the file the new node then stands for. *)
Lemma lookup_names s h a l b : names_of s a l → root ≠ [] → plain b →
  let p := qb (root :: l ++ [b]) in
  match lstatSync hfs p h with
  | (inr st, h') =>
      let m := if fa then Z.lor (hs_mode st) (Z.shiftr (Z.land (hs_mode st) 146) 1) else hs_mode st in
      (L m || is_file m || is_link m = true → ∃ i s', M_lookup hfs fa root a b (s, h) = (GoRet i, (s', h')) ∧ B root i s' = GoRet p) ∧
      (L m || is_file m || is_link m = false → M_lookup hfs fa root a b (s, h) = (GoErr (Some EINVAL), (s, h')))
  | (inl e, h') => M_lookup hfs fa root a b (s, h) = (catch_coded (inl e), (s, h'))
  end.
Proof.
  intros Hn Hroot Hb p.
  assert (rb (qb (root :: l)) b = p) as Hp.
  { unfold p, qb, rb. change (root :: l ++ [b]) with ((root :: l) ++ [b]). rewrite join_snoc by done. apply nb_child; [|done].
    destruct l; [done|]. cbn [join]. by destruct root. }
  unfold M_lookup, path_of, on_fs, abind. cbn [fst]. rewrite (B_names root s a l Hn). cbn [lift].
  unfold La, on_host, abind, aret. cbn [fst snd]. rewrite Hp. destruct (lstatSync hfs p h) as [[e|st] h'] eqn:Es.
  - destruct e as [[|c cs]|]; done.
  - cbn [catch_coded]. set (m := if fa then _ else _). unfold M_createNode. split; intros Hm.
    + assert (negb (L m) && negb (is_file m) && negb (is_link m) = false) as -> by (destruct (L m), (is_file m), (is_link m); done).
      cbn [fst snd]. destruct (Ab (Some a) b m 0 s) as [i s'] eqn:EA. exists i, s'. split; [done|]. apply B_names.
      by apply (names_new s a l b m 0).
    + assert (negb (L m) && negb (is_file m) && negb (is_link m) = true) as -> by (destruct (L m), (is_file m), (is_link m); done). done.
Qed.
End Host.

(** ** Errors *)

(** The names of the table of error numbers have one or two characters, so no code of
    the host ([ENOENT], [EACCES], ...) is found: the errors NODEFS throws have the
    number [undefined]. *)
Theorem host_codes_unknown (A : Type) (c : string) : (2 < String.length c)%nat → I_get c = None ∧ catch_coded (A := A) (inl (Coded c)) = GoErr None.
Proof.
  intros Hc. assert (∀ l, forallb (fun p => (String.length p.1 <=? 2)%nat) l = true → assoc l c = None) as Hl.
  { induction l as [|[b n] l IH]; [done|]. cbn [forallb assoc fst]. intros [Hb Hl]%andb_prop. apply Nat.leb_le in Hb.
    destruct (String.eqb_spec b c) as [->|]; [lia|auto]. }
  assert (I_get c = None) as Hn by (apply Hl; vm_compute; reflexivity). split; [done|]. destruct c as [|x c]; [simpl in Hc; lia|]. cbn [catch_coded]. by rewrite Hn.
Qed.

(** A file the host refuses to make: the runtime has its node already, and finds it. *)
Theorem refused_file_found :
  let refuse := mkHostFs unit (fun _ h => (inl (Coded "ENOENT"), h)) (fun _ _ h => (inl Uncoded, h)) (fun _ _ h => (inl Uncoded, h))
    (fun _ _ h => (inl (Coded "EACCES"), h)) (fun _ _ h => (inl (Coded "EACCES"), h)) (fun _ _ h => (inl Uncoded, h)) (fun _ h => (inl Uncoded, h))
    (fun _ h => (inl Uncoded, h)) (fun _ h => (inl Uncoded, h)) (fun _ _ h => (inl Uncoded, h)) (fun _ h => (inl Uncoded, h))
    (fun _ _ h => (inl Uncoded, h)) (fun _ h => (inl Uncoded, h)) (fun _ _ _ h => (inl Uncoded, h)) (fun _ _ _ h => (inl Uncoded, h)) (fun _ h => (inl Uncoded, h)) in
  match started with
  | GoRet s =>
      let '(r, (s', _)) := M_U refuse (js "/home") 1 (js "x") 33188 0 (s, tt) in
      r = GoErr None ∧ Cb 1 (js "x") s = GoErr ENOENT ∧ ∃ i, Cb 1 (js "x") s' = GoRet i
  | _ => False
  end.
Proof. vm_compute. split_and!; [reflexivity|reflexivity|]. eexists. reflexivity. Qed.
