(* ===== verification/VizImage.v ===== *)
(** * Sizes of images

    The layout asks image files for their size ([zn], with the readers [Bn] and
    [Cn]).  The standard input and output of the object code is a parameter:
    [xz] ([getc]), [vz] ([feof]) and [Hz] ([fseek]), with what the readers rely on
    as the class [ByteStream]. *)

From Stdlib Require Import ZArith Lia.
From stdpp Require Import base list.
From S2P Require Import Prelude VizRuntime VizFacts VizInt64 VizInt64Facts.

Open Scope Z_scope.

Section Readers.
Context {F : Type} (xz : F → Z * F) (vz : F → bool) (Hz : F → Z → Z → F).

(** The loop of [Bn]; [v] is the word at [d]. *)
Fixpoint Bn_loop (n : nat) (f v : Z) (a : F) : option Z * F :=
  match n with
  | O => (Some v, a)
  | S n' =>
      let '(e, a) := xz a in
      if vz a then (None, a) else Bn_loop n' (i32 (f + 1)) (jor v (shl e (shl f 3))) a
  end.
(** [Bn]: [b] bytes, the lowest first; [None] when the file ends. *)
Definition Bn (a : F) (b : Z) : option Z * F := Bn_loop (Z.to_nat (u32 b)) 0 0 a.

Fixpoint Cn_loop (n : nat) (v : Z) (a : F) : option Z * F :=
  match n with
  | O => (Some v, a)
  | S n' =>
      let '(e, a) := xz a in
      if vz a then (None, a) else Cn_loop n' (jor (shl v 8) e) a
  end.
(** [Cn]: [b] bytes, the highest first. *)
Definition Cn (a : F) (b : Z) : option Z * F := Cn_loop (Z.to_nat (u32 b)) 0 a.

(** Two values read one after the other, the second only after the first. *)
Definition both (r1 : option Z * F) (r2 : F → option Z * F) : option (Z * Z) * F :=
  match r1 with
  | (Some x, a) => match r2 a with (Some y, a) => (Some (x, y), a) | (None, a) => (None, a) end
  | (None, a) => (None, a)
  end.

(** The cases 2, 3 and 1 of [zn]: width and height of GIF, PNG and BMP files. *)
Definition gif_size (a : F) : option (Z * Z) := (both (Bn (Hz a 6 0) 2) (fun a => Bn a 2)).1.
Definition png_size (a : F) : option (Z * Z) := (both (Cn (Hz a 16 0) 4) (fun a => Cn a 4)).1.
Definition bmp_size (a : F) : option (Z * Z) :=
  match both (Bn (Hz a 16 0) 2) (fun a => Bn a 2) with
  | (Some (x_hi, x_lo), a) =>
      match both (Bn a 2) (fun a => Bn a 2) with
      | (Some (y_hi, y_lo), _) => Some (jor (shl x_hi 16) x_lo, jor (shl y_hi 16) y_lo)
      | _ => None
      end
  | _ => None
  end.
End Readers.

(** What the readers rely on: a stream has bytes and a position, reading at the end
    sets the end flag, seeking clears it. *)
Class ByteStream {F : Type} (xz : F → Z * F) (vz : F → bool) (Hz : F → Z → Z → F) (bytes_of : F → list Z) (pos : F → Z) : Prop := {
  bs_byte a x : Forall (fun x => 0 <= x < 256) (bytes_of a) → zlookup (bytes_of a) (pos a) = Some x →
    ∃ a', xz a = (x, a') ∧ vz a' = false ∧ bytes_of a' = bytes_of a ∧ pos a' = pos a + 1;
  bs_end a : zlength (bytes_of a) <= pos a → ∃ e a', xz a = (e, a') ∧ vz a' = true ∧ bytes_of a' = bytes_of a;
  bs_seek a off : 0 <= off → bytes_of (Hz a off 0) = bytes_of a ∧ pos (Hz a off 0) = off
}.

(** The number the bytes of a list make, the lowest or the highest first. *)
Fixpoint le_value (l : list Z) : Z := match l with [] => 0 | x :: l' => x + 256 * le_value l' end.
Definition be_value (l : list Z) : Z := foldl (fun v x => v * 256 + x) 0 l.

Definition slice (l : list Z) (p n : nat) : list Z := take n (drop p l).

Section Facts.
Context {F : Type} (xz : F → Z * F) (vz : F → bool) (Hz : F → Z → Z → F) (bytes_of : F → list Z) (pos : F → Z).
Context `{HS : !ByteStream xz vz Hz bytes_of pos}.

(** A stream with the bytes [l], at [p]. *)
Definition stream_at (l : list Z) (p : Z) (a : F) : Prop := bytes_of a = l ∧ pos a = p.

Lemma lor_add a b k : 0 <= k → 0 <= a < 2 ^ k → Z.lor a (b * 2 ^ k) = a + b * 2 ^ k.
Proof using.
  intros Hk Ha. rewrite <- (Z.shiftl_mul_pow2 b k) by lia. symmetry. apply Z.add_nocarry_lor.
  apply Z.bits_inj'. intros n Hn. rewrite Z.land_spec, Z.bits_0. destruct (Z.lt_ge_cases n k).
  - by rewrite Z.shiftl_spec_low, andb_false_r.
  - rewrite <- (Z.mod_small a (2 ^ k)) by lia. by rewrite Z.mod_pow2_bits_high by lia.
Qed.

(** One byte more at the low or at the high end. *)
Lemma u32_append_low v e : 0 <= e < 256 → u32 (jor (shl v 8) e) = u32 (v * 256 + e).
Proof using.
  intros He. rewrite u32_jor, u32_shl, (u32_id e), (u32_mul_l v) by (unfold is_u32; lia). change (2 ^ 8) with 256. rewrite Z.lor_comm.
  assert (u32 (v * 256) = u32 v mod 2 ^ 24 * 2 ^ 8) as Hm.
  { unfold u32. change (2 ^ 8) with 256.
    change (2 ^ 32) with (2 ^ 24 * 256). rewrite Z.mul_mod_distr_r by lia. f_equal. rewrite (Z.mul_comm (2 ^ 24) 256), Z.rem_mul_r by lia.
    clear. Z.div_mod_to_equations. lia. }
  rewrite Hm, lor_add by lia. rewrite <- Hm. rewrite <- (u32_add_l (v * 256) e). symmetry. rewrite Z.add_comm. apply u32_id. unfold is_u32.
  pose proof (Z.mod_pos_bound (u32 v) (2 ^ 24)). lia.
Qed.

Lemma u32_append_high v e f : 0 <= f < 4 → 0 <= e < 256 → u32 v < 2 ^ (8 * f) → u32 (jor v (shl e (8 * f))) = u32 v + e * 2 ^ (8 * f).
Proof using.
  intros Hf He Hv. pose proof (u32_range v) as Hr. unfold is_u32 in Hr. rewrite u32_jor, u32_shl, (u32_id e) by (unfold is_u32; lia).
  assert (0 < 2 ^ (8 * f)) as Hpos by (apply Z.pow_pos_nonneg; lia).
  assert (e * 2 ^ (8 * f) < 2 ^ 32) as Hlt.
  { apply Z.lt_le_trans with (2 ^ 8 * 2 ^ (8 * f)); [nia|]. rewrite <- Z.pow_add_r by lia. apply Z.pow_le_mono_r; lia. }
  rewrite (u32_id (e * 2 ^ (8 * f))) by (unfold is_u32; nia). apply lor_add; lia.
Qed.

(** A byte of a stream is there, or the stream ends. *)
Lemma stream_step l p a : Forall (fun x => 0 <= x < 256) l → stream_at l p a → 0 <= p →
  (p < zlength l ∧ ∃ x a', l !! Z.to_nat p = Some x ∧ 0 <= x < 256 ∧ xz a = (x, a') ∧ vz a' = false ∧ stream_at l (p + 1) a') ∨
  (zlength l <= p ∧ ∃ e a', xz a = (e, a') ∧ vz a' = true).
Proof using HS.
  intros Hl [<- <-] Hp. destruct (Z.lt_ge_cases (pos a) (zlength (bytes_of a))) as [Hlt|Hge].
  - left. split; [done|]. destruct (zlookup_is_Some (bytes_of a) (pos a) ltac:(lia)) as [x Hx].
    destruct (bs_byte a x Hl Hx) as (a' & H1 & H2 & H3 & H4). assert (bytes_of a !! Z.to_nat (pos a) = Some x) as Hn.
    { unfold zlookup in Hx. by destruct (Z.leb_spec 0 (pos a)); [|lia]. }
    pose proof (proj1 (Forall_lookup _ _) Hl _ _ Hn) as Hxr. exists x, a'. split; [done|]. split; [exact Hxr|]. split; [done|]. by split.
  - right. split; [done|]. destruct (bs_end a Hge) as (e & a' & H1 & H2 & _). by exists e, a'.
Qed.

Lemma be_congr v v' l : u32 v = u32 v' → u32 (foldl (fun v x => v * 256 + x) v l) = u32 (foldl (fun v x => v * 256 + x) v' l).
Proof using.
  revert v v'. induction l as [|x l IH]; intros v v' Hv; [done|]. cbn [foldl]. apply IH.
  by rewrite <- (u32_add_l (v * 256)), <- (u32_mul_l v), Hv, u32_mul_l, u32_add_l.
Qed.

Lemma slice_step l p n x : 0 <= p → l !! Z.to_nat p = Some x → slice l (Z.to_nat p) (S n) = x :: slice l (Z.to_nat (p + 1)) n.
Proof using. intros Hp Hx. unfold slice. rewrite (drop_S l x _ Hx). by replace (Z.to_nat (p + 1)) with (S (Z.to_nat p)) by lia. Qed.

Lemma Cn_loop_spec l n p v a : Forall (fun x => 0 <= x < 256) l → stream_at l p a → 0 <= p →
  if p + Z.of_nat n <=? zlength l
  then ∃ v' a', Cn_loop xz vz n v a = (Some v', a') ∧ stream_at l (p + Z.of_nat n) a' ∧ u32 v' = u32 (foldl (fun v x => v * 256 + x) v (slice l (Z.to_nat p) n))
  else ((0 < n)%nat → (Cn_loop xz vz n v a).1 = None).
Proof using HS.
  intros Hl. revert p v a. induction n as [|n IH]; intros p v a Ha Hp.
  { destruct (_ <=? _); [|lia]. exists v, a. rewrite Z.add_0_r. done. }
  cbn [Cn_loop]. destruct (stream_step l p a Hl Ha Hp) as [(Hlt & x & a' & Hx & Hxr & -> & -> & Ha')|(Hge & e & a' & -> & ->)].
  - specialize (IH (p + 1) (jor (shl v 8) x) a' Ha' ltac:(lia)). replace (p + 1 + Z.of_nat n) with (p + Z.of_nat (S n)) in IH by lia.
    destruct (Z.leb_spec (p + Z.of_nat (S n)) (zlength l)).
    + destruct IH as (v' & a2 & H1 & H2 & H3). exists v', a2. split_and!; [done..|]. rewrite H3, (slice_step l p n x Hp Hx). cbn [foldl].
      apply be_congr. by apply u32_append_low.
    + intros _. apply IH. lia.
  - destruct (Z.leb_spec (p + Z.of_nat (S n)) (zlength l)); [lia|]. done.
Qed.

Lemma Bn_loop_spec l n f p v a : Forall (fun x => 0 <= x < 256) l → stream_at l p a → 0 <= p → 0 <= f → f + Z.of_nat n <= 4 → u32 v < 2 ^ (8 * f) →
  if p + Z.of_nat n <=? zlength l
  then ∃ v' a', Bn_loop xz vz n f v a = (Some v', a') ∧ stream_at l (p + Z.of_nat n) a' ∧ u32 v' = u32 v + 2 ^ (8 * f) * le_value (slice l (Z.to_nat p) n)
  else ((0 < n)%nat → (Bn_loop xz vz n f v a).1 = None).
Proof using HS.
  intros Hl. revert f p v a. induction n as [|n IH]; intros f p v a Ha Hp Hf Hn Hv.
  { destruct (_ <=? _); [|lia]. exists v, a. rewrite Z.add_0_r. unfold slice. rewrite take_0. cbn [le_value]. split_and!; [done..|lia]. }
  cbn [Bn_loop]. destruct (stream_step l p a Hl Ha Hp) as [(Hlt & x & a' & Hx & Hxr & -> & -> & Ha')|(Hge & e & a' & -> & ->)].
  - assert (shl f 3 = 8 * f) as ->.
    { unfold shl. rewrite (i32_id f) by (unfold is_i32; lia). change (Z.land 3 31) with 3. rewrite Z.shiftl_mul_pow2 by lia. rewrite i32_id by (unfold is_i32; lia). lia. }
    pose proof (u32_append_high v x f ltac:(lia) Hxr Hv) as Hu. rewrite (i32_id (f + 1)) by (unfold is_i32; lia).
    assert (2 ^ (8 * (f + 1)) = 256 * 2 ^ (8 * f)) as Hpow by (replace (8 * (f + 1)) with (8 + 8 * f) by lia; rewrite Z.pow_add_r by lia; done).
    specialize (IH (f + 1) (p + 1) (jor v (shl x (8 * f))) a' Ha' ltac:(lia) ltac:(lia) ltac:(lia) ltac:(rewrite Hu, Hpow; nia)).
    replace (p + 1 + Z.of_nat n) with (p + Z.of_nat (S n)) in IH by lia.
    destruct (Z.leb_spec (p + Z.of_nat (S n)) (zlength l)).
    + destruct IH as (v' & a2 & H1 & H2 & H3). exists v', a2. split_and!; [done..|]. rewrite H3, Hu, Hpow, (slice_step l p n x Hp Hx). cbn [le_value]. lia.
    + intros _. apply IH. lia.
  - destruct (Z.leb_spec (p + Z.of_nat (S n)) (zlength l)); [lia|]. done.
Qed.

Lemma seek_at l p a : bytes_of a = l → 0 <= p → stream_at l p (Hz a p 0).
Proof using HS. intros <- Hp. destruct (bs_seek a p Hp) as [H1 H2]. by split. Qed.

Lemma be_bound l v : Forall (fun x => 0 <= x < 256) l → 0 <= v →
  0 <= foldl (fun v x => v * 256 + x) v l < (v + 1) * 2 ^ (8 * Z.of_nat (length l)).
Proof using.
  intros Hl. revert v. induction Hl as [|x l Hx _ IH]; intros v Hv; cbn [foldl length]; [change (8 * Z.of_nat 0) with 0; lia|].
  specialize (IH (v * 256 + x) ltac:(lia)). replace (8 * Z.of_nat (S (length l))) with (8 + 8 * Z.of_nat (length l)) by lia.
  rewrite Z.pow_add_r by lia. change (2 ^ 8) with 256. pose proof (Z.pow_pos_nonneg 2 (8 * Z.of_nat (length l))). nia.
Qed.

Lemma slice_bytes l p n : Forall (fun x => 0 <= x < 256) l → Forall (fun x => 0 <= x < 256) (slice l p n) ∧ (length (slice l p n) <= n)%nat.
Proof using. intros Hl. unfold slice. split; [by apply Forall_take, Forall_drop|]. rewrite length_take. lia. Qed.

Lemma le_small l : Forall (fun x => 0 <= x < 256) l → (length l <= 2)%nat → 0 <= le_value l < 65536.
Proof using.
  intros Hl Hn. destruct l as [|x [|y [|z l]]]; cbn [length] in Hn; try lia; repeat apply Forall_cons in Hl as [? Hl]; cbn [le_value]; lia.
Qed.

Lemma be_small l : Forall (fun x => 0 <= x < 256) l → (length l <= 4)%nat → is_u32 (be_value l).
Proof using.
  intros Hl Hn. pose proof (be_bound l 0 Hl ltac:(lia)) as Hb. unfold is_u32, be_value. split; [lia|]. apply Z.lt_le_trans with (2 ^ (8 * Z.of_nat (length l))); [lia|].
  apply Z.pow_le_mono_r; lia.
Qed.

(** Two numbers of [n] bytes from [p] on. *)
Lemma two_be l p n a : Forall (fun x => 0 <= x < 256) l → bytes_of a = l → 0 <= p → 1 <= n <= 4 →
  if p + 2 * n <=? zlength l
  then ∃ w h a', both (Cn xz vz (Hz a p 0) n) (fun a => Cn xz vz a n) = (Some (w, h), a') ∧
    u32 w = be_value (slice l (Z.to_nat p) (Z.to_nat n)) ∧ u32 h = be_value (slice l (Z.to_nat (p + n)) (Z.to_nat n))
  else (both (Cn xz vz (Hz a p 0) n) (fun a => Cn xz vz a n)).1 = None.
Proof using HS.
  intros Hl Ha Hp Hn. pose proof (seek_at l p a Ha Hp) as H0. unfold Cn. rewrite !(u32_id n) by (unfold is_u32; lia).
  pose proof (Cn_loop_spec l (Z.to_nat n) p 0 _ Hl H0 Hp) as H1. rewrite Z2Nat.id in H1 by lia.
  destruct (slice_bytes l (Z.to_nat p) (Z.to_nat n) Hl) as [F1 L1], (slice_bytes l (Z.to_nat (p + n)) (Z.to_nat n) Hl) as [F2 L2].
  destruct (Z.leb_spec (p + n) (zlength l)).
  - destruct H1 as (w & a1 & H1 & S1 & V1). pose proof (Cn_loop_spec l (Z.to_nat n) (p + n) 0 _ Hl S1 ltac:(lia)) as H2. rewrite Z2Nat.id in H2 by lia.
    replace (p + n + n) with (p + 2 * n) in H2 by lia. unfold both. rewrite H1. destruct (Z.leb_spec (p + 2 * n) (zlength l)).
    + destruct H2 as (h & a2 & H2 & S2 & V2). rewrite H2. exists w, h, a2. split; [done|]. fold (be_value (slice l (Z.to_nat p) (Z.to_nat n))) in V1.
      fold (be_value (slice l (Z.to_nat (p + n)) (Z.to_nat n))) in V2. rewrite V1, V2, !u32_id; [done|apply be_small; [done|lia]..].
    + specialize (H2 ltac:(lia)). destruct (Cn_loop _ _ _ _ a1) as [[?|] ?]; done.
  - specialize (H1 ltac:(lia)). destruct (Z.leb_spec (p + 2 * n) (zlength l)); [lia|]. unfold both.
    destruct (Cn_loop _ _ _ _ (Hz a p 0)) as [[?|] ?]; done.
Qed.

Lemma two_le l p a : Forall (fun x => 0 <= x < 256) l → stream_at l p a → 0 <= p →
  if p + 4 <=? zlength l
  then ∃ w h a', both (Bn xz vz a 2) (fun a => Bn xz vz a 2) = (Some (w, h), a') ∧ stream_at l (p + 4) a' ∧
    u32 w = le_value (slice l (Z.to_nat p) 2) ∧ u32 h = le_value (slice l (Z.to_nat (p + 2)) 2)
  else (both (Bn xz vz a 2) (fun a => Bn xz vz a 2)).1 = None.
Proof using HS.
  intros Hl Ha Hp. unfold Bn. change (Z.to_nat (u32 2)) with 2%nat.
  pose proof (Bn_loop_spec l 2 0 p 0 a Hl Ha Hp ltac:(lia) ltac:(lia) ltac:(done)) as H1. change (Z.of_nat 2) with 2 in H1.
  destruct (Z.leb_spec (p + 2) (zlength l)).
  - destruct H1 as (w & a1 & H1 & S1 & V1). pose proof (Bn_loop_spec l 2 0 (p + 2) 0 a1 Hl S1 ltac:(lia) ltac:(lia) ltac:(lia) ltac:(done)) as H2.
    change (Z.of_nat 2) with 2 in H2. replace (p + 2 + 2) with (p + 4) in H2 by lia. unfold both. rewrite H1. destruct (Z.leb_spec (p + 4) (zlength l)).
    + destruct H2 as (h & a2 & H2 & S2 & V2). rewrite H2. exists w, h, a2. split; [done|]. split; [done|].
      change (u32 0) with 0 in *. change (2 ^ (8 * 0)) with 1 in *. rewrite V1, V2. lia.
    + specialize (H2 ltac:(lia)). destruct (Bn_loop _ _ _ _ _ a1) as [[?|] ?]; done.
  - specialize (H1 ltac:(lia)). destruct (Z.leb_spec (p + 4) (zlength l)); [lia|]. unfold both. destruct (Bn_loop _ _ _ _ _ a) as [[?|] ?]; done.
Qed.

Lemma u32_words x y : 0 <= u32 x < 65536 → 0 <= u32 y < 65536 → u32 (jor (shl x 16) y) = u32 x * 65536 + u32 y.
Proof using.
  intros Hx Hy. rewrite u32_jor, u32_shl by lia. rewrite (u32_id (u32 x * 2 ^ 16)) by (unfold is_u32; lia). rewrite Z.lor_comm, lor_add by lia. lia.
Qed.

(** Widths and heights of images, from the bytes of their headers; files that are
    too short give none. *)
Theorem image_sizes l a : Forall (fun x => 0 <= x < 256) l → bytes_of a = l →
  (if 10 <=? zlength l then ∃ w h, gif_size xz vz Hz a = Some (w, h) ∧ u32 w = le_value (slice l 6 2) ∧ u32 h = le_value (slice l 8 2)
   else gif_size xz vz Hz a = None) ∧
  (if 24 <=? zlength l then ∃ w h, png_size xz vz Hz a = Some (w, h) ∧ u32 w = be_value (slice l 16 4) ∧ u32 h = be_value (slice l 20 4)
   else png_size xz vz Hz a = None) ∧
  (if 24 <=? zlength l then ∃ w h, bmp_size xz vz Hz a = Some (w, h) ∧
     u32 w = le_value (slice l 16 2) * 65536 + le_value (slice l 18 2) ∧ u32 h = le_value (slice l 20 2) * 65536 + le_value (slice l 22 2)
   else bmp_size xz vz Hz a = None).
Proof using HS.
  intros Hl Ha. split_and!.
  - pose proof (two_le l 6 _ Hl (seek_at l 6 a Ha ltac:(lia)) ltac:(lia)) as H. unfold gif_size. change (6 + 4) with 10 in H.
    destruct (10 <=? zlength l); [|done]. destruct H as (w & h & a' & -> & _ & H1 & H2). by exists w, h.
  - pose proof (two_be l 16 4 a Hl Ha ltac:(lia) ltac:(lia)) as H. unfold png_size. change (16 + 2 * 4) with 24 in H.
    destruct (24 <=? zlength l); [|done]. destruct H as (w & h & a' & -> & H1 & H2). by exists w, h.
  - pose proof (two_le l 16 _ Hl (seek_at l 16 a Ha ltac:(lia)) ltac:(lia)) as H. unfold bmp_size.
    destruct (both (Bn xz vz (Hz a 16 0) 2) _) as [[[xh xl]|] a1].
    + destruct (Z.leb_spec (16 + 4) (zlength l)) as [Hle|Hlt]; [|done]. destruct H as (w & h & a' & [= <- <- <-] & S1 & H1 & H2).
      pose proof (two_le l 20 a1 Hl S1 ltac:(lia)) as H'. change (20 + 4) with 24 in H'. destruct (Z.leb_spec 24 (zlength l)).
      * destruct H' as (w' & h' & a2 & -> & _ & H3 & H4). eexists _, _. split; [reflexivity|].
        assert (∀ p, 0 <= le_value (slice l p 2) < 65536) as Hs by (intros p; destruct (slice_bytes l p 2 Hl); by apply le_small).
        rewrite !u32_words by (rewrite ?H1, ?H2, ?H3, ?H4; apply Hs). rewrite H1, H2, H3, H4. done.
      * by destruct (both (Bn xz vz a1 2) _) as [[[? ?]|] ?].
    + destruct (Z.leb_spec (16 + 4) (zlength l)) as [Hle|Hlt]; [by destruct H as (w & h & a' & [=] & _)|].
      destruct (Z.leb_spec 24 (zlength l)); [lia|done].
Qed.
End Facts.

(** A file in memory. *)
Record list_stream : Type := mkListStream { ls_bytes : list Z; ls_pos : Z; ls_eof : bool }.
Definition ls_getc (a : list_stream) : Z * list_stream :=
  match zlookup (ls_bytes a) (ls_pos a) with
  | Some x => (x, mkListStream (ls_bytes a) (ls_pos a + 1) false)
  | None => (-1, mkListStream (ls_bytes a) (ls_pos a) true)
  end.
Definition ls_seek (a : list_stream) (off whence : Z) : list_stream :=
  mkListStream (ls_bytes a) (if whence =? 0 then off else ls_pos a + off) false.

#[export] Instance list_byte_stream : ByteStream ls_getc ls_eof ls_seek ls_bytes ls_pos.
Proof.
  split.
  - intros a x _ Hx. unfold ls_getc. rewrite Hx. eexists. split; [reflexivity|]. done.
  - intros a Hp. unfold ls_getc. destruct (zlookup _ _) as [x|] eqn:Hx; [apply zlookup_Some_lt in Hx; lia|]. eexists _, _. split; [reflexivity|]. done.
  - done.
Qed.

(** The upper half of a BMP's width is taken for the upper half of its height: a
    bitmap 65536 wide and 1 high is reported as 0 wide and 65537 high. *)
Theorem wide_bitmap_misread :
  bmp_size ls_getc ls_eof ls_seek
    (mkListStream ([66; 77] ++ replicate 12 0 ++ [40; 0; 0; 0] ++ [0; 0; 1; 0] ++ [1; 0; 0; 0] ++ [1; 0; 24; 0]) 0 false) = Some (0, 65537).
Proof. reflexivity. Qed.
