(* ===== verification/VizPreload.v ===== *)
(** * Preloaded files

    What the plugins that preload images and sounds compute ([Tc], [Yc]): which
    files they take, the types they give them, and the base64 text of a sound the
    browser cannot decode otherwise. *)

From Stdlib Require Import ZArith Lia.
From stdpp Require Import base list strings.
From S2P Require Import Prelude VizRuntime VizFacts VizInt64 VizInt64Facts VizImage.

Open Scope Z_scope.

(** ** Types *)

Definition period : Z := 46.

(** [a.substr(a.lastIndexOf(".")+1)]. *)
Fixpoint extension_loop (a best : jsstr) : jsstr :=
  match a with [] => best | c :: a' => extension_loop a' (if c =? period then a' else best) end.
Definition extension (a : jsstr) : jsstr := extension_loop a a.

Definition mime_types : list (string * string) :=
  [("jpg", "image/jpeg"); ("jpeg", "image/jpeg"); ("png", "image/png"); ("bmp", "image/bmp"); ("ogg", "audio/ogg");
   ("wav", "audio/wav"); ("mp3", "audio/mpeg")]%string.

Fixpoint find_type (l : list (string * string)) (a : jsstr) : option string :=
  match l with [] => None | (e, t) :: l' => if bool_decide (js e = a) then Some t else find_type l' a end.

(** [Yc]: the lookup in the object literal, for extensions that are no members of [Object.prototype]. *)
Definition Yc (a : jsstr) : option string := find_type mime_types (extension a).

(** *** Which files the plugins take *)

Definition fold_case (c : Z) : Z := if (65 <=? c) && (c <=? 90) then c + 32 else c.
Definition ends_with (s suffix : jsstr) : bool := bool_decide (drop (length s - length suffix) s = suffix).

(** [!e.Pa&&/\.(jpg|jpeg|png|bmp)$/i.test(a)]: the pattern ends at the end of the
    name, letters count without their case. *)
Definition image_extensions : list string := [".jpg"; ".jpeg"; ".png"; ".bmp"]%string.
Definition image_canHandle (Pa : bool) (a : jsstr) : bool :=
  negb Pa && existsb (fun x => ends_with (map fold_case a) (js x)) image_extensions.

(** [!e.Kd&&a.substr(-4)in{".ogg":1,".wav":1,".mp3":1}]. *)
Definition sound_extensions : list string := [".ogg"; ".wav"; ".mp3"]%string.
Definition sound_canHandle (Kd : bool) (a : jsstr) : bool :=
  negb Kd && existsb (fun x => bool_decide (drop (length a - 4) a = js x)) sound_extensions.

(** ** Base64 *)

Definition alphabet : list Z := js "ABCDEFGHIJKLMNOPQRSTUVWXYZabcdefghijklmnopqrstuvwxyz0123456789+/".
Definition digit (t : Z) : list Z := match alphabet !! Z.to_nat t with Some c => [c] | None => [] end.

(** [for(...;6<=k;)var t=g>>k-6&63,k=k-6,c=c+"..."[t]]; with the at most twelve bits
    there are it runs at most twice. *)
Fixpoint b64_emit (n : nat) (g k : Z) (c : list Z) : Z * list Z :=
  match n with
  | O => (k, c)
  | S n' => if 6 <=? k then b64_emit n' g (k - 6) (c ++ digit (jand (shr g (k - 6)) 63)) else (k, c)
  end.

(** The loop over the bytes: [g=g<<8|a[r],k+=8]. *)
Fixpoint b64_loop (a : list Z) (g k : Z) (c : list Z) : Z * Z * list Z :=
  match a with
  | [] => (g, k, c)
  | x :: a' =>
      let g := jor (shl g 8) x in
      let '(k, c) := b64_emit 2 g (k + 8) c in
      b64_loop a' g k c
  end.

(** What is left: [2==k?...:4==k&&...]. *)
Definition b64 (a : list Z) : list Z :=
  let '(g, k, c) := b64_loop a 0 0 [] in
  if k =? 2 then c ++ digit (shl (jand g 3) 4) ++ js "=="
  else if k =? 4 then c ++ digit (shl (jand g 15) 2) ++ js "="
  else c.

(** ** The encoding by groups of three bytes, and back *)

Fixpoint encode (a : list Z) : list Z :=
  match a with
  | x :: y :: z :: a' => digit (x / 4) ++ digit (x mod 4 * 16 + y / 16) ++ digit (y mod 16 * 4 + z / 64) ++ digit (z mod 64) ++ encode a'
  | [x; y] => digit (x / 4) ++ digit (x mod 4 * 16 + y / 16) ++ digit (y mod 16 * 4) ++ js "="
  | [x] => digit (x / 4) ++ digit (x mod 4 * 16) ++ js "=="
  | [] => []
  end.

Fixpoint index_of (c : Z) (l : list Z) (i : Z) : option Z :=
  match l with [] => None | d :: l' => if d =? c then Some i else index_of c l' (i + 1) end.
Definition value (c : Z) : option Z := index_of c alphabet 0.

Definition equals : Z := 61.

Fixpoint decode (n : nat) (s : list Z) : option (list Z) :=
  match n, s with
  | S n', c1 :: c2 :: c3 :: c4 :: s' =>
      v1 ← value c1; v2 ← value c2;
      if (c4 =? equals) then
        if c3 =? equals then Some [v1 * 4 + v2 / 16]
        else v3 ← value c3; Some [v1 * 4 + v2 / 16; v2 mod 16 * 16 + v3 / 4]
      else
        v3 ← value c3; v4 ← value c4;
        r ← decode n' s';
        Some (v1 * 4 + v2 / 16 :: v2 mod 16 * 16 + v3 / 4 :: v3 mod 4 * 64 + v4 :: r)
  | _, [] => Some []
  | _, _ => None
  end.

Definition is_byte (x : Z) : Prop := 0 <= x < 256.

(** The digits below 64 are characters of the alphabet, and are found there. *)
Lemma digit_value t : 0 <= t < 64 → ∃ c, digit t = [c] ∧ value c = Some t ∧ (c =? equals) = false.
Proof.
  intros Ht. assert (Forall (fun n => match digit (Z.of_nat n) with
    | [c] => bool_decide (value c = Some (Z.of_nat n)) && negb (c =? equals) | _ => false end = true) (seq 0 64)) as H.
  { apply Forall_forall. intros n Hn. apply list_elem_of_In in Hn. revert n Hn. apply forallb_forall. vm_compute. reflexivity. }
  rewrite Forall_forall in H. specialize (H (Z.to_nat t)). rewrite Z2Nat.id in H by lia.
  assert (Z.to_nat t ∈ seq 0 64) as Hin by (apply elem_of_seq; lia). specialize (H Hin).
  destruct (digit t) as [|c [|]]; try done. exists c. apply andb_prop in H as [H1 H2]. apply bool_decide_eq_true in H1.
  split; [done|]. split; [done|]. by destruct (c =? equals).
Qed.

(** The decoder undoes the encoding. *)
Lemma decode_encode a n : Forall is_byte a → (length a <= n)%nat → decode n (encode a) = Some a.
Proof.
  revert a. induction n as [|n IH]; intros a Ha Hn; [by destruct a; [|simpl in Hn; lia]|].
  destruct a as [|x [|y [|z a]]]; [done| | |]; repeat (apply Forall_cons in Ha as [? Ha]); unfold is_byte in *.
  - destruct (digit_value (x / 4)) as (c1 & E1 & V1 & _); [Z.div_mod_to_equations; lia|].
    destruct (digit_value (x mod 4 * 16)) as (c2 & E2 & V2 & _); [Z.div_mod_to_equations; lia|].
    cbn [encode]. rewrite E1, E2. cbn [app js]. cbn [decode]. simpl. rewrite V1, V2. simpl. do 2 f_equal. Z.div_mod_to_equations. lia.
  - destruct (digit_value (x / 4)) as (c1 & E1 & V1 & _); [Z.div_mod_to_equations; lia|].
    destruct (digit_value (x mod 4 * 16 + y / 16)) as (c2 & E2 & V2 & _); [Z.div_mod_to_equations; lia|].
    destruct (digit_value (y mod 16 * 4)) as (c3 & E3 & V3 & N3); [Z.div_mod_to_equations; lia|].
    cbn [encode]. rewrite E1, E2, E3. simpl. rewrite V1, V2, N3, V3. simpl. do 2 f_equal; [|f_equal]; Z.div_mod_to_equations; lia.
  - destruct (digit_value (x / 4)) as (c1 & E1 & V1 & _); [Z.div_mod_to_equations; lia|].
    destruct (digit_value (x mod 4 * 16 + y / 16)) as (c2 & E2 & V2 & _); [Z.div_mod_to_equations; lia|].
    destruct (digit_value (y mod 16 * 4 + z / 64)) as (c3 & E3 & V3 & N3); [Z.div_mod_to_equations; lia|].
    destruct (digit_value (z mod 64)) as (c4 & E4 & V4 & N4); [Z.div_mod_to_equations; lia|].
    cbn [encode]. rewrite E1, E2, E3, E4. cbn [app decode]. rewrite V1, V2, N4, V3, V4. cbn [mbind option_bind].
    rewrite IH by (done || (simpl in Hn; lia)). cbn [mbind option_bind]. do 2 f_equal; [|f_equal; [|f_equal]]; Z.div_mod_to_equations; lia.
Qed.

(** Bits of a number that only counts modulo 2^32. *)
Lemma bits_congr a b m j : u32 a = u32 b → 0 <= m → 0 <= j → m + j <= 32 → (a / 2 ^ m) mod 2 ^ j = (b / 2 ^ m) mod 2 ^ j.
Proof.
  intros Hu Hm Hj Hmj. assert (∀ v, (v / 2 ^ m) mod 2 ^ j = (u32 v / 2 ^ m) mod 2 ^ j) as H; [|by rewrite H, Hu, <- H].
  intros v. rewrite <- !Z.shiftr_div_pow2, <- !Z.land_ones by lia. apply Z.bits_inj'. intros n Hn. rewrite !Z.land_spec, !Z.shiftr_spec by lia.
  destruct (Z.lt_ge_cases n j); [|by rewrite Z.ones_spec_high, !andb_false_r by lia]. unfold u32. by rewrite Z.mod_pow2_bits_low by lia.
Qed.

Lemma sextet g m : 0 <= m <= 26 → jand (shr g m) 63 = (g / 2 ^ m) mod 64.
Proof.
  intros Hm. unfold jand, shr. change 64 with (2 ^ 6).
  assert (Z.land m 31 = m) as -> by (change 31 with (Z.ones 5); rewrite Z.land_ones by lia; apply Z.mod_small; lia).
  change (i32 63) with (Z.ones 6). rewrite Z.land_ones, Z.shiftr_div_pow2 by lia.
  rewrite <- (Z.div_1_r (i32 _)). change 1 with (2 ^ 0) at 1. rewrite (bits_congr _ (i32 g / 2 ^ m) 0 6) by (try apply u32_i32; lia).
  change (2 ^ 0) with 1. rewrite Z.div_1_r. apply bits_congr; [apply u32_i32|lia..].
Qed.

Lemma low_bits g j : 0 <= j <= 31 → jand g (Z.ones j) = g mod 2 ^ j.
Proof.
  intros Hj. unfold jand. rewrite (i32_id (Z.ones j)).
  - rewrite Z.land_ones by lia. pose proof (bits_congr (i32 g) g 0 j (u32_i32 g)) as H. change (2 ^ 0) with 1 in H. rewrite !Z.div_1_r in H. apply H; lia.
  - unfold is_i32. rewrite Z.ones_equiv. pose proof (Z.pow_pos_nonneg 2 j). pose proof (Z.pow_le_mono_r 2 j 31). lia.
Qed.

(** The bits of the bytes read last. *)
Lemma appended_bits g x m j : is_byte x → 0 <= m → 0 <= j → m + j <= 32 → (jor (shl g 8) x / 2 ^ m) mod 2 ^ j = ((g * 256 + x) / 2 ^ m) mod 2 ^ j.
Proof. intros Hx Hm Hj Hmj. apply bits_congr; [by apply u32_append_low|lia..]. Qed.

(** One byte after the other. *)
Lemma byte1 g x c : is_byte x → b64_emit 2 (jor (shl g 8) x) 8 c = (2, c ++ digit (x / 4)).
Proof.
  intros Hx. cbn [b64_emit Z.leb Z.sub]. change (8 - 6) with 2. cbn. rewrite sextet by lia. change 64 with (2 ^ 6). rewrite appended_bits by (done || lia).
  unfold is_byte in Hx. do 3 f_equal. change (2 ^ 6) with 64. change (2 ^ 2) with 4. Z.div_mod_to_equations. lia.
Qed.

Lemma byte2 g x y c : is_byte x → is_byte y → b64_emit 2 (jor (shl (jor (shl g 8) x) 8) y) 10 c = (4, c ++ digit (x mod 4 * 16 + y / 16)).
Proof.
  intros Hx Hy. cbn [b64_emit]. change (6 <=? 10) with true. change (10 - 6) with 4. change (6 <=? 4) with false. cbn [negb]. rewrite sextet by lia.
  change 64 with (2 ^ 6). rewrite appended_bits by (done || lia). unfold is_byte in *. do 3 f_equal.
  pose proof (appended_bits g x 0 2 Hx ltac:(lia) ltac:(lia) ltac:(lia)) as H. change (2 ^ 0) with 1 in H. rewrite !Z.div_1_r in H. change (2 ^ 2) with 4 in H.
  change (2 ^ 6) with 64. change (2 ^ 4) with 16. Z.div_mod_to_equations. lia.
Qed.

Lemma last_byte g x j : is_byte x → 0 <= j <= 8 → jor (shl g 8) x mod 2 ^ j = x mod 2 ^ j.
Proof.
  intros Hx Hj. pose proof (appended_bits g x 0 j Hx ltac:(lia) ltac:(lia) ltac:(lia)) as H. change (2 ^ 0) with 1 in H. rewrite !Z.div_1_r in H.
  rewrite H. replace (g * 256) with (g * 2 ^ (8 - j) * 2 ^ j) by (rewrite <- Z.mul_assoc, <- Z.pow_add_r by lia; by replace (8 - j + j) with 8 by lia).
  rewrite Z.add_comm. apply Z.mod_add. apply Z.pow_nonzero; lia.
Qed.

Lemma byte3 v y z c : is_byte z → v mod 16 = y mod 16 → b64_emit 2 (jor (shl v 8) z) 12 c = (0, c ++ digit (y mod 16 * 4 + z / 64) ++ digit (z mod 64)).
Proof.
  intros Hz Hv. cbn [b64_emit]. change (6 <=? 12) with true. change (12 - 6) with 6. change (6 <=? 6) with true. change (6 - 6) with 0. cbn [negb].
  rewrite !sextet by lia. rewrite <- app_assoc.
  pose proof (appended_bits v z 6 6 Hz ltac:(lia) ltac:(lia) ltac:(lia)) as H1. pose proof (last_byte v z 6 Hz ltac:(lia)) as H2.
  change (2 ^ 6) with 64 in *. change (2 ^ 0) with 1. rewrite Z.div_1_r, H1, H2. unfold is_byte in *. clear H1 H2.
  do 4 f_equal. Z.div_mod_to_equations. lia.
Qed.

(** The whole text, from any state with no bits left. *)
Lemma b64_groups n a g c : (length a <= n)%nat → Forall is_byte a →
  (let '(g, k, c) := b64_loop a g 0 c in
   if k =? 2 then c ++ digit (shl (jand g 3) 4) ++ js "=="
   else if k =? 4 then c ++ digit (shl (jand g 15) 2) ++ js "=" else c) = c ++ encode a.
Proof.
  revert a g c. induction n as [|n IH]; intros a g c Hn Ha; [destruct a; [by rewrite app_nil_r|simpl in Hn; lia]|].
  destruct a as [|x [|y [|z a]]]; [by rewrite app_nil_r| | |]; repeat (apply Forall_cons in Ha as [? Ha]); cbn [b64_loop encode].
  - change (0 + 8) with 8. rewrite byte1 by done. change (2 =? 2) with true. cbn iota. change 3 with (Z.ones 2). rewrite low_bits, last_byte by (done || lia).
    rewrite <- app_assoc. do 3 f_equal. unfold is_byte in *. change (2 ^ 2) with 4. unfold shl. change (Z.land 4 31) with 4.
    assert (0 <= x mod 4 < 4) by (apply Z.mod_pos_bound; lia). rewrite (i32_id (x mod 4)), Z.shiftl_mul_pow2, i32_id by (unfold is_i32; lia). done.
  - change (0 + 8) with 8. rewrite byte1 by done. change (2 + 8) with 10. rewrite byte2 by done. change (4 =? 2) with false. change (4 =? 4) with true. cbn iota.
    change 15 with (Z.ones 4). rewrite low_bits, last_byte by (done || lia). rewrite <- !app_assoc. do 4 f_equal. unfold is_byte in *. change (2 ^ 4) with 16.
    unfold shl. change (Z.land 2 31) with 2. assert (0 <= y mod 16 < 16) by (apply Z.mod_pos_bound; lia).
    rewrite (i32_id (y mod 16)), Z.shiftl_mul_pow2, i32_id by (unfold is_i32; lia). done.
  - change (0 + 8) with 8. rewrite byte1 by done. change (2 + 8) with 10. rewrite byte2 by done. change (4 + 8) with 12.
    rewrite (byte3 _ y z) by (done || (change 16 with (2 ^ 4); apply last_byte; [done|lia])).
    rewrite IH by (done || (simpl in Hn; lia)). by rewrite <- !app_assoc.
Qed.

(** The text is the base64 encoding by groups, and decodes to the bytes. *)
Theorem base64_decodes (a : list Z) : Forall is_byte a → b64 a = encode a ∧ decode (length a) (b64 a) = Some a.
Proof.
  intros Ha. assert (b64 a = encode a) as He by (unfold b64; by apply (b64_groups (length a))).
  split; [done|]. rewrite He. by apply decode_encode.
Qed.

Lemma base64_sample : b64 (js "Mixer") = js "TWl4ZXI=" ∧ Yc (js "/a.b/x.png") = Some "image/png"%string ∧ Yc (js "png") = Some "image/png"%string.
Proof. vm_compute. done. Qed.

(** *** Types of the files taken *)

Lemma extension_loop_app p e best : period ∉ e → extension_loop (p ++ period :: e) best = e.
Proof.
  intros He. revert best. induction p as [|c p IH]; intros best; cbn [app extension_loop]; [|apply IH].
  change (period =? period) with true. cbn iota. generalize e at 2 3 as r. induction e as [|c e IHe]; intros r; [done|].
  apply not_elem_of_cons in He as [Hc He]. cbn [extension_loop]. destruct (Z.eqb_spec c period); [congruence|]. by apply IHe.
Qed.

Lemma extension_suffix a e n : drop n a = period :: e → period ∉ e → extension a = e.
Proof. intros Ha He. rewrite <- (take_drop n a), Ha. unfold extension. by apply extension_loop_app. Qed.

(** A decidable fact about literals, by evaluation. *)
Ltac by_decision := apply (bool_decide_unpack _); vm_compute; exact I.

(** A sound file that is taken has the type of a sound. *)
Lemma sound_typed Kd a : sound_canHandle Kd a = true → ∃ t, Yc a = Some t ∧ t ∈ ["audio/ogg"; "audio/wav"; "audio/mpeg"]%string.
Proof.
  unfold sound_canHandle. intros [_ H]%andb_prop. apply existsb_exists in H as (x & Hx & Ha). apply bool_decide_eq_true in Ha. unfold Yc.
  destruct Hx as [<-|[<-|[<-|[]]]]; erewrite extension_suffix by (exact Ha || by_decision);
    eexists; (split; [vm_compute; reflexivity|by_decision]).
Qed.

(** An image file that is taken has the type of an image when its name has no upper case letters; with them it is
    taken too, and has no type. *)
Lemma image_typed Pa a : image_canHandle Pa a = true → map fold_case a = a → ∃ t, Yc a = Some t ∧ t ∈ ["image/jpeg"; "image/png"; "image/bmp"]%string.
Proof.
  unfold image_canHandle. intros [_ H]%andb_prop Hl. rewrite Hl in H. apply existsb_exists in H as (x & Hx & Ha). apply bool_decide_eq_true in Ha. unfold Yc.
  destruct Hx as [<-|[<-|[<-|[<-|[]]]]]; erewrite extension_suffix by (exact Ha || by_decision);
    eexists; (split; [vm_compute; reflexivity|by_decision]).
Qed.

Lemma upper_case_untyped : image_canHandle false (js "logo.PNG") = true ∧ Yc (js "logo.PNG") = None.
Proof. by vm_compute. Qed.
