(* ===== verification/VizProps.v ===== *)
(** * Properties of the viewer's runtime *)

From Stdlib Require Import ZArith Lia.
From stdpp Require Import base list gmap strings.
From S2P Require Import Prelude VizData VizRuntime VizFacts VizMemory VizColors VizEntities.

Open Scope Z_scope.

(** C8: strings survive the crossing into the object code's memory: encoding a
    string of paired surrogates without zero units fills the whole array, and
    decoding the bytes up to the terminating zero gives the string back. *)
Theorem Xa_Ca_roundtrip (s : jsstr) :
  wf16 s = true → ∃ bs, Xa s false = Some <$> (bs ++ [0]) ∧ Ca (bs ++ [0]) = s.
Proof.
  intros Hs. exists (utf8_bytes (chars (length s) s)). split; [apply (Xa_bytes s false)|].
  unfold Ca. apply Ca_chars; [done|lia|]. rewrite length_app. simpl. lia.
Qed.

Lemma Xa_Ca_roundtrip_witness :
  ∃ bs, Xa [97; 233; 8364; 55348; 56606] false = Some <$> (bs ++ [0]) ∧
    Ca (bs ++ [0]) = [97; 233; 8364; 55348; 56606].
Proof. apply (Xa_Ca_roundtrip [97; 233; 8364; 55348; 56606]). vm_compute. reflexivity. Defined.

(** Paths have normal forms: normalising twice is normalising once; the
    normal form of an absolute path is absolute and never leaves the root (it has
    no empty, dot or dot-dot part); and resolving non-empty paths against each
    other and the root gives an absolute path whose parts are names. *)
Theorem path_normal_forms (a : jsstr) (args : list jsstr) :
  nb (nb a) = nb a ∧
  (starts_slash a = true → starts_slash (nb a) = true ∧ Forall plain (parts (nb a))) ∧
  (Forall (fun x => x ≠ []) args → ∃ ps, Forall plain ps ∧ sb args = slash :: join ps).
Proof. split; [apply nb_idem|]. split; [apply nb_absolute|apply sb_absolute]. Qed.

Lemma path_normal_forms_witness :
  ∃ ps, Forall plain ps ∧ sb [js "/home"; js "../x"; js "y/"] = slash :: join ps.
Proof.
  apply (path_normal_forms [] [js "/home"; js "../x"; js "y/"]). repeat constructor; discriminate.
Defined.

(** The replacements of [Math.imul] and [Math.clz32] compute what the
    functions mean, for all integers: the 32-bit signed product, here from 16-bit
    halves, and the number of leading zeros of the 32-bit pattern. *)
Theorem integer_helpers (a b : Z) :
  imul a b = i32 (a * b) ∧ clz32 a = (if u32 a =? 0 then 32 else 31 - Z.log2 (u32 a)).
Proof. split; [apply imul_spec|apply clz32_spec]. Qed.

(** A stack allocation returns the old top of the stack, leaves at least
    the requested bytes above it and fewer than 16 more, and keeps the top a
    multiple of 16, below two gigabytes. *)
Theorem stack_alloc_aligned (m a : Z) :
  0 <= m → 0 <= a → m + a + 15 < 2 ^ 31 →
  let '(p, m') := stack_alloc m a in p = m ∧ m' mod 16 = 0 ∧ p + a <= m' < p + a + 16.
Proof. apply stack_alloc_spec. Qed.

Lemma stack_alloc_aligned_witness :
  stack_alloc 160 5 = (160, 176) ∧ 160 = 160 ∧ 176 mod 16 = 0 ∧ 160 + 5 <= 176 < 160 + 5 + 16.
Proof.
  split; [vm_compute; reflexivity|]. apply (stack_alloc_aligned 160 5); [lia|lia|vm_compute; reflexivity].
Defined.

(** The memory size the runtime chooses is large enough: starting from 64
    kilobytes the loop ends, within 8 doublings and one step per 16 megabytes
    requested, with at least the requested size and twice the stack. *)
Theorem memory_enough (fuel : nat) (ma Pa : Z) :
  Z.max ma (2 * Pa) <= 16777216 + 16777216 * Z.of_nat fuel →
  let R := memory_loop (8 + fuel) 65536 ma Pa in ma <= R ∧ 2 * Pa <= R ∧ 65536 <= R.
Proof. intros H. by apply memory_doubles. Qed.

Lemma memory_enough_witness :
  memory_loop (8 + 1) 65536 16777216 5242880 = 16777216 ∧
  (let R := memory_loop (8 + 1) 65536 16777216 5242880 in 16777216 <= R ∧ 2 * 5242880 <= R ∧ 65536 <= R).
Proof.
  split; [vm_compute; reflexivity|]. apply (memory_enough 1 16777216 5242880). vm_compute. discriminate.
Defined.

(** The colour table in the static memory is fit for binary search: each of
    its 2491 entries points to a terminated name, the names are strictly
    increasing in [strcmp] order, and the value component of each colour is the
    largest of its RGB components. *)
Theorem colors_searchable :
  (∀ k, 0 <= k < color_count → is_Some (color_name k) ∧ color_ok (color_at static_memory k) = true) ∧
  (∀ j k a b, 0 <= j < k → k < color_count → color_name j = Some a → color_name k = Some b →
     name_lt a b = true).
Proof. apply colors_search. Qed.

Lemma colors_searchable_witness :
  is_Some (color_name 0) ∧ color_ok (color_at static_memory 0) = true.
Proof.
  apply (proj1 colors_searchable 0). split; vm_compute; [discriminate|reflexivity].
Defined.

(** The entity table is fit for binary search too: each of its 252 entries
    points to a terminated name of fewer than 16 characters, the names are
    strictly increasing, and each value is a printable code point below the
    surrogates. *)
Theorem entities_searchable :
  (∀ k, 0 <= k < entity_count → is_Some (entity_name k) ∧ entity_ok (entity_at static_memory k) = true) ∧
  (∀ j k a b, 0 <= j < k → k < entity_count → entity_name j = Some a → entity_name k = Some b →
     name_lt a b = true).
Proof. apply entities_search. Qed.

Lemma entities_searchable_witness :
  is_Some (entity_name 251) ∧ entity_ok (entity_at static_memory 251) = true.
Proof. apply (proj1 entities_searchable 251). split; vm_compute; [discriminate|reflexivity]. Defined.

(** The layout of the static data.  Every segment lies inside the static
    area, is found unchanged in memory once all the calls have run, and no two
    segments overlap; the bytes are bytes. *)
Theorem static_layout (n : nat) (off : Z) (d : list Z) :
  static_calls !! n = Some (off, d) →
  n_q <= n_q + off ∧ n_q + off + zlength d <= static_end ∧
  (∀ j x, zlookup d j = Some x → static_memory (n_q + off + j) = x ∧ 0 <= x < 256) ∧
  (∀ n' off' d', static_calls !! n' = Some (off', d') → n ≠ n' →
     off + zlength d <= off' ∨ off' + zlength d' <= off).
Proof.
  intros H. destruct (in_order_range _ _ _ _ _ _ in_order_static H) as [H1 H2].
  split_and!; [done|done| |].
  - intros j x Hj. split; [exact (static_holds n off d H j x Hj)|]. exact (static_bytes n off d j x H Hj).
  - intros n' off' d' H' Hne. by eapply (in_order_apart _ _ _ n n'); [apply in_order_static|..].
Qed.

Lemma static_layout_witness :
  ∃ d, static_calls !! 15%nat = Some (175088, d) ∧ n_q + 175088 + zlength d <= static_end.
Proof.
  eexists. split; [reflexivity|]. apply (static_layout 15 175088). reflexivity.
Defined.
